(* ===== verification/_CoqProject ===== *)
-Q . S2P
Prelude.v
Identity.v
GoStrings.v
GoUtf8.v
Md5.v
GoJson.v
GoUrl.v
GoNet.v
GoIP.v
GoMap.v
GoFloat.v
InformCodec.v
InformSchedule.v
AtomicFile.v
AdoptionStore.v
AdoptionEnv.v
AdoptionResponse.v
Discovery.v
AdoptionSsh.v
InformClient.v
Daemon.v
Lifecycle.v
Contract.v
Ports.v
Topology.v
TopologyStable.v
PayloadTypes.v
PayloadViews.v
Payload.v
PayloadMarshal.v
PayloadSpec.v
Overrides.v
Observe.v
Rates.v
WanHealth.v
ObserveSources.v
RuntimeConfig.v
RuntimePorts.v
InstanceGuard.v
GoYaml.v
Profiles.v
Settings.v
Startup.v
ConfigMigrate.v
GoAny.v
Lldp.v
Link.v
Opnsense.v
OpnsenseClient.v
JsonText.v
GoStruct.v
Status.v
StatusText.v
RuntimePlan.v
ResponseLog.v
EndToEnd.v
Commands.v
