(* ===== verification/Prelude.v ===== *)
(** * unifi-stubd: a verification library for the UniFi switch stub daemon

    The program announces itself to a UniFi controller as a switch or gateway,
    is adopted over an SSH shim or over the inform protocol, and then sends an
    encrypted status packet ("inform") on a schedule.  What it represents comes
    from a device profile, configured overrides and read-only observation of
    the host.

    ** Parts, and where they are

    The Go files are below [src/internal] unless a path says otherwise.  A file
    of this library requires the ones it calls; none reaches around another's
    interface.

    What the program uses of Go itself:
    - Prelude: bytes as [list byte], literals [B] and [J], the error monad
      [result], 64-bit wrap-around, tactics and the hint database [stub].
    - GoStrings, GoUtf8: [strings], [strconv], [hex], [bufio] lines, UTF-8.
    - GoJson: the byte scanner and decoder of [encoding/json].
    - GoUrl, GoNet, GoIP: [url.Parse], hardware and IP addresses.
    - GoMap: iteration order of maps and [sort.Slice], as parameters with laws.
    - GoFloat, Md5: double precision numbers; RFC 1321.

    The inform protocol:
    - InformCodec ([inform/packet.go], [padding.go], [crypto.go],
      [compression.go], [encode.go], [decode.go]): the packet format.
    - InformClient ([inform/client.go]): one HTTP exchange.
    - InformSchedule ([inform/schedule.go], [controller_clock.go]): intervals,
      backoff, jitter; the clock offset learned from the controller.
    - Discovery ([discovery/tlv.go]): the layer 3 announcement.

    Adoption state:
    - AtomicFile ([atomicfile/write.go]): file replacement over a file system
      with volatile and durable contents; it ends with the class [FileSystem]
      and its implementation by [WriteFile].
    - AdoptionStore ([adoption/state.go], [fields.go], [mgmtcfg.go], part of
      [env.go]): the store, validation, [Merge], the allowlist parser.
    - AdoptionEnv ([adoption/env.go]): loading, saving, resetting the file,
      against [FileSystem].
    - AdoptionResponse ([adoption/response.go], [json.go], [safety.go],
      [blocks.go], [content_blocks.go]): what a controller response may do.
    - AdoptionSsh ([adoptionssh]): the command language of the shim, its
      dispatcher, state updates and sessions.

    The daemon ([src/cmd/unifi-stubd]):
    - Daemon ([inform.go], [adoption.go], [serve_heartbeat.go],
      [serve_presence.go], [inform_schedule.go], [status_persist.go]): one
      heartbeat is [sendInformHeartbeat]; one turn of the loop [presence_turn];
      [presence_run] is the loop of [maintainControllerPresence].
    - Lifecycle: heartbeats, status writes and SSH commands interleaved, as the
      step relation [lifecycle_step].
    - Contract: an abstract adoption register that the loop and the sessions
      refine, and progress of the loop.

    The represented device ([device]) and the host ([observe], [adapters],
    [platform]):
    - Ports ([port_*.go], [ports.go]): building the ports of a profile.
    - Overrides ([override*.go]): per-port overrides and their ordered setters.
    - Topology ([topology.go]): one edge per port out of many neighbor reports.
    - Observe ([observe/classify.go], [snapshot*.go]): merging an observed
      bridge into the ports.
    - ObserveSources: the parsers and readers behind an observation.
    - Rates, WanHealth ([observe/rates.go], [observe/wanhealth]): traffic rates
      and active probes.

    The payload ([device/payload]):
    - Identity ([device/identity.go], [profile_protocol.go],
      [controller_reporting.go], [inform_schedule.go]): what the device says it
      is, and what a controller may see.
    - PayloadTypes, PayloadViews, Payload: the rows and their JSON, the shared
      view of a port, and the documents [Build] makes.
    - PayloadMarshal, PayloadSpec: a document always marshals; what its tables
      promise.

    From the command line to the daemon:
    - GoYaml: documents with anchors.
    - Profiles ([device/profile*.go], [device/registry*.go]): decoding,
      inheritance, defaults, validation and the registry of profiles.
    - Settings ([config/defaults.go], [load.go], [flagvalue], and [settings*.go],
      [flags.go], [config.go] of the command): defaults, file and command line.
    - ConfigMigrate ([config/migrate.go], [migrate_file.go]): old files.
    - RuntimeConfig ([operation_*.go], [management_lan_*.go],
      [serve_validate.go], [serve_prepare.go] of the command): the checks of
      the resolved configuration.
    - Startup ([serve.go], [serve_prepare.go], [serve_identity.go],
      [device_identity.go]): their composition, up to the running daemon.
    - InstanceGuard ([instance_guard.go]): one daemon for one guard file.
    - RuntimePorts ([operation_ports.go], [operation_lldp.go],
      [device_payload.go]): the ports and the payload of one turn.
    - TopologyStable: what LLDP adds to an accepted configuration.
    - JsonText: the text [json.MarshalIndent] writes, and what a decoder reads
      back from it.
    - EndToEnd ([serve.go], [serve_presence.go]): the presence loop of a start,
      with the payload of RuntimePorts, its text and the heartbeat of Daemon.
    - GoAny: JSON values of any type, numbers parsed and printed exactly.
    - GoStruct: [encoding/json] with struct types, both ways.
    - Status ([status_types.go], [status_persist.go], [status_build.go],
      [status_observe.go], [status_neighbors.go], [status_wan_health.go], and
      [platform/capabilities.go]): the status file and the status document.
    - StatusText ([status_human.go], [status.go]): what [--status] prints.
    - RuntimePlan ([operation_plan.go]): what [-dry-run-plan] prints.
    - ResponseLog ([adoption.go]): the log line of a controller response.
    - Commands ([profiles.go], [config_migrate.go], [output.go], [main.go],
      [device/registry_format.go]): the commands that do not serve, the dry run,
      and the output and exit code of every start.
    - Lldp ([platform/lldp.go]): neighbors out of lldpcli's JSON.
    - Link ([platform/link.go]): interface identities, assigned addresses and
      egress links; it implements the address reader of RuntimeConfig.

    The companion for OPNsense firewalls:
    - Opnsense ([opnsense/mapper.go], [config.go], [render.go]): the firewall's
      tables, and the overrides they give under the operator's own.
    - OpnsenseClient ([opnsense/client.go], [secrets.go],
      [src/cmd/unifi-stubd-opnsense]): requests, credentials, the command.

    One heartbeat composes them as the code does: it loads the state
    (AdoptionEnv), picks the key (Daemon), encodes the rendered payload
    (InformCodec), sends it (InformClient), classifies the answer
    (AdoptionResponse), merges and saves the result (AdoptionStore, AdoptionEnv
    over AtomicFile) and asks the schedule for the next delay (InformSchedule).
    A client's theorems use the class of the part it calls: AdoptionEnv, Daemon
    and Contract are proved for every [FileSystem] with [FileSystemLaws], which
    AtomicFile discharges; the codec for every [InformCrypto] with its laws.

    ** What the theorems show

    - The state file: it is replaced atomically whatever call fails and
      wherever power is lost; it reads back as the store that was saved; it
      stays loadable whatever the controller answers, whatever is typed in an
      SSH session, and in every interleaving of the two; and the daemon changes
      it only in the ways [adoption_step] lists.
    - The controller: only allowlisted responses change anything, resource
      limits are exact, a response without an accepted cipher is refused, the
      public default key is never used for an adopted device.
    - The protocol: packets decode to what was encoded in all four modes, the
      parser accepts exactly the encoder's headers, announcements are complete.
    - Time: every delay stays within its configured bounds under int64
      wrap-around; without jitter the backoff is exactly the doubling sequence;
      with working files and a controller within the protocol every turn ends
      in a wait.
    - The device: built ports are well formed, overrides equal one unordered
      merge except for the cases stated, topology and observation do not depend
      on Go's map order where that is claimed, and no client learned behind the
      real uplink is shown on a port.
    - The payload: one row for each port and one interface and network for each
      routed one, totals that agree with the rows, distinct addresses, a clock
      that saturates; every document marshals, and its text reads back as the
      document.
    - The start: command line over file over defaults; profiles that are found
      are valid and keep apart; a daemon that starts from any command line,
      configuration and profile files renders a payload in every turn
      ([started_daemon_serves]), and goes on announcing itself and heartbeating
      ([started_daemon_keeps_serving], over all parts from Settings to Daemon).
    - Old files: a migration loses no value and nothing is left for a second
      one; in every state on the way, also when a call fails, the old document
      is at its path or in a new file.
    - What an operator sees: the status file reads back as the record that was
      saved; neither the status output nor that record nor a payload depends on
      the adoption key, except on whether there is one
      ([authkey_is_never_shown]); a plan shows the topology that was checked; the dry
      run shows what the daemon sends first ([dry_run_is_first_turn]); the log
      line of a response is one line whatever the controller sent; every
      command ends with 0, 1 or 2.
    - Concurrency: two daemons never hold one guard.
    - The host: the address reader says what the interface table says, LLDP
      neighbors are well formed.
    - The companion: it writes the generated configuration of complete answers
      only; the operator's overrides win over the source's mappings and those
      over what the firewall reports; the decoded tables are exact.

    Some theorems are about what the code does and should not: a controller
    can stop an unadopted daemon, an adoption can be lost to a concurrent
    heartbeat, members of a bridge that share a port replace each other, a
    profile file with a cyclic alias never finishes loading, a profile can hide
    another, [-validate] passes settings that the start refuses, a hardware
    address of eight bytes ends the daemon in its first turn, and the companion
    loses the row of a mapping with a capital letter.

    ** Recursion, fuel and numbers

    Most loops over input are structural.  The others run on fuel:
    - the shim's nested [sh -c] commands, with the number of letters [s] in the
      command ([weight]); every nesting uses one up, and [Execute_terminates]
      shows that more fuel changes nothing;
    - the token loops of the JSON decoder, with the length of the input; every
      token takes a byte, and [next_token_length] and [limit_loop_fuel] show
      that they never run out;
    - JSON values of any type, with their length; the parts of a value are
      shorter than it ([decode_any_fuel], [decode_json_text]);
    - the digits of an integer, with its binary logarithm;
    - the digits of a printed float, of which seventeen always suffice;
    - the eight groups of an IPv6 address;
    - the copy of a YAML document, with the number of its anchors as the depth
      of aliases; [cloneYAMLNode_returns] shows that this is enough for every
      document whose copy returns at all.
    The endless loop of the daemon is [presence_run] over a finite list of turns
    of any length.  A Go [int] or [time.Duration]
    is a [Z] with the wrap-around written where the code can reach it.

    ** Not modelled

    - Primitives of libraries: AES, GCM, DEFLATE, TLS, SSH transport, YAML, the
      random sources.  They are parameters, with laws where a theorem needs
      them.
    - In Daemon the text of the status file and the renderer of the payload are
      parameters, which Status and EndToEnd fill in; in InstanceGuard the text
      of the metadata, which Commands gives.
    - The number syntax of package [flag], log output except for that line,
      signals, contexts and time-outs; the text of an error is its constant
      part.
    - The commands that the daemon runs, and the lab tools.
*)

From Stdlib Require Export ZArith Lia.
From Stdlib Require Export Strings.Byte.
From stdpp Require Export base numbers option list sorting fin_maps gmap relations tactics strings.

#[global] Open Scope Z_scope.

(** ** Bytes

    Go strings and byte slices are both finite sequences of bytes. *)
Abbreviation byte := Byte.byte.
Abbreviation bytes := (list Byte.byte).

#[export] Instance byte_eq_dec : EqDecision byte.
Proof. intros a b. destruct (Byte.eqb a b) eqn:E.
  - left. now apply Byte.byte_dec_bl.
  - right. intros ->. rewrite Byte.byte_dec_lb in E; done.
Defined.

#[export] Program Instance byte_countable : Countable byte := {|
  encode b := encode (Byte.to_N b);
  decode p := match decode p with Some n => Byte.of_N n | None => None end |}.
Next Obligation.
  intros b. cbn beta. rewrite (decode_encode (Byte.to_N b)). apply Byte.of_to_N.
Qed.

Declare Scope go_scope.
Delimit Scope go_scope with go.

(** A Go string literal. *)
Definition B (s : String.string) : bytes := String.list_byte_of_string s.
Arguments B s%_stdpp_scope : simpl never.

Definition zlen {A} (l : list A) : Z := Z.of_nat (length l).
Arguments zlen : simpl never.

(** The value of a byte and the truncating conversion [byte(x)]. *)
Definition b2z (b : byte) : Z := Z.of_N (Byte.to_N b).
Definition z2b (z : Z) : byte :=
  match Byte.of_N (Z.to_N (z mod 256)) with Some b => b | None => x00 end.
Arguments b2z : simpl never.
Arguments z2b : simpl never.

(** ** Fallible code

    A Go call [v, err := f()] becomes a [result].  The error keeps the
    constant part of Go's message; where the rest of it comes from a map, the
    whole text is kept. *)
Inductive result (E A : Type) : Type :=
| Ok (a : A)
| Err (e : E).
Arguments Ok {E A} a.
Arguments Err {E A} e.

#[export] Instance result_ret E : MRet (result E) := fun _ a => Ok a.
#[export] Instance result_bind E : MBind (result E) :=
  fun _ _ f m => match m with Ok a => f a | Err e => Err e end.
#[export] Instance result_fmap E : FMap (result E) :=
  fun _ _ f m => match m with Ok a => Ok (f a) | Err e => Err e end.

Abbreviation error := String.string.
Definition errorf (text : bytes) : error := String.string_of_list_byte text.

Definition is_ok {E A} (r : result E A) : bool :=
  match r with Ok _ => true | Err _ => false end.

Lemma ok_inj {E A} (a b : A) : @Ok E A a = Ok b → a = b.
Proof. by injection 1. Qed.

Lemma ok_pair {E S} (r : result E unit * S) : is_ok r.1 = true → ∃ s, r = (Ok tt, s).
Proof. destruct r as [[[]|e] s]; [by exists s|done]. Qed.

(** [fmt.Errorf("prefix: %w", err)]. *)
Definition wrap_err {A} (prefix : error) (r : result error A) : result error A :=
  match r with
  | Ok a => Ok a
  | Err e => Err (String.append prefix (String.append ": " e))
  end.
Arguments wrap_err {A} prefix%_stdpp_scope r.

(** [if cond then return err]. *)
Definition guard_err {E} (c : bool) (e : E) : result E unit :=
  if c then Err e else Ok tt.

(** ** Machine integers *)
Definition int64_min : Z := - 2 ^ 63.
Definition int64_max : Z := 2 ^ 63 - 1.
Definition wrap64 (z : Z) : Z := (z + 2 ^ 63) mod 2 ^ 64 - 2 ^ 63.
Definition wrap32u (z : Z) : Z := z mod 2 ^ 32.
Definition in_int64 (z : Z) : Prop := int64_min ≤ z ≤ int64_max.

(** ** Automation *)
Create HintDb stub.

Ltac case_bool :=
  match goal with
  | |- context [if ?b then _ else _] =>
      let E := fresh "E" in destruct b eqn:E
  | H : context [if ?b then _ else _] |- _ =>
      let E := fresh "E" in destruct b eqn:E
  end.

(** Open the binds and tests of a computation known to have succeeded. *)
Ltac inv_ok :=
  repeat match goal with
  | H : Ok _ = Ok _ |- _ => injection H as H; subst
  | H : Err _ = Err _ |- _ => injection H as H; subst
  | H : Err _ = Ok _ |- _ => discriminate H
  | H : Ok _ = Err _ |- _ => discriminate H
  | H : (mbind _ ?m) = Ok _ |- _ =>
      let E := fresh "E" in destruct m eqn:E; cbn [mbind result_bind] in H
  | H : wrap_err _ ?m = Ok _ |- _ =>
      let E := fresh "E" in destruct m eqn:E; cbn [wrap_err] in H
  | H : guard_err ?c _ = Ok _ |- _ =>
      let E := fresh "E" in destruct c eqn:E; cbn [guard_err] in H
  | H : (if ?b then Err _ else _) = Ok _ |- _ =>
      let E := fresh "E" in destruct b eqn:E
  | H : (if ?b then _ else Err _) = Ok _ |- _ =>
      let E := fresh "E" in destruct b eqn:E
  end.

(** Turn boolean comparisons in the context into propositions. *)
Ltac bool_to_prop :=
  repeat match goal with
  | H : (_ && _) = true |- _ => apply andb_prop in H; destruct H
  | H : (_ || _) = false |- _ => apply orb_false_elim in H; destruct H
  | H : negb _ = true |- _ => apply negb_true_iff in H
  | H : negb _ = false |- _ => apply negb_false_iff in H
  | H : bool_decide _ = true |- _ => apply bool_decide_eq_true in H
  | H : bool_decide _ = false |- _ => apply bool_decide_eq_false in H
  end.

(** ** Bytes and integers *)
Lemma b2z_range b : 0 ≤ b2z b < 256.
Proof. unfold b2z. pose proof (Byte.to_N_bounded b). lia. Qed.

Lemma b2z_inj a b : b2z a = b2z b → a = b.
Proof.
  unfold b2z. intros H. apply N2Z.inj in H.
  pose proof (Byte.of_to_N a) as Ha. rewrite H, Byte.of_to_N in Ha. congruence.
Qed.

Lemma b2z_z2b z : b2z (z2b z) = z mod 256.
Proof.
  unfold z2b, b2z. pose proof (Z.mod_pos_bound z 256 eq_refl).
  destruct (Byte.of_N (Z.to_N (z mod 256))) eqn:E.
  - apply Byte.to_of_N in E. rewrite E. lia.
  - apply Byte.of_N_None_iff in E. lia.
Qed.

Lemma z2b_b2z b : z2b (b2z b) = b.
Proof.
  apply b2z_inj. rewrite b2z_z2b. apply Z.mod_small, b2z_range.
Qed.

Lemma wrap64_range z : in_int64 (wrap64 z).
Proof.
  unfold in_int64, wrap64, int64_min, int64_max.
  pose proof (Z.mod_pos_bound (z + 2 ^ 63) (2 ^ 64) eq_refl). lia.
Qed.

Lemma wrap64_id z : in_int64 z → wrap64 z = z.
Proof.
  unfold in_int64, wrap64, int64_min, int64_max. intros H.
  rewrite Z.mod_small; lia.
Qed.

Lemma zlen_nonneg {A} (l : list A) : 0 ≤ zlen l.
Proof. unfold zlen. lia. Qed.

Lemma zlen_app {A} (l k : list A) : zlen (l ++ k) = zlen l + zlen k.
Proof. unfold zlen. rewrite length_app. lia. Qed.

Lemma zlen_nil {A} : zlen (@nil A) = 0.
Proof. reflexivity. Qed.

Lemma zlen_cons {A} (a : A) l : zlen (a :: l) = 1 + zlen l.
Proof. unfold zlen. cbn. lia. Qed.

Lemma zlen_0_nil {A} (l : list A) : zlen l = 0 → l = [].
Proof. destruct l; [done|]. rewrite zlen_cons. pose proof (zlen_nonneg l). lia. Qed.

#[export] Hint Resolve b2z_range wrap64_range zlen_nonneg : stub.
#[export] Hint Rewrite @zlen_app @zlen_nil @zlen_cons b2z_z2b z2b_b2z : stub.

(** ** Lists *)
Lemma rev_inj {A} (l k : list A) : rev l = rev k → l = k.
Proof. intros H. rewrite <- (rev_involutive l), H. apply rev_involutive. Qed.

Lemma app_eq_same_length {A} (l k : list A) s :
  l = s ++ k → length l = length k → l = k.
Proof.
  intros -> H. rewrite length_app in H. destruct s; [done|]. cbn in H. lia.
Qed.

(** The elements of [l], first occurrences only, in order. *)
Lemma elem_of_snoc {A} (x y : A) l : x ∈ l ++ [y] ↔ x ∈ l ∨ x = y.
Proof. rewrite elem_of_app, list_elem_of_singleton. done. Qed.
