(* ===== verification/Identity.v ===== *)
(** What the device says it is, and what that identity entitles a controller
    to: [identity.go], [profile_protocol.go], [controller_reporting.go] and
    [inform_schedule.go] of [src/internal/device]. *)
From S2P Require Import Prelude.

(** ** identity.go *)
Abbreviation InformState := Z.
Definition InformStateUnknown : InformState := 0.
Definition InformStateDefault : InformState := 1.
Definition InformStateManaged : InformState := 2.
Definition InformStateSelfrun : InformState := 3.
Definition InformStateUpgrade : InformState := 4.
Definition InformState_Valid (state : InformState) : bool :=
  (InformStateUnknown <=? state) && (state <=? InformStateUpgrade).
Definition InformState_String (state : InformState) : bytes :=
  if state =? InformStateUnknown then B "unknown"
  else if state =? InformStateDefault then B "default"
  else if state =? InformStateManaged then B "managed"
  else if state =? InformStateSelfrun then B "selfrun"
  else if state =? InformStateUpgrade then B "upgrade"
  else B "invalid".

Record Identity := MkIdentity {
  id_MAC : bytes; id_IP : bytes; id_Hostname : bytes; id_Model : bytes; id_ModelDisplay : bytes;
  id_DeviceType : bytes; id_Version : bytes; id_Serial : bytes; id_InformURL : bytes;
  id_InformIP : bytes; id_CFGVersion : bytes; id_ManagementVLAN : Z; id_UptimeSeconds : Z;
  id_ControllerTimeOffsetSeconds : Z; id_IPv4ActiveLeasesRequested : bool;
  id_GatewayMACIPv6Requested : bool; id_GWCapabilitiesRequested : bool;
  id_UDAPIVersionExcluded : bool; id_DPIStatsExcluded : bool; id_FingerprintsExcluded : bool;
  id_InformState : InformState; id_InformStateSet : bool; id_Adopted : bool;
}.

(** ** profile_protocol.go

    Of a profile the protocol reads where it comes from and its name. *)
Record userProfileProtocolKey := MkProtocolKey {
  pk_sourceType : bytes; pk_name : bytes; pk_model : bytes; pk_version : bytes;
}.
#[export] Instance userProfileProtocolKey_eq_dec : EqDecision userProfileProtocolKey.
Proof. solve_decision. Defined.
Record userProfileProtocolPolicy := MkProtocolPolicy {
  pp_firmwareMinimumSeconds : Z; pp_blockSelection : bool; pp_controllerClock : bool;
  pp_idleSpeedtest : bool;
}.

Definition sourceTypeBuiltIn : bytes := B "built-in".
Definition defaultSwitchVersion : bytes := B "7.4.1.16850".
Definition defaultGatewayVersion : bytes := B "5.0.16.30689".
Definition profileProtocolNoBinding : bytes :=
  B "no controller policy for the exact built-in profile, model, and version".

Definition mainlineSwitchProtocolPolicy : userProfileProtocolPolicy := MkProtocolPolicy 30 false true false.
Definition userProfileProtocolPolicies : list (userProfileProtocolKey * userProfileProtocolPolicy) :=
  map (λ e : String.string * String.string,
    (MkProtocolKey sourceTypeBuiltIn (B e.1) (B e.2) defaultSwitchVersion, mainlineSwitchProtocolPolicy))
    [("us16p150", "US16P150"); ("us24p250", "US24P250"); ("us48p500", "US48P500");
     ("us8", "US8"); ("us8p60", "US8P60")]%stdpp
  ++ [(MkProtocolKey sourceTypeBuiltIn (B "uxgpro") (B "UXGPRO") defaultGatewayVersion,
       MkProtocolPolicy 1 true true true)].

Definition resolveUserProfileProtocol (sourceType name effectiveModel effectiveVersion : bytes)
    : option userProfileProtocolPolicy :=
  let key := MkProtocolKey sourceType name effectiveModel effectiveVersion in
  snd <$> find (λ e, bool_decide (e.1 = key)) userProfileProtocolPolicies.

(** ** controller_reporting.go *)
Record ControllerReportingPolicy := MkPolicy {
  pol_BlockSelection : bool; pol_ControllerClock : bool; pol_IdleSpeedtest : bool; pol_Reason : bytes;
}.
Definition ResolveControllerReportingPolicy (sourceType name effectiveModel effectiveVersion : bytes)
    : ControllerReportingPolicy :=
  match resolveUserProfileProtocol sourceType name effectiveModel effectiveVersion with
  | None => MkPolicy false false false profileProtocolNoBinding
  | Some p => MkPolicy (pp_blockSelection p) (pp_controllerClock p) (pp_idleSpeedtest p) []
  end.

(** ** inform_schedule.go *)
Record InformSchedulePolicy := MkSchedulePolicy {
  isp_FirmwareMinimum : Z; isp_Supported : bool; isp_Reason : bytes;
}.
Definition EffectiveMinimum (policy : InformSchedulePolicy) (operatorMinimum : Z) : Z :=
  if negb (isp_Supported policy) || (isp_FirmwareMinimum policy <=? 0) then 0
  else if isp_FirmwareMinimum policy <? operatorMinimum then operatorMinimum
  else isp_FirmwareMinimum policy.
Definition ResolveInformSchedulePolicy (sourceType name effectiveModel effectiveVersion : bytes)
    : InformSchedulePolicy :=
  match resolveUserProfileProtocol sourceType name effectiveModel effectiveVersion with
  | None => MkSchedulePolicy 0 false profileProtocolNoBinding
  | Some p =>
      if pp_firmwareMinimumSeconds p <=? 0 then MkSchedulePolicy 0 false profileProtocolNoBinding
      else MkSchedulePolicy (wrap64 (pp_firmwareMinimumSeconds p * 1000000000)) true []
  end.
