(* ===== verification/GoStrings.v ===== *)
(** The parts of Go's [strings], [bytes], [strconv], [encoding/hex],
    [encoding/binary] and [path] packages the program uses, as executable
    functions on byte lists, with the lemmas the components share. *)
From S2P Require Import Prelude.

(** ** Searching and cutting *)

(** [strings.HasPrefix(s, p)]. *)
Fixpoint has_prefix (p s : bytes) : bool :=
  match p, s with
  | [], _ => true
  | a :: p', b :: s' => bool_decide (a = b) && has_prefix p' s'
  | _ :: _, [] => false
  end.

(** [strings.HasSuffix(s, p)]. *)
Definition has_suffix (p s : bytes) : bool := has_prefix (rev p) (rev s).

(** [strings.Index(s, sub)], [None] for -1. *)
Fixpoint index_of (sub s : bytes) : option nat :=
  if has_prefix sub s then Some 0%nat
  else match s with
       | [] => None
       | _ :: s' => S <$> index_of sub s'
       end.

(** [strings.Contains(s, sub)]. *)
Definition contains (sub s : bytes) : bool :=
  match index_of sub s with Some _ => true | None => false end.

(** [strings.IndexByte] and [strings.LastIndexByte]. *)
Fixpoint index_byte (c : byte) (s : bytes) : option nat :=
  match s with
  | [] => None
  | b :: s' => if decide (b = c) then Some 0%nat else S <$> index_byte c s'
  end.

Definition last_index_byte (c : byte) (s : bytes) : option nat :=
  match index_byte c (rev s) with
  | Some i => Some (length s - 1 - i)%nat
  | None => None
  end.

(** [strings.Cut(s, sep)] for a one-byte separator: [None] is [ok == false],
    in which case Go's [before] is [s] and [after] is empty. *)
Fixpoint cut_byte (c : byte) (s : bytes) : option (bytes * bytes) :=
  match s with
  | [] => None
  | b :: s' =>
      if decide (b = c) then Some ([], s')
      else match cut_byte c s' with
           | Some (l, r) => Some (b :: l, r)
           | None => None
           end
  end.

(** [before] and [after] of [strings.Cut], whatever [ok] is. *)
Definition cut_parts (c : byte) (s : bytes) : bytes * bytes :=
  match cut_byte c s with Some p => p | None => (s, []) end.

(** [strings.Split(s, sep)] for a one-byte separator. *)
Fixpoint split_byte (c : byte) (s : bytes) : list bytes :=
  match s with
  | [] => [[]]
  | b :: s' =>
      if decide (b = c) then [] :: split_byte c s'
      else match split_byte c s' with
           | [] => [[b]]
           | x :: xs => (b :: x) :: xs
           end
  end.

(** [strings.Join(l, sep)]. *)
Fixpoint join (sep : bytes) (l : list bytes) : bytes :=
  match l with
  | [] => []
  | [x] => x
  | x :: l' => x ++ sep ++ join sep l'
  end.

(** ** Unicode white space

    [unicode.IsSpace] holds of U+0009..U+000D, U+0020, U+0085, U+00A0,
    U+1680, U+2000..U+200A, U+2028, U+2029, U+202F, U+205F and U+3000; the
    three functions recognise their one, two and three byte encodings. *)
Definition space1 (a : byte) : bool :=
  let x := b2z a in ((9 <=? x) && (x <=? 13)) || (x =? 32).
Definition space2 (a b : byte) : bool :=
  (b2z a =? 0xC2) && ((b2z b =? 0x85) || (b2z b =? 0xA0)).
Definition space3 (a b c : byte) : bool :=
  let x := b2z a in let y := b2z b in let z := b2z c in
  ((x =? 0xE1) && (y =? 0x9A) && (z =? 0x80))
  || ((x =? 0xE2) && (y =? 0x80)
      && (((0x80 <=? z) && (z <=? 0x8A)) || (z =? 0xA8) || (z =? 0xA9) || (z =? 0xAF)))
  || ((x =? 0xE2) && (y =? 0x81) && (z =? 0x9F))
  || ((x =? 0xE3) && (y =? 0x80) && (z =? 0x80)).

Section trim.
Variable s1 : byte → bool.
Variable s2 : byte → byte → bool.
Variable s3 : byte → byte → byte → bool.

(** Drop the longest run of white space at the head. *)
Fixpoint trim_by (s : bytes) : bytes :=
  match s with
  | [] => []
  | a :: t1 =>
      if s1 a then trim_by t1 else
      match t1 with
      | [] => s
      | b :: t2 =>
          if s2 a b then trim_by t2 else
          match t2 with
          | [] => s
          | c :: t3 => if s3 a b c then trim_by t3 else s
          end
      end
  end.

(** No white space at the head. *)
Definition unspaced (s : bytes) : Prop :=
  match s with
  | [] => True
  | a :: t1 => s1 a = false ∧
      match t1 with
      | [] => True
      | b :: t2 => s2 a b = false ∧
          match t2 with [] => True | c :: _ => s3 a b c = false end
      end
  end.

Lemma trim_by_suffix s : ∃ p, s = p ++ trim_by s.
Proof.
  remember (length s) as n eqn:Hn. revert s Hn.
  induction n as [n IH] using lt_wf_ind. intros [|a [|b [|c t]]] ->; cbn [trim_by].
  - by exists [].
  - destruct (s1 a); [by exists [a] | by exists []].
  - destruct (s1 a).
    { destruct (IH (length [b])) with (s := [b]) as [p Hp]; cbn; try lia.
      exists (a :: p). cbn. f_equal. exact Hp. }
    destruct (s2 a b); [by exists [a; b] | by exists []].
  - destruct (s1 a).
    { edestruct (IH (length (b :: c :: t))) with (s := b :: c :: t) as [p Hp]; cbn; try lia.
      exists (a :: p). rewrite <- app_comm_cons. f_equal. exact Hp. }
    destruct (s2 a b).
    { edestruct (IH (length (c :: t))) with (s := c :: t) as [p Hp]; cbn; try lia.
      exists (a :: b :: p). rewrite <- !app_comm_cons. do 2 f_equal. exact Hp. }
    destruct (s3 a b c); [|by exists []].
    edestruct (IH (length t)) with (s := t) as [p Hp]; cbn; try lia.
    exists (a :: b :: c :: p). rewrite <- !app_comm_cons. do 3 f_equal. exact Hp.
Qed.

Lemma trim_by_length s : (length (trim_by s) ≤ length s)%nat.
Proof.
  destruct (trim_by_suffix s) as [p Hp]. rewrite Hp at 2. rewrite length_app. lia.
Qed.

Lemma trim_by_unspaced s : unspaced s → trim_by s = s.
Proof.
  destruct s as [|a [|b [|c t]]]; cbn.
  - done.
  - by intros [-> _].
  - by intros (-> & -> & _).
  - by intros (-> & -> & ->).
Qed.

Lemma unspaced_trim_by s : unspaced (trim_by s).
Proof.
  remember (length s) as n eqn:Hn. revert s Hn.
  induction n as [n IH] using lt_wf_ind. intros [|a [|b [|c t]]] ->; cbn [trim_by].
  - done.
  - destruct (s1 a) eqn:E1; cbn; auto.
  - destruct (s1 a) eqn:E1.
    { apply (IH (length [b])) with (s := [b]); cbn; lia. }
    destruct (s2 a b) eqn:E2; cbn; auto.
  - destruct (s1 a) eqn:E1.
    { apply (IH (length (b :: c :: t))) with (s := b :: c :: t); cbn; lia. }
    destruct (s2 a b) eqn:E2.
    { apply (IH (length (c :: t))) with (s := c :: t); cbn; lia. }
    destruct (s3 a b c) eqn:E3; [|cbn; auto].
    apply (IH (length t)) with (s := t); cbn; lia.
Qed.

Lemma trim_by_id s : trim_by s = s ↔ unspaced s.
Proof.
  split; [|apply trim_by_unspaced]. intros <-. apply unspaced_trim_by.
Qed.
End trim.

Definition trim_left : bytes → bytes := trim_by space1 space2 space3.
Definition trim_right (s : bytes) : bytes :=
  rev (trim_by space1 (λ a b, space2 b a) (λ a b c, space3 c b a) (rev s)).

(** [strings.TrimSpace(s)] and [bytes.TrimSpace(s)]. *)
Definition trim_space (s : bytes) : bytes := trim_right (trim_left s).

(** [strings.Fields(s)]: the maximal runs between white space.  [acc] is the
    reversed current field. *)
Definition flush_field (acc : bytes) (rest : list bytes) : list bytes :=
  match acc with [] => rest | _ => rev acc :: rest end.

Fixpoint fields_aux (acc s : bytes) : list bytes :=
  match s with
  | [] => flush_field acc []
  | a :: t1 =>
      if space1 a then flush_field acc (fields_aux [] t1) else
      match t1 with
      | [] => fields_aux (a :: acc) t1
      | b :: t2 =>
          if space2 a b then flush_field acc (fields_aux [] t2) else
          match t2 with
          | [] => fields_aux (a :: acc) t1
          | c :: t3 =>
              if space3 a b c then flush_field acc (fields_aux [] t3)
              else fields_aux (a :: acc) t1
          end
      end
  end.

Definition fields (s : bytes) : list bytes := fields_aux [] s.

(** [bufio.Scanner] over the pieces between newlines: a carriage return goes with
    the end of line; a longer line ends the input. *)
Definition drop_cr (l : bytes) : bytes :=
  if has_suffix [x0d] l then removelast l else l.
Fixpoint scan_lines (pieces : list bytes) : list bytes :=
  match pieces with
  | [] => []
  | [last] => if decide (last = []) then [] else if 65535 <? zlen last then [] else [drop_cr last]
  | l :: rest => if 65535 <? zlen l then [] else drop_cr l :: scan_lines rest
  end.

(** ** Letter case

    [strings.ToLower], [strings.ToUpper] and [strings.EqualFold] treat ASCII
    letters directly and leave other strings to the Unicode tables, which
    [unicode_lower], [unicode_upper] and [unicode_fold] stand for. *)
Class UnicodeTables := {
  unicode_lower : bytes → bytes;
  unicode_upper : bytes → bytes;
  unicode_fold : bytes → bytes → bool;
}.

Definition is_ascii_byte (b : byte) : bool := b2z b <? 128.
Definition lower_byte (b : byte) : byte :=
  if (65 <=? b2z b) && (b2z b <=? 90) then z2b (b2z b + 32) else b.

Definition to_lower `{UnicodeTables} (s : bytes) : bytes :=
  if forallb is_ascii_byte s then map lower_byte s else unicode_lower s.

Definition upper_byte (b : byte) : byte :=
  if (97 <=? b2z b) && (b2z b <=? 122) then z2b (b2z b - 32) else b.
Definition to_upper `{UnicodeTables} (s : bytes) : bytes :=
  if forallb is_ascii_byte s then map upper_byte s else unicode_upper s.

Definition equal_fold `{UnicodeTables} (s t : bytes) : bool :=
  if forallb is_ascii_byte s && forallb is_ascii_byte t
  then bool_decide (map lower_byte s = map lower_byte t)
  else unicode_fold s t.

(** Equality under simple case folding is an equivalence. *)
Class UnicodeLaws `{UnicodeTables} : Prop := {
  equal_fold_refl s : equal_fold s s = true;
  equal_fold_sym s t : equal_fold s t = true → equal_fold t s = true;
  equal_fold_trans s t u : equal_fold s t = true → equal_fold t u = true → equal_fold s u = true;
}.

(** Tables that know the ASCII letters only. *)
Definition ascii_tables : UnicodeTables := {|
  unicode_lower := map lower_byte;
  unicode_upper := map upper_byte;
  unicode_fold s t := bool_decide (map lower_byte s = map lower_byte t);
|}.

Lemma ascii_laws : @UnicodeLaws ascii_tables.
Proof.
  assert (∀ s t, @equal_fold ascii_tables s t = bool_decide (map lower_byte s = map lower_byte t)) as E.
  { intros s t. unfold equal_fold. by destruct (_ && _). }
  split; intros *; rewrite ?E, ?bool_decide_eq_true; congruence.
Qed.

(** ** Decimal integers *)
Definition is_digit (b : byte) : bool := (48 <=? b2z b) && (b2z b <=? 57).
Definition digit_val (b : byte) : Z := b2z b - 48.

(** The value of a digit string. *)
Definition digits_val (s : bytes) : Z :=
  fold_left (λ acc b, acc * 10 + digit_val b) s 0.

(** [strconv.ParseInt(s, 10, 64)]: the value saturates on a range error, and
    is zero on a syntax error.  (Go reports an overflow before it looks at the
    bytes behind it, so a text with both faults is a range error there; every
    caller in the program either treats the two errors alike or passes digits
    only.) *)
Inductive parse_int_result :=
| IntValue (z : Z)
| IntRange (z : Z)
| IntSyntax.

Definition clamp64 (z : Z) : parse_int_result :=
  if z <? int64_min then IntRange int64_min
  else if int64_max <? z then IntRange int64_max
  else IntValue z.

Definition parse_int (s : bytes) : parse_int_result :=
  let '(neg, ds) :=
    match s with
    | c :: t => if decide (c = x2d) then (true, t)
                else if decide (c = x2b) then (false, t) else (false, s)
    | [] => (false, s)
    end in
  match ds with
  | [] => IntSyntax
  | _ => if forallb is_digit ds
         then clamp64 (if neg then - digits_val ds else digits_val ds)
         else IntSyntax
  end.

(** [strconv.Atoi(s)] on a 64-bit platform, and the value Go returns next to
    the error of [ParseInt]. *)
Definition atoi (s : bytes) : option Z :=
  match parse_int s with IntValue z => Some z | _ => None end.
Definition parse_int_value (r : parse_int_result) : Z :=
  match r with IntValue z | IntRange z => z | IntSyntax => 0 end.

(** [strconv.Itoa(n)]. *)
Definition dec_digit (n : Z) : byte := z2b (48 + n mod 10).
Fixpoint itoa_pos (fuel : nat) (n : Z) (acc : bytes) : bytes :=
  match fuel with
  | O => acc
  | S f => let acc := dec_digit n :: acc in
           if n <? 10 then acc else itoa_pos f (n / 10) acc
  end.
Definition itoa (n : Z) : bytes :=
  if n <? 0 then x2d :: itoa_pos 20 (- n) [] else itoa_pos 20 n [].

(** [strconv.ParseBool(s)]. *)
Definition parse_bool (s : bytes) : option bool :=
  if bool_decide (s ∈ [B "1"; B "t"; B "T"; B "TRUE"; B "true"; B "True"]) then Some true
  else if bool_decide (s ∈ [B "0"; B "f"; B "F"; B "FALSE"; B "false"; B "False"]) then Some false
  else None.

(** ** Hexadecimal *)
Definition hex_val (b : byte) : option Z :=
  let x := b2z b in
  if (48 <=? x) && (x <=? 57) then Some (x - 48)
  else if (97 <=? x) && (x <=? 102) then Some (x - 87)
  else if (65 <=? x) && (x <=? 70) then Some (x - 55)
  else None.

(** [hex.DecodeString(s)]. *)
Fixpoint hex_decode (s : bytes) : option bytes :=
  match s with
  | [] => Some []
  | [_] => None
  | a :: b :: s' =>
      match hex_val a, hex_val b, hex_decode s' with
      | Some x, Some y, Some r => Some (z2b (x * 16 + y) :: r)
      | _, _, _ => None
      end
  end.

Definition hex_digit (n : Z) : byte :=
  if n <? 10 then z2b (48 + n) else z2b (87 + n).
Definition hex_digit_upper (n : Z) : byte :=
  if n <? 10 then z2b (48 + n) else z2b (55 + n).

(** [hex.EncodeToString(s)]. *)
Fixpoint hex_encode (s : bytes) : bytes :=
  match s with
  | [] => []
  | b :: s' => hex_digit (b2z b / 16) :: hex_digit (b2z b mod 16) :: hex_encode s'
  end.

(** ** Network byte order *)
Definition be16 (v : Z) : bytes := [z2b (v / 256); z2b v].
Definition be32 (v : Z) : bytes :=
  [z2b (v / 2 ^ 24); z2b (v / 2 ^ 16); z2b (v / 2 ^ 8); z2b v].

(** [binary.BigEndian.Uint16] and [Uint32] of a slice of that many bytes. *)
Definition be_val (s : bytes) : Z := fold_left (λ acc b, acc * 256 + b2z b) s 0.

(** [path.Base(p)]. *)
Fixpoint drop_slashes (s : bytes) : bytes :=
  match s with
  | b :: s' => if decide (b = x2f) then drop_slashes s' else s
  | [] => []
  end.
Fixpoint until_slash (s : bytes) : bytes :=
  match s with
  | b :: s' => if decide (b = x2f) then [] else b :: until_slash s'
  | [] => []
  end.
Definition path_base (p : bytes) : bytes :=
  match p with
  | [] => B "."
  | _ => match until_slash (drop_slashes (rev p)) with
         | [] => B "/"
         | r => rev r
         end
  end.

(** ** Lemmas *)

Lemma has_prefix_spec p s : has_prefix p s = true ↔ ∃ r, s = p ++ r.
Proof.
  revert s. induction p as [|a p IH]; intros [|b s]; cbn.
  - split; eauto.
  - split; eauto.
  - split; [done|]. intros [r [=]].
  - rewrite andb_true_iff, bool_decide_eq_true, IH. split.
    + intros [-> [r ->]]. by exists r.
    + intros [r [= -> ->]]. split; [done|by exists r].
Qed.

Lemma contains_cons sub b s :
  contains sub (b :: s) = has_prefix sub (b :: s) || contains sub s.
Proof.
  unfold contains. cbn [index_of]. destruct (has_prefix sub (b :: s)); [done|].
  by destruct (index_of sub s).
Qed.

Lemma contains_spec sub s : contains sub s = true ↔ ∃ l r, s = l ++ sub ++ r.
Proof.
  split.
  - induction s as [|b s IH].
    + unfold contains. cbn [index_of]. destruct (has_prefix sub []) eqn:E; [|done].
      apply has_prefix_spec in E as [r ->]. intros _. by exists [], r.
    + rewrite contains_cons, orb_true_iff. intros [H|H].
      * apply has_prefix_spec in H as [r Hr]. by exists [], r.
      * destruct (IH H) as (l & r & ->). by exists (b :: l), r.
  - intros (l & r & ->). induction l as [|b l IH].
    + assert (has_prefix sub (sub ++ r) = true) as H by (apply has_prefix_spec; eauto).
      unfold contains. cbn [app]. destruct (sub ++ r) eqn:E; cbn [index_of]; by rewrite H.
    + cbn [app]. rewrite contains_cons, IH. apply orb_true_r.
Qed.

Lemma cut_byte_Some c s l r :
  cut_byte c s = Some (l, r) ↔ s = l ++ c :: r ∧ c ∉ l.
Proof.
  revert l r. induction s as [|b s IH]; intros l r; cbn.
  - split; [done|]. intros [H _]. by destruct l.
  - case_decide as Hb.
    + subst b. split.
      * intros [= <- <-]. split; [done|]. apply not_elem_of_nil.
      * intros [H Hl]. destruct l as [|b l]; [by injection H as ->|].
        injection H as -> H. by rewrite not_elem_of_cons in Hl; destruct Hl.
    + destruct (cut_byte c s) as [[l' r']|].
      * split.
        { intros [= <- <-]. destruct (proj1 (IH l' r') eq_refl) as [-> ?].
          split; [done|]. rewrite not_elem_of_cons. split; [congruence|done]. }
        { intros [H Hl]. destruct l as [|b' l]; [by injection H as ->|].
          injection H as -> H. apply not_elem_of_cons in Hl as [_ Hl].
          pose proof (proj2 (IH l r) (conj H Hl)) as [= -> ->]. done. }
      * split; [done|]. intros [H Hl]. destruct l as [|b' l]; [by injection H as ->|].
        injection H as -> H. apply not_elem_of_cons in Hl as [_ Hl].
        by pose proof (proj2 (IH l r) (conj H Hl)).
Qed.

Lemma cut_byte_app c l r : c ∉ l → cut_byte c (l ++ c :: r) = Some (l, r).
Proof. intros H. by apply cut_byte_Some. Qed.

Lemma split_byte_app c l s : c ∉ l → split_byte c (l ++ c :: s) = l :: split_byte c s.
Proof.
  induction l as [|b l IH]; intros H; cbn.
  - by rewrite decide_True.
  - apply not_elem_of_cons in H as [Hb Hl]. rewrite decide_False by done.
    by rewrite IH.
Qed.

Lemma split_byte_not_nil c s : split_byte c s ≠ [].
Proof.
  destruct s; cbn; [done|]. case_decide; [done|]. by destruct (split_byte c s).
Qed.

Lemma split_byte_no_sep c s : Forall (λ l, c ∉ l) (split_byte c s).
Proof.
  induction s as [|b s IH]; cbn.
  - repeat constructor. apply not_elem_of_nil.
  - case_decide as Hb.
    + constructor; [apply not_elem_of_nil | done].
    + destruct (split_byte c s) as [|x xs]; [repeat constructor; rewrite list_elem_of_singleton; congruence|].
      inversion IH; subst. constructor; [rewrite not_elem_of_cons; auto|done].
Qed.

Lemma join_split_byte c s : join [c] (split_byte c s) = s.
Proof.
  induction s as [|b s IH]; [done|]. cbn [split_byte]. case_decide as Hb.
  - subst b. pose proof (split_byte_not_nil c s). destruct (split_byte c s); [done|].
    cbn [join app]. by rewrite <- IH.
  - pose proof (split_byte_not_nil c s). destruct (split_byte c s) as [|x xs]; [done|].
    rewrite <- IH. by destruct xs.
Qed.

(** *** Trimming *)
Lemma trim_left_id s : trim_left s = s ↔ unspaced space1 space2 space3 s.
Proof. apply trim_by_id. Qed.

Lemma trim_right_id s :
  trim_right s = s ↔
  unspaced space1 (λ a b, space2 b a) (λ a b c, space3 c b a) (rev s).
Proof.
  rewrite <- trim_by_id. unfold trim_right. split.
  - intros H. apply (f_equal (@rev byte)) in H. by rewrite rev_involutive in H.
  - intros ->. apply rev_involutive.
Qed.

Lemma trim_right_length s : (length (trim_right s) ≤ length s)%nat.
Proof.
  unfold trim_right. rewrite length_rev.
  etransitivity; [apply trim_by_length|]. by rewrite length_rev.
Qed.

Lemma trim_left_length s : (length (trim_left s) ≤ length s)%nat.
Proof. apply trim_by_length. Qed.

Lemma trim_space_length s : (length (trim_space s) ≤ length s)%nat.
Proof.
  unfold trim_space. etransitivity; [apply trim_right_length|apply trim_left_length].
Qed.

Lemma trim_space_id s : trim_space s = s ↔ trim_left s = s ∧ trim_right s = s.
Proof.
  split.
  - intros H.
    assert (trim_left s = s) as Hl.
    { symmetry. destruct (trim_by_suffix space1 space2 space3 s) as [p Hp].
      apply (app_eq_same_length _ _ p); [done|]. apply Nat.le_antisymm.
      - rewrite <- H at 1. apply trim_right_length.
      - apply trim_left_length. }
    split; [done|]. unfold trim_space in H. by rewrite Hl in H.
  - intros [Hl Hr]. unfold trim_space. by rewrite Hl, Hr.
Qed.

Lemma trim_right_prefix s : ∃ r, s = trim_right s ++ r.
Proof.
  unfold trim_right.
  destruct (trim_by_suffix space1 (λ a b, space2 b a) (λ a b c, space3 c b a) (rev s)) as [p Hp].
  exists (rev p). rewrite <- rev_app_distr, <- Hp. by rewrite rev_involutive.
Qed.

(** Trimming on the right cannot create white space on the left. *)
Lemma trim_space_infix s : ∃ l r, s = l ++ trim_space s ++ r.
Proof.
  destruct (trim_by_suffix space1 space2 space3 s) as [l Hl], (trim_right_prefix (trim_left s)) as [r Hr].
  exists l, r. unfold trim_space. by rewrite <- Hr.
Qed.

Lemma unspaced_app_l s r :
  unspaced space1 space2 space3 (s ++ r) → unspaced space1 space2 space3 s.
Proof.
  destruct s as [|a [|b [|c s]]]; cbn; try done.
  - by intros [? _].
  - by intros (? & ? & _).
Qed.

Lemma trim_space_idemp s : trim_space (trim_space s) = trim_space s.
Proof.
  apply trim_space_id. split.
  - apply trim_left_id. unfold trim_space.
    destruct (trim_right_prefix (trim_left s)) as [r Hr].
    apply (unspaced_app_l _ r). rewrite <- Hr. apply unspaced_trim_by.
  - apply trim_right_id. unfold trim_space, trim_right. rewrite rev_involutive.
    apply unspaced_trim_by.
Qed.

(** A printable ASCII byte neither is nor begins or ends white space. *)
Definition solid (b : byte) : bool := (33 <=? b2z b) && (b2z b <=? 126).

Lemma solid_space1 a : solid a = true → space1 a = false.
Proof. unfold solid, space1. lia. Qed.
Lemma solid_space2_l a b : solid a = true → space2 a b = false.
Proof. unfold solid, space2. lia. Qed.
Lemma solid_space2_r a b : solid b = true → space2 a b = false.
Proof. unfold solid, space2. lia. Qed.
Lemma solid_space3_l a b c : solid a = true → space3 a b c = false.
Proof. unfold solid, space3. lia. Qed.
Lemma solid_space3_m a b c : solid b = true → space3 a b c = false.
Proof. unfold solid, space3. lia. Qed.
Lemma solid_space3_r a b c : solid c = true → space3 a b c = false.
Proof. unfold solid, space3. lia. Qed.
#[export] Hint Resolve solid_space1 solid_space2_l solid_space2_r
  solid_space3_l solid_space3_m solid_space3_r : stub.

Lemma trim_left_solid a s : solid a = true → trim_left (a :: s) = a :: s.
Proof.
  intros H. apply trim_left_id. destruct s as [|b [|c s]]; cbn; auto 6 with stub.
Qed.

(** Text that is trimmed on the right stays so behind a solid byte. *)
Lemma trim_right_app_solid l a s :
  solid a = true → s ≠ [] → trim_right s = s → trim_right (l ++ a :: s) = l ++ a :: s.
Proof.
  intros Ha Hs H. apply trim_right_id in H. apply trim_right_id.
  rewrite rev_app_distr. cbn [rev]. rewrite <- app_assoc.
  assert (rev s ≠ []) as Hr.
  { intros E. apply Hs. apply rev_inj. by rewrite E. }
  destruct (rev s) as [|x [|y [|z t]]]; cbn in *; try done.
  - destruct H as [Hx _]. destruct (rev l) as [|w t]; cbn; auto 6 with stub.
  - destruct H as (Hx & Hy & _). auto 6 with stub.
Qed.

(** ** Decimal texts *)
Lemma digits_val_app s b : digits_val (s ++ [b]) = digits_val s * 10 + digit_val b.
Proof. unfold digits_val. by rewrite fold_left_app. Qed.

Lemma dec_digit_ok n : is_digit (dec_digit n) = true ∧ digit_val (dec_digit n) = n mod 10.
Proof.
  pose proof (Z.mod_pos_bound n 10). unfold is_digit, digit_val, dec_digit.
  rewrite b2z_z2b, Z.mod_small by lia. split; [apply andb_true_iff; lia|lia].
Qed.

Lemma itoa_pos_spec fuel n acc :
  0 ≤ n < 10 ^ Z.of_nat (S fuel) →
  ∃ ds, itoa_pos (S fuel) n acc = ds ++ acc ∧ ds ≠ [] ∧
    forallb is_digit ds = true ∧ digits_val ds = n.
Proof.
  revert n acc. induction fuel as [|fuel IH]; intros n acc Hn;
    cbn [itoa_pos]; destruct (dec_digit_ok n) as [H1 H2]; destruct (n <? 10) eqn:E.
  1, 3: exists [dec_digit n]; split_and!; [done..|by cbn; rewrite H1|];
    change (digits_val [dec_digit n]) with (0 * 10 + digit_val (dec_digit n));
    rewrite H2, Z.mod_small; lia.
  - change (10 ^ Z.of_nat 1) with 10 in Hn. lia.
  - rewrite Nat2Z.inj_succ, Z.pow_succ_r in Hn by lia.
    destruct (IH (n / 10) (dec_digit n :: acc)) as (ds & E' & _ & Hd & Hv).
    { split; [apply Z.div_pos; lia|]. apply Z.div_lt_upper_bound; lia. }
    cbn [itoa_pos] in E'. rewrite E'. exists (ds ++ [dec_digit n]).
    rewrite <- app_assoc. split_and!; [done|by destruct ds| |].
    + rewrite forallb_app, Hd. cbn. by rewrite H1.
    + rewrite digits_val_app, Hv, H2. pose proof (Z_div_mod_eq_full n 10). lia.
Qed.

Lemma itoa_spec n :
  0 ≤ n ≤ int64_max →
  itoa n ≠ [] ∧ forallb is_digit (itoa n) = true ∧ digits_val (itoa n) = n.
Proof.
  intros Hn. unfold itoa. rewrite (proj2 (Z.ltb_ge n 0)) by lia.
  destruct (itoa_pos_spec 19 n []) as (ds & -> & H); [unfold int64_max in *; lia|].
  by rewrite app_nil_r.
Qed.

(** [strconv.Atoi] reads what [strconv.Itoa] writes. *)
Lemma atoi_itoa n : 0 ≤ n ≤ int64_max → atoi (itoa n) = Some n.
Proof.
  intros Hn. destruct (itoa_spec n Hn) as (Hne & Hd & Hv). unfold atoi, parse_int.
  destruct (itoa n) as [|c t] eqn:E; [done|].
  assert (is_digit c = true) as Hc by (cbn in Hd; by apply andb_true_iff in Hd as [? _]).
  rewrite decide_False by (intros ->; discriminate Hc).
  rewrite decide_False by (intros ->; discriminate Hc).
  rewrite Hd, Hv. unfold clamp64, int64_min, int64_max in *.
  rewrite (proj2 (Z.ltb_ge n _)), (proj2 (Z.ltb_ge _ n)) by lia. done.
Qed.

Lemma digit_solid b : is_digit b = true → solid b = true.
Proof. unfold is_digit, solid. rewrite !andb_true_iff. lia. Qed.

Lemma digits_ascii s : forallb is_digit s = true → forallb is_ascii_byte s = true.
Proof.
  rewrite !forallb_forall. intros H b Hb%H. unfold is_digit, is_ascii_byte in *.
  apply andb_true_iff in Hb. lia.
Qed.

(** A text that starts and ends with solid bytes has nothing to trim. *)
Lemma trim_space_solid a s b t :
  a :: s = t ++ [b] → solid a = true → solid b = true → trim_space (a :: s) = a :: s.
Proof.
  intros E Ha Hb. unfold trim_space. rewrite trim_left_solid by done. rewrite E.
  apply trim_right_id. rewrite rev_app_distr. cbn [rev app].
  destruct (rev t) as [|y [|z u]]; cbn; auto 6 with stub.
Qed.

Lemma trim_space_label l s :
  match l with a :: _ => solid a = true | [] => True end →
  s ≠ [] → forallb is_digit s = true → trim_space (l ++ s) = l ++ s.
Proof.
  intros Hl Hs Hd. destruct (exists_last Hs) as (t & b & ->).
  assert (solid b = true) as Hb.
  { apply digit_solid. rewrite forallb_app in Hd. cbn in Hd.
    apply andb_true_iff in Hd as [_ Hd]. by apply andb_true_iff in Hd as [? _]. }
  rewrite app_assoc. destruct (l ++ t) as [|a s] eqn:E.
  - by apply (trim_space_solid b [] b []).
  - cbn [app]. apply (trim_space_solid a _ b (a :: s)); [done| |done].
    destruct l as [|x l]; [|by injection E as <- _]. cbn in E. subst t.
    apply digit_solid. cbn in Hd. by apply andb_true_iff in Hd as [? _].
Qed.

(** A trimmed text stays trimmed in front of solid bytes. *)
Lemma trim_space_app_solid p s :
  trim_space p = p → s ≠ [] → forallb solid s = true → trim_space (p ++ s) = p ++ s.
Proof.
  intros Hp Hs Hd. apply trim_space_id in Hp as [Hl _]. apply trim_left_id in Hl.
  assert (∀ b, b ∈ s → solid b = true) as Hb.
  { intros b Hin%list_elem_of_In. rewrite forallb_forall in Hd. by apply Hd. }
  apply trim_space_id. split.
  - apply trim_left_id. destruct s as [|d s]; [done|].
    assert (solid d = true) as Hsd by (apply Hb; left).
    destruct p as [|a [|b [|c p]]]; cbn in *; [| | |exact Hl].
    + destruct s as [|e [|f s]]; cbn; auto 6 with stub.
    + destruct Hl as [Ha _]. destruct s as [|e s]; cbn; auto 6 with stub.
    + destruct Hl as (Ha & Hab & _). auto 6 with stub.
  - apply trim_right_id. destruct (exists_last Hs) as (t & b & ->).
    assert (solid b = true) as Hsb by (apply Hb, elem_of_app; right; left).
    rewrite app_assoc, rev_app_distr. cbn [rev app].
    destruct (rev (p ++ t)) as [|y [|z u]]; cbn; auto 6 with stub.
Qed.

Lemma trim_space_digits p s :
  trim_space p = p → s ≠ [] → forallb is_digit s = true → trim_space (p ++ s) = p ++ s.
Proof.
  intros Hp Hs Hd. apply trim_space_app_solid; [done..|]. rewrite forallb_forall in Hd |- *.
  intros b Hb. by apply digit_solid, Hd.
Qed.

(** *** Hexadecimal and byte order *)
Lemma hex_val_digit n : 0 ≤ n < 16 → hex_val (hex_digit n) = Some n.
Proof.
  intros H. unfold hex_val, hex_digit.
  destruct (n <? 10) eqn:E; rewrite b2z_z2b, Z.mod_small by lia.
  - replace ((48 <=? 48 + n) && (48 + n <=? 57)) with true by lia. f_equal. lia.
  - replace ((48 <=? 87 + n) && (87 + n <=? 57)) with false by lia.
    replace ((97 <=? 87 + n) && (87 + n <=? 102)) with true by lia. f_equal. lia.
Qed.

Lemma hex_decode_encode s : hex_decode (hex_encode s) = Some s.
Proof.
  induction s as [|b s IH]; [done|]. cbn. pose proof (b2z_range b).
  rewrite !hex_val_digit, IH by
    (try apply Z.mod_pos_bound; try split; try apply Z.div_pos;
     try apply Z.div_lt_upper_bound; lia).
  do 2 f_equal. rewrite <- (z2b_b2z b) at 3. f_equal.
  rewrite (Z.div_mod (b2z b) 16) at 3 by lia. lia.
Qed.

Lemma length_hex_encode s : length (hex_encode s) = (2 * length s)%nat.
Proof. induction s; cbn; lia. Qed.

Lemma hex_decode_length s r : hex_decode s = Some r → length s = (2 * length r)%nat.
Proof.
  remember (length s) as n eqn:Hn. revert s Hn r.
  induction n as [n IH] using lt_wf_ind. intros [|a [|b s]] -> r; cbn; try done.
  - by intros [= <-].
  - destruct (hex_val a), (hex_val b), (hex_decode s) eqn:E; try done.
    intros [= <-]. cbn. erewrite (IH (length s)) by (cbn; eauto; lia). lia.
Qed.

Lemma be_val_app s b : be_val (s ++ [b]) = be_val s * 256 + b2z b.
Proof. unfold be_val. by rewrite fold_left_app. Qed.

Lemma be_val_be16 v : 0 ≤ v < 2 ^ 16 → be_val (be16 v) = v.
Proof.
  intros H. unfold be_val, be16. cbn [fold_left]. rewrite !b2z_z2b.
  rewrite (Z.mod_small (v / 256)) by (split; [apply Z.div_pos|apply Z.div_lt_upper_bound]; lia).
  pose proof (Z.div_mod v 256). lia.
Qed.

Lemma be_val_be32 v : 0 ≤ v < 2 ^ 32 → be_val (be32 v) = v.
Proof.
  intros H. unfold be_val, be32. cbn [fold_left]. rewrite !b2z_z2b.
  change (2 ^ 24) with 16777216. change (2 ^ 16) with 65536. change (2 ^ 8) with 256.
  Z.div_mod_to_equations. lia.
Qed.

Lemma length_be16 v : length (be16 v) = 2%nat. Proof. done. Qed.
Lemma length_be32 v : length (be32 v) = 4%nat. Proof. done. Qed.

Lemma be_val_bound s : 0 ≤ be_val s < 256 ^ Z.of_nat (length s).
Proof.
  induction s as [|b s IH] using rev_ind; [done|].
  rewrite be_val_app, length_app. cbn [length]. pose proof (b2z_range b).
  rewrite Nat2Z.inj_add, Z.pow_add_r by lia. lia.
Qed.
