(* ===== verification/GoUtf8.v ===== *)
(** UTF-8 as Go's [range] over a string, [utf8.ValidString],
    [strings.Builder.WriteRune] and [unicode.IsControl] use it. *)
From S2P Require Import Prelude GoStrings.

Definition rune_error : Z := 0xFFFD.

(** The second byte of a sequence is limited by its first; see the accept
    ranges of package [unicode/utf8]. *)
Definition cont (b : byte) : bool := (0x80 <=? b2z b) && (b2z b <=? 0xBF).
Definition seq2 (a b : byte) : bool :=
  (0xC2 <=? b2z a) && (b2z a <=? 0xDF) && cont b.
Definition seq3 (a b c : byte) : bool :=
  let x := b2z a in let y := b2z b in
  (0xE0 <=? x) && (x <=? 0xEF)
  && ((if x =? 0xE0 then 0xA0 else 0x80) <=? y)
  && (y <=? (if x =? 0xED then 0x9F else 0xBF))
  && cont c.
Definition seq4 (a b c d : byte) : bool :=
  let x := b2z a in let y := b2z b in
  (0xF0 <=? x) && (x <=? 0xF4)
  && ((if x =? 0xF0 then 0x90 else 0x80) <=? y)
  && (y <=? (if x =? 0xF4 then 0x8F else 0xBF))
  && cont c && cont d.

Definition cp2 (a b : byte) : Z := (b2z a - 0xC0) * 64 + (b2z b - 0x80).
Definition cp3 (a b c : byte) : Z :=
  (b2z a - 0xE0) * 4096 + (b2z b - 0x80) * 64 + (b2z c - 0x80).
Definition cp4 (a b c d : byte) : Z :=
  (b2z a - 0xF0) * 262144 + (b2z b - 0x80) * 4096 + (b2z c - 0x80) * 64 + (b2z d - 0x80).

(** [for _, r := range s]: an invalid byte yields U+FFFD and is skipped
    alone. *)
Fixpoint runes (s : bytes) : list Z :=
  match s with
  | [] => []
  | a :: s1 =>
      if b2z a <? 128 then b2z a :: runes s1 else
      match s1 with
      | [] => [rune_error]
      | b :: s2 =>
          if seq2 a b then cp2 a b :: runes s2 else
          match s2 with
          | [] => rune_error :: runes s1
          | c :: s3 =>
              if seq3 a b c then cp3 a b c :: runes s3 else
              match s3 with
              | [] => rune_error :: runes s1
              | d :: s4 =>
                  if seq4 a b c d then cp4 a b c d :: runes s4
                  else rune_error :: runes s1
              end
          end
      end
  end.

(** [utf8.ValidString(s)]. *)
Fixpoint valid_utf8 (s : bytes) : bool :=
  match s with
  | [] => true
  | a :: s1 =>
      if b2z a <? 128 then valid_utf8 s1 else
      match s1 with
      | [] => false
      | b :: s2 =>
          if seq2 a b then valid_utf8 s2 else
          match s2 with
          | [] => false
          | c :: s3 =>
              if seq3 a b c then valid_utf8 s3 else
              match s3 with
              | [] => false
              | d :: s4 => seq4 a b c d && valid_utf8 s4
              end
          end
      end
  end.

(** A Unicode scalar value. *)
Definition scalar (r : Z) : bool :=
  (0 <=? r) && (r <? 0x110000) && negb ((0xD800 <=? r) && (r <? 0xE000)).

Definition encode_scalar (r : Z) : bytes :=
  if r <? 0x80 then [z2b r]
  else if r <? 0x800 then [z2b (0xC0 + r / 64); z2b (0x80 + r mod 64)]
  else if r <? 0x10000 then
    [z2b (0xE0 + r / 4096); z2b (0x80 + (r / 64) mod 64); z2b (0x80 + r mod 64)]
  else [z2b (0xF0 + r / 262144); z2b (0x80 + (r / 4096) mod 64);
        z2b (0x80 + (r / 64) mod 64); z2b (0x80 + r mod 64)].

(** [utf8.AppendRune]: anything that is not a scalar value becomes U+FFFD. *)
Definition encode_rune (r : Z) : bytes :=
  encode_scalar (if scalar r then r else rune_error).

Definition encode_runes (l : list Z) : bytes := concat (map encode_rune l).

(** [unicode.IsControl]: category Cc. *)
Definition is_control (r : Z) : bool :=
  ((0 <=? r) && (r <? 0x20)) || ((0x7F <=? r) && (r <? 0xA0)).

(** ** Encoding and decoding *)
Ltac byte_arith :=
  unfold seq2, seq3, seq4, cont, cp2, cp3, cp4, scalar in *;
  rewrite ?b2z_z2b in *; Z.div_mod_to_equations; try lia.

Lemma runes_encode_scalar r s :
  scalar r = true → runes (encode_scalar r ++ s) = r :: runes s.
Proof.
  intros H. unfold encode_scalar.
  destruct (r <? 0x80) eqn:E1; [|destruct (r <? 0x800) eqn:E2; [|destruct (r <? 0x10000) eqn:E3]];
    cbn [app runes].
  - rewrite b2z_z2b, Z.mod_small by byte_arith. by rewrite E1.
  - assert (0 ≤ r / 64 < 32) by byte_arith. assert (0 ≤ r mod 64 < 64) by byte_arith.
    replace (b2z _ <? 128) with false by byte_arith.
    replace (seq2 _ _) with true by byte_arith. f_equal. byte_arith.
  - assert (0 ≤ r / 4096 < 16) by byte_arith.
    assert (0 ≤ (r / 64) mod 64 < 64) by byte_arith. assert (0 ≤ r mod 64 < 64) by byte_arith.
    replace (b2z _ <? 128) with false by byte_arith.
    replace (seq2 _ _) with false by byte_arith.
    replace (seq3 _ _ _) with true.
    2: { symmetry. unfold seq3, cont, scalar in *. rewrite !b2z_z2b.
         rewrite !(Z.mod_small _ 256) by lia.
         destruct (0xE0 + r / 4096 =? 0xE0) eqn:?, (0xE0 + r / 4096 =? 0xED) eqn:?;
           Z.div_mod_to_equations; lia. }
    f_equal. unfold cp3. rewrite !b2z_z2b, !(Z.mod_small _ 256) by lia.
    Z.div_mod_to_equations; lia.
  - assert (0 ≤ r / 262144 < 5) by byte_arith.
    assert (0 ≤ (r / 4096) mod 64 < 64) by byte_arith.
    assert (0 ≤ (r / 64) mod 64 < 64) by byte_arith. assert (0 ≤ r mod 64 < 64) by byte_arith.
    replace (b2z _ <? 128) with false by byte_arith.
    replace (seq2 _ _) with false by byte_arith.
    replace (seq3 _ _ _) with false by (unfold seq3; rewrite !b2z_z2b, !(Z.mod_small _ 256) by lia; lia).
    replace (seq4 _ _ _ _) with true.
    2: { symmetry. unfold seq4, cont, scalar in *. rewrite !b2z_z2b.
         rewrite !(Z.mod_small _ 256) by lia.
         destruct (0xF0 + r / 262144 =? 0xF0) eqn:?, (0xF0 + r / 262144 =? 0xF4) eqn:?;
           Z.div_mod_to_equations; lia. }
    f_equal. unfold cp4. rewrite !b2z_z2b, !(Z.mod_small _ 256) by lia.
    Z.div_mod_to_equations; lia.
Qed.

Lemma scalar_rune_error : scalar rune_error = true. Proof. done. Qed.

Lemma runes_encode_rune r s :
  runes (encode_rune r ++ s) = (if scalar r then r else rune_error) :: runes s.
Proof.
  unfold encode_rune. apply runes_encode_scalar. by destruct (scalar r) eqn:E.
Qed.

(** Decoding what was encoded gives the scalar values back. *)
Lemma runes_encode_runes l :
  forallb scalar l = true → runes (encode_runes l) = l.
Proof.
  induction l as [|r l IH]; [done|]. cbn [forallb]. intros [Hr Hl]%andb_true_iff.
  unfold encode_runes. cbn. rewrite runes_encode_rune, Hr. f_equal. by apply IH.
Qed.

Lemma runes_encode_length l : length (runes (encode_runes l)) = length l.
Proof.
  induction l as [|r l IH]; [done|]. unfold encode_runes. cbn.
  rewrite runes_encode_rune. cbn. f_equal. apply IH.
Qed.

Lemma runes_app_encode l s : runes (encode_runes l ++ s) =
  map (λ r, if scalar r then r else rune_error) l ++ runes s.
Proof.
  induction l as [|r l IH]; [done|]. unfold encode_runes. cbn.
  rewrite <- app_assoc, runes_encode_rune. f_equal. apply IH.
Qed.

Lemma runes_length s : (length (runes s) ≤ length s)%nat.
Proof.
  remember (length s) as n eqn:Hn. revert s Hn.
  induction n as [n IH] using lt_wf_ind. intros [|a s1] ->; [done|].
  assert (∀ t, (length t ≤ length s1)%nat → (length (runes t) ≤ length t)%nat) as IH'.
  { intros t Ht. apply (IH (length t)); cbn; [lia|done]. }
  clear IH. pose proof (IH' s1 ltac:(lia)). cbn [runes length].
  destruct (b2z a <? 128); cbn [length]; [lia|].
  destruct s1 as [|b s2]; cbv match; cbn [length] in *; [lia|].
  pose proof (IH' s2 ltac:(lia)). destruct (seq2 a b); cbn [length]; [lia|].
  destruct s2 as [|c s3]; cbv match; cbn [length] in *; [lia|].
  pose proof (IH' s3 ltac:(lia)). destruct (seq3 a b c); cbn [length]; [lia|].
  destruct s3 as [|d s4]; cbv match; cbn [length] in *; [lia|].
  pose proof (IH' s4 ltac:(lia)). destruct (seq4 a b c d); cbn [length]; lia.
Qed.

(** Every rune of a string is a scalar value. *)
Lemma runes_scalar s : forallb scalar (runes s) = true.
Proof.
  remember (length s) as n eqn:Hn. revert s Hn.
  induction n as [n IH] using lt_wf_ind. intros [|a s1] ->; [done|].
  assert (∀ t, (length t < length (a :: s1))%nat → forallb scalar (runes t) = true) as IH'.
  { intros t Ht. by apply (IH (length t)). }
  clear IH. pose proof (b2z_range a). cbn [runes].
  destruct (b2z a <? 128) eqn:E1.
  { cbn [forallb]. rewrite IH' by (cbn; lia). unfold scalar. lia. }
  destruct s1 as [|b s2]; cbv match; [done|]. pose proof (b2z_range b).
  destruct (seq2 a b) eqn:E2.
  { cbn [forallb]. rewrite IH' by (cbn; lia). unfold seq2, cp2, cont, scalar in *. lia. }
  destruct s2 as [|c s3]; cbv match; [cbn [forallb]; by rewrite IH' by (cbn; lia)|].
  pose proof (b2z_range c).
  destruct (seq3 a b c) eqn:E3.
  { cbn [forallb]. rewrite IH' by (cbn; lia). clear IH'. unfold seq3, cp3, cont, scalar in *.
    destruct (b2z a =? 0xE0) eqn:?, (b2z a =? 0xED) eqn:?; lia. }
  destruct s3 as [|d s4]; cbv match; [cbn [forallb]; by rewrite IH' by (cbn; lia)|].
  destruct (seq4 a b c d) eqn:E4; cbn [forallb]; rewrite IH' by (cbn; lia); [|done].
  clear IH'. pose proof (b2z_range d). unfold seq4, cp4, cont, scalar in *.
  destruct (b2z a =? 0xF0) eqn:?, (b2z a =? 0xF4) eqn:?; lia.
Qed.

(** *** Validity *)
Lemma valid_utf8_encode_scalar r s :
  scalar r = true → valid_utf8 (encode_scalar r ++ s) = valid_utf8 s.
Proof.
  intros H. unfold encode_scalar.
  destruct (r <? 0x80) eqn:E1; [|destruct (r <? 0x800) eqn:E2; [|destruct (r <? 0x10000) eqn:E3]];
    cbn [app valid_utf8].
  - rewrite b2z_z2b, Z.mod_small by byte_arith. by rewrite E1.
  - assert (0 ≤ r / 64 < 32) by byte_arith. assert (0 ≤ r mod 64 < 64) by byte_arith.
    replace (b2z _ <? 128) with false by byte_arith.
    by replace (seq2 _ _) with true by byte_arith.
  - assert (0 ≤ r / 4096 < 16) by byte_arith.
    assert (0 ≤ (r / 64) mod 64 < 64) by byte_arith. assert (0 ≤ r mod 64 < 64) by byte_arith.
    replace (b2z _ <? 128) with false by byte_arith.
    replace (seq2 _ _) with false by byte_arith.
    replace (seq3 _ _ _) with true; [done|].
    symmetry. unfold seq3, cont, scalar in *. rewrite !b2z_z2b, !(Z.mod_small _ 256) by lia.
    destruct (0xE0 + r / 4096 =? 0xE0) eqn:?, (0xE0 + r / 4096 =? 0xED) eqn:?;
      Z.div_mod_to_equations; lia.
  - assert (0 ≤ r / 262144 < 5) by byte_arith.
    assert (0 ≤ (r / 4096) mod 64 < 64) by byte_arith.
    assert (0 ≤ (r / 64) mod 64 < 64) by byte_arith. assert (0 ≤ r mod 64 < 64) by byte_arith.
    replace (b2z _ <? 128) with false by byte_arith.
    replace (seq2 _ _) with false by byte_arith.
    replace (seq3 _ _ _) with false by (unfold seq3; rewrite !b2z_z2b, !(Z.mod_small _ 256) by lia; lia).
    replace (seq4 _ _ _ _) with true; [done|].
    symmetry. unfold seq4, cont, scalar in *. rewrite !b2z_z2b, !(Z.mod_small _ 256) by lia.
    destruct (0xF0 + r / 262144 =? 0xF0) eqn:?, (0xF0 + r / 262144 =? 0xF4) eqn:?;
      Z.div_mod_to_equations; lia.
Qed.

Lemma valid_utf8_encode_rune r s :
  valid_utf8 (encode_rune r ++ s) = valid_utf8 s.
Proof.
  unfold encode_rune. apply valid_utf8_encode_scalar. by destruct (scalar r) eqn:E.
Qed.

Lemma valid_utf8_encode_runes l : valid_utf8 (encode_runes l) = true.
Proof.
  induction l as [|r l IH]; [done|]. unfold encode_runes. cbn.
  by rewrite valid_utf8_encode_rune.
Qed.

(** An ASCII string is the sequence of its bytes. *)
Lemma runes_ascii s : forallb is_ascii_byte s = true → runes s = map b2z s.
Proof.
  induction s as [|a s IH]; [done|]. cbn [forallb]. intros [Ha Hs]%andb_true_iff.
  cbn [runes map]. unfold is_ascii_byte in Ha. rewrite Ha. f_equal. auto.
Qed.
