(* ===== verification/Md5.v ===== *)
(** The MD5 digest of package [crypto/md5] (RFC 1321), which the program uses
    once, to derive the public default adoption key. *)
From S2P Require Import Prelude GoStrings.

Definition w32 (z : Z) : Z := z mod 2 ^ 32.
Definition rotl32 (x n : Z) : Z :=
  Z.lor (w32 (Z.shiftl x n)) (Z.shiftr x (32 - n)).

Definition md5_k : list Z :=
  [0xD76AA478; 0xE8C7B756; 0x242070DB; 0xC1BDCEEE; 0xF57C0FAF; 0x4787C62A;
   0xA8304613; 0xFD469501; 0x698098D8; 0x8B44F7AF; 0xFFFF5BB1; 0x895CD7BE;
   0x6B901122; 0xFD987193; 0xA679438E; 0x49B40821; 0xF61E2562; 0xC040B340;
   0x265E5A51; 0xE9B6C7AA; 0xD62F105D; 0x2441453; 0xD8A1E681; 0xE7D3FBC8;
   0x21E1CDE6; 0xC33707D6; 0xF4D50D87; 0x455A14ED; 0xA9E3E905; 0xFCEFA3F8;
   0x676F02D9; 0x8D2A4C8A; 0xFFFA3942; 0x8771F681; 0x6D9D6122; 0xFDE5380C;
   0xA4BEEA44; 0x4BDECFA9; 0xF6BB4B60; 0xBEBFBC70; 0x289B7EC6; 0xEAA127FA;
   0xD4EF3085; 0x4881D05; 0xD9D4D039; 0xE6DB99E5; 0x1FA27CF8; 0xC4AC5665;
   0xF4292244; 0x432AFF97; 0xAB9423A7; 0xFC93A039; 0x655B59C3; 0x8F0CCC92;
   0xFFEFF47D; 0x85845DD1; 0x6FA87E4F; 0xFE2CE6E0; 0xA3014314; 0x4E0811A1;
   0xF7537E82; 0xBD3AF235; 0x2AD7D2BB; 0xEB86D391].
Definition md5_s : list Z :=
  [7; 12; 17; 22; 7; 12; 17; 22; 7; 12; 17; 22; 7; 12; 17; 22;
   5; 9; 14; 20; 5; 9; 14; 20; 5; 9; 14; 20; 5; 9; 14; 20;
   4; 11; 16; 23; 4; 11; 16; 23; 4; 11; 16; 23; 4; 11; 16; 23;
   6; 10; 15; 21; 6; 10; 15; 21; 6; 10; 15; 21; 6; 10; 15; 21].

(** Little-endian words. *)
Definition le32_val (s : bytes) : Z := be_val (rev s).
Definition le32 (v : Z) : bytes := rev (be32 v).

Fixpoint words (fuel : nat) (s : bytes) : list Z :=
  match fuel with
  | O => []
  | S f => le32_val (take 4 s) :: words f (drop 4 s)
  end.

Definition md5_round (m : list Z) (i : Z) (st : Z * Z * Z * Z) : Z * Z * Z * Z :=
  let '(a, b, c, d) := st in
  let nb x := Z.lxor x (2 ^ 32 - 1) in
  let '(f, g) :=
    if i <? 16 then (Z.lor (Z.land b c) (Z.land (nb b) d), i)
    else if i <? 32 then (Z.lor (Z.land d b) (Z.land (nb d) c), (5 * i + 1) mod 16)
    else if i <? 48 then (Z.lxor b (Z.lxor c d), (3 * i + 5) mod 16)
    else (Z.lxor c (Z.lor b (nb d)), (7 * i) mod 16) in
  let k := nth (Z.to_nat i) md5_k 0 in
  let w := nth (Z.to_nat g) m 0 in
  let s := nth (Z.to_nat i) md5_s 0 in
  (d, w32 (b + rotl32 (w32 (a + f + k + w)) s), b, c).

Definition md5_block (st : Z * Z * Z * Z) (block : bytes) : Z * Z * Z * Z :=
  let m := words 16 block in
  let '(a, b, c, d) := st in
  let '(a', b', c', d') :=
    fold_left (λ st i, md5_round m (Z.of_nat i) st) (seq 0 64) st in
  (w32 (a + a'), w32 (b + b'), w32 (c + c'), w32 (d + d')).

Fixpoint md5_blocks (fuel : nat) (st : Z * Z * Z * Z) (s : bytes) : Z * Z * Z * Z :=
  match fuel with
  | O => st
  | S f => match s with
           | [] => st
           | _ => md5_blocks f (md5_block st (take 64 s)) (drop 64 s)
           end
  end.

(** One 0x80 byte, zeros up to 56 modulo 64, and the bit length. *)
Definition md5_pad (s : bytes) : bytes :=
  let n := zlen s in
  let bits := (8 * n) mod 2 ^ 64 in
  s ++ z2b 0x80 :: repeat x00 (Z.to_nat ((55 - n) mod 64))
    ++ le32 (bits mod 2 ^ 32) ++ le32 (bits / 2 ^ 32).

(** [md5.Sum(s)]. *)
Definition md5_sum (s : bytes) : bytes :=
  let p := md5_pad s in
  let '(a, b, c, d) :=
    md5_blocks (length p) (0x67452301, 0xEFCDAB89, 0x98BADCFE, 0x10325476) p in
  le32 a ++ le32 b ++ le32 c ++ le32 d.

(** The RFC 1321 test suite. *)
Example md5_empty : hex_encode (md5_sum []) = B "d41d8cd98f00b204e9800998ecf8427e".
Proof. vm_compute. reflexivity. Qed.
Example md5_abc : hex_encode (md5_sum (B "abc")) = B "900150983cd24fb0d6963f7d28e17f72".
Proof. vm_compute. reflexivity. Qed.
Example md5_two_blocks :
  hex_encode (md5_sum (B "12345678901234567890123456789012345678901234567890123456789012345678901234567890"))
  = B "57edf4a22be3c955ac49da2e2107b67a".
Proof. vm_compute. reflexivity. Qed.

Lemma md5_sum_length s : length (md5_sum s) = 16%nat.
Proof.
  unfold md5_sum. destruct (md5_blocks _ _ _) as [[[a b] c] d].
  by rewrite !length_app.
Qed.
