(* ===== verification/GoJson.v ===== *)
(** The parts of package [encoding/json] the program relies on: the byte
    scanner, [Decoder.Token], [Decoder.More], [Decoder.Decode] into a
    [RawMessage], and [Unmarshal] into strings, integers, booleans, slices and
    maps of raw messages.

    The scanner is the library's own state machine, one transition per byte
    and an explicit stack of open composites, so reading a value is structural
    recursion on the input. *)
From S2P Require Import Prelude GoStrings GoUtf8.

(** ** The scanner *)
Inductive parse_state := ParseObjectKey | ParseObjectValue | ParseArrayValue.

Inductive scan_state :=
| BeginValueOrEmpty | BeginValue | BeginStringOrEmpty | BeginString | EndValue
| InString | InStringEsc | InStringEscU (left : nat)
| Neg | Num1 | Num0 | Dot | Dot0 | Exp | ExpSign | Exp0
| InLiteral (rest : bytes).

Inductive scan_step :=
| SCont (st : scan_state) (ps : list parse_state)
| SClose                    (* this byte closes the outermost composite *)
| SEnd                      (* the value ended before this byte *)
| SErr.

(** JSON text with single quotes for double ones, for examples. *)
Definition J (s : String.string) : bytes :=
  map (λ b, if decide (b = x27) then x22 else b) (B s).
Arguments J s%_stdpp_scope.

Definition json_ws (b : byte) : bool := bool_decide (b ∈ [x20; x09; x0d; x0a]).
Definition is_hex (b : byte) : bool := match hex_val b with Some _ => true | None => false end.
Definition max_nesting_depth : Z := 10000.

Definition push_state (ps : list parse_state) (p : parse_state) (st : scan_state) : scan_step :=
  if max_nesting_depth <? zlen (p :: ps) then SErr else SCont st (p :: ps).

Definition step_end_value (ps : list parse_state) (c : byte) : scan_step :=
  match ps with
  | [] => SEnd
  | p :: ps' =>
      if json_ws c then SCont EndValue ps else
      match p with
      | ParseObjectKey =>
          if decide (c = x3a) then SCont BeginValue (ParseObjectValue :: ps') else SErr
      | ParseObjectValue =>
          if decide (c = x2c) then SCont BeginString (ParseObjectKey :: ps')
          else if decide (c = x7d) then
            match ps' with [] => SClose | _ => SCont EndValue ps' end
          else SErr
      | ParseArrayValue =>
          if decide (c = x2c) then SCont BeginValue ps
          else if decide (c = x5d) then
            match ps' with [] => SClose | _ => SCont EndValue ps' end
          else SErr
      end
  end.

Definition step_begin_value (ps : list parse_state) (c : byte) : scan_step :=
  if json_ws c then SCont BeginValue ps
  else if decide (c = x7b) then push_state ps ParseObjectKey BeginStringOrEmpty
  else if decide (c = x5b) then push_state ps ParseArrayValue BeginValueOrEmpty
  else if decide (c = x22) then SCont InString ps
  else if decide (c = x2d) then SCont Neg ps
  else if decide (c = x30) then SCont Num0 ps
  else if decide (c = x74) then SCont (InLiteral (B "rue")) ps
  else if decide (c = x66) then SCont (InLiteral (B "alse")) ps
  else if decide (c = x6e) then SCont (InLiteral (B "ull")) ps
  else if is_digit c then SCont Num1 ps
  else SErr.

Definition step_begin_string (ps : list parse_state) (c : byte) : scan_step :=
  if json_ws c then SCont BeginString ps
  else if decide (c = x22) then SCont InString ps else SErr.

Definition step_num0 (ps : list parse_state) (c : byte) : scan_step :=
  if decide (c = x2e) then SCont Dot ps
  else if bool_decide (c ∈ [x65; x45]) then SCont Exp ps
  else step_end_value ps c.

Definition step_exp_sign (ps : list parse_state) (c : byte) : scan_step :=
  if is_digit c then SCont Exp0 ps else SErr.

Definition step (st : scan_state) (ps : list parse_state) (c : byte) : scan_step :=
  match st with
  | BeginValueOrEmpty =>
      if json_ws c then SCont BeginValueOrEmpty ps
      else if decide (c = x5d) then step_end_value ps c
      else step_begin_value ps c
  | BeginValue => step_begin_value ps c
  | BeginStringOrEmpty =>
      if json_ws c then SCont BeginStringOrEmpty ps
      else if decide (c = x7d) then
        step_end_value (match ps with _ :: ps' => ParseObjectValue :: ps' | [] => [] end) c
      else step_begin_string ps c
  | BeginString => step_begin_string ps c
  | EndValue => step_end_value ps c
  | InString =>
      if decide (c = x22) then SCont EndValue ps
      else if decide (c = x5c) then SCont InStringEsc ps
      else if b2z c <? 0x20 then SErr
      else SCont InString ps
  | InStringEsc =>
      if bool_decide (c ∈ [x62; x66; x6e; x72; x74; x5c; x2f; x22]) then SCont InString ps
      else if decide (c = x75) then SCont (InStringEscU 3) ps
      else SErr
  | InStringEscU n =>
      if is_hex c then
        match n with O => SCont InString ps | S n' => SCont (InStringEscU n') ps end
      else SErr
  | Neg =>
      if decide (c = x30) then SCont Num0 ps
      else if is_digit c then SCont Num1 ps else SErr
  | Num1 => if is_digit c then SCont Num1 ps else step_num0 ps c
  | Num0 => step_num0 ps c
  | Dot => if is_digit c then SCont Dot0 ps else SErr
  | Dot0 =>
      if is_digit c then SCont Dot0 ps
      else if bool_decide (c ∈ [x65; x45]) then SCont Exp ps
      else step_end_value ps c
  | Exp =>
      if bool_decide (c ∈ [x2b; x2d]) then SCont ExpSign ps else step_exp_sign ps c
  | ExpSign => step_exp_sign ps c
  | Exp0 => if is_digit c then SCont Exp0 ps else step_end_value ps c
  | InLiteral rest =>
      match rest with
      | [] => SErr
      | [x] => if decide (c = x) then SCont EndValue ps else SErr
      | x :: rest' => if decide (c = x) then SCont (InLiteral rest') ps else SErr
      end
  end.

(** The end of the input ends a value the way a space does. *)
Definition scan_eof (st : scan_state) (ps : list parse_state) : bool :=
  match step st ps x20 with SEnd => true | _ => false end.

Fixpoint scan (st : scan_state) (ps : list parse_state) (s : bytes) : option (bytes * bytes) :=
  match s with
  | [] => if scan_eof st ps then Some ([], []) else None
  | c :: s' =>
      match step st ps c with
      | SCont st' ps' =>
          match scan st' ps' s' with
          | Some (raw, rest) => Some (c :: raw, rest)
          | None => None
          end
      | SClose => Some ([c], s')
      | SEnd => Some ([], s)
      | SErr => None
      end
  end.

Fixpoint skip_ws (s : bytes) : bytes :=
  match s with
  | c :: s' => if json_ws c then skip_ws s' else s
  | [] => []
  end.

(** [Decoder.readValue]: the next value, without the white space before it,
    and the unread input. *)
Definition read_value (s : bytes) : option (bytes * bytes) :=
  scan BeginValue [] (skip_ws s).

(** [checkValid] followed by the value without surrounding white space. *)
Definition whole_value (s : bytes) : option bytes :=
  match read_value s with
  | Some (v, rest) => if forallb json_ws rest then Some v else None
  | None => None
  end.

(** ** Strings *)

(** [getu4] after the escape's [u]. *)
Definition hex4 (a b c d : byte) : option Z :=
  match hex_val a, hex_val b, hex_val c, hex_val d with
  | Some w, Some x, Some y, Some z => Some (((w * 16 + x) * 16 + y) * 16 + z)
  | _, _, _, _ => None
  end.

Definition is_surrogate (r : Z) : bool := (0xD800 <=? r) && (r <? 0xE000).

(** [utf16.DecodeRune], [None] for U+FFFD. *)
Definition surrogate_pair (r1 r2 : Z) : option Z :=
  if (0xD800 <=? r1) && (r1 <? 0xDC00) && (0xDC00 <=? r2) && (r2 <? 0xE000)
  then Some ((r1 - 0xD800) * 1024 + (r2 - 0xDC00) + 0x10000) else None.

Definition escape_rune (c : byte) : option Z :=
  if bool_decide (c ∈ [x22; x5c; x2f]) then Some (b2z c)
  else if decide (c = x62) then Some 8
  else if decide (c = x66) then Some 12
  else if decide (c = x6e) then Some 10
  else if decide (c = x72) then Some 13
  else if decide (c = x74) then Some 9
  else None.

(** [unquoteBytes] behind the opening quote, as the runes it appends. *)
Fixpoint unquote_runes (s : bytes) : list Z :=
  match s with
  | [] => []
  | a :: s1 =>
      if decide (a = x22) then [] else
      if decide (a = x5c) then
        match s1 with
        | [] => []
        | e :: s2 =>
            match escape_rune e with
            | Some r => r :: unquote_runes s2
            | None =>
                match s2 with
                | h1 :: h2 :: h3 :: h4 :: s6 =>
                    match hex4 h1 h2 h3 h4 with
                    | None => []
                    | Some r =>
                        if is_surrogate r then
                          match s6 with
                          | b :: u :: g1 :: g2 :: g3 :: g4 :: s12 =>
                              match (if decide (b = x5c ∧ u = x75) then hex4 g1 g2 g3 g4 else None) with
                              | Some r2 =>
                                  match surrogate_pair r r2 with
                                  | Some d => d :: unquote_runes s12
                                  | None => rune_error :: unquote_runes s6
                                  end
                              | None => rune_error :: unquote_runes s6
                              end
                          | _ => rune_error :: unquote_runes s6
                          end
                        else r :: unquote_runes s6
                    end
                | _ => []
                end
            end
        end
      else if b2z a <? 128 then b2z a :: unquote_runes s1 else
      match s1 with
      | [] => [rune_error]
      | b :: s2 =>
          if seq2 a b then cp2 a b :: unquote_runes s2 else
          match s2 with
          | [] => rune_error :: unquote_runes s1
          | c :: s3 =>
              if seq3 a b c then cp3 a b c :: unquote_runes s3 else
              match s3 with
              | [] => rune_error :: unquote_runes s1
              | d :: s4 =>
                  if seq4 a b c d then cp4 a b c d :: unquote_runes s4
                  else rune_error :: unquote_runes s1
              end
          end
      end
  end.

(** The string a string literal denotes. *)
Definition unquote (raw : bytes) : bytes :=
  match raw with
  | _ :: s => encode_runes (unquote_runes s)
  | [] => []
  end.

(** ** [Unmarshal]

    The outer option is Go's error; the inner one is JSON null, which leaves
    the destination at its zero value. *)
Definition unmarshal_string (data : bytes) : option (option bytes) :=
  match whole_value data with
  | Some (c :: t) =>
      if decide (c = x22) then Some (Some (unquote (c :: t)))
      else if decide (c = x6e) then Some None
      else None
  | _ => None
  end.

Definition unmarshal_int (data : bytes) : option (option Z) :=
  match whole_value data with
  | Some (c :: t) =>
      if decide (c = x6e) then Some None
      else if is_digit c || bool_decide (c = x2d) then Some <$> atoi (c :: t)
      else None
  | _ => None
  end.

Definition unmarshal_bool (data : bytes) : option (option bool) :=
  match whole_value data with
  | Some (c :: _) =>
      if decide (c = x6e) then Some None
      else if decide (c = x74) then Some (Some true)
      else if decide (c = x66) then Some (Some false)
      else None
  | _ => None
  end.

(** The elements behind an opening bracket. *)
Fixpoint array_elems (fuel : nat) (s : bytes) : option (list bytes) :=
  match fuel with
  | O => None
  | S f =>
      match read_value s with
      | None => None
      | Some (v, rest) =>
          match skip_ws rest with
          | c :: rest' =>
              if decide (c = x2c) then cons v <$> array_elems f rest'
              else if decide (c = x5d) then Some [v] else None
          | [] => None
          end
      end
  end.

Definition unmarshal_array (data : bytes) : option (option (list bytes)) :=
  match whole_value data with
  | Some (c :: t) =>
      if decide (c = x6e) then Some None
      else if decide (c = x5b) then
        if decide (skip_ws t = [x5d]) then Some (Some [])
        else Some <$> array_elems (length t) t
      else None
  | _ => None
  end.

(** The members behind an opening brace, in order. *)
Fixpoint object_members (fuel : nat) (s : bytes) : option (list (bytes * bytes)) :=
  match fuel with
  | O => None
  | S f =>
      match read_value s with
      | None => None
      | Some (k, rest) =>
          match skip_ws rest with
          | c :: rest' =>
              if decide (c = x3a) then
                match read_value rest' with
                | None => None
                | Some (v, rest2) =>
                    match skip_ws rest2 with
                    | c2 :: rest3 =>
                        if decide (c2 = x2c) then cons (unquote k, v) <$> object_members f rest3
                        else if decide (c2 = x7d) then Some [(unquote k, v)] else None
                    | [] => None
                    end
                end
              else None
          | [] => None
          end
      end
  end.

Definition unmarshal_object (data : bytes) : option (option (list (bytes * bytes))) :=
  match whole_value data with
  | Some (c :: t) =>
      if decide (c = x6e) then Some None
      else if decide (c = x7b) then
        if decide (skip_ws t = [x7d]) then Some (Some [])
        else Some <$> object_members (length t) t
      else None
  | _ => None
  end.

(** A later duplicate key replaces an earlier one in a Go map. *)
Fixpoint member_lookup (k : bytes) (l : list (bytes * bytes)) : option bytes :=
  match l with
  | [] => None
  | (k', v) :: l' =>
      match member_lookup k l' with
      | Some w => Some w
      | None => if decide (k' = k) then Some v else None
      end
  end.

(** ** The token stream *)
Inductive token_state :=
| TokenTopValue | TokenArrayStart | TokenArrayValue | TokenArrayComma
| TokenObjectStart | TokenObjectKey | TokenObjectColon | TokenObjectValue | TokenObjectComma.

#[export] Instance token_state_eq_dec : EqDecision token_state.
Proof. solve_decision. Defined.

Inductive token :=
| TDelim (c : byte)
| TString (s : bytes)
| TOther (lit : bytes).

Record decoder := Decoder {
  d_input : bytes;
  d_state : token_state;
  d_stack : list token_state;
}.

Definition new_decoder (data : bytes) : decoder := Decoder data TokenTopValue [].

Inductive token_result :=
| TokEOF
| TokErr
| Tok (t : token) (d : decoder).

Definition token_value_allowed (st : token_state) : bool :=
  match st with
  | TokenTopValue | TokenArrayStart | TokenArrayValue | TokenObjectValue => true
  | _ => false
  end.

Definition token_value_end (st : token_state) : token_state :=
  match st with
  | TokenArrayStart | TokenArrayValue => TokenArrayComma
  | TokenObjectValue => TokenObjectComma
  | _ => st
  end.

Definition open_token (d : decoder) (rest : bytes) (c : byte) (st : token_state) : token_result :=
  if token_value_allowed (d_state d)
  then Tok (TDelim c) (Decoder rest st (d_state d :: d_stack d)) else TokErr.

Definition close_token (d : decoder) (rest : bytes) (c : byte) (ok : list token_state) : token_result :=
  if bool_decide (d_state d ∈ ok) then
    match d_stack d with
    | st :: stack => Tok (TDelim c) (Decoder rest (token_value_end st) stack)
    | [] => TokErr
    end
  else TokErr.

Definition value_token (d : decoder) (s : bytes) : token_result :=
  if token_value_allowed (d_state d) then
    match read_value s with
    | None => TokErr
    | Some (v, rest) =>
        let d' := Decoder rest (token_value_end (d_state d)) (d_stack d) in
        match v with
        | c :: _ => if decide (c = x22) then Tok (TString (unquote v)) d' else Tok (TOther v) d'
        | [] => TokErr
        end
    end
  else TokErr.

Definition key_token (d : decoder) (s : bytes) : token_result :=
  match read_value s with
  | None => TokErr
  | Some (v, rest) => Tok (TString (unquote v)) (Decoder rest TokenObjectColon (d_stack d))
  end.

(** [Decoder.Token]; separators are consumed in passing. *)
Fixpoint next_token (fuel : nat) (d : decoder) : token_result :=
  match fuel with
  | O => TokErr
  | S f =>
      match skip_ws (d_input d) with
      | [] => TokEOF
      | c :: rest =>
          if decide (c = x5b) then open_token d rest c TokenArrayStart
          else if decide (c = x5d) then close_token d rest c [TokenArrayStart; TokenArrayComma]
          else if decide (c = x7b) then open_token d rest c TokenObjectStart
          else if decide (c = x7d) then close_token d rest c [TokenObjectStart; TokenObjectComma]
          else if decide (c = x3a) then
            if decide (d_state d = TokenObjectColon)
            then next_token f (Decoder rest TokenObjectValue (d_stack d)) else TokErr
          else if decide (c = x2c) then
            if decide (d_state d = TokenArrayComma)
            then next_token f (Decoder rest TokenArrayValue (d_stack d))
            else if decide (d_state d = TokenObjectComma)
            then next_token f (Decoder rest TokenObjectKey (d_stack d)) else TokErr
          else if decide (c = x22 ∧ d_state d ∈ [TokenObjectStart; TokenObjectKey])
          then key_token d (c :: rest)
          else value_token d (c :: rest)
      end
  end.

Definition decoder_token (d : decoder) : token_result :=
  next_token (S (length (d_input d))) d.

Arguments decoder_token : simpl never.

(** [Decoder.More]. *)
Definition decoder_more (d : decoder) : bool :=
  match skip_ws (d_input d) with
  | [] => false
  | c :: _ => negb (bool_decide (c ∈ [x5d; x7d]))
  end.

(** [Decoder.Decode] into a [RawMessage] behind an object key. *)
Definition decode_member_value (d : decoder) : option (bytes * decoder) :=
  match skip_ws (d_input d) with
  | c :: rest =>
      if decide (d_state d = TokenObjectColon ∧ c = x3a) then
        match read_value rest with
        | Some (v, rest') => Some (v, Decoder rest' TokenObjectComma (d_stack d))
        | None => None
        end
      else None
  | [] => None
  end.

(** ** Every value and every token consumes input *)
Lemma scan_app st ps s v rest : scan st ps s = Some (v, rest) → s = v ++ rest.
Proof.
  revert st ps v. induction s as [|c s IH]; intros st ps v; cbn.
  - destruct (scan_eof st ps); [|done]. by intros [= <- <-].
  - destruct (step st ps c) as [st' ps'| | |]; try done.
    + destruct (scan st' ps' s) as [[v' r]|] eqn:E; [|done]. intros [= <- <-].
      cbn. f_equal. by eapply IH.
    + by intros [= <- <-].
    + by intros [= <- <-].
Qed.

Lemma step_begin_value_progress ps c :
  json_ws c = false → step_begin_value ps c ≠ SEnd ∧ step_begin_value ps c ≠ SClose.
Proof.
  intros Hc. unfold step_begin_value, push_state. rewrite Hc.
  repeat case_match; done.
Qed.

Lemma skip_ws_head s : match skip_ws s with [] => True | c :: _ => json_ws c = false end.
Proof. induction s as [|c s IH]; cbn; [done|]. by destruct (json_ws c) eqn:E. Qed.

Lemma skip_ws_length s : (length (skip_ws s) ≤ length s)%nat.
Proof. induction s as [|c s IH]; cbn; [done|]. destruct (json_ws c); cbn; lia. Qed.

Lemma read_value_shorter s v rest :
  read_value s = Some (v, rest) → skip_ws s = v ++ rest ∧ v ≠ [].
Proof.
  unfold read_value. intros Hs. split; [by eapply scan_app|].
  pose proof (skip_ws_head s) as Hh. destruct (skip_ws s) as [|c t]; [done|].
  cbn in Hs. destruct (step_begin_value_progress [] c Hh).
  destruct (step_begin_value [] c) as [st' ps'| | |]; try done.
  destruct (scan st' ps' t) as [[v' r]|]; [|done]. by injection Hs as <- _.
Qed.

Lemma read_value_length s v rest :
  read_value s = Some (v, rest) → (length rest < length s)%nat.
Proof.
  intros (Hs & Hv)%read_value_shorter. pose proof (skip_ws_length s) as Hl.
  rewrite Hs, length_app in Hl. destruct v; [done|]. cbn in Hl. lia.
Qed.

Lemma next_token_length fuel d t d' :
  next_token fuel d = Tok t d' → (length (d_input d') < length (d_input d))%nat.
Proof.
  revert d. induction fuel as [|f IH]; intros d; cbn [next_token]; [done|].
  pose proof (skip_ws_length (d_input d)) as Hl.
  destruct (skip_ws (d_input d)) as [|c rest]; [done|]. cbn [length] in Hl.
  unfold open_token, close_token, key_token, value_token.
  repeat case_decide; repeat case_match; intros Ht; try done;
    try (injection Ht as <- <-; cbn; lia);
    try (apply IH in Ht; cbn in Ht; lia);
    match goal with E : read_value _ = Some _ |- _ =>
      apply read_value_length in E; cbn [length] in E; injection Ht as <- <-; cbn; lia end.
Qed.

Lemma decoder_token_length d t d' :
  decoder_token d = Tok t d' → (length (d_input d') < length (d_input d))%nat.
Proof. apply next_token_length. Qed.

Lemma decode_member_length d v d' :
  decode_member_value d = Some (v, d') → (length (d_input d') < length (d_input d))%nat.
Proof.
  unfold decode_member_value. pose proof (skip_ws_length (d_input d)) as Hl.
  destruct (skip_ws (d_input d)) as [|c rest]; [done|]. case_decide; [|done].
  destruct (read_value rest) as [[v' r]|] eqn:E; [|done]. intros [= <- <-]. cbn in *.
  apply read_value_length in E. lia.
Qed.

(** Fuel beyond the length of the input changes nothing. *)
Lemma next_token_fuel f g d :
  (length (d_input d) < f)%nat → (length (d_input d) < g)%nat → next_token f d = next_token g d.
Proof.
  revert g d. induction f as [|f IH]; intros [|g] d Hf Hg; [lia..|]. cbn [next_token].
  pose proof (skip_ws_length (d_input d)) as Hl.
  destruct (skip_ws (d_input d)) as [|c rest]; [done|]. cbn [length] in Hl.
  repeat case_decide; try done; apply IH; cbn; lia.
Qed.

(** The tokens of a decoder, up to the end of the input. *)
Inductive token_stream : decoder → list token → Prop :=
| stream_end d : decoder_token d = TokEOF → token_stream d []
| stream_tok d t d' ts :
    decoder_token d = Tok t d' → token_stream d' ts → token_stream d (t :: ts).

(** The members of an object as [More], [Token] and [Decode] deliver them. *)
Inductive members : decoder → list (bytes * bytes) → decoder → Prop :=
| members_end d : decoder_more d = false → members d [] d
| members_more d k v d1 d2 l d' :
    decoder_more d = true → decoder_token d = Tok (TString k) d1 →
    decode_member_value d1 = Some (v, d2) → members d2 l d' → members d ((k, v) :: l) d'.
