(* ===== verification/GoUrl.v ===== *)
(** [url.Parse] of package [net/url], as far as the adoption allowlist looks at
    its result: the scheme, the opaque part, the user information, the host,
    the query and the fragment, and every error it can return. *)
From S2P Require Import Prelude GoStrings.

Record URL := MkURL {
  u_scheme : bytes;
  u_opaque : bytes;
  u_user : bool;            (* [User != nil] *)
  u_host : bytes;
  u_raw_query : bytes;
  u_force_query : bool;
  u_fragment : bytes;
}.

(** How the library decodes one component. *)
Inductive encoding := EncodePath | EncodeUserPassword | EncodeHost | EncodeZone | EncodeFragment.

#[export] Instance encoding_eq_dec : EqDecision encoding.
Proof. solve_decision. Defined.

Definition is_alpha (b : byte) : bool :=
  let x := b2z b in ((97 <=? x) && (x <=? 122)) || ((65 <=? x) && (x <=? 90)).
Definition is_alnum (b : byte) : bool := is_alpha b || is_digit b.

(** [stringContainsCTLByte]. *)
Definition has_ctl (s : bytes) : bool :=
  existsb (λ b, (b2z b <? 0x20) || (b2z b =? 0x7F)) s.

(** [shouldEscape] for the host modes, the only ones that can fail on it. *)
Definition host_should_escape (b : byte) : bool :=
  negb (is_alnum b
        || bool_decide (b ∈ B "!$&'()*+,;=:[]<>" ++ [x22])
        || bool_decide (b ∈ B "-_.~")).

(** [unescape(s, mode)], [None] on error.  Only percent escapes and invalid
    host bytes fail; [+] is a space in query components alone. *)
Fixpoint unescape (mode : encoding) (s : bytes) : option bytes :=
  match s with
  | [] => Some []
  | c :: t =>
      if decide (c = x25) then
        match t with
        | h1 :: h2 :: t' =>
            match hex_val h1, hex_val h2 with
            | Some a, Some b =>
                let v := a * 16 + b in
                if decide (mode = EncodeHost) then
                  if (a <? 8) && negb (v =? 0x25) then None
                  else cons (z2b v) <$> unescape mode t'
                else if decide (mode = EncodeZone) then
                  if negb (v =? 0x25) && negb (v =? 0x20) && host_should_escape (z2b v)
                  then None else cons (z2b v) <$> unescape mode t'
                else cons (z2b v) <$> unescape mode t'
            | _, _ => None
            end
        | _ => None
        end
      else if bool_decide (mode ∈ [EncodeHost; EncodeZone]) && (b2z c <? 128) && host_should_escape c
      then None
      else cons c <$> unescape mode t
  end.

(** [getScheme]: [None] on error, an empty scheme when there is none. *)
Fixpoint get_scheme_at (first : bool) (acc s all : bytes) : option (bytes * bytes) :=
  match s with
  | [] => Some ([], all)
  | c :: t =>
      if is_alpha c then get_scheme_at false (c :: acc) t all
      else if is_digit c || bool_decide (c ∈ [x2b; x2d; x2e]) then
        if first then Some ([], all) else get_scheme_at false (c :: acc) t all
      else if decide (c = x3a) then
        if first then None else Some (rev acc, t)
      else Some ([], all)
  end.
Definition get_scheme (s : bytes) : option (bytes * bytes) := get_scheme_at true [] s s.

(** [validOptionalPort]. *)
Definition valid_optional_port (port : bytes) : bool :=
  match port with
  | [] => true
  | c :: t => bool_decide (c = x3a) && forallb is_digit t
  end.

(** [validUserinfo]. *)
Definition valid_userinfo (s : bytes) : bool :=
  forallb (λ b, is_alnum b || bool_decide (b ∈ B "-._:~!$&'()*+,;=%@")) s.

Section parse.
(** The address check on a bracketed host: an IPv6 literal as
    [netip.ParseAddr] accepts it.  The allowlist never looks inside. *)
Variable ipv6_literal : bytes → bool.

(** [parseHost].  A bracketed host is an IPv6 literal with an optional zone
    and must start the host; elsewhere the first colon starts the port, as
    the language version of the module's [go.mod] requires. *)
Definition parse_host (host : bytes) : option bytes :=
  match last_index_byte x5b host with
  | Some o =>
      match last_index_byte x5d host with
      | None => None
      | Some c =>
          let port := drop (S c) host in
          if bool_decide (o = 0%nat) && valid_optional_port port then
            let inner := drop 1 (take c host) in
            port' ← unescape EncodeHost port;
            inner' ← match index_of (B "%25") inner with
                     | Some z =>
                         h ← unescape EncodeHost (take z inner);
                         zone ← unescape EncodeZone (drop z inner);
                         Some (h ++ zone)
                     | None => unescape EncodeHost inner
                     end;
            if ipv6_literal inner' then Some (B "[" ++ inner' ++ B "]" ++ port') else None
          else None
      end
  | None =>
      match index_byte x3a host with
      | Some i => if valid_optional_port (drop i host) then unescape EncodeHost host else None
      | None => unescape EncodeHost host
      end
  end.

(** [parseAuthority]: whether there is user information, and the host. *)
Definition parse_authority (authority : bytes) : option (bool * bytes) :=
  match last_index_byte x40 authority with
  | None => pair false <$> parse_host authority
  | Some i =>
      match parse_host (drop (S i) authority) with
      | None => None
      | Some host =>
          let userinfo := take i authority in
          if valid_userinfo userinfo then
            let '(user, password) := cut_parts x3a userinfo in
            match unescape EncodeUserPassword user, unescape EncodeUserPassword password with
            | Some _, Some _ => Some (true, host)
            | _, _ => None
            end
          else None
      end
  end.

Definition split_query (rest : bytes) : bytes * bytes * bool :=
  if has_suffix (B "?") rest && bool_decide (length (filter (x3f =.) rest) = 1%nat)
  then (take (length rest - 1) rest, [], true)
  else let '(before, after) := cut_parts x3f rest in (before, after, false).

(** The unexported [parse(rawURL, false)]. *)
Definition url_parse_nofrag (raw : bytes) : option URL :=
  if has_ctl raw then None
  else if decide (raw = B "*") then Some (MkURL [] [] false [] [] false [])
  else
    '(scheme, rest) ← get_scheme raw;
    let scheme := map lower_byte scheme in
    let '(rest, query, force) := split_query rest in
    if negb (has_prefix (B "/") rest) && bool_decide (scheme ≠ []) then
      Some (MkURL scheme rest false [] query force [])
    else if negb (has_prefix (B "/") rest) && contains (B ":") (cut_parts x2f rest).1 then None
    else if (bool_decide (scheme ≠ []) || negb (has_prefix (B "///") rest))
            && has_prefix (B "//") rest then
      let authority := drop 2 rest in
      let '(authority, path) :=
        match index_byte x2f authority with
        | Some i => (take i authority, drop i authority)
        | None => (authority, [])
        end in
      '(user, host) ← parse_authority authority;
      _ ← unescape EncodePath path;
      Some (MkURL scheme [] user host query force [])
    else
      _ ← unescape EncodePath rest;
      Some (MkURL scheme [] false [] query force []).

(** [url.Parse(raw)], [None] on error. *)
Definition url_parse (raw : bytes) : option URL :=
  let '(u, frag) := cut_parts x23 raw in
  url ← url_parse_nofrag u;
  if decide (frag = []) then Some url
  else f ← unescape EncodeFragment frag;
       Some (MkURL (u_scheme url) (u_opaque url) (u_user url) (u_host url)
                   (u_raw_query url) (u_force_query url) f).
End parse.

(** [URL.Hostname()]. *)
Definition url_hostname (u : URL) : bytes :=
  let host := u_host u in
  let host := match last_index_byte x3a host with
              | Some i => if valid_optional_port (drop i host) then take i host else host
              | None => host
              end in
  if has_prefix (B "[") host && has_suffix (B "]") host
  then drop 1 (take (length host - 1) host) else host.

(** ** Facts about accepted URLs *)
Lemma url_parse_nofrag_ctl lit raw u :
  url_parse_nofrag lit raw = Some u → has_ctl raw = false.
Proof. unfold url_parse_nofrag. by destruct (has_ctl raw). Qed.

Example url_parse_plain :
  (λ u, (u_scheme u, url_hostname u, u_user u, u_raw_query u)) <$>
    url_parse (λ _, true) (B "http://192.0.2.10:8080/inform")
  = Some (B "http", B "192.0.2.10", false, []).
Proof. vm_compute. reflexivity. Qed.
Example url_parse_user :
  u_user <$> url_parse (λ _, true) (B "HTTPS://a:b@host/x?q=1#f") = Some true.
Proof. vm_compute. reflexivity. Qed.
Example url_parse_bad_escape : url_parse (λ _, true) (B "http://host/%zz") = None.
Proof. vm_compute. reflexivity. Qed.
Example url_parse_opaque :
  u_opaque <$> url_parse (λ _, true) (B "mailto:x") = Some (B "x").
Proof. vm_compute. reflexivity. Qed.

(** [net/netip]'s parser of bracketed IPv6 literals, for the components that
    parse URLs. *)
Class AddressParser := {
  ipv6_literal : bytes → bool;
}.

(** A parser for witnesses, which knows no IPv6 literal. *)
Definition no_ipv6 : AddressParser := {| ipv6_literal := λ _, false |}.
