(* ===== verification/GoNet.v ===== *)
(** Hardware and IPv4 addresses of package [net]. *)
From S2P Require Import Prelude GoStrings.

(** [xtoi2]: two hex digits, followed by [e] unless the text ends there. *)
Definition xtoi2 (s : bytes) (e : byte) : option byte :=
  match s with
  | a :: b :: t =>
      match hex_val a, hex_val b with
      | Some x, Some y =>
          match t with
          | [] => Some (z2b (x * 16 + y))
          | c :: _ => if decide (c = e) then Some (z2b (x * 16 + y)) else None
          end
      | _, _ => None
      end
  | _ => None
  end.

(** The colon or hyphen form: [n] groups of three bytes. *)
Fixpoint mac_groups3 (n : nat) (sep : byte) (s : bytes) : option bytes :=
  match n with
  | O => Some []
  | S n' => b ← xtoi2 s sep; l ← mac_groups3 n' sep (drop 3 s); Some (b :: l)
  end.

(** The dotted form: [n] groups of five bytes, two octets each. *)
Fixpoint mac_groups5 (n : nat) (s : bytes) : option bytes :=
  match n with
  | O => Some []
  | S n' =>
      a ← xtoi2 (take 2 s) x00; b ← xtoi2 (drop 2 s) x2e;
      l ← mac_groups5 n' (drop 5 s); Some (a :: b :: l)
  end.

Definition mac_length (n : Z) : bool := (n =? 6) || (n =? 8) || (n =? 20).

(** [net.ParseMAC(s)], [None] on error. *)
Definition parse_mac (s : bytes) : option bytes :=
  if zlen s <? 14 then None else
  let c2 := nth 2 s x00 in
  if bool_decide (c2 = x3a) || bool_decide (c2 = x2d) then
    let n := (zlen s + 1) / 3 in
    if negb ((zlen s + 1) mod 3 =? 0) || negb (mac_length n) then None
    else mac_groups3 (Z.to_nat n) c2 s
  else if decide (nth 4 s x00 = x2e) then
    let n := 2 * (zlen s + 1) / 5 in
    if negb ((zlen s + 1) mod 5 =? 0) || negb (mac_length n) then None
    else mac_groups5 (Z.to_nat (n / 2)) s
  else None.

(** [HardwareAddr.String()]. *)
Definition mac_string (hw : bytes) : bytes := join (B ":") (map (λ b, hex_encode [b]) hw).

(** [IP.To4()]: four bytes, or the IPv4-mapped form of sixteen. *)
Definition ip_to4 (ip : bytes) : option bytes :=
  if zlen ip =? 4 then Some ip
  else if (zlen ip =? 16) && bool_decide (take 12 ip = repeat x00 10 ++ [xff; xff])
  then Some (drop 12 ip) else None.

Lemma ip_to4_length ip v : ip_to4 ip = Some v → length v = 4%nat.
Proof.
  unfold ip_to4, zlen. destruct (_ =? 4) eqn:E.
  - intros [= ->]. lia.
  - destruct (_ && _) eqn:E2; [|done]. intros [= <-]. rewrite length_drop. lia.
Qed.

(** *** Printing a hardware address and parsing it back *)
Lemma xtoi2_hex b t sep :
  t = [] ∨ head t = Some sep → xtoi2 (hex_encode [b] ++ t) sep = Some b.
Proof.
  intros H. cbn. pose proof (b2z_range b).
  rewrite !hex_val_digit by
    (try apply Z.mod_pos_bound; try split; try apply Z.div_pos;
     try apply Z.div_lt_upper_bound; lia).
  replace (b2z b / 16 * 16 + b2z b mod 16) with (b2z b) by (pose proof (Z.div_mod (b2z b) 16); lia).
  rewrite z2b_b2z. destruct t as [|c t]; [done|].
  destruct H as [H|H]; [done|]. injection H as ->. by rewrite decide_True.
Qed.

Lemma mac_string_cons b hw :
  hw ≠ [] → mac_string (b :: hw) = hex_encode [b] ++ x3a :: mac_string hw.
Proof. by destruct hw. Qed.

Lemma mac_string_length hw : hw ≠ [] → zlen (mac_string hw) = 3 * zlen hw - 1.
Proof.
  induction hw as [|b hw IH]; [done|]. intros _. destruct hw as [|c hw]; [done|].
  rewrite mac_string_cons by done. rewrite zlen_app, zlen_cons, IH by done.
  rewrite !zlen_cons. cbn. unfold zlen. cbn [length]. lia.
Qed.

Lemma mac_groups3_string hw : mac_groups3 (length hw) x3a (mac_string hw) = Some hw.
Proof.
  induction hw as [|b hw IH]; [done|]. cbn [length mac_groups3].
  destruct hw as [|c hw].
  - change (mac_string [b]) with (hex_encode [b] ++ []). rewrite xtoi2_hex by auto. done.
  - rewrite mac_string_cons by done. rewrite xtoi2_hex by (by right). cbn [mbind option_bind].
    change (drop 3 (hex_encode [b] ++ x3a :: mac_string (c :: hw))) with (mac_string (c :: hw)).
    by rewrite IH.
Qed.

Lemma parse_mac_string hw : mac_length (zlen hw) = true → parse_mac (mac_string hw) = Some hw.
Proof.
  intros H. assert (hw ≠ []) as Hne by (intros ->; done).
  pose proof (mac_string_length hw Hne) as Hl. unfold parse_mac. rewrite Hl.
  replace (3 * zlen hw - 1 <? 14) with false by (unfold mac_length in H; lia).
  destruct hw as [|b [|c hw]]; [done|by unfold mac_length, zlen in H|].
  rewrite mac_string_cons by done.
  change (nth 2 (hex_encode [b] ++ x3a :: mac_string (c :: hw)) x00) with x3a.
  rewrite bool_decide_true by done. cbn [orb].
  replace (3 * zlen (b :: c :: hw) - 1 + 1) with (zlen (b :: c :: hw) * 3) by lia.
  rewrite Z.mod_mul, Z.div_mul, H by lia. cbn [Z.eqb negb orb].
  rewrite <- mac_string_cons by done. unfold zlen. rewrite Nat2Z.id.
  apply mac_groups3_string.
Qed.

(** What parses has one of the three lengths. *)
Lemma mac_groups3_length n sep s hw : mac_groups3 n sep s = Some hw → length hw = n.
Proof.
  revert s hw. induction n as [|n IH]; intros s hw; cbn [mac_groups3]; [by intros [= <-]|].
  destruct (xtoi2 s sep); [|done]. cbn [mbind option_bind].
  destruct (mac_groups3 n sep (drop 3 s)) as [l|] eqn:E; [|done]. intros [= <-]. cbn. f_equal. by apply IH in E.
Qed.
Lemma mac_groups5_length n s hw : mac_groups5 n s = Some hw → length hw = (2 * n)%nat.
Proof.
  revert s hw. induction n as [|n IH]; intros s hw; cbn [mac_groups5]; [by intros [= <-]|].
  destruct (xtoi2 (take 2 s) x00); [|done]. cbn [mbind option_bind].
  destruct (xtoi2 (drop 2 s) x2e); [|done]. cbn [mbind option_bind].
  destruct (mac_groups5 n (drop 5 s)) as [l|] eqn:E; [|done]. intros [= <-]. cbn. apply IH in E. lia.
Qed.
Lemma parse_mac_length s hw : parse_mac s = Some hw → mac_length (zlen hw) = true.
Proof.
  unfold parse_mac. destruct (zlen s <? 14); [done|]. cbv zeta. destruct (_ || _).
  - destruct (negb _ || negb _) eqn:E; [done|]. apply orb_false_iff in E as [_ E].
    apply negb_false_iff in E. intros Hg%mac_groups3_length.
    assert (zlen hw = (zlen s + 1) / 3) as ->; [|done].
    unfold zlen at 1. rewrite Hg. unfold mac_length in E. lia.
  - case_decide; [|done]. destruct (negb _ || negb _) eqn:E; [done|]. apply orb_false_iff in E as [_ E].
    apply negb_false_iff in E. intros Hg%mac_groups5_length.
    set (n := 2 * (zlen s + 1) / 5) in *. assert (zlen hw = n) as ->; [|done].
    unfold zlen. rewrite Hg. unfold mac_length in E. apply orb_true_iff in E as [E|E]; [apply orb_true_iff in E as [E|E]|];
      apply Z.eqb_eq in E; rewrite E; reflexivity.
Qed.
