(* ===== verification/GoIP.v ===== *)
(** What the program uses of Go's textual IP addresses: [net.ParseIP], which
    accepts what [netip.ParseAddr] accepts without a zone, and the dotted form
    of IPv4 addresses. *)
From S2P Require Import Prelude GoStrings GoNet.

(** ** IPv4: four decimal fields without leading zeros *)
Definition parse_octet (s : bytes) : option byte :=
  match s with
  | [] => None
  | c :: t =>
      if negb (forallb is_digit s) then None
      else if bool_decide (c = x30) && negb (bool_decide (t = [])) then None
      else if 255 <? digits_val s then None
      else Some (z2b (digits_val s))
  end.

Definition parse_ipv4 (s : bytes) : option bytes :=
  match split_byte x2e s with
  | [a; b; c; d] =>
      match parse_octet a, parse_octet b, parse_octet c, parse_octet d with
      | Some a, Some b, Some c, Some d => Some [a; b; c; d]
      | _, _, _, _ => None
      end
  | _ => None
  end.

Definition ipv4_string (ip : bytes) : bytes := join (B ".") (map (λ b, itoa (b2z b)) ip).

(** ** IPv6 *)

(** The digits in front, their value, and the rest; [None] for more than four. *)
Fixpoint hex_group (n : nat) (acc : Z) (s : bytes) : option (nat * Z * bytes) :=
  match s with
  | [] => Some (O, acc, [])
  | c :: t =>
      match hex_val c with
      | None => Some (O, acc, s)
      | Some v =>
          match n with
          | O => None
          | S n =>
              '(k, acc, rest) ← hex_group n (acc * 16 + v) t;
              Some (S k, acc, rest)
          end
      end
  end.

(** The groups read so far in [ip], where the ellipsis was, and the rest. *)
Fixpoint ipv6_groups (fuel : nat) (ip : bytes) (ellipsis : option nat) (s : bytes)
    : option (bytes * option nat * bytes) :=
  match fuel with
  | O => Some (ip, ellipsis, s)
  | S fuel =>
      '(digits, acc, rest) ← hex_group 4 0 s;
      if decide (digits = O) then None
      else
        match rest with
        | [] => Some (ip ++ be16 acc, ellipsis, [])
        | c :: rest' =>
            if decide (c = x2e) then
              if bool_decide (ellipsis = None) && negb (bool_decide (length ip = 12%nat)) then None
              else if decide (12 < length ip)%nat then None
              else
                v4 ← parse_ipv4 s;
                Some (ip ++ v4, ellipsis, [])
            else if negb (bool_decide (c = x3a)) then None
            else
              let ip := ip ++ be16 acc in
              match rest' with
              | [] => None
              | d :: rest'' =>
                  if decide (d = x3a) then
                    match ellipsis with
                    | Some _ => None
                    | None =>
                        match rest'' with
                        | [] => Some (ip, Some (length ip), [])
                        | _ => ipv6_groups fuel ip (Some (length ip)) rest''
                        end
                    end
                  else ipv6_groups fuel ip ellipsis rest'
              end
        end
  end.

(** The bytes behind the ellipsis move to the end. *)
Definition expand_ellipsis (ip : bytes) (ellipsis : option nat) : option bytes :=
  if decide (length ip < 16)%nat then
    match ellipsis with
    | None => None
    | Some e => Some (take e ip ++ repeat x00 (16 - length ip) ++ drop e ip)
    end
  else match ellipsis with None => Some ip | Some _ => None end.

Definition parse_ipv6 (s : bytes) : option bytes :=
  let '(ellipsis, rest) :=
    match s with
    | c :: d :: t => if decide (c = x3a ∧ d = x3a) then (Some O, t) else (None, s)
    | _ => (None, s)
    end in
  if bool_decide (ellipsis = Some O) && bool_decide (rest = []) then Some (repeat x00 16)
  else
    '(ip, ellipsis, rest) ← ipv6_groups 8 [] ellipsis rest;
    if decide (rest = []) then expand_ellipsis ip ellipsis else None.

(** The first of a dot and a colon decides; a zone is refused. *)
Fixpoint ip_kind (s : bytes) : option bool :=
  match s with
  | [] => None
  | c :: t =>
      if decide (c = x2e) then Some true
      else if decide (c = x3a) then Some false
      else if decide (c = x25) then None
      else ip_kind t
  end.

Definition parse_ip (s : bytes) : option bytes :=
  match ip_kind s with
  | Some true => parse_ipv4 s
  | Some false => if bool_decide (x25 ∈ s) then None else parse_ipv6 s
  | None => None
  end.

(** [net.ParseIP(s).To4()]. *)
Definition parse_ip4 (s : bytes) : option bytes := ip ← parse_ip s; ip_to4 ip.

Example parse_ip_samples :
  parse_ip4 (B "192.0.2.10") = Some [xc0; x00; x02; x0a] ∧
  parse_ip4 (B "::ffff:192.0.2.10") = Some [xc0; x00; x02; x0a] ∧
  parse_ip4 (B "192.0.2.010") = None ∧ parse_ip4 (B "192.0.2") = None ∧
  parse_ip (B "2001:db8::1") =
    Some ([x20; x01; x0d; xb8] ++ repeat x00 11 ++ [x01]) ∧
  parse_ip (B "::") = Some (repeat x00 16) ∧ parse_ip (B "1:2:3:4:5:6:7:8:9") = None ∧
  parse_ip (B "1:2:3:4:5:6:7::") = Some [x00;x01;x00;x02;x00;x03;x00;x04;x00;x05;x00;x06;x00;x07;x00;x00] ∧
  parse_ip (B "fe80::1%eth0") = None ∧ parse_ip (B "1::2::3") = None.
Proof. vm_compute. done. Qed.

Lemma parse_ipv4_length s ip : parse_ipv4 s = Some ip → length ip = 4%nat.
Proof.
  unfold parse_ipv4. destruct (split_byte x2e s) as [|a [|b [|c [|d [|]]]]]; try done.
  destruct (parse_octet a), (parse_octet b), (parse_octet c), (parse_octet d); try done.
  by intros [= <-].
Qed.

Lemma parse_octet_itoa b : parse_octet (itoa (b2z b)) = Some b.
Proof. by destruct b; vm_compute. Qed.

Lemma itoa_no_dot b : x2e ∉ itoa (b2z b).
Proof.
  assert (bool_decide (x2e ∉ itoa (b2z b)) = true) as H by (by destruct b; vm_compute).
  by apply bool_decide_eq_true in H.
Qed.

(** The dotted form reads back. *)
Lemma parse_ipv4_string ip : length ip = 4%nat → parse_ipv4 (ipv4_string ip) = Some ip.
Proof.
  destruct ip as [|a [|b [|c [|d [|]]]]]; try done. intros _.
  unfold parse_ipv4, ipv4_string. cbn [map join].
  change (B ".") with [x2e]. cbn [app].
  rewrite !split_byte_app by apply itoa_no_dot.
  assert (∀ l, x2e ∉ l → split_byte x2e l = [l]) as Hone.
  { intros l Hl. induction l as [|x l IH]; [done|]. apply not_elem_of_cons in Hl as [Hx Hl].
    cbn [split_byte]. rewrite decide_False by done. by rewrite IH. }
  rewrite Hone by apply itoa_no_dot. by rewrite !parse_octet_itoa.
Qed.
