(* ===== verification/GoMap.v ===== *)
(** What the program uses of Go maps with string keys and of [sort.Strings]:
    the order of a [range] over a map is unspecified, so it is a parameter. *)
From stdpp Require Import sorting gmap.
From S2P Require Import Prelude.

(** ** Iteration *)
Class MapOrder := { range : ∀ {A}, gmap bytes A → list (bytes * A) }.
Class MapOrderLaws `{MapOrder} : Prop :=
  range_permutation A (m : gmap bytes A) : range m ≡ₚ map_to_list m.

(** One order. *)
Definition list_order : MapOrder := {| range := λ A, map_to_list |}.
Lemma list_order_laws : @MapOrderLaws list_order.
Proof. intros A m. reflexivity. Qed.

Section range.
Context `{MapOrderLaws} {A : Type}.
Implicit Types m : gmap bytes A.

Lemma elem_of_range m k a : (k, a) ∈ range m ↔ m !! k = Some a.
Proof. rewrite range_permutation. apply elem_of_map_to_list. Qed.

Lemma range_keys_nodup m : NoDup (range m).*1.
Proof. rewrite range_permutation. apply NoDup_fst_map_to_list. Qed.

Lemma length_range m : length (range m) = size m.
Proof. rewrite range_permutation. apply length_map_to_list. Qed.
End range.

(** ** Lexicographic order on bytes *)
Fixpoint bytes_leb (s t : bytes) : bool :=
  match s, t with
  | [], _ => true
  | _, [] => false
  | a :: s, b :: t => (b2z a <? b2z b) || ((b2z a =? b2z b) && bytes_leb s t)
  end.
Definition bytes_le (s t : bytes) : Prop := bytes_leb s t = true.

#[export] Instance bytes_le_dec : RelDecision bytes_le.
Proof. intros s t. unfold bytes_le. apply _. Defined.

#[export] Instance bytes_le_total : Total bytes_le.
Proof.
  intros s. induction s as [|a s IH]; intros [|b t]; unfold bytes_le; cbn; auto.
  destruct (Z.lt_trichotomy (b2z a) (b2z b)) as [Hl|[He|Hl]].
  - left. by rewrite (proj2 (Z.ltb_lt _ _) Hl).
  - rewrite He, Z.ltb_irrefl, Z.eqb_refl. exact (IH t).
  - right. by rewrite (proj2 (Z.ltb_lt _ _) Hl).
Qed.

#[export] Instance bytes_le_trans : Transitive bytes_le.
Proof.
  intros s. induction s as [|a s IH]; intros [|b t] [|c u]; unfold bytes_le; cbn; try done.
  rewrite !orb_true_iff, !andb_true_iff, !Z.ltb_lt, !Z.eqb_eq.
  intros [?|[E1 H1]] [?|[E2 H2]]; [left; lia..|]. right. split; [lia|]. by apply (IH t u).
Qed.

#[export] Instance bytes_le_antisymm : AntiSymm (=) bytes_le.
Proof.
  intros s. induction s as [|a s IH]; intros [|b t]; unfold bytes_le; cbn; try done.
  rewrite !orb_true_iff, !andb_true_iff, !Z.ltb_lt, !Z.eqb_eq.
  intros [?|[E1 H1]] [?|[E2 H2]]; try lia. f_equal; [by apply b2z_inj|by apply IH].
Qed.

(** [sort.Strings]. *)
Definition sort_strings (l : list bytes) : list bytes := merge_sort bytes_le l.

Lemma sort_strings_permutation l : sort_strings l ≡ₚ l.
Proof. apply merge_sort_Permutation. Qed.

Lemma sort_strings_sorted l : Sorted bytes_le (sort_strings l).
Proof. apply (Sorted_merge_sort bytes_le). Qed.

(** Sorting forgets the order. *)
Lemma sort_strings_perm l k : l ≡ₚ k → sort_strings l = sort_strings k.
Proof.
  intros Hp. apply (Sorted_unique bytes_le); try apply sort_strings_sorted.
  by rewrite !sort_strings_permutation.
Qed.

(** A loop whose turns commute does not see the order. *)
Lemma fold_left_perm {A C} (f : C → A → C) (l k : list A) (c : C) :
  (∀ c x y, f (f c x) y = f (f c y) x) → l ≡ₚ k → fold_left f l c = fold_left f k c.
Proof.
  intros Hf Hp. revert c. induction Hp as [|x l k _ IH|x y l|l k m _ IH1 _ IH2]; intros c; cbn;
    [done|apply IH|by rewrite Hf|by rewrite IH1].
Qed.

Lemma fold_left_ext {A C} (f g : C → A → C) (l : list A) (c : C) :
  (∀ c x, f c x = g c x) → fold_left f l c = fold_left g l c.
Proof. intros E. revert c. induction l as [|x l IH]; intros c; cbn; [done|]. by rewrite E. Qed.

Lemma insert_same_commute {K A} `{Countable K} (m : gmap K A) i j a :
  <[i := a]> (<[j := a]> m) = <[j := a]> (<[i := a]> m).
Proof.
  destruct (decide (i = j)) as [->|Hn]; [done|]. by apply insert_insert_ne.
Qed.

(** ** [sort.Slice]

    It is not stable: which permutation it gives is a parameter, of which only
    the order is known. *)
Class SliceSort := { slice_sort : ∀ {A}, (A → A → bool) → list A → list A }.
Class SliceSortLaws `{SliceSort} : Prop := {
  slice_sort_permutation A (less : A → A → bool) l : slice_sort less l ≡ₚ l;
  (* of a [less] that compares keys in a total order *)
  slice_sort_sorted A K (le : relation K) `{!EqDecision K, !RelDecision le, !Transitive le, !Total le, !AntiSymm (=) le}
      (key : A → K) less l :
    (∀ a b, less a b = bool_decide (le (key a) (key b) ∧ key a ≠ key b)) →
    StronglySorted (λ a b, le (key a) (key b)) (slice_sort less l);
}.

Section slice_sort.
Context `{SliceSortLaws}.

(** With distinct keys the result is determined. *)
Lemma slice_sort_unique {A K} (le : relation K)
    `{!EqDecision K, !RelDecision le, !Transitive le, !Total le, !AntiSymm (=) le} (key : A → K) less l r :
  (∀ a b, less a b = bool_decide (le (key a) (key b) ∧ key a ≠ key b)) →
  (∀ a b, a ∈ l → b ∈ l → key a = key b → a = b) →
  r ≡ₚ l → StronglySorted (λ a b, le (key a) (key b)) r → slice_sort less l = r.
Proof.
  intros Hless Hinj Hp Hr.
  pose proof (slice_sort_sorted A K le key less l Hless) as Hs.
  pose proof (slice_sort_permutation A less l) as Hps.
  revert Hps Hs. generalize (slice_sort less l) as s. intros s Hps Hs.
  assert (s ≡ₚ r) as Hsr by (by rewrite Hps, Hp).
  assert (∀ a b, a ∈ s → b ∈ s → key a = key b → a = b) as Hin.
  { intros a b. rewrite Hps. apply Hinj. }
  clear Hps Hp Hinj. revert r Hsr Hr. induction Hs as [|x s Hs IH Hx]; intros r Hsr Hr.
  { by apply Permutation_nil_l in Hsr. }
  destruct Hr as [|y r Hr Hy]; [by apply Permutation_nil_r in Hsr|].
  assert (x = y) as <-.
  { assert (x ∈ y :: r) as Hxr by (rewrite <- Hsr; left).
    assert (y ∈ x :: s) as Hys by (rewrite Hsr; left).
    apply elem_of_cons in Hxr as [->|Hxr]; [done|]. apply elem_of_cons in Hys as [->|Hys]; [done|].
    apply Hin; [left|by right|]. rewrite Forall_forall in Hx, Hy.
    apply (anti_symm le); [by apply Hx|by apply Hy]. }
  f_equal. apply IH; [|by apply Permutation_cons_inv in Hsr|done].
  intros a b Ha Hb. apply Hin; by right.
Qed.
End slice_sort.

(** One sort. *)
Fixpoint insert_less {A} (less : A → A → bool) (a : A) (l : list A) : list A :=
  match l with
  | [] => [a]
  | b :: l => if less b a then b :: insert_less less a l else a :: b :: l
  end.
Definition insertion_sort : SliceSort :=
  {| slice_sort := λ A less l, foldr (insert_less less) [] l |}.

Lemma insert_less_permutation {A} (less : A → A → bool) a l : insert_less less a l ≡ₚ a :: l.
Proof.
  induction l as [|b l IH]; [done|]. cbn. destruct (less b a); [|done]. rewrite IH. apply perm_swap.
Qed.

Lemma insertion_sort_laws : @SliceSortLaws insertion_sort.
Proof.
  split.
  - intros A less l. cbn. induction l as [|a l IH]; [done|]. cbn. by rewrite insert_less_permutation, IH.
  - intros A K le ? ? ? ? ? key less l Hless. cbn. induction l as [|a l IH]; [constructor|]. cbn.
    revert IH. generalize (foldr (insert_less less) [] l) as s. clear l. intros s Hs.
    induction Hs as [|b s Hs IH Hb]; [by repeat constructor|]. cbn. rewrite Hless.
    case_bool_decide as E.
    + constructor; [done|]. rewrite insert_less_permutation. constructor; [by destruct E|done].
    + assert (le (key a) (key b)) as Hab.
      { destruct (total le (key a) (key b)) as [|Hba]; [done|].
        destruct (decide (key b = key a)) as [->|]; [|by destruct E].
        by destruct (total le (key a) (key a)). }
      constructor; [by constructor|]. constructor; [done|].
      eapply Forall_impl; [exact Hb|]. intros c Hbc. by etransitivity.
Qed.
