(* ===== verification/GoFloat.v ===== *)
(** Go's [float64] as IEEE 754 double precision, by the Standard Library's
    specification floats: conversions, comparison and arithmetic. *)
From Stdlib Require Import Floats.SpecFloat.
From S2P Require Import Prelude.

Abbreviation float64 := spec_float.

(** [float64(z)] of an integer, rounded to nearest even. *)
Definition float_of_int (z : Z) : float64 := binary_normalize 53 1024 z 0 false.

Definition float_ltb (a b : float64) : bool := SFltb a b.
Definition float_leb (a b : float64) : bool := SFleb a b.
Definition float_div (a b : float64) : float64 := SFdiv 53 1024 a b.
Definition float_mul (a b : float64) : float64 := SFmul 53 1024 a b.
Definition float_add (a b : float64) : float64 := SFadd 53 1024 a b.

(** The integer part of a finite float, towards zero. *)
Definition float_trunc (a : float64) : Z :=
  match a with
  | S754_finite s m e =>
      let q := if 0 <=? e then Zpos m * 2 ^ e else Zpos m / 2 ^ (- e) in
      if s then - q else q
  | _ => 0
  end.

Example float_samples :
  float_trunc (float_of_int 100) = 100 ∧ float_ltb (float_of_int 99) (float_of_int 100) = true ∧
  float_ltb S754_nan (float_of_int 0) = false ∧ float_ltb (float_of_int 0) S754_nan = false ∧
  float_trunc (float_div (float_of_int 7) (float_of_int 2)) = 3 ∧
  float_trunc (float_of_int (2 ^ 53 + 1)) = 2 ^ 53.
Proof. vm_compute. done. Qed.

Lemma float_ltb_irrefl a : float_ltb a a = false.
Proof.
  unfold float_ltb, SFltb, SFcompare. destruct a as [s|s| |s m e]; try done; destruct s; try done;
    rewrite Z.compare_refl, Pos.compare_cont_refl; done.
Qed.

(** ** Conversions

    [int64(f)] truncates; for what does not fit the language leaves the result
    to the processor. *)
Class FloatConversion := { out_of_range : float64 → Z }.
Definition is_finite (a : float64) : bool :=
  match a with S754_infinity _ | S754_nan => false | _ => true end.
Definition int64_of_float `{FloatConversion} (a : float64) : Z :=
  let z := float_trunc a in
  if is_finite a && (int64_min <=? z) && (z <=? int64_max) then z else out_of_range a.
(** What amd64 processors answer. *)
Definition amd64_conversion : FloatConversion := {| out_of_range := λ _, int64_min |}.

(** [time.Duration.Seconds] of nanoseconds, and [math.Ceil] as an integer. *)
Definition duration_seconds (d : Z) : float64 :=
  float_add (float_of_int (Z.quot d 1000000000))
    (float_div (float_of_int (Z.rem d 1000000000)) (float_of_int 1000000000)).
Definition float_ceil (a : float64) : Z :=
  let z := float_trunc a in if float_ltb (float_of_int z) a then z + 1 else z.

Example seconds_samples :
  float_trunc (duration_seconds 2500000000) = 2 ∧ float_ceil (duration_seconds 2500000000) = 3 ∧
  float_ceil (duration_seconds 10000000000) = 10 ∧ float_leb (duration_seconds 0) (float_of_int 0) = true ∧
  float_leb (duration_seconds 1) (float_of_int 0) = false.
Proof. vm_compute. done. Qed.

(** A float that is not negative, signs of zeros and NaNs aside. *)
Definition not_negative (a : float64) : Prop :=
  match a with S754_finite s _ _ | S754_infinity s => s = false | _ => True end.

Lemma not_negative_trunc a : not_negative a → 0 ≤ float_trunc a.
Proof.
  destruct a as [s|s| |s m e]; cbn; try lia. intros ->.
  destruct (0 <=? e) eqn:E; [apply Z.mul_nonneg_nonneg; [lia|by apply Z.pow_nonneg]|].
  apply Z.div_pos; [lia|]. apply Z.pow_pos_nonneg; lia.
Qed.

Lemma round_sign prec emax s m e l :
  not_negative (binary_round_aux prec emax s m e l) ∨ s = true.
Proof.
  destruct s; [by right|left]. unfold binary_round_aux.
  destruct (shr_fexp prec emax m e l) as [m' e']. destruct (shr_fexp prec emax _ e' loc_Exact) as [m'' e''].
  destruct (shr_m m''); cbn; try done. by destruct (_ <=? _).
Qed.

Lemma float_of_int_sign z : 0 ≤ z → not_negative (float_of_int z).
Proof.
  intros Hz. unfold float_of_int, binary_normalize. destruct z as [|p|p]; [done| |lia].
  unfold binary_round. destruct (shl_align _ _ _) as [m e].
  by destruct (round_sign 53 1024 false (Zpos m) e loc_Exact).
Qed.

Lemma float_positive a : float_leb a (float_of_int 0) = false → not_negative a ∧ ∀ s, a ≠ S754_zero s.
Proof.
  unfold float_leb, SFleb, SFcompare, float_of_int. cbn. by destruct a as [[]|[]| |[] m e].
Qed.

Lemma float_div_sign a b :
  not_negative a → not_negative b → (∀ s, b ≠ S754_zero s) → not_negative (float_div a b).
Proof.
  intros Ha Hb Hz. unfold float_div, SFdiv.
  destruct a as [sa|sa| |sa ma ea], b as [sb|sb| |sb mb eb]; cbn [not_negative] in Ha, Hb |- *; subst;
    try exact I; try reflexivity; try (by destruct (Hz sb)).
  destruct (SFdiv_core_binary 53 1024 (Zpos ma) ea (Zpos mb) eb) as [[m e] l]. cbn [xorb].
  by destruct (round_sign 53 1024 false m e l).
Qed.
