(* ===== verification/InformCodec.v ===== *)
(** The TNBU packet codec: [src/internal/inform/packet.go], [padding.go],
    [crypto.go], [compression.go], [encode.go] and [decode.go].

    AES, GCM and DEFLATE are the interface [InformCrypto], whose laws state
    what the library documents; everything else is computed. *)
From S2P Require Import Prelude GoStrings Md5.

(** ** packet.go *)
Definition informHeaderBytes : Z := 40.
Definition Magic : bytes := B "TNBU".
Definition PacketVersion : Z := 0.
Definition PayloadVersion : Z := 1.
Definition FlagEncrypted : Z := 0x01.
Definition FlagZlib : Z := 0x02.
Definition FlagSnappy : Z := 0x04.
Definition FlagEncryptedGCM : Z := 0x08.
Definition GCMNonceSize : Z := 16.
Definition GCMTagSize : Z := 16.
Definition MaxDecodedPayloadBytes : Z := 16 * 1024 * 1024.
Definition MaxEncodedPayloadBytes : Z := MaxDecodedPayloadBytes + 64 * 1024.

Record Options := MkOptions { o_zlib : bool; o_gcm : bool }.

Record Packet := MkPacket {
  p_mac : bytes;
  p_flags : Z;
  p_iv : bytes;
  p_payload : bytes;
}.

Definition DefaultAuthKey : bytes := md5_sum (B "ubnt").
Definition IsDefaultAuthKey (key : bytes) : bool :=
  (zlen key =? 16) && bool_decide (key = DefaultAuthKey).

(** [copy(header[i:i+n], src)] into a zeroed slice. *)
Definition copy_into (n : nat) (src : bytes) : bytes :=
  take n src ++ repeat x00 (n - length src).

Definition makeHeader (mac : bytes) (flags : Z) (iv : bytes) (payloadLen : Z) : bytes :=
  copy_into 4 Magic ++ be32 PacketVersion ++ copy_into 6 mac ++ be16 flags
  ++ copy_into 16 iv ++ be32 PayloadVersion ++ be32 payloadLen.

(** ** padding.go *)
Definition pkcs7Pad (data : bytes) (blockSize : Z) : bytes :=
  let padLen := blockSize - zlen data mod blockSize in
  let padLen := if padLen =? 0 then blockSize else padLen in
  data ++ repeat (z2b padLen) (Z.to_nat padLen).

Definition pkcs7Unpad (data : bytes) (blockSize : Z) : result error bytes :=
  if (zlen data =? 0) || negb (zlen data mod blockSize =? 0) then
    Err "invalid PKCS#7 data length"
  else
    let padLen := b2z (List.last data x00) in
    if (padLen =? 0) || (blockSize <? padLen) || (zlen data <? padLen) then
      Err "invalid PKCS#7 padding"
    else
      let n := Z.to_nat (zlen data - padLen) in
      if forallb (λ b, b2z b =? padLen) (drop n data)
      then Ok (take n data) else Err "invalid PKCS#7 padding byte".

(** ** crypto.go *)
Definition aes_block_size : Z := 16.

(** An AEAD of [crypto/cipher]. *)
Record AEAD := MkAEAD {
  a_nonce_size : Z;
  a_overhead : Z;
  a_seal : bytes → bytes → bytes → bytes;            (* nonce, plaintext, data *)
  a_open : bytes → bytes → bytes → option bytes;     (* nonce, ciphertext, data *)
}.

(** The library primitives. *)
Class InformCrypto := {
  cbc_encrypt : bytes → bytes → bytes → bytes;       (* key, iv, whole blocks *)
  cbc_decrypt : bytes → bytes → bytes → bytes;
  gcm_seal : bytes → bytes → bytes → bytes → bytes;  (* key, nonce, plaintext, data *)
  gcm_open : bytes → bytes → bytes → bytes → option bytes;
  zlib_write : bytes → option bytes;
  (* the first bytes of the expansion up to a limit, None on a read error *)
  zlib_read : bytes → Z → option bytes;
}.

(** What the library documents about them. *)
Class InformCryptoLaws `{InformCrypto} : Prop := {
  cbc_roundtrip key iv b :
    zlen key = 16 → zlen iv = 16 → zlen b mod 16 = 0 →
    cbc_decrypt key iv (cbc_encrypt key iv b) = b;
  cbc_length key iv b : zlen b mod 16 = 0 → zlen (cbc_encrypt key iv b) = zlen b;
  gcm_roundtrip key n p ad : gcm_open key n (gcm_seal key n p ad) ad = Some p;
  gcm_length key n p ad : zlen (gcm_seal key n p ad) = zlen p + 16;
  (* the tag is a function of key, nonce, plaintext and associated data *)
  gcm_authentic key n c p ad : gcm_open key n c ad = Some p → c = gcm_seal key n p ad;
  zlib_roundtrip b z n :
    zlib_write b = Some z → zlen b <= n → zlib_read z n = Some b;
}.

(** Go returns a packet, a value and an error: some errors come with the
    parsed packet. *)
Abbreviation presult A := (result (option Packet * error) A).

Definition with_packet {A} (op : option Packet) (r : result error A) : presult A :=
  match r with Ok a => Ok a | Err e => Err (op, e) end.

Section codec.
Context `{InformCrypto}.

(** [aes.NewCipher]. *)
Definition new_cipher (key : bytes) : result error bytes :=
  if (zlen key =? 16) || (zlen key =? 24) || (zlen key =? 32)
  then Ok key else Err "create AES cipher: invalid key size".

(** [cipher.NewGCMWithNonceSize]. *)
Definition new_gcm_with_nonce_size (block : bytes) (size : Z) : result error AEAD :=
  if size <=? 0 then Err "create AES-GCM cipher: the nonce can't have zero length"
  else Ok (MkAEAD size 16 (gcm_seal block) (gcm_open block)).

Definition newInformGCM (block nonce : bytes) : result error AEAD :=
  if negb (zlen nonce =? GCMNonceSize) then Err "AES-GCM nonce must be exactly 16 bytes"
  else
    aead ← new_gcm_with_nonce_size block GCMNonceSize;
    if negb (a_nonce_size aead =? GCMNonceSize) || negb (a_overhead aead =? GCMTagSize)
    then Err "AES-GCM parameters" else Ok aead.

Definition decryptGCMPayload (block nonce body header : bytes) : result error bytes :=
  if negb (zlen header =? informHeaderBytes) then
    Err "AES-GCM additional data must be the complete 40-byte TNBU header"
  else if zlen body <? GCMTagSize then
    Err "AES-GCM payload is shorter than its 16-byte authentication tag"
  else
    aead ← newInformGCM block nonce;
    match a_open aead nonce body header with
    | Some out => Ok out
    | None => Err "decrypt AES-GCM payload"
    end.

Definition decryptCBCPayload (block iv body : bytes) : result error bytes :=
  if (zlen body =? 0) || negb (zlen body mod aes_block_size =? 0) then
    Err "AES-CBC payload is empty or not block aligned"
  else wrap_err "remove CBC padding" (pkcs7Unpad (cbc_decrypt block iv body) aes_block_size).

Definition decryptPayload (packet : Packet) (body key header : bytes) : result error bytes :=
  if Z.land (p_flags packet) FlagEncrypted =? 0 then Ok body
  else if negb (zlen key =? 16) then Err "authkey must be 16 bytes"
  else
    block ← new_cipher key;
    if negb (Z.land (p_flags packet) FlagEncryptedGCM =? 0)
    then decryptGCMPayload block (p_iv packet) body header
    else decryptCBCPayload block (p_iv packet) body.

(** ** compression.go *)
Definition compressPayload (body : bytes) : result error bytes :=
  match zlib_write body with
  | Some z => Ok z
  | None => Err "compress inform payload"
  end.

Definition decompressPayload (body : bytes) : result error bytes :=
  match zlib_read body (MaxDecodedPayloadBytes + 1) with
  | None => Err "read zlib payload"
  | Some out =>
      if MaxDecodedPayloadBytes <? zlen out
      then Err "decompressed inform payload exceeds limit" else Ok out
  end.

(** ** encode.go

    [rand n] is [io.ReadFull(rand.Reader, make([]byte, n))]. *)
Definition EncodeJSON (rand : Z → option bytes) (mac key payload : bytes) (opts : Options)
    : result error bytes :=
  if negb (zlen mac =? 6) then Err "MAC must be 6 bytes"
  else if negb (zlen key =? 16) then Err "authkey must be 16 bytes"
  else if MaxDecodedPayloadBytes <? zlen payload then Err "inform plaintext exceeds limit"
  else
    '(body, flags) ←
      (if o_zlib opts then
         body ← compressPayload payload; Ok (body, Z.lor FlagEncrypted FlagZlib)
       else Ok (payload, FlagEncrypted));
    if MaxEncodedPayloadBytes - aes_block_size <? zlen body then
      Err "encoded inform payload exceeds limit"
    else
      let ivSize := if o_gcm opts then GCMNonceSize else aes_block_size in
      match rand ivSize with
      | None => Err "generate inform IV/nonce"
      | Some iv =>
          block ← new_cipher key;
          if o_gcm opts then
            let flags := Z.lor flags FlagEncryptedGCM in
            aead ← newInformGCM block iv;
            let header := makeHeader mac flags iv (wrap32u (zlen body + GCMTagSize)) in
            Ok (header ++ a_seal aead iv body header)
          else
            let body := cbc_encrypt block iv (pkcs7Pad body aes_block_size) in
            Ok (makeHeader mac flags iv (wrap32u (zlen body)) ++ body)
      end.

(** ** decode.go *)
Definition validateDecodedPayloadSize (body : bytes) : result error unit :=
  guard_err (MaxDecodedPayloadBytes <? zlen body) ("decoded inform payload exceeds limit" : error).

Definition validateEnvelopeFlags (flags : Z) : result error unit :=
  let knownFlags := Z.lor (Z.lor (Z.lor FlagEncrypted FlagZlib) FlagSnappy) FlagEncryptedGCM in
  if Z.land flags FlagEncrypted =? 0 then Err "unencrypted inform payload is not accepted"
  else if negb (Z.ldiff flags knownFlags =? 0) then Err "unknown inform flags"
  else Ok tt.

Definition slice (i j : nat) (s : bytes) : bytes := drop i (take j s).

(** The packet and the header bytes.  Once the length is exact, an error
    comes with the packet. *)
Definition parsePacket (data : bytes) : presult (Packet * bytes) :=
  if zlen data <? informHeaderBytes then Err (None, "inform packet too short")
  else if negb (bool_decide (slice 0 4 data = Magic)) then Err (None, "invalid magic")
  else if negb (be_val (slice 4 8 data) =? PacketVersion) then
    Err (None, "unsupported packet version")
  else if negb (be_val (slice 32 36 data) =? PayloadVersion) then
    Err (None, "unsupported payload version")
  else
    let payloadLen := be_val (slice 36 40 data) in
    if MaxEncodedPayloadBytes <? payloadLen then
      Err (None, "inform payload length exceeds limit")
    else if negb (payloadLen =? zlen data - informHeaderBytes) then
      Err (None, "inform payload length mismatch")
    else
      let p := MkPacket (slice 8 14 data) (be_val (slice 14 16 data))
                        (slice 16 32 data) (drop 40 data) in
      _ ← with_packet (Some p) (validateEnvelopeFlags (p_flags p));
      if negb (Z.land (p_flags p) FlagEncryptedGCM =? 0)
         && (zlen (p_payload p) <? GCMTagSize)
      then Err (Some p, "AES-GCM payload is shorter than its 16-byte authentication tag")
      else Ok (p, take 40 data).

Definition Decode (data key : bytes) : presult (Packet * bytes) :=
  match parsePacket data with
  | Err (_, e) => Err (None, e)
  | Ok (p, header) =>
      if negb (Z.land (p_flags p) FlagSnappy =? 0) then
        Err (None, "snappy inform payload is unsupported")
      else
        body ← with_packet None (decryptPayload p (p_payload p) key header);
        body ← (if negb (Z.land (p_flags p) FlagZlib =? 0)
                then with_packet None (decompressPayload body) else Ok body);
        _ ← with_packet (Some p) (validateDecodedPayloadSize body);
        Ok (p, body)
  end.

Definition DecodeControllerResponse (data key : bytes) (expectedGCM : bool)
    : presult (Packet * bytes) :=
  '(p, header) ← parsePacket data;
  let usesGCM := negb (Z.land (p_flags p) FlagEncryptedGCM =? 0) in
  if negb (Bool.eqb usesGCM expectedGCM) then
    Err (Some p, "controller response cipher mismatch")
  else
    body ← with_packet (Some p) (decryptPayload p (p_payload p) key header);
    if negb (Z.land (p_flags p) FlagZlib =? 0) then
      Err (Some p, "zlib-compressed controller responses are unsupported")
    else if negb (Z.land (p_flags p) FlagSnappy =? 0) then
      Err (Some p, "snappy-compressed controller responses are unsupported")
    else
      _ ← with_packet (Some p) (validateDecodedPayloadSize body);
      Ok (p, body).
End codec.

(** ** Padding *)
Lemma pkcs7Pad_eq d bs :
  0 < bs → pkcs7Pad d bs =
    d ++ repeat (z2b (bs - zlen d mod bs)) (Z.to_nat (bs - zlen d mod bs)).
Proof.
  intros H. unfold pkcs7Pad. pose proof (Z.mod_pos_bound (zlen d) bs H).
  by replace (bs - zlen d mod bs =? 0) with false by lia.
Qed.

Lemma zlen_repeat {A} (a : A) n : zlen (repeat a n) = Z.of_nat n.
Proof. unfold zlen. by rewrite repeat_length. Qed.

Lemma pkcs7Pad_zlen d bs :
  0 < bs → zlen (pkcs7Pad d bs) = zlen d + (bs - zlen d mod bs).
Proof.
  intros H. rewrite pkcs7Pad_eq, zlen_app, zlen_repeat by done.
  pose proof (Z.mod_pos_bound (zlen d) bs H). lia.
Qed.

Lemma pkcs7Pad_aligned d bs : 0 < bs → zlen (pkcs7Pad d bs) mod bs = 0.
Proof.
  intros H. rewrite pkcs7Pad_zlen by done.
  replace (zlen d + (bs - zlen d mod bs)) with ((zlen d / bs + 1) * bs)
    by (pose proof (Z.div_mod (zlen d) bs); lia).
  by apply Z.mod_mul, Z.neq_sym, Z.lt_neq.
Qed.

Lemma last_app_repeat (d : bytes) b n :
  (0 < n)%nat → List.last (d ++ repeat b n) x00 = b.
Proof.
  intros H. destruct n as [|n]; [lia|]. cbn [repeat].
  rewrite repeat_cons, app_assoc. apply last_last.
Qed.

Lemma forallb_repeat {A} (f : A → bool) a n : f a = true → forallb f (repeat a n) = true.
Proof. intros H. induction n as [|n IH]; cbn; [done|]. by rewrite H, IH. Qed.

Lemma pkcs7_unpad_pad d bs :
  0 < bs < 256 → pkcs7Unpad (pkcs7Pad d bs) bs = Ok d.
Proof.
  intros H. pose proof (Z.mod_pos_bound (zlen d) bs ltac:(lia)) as Hm.
  pose proof (zlen_nonneg d). pose proof (pkcs7Pad_zlen d bs ltac:(lia)) as Hl.
  unfold pkcs7Unpad. rewrite pkcs7Pad_aligned, Hl by lia. cbn [Z.eqb negb].
  replace (zlen d + (bs - zlen d mod bs) =? 0) with false by lia. cbn [orb].
  rewrite (pkcs7Pad_eq d bs) by lia. rewrite last_app_repeat by lia.
  rewrite b2z_z2b, Z.mod_small by lia.
  replace (_ || _ || _) with false by lia.
  replace (Z.to_nat _) with (length d) by (unfold zlen in *; lia).
  rewrite drop_app_length, take_app_length, forallb_repeat; [done|].
  rewrite b2z_z2b, Z.mod_small by lia. apply Z.eqb_refl.
Qed.

(** ** The fixed header *)
Lemma copy_into_length n src : length (copy_into n src) = n.
Proof.
  unfold copy_into. rewrite length_app, length_take, repeat_length. lia.
Qed.

Lemma copy_into_full n src : length src = n → copy_into n src = src.
Proof.
  intros <-. unfold copy_into. rewrite firstn_all, Nat.sub_diag. apply app_nil_r.
Qed.

Lemma makeHeader_length mac flags iv n : length (makeHeader mac flags iv n) = 40%nat.
Proof.
  unfold makeHeader. rewrite !length_app, !copy_into_length, !length_be32, length_be16. done.
Qed.

Lemma makeHeader_zlen mac flags iv n : zlen (makeHeader mac flags iv n) = 40.
Proof. unfold zlen. by rewrite makeHeader_length. Qed.

Lemma length_S_inv {A} n (l : list A) : length l = S n → ∃ a t, l = a :: t ∧ length t = n.
Proof. destruct l as [|a t]; [done|]. intros [= H]. eauto. Qed.

(** Name the elements of a list whose length is a numeral. *)
Ltac explode H :=
  repeat match type of H with
  | length ?l = S _ =>
      let a := fresh "b" in let t := fresh "t" in let E := fresh "E" in
      apply length_S_inv in H; destruct H as (a & t & E & H); subst l
  end;
  match type of H with
  | length ?l = O => apply length_zero_iff_nil in H; subst l
  | _ => idtac
  end.

Lemma header_slices mac flags iv n body :
  length mac = 6%nat → length iv = 16%nat → 0 ≤ flags < 2 ^ 16 → 0 ≤ n < 2 ^ 32 →
  let data := makeHeader mac flags iv n ++ body in
  slice 0 4 data = Magic ∧ be_val (slice 4 8 data) = PacketVersion ∧
  slice 8 14 data = mac ∧ be_val (slice 14 16 data) = flags ∧ slice 16 32 data = iv ∧
  be_val (slice 32 36 data) = PayloadVersion ∧ be_val (slice 36 40 data) = n ∧
  drop 40 data = body ∧ take 40 data = makeHeader mac flags iv n.
Proof.
  intros Hm Hi Hf Hn data. subst data.
  pose proof (be_val_be16 flags Hf) as Ef. pose proof (be_val_be32 n Hn) as En.
  assert (drop 40 (makeHeader mac flags iv n ++ body) = body) as Hd
    by (apply drop_app_length'; by rewrite makeHeader_length).
  assert (take 40 (makeHeader mac flags iv n ++ body) = makeHeader mac flags iv n) as Ht
    by (apply take_app_length'; by rewrite makeHeader_length).
  revert Hd Ht. unfold makeHeader. rewrite (copy_into_full 6), (copy_into_full 16) by done.
  explode Hm. explode Hi. unfold be16, be32 in *. intros Hd Ht.
  repeat split; cbn; done || assumption.
Qed.

Lemma be_val_inj s t : length s = length t → be_val s = be_val t → s = t.
Proof.
  revert t. induction s as [|b s IH] using rev_ind; intros t Hl Hv.
  { by destruct t. }
  destruct t as [|c t _] using rev_ind.
  { rewrite length_app in Hl. cbn in Hl. lia. }
  rewrite !length_app in Hl. cbn in Hl. rewrite !be_val_app in Hv.
  pose proof (b2z_range b). pose proof (b2z_range c).
  rewrite (IH t) by lia. do 2 f_equal. apply b2z_inj. lia.
Qed.

Lemma be16_be_val s : length s = 2%nat → be16 (be_val s) = s.
Proof.
  intros H. pose proof (be_val_bound s) as Hb. rewrite H in Hb.
  apply be_val_inj; [done|]. by apply be_val_be16.
Qed.
Lemma be32_be_val s : length s = 4%nat → be32 (be_val s) = s.
Proof.
  intros H. pose proof (be_val_bound s) as Hb. rewrite H in Hb.
  apply be_val_inj; [done|]. by apply be_val_be32.
Qed.

Lemma take_drop_slice i j (s : bytes) : (i ≤ j)%nat → take j s = take i s ++ slice i j s.
Proof.
  intros H. unfold slice. rewrite <- (take_drop i (take j s)) at 1.
  f_equal. rewrite take_take. f_equal. lia.
Qed.

Lemma slice_length i j (s : bytes) :
  (i ≤ j)%nat → (j ≤ length s)%nat → length (slice i j s) = (j - i)%nat.
Proof. intros ??. unfold slice. rewrite length_drop, length_take. lia. Qed.

(** What an accepted envelope looks like. *)
Record envelope (data : bytes) (p : Packet) (header : bytes) : Prop := {
  env_mac : length (p_mac p) = 6%nat;
  env_iv : length (p_iv p) = 16%nat;
  env_flags : 0 ≤ p_flags p < 2 ^ 16;
  env_header : header =
    makeHeader (p_mac p) (p_flags p) (p_iv p) (zlen (p_payload p));
  env_data : data = header ++ p_payload p;
  env_bound : zlen (p_payload p) ≤ MaxEncodedPayloadBytes;
  env_encrypted : Z.land (p_flags p) FlagEncrypted ≠ 0;
  env_known : Z.ldiff (p_flags p) 15 = 0;
  env_tag : Z.land (p_flags p) FlagEncryptedGCM ≠ 0 → GCMTagSize ≤ zlen (p_payload p);
}.

Lemma validateEnvelopeFlags_ok f :
  is_ok (validateEnvelopeFlags f) = true ↔ Z.land f FlagEncrypted ≠ 0 ∧ Z.ldiff f 15 = 0.
Proof.
  unfold validateEnvelopeFlags.
  change (Z.lor (Z.lor (Z.lor FlagEncrypted FlagZlib) FlagSnappy) FlagEncryptedGCM) with 15.
  destruct (Z.land f FlagEncrypted =? 0) eqn:E1; [cbn; split; [done|lia]|].
  destruct (Z.ldiff f 15 =? 0) eqn:E2; cbn; split; try done; lia.
Qed.

Lemma with_packet_ok {A} op (r : result error A) a : with_packet op r = Ok a ↔ r = Ok a.
Proof. destruct r; cbn; split; congruence. Qed.

Lemma take40_fields (data : bytes) :
  40 ≤ zlen data →
  slice 0 4 data = Magic → be_val (slice 4 8 data) = PacketVersion →
  be_val (slice 32 36 data) = PayloadVersion →
  take 40 data = makeHeader (slice 8 14 data) (be_val (slice 14 16 data))
                            (slice 16 32 data) (be_val (slice 36 40 data)).
Proof.
  unfold zlen. intros Hl Hm Hv Hp. unfold makeHeader.
  rewrite <- Hv, <- Hp, !be32_be_val, be16_be_val by (apply slice_length; lia).
  rewrite !(copy_into_full _ (slice _ _ _)) by (apply slice_length; lia).
  rewrite (copy_into_full 4 Magic) by done. rewrite <- Hm.
  rewrite (take_drop_slice 36 40), (take_drop_slice 32 36), (take_drop_slice 16 32),
    (take_drop_slice 14 16), (take_drop_slice 8 14), (take_drop_slice 4 8),
    (take_drop_slice 0 4) by lia.
  rewrite take_0, <- !app_assoc. done.
Qed.

Lemma parsePacket_envelope data p header :
  parsePacket data = Ok (p, header) → envelope data p header.
Proof.
  unfold parsePacket. intros Hok.
  destruct (zlen data <? informHeaderBytes) eqn:E1; [done|].
  destruct (bool_decide _) eqn:E2; cbn [negb] in Hok; [|done].
  destruct (be_val (slice 4 8 data) =? _) eqn:E3; cbn [negb] in Hok; [|done].
  destruct (be_val (slice 32 36 data) =? _) eqn:E4; cbn [negb] in Hok; [|done].
  destruct (MaxEncodedPayloadBytes <? _) eqn:E5; [done|].
  destruct (be_val (slice 36 40 data) =? _) eqn:E6; cbn [negb] in Hok; [|done].
  cbn [p_flags p_payload] in Hok.
  destruct (validateEnvelopeFlags _) as [[]|] eqn:E7; [|done].
  cbn [with_packet mbind result_bind] in Hok.
  destruct (negb _ && _) eqn:E8; [done|]. injection Hok as <- <-.
  apply bool_decide_eq_true in E2. unfold informHeaderBytes in *.
  assert (zlen (drop 40 data) = zlen data - 40) as Hd
    by (unfold zlen in *; rewrite length_drop; lia).
  assert (is_ok (validateEnvelopeFlags (be_val (slice 14 16 data))) = true) as Hf
    by (by rewrite E7).
  apply validateEnvelopeFlags_ok in Hf as [Hf1 Hf2].
  split; cbn [p_mac p_iv p_flags p_payload]; try done.
  - apply slice_length; unfold zlen in *; lia.
  - apply slice_length; unfold zlen in *; lia.
  - pose proof (be_val_bound (slice 14 16 data)) as Hb.
    rewrite slice_length in Hb by (unfold zlen in *; lia). exact Hb.
  - rewrite Hd. apply Z.eqb_eq in E6. rewrite <- E6. apply take40_fields; lia || done.
  - by rewrite take_drop.
  - lia.
  - intros Hg. lia.
Qed.

Lemma envelope_parsePacket data p header :
  envelope data p header → parsePacket data = Ok (p, header).
Proof.
  intros [Hm Hi Hf Hh Hd Hb He Hk Ht].
  pose proof (zlen_nonneg (p_payload p)).
  assert (0 ≤ zlen (p_payload p) < 2 ^ 32) as Hn
    by (unfold MaxEncodedPayloadBytes, MaxDecodedPayloadBytes in Hb; lia).
  destruct (header_slices _ _ _ _ (p_payload p) Hm Hi Hf Hn)
    as (S1 & S2 & S3 & S4 & S5 & S6 & S7 & S8 & S9).
  rewrite <- Hh, <- Hd in *. unfold parsePacket.
  assert (zlen data = 40 + zlen (p_payload p)) as Hl
    by (rewrite Hd, Hh, zlen_app, makeHeader_zlen; done).
  rewrite Hl, S1, S2, S3, S4, S5, S6, S7, S8, S9. unfold informHeaderBytes.
  replace (40 + _ <? 40) with false by lia.
  rewrite bool_decide_true by done. cbn [negb]. rewrite !Z.eqb_refl. cbn [negb].
  replace (MaxEncodedPayloadBytes <? _) with false by lia.
  replace (zlen (p_payload p) =? _) with true by lia. cbn [negb p_flags p_payload].
  assert (is_ok (validateEnvelopeFlags (p_flags p)) = true) as Hv
    by (by apply validateEnvelopeFlags_ok).
  destruct (validateEnvelopeFlags (p_flags p)) as [[]|]; [|done].
  cbn [with_packet mbind result_bind].
  destruct (Z.land (p_flags p) FlagEncryptedGCM =? 0) eqn:E; cbn [negb andb].
  - by destruct p.
  - replace (_ <? _) with false by (apply Z.eqb_neq in E; specialize (Ht E); lia).
    by destruct p.
Qed.

(** ** Encoding *)
Section proofs.
Context `{InformCryptoLaws}.

Lemma new_cipher_16 key : zlen key = 16 → new_cipher key = Ok key.
Proof. intros Hk. unfold new_cipher. by rewrite Hk. Qed.

Lemma newInformGCM_16 key nonce :
  zlen nonce = 16 →
  newInformGCM key nonce = Ok (MkAEAD 16 16 (gcm_seal key) (gcm_open key)).
Proof. intros Hn. unfold newInformGCM. by rewrite Hn. Qed.

(** Only sixteen random bytes are ever asked for. *)
Lemma EncodeJSON_rand rand rand' mac key payload opts :
  rand 16 = rand' 16 →
  EncodeJSON rand mac key payload opts = EncodeJSON rand' mac key payload opts.
Proof.
  intros Hr. unfold EncodeJSON, GCMNonceSize, aes_block_size.
  destruct (o_gcm opts); by rewrite Hr.
Qed.

Definition mode_flags (opts : Options) : Z :=
  Z.lor (if o_zlib opts then Z.lor FlagEncrypted FlagZlib else FlagEncrypted)
        (if o_gcm opts then FlagEncryptedGCM else 0).

(** The packet [EncodeJSON] writes. *)
Lemma EncodeJSON_inv rand mac key payload opts data :
  (∀ n iv, rand n = Some iv → zlen iv = n) →
  EncodeJSON rand mac key payload opts = Ok data →
  ∃ body iv sealed,
    zlen mac = 6 ∧ zlen key = 16 ∧ zlen payload ≤ MaxDecodedPayloadBytes ∧
    (if o_zlib opts then zlib_write payload = Some body else body = payload) ∧
    zlen body ≤ MaxEncodedPayloadBytes - 16 ∧ zlen iv = 16 ∧
    sealed = (if o_gcm opts
              then gcm_seal key iv body (makeHeader mac (mode_flags opts) iv (zlen body + 16))
              else cbc_encrypt key iv (pkcs7Pad body 16)) ∧
    zlen sealed ≤ MaxEncodedPayloadBytes ∧
    data = makeHeader mac (mode_flags opts) iv (zlen sealed) ++ sealed.
Proof.
  intros Hrand. unfold EncodeJSON. intros Hok.
  destruct (zlen mac =? 6) eqn:E1; cbn [negb] in Hok; [|done].
  destruct (zlen key =? 16) eqn:E2; cbn [negb] in Hok; [|done].
  destruct (MaxDecodedPayloadBytes <? zlen payload) eqn:E3; [done|].
  apply Z.eqb_eq in E1, E2.
  destruct (if o_zlib opts then _ else _) as [[body flags]|] eqn:E4; [|done].
  cbn [mbind result_bind] in Hok.
  assert ((if o_zlib opts then zlib_write payload = Some body else body = payload) ∧
    flags = (if o_zlib opts then Z.lor FlagEncrypted FlagZlib else FlagEncrypted)) as [Hbody ->].
  { destruct (o_zlib opts).
    - unfold compressPayload in E4. destruct (zlib_write payload); [|done].
      by injection E4 as <- <-.
    - by injection E4 as <- <-. }
  destruct (_ <? zlen body) eqn:E5; [done|].
  destruct (rand _) as [iv|] eqn:E6; [|done].
  assert (zlen iv = 16) as Hiv by (apply Hrand in E6; by destruct (o_gcm opts)).
  rewrite (new_cipher_16 key E2) in Hok. cbn [mbind result_bind] in Hok.
  pose proof (zlen_nonneg body). unfold aes_block_size, MaxEncodedPayloadBytes,
    MaxDecodedPayloadBytes, GCMTagSize in *.
  exists body, iv. unfold mode_flags. destruct (o_gcm opts) eqn:Eg.
  - rewrite newInformGCM_16 in Hok by done. cbn [mbind result_bind a_seal] in Hok.
    unfold wrap32u in Hok. rewrite Z.mod_small in Hok by lia.
    injection Hok as <-. eexists. rewrite gcm_length. repeat split; done || lia.
  - pose proof (Z.mod_pos_bound (zlen body) 16 eq_refl).
    assert (zlen (cbc_encrypt key iv (pkcs7Pad body 16)) ≤ 16 * 1024 * 1024 + 64 * 1024) as Hc.
    { rewrite cbc_length by (by apply pkcs7Pad_aligned). rewrite pkcs7Pad_zlen by lia. lia. }
    pose proof (zlen_nonneg (cbc_encrypt key iv (pkcs7Pad body 16))).
    unfold wrap32u in Hok. rewrite Z.mod_small in Hok by lia. rewrite Z.lor_0_r.
    injection Hok as <-. eexists. repeat split; done || lia.
Qed.

(** Its envelope is accepted. *)
Lemma EncodeJSON_envelope rand mac key payload opts data :
  (∀ n iv, rand n = Some iv → zlen iv = n) →
  EncodeJSON rand mac key payload opts = Ok data →
  ∃ p header body,
    parsePacket data = Ok (p, header) ∧ p_mac p = mac ∧ p_flags p = mode_flags opts ∧
    (if o_zlib opts then zlib_write payload = Some body else body = payload) ∧
    decryptPayload p (p_payload p) key header = Ok body.
Proof.
  intros Hrand Hok.
  destruct (EncodeJSON_inv _ _ _ _ _ _ Hrand Hok)
    as (body & iv & sealed & Hm & Hk & Hp & Hb & Hbl & Hiv & Hs & Hsl & ->).
  pose proof (zlen_nonneg body).
  assert (zlen sealed mod 16 = 0 ∨ o_gcm opts = true) as Hal.
  { destruct (o_gcm opts); [by right|left]. subst sealed.
    rewrite cbc_length; by apply pkcs7Pad_aligned. }
  assert (o_gcm opts = true → zlen sealed = zlen body + 16) as Hgl.
  { intros Hg. subst sealed. rewrite Hg. apply gcm_length. }
  eexists (MkPacket mac (mode_flags opts) iv sealed), _, body. split.
  { apply envelope_parsePacket. split; cbn [p_mac p_flags p_iv p_payload]; try done.
    - unfold zlen in Hm. lia.
    - unfold zlen in Hiv. lia.
    - by destruct opts as [[] []].
    - by destruct opts as [[] []].
    - by destruct opts as [[] []].
    - intros Hg. assert (o_gcm opts = true) as Hg' by (destruct opts as [[] []]; done).
      rewrite Hgl by done. unfold GCMTagSize. lia. }
  split; [done|]. split; [done|]. split; [done|].
  unfold decryptPayload. cbn [p_flags p_iv p_payload].
  replace (Z.land (mode_flags opts) FlagEncrypted =? 0) with false by (by destruct opts as [[] []]).
  rewrite Hk. cbn [Z.eqb Pos.eqb negb]. rewrite new_cipher_16 by done. cbn [mbind result_bind].
  replace (negb (Z.land (mode_flags opts) FlagEncryptedGCM =? 0)) with (o_gcm opts)
    by (by destruct opts as [[] []]).
  destruct (o_gcm opts) eqn:Eg.
  - unfold decryptGCMPayload. rewrite makeHeader_zlen. cbn [Z.eqb Pos.eqb negb informHeaderBytes].
    unfold GCMTagSize. rewrite Hgl by done.
    replace (zlen body + 16 <? 16) with false by lia.
    rewrite newInformGCM_16 by done. cbn [mbind result_bind a_open].
    subst sealed. by rewrite gcm_roundtrip.
  - destruct Hal as [Hal|?]; [|done]. unfold decryptCBCPayload, aes_block_size.
    assert (zlen sealed = zlen body + (16 - zlen body mod 16)) as Hsl'.
    { subst sealed. rewrite cbc_length by (by apply pkcs7Pad_aligned).
      by apply pkcs7Pad_zlen. }
    pose proof (Z.mod_pos_bound (zlen body) 16 eq_refl).
    replace (zlen sealed =? 0) with false by lia. rewrite Hal. cbn [Z.eqb negb orb].
    subst sealed. rewrite cbc_roundtrip by (done || by apply pkcs7Pad_aligned).
    by rewrite pkcs7_unpad_pad.
Qed.

(** Nothing else can stop the encoder. *)
Lemma EncodeJSON_total rand iv mac key payload opts :
  rand 16 = Some iv → zlen iv = 16 →
  zlen mac = 6 → zlen key = 16 → zlen payload ≤ MaxDecodedPayloadBytes →
  (o_zlib opts = true →
     ∃ z, zlib_write payload = Some z ∧ zlen z ≤ MaxEncodedPayloadBytes - aes_block_size) →
  ∃ data, EncodeJSON rand mac key payload opts = Ok data.
Proof.
  intros Hr Hiv Hm Hk Hp Hz. unfold EncodeJSON. rewrite Hm, Hk. cbn [Z.eqb Pos.eqb negb].
  replace (MaxDecodedPayloadBytes <? zlen payload) with false by lia.
  assert (∃ body flags, (if o_zlib opts then
    body ← compressPayload payload; Ok (body, Z.lor FlagEncrypted FlagZlib)
    else Ok (payload, FlagEncrypted)) = (Ok (body, flags) : result error _) ∧
    zlen body ≤ MaxEncodedPayloadBytes - aes_block_size) as (body & flags & -> & Hb).
  { destruct (o_zlib opts).
    - destruct (Hz eq_refl) as (z & Hw & Hzl). unfold compressPayload. rewrite Hw. cbn. eauto.
    - do 2 eexists. split; [done|]. unfold aes_block_size, MaxEncodedPayloadBytes. lia. }
  cbn [mbind result_bind]. replace (_ <? zlen body) with false by lia.
  assert (rand (if o_gcm opts then GCMNonceSize else aes_block_size) = Some iv) as ->
    by (by destruct (o_gcm opts)).
  rewrite new_cipher_16 by done. cbn [mbind result_bind].
  destruct (o_gcm opts); [|eauto]. rewrite newInformGCM_16 by done. eauto.
Qed.

(** Decoding behind the envelope. *)
Lemma Decode_body data key p header body payload opts :
  parsePacket data = Ok (p, header) → p_flags p = mode_flags opts →
  decryptPayload p (p_payload p) key header = Ok body →
  (if o_zlib opts then zlib_write payload = Some body else body = payload) →
  zlen payload ≤ MaxDecodedPayloadBytes →
  Decode data key = Ok (p, payload).
Proof.
  intros Hpp Hpf Hd Hb Hp. unfold Decode. rewrite Hpp, Hpf, Hd.
  replace (Z.land (mode_flags opts) FlagSnappy =? 0) with true by (by destruct opts as [[] []]).
  cbn [negb with_packet mbind result_bind].
  replace (negb (Z.land (mode_flags opts) FlagZlib =? 0)) with (o_zlib opts)
    by (by destruct opts as [[] []]).
  assert ((if o_zlib opts then with_packet None (decompressPayload body) else Ok body)
          = (Ok payload : presult bytes)) as ->.
  { destruct (o_zlib opts); [|by subst]. unfold decompressPayload.
    rewrite (zlib_roundtrip payload body) by (done || lia).
    by replace (_ <? zlen payload) with false by lia. }
  cbn [mbind result_bind]. unfold validateDecodedPayloadSize.
  by replace (_ <? zlen payload) with false by lia.
Qed.

(** The response path, opened up. *)
Lemma DecodeControllerResponse_inv data key gcm p body :
  DecodeControllerResponse data key gcm = Ok (p, body) →
  ∃ header,
    envelope data p header ∧
    negb (Z.land (p_flags p) FlagEncryptedGCM =? 0) = gcm ∧
    decryptPayload p (p_payload p) key header = Ok body ∧
    Z.land (p_flags p) FlagZlib = 0 ∧ Z.land (p_flags p) FlagSnappy = 0 ∧
    zlen body ≤ MaxDecodedPayloadBytes.
Proof.
  unfold DecodeControllerResponse. destruct (parsePacket data) as [[p' header]|] eqn:E; [|done].
  cbn [mbind result_bind]. destruct (Bool.eqb _ gcm) eqn:Eg; cbn [negb]; [|done].
  destruct (decryptPayload _ _ _ _) eqn:Ed; [|done]. cbn [with_packet mbind result_bind].
  destruct (Z.land (p_flags p') FlagZlib =? 0) eqn:Ez; cbn [negb]; [|done].
  destruct (Z.land (p_flags p') FlagSnappy =? 0) eqn:Es; cbn [negb]; [|done].
  unfold validateDecodedPayloadSize.
  destruct (_ <? zlen a) eqn:El; cbn; [done|]. intros [= <- <-].
  exists header. apply eqb_prop in Eg. apply parsePacket_envelope in E.
  split_and!; try done; lia.
Qed.
End proofs.

(** ** A concrete instance of the interface

    The cipher is the identity, the tag is an MD5 digest of everything GCM
    authenticates, and compression stores its input.  It satisfies the laws,
    so no theorem below is vacuous. *)
Module Toy.
Definition tag (key n p ad : bytes) : bytes := md5_sum (key ++ n ++ ad ++ p).
Definition seal (key n p ad : bytes) : bytes := p ++ tag key n p ad.
Definition open_ (key n c ad : bytes) : option bytes :=
  let p := take (length c - 16) c in
  if decide (c = seal key n p ad) then Some p else None.

Definition crypto : InformCrypto := {|
  cbc_encrypt _ _ b := b;
  cbc_decrypt _ _ b := b;
  gcm_seal := seal;
  gcm_open := open_;
  zlib_write b := Some b;
  zlib_read b n := Some (take (Z.to_nat n) b);
|}.

#[local] Existing Instance crypto.
Lemma crypto_laws : InformCryptoLaws.
Proof.
  split; try done.
  - intros key n p ad. cbn. unfold open_.
    assert (take (length (seal key n p ad) - 16) (seal key n p ad) = p) as ->.
    { unfold seal. rewrite length_app. unfold tag. rewrite md5_sum_length, Nat.add_sub.
      apply take_app_length. }
    by rewrite decide_True.
  - intros key n p ad. cbn. unfold seal, tag. rewrite zlen_app. unfold zlen.
    by rewrite md5_sum_length.
  - intros key n c p ad. cbn. unfold open_. case_decide as Hc; [|done].
    intros [= <-]. exact Hc.
  - intros b z n. cbn. intros [= <-] Hn. f_equal.
    apply take_ge. unfold zlen in Hn. lia.
Qed.

Definition mac : bytes := map z2b [2; 0; 0; 0; 0; 1].
Definition key : bytes := B "0123456789abcdef".
Definition rand (n : Z) : option bytes := Some (repeat x07 (Z.to_nat n)).
Definition packet (opts : Options) (payload : bytes) : bytes :=
  match EncodeJSON rand mac key payload opts with Ok d => d | Err _ => [] end.
End Toy.

(** C12: every payload within the limits is encoded, in each of the four modes,
    and decoding the packet under the same key gives back the payload, the
    device address and the flags of the mode. *)
Theorem EncodeJSON_decodes `{InformCryptoLaws} rand iv mac key payload opts :
  rand 16 = Some iv → zlen iv = 16 →
  zlen mac = 6 → zlen key = 16 → zlen payload ≤ MaxDecodedPayloadBytes →
  (o_zlib opts = true →
     ∃ z, zlib_write payload = Some z ∧ zlen z ≤ MaxEncodedPayloadBytes - aes_block_size) →
  ∃ data p,
    EncodeJSON rand mac key payload opts = Ok data ∧
    Decode data key = Ok (p, payload) ∧
    p_mac p = mac ∧ p_flags p = mode_flags opts.
Proof.
  intros Hr Hiv Hm Hk Hp Hz.
  set (rand' := λ n, if decide (n = 16) then Some iv else None).
  assert (rand' 16 = Some iv) as Hr' by done.
  rewrite (EncodeJSON_rand rand rand') by congruence.
  destruct (EncodeJSON_total rand' iv mac key payload opts) as [data Hok]; try done.
  assert (∀ n iv', rand' n = Some iv' → zlen iv' = n) as Hrand.
  { intros n iv'. unfold rand'. case_decide; congruence. }
  destruct (EncodeJSON_envelope _ _ _ _ _ _ Hrand Hok) as (p & h & body & Hpp & Hpm & Hpf & Hb & Hd).
  exists data, p. repeat split; try done. by eapply Decode_body.
Qed.

(** C13: the envelope parser accepts exactly the packets the header printer
    writes for a supported flag set, an exact payload length within the bound
    and room for the GCM tag; it returns the printed fields. *)
Theorem parsePacket_exact data p header :
  parsePacket data = Ok (p, header) ↔
  (length (p_mac p) = 6%nat ∧ length (p_iv p) = 16%nat ∧ 0 ≤ p_flags p < 2 ^ 16) ∧
  (Z.land (p_flags p) FlagEncrypted ≠ 0 ∧ Z.ldiff (p_flags p) 15 = 0) ∧
  zlen (p_payload p) ≤ MaxEncodedPayloadBytes ∧
  (Z.land (p_flags p) FlagEncryptedGCM ≠ 0 → GCMTagSize ≤ zlen (p_payload p)) ∧
  header = makeHeader (p_mac p) (p_flags p) (p_iv p) (zlen (p_payload p)) ∧
  data = header ++ p_payload p.
Proof.
  split.
  - intros [? ? ? ? ? ? ? ? ?]%parsePacket_envelope.
    refine (conj (conj _ (conj _ _)) (conj (conj _ _) (conj _ (conj _ (conj _ _))))); assumption.
  - intros ((?&?&?)&(?&?)&?&?&?&?). by apply envelope_parsePacket.
Qed.

(** A controller response is accepted only under the cipher selected for
    the request, without response-side compression, and within the plaintext
    bound.  Under AES-GCM the accepted bytes are exactly the complete header
    followed by the sealing of the returned plaintext with that header as
    associated data, so no header bit can be changed in transit. *)
Theorem controller_response_bound `{InformCryptoLaws} data key gcm p body :
  DecodeControllerResponse data key gcm = Ok (p, body) →
  p_flags p = (if gcm then 9 else 1) ∧
  zlen body ≤ MaxDecodedPayloadBytes ∧
  (gcm = true →
     let header := makeHeader (p_mac p) (p_flags p) (p_iv p) (zlen body + GCMTagSize) in
     data = header ++ gcm_seal key (p_iv p) body header).
Proof.
  intros Hd. destruct (DecodeControllerResponse_inv _ _ _ _ _ Hd)
    as (header & [Hm Hi Hf Hh Hdata Hb He Hk Ht] & Hg & Hdec & Hz & Hs & Hl).
  split.
  { assert (Z.land (p_flags p) 15 = p_flags p) as Hall.
    { rewrite <- (Z.lor_ldiff_and (p_flags p) 15) at 2. by rewrite Hk, Z.lor_0_l. }
    unfold FlagEncrypted, FlagEncryptedGCM, FlagZlib, FlagSnappy in *.
    assert (0 ≤ p_flags p < 16) as Hr.
    { rewrite <- Hall. change 15 with (Z.ones 4). rewrite Z.land_ones by lia.
      apply Z.mod_pos_bound. done. }
    clear -Hr Hg He Hz Hs.
    assert (p_flags p ∈ [0;1;2;3;4;5;6;7;8;9;10;11;12;13;14;15]) as Hin.
    { rewrite !elem_of_cons. lia. }
    repeat (apply elem_of_cons in Hin as [Hin|Hin];
      [rewrite Hin in *; cbn in *; by destruct gcm|]).
    by apply not_elem_of_nil in Hin. }
  split; [done|]. intros ->. cbn zeta.
  unfold decryptPayload in Hdec.
  destruct (Z.land (p_flags p) FlagEncrypted =? 0) eqn:E1; [lia|].
  destruct (zlen key =? 16) eqn:E2; cbn [negb] in Hdec; [|done].
  rewrite new_cipher_16 in Hdec by lia. cbn [mbind result_bind] in Hdec. rewrite Hg in Hdec.
  unfold decryptGCMPayload in Hdec.
  destruct (zlen header =? informHeaderBytes); cbn [negb] in Hdec; [|done].
  destruct (zlen (p_payload p) <? GCMTagSize) eqn:E3; [done|].
  rewrite newInformGCM_16 in Hdec by (unfold zlen; lia). cbn [mbind result_bind a_open] in Hdec.
  destruct (gcm_open _ _ _ _) as [out|] eqn:Eo; [|done]. injection Hdec as ->.
  apply gcm_authentic in Eo. assert (zlen body + GCMTagSize = zlen (p_payload p)) as ->
    by (by rewrite Eo, gcm_length).
  by rewrite <- Hh, <- Eo.
Qed.

(** ** The theorems at concrete packets *)
#[local] Existing Instance Toy.crypto.
#[local] Existing Instance Toy.crypto_laws.

Lemma EncodeJSON_decodes_witness :
  ∃ data p,
    EncodeJSON Toy.rand Toy.mac Toy.key (B "{}") (MkOptions true true) = Ok data ∧
    Decode data Toy.key = Ok (p, B "{}") ∧
    p_mac p = Toy.mac ∧ p_flags p = mode_flags (MkOptions true true).
Proof.
  apply (EncodeJSON_decodes Toy.rand (repeat x07 16)); try done.
  intros _. by exists (B "{}").
Defined.

Lemma controller_response_bound_witness :
  let data := Toy.packet (MkOptions false true) (B "{}") in
  let p := MkPacket Toy.mac 9 (repeat x07 16) (drop 40 data) in
  DecodeControllerResponse data Toy.key true = Ok (p, B "{}") ∧
  data = makeHeader Toy.mac 9 (repeat x07 16) 18
         ++ gcm_seal Toy.key (repeat x07 16) (B "{}") (makeHeader Toy.mac 9 (repeat x07 16) 18).
Proof.
  intros data p.
  assert (DecodeControllerResponse data Toy.key true = Ok (p, B "{}")) as Hd
    by (vm_compute; reflexivity).
  split; [exact Hd|].
  destruct (controller_response_bound data Toy.key true p (B "{}") Hd) as (_ & _ & H).
  exact (H eq_refl).
Defined.
