(* ===== verification/InformSchedule.v ===== *)
(** Heartbeat timing and the controller clock:
    [src/internal/inform/schedule.go] and [controller_clock.go].

    A [time.Duration] is an int64 number of nanoseconds, with Go's wrap-around
    where the code multiplies or adds one without a bound check.  The random
    source is an argument. *)
From S2P Require Import Prelude.

Definition Millisecond : Z := 1000000.
Definition Second : Z := 1000000000.

(** ** schedule.go *)
Definition immediateInformDelay : Z := 100 * Millisecond.
Definition maximumControllerInformInterval : Z := 300 * Second.

Record ScheduleConfig := MkScheduleConfig {
  BaseInterval : Z;
  ControllerIntervalMin : Z;
  ControllerIntervalMax : Z;
  FirmwareIntervalMin : Z;
  ControllerHints : bool;
  BackoffMax : Z;
  JitterPercent : Z;
}.

Record ScheduleDecision := MkScheduleDecision {
  EffectiveInterval : Z;
  NextDelay : Z;
  ConsecutiveFailures : Z;
  Backoff : bool;
  ControllerHintApplied : bool;
  ControllerHintIgnored : bool;
  DecisionControllerHints : bool;
  ImmediateApplied : bool;
  ImmediateSuppressed : bool;
}.

Record Schedule := MkSchedule {
  s_config : ScheduleConfig;
  s_effective : Z;
  s_failures : Z;
  s_immediateLatched : bool;
}.

(** What the random source answers: [Int63n(n)] and [Intn(2)]. *)
Record Random := MkRandom { Int63n : Z → Z; Intn2 : Z }.

Definition ValidateScheduleConfig (config : ScheduleConfig) : result error unit :=
  if BaseInterval config <=? 0 then Err "inform interval must be positive"
  else if ControllerIntervalMin config <=? 0 then
    Err "controller interval minimum must be positive"
  else if maximumControllerInformInterval <? ControllerIntervalMin config then
    Err "controller interval minimum exceeds firmware maximum"
  else if ControllerIntervalMax config <? ControllerIntervalMin config then
    Err "controller interval maximum is below minimum"
  else if negb (ControllerHints config) && negb (FirmwareIntervalMin config =? 0) then
    Err "firmware interval minimum must be zero when controller hints are disabled"
  else if ControllerHints config && (FirmwareIntervalMin config <=? 0) then
    Err "firmware interval minimum must be positive when controller hints are enabled"
  else if ControllerHints config
          && (maximumControllerInformInterval <? FirmwareIntervalMin config) then
    Err "firmware interval minimum exceeds firmware maximum"
  else
    let effectiveMinimum := FirmwareIntervalMin config in
    let effectiveMinimum :=
      if effectiveMinimum <? ControllerIntervalMin config
      then ControllerIntervalMin config else effectiveMinimum in
    if ControllerHints config && (ControllerIntervalMax config <? effectiveMinimum) then
      Err "controller interval maximum is below effective firmware minimum"
    else if BackoffMax config <=? 0 then Err "inform backoff maximum must be positive"
    else if (JitterPercent config <? 0) || (100 <? JitterPercent config) then
      Err "inform backoff jitter percent must be between 0 and 100"
    else Ok tt.

Definition NewSchedule (config : ScheduleConfig) : result error Schedule :=
  _ ← ValidateScheduleConfig config;
  Ok (MkSchedule config (BaseInterval config) 0 false).

Definition clampDuration (value minimum maximum : Z) : Z :=
  if value <? minimum then minimum
  else if maximum <? value then maximum
  else value.

Definition decision (schedule : Schedule) (delay : Z) (backoff hintApplied hintIgnored : bool)
    : ScheduleDecision :=
  MkScheduleDecision (s_effective schedule) delay (s_failures schedule) backoff
    hintApplied hintIgnored (ControllerHints (s_config schedule)) false false.

Definition Current (schedule : Schedule) : ScheduleDecision :=
  decision schedule (s_effective schedule) false false false.

Definition Reset (schedule : Schedule) : Schedule * ScheduleDecision :=
  let schedule := MkSchedule (s_config schedule) (BaseInterval (s_config schedule)) 0 false in
  (schedule, Current schedule).

Definition SuccessWithOptions (schedule : Schedule) (controllerHint : Z) (immediate : bool)
    : Schedule * ScheduleDecision :=
  let config := s_config schedule in
  let hintApplied := ControllerHints config && (0 <? controllerHint) in
  let hintIgnored := negb (ControllerHints config) && (0 <? controllerHint) in
  let effective :=
    if hintApplied then
      let maximum := ControllerIntervalMax config in
      let maximum := if maximumControllerInformInterval <? maximum
                     then maximumControllerInformInterval else maximum in
      let minimum := FirmwareIntervalMin config in
      let minimum := if minimum <? ControllerIntervalMin config
                     then ControllerIntervalMin config else minimum in
      clampDuration controllerHint minimum maximum
    else s_effective schedule in
  let grantImmediate := immediate && negb (s_immediateLatched schedule) in
  let schedule := MkSchedule config effective 0 immediate in
  let delay := if grantImmediate then immediateInformDelay else effective in
  let d := decision schedule delay false hintApplied hintIgnored in
  (schedule,
   MkScheduleDecision (EffectiveInterval d) (NextDelay d) (ConsecutiveFailures d) (Backoff d)
     (ControllerHintApplied d) (ControllerHintIgnored d) (DecisionControllerHints d)
     grantImmediate (immediate && negb grantImmediate)).

Definition Success (schedule : Schedule) (controllerHint : Z) : Schedule * ScheduleDecision :=
  SuccessWithOptions schedule controllerHint false.

(** The doubling loop of [Failure]; [n] is the number of turns left. *)
Fixpoint backoff_loop (n : nat) (delay maximum : Z) : Z :=
  match n with
  | O => delay
  | S n' =>
      if (maximum <=? delay) || (Z.quot maximum 2 <? delay) then maximum
      else backoff_loop n' (wrap64 (delay * 2)) maximum
  end.

Definition jitter (schedule : Schedule) (random : Random) (delay minimum maximum : Z) : Z :=
  if (JitterPercent (s_config schedule) =? 0) || (delay <=? 0) then delay
  else
    let window := Z.quot (wrap64 (delay * JitterPercent (s_config schedule))) 100 in
    if window <=? 0 then delay
    else
      let offset := Int63n random (wrap64 (window + 1)) in
      let offset := if Intn2 random =? 0 then wrap64 (- offset) else offset in
      clampDuration (wrap64 (delay + offset)) minimum maximum.

Definition Failure (schedule : Schedule) (random : Random) : Schedule * ScheduleDecision :=
  let schedule := MkSchedule (s_config schedule) (s_effective schedule)
                    (wrap64 (s_failures schedule + 1)) false in
  let maximum := BackoffMax (s_config schedule) in
  let maximum := if maximum <? s_effective schedule then s_effective schedule else maximum in
  let delay := backoff_loop (Z.to_nat (s_failures schedule)) (s_effective schedule) maximum in
  let delay := jitter schedule random delay (s_effective schedule) maximum in
  (schedule, decision schedule delay true false false).

(** ** controller_clock.go

    A [time.Time] is its Unix seconds and nanoseconds. *)
Record Time := MkTime { t_unix : Z; t_nsec : Z }.

Record ControllerClock := MkControllerClock { c_offsetSeconds : Z; c_set : bool }.

Definition saturatingAdd (left right : Z) : Z :=
  if (0 <? right) && (int64_max - right <? left) then int64_max
  else if (right <? 0) && (left <? int64_min - right) then int64_min
  else wrap64 (left + right).

Definition saturatingSubtract (left right : Z) : Z :=
  if (right <? 0) && (wrap64 (int64_max + right) <? left) then int64_max
  else if (0 <? right) && (left <? wrap64 (int64_min + right)) then int64_min
  else wrap64 (left - right).

Definition ClockUpdate (clock : ControllerClock) (serverTimeMillis : Z) (local : Time)
    : ControllerClock :=
  MkControllerClock (saturatingSubtract (Z.quot serverTimeMillis 1000) (t_unix local)) true.

(** Methods on a possibly nil receiver take an option. *)
Definition ClockApply (clock : option ControllerClock) (local : Time) : Time :=
  match clock with
  | Some c => if c_set c then MkTime (saturatingAdd (t_unix local) (c_offsetSeconds c)) (t_nsec local)
              else local
  | None => local
  end.

Definition OffsetSeconds (clock : option ControllerClock) : Z :=
  match clock with
  | Some c => if c_set c then c_offsetSeconds c else 0
  | None => 0
  end.

Definition ClockSet (clock : option ControllerClock) : bool :=
  match clock with Some c => c_set c | None => false end.

Definition ClockReset (clock : option ControllerClock) : option ControllerClock :=
  match clock with Some _ => Some (MkControllerClock 0 false) | None => None end.

(** ** A daemon's sequence of schedule calls *)
Inductive schedule_event :=
| EvSuccess (hint : Z) (immediate : bool)
| EvFailure (random : Random)
| EvReset.

Definition schedule_step (schedule : Schedule) (e : schedule_event) : Schedule * ScheduleDecision :=
  match e with
  | EvSuccess hint immediate => SuccessWithOptions schedule hint immediate
  | EvFailure random => Failure schedule random
  | EvReset => Reset schedule
  end.

Fixpoint schedule_run (schedule : Schedule) (es : list schedule_event)
    : Schedule * list ScheduleDecision :=
  match es with
  | [] => (schedule, [])
  | e :: es' =>
      let '(schedule1, d) := schedule_step schedule e in
      let '(schedule2, ds) := schedule_run schedule1 es' in
      (schedule2, d :: ds)
  end.

(** ** Facts about the configuration *)
Record valid_config (config : ScheduleConfig) : Prop := {
  vc_base : 0 < BaseInterval config;
  vc_min : 0 < ControllerIntervalMin config ≤ maximumControllerInformInterval;
  vc_max : ControllerIntervalMin config ≤ ControllerIntervalMax config;
  vc_nohints : ControllerHints config = false → FirmwareIntervalMin config = 0;
  vc_hints : ControllerHints config = true →
    0 < FirmwareIntervalMin config ≤ maximumControllerInformInterval ∧
    FirmwareIntervalMin config ≤ ControllerIntervalMax config;
  vc_backoff : 0 < BackoffMax config;
  vc_jitter : 0 ≤ JitterPercent config ≤ 100;
}.

Lemma ValidateScheduleConfig_ok config :
  ValidateScheduleConfig config = Ok tt ↔ valid_config config.
Proof.
  unfold ValidateScheduleConfig. cbv zeta. split.
  - intros H.
    repeat match type of H with
    | (if ?b then Err _ else _) = _ =>
        let E := fresh in destruct b eqn:E; [discriminate H|]
    end.
    destruct (ControllerHints config) eqn:?, (FirmwareIntervalMin config <? ControllerIntervalMin config) eqn:?;
      cbn [negb andb] in *; split; intros; try congruence; lia.
  - intros [H1 H2 H3 H4 H5 H6 H7].
    destruct (ControllerHints config); [destruct (H5 eq_refl)|specialize (H4 eq_refl)];
    destruct (FirmwareIntervalMin config <? ControllerIntervalMin config) eqn:?;
    repeat match goal with
    | |- (if ?b then _ else _) = _ =>
        let E := fresh in destruct b eqn:E; [exfalso; cbn [negb andb] in E; lia|]
    end; done.
Qed.

Lemma clampDuration_bounds v lo hi : lo ≤ hi → lo ≤ clampDuration v lo hi ≤ hi.
Proof. intros H. unfold clampDuration. repeat case_bool; lia. Qed.

Lemma clampDuration_id v lo hi : lo ≤ v ≤ hi → clampDuration v lo hi = v.
Proof. intros H. unfold clampDuration. repeat case_bool; lia. Qed.

(** ** The schedule invariant *)

(** The bounds a retained interval obeys. *)
Definition effective_ok (config : ScheduleConfig) (effective : Z) : Prop :=
  effective = BaseInterval config ∨
  (ControllerHints config = true ∧
   Z.max (FirmwareIntervalMin config) (ControllerIntervalMin config) ≤ effective
     ≤ Z.min (ControllerIntervalMax config) maximumControllerInformInterval).

Record schedule_ok (schedule : Schedule) : Prop := {
  so_config : valid_config (s_config schedule);
  so_base : in_int64 (BaseInterval (s_config schedule));
  so_backoff : in_int64 (BackoffMax (s_config schedule));
  so_effective : effective_ok (s_config schedule) (s_effective schedule);
}.

Definition random_ok (random : Random) : Prop :=
  ∀ n, 0 < n → 0 ≤ Int63n random n < n.

Lemma effective_range config e :
  valid_config config → in_int64 (BaseInterval config) → effective_ok config e →
  0 < e ∧ in_int64 e.
Proof.
  intros [H1 H2 H3 H4 H5 H6 H7] Hb [->|[Hh He]]; [done|].
  unfold maximumControllerInformInterval, Second, in_int64, int64_min, int64_max in *. lia.
Qed.

(** The loop computes the capped power of two. *)
Lemma backoff_loop_eq n delay maximum :
  0 < delay ≤ maximum → in_int64 maximum →
  backoff_loop n delay maximum = Z.min maximum (delay * 2 ^ Z.of_nat n).
Proof.
  unfold in_int64, int64_max, int64_min. intros Hd Hm. revert delay Hd.
  induction n as [|n IH]; intros delay Hd; cbn [backoff_loop].
  - change (2 ^ Z.of_nat 0) with 1. lia.
  - rewrite Nat2Z.inj_succ, Z.pow_succ_r by lia.
    assert (0 < 2 ^ Z.of_nat n) as Hp by (apply Z.pow_pos_nonneg; lia).
    rewrite Z.quot_div_nonneg by lia.
    destruct ((maximum <=? delay) || (maximum / 2 <? delay)) eqn:E.
    + assert (maximum ≤ delay * 2) by (Z.div_mod_to_equations; lia). nia.
    + assert (delay * 2 ≤ maximum) by (Z.div_mod_to_equations; lia).
      rewrite wrap64_id by (unfold in_int64, int64_min, int64_max; lia).
      rewrite IH by lia. f_equal. lia.
Qed.

Lemma jitter_bounds schedule random delay lo hi :
  lo ≤ delay ≤ hi → lo ≤ jitter schedule random delay lo hi ≤ hi.
Proof.
  intros H. unfold jitter. cbv zeta.
  destruct (_ || _); [done|]. destruct (_ <=? 0); [done|].
  apply clampDuration_bounds. lia.
Qed.

(** What the daemon may rely on in every decision. *)
Record decision_ok (config : ScheduleConfig) (d : ScheduleDecision) : Prop := {
  do_effective : effective_ok config (EffectiveInterval d);
  do_positive : 0 < NextDelay d;
  do_bound : NextDelay d ≤ Z.max (EffectiveInterval d) (BackoffMax config)
             ∨ NextDelay d = immediateInformDelay;
  do_normal : Backoff d = false → ImmediateApplied d = false →
    NextDelay d = EffectiveInterval d;
  do_backoff : Backoff d = true → EffectiveInterval d ≤ NextDelay d;
}.

Lemma hint_effective_ok config hint :
  valid_config config → ControllerHints config = true →
  effective_ok config
    (clampDuration hint
       (if FirmwareIntervalMin config <? ControllerIntervalMin config
        then ControllerIntervalMin config else FirmwareIntervalMin config)
       (if maximumControllerInformInterval <? ControllerIntervalMax config
        then maximumControllerInformInterval else ControllerIntervalMax config)).
Proof.
  intros [H1 H2 H3 H4 H5 H6 H7] Hh. destruct (H5 Hh). right. split; [done|].
  match goal with |- _ ≤ clampDuration ?v ?lo ?hi ≤ _ =>
    pose proof (clampDuration_bounds v lo hi) end.
  destruct (FirmwareIntervalMin config <? ControllerIntervalMin config) eqn:?,
    (maximumControllerInformInterval <? ControllerIntervalMax config) eqn:?; lia.
Qed.

Lemma success_ok schedule hint immediate schedule' d :
  schedule_ok schedule → SuccessWithOptions schedule hint immediate = (schedule', d) →
  s_config schedule' = s_config schedule ∧ schedule_ok schedule' ∧
  decision_ok (s_config schedule) d.
Proof.
  intros [Hc Hb Hbm He]. unfold SuccessWithOptions. cbv zeta.
  set (eff := if ControllerHints _ && _ then _ else _). intros [= <- <-].
  assert (effective_ok (s_config schedule) eff) as Heff.
  { subst eff. destruct (ControllerHints (s_config schedule)) eqn:Eh; cbn [andb]; [|done].
    destruct (0 <? hint); [|done]. by apply hint_effective_ok. }
  destruct (effective_range _ _ Hc Hb Heff) as [Hpos _].
  split; [done|]. split; [by constructor|].
  split; cbn; try done.
  - destruct (immediate && _); [reflexivity|exact Hpos].
  - destruct (immediate && _); [by right|left; lia].
  - intros _ ->. done.
Qed.

Lemma failure_ok schedule random schedule' d :
  schedule_ok schedule → Failure schedule random = (schedule', d) →
  s_config schedule' = s_config schedule ∧ schedule_ok schedule' ∧
  decision_ok (s_config schedule) d.
Proof.
  intros [Hc Hb Hbm He]. unfold Failure. cbv zeta. cbn [s_config s_effective s_failures].
  destruct (effective_range _ _ Hc Hb He) as [Hpos Hin].
  set (maximum := if _ <? _ then _ else _). set (delay := jitter _ _ _ _ _).
  assert (s_effective schedule ≤ maximum ∧ maximum ≤ Z.max (s_effective schedule) (BackoffMax (s_config schedule))
          ∧ in_int64 maximum) as (Hm1 & Hm2 & Hm3).
  { subst maximum. destruct (_ <? _) eqn:E; repeat split; try apply Hbm; try apply Hin; lia. }
  assert (s_effective schedule ≤ delay ≤ maximum) as Hd.
  { subst delay. apply jitter_bounds. rewrite backoff_loop_eq by (done || lia).
    assert (0 < 2 ^ Z.of_nat (Z.to_nat (wrap64 (s_failures schedule + 1)))) by lia. nia. }
  clearbody delay. intros [= <- <-].
  split; [done|]. split; [by constructor|]. split; cbn; try done; try lia.
Qed.

Lemma reset_ok schedule schedule' d :
  schedule_ok schedule → Reset schedule = (schedule', d) →
  s_config schedule' = s_config schedule ∧ schedule_ok schedule' ∧
  decision_ok (s_config schedule) d.
Proof.
  intros [Hc Hb Hbm He]. unfold Reset. cbv zeta. intros [= <- <-].
  pose proof (vc_base _ Hc). split; [done|]. split; [constructor; try done; by left|].
  split; cbn; try done; [by left|left; lia].
Qed.

Lemma NewSchedule_ok config schedule :
  NewSchedule config = Ok schedule →
  in_int64 (BaseInterval config) → in_int64 (BackoffMax config) →
  s_config schedule = config ∧ schedule_ok schedule.
Proof.
  unfold NewSchedule. destruct (ValidateScheduleConfig config) as [[]|] eqn:E; [|done].
  cbn. intros [= <-] Hb Hbm. apply ValidateScheduleConfig_ok in E.
  split; [done|]. constructor; try done. by left.
Qed.

(** C19: from a schedule the constructor accepts, after any sequence of
    successes, failures and resets, with any controller hints and any random
    numbers, the retained interval is the operator's or a hint within the
    configured and firmware bounds, and every delay is positive, equals the
    retained interval when nothing failed, and lies between the retained
    interval and the configured maximum when backing off; the only exception
    is the fixed near-immediate delay.  Multiplication overflow in the jitter
    cannot break the bounds. *)
Theorem schedule_delays_bounded config schedule es :
  NewSchedule config = Ok schedule →
  in_int64 (BaseInterval config) → in_int64 (BackoffMax config) →
  effective_ok config (s_effective (schedule_run schedule es).1) ∧
  Forall (decision_ok config) (schedule_run schedule es).2.
Proof.
  intros Hn Hb Hbm. destruct (NewSchedule_ok _ _ Hn Hb Hbm) as [Hcfg Hok]. clear Hn.
  revert schedule Hcfg Hok. induction es as [|e es IH]; intros schedule Hcfg Hok; cbn [schedule_run].
  - split; [rewrite <- Hcfg; apply Hok|constructor].
  - destruct (schedule_step schedule e) as [s1 d] eqn:Es.
    assert (s_config s1 = s_config schedule ∧ schedule_ok s1 ∧ decision_ok (s_config schedule) d)
      as (Hc1 & Hok1 & Hd).
    { destruct e; cbn in Es; eauto using success_ok, failure_ok, reset_ok. }
    destruct (schedule_run s1 es) as [s2 ds] eqn:Er.
    destruct (IH s1) as [IH1 IH2]; [congruence|done|]. rewrite Er in IH1, IH2.
    split; [exact IH1|]. constructor; [by rewrite <- Hcfg|exact IH2].
Qed.

(** Without jitter, the delay after the [k]-th consecutive failure is the
    retained interval times two to the [k], capped at the larger of that
    interval and the configured maximum. *)
Theorem failure_backoff_exact schedule random :
  schedule_ok schedule → JitterPercent (s_config schedule) = 0 →
  0 ≤ s_failures schedule < int64_max →
  NextDelay (Failure schedule random).2 =
    Z.min (Z.max (BackoffMax (s_config schedule)) (s_effective schedule))
          (s_effective schedule * 2 ^ (s_failures schedule + 1)) ∧
  ConsecutiveFailures (Failure schedule random).2 = s_failures schedule + 1.
Proof.
  intros [Hc Hb Hbm He] Hj Hf. unfold Failure. cbn.
  destruct (effective_range _ _ Hc Hb He) as [Hpos Hin].
  rewrite wrap64_id by (unfold in_int64, int64_min, int64_max in *; lia).
  split; [|done]. unfold jitter. cbn [s_config]. rewrite Hj. cbn [Z.eqb orb].
  set (maximum := if _ <? _ then _ else _).
  assert (maximum = Z.max (BackoffMax (s_config schedule)) (s_effective schedule)) as ->
    by (subst maximum; destruct (_ <? _) eqn:?; lia).
  rewrite backoff_loop_eq by (unfold in_int64 in *; lia). f_equal. f_equal. f_equal. lia.
Qed.

Lemma immediate_run_latched schedule hints :
  s_immediateLatched schedule = true →
  Forall (λ d, ImmediateApplied d = false)
    (schedule_run schedule (map (λ h, EvSuccess h true) hints)).2.
Proof.
  revert schedule. induction hints as [|h hints IH]; intros schedule Hl; cbn; [constructor|].
  match goal with |- context [schedule_run ?s _] => set (s1 := s) end.
  specialize (IH s1 eq_refl). destruct (schedule_run s1 _). cbn in *.
  constructor; [|exact IH]. cbn. by rewrite Hl.
Qed.

(** During any run of responses that all ask for an immediate follow-up,
    at most one follow-up is granted, so a controller cannot drive the stub
    into a 100 ms request loop. *)
Theorem immediate_granted_at_most_once schedule hints :
  (length (filter (λ d, ImmediateApplied d = true)
     (schedule_run schedule (map (λ h, EvSuccess h true) hints)).2) ≤ 1)%nat.
Proof.
  assert (∀ ds, Forall (λ d, ImmediateApplied d = false) ds →
    filter (λ d, ImmediateApplied d = true) ds = []) as Hnil.
  { induction 1 as [|d ds Hd _ IH]; [done|].
    rewrite filter_cons_False by congruence. done. }
  destruct hints as [|h hints]; [cbn; lia|]. cbn [map schedule_run].
  destruct (schedule_step schedule (EvSuccess h true)) as [s1 d] eqn:Es.
  assert (s_immediateLatched s1 = true) as Hl by (by injection Es as <- _).
  pose proof (immediate_run_latched s1 hints Hl) as Hf.
  destruct (schedule_run s1 _) as [s2 ds]. cbn [snd] in *.
  rewrite filter_cons, (Hnil _ Hf). case_decide; cbn [length]; lia.
Qed.

(** ** The clock *)
Definition clamp_int64 (z : Z) : Z := Z.max int64_min (Z.min int64_max z).

Lemma saturatingAdd_eq l r : in_int64 l → in_int64 r → saturatingAdd l r = clamp_int64 (l + r).
Proof.
  unfold in_int64, saturatingAdd, clamp_int64, wrap64, int64_min, int64_max. intros Hl Hr.
  repeat case_bool; try lia. rewrite Z.mod_small; lia.
Qed.

Lemma saturatingSubtract_eq l r :
  in_int64 l → in_int64 r → saturatingSubtract l r = clamp_int64 (l - r).
Proof.
  intros Hl Hr. unfold saturatingSubtract, clamp_int64.
  unfold in_int64 in *. destruct (r <? 0) eqn:E1.
  - rewrite (wrap64_id (int64_max + r)) by (unfold in_int64, int64_min, int64_max in *; lia).
    replace (0 <? r) with false by lia. cbn [andb].
    destruct (_ <? l) eqn:E2; [lia|].
    rewrite wrap64_id; unfold in_int64, int64_min, int64_max in *; lia.
  - cbn [andb]. destruct (0 <? r) eqn:E2; cbn [andb].
    + rewrite (wrap64_id (int64_min + r)) by (unfold in_int64, int64_min, int64_max in *; lia).
      destruct (l <? _) eqn:E3; [lia|].
      rewrite wrap64_id; unfold in_int64, int64_min, int64_max in *; lia.
    + rewrite wrap64_id; unfold in_int64, int64_min, int64_max in *; lia.
Qed.

(** After an update the retained offset is the exact difference between
    controller seconds and local seconds, saturated at the int64 limits, and a
    time shifted by the clock advances with the local clock from the
    controller's second, keeping its nanoseconds. *)
Theorem clock_update_apply clock serverTimeMillis local later :
  in_int64 serverTimeMillis → in_int64 (t_unix local) → in_int64 (t_unix later) →
  let clock' := ClockUpdate clock serverTimeMillis local in
  OffsetSeconds (Some clock') = clamp_int64 (Z.quot serverTimeMillis 1000 - t_unix local) ∧
  (in_int64 (Z.quot serverTimeMillis 1000 - t_unix local) →
   ClockApply (Some clock') later =
     MkTime (clamp_int64 (Z.quot serverTimeMillis 1000 + (t_unix later - t_unix local)))
            (t_nsec later)).
Proof.
  intros Hs Hl Hn clock'. cbn.
  assert (in_int64 (Z.quot serverTimeMillis 1000)) as Hq.
  { unfold in_int64, int64_min, int64_max in *. Z.quot_rem_to_equations. lia. }
  rewrite saturatingSubtract_eq by done. split; [done|]. intros Hd.
  assert (clamp_int64 (Z.quot serverTimeMillis 1000 - t_unix local)
          = Z.quot serverTimeMillis 1000 - t_unix local) as ->
    by (unfold clamp_int64, in_int64 in *; lia).
  rewrite saturatingAdd_eq by done. f_equal. f_equal. lia.
Qed.

(** ** The theorems at concrete values *)
Definition demo_config : ScheduleConfig :=
  MkScheduleConfig (10 * Second) (5 * Second) (60 * Second) (5 * Second) true (120 * Second) 20.
Definition demo_schedule : Schedule := MkSchedule demo_config (10 * Second) 0 false.
Definition demo_random : Random := MkRandom (λ n, n / 2) 0.

Lemma schedule_delays_bounded_witness :
  let es := [EvSuccess (90 * Second) true; EvFailure demo_random; EvFailure demo_random; EvReset] in
  effective_ok demo_config (s_effective (schedule_run demo_schedule es).1) ∧
  Forall (decision_ok demo_config) (schedule_run demo_schedule es).2 ∧
  NextDelay <$> (schedule_run demo_schedule es).2
    = [100000000; 108000000000; 108000000000; 10000000000].
Proof.
  intros es.
  destruct (schedule_delays_bounded demo_config demo_schedule es) as [H1 H2].
  - vm_compute. reflexivity.
  - unfold in_int64. vm_compute. split; discriminate.
  - unfold in_int64. vm_compute. split; discriminate.
  - split; [exact H1|]. split; [exact H2|]. vm_compute. reflexivity.
Defined.

Lemma failure_backoff_exact_witness :
  let config := MkScheduleConfig (10 * Second) (5 * Second) (60 * Second) 0 false (120 * Second) 0 in
  NextDelay (Failure (MkSchedule config (10 * Second) 2 true) demo_random).2 = 80 * Second.
Proof.
  intros config.
  destruct (failure_backoff_exact (MkSchedule config (10 * Second) 2 true) demo_random) as [H _].
  - split.
    + apply ValidateScheduleConfig_ok. vm_compute. reflexivity.
    + unfold in_int64. vm_compute. split; discriminate.
    + unfold in_int64. vm_compute. split; discriminate.
    + left. reflexivity.
  - reflexivity.
  - vm_compute. split; [discriminate|reflexivity].
  - rewrite H. vm_compute. reflexivity.
Defined.

Lemma clock_update_apply_witness :
  ClockApply (Some (ClockUpdate (MkControllerClock 0 false) 1700000000123 (MkTime 1600000000 5)))
             (MkTime 1600000060 7)
  = MkTime 1700000060 7.
Proof.
  destruct (clock_update_apply (MkControllerClock 0 false) 1700000000123
    (MkTime 1600000000 5) (MkTime 1600000060 7)) as [_ H].
  1-3: unfold in_int64; vm_compute; split; discriminate.
  rewrite H; [vm_compute; reflexivity|].
  unfold in_int64. vm_compute. split; discriminate.
Defined.
