(* ===== verification/AtomicFile.v ===== *)
(** Durable file replacement: [src/internal/atomicfile/write.go], over a model
    of a file system that can lose power.

    A directory maps paths to inodes.  Its changes reach the disk in order, so
    a crash leaves one of the versions since the last directory sync.  A file
    written since its last [fsync] has arbitrary content after a crash.  Every
    system call can fail; a failed write may have written a prefix.

    The file ends with the interface [FileSystem] that the components storing
    state use, and its implementation by [WriteFile]. *)
From S2P Require Import Prelude GoStrings.

Record inode := MkInode {
  i_mode : Z;
  i_data : bytes;
  i_synced : bool;
}.

Record fs := MkFs {
  f_dirs : list (gmap bytes nat);     (* versions that may be on disk, newest first *)
  f_inodes : gmap nat inode;
  f_next : nat;
}.

(** The directory as running processes see it. *)
Definition cur_dir (s : fs) : gmap bytes nat :=
  match f_dirs s with d :: _ => d | [] => ∅ end.

Definition lookup_in (s : fs) (d : gmap bytes nat) (path : bytes) : option inode :=
  match d !! path with Some i => f_inodes s !! i | None => None end.

(** [os.ReadFile]. *)
Definition read_file (s : fs) (path : bytes) : option bytes :=
  i_data <$> lookup_in s (cur_dir s) path.

(** The contents a crash may leave at [path]. *)
Definition crash_content (s : fs) (path : bytes) (o : option bytes) : Prop :=
  ∃ d, d ∈ f_dirs s ∧
    match lookup_in s d path with
    | None => o = None
    | Some f => ∃ b, o = Some b ∧ (i_synced f = true → b = i_data f)
    end.

(** ** System calls *)
Inductive stage :=
| StMkdir | StCreate | StChmod | StWrite | StSync | StClose | StRename | StOpenDir | StSyncDir.

Inductive outcome :=
| Done
| Failed (written : nat)   (* bytes written before the failure, for a write *)
| Unsupported.             (* EINVAL or ENOTSUP *)

(** What the system answers to the calls of one [WriteFile]. *)
Record answers := MkAnswers {
  an_stage : stage → outcome;
  an_suffix : bytes;          (* the random part of the temporary name *)
  an_remove : bool;           (* whether the deferred removal works *)
}.

Definition put_dir (s : fs) (d : gmap bytes nat) : fs :=
  MkFs (d :: f_dirs s) (f_inodes s) (f_next s).
Definition put_inode (s : fs) (i : nat) (f : inode) : fs :=
  MkFs (f_dirs s) (<[i := f]> (f_inodes s)) (f_next s).

Definition create_excl (s : fs) (path : bytes) : fs :=
  MkFs (<[path := f_next s]> (cur_dir s) :: f_dirs s)
       (<[f_next s := MkInode 0x180 [] false]> (f_inodes s)) (S (f_next s)).
Definition set_inode (s : fs) (path : bytes) (g : inode → inode) : fs :=
  match cur_dir s !! path with
  | Some i => match f_inodes s !! i with Some f => put_inode s i (g f) | None => s end
  | None => s
  end.
Definition write_inode (data : bytes) (f : inode) : inode :=
  MkInode (i_mode f) (i_data f ++ data) false.
Definition chmod_inode (mode : Z) (f : inode) : inode :=
  MkInode mode (i_data f) (i_synced f).
Definition sync_inode (f : inode) : inode := MkInode (i_mode f) (i_data f) true.
Definition rename (s : fs) (from to : bytes) : fs :=
  match cur_dir s !! from with
  | Some i => put_dir s (<[to := i]> (delete from (cur_dir s)))
  | None => s
  end.
Definition remove (s : fs) (path : bytes) : fs := put_dir s (delete path (cur_dir s)).
Definition sync_dir (s : fs) : fs := MkFs [cur_dir s] (f_inodes s) (f_next s).

(** ** write.go

    A run is its result and every state it passed through, newest first. *)
Definition run (A : Type) : Type := list fs → result error A * list fs.

#[export] Instance run_ret : MRet run := λ _ a, λ tr, (Ok a, tr).
#[export] Instance run_bind : MBind run := λ _ _ k m, λ tr,
  match m tr with
  | (Ok a, tr') => k a tr'
  | (Err e, tr') => (Err e, tr')
  end.

Definition state_of (tr : list fs) : fs :=
  match tr with s :: _ => s | [] => MkFs [] ∅ 0 end.

Definition mutate (g : fs → fs) : run unit := λ tr, (Ok tt, g (state_of tr) :: tr).
Definition fail {A} (e : error) : run A := λ tr, (Err e, tr).

(** A system call: its effect, or the error and the effect of failing. *)
Definition sys (an : answers) (st : stage) (e : error) (ok : fs → fs) (partial : nat → fs → fs)
    : run unit :=
  match an_stage an st with
  | Done => mutate ok
  | Failed n => _ ← mutate (partial n); fail e
  | Unsupported => fail e
  end.

Definition no_effect : nat → fs → fs := λ _ s, s.

(** [filepath.Split]: everything up to and including the last slash, and the
    rest. *)
Fixpoint split_path (s : bytes) : bytes * bytes :=
  match s with
  | [] => ([], [])
  | b :: t =>
      match split_path t with
      | ([], r) => if decide (b = x2f) then ([b], r) else ([], b :: r)
      | (d, r) => (b :: d, r)
      end
  end.
Definition temp_name (path suffix : bytes) : bytes :=
  (split_path path).1 ++ B "." ++ path_base path ++ B ".tmp-" ++ suffix.

(** [os.CreateTemp]: a new file that did not exist. *)
Definition create_temp (an : answers) (temp : bytes) : run unit := λ tr,
  match cur_dir (state_of tr) !! temp with
  | Some _ => (Err "create temporary file", tr)
  | None => sys an StCreate "create temporary file" (λ s, create_excl s temp) no_effect tr
  end.

Definition syncDirectory (an : answers) : run unit :=
  _ ← sys an StOpenDir "open directory" id no_effect;
  (match an_stage an StSyncDir with
   | Done => mutate sync_dir
   | Unsupported => mret tt
   | Failed _ => fail "sync directory"
   end).

(** The deferred close and removal run on every path after creation. *)
Definition defer_remove (an : answers) (temp : bytes) (m : run unit) : run unit := λ tr,
  let '(r, tr') := m tr in
  match cur_dir (state_of tr') !! temp with
  | Some _ => (r, if an_remove an then remove (state_of tr') temp :: tr' else tr')
  | None => (r, tr')
  end.

Definition WriteFile (an : answers) (path data : bytes) (mode : Z) : run unit :=
  if decide (path = []) then fail "file path is required"
  else
    let temp := temp_name path (an_suffix an) in
    _ ← sys an StMkdir "create directory" id no_effect;
    _ ← create_temp an temp;
    defer_remove an temp (
      _ ← sys an StChmod "set temporary file mode"
            (λ s, set_inode s temp (chmod_inode (Z.land mode 511))) no_effect;
      _ ← sys an StWrite "write temporary file"
            (λ s, set_inode s temp (write_inode data))
            (λ n s, set_inode s temp (write_inode (take n data)));
      _ ← sys an StSync "sync temporary file" (λ s, set_inode s temp sync_inode) no_effect;
      _ ← sys an StClose "close temporary file" id no_effect;
      _ ← sys an StRename "replace" (λ s, rename s temp path) no_effect;
      syncDirectory an).

(** ** The temporary name never is the target *)
Lemma split_path_spec s :
  s = (split_path s).1 ++ (split_path s).2 ∧ x2f ∉ (split_path s).2 ∧
  ((split_path s).1 = [] ∨ ∃ d, (split_path s).1 = d ++ [x2f]).
Proof.
  induction s as [|b t (IH1 & IH2 & IH3)]; cbn.
  - split; [done|]. split; [apply not_elem_of_nil|by left].
  - destruct (split_path t) as [[|c d] r]; cbn in *.
    + case_decide as Hb; cbn.
      * subst. split; [done|]. split; [done|]. right. by exists [].
      * subst r. split; [done|]. split; [|by left].
        rewrite not_elem_of_cons. split; [congruence|done].
    + split; [by f_equal|]. split; [done|]. right.
      destruct IH3 as [?|[d' Hd]]; [done|]. exists (b :: d'). cbn. by f_equal.
Qed.

Lemma until_slash_app l r : x2f ∉ l → until_slash (l ++ r) = l ++ until_slash r.
Proof.
  induction l as [|b l IH]; [done|]. intros [Hb Hl]%not_elem_of_cons. cbn.
  rewrite decide_False by congruence. f_equal. auto.
Qed.

Lemma path_base_rest path :
  (split_path path).2 ≠ [] → path_base path = (split_path path).2.
Proof.
  destruct (split_path_spec path) as (Hp & Hr & Hd). intros Hne.
  set (d := (split_path path).1) in *. set (r := (split_path path).2) in *. clearbody d r.
  unfold path_base. subst path. destruct (d ++ r) as [|b t] eqn:E.
  { by apply app_nil in E as [_ ->]. }
  rewrite <- E, rev_app_distr. clear E.
  assert (x2f ∉ rev r) as Hrr by (by rewrite list_elem_of_In, <- in_rev, <- list_elem_of_In).
  assert (rev r ≠ []) as Hrn by (intros H; apply Hne; apply rev_inj; by rewrite H).
  assert (drop_slashes (rev r ++ rev d) = rev r ++ rev d) as ->.
  { destruct (rev r) as [|c r']; [done|]. apply not_elem_of_cons in Hrr as [Hc _].
    cbn. by rewrite decide_False by congruence. }
  rewrite until_slash_app by done.
  assert (until_slash (rev d) = []) as ->.
  { destruct Hd as [->|[d' ->]]; [done|]. rewrite rev_app_distr. cbn. by rewrite decide_True. }
  rewrite app_nil_r. destruct (rev r) eqn:E; [done|]. rewrite <- E. apply rev_involutive.
Qed.

Lemma temp_name_ne path suffix : temp_name path suffix ≠ path.
Proof.
  intros H. apply (f_equal (@length byte)) in H. revert H. unfold temp_name.
  destruct (split_path_spec path) as (Hp & _ & _).
  assert (length path = length (split_path path).1 + length (split_path path).2)%nat as Hl
    by (rewrite Hp at 1; apply length_app).
  rewrite !length_app. change (length (B ".")) with 1%nat. change (length (B ".tmp-")) with 5%nat.
  destruct (decide ((split_path path).2 = [])) as [E|E].
  - rewrite E in Hl. cbn in Hl. lia.
  - rewrite (path_base_rest path E). lia.
Qed.

(** ** Reasoning about runs

    [triple G P m Q E]: started in a state satisfying [P], every state the run
    passes through satisfies [G], and it ends in [Q] or, with an error, in
    [E]. *)
Definition triple {A} (G P : fs → Prop) (m : run A) (Q E : fs → Prop) : Prop :=
  ∀ tr, tr ≠ [] → Forall G tr → P (state_of tr) →
    (m tr).2 ≠ [] ∧ Forall G (m tr).2 ∧
    match (m tr).1 with
    | Ok _ => Q (state_of (m tr).2)
    | Err _ => E (state_of (m tr).2)
    end.

Lemma triple_bind {A C} G P Q R E (m : run A) (k : A → run C) :
  triple G P m Q E → (∀ a, triple G Q (k a) R E) → triple G P (m ≫= k) R E.
Proof.
  intros Hm Hk tr Hne Hg Hp. specialize (Hm tr Hne Hg Hp).
  unfold mbind, run_bind. destruct (m tr) as [[a|e] tr']; cbn in *.
  - destruct Hm as (H1 & H2 & H3). exact (Hk a tr' H1 H2 H3).
  - exact Hm.
Qed.

Lemma triple_conseq {A} G (P P' Q Q' E E' : fs → Prop) (m : run A) :
  triple G P' m Q' E' → (∀ s, P s → P' s) → (∀ s, Q' s → Q s) → (∀ s, E' s → E s) →
  triple G P m Q E.
Proof.
  intros Hm HP HQ HE tr Hne Hg Hp. destruct (Hm tr Hne Hg (HP _ Hp)) as (H1 & H2 & H3).
  split; [done|]. split; [done|]. destruct ((m tr).1); auto.
Qed.

Lemma triple_fail {A} G (P : fs → Prop) Q e : triple G P (@fail A e) Q P.
Proof. intros tr Hne Hg Hp. done. Qed.

Lemma triple_ret G (P : fs → Prop) E : triple G P (mret tt) P E.
Proof. intros tr Hne Hg Hp. done. Qed.

Lemma triple_mutate G (P Q : fs → Prop) E g :
  (∀ s, P s → Q (g s) ∧ G (g s)) → triple G P (mutate g) Q E.
Proof.
  intros H tr Hne Hg Hp. destruct (H _ Hp). cbn. split; [done|]. split; [by constructor|done].
Qed.

Lemma triple_sys G (P Q E : fs → Prop) an st e ok partial :
  (an_stage an st = Done → ∀ s, P s → Q (ok s) ∧ G (ok s)) →
  (∀ n s, P s → E (partial n s) ∧ G (partial n s)) →
  (∀ s, P s → E s) →
  triple G P (sys an st e ok partial) Q E.
Proof.
  intros H1 H2 H3. unfold sys. destruct (an_stage an st).
  - apply triple_mutate. auto.
  - eapply (triple_bind _ _ E); [apply triple_mutate, H2|]. intros []. apply triple_fail.
  - eapply (triple_conseq _ P P Q Q E P); [apply triple_fail|auto..].
Qed.

(** A call without effect on the file system. *)
Lemma triple_idle G (P E : fs → Prop) an st e :
  (∀ s, P s → G s) → (∀ s, P s → E s) → triple G P (sys an st e id no_effect) P E.
Proof. intros HG HE. apply triple_sys; cbn; auto. Qed.

(** ** The invariants of one replacement *)

(** Every directory entry has its inode, and new inodes are fresh. *)
Definition wf_fs (s : fs) : Prop :=
  f_dirs s ≠ [] ∧
  (∀ d p i, d ∈ f_dirs s → d !! p = Some i → is_Some (f_inodes s !! i)) ∧
  (∀ i, is_Some (f_inodes s !! i) → (i < f_next s)%nat).

Lemma cur_dir_in s : f_dirs s ≠ [] → cur_dir s ∈ f_dirs s.
Proof. unfold cur_dir. destruct (f_dirs s); [done|]. intros _. apply list_elem_of_here. Qed.

Lemma wf_put_inode s i f : wf_fs s → is_Some (f_inodes s !! i) → wf_fs (put_inode s i f).
Proof.
  intros (Hne & Hd & Hf) Hi. split; [done|]. split; cbn.
  - intros d p j Hin Hp. rewrite lookup_insert_is_Some'. right. eauto.
  - intros j Hj. apply lookup_insert_is_Some' in Hj as [<-|Hj]; auto.
Qed.

Lemma wf_put_dir s d :
  wf_fs s → (∀ p i, d !! p = Some i → ∃ q, cur_dir s !! q = Some i) → wf_fs (put_dir s d).
Proof.
  intros (Hne & Hd & Hf) H. split; [done|]. split; [|done]. cbn.
  intros d' p i [->|Hin]%elem_of_cons Hp; [|eauto].
  destruct (H p i Hp) as [q Hq]. exact (Hd _ q i (cur_dir_in s Hne) Hq).
Qed.

Lemma wf_set_inode s p g : wf_fs s → wf_fs (set_inode s p g).
Proof.
  intros Hs. unfold set_inode. destruct (cur_dir s !! p) as [i|]; [|done].
  destruct (f_inodes s !! i) eqn:E; [|done]. apply wf_put_inode; [done|by rewrite E].
Qed.

Lemma wf_create s p : wf_fs s → wf_fs (create_excl s p).
Proof.
  intros (Hne & Hd & Hf). split; [done|]. split; cbn.
  - intros d q i [->|Hin]%elem_of_cons Hq; rewrite lookup_insert_is_Some'.
    + apply lookup_insert_Some in Hq as [[_ <-]|[_ Hq]]; [by left|right].
      exact (Hd _ q i (cur_dir_in s Hne) Hq).
    + right. eauto.
  - intros j [<-|Hj]%lookup_insert_is_Some'; [lia|]. apply Hf in Hj. lia.
Qed.

Lemma wf_remove s p : wf_fs s → wf_fs (remove s p).
Proof.
  intros Hs. apply wf_put_dir; [done|]. intros q i Hq. exists q.
  by apply lookup_delete_Some in Hq as [_ Hq].
Qed.

Lemma wf_rename s a b : wf_fs s → wf_fs (rename s a b).
Proof.
  intros Hs. unfold rename. destruct (cur_dir s !! a) as [j|] eqn:E; [|done].
  apply wf_put_dir; [done|]. intros q i [[_ <-]|[_ Hq]]%lookup_insert_Some; [by exists a|].
  exists q. by apply lookup_delete_Some in Hq as [_ Hq].
Qed.

Lemma wf_sync_dir s : wf_fs s → wf_fs (sync_dir s).
Proof.
  intros (Hne & Hd & Hf). split; [done|]. split; [|done]. cbn.
  intros d p i ->%list_elem_of_singleton Hp. exact (Hd _ p i (cur_dir_in s Hne) Hp).
Qed.

Section replace.
Variables (path temp data : bytes) (mode : Z) (s0 : fs).
Hypothesis wf_s0 : wf_fs s0.

(** A crash leaves what it could leave before, or the new content. *)
Definition crash_safe (s : fs) : Prop :=
  ∀ o, crash_content s path o → crash_content s0 path o ∨ o = Some data.
Definition good (s : fs) : Prop := wf_fs s ∧ crash_safe s.

Definition from_old (d : gmap bytes nat) : Prop := ∃ d0, d0 ∈ f_dirs s0 ∧ d !! path = d0 !! path.

(** The files of [s0] are still what they were. *)
Definition keeps (s : fs) : Prop :=
  wf_fs s ∧ (f_next s0 ≤ f_next s)%nat ∧
  (∀ i f, f_inodes s0 !! i = Some f → f_inodes s !! i = Some f) ∧
  (∀ q i, q ≠ path → cur_dir s0 !! q = Some i → cur_dir s !! q = Some i) ∧
  (∀ q, q ≠ path → q ≠ temp → cur_dir s0 !! q = None → cur_dir s !! q = None).

(** The target is still the old file. *)
Definition untouched (s : fs) : Prop :=
  keeps s ∧ cur_dir s !! path = cur_dir s0 !! path ∧ Forall from_old (f_dirs s).

(** The temporary file exists, as inode [it] with the content [f]. *)
Definition prepared (it : nat) (f : inode) (s : fs) : Prop :=
  untouched s ∧ cur_dir s0 !! temp = None ∧ (f_next s0 ≤ it)%nat ∧
  cur_dir s !! temp = Some it ∧ f_inodes s !! it = Some f.

Definition new_inode : inode := MkInode (Z.land mode 511) data true.

(** The target is the new file, and on disk the old or the new one. *)
Definition replaced (s : fs) : Prop :=
  ∃ it, keeps s ∧ Forall (λ d, from_old d ∨ d !! path = Some it) (f_dirs s) ∧
    cur_dir s !! path = Some it ∧ cur_dir s !! temp = None ∧ f_inodes s !! it = Some new_inode.

(** The target is the new file, on disk too. *)
Definition settled (s : fs) : Prop :=
  ∃ it, keeps s ∧ f_dirs s = [cur_dir s] ∧
    cur_dir s !! path = Some it ∧ cur_dir s !! temp = None ∧ f_inodes s !! it = Some new_inode.

Lemma keeps_lookup s d d0 :
  keeps s → d0 ∈ f_dirs s0 → d !! path = d0 !! path → lookup_in s d path = lookup_in s0 d0 path.
Proof.
  intros (_ & _ & Hk & _) Hin Hp. unfold lookup_in. rewrite Hp.
  destruct (d0 !! path) as [i|] eqn:E; [|done].
  destruct wf_s0 as (_ & Hd & _). destruct (Hd d0 path i Hin E) as [f Hf].
  by rewrite Hf, (Hk i f Hf).
Qed.

Lemma from_old_safe s d o :
  keeps s → from_old d →
  match lookup_in s d path with
  | None => o = None
  | Some f => ∃ b, o = Some b ∧ (i_synced f = true → b = i_data f)
  end → crash_content s0 path o.
Proof.
  intros Hk (d0 & Hin & Hp) Hc. exists d0. split; [done|].
  by rewrite <- (keeps_lookup s d d0).
Qed.

Lemma new_safe s d it o :
  f_inodes s !! it = Some new_inode → d !! path = Some it →
  match lookup_in s d path with
  | None => o = None
  | Some f => ∃ b, o = Some b ∧ (i_synced f = true → b = i_data f)
  end → o = Some data.
Proof.
  unfold lookup_in. intros Hi -> Hc. rewrite Hi in Hc. destruct Hc as (b & -> & Hb).
  by rewrite Hb.
Qed.

Lemma untouched_good s : untouched s → good s.
Proof.
  intros (Hk & _ & Hd). split; [apply Hk|]. intros o (d & Hin & Hc). left.
  rewrite Forall_forall in Hd. eapply from_old_safe; eauto.
Qed.

Lemma prepared_good it f s : prepared it f s → good s.
Proof. intros [Hu _]. by apply untouched_good. Qed.

Lemma replaced_good s : replaced s → good s.
Proof.
  intros (it & Hk & Hd & _ & _ & Hi). split; [apply Hk|]. intros o (d & Hin & Hc).
  rewrite Forall_forall in Hd. destruct (Hd d Hin).
  - left. eapply from_old_safe; eauto.
  - right. eapply new_safe; eauto.
Qed.

Lemma settled_content s o : settled s → crash_content s path o → o = Some data.
Proof.
  intros (it & _ & Hd & Hp & _ & Hi) (d & Hin & Hc). rewrite Hd in Hin.
  apply list_elem_of_singleton in Hin as ->. eapply new_safe; eauto.
Qed.

Lemma settled_good s : settled s → good s.
Proof.
  intros Hs. split; [destruct Hs as (it & Hk & _); apply Hk|].
  intros o Hc. right. by eapply settled_content.
Qed.

Lemma untouched_read s : untouched s → read_file s path = read_file s0 path.
Proof.
  intros (Hk & Hp & _). unfold read_file. f_equal. apply keeps_lookup; try done.
  apply cur_dir_in, wf_s0.
Qed.

Lemma replaced_read s : replaced s → lookup_in s (cur_dir s) path = Some new_inode.
Proof. intros (it & _ & _ & Hp & _ & Hi). unfold lookup_in. by rewrite Hp. Qed.

Lemma settled_read s : settled s → lookup_in s (cur_dir s) path = Some new_inode.
Proof. intros (it & _ & _ & Hp & _ & Hi). unfold lookup_in. by rewrite Hp. Qed.

Lemma untouched_init : untouched s0.
Proof.
  split; [by split|]. split; [done|]. rewrite Forall_forall. intros d Hd. by exists d.
Qed.
End replace.

Section replace_steps.
Variables (path temp data : bytes) (mode : Z) (s0 : fs).
Hypothesis wf_s0 : wf_fs s0.
Hypothesis temp_ne : temp ≠ path.

Lemma cons_from_old (s : fs) (d : gmap bytes nat) (P : gmap bytes nat → Prop) :
  wf_fs s → Forall P (f_dirs s) → (P (cur_dir s) → P d) → Forall P (d :: f_dirs s).
Proof.
  intros (Hne & _) HF H. constructor; [|done]. apply H.
  rewrite Forall_forall in HF. apply HF. by apply cur_dir_in.
Qed.

Lemma keeps_other s q : keeps path temp s0 s → q ≠ path → is_Some (cur_dir s0 !! q) →
  lookup_in s (cur_dir s) q = lookup_in s0 (cur_dir s0) q.
Proof.
  intros (_ & _ & Hk & Ho & _) Hq [i Hi]. unfold lookup_in. rewrite Hi, (Ho q i Hq Hi).
  destruct wf_s0 as (Hne & Hd & _). destruct (Hd _ q i (cur_dir_in s0 Hne) Hi) as [f Hf].
  by rewrite Hf, (Hk i f Hf).
Qed.

Lemma prepared_set it f g s :
  prepared path temp s0 it f s → prepared path temp s0 it (g f) (set_inode s temp g).
Proof.
  intros ((Hk & Hp & Hd) & Hn0 & Hit & Ht & Hf). pose proof (wf_set_inode s temp g (proj1 Hk)) as Hwf.
  unfold set_inode in *. rewrite Ht, Hf in *. destruct Hk as (_ & Hn & Hk & Ho).
  split; [split; [split; [done|split; [done|split; [|exact Ho]]]|done]|].
  - cbn. intros i f' Hi. rewrite lookup_insert_ne; [by apply Hk|].
    intros <-. destruct wf_s0 as (_ & _ & Hb).
    assert (it < f_next s0)%nat by (apply Hb; by rewrite Hi). lia.
  - split; [done|]. split; [done|]. split; [done|]. cbn. apply lookup_insert_eq.
Qed.

Lemma create_prepared s :
  untouched path temp s0 s → cur_dir s !! temp = None →
  prepared path temp s0 (f_next s) (MkInode 0x180 [] false) (create_excl s temp).
Proof.
  intros (Hk & Hp & Hd) Hts. destruct Hk as (Hwf & Hn & Hk & Ho).
  assert (cur_dir s0 !! temp = None) as Hn0.
  { destruct (cur_dir s0 !! temp) eqn:E; [|done]. apply (proj1 Ho) in E; [congruence|done]. }
  split; [split; [split; [by apply wf_create|split; [cbn; lia|split]]|split]|
          split; [done|split; [done|split]]].
  - cbn. intros i f Hi. rewrite lookup_insert_ne; [by apply Hk|].
    intros <-. destruct Hwf as (_ & _ & Hb).
    assert (f_next s < f_next s)%nat; [|lia]. apply Hb. by rewrite (Hk _ _ Hi).
  - cbn. destruct Ho as [Ho1 Ho2]. split.
    + intros q i Hq Hi. rewrite lookup_insert_ne by congruence. auto.
    + intros q Hq Hqt Hi. rewrite lookup_insert_ne by congruence. auto.
  - cbn. by rewrite lookup_insert_ne.
  - apply cons_from_old; try done. intros (d0 & Hin & Hq). exists d0.
    by rewrite lookup_insert_ne.
  - cbn. apply lookup_insert_eq.
  - cbn. apply lookup_insert_eq.
Qed.

(** Renaming puts the temporary inode at the path, whatever it holds. *)
Lemma rename_prepared it f s :
  prepared path temp s0 it f s →
  keeps path temp s0 (rename s temp path) ∧ cur_dir (rename s temp path) !! path = Some it ∧
  cur_dir (rename s temp path) !! temp = None ∧ f_inodes (rename s temp path) !! it = Some f ∧
  f_dirs (rename s temp path) = cur_dir (rename s temp path) :: f_dirs s.
Proof.
  intros ((Hk & Hp & Hd) & Hn0 & Hit & Ht & Hf). pose proof (wf_rename s temp path (proj1 Hk)) as Hwf.
  unfold rename in *. rewrite Ht in *. destruct Hk as (_ & Hn & Hk & Ho1 & Ho2). split_and!.
  - split; [done|split; [done|split; [done|]]]. cbn. split.
    + intros q i Hq Hi. rewrite lookup_insert_ne, lookup_delete_ne by congruence. auto.
    + intros q Hq Hqt Hi. rewrite lookup_insert_ne, lookup_delete_ne by congruence. auto.
  - cbn. apply lookup_insert_eq.
  - cbn. rewrite lookup_insert_ne by done. apply lookup_delete_eq.
  - done.
  - done.
Qed.

Lemma rename_replaced it s :
  prepared path temp s0 it (new_inode data mode) s →
  replaced path temp data mode s0 (rename s temp path).
Proof.
  intros Hp. destruct (rename_prepared it _ s Hp) as (Hk & Hpath & Ht & Hf & Hd). exists it.
  split_and!; [done| |done..]. rewrite Hd. destruct Hp as ((_ & _ & Hold) & _).
  constructor; [by right|]. eapply Forall_impl; [exact Hold|]. auto.
Qed.

Lemma sync_dir_settled s :
  replaced path temp data mode s0 s → settled path temp data mode s0 (sync_dir s).
Proof.
  intros (it & (Hwf & Hk) & _ & Hp & Ht & Hi). exists it. split; [|done].
  split; [by apply wf_sync_dir|done].
Qed.

Lemma remove_untouched s :
  cur_dir s0 !! temp = None → untouched path temp s0 s → untouched path temp s0 (remove s temp).
Proof.
  intros Hn0 (Hk & Hp & Hd). split; [|split].
  - split; [apply wf_remove, Hk|]. split; [apply Hk|]. split; [apply Hk|].
    destruct Hk as (_ & _ & _ & Ho1 & Ho2). cbn. split.
    + intros q i Hq Hi. rewrite lookup_delete_ne by congruence. auto.
    + intros q Hq Hqt Hi. rewrite lookup_delete_ne by congruence. auto.
  - cbn. by rewrite lookup_delete_ne.
  - apply cons_from_old; [apply Hk|done|]. intros (d0 & Hin & Hq). exists d0.
    by rewrite lookup_delete_ne.
Qed.

(** The error states: untouched, or replaced but not confirmed on disk. *)
Definition err_state (s : fs) : Prop :=
  untouched path temp s0 s ∨ replaced path temp data mode s0 s.
Definition ok_state (an : answers) (s : fs) : Prop :=
  (an_stage an StSyncDir = Done → settled path temp data mode s0 s) ∧
  (settled path temp data mode s0 s ∨ replaced path temp data mode s0 s).

(** A step that only changes the temporary file's inode. *)
Lemma triple_temp an st e it f g partial :
  (∀ n s, partial n s = s ∨ ∃ h, partial n s = set_inode s temp h) →
  triple (good path data s0) (prepared path temp s0 it f)
    (sys an st e (λ s, set_inode s temp g) partial)
    (prepared path temp s0 it (g f)) err_state.
Proof.
  intros Hp. apply triple_sys.
  - intros _ s Hs. pose proof (prepared_set it f g s Hs) as Hs'.
    split; [exact Hs'|]. by eapply prepared_good.
  - intros n s Hs. destruct (Hp n s) as [->|[h ->]].
    + split; [left; apply Hs|by eapply prepared_good].
    + pose proof (prepared_set it f h s Hs) as Hs'.
      split; [left; apply Hs'|by eapply prepared_good].
  - intros s Hs. left. apply Hs.
Qed.

Lemma triple_syncDirectory an :
  triple (good path data s0) (replaced path temp data mode s0) (syncDirectory an)
    (ok_state an) err_state.
Proof.
  unfold syncDirectory.
  eapply (triple_bind _ _ (replaced path temp data mode s0)).
  { apply triple_idle; [|by right]. intros s. apply (replaced_good path temp data mode s0 wf_s0 s). }
  intros []. unfold ok_state. destruct (an_stage an StSyncDir).
  - apply triple_mutate. intros s Hs. pose proof (sync_dir_settled s Hs) as Hs'.
    split; [auto|]. by eapply settled_good.
  - eapply triple_conseq; [apply (triple_fail _ (replaced path temp data mode s0) (λ _, False))|..];
      [done|done|by right].
  - eapply triple_conseq; [apply (triple_ret _ (replaced path temp data mode s0) (λ _, False))|..];
      [done| |done]. intros s Hs. split; [done|by right].
Qed.

Lemma triple_defer an (P : fs → Prop) m :
  (∀ s, P s → cur_dir s0 !! temp = None) →
  triple (good path data s0) P m (ok_state an) err_state →
  triple (good path data s0) P (defer_remove an temp m) (ok_state an) err_state.
Proof.
  intros Hn0 Hm tr Hne Hg Hp. apply Hn0 in Hp as Ht0. specialize (Hm tr Hne Hg Hp). unfold defer_remove.
  destruct (m tr) as [r tr']. cbn [fst snd] in Hm. destruct Hm as (H1 & H2 & H3).
  destruct (cur_dir (state_of tr') !! temp) as [i|] eqn:E; [|done].
  destruct r as [[]|e].
  { exfalso. destruct H3 as [_ [H3|H3]].
    - destruct H3 as (j & _ & _ & _ & Ht & _). congruence.
    - destruct H3 as (j & _ & _ & _ & Ht & _). congruence. }
  destruct H3 as [Hu|Hr]; [|destruct Hr as (j & _ & _ & _ & Ht & _); congruence].
  pose proof (remove_untouched _ Ht0 Hu) as Hu'.
  destruct (an_remove an); cbn [fst snd]; [|split; [done|split; [done|by left]]].
  split; [done|]. split; [|by left]. constructor; [|done]. by eapply untouched_good.
Qed.

Definition temp_made (s : fs) : Prop :=
  ∃ it, prepared path temp s0 it (MkInode 0x180 [] false) s.

Lemma triple_create an :
  triple (good path data s0) (untouched path temp s0) (create_temp an temp) temp_made err_state.
Proof.
  intros tr Hne Hg Hp. unfold create_temp.
  destruct (cur_dir (state_of tr) !! temp) eqn:E; [split; [done|split; [done|by left]]|].
  pose proof (conj Hp E) as HE. clear Hp E. revert tr Hne Hg HE.
  apply (triple_sys _ (λ s, untouched path temp s0 s ∧ cur_dir s !! temp = None)).
  - intros _ s [Hs Ht]. pose proof (create_prepared s Hs Ht) as Hs'.
    split; [by eexists|by eapply prepared_good].
  - intros n s [Hs _]. split; [by left|by eapply untouched_good].
  - intros s [Hs _]. by left.
Qed.

Lemma triple_replace an it :
  triple (good path data s0) (prepared path temp s0 it (MkInode 0x180 [] false))
    (defer_remove an temp (
      _ ← sys an StChmod "set temporary file mode"
            (λ s, set_inode s temp (chmod_inode (Z.land mode 511))) no_effect;
      _ ← sys an StWrite "write temporary file"
            (λ s, set_inode s temp (write_inode data))
            (λ n s, set_inode s temp (write_inode (take n data)));
      _ ← sys an StSync "sync temporary file" (λ s, set_inode s temp sync_inode) no_effect;
      _ ← sys an StClose "close temporary file" id no_effect;
      _ ← sys an StRename "replace" (λ s, rename s temp path) no_effect;
      syncDirectory an)) (ok_state an) err_state.
Proof.
  apply triple_defer; [intros s Hs; apply Hs|].
  eapply triple_bind; [apply triple_temp; by left|intros []].
  eapply triple_bind; [apply triple_temp; by right; eexists|intros []].
  eapply triple_bind; [apply triple_temp; by left|intros []].
  eapply triple_bind; [apply triple_idle; [intros s Hs; by eapply prepared_good|
                                            intros s Hs; left; apply Hs]|intros []].
  eapply triple_bind; [|intros []; apply triple_syncDirectory].
  apply triple_sys.
  - intros _ s Hs. pose proof (rename_replaced it s Hs) as Hs'.
    split; [exact Hs'|by eapply replaced_good].
  - intros n s Hs. split; [left; apply Hs|by eapply prepared_good].
  - intros s Hs. left. apply Hs.
Qed.
End replace_steps.

Lemma triple_WriteFile an path data mode s0 :
  wf_fs s0 →
  triple (good path data s0) (untouched path (temp_name path (an_suffix an)) s0) (WriteFile an path data mode)
    (ok_state path (temp_name path (an_suffix an)) data mode s0 an)
    (err_state path (temp_name path (an_suffix an)) data mode s0).
Proof.
  intros Hwf. unfold WriteFile. case_decide as Hp.
  { eapply triple_conseq; [apply (triple_fail _ (untouched path (temp_name path (an_suffix an)) s0) (λ _, False))|..];
      [done|done|by left]. }
  pose proof (temp_name_ne path (an_suffix an)) as Hne.
  set (temp := temp_name path (an_suffix an)) in *. clearbody temp.
  eapply triple_bind.
  { apply triple_idle; [intros s; by apply untouched_good|by left]. }
  intros []. eapply triple_bind; [by apply triple_create|]. intros [].
  intros tr H1 H2 [it H3]. revert tr H1 H2 H3. by apply triple_replace.
Qed.

(** ** What one call guarantees *)
Section write_claims.
Variables (an : answers) (path data : bytes) (mode : Z) (s0 : fs).
Hypothesis wf_s0 : wf_fs s0.

Lemma WriteFile_run :
  let '(r, tr) := WriteFile an path data mode [s0] in
  Forall (good path data s0) tr ∧
  match r with
  | Ok _ => ok_state path (temp_name path (an_suffix an)) data mode s0 an (state_of tr)
  | Err _ => err_state path (temp_name path (an_suffix an)) data mode s0 (state_of tr)
  end ∧ tr ≠ [].
Proof.
  pose proof (triple_WriteFile an path data mode s0 wf_s0 [s0]) as H.
  destruct (WriteFile an path data mode [s0]) as [r tr]. cbn in H.
  assert (untouched path (temp_name path (an_suffix an)) s0 s0) as Hu by (by apply untouched_init).
  destruct H as (? & ? & ?); [done| |done|done].
  constructor; [by eapply untouched_good|done].
Qed.
End write_claims.

Lemma err_state_cases path temp data mode s0 s :
  wf_fs s0 → err_state path temp data mode s0 s →
  keeps path temp s0 s ∧
  (read_file s path = read_file s0 path ∨ read_file s path = Some data).
Proof.
  intros Hwf [H|H].
  - split; [apply H|]. left. by eapply untouched_read.
  - split; [destruct H as (it & Hk & _); exact Hk|]. right.
    unfold read_file. by erewrite replaced_read.
Qed.

Lemma ok_state_cases path temp data mode s0 an s :
  ok_state path temp data mode s0 an s →
  keeps path temp s0 s ∧
  lookup_in s (cur_dir s) path = Some (MkInode (Z.land mode 511) data true) ∧
  (an_stage an StSyncDir = Done → ∀ o, crash_content s path o → o = Some data).
Proof.
  intros [H1 H2]. split; [|split].
  - destruct H2 as [(it & Hk & _)|(it & Hk & _)]; exact Hk.
  - destruct H2; [by eapply settled_read|by eapply replaced_read].
  - intros Hd o. by eapply settled_content, H1.
Qed.

(** ** The interface of the components that store state

    A world offers [os.ReadFile] and [atomicfile.WriteFile]; [fs_content] is
    what a path holds, which a failing read does not tell. *)
Inductive read_result :=
| ReadData (b : bytes)
| ReadNotExist
| ReadFailed.

Class FileSystem (W : Type) := {
  fs_temp : bytes → bytes → Prop;   (* the names of temporary files of a path *)
  fs_content : W → bytes → option bytes;
  fs_read : bytes → W → read_result * W;
  fs_write : bytes → bytes → Z → W → result error unit * W;
}.

Class FileSystemLaws (W : Type) `{FileSystem W} := {
  fs_valid : W → Prop;
  fs_read_same : ∀ p w, fs_valid w →
    fs_valid (fs_read p w).2 ∧ fs_content (fs_read p w).2 = fs_content w;
  fs_read_data : ∀ p w, fs_valid w →
    match (fs_read p w).1 with
    | ReadData b => fs_content w p = Some b
    | ReadNotExist => fs_content w p = None
    | ReadFailed => True
    end;
  fs_write_content : ∀ p d m w, fs_valid w →
    fs_valid (fs_write p d m w).2 ∧
    match (fs_write p d m w).1 with
    | Ok _ => fs_content (fs_write p d m w).2 p = Some d
    | Err _ =>
        fs_content (fs_write p d m w).2 p = fs_content w p ∨
        fs_content (fs_write p d m w).2 p = Some d
    end;
  fs_write_other : ∀ p d m w q, fs_valid w → q ≠ p → is_Some (fs_content w q) →
    fs_content (fs_write p d m w).2 q = fs_content w q;
  fs_write_absent : ∀ p d m w q, fs_valid w → q ≠ p → ¬ fs_temp p q → fs_content w q = None →
    fs_content (fs_write p d m w).2 q = None;
}.

(** A disk with the answers it will give: the implementation by [WriteFile].
    With no answers left every call fails. *)
Record disk := MkDisk {
  d_fs : fs;
  d_writes : list answers;
  d_reads : list bool;      (* whether the next reads succeed *)
}.

Definition no_answers : answers := MkAnswers (λ _, Failed 0) [] false.

Definition disk_read (p : bytes) (w : disk) : read_result * disk :=
  let w' := MkDisk (d_fs w) (d_writes w) (tail (d_reads w)) in
  if default false (head (d_reads w)) then
    match read_file (d_fs w) p with
    | Some b => (ReadData b, w')
    | None => (ReadNotExist, w')
    end
  else (ReadFailed, w').

Definition disk_write (p d : bytes) (m : Z) (w : disk) : result error unit * disk :=
  let '(r, tr) := WriteFile (default no_answers (head (d_writes w))) p d m [d_fs w] in
  (r, MkDisk (state_of tr) (tail (d_writes w)) (d_reads w)).

#[export] Instance disk_files : FileSystem disk := {
  fs_temp p q := ∃ suffix, q = temp_name p suffix;
  fs_content w := read_file (d_fs w);
  fs_read := disk_read;
  fs_write := disk_write;
}.

Lemma disk_write_spec p d m w :
  wf_fs (d_fs w) →
  (∃ suffix, keeps p (temp_name p suffix) (d_fs w) (d_fs (disk_write p d m w).2)) ∧
  match (disk_write p d m w).1 with
  | Ok _ => read_file (d_fs (disk_write p d m w).2) p = Some d
  | Err _ =>
      read_file (d_fs (disk_write p d m w).2) p = read_file (d_fs w) p ∨
      read_file (d_fs (disk_write p d m w).2) p = Some d
  end.
Proof.
  intros Hwf. unfold disk_write. set (an := default _ _). clearbody an.
  pose proof (WriteFile_run an p d m (d_fs w) Hwf) as H.
  destruct (WriteFile an p d m [d_fs w]) as [[[]|e] tr]; destruct H as (_ & H & _); cbn.
  - apply ok_state_cases in H as (Hk & Hl & _). split; [by eexists|].
    unfold read_file. by rewrite Hl.
  - apply err_state_cases in H as [Hk Hc]; [|done]. split; [by eexists|done].
Qed.

#[export] Program Instance disk_laws : FileSystemLaws disk := {
  fs_valid w := wf_fs (d_fs w);
}.
Next Obligation.
  intros p w Hw. cbn. unfold disk_read. destruct (default false (head (d_reads w))); [|done].
  by destruct (read_file (d_fs w) p).
Qed.
Next Obligation.
  intros p w Hw. cbn. unfold disk_read. destruct (default false (head (d_reads w))); [|done].
  by destruct (read_file (d_fs w) p) eqn:E; cbn.
Qed.
Next Obligation.
  intros p d m w Hw. cbn. destruct (disk_write_spec p d m w Hw) as [[suffix Hk] Hc].
  split; [apply Hk|exact Hc].
Qed.
Next Obligation.
  intros p d m w q Hw Hq [b Hb]. cbn in *.
  destruct (disk_write_spec p d m w Hw) as [[suffix Hk] _].
  unfold read_file. f_equal. eapply keeps_other; try done.
  unfold read_file, lookup_in in Hb. by destruct (cur_dir (d_fs w) !! q).
Qed.
Next Obligation.
  intros p d m w q Hw Hq Ht Hb. cbn in *.
  destruct (disk_write_spec p d m w Hw) as [[suffix Hk] _].
  destruct Hk as (_ & _ & _ & _ & Ha). unfold read_file, lookup_in in *.
  rewrite Ha; [done|done|intros ->; apply Ht; by exists suffix|].
  destruct (cur_dir (d_fs w) !! q) as [i|] eqn:E; [|done]. exfalso.
  destruct Hw as (Hne & Hd & _). destruct (Hd _ q i (cur_dir_in _ Hne) E) as [f Hf].
  by rewrite Hf in Hb.
Qed.

(** ** What one call guarantees *)

(** C4: whatever fails and whenever the power goes, a crash during [WriteFile]
    leaves at the path what a crash could already have left there, or the
    complete new content; and the file system stays well formed. *)
Theorem WriteFile_crash_atomic an path data mode s0 :
  wf_fs s0 →
  Forall (λ s, wf_fs s ∧ ∀ o, crash_content s path o → crash_content s0 path o ∨ o = Some data)
    (WriteFile an path data mode [s0]).2.
Proof.
  intros Hwf. pose proof (WriteFile_run an path data mode s0 Hwf) as H.
  destruct (WriteFile an path data mode [s0]) as [r tr]. apply H.
Qed.

(** A successful [WriteFile] leaves exactly the data under the path with
    the permission bits asked for, and once the directory is synced no crash
    can lose it; a failed one leaves the old file or the complete new one. *)
Theorem WriteFile_outcome an path data mode s0 :
  wf_fs s0 →
  let '(r, tr) := WriteFile an path data mode [s0] in
  match r with
  | Ok _ =>
      lookup_in (state_of tr) (cur_dir (state_of tr)) path =
        Some (MkInode (Z.land mode 511) data true) ∧
      (an_stage an StSyncDir = Done →
       ∀ o, crash_content (state_of tr) path o → o = Some data)
  | Err _ =>
      read_file (state_of tr) path = read_file s0 path ∨
      read_file (state_of tr) path = Some data
  end ∧
  ∀ q, q ≠ path → is_Some (cur_dir s0 !! q) →
    lookup_in (state_of tr) (cur_dir (state_of tr)) q = lookup_in s0 (cur_dir s0) q.
Proof.
  intros Hwf. pose proof (WriteFile_run an path data mode s0 Hwf) as H.
  destruct (WriteFile an path data mode [s0]) as [[[]|e] tr]; destruct H as (_ & H & _).
  - apply ok_state_cases in H as (Hk & Hl & Hc). split; [done|].
    intros q Hq Hs. by eapply keeps_other.
  - apply err_state_cases in H as [Hk Hl]; [|done]. split; [done|].
    intros q Hq Hs. by eapply keeps_other.
Qed.

(** *** Witnesses: a disk whose system calls all work, one that fails to sync
    the directory *)
Definition all_done : answers := MkAnswers (λ _, Done) (B "123456") true.
Definition no_dir_sync : answers :=
  MkAnswers (λ st, match st with StSyncDir => Failed 0 | _ => Done end) (B "123456") true.
Definition empty_fs : fs := MkFs [∅] ∅ 0.

Lemma empty_fs_wf : wf_fs empty_fs.
Proof.
  split; [done|]. split.
  - intros d p i ->%list_elem_of_singleton H. by rewrite lookup_empty in H.
  - intros i [f H]. cbn in H. by rewrite lookup_empty in H.
Qed.

Example WriteFile_works :
  let '(r, tr) := WriteFile all_done (B "/var/state.env") (B "STATE=factory") 0x180 [empty_fs] in
  r = Ok tt ∧ read_file (state_of tr) (B "/var/state.env") = Some (B "STATE=factory") ∧
  length tr = 10%nat.
Proof. vm_compute. done. Qed.

(** A failed directory sync reports an error though the file is replaced. *)
Example WriteFile_unsynced :
  let '(r, tr) := WriteFile no_dir_sync (B "state.env") (B "x") 0x180 [empty_fs] in
  r = Err "sync directory"%stdpp ∧ read_file (state_of tr) (B "state.env") = Some (B "x").
Proof. vm_compute. done. Qed.

Lemma WriteFile_crash_atomic_witness :
  wf_fs empty_fs ∧
  Forall (λ s, wf_fs s ∧ ∀ o, crash_content s (B "state.env") o →
            crash_content empty_fs (B "state.env") o ∨ o = Some (B "x"))
    (WriteFile no_dir_sync (B "state.env") (B "x") 0x180 [empty_fs]).2.
Proof.
  split; [exact empty_fs_wf|].
  exact (WriteFile_crash_atomic no_dir_sync (B "state.env") (B "x") 0x180 empty_fs empty_fs_wf).
Defined.

Lemma WriteFile_outcome_witness :
  ∃ tr, WriteFile all_done (B "state.env") (B "x") 0x180 [empty_fs] = (Ok tt, tr) ∧
    ∀ o, crash_content (state_of tr) (B "state.env") o → o = Some (B "x").
Proof.
  pose proof (WriteFile_outcome all_done (B "state.env") (B "x") 0x180 empty_fs empty_fs_wf) as H.
  assert (is_ok (WriteFile all_done (B "state.env") (B "x") 0x180 [empty_fs]).1 = true) as Hr
    by (vm_compute; reflexivity).
  destruct (WriteFile all_done (B "state.env") (B "x") 0x180 [empty_fs]) as [[[]|e] tr];
    [|discriminate].
  exists tr. split; [reflexivity|]. exact (proj2 (proj1 H) eq_refl).
Defined.
