(* ===== verification/AdoptionStore.v ===== *)
(** The adoption state and the rules that guard it: the [Store] of
    [src/internal/adoption/state.go], the field table of [fields.go], the
    validation and [Merge] of [env.go], and the allowlist parser of
    [mgmtcfg.go].

    The parser of bracketed IPv6 literals is the class [AddressParser] of
    GoUrl. *)
From S2P Require Import Prelude GoStrings GoUrl InformCodec.

(** ** state.go *)
Definition StateFactory : bytes := B "factory".
Definition StateDiscovered : bytes := B "discovered".
Definition StateAdopting : bytes := B "adopting".
Definition StateProvisioning : bytes := B "provisioning".
Definition StateConnected : bytes := B "connected".
Definition StateFailed : bytes := B "failed".

Record Store := MkStore {
  InformURL : bytes;
  AuthKey : bytes;
  CFGVersion : bytes;
  UseAESGCM : bool;
  Version : bytes;
  State : bytes;
}.

#[export] Instance Store_eq_dec : EqDecision Store.
Proof. solve_decision. Defined.

(** The zero value [Store{}]. *)
Definition no_store : Store := MkStore [] [] [] false [] [].

Definition set_InformURL (v : bytes) (s : Store) : Store :=
  MkStore v (AuthKey s) (CFGVersion s) (UseAESGCM s) (Version s) (State s).
Definition set_AuthKey (v : bytes) (s : Store) : Store :=
  MkStore (InformURL s) v (CFGVersion s) (UseAESGCM s) (Version s) (State s).
Definition set_CFGVersion (v : bytes) (s : Store) : Store :=
  MkStore (InformURL s) (AuthKey s) v (UseAESGCM s) (Version s) (State s).
Definition set_UseAESGCM (v : bool) (s : Store) : Store :=
  MkStore (InformURL s) (AuthKey s) (CFGVersion s) v (Version s) (State s).
Definition set_Version (v : bytes) (s : Store) : Store :=
  MkStore (InformURL s) (AuthKey s) (CFGVersion s) (UseAESGCM s) v (State s).
Definition set_State (v : bytes) (s : Store) : Store :=
  MkStore (InformURL s) (AuthKey s) (CFGVersion s) (UseAESGCM s) (Version s) v.

(** ** fields.go *)
Inductive storeField :=
| FState | FInformURL | FAuthKey | FCFGVersion | FUseAESGCM | FVersion.

#[export] Instance storeField_eq_dec : EqDecision storeField.
Proof. solve_decision. Defined.

Definition storeFields : list storeField :=
  [FState; FInformURL; FAuthKey; FCFGVersion; FUseAESGCM; FVersion].

Definition envKey (f : storeField) : bytes :=
  match f with
  | FState => B "STATE"
  | FInformURL => B "INFORM_URL"
  | FAuthKey => B "AUTHKEY"
  | FCFGVersion => B "CFGVERSION"
  | FUseAESGCM => B "USE_AES_GCM"
  | FVersion => B "VERSION"
  end.

Definition mgmtKey (f : storeField) : bytes :=
  match f with
  | FInformURL => B "inform_url"
  | FAuthKey => B "authkey"
  | FCFGVersion => B "cfgversion"
  | FUseAESGCM => B "use_aes_gcm"
  | FState | FVersion => []
  end.

Definition field_get (f : storeField) (s : Store) : bytes :=
  match f with
  | FState => State s
  | FInformURL => InformURL s
  | FAuthKey => AuthKey s
  | FCFGVersion => CFGVersion s
  | FUseAESGCM => if UseAESGCM s then B "true" else []
  | FVersion => Version s
  end.

Definition field_set (f : storeField) (v : bytes) (s : Store) : Store :=
  match f with
  | FState => set_State v s
  | FInformURL => set_InformURL v s
  | FAuthKey => set_AuthKey v s
  | FCFGVersion => set_CFGVersion v s
  | FUseAESGCM => set_UseAESGCM (default false (parse_bool v)) s
  | FVersion => set_Version v s
  end.

Definition storeFieldByEnvKey (key : bytes) : option storeField :=
  find (λ f, bool_decide (envKey f = key)) storeFields.
Definition storeFieldByMgmtKey (key : bytes) : option storeField :=
  find (λ f, negb (bool_decide (mgmtKey f = [])) && bool_decide (mgmtKey f = key)) storeFields.

(** ** Validation (env.go, mgmtcfg.go) *)
Definition validatePersistedValue (value : bytes) : result error unit :=
  if negb (bool_decide (value = trim_space value))
  then Err "value has non-canonical surrounding whitespace"
  else if existsb (λ c, (b2z c <? 0x20) || (b2z c =? 0x7f)) value
  then Err "value contains a control byte"
  else Ok tt.

Definition bad_authkey : error := "authkey must be 16 raw bytes or 32 hexadecimal characters".

Definition authkey_bytes (value : bytes) (allowRaw : bool) : result error bytes :=
  if allowRaw && (zlen value =? 16) then Ok value
  else if zlen value =? 32 then
    match hex_decode value with Some k => Ok k | None => Err bad_authkey end
  else Err bad_authkey.

Definition validateIndividualAuthKeyText (value : bytes) (allowRaw : bool) : result error unit :=
  key ← authkey_bytes value allowRaw;
  guard_err (IsDefaultAuthKey key) "individual authkey must not equal the public default key".

Section fields.
Context `{AddressParser}.

Definition validate_inform_url (value : bytes) : result error unit :=
  if 2048 <? zlen value then Err "inform_url exceeds 2048 bytes"
  else
    match url_parse ipv6_literal value with
    | None => Err "inform_url must be an absolute HTTP(S) URL with a host"
    | Some u =>
        if negb (bool_decide (u_opaque u = []))
           || (negb (bool_decide (u_scheme u = B "http"))
               && negb (bool_decide (u_scheme u = B "https")))
           || bool_decide (url_hostname u = [])
        then Err "inform_url must be an absolute HTTP(S) URL with a host"
        else if u_user u then Err "inform_url must not contain userinfo"
        else if negb (bool_decide (u_raw_query u = [])) || u_force_query u
        then Err "inform_url must not contain a query"
        else if negb (bool_decide (u_fragment u = [])) || contains (B "#") value
        then Err "inform_url must not contain a fragment"
        else Ok tt
    end.

Definition validateMgmtField (key value : bytes) : result error unit :=
  if decide (key = B "authkey") then
    if negb (zlen value =? 32)
    then Err "authkey must contain exactly 32 hexadecimal characters"
    else validateIndividualAuthKeyText value false
  else if decide (key = B "use_aes_gcm") then
    match parse_bool value with Some _ => Ok tt | None => Err "use_aes_gcm must be boolean" end
  else if decide (key = B "cfgversion") then
    guard_err (31 <? zlen value) "cfgversion exceeds 31 bytes"
  else if decide (key = B "inform_url") then validate_inform_url value
  else Ok tt.

Definition validatePersistedField (f : storeField) (value : bytes) : result error unit :=
  match f with
  | FAuthKey => validateIndividualAuthKeyText value true
  | FCFGVersion => validateMgmtField (B "cfgversion") value
  | FInformURL => validateMgmtField (B "inform_url") value
  | FUseAESGCM =>
      match parse_bool value with Some _ => Ok tt | None => Err "USE_AES_GCM must be boolean" end
  | FState | FVersion => Ok tt
  end.
End fields.

Definition known_state (s : bytes) : bool :=
  bool_decide (s ∈ [[]; StateFactory; StateDiscovered; StateAdopting; StateProvisioning;
                    StateConnected; StateFailed]).

Definition validatePersistedStore (s : Store) : result error unit :=
  if negb (known_state (State s)) then Err "unknown STATE value"
  else if bool_decide (AuthKey s = [])
          && (bool_decide (State s = StateAdopting) || bool_decide (State s = StateConnected)
              || UseAESGCM s)
  then Err "adopted state requires AUTHKEY"
  else if bool_decide (State s = StateFactory) && negb (bool_decide (AuthKey s = []))
  then Err "factory state must not contain AUTHKEY"
  else Ok tt.

Section persistence.
Context `{AddressParser}.

(** The loop of [validateStoreForPersistence], with its count. *)
Fixpoint validate_fields (fs : list storeField) (s : Store) (n : Z) : result error Z :=
  match fs with
  | [] => Ok n
  | f :: fs' =>
      let value := field_get f s in
      if decide (value = []) then validate_fields fs' s n
      else
        _ ← wrap_err "field" (validatePersistedValue value);
        _ ← wrap_err "field" (validatePersistedField f value);
        validate_fields fs' s (n + 1)
  end.

Definition validateStoreForPersistence (s : Store) : result error unit :=
  n ← validate_fields storeFields s 0;
  if n =? 0 then Err "no supported fields" else validatePersistedStore s.
End persistence.

(** ** Merge (env.go) *)
Definition normalizedAuthKey (value : bytes) : option bytes :=
  if zlen value =? 16 then Some (hex_encode value)
  else if zlen value =? 32 then hex_encode <$> hex_decode value
  else None.

Definition authKeysEqual (left right : bytes) : bool :=
  bool_decide (left = right) ||
  match normalizedAuthKey left, normalizedAuthKey right with
  | Some l, Some r => bool_decide (l = r)
  | _, _ => false
  end.

(** The lifecycle state an update carries after the lifecycle rules. *)
Definition lifecycle (base update : Store) : bytes :=
  let controllerAuthKeyPresent :=
    bool_decide (State update = StateConnected) && negb (bool_decide (AuthKey update = [])) in
  let keyChanged :=
    negb (bool_decide (AuthKey update = [])) && negb (authKeysEqual (AuthKey update) (AuthKey base)) in
  let urlChanged :=
    negb (bool_decide (InformURL update = []))
    && negb (bool_decide (InformURL update = InformURL base)) in
  if controllerAuthKeyPresent || keyChanged || urlChanged then
    let resultingKey := if bool_decide (AuthKey update = []) then AuthKey base else AuthKey update in
    if bool_decide (resultingKey = []) then StateProvisioning else StateAdopting
  else if bool_decide (State update = StateConnected) && bool_decide (AuthKey base = [])
          && bool_decide (AuthKey update = [])
  then []
  else if bool_decide (State update = StateAdopting)
          || (negb (bool_decide (AuthKey base = [])) && bool_decide (State update = StateProvisioning))
  then []
  else State update.

(** The field loop. *)
Definition merge_field (update : Store) (acc : Store * bool) (f : storeField) : Store * bool :=
  let '(base, changed) := acc in
  let value := field_get f update in
  if negb (bool_decide (value = [])) && negb (bool_decide (field_get f base = value))
  then (field_set f value base, true)
  else (base, changed).

Definition Merge (base update : Store) : Store * bool :=
  fold_left (merge_field (set_State (lifecycle base update) update)) storeFields (base, false).

(** ** mgmtcfg.go *)
Definition maxMgmtCFGBytes : Z := 64 * 1024.
Definition maxMgmtCFGLines : Z := 256.
Definition maxMgmtCFGLine : Z := 4096.

Section mgmt.
Context `{AddressParser}.

Definition mgmt_line (s : Store) (line : bytes) : result error Store :=
  if maxMgmtCFGLine <? zlen line then Err "mgmt_cfg line exceeds 4096 bytes"
  else
    match cut_byte x3d (trim_space line) with
    | None => Ok s
    | Some (key, value) =>
        match storeFieldByMgmtKey key with
        | None => Ok s
        | Some f =>
            let value := trim_space value in
            _ ← validateMgmtField key value;
            Ok (field_set f value s)
        end
    end.

Fixpoint mgmt_lines (s : Store) (lines : list bytes) : result error Store :=
  match lines with
  | [] => Ok s
  | line :: rest => s' ← mgmt_line s line; mgmt_lines s' rest
  end.

Definition parseMgmtCFG (mgmtCFG : bytes) : result error Store :=
  if maxMgmtCFGBytes <? zlen mgmtCFG then Err "mgmt_cfg exceeds 65536 bytes"
  else
    let lines := split_byte x0a mgmtCFG in
    if maxMgmtCFGLines <? zlen lines then Err "mgmt_cfg exceeds 256 lines"
    else mgmt_lines no_store lines.
End mgmt.

(** ** Fields *)
Lemma elem_of_storeFields f : f ∈ storeFields.
Proof. destruct f; unfold storeFields; set_solver. Qed.
#[export] Hint Resolve elem_of_storeFields : stub.

Lemma storeFields_nodup : NoDup storeFields.
Proof. by apply (bool_decide_unpack (NoDup storeFields)). Qed.

Lemma field_get_set_ne f g v s : f ≠ g → field_get f (field_set g v s) = field_get f s.
Proof. by destruct f, g. Qed.

Lemma field_get_set f v s :
  (f = FUseAESGCM → v = B "true" ∨ v = []) → field_get f (field_set f v s) = v.
Proof.
  destruct f; try done. intros Hv. destruct (Hv eq_refl) as [->| ->]; reflexivity.
Qed.

Lemma field_get_gcm s : field_get FUseAESGCM s = B "true" ∨ field_get FUseAESGCM s = [].
Proof. cbn. destruct (UseAESGCM s); auto. Qed.

(** The fields are all of a store. *)
Lemma store_ext s t : (∀ f, field_get f s = field_get f t) → s = t.
Proof.
  intros H. pose proof (H FState) as H1. pose proof (H FInformURL) as H2.
  pose proof (H FAuthKey) as H3. pose proof (H FCFGVersion) as H4.
  pose proof (H FUseAESGCM) as H5. pose proof (H FVersion) as H6.
  destruct s as [a b c d e f], t as [a' b' c' d' e' f']. cbn in *. subst.
  f_equal. by destruct d, d'.
Qed.

Lemma field_by_env_key f : storeFieldByEnvKey (envKey f) = Some f.
Proof. by destruct f. Qed.

Lemma field_by_env_key_Some k f : storeFieldByEnvKey k = Some f → k = envKey f.
Proof.
  unfold storeFieldByEnvKey. intros Hf. apply find_some in Hf as [_ Hf].
  by apply bool_decide_eq_true in Hf.
Qed.

Lemma field_by_mgmt_key_Some k f :
  storeFieldByMgmtKey k = Some f → k = mgmtKey f ∧ f ∉ [FState; FVersion].
Proof.
  unfold storeFieldByMgmtKey. intros Hf. apply find_some in Hf as [_ Hf].
  apply andb_prop in Hf as [Hn Hf]. apply bool_decide_eq_true in Hf.
  split; [done|]. destruct f; try done; set_solver.
Qed.

(** ** What the validation accepts *)
Section valid.
Context `{AddressParser}.

Definition field_ok (f : storeField) (v : bytes) : Prop :=
  v = [] ∨ (validatePersistedValue v = Ok tt ∧ validatePersistedField f v = Ok tt).

Lemma validate_fields_ok fs s n m :
  validate_fields fs s n = Ok m →
  (∀ f, f ∈ fs → field_ok f (field_get f s)) ∧ n ≤ m ∧
  (m = n → ∀ f, f ∈ fs → field_get f s = []).
Proof.
  revert n. induction fs as [|f fs IH]; intros n; cbn [validate_fields].
  - intros [= ->]. split_and!; [set_solver|lia|set_solver].
  - case_decide as Hv; intros HV.
    + destruct (IH _ HV) as (H1 & H2 & H3). split_and!; [|done|].
      * intros g [->|Hg]%elem_of_cons; [by left|auto].
      * intros Hm g [->|Hg]%elem_of_cons; [done|auto].
    + inv_ok. destruct a, a0. destruct (IH _ HV) as (H1 & H2 & H3).
      split_and!; [|lia|lia].
      intros g [->|Hg]%elem_of_cons; [by right|auto].
Qed.

Lemma fields_validate fs s n :
  (∀ f, f ∈ fs → field_ok f (field_get f s)) →
  ∃ m, validate_fields fs s n = Ok m ∧ n ≤ m ∧
    ((∃ f, f ∈ fs ∧ field_get f s ≠ []) → n < m).
Proof.
  revert n. induction fs as [|f fs IH]; intros n Hok; cbn [validate_fields].
  - exists n. split_and!; [done|lia|]. intros (f & Hf & _). set_solver.
  - assert (∀ g, g ∈ fs → field_ok g (field_get g s)) as Hok' by set_solver.
    case_decide as Hv.
    + destruct (IH n Hok') as (m & Hm & Hle & Hlt). exists m. split_and!; [done..|].
      intros (g & [->|Hg]%elem_of_cons & Hne); [done|]. apply Hlt. eauto.
    + destruct (Hok f) as [|[H1 H2]]; [set_solver|done|]. rewrite H1, H2.
      destruct (IH (n + 1) Hok') as (m & Hm & Hle & _). exists m.
      split_and!; [done|lia|lia].
Qed.

Lemma persistable s :
  validateStoreForPersistence s = Ok tt ↔
  (∀ f, field_ok f (field_get f s)) ∧ (∃ f, field_get f s ≠ []) ∧ validatePersistedStore s = Ok tt.
Proof.
  unfold validateStoreForPersistence. split.
  - intros HV. inv_ok. destruct (validate_fields_ok _ _ _ _ E) as (H1 & H2 & H3).
    apply Z.eqb_neq in E0. split_and!; [auto with stub| |done].
    destruct (decide (Forall (λ f, field_get f s = []) storeFields)) as [Hall|Hall].
    + exfalso. rewrite Forall_forall in Hall.
      destruct (fields_validate storeFields s 0) as (m & Hm & _ & _); [auto|].
      revert E. clear -Hall E0. unfold storeFields in *.
      cbn [validate_fields]. rewrite !decide_True by (apply Hall; set_solver). congruence.
    + apply not_Forall_Exists in Hall; [|intros f; apply _].
      apply Exists_exists in Hall as (f & _ & Hf). by exists f.
  - intros (H1 & (f & Hf) & H3).
    destruct (fields_validate storeFields s 0) as (m & -> & _ & Hlt); [auto|].
    cbn. rewrite (proj2 (Z.eqb_neq m 0)); [done|].
    assert (0 < m); [|lia]. apply Hlt. exists f. auto with stub.
Qed.
End valid.

(** ** Merge, field by field *)
Definition pick (new old : bytes) : bytes := if bool_decide (new = []) then old else new.

Definition merged (base update : Store) : Store :=
  MkStore (pick (InformURL update) (InformURL base)) (pick (AuthKey update) (AuthKey base))
    (pick (CFGVersion update) (CFGVersion base)) (UseAESGCM base || UseAESGCM update)
    (pick (Version update) (Version base)) (pick (lifecycle base update) (State base)).

Lemma merge_field_get u b c f g :
  field_get g (merge_field u (b, c) f).1 =
    if decide (g = f) then pick (field_get f u) (field_get f b) else field_get g b.
Proof.
  unfold merge_field, pick. pose proof (field_get_gcm u) as Hu.
  destruct (decide (g = f)) as [->|Hne].
  - destruct (decide (field_get f u = [])) as [E|E].
    + by rewrite !bool_decide_true by done.
    + rewrite !(bool_decide_false (field_get f u = [])) by done. cbn [negb andb].
      case_bool_decide as E2; cbn; [done|]. apply field_get_set. intros ->. tauto.
  - destruct (_ && _); [|done]. by apply field_get_set_ne.
Qed.

Lemma merge_fields_get u fs b c g :
  NoDup fs →
  field_get g (fold_left (merge_field u) fs (b, c)).1 =
    if decide (g ∈ fs) then pick (field_get g u) (field_get g b) else field_get g b.
Proof.
  intros Hfs. revert b c. induction Hfs as [|f fs Hf Hfs IH]; intros b c; cbn [fold_left].
  - rewrite decide_False; [done|apply not_elem_of_nil].
  - destruct (merge_field u (b, c) f) as [b' c'] eqn:E.
    pose proof (merge_field_get u b c f g) as Hg. rewrite E in Hg. cbn [fst] in Hg.
    rewrite IH, Hg. destruct (decide (g = f)) as [->|Hne].
    + rewrite decide_False by done. rewrite decide_True; [done|set_solver].
    + destruct (decide (g ∈ fs)).
      * rewrite decide_True; [done|set_solver].
      * rewrite decide_False; [done|set_solver].
Qed.

Lemma merge_get base update f :
  field_get f (Merge base update).1 =
    pick (field_get f (set_State (lifecycle base update) update)) (field_get f base).
Proof.
  unfold Merge. rewrite merge_fields_get by apply storeFields_nodup.
  rewrite decide_True; auto with stub.
Qed.

Lemma merge_merged base update : (Merge base update).1 = merged base update.
Proof.
  apply store_ext. intros f. rewrite merge_get. unfold pick.
  destruct f; cbn; try done. destruct (UseAESGCM base), (UseAESGCM update); done.
Qed.

Lemma merge_fields_unchanged u fs b c :
  NoDup fs →
  (fold_left (merge_field u) fs (b, c)).2 = false ↔
    c = false ∧ ∀ f, f ∈ fs → pick (field_get f u) (field_get f b) = field_get f b.
Proof.
  intros Hfs. revert b c. induction Hfs as [|f fs Hf Hfs IH]; intros b c; cbn [fold_left snd].
  - split; [|tauto]. intros ->. split; [done|]. intros f Hin. by apply not_elem_of_nil in Hin.
  - destruct (merge_field u (b, c) f) as [b' c'] eqn:E. rewrite IH.
    assert (∀ g, g ∈ fs → field_get g b' = field_get g b) as Hsame.
    { intros g Hg. pose proof (merge_field_get u b c f g) as Hget. rewrite E in Hget.
      rewrite decide_False in Hget; [done|set_solver]. }
    assert (c' = false ↔ c = false ∧ pick (field_get f u) (field_get f b) = field_get f b) as Hc.
    { unfold merge_field in E. unfold pick. do 2 case_bool_decide; cbn in E;
        injection E as <- <-; naive_solver. }
    rewrite Hc. split.
    + intros ((H1 & H2) & H3). split; [done|].
      intros g [->|Hg]%elem_of_cons; [done|]. rewrite <- (Hsame g Hg). auto.
    + intros (H1 & H2). split; [split; [done|apply H2; set_solver]|].
      intros g Hg. rewrite (Hsame g Hg). apply H2. set_solver.
Qed.

(** The flag [Merge] returns says whether the store changed. *)
Lemma merge_changed base update :
  (Merge base update).2 = true ↔ (Merge base update).1 ≠ base.
Proof.
  rewrite <- not_false_iff_true. unfold Merge at 1.
  rewrite merge_fields_unchanged by apply storeFields_nodup. split.
  - intros Hn Heq. apply Hn. split; [done|]. intros f _.
    rewrite <- merge_get, Heq. done.
  - intros Hn [_ Heq]. apply Hn. apply store_ext. intros f.
    rewrite merge_get. auto with stub.
Qed.

(** [Merge] takes every non-empty field of the update and keeps the others;
    the AES-GCM flag is only ever switched on; the state is the one the
    lifecycle rules give; and the flag it returns says exactly whether the
    store changed. *)
Theorem Merge_fieldwise base update :
  (Merge base update).1 = merged base update ∧
  ((Merge base update).2 = true ↔ (Merge base update).1 ≠ base).
Proof. split; [apply merge_merged|apply merge_changed]. Qed.

(** When the lifecycle reopens adoption. *)
Definition reopens (base update : Store) : Prop :=
  AuthKey update ≠ [] ∧
    (State update = StateConnected ∨ authKeysEqual (AuthKey update) (AuthKey base) = false)
  ∨ InformURL update ≠ [] ∧ InformURL update ≠ InformURL base.

Lemma lifecycle_open base update :
  reopens base update →
  lifecycle base update =
    if bool_decide (pick (AuthKey update) (AuthKey base) = []) then StateProvisioning
    else StateAdopting.
Proof.
  intros Hopen. unfold lifecycle.
  match goal with |- context [if ?a || ?b || ?c then _ else _] =>
    assert (a || b || c = true) as -> end; [|done].
  destruct Hopen as [[Hk [Hs|Hs]]|[Hu Hn]].
  - by rewrite (bool_decide_true _ Hs), (bool_decide_false _ Hk).
  - rewrite Hs, (bool_decide_false _ Hk). by rewrite orb_true_r.
  - rewrite (bool_decide_false _ Hu), (bool_decide_false _ Hn). by rewrite orb_true_r.
Qed.

(** The states an update cannot bring in without reopening adoption: a
    controller's [connected] as long as no key is known, [adopting], a
    [provisioning] of a keyed store, and none. *)
Definition state_ignored (base update : Store) : Prop :=
  State update = StateConnected ∧ pick (AuthKey update) (AuthKey base) = [] ∨
  State update = StateAdopting ∨ (State update = StateProvisioning ∧ AuthKey base ≠ []) ∨ State update = [].

Lemma lifecycle_closed base update :
  ¬ reopens base update →
  (state_ignored base update → pick (lifecycle base update) (State base) = State base) ∧
  (¬ state_ignored base update → pick (lifecycle base update) (State base) = State update).
Proof.
  unfold reopens, state_ignored, lifecycle, pick. intros Hn.
  destruct (bool_decide_reflect (State update = StateConnected)) as [Hc|Hc],
    (bool_decide_reflect (AuthKey update = [])) as [Hk|Hk],
    (bool_decide_reflect (InformURL update = [])) as [Hu|Hu],
    (bool_decide_reflect (InformURL update = InformURL base)) as [Hv|Hv],
    (authKeysEqual (AuthKey update) (AuthKey base)) eqn:He; cbn [andb orb negb]; try (exfalso; tauto).
  all: destruct (bool_decide_reflect (AuthKey base = [])) as [Hb|Hb],
    (bool_decide_reflect (State update = StateAdopting)) as [Ha|Ha],
    (bool_decide_reflect (State update = StateProvisioning)) as [Hp|Hp]; cbn [andb orb negb].
  all: split; intros Hi; repeat case_bool_decide; try done; try tauto; try congruence.
  all: rewrite Hc in *; try done.
Qed.

(** C14: the lifecycle of the persisted state.  A controller response with a
    key, a new key or a new inform URL reopens adoption (provisioning without
    any key).  Otherwise the store takes the state of the update, except those
    of [state_ignored].  So a store that has no key after the merge is never
    made connected, whatever URL the response repeats; and a local update that
    repeats the known key and URL keeps a keyed session's state. *)
Theorem Merge_lifecycle base update :
  let s := State (Merge base update).1 in
  let key := pick (AuthKey update) (AuthKey base) in
  (reopens base update →
   s = if bool_decide (key = []) then StateProvisioning else StateAdopting) ∧
  (¬ reopens base update → state_ignored base update → s = State base) ∧
  (¬ reopens base update → ¬ state_ignored base update → s = State update) ∧
  (key = [] → State base ≠ StateConnected → s ≠ StateConnected) ∧
  (AuthKey base = [] → AuthKey update = [] → InformURL update ∈ [[]; InformURL base] →
   State update = StateConnected → s = State base) ∧
  (AuthKey base ≠ [] → authKeysEqual (AuthKey update) (AuthKey base) = true →
   InformURL update ∈ [[]; InformURL base] →
   State update ∈ [[]; StateAdopting; StateProvisioning] → s = State base).
Proof.
  cbn zeta. rewrite merge_merged. unfold merged. cbn [State].
  assert (reopens base update → pick (lifecycle base update) (State base) =
    if bool_decide (pick (AuthKey update) (AuthKey base) = []) then StateProvisioning else StateAdopting) as Ho.
  { intros Hopen. rewrite (lifecycle_open _ _ Hopen). by destruct (bool_decide (pick (AuthKey update) _ = [])). }
  assert (∀ url, InformURL update ∈ [[]; url] → InformURL update = [] ∨ InformURL update = url) as Hurl.
  { intros url Hi. set_unfold in Hi. destruct_or! Hi; auto. }
  pose proof (lifecycle_closed base update) as Hc. split_and!.
  - exact Ho.
  - apply Hc.
  - apply Hc.
  - intros Hk Hb. assert (reopens base update ∨ ¬ reopens base update) as [Hr|Hr].
    { unfold reopens. destruct (decide (AuthKey update = [])), (decide (State update = StateConnected)),
        (decide (InformURL update = [])), (decide (InformURL update = InformURL base)),
        (authKeysEqual (AuthKey update) (AuthKey base)); naive_solver. }
    + rewrite (Ho Hr), Hk. by vm_compute.
    + intros Hs. destruct (decide (State update = StateConnected)) as [E|E].
      * apply Hb. rewrite <- Hs. symmetry. apply Hc; [done|]. by left.
      * destruct (lifecycle_closed base update Hr) as [H1 H2].
        assert (State update = StateConnected ∨ State base = StateConnected) as [?|?]; [|done..].
        rewrite <- Hs. unfold state_ignored in *.
        destruct (decide (State update = StateAdopting)), (decide (State update = StateProvisioning)),
          (decide (AuthKey base = [])), (decide (State update = [])); naive_solver.
  - intros Hb Hu [Hi|Hi]%Hurl Hs; apply Hc; unfold reopens, state_ignored, pick; rewrite ?Hb, ?Hu, ?Hi, ?Hs; naive_solver.
  - intros Hb Hk [Hi|Hi]%Hurl Hs; set_unfold in Hs; apply Hc; unfold reopens, state_ignored;
      rewrite ?Hi, ?Hk; destruct_or! Hs; rewrite Hs; naive_solver.
Qed.

(** ** The controller's allowlist *)
Lemma has_ctl_existsb v :
  has_ctl v = existsb (λ c, (b2z c <? 0x20) || (b2z c =? 0x7f)) v.
Proof. done. Qed.

Lemma hex_decode_no_ctl v k : hex_decode v = Some k → has_ctl v = false.
Proof.
  remember (length v) as n eqn:Hn. revert v Hn k.
  induction n as [n IH] using lt_wf_ind. intros [|a [|b v]] -> k; cbn; try done.
  destruct (hex_val a) eqn:Ea, (hex_val b) eqn:Eb, (hex_decode v) eqn:E; try done.
  intros _. rewrite (IH (length v)) with (k := l) by (cbn; auto; lia).
  assert (∀ c z, hex_val c = Some z → (b2z c <? 32) || (b2z c =? 127) = false) as Hc.
  { clear. intros c z. unfold hex_val. intros Hz. repeat case_bool; bool_to_prop; try done; lia. }
  by rewrite (Hc _ _ Ea), (Hc _ _ Eb).
Qed.


Lemma known_state_elem s : known_state s = true → validatePersistedValue s = Ok tt.
Proof.
  unfold known_state. intros Hs. apply bool_decide_eq_true in Hs. set_unfold in Hs.
  by destruct_or! Hs; subst s.
Qed.

Section allowlist.
Context `{AddressParser}.

Lemma validate_authkey v :
  validateMgmtField (mgmtKey FAuthKey) v =
    if negb (zlen v =? 32)
    then Err "authkey must contain exactly 32 hexadecimal characters"%stdpp
    else validateIndividualAuthKeyText v false.
Proof. reflexivity. Qed.

Lemma validate_cfgversion v :
  validateMgmtField (mgmtKey FCFGVersion) v =
    guard_err (31 <? zlen v) "cfgversion exceeds 31 bytes"%stdpp.
Proof. reflexivity. Qed.

Lemma validate_url v : validateMgmtField (mgmtKey FInformURL) v = validate_inform_url v.
Proof. reflexivity. Qed.

(** What [mgmt_cfg] parsing keeps true of the store it fills. *)
Definition mgmt_ok (s : Store) : Prop :=
  State s = [] ∧ Version s = [] ∧
  ∀ f, field_get f s = [] ∨
    (trim_space (field_get f s) = field_get f s ∧
     validateMgmtField (mgmtKey f) (field_get f s) = Ok tt).

Lemma mgmt_line_ok s line s' : mgmt_ok s → mgmt_line s line = Ok s' → mgmt_ok s'.
Proof.
  intros (Hs & Hv & Hf) Hl. unfold mgmt_line in Hl. inv_ok.
  destruct (cut_byte x3d (trim_space line)) as [[key value]|]; [|by inv_ok].
  destruct (storeFieldByMgmtKey key) as [f|] eqn:Ef; [|by inv_ok]. inv_ok.
  apply field_by_mgmt_key_Some in Ef as [-> Hn]. destruct a.
  split; [by destruct f; set_solver|]. split; [by destruct f; set_solver|].
  intros g. destruct (decide (g = f)) as [->|Hne]; [|by rewrite field_get_set_ne].
  destruct (decide (f = FUseAESGCM)) as [->|Hg].
  - cbn. destruct (default false _); [by right|by left].
  - rewrite field_get_set by done. right. split; [apply trim_space_idemp|done].
Qed.

Lemma mgmt_lines_ok s lines s' : mgmt_ok s → mgmt_lines s lines = Ok s' → mgmt_ok s'.
Proof.
  revert s. induction lines as [|l lines IH]; intros s Hs; cbn; intros Hl; inv_ok; [done|].
  eapply IH; [|done]. by eapply mgmt_line_ok.
Qed.

Lemma no_store_ok : mgmt_ok no_store.
Proof. split_and!; [done..|]. intros f. left. by destruct f. Qed.

Lemma parseMgmtCFG_ok m u : parseMgmtCFG m = Ok u → mgmt_ok u.
Proof.
  unfold parseMgmtCFG. intros Hm. inv_ok. eapply mgmt_lines_ok; [apply no_store_ok|done].
Qed.

Lemma validate_authkey_ok v raw :
  validateIndividualAuthKeyText v raw = Ok tt →
  ∃ k, authkey_bytes v raw = Ok k ∧ k ≠ DefaultAuthKey.
Proof.
  unfold validateIndividualAuthKeyText. intros Hk. inv_ok. exists a. split; [done|].
  intros ->. by vm_compute in E0.
Qed.

Lemma validate_inform_url_ok v : validate_inform_url v = Ok tt → zlen v ≤ 2048 ∧ has_ctl v = false.
Proof.
  unfold validate_inform_url. intros Hu.
  destruct (2048 <? zlen v) eqn:El; [done|]. apply Z.ltb_ge in El. split; [done|].
  destruct (url_parse ipv6_literal v) as [u|] eqn:Ep; [|done]. inv_ok. bool_to_prop.
  assert (cut_parts x23 v = (v, [])) as Hc.
  { unfold cut_parts. destruct (cut_byte x23 v) as [[l r]|] eqn:Ec; [|done].
    apply cut_byte_Some in Ec as [Hv _]. exfalso.
    assert (contains (B "#") v = true); [|congruence].
    apply contains_spec. by exists l, r. }
  unfold url_parse in Ep. rewrite Hc in Ep.
  destruct (url_parse_nofrag ipv6_literal v) eqn:En; [|done].
  by eapply url_parse_nofrag_ctl.
Qed.

(** A controller update can be persisted when its configuration version has
    no control byte. *)
Lemma mgmt_ok_fields u :
  mgmt_ok u → has_ctl (CFGVersion u) = false → ∀ f, field_ok f (field_get f u).
Proof.
  intros (Hs & Hv & Hf) Hc f. destruct (Hf f) as [|[Ht Hm]]; [by left|].
  destruct (decide (field_get f u = [])); [by left|]. right.
  assert (has_ctl (field_get f u) = false → validatePersistedValue (field_get f u) = Ok tt) as HV.
  { intros Hn. unfold validatePersistedValue. rewrite <- has_ctl_existsb, Hn.
    by rewrite bool_decide_true. }
  destruct f; cbn [field_get validatePersistedField] in *; try congruence.
  - destruct (validate_inform_url_ok (InformURL u)); [done|]. auto.
  - rewrite validate_authkey in Hm.
    destruct (negb (zlen (AuthKey u) =? 32)) eqn:El; [done|].
    apply negb_false_iff in El. unfold validateIndividualAuthKeyText, authkey_bytes in *.
    apply Z.eqb_eq in El as El'. rewrite El' in *. cbn in *.
    destruct (hex_decode (AuthKey u)) as [k|] eqn:Ek; [|done].
    split; [|done]. apply HV. by eapply hex_decode_no_ctl.
  - auto.
  - destruct (UseAESGCM u); [|done]. auto.
Qed.
End allowlist.

(** An accepted [mgmt_cfg] is bounded in bytes and lines, and fills only
    the allowlisted fields: never the state or the version, a key of 32
    hexadecimal digits that is not the public default key, a configuration
    version of at most 31 bytes, and an inform URL of at most 2048 bytes
    without control bytes. *)
Theorem parseMgmtCFG_sound `{AddressParser} m u :
  parseMgmtCFG m = Ok u →
  zlen m ≤ 65536 ∧ zlen (split_byte x0a m) ≤ 256 ∧
  State u = [] ∧ Version u = [] ∧
  (AuthKey u = [] ∨
   zlen (AuthKey u) = 32 ∧ ∃ k, hex_decode (AuthKey u) = Some k ∧ k ≠ DefaultAuthKey) ∧
  zlen (CFGVersion u) ≤ 31 ∧
  zlen (InformURL u) ≤ 2048 ∧ has_ctl (InformURL u) = false.
Proof.
  intros Hm. destruct (parseMgmtCFG_ok m u Hm) as (Hs & Hv & Hf).
  unfold parseMgmtCFG in Hm. inv_ok. apply Z.ltb_ge in E, E0.
  split_and!; [done..| | | |].
  - destruct (Hf FAuthKey) as [Hk|[_ Hk]]; [by left|]. right.
    rewrite validate_authkey in Hk. cbn [field_get] in Hk.
    destruct (negb (zlen (AuthKey u) =? 32)) eqn:El; [done|].
    apply negb_false_iff, Z.eqb_eq in El. split; [done|].
    apply validate_authkey_ok in Hk as (k & Hk & Hne). exists k. split; [|done].
    unfold authkey_bytes in Hk. rewrite El in Hk. cbn in Hk.
    destruct (hex_decode (AuthKey u)); [|done]. by inv_ok.
  - destruct (Hf FCFGVersion) as [Hk|[_ Hk]]; cbn [field_get] in Hk; [by rewrite Hk|].
    rewrite validate_cfgversion in Hk.
    destruct (31 <? zlen (CFGVersion u)) eqn:El; [done|]. by apply Z.ltb_ge in El.
  - destruct (Hf FInformURL) as [Hk|[_ Hk]]; cbn [field_get] in Hk; [by rewrite Hk|].
    rewrite validate_url in Hk.
    by apply validate_inform_url_ok.
  - destruct (Hf FInformURL) as [Hk|[_ Hk]]; cbn [field_get] in Hk; [by rewrite Hk|].
    rewrite validate_url in Hk.
    by apply validate_inform_url_ok.
Qed.

(** ** Merging keeps a store persistable *)
Definition store_ok (s : Store) : Prop :=
  known_state (State s) = true ∧
  (AuthKey s = [] → State s ≠ StateAdopting ∧ State s ≠ StateConnected ∧ UseAESGCM s = false) ∧
  (State s = StateFactory → AuthKey s = []).

Lemma validatePersistedStore_ok s : validatePersistedStore s = Ok tt ↔ store_ok s.
Proof.
  unfold validatePersistedStore, store_ok. destruct (known_state (State s)); cbn [negb]; [|naive_solver].
  destruct (decide (AuthKey s = [])) as [Ek|Ek].
  - rewrite Ek. cbn [negb andb]. rewrite andb_false_r.
    repeat case_bool_decide; destruct (UseAESGCM s); cbn; naive_solver.
  - rewrite (bool_decide_false _ Ek). cbn [negb andb].
    case_bool_decide; cbn; naive_solver.
Qed.

(** What an update must satisfy to be merged into a persisted store. *)
Record update_ok `{AddressParser} (base update : Store) : Prop := {
  up_fields : ∀ f, field_ok f (field_get f update);
  up_state : known_state (State update) = true;
  up_no_factory : State update ≠ StateFactory;
  up_gcm : UseAESGCM update = true → AuthKey base ≠ [] ∨ AuthKey update ≠ [];
}.

Lemma lifecycle_known base update :
  known_state (State update) = true → known_state (lifecycle base update) = true.
Proof.
  intros Hs. unfold lifecycle. cbv zeta.
  repeat match goal with |- context [if ?c then _ else _] => destruct c end; (done || exact Hs).
Qed.

Lemma pick_cases (P : bytes → Prop) a b : P a → P b → P (pick a b).
Proof. unfold pick. by case_bool_decide. Qed.

Lemma authKeysEqual_nil k : authKeysEqual k [] = true → k = [].
Proof.
  unfold authKeysEqual. rewrite orb_true_iff. intros [Hk|Hk].
  - by apply bool_decide_eq_true in Hk.
  - by destruct (normalizedAuthKey k).
Qed.

Lemma not_reopens base update :
  ¬ reopens base update →
  lifecycle base update = [] ∨
  lifecycle base update = State update ∧ State update ≠ StateAdopting ∧
    (State update = StateConnected → AuthKey base ≠ []).
Proof.
  intros Hn. unfold lifecycle.
  match goal with |- context [if ?a || ?b || ?c then _ else _] =>
    assert (a || b || c = false) as -> end.
  { apply not_true_iff_false. intros Ht. apply Hn. unfold reopens.
    apply orb_true_iff in Ht as [[Ht|Ht]%orb_true_iff|Ht]; bool_to_prop; auto. }
  assert (State update = StateConnected → AuthKey update = []) as Hc.
  { intros Hs. destruct (decide (AuthKey update = [])); [done|]. exfalso. apply Hn. left. auto. }
  destruct (_ && _ && _) eqn:E1; [by left|].
  destruct (bool_decide (State update = StateAdopting) || _) eqn:E2; [by left|]. right.
  bool_to_prop. split_and!; [done..|]. intros Hs Hb. rewrite Hs, Hb, (Hc Hs) in E1. done.
Qed.

#[export] Instance reopens_dec base update : Decision (reopens base update).
Proof. unfold reopens. apply _. Defined.

(** A store without a key has no key in the update either, so only a new inform
    URL can reopen it. *)
Lemma merged_store_ok base update :
  store_ok base → known_state (State update) = true → State update ≠ StateFactory →
  (UseAESGCM update = true → AuthKey base ≠ [] ∨ AuthKey update ≠ []) →
  store_ok (merged base update).
Proof.
  intros (Hk & Ha & Hf) Hs Hnf Hg. unfold store_ok, merged. cbn [State AuthKey UseAESGCM].
  split_and!.
  - unfold pick. case_bool_decide; [done|]. by apply lifecycle_known.
  - intros Hkey. unfold pick in Hkey. case_bool_decide as Hu; [|done].
    destruct (Ha Hkey) as (H1 & H2 & H3).
    assert (UseAESGCM update = false) as -> by (destruct (UseAESGCM update); naive_solver).
    rewrite H3. enough (pick (lifecycle base update) (State base) ∉ [StateAdopting; StateConnected])
      by set_solver.
    destruct (decide (reopens base update)) as [Hr|Hr].
    + rewrite (lifecycle_open _ _ Hr), Hu, Hkey. cbn. by vm_compute; set_solver.
    + apply not_reopens in Hr as [->|(-> & Hr1 & Hr2)]; [set_solver|].
      apply pick_cases; [|set_solver]. set_unfold. naive_solver.
  - destruct (decide (reopens base update)) as [Hr|Hr].
    { rewrite (lifecycle_open _ _ Hr). by destruct (bool_decide (pick (AuthKey update) _ = [])). }
    intros Hst. assert (State base = StateFactory) as Hb.
    { revert Hst. apply not_reopens in Hr as [->|(-> & _ & _)]; [done|].
      unfold pick. by case_bool_decide. }
    rewrite (Hf Hb). unfold pick. case_bool_decide; [done|]. exfalso. apply Hr. left.
    split; [done|]. right. rewrite (Hf Hb). apply not_true_iff_false.
    intros Heq. by apply authKeysEqual_nil in Heq.
Qed.

Lemma merge_persistable `{AddressParser} base update :
  validateStoreForPersistence base = Ok tt → update_ok base update →
  validateStoreForPersistence (Merge base update).1 = Ok tt.
Proof.
  intros Hb [Hf Hs Hn Hg]. apply persistable in Hb as (Hbf & (f & Hbn) & Hbs).
  apply persistable. split_and!.
  - intros g. rewrite merge_get. apply pick_cases; [|done].
    destruct (decide (g = FState)) as [->|Hne]; [|by destruct g].
    right. split; [|done]. by apply known_state_elem, lifecycle_known.
  - exists f. rewrite merge_get. unfold pick. by case_bool_decide.
  - rewrite merge_merged. apply validatePersistedStore_ok in Hbs.
    by apply validatePersistedStore_ok, merged_store_ok.
Qed.

(** A store without a key that an update switches to AES-GCM cannot be saved. *)
Lemma keyless_gcm_unpersistable `{AddressParser} base u :
  AuthKey base = [] → AuthKey u = [] → UseAESGCM u = true →
  ∃ e, validateStoreForPersistence (Merge base u).1 = Err e.
Proof.
  intros Hb Hk Hg. set (s := (Merge _ _).1).
  destruct (validateStoreForPersistence s) as [[]|e] eqn:E; [exfalso|by exists e].
  apply persistable in E as (_ & _ & Hs). apply validatePersistedStore_ok in Hs as (_ & Ha & _).
  subst s. rewrite merge_merged in Ha. unfold merged, pick in Ha. cbn in Ha.
  rewrite Hk, Hg, Hb, orb_true_r in Ha. by destruct Ha as (_ & _ & ?).
Qed.

(** ** Witnesses *)
#[local] Existing Instance no_ipv6.

Definition sample_mgmt : bytes :=
  B "authkey=00112233445566778899aabbccddeeff" ++ [x0a] ++ B "led_enabled=true" ++ [x0a]
  ++ B " use_aes_gcm = true " ++ [x0a] ++ B "use_aes_gcm=true" ++ [x0a]
  ++ B "cfgversion=0123456789abcdef" ++ [x0a]
  ++ B "inform_url=http://192.0.2.10:8080/inform" ++ [x0a].
Definition sample_update : Store :=
  MkStore (B "http://192.0.2.10:8080/inform") (B "00112233445566778899aabbccddeeff")
    (B "0123456789abcdef") true [] [].

Lemma parseMgmtCFG_sound_witness :
  parseMgmtCFG sample_mgmt = Ok sample_update ∧ zlen (CFGVersion sample_update) ≤ 31.
Proof.
  assert (parseMgmtCFG sample_mgmt = Ok sample_update) as Hp by (vm_compute; reflexivity).
  split; [exact Hp|]. apply (parseMgmtCFG_sound sample_mgmt sample_update Hp).
Defined.

Definition factory_store : Store := MkStore [] [] [] false [] StateFactory.

Lemma Merge_lifecycle_witness :
  State (Merge factory_store (set_State StateConnected sample_update)).1 = StateAdopting ∧
  State (Merge (MkStore (B "http://c:8080/inform") [] [] false [] StateProvisioning)
           (MkStore (B "http://c:8080/inform") [] [] false [] StateConnected)).1 = StateProvisioning.
Proof.
  split.
  - apply (proj1 (Merge_lifecycle factory_store (set_State StateConnected sample_update))).
    left. split; [discriminate|left; reflexivity].
  - destruct (Merge_lifecycle (MkStore (B "http://c:8080/inform") [] [] false [] StateProvisioning)
                (MkStore (B "http://c:8080/inform") [] [] false [] StateConnected)) as (_ & _ & _ & _ & Hkeyless & _).
    apply Hkeyless; [reflexivity..| |reflexivity]. right. left.
Defined.

(** A control byte in the configuration version passes the controller's
    allowlist but not the persistence check. *)
Example cfgversion_control_byte :
  parseMgmtCFG (B "cfgversion=a" ++ [x01] ++ B "b") =
    Ok (MkStore [] [] (B "a" ++ [x01] ++ B "b") false [] []) ∧
  is_ok (validateStoreForPersistence
    (Merge factory_store (MkStore [] [] (B "a" ++ [x01] ++ B "b") false [] StateConnected)).1) = false.
Proof. vm_compute. done. Qed.
