(* ===== verification/AdoptionEnv.v ===== *)
(** The adoption state file: [LoadEnv], [SaveEnv] and [ResetEnv] of
    [src/internal/adoption/env.go], against the interface [FileSystem]. *)
From S2P Require Import Prelude GoStrings GoUrl InformCodec AtomicFile AdoptionStore.

(** ** Reading the text *)

(** The variables of the loop in [LoadEnv]; [seen] holds the keys met. *)
Record load_state := MkLoad {
  ld_store : Store;
  ld_seen : gset bytes;
  ld_recognized : Z;
}.

Inductive load_error :=
| LoadNotExist           (* an error that wraps [os.ErrNotExist] *)
| LoadError (e : error).

#[export] Instance load_error_eq_dec : EqDecision load_error.
Proof. solve_decision. Defined.

Section env.
Context `{AddressParser}.

Definition load_line (st : load_state) (line : bytes) : result error load_state :=
  let trimmed := trim_space line in
  if decide (trimmed = []) then
    if decide (line = []) then Ok st
    else Err "invalid persisted adoption line: whitespace-only line"
  else if negb (bool_decide (line = trimmed))
  then Err "invalid persisted adoption line: non-canonical surrounding whitespace"
  else
    match cut_byte x3d line with
    | None => Err "invalid persisted adoption line: expected KEY=VALUE"
    | Some (key, value) =>
        if bool_decide (key = []) || negb (bool_decide (key = trim_space key))
        then Err "invalid persisted adoption line: malformed key"
        else
          match storeFieldByEnvKey key with
          | None => Ok st
          | Some f =>
              if decide (key ∈ ld_seen st)
              then Err "invalid persisted adoption field: duplicate field"
              else if decide (value = [])
              then Err "invalid persisted adoption field: value must not be empty"
              else
                _ ← wrap_err "invalid persisted adoption field" (validatePersistedValue value);
                _ ← wrap_err "invalid persisted adoption field" (validatePersistedField f value);
                Ok (MkLoad (field_set f value (ld_store st)) ({[key]} ∪ ld_seen st)
                           (ld_recognized st + 1))
          end
    end.

Fixpoint load_lines (st : load_state) (lines : list bytes) : result error load_state :=
  match lines with
  | [] => Ok st
  | line :: rest => st' ← load_line st line; load_lines st' rest
  end.

(** [LoadEnv] after the file is read. *)
Definition parse_env (data : bytes) : result error Store :=
  st ← load_lines (MkLoad no_store ∅ 0) (split_byte x0a data);
  if ld_recognized st =? 0
  then Err "invalid persisted adoption state: no supported fields"
  else
    _ ← wrap_err "invalid persisted adoption state" (validatePersistedStore (ld_store st));
    Ok (ld_store st).

(** ** Writing the text *)
Definition env_line (s : Store) (f : storeField) : bytes :=
  let value := field_get f s in
  if decide (value = []) then [] else envKey f ++ B "=" ++ value ++ [x0a].
Definition render_env (s : Store) : bytes := concat (map (env_line s) storeFields).

(** ** The file *)
Section files.
Context {W : Type} `{FileSystem W}.

Definition LoadEnv (path : bytes) (w : W) : result load_error Store * W :=
  let '(r, w') := fs_read path w in
  match r with
  | ReadNotExist => (Err LoadNotExist, w')
  | ReadFailed => (Err (LoadError "read adoption state"), w')
  | ReadData data =>
      match parse_env data with
      | Ok s => (Ok s, w')
      | Err e => (Err (LoadError e), w')
      end
  end.

Definition SaveEnv (path : bytes) (s : Store) (w : W) : result error unit * W :=
  if decide (path = []) then (Err "state path is required"%stdpp, w)
  else
    match validateStoreForPersistence s with
    | Err e => (wrap_err "invalid adoption state for persistence" (Err e), w)
    | Ok _ =>
        let '(r, w') := fs_write path (render_env s) 0x180 w in
        (wrap_err "write adoption state" r, w')
    end.

Definition ResetEnv (path : bytes) (w : W) : result error unit * Store * W :=
  let s := set_State StateFactory no_store in
  let '(r, w') := SaveEnv path s w in
  (r, s, w').
End files.

(** ** Reading back what was written *)
Lemma value_no_newline v : validatePersistedValue v = Ok tt → x0a ∉ v.
Proof.
  unfold validatePersistedValue. intros Hv. inv_ok. intros Hin.
  assert (existsb (λ c, (b2z c <? 32) || (b2z c =? 127)) v = true) as Ht; [|congruence].
  apply existsb_exists. exists x0a. split; [by apply list_elem_of_In|done].
Qed.

Lemma env_key_facts f :
  x3d ∉ envKey f ∧ x0a ∉ envKey f ∧ trim_space (envKey f) = envKey f ∧
  ∃ c k, envKey f = c :: k ∧ solid c = true.
Proof.
  assert (∀ c : byte, bool_decide (c ∈ envKey f) = false → c ∉ envKey f) as Hd
    by (intros c; apply bool_decide_eq_false_1).
  split; [apply Hd; by destruct f|]. split; [apply Hd; by destruct f|].
  split; [by destruct f|]. destruct f; eexists _, _; split; reflexivity.
Qed.

Lemma env_key_inj f g : envKey f = envKey g → f = g.
Proof.
  intros E. apply (f_equal storeFieldByEnvKey) in E. rewrite !field_by_env_key in E. congruence.
Qed.

(** One written line fills its field. *)
Lemma load_written st f v :
  v ≠ [] → validatePersistedValue v = Ok tt → validatePersistedField f v = Ok tt →
  envKey f ∉ ld_seen st →
  load_line st (envKey f ++ x3d :: v) =
    Ok (MkLoad (field_set f v (ld_store st)) ({[envKey f]} ∪ ld_seen st) (ld_recognized st + 1)).
Proof.
  intros Hv Hpv Hpf Hseen. destruct (env_key_facts f) as (Heq & _ & Htk & c & k & Hck & Hc).
  assert (trim_space v = v) as Htv.
  { unfold validatePersistedValue in Hpv.
    destruct (bool_decide (v = trim_space v)) eqn:E; [|done]. by apply bool_decide_eq_true in E. }
  assert (trim_space (envKey f ++ x3d :: v) = envKey f ++ x3d :: v) as Hline.
  { apply trim_space_id. split.
    - rewrite Hck. cbn [app]. by apply trim_left_solid.
    - apply trim_right_app_solid; [done|done|]. by apply trim_space_id in Htv as [_ ?]. }
  unfold load_line. rewrite Hline. rewrite decide_False; [|by destruct (envKey f)].
  rewrite bool_decide_true by done. cbn [negb].
  rewrite cut_byte_app by done. rewrite Htk.
  rewrite bool_decide_false by (rewrite Hck; done). rewrite bool_decide_true by done.
  cbn [negb orb]. rewrite field_by_env_key. rewrite decide_False by done.
  rewrite decide_False by done. by rewrite Hpv, Hpf.
Qed.

Lemma env_line_split s f rest :
  field_ok f (field_get f s) →
  split_byte x0a (env_line s f ++ rest) =
    (if decide (field_get f s = []) then [] else [envKey f ++ x3d :: field_get f s])
    ++ split_byte x0a rest.
Proof.
  intros Hok. unfold env_line. case_decide as Hv; [done|].
  destruct Hok as [|[Hpv _]]; [done|].
  rewrite <- !app_assoc. change (B "=") with [x3d]. cbn [app].
  change (envKey f ++ x3d :: field_get f s ++ x0a :: rest) with
    (envKey f ++ (x3d :: field_get f s) ++ x0a :: rest).
  rewrite app_assoc. apply split_byte_app.
  rewrite not_elem_of_app, not_elem_of_cons. split_and!;
    [apply env_key_facts|done|by apply value_no_newline].
Qed.

(** The loop over the lines of the fields [fs]: [acc] has the other fields
    of [s] already and none of these. *)
Lemma load_fields s fs st :
  (∀ f, field_ok f (field_get f s)) → NoDup fs →
  (∀ f, field_get f (ld_store st) = if decide (f ∈ fs) then [] else field_get f s) →
  (∀ f, envKey f ∈ ld_seen st → f ∉ fs) →
  ∃ st', load_lines st (split_byte x0a (concat (map (env_line s) fs))) = Ok st' ∧
    ld_store st' = s ∧ ld_recognized st ≤ ld_recognized st' ∧
    ((∃ f, f ∈ fs ∧ field_get f s ≠ []) → ld_recognized st < ld_recognized st').
Proof.
  intros Hok Hfs. revert st. induction Hfs as [|f fs Hf Hfs IH]; intros st Hst Hseen.
  - exists st. split; [reflexivity|]. split; [|split; [lia|]].
    + apply store_ext. intros f. rewrite Hst, decide_False; [done|set_solver].
    + intros (f & Hf & _). set_solver.
  - cbn [map concat]. rewrite env_line_split by done. case_decide as Hv; cbn [app].
    + destruct (IH st) as (st' & H1 & H2 & H3 & H4).
      { intros g. rewrite Hst. destruct (decide (g = f)) as [->|Hne].
        - rewrite decide_True by set_solver. by rewrite decide_False.
        - repeat case_decide; set_solver. }
      { intros g Hg Hin. apply (Hseen g Hg). set_solver. }
      exists st'. split_and!; [done..|]. intros (g & [->|Hg]%elem_of_cons & Hne); [done|eauto].
    + cbn [load_lines]. destruct (Hok f) as [|[Hpv Hpf]]; [done|].
      rewrite load_written; [|done..|intros Hin; apply (Hseen f Hin); set_solver].
      cbn [mbind result_bind].
      destruct (IH (MkLoad (field_set f (field_get f s) (ld_store st))
                      ({[envKey f]} ∪ ld_seen st) (ld_recognized st + 1)))
        as (st' & H1 & H2 & H3 & H4).
      { intros g. cbn. destruct (decide (g = f)) as [->|Hne].
        - rewrite decide_False by done. apply field_get_set. intros ->. apply field_get_gcm.
        - rewrite field_get_set_ne, Hst by done. repeat case_decide; set_solver. }
      { intros g. cbn. intros [Hg%elem_of_singleton|Hg]%elem_of_union.
        - apply env_key_inj in Hg as ->. done.
        - intros Hin. apply (Hseen g Hg). set_solver. }
      cbn in H3, H4. exists st'. split_and!; [done|done|lia|lia].
Qed.

Lemma parse_render s : validateStoreForPersistence s = Ok tt → parse_env (render_env s) = Ok s.
Proof.
  intros HV. apply persistable in HV as (Hok & (f & Hf) & Hs).
  destruct (load_fields s storeFields (MkLoad no_store ∅ 0)) as (st & H1 & H2 & _ & H3).
  - done.
  - apply storeFields_nodup.
  - intros g. rewrite decide_True by auto with stub. by destruct g.
  - intros g Hg. by apply elem_of_empty in Hg.
  - unfold parse_env, render_env. rewrite H1. cbn [mbind result_bind].
    cbn in H3. assert (0 < ld_recognized st) by (apply H3; exists f; auto with stub).
    rewrite (proj2 (Z.eqb_neq _ 0)) by lia. by rewrite H2, Hs.
Qed.
End env.

(** ** What a load accepts *)
Section accepted.
Context `{AddressParser}.

Lemma load_line_cases st line st' :
  load_line st line = Ok st' →
  st' = st ∨ ∃ f v, v ≠ [] ∧ validatePersistedValue v = Ok tt ∧
    validatePersistedField f v = Ok tt ∧ envKey f ∉ ld_seen st ∧
    st' = MkLoad (field_set f v (ld_store st)) ({[envKey f]} ∪ ld_seen st) (ld_recognized st + 1).
Proof.
  unfold load_line. intros Hl. case_decide; [case_decide; inv_ok; by left|].
  case_bool; [done|]. destruct (cut_byte x3d line) as [[key value]|]; [|done].
  case_bool; [done|]. destruct (storeFieldByEnvKey key) as [f|] eqn:Ef; [|inv_ok; by left].
  apply field_by_env_key_Some in Ef as ->. do 2 (case_decide; [done|]). right.
  exists f, value.
  destruct (validatePersistedValue value) as [[]|]; [|done].
  destruct (validatePersistedField f value) as [[]|]; [|done].
  cbn in Hl. by inv_ok.
Qed.

Lemma load_line_ok st line st' :
  (∀ f, field_ok f (field_get f (ld_store st))) → load_line st line = Ok st' →
  ∀ f, field_ok f (field_get f (ld_store st')).
Proof.
  intros Hok [->|(f & v & Hv & H1 & H2 & _ & ->)]%load_line_cases; [done|].
  intros g. cbn. destruct (decide (g = f)) as [->|Hne]; [|by rewrite field_get_set_ne].
  destruct (decide (f = FUseAESGCM)) as [->|Hg].
  - cbn. destruct (default false _); [by right|by left].
  - rewrite field_get_set by done. by right.
Qed.

Lemma load_lines_ok st lines st' :
  (∀ f, field_ok f (field_get f (ld_store st))) → load_lines st lines = Ok st' →
  ∀ f, field_ok f (field_get f (ld_store st')).
Proof.
  revert st. induction lines as [|l lines IH]; intros st Hok Hl; cbn in Hl; inv_ok; [done|].
  eapply IH; [|done]. by eapply load_line_ok.
Qed.
End accepted.

(** A state file that loads holds a state that may be saved again, unless
    it fills no field at all (its only recognised line is [USE_AES_GCM=false]). *)
Theorem LoadEnv_accepts_persistable `{AddressParser} data s :
  parse_env data = Ok s → s = no_store ∨ validateStoreForPersistence s = Ok tt.
Proof.
  unfold parse_env. intros Hp. inv_ok.
  assert (∀ f, field_ok f (field_get f (ld_store a))) as Hok.
  { eapply load_lines_ok; [|exact E]. intros f. left. by destruct f. }
  destruct (decide (Forall (λ f, field_get f (ld_store a) = []) storeFields)) as [Hall|Hall].
  - left. apply store_ext. intros f. rewrite Forall_forall in Hall.
    rewrite Hall by auto with stub. by destruct f.
  - right. apply persistable. split_and!; [done| |by destruct a0].
    apply not_Forall_Exists in Hall; [|intros f; apply _].
    apply Exists_exists in Hall as (f & _ & Hf). by exists f.
Qed.

(** C15: the written text reads back as the store it was rendered from, for
    every store the persistence check accepts. *)
Theorem env_round_trip `{AddressParser} s :
  validateStoreForPersistence s = Ok tt → parse_env (render_env s) = Ok s.
Proof. apply parse_render. Qed.

(** ** The files, case by case *)
Section file_cases.
Context `{AddressParser} {W : Type} `{FileSystemLaws W}.

Lemma LoadEnv_cases path (w : W) :
  fs_valid w →
  let '(r, w') := LoadEnv path w in
  fs_valid w' ∧ fs_content w' = fs_content w ∧
  match r with
  | Ok s => ∃ d, fs_content w path = Some d ∧ parse_env d = Ok s
  | Err LoadNotExist => fs_content w path = None
  | Err (LoadError _) => True
  end.
Proof.
  intros Hw. destruct (fs_read_same path w Hw) as [Hv Hc].
  pose proof (fs_read_data path w Hw) as Hd. unfold LoadEnv.
  destruct (fs_read path w) as [[d| |] w']; cbn [fst snd] in *; try done.
  destruct (parse_env d) eqn:E; split_and!; eauto.
Qed.

Lemma SaveEnv_cases path s (w : W) :
  fs_valid w →
  let '(r, w') := SaveEnv path s w in
  fs_valid w' ∧
  (∀ q, q ≠ path → is_Some (fs_content w q) → fs_content w' q = fs_content w q) ∧
  match r with
  | Ok _ => validateStoreForPersistence s = Ok tt ∧ fs_content w' path = Some (render_env s)
  | Err _ =>
      fs_content w' path = fs_content w path ∨
      (validateStoreForPersistence s = Ok tt ∧ fs_content w' path = Some (render_env s))
  end.
Proof.
  intros Hw. unfold SaveEnv. case_decide; [cbn; split_and!; auto|].
  destruct (validateStoreForPersistence s) as [[]|e] eqn:Ev; [|cbn; split_and!; auto].
  destruct (fs_write_content path (render_env s) 0x180 w Hw) as [Hv Hc].
  pose proof (λ q, fs_write_other path (render_env s) 0x180 w q Hw) as Ho.
  destruct (fs_write path (render_env s) 0x180 w) as [[[]|e] w']; cbn [fst snd wrap_err] in *.
  - split_and!; auto.
  - split_and!; [done|auto|]. destruct Hc; auto.
Qed.

(** The state file is absent or loads. *)
Definition state_loads (path : bytes) (w : W) : Prop :=
  match fs_content w path with None => True | Some d => ∃ s, parse_env d = Ok s end.

Lemma SaveEnv_loads path s (w : W) :
  fs_valid w → state_loads path w → state_loads path (SaveEnv path s w).2.
Proof.
  intros Hv Hs. pose proof (SaveEnv_cases path s w Hv) as Hc.
  destruct (SaveEnv path s w) as [r w']. destruct Hc as (_ & _ & Hc). unfold state_loads in *.
  cbn [snd].
  assert (validateStoreForPersistence s = Ok tt → ∃ s', parse_env (render_env s) = Ok s') as Hp
    by (intros Hok; exists s; by apply parse_render).
  destruct r as [?|e]; [destruct Hc as [Hok ->]; auto|].
  destruct Hc as [->|[Hok ->]]; auto.
Qed.

(** Writing another file leaves a path alone. *)
Lemma write_elsewhere p d m (w : W) q :
  fs_valid w → q ≠ p → ¬ fs_temp p q → fs_content (fs_write p d m w).2 q = fs_content w q.
Proof.
  intros Hv Hq Ht. destruct (fs_content w q) eqn:E.
  - rewrite <- E. apply fs_write_other; [done|done|by rewrite E].
  - by apply fs_write_absent.
Qed.
End file_cases.

(** [SaveEnv] is all or nothing.  When it succeeds, every later read of the
    file that works gives back the store; when it fails, the file holds what it
    held before, or the complete text of a store that passed the check. *)
Theorem SaveEnv_atomic `{AddressParser} {W} `{FileSystemLaws W} path s (w : W) :
  fs_valid w →
  let '(r, w') := SaveEnv path s w in
  fs_valid w' ∧
  match r with
  | Ok _ => (LoadEnv path w').1 = Ok s ∨ (LoadEnv path w').1 = Err (LoadError "read adoption state")
  | Err _ =>
      fs_content w' path = fs_content w path ∨
      (fs_content w' path = Some (render_env s) ∧ parse_env (render_env s) = Ok s)
  end.
Proof.
  intros Hw. pose proof (SaveEnv_cases path s w Hw) as Hs.
  destruct (SaveEnv path s w) as [[[]|e] w']; destruct Hs as (Hv & _ & Hs); split; try done.
  - destruct Hs as [Hok Hc]. unfold LoadEnv. pose proof (fs_read_data path w' Hv) as Hr.
    destruct (fs_read path w') as [[b| |] w'']; cbn [fst] in *; [|congruence|by right].
    assert (b = render_env s) as -> by congruence. rewrite parse_render by done. by left.
  - destruct Hs as [Hs|[Hok Hc]]; [by left|right]. split; [done|by apply parse_render].
Qed.

(** ** Witnesses, on a disk *)
#[local] Existing Instance no_ipv6.

Definition ready_disk : disk := MkDisk empty_fs [all_done; all_done; all_done] [true; true; true].

Lemma env_round_trip_witness :
  parse_env (render_env (set_State StateAdopting sample_update)) =
    Ok (set_State StateAdopting sample_update).
Proof. apply env_round_trip. vm_compute. reflexivity. Defined.

Lemma LoadEnv_accepts_persistable_witness :
  validateStoreForPersistence (set_State StateConnected sample_update) = Ok tt.
Proof.
  destruct (LoadEnv_accepts_persistable
    (B "# comment=1" ++ [x0a] ++ render_env (set_State StateConnected sample_update))
    (set_State StateConnected sample_update)) as [E|E].
  - vm_compute. reflexivity.
  - discriminate E.
  - exact E.
Defined.

Lemma SaveEnv_atomic_witness :
  let '(r, w') := SaveEnv (B "/var/lib/state.env") (set_State StateConnected sample_update) ready_disk in
  r = Ok tt ∧ (LoadEnv (B "/var/lib/state.env") w').1 = Ok (set_State StateConnected sample_update).
Proof.
  pose proof (SaveEnv_atomic (B "/var/lib/state.env") (set_State StateConnected sample_update)
                ready_disk empty_fs_wf) as Hs.
  assert (is_ok (SaveEnv (B "/var/lib/state.env") (set_State StateConnected sample_update)
                   ready_disk).1 = true) as Hok by (vm_compute; reflexivity).
  assert (is_ok (LoadEnv (B "/var/lib/state.env")
            (SaveEnv (B "/var/lib/state.env") (set_State StateConnected sample_update)
               ready_disk).2).1 = true) as Hl by (vm_compute; reflexivity).
  destruct (SaveEnv (B "/var/lib/state.env") (set_State StateConnected sample_update) ready_disk)
    as [[[]|e] w']; [|discriminate].
  split; [reflexivity|]. cbn in Hl. destruct Hs as [_ [Hs|Hs]]; [exact Hs|].
  rewrite Hs in Hl. discriminate Hl.
Defined.

Example load_only_gcm_false :
  parse_env (B "USE_AES_GCM=false") = Ok no_store.
Proof. vm_compute. reflexivity. Qed.
Example load_duplicate :
  is_ok (parse_env (B "STATE=factory" ++ [x0a] ++ B "STATE=factory")) = false.
Proof. vm_compute. reflexivity. Qed.
