(* ===== verification/AdoptionResponse.v ===== *)
(** The controller response sanitizer: [response.go], [json.go], [safety.go],
    [content_blocks.go] and [blocks.go] of [src/internal/adoption]. *)
From S2P Require Import Prelude GoStrings GoUtf8 GoJson InformCodec GoUrl AdoptionStore.

(** ** state.go *)
Record ControllerResponse := MkResponse {
  r_Type : bytes;
  r_Store : Store;
  r_HasStateUpdate : bool;
  r_HasMgmtCFG : bool;
  r_HasSystemCFG : bool;
  r_SystemCFGBytes : Z;
  r_SystemCFGKeys : list bytes;
  r_IntervalSeconds : Z;
  r_IncludeBlocks : list bytes;
  r_ExcludeBlocks : list bytes;
  r_UDAPIBlocks : list bytes;
  r_BlockSelectionSet : bool;
  r_BlockSelectionLimited : bool;
  r_Immediate : bool;
  r_ServerTimeUTC : Z;
  r_ServerTimeSet : bool;
  r_ResetRequested : bool;
  r_ResetApplied : bool;
  r_ResetReason : bytes;
  r_ResetDisposition : bytes;
  r_Ignored : bool;
  r_IgnoredReason : bytes;
}.

(** [ControllerResponse{Type: t}]. *)
Definition new_response (t : bytes) : ControllerResponse :=
  MkResponse t no_store false false false 0 [] 0 [] [] [] false false false 0 false false false []
    [] false [].

(** ** json.go *)
Definition MaxControllerJSONBytes : Z := 4 * 1024 * 1024.
Definition MaxControllerJSONDepth : Z := 64.
Definition MaxControllerJSONTokens : Z := 65536.

(** [jsonLimitError] and the other errors, which [errors.As] tells apart.
    [OutOfFuel] is no Go error: [validateJSONLimits_fuel] shows that it never
    is the result. *)
Inductive json_error :=
| LimitError (e : error)
| InvalidJSON (e : error)
| OutOfFuel.

Fixpoint limit_loop (fuel : nat) (d : decoder) (depth tokens : Z) (rootComplete : bool)
    : result json_error unit :=
  match fuel with
  | O => Err OutOfFuel
  | S f =>
      match decoder_token d with
      | TokEOF => if rootComplete then Ok tt else Err (InvalidJSON "empty input")
      | TokErr => Err (InvalidJSON "invalid")
      | Tok token d' =>
          if rootComplete then Err (InvalidJSON "multiple top-level values")
          else
            let tokens := tokens + 1 in
            if MaxControllerJSONTokens <? tokens then Err (LimitError "exceeds tokens")
            else
              match token with
              | TDelim c =>
                  if decide (c ∈ [x7b; x5b]) then
                    let depth := depth + 1 in
                    if MaxControllerJSONDepth <? depth
                    then Err (LimitError "exceeds maximum depth")
                    else limit_loop f d' depth tokens rootComplete
                  else if decide (c ∈ [x7d; x5d]) then
                    let depth := depth - 1 in
                    limit_loop f d' depth tokens (rootComplete || (depth =? 0))
                  else limit_loop f d' depth tokens rootComplete
              | _ => limit_loop f d' depth tokens (rootComplete || (depth =? 0))
              end
      end
  end.

Definition validateJSONLimits (data : bytes) : result json_error unit :=
  if MaxControllerJSONBytes <? zlen data then Err (LimitError "exceeds bytes")
  else limit_loop (S (length data)) (new_decoder data) 0 0 false.

(** An absent member is an empty [RawMessage]. *)
Definition jsonString (raw : bytes) : bytes :=
  if decide (raw = []) then []
  else match unmarshal_string raw with Some (Some v) => trim_space v | _ => [] end.

Definition jsonInt (raw : bytes) : Z :=
  if decide (raw = []) then 0
  else match unmarshal_int raw with Some (Some v) => v | _ => 0 end.

Definition topLevelJSONKeys (data : bytes) : list bytes :=
  match unmarshal_object data with
  | None => []
  | Some o =>
      let object := default [] o in
      filter (λ k, is_Some (member_lookup k object)) [B "ubntconf"; B "udapi"]
  end.

Definition summarizeSystemCFG (raw : bytes) : Z * list bytes * result json_error unit :=
  let raw := trim_space raw in
  if decide (raw = []) then (0, [], Ok tt)
  else
    let payload :=
      match unmarshal_string raw with
      | Some text => trim_space (default [] text)
      | None => raw
      end in
    match validateJSONLimits payload with
    | Err (LimitError e) => (zlen payload, [], Err (LimitError e))
    | Err _ => (zlen payload, [], Ok tt)
    | Ok _ => (zlen payload, topLevelJSONKeys payload, Ok tt)
    end.

(** ** content_blocks.go *)
Definition maxControllerBlockCount : Z := 256.
Definition maxControllerBlockName : Z := 128.

Record contentBlockItem := MkItem { stringID : bytes; objectID : bytes }.

Definition validateContentBlockID (id : bytes) : result error unit :=
  if maxControllerBlockName <? zlen id then Err "block name exceeds bytes"
  else if negb (valid_utf8 id) then Err "block name is not valid UTF-8"
  else if existsb is_control (runes id) then Err "block name contains control characters"
  else Ok tt.

(** One entry of the list: an item, an entry to skip, or an error. *)
Definition content_block_item (rawItem : bytes) : result error (option contentBlockItem) :=
  match unmarshal_string rawItem with
  | Some s =>
      let id := default [] s in
      _ ← validateContentBlockID id;
      Ok (Some (MkItem id []))
  | None =>
      match unmarshal_object rawItem with
      | Some (Some object) =>
          match member_lookup (B "id") object with
          | None => Ok None
          | Some raw =>
              match unmarshal_string raw with
              | Some (Some id) =>
                  if decide (id = []) then Ok None
                  else _ ← validateContentBlockID id; Ok (Some (MkItem [] id))
              | _ => Ok None
              end
          end
      | _ => Ok None
      end
  end.

Fixpoint content_block_items (encoded : list bytes) : result error (list contentBlockItem) :=
  match encoded with
  | [] => Ok []
  | rawItem :: rest =>
      item ← content_block_item rawItem;
      items ← content_block_items rest;
      Ok (match item with Some i => i :: items | None => items end)
  end.

Definition jsonContentBlockItems (raw : bytes) : result error (list contentBlockItem) :=
  if decide (raw = [] ∨ raw = B "null") then Ok []
  else
    match unmarshal_array raw with
    | None => Ok []
    | Some encoded =>
        let encoded := default [] encoded in
        if maxControllerBlockCount <? zlen encoded then Err "block list has too many entries"
        else content_block_items encoded
    end.

(** The loop of [jsonContentBlockStringIDs]: the order of first occurrence and
    whether the last occurrence is a string. *)
Definition string_id_step (acc : list bytes * gmap bytes bool) (item : contentBlockItem)
    : list bytes * gmap bytes bool :=
  let '(order, isString) := acc in
  let '(id, stringValue) :=
    if decide (stringID item = []) then (objectID item, false) else (stringID item, true) in
  if decide (id = []) then acc
  else
    (match isString !! id with Some _ => order | None => order ++ [id] end,
     <[id := stringValue]> isString).

Definition jsonContentBlockStringIDs (raw : bytes) : result error (list bytes) :=
  items ← jsonContentBlockItems raw;
  let '(order, isString) := fold_left string_id_step items ([], ∅) in
  Ok (filter (λ id, isString !! id = Some true) order).

Definition block_id_step (acc : list bytes * gset bytes) (item : contentBlockItem)
    : list bytes * gset bytes :=
  let '(ids, seen) := acc in
  let id := if decide (stringID item = []) then objectID item else stringID item in
  if decide (id = [] ∨ id ∈ seen) then acc else (ids ++ [id], {[id]} ∪ seen).

Definition jsonContentBlockIDs (raw : bytes) : result error (list bytes) :=
  items ← jsonContentBlockItems raw;
  Ok (fold_left block_id_step items ([], ∅)).1.

Definition jsonBool (raw : bytes) : bool :=
  match unmarshal_bool raw with Some (Some b) => b | _ => false end.

Definition isASCIISpace (c : byte) : bool :=
  bool_decide (c ∈ [x20; x09; x0a; x0b; x0c; x0d]).

Fixpoint drop_while (p : byte → bool) (s : bytes) : bytes :=
  match s with c :: t => if p c then drop_while p t else s | [] => [] end.
Fixpoint take_while (p : byte → bool) (s : bytes) : bytes :=
  match s with c :: t => if p c then c :: take_while p t else [] | [] => [] end.

(** The index loops, as the text they leave: white space, a sign, digits. *)
Definition jsonStringInt64Prefix (raw : bytes) : Z * bool :=
  match unmarshal_string raw with
  | Some (Some text) =>
      let s := drop_while isASCIISpace text in
      let '(sign, s) :=
        match s with
        | c :: t => if decide (c ∈ [x2b; x2d]) then ([c], t) else ([], s)
        | [] => ([], [])
        end in
      let digits := take_while is_digit s in
      if decide (digits = []) then (0, true)
      else (parse_int_value (parse_int (sign ++ digits)), true)
  | _ => (0, false)
  end.

(** ** blocks.go *)
Record BlockSelection := MkSelection { bs_Include : list bytes; bs_Exclude : list bytes }.
Definition block_selection (r : ControllerResponse) : BlockSelection :=
  MkSelection (r_IncludeBlocks r) (r_ExcludeBlocks r).
Definition containsBlock (values : list bytes) (name : bytes) : bool :=
  existsb (λ v, bool_decide (v = name)) values.
Definition Includes (s : BlockSelection) (name : bytes) : bool :=
  negb (bool_decide (name = [])) && containsBlock (bs_Include s) name.
Definition Excludes (s : BlockSelection) (name : bytes) : bool :=
  negb (bool_decide (name = [])) && containsBlock (bs_Exclude s) name.

(** ** safety.go *)
Definition knownControllerResponseType (v : bytes) : bool :=
  bool_decide (v ∈ [B "noop"; B "setparam"; B "setdefault"; B "reboot"; B "upgrade"; B "cmd";
                    B "geo_ip_update"]).
Definition isUnsafeControllerCommand (v : bytes) : bool :=
  bool_decide (v ∈ [B "reboot"; B "upgrade"; B "geo_ip_update"]).

(** ** response.go *)
Fixpoint member_loop (fuel : nat) (d : decoder) (raw : gmap bytes bytes)
    : result error (gmap bytes bytes * decoder) :=
  match fuel with
  | O => Err "out of fuel"
  | S f =>
      if decoder_more d then
        match decoder_token d with
        | Tok (TString key) d' =>
            match raw !! key with
            | Some _ => Err "duplicate top-level JSON key"
            | None =>
                match decode_member_value d' with
                | None => Err "decode controller response object value"
                | Some (value, d'') => member_loop f d'' (<[key := value]> raw)
                end
            end
        | Tok _ _ => Err "top-level JSON object key must be a string"
        | _ => Err "read controller response object key"
        end
      else Ok (raw, d)
  end.

Definition decodeUniqueTopLevelObject (data : bytes) : result error (option (gmap bytes bytes)) :=
  match decoder_token (new_decoder data) with
  | Tok (TDelim c) d =>
      if decide (c = x7b) then
        '(raw, d') ← member_loop (S (length data)) d ∅;
        match decoder_token d' with
        | Tok _ _ => Ok (Some raw)
        | _ => Err "read controller response object end"
        end
      else Ok None
  | Tok _ _ => Ok None
  | _ => Err "read first controller response token"
  end.

Definition member (raw : gmap bytes bytes) (k : bytes) : bytes := default [] (raw !! k).

Definition json_error_text (e : json_error) : error :=
  match e with LimitError m | InvalidJSON m => m | OutOfFuel => "out of fuel" end.

(** [_, err := ...; if err != nil { list = nil; limited = true }]. *)
Definition or_limited (r : result error (list bytes)) : list bytes * bool :=
  match r with Ok l => (l, false) | Err _ => ([], true) end.

Section response.
Context `{AddressParser}.

Definition parse_setparam (raw : gmap bytes bytes) (r : ControllerResponse)
    : result error ControllerResponse :=
  let mgmtCFG := jsonString (member raw (B "mgmt_cfg")) in
  let has_mgmt := negb (bool_decide (mgmtCFG = [])) in
  store ← (if has_mgmt then wrap_err "parse controller mgmt_cfg" (parseMgmtCFG mgmtCFG)
           else Ok no_store);
  let store := set_State StateConnected store in
  match raw !! B "system_cfg" with
  | None =>
      Ok (MkResponse (r_Type r) store true has_mgmt false 0 [] 0 [] [] [] false false false 0
            false false false [] [] false [])
  | Some systemCFG =>
      let '(n, keys, err) := summarizeSystemCFG systemCFG in
      match err with
      | Err e => wrap_err "parse controller response" (Err (json_error_text e))
      | Ok _ =>
          Ok (MkResponse (r_Type r) store true has_mgmt true n keys 0 [] [] [] false false false
                0 false false false [] [] true
                (B "system_cfg provisioning is recorded as metadata only"))
      end
  end.

Definition parse_noop (raw : gmap bytes bytes) (r : ControllerResponse) : ControllerResponse :=
  let '(time, time_set) := jsonStringInt64Prefix (member raw (B "server_time_in_utc")) in
  let '(inc, l1) := or_limited (jsonContentBlockStringIDs (member raw (B "include_blocks"))) in
  let '(exc, l2) := or_limited (jsonContentBlockStringIDs (member raw (B "exclude_blocks"))) in
  let '(udapi, l3) := or_limited (jsonContentBlockIDs (member raw (B "udapi_blocks"))) in
  MkResponse (r_Type r) (set_State StateConnected no_store) true false false 0 []
    (jsonInt (member raw (B "interval"))) inc exc udapi true (l1 || l2 || l3)
    (jsonBool (member raw (B "immediate"))) time time_set false false [] [] false [].

Definition ignored (reason : bytes) (r : ControllerResponse) : ControllerResponse :=
  MkResponse (r_Type r) no_store false false false 0 [] 0 [] [] [] false false false 0 false
    false false [] [] true reason.

Definition parse_by_type (raw : gmap bytes bytes) (t : bytes) : result error ControllerResponse :=
  let r := new_response t in
  if decide (t = B "setparam") then parse_setparam raw r
  else if decide (t = B "upgrade") then
    Ok (ignored (B "firmware upgrade request retained as status only") r)
  else if decide (t = B "noop") then Ok (parse_noop raw r)
  else if decide (t = B "setdefault") then
    Ok (MkResponse t (set_State StateFactory no_store) true false false 0 [] 0 [] [] [] false
          false false 0 false true false (B "controller setdefault command") [] false [])
  else if decide (t = B "cmd") then
    Ok (ignored (B "controller command ignored by safety policy") r)
  else if isUnsafeControllerCommand t then
    Ok (ignored (B "controller command ignored by safety policy") r)
  else Ok r.

Definition ParseControllerResponseInfo (data : bytes) : result error ControllerResponse :=
  match validateJSONLimits data with
  | Err e => wrap_err "parse controller response" (Err (json_error_text e))
  | Ok _ =>
      object ← wrap_err "parse controller response" (decodeUniqueTopLevelObject data);
      match object with
      | None => Err "parse controller response: top-level value must be an object"
      | Some raw =>
          match raw !! B "_type" with
          | None => Err "parse controller response: missing _type string"
          | Some rawType =>
              match unmarshal_string rawType with
              | Some (Some t) =>
                  if negb (knownControllerResponseType t)
                  then Err "parse controller response: unsupported _type"
                  else parse_by_type raw t
              | _ => Err "parse controller response: _type must be a string"
              end
          end
      end
  end.
End response.

(** ** The limits, against the token stream *)
Definition delta (t : token) : Z :=
  match t with
  | TDelim c => if decide (c ∈ [x7b; x5b]) then 1 else if decide (c ∈ [x7d; x5d]) then -1 else 0
  | _ => 0
  end.
(** Whether the token can complete a value. *)
Definition ends_value (t : token) : bool :=
  match t with TDelim c => bool_decide (c ∈ [x7d; x5d]) | _ => true end.

Fixpoint deepest (depth : Z) (ts : list token) : Z :=
  match ts with
  | [] => depth
  | t :: ts' => Z.max depth (deepest (depth + delta t) ts')
  end.

(** The tokens are one value: the nesting closes with the last token only. *)
Fixpoint one_value (depth : Z) (ts : list token) : Prop :=
  match ts with
  | [] => False
  | t :: ts' =>
      if ends_value t && (depth + delta t =? 0) then ts' = [] else one_value (depth + delta t) ts'
  end.

Lemma limit_loop_step f d t d' depth tokens :
  decoder_token d = Tok t d' →
  limit_loop (S f) d depth tokens false =
    if MaxControllerJSONTokens <? tokens + 1 then Err (LimitError "exceeds tokens")
    else if (0 <? delta t) && (MaxControllerJSONDepth <? depth + 1)
    then Err (LimitError "exceeds maximum depth")
    else limit_loop f d' (depth + delta t) (tokens + 1) (ends_value t && (depth + delta t =? 0)).
Proof.
  intros Ht. cbn [limit_loop]. rewrite Ht. destruct (_ <? tokens + 1); [done|].
  destruct t as [c| |]; cbn [delta ends_value].
  - case_decide as H1.
    + rewrite bool_decide_false; [done|]. set_unfold. intros Hc. naive_solver.
    + case_decide as H2.
      * rewrite bool_decide_true by done. cbn. by replace (depth - 1) with (depth + -1) by lia.
      * rewrite bool_decide_false by done. cbn. by rewrite Z.add_0_r.
  - cbn. by rewrite Z.add_0_r.
  - cbn. by rewrite Z.add_0_r.
Qed.

Lemma limit_loop_exact f d depth tokens root :
  (length (d_input d) < f)%nat → depth ≤ MaxControllerJSONDepth →
  limit_loop f d depth tokens root = Ok tt ↔
    ∃ ts, token_stream d ts ∧
      if root then ts = []
      else one_value depth ts ∧ tokens + zlen ts ≤ MaxControllerJSONTokens ∧
           deepest depth ts ≤ MaxControllerJSONDepth.
Proof.
  revert d depth tokens root. induction f as [|f IH]; intros d depth tokens root Hf Hd; [lia|].
  destruct (decoder_token d) as [| |t d'] eqn:Et.
  - cbn [limit_loop]. rewrite Et. destruct root.
    + split; [|done]. intros _. exists []. split; [by constructor|done].
    + split; [done|]. intros (ts & Hs & Ho & _). by inversion Hs; subst; [|congruence].
  - cbn [limit_loop]. rewrite Et. split; [done|]. intros (ts & Hs & _).
    inversion Hs; congruence.
  - pose proof (decoder_token_length d t d' Et) as Hl. destruct root.
    { cbn [limit_loop]. rewrite Et. split; [done|]. intros (ts & Hs & ->).
      inversion Hs. congruence. }
    rewrite (limit_loop_step f d t d' depth tokens Et). split.
    + intros Hr. destruct (_ <? tokens + 1) eqn:E1; [done|]. apply Z.ltb_ge in E1.
      destruct ((0 <? delta t) && _) eqn:E2; [done|].
      assert (depth + delta t ≤ MaxControllerJSONDepth) as Hd'.
      { unfold delta in *. destruct t; [|lia..]. repeat case_decide; cbn in E2; lia. }
      apply IH in Hr as (ts & Hs & Hr); [|lia|done]. exists (t :: ts).
      split; [by econstructor|]. cbn [one_value deepest]. rewrite zlen_cons.
      destruct (ends_value t && _); [|naive_solver lia].
      subst ts. cbn. unfold zlen. cbn. split; [done|]. lia.
    + intros (ts & Hs & Ho & Hn & Hm). inversion Hs as [|? t' d1 ts' Ht' Hs']; [congruence|].
      subst. rewrite Et in Ht'. injection Ht' as <- <-. rewrite zlen_cons in Hn.
      cbn [one_value deepest] in Ho, Hm. pose proof (zlen_nonneg ts').
      rewrite (proj2 (Z.ltb_ge _ _)) by lia.
      assert (depth + delta t ≤ MaxControllerJSONDepth) as Hd'.
      { destruct ts'; cbn [deepest] in Hm; lia. }
      replace ((0 <? delta t) && (MaxControllerJSONDepth <? depth + 1)) with false.
      2: { symmetry. apply andb_false_iff. unfold delta in *. destruct t; [|by left..].
           repeat case_decide; [right; lia|by left..]. }
      apply IH; [lia|done|]. exists ts'. split; [done|].
      destruct (ends_value t && _); [done|]. split; [done|]. lia.
Qed.

Lemma limit_loop_fuel f d depth tokens root :
  (length (d_input d) < f)%nat → limit_loop f d depth tokens root ≠ Err OutOfFuel.
Proof.
  revert d depth tokens root. induction f as [|f IH]; intros d depth tokens root Hf; [lia|].
  destruct (decoder_token d) as [| |t d'] eqn:Et.
  - cbn [limit_loop]. rewrite Et. by destruct root.
  - cbn [limit_loop]. by rewrite Et.
  - pose proof (decoder_token_length d t d' Et). destruct root.
    + cbn [limit_loop]. by rewrite Et.
    + rewrite (limit_loop_step f d t d' depth tokens Et).
      repeat case_bool; try done; apply IH; lia.
Qed.

(** C39: a response or provisioning document passes the limits exactly when it
    has at most 4 MiB and its tokens are one JSON value of at most 65536 tokens
    and 64 levels; the check always reaches its verdict. *)
Theorem validateJSONLimits_exact data :
  validateJSONLimits data ≠ Err OutOfFuel ∧
  (validateJSONLimits data = Ok tt ↔
    zlen data ≤ 4 * 1024 * 1024 ∧
    ∃ ts, token_stream (new_decoder data) ts ∧ one_value 0 ts ∧
      zlen ts ≤ 65536 ∧ deepest 0 ts ≤ 64).
Proof.
  unfold validateJSONLimits. split.
  - case_bool; [done|]. apply limit_loop_fuel. cbn. lia.
  - destruct (MaxControllerJSONBytes <? zlen data) eqn:E.
    + apply Z.ltb_lt in E. unfold MaxControllerJSONBytes in E. split; [done|]. lia.
    + apply Z.ltb_ge in E. rewrite limit_loop_exact; [|cbn; lia|done].
      split; [|naive_solver]. intros Hts. by split.
Qed.

(** ** Duplicate keys *)
Lemma member_loop_exact f d raw m d' :
  (length (d_input d) < f)%nat →
  member_loop f d raw = Ok (m, d') ↔
    ∃ l, members d l d' ∧ NoDup l.*1 ∧ (∀ k, k ∈ l.*1 → raw !! k = None) ∧
      m = list_to_map l ∪ raw.
Proof.
  revert d raw. induction f as [|f IH]; intros d raw Hf; [lia|]. cbn [member_loop].
  destruct (decoder_more d) eqn:Em.
  2: { split.
       - intros [= <- <-]. exists []. split; [by constructor|]. split; [constructor|].
         split; [set_solver|]. by rewrite list_to_map_nil, (left_id_L ∅ (∪)).
       - intros (l & Hm & _ & _ & ->). inversion Hm; [|congruence]. subst.
         by rewrite list_to_map_nil, (left_id_L ∅ (∪)). }
  destruct (decoder_token d) as [| |[c|key|lit] d1] eqn:Et;
    try (split; [done|]; intros (l & Hm & _); inversion Hm; congruence).
  pose proof (decoder_token_length _ _ _ Et) as Hl1.
  destruct (raw !! key) as [v0|] eqn:Er.
  { split; [done|]. intros (l & Hm & _ & Hk & _). inversion Hm; [congruence|]. subst.
    assert (k = key) as -> by congruence. rewrite (Hk key) in Er; [done|]. cbn. set_solver. }
  destruct (decode_member_value d1) as [[v d2]|] eqn:Ed.
  2: { split; [done|]. intros (l & Hm & _). inversion Hm; congruence. }
  pose proof (decode_member_length _ _ _ Ed) as Hl2. rewrite IH by lia. split.
  - intros (l & Hm & Hn & Hk & ->). exists ((key, v) :: l).
    assert (key ∉ l.*1) as Hkey.
    { intros Hin. apply Hk in Hin. by rewrite lookup_insert_eq in Hin. }
    split; [by econstructor|]. split; [by constructor|]. split.
    + cbn. intros k [->|Hin]%elem_of_cons; [done|]. pose proof (Hk k Hin) as Hr.
      by apply lookup_insert_None in Hr as [? _].
    + cbn. rewrite <- insert_union_l. rewrite insert_union_r; [done|].
      by apply not_elem_of_list_to_map_1.
  - intros (l & Hm & Hn & Hk & ->). inversion Hm as [|? k v' d1' d2' l' ? _ Ht Hd Hm']; [congruence|].
    subst. assert (k = key ∧ d1' = d1) as [-> ->] by (split; congruence).
    assert (v' = v ∧ d2' = d2) as [-> ->] by (split; congruence).
    cbn in Hn. apply NoDup_cons in Hn as [Hkey Hn]. exists l'. split_and!; [done..| |].
    + intros k Hin. rewrite lookup_insert_ne by set_solver. apply Hk. cbn. set_solver.
    + cbn. rewrite <- insert_union_l. rewrite insert_union_r; [done|].
      by apply not_elem_of_list_to_map_1.
Qed.

Lemma decodeUnique_exact data m :
  decodeUniqueTopLevelObject data = Ok (Some m) →
  ∃ d l d', decoder_token (new_decoder data) = Tok (TDelim x7b) d ∧
    members d l d' ∧ NoDup l.*1 ∧ m = list_to_map l.
Proof.
  unfold decodeUniqueTopLevelObject.
  destruct (decoder_token (new_decoder data)) as [| |[c| |] d] eqn:Et; try done.
  case_decide as Hc; [|done]. subst c. intros Hr.
  destruct (member_loop _ d ∅) as [[raw d']|] eqn:El; [|done].
  cbn [mbind result_bind] in Hr.
  destruct (decoder_token d') as [| |]; try done. assert (raw = m) as -> by congruence.
  pose proof (decoder_token_length _ _ _ Et) as Hl. cbn in Hl.
  apply member_loop_exact in El as (l & Hm & Hn & _ & Hraw); [|cbn; lia].
  exists d, l, d'. split_and!; [done..|]. rewrite Hraw. apply (right_id_L ∅ (∪)).
Qed.

(** ** Block lists *)
Definition item_id (i : contentBlockItem) : bytes :=
  if decide (stringID i = []) then objectID i else stringID i.
Definition item_is_string (i : contentBlockItem) : bool := negb (bool_decide (stringID i = [])).

(** The kind of the last entry that names [id]. *)
Definition last_kind (id : bytes) (items : list contentBlockItem) : option bool :=
  fold_left (λ acc i, if decide (item_id i = id) then Some (item_is_string i) else acc) items None.

Definition id_ok (id : bytes) : Prop :=
  id ≠ [] ∧ zlen id ≤ 128 ∧ valid_utf8 id = true ∧ existsb is_control (runes id) = false.

Lemma validateContentBlockID_ok id :
  validateContentBlockID id = Ok tt → id ≠ [] → id_ok id.
Proof.
  unfold validateContentBlockID. intros Hv Hne. inv_ok. bool_to_prop.
  apply Z.ltb_ge in E. by split_and!.
Qed.

Lemma content_block_item_ok raw i :
  content_block_item raw = Ok (Some i) → item_id i = [] ∨ id_ok (item_id i).
Proof.
  unfold content_block_item, item_id. intros Hi.
  destruct (unmarshal_string raw) as [s|].
  - destruct (validateContentBlockID _) as [[]|] eqn:Ev; [|done]. injection Hi as <-. cbn.
    case_decide; [by left|]. right. by apply validateContentBlockID_ok.
  - destruct (unmarshal_object raw) as [[o|]|]; try done.
    destruct (member_lookup _ o); [|done].
    destruct (unmarshal_string _) as [[id|]|]; try done. case_decide; [done|].
    destruct (validateContentBlockID id) as [[]|] eqn:Ev; [|done]. injection Hi as <-. cbn.
    right. by apply validateContentBlockID_ok.
Qed.

Lemma content_block_items_ok encoded items :
  content_block_items encoded = Ok items →
  (length items ≤ length encoded)%nat ∧ Forall (λ i, item_id i = [] ∨ id_ok (item_id i)) items.
Proof.
  revert items. induction encoded as [|raw rest IH]; intros items; cbn [content_block_items].
  - intros [= <-]. split; [done|constructor].
  - destruct (content_block_item raw) as [item|] eqn:Ei; [|done].
    destruct (content_block_items rest) as [items'|]; [|done].
    destruct (IH items' eq_refl) as [Hl Hf]. cbn [mbind result_bind]. intros [= <-].
    destruct item as [i|]; cbn; [|split; [lia|done]].
    split; [lia|]. constructor; [|done]. by eapply content_block_item_ok.
Qed.

Lemma block_items_ok raw items :
  jsonContentBlockItems raw = Ok items →
  zlen items ≤ 256 ∧ Forall (λ i, item_id i = [] ∨ id_ok (item_id i)) items.
Proof.
  unfold jsonContentBlockItems. intros Hi. case_decide.
  { injection Hi as <-. split; [done|constructor]. }
  destruct (unmarshal_array raw) as [o|]; [|injection Hi as <-; split; [done|constructor]].
  inv_ok. apply Z.ltb_ge in E. unfold maxControllerBlockCount, zlen in *.
  destruct (content_block_items_ok _ _ Hi). split; [lia|done].
Qed.

(** What the loop of [jsonContentBlockStringIDs] maintains. *)
Record order_ok (items : list contentBlockItem) (acc : list bytes * gmap bytes bool) : Prop := {
  oo_kind : ∀ id, id ≠ [] → acc.2 !! id = last_kind id items;
  oo_order : ∀ id, id ∈ acc.1 ↔ is_Some (acc.2 !! id);
  oo_nodup : NoDup acc.1;
  oo_from : ∀ id, id ∈ acc.1 → id ≠ [] ∧ id ∈ map item_id items;
}.

Lemma last_kind_snoc id items i :
  last_kind id (items ++ [i]) =
    if decide (item_id i = id) then Some (item_is_string i) else last_kind id items.
Proof. unfold last_kind. by rewrite fold_left_app. Qed.

Lemma string_id_step_eq acc i :
  string_id_step acc i =
    if decide (item_id i = []) then acc
    else (match acc.2 !! item_id i with Some _ => acc.1 | None => acc.1 ++ [item_id i] end,
          <[item_id i := item_is_string i]> acc.2).
Proof.
  destruct acc as [order m]. unfold string_id_step, item_id, item_is_string.
  destruct (decide (stringID i = [])) as [E|E].
  - by rewrite bool_decide_true.
  - by rewrite bool_decide_false.
Qed.

Lemma string_ids_ok items : order_ok items (fold_left string_id_step items ([], ∅)).
Proof.
  induction items as [|i items IH] using rev_ind.
  { split; cbn; [by intros id _; rewrite lookup_empty| |constructor|set_solver].
    intros id. rewrite lookup_empty. split; [set_solver|by intros []]. }
  rewrite fold_left_app. cbn [fold_left]. rewrite string_id_step_eq.
  destruct (fold_left _ items _) as [order m]. destruct IH as [H1 H2 H3 H4]. cbn in *.
  destruct (decide (item_id i = [])) as [E|E].
  - split; cbn; [|done|done|].
    + intros id Hid. rewrite last_kind_snoc, decide_False; [auto|congruence].
    + intros id Hid. rewrite map_app. split; [by apply H4|]. apply elem_of_app. left. by apply H4.
  - split; cbn.
    + intros id Hid. rewrite last_kind_snoc. case_decide as Hd.
      * subst id. apply lookup_insert_eq.
      * rewrite lookup_insert_ne by done. auto.
    + intros id. rewrite lookup_insert_is_Some'. destruct (m !! item_id i) eqn:Em.
      * rewrite H2. split; [by right|]. intros [<-|]; [|done]. by rewrite Em.
      * rewrite elem_of_app, H2, list_elem_of_singleton. naive_solver.
    + destruct (m !! item_id i) eqn:Em; [done|]. apply NoDup_app. split_and!; [done| |apply NoDup_singleton].
      intros id Hid ->%list_elem_of_singleton. apply H2 in Hid. rewrite Em in Hid. by destruct Hid.
    + intros id Hid. rewrite map_app, elem_of_app. cbn.
      destruct (m !! item_id i); [by destruct (H4 id Hid); auto|].
      apply elem_of_app in Hid as [Hid| ->%list_elem_of_singleton].
      * destruct (H4 id Hid); auto.
      * split; [done|right; set_solver].
Qed.

Lemma from_items_bound items l :
  zlen items ≤ 256 → Forall (λ i, item_id i = [] ∨ id_ok (item_id i)) items →
  NoDup l → (∀ id, id ∈ l → id ≠ [] ∧ id ∈ map item_id items) →
  zlen l ≤ 256 ∧ Forall id_ok l.
Proof.
  intros Hn Hf Hd Hl. split.
  - assert (length l ≤ length (map item_id items))%nat as Hle.
    { apply submseteq_length, NoDup_submseteq; [done|]. intros id Hid. by apply Hl. }
    rewrite length_map in Hle. unfold zlen in *. lia.
  - apply Forall_forall. intros id Hid. destruct (Hl id Hid) as [Hne Hin].
    apply list_elem_of_In, in_map_iff in Hin as (i & <- & Hi).
    rewrite Forall_forall in Hf. apply list_elem_of_In in Hi. by destruct (Hf i Hi).
Qed.

(** The include and exclude lists hold exactly the identifiers whose last
    entry is a string, each once; they have at most 256 identifiers of at most
    128 bytes of valid text without control characters. *)
Theorem jsonContentBlockStringIDs_exact raw l :
  jsonContentBlockStringIDs raw = Ok l →
  NoDup l ∧ zlen l ≤ 256 ∧ Forall id_ok l ∧
  ∃ items, jsonContentBlockItems raw = Ok items ∧
    ∀ id, id ∈ l ↔ id ≠ [] ∧ last_kind id items = Some true.
Proof.
  unfold jsonContentBlockStringIDs. intros Hl.
  destruct (jsonContentBlockItems raw) as [items|] eqn:Ei; [|done]. cbn [mbind result_bind] in Hl.
  destruct (block_items_ok _ _ Ei) as [Hn Hf].
  pose proof (string_ids_ok items) as [H1 H2 H3 H4].
  destruct (fold_left _ items _) as [order m]. cbn in *. injection Hl as <-.
  assert (NoDup (filter (λ id, m !! id = Some true) order)) as Hnd by (by apply NoDup_filter).
  split; [done|]. destruct (from_items_bound items _ Hn Hf Hnd).
  { intros id Hid. apply list_elem_of_filter in Hid as [_ Hid]. auto. }
  split; [done|]. split; [done|]. exists items. split; [done|].
  intros id. rewrite list_elem_of_filter, H2. split.
  - intros [Hm Hs]. assert (id ≠ []) by (apply H4, H2, Hs). split; [done|]. by rewrite <- H1.
  - intros [Hne Hk]. rewrite <- H1 in Hk by done. rewrite Hk. split; [done|by eexists].
Qed.

Lemma block_ids_ok items :
  let acc := fold_left block_id_step items ([], ∅) in
  NoDup acc.1 ∧ (∀ id, id ∈ acc.1 ↔ id ∈ acc.2) ∧
  (∀ id, id ∈ acc.1 ↔ id ≠ [] ∧ id ∈ map item_id items).
Proof.
  induction items as [|i items IH] using rev_ind; cbn zeta in *.
  { cbn. split_and!; [constructor|set_solver|]. intros id. split; [set_solver|].
    intros [_ Hin]. by apply not_elem_of_nil in Hin. }
  rewrite fold_left_app. cbn [fold_left]. destruct (fold_left _ items _) as [ids seen].
  destruct IH as (H1 & H2 & H3). unfold block_id_step. cbn [fst snd] in *.
  fold (item_id i). case_decide as Hc; cbn [fst snd].
  - split_and!; [done..|]. intros id. rewrite map_app, elem_of_app, H3. cbn.
    rewrite list_elem_of_singleton. destruct Hc as [Hc|Hc]; [naive_solver|].
    apply H2, H3 in Hc. naive_solver.
  - apply Decidable.not_or in Hc as [Hn Hs]. split_and!.
    + apply NoDup_app. split_and!; [done| |apply NoDup_singleton].
      intros id Hid ->%list_elem_of_singleton. by apply Hs, H2.
    + intros id. rewrite elem_of_app, list_elem_of_singleton, H2, elem_of_union, elem_of_singleton.
      naive_solver.
    + intros id. rewrite map_app, !elem_of_app, H3. cbn. rewrite !list_elem_of_singleton.
      naive_solver.
Qed.

Lemma jsonContentBlockIDs_ok raw l :
  jsonContentBlockIDs raw = Ok l → NoDup l ∧ zlen l ≤ 256 ∧ Forall id_ok l.
Proof.
  unfold jsonContentBlockIDs. intros Hl.
  destruct (jsonContentBlockItems raw) as [items|] eqn:Ei; [|done]. cbn [mbind result_bind] in Hl.
  destruct (block_items_ok _ _ Ei) as [Hn Hf]. injection Hl as <-.
  destruct (block_ids_ok items) as (H1 & _ & H3). split; [done|].
  apply (from_items_bound items); try done. intros id. apply H3.
Qed.

Lemma string_ids_bound raw l :
  jsonContentBlockStringIDs raw = Ok l → NoDup l ∧ zlen l ≤ 256 ∧ Forall id_ok l.
Proof.
  unfold jsonContentBlockStringIDs. intros Hl.
  destruct (jsonContentBlockItems raw) as [items|] eqn:Ei; [|done]. cbn [mbind result_bind] in Hl.
  destruct (block_items_ok _ _ Ei) as [Hn Hf].
  pose proof (string_ids_ok items) as [_ _ H3 H4].
  destruct (fold_left _ items _) as [order m]. cbn in *. injection Hl as <-.
  assert (NoDup (filter (λ id, m !! id = Some true) order)) as Hnd by (by apply NoDup_filter).
  split; [done|]. apply (from_items_bound items); try done.
  intros id Hid. apply list_elem_of_filter in Hid as [_ Hid]. auto.
Qed.

(** ** The controller's clock *)
Lemma drop_while_spec p s :
  ∃ ws, s = ws ++ drop_while p s ∧ forallb p ws = true ∧
    match drop_while p s with [] => True | c :: _ => p c = false end.
Proof.
  induction s as [|c s (ws & H1 & H2 & H3)]; cbn; [by exists []|].
  destruct (p c) eqn:E; [|by exists []]. exists (c :: ws). cbn. rewrite E. split_and!; [|done..].
  by f_equal.
Qed.

Lemma take_while_spec p s :
  ∃ rest, s = take_while p s ++ rest ∧ forallb p (take_while p s) = true ∧
    match rest with [] => True | c :: _ => p c = false end.
Proof.
  induction s as [|c s (rest & H1 & H2 & H3)]; cbn; [by exists []|].
  destruct (p c) eqn:E; [|by exists (c :: s)]. exists rest. cbn. rewrite E. split_and!; [|done..].
  by f_equal.
Qed.

Definition saturate (z : Z) : Z := Z.max int64_min (Z.min int64_max z).

Lemma clamp64_value z : parse_int_value (clamp64 z) = saturate z.
Proof.
  unfold clamp64, saturate, int64_min, int64_max. repeat case_bool; cbn [parse_int_value]; lia.
Qed.

Lemma parse_int_signed sign digits :
  (sign = [] ∨ sign = [x2b] ∨ sign = [x2d]) → digits ≠ [] → forallb is_digit digits = true →
  parse_int_value (parse_int (sign ++ digits)) =
    saturate (if bool_decide (sign = [x2d]) then - digits_val digits else digits_val digits).
Proof.
  intros Hs Hd Hf. destruct digits as [|d t]; [done|]. rewrite <- clamp64_value. f_equal.
  destruct Hs as [-> | [-> | ->]]; unfold parse_int; cbn [app].
  - assert (d ≠ x2d ∧ d ≠ x2b) as [H1 H2].
    { cbn in Hf. apply andb_prop in Hf as [Hf _]. split; intros ->; done. }
    rewrite !decide_False by done. by rewrite Hf.
  - rewrite decide_False by done. rewrite decide_True by done. by rewrite Hf.
  - rewrite decide_True by done. by rewrite Hf.
Qed.

(** The server time is the integer prefix of a JSON string the way
    [strtoll] reads it: white space, an optional sign, and the digits, zero
    without any, saturated to 64 bits. *)
Theorem jsonStringInt64Prefix_strtoll raw text :
  unmarshal_string raw = Some (Some text) →
  ∃ ws sign digits rest,
    text = ws ++ sign ++ digits ++ rest ∧ forallb isASCIISpace ws = true ∧
    (sign = [] ∨ sign = [x2b] ∨ sign = [x2d]) ∧ forallb is_digit digits = true ∧
    match rest with [] => True | c :: _ => is_digit c = false end ∧
    jsonStringInt64Prefix raw =
      (saturate (if bool_decide (sign = [x2d]) then - digits_val digits else digits_val digits), true).
Proof.
  intros Hu. unfold jsonStringInt64Prefix. rewrite Hu.
  destruct (drop_while_spec isASCIISpace text) as (ws & Ht & Hws & _).
  set (s := drop_while isASCIISpace text) in *. clearbody s.
  assert (∃ sign s', s = sign ++ s' ∧ (sign = [] ∨ sign = [x2b] ∨ sign = [x2d]) ∧
    match s with
    | c :: t => if decide (c ∈ [x2b; x2d]) then ([c], t) else ([], s)
    | [] => ([], [])
    end = (sign, s')) as (sign & s' & Hs & Hsign & ->).
  { destruct s as [|c t]; [by exists [], []; auto|]. case_decide as Hc.
    - exists [c], t. split_and!; [done| |done]. set_unfold in Hc. naive_solver.
    - exists [], (c :: t). auto. }
  destruct (take_while_spec is_digit s') as (rest & Hr & Hd & Hrest).
  exists ws, sign, (take_while is_digit s'), rest.
  split_and!; try done; [by rewrite Ht, Hs, <- Hr|].
  case_decide as Hn.
  - rewrite Hn. by destruct (bool_decide _).
  - by rewrite parse_int_signed.
Qed.

(** ** The sanitizer as a whole *)
Section sanitizer.
Context `{AddressParser}.

Lemma parse_response_cases data r :
  ParseControllerResponseInfo data = Ok r →
  ∃ raw rawType t,
    validateJSONLimits data = Ok tt ∧ decodeUniqueTopLevelObject data = Ok (Some raw) ∧
    raw !! B "_type" = Some rawType ∧ unmarshal_string rawType = Some (Some t) ∧
    knownControllerResponseType t = true ∧ parse_by_type raw t = Ok r.
Proof.
  unfold ParseControllerResponseInfo. intros Hp.
  destruct (validateJSONLimits data) as [[]|e]; [|by inv_ok].
  destruct (decodeUniqueTopLevelObject data) as [[raw|]|]; try done. cbn [mbind result_bind wrap_err] in Hp.
  destruct (raw !! B "_type") as [rawType|] eqn:Er; [|done].
  destruct (unmarshal_string rawType) as [[t|]|] eqn:Eu; try done.
  destruct (knownControllerResponseType t) eqn:Ek; [|done].
  by exists raw, rawType, t.
Qed.

Lemma topLevelJSONKeys_subset data : topLevelJSONKeys data ⊆ [B "ubntconf"; B "udapi"].
Proof.
  unfold topLevelJSONKeys. destruct (unmarshal_object data) as [o|]; [|apply list_subseteq_nil].
  intros k Hk. by apply list_elem_of_filter in Hk as [_ Hk].
Qed.

Lemma summarize_keys raw : (summarizeSystemCFG raw).1.2 ⊆ [B "ubntconf"; B "udapi"].
Proof.
  unfold summarizeSystemCFG. case_decide; [apply list_subseteq_nil|].
  set (payload := match unmarshal_string _ with Some _ => _ | None => _ end). clearbody payload.
  destruct (validateJSONLimits payload) as [|[]]; cbn;
    try apply list_subseteq_nil. apply topLevelJSONKeys_subset.
Qed.

Lemma parse_setparam_store raw t r :
  parse_setparam raw (new_response t) = Ok r →
  r_Type r = t ∧ r_HasStateUpdate r = true ∧ r_ResetRequested r = false ∧
  r_SystemCFGKeys r ⊆ [B "ubntconf"; B "udapi"] ∧
  ∃ u, r_Store r = set_State StateConnected u ∧
    (u = no_store ∨ ∃ m, parseMgmtCFG m = Ok u).
Proof.
  unfold parse_setparam. intros Hp.
  set (mgmt := jsonString _) in *. clearbody mgmt.
  assert (∃ u, (if negb (bool_decide (mgmt = []))
                then wrap_err "parse controller mgmt_cfg" (parseMgmtCFG mgmt) else Ok no_store) = Ok u ∧
               (u = no_store ∨ ∃ m, parseMgmtCFG m = Ok u)) as (u & Hu & Hor).
  { destruct (negb _); [|exists no_store; auto].
    destruct (parseMgmtCFG mgmt) as [u|] eqn:E; [|done]. exists u. split; [done|right; eauto]. }
  rewrite Hu in Hp. cbn [mbind result_bind] in Hp.
  destruct (raw !! B "system_cfg") as [systemCFG|].
  - pose proof (summarize_keys systemCFG) as Hk.
    destruct (summarizeSystemCFG systemCFG) as [[n keys] [|e]]; [|by inv_ok].
    injection Hp as <-. split_and!; try done. by exists u.
  - injection Hp as <-. split_and!; try done; [apply list_subseteq_nil|]. by exists u.
Qed.
End sanitizer.

Lemma parse_by_type_noop `{AddressParser} raw r :
  parse_by_type raw (B "noop") = Ok r → r = parse_noop raw (new_response (B "noop")).
Proof.
  change (parse_by_type raw (B "noop")) with
    (Ok (parse_noop raw (new_response (B "noop"))) : result error ControllerResponse).
  congruence.
Qed.

(** The responses other than [setparam] and [noop] are constants. *)
Lemma parse_other `{AddressParser} raw t r :
  t ≠ B "setparam" → t ≠ B "noop" → knownControllerResponseType t = true →
  parse_by_type raw t = Ok r →
  r_Type r = t ∧ r_SystemCFGKeys r = [] ∧
  if bool_decide (t = B "setdefault")
  then r_Store r = set_State StateFactory no_store ∧ r_HasStateUpdate r = true ∧
       r_ResetRequested r = true
  else r_Store r = no_store ∧ r_HasStateUpdate r = false ∧ r_Ignored r = true ∧
       r_ResetRequested r = false.
Proof.
  intros N1 N2 Hk Hp. unfold knownControllerResponseType in Hk. bool_to_prop.
  set_unfold in Hk. destruct_or! Hk; subst t; try done; injection Hp as <-; by split_and!.
Qed.

(** A response that asks for a reset carries nothing else. *)
Definition reset_response : ControllerResponse :=
  MkResponse (B "setdefault") (set_State StateFactory no_store) true false false 0 [] 0 [] [] [] false
    false false 0 false true false (B "controller setdefault command") [] false [].
Lemma parsed_reset `{AddressParser} data r :
  ParseControllerResponseInfo data = Ok r → r_ResetRequested r = true → r = reset_response.
Proof.
  intros (raw & _ & t & _ & _ & _ & _ & Hk & Hp)%parse_response_cases Hr.
  destruct (decide (t = B "setparam")) as [->|N1].
  { apply parse_setparam_store in Hp as (_ & _ & H3 & _). congruence. }
  destruct (decide (t = B "noop")) as [->|N2].
  { apply parse_by_type_noop in Hp as ->. unfold parse_noop in Hr. destruct (jsonStringInt64Prefix _).
    by do 3 destruct (or_limited _). }
  destruct (parse_other raw t r N1 N2 Hk Hp) as (_ & _ & H3).
  destruct (bool_decide (t = B "setdefault")) eqn:Hd; bool_to_prop; [|by destruct H3 as (_ & _ & _ & ?); congruence].
  subst t. change (parse_by_type raw (B "setdefault")) with (Ok reset_response : result error ControllerResponse) in Hp.
  congruence.
Qed.

(** C3: the safety boundary.  Only [setparam], [noop] and [setdefault]
    responses carry a state update, only [setdefault] asks for a reset, and
    every other accepted type is ignored and carries nothing.  A [noop] reports
    connected without identity data; a [setparam] carries connected and
    allowlisted [mgmt_cfg] data only, never a version; and of a provisioning
    document at most two fixed key names are kept. *)
Theorem response_safety `{AddressParser} data r :
  ParseControllerResponseInfo data = Ok r →
  knownControllerResponseType (r_Type r) = true ∧
  r_HasStateUpdate r = bool_decide (r_Type r ∈ [B "setparam"; B "noop"; B "setdefault"]) ∧
  r_ResetRequested r = bool_decide (r_Type r = B "setdefault") ∧
  (r_HasStateUpdate r = false → r_Store r = no_store ∧ r_Ignored r = true) ∧
  (r_Type r = B "noop" → r_Store r = set_State StateConnected no_store) ∧
  (r_Type r = B "setdefault" → r_Store r = set_State StateFactory no_store) ∧
  (r_Type r = B "setparam" → ∃ u, r_Store r = set_State StateConnected u ∧
     (u = no_store ∨ ∃ m, parseMgmtCFG m = Ok u)) ∧
  r_SystemCFGKeys r ⊆ [B "ubntconf"; B "udapi"].
Proof.
  intros (raw & _ & t & _ & _ & _ & _ & Hk & Hp)%parse_response_cases.
  destruct (decide (t = B "setparam")) as [->|N1].
  { apply parse_setparam_store in Hp as (H1 & H2 & H3 & H4 & H5). rewrite H1, H2, H3.
    split_and!; first [done|discriminate]. }
  destruct (decide (t = B "noop")) as [->|N2].
  { apply parse_by_type_noop in Hp as ->.
    unfold parse_noop. destruct (jsonStringInt64Prefix _). do 3 destruct (or_limited _).
    split_and!; cbn; first [done|discriminate|apply list_subseteq_nil]. }
  destruct (parse_other raw t r N1 N2 Hk Hp) as (H1 & H2 & H3). rewrite H1, H2.
  destruct (bool_decide (t = B "setdefault")) eqn:Hd; bool_to_prop.
  - rewrite Hd. destruct H3 as (-> & -> & ->).
    split_and!; first [done|discriminate|apply list_subseteq_nil].
  - destruct H3 as (-> & -> & -> & ->). rewrite bool_decide_false by set_solver.
    split_and!; first [done|apply list_subseteq_nil|naive_solver].
Qed.

(** An accepted response was read from an object whose keys are all
    different, and its type is the one string under [_type]. *)
Theorem response_unique_keys `{AddressParser} data r :
  ParseControllerResponseInfo data = Ok r →
  ∃ d l d' rawType,
    decoder_token (new_decoder data) = Tok (TDelim x7b) d ∧ members d l d' ∧ NoDup l.*1 ∧
    (B "_type", rawType) ∈ l ∧ unmarshal_string rawType = Some (Some (r_Type r)).
Proof.
  intros (raw & rawType & t & _ & Hd & Hr & Hu & Hk & Hp)%parse_response_cases.
  destruct (decodeUnique_exact _ _ Hd) as (d & l & d' & Ht & Hm & Hn & ->).
  exists d, l, d', rawType. split_and!; try done; [by apply elem_of_list_to_map_2|].
  assert (r_Type r = t) as ->; [|done].
  destruct (decide (t = B "setparam")) as [->|N1].
  { by apply parse_setparam_store in Hp as (? & _). }
  destruct (decide (t = B "noop")) as [->|N2]; [|by eapply parse_other].
  apply parse_by_type_noop in Hp as ->.
  unfold parse_noop. destruct (jsonStringInt64Prefix _). by do 3 destruct (or_limited _).
Qed.

Lemma parse_no_blocks `{AddressParser} raw t r :
  t ≠ B "noop" → parse_by_type raw t = Ok r →
  r_IncludeBlocks r = [] ∧ r_ExcludeBlocks r = [] ∧ r_UDAPIBlocks r = [].
Proof.
  unfold parse_by_type, parse_setparam. intros N Hp.
  destruct (decide (t = B "setparam")).
  - destruct (if negb _ then _ else _) as [u|]; [|done]. cbn [mbind result_bind] in Hp.
    destruct (raw !! B "system_cfg") as [cfg|]; [|by injection Hp as <-].
    destruct (summarizeSystemCFG cfg) as [[n keys] [|]]; [|done]. by injection Hp as <-.
  - rewrite (decide_False (P := t = B "noop")) in Hp by done.
    repeat (case_decide || case_bool); by injection Hp as <-.
Qed.

Lemma or_limited_bound r :
  (∀ l, r = Ok l → NoDup l ∧ zlen l ≤ 256 ∧ Forall id_ok l) →
  NoDup (or_limited r).1 ∧ zlen (or_limited r).1 ≤ 256 ∧ Forall id_ok (or_limited r).1.
Proof.
  intros Hr. destruct r as [l|e]; cbn; [by apply Hr|]. split_and!; [constructor|done|constructor].
Qed.

(** Every block list of an accepted response is bounded: distinct
    identifiers, at most 256, each of at most 128 bytes of valid text without
    control characters. *)
Theorem response_blocks_bounded `{AddressParser} data r l :
  ParseControllerResponseInfo data = Ok r →
  l ∈ [r_IncludeBlocks r; r_ExcludeBlocks r; r_UDAPIBlocks r] →
  NoDup l ∧ zlen l ≤ 256 ∧ Forall id_ok l.
Proof.
  intros (raw & _ & t & _ & _ & _ & _ & Hk & Hp)%parse_response_cases.
  assert (NoDup (@nil bytes) ∧ zlen (@nil bytes) ≤ 256 ∧ Forall id_ok []) as Hnil
    by (split_and!; [constructor|done|constructor]).
  destruct (decide (t = B "noop")) as [->|N].
  - apply parse_by_type_noop in Hp as ->.
    unfold parse_noop. destruct (jsonStringInt64Prefix _).
    pose proof (or_limited_bound _ (string_ids_bound (member raw (B "include_blocks")))) as H1.
    pose proof (or_limited_bound _ (string_ids_bound (member raw (B "exclude_blocks")))) as H2.
    pose proof (or_limited_bound _ (jsonContentBlockIDs_ok (member raw (B "udapi_blocks")))) as H3.
    do 3 destruct (or_limited _). cbn in *. rewrite !elem_of_cons, elem_of_nil. naive_solver.
  - assert (r_IncludeBlocks r = [] ∧ r_ExcludeBlocks r = [] ∧ r_UDAPIBlocks r = []) as (-> & -> & ->).
    { by eapply parse_no_blocks. }
    rewrite !elem_of_cons, elem_of_nil. naive_solver.
Qed.

(** ** Witnesses *)
#[local] Existing Instance no_ipv6.

Definition noop_text : bytes :=
  J "{'_type':'noop','interval':10,'server_time_in_utc':' -99999999999999999999x','include_blocks':['a',{'id':'b'},'a','b',{'id':'a'},7],'immediate':true}".
Definition setparam_text : bytes :=
  J "{'_type':'setparam','mgmt_cfg':'cfgversion=0123\nauthkey=00112233445566778899aabbccddeeff\n','system_cfg':'{\u0022udapi\u0022:{},\u0022x\u0022:1}'}".

Example noop_parsed :
  (λ r, (r_IntervalSeconds r, r_Immediate r, r_ServerTimeUTC r, r_IncludeBlocks r))
    <$> ParseControllerResponseInfo noop_text = Ok (10, true, int64_min, [B "b"]).
Proof. vm_compute. reflexivity. Qed.

Example duplicate_rejected :
  ParseControllerResponseInfo (J "{'_type':'noop','_type':'setdefault'}") =
    Err "parse controller response: duplicate top-level JSON key"%stdpp.
Proof. vm_compute. reflexivity. Qed.

(** The response a text parses to, for the witnesses. *)
Definition parsed (data : bytes) : ControllerResponse :=
  match ParseControllerResponseInfo data with Ok r => r | Err _ => new_response [] end.

Lemma noop_ok : ParseControllerResponseInfo noop_text = Ok (parsed noop_text).
Proof. vm_compute. reflexivity. Qed.
Lemma setparam_ok : ParseControllerResponseInfo setparam_text = Ok (parsed setparam_text).
Proof. vm_compute. reflexivity. Qed.

Lemma response_safety_witness :
  r_SystemCFGKeys (parsed setparam_text) = [B "udapi"] ∧
  r_HasStateUpdate (parsed setparam_text) = true ∧
  ∃ u, r_Store (parsed setparam_text) = set_State StateConnected u ∧
    (u = no_store ∨ ∃ m, parseMgmtCFG m = Ok u).
Proof.
  destruct (response_safety setparam_text (parsed setparam_text) setparam_ok)
    as (_ & H2 & _ & _ & _ & _ & H7 & _).
  split; [vm_compute; reflexivity|]. split; [rewrite H2; vm_compute; reflexivity|].
  apply H7. vm_compute. reflexivity.
Defined.

Lemma response_unique_keys_witness :
  ∃ d l d' rawType,
    decoder_token (new_decoder noop_text) = Tok (TDelim x7b) d ∧ members d l d' ∧ NoDup l.*1 ∧
    (B "_type", rawType) ∈ l ∧ unmarshal_string rawType = Some (Some (r_Type (parsed noop_text))).
Proof. exact (response_unique_keys noop_text (parsed noop_text) noop_ok). Defined.

Lemma response_blocks_bounded_witness :
  r_IncludeBlocks (parsed noop_text) = [B "b"] ∧
  NoDup (r_IncludeBlocks (parsed noop_text)) ∧ zlen (r_IncludeBlocks (parsed noop_text)) ≤ 256 ∧
  Forall id_ok (r_IncludeBlocks (parsed noop_text)).
Proof.
  split; [vm_compute; reflexivity|].
  apply (response_blocks_bounded noop_text (parsed noop_text) _ noop_ok), list_elem_of_here.
Defined.

Lemma jsonContentBlockStringIDs_exact_witness :
  ∃ items, jsonContentBlockItems (J "['a',{'id':'a'},'b']") = Ok items ∧
    ∀ id, id ∈ [B "b"] ↔ id ≠ [] ∧ last_kind id items = Some true.
Proof.
  assert (jsonContentBlockStringIDs (J "['a',{'id':'a'},'b']") = Ok [B "b"]) as E
    by (vm_compute; reflexivity).
  exact (proj2 (proj2 (proj2 (jsonContentBlockStringIDs_exact _ _ E)))).
Defined.

Lemma jsonStringInt64Prefix_strtoll_witness :
  ∃ ws sign digits rest,
    B " +1234abc" = ws ++ sign ++ digits ++ rest ∧
    jsonStringInt64Prefix (J "' +1234abc'") =
      (saturate (if bool_decide (sign = [x2d]) then - digits_val digits else digits_val digits), true).
Proof.
  assert (unmarshal_string (J "' +1234abc'") = Some (Some (B " +1234abc"))) as E
    by (vm_compute; reflexivity).
  destruct (jsonStringInt64Prefix_strtoll _ _ E) as (ws & sign & ds & rest & H1 & _ & _ & _ & _ & H2).
  exists ws, sign, ds, rest. split; [exact H1|exact H2].
Defined.
