(* ===== verification/Discovery.v ===== *)
(** Layer 3 discovery: the TLV announcement and its delivery,
    [src/internal/discovery/tlv.go].

    The host's interfaces, name resolution and sockets are parameters of
    [SendToInterface]. *)
From S2P Require Import Prelude GoStrings GoNet.

Definition BroadcastAddress : bytes := B "255.255.255.255:10001".
Definition MulticastAddress : bytes := B "233.89.188.1:10001".
Definition packetVersion : byte := x02.
Definition packetType : byte := x06.

Record Announcement := MkAnnouncement {
  a_MAC : bytes;
  a_IP : bytes;
  a_Model : bytes;
  a_Version : bytes;
  a_Hostname : bytes;
  a_Default : bool;
  a_Uptime : Z;      (* uint32 *)
  a_Sequence : Z;    (* uint32 *)
}.

(** [writeTLV]: the length is converted to 16 bits. *)
Definition writeTLV (typ : byte) (value : bytes) : bytes := typ :: be16 (zlen value) ++ value.

Definition uint32Bytes (v : Z) : bytes := be32 v.

Fixpoint serialFromMAC (mac : bytes) : bytes :=
  match mac with
  | [] => []
  | b :: t => hex_digit_upper (Z.shiftr (b2z b) 4) :: hex_digit_upper (Z.land (b2z b) 15)
              :: serialFromMAC t
  end.

(** The records of an announcement, in the order they are written. *)
Definition records (a : Announcement) (ip : bytes) : list (byte * bytes) :=
  [(x02, a_MAC a ++ ip); (x01, a_MAC a); (x0a, uint32Bytes (a_Uptime a))]
  ++ (if decide (a_Hostname a = []) then [] else [(x0b, a_Hostname a)])
  ++ [(x16, a_Version a); (x15, a_Model a); (x13, serialFromMAC (a_MAC a));
      (x12, uint32Bytes (a_Sequence a)); (x17, [if a_Default a then x01 else x00])].

Definition MarshalBinary (a : Announcement) : result error bytes :=
  if negb (zlen (a_MAC a) =? 6) then Err "MAC must be 6 bytes"
  else
    match ip_to4 (a_IP a) with
    | None => Err "IP must be IPv4"
    | Some ip =>
        let payload := concat (map (λ r, writeTLV r.1 r.2) (records a ip)) in
        if 0xffff <? zlen payload then Err "discovery payload too large"
        else Ok (packetVersion :: packetType :: be16 (zlen payload) ++ payload)
    end.

Definition DefaultTargets : list bytes := [BroadcastAddress; MulticastAddress].

Definition cleanTargets (targets : list bytes) : list bytes :=
  filter (λ t, t ≠ []) (map trim_space targets).

(** ** Delivery *)
Class Network (Addr : Type) := {
  interface_addrs : bytes → result error (list (option bytes));
    (* the addresses of the named interface; [None] for one that is no network *)
  listen_packet : bytes → result error unit;
  resolve_udp : bytes → result error Addr;
  write_to : bytes → Addr → result error unit;
  ip_string : bytes → bytes;
}.

Section delivery.
Context {Addr : Type} `{Network Addr}.

Fixpoint first_ipv4 (addrs : list (option bytes)) : option bytes :=
  match addrs with
  | [] => None
  | Some ip :: rest => match ip_to4 ip with Some ip4 => Some ip4 | None => first_ipv4 rest end
  | None :: rest => first_ipv4 rest
  end.

Definition interfaceIPv4 (name : bytes) : result error bytes :=
  if contains (B "/") name then Err "invalid discovery interface"
  else
    addrs ← wrap_err "find discovery interface" (interface_addrs name);
    match first_ipv4 addrs with
    | Some ip => Ok ip
    | None => Err "discovery interface has no IPv4 address"
    end.

(** One pass over the targets: the packets that left and the errors. *)
Fixpoint send_all (packet : bytes) (targets : list bytes) : list Addr * list error :=
  match targets with
  | [] => ([], [])
  | t :: rest =>
      let '(sent, errs) := send_all packet rest in
      match resolve_udp t with
      | Err _ => (sent, "resolve discovery address"%stdpp :: errs)
      | Ok a =>
          match write_to packet a with
          | Err _ => (sent, "send discovery packet"%stdpp :: errs)
          | Ok _ => (a :: sent, errs)
          end
      end
  end.

Definition targets_or_default (targets : list bytes) : list bytes :=
  match cleanTargets targets with [] => DefaultTargets | ts => ts end.

Definition SendToInterface (packet : bytes) (targets : list bytes) (ifaceName : bytes)
    : list Addr * result error unit :=
  let targets := targets_or_default targets in
  let name := trim_space ifaceName in
  let listenAddr :=
    if decide (name = []) then Ok (B ":0")
    else ip ← interfaceIPv4 name; Ok (ip_string ip ++ B ":0") in
  match listenAddr with
  | Err e => ([], Err e)
  | Ok addr =>
      match listen_packet addr with
      | Err _ => ([], Err "open discovery socket"%stdpp)
      | Ok _ =>
          let '(sent, errs) := send_all packet targets in
          (sent, match errs with [] => Ok tt | _ => Err "send discovery packets"%stdpp end)
      end
  end.
End delivery.

(** ** Reading a packet back *)
Fixpoint parse_records (fuel : nat) (s : bytes) : option (list (byte * bytes)) :=
  match s, fuel with
  | [], _ => Some []
  | typ :: l1 :: l2 :: rest, S f =>
      let n := Z.to_nat (be_val [l1; l2]) in
      if (length rest <? n)%nat then None
      else rs ← parse_records f (drop n rest); Some ((typ, take n rest) :: rs)
  | _, _ => None
  end.

Definition parse_packet (s : bytes) : option (list (byte * bytes)) :=
  match s with
  | v :: t :: l1 :: l2 :: payload =>
      if bool_decide (v = packetVersion) && bool_decide (t = packetType)
         && (be_val [l1; l2] =? zlen payload)
      then parse_records (length payload) payload else None
  | _ => None
  end.

Lemma writeTLV_length typ v : length (writeTLV typ v) = (3 + length v)%nat.
Proof. done. Qed.

Lemma parse_writeTLV f typ v rest :
  zlen v < 2 ^ 16 →
  parse_records (S f) (writeTLV typ v ++ rest) =
    (rs ← parse_records f rest; Some ((typ, v) :: rs)).
Proof.
  intros Hv. pose proof (be_val_be16 (zlen v)) as Hb.
  unfold writeTLV, be16 in *. cbn [app parse_records]. rewrite Hb by (pose proof (zlen_nonneg v); lia).
  unfold zlen. rewrite Nat2Z.id.
  rewrite (proj2 (Nat.ltb_ge _ _)) by (rewrite length_app; lia).
  by rewrite drop_app_length, take_app_length.
Qed.

Lemma parse_all fuel rs :
  Forall (λ r, zlen r.2 < 2 ^ 16) rs → (length rs ≤ fuel)%nat →
  parse_records fuel (concat (map (λ r, writeTLV r.1 r.2) rs)) = Some rs.
Proof.
  intros Hf. revert fuel. induction Hf as [|[typ v] rs Hv Hf IH]; intros fuel Hl.
  - by destruct fuel.
  - destruct fuel as [|f]; [cbn in Hl; lia|]. cbn [map concat fst snd].
    rewrite parse_writeTLV by done. rewrite IH; [done|]. cbn in Hl. lia.
Qed.

Lemma records_fit (rs : list (byte * bytes)) :
  Forall (λ r, zlen r.2 ≤ zlen (concat (map (λ r, writeTLV r.1 r.2) rs))) rs ∧
  (length rs ≤ length (concat (map (λ r, writeTLV r.1 r.2) rs)))%nat.
Proof.
  induction rs as [|[typ v] rs [IH1 IH2]]; [by split|]. cbn [map concat fst snd]. split.
  - constructor.
    + unfold zlen. cbn [snd]. rewrite length_app, writeTLV_length. lia.
    + eapply Forall_impl; [exact IH1|]. intros r Hr. cbv beta in *. unfold zlen in *.
      rewrite length_app. lia.
  - rewrite length_app, writeTLV_length. cbn. lia.
Qed.

(** C40: the packet of an accepted announcement parses back to exactly its
    records, in order, with a header that counts the payload; no length field
    is truncated. *)
Theorem announcement_round_trip a packet :
  MarshalBinary a = Ok packet →
  ∃ ip, ip_to4 (a_IP a) = Some ip ∧ parse_packet packet = Some (records a ip) ∧
    zlen packet ≤ 4 + 0xffff.
Proof.
  unfold MarshalBinary. intros Hm. destruct (negb _); [done|].
  destruct (ip_to4 (a_IP a)) as [ip|]; [|done]. exists ip. split; [done|].
  set (rs := records a ip) in *. clearbody rs.
  destruct (records_fit rs) as [H1 H2].
  set (payload := concat _) in *.
  destruct (0xffff <? zlen payload) eqn:E; [done|]. apply Z.ltb_ge in E. injection Hm as <-.
  split.
  - unfold parse_packet. pose proof (be_val_be16 (zlen payload)) as Hb. unfold be16 in *.
    cbn [app]. rewrite Hb by (pose proof (zlen_nonneg payload); lia).
    rewrite Z.eqb_refl, !bool_decide_true by done. cbn [andb].
    apply parse_all; [|done]. eapply Forall_impl; [exact H1|]. cbn. intros r Hr. lia.
  - unfold zlen in *. cbn [length app]. unfold be16. cbn [length app]. lia.
Qed.

Lemma hex_val_digit_upper n : 0 ≤ n < 16 → hex_val (hex_digit_upper n) = Some n.
Proof.
  intros H. assert (n ∈ [0;1;2;3;4;5;6;7;8;9;10;11;12;13;14;15]) as Hin
    by (rewrite !elem_of_cons; lia).
  repeat (apply elem_of_cons in Hin as [->|Hin]; [reflexivity|]). by apply elem_of_nil in Hin.
Qed.

(** The serial number in the announcement is the hardware address in
    hexadecimal. *)
Theorem serialFromMAC_decodes mac : hex_decode (serialFromMAC mac) = Some mac.
Proof.
  induction mac as [|b mac IH]; [done|]. cbn [serialFromMAC hex_decode].
  pose proof (b2z_range b). rewrite Z.shiftr_div_pow2 by lia.
  change 15 with (Z.ones 4). rewrite Z.land_ones by lia. change (2 ^ 4) with 16.
  rewrite !hex_val_digit_upper, IH by
    (try apply Z.mod_pos_bound; try split; try apply Z.div_pos;
     try apply Z.div_lt_upper_bound; lia).
  do 2 f_equal. rewrite <- (z2b_b2z b) at 3. f_equal. pose proof (Z.div_mod (b2z b) 16). lia.
Qed.

(** ** Every target gets its packet *)
Definition deliver_one {Addr} `{Network Addr} (packet t : bytes) : option Addr :=
  match resolve_udp t with
  | Ok a => match write_to packet a with Ok _ => Some a | Err _ => None end
  | Err _ => None
  end.

Lemma send_all_spec {Addr} `{Network Addr} packet targets :
  (send_all packet targets).1 = omap (deliver_one packet) targets ∧
  ((send_all packet targets).2 = [] ↔ Forall (λ t, is_Some (deliver_one packet t)) targets).
Proof.
  induction targets as [|t rest [IH1 IH2]]; [by split|].
  rewrite Forall_cons. cbn [send_all omap list_omap].
  destruct (send_all packet rest) as [sent errs]. cbn [fst snd] in *. subst sent.
  destruct (deliver_one packet t) as [a'|] eqn:Ed; unfold deliver_one in Ed;
    (destruct (resolve_udp t) as [a|e]; [destruct (write_to packet a)|]);
    try discriminate Ed; cbn [fst snd].
  - injection Ed as ->. split; [done|]. rewrite IH2. split; [|tauto]. intros Hr.
    split; [by eexists|done].
  - split; [done|]. split; [done|]. by intros [[]].
  - split; [done|]. split; [done|]. by intros [[]].
Qed.

Lemma cleanTargets_ok targets :
  Forall (λ t, t ≠ [] ∧ trim_space t = t) (cleanTargets targets).
Proof.
  apply Forall_forall. intros t [Ht Hin]%list_elem_of_filter. split; [done|].
  apply list_elem_of_In, in_map_iff in Hin as (t' & <- & _). apply trim_space_idemp.
Qed.

Lemma cleanTargets_blank targets :
  Forall (λ t, trim_space t = []) targets → cleanTargets targets = [].
Proof.
  unfold cleanTargets. induction 1 as [|t rest Ht _ IH]; [done|]. cbn [map].
  rewrite filter_cons_False; [exact IH|]. rewrite Ht. tauto.
Qed.

(** Once the socket is open, every target that resolves and accepts the
    packet gets it, whatever happens to the others; the call succeeds exactly
    when all did; the targets are never blank, and the standard pair when none
    is configured. *)
Theorem SendToInterface_delivers {Addr} `{Network Addr} packet targets iface :
  let ts := targets_or_default targets in
  let '(sent, r) := SendToInterface packet targets iface in
  ts ≠ [] ∧ Forall (λ t, t ≠ [] ∧ trim_space t = t) ts ∧
  (Forall (λ t, trim_space t = []) targets → ts = DefaultTargets) ∧
  (sent = omap (deliver_one packet) ts ∨ sent = [] ∧ is_ok r = false) ∧
  (is_ok r = true → Forall (λ t, is_Some (deliver_one packet t)) ts).
Proof.
  cbn zeta. set (ts := targets_or_default targets).
  assert (ts ≠ [] ∧ Forall (λ t, t ≠ [] ∧ trim_space t = t) ts) as [H1 H2].
  { unfold ts, targets_or_default. pose proof (cleanTargets_ok targets) as Hc.
    destruct (cleanTargets targets); [|done]. split; [done|]. by repeat constructor. }
  assert (Forall (λ t, trim_space t = []) targets → ts = DefaultTargets) as H3.
  { intros Hall. unfold ts, targets_or_default. by rewrite cleanTargets_blank. }
  unfold SendToInterface. fold ts.
  destruct (if decide (trim_space iface = []) then _ else _) as [addr|e];
    [|split_and!; auto; done].
  destruct (listen_packet addr) as [[]|e]; [|split_and!; auto; done].
  pose proof (send_all_spec packet ts) as [Hs He].
  destruct (send_all packet ts) as [sent errs]. cbn in *. split_and!; auto.
  intros Hr. apply He. by destruct errs.
Qed.

(** ** Witness *)
Definition sample_announcement : Announcement :=
  MkAnnouncement [x02; x00; x00; xaa; xbb; xcc] [xc0; x00; x02; x0a] (B "USW") (B "7.0.0") (B "stub")
    true 42 1.

Definition sample_packet : bytes :=
  match MarshalBinary sample_announcement with Ok p => p | Err _ => [] end.

Lemma announcement_round_trip_witness :
  ∃ ip, ip_to4 (a_IP sample_announcement) = Some ip ∧
    parse_packet sample_packet = Some (records sample_announcement ip).
Proof.
  assert (MarshalBinary sample_announcement = Ok sample_packet) as E by (vm_compute; reflexivity).
  destruct (announcement_round_trip sample_announcement sample_packet E) as (ip & H1 & H2 & _).
  exists ip. split; [exact H1|exact H2].
Defined.
