(* ===== verification/AdoptionSsh.v ===== *)
(** The adoption SSH shim of [src/internal/adoptionssh]: the command language
    ([parse.go]), the dispatcher ([handler.go], [commands.go]), the state
    updates ([state.go]) and the session loop ([session.go], [server.go]).

    The SSH protocol library is not modelled: a session is the list of requests
    it delivers, and a payload it cannot unmarshal is [None]. *)
From S2P Require Import Prelude GoStrings GoUtf8 GoUrl InformCodec AtomicFile AdoptionStore AdoptionEnv.

(** ** types.go *)
Definition defaultStatePath : bytes := B "/var/lib/unifi-stubd/adoption.env".
Definition okOutput : bytes := B "OK" ++ [x0a].
Definition line (s : bytes) : bytes := s ++ [x0a].

Record Identity := MkIdentity {
  id_MAC : bytes; id_IP : bytes; id_Hostname : bytes;
  id_Model : bytes; id_Version : bytes; id_InformURL : bytes;
}.

Record Config := MkConfig {
  c_Listen : bytes; c_User : bytes; c_Password : bytes;
  c_HostKeyPath : bytes; c_StatePath : bytes; c_Identity : Identity;
}.

(** ** parse.go *)

(** The replacer for [&&] and newline. *)
Fixpoint replace_chain (s : bytes) : bytes :=
  match s with
  | [] => []
  | a :: t =>
      match t with
      | b :: t' =>
          if decide (a = x26 ∧ b = x26) then x3b :: replace_chain t'
          else (if decide (a = x0a) then x3b else a) :: replace_chain t
      | [] => [if decide (a = x0a) then x3b else a]
      end
  end.

Definition splitCommands (command : bytes) : list bytes :=
  filter (λ p, p ≠ []) (map trim_space (split_byte x3b (replace_chain command))).

(** The loop state of [CommandFields]; [fl_current] is reversed and [fl_quote]
    is zero outside quotes. *)
Record field_state := MkFields {
  fl_fields : list (list Z);
  fl_current : list Z;
  fl_quote : Z;
  fl_escaped : bool;
}.

Definition flush (st : field_state) : field_state :=
  match fl_current st with
  | [] => st
  | c => MkFields (fl_fields st ++ [rev c]) [] (fl_quote st) (fl_escaped st)
  end.

Definition write_rune (r : Z) (st : field_state) : field_state :=
  MkFields (fl_fields st) (r :: fl_current st) (fl_quote st) (fl_escaped st).
Definition set_escaped (e : bool) (st : field_state) : field_state :=
  MkFields (fl_fields st) (fl_current st) (fl_quote st) e.
Definition set_quote (q : Z) (st : field_state) : field_state :=
  MkFields (fl_fields st) (fl_current st) q (fl_escaped st).

Definition backslash : Z := 0x5c.

Definition field_step (st : field_state) (r : Z) : field_state :=
  if fl_escaped st then set_escaped false (write_rune r st)
  else if r =? backslash then set_escaped true st
  else if negb (fl_quote st =? 0) then
    if r =? fl_quote st then set_quote 0 st else write_rune r st
  else if (r =? 0x27) || (r =? 0x22) then set_quote r st
  else if bool_decide (r ∈ [0x20; 0x09; 0x0d; 0x0a]) then flush st
  else write_rune r st.

Definition field_runes (input : list Z) : list (list Z) :=
  let st := fold_left field_step input (MkFields [] [] 0 false) in
  let st := if fl_escaped st then write_rune backslash st else st in
  fl_fields (flush st).

Definition CommandFields (input : bytes) : list bytes := map encode_runes (field_runes (runes input)).

Fixpoint findInformURL (args : list bytes) : bytes :=
  match args with
  | [] => []
  | arg :: rest =>
      if (has_prefix (B "http://") arg || has_prefix (B "https://") arg) && contains (B "/inform") arg
      then arg else findInformURL rest
  end.

(** ** handler.go: the audit vocabulary *)
Definition audit_vocabulary : list bytes :=
  [B "syswrapper.sh"; B "mca-cli-op"; B "info"; B "set-inform"; B "mca-cli"; B "ubntbox";
   B "reset2defaults"; B "restore-default"; B "hostname"; B "uname"; B "cat"; B "echo"; B "true";
   B "exit"; B "quit"].
Definition auditCommandName (name : bytes) : bytes :=
  if decide (name ∈ audit_vocabulary) then name else B "unsupported".

(** The text and exit code of a command. [OutOfFuel] is no Go value:
    [Execute_fuel] shows that it never is the result. *)
Inductive outcome :=
| Out (text : bytes) (code : Z)
| OutOfFuel.

Definition stateCommandFailure : outcome := Out (line (B "Adoption state update failed")) 1.

(** ** Effects: the files and the log *)
Section handler.
Context {W : Type} `{FileSystem W} `{AddressParser}.
Variable config : Config.

Record host := MkHost { h_files : W; h_log : list bytes }.
Definition M (A : Type) : Type := host → A * host.
#[export] Instance M_ret : MRet M := λ _ a, λ h, (a, h).
#[export] Instance M_bind : MBind M := λ _ _ k m, λ h, let '(a, h') := m h in k a h'.

Definition log (msg : bytes) : M unit := λ h, (tt, MkHost (h_files h) (h_log h ++ [msg])).
Definition files {A} (f : W → A * W) : M A := λ h,
  let '(a, w) := f (h_files h) in (a, MkHost w (h_log h)).

(** *** state.go *)
Definition statePath : bytes :=
  if decide (c_StatePath config = []) then defaultStatePath else c_StatePath config.

Definition saveState (informURL authKey : bytes) : M (result error unit) :=
  if decide (informURL = [] ∧ authKey = []) then mret (Ok tt)
  else
    loaded ← files (LoadEnv statePath);
    match (match loaded with
           | Ok s => Some s
           | Err LoadNotExist => Some no_store
           | Err (LoadError _) => None
           end) with
    | None => _ ← log (B "adoption state read failed"); mret (Err "load adoption state"%stdpp)
    | Some store =>
        let state := if decide (authKey = []) then StateProvisioning else StateAdopting in
        let update := MkStore informURL authKey [] false [] state in
        let '(store', changed) := Merge store update in
        saved ← files (SaveEnv statePath store');
        match saved with
        | Err _ => _ ← log (B "adoption state write failed"); mret (Err "save adoption state"%stdpp)
        | Ok _ =>
            _ ← (if changed : bool then log (B "adoption state updated") else mret tt);
            mret (Ok tt)
        end
    end.

Definition resetState : M (result error unit) :=
  r ← files (λ w, let '(r, _, w') := ResetEnv statePath w in (r, w'));
  match r with
  | Err _ => _ ← log (B "adoption state reset failed"); mret (Err "reset adoption state"%stdpp)
  | Ok _ => _ ← log (B "adoption state reset accepted"); mret (Ok tt)
  end.

(** *** commands.go *)
Definition succeed (text : bytes) : M outcome := mret (Out text 0).

(** [if err := h.saveState(...); err != nil { return failure }; return text, 0]. *)
Definition save_then (url key text : bytes) : M outcome :=
  r ← saveState url key;
  mret (match r with Ok _ => Out text 0 | Err _ => stateCommandFailure end).
Definition reset_then (text : bytes) : M outcome :=
  r ← resetState;
  mret (match r with Ok _ => Out text 0 | Err _ => stateCommandFailure end).

Definition or_default (v d : bytes) : bytes := if decide (v = []) then d else v.

Definition info : bytes :=
  let id := c_Identity config in
  line (B "Model:       " ++ id_Model id)
  ++ line (B "Version:     " ++ or_default (id_Version id) (B "6.6.0"))
  ++ line (B "MAC Address: " ++ id_MAC id)
  ++ line (B "IP Address:  " ++ id_IP id)
  ++ line (B "Hostname:    " ++ or_default (id_Hostname id) (B "unifi-stubd"))
  ++ line (B "Uptime:      1 seconds")
  ++ line (B "Status:      Not Adopted ("
           ++ or_default (id_InformURL id) (B "http://unifi:8080/inform") ++ B ")").

Definition handleSetInform (args : list bytes) : M outcome :=
  let url := findInformURL args in
  save_then url []
    (if decide (url = []) then line (B "Inform command accepted")
     else line (B "Inform URL set: " ++ url)).

Definition handleSyswrapper (args : list bytes) : M outcome :=
  match args with
  | _ :: sub :: rest =>
      if decide (sub = B "set-adopt") then
        let url := default [] (rest !! 0%nat) in
        let authKey := default [] (rest !! 1%nat) in
        save_then url authKey
          (if decide (url = []) then line (B "Adoption command accepted")
           else line (B "Adoption request accepted: " ++ url))
      else if decide (sub = B "set-inform") then handleSetInform args
      else if decide (sub ∈ [B "info"; B "status"; B "get-info"]) then succeed info
      else if decide (sub ∈ [B "restore-default"; B "reset2defaults"]) then
        reset_then (line (B "Factory reset accepted"))
      else save_then [] [] okOutput
  | _ => succeed info
  end.

Definition handleMCA (args : list bytes) : M outcome :=
  match args with
  | _ :: sub :: rest =>
      if decide (sub = B "op" ∧ rest ≠ []) then handleSetInform (sub :: rest)
      else if decide (sub = B "set-inform") then handleSetInform args
      else if decide (sub ∈ [B "info"; B "status"]) then succeed info
      else save_then [] [] okOutput
  | _ => succeed (line (B "UniFi CLI shim"))
  end.

Definition handleCat (args : list bytes) : M outcome :=
  match args with
  | _ :: f :: _ =>
      if decide (f ∈ [B "/etc/version"; B "/usr/lib/version"])
      then succeed (line (id_Version (c_Identity config)))
      else if decide (f = B "/proc/ubnthal/system.info") then succeed info
      else succeed []
  | _ => succeed []
  end.

(** *** handler.go *)

(** The switch of [executeOne] on the command name. *)
Definition dispatch (name : bytes) (args : list bytes) : M outcome :=
  if decide (name = B "syswrapper.sh") then handleSyswrapper args
  else if decide (name = B "mca-cli-op") then
    if decide (args !! 1%nat = Some (B "info")) then succeed info else handleSetInform args
  else if decide (name = B "info") then succeed info
  else if decide (name = B "set-inform") then handleSetInform args
  else if decide (name = B "mca-cli") then handleMCA args
  else if decide (name = B "ubntbox") then save_then [] [] okOutput
  else if decide (name ∈ [B "reset2defaults"; B "restore-default"]) then
    reset_then (line (B "Factory reset accepted"))
  else if decide (name = B "hostname") then succeed (line (id_Hostname (c_Identity config)))
  else if decide (name = B "uname") then
    succeed (line (B "Linux unifi-stubd-lab 6.18.22-0-virt #1-Alpine SMP aarch64 GNU/Linux"))
  else if decide (name = B "cat") then handleCat args
  else if decide (name = B "echo") then succeed (line (join (B " ") (tail args)))
  else if decide (name ∈ [B "true"; B "exit"; B "quit"]) then succeed []
  else
    let url := findInformURL args in
    if decide (url = []) then save_then [] [] okOutput
    else save_then url [] (line (B "Adoption request accepted: " ++ url)).

(** The loop of [Execute]. *)
Fixpoint run_parts (exec : bytes → M outcome) (out : bytes) (parts : list bytes) : M outcome :=
  match parts with
  | [] => mret (Out out 0)
  | part :: rest =>
      r ← exec part;
      match r with
      | OutOfFuel => mret OutOfFuel
      | Out text code =>
          if code =? 0 then run_parts exec (out ++ text) rest
          else mret (Out (out ++ text) code)
      end
  end.

(** What the shell wrapper [sh -c] runs. *)
Definition shell_command (args : list bytes) : option bytes :=
  match args with
  | sh :: flag :: a :: rest =>
      if decide ((sh = B "sh" ∨ sh = B "/bin/sh") ∧ flag = B "-c")
      then Some (join (B " ") (a :: rest)) else None
  | _ => None
  end.

(** [executeOne] behind [sudo]; [execute] runs a nested shell command. *)
Definition execute_args (execute : bytes → M outcome) (args : list bytes) : M outcome :=
  match args with
  | [] => succeed okOutput
  | arg0 :: _ =>
      match shell_command args with
      | Some command => execute command
      | None =>
          let name := path_base arg0 in
          _ ← log (B "adoption ssh command: " ++ auditCommandName name);
          dispatch name args
      end
  end.

Fixpoint executeOne (fuel : nat) (command : bytes) : M outcome :=
  match CommandFields (trim_space command) with
  | [] => succeed []
  | first :: rest =>
      execute_args
        (λ inner, match fuel with
                  | O => mret OutOfFuel
                  | S f => run_parts (executeOne f) [] (splitCommands inner)
                  end)
        (if decide (first = B "sudo") then rest else first :: rest)
  end.

(** The fuel: every nested [sh] uses up one letter [s]. *)
Definition weight (s : bytes) : nat := length (filter (λ b, b = x73) s).

Definition Execute (command : bytes) : M outcome :=
  run_parts (executeOne (weight command)) [] (splitCommands command).

Fixpoint shell_loop (out : bytes) (lines : list bytes) : M bytes :=
  match lines with
  | [] => mret out
  | l :: rest =>
      let l := trim_space l in
      if decide (l = []) then shell_loop out rest
      else if decide (l ∈ [B "exit"; B "quit"]) then mret out
      else
        r ← Execute l;
        shell_loop (out ++ match r with Out text _ => text | OutOfFuel => [] end) rest
  end.

Definition Shell (input : bytes) : M bytes :=
  shell_loop (line (B "UniFi CLI shim")) (scan_lines (split_byte x0a input)).

(** ** session.go *)
Inductive request :=
| PtyOrEnv
| Exec (payload : option bytes)   (* [None] when the payload is malformed *)
| ShellReq (input : bytes)
| OtherRequest.

Inductive event :=
| Reply (ok : bool)
| Output (b : bytes)
| ExitStatus (code : Z).

Fixpoint handleSession (requests : list request) : M (list event) :=
  match requests with
  | [] => mret []
  | PtyOrEnv :: rest => es ← handleSession rest; mret (Reply true :: es)
  | OtherRequest :: rest => es ← handleSession rest; mret (Reply false :: es)
  | Exec None :: _ => mret [Reply false]
  | Exec (Some command) :: _ =>
      r ← Execute command;
      mret (match r with
            | Out text code => [Reply true; Output text; ExitStatus (wrap32u code)]
            | OutOfFuel => []
            end)
  | ShellReq input :: _ =>
      out ← Shell input;
      mret [Reply true; Output out; ExitStatus 0]
  end.
End handler.

(** ** server.go *)

(** The defaults [Start] fills in, when the server is enabled at all. *)
Definition start_config (c : Config) : option Config :=
  if decide (c_Listen c = []) then None
  else Some (MkConfig (c_Listen c)
    (if decide (c_User c = []) then B "ubnt" else c_User c)
    (if decide (c_Password c = []) then B "ubnt" else c_Password c)
    (c_HostKeyPath c)
    (if decide (c_StatePath c = []) then defaultStatePath else c_StatePath c)
    (c_Identity c)).

(** The password callback. *)
Definition authenticate (c : Config) (user pass : bytes) : result error unit :=
  if bool_decide (user = c_User c) && bool_decide (pass = c_Password c)
  then Ok tt else Err "invalid credentials".

(** ** The letter count that bounds nested shells *)
Arguments weight : simpl never.
Lemma weight_app l r : weight (l ++ r) = (weight l + weight r)%nat.
Proof. unfold weight. by rewrite filter_app, length_app. Qed.

Lemma weight_cons b s : weight (b :: s) = ((if decide (b = x73) then 1 else 0) + weight s)%nat.
Proof. unfold weight. rewrite filter_cons. by case_decide. Qed.

Lemma weight_trim s : (weight (trim_space s) ≤ weight s)%nat.
Proof.
  unfold trim_space. destruct (trim_right_prefix (trim_left s)) as [r Hr].
  destruct (trim_by_suffix space1 space2 space3 s) as [p Hp]. fold (trim_left s) in Hp.
  rewrite Hp at 2. rewrite Hr at 2. rewrite !weight_app. lia.
Qed.

Lemma weight_replace s : weight (replace_chain s) = weight s.
Proof.
  remember (length s) as n eqn:Hn. revert s Hn.
  induction n as [n IH] using lt_wf_ind. intros [|a [|b t]] ->; [done| |].
  - cbn [replace_chain]. rewrite !weight_cons. f_equal.
    destruct (decide (a = x0a)) as [->|]; reflexivity.
  - cbn [replace_chain]. case_decide as Hab.
    + destruct Hab as [-> ->]. rewrite !weight_cons. cbn. eapply IH; [|done]. cbn. lia.
    + rewrite (weight_cons _ (replace_chain (b :: t))), (weight_cons a (b :: t)).
      rewrite (IH (length (b :: t))) by (cbn; auto; lia).
      f_equal. destruct (decide (a = x0a)) as [->|]; reflexivity.
Qed.

Lemma weight_split c s : Forall (λ p, weight p ≤ weight s)%nat (split_byte c s).
Proof.
  induction s as [|b s IH]; cbn; [by repeat constructor|]. case_decide as Hb.
  - constructor; [apply Nat.le_0_l|]. eapply Forall_impl; [exact IH|]. cbn. intros p. rewrite weight_cons. lia.
  - destruct (split_byte c s) as [|x xs].
    + constructor; [|done]. rewrite !weight_cons. change (weight []) with 0%nat. lia.
    + apply Forall_cons in IH as [H1 H2]. constructor; [rewrite !weight_cons; lia|].
      eapply Forall_impl; [exact H2|]. cbn. intros p. rewrite weight_cons. lia.
Qed.

Lemma weight_parts command : Forall (λ p, weight p ≤ weight command)%nat (splitCommands command).
Proof.
  unfold splitCommands. apply Forall_forall. intros p [_ Hp]%list_elem_of_filter.
  apply list_elem_of_In, in_map_iff in Hp as (q & <- & Hq).
  pose proof (weight_split x3b (replace_chain command)) as Hw. rewrite Forall_forall in Hw.
  apply list_elem_of_In, Hw in Hq. rewrite weight_replace in Hq.
  pose proof (weight_trim q). lia.
Qed.

Definition rune_weight (l : list Z) : nat := length (filter (λ r, r = 0x73) l).

Lemma rune_weight_cons r l :
  rune_weight (r :: l) = ((if decide (r = 0x73%Z) then 1 else 0) + rune_weight l)%nat.
Proof. unfold rune_weight. rewrite filter_cons. by case_decide. Qed.

Lemma rune_weight_rev l : rune_weight (rev l) = rune_weight l.
Proof.
  induction l as [|r l IH]; [done|]. cbn [rev]. unfold rune_weight in *.
  rewrite filter_app, length_app, IH, !filter_cons, filter_nil.
  case_decide; cbn [length]; lia.
Qed.

Lemma b2z_letter b : b2z b = 0x73 ↔ b = x73.
Proof. split; [|by intros ->]. intros Hb. by apply (b2z_inj b x73). Qed.

Lemma weight_high z : 0x80 ≤ z < 0x100 → z2b z ≠ x73.
Proof. intros Hz E. apply (f_equal b2z) in E. rewrite b2z_z2b, Z.mod_small in E by lia.
  change (b2z x73) with 0x73 in E. lia. Qed.

Lemma weight_encode_rune r : weight (encode_rune r) = if decide (r = 0x73) then 1%nat else 0%nat.
Proof.
  unfold encode_rune. destruct (scalar r) eqn:Hs.
  2: { rewrite decide_False; [done|]. by intros ->. }
  unfold encode_scalar. unfold scalar in Hs.
  destruct (r <? 0x80) eqn:E1.
  { rewrite weight_cons. change (weight []) with 0%nat. rewrite Nat.add_0_r.
    apply Z.ltb_lt in E1. case_decide as Hb.
    - apply (f_equal b2z) in Hb. rewrite b2z_z2b, Z.mod_small in Hb by lia.
      change (b2z x73) with 0x73 in Hb. by rewrite decide_True.
    - rewrite decide_False; [done|]. by intros ->. }
  apply Z.ltb_ge in E1. rewrite (decide_False (P := r = 0x73)) by lia.
  assert (∀ l, Forall (λ b, b ≠ x73) l → weight l = 0%nat) as Hw.
  { intros l Hl. unfold weight. induction Hl as [|b l Hb Hl IH]; [done|].
    rewrite filter_cons_False; done. }
  repeat case_bool; apply Hw; repeat constructor; apply weight_high; Z.div_mod_to_equations; lia.
Qed.

Lemma weight_encode_runes l : weight (encode_runes l) = rune_weight l.
Proof.
  induction l as [|r l IH]; [done|]. unfold encode_runes in *. cbn [map concat].
  rewrite weight_app, weight_encode_rune, rune_weight_cons. lia.
Qed.

(** A letter rune is a letter byte. *)
Lemma rune_weight_runes s : (rune_weight (runes s) ≤ weight s)%nat.
Proof.
  remember (length s) as n eqn:Hn. revert s Hn.
  induction n as [n IH] using lt_wf_ind. intros [|a s1] ->; [done|].
  assert (∀ t, (length t < length (a :: s1))%nat → (rune_weight (runes t) ≤ weight t)%nat) as IH'
    by (intros t Ht; by eapply IH).
  clear IH. cbn [runes]. destruct (b2z a <? 128) eqn:Ea.
  { rewrite rune_weight_cons, weight_cons. specialize (IH' s1). cbn [length] in IH'.
    pose proof (b2z_letter a). repeat case_decide; try tauto; lia. }
  assert (rune_weight (rune_error :: runes s1) ≤ weight (a :: s1))%nat as Herr.
  { rewrite rune_weight_cons, weight_cons. specialize (IH' s1). cbn [length] in IH'.
    rewrite decide_False by done. lia. }
  destruct s1 as [|b s2]; [exact Herr|].
  destruct (seq2 a b) eqn:E2.
  { specialize (IH' s2). cbn [length] in IH'. rewrite rune_weight_cons, !weight_cons.
    rewrite (decide_False (P := cp2 a b = _)); [lia|]. byte_arith. }
  destruct s2 as [|c s3]; [exact Herr|]. destruct (seq3 a b c) eqn:E3.
  { specialize (IH' s3). cbn [length] in IH'. rewrite rune_weight_cons, !weight_cons.
    rewrite (decide_False (P := cp3 a b c = _)); [lia|].
    unfold seq3, cont, cp3 in *. destruct (b2z a =? 0xE0) eqn:?; lia. }
  destruct s3 as [|d s4]; [exact Herr|]. destruct (seq4 a b c d) eqn:E4; [|exact Herr].
  specialize (IH' s4). cbn [length] in IH'. rewrite rune_weight_cons, !weight_cons.
  rewrite (decide_False (P := cp4 a b c d = _)); [lia|].
  unfold seq4, cont, cp4 in *. destruct (b2z a =? 0xF0) eqn:?; lia.
Qed.

(** The fields share the letters of the input. *)
Definition total (l : list (list Z)) : nat := sum_list_with rune_weight l.
Definition held (st : field_state) : nat := (total (fl_fields st) + rune_weight (fl_current st))%nat.

Lemma held_flush st : held (flush st) = held st.
Proof.
  unfold held, flush, total. destruct (fl_current st) as [|c l] eqn:E; [by rewrite E|].
  cbn [fl_fields fl_current]. rewrite sum_list_with_app. cbn [sum_list_with].
  rewrite rune_weight_rev. unfold rune_weight at 3. cbn. lia.
Qed.

Lemma held_step st r : (held (field_step st r) ≤ held st + rune_weight [r])%nat.
Proof.
  assert (held (write_rune r st) = held st + rune_weight [r])%nat as Hw.
  { unfold held, write_rune. cbn [fl_fields fl_current]. rewrite !rune_weight_cons.
    change (rune_weight []) with 0%nat. lia. }
  assert (∀ e s, held (set_escaped e s) = held s) as He by done.
  assert (∀ q s, held (set_quote q s) = held s) as Hq by done.
  unfold field_step. repeat case_bool; rewrite ?held_flush, ?He, ?Hq, ?Hw; lia.
Qed.

Lemma total_fields input : (total (field_runes input) ≤ rune_weight input)%nat.
Proof.
  assert (∀ st, held (fold_left field_step input st) ≤ held st + rune_weight input)%nat as Hf.
  { induction input as [|r input IH]; intros st; cbn [fold_left]; [lia|].
    etransitivity; [apply IH|]. pose proof (held_step st r). rewrite rune_weight_cons.
    rewrite rune_weight_cons in H. change (rune_weight []) with 0%nat in H. lia. }
  specialize (Hf (MkFields [] [] 0 false)). unfold field_runes.
  set (st := fold_left _ _ _) in *. clearbody st. change (held (MkFields [] [] 0 false)) with 0%nat in Hf.
  set (st' := if fl_escaped st then _ else _).
  assert (held st' = held st) as Hst.
  { unfold st'. destruct (fl_escaped st); [|done]. unfold held, write_rune. cbn [fl_fields fl_current].
    by rewrite rune_weight_cons. }
  pose proof (held_flush st') as Hfl. unfold held in *. lia.
Qed.

Lemma weight_fields input : (sum_list_with weight (CommandFields input) ≤ weight input)%nat.
Proof.
  unfold CommandFields. pose proof (total_fields (runes input)). pose proof (rune_weight_runes input).
  enough (sum_list_with weight (map encode_runes (field_runes (runes input))) =
          total (field_runes (runes input))) by lia.
  generalize (field_runes (runes input)). intros l. unfold total.
  induction l as [|f l IH]; [done|]. cbn. by rewrite weight_encode_runes, IH.
Qed.

Lemma weight_join l : weight (join (B " ") l) = sum_list_with weight l.
Proof.
  induction l as [|x [|y l] IH]; [done|cbn; lia|].
  change (join (B " ") (x :: y :: l)) with (x ++ B " " ++ join (B " ") (y :: l)).
  rewrite !weight_app, IH. cbn. done.
Qed.

(** What a shell wrapper runs is lighter than the wrapper. *)
Lemma weight_shell args inner :
  shell_command args = Some inner → (weight inner < sum_list_with weight args)%nat.
Proof.
  unfold shell_command. destruct args as [|sh [|flag [|a rest]]]; try done.
  case_decide as Hs; [|done]. intros E.
  assert (inner = join (B " ") (a :: rest)) as -> by congruence. rewrite weight_join. cbn [sum_list_with].
  change (weight (B "-c")) with 0%nat.
  destruct Hs as [[->| ->] ->]; [change (weight (B "sh")) with 1%nat|
    change (weight (B "/bin/sh")) with 1%nat]; lia.
Qed.

(** ** Effects of a command *)
Section effects.
Context {W : Type} `{FileSystem W} `{AddressParser}.
Variable config : Config.

(** [R] relates the hosts before and after [m]. *)
Definition effect {A} (R : @host W → @host W → Prop) (m : @M W A) : Prop := ∀ h, R h (m h).2.

Context (R : @host W → @host W → Prop) `{!PreOrder R}.

Lemma effect_ret {A} (a : A) : effect R (mret a).
Proof. intros h. cbn. reflexivity. Qed.

Lemma effect_bind {A C} (m : M A) (k : A → M C) :
  effect R m → (∀ a, effect R (k a)) → effect R (m ≫= k).
Proof.
  intros Hm Hk h. specialize (Hm h). unfold mbind, M_bind.
  destruct (m h) as [a h']. etransitivity; [exact Hm|apply Hk].
Qed.

Hypothesis effect_save : ∀ url key, effect R (saveState config url key).
Hypothesis effect_reset : effect R (resetState config).
Hypothesis effect_audit : ∀ name,
  effect R (log (B "adoption ssh command: " ++ auditCommandName name)).

Lemma effect_save_then url key text : effect R (save_then config url key text).
Proof. apply effect_bind; [apply effect_save|]. intros r. apply effect_ret. Qed.
Lemma effect_reset_then text : effect R (reset_then config text).
Proof. apply effect_bind; [apply effect_reset|]. intros r. apply effect_ret. Qed.

Lemma effect_succeed text : effect R (succeed text).
Proof. apply effect_ret. Qed.

Local Hint Resolve effect_ret effect_succeed effect_save_then effect_reset_then : core.

Lemma effect_dispatch name args : effect R (dispatch config name args).
Proof.
  assert (∀ args, effect R (handleSetInform config args)) as Hsi
    by (intros a; unfold handleSetInform; auto).
  unfold dispatch, handleSyswrapper, handleMCA, handleCat, succeed.
  repeat case_decide; auto; destruct args as [|a0 [|a1 rest]]; auto;
    repeat case_decide; auto.
Qed.

Lemma effect_run_parts exec out parts :
  (∀ p, effect R (exec p)) → effect R (run_parts exec out parts).
Proof.
  intros He. revert out. induction parts as [|p rest IH]; intros out; cbn [run_parts]; [auto|].
  apply effect_bind; [apply He|]. intros [text code|]; [|auto]. destruct (code =? 0); auto.
Qed.

Lemma effect_args execute args : (∀ c, effect R (execute c)) → effect R (execute_args config execute args).
Proof.
  intros He. unfold execute_args. destruct args as [|a0 args]; auto.
  destruct (shell_command (a0 :: args)); auto.
  apply effect_bind; [apply effect_audit|]. intros []. apply effect_dispatch.
Qed.

Lemma effect_executeOne fuel command : effect R (executeOne config fuel command).
Proof.
  revert command. induction fuel as [|f IH]; intros command; cbn [executeOne];
    destruct (CommandFields _) as [|a0 rest]; auto; apply effect_args; auto.
  intros c. apply effect_run_parts. exact IH.
Qed.

Lemma effect_Execute command : effect R (Execute config command).
Proof. apply effect_run_parts. intros p. apply effect_executeOne. Qed.

Lemma effect_shell_loop out lines : effect R (shell_loop config out lines).
Proof.
  revert out. induction lines as [|l rest IH]; intros out; cbn [shell_loop]; [auto|].
  repeat case_decide; auto. apply effect_bind; [apply effect_Execute|]. intros r. apply IH.
Qed.

Lemma effect_session requests : effect R (handleSession config requests).
Proof.
  induction requests as [|[|[c|]|input|] rest IH]; cbn [handleSession]; auto.
  - apply effect_bind; auto.
  - apply effect_bind; [apply effect_Execute|]. auto.
  - apply effect_bind; [apply effect_shell_loop|]. auto.
  - apply effect_bind; auto.
Qed.
End effects.

(** ** Termination *)
Section fuel.
Context {W : Type} `{FileSystem W} `{AddressParser}.
Variable config : Config.

Definition finished (o : outcome) : Prop :=
  match o with Out _ code => code = 0 ∨ code = 1 | OutOfFuel => False end.

Lemma run_parts_agree (e1 e2 : bytes → @M W outcome) out parts h :
  Forall (λ p, ∀ h, e1 p h = e2 p h ∧ finished (e1 p h).1) parts →
  run_parts e1 out parts h = run_parts e2 out parts h ∧ finished (run_parts e1 out parts h).1.
Proof.
  intros Hf. revert out h. induction Hf as [|p rest Hp Hf IH]; intros out h; cbn [run_parts].
  - split; [done|]. by left.
  - destruct (Hp h) as [He Hfin]. unfold mbind, M_bind. rewrite <- He.
    destruct (e1 p h) as [[text code|] h']; cbn in Hfin; [|done].
    destruct (code =? 0); [apply IH|]. split; [done|]. exact Hfin.
Qed.

Lemma finished_save url key text h : finished (save_then config url key text h).1.
Proof.
  unfold save_then, mbind, M_bind, mret, M_ret. destruct (saveState config url key h) as [[|] h'];
    cbn; auto.
Qed.
Lemma finished_reset text h : finished (reset_then config text h).1.
Proof.
  unfold reset_then, mbind, M_bind, mret, M_ret. destruct (resetState config h) as [[|] h'];
    cbn; auto.
Qed.
Lemma finished_succeed text (h : @host W) : finished (succeed text h).1.
Proof. by left. Qed.
Local Hint Resolve finished_save finished_reset finished_succeed : core.

Lemma finished_dispatch name args h : finished (dispatch config name args h).1.
Proof.
  assert (∀ args h, finished (handleSetInform config args h).1) as Hsi
    by (intros a h'; unfold handleSetInform; auto).
  unfold dispatch, handleSyswrapper, handleMCA, handleCat.
  repeat case_decide; auto; destruct args as [|a0 [|a1 rest]]; auto;
    repeat case_decide; auto.
Qed.

Lemma execute_args_agree (e1 e2 : bytes → @M W outcome) args h :
  (∀ c, shell_command args = Some c → e1 c h = e2 c h ∧ finished (e1 c h).1) →
  execute_args config e1 args h = execute_args config e2 args h ∧
  finished (execute_args config e1 args h).1.
Proof.
  intros He. unfold execute_args. destruct args as [|a0 args]; [split; [done|by left]|].
  destruct (shell_command (a0 :: args)) as [c|]; [by apply He|].
  split; [done|]. apply finished_dispatch.
Qed.

Lemma executeOne_eq fuel command :
  executeOne config fuel command =
    match CommandFields (trim_space command) with
    | [] => succeed []
    | first :: rest =>
        execute_args config
          (λ inner, match fuel with
                    | O => mret OutOfFuel
                    | S f => run_parts (executeOne config f) [] (splitCommands inner)
                    end)
          (if decide (first = B "sudo") then rest else first :: rest)
    end.
Proof. by destruct fuel. Qed.

Lemma executeOne_fuel f g command h :
  (weight command ≤ f)%nat → (weight command ≤ g)%nat →
  executeOne config f command h = executeOne config g command h ∧
  finished (executeOne config f command h).1.
Proof.
  revert g command h. induction f as [|f IH]; intros g command h Hf Hg;
    rewrite (executeOne_eq g); cbn [executeOne];
    pose proof (weight_fields (trim_space command)) as Hw; pose proof (weight_trim command) as Ht;
    (destruct (CommandFields (trim_space command)) as [|a0 rest]; [split; [done|by left]|]);
    apply execute_args_agree; intros c Hc; apply weight_shell in Hc; cbn [sum_list_with] in Hw;
    assert (weight c < weight command)%nat as Hlt by (case_decide; cbn [sum_list_with] in Hc; lia).
  - lia.
  - destruct g as [|g]; [lia|]. apply run_parts_agree.
    eapply Forall_impl; [apply weight_parts|]. cbn. intros p Hp h'. apply IH; lia.
Qed.

Lemma Execute_fuel fuel command h :
  (weight command ≤ fuel)%nat →
  run_parts (executeOne config fuel) [] (splitCommands command) h = Execute config command h ∧
  finished (Execute config command h).1.
Proof.
  intros Hf. unfold Execute.
  destruct (run_parts_agree (executeOne config (weight command)) (executeOne config fuel) []
              (splitCommands command) h) as [H1 H2]; [|by split].
  eapply Forall_impl; [apply weight_parts|]. cbn. intros p Hp h'. apply executeOne_fuel; lia.
Qed.
End fuel.

(** ** The state file *)
Section state_file.
Context {W : Type} `{FileSystemLaws W} `{AddressParser}.
Variable config : Config.

Definition file_step (path : bytes) (h h' : @host W) : Prop :=
  fs_valid (h_files h) →
  fs_valid (h_files h') ∧
  (state_loads path (h_files h) → state_loads path (h_files h')) ∧
  ∀ q, q ≠ path → is_Some (fs_content (h_files h) q) →
    fs_content (h_files h') q = fs_content (h_files h) q.

#[export] Instance file_step_preorder path : PreOrder (file_step path).
Proof.
  split; [by intros h Hv|]. intros h1 h2 h3 H12 H23 Hv.
  destruct (H12 Hv) as (Hv2 & Hs2 & Hq2). destruct (H23 Hv2) as (Hv3 & Hs3 & Hq3).
  split_and!; [done|auto|]. intros q Hq Hx. rewrite Hq3; [auto|done|]. by rewrite Hq2.
Qed.

Lemma log_step path msg : effect (file_step path) (log msg).
Proof. intros h Hv. by split_and!. Qed.

Lemma load_step path : effect (file_step path) (files (LoadEnv path)).
Proof.
  intros h Hv. unfold files. pose proof (LoadEnv_cases path (h_files h) Hv) as Hc.
  destruct (LoadEnv path (h_files h)) as [r w]. destruct Hc as (Hv' & Hc & _).
  cbn [snd h_files]. unfold state_loads. rewrite Hc. auto.
Qed.

Lemma save_step path s : effect (file_step path) (files (SaveEnv path s)).
Proof.
  intros h Hv. unfold files. pose proof (SaveEnv_loads path s (h_files h) Hv) as Hl.
  pose proof (SaveEnv_cases path s (h_files h) Hv) as Hc.
  destruct (SaveEnv path s (h_files h)) as [r w]. destruct Hc as (Hv' & Hq & _). by split_and!.
Qed.

Lemma saveState_step url key : effect (file_step (statePath config)) (saveState config url key).
Proof.
  unfold saveState. case_decide; [apply effect_ret, _|].
  apply effect_bind; [apply _|apply load_step|]. intros loaded.
  destruct (match loaded with Ok _ => _ | Err _ => _ end) as [store|].
  - destruct (Merge _ _) as [store' changed]. apply effect_bind; [apply _|apply save_step|].
    intros [[]|e]; (apply effect_bind; [apply _| |intros []; apply effect_ret, _]);
      [destruct changed; [apply log_step|apply effect_ret, _]|apply log_step].
  - apply effect_bind; [apply _|apply log_step|]. intros []. apply effect_ret, _.
Qed.

Lemma resetState_step : effect (file_step (statePath config)) (resetState config).
Proof.
  unfold resetState. apply effect_bind; [apply _| |].
  - intros h. pose proof (save_step (statePath config) (set_State StateFactory no_store) h) as Hs.
    unfold files, ResetEnv in *. by destruct (SaveEnv _ _ _).
  - intros [[]|e]; (apply effect_bind; [apply _|apply log_step|intros []; apply effect_ret, _]).
Qed.
End state_file.

(** Whatever text the controller sends in a session, the adoption state
    file stays absent or loadable, the file system stays valid, and no other
    existing file changes. *)
Theorem session_keeps_state_file {W} `{FileSystemLaws W} `{AddressParser} config requests (h : @host W) :
  fs_valid (h_files h) → state_loads (statePath config) (h_files h) →
  let h' := (handleSession config requests h).2 in
  fs_valid (h_files h') ∧ state_loads (statePath config) (h_files h') ∧
  ∀ q, q ≠ statePath config → is_Some (fs_content (h_files h) q) →
    fs_content (h_files h') q = fs_content (h_files h) q.
Proof.
  intros Hv Hs h'. assert (file_step (statePath config) h h') as Hstep.
  { apply effect_session; [apply _|apply saveState_step|apply resetState_step|].
    intros name. apply log_step. }
  destruct (Hstep Hv) as (Hv' & Hs' & Hq'). auto.
Qed.

(** ** The log *)
Definition log_vocabulary : list bytes :=
  map (λ n, B "adoption ssh command: " ++ n) (B "unsupported" :: audit_vocabulary)
  ++ [B "adoption state read failed"; B "adoption state write failed"; B "adoption state updated";
      B "adoption state reset failed"; B "adoption state reset accepted"].

Definition log_step_ok {W} (h h' : @host W) : Prop :=
  ∃ msgs, h_log h' = h_log h ++ msgs ∧ Forall (λ m, m ∈ log_vocabulary) msgs.

#[export] Instance log_step_preorder {W} : PreOrder (@log_step_ok W).
Proof.
  split.
  - intros h. exists []. by rewrite app_nil_r.
  - intros h1 h2 h3 (m1 & H1 & F1) (m2 & H2 & F2). exists (m1 ++ m2).
    rewrite H2, H1, app_assoc. split; [done|]. by apply Forall_app.
Qed.

Lemma log_vocabulary_step {W} `{FileSystem W} `{AddressParser} msg :
  msg ∈ log_vocabulary → effect (@log_step_ok W) (log msg).
Proof. intros Hm h. exists [msg]. split; [done|]. constructor; [done|constructor]. Qed.

Lemma files_log_step {W A} `{FileSystem W} `{AddressParser} (f : W → A * W) :
  effect (@log_step_ok W) (files f).
Proof. intros h. unfold files. destruct (f (h_files h)). exists []. cbn. by rewrite app_nil_r. Qed.

Lemma audit_in_vocabulary name :
  B "adoption ssh command: " ++ auditCommandName name ∈ log_vocabulary.
Proof.
  unfold log_vocabulary. apply elem_of_app. left. apply list_elem_of_In, in_map, list_elem_of_In.
  unfold auditCommandName. case_decide; [by right|left].
Qed.

(** The log never holds controller input: every line a session writes is
    one of twenty-one fixed texts. *)
Theorem session_log_vocabulary {W} `{FileSystem W} `{AddressParser} config requests (h : @host W) :
  ∃ msgs, h_log (handleSession config requests h).2 = h_log h ++ msgs ∧
    Forall (λ m, m ∈ log_vocabulary) msgs.
Proof.
  assert (∀ msg, bool_decide (msg ∈ log_vocabulary) = true → effect (@log_step_ok W) (log msg)) as Hl
    by (intros msg Hm; apply log_vocabulary_step; by apply bool_decide_eq_true in Hm).
  apply effect_session; [apply _| | |].
  - intros url key. unfold saveState. case_decide; [apply effect_ret, _|].
    apply effect_bind; [apply _|apply files_log_step|]. intros loaded.
    destruct (match loaded with Ok _ => _ | Err _ => _ end) as [store|].
    + destruct (Merge _ _) as [store' changed]. apply effect_bind; [apply _|apply files_log_step|].
      intros [[]|e]; (apply effect_bind; [apply _| |intros []; apply effect_ret, _]);
        [destruct changed; [by apply Hl|apply effect_ret, _]|by apply Hl].
    + apply effect_bind; [apply _|by apply Hl|]. intros []. apply effect_ret, _.
  - unfold resetState. apply effect_bind; [apply _|apply files_log_step|].
    intros [[]|e]; (apply effect_bind; [apply _|by apply Hl|intros []; apply effect_ret, _]).
  - intros name. apply log_vocabulary_step, audit_in_vocabulary.
Qed.

(** Every command line ends with a text and exit code 0 or 1, however
    deeply it nests shell wrappers, and more fuel changes nothing. *)
Theorem Execute_terminates {W} `{FileSystem W} `{AddressParser} config command (h : @host W) :
  (∃ text code, (Execute config command h).1 = Out text code ∧ (code = 0 ∨ code = 1)) ∧
  ∀ fuel, (weight command ≤ fuel)%nat →
    run_parts (executeOne config fuel) [] (splitCommands command) h = Execute config command h.
Proof.
  split.
  - destruct (Execute_fuel config (weight command) command h) as [_ Hf]; [done|].
    destruct (Execute config command h).1 as [text code|]; [|done]. by exists text, code.
  - intros fuel Hf. by apply Execute_fuel.
Qed.

(** ** Sequencing *)
Lemma replace_chain_app a b :
  replace_chain (a ++ x3b :: b) = replace_chain a ++ x3b :: replace_chain b.
Proof.
  remember (length a) as n eqn:Hn. revert a Hn.
  induction n as [n IH] using lt_wf_ind. intros [|x [|y t]] ->.
  - cbn [app replace_chain]. destruct b as [|y b]; [done|].
    rewrite decide_False by (intros [? _]; done). by rewrite decide_False by done.
  - cbn [app]. change (replace_chain (x :: x3b :: b)) with
      (if decide (x = x26 ∧ x3b = x26) then x3b :: replace_chain b
       else (if decide (x = x0a) then x3b else x) :: replace_chain (x3b :: b)).
    rewrite decide_False by (intros [_ ?]; done).
    pose proof (IH 0%nat ltac:(cbn; lia) [] eq_refl) as H0. cbn [app] in H0. by rewrite H0.
  - cbn [app].
    change (replace_chain (x :: y :: t ++ x3b :: b)) with
      (if decide (x = x26 ∧ y = x26) then x3b :: replace_chain (t ++ x3b :: b)
       else (if decide (x = x0a) then x3b else x) :: replace_chain ((y :: t) ++ x3b :: b)).
    change (replace_chain (x :: y :: t)) with
      (if decide (x = x26 ∧ y = x26) then x3b :: replace_chain t
       else (if decide (x = x0a) then x3b else x) :: replace_chain (y :: t)).
    case_decide.
    + cbn [app]. f_equal. eapply IH; [|done]. cbn. lia.
    + cbn [app]. f_equal. apply (IH (length (y :: t)) ltac:(cbn; lia) (y :: t) eq_refl).
Qed.

Lemma split_byte_concat c l s : split_byte c (l ++ c :: s) = split_byte c l ++ split_byte c s.
Proof.
  induction l as [|b l IH]; cbn [app split_byte].
  - by rewrite decide_True.
  - rewrite IH. case_decide; [done|]. pose proof (split_byte_not_nil c l).
    by destruct (split_byte c l).
Qed.

Lemma splitCommands_app a b : splitCommands (a ++ x3b :: b) = splitCommands a ++ splitCommands b.
Proof. unfold splitCommands. by rewrite replace_chain_app, split_byte_concat, map_app, filter_app. Qed.

Section sequence.
Context {W : Type} `{FileSystem W} `{AddressParser}.
Variable config : Config.

Lemma run_parts_app (exec : bytes → @M W outcome) out l1 l2 h :
  run_parts exec out (l1 ++ l2) h =
    let '(r, h1) := run_parts exec out l1 h in
    match r with
    | Out text code => if code =? 0 then run_parts exec text l2 h1 else (r, h1)
    | OutOfFuel => (r, h1)
    end.
Proof.
  revert out h. induction l1 as [|p l1 IH]; intros out h; [done|]. cbn [app run_parts].
  unfold mbind, M_bind. destruct (exec p h) as [[text code|] h']; [|done].
  destruct (code =? 0) eqn:E; [apply IH|]. cbn. by rewrite E.
Qed.

Lemma run_parts_out (exec : bytes → @M W outcome) out l h :
  run_parts exec out l h =
    let '(r, h1) := run_parts exec [] l h in
    (match r with Out text code => Out (out ++ text) code | OutOfFuel => OutOfFuel end, h1).
Proof.
  revert out h. induction l as [|p l IH]; intros out h; cbn [run_parts].
  - cbn. by rewrite app_nil_r.
  - unfold mbind, M_bind. destruct (exec p h) as [[text code|] h']; [|done].
    destruct (code =? 0); [|done]. rewrite IH, (IH ([] ++ text)). cbn [app].
    destruct (run_parts exec [] l h') as [[t c|] h2]; [|done]. by rewrite app_assoc.
Qed.
End sequence.

(** Commands joined by a semicolon run in order and stop at the first that
    fails: a failed state update is never masked by a later command. *)
Theorem Execute_sequence {W} `{FileSystem W} `{AddressParser} config a b (h : @host W) :
  Execute config (a ++ x3b :: b) h =
    let '(r, h1) := Execute config a h in
    match r with
    | Out text 0 =>
        let '(r2, h2) := Execute config b h1 in
        (match r2 with Out text2 code => Out (text ++ text2) code | OutOfFuel => OutOfFuel end, h2)
    | _ => (r, h1)
    end.
Proof.
  unfold Execute at 1. rewrite splitCommands_app, run_parts_app.
  assert (weight (a ++ x3b :: b) = weight a + weight b)%nat as Hw
    by (by rewrite weight_app, weight_cons).
  destruct (Execute_fuel config (weight (a ++ x3b :: b)) a h) as [-> _]; [lia|].
  destruct (Execute config a h) as [[text code|] h1]; [|done].
  destruct (code =? 0) eqn:E.
  - apply Z.eqb_eq in E as ->. rewrite run_parts_out.
    destruct (Execute_fuel config (weight (a ++ x3b :: b)) b h1) as [-> _]; [lia|]. done.
  - apply Z.eqb_neq in E. by destruct code.
Qed.

(** Commands that carry no inform URL leave the files alone, unless they
    are the adoption wrapper or a factory reset: unknown commands are
    acknowledged, never executed or persisted. *)
Theorem dispatch_readonly {W} `{FileSystem W} `{AddressParser} config name args (h : @host W) :
  findInformURL args = [] →
  name ∉ [B "syswrapper.sh"; B "reset2defaults"; B "restore-default"] →
  (dispatch config name args h).2 = h.
Proof.
  intros Hu Hn. rewrite !not_elem_of_cons in Hn. destruct Hn as (Hn1 & Hn2 & Hn3 & _).
  assert (∀ text, (save_then config [] [] text h).2 = h) as Hs by done.
  assert (∀ args, findInformURL args = [] → (handleSetInform config args h).2 = h) as Hi.
  { intros args' E. unfold handleSetInform. by rewrite E. }
  assert (∀ sub rest, args = sub :: rest → findInformURL rest = []) as Ht.
  { intros sub rest ->. cbn [findInformURL] in Hu.
    destruct (_ && _) eqn:E; [by subst sub|done]. }
  unfold dispatch. rewrite (decide_False (P := name = B "syswrapper.sh")) by done.
  assert ((handleMCA config args h).2 = h) as Hm.
  { unfold handleMCA. destruct args as [|a0 [|a1 rest]]; try done.
    repeat case_decide; auto. apply Hi. by eapply Ht. }
  assert ((handleCat config args h).2 = h) as Hc.
  { unfold handleCat. destruct args as [|a0 [|a1 rest]]; try done. by repeat case_decide. }
  rewrite Hu. rewrite (decide_True (P := [] = [])) by done.
  repeat case_decide; auto. set_solver.
Qed.

(** A state update that succeeds persists exactly the merge of the stored
    state, or of an empty one when there is no file, with the URL and key of
    the command; a new key or URL leaves the store adopting, or provisioning
    while it has no key. *)
Theorem saveState_persists {W} `{FileSystemLaws W} `{AddressParser} config url key (h h' : @host W) :
  fs_valid (h_files h) → url ≠ [] ∨ key ≠ [] →
  saveState config url key h = (Ok tt, h') →
  let state := if decide (key = []) then StateProvisioning else StateAdopting in
  let update := MkStore url key [] false [] state in
  ∃ base,
    match fs_content (h_files h) (statePath config) with
    | Some d => parse_env d = Ok base
    | None => base = no_store
    end ∧
    fs_content (h_files h') (statePath config) = Some (render_env (Merge base update).1) ∧
    (reopens base update →
       State (Merge base update).1 =
         if bool_decide (pick key (AuthKey base) = []) then StateProvisioning else StateAdopting).
Proof.
  cbn zeta. intros Hv Hne. unfold saveState. rewrite decide_False by tauto.
  set (update := MkStore _ _ _ _ _ _). unfold mbind, M_bind, files at 1.
  pose proof (LoadEnv_cases (statePath config) (h_files h) Hv) as Hl.
  destruct (LoadEnv (statePath config) (h_files h)) as [loaded w]. destruct Hl as (Hv1 & Hc1 & Hl).
  destruct (match loaded with Ok _ => _ | Err _ => _ end) as [base|] eqn:Eb; [|done].
  destruct (Merge base update) as [store changed] eqn:Em. unfold files.
  cbn [h_files h_log]. pose proof (SaveEnv_cases (statePath config) store w Hv1) as Hs.
  destruct (SaveEnv (statePath config) store w) as [[[]|e] w2]; [|done].
  destruct Hs as (_ & _ & _ & Hs). intros Hok.
  assert (h_files h' = w2) as ->.
  { destruct changed; unfold mret, M_ret, log in Hok; cbn in Hok; by injection Hok as <-. }
  exists base. split_and!.
  - destruct loaded as [s|[|e]]; [|by injection Eb as <-; rewrite Hl|done].
    injection Eb as ->. by destruct Hl as (d & -> & Hd).
  - by rewrite Em.
  - intros Hr. pose proof (merge_merged base update) as Hm. rewrite Hm.
    unfold merged. cbn [State]. rewrite (lifecycle_open _ _ Hr).
    change (AuthKey update) with key. by destruct (bool_decide (pick key _ = [])).
Qed.

(** ** Witnesses *)
#[local] Existing Instance no_ipv6.

Definition sample_config : Config :=
  MkConfig (B "0.0.0.0:22") [] [] [] (B "/var/lib/state.env")
    (MkIdentity (B "02:00:00:aa:bb:cc") (B "192.0.2.10") [] (B "USW") [] []).
Definition sample_host : @host disk := MkHost ready_disk [].

Definition adopt_command : bytes :=
  B "sudo sh -c 'syswrapper.sh set-adopt http://192.0.2.1:8080/inform 00112233445566778899aabbccddeeff' && echo a b; nope x".

Example adopt_runs :
  (Execute sample_config adopt_command sample_host).1 =
    Out (line (B "Adoption request accepted: http://192.0.2.1:8080/inform") ++ line (B "a b")
         ++ okOutput) 0 ∧
  (LoadEnv (B "/var/lib/state.env") (h_files (Execute sample_config adopt_command sample_host).2)).1 =
    Ok (MkStore (B "http://192.0.2.1:8080/inform") (B "00112233445566778899aabbccddeeff") [] false []
          StateAdopting) ∧
  h_log (Execute sample_config adopt_command sample_host).2 =
    [B "adoption ssh command: syswrapper.sh"; B "adoption state updated";
     B "adoption ssh command: echo"; B "adoption ssh command: unsupported"].
Proof. vm_compute. done. Qed.

Lemma session_keeps_state_file_witness :
  state_loads (statePath sample_config)
    (h_files (handleSession sample_config [PtyOrEnv; Exec (Some adopt_command)] sample_host).2).
Proof.
  assert (state_loads (statePath sample_config) (h_files sample_host)) as Hs
    by (vm_compute; exact I).
  exact (proj1 (proj2 (session_keeps_state_file sample_config
                         [PtyOrEnv; Exec (Some adopt_command)] sample_host empty_fs_wf Hs))).
Defined.

Lemma dispatch_readonly_witness :
  (dispatch sample_config (B "rm") [B "rm"; B "-rf"; B "/"] sample_host).2 = sample_host.
Proof.
  apply dispatch_readonly; [vm_compute; reflexivity|].
  apply (bool_decide_eq_false_1 (B "rm" ∈ _)). vm_compute. reflexivity.
Defined.

Definition adopt_url : bytes := B "http://192.0.2.1:8080/inform".
Definition adopt_key : bytes := B "00112233445566778899aabbccddeeff".

Lemma saveState_persists_witness :
  ∃ h' base, saveState sample_config adopt_url adopt_key sample_host = (Ok tt, h') ∧
    fs_content (h_files h') (statePath sample_config) =
      Some (render_env (Merge base (MkStore adopt_url adopt_key [] false [] StateAdopting)).1).
Proof.
  destruct (ok_pair (saveState sample_config adopt_url adopt_key sample_host)) as [h' E].
  { vm_compute. reflexivity. }
  assert (adopt_url ≠ [] ∨ adopt_key ≠ []) as Hn by (left; discriminate).
  assert (fs_valid (h_files sample_host)) as Hv by exact empty_fs_wf.
  destruct (saveState_persists sample_config adopt_url adopt_key sample_host h' Hv Hn E)
    as (base & _ & Hc & _).
  exists h', base. split; [exact E|exact Hc].
Defined.
