(* ===== verification/InformClient.v ===== *)
(** The HTTP client for inform packets: [src/internal/inform/client.go].

    The network is a parameter: it answers one request with a response or an
    error.  [http_do] is [http.Client.Do] as far as redirects go, so that "no
    redirect is followed" is a property of the client and not an assumption.  A
    response body is the bytes a reader delivers, and whether it then fails. *)
From S2P Require Import Prelude GoStrings GoUrl GoNet InformCodec.

Definition DefaultMaxResponseBytes : Z := 4 * 1024 * 1024.
Definition StatusOK : Z := 200.
Definition Second : Z := 1000000000.

Record http_request := MkRequest {
  q_method : bytes;
  q_url : bytes;
  q_headers : list (bytes * bytes);
  q_body : bytes;
}.

Record http_response := MkHttpResponse {
  h_status : Z;
  h_location : bytes;        (* the Location header, empty when absent *)
  h_body : bytes;
  h_body_fails : bool;       (* reading fails behind the body *)
}.

Inductive redirect_policy := FollowRedirects | UseLastResponse.

Record HTTPClient := MkHTTPClient {
  hc_Timeout : Z;
  hc_LocalAddr : option bytes;
  hc_CheckRedirect : redirect_policy;
}.

Record Client := MkClient {
  URL : bytes;
  MAC : bytes;
  Key : bytes;
  HTTP : option HTTPClient;
  LocalAddr : option bytes;
  ClientOptions : Options;
  MaxResponseBytes : Z;
}.

Record Response := MkInformResponse {
  StatusCode : Z;
  RawBody : bytes;
  JSONBody : bytes;
  ResponsePacket : option Packet;
}.

(** The network: who connects from where, and what comes back. *)
Class Transport := {
  roundtrip : HTTPClient → http_request → result error http_response;
}.

Section client.
Context `{InformCrypto} `{AddressParser} `{Transport}.

Definition redirect_status (status : Z) : bool :=
  bool_decide (status ∈ [301; 302; 303; 307; 308]).

(** [http.Client.Do], with the requests it made; [n] redirects are left.  A
    followed redirect keeps the method and body for 307 and 308 and becomes
    a GET otherwise. *)
Fixpoint http_do (n : nat) (client : HTTPClient) (req : http_request)
    : list http_request * result error http_response :=
  match roundtrip client req with
  | Err e => ([req], Err e)
  | Ok resp =>
      if redirect_status (h_status resp) && negb (bool_decide (h_location resp = [])) then
        match hc_CheckRedirect client, n with
        | UseLastResponse, _ => ([req], Ok resp)
        | FollowRedirects, O => ([req], Err "stopped after 10 redirects"%stdpp)
        | FollowRedirects, S n' =>
            let next :=
              if bool_decide (h_status resp ∈ [307; 308])
              then MkRequest (q_method req) (h_location resp) (q_headers req) (q_body req)
              else MkRequest (B "GET") (h_location resp) (q_headers req) [] in
            let '(reqs, r) := http_do n' client next in
            (req :: reqs, r)
        end
      else ([req], Ok resp)
  end.

Definition withoutInformRedirects (client : HTTPClient) : HTTPClient :=
  MkHTTPClient (hc_Timeout client) (hc_LocalAddr client) UseLastResponse.

Definition defaultHTTPClient (localIP : option bytes) : HTTPClient :=
  MkHTTPClient (10 * Second)
    (match localIP with Some ip => ip_to4 ip | None => None end) FollowRedirects.

(** [io.ReadAll] of an [io.LimitedReader]; a limit of 2^63-1 wraps and reads
    nothing. *)
Definition readLimitedBody (body : bytes) (fails : bool) (maxBytes : Z) : result error bytes :=
  let limit := Z.to_nat (wrap64 (maxBytes + 1)) in
  let data := take limit body in
  if fails && (length body <? limit)%nat then Err "read response body"
  else if maxBytes <? zlen data then Err "inform response body exceeds limit"
  else Ok data.

Definition inform_headers : list (bytes * bytes) :=
  [(B "User-Agent", B "AirControl Agent v1.0"); (B "Accept", B "application/x-binary");
   (B "Content-Type", B "application/x-binary")].

(** The requests that left, the response if any, and the error if any. *)
Definition send_result : Type := list http_request * option Response * result error unit.

Definition receive (c : Client) (reqs : list http_request) (httpResp : http_response) : send_result :=
  let maxResponseBytes :=
    if MaxResponseBytes c <=? 0 then DefaultMaxResponseBytes else MaxResponseBytes c in
  match readLimitedBody (h_body httpResp) (h_body_fails httpResp) maxResponseBytes with
  | Err _ => (reqs, None, Err "read inform response body"%stdpp)
  | Ok raw =>
      if negb (h_status httpResp =? StatusOK) || (zlen raw =? 0)
      then (reqs, Some (MkInformResponse (h_status httpResp) raw [] None), Ok tt)
      else
        match DecodeControllerResponse raw (Key c) (o_gcm (ClientOptions c)) with
        | Ok (packet, decoded) =>
            (reqs, Some (MkInformResponse (h_status httpResp) raw decoded (Some packet)), Ok tt)
        | Err (packet, _) =>
            (reqs, Some (MkInformResponse (h_status httpResp) raw [] packet),
             Err "decode inform response"%stdpp)
        end
  end.

Definition Send (rand : Z → option bytes) (c : Client) (payload : bytes) : send_result :=
  if decide (URL c = []) then ([], None, Err "inform URL is required"%stdpp)
  else
    match EncodeJSON rand (MAC c) (Key c) payload (ClientOptions c) with
    | Err _ => ([], None, Err "encode inform request"%stdpp)
    | Ok body =>
        match url_parse ipv6_literal (URL c) with
        | None => ([], None, Err "create inform request"%stdpp)
        | Some _ =>
            let req := MkRequest (B "POST") (URL c) inform_headers body in
            let client :=
              match HTTP c with Some cl => cl | None => defaultHTTPClient (LocalAddr c) end in
            match http_do 10 (withoutInformRedirects client) req with
            | (reqs, Err _) => (reqs, None, Err "send inform request"%stdpp)
            | (reqs, Ok httpResp) => receive c reqs httpResp
            end
        end
    end.

(** ** One request, no redirect *)
Lemma http_do_no_redirect n client req :
  hc_CheckRedirect client = UseLastResponse →
  http_do n client req = ([req], roundtrip client req).
Proof.
  intros Hc. destruct n; cbn [http_do]; destruct (roundtrip client req) as [resp|e]; try done;
    rewrite Hc; by destruct (_ && _).
Qed.

(** The body is taken whole, or not at all. *)
Lemma readLimitedBody_ok body fails maxBytes data :
  0 < maxBytes < int64_max →
  readLimitedBody body fails maxBytes = Ok data ↔ data = body ∧ fails = false ∧ zlen body ≤ maxBytes.
Proof.
  unfold readLimitedBody, int64_max. intros Hm.
  assert (wrap64 (maxBytes + 1) = maxBytes + 1) as Hw by (unfold wrap64; rewrite Z.mod_small; lia).
  rewrite Hw. split.
  - intros Hr. destruct (fails && _) eqn:Ef; [done|].
    destruct (maxBytes <? _) eqn:El; [done|]. injection Hr as <-. apply Z.ltb_ge in El.
    assert (length body < Z.to_nat (maxBytes + 1))%nat as Hl.
    { unfold zlen in El. rewrite length_take in El. lia. }
    rewrite take_ge in * by lia. split_and!; [done| |done].
    destruct fails; [|done]. cbn in Ef. apply Nat.ltb_ge in Ef. lia.
  - intros (-> & -> & Hl). cbn [andb]. rewrite take_ge by (unfold zlen in Hl; lia).
    by rewrite (proj2 (Z.ltb_ge _ _) Hl).
Qed.

(** The limit of a response's body. *)
Definition response_limit (c : Client) : Z := if MaxResponseBytes c <=? 0 then 4194304 else MaxResponseBytes c.
(** What a body of a response says under the request's key and cipher. *)
Definition accepted (c : Client) (resp : http_response) (r : Response) : Prop :=
  h_body_fails resp = false ∧ zlen (h_body resp) ≤ response_limit c ∧
  StatusCode r = h_status resp ∧ RawBody r = h_body resp ∧
  ((h_status resp = 200 ∧ h_body resp ≠ [] ∧
    ∃ p, ResponsePacket r = Some p ∧
      DecodeControllerResponse (h_body resp) (Key c) (o_gcm (ClientOptions c)) = Ok (p, JSONBody r))
   ∨ (JSONBody r = [] ∧ ResponsePacket r = None ∧ (h_status resp ≠ 200 ∨ h_body resp = []))).

Lemma receive_accepted c reqs resp reqs' r :
  MaxResponseBytes c < int64_max →
  receive c reqs resp = (reqs', Some r, Ok tt) ↔ reqs' = reqs ∧ accepted c resp r.
Proof.
  intros Hmax. unfold receive, accepted. change (if MaxResponseBytes c <=? 0 then _ else _) with (response_limit c).
  assert (0 < response_limit c < int64_max) as Hlim.
  { unfold response_limit, int64_max in *. destruct (MaxResponseBytes c <=? 0) eqn:E; lia. }
  pose proof (λ data, readLimitedBody_ok (h_body resp) (h_body_fails resp) (response_limit c) data Hlim) as Hr.
  destruct (readLimitedBody _ _ _) as [raw|e].
  2: { split; [done|]. intros (_ & Hf & Hl & _). discriminate (proj2 (Hr _) (conj eq_refl (conj Hf Hl))). }
  destruct (proj1 (Hr raw) eq_refl) as (-> & Hf & Hl). clear Hr. unfold StatusOK.
  assert (zlen (h_body resp) = 0 ↔ h_body resp = []) as Hz.
  { unfold zlen. rewrite <- length_zero_iff_nil. lia. }
  assert ((zlen (h_body resp) =? 0) = bool_decide (h_body resp = [])) as ->.
  { apply eq_bool_prop_intro. by rewrite bool_decide_spec, Is_true_true, Z.eqb_eq. }
  destruct (Z.eqb_spec (h_status resp) 200) as [Es|Es], (bool_decide_reflect (h_body resp = [])) as [Ez|Ez]; cbn [negb orb].
  2: { destruct (DecodeControllerResponse _ _ _) as [[p d]|[p e]] eqn:Ed; split.
    - intros [= <- <-]. cbn. split_and!; try done. left. split_and!; try done. by exists p.
    - intros (-> & _ & _ & Hs & Hw & [(_ & _ & q & Hp & [= <- Hd])|(_ & _ & [?|?])]); [|done..].
      destruct r. cbn in *. by subst.
    - done.
    - intros (_ & _ & _ & _ & _ & [(_ & _ & q & _ & [=])|(_ & _ & [?|?])]); done. }
  all: split; [intros [= <- <-]; cbn; split_and!; try done; right; auto|].
  all: intros (-> & _ & _ & Hs & Hw & [(? & ? & _)|(Hj & Hp & _)]); [done|]; destruct r; cbn in *; by subst.
Qed.
End client.

(** One heartbeat makes at most one HTTP request, a POST of the encoded
    packet to the configured URL, whatever redirects the controller answers
    with and whatever policy the caller's HTTP client has. *)
Theorem Send_single_request `{InformCrypto} `{AddressParser} `{Transport} rand c payload :
  let '(reqs, _, _) := Send rand c payload in
  reqs = [] ∨
  ∃ body, EncodeJSON rand (MAC c) (Key c) payload (ClientOptions c) = Ok body ∧
    reqs = [MkRequest (B "POST") (URL c) inform_headers body].
Proof.
  unfold Send. case_decide; [by left|].
  destruct (EncodeJSON _ _ _ _ _) as [body|e]; [|by left].
  destruct (url_parse _ _); [|by left].
  rewrite http_do_no_redirect by done.
  destruct (roundtrip _ _) as [resp|e]; [|right; eauto].
  unfold receive. destruct (readLimitedBody _ _ _) as [raw|e]; [|right; eauto].
  destruct (_ || _); [right; eauto|].
  destruct (DecodeControllerResponse _ _ _) as [[p d]|[p e]]; right; eauto.
Qed.

(** C20: which responses a heartbeat accepts.  A call succeeds with a response
    exactly if its one request, the POST of the encoded packet, was answered
    without following a redirect, the whole body was read without an error and
    is within the limit ([MaxResponseBytes], or 4 MiB if that is not positive),
    and it is a 200 answer that decodes under the request's own key and cipher,
    or an answer with another status or an empty body, which gives an empty
    document. *)
Theorem Send_accepts `{InformCrypto} `{AddressParser} `{Transport} rand c payload reqs r :
  MaxResponseBytes c < int64_max →
  Send rand c payload = (reqs, Some r, Ok tt) ↔
  URL c ≠ [] ∧ is_Some (url_parse ipv6_literal (URL c)) ∧
  ∃ body resp,
    EncodeJSON rand (MAC c) (Key c) payload (ClientOptions c) = Ok body ∧
    reqs = [MkRequest (B "POST") (URL c) inform_headers body] ∧
    roundtrip (withoutInformRedirects (default (defaultHTTPClient (LocalAddr c)) (HTTP c)))
      (MkRequest (B "POST") (URL c) inform_headers body) = Ok resp ∧
    h_body_fails resp = false ∧
    zlen (h_body resp) ≤ (if MaxResponseBytes c <=? 0 then 4194304 else MaxResponseBytes c) ∧
    StatusCode r = h_status resp ∧ RawBody r = h_body resp ∧
    ((h_status resp = 200 ∧ h_body resp ≠ [] ∧
      ∃ p, ResponsePacket r = Some p ∧
        DecodeControllerResponse (h_body resp) (Key c) (o_gcm (ClientOptions c)) = Ok (p, JSONBody r))
     ∨ (JSONBody r = [] ∧ ResponsePacket r = None ∧ (h_status resp ≠ 200 ∨ h_body resp = []))).
Proof.
  intros Hmax. unfold Send. case_decide as Hu; [split; [done|by intros [? _]]|].
  destruct (EncodeJSON _ _ _ _ _) as [body|e]; [|split; [done|intros (_ & _ & ? & ? & [=] & _)]].
  destruct (url_parse _ _) as [u|]; [|split; [done|intros (_ & [? [=]] & _)]].
  rewrite http_do_no_redirect by done. change (match HTTP c with Some cl => cl | None => _ end) with
    (default (defaultHTTPClient (LocalAddr c)) (HTTP c)).
  destruct (roundtrip _ _) as [resp|e] eqn:Et.
  - rewrite receive_accepted by done. split.
    + intros [-> Ha]. split; [done|]. split; [by eexists|]. exists body, resp. split_and!; [done..|apply Ha|apply Ha|apply Ha|apply Ha|apply Ha].
    + intros (_ & _ & body' & resp' & [= <-] & -> & Ht & Ha). rewrite Et in Ht. injection Ht as <-. by split.
  - split; [done|]. intros (_ & _ & body' & resp' & [= <-] & _ & Ht & _). by rewrite Et in Ht.
Qed.

(** ** Witness: the toy cipher and a controller that redirects *)
#[local] Existing Instance Toy.crypto.
#[local] Existing Instance no_ipv6.

Definition sample_reply : bytes :=
  Toy.packet (MkOptions false false) (B "ok").
Definition answering : Transport := {|
  roundtrip := λ cl req,
    if decide (q_url req = B "http://192.0.2.1:8080/inform")
    then Ok (MkHttpResponse 200 [] sample_reply false)
    else Ok (MkHttpResponse 302 (B "http://evil.example/") [] false) |}.
#[local] Existing Instance answering.

Definition sample_client (url : bytes) : Client :=
  MkClient url Toy.mac Toy.key (Some (MkHTTPClient 0 None FollowRedirects)) None
    (MkOptions false false) 0.

Example redirect_not_followed :
  let '(reqs, r, err) := Send Toy.rand (sample_client (B "http://192.0.2.2/inform")) (B "x") in
  length reqs = 1%nat ∧ StatusCode <$> r = Some 302 ∧ err = Ok tt.
Proof. vm_compute. done. Qed.

Lemma Send_accepts_witness :
  ∃ reqs r, Send Toy.rand (sample_client (B "http://192.0.2.1:8080/inform")) (B "x")
              = (reqs, Some r, Ok tt) ∧
    JSONBody r = B "ok" ∧ zlen (RawBody r) ≤ 4194304.
Proof.
  destruct (Send Toy.rand (sample_client (B "http://192.0.2.1:8080/inform")) (B "x"))
    as [[reqs r] err] eqn:E.
  pose proof E as E0.
  vm_compute in E. injection E as <- <- <-. do 2 eexists. split; [reflexivity|].
  split; [reflexivity|].
  assert (MaxResponseBytes (sample_client (B "http://192.0.2.1:8080/inform")) < int64_max) as Hm by reflexivity.
  destruct (proj1 (Send_accepts Toy.rand _ (B "x") _ _ Hm) E0) as (_ & _ & body & resp & _ & _ & _ & _ & Hl & _ & -> & _).
  exact Hl.
Defined.
