(* ===== verification/Daemon.v ===== *)
(** The heartbeat loop of the daemon: [inform.go], [adoption.go],
    [serve_heartbeat.go], [serve_presence.go], [inform_schedule.go] and the
    status record of [status_persist.go], all in [src/cmd/unifi-stubd].

    The state file and the status file live in a [FileSystem].  The network,
    the random sources, the wall clock, the payload renderer and the JSON
    encoder of the status record are the environment of a heartbeat.  The log
    output is not modelled. *)
From S2P Require Import Prelude Identity GoStrings GoUtf8 GoJson GoUrl GoNet InformCodec InformSchedule.
From S2P Require Import InformClient AtomicFile AdoptionStore AdoptionEnv AdoptionResponse Discovery.

(** ** inform.go *)
Record informCipherStatus := MkCipherStatus {
  cs_RequestFlags : Z;
  cs_KeySource : bytes;
  cs_ResponseBodyPresent : bool;
  cs_ResponsePacketDecoded : bool;
  cs_ResponseFlags : Z;
}.
Definition no_cipher : informCipherStatus := MkCipherStatus 0 [] false false 0.

Definition authKeyBytes (authKey : bytes) : result error bytes :=
  if decide (authKey = []) then Ok []
  else if zlen authKey =? 16 then
    if IsDefaultAuthKey authKey then Err "individual authkey equals public default key"
    else Ok authKey
  else
    match hex_decode authKey with
    | None => Err "decode adoption authkey"
    | Some key =>
        if negb (zlen key =? 16) then Err "decoded authkey has the wrong length"
        else if IsDefaultAuthKey key then Err "individual authkey equals public default key"
        else Ok key
    end.

Definition informAuthKey (store : Store) : result error bytes :=
  if negb (bool_decide (AuthKey store = [])) then
    wrap_err "invalid persisted adoption authkey" (authKeyBytes (AuthKey store))
  else if UseAESGCM store then Err "default authkey is not permitted with adopted cipher state"
  else if bool_decide (State store ∈ [[]; StateFactory; StateDiscovered; StateProvisioning])
  then Ok DefaultAuthKey
  else if bool_decide (State store ∈ [StateAdopting; StateConnected; StateFailed])
  then Err "default authkey is not permitted for adoption state"
  else Err "default authkey is not permitted for unknown adoption state".

Definition requestFlags (options : Options) : Z :=
  let flags := FlagEncrypted in
  let flags := if o_zlib options then Z.lor flags FlagZlib else flags in
  if o_gcm options then Z.lor flags FlagEncryptedGCM else flags.

Record sent := MkSent {
  sn_requests : list http_request;
  sn_response : option Response;
  sn_cipher : informCipherStatus;
  sn_error : result error unit;
}.

Section send.
Context `{InformCrypto} `{AddressParser}.

Definition sendInform (net : Transport) (rand : Z → option bytes) (mac url : bytes)
    (store : Store) (payload : bytes) (sourceIP : option bytes) : sent :=
  match informAuthKey store with
  | Err e => MkSent [] None no_cipher (Err e)
  | Ok key =>
      let keySource := if decide (AuthKey store = []) then B "default" else B "adopted" in
      let options :=
        MkOptions true (negb (bool_decide (AuthKey store = [])) && UseAESGCM store) in
      let '(reqs, resp, err) :=
        Send rand (MkClient url mac key None sourceIP options 0) payload in
      let status :=
        match resp with
        | None => MkCipherStatus (requestFlags options) keySource false false 0
        | Some r =>
            MkCipherStatus (requestFlags options) keySource
              (negb (bool_decide (RawBody r = [])))
              (match ResponsePacket r with Some _ => is_ok err | None => false end)
              (match ResponsePacket r with Some p => p_flags p | None => 0 end)
        end in
      MkSent reqs resp status (wrap_err "send inform" err)
  end.
End send.

(** ** adoption.go *)
Definition effectiveInformURL (fallback : bytes) (store : Store) : bytes :=
  if decide (InformURL store = []) then fallback else InformURL store.

Definition adoptionStoreAlreadyFactory (store : Store) : bool :=
  bool_decide (AuthKey store = []) && bool_decide (InformURL store = [])
  && bool_decide (CFGVersion store = []) && negb (UseAESGCM store)
  && bool_decide (Version store = [])
  && (bool_decide (State store = []) || bool_decide (State store = StateFactory)).

(** The reset fields of the response that [updateAdoptionState] fills in. *)
Definition set_reset (applied : bool) (disposition : bytes) (r : ControllerResponse)
    : ControllerResponse :=
  MkResponse (r_Type r) (r_Store r) (r_HasStateUpdate r) (r_HasMgmtCFG r) (r_HasSystemCFG r)
    (r_SystemCFGBytes r) (r_SystemCFGKeys r) (r_IntervalSeconds r) (r_IncludeBlocks r)
    (r_ExcludeBlocks r) (r_UDAPIBlocks r) (r_BlockSelectionSet r) (r_BlockSelectionLimited r)
    (r_Immediate r) (r_ServerTimeUTC r) (r_ServerTimeSet r) (r_ResetRequested r) applied
    (r_ResetReason r) disposition (r_Ignored r) (r_IgnoredReason r).

Section state.
Context `{AddressParser} {W : Type} `{FileSystem W}.

Definition loadAdoptionState (path : bytes) (w : W) : result error Store * W :=
  match LoadEnv path w with
  | (Ok store, w') => (Ok store, w')
  | (Err LoadNotExist, w') => (Ok (set_State StateFactory no_store), w')
  | (Err (LoadError _), w') => (Err "load adoption state"%stdpp, w')
  end.

(** The response with its reset fields, the store to go on with, the error,
    and the files. *)
Definition updateAdoptionState (path : bytes) (store : Store) (response : ControllerResponse)
    (usedGCM : bool) (w : W) : ControllerResponse * Store * result error unit * W :=
  if r_ResetRequested response then
    match ResetEnv path w with
    | (Err _, _, w') =>
        (set_reset false (B "failed") response, store, Err "persist controller reset"%stdpp, w')
    | (Ok _, resetStore, w') =>
        let disposition :=
          if adoptionStoreAlreadyFactory store then B "already_factory" else B "applied" in
        (set_reset true disposition response, resetStore, Ok tt, w')
    end
  else if negb (r_HasStateUpdate response) then
    if usedGCM && negb (bool_decide (AuthKey store = [])) && negb (UseAESGCM store) then
      let updated := set_UseAESGCM true store in
      match SaveEnv path updated w with
      | (Err _, w') => (response, store, Err "persist adoption cipher state"%stdpp, w')
      | (Ok _, w') => (response, updated, Ok tt, w')
      end
    else (response, store, Ok tt, w)
  else
    let update := r_Store response in
    let update := if usedGCM then set_UseAESGCM true update else update in
    let '(updated, changed) := Merge store update in
    if changed : bool then
      match SaveEnv path updated w with
      | (Err _, w') => (response, store, Err "persist controller adoption state"%stdpp, w')
      | (Ok _, w') => (response, updated, Ok tt, w')
      end
    else (response, updated, Ok tt, w).
End state.

Definition cipherStatusText (cipher : informCipherStatus) : bytes :=
  if cs_RequestFlags cipher =? 0 then []
  else if negb (Z.land (cs_RequestFlags cipher) FlagEncryptedGCM =? 0) then B "aes-gcm"
  else B "aes-cbc".

(** ** The status record (status_types.go, status_persist.go, status_build.go) *)
Definition adoptionStateText (store : Store) : bytes :=
  if negb (bool_decide (State store = [])) then State store
  else if negb (bool_decide (AuthKey store = [])) then StateProvisioning
  else StateFactory.

(** device_payload.go *)
Definition controllerInformState (store : Store) : InformState :=
  if decide (AuthKey store = []) then InformStateDefault
  else if decide (State store = StateConnected) then InformStateManaged
  else InformStateUnknown.

Record lastInformStatus := MkLast {
  li_Time : Time;
  li_URL : bytes;
  li_StatusCode : Z;
  li_ControllerState : bytes;
  li_WireState : Z;
  li_WireStateName : bytes;
  li_CFGVersion : bytes;
  li_Version : bytes;
  li_Cipher : bytes;
  li_CipherStatus : informCipherStatus;
  li_ResponseJSONParsed : bool;
  li_RawBytes : Z;
  li_JSONBytes : Z;
  li_Schedule : option ScheduleDecision;
  li_Response : ControllerResponse;   (* the fields [applyResponseStatus] copies *)
  li_ResponseType : bytes;
  li_ControllerTimeOffset : Z;
  li_ControllerTimeSet : bool;
  li_Error : option error;
}.

Definition newLastInformStatus (now : Time) (url : bytes) (store : Store) : lastInformStatus :=
  MkLast now url 0 (adoptionStateText store)
    (controllerInformState store)
    (InformState_String (controllerInformState store))
    (CFGVersion store) (Version store) [] no_cipher false 0 0 None (new_response []) [] 0 false None.

(** Field updates of the status record. *)
Definition applyInformScheduleStatus (d : ScheduleDecision) (l : lastInformStatus) : lastInformStatus :=
  MkLast (li_Time l) (li_URL l) (li_StatusCode l) (li_ControllerState l) (li_WireState l)
    (li_WireStateName l) (li_CFGVersion l) (li_Version l) (li_Cipher l) (li_CipherStatus l)
    (li_ResponseJSONParsed l) (li_RawBytes l) (li_JSONBytes l) (Some d) (li_Response l)
    (li_ResponseType l) (li_ControllerTimeOffset l) (li_ControllerTimeSet l) (li_Error l).
Definition applyControllerClockStatus (clock : option ControllerClock) (l : lastInformStatus)
    : lastInformStatus :=
  match clock with
  | None => l
  | Some _ =>
      MkLast (li_Time l) (li_URL l) (li_StatusCode l) (li_ControllerState l) (li_WireState l)
        (li_WireStateName l) (li_CFGVersion l) (li_Version l) (li_Cipher l) (li_CipherStatus l)
        (li_ResponseJSONParsed l) (li_RawBytes l) (li_JSONBytes l) (li_Schedule l) (li_Response l)
        (li_ResponseType l) (OffsetSeconds clock) (ClockSet clock) (li_Error l)
  end.
Definition set_li_parsed (l : lastInformStatus) : lastInformStatus :=
  MkLast (li_Time l) (li_URL l) (li_StatusCode l) (li_ControllerState l) (li_WireState l)
    (li_WireStateName l) (li_CFGVersion l) (li_Version l) (li_Cipher l) (li_CipherStatus l)
    true (li_RawBytes l) (li_JSONBytes l) (li_Schedule l) (li_Response l)
    (li_ResponseType l) (li_ControllerTimeOffset l) (li_ControllerTimeSet l) (li_Error l).
Definition set_li_store (store : Store) (l : lastInformStatus) : lastInformStatus :=
  MkLast (li_Time l) (li_URL l) (li_StatusCode l) (adoptionStateText store) (li_WireState l)
    (li_WireStateName l) (CFGVersion store) (Version store) (li_Cipher l) (li_CipherStatus l)
    (li_ResponseJSONParsed l) (li_RawBytes l) (li_JSONBytes l) (li_Schedule l) (li_Response l)
    (li_ResponseType l) (li_ControllerTimeOffset l) (li_ControllerTimeSet l) (li_Error l).
Definition applyResponseStatus (r : ControllerResponse) (l : lastInformStatus) : lastInformStatus :=
  MkLast (li_Time l) (li_URL l) (li_StatusCode l) (li_ControllerState l) (li_WireState l)
    (li_WireStateName l) (li_CFGVersion l) (li_Version l) (li_Cipher l) (li_CipherStatus l)
    (li_ResponseJSONParsed l) (li_RawBytes l) (li_JSONBytes l) (li_Schedule l) r
    (r_Type r) (li_ControllerTimeOffset l) (li_ControllerTimeSet l) (li_Error l).

(** The record [recordLastInform] writes. *)
Definition final_status (l : lastInformStatus) (statusCode : Z) (responseType : bytes)
    (cipher : informCipherStatus) (rawBytes jsonBytes : Z) (err : option error) : lastInformStatus :=
  MkLast (li_Time l) (li_URL l) statusCode (li_ControllerState l) (li_WireState l)
    (li_WireStateName l) (li_CFGVersion l) (li_Version l) (cipherStatusText cipher) cipher
    (li_ResponseJSONParsed l) rawBytes jsonBytes (li_Schedule l) (li_Response l)
    responseType (li_ControllerTimeOffset l) (li_ControllerTimeSet l)
    (match err with Some e => Some e | None => li_Error l end).

(** ** serve_heartbeat.go *)
Definition controllerIntervalDuration (seconds : Z) : Z :=
  if seconds <=? 0 then 0
  else
    let maximumDuration := int64_max in
    if Z.quot maximumDuration InformSchedule.Second <? seconds then maximumDuration
    else wrap64 (seconds * InformSchedule.Second).

(** What a heartbeat finds outside the process. *)
Record environment := MkEnv {
  e_net : Transport;
  e_rand : Z → option bytes;
  e_random : Random;
  e_now : Time;
  e_marshal : lastInformStatus → option bytes;
}.

(** The trackers the loop keeps between heartbeats. *)
Record runtime := MkRuntime {
  rt_schedule : Schedule;
  rt_clock : ControllerClock;
  rt_blocks : BlockSelection;
}.

Section heartbeat.
Context `{InformCrypto} `{AddressParser} {W : Type} `{FileSystem W}.
Variables (mac informURL statePath statusPath : bytes) (sourceIP : option bytes).
Variable policy : ControllerReportingPolicy.

Definition saveLastInformStatus (env : environment) (last : lastInformStatus) (w : W)
    : result error unit * W :=
  if decide (statusPath = []) then (Err "status path is required"%stdpp, w)
  else
    match e_marshal env last with
    | None => (Err "marshal runtime status"%stdpp, w)
    | Some data =>
        let '(r, w') := fs_write statusPath (data ++ [x0a]) 0x180 w in
        (wrap_err "write runtime status" r, w')
    end.

(** A failed status write is only logged. *)
Definition recordLastInform (env : environment) (last : lastInformStatus) (statusCode : Z)
    (responseType : bytes) (cipher : informCipherStatus) (rawBytes jsonBytes : Z)
    (err : option error) (w : W) : W :=
  (saveLastInformStatus env
     (final_status last statusCode responseType cipher rawBytes jsonBytes err) w).2.

Definition heartbeat_result : Type := result error ScheduleDecision * runtime * W.

(** The part behind a parsed controller response. *)
Definition apply_response (env : environment) (store : Store) (rt : runtime)
    (resp : Response) (cipher : informCipherStatus) (last : lastInformStatus)
    (controllerResponse : ControllerResponse) (w : W) : heartbeat_result :=
  let rawBytes := zlen (RawBody resp) in
  let jsonBytes := zlen (JSONBody resp) in
  let last := set_li_parsed last in
  let usedGCM := negb (Z.land (cs_RequestFlags cipher) FlagEncryptedGCM =? 0) in
  let '(controllerResponse, updatedStore, stateErr, w) :=
    updateAdoptionState statePath store controllerResponse usedGCM w in
  match stateErr with
  | Err e =>
      let '(schedule, d) := Failure (rt_schedule rt) (e_random env) in
      let last := applyInformScheduleStatus d last in
      let last := set_li_store store last in
      let last := applyResponseStatus controllerResponse last in
      let last := applyControllerClockStatus (Some (rt_clock rt)) last in
      let w := recordLastInform env last (StatusCode resp) (li_ResponseType last) cipher
                 rawBytes jsonBytes (Some e) w in
      (Err (String.append "apply controller lifecycle response: " e),
       MkRuntime schedule (rt_clock rt) (rt_blocks rt), w)
  | Ok _ =>
      let store := updatedStore in
      let '(schedule, d) :=
        SuccessWithOptions (rt_schedule rt)
          (controllerIntervalDuration (r_IntervalSeconds controllerResponse))
          (r_Immediate controllerResponse) in
      let '(schedule, d, clock, blocks) :=
        if r_ResetApplied controllerResponse then
          let '(schedule, d) := Reset schedule in
          (schedule, d, MkControllerClock 0 false, MkSelection [] [])
        else (schedule, d, rt_clock rt, rt_blocks rt) in
      let last := applyInformScheduleStatus d last in
      let last := set_li_store store last in
      let last := applyResponseStatus controllerResponse last in
      let clock :=
        if pol_ControllerClock policy && bool_decide (r_Type controllerResponse = B "noop")
           && r_ServerTimeSet controllerResponse
        then ClockUpdate clock (r_ServerTimeUTC controllerResponse) (e_now env)
        else clock in
      let last := applyControllerClockStatus (Some clock) last in
      let blocks :=
        if pol_BlockSelection policy && r_BlockSelectionSet controllerResponse
        then block_selection controllerResponse else blocks in
      let w := recordLastInform env last (StatusCode resp) (li_ResponseType last) cipher
                 rawBytes jsonBytes None w in
      (Ok d, MkRuntime schedule clock blocks, w)
  end.

(** A heartbeat that ends in a backoff without an error of its own. *)
Definition back_off (env : environment) (rt : runtime) (last : lastInformStatus)
    (statusCode : Z) (cipher : informCipherStatus) (rawBytes jsonBytes : Z) (e : error) (w : W)
    : heartbeat_result :=
  let '(schedule, d) := Failure (rt_schedule rt) (e_random env) in
  let last := applyInformScheduleStatus d last in
  let w := recordLastInform env last statusCode [] cipher rawBytes jsonBytes (Some e) w in
  (Ok d, MkRuntime schedule (rt_clock rt) (rt_blocks rt), w).

Definition sendInformHeartbeat (env : environment) (store : Store) (payload : bytes)
    (rt : runtime) (w : W) : heartbeat_result :=
  if decide (informURL = []) then (Ok (Current (rt_schedule rt)), rt, w)
  else
    let s := sendInform (e_net env) (e_rand env) mac informURL store payload sourceIP in
    let cipher := sn_cipher s in
    let last :=
      applyControllerClockStatus (Some (rt_clock rt))
        (newLastInformStatus (e_now env) informURL store) in
    match sn_error s, sn_response s with
    | Err e, None => back_off env rt last 0 cipher 0 0 e w
    | Err e, Some resp =>
        back_off env rt last (StatusCode resp) cipher (zlen (RawBody resp)) (zlen (JSONBody resp)) e w
    | Ok _, None => (Ok (Current (rt_schedule rt)), rt, w)   (* not reached: [sendInform_response] *)
    | Ok _, Some resp =>
        if negb (StatusCode resp =? StatusOK)
        then back_off env rt last (StatusCode resp) cipher (zlen (RawBody resp)) 0
               "inform response status" w
        else if zlen (RawBody resp) =? 0 then
          let '(schedule, d) := Success (rt_schedule rt) 0 in
          let last := applyInformScheduleStatus d last in
          let w := recordLastInform env last (StatusCode resp) [] cipher (zlen (RawBody resp)) 0 None w in
          (Ok d, MkRuntime schedule (rt_clock rt) (rt_blocks rt), w)
        else
          match ParseControllerResponseInfo (JSONBody resp) with
          | Err e =>
              back_off env rt last (StatusCode resp) cipher (zlen (RawBody resp))
                (zlen (JSONBody resp)) e w
          | Ok controllerResponse => apply_response env store rt resp cipher last controllerResponse w
          end
    end.
End heartbeat.

(** ** inform_schedule.go *)
Record scheduleFlags := MkScheduleFlags {
  fl_interval : Z; fl_controllerIntervalMin : Z; fl_controllerIntervalMax : Z;
  fl_informBackoffMax : Z; fl_informBackoffJitterPercent : Z;
}.
Definition informScheduleConfig (flags : scheduleFlags) (p : InformSchedulePolicy) : ScheduleConfig :=
  MkScheduleConfig (fl_interval flags) (fl_controllerIntervalMin flags)
    (fl_controllerIntervalMax flags) (isp_FirmwareMinimum p) (isp_Supported p)
    (fl_informBackoffMax flags) (fl_informBackoffJitterPercent flags).
Definition validateInformSchedule (flags : scheduleFlags) (p : InformSchedulePolicy)
    : result error unit :=
  wrap_err "invalid inform schedule" (ValidateScheduleConfig (informScheduleConfig flags p)).

(** ** serve_presence.go *)
Record presence := MkPresence {
  pr_mac : bytes; pr_ip : bytes; pr_controller : bytes; pr_state : bytes; pr_status : bytes;
  pr_source : option bytes; pr_once : bool; pr_policy : ControllerReportingPolicy;
  pr_discoverySkipped : bool; pr_discoveryInterface : bytes; pr_discoveryTargets : list bytes;
}.

(** What one turn of the loop finds: the heartbeat's environment, the seconds
    since the start, the renderer ([payloadForIdentity] behind the ports it
    observes), and whether a signal ends the wait. *)
Record turn := MkTurn {
  t_env : environment;
  t_elapsed : Z;
  t_payload : bytes → Store → Z → BlockSelection → Z → result error bytes;
  t_stop : bool;
}.

(** [runtimeUptime] of a started daemon. *)
Definition runtimeUptime (elapsed : Z) : Z :=
  let uptime := wrap64 (elapsed + 1) in
  if uptime <? 1 then 1 else uptime.

(** How the loop goes on: with the announcement and trackers, or how it ended. *)
Inductive turn_result (W : Type) :=
| Continue (ann : Announcement) (rt : runtime) (delay : Z) (w : W)
| Stopped (w : W)
| Died (e : error) (w : W).
Arguments Continue {W}. Arguments Stopped {W}. Arguments Died {W}.

Definition announce (ann : Announcement) (default : bool) (uptime sequence : Z) : Announcement :=
  MkAnnouncement (a_MAC ann) (a_IP ann) (a_Model ann) (a_Version ann) (a_Hostname ann)
    default uptime sequence.

Section presence.
Context `{InformCrypto} `{AddressParser} {W : Type} `{FileSystem W}.
Variable cfg : presence.

(** The packets handed to [SendToInterface] (Discovery.v), whose failure is
    only logged. *)
Definition sendDiscovery (packet : bytes) : list bytes :=
  if pr_discoverySkipped cfg then [] else [packet].

(** One turn of [maintainControllerPresence]: what it announced, and how it
    went on. *)
Definition presence_turn (t : turn) (ann : Announcement) (rt : runtime) (w : W)
    : list bytes * turn_result W :=
  let uptimeSeconds := runtimeUptime (t_elapsed t) in
  match loadAdoptionState (pr_state cfg) w with
  | (Err e, w) => ([], Died e w)
  | (Ok store, w) =>
      let informURL := effectiveInformURL (pr_controller cfg) store in
      let ann := announce ann (bool_decide (AuthKey store = [])) (wrap32u uptimeSeconds)
                   (a_Sequence ann) in
      match MarshalBinary ann with
      | Err e => ([], Died e w)
      | Ok packet =>
          let offset := if pol_ControllerClock (pr_policy cfg)
                        then OffsetSeconds (Some (rt_clock rt)) else 0 in
          let blocks := if pol_BlockSelection (pr_policy cfg)
                        then rt_blocks rt else MkSelection [] [] in
          match t_payload t informURL store offset blocks uptimeSeconds with
          | Err e => ([], Died e w)
          | Ok payload =>
              (sendDiscovery packet,
               match sendInformHeartbeat (pr_mac cfg) informURL (pr_state cfg) (pr_status cfg)
                       (pr_source cfg) (pr_policy cfg) (t_env t) store payload rt w with
               | (Err e, _, w) => Died e w
               | (Ok d, rt, w) =>
                   if pr_once cfg || t_stop t then Stopped w
                   else
                     Continue (announce ann (a_Default ann) (a_Uptime ann) (wrap32u (a_Sequence ann + 1)))
                       rt (NextDelay d) w
               end)
          end
      end
  end.

(** The loop over a finite list of turns: the packets it announced, and the
    delays it waited. *)
Fixpoint presence_run (ts : list turn) (ann : Announcement) (rt : runtime) (w : W)
    : list bytes * list Z * turn_result W :=
  match ts with
  | [] => ([], [], Continue ann rt 0 w)
  | t :: rest =>
      let '(packets, r) := presence_turn t ann rt w in
      match r with
      | Continue ann rt delay w =>
          let '(packets', delays, r) := presence_run rest ann rt w in
          (packets ++ packets', delay :: delays, r)
      | Stopped w => (packets, [], Stopped w)
      | Died e w => (packets, [], Died e w)
      end
  end.
End presence.

(** [maintainControllerPresence] from its start: the schedule is checked, the
    clock and the block selection are unset. *)
Definition initial_runtime (config : ScheduleConfig) : result error runtime :=
  schedule ← wrap_err "create inform schedule" (NewSchedule config);
  Ok (MkRuntime schedule (MkControllerClock 0 false) (MkSelection [] [])).

(** ** The key of a heartbeat *)
Lemma default_key_is_default : IsDefaultAuthKey DefaultAuthKey = true.
Proof. vm_compute. reflexivity. Qed.

Lemma IsDefaultAuthKey_iff k : IsDefaultAuthKey k = true ↔ k = DefaultAuthKey.
Proof.
  unfold IsDefaultAuthKey. rewrite andb_true_iff, bool_decide_eq_true. split; [by intros [_ ?]|].
  intros ->. split; [vm_compute; reflexivity|reflexivity].
Qed.
#[local] Opaque DefaultAuthKey.
Lemma hex_key v k : hex_decode v = Some k → zlen k = 16 ↔ zlen v = 32.
Proof. intros Hl%hex_decode_length. unfold zlen. lia. Qed.

(** The stored key: its 16 bytes, or the 16 that 32 hexadecimal digits denote. *)
Definition stored_key (v key : bytes) : Prop :=
  zlen v = 16 ∧ key = v ∨ zlen v = 32 ∧ hex_decode v = Some key.
Lemma authKeyBytes_iff v key :
  v ≠ [] → authKeyBytes v = Ok key ↔ key ≠ DefaultAuthKey ∧ stored_key v key.
Proof.
  unfold authKeyBytes, stored_key. intros Hv. rewrite decide_False by done. rewrite <- IsDefaultAuthKey_iff.
  destruct (zlen v =? 16) eqn:El.
  - apply Z.eqb_eq in El. destruct (IsDefaultAuthKey v) eqn:En; (split; [intros Hk|intros (Hd & [[_ ->]|[? _]])]);
      try done; try lia; try congruence.
    injection Hk as <-. rewrite En. auto.
  - apply Z.eqb_neq in El. destruct (hex_decode v) as [k|] eqn:Eh; [|naive_solver].
    apply hex_key in Eh. destruct (zlen k =? 16) eqn:E; cbn [negb].
    + apply Z.eqb_eq, Eh in E. destruct (IsDefaultAuthKey k) eqn:En; (split; [intros Hk|intros (Hd & [[? _]|[_ [= <-]]])]);
        try done; try lia; try congruence.
      injection Hk as <-. rewrite En. auto.
    + apply Z.eqb_neq in E. split; [done|]. intros (_ & [[? _]|[? _]]); [done|]. tauto.
Qed.

(** C16: the key of a request.  Without a stored key it is the public default
    key, for a store in a pending state (none, factory, discovered or
    provisioning) that never negotiated AES-GCM, and there is none for any
    other; a stored key is used as itself or as the bytes its hexadecimal text
    denotes, unless it is the default key, which no stored key can stand for. *)
Theorem informAuthKey_sound store key :
  (informAuthKey store = Ok key ↔
     AuthKey store = [] ∧ key = DefaultAuthKey ∧ UseAESGCM store = false ∧
       State store ∈ [B ""; B "factory"; B "discovered"; B "provisioning"]
     ∨ AuthKey store ≠ [] ∧ key ≠ DefaultAuthKey ∧
       (zlen (AuthKey store) = 16 ∧ key = AuthKey store
        ∨ zlen (AuthKey store) = 32 ∧ hex_decode (AuthKey store) = Some key)) ∧
  (informAuthKey store = Ok key → zlen key = 16).
Proof.
  assert (informAuthKey store = Ok key ↔
     AuthKey store = [] ∧ key = DefaultAuthKey ∧ UseAESGCM store = false ∧
       State store ∈ [B ""; B "factory"; B "discovered"; B "provisioning"]
     ∨ AuthKey store ≠ [] ∧ key ≠ DefaultAuthKey ∧ stored_key (AuthKey store) key) as Hiff.
  { unfold informAuthKey. change [B ""; _; _; _] with [[]; StateFactory; StateDiscovered; StateProvisioning].
    destruct (bool_decide_reflect (AuthKey store = [])) as [E|E]; cbn [negb].
    - destruct (UseAESGCM store); [split; [done|intros [(_ & _ & ? & _)|[? _]]; done]|].
      destruct (bool_decide_reflect (State store ∈ [[]; StateFactory; StateDiscovered; StateProvisioning])).
      + split; [intros <-%ok_inj|intros [(_ & -> & _)|[? _]]]; [by left|done..].
      + split; [by destruct (bool_decide _)|]. intros [(_ & _ & _ & ?)|[? _]]; done.
    - pose proof (authKeyBytes_iff (AuthKey store) key E) as Hk. destruct (authKeyBytes (AuthKey store)) as [k|e]; cbn [wrap_err].
      + rewrite Hk. split; [intros Hx; by right|intros [[? _]|[_ Hx]]; done].
      + split; [done|]. intros [[? _]|[_ Hx]]; [done|]. by apply Hk in Hx. }
  split; [exact Hiff|]. intros [(_ & -> & _)|(_ & _ & [[Hl ->]|[Hl He]])]%Hiff; [vm_compute; reflexivity|done|].
  by apply (hex_key _ _ He).
Qed.

Lemma valid_authkey_bytes v :
  v ≠ [] → validateIndividualAuthKeyText v true = Ok tt → ∃ k, authKeyBytes v = Ok k.
Proof.
  unfold validateIndividualAuthKeyText, authkey_bytes, authKeyBytes. intros Hv Hk.
  rewrite decide_False by done. cbn [andb] in Hk. destruct (zlen v =? 16) eqn:E.
  - cbn in Hk. destruct (IsDefaultAuthKey v); [done|]. by eexists.
  - destruct (zlen v =? 32) eqn:E2; [|done]. apply Z.eqb_eq in E2.
    destruct (hex_decode v) as [k|] eqn:Eh; [|done]. cbn in Hk.
    assert (zlen k = 16) as ->. { apply hex_decode_length in Eh. unfold zlen in *. lia. }
    cbn. destruct (IsDefaultAuthKey k); [done|]. by eexists.
Qed.

(** Every persisted state has a key to report with: the selection fails
    only for an unkeyed store in the failed state. *)
Theorem informAuthKey_total `{AddressParser} store :
  validateStoreForPersistence store = Ok tt →
  AuthKey store ≠ [] ∨ State store ≠ StateFailed →
  ∃ key, informAuthKey store = Ok key.
Proof.
  intros (Hf & _ & Hs)%persistable Hor. apply validatePersistedStore_ok in Hs as (Hk & Ha & _).
  unfold informAuthKey. destruct (decide (AuthKey store = [])) as [E|E].
  - rewrite bool_decide_true by done. cbn [negb]. destruct (Ha E) as (H1 & H2 & ->).
    rewrite bool_decide_true; [by eexists|]. unfold known_state in Hk.
    apply bool_decide_eq_true in Hk. set_unfold. naive_solver.
  - rewrite bool_decide_false by done. cbn [negb].
    destruct (Hf FAuthKey) as [|[_ Hv]]; [done|]. cbn in Hv.
    destruct (valid_authkey_bytes _ E Hv) as [k Hk']. rewrite Hk'. by eexists.
Qed.

(** ** The controller's interval *)

(** The controller's interval becomes a duration without overflow: zero
    for a non-positive request, and saturated at the longest duration. *)
Theorem controllerIntervalDuration_exact seconds :
  in_int64 seconds →
  controllerIntervalDuration seconds =
    if seconds <=? 0 then 0
    else if int64_max / InformSchedule.Second <? seconds then int64_max
    else seconds * InformSchedule.Second.
Proof.
  intros Hs. unfold controllerIntervalDuration, in_int64, int64_min, int64_max,
    InformSchedule.Second in *. destruct (seconds <=? 0) eqn:E; [done|].
  apply Z.leb_gt in E. rewrite Z.quot_div_nonneg by lia.
  destruct (_ <? seconds) eqn:E2; [done|]. apply Z.ltb_ge in E2.
  unfold wrap64. rewrite Z.mod_small; [lia|].
  assert ((2 ^ 63 - 1) / 1000000000 = 9223372036) as E3 by done. rewrite E3 in E2. lia.
Qed.

(** ** What a heartbeat does to the files *)
Section files.
Context `{InformCrypto} `{AddressParser} {W : Type} `{FileSystemLaws W}.
Variables (statePath : bytes) (statusPath : bytes).
Hypothesis paths : statusPath ≠ statePath ∧ ¬ fs_temp (W := W) statusPath statePath.

Lemma recordLastInform_same env last code ty cipher rb jb err (w : W) :
  fs_valid w →
  fs_valid (recordLastInform statusPath env last code ty cipher rb jb err w) ∧
  fs_content (recordLastInform statusPath env last code ty cipher rb jb err w) statePath =
    fs_content w statePath.
Proof.
  intros Hv. unfold recordLastInform, saveLastInformStatus. case_decide; [done|].
  destruct (e_marshal env _) as [data|]; [|done]. destruct paths as [Hp Ht].
  pose proof (fs_write_content statusPath (data ++ [x0a]) 0x180 w Hv) as [Hv' _].
  pose proof (write_elsewhere statusPath (data ++ [x0a]) 0x180 w statePath Hv
                (not_eq_sym Hp) Ht) as He.
  by destruct (fs_write statusPath (data ++ [x0a]) 0x180 w).
Qed.

End files.

Section update.
Context `{AddressParser} {W : Type} `{FileSystemLaws W}.
Variable statePath : bytes.

(** The file after an update: what it was, or the store that is returned. *)
Lemma updateAdoptionState_files store r gcm (w : W) :
  fs_valid w → state_loads statePath w →
  let '(_, store', err, w') := updateAdoptionState statePath store r gcm w in
  fs_valid w' ∧ state_loads statePath w' ∧
  (is_ok err = true →
   fs_content w' statePath = fs_content w statePath ∧ store' = (Merge store (if gcm then set_UseAESGCM true (r_Store r) else r_Store r)).1
   ∨ fs_content w' statePath = fs_content w statePath ∧ store' = store
   ∨ fs_content w' statePath = Some (render_env store') ∧
     validateStoreForPersistence store' = Ok tt).
Proof.
  intros Hv Hs. unfold updateAdoptionState.
  assert (∀ s, let '(rs, w') := SaveEnv statePath s w in
    fs_valid w' ∧ state_loads statePath w' ∧
    (is_ok rs = true → fs_content w' statePath = Some (render_env s) ∧
                       validateStoreForPersistence s = Ok tt)) as Hsave.
  { intros s. pose proof (SaveEnv_cases statePath s w Hv) as Hc.
    pose proof (SaveEnv_loads statePath s w Hv Hs) as Hl.
    destruct (SaveEnv statePath s w) as [[[]|e] w']; destruct Hc as (Hv' & _ & Hc);
      (split_and!; [done|exact Hl|]); [naive_solver|done]. }
  destruct (r_ResetRequested r).
  { unfold ResetEnv. specialize (Hsave (set_State StateFactory no_store)).
    destruct (SaveEnv statePath (set_State StateFactory no_store) w) as [[[]|e] w'];
      destruct Hsave as (K1 & K2 & K3); (split_and!; [done..|]); [|done].
    intros _. right. right. auto. }
  destruct (negb (r_HasStateUpdate r)).
  { destruct (gcm && _ && _); [|split_and!; [done..|]; auto].
    specialize (Hsave (set_UseAESGCM true store)).
    destruct (SaveEnv statePath (set_UseAESGCM true store) w) as [[[]|e] w'];
      destruct Hsave as (K1 & K2 & K3); (split_and!; [done..|]); [|done].
    intros _. right. right. auto. }
  set (u := if gcm then _ else _).
  destruct (Merge store u) as [updated changed]. cbn [fst]. destruct changed; [|split_and!; auto].
  specialize (Hsave updated). destruct (SaveEnv statePath updated w) as [[[]|e] w'];
    destruct Hsave as (K1 & K2 & K3); (split_and!; [done..|]); [|done].
  intros _. right. right. auto.
Qed.
End update.

(** A heartbeat never damages the state file. *)
Lemma heartbeat_files `{InformCrypto} `{AddressParser} {W} `{FileSystemLaws W}
    mac url statePath statusPath source policy env store payload rt (w : W) :
  statusPath ≠ statePath ∧ ¬ fs_temp (W := W) statusPath statePath →
  fs_valid w → state_loads statePath w →
  let '(_, _, w') := sendInformHeartbeat mac url statePath statusPath source policy env store
                       payload rt w in
  fs_valid w' ∧ state_loads statePath w'.
Proof.
  intros Hp Hv Hs.
  assert (∀ last code ty cipher rb jb err (w1 : W), fs_valid w1 → state_loads statePath w1 →
    fs_valid (recordLastInform statusPath env last code ty cipher rb jb err w1) ∧
    state_loads statePath (recordLastInform statusPath env last code ty cipher rb jb err w1)) as Hrec.
  { intros last code ty cipher rb jb err w1 Hv1 Hs1.
    destruct (recordLastInform_same statePath statusPath Hp env last code ty cipher rb jb err w1 Hv1)
      as [K1 K2]. split; [done|]. unfold state_loads. by rewrite K2. }
  unfold sendInformHeartbeat, back_off. case_decide; [done|]. cbv zeta.
  destruct (sn_error _), (sn_response _) as [resp|]; try done;
    try (destruct (Failure _ _); by apply Hrec).
  destruct (negb _); [destruct (Failure _ _); by apply Hrec|].
  destruct (zlen _ =? 0); [destruct (Success _ _); by apply Hrec|].
  destruct (ParseControllerResponseInfo _) as [r|e]; [|destruct (Failure _ _); by apply Hrec].
  unfold apply_response. cbv zeta.
  pose proof (updateAdoptionState_files statePath store r
    (negb (Z.land (cs_RequestFlags (sn_cipher (sendInform (e_net env) (e_rand env) mac url store
      payload source))) FlagEncryptedGCM =? 0)) w Hv Hs) as Hu.
  destruct (updateAdoptionState statePath store r _ w) as [[[r' store'] err] w1].
  destruct Hu as (Hv1 & Hs1 & _). destruct err.
  - destruct (SuccessWithOptions _ _ _). destruct (if r_ResetApplied r' then _ else _) as [[[? ?] ?] ?].
    by apply Hrec.
  - destruct (Failure _ _). by apply Hrec.
Qed.

(** ** When a heartbeat fails *)
Section survival.
Context `{AddressParser} {W : Type} `{FileSystemLaws W}.

(** The update a heartbeat merges. *)
Definition heartbeat_update (gcm : bool) (r : ControllerResponse) : Store :=
  if gcm then set_UseAESGCM true (r_Store r) else r_Store r.

Lemma fields_set_gcm u :
  (∀ f, field_ok f (field_get f u)) → ∀ f, field_ok f (field_get f (set_UseAESGCM true u)).
Proof. intros Hu f. destruct f; try apply (Hu _); [apply (Hu FState)|apply (Hu FInformURL)|
  apply (Hu FAuthKey)|apply (Hu FCFGVersion)|right; split; reflexivity|apply (Hu FVersion)]. Qed.

Lemma no_store_fields f : field_ok f (field_get f no_store).
Proof. left. by destruct f. Qed.

Lemma fields_set_state s u :
  known_state s = true → (∀ f, field_ok f (field_get f u)) →
  ∀ f, field_ok f (field_get f (set_State s u)).
Proof.
  intros Hs Hu f. destruct (decide (f = FState)) as [->|Hf].
  - right. split; [by apply known_state_elem|done].
  - destruct f; try done; apply (Hu _).
Qed.

Lemma response_store data r :
  ParseControllerResponseInfo data = Ok r →
  r_ResetRequested r = true ∨ r_HasStateUpdate r = false ∨
  ∃ u, r_Store r = set_State StateConnected u ∧ (u = no_store ∨ ∃ m, parseMgmtCFG m = Ok u).
Proof.
  intros (raw & _ & t & _ & _ & _ & _ & Hk & Hp)%parse_response_cases.
  destruct (decide (t = B "setparam")) as [->|N1].
  { apply parse_setparam_store in Hp as (_ & _ & _ & _ & Hu). auto. }
  destruct (decide (t = B "noop")) as [->|N2].
  { apply parse_by_type_noop in Hp as ->. right. right. exists no_store. split; [|by left].
    unfold parse_noop. destruct (jsonStringInt64Prefix _). by do 3 destruct (or_limited _). }
  destruct (parse_other raw t r N1 N2 Hk Hp) as (_ & _ & Ho).
  destruct (bool_decide _); naive_solver.
Qed.

Lemma response_update_ok data r store gcm :
  ParseControllerResponseInfo data = Ok r →
  r_ResetRequested r = false → r_HasStateUpdate r = true →
  has_ctl (CFGVersion (r_Store r)) = false →
  (gcm = true → AuthKey store ≠ []) →
  (UseAESGCM (r_Store r) = true → AuthKey store ≠ [] ∨ AuthKey (r_Store r) ≠ []) →
  update_ok store (heartbeat_update gcm r).
Proof.
  intros Hp Hr Hs Hc Hg1 Hg2.
  destruct (response_store data r Hp) as [?|[?|(u & Hu & Hor)]]; [congruence..|].
  assert (∀ f, field_ok f (field_get f (r_Store r))) as Hf.
  { rewrite Hu. apply fields_set_state; [done|]. destruct Hor as [->|[m Hm]].
    - apply no_store_fields.
    - apply mgmt_ok_fields; [by eapply parseMgmtCFG_ok|]. rewrite Hu in Hc. exact Hc. }
  assert (State (r_Store r) = StateConnected) as Hst by (by rewrite Hu).
  unfold heartbeat_update. destruct gcm; split.
  - by apply fields_set_gcm.
  - cbn. by rewrite Hst.
  - cbn. by rewrite Hst.
  - auto.
  - done.
  - by rewrite Hst.
  - by rewrite Hst.
  - done.
Qed.

Lemma cipher_persistable store :
  validateStoreForPersistence store = Ok tt → AuthKey store ≠ [] →
  validateStoreForPersistence (set_UseAESGCM true store) = Ok tt.
Proof.
  intros Hv Hk. apply persistable in Hv as (Hf & (f & Hn) & Hst). apply persistable. split_and!.
  - by apply fields_set_gcm.
  - exists FUseAESGCM. done.
  - apply validatePersistedStore_ok in Hst as (K1' & K2' & K3').
    apply validatePersistedStore_ok. by split_and!.
Qed.

Lemma SaveEnv_works path s (w : W) :
  path ≠ [] → validateStoreForPersistence s = Ok tt →
  (∀ d, (fs_write path d 0x180 w).1 = Ok tt) → (SaveEnv path s w).1 = Ok tt.
Proof.
  intros Hp Hs Hw. unfold SaveEnv. rewrite decide_False, Hs by done.
  specialize (Hw (render_env s)). by destruct (fs_write path (render_env s) 0x180 w) as [[|] ?].
Qed.
End survival.

(** C17: an accepted response never stops the daemon when the disk works: the
    update is applied and the store stays persistable, unless the response
    switches AES-GCM on for a device without a key or carries a control byte in
    its configuration version. *)
Theorem update_survives `{AddressParser} {W} `{FileSystemLaws W} path store data r gcm (w : W) :
  path ≠ [] → (∀ d, (fs_write path d 0x180 w).1 = Ok tt) →
  validateStoreForPersistence store = Ok tt →
  ParseControllerResponseInfo data = Ok r →
  has_ctl (CFGVersion (r_Store r)) = false →
  (gcm = true → AuthKey store ≠ []) →
  (UseAESGCM (r_Store r) = true → AuthKey store ≠ [] ∨ AuthKey (r_Store r) ≠ []) →
  let '(_, store', err, _) := updateAdoptionState path store r gcm w in
  err = Ok tt ∧ validateStoreForPersistence store' = Ok tt.
Proof.
  intros Hpath Hw Hv Hp Hc Hg1 Hg2. unfold updateAdoptionState.
  assert (∀ s, validateStoreForPersistence s = Ok tt →
    ∃ w', SaveEnv path s w = (Ok tt, w')) as Hsave.
  { intros s Hs. pose proof (SaveEnv_works path s w Hpath Hs Hw) as E.
    destruct (SaveEnv path s w) as [r' w']. cbn in E. subst r'. by exists w'. }
  destruct (r_ResetRequested r) eqn:Er.
  { unfold ResetEnv. destruct (Hsave (set_State StateFactory no_store) eq_refl) as [w' ->]. done. }
  destruct (negb (r_HasStateUpdate r)) eqn:Es.
  { destruct (gcm && negb (bool_decide (AuthKey store = [])) && negb (UseAESGCM store)) eqn:Eg;
      [|done]. bool_to_prop.
    assert (validateStoreForPersistence (set_UseAESGCM true store) = Ok tt) as Hs'.
    { by apply cipher_persistable. }
    destruct (Hsave _ Hs') as [w' ->]. done. }
  apply negb_false_iff in Es. fold (heartbeat_update gcm r).
  pose proof (response_update_ok data r store gcm Hp Er Es Hc Hg1 Hg2) as Hu.
  pose proof (merge_persistable store _ Hv Hu) as Hm.
  destruct (Merge store (heartbeat_update gcm r)) as [updated changed]. cbn [fst] in Hm.
  destruct changed; [|done]. destruct (Hsave updated Hm) as [w' ->]. done.
Qed.

(** ** The schedule of a heartbeat *)
Lemma current_ok schedule :
  schedule_ok schedule → decision_ok (s_config schedule) (Current schedule).
Proof.
  intros Hs. destruct Hs as [Hc Hb Hbm He]. destruct (effective_range _ _ Hc Hb He) as [Hpos _].
  split; cbn; try done. left. lia.
Qed.

Section schedule.
Context `{InformCrypto} `{AddressParser} {W : Type} `{FileSystem W}.
Variables (mac url statePath statusPath : bytes) (source : option bytes).
Variable policy : ControllerReportingPolicy.

(** What a heartbeat leaves of the schedule it found. *)
Definition scheduled (config : ScheduleConfig) (x : heartbeat_result (W := W)) : Prop :=
  let '(res, rt, _) := x in
  s_config (rt_schedule rt) = config ∧ schedule_ok (rt_schedule rt) ∧
  match res with Ok d => decision_ok config d | Err _ => True end.

Lemma back_off_scheduled env rt last code cipher rb jb e (w : W) :
  schedule_ok (rt_schedule rt) →
  scheduled (s_config (rt_schedule rt)) (back_off statusPath env rt last code cipher rb jb e w).
Proof.
  intros Hs. unfold back_off. destruct (Failure _ _) as [sch d] eqn:E.
  by apply failure_ok in E.
Qed.

Lemma apply_response_scheduled env store rt resp cipher last r (w : W) :
  schedule_ok (rt_schedule rt) →
  scheduled (s_config (rt_schedule rt))
    (apply_response statePath statusPath policy env store rt resp cipher last r w).
Proof.
  intros Hs. unfold apply_response. cbv zeta.
  destruct (updateAdoptionState _ _ _ _ _) as [[[r' store'] err] w1]. destruct err.
  - destruct (SuccessWithOptions _ _ _) as [sch d] eqn:E.
    apply success_ok in E as (Hc & Hok & Hd); [|done].
    destruct (r_ResetApplied r'); [|done].
    destruct (Reset sch) as [sch' d'] eqn:Er. apply reset_ok in Er as (Hc' & Hok' & Hd'); [|done].
    cbn. by rewrite <- Hc, Hc'.
  - destruct (Failure _ _) as [sch d] eqn:E. by apply failure_ok in E as (Hc & Hok & _).
Qed.

Lemma heartbeat_scheduled env store payload rt (w : W) :
  schedule_ok (rt_schedule rt) →
  scheduled (s_config (rt_schedule rt))
    (sendInformHeartbeat mac url statePath statusPath source policy env store payload rt w).
Proof.
  intros Hs. pose proof (current_ok _ Hs) as Hcur.
  unfold sendInformHeartbeat. case_decide; [done|]. cbv zeta.
  destruct (sn_error _), (sn_response _) as [resp|]; try done; try by apply back_off_scheduled.
  destruct (negb _); [by apply back_off_scheduled|].
  destruct (zlen _ =? 0).
  { unfold Success. destruct (SuccessWithOptions _ _ _) as [sch d] eqn:E.
    by apply success_ok in E. }
  destruct (ParseControllerResponseInfo _); [by apply apply_response_scheduled|
    by apply back_off_scheduled].
Qed.

(** An exchange without an error has a response. *)
Lemma sendInform_response net rand store payload :
  sn_error (sendInform net rand mac url store payload source) = Ok tt →
  is_Some (sn_response (sendInform net rand mac url store payload source)).
Proof.
  unfold sendInform. destruct (informAuthKey store); [|done].
  destruct (Send _ _ _) as [[reqs resp] err] eqn:E. cbn. intros He.
  destruct err as [[]|]; [|done]. unfold Send in E. case_decide; [done|].
  destruct (EncodeJSON _ _ _ _ _); [|done]. destruct (url_parse _ _); [|done].
  destruct (http_do _ _ _) as [? [httpResp|]]; [|done]. unfold receive in E.
  destruct (readLimitedBody _ _ _); [|done]. destruct (_ || _); [by injection E as _ <-|].
  destruct (DecodeControllerResponse _ _ _) as [[]|[]]; [by injection E as _ <-|done].
Qed.
End schedule.

(** ** The whole loop *)
Definition world_after {W} (r : turn_result W) : W :=
  match r with Continue _ _ _ w | Stopped w | Died _ w => w end.

Section loop.
Context `{InformCrypto} `{AddressParser} {W : Type} `{FileSystemLaws W}.
Variable cfg : presence.
Hypothesis paths : pr_status cfg ≠ pr_state cfg ∧ ¬ fs_temp (W := W) (pr_status cfg) (pr_state cfg).

Lemma loadAdoptionState_files path (w : W) :
  fs_valid w → state_loads path w →
  let '(_, w') := loadAdoptionState path w in fs_valid w' ∧ state_loads path w'.
Proof.
  intros Hv Hs. unfold loadAdoptionState. pose proof (LoadEnv_cases path w Hv) as Hc.
  destruct (LoadEnv path w) as [r w']. destruct Hc as (Hv' & Hsame & _).
  assert (state_loads path w') as Hl by (unfold state_loads; by rewrite Hsame).
  by destruct r as [|[|]].
Qed.

Lemma presence_turn_files t ann rt (w : W) :
  fs_valid w → state_loads (pr_state cfg) w →
  fs_valid (world_after (presence_turn cfg t ann rt w).2) ∧
  state_loads (pr_state cfg) (world_after (presence_turn cfg t ann rt w).2).
Proof.
  intros Hv Hs. unfold presence_turn. cbv zeta.
  pose proof (loadAdoptionState_files (pr_state cfg) w Hv Hs) as Hl.
  destruct (loadAdoptionState (pr_state cfg) w) as [[store|e] w1]; [|done].
  destruct Hl as [Hv1 Hs1]. destruct (MarshalBinary _); [|done].
  destruct (t_payload t _ _ _ _ _) as [payload|]; [|done].
  pose proof (heartbeat_files (pr_mac cfg) (effectiveInformURL (pr_controller cfg) store)
    (pr_state cfg) (pr_status cfg) (pr_source cfg) (pr_policy cfg) (t_env t) store payload rt w1
    paths Hv1 Hs1) as Hb.
  destruct (sendInformHeartbeat _ _ _ _ _ _ _ _ _ _ _) as [[[d|e] rt'] w2]; [|done].
  cbn [snd]. by destruct (_ || _).
Qed.

Lemma presence_turn_schedule t ann rt (w : W) ann' rt' delay w' :
  schedule_ok (rt_schedule rt) →
  (presence_turn cfg t ann rt w).2 = Continue ann' rt' delay w' →
  s_config (rt_schedule rt') = s_config (rt_schedule rt) ∧ schedule_ok (rt_schedule rt') ∧
  (∃ d, delay = NextDelay d ∧ decision_ok (s_config (rt_schedule rt)) d).
Proof.
  intros Hs. unfold presence_turn. cbv zeta.
  destruct (loadAdoptionState (pr_state cfg) w) as [[store|e] w1]; [|done].
  destruct (MarshalBinary _); [|done]. destruct (t_payload t _ _ _ _ _) as [payload|]; [|done].
  pose proof (heartbeat_scheduled (pr_mac cfg) (effectiveInformURL (pr_controller cfg) store)
    (pr_state cfg) (pr_status cfg) (pr_source cfg) (pr_policy cfg) (t_env t) store payload rt w1
    Hs) as Hb. cbn [snd].
  destruct (sendInformHeartbeat _ _ _ _ _ _ _ _ _ _ _) as [[[d|e] rt2] w2]; [|done].
  destruct (_ || _); [done|]. intros [= <- <- <- <-]. destruct Hb as (Hc & Hok & Hd).
  split_and!; [done..|]. by exists d.
Qed.
End loop.

(** The bound on every wait of the loop. *)
Definition delay_bound (config : ScheduleConfig) : Z :=
  Z.max (Z.max (BaseInterval config) maximumControllerInformInterval)
    (Z.max (BackoffMax config) immediateInformDelay).

Lemma decision_delay config d :
  decision_ok config d → 0 < NextDelay d ≤ delay_bound config.
Proof.
  intros Hd. pose proof (do_positive _ _ Hd). unfold delay_bound.
  destruct (do_effective _ _ Hd) as [He|[_ He]], (do_bound _ _ Hd); lia.
Qed.

Lemma presence_run_ok `{InformCrypto} `{AddressParser} {W} `{FileSystemLaws W} cfg ts ann rt (w : W) :
  pr_status cfg ≠ pr_state cfg ∧ ¬ fs_temp (W := W) (pr_status cfg) (pr_state cfg) →
  schedule_ok (rt_schedule rt) → fs_valid w → state_loads (pr_state cfg) w →
  let '(_, delays, r) := presence_run cfg ts ann rt w in
  Forall (λ d, 0 < d ≤ delay_bound (s_config (rt_schedule rt))) delays ∧
  fs_valid (world_after r) ∧ state_loads (pr_state cfg) (world_after r).
Proof.
  intros Hp. revert ann rt w. induction ts as [|t ts IH]; intros ann rt w Hok Hv Hs; [done|].
  cbn [presence_run].
  pose proof (presence_turn_files cfg Hp t ann rt w Hv Hs) as [Hv1 Hs1].
  pose proof (presence_turn_schedule cfg t ann rt w) as Hsch.
  destruct (presence_turn cfg t ann rt w) as [packets [ann' rt' delay w'|w'|e w']];
    cbn [snd world_after] in *; [|by repeat constructor..].
  destruct (Hsch _ _ _ _ Hok eq_refl) as (Hc & Hok' & d & -> & Hd).
  specialize (IH ann' rt' w' Hok' Hv1 Hs1). rewrite Hc in IH.
  destruct (presence_run cfg ts ann' rt' w') as [[packets' delays] r]. destruct IH as [IHd IHf].
  split; [|done]. constructor; [by apply decision_delay|done].
Qed.

(** C1: the daemon loop, started with a schedule its configuration check
    accepts, waits a positive, bounded time between turns and leaves a state
    file that loads (or none), whatever the controller, the random source, the
    renderer and the failing writes do, and however the loop ends. *)
Theorem presence_loop_safe `{InformCrypto} `{AddressParser} {W} `{FileSystemLaws W}
    cfg config ts ann rt (w : W) :
  pr_status cfg ≠ pr_state cfg ∧ ¬ fs_temp (W := W) (pr_status cfg) (pr_state cfg) →
  initial_runtime config = Ok rt →
  in_int64 (BaseInterval config) → in_int64 (BackoffMax config) →
  fs_valid w → state_loads (pr_state cfg) w →
  let '(_, delays, r) := presence_run cfg ts ann rt w in
  Forall (λ d, 0 < d ≤ delay_bound config) delays ∧
  fs_valid (world_after r) ∧ state_loads (pr_state cfg) (world_after r).
Proof.
  intros Hp Hi Hb Hbm Hv Hs. unfold initial_runtime in Hi.
  destruct (NewSchedule config) as [sch|] eqn:En; [|done]. cbn in Hi. injection Hi as <-.
  apply NewSchedule_ok in En as [<- Hok]; [|done..].
  exact (presence_run_ok cfg ts ann (MkRuntime sch (MkControllerClock 0 false) (MkSelection [] []))
           w Hp Hok Hv Hs).
Qed.

(** ** The announcements of the loop *)
Lemma presence_turn_announces `{InformCrypto} `{AddressParser} {W} `{FileSystem W}
    cfg t ann rt (w : W) :
  let '(packets, r) := presence_turn cfg t ann rt w in
  (packets = [] ∨ ∃ p d u, packets = [p] ∧ MarshalBinary (announce ann d u (a_Sequence ann)) = Ok p) ∧
  match r with
  | Continue ann' _ _ _ =>
      (pr_discoverySkipped cfg = false → packets ≠ []) ∧
      ∃ d u, ann' = announce ann d u (wrap32u (a_Sequence ann + 1))
  | _ => True
  end.
Proof.
  unfold presence_turn, sendDiscovery. cbv zeta.
  destruct (loadAdoptionState (pr_state cfg) w) as [[store|e] w1]; [|split; auto].
  destruct (MarshalBinary _) as [p|] eqn:Em; [|split; auto].
  destruct (t_payload t _ _ _ _ _) as [payload|]; [|split; auto].
  split; [destruct (pr_discoverySkipped cfg); [by left|right; eauto]|].
  destruct (sendInformHeartbeat _ _ _ _ _ _ _ _ _ _ _) as [[[d|e] rt2] w2]; [|done].
  destruct (_ || _); [done|]. split; [by intros ->|]. by do 2 eexists.
Qed.

(** With discovery on, the packets of a run are announcements of the same
    device whose sequence numbers count up by one modulo 2^32, one for each
    turn. *)
Theorem announcements_in_sequence `{InformCrypto} `{AddressParser} {W} `{FileSystem W}
    cfg ts ann rt (w : W) :
  pr_discoverySkipped cfg = false → 0 ≤ a_Sequence ann < 2 ^ 32 →
  let '(packets, delays, _) := presence_run cfg ts ann rt w in
  (∀ k p, packets !! k = Some p → ∃ d u,
     MarshalBinary (announce ann d u (wrap32u (a_Sequence ann + Z.of_nat k))) = Ok p) ∧
  (length delays ≤ length packets ≤ length delays + 1)%nat.
Proof.
  intros Hskip. revert ann rt w. induction ts as [|t ts IH]; intros ann rt w Hseq; [split; [done|cbn; lia]|].
  cbn [presence_run]. pose proof (presence_turn_announces cfg t ann rt w) as Ht.
  destruct (presence_turn cfg t ann rt w) as [packets r]. destruct Ht as [Hpk Hr].
  assert (∀ k p, packets !! k = Some p → ∃ d u,
     MarshalBinary (announce ann d u (wrap32u (a_Sequence ann + Z.of_nat k))) = Ok p) as Hfirst.
  { intros k p Hk. destruct Hpk as [->|(p' & d & u & -> & Hm)]; [done|].
    destruct k; [|done]. injection Hk as <-. exists d, u. rewrite Z.add_0_r.
    unfold wrap32u. by rewrite Z.mod_small. }
  assert (length packets ≤ 1)%nat as Hlen by (destruct Hpk as [->|(?&?&?&->&_)]; cbn; lia).
  destruct r as [ann' rt' delay w'|w'|e w']; [|split; [done|cbn; lia]..].
  destruct Hr as (Hne & d' & u' & ->). specialize (Hne Hskip).
  assert (length packets = 1)%nat as Hl1 
    by (destruct Hpk as [->|(?&?&?&->&_)]; [destruct (Hne eq_refl)|done]).
  set (ann' := announce ann d' u' _) in *.
  assert (0 ≤ a_Sequence ann' < 2 ^ 32) as Hseq' by (cbn; unfold wrap32u; apply Z.mod_pos_bound; lia).
  specialize (IH ann' rt' w' Hseq').
  destruct (presence_run cfg ts ann' rt' w') as [[packets' delays] r]. destruct IH as [IHp IHl].
  split; [|rewrite length_app; cbn; lia].
  intros [|k] p Hk.
  - apply Hfirst. by rewrite lookup_app_l in Hk by lia.
  - rewrite lookup_app_r, Hl1 in Hk by lia. replace (S k - 1)%nat with k in Hk by lia.
    destruct (IHp k p Hk) as (d & u & Hm). exists d, u.
    assert (wrap32u (a_Sequence ann' + Z.of_nat k) = wrap32u (a_Sequence ann + Z.of_nat (S k))) as <-.
    { cbn [a_Sequence ann' announce]. unfold wrap32u. rewrite Zplus_mod_idemp_l. f_equal. lia. }
    exact Hm.
Qed.

(** C21: a reset response returns the device to its first state, as soon as the
    factory store is persisted: the state file says factory and nothing else,
    the heartbeat goes on with the factory store and every later load gives it,
    the status record reports it without a controller's versions or clock, and
    the loop is left with no clock, no block selection, and the base interval
    without failures.  If the store cannot be persisted the heartbeat ends with
    an error. *)
Theorem reset_returns_to_factory `{AddressParser} {W} `{FileSystemLaws W}
    statePath statusPath policy env store rt resp cipher last data r (w : W) :
  statusPath ≠ statePath ∧ ¬ fs_temp (W := W) statusPath statePath → fs_valid w →
  ParseControllerResponseInfo data = Ok r → r_ResetRequested r = true →
  let factory := MkStore [] [] [] false [] (B "factory") in
  let gcm := negb (Z.land (cs_RequestFlags cipher) FlagEncryptedGCM =? 0) in
  let '(res, rt', w') := apply_response statePath statusPath policy env store rt resp cipher last r w in
  is_ok res = is_ok (ResetEnv statePath w).1.1 ∧
  (is_ok res = true →
   (updateAdoptionState statePath store r gcm w).1.1.2 = factory ∧
   fs_content w' statePath = Some (B "STATE=factory" ++ [x0a]) ∧
   match (loadAdoptionState statePath w').1 with Ok s => s = factory | Err _ => True end ∧
   (∃ last', w' = (saveLastInformStatus statusPath env last' (ResetEnv statePath w).2).2 ∧
      li_ControllerState last' = B "factory" ∧ li_CFGVersion last' = [] ∧ li_Version last' = [] ∧
      r_ResetApplied (li_Response last') = true ∧ li_ControllerTimeOffset last' = 0 ∧
      li_ControllerTimeSet last' = false) ∧
   rt' = MkRuntime (MkSchedule (s_config (rt_schedule rt)) (BaseInterval (s_config (rt_schedule rt))) 0 false)
           (MkControllerClock 0 false) (MkSelection [] []) ∧
   NextDelay <$> res = Ok (BaseInterval (s_config (rt_schedule rt)))).
Proof.
  intros Hp Hv Hparse Hreset. rewrite (parsed_reset _ _ Hparse Hreset). cbv zeta. unfold apply_response. cbv zeta.
  set (gcm := negb (Z.land _ _ =? 0)). clearbody gcm.
  unfold updateAdoptionState, ResetEnv. cbn [r_ResetRequested reset_response].
  change (MkStore [] [] [] false [] (B "factory")) with (set_State StateFactory no_store).
  pose proof (SaveEnv_cases statePath (set_State StateFactory no_store) w Hv) as Hc.
  destruct (SaveEnv statePath (set_State StateFactory no_store) w) as [[[]|e] w1];
    [|destruct (Failure _ _); cbn; split; [reflexivity|discriminate]].
  destruct Hc as (Hv1 & _ & _ & Hc). cbn [r_ResetApplied set_reset].
  destruct (SuccessWithOptions (rt_schedule rt) _ _) as [sch d] eqn:Es.
  assert (s_config sch = s_config (rt_schedule rt)) as Hcfg.
  { unfold SuccessWithOptions in Es. by injection Es as <- <-. }
  unfold Reset. cbn [r_Type r_ServerTimeSet r_BlockSelectionSet set_reset reset_response]. rewrite !andb_false_r.
  rewrite Hcfg. cbn [fst snd is_ok]. split; [done|]. intros _. split; [done|].
  match goal with |- context [recordLastInform _ ?e ?l ?a ?b ?c ?d ?g ?h w1] =>
    destruct (recordLastInform_same statePath statusPath Hp e l a b c d g h w1 Hv1) as [Hv2 Hs] end.
  rewrite Hs. split; [exact Hc|]. split; [|split; [|done]].
  - unfold loadAdoptionState. pose proof (LoadEnv_cases statePath _ Hv2) as Hl.
    destruct (LoadEnv statePath _) as [[s|[|e]] w3]; cbn [fst]; [|by destruct Hl as (_ & _ & Hl); rewrite Hs, Hc in Hl|done].
    destruct Hl as (_ & _ & d' & Hd & He). rewrite Hs, Hc in Hd. injection Hd as <-.
    assert (parse_env (render_env (set_State StateFactory no_store)) = Ok (set_State StateFactory no_store)) as Hf
      by (vm_compute; reflexivity).
    rewrite Hf in He. by injection He as <-.
  - eexists. split; [unfold recordLastInform; reflexivity|]. by cbn.
Qed.

(** A response that switches a device without a key to AES-GCM ends the
    daemon: the merged store cannot be persisted, the files are left alone, and
    the heartbeat returns the error that [maintainControllerPresence] returns. *)
Theorem keyless_gcm_stops_daemon `{AddressParser} {W} `{FileSystemLaws W}
    statePath statusPath policy env store rt resp cipher last r (w : W) :
  statusPath ≠ statePath ∧ ¬ fs_temp (W := W) statusPath statePath →
  fs_valid w → r_ResetRequested r = false → r_HasStateUpdate r = true →
  validateStoreForPersistence store = Ok tt →
  AuthKey store = [] → AuthKey (r_Store r) = [] → UseAESGCM (r_Store r) = true →
  let '(res, rt', w') := apply_response statePath statusPath policy env store rt resp cipher last r w in
  is_ok res = false ∧ fs_content w' statePath = fs_content w statePath.
Proof.
  intros Hp Hv Hr Hu Hok Hk Hk' Hg. unfold apply_response. cbv zeta.
  set (gcm := negb (Z.land _ _ =? 0)). clearbody gcm.
  unfold updateAdoptionState. rewrite Hr, Hu. cbn [negb].
  fold (heartbeat_update gcm r).
  assert (∃ e, validateStoreForPersistence (Merge store (heartbeat_update gcm r)).1 = Err e) as [e He]
    by (apply keyless_gcm_unpersistable; [done|by destruct gcm..]).
  assert ((Merge store (heartbeat_update gcm r)).2 = true) as Hc.
  { apply merge_changed. intros E. rewrite E in He. congruence. }
  destruct (Merge store (heartbeat_update gcm r)) as [updated changed]. cbn [fst snd] in *. subst changed.
  assert (∃ e', SaveEnv statePath updated w = (Err e', w)) as [e' ->].
  { unfold SaveEnv. case_decide; [by eexists|]. rewrite He. by eexists. }
  destruct (Failure _ _) as [sch d]. split; [done|].
  by apply (recordLastInform_same statePath statusPath Hp).
Qed.

(** ** Witnesses: the toy cipher, a disk, and a controller that answers *)
#[local] Existing Instance Toy.crypto.
#[local] Existing Instance no_ipv6.

Definition adopt_json : bytes :=
  J "{'_type':'setparam','mgmt_cfg':'authkey=00112233445566778899aabbccddeeff\ncfgversion=0123456789abcdef\nuse_aes_gcm=true\n'}".
Definition keyless_gcm_json : bytes :=
  J "{'_type':'setparam','mgmt_cfg':'use_aes_gcm=true\n'}".
Definition reset_json : bytes := J "{'_type':'setdefault'}".

(** Every request is answered with the JSON under the default key. *)
Definition controller (json : bytes) : Transport := {|
  roundtrip := λ _ _,
    match EncodeJSON Toy.rand Toy.mac DefaultAuthKey json (MkOptions false false) with
    | Ok body => Ok (MkHttpResponse 200 [] body false)
    | Err e => Err e
    end |}.
Definition sample_env (json : bytes) : environment :=
  MkEnv (controller json) Toy.rand demo_random (MkTime 1700000000 0) (λ _, Some (B "{}")).
Definition sample_turn (json : bytes) : turn :=
  MkTurn (sample_env json) 10 (λ _ _ _ _ _, Ok (B "{}")) false.
Definition sample_presence : presence :=
  MkPresence Toy.mac (B "192.0.2.10") (B "http://192.0.2.1:8080/inform") (B "/var/lib/state.env")
    (B "/var/lib/status.json") None false (MkPolicy true true false []) false [] [].
Definition sample_rt : runtime :=
  MkRuntime demo_schedule (MkControllerClock 0 false) (MkSelection [] []).
Definition sample_disk : disk :=
  MkDisk empty_fs (repeat all_done 8) (repeat true 8).

Lemma sample_paths :
  pr_status sample_presence ≠ pr_state sample_presence ∧
  ¬ fs_temp (W := disk) (pr_status sample_presence) (pr_state sample_presence).
Proof.
  split; [vm_compute; discriminate|]. intros [suffix Hs]. vm_compute in Hs. discriminate Hs.
Qed.

(** An adoption, then a noop under the new key that cannot be decoded: the
    loop backs off and goes on. *)
Example adoption_run :
  let '(packets, delays, r) :=
    presence_run sample_presence [sample_turn adopt_json; sample_turn adopt_json]
      sample_announcement sample_rt sample_disk in
  length packets = 2%nat ∧ delays = [10 * Second; 18 * Second] ∧
  (LoadEnv (B "/var/lib/state.env") (world_after r)).1 =
    Ok (MkStore [] (B "00112233445566778899aabbccddeeff") (B "0123456789abcdef") true [] StateAdopting).
Proof. vm_compute. done. Qed.

Lemma informAuthKey_sound_witness :
  informAuthKey (set_State StateProvisioning no_store) = Ok DefaultAuthKey ∧
  ∃ key, informAuthKey (MkStore [] (B "00112233445566778899aabbccddeeff") [] true [] StateAdopting) = Ok key ∧
    zlen key = 16.
Proof.
  split; [apply informAuthKey_sound; left; split_and!; [reflexivity..|apply (bool_decide_unpack _); vm_compute; exact I]|].
  destruct (informAuthKey (MkStore [] (B "00112233445566778899aabbccddeeff") [] true [] StateAdopting))
    as [key|e] eqn:E; [|vm_compute in E; discriminate E].
  exists key. split; [reflexivity|]. exact (proj2 (informAuthKey_sound _ key) E).
Defined.

Lemma informAuthKey_total_witness :
  ∃ key, informAuthKey (set_State StateFactory no_store) = Ok key.
Proof.
  apply informAuthKey_total; [vm_compute; reflexivity|right; vm_compute; discriminate].
Defined.

Lemma controllerIntervalDuration_exact_witness :
  controllerIntervalDuration 10000000000 = int64_max ∧ controllerIntervalDuration 15 = 15 * Second.
Proof.
  split.
  - rewrite controllerIntervalDuration_exact; [reflexivity|split; discriminate].
  - rewrite controllerIntervalDuration_exact; [reflexivity|split; discriminate].
Defined.

Definition sample_response (json : bytes) : ControllerResponse :=
  match ParseControllerResponseInfo json with Ok r => r | Err _ => new_response [] end.

Lemma update_survives_witness :
  let '(_, store', err, _) :=
    updateAdoptionState (B "/var/lib/state.env") (set_State StateFactory no_store)
      (sample_response adopt_json) false sample_disk in
  err = Ok tt ∧ validateStoreForPersistence store' = Ok tt.
Proof.
  apply (update_survives (B "/var/lib/state.env") (set_State StateFactory no_store) adopt_json
           (sample_response adopt_json) false sample_disk).
  - discriminate.
  - intros d. reflexivity.
  - vm_compute. reflexivity.
  - vm_compute. reflexivity.
  - vm_compute. reflexivity.
  - discriminate.
  - right. vm_compute. discriminate.
Defined.

Lemma presence_loop_safe_witness :
  let ts := [sample_turn adopt_json; sample_turn adopt_json] in
  let '(_, delays, r) := presence_run sample_presence ts sample_announcement sample_rt sample_disk in
  delays = [10 * Second; 18 * Second] ∧ Forall (λ d, 0 < d ≤ delay_bound demo_config) delays ∧
  state_loads (B "/var/lib/state.env") (world_after r).
Proof.
  intros ts.
  assert (initial_runtime demo_config = Ok sample_rt) as Hi by (vm_compute; reflexivity).
  assert (in_int64 (BaseInterval demo_config)) as Hb by (split; vm_compute; discriminate).
  assert (in_int64 (BackoffMax demo_config)) as Hbm by (split; vm_compute; discriminate).
  assert (state_loads (pr_state sample_presence) sample_disk) as Hl by (vm_compute; exact I).
  pose proof (presence_loop_safe sample_presence demo_config ts sample_announcement sample_rt
                sample_disk sample_paths Hi Hb Hbm empty_fs_wf Hl) as Hs.
  assert ((presence_run sample_presence ts sample_announcement sample_rt sample_disk).1.2
          = [10 * Second; 18 * Second]) as Hd by (vm_compute; reflexivity).
  destruct (presence_run sample_presence ts sample_announcement sample_rt sample_disk)
    as [[packets delays] r]. destruct Hs as (H1 & _ & H2).
  split; [exact Hd|]. split; [exact H1|exact H2].
Defined.

Lemma announcements_in_sequence_witness :
  let ts := [sample_turn adopt_json; sample_turn adopt_json] in
  let '(packets, delays, _) := presence_run sample_presence ts sample_announcement sample_rt sample_disk in
  length packets = 2%nat ∧ (length delays ≤ length packets)%nat.
Proof.
  intros ts.
  assert (0 ≤ a_Sequence sample_announcement < 2 ^ 32) as Hq by (split; [discriminate|reflexivity]).
  pose proof (announcements_in_sequence sample_presence ts sample_announcement sample_rt
                sample_disk eq_refl Hq) as Hs.
  assert (length (presence_run sample_presence ts sample_announcement sample_rt sample_disk).1.1
          = 2%nat) as Hd by (vm_compute; reflexivity).
  destruct (presence_run sample_presence ts sample_announcement sample_rt sample_disk)
    as [[packets delays] r]. split; [exact Hd|exact (proj1 (proj2 Hs))].
Defined.

Definition sample_cipher : informCipherStatus := MkCipherStatus 1 (B "default") true true 1.
Definition sample_http : Response := MkInformResponse 200 [x00] (B "{}") None.
Definition sample_last : lastInformStatus :=
  newLastInformStatus (MkTime 1700000000 0) (B "http://192.0.2.1:8080/inform") no_store.

(** The heartbeat of a failed, adopted device that is told to reset. *)
Definition worn_rt : runtime :=
  MkRuntime (MkSchedule demo_config (60 * Second) 0 true) (MkControllerClock 5 true)
    (MkSelection [B "ports"] []).
Definition adopted_store : Store :=
  MkStore [] (B "00112233445566778899aabbccddeeff") [] true [] StateConnected.

Lemma reset_returns_to_factory_witness :
  let '(res, rt', w') :=
    apply_response (B "/var/lib/state.env") (B "/var/lib/status.json") (MkPolicy true true false [])
      (sample_env reset_json) adopted_store worn_rt sample_http sample_cipher sample_last
      (sample_response reset_json) sample_disk in
  is_ok res = true ∧ rt' = sample_rt ∧
  fs_content w' (B "/var/lib/state.env") = Some (B "STATE=factory" ++ [x0a]).
Proof.
  assert (r_ResetRequested (sample_response reset_json) = true) as H2 by (vm_compute; reflexivity).
  assert (∃ data, ParseControllerResponseInfo data = Ok (sample_response reset_json)) as [data H1].
  { exists reset_json. vm_compute. reflexivity. }
  pose proof (reset_returns_to_factory (B "/var/lib/state.env") (B "/var/lib/status.json")
    (MkPolicy true true false []) (sample_env reset_json) adopted_store worn_rt sample_http sample_cipher
    sample_last data (sample_response reset_json) sample_disk sample_paths empty_fs_wf H1 H2) as Hs.
  assert (is_ok (apply_response (B "/var/lib/state.env") (B "/var/lib/status.json")
    (MkPolicy true true false []) (sample_env reset_json) adopted_store worn_rt sample_http sample_cipher
    sample_last (sample_response reset_json) sample_disk).1.1 = true) as Hd by (vm_compute; reflexivity).
  cbv zeta in Hs.
  destruct (apply_response _ _ _ _ _ _ _ _ _ _ _) as [[res rt'] w'].
  split; [exact Hd|]. destruct (proj2 Hs Hd) as (_ & Hf & _ & _ & Hr & _). split; [exact Hr|exact Hf].
Defined.

Lemma keyless_gcm_stops_daemon_witness :
  let '(res, _, w') :=
    apply_response (B "/var/lib/state.env") (B "/var/lib/status.json") (MkPolicy true true false [])
      (sample_env keyless_gcm_json) (set_State StateFactory no_store) sample_rt sample_http
      sample_cipher sample_last (sample_response keyless_gcm_json) sample_disk in
  is_ok res = false ∧ fs_content w' (B "/var/lib/state.env") = None.
Proof.
  assert (r_ResetRequested (sample_response keyless_gcm_json) = false) as H1 by (vm_compute; reflexivity).
  assert (r_HasStateUpdate (sample_response keyless_gcm_json) = true) as H2 by (vm_compute; reflexivity).
  assert (validateStoreForPersistence (set_State StateFactory no_store) = Ok tt) as H3
    by (vm_compute; reflexivity).
  assert (AuthKey (r_Store (sample_response keyless_gcm_json)) = []) as H4 by (vm_compute; reflexivity).
  assert (UseAESGCM (r_Store (sample_response keyless_gcm_json)) = true) as H5 by (vm_compute; reflexivity).
  exact (keyless_gcm_stops_daemon (B "/var/lib/state.env") (B "/var/lib/status.json")
    (MkPolicy true true false []) (sample_env keyless_gcm_json) (set_State StateFactory no_store) sample_rt
    sample_http sample_cipher sample_last (sample_response keyless_gcm_json) sample_disk
    sample_paths empty_fs_wf H1 H2 H3 eq_refl H4 H5).
Defined.

(** The same through the whole loop: the daemon ends in its first turn. *)
Example keyless_gcm_run :
  match presence_run sample_presence [sample_turn keyless_gcm_json; sample_turn adopt_json]
          sample_announcement sample_rt sample_disk with
  | ([_], [], Died _ _) => True
  | _ => False
  end.
Proof. vm_compute. exact I. Qed.
