(* ===== verification/Lifecycle.v ===== *)
(** The state file under concurrency: the SSH shim ([src/internal/adoptionssh],
    which [src/cmd/unifi-stubd/serve_ssh.go] starts beside the loop) and the
    heartbeat loop load, merge and save the same file.  The handler's mutex
    orders the SSH commands among themselves; the loop does not take it, so a
    command may run between the load and the save of a heartbeat. *)
From stdpp Require Import relations.
From S2P Require Import Prelude GoStrings GoUtf8 GoJson GoUrl InformCodec InformSchedule AtomicFile.
From S2P Require Import AdoptionStore AdoptionEnv AdoptionResponse AdoptionSsh InformClient Daemon.

(** ** The two halves of [saveState], as the mutex holder runs them *)
Section halves.
Context `{AddressParser} {W : Type} `{FileSystem W}.

Definition ssh_update (url key : bytes) : Store :=
  MkStore url key [] false [] (if decide (key = []) then StateProvisioning else StateAdopting).

(** Load and merge; [None] when the file does not load. *)
Definition saveState_load (path url key : bytes) (w : W) : option Store * W :=
  match LoadEnv path w with
  | (Ok s, w') => (Some (Merge s (ssh_update url key)).1, w')
  | (Err LoadNotExist, w') => (Some (Merge no_store (ssh_update url key)).1, w')
  | (Err (LoadError _), w') => (None, w')
  end.

(** Without interleaving the halves are [saveState]. *)
Lemma saveState_halves config url key (h : @host W) :
  url ≠ [] ∨ key ≠ [] →
  h_files (saveState config url key h).2 =
    match saveState_load (statePath config) url key (h_files h) with
    | (Some s, w) => (SaveEnv (statePath config) s w).2
    | (None, w) => w
    end.
Proof.
  intros Hne. unfold saveState. rewrite decide_False by tauto.
  unfold saveState_load, ssh_update, mbind, M_bind, files, log, mret, M_ret.
  destruct (LoadEnv (statePath config) (h_files h)) as [[s|[|e]] w]; [| |done];
    cbn [h_files h_log];
    (destruct (Merge _ _) as [s' changed]; cbn [h_files h_log fst];
     destruct (SaveEnv (statePath config) s' w) as [[[]|e'] w'] eqn:E; [by destruct changed|done]).
Qed.
End halves.

(** ** The system *)
Record system (W : Type) := MkSystem {
  sys_files : W;
  sys_daemon : option Store;   (* the store the current heartbeat loaded *)
  sys_ssh : option Store;      (* the merged store the mutex holder will save *)
}.
Arguments MkSystem {W}. Arguments sys_files {W}. Arguments sys_daemon {W}. Arguments sys_ssh {W}.

Inductive party := Heartbeat | StatusWriter | Command.

Section system.
Context `{AddressParser} {W : Type} `{FileSystem W}.
Variables (path statusPath : bytes).

Inductive lifecycle_step : party → relation (system W) :=
(* the top of a turn of maintainControllerPresence *)
| DaemonLoad w ssh store w' :
    loadAdoptionState path w = (Ok store, w') →
    lifecycle_step Heartbeat (MkSystem w None ssh) (MkSystem w' (Some store) ssh)
(* a heartbeat with a controller response *)
| DaemonApply w ssh store r gcm r' store' err w' :
    updateAdoptionState path store r gcm w = (r', store', err, w') →
    lifecycle_step Heartbeat (MkSystem w (Some store) ssh) (MkSystem w' None ssh)
(* a heartbeat without one *)
| DaemonSkip w ssh store :
    lifecycle_step Heartbeat (MkSystem w (Some store) ssh) (MkSystem w None ssh)
(* saveLastInformStatus *)
| DaemonStatus w daemon ssh data r w' :
    fs_write statusPath data 0x180 w = (r, w') →
    lifecycle_step StatusWriter (MkSystem w daemon ssh) (MkSystem w' daemon ssh)
(* saveState, up to the merge *)
| SshLoad w daemon url key s w' :
    url ≠ [] ∨ key ≠ [] →
    saveState_load path url key w = (Some s, w') →
    lifecycle_step Command (MkSystem w daemon None) (MkSystem w' daemon (Some s))
(* saveState, from the save *)
| SshSave w daemon s r w' :
    SaveEnv path s w = (r, w') →
    lifecycle_step Command (MkSystem w daemon (Some s)) (MkSystem w' daemon None)
| SshReset w daemon r s w' :
    ResetEnv path w = (r, s, w') →
    lifecycle_step Command (MkSystem w daemon None) (MkSystem w' daemon None).

Definition unlocked (s s' : system W) : Prop := ∃ p, lifecycle_step p s s'.

(** The steps of the same system if the heartbeat took the handler's mutex
    from its load to its save. *)
Definition locked (s s' : system W) : Prop :=
  ∃ p, lifecycle_step p s s' ∧
    match p with
    | Heartbeat => sys_ssh s = None
    | Command => sys_daemon s = None
    | StatusWriter => True
    end.

(** What the file holds, as [loadAdoptionState] reads it. *)
Definition holds (w : W) (store : Store) : Prop :=
  match fs_content w path with
  | None => store = set_State StateFactory no_store
  | Some d => parse_env d = Ok store
  end.

(** Nobody acts on a store that the file no longer holds. *)
Definition fresh (s : system W) : Prop :=
  (∀ store, sys_daemon s = Some store → holds (sys_files s) store) ∧
  (∀ merged, sys_ssh s = Some merged → ∃ base url key,
     merged = (Merge base (ssh_update url key)).1 ∧
     match fs_content (sys_files s) path with
     | None => base = no_store
     | Some d => parse_env d = Ok base
     end).
End system.

(** ** What every interleaving keeps *)
Section keeps.
Context `{AddressParser} {W : Type} `{FileSystemLaws W}.
Variables (path statusPath : bytes).
Hypothesis paths : statusPath ≠ path ∧ ¬ fs_temp (W := W) statusPath path.

Definition sound (w : W) : Prop := fs_valid w ∧ state_loads path w.

Lemma SaveEnv_sound s w : sound w → sound (SaveEnv path s w).2.
Proof.
  intros [Hv Hs]. split; [|by apply SaveEnv_loads].
  pose proof (SaveEnv_cases path s w Hv) as Hc. destruct (SaveEnv path s w) as [r w'].
  by destruct Hc.
Qed.

Lemma ResetEnv_files w : (ResetEnv path w).2 = (SaveEnv path (set_State StateFactory no_store) w).2.
Proof. unfold ResetEnv. by destruct (SaveEnv path _ w) as [[|] ?]. Qed.

Lemma saveState_load_same url key (w : W) :
  fs_valid w → fs_valid (saveState_load path url key w).2 ∧
  fs_content (saveState_load path url key w).2 path = fs_content w path ∧
  ∀ m, (saveState_load path url key w).1 = Some m → ∃ base,
    m = (Merge base (ssh_update url key)).1 ∧
    match fs_content w path with None => base = no_store | Some d => parse_env d = Ok base end.
Proof.
  intros Hv. unfold saveState_load. pose proof (LoadEnv_cases path w Hv) as Hc.
  destruct (LoadEnv path w) as [[s|[|e]] w']; destruct Hc as (Hv' & Hsame & Hc);
    cbn [fst snd]; (split_and!; [done|by rewrite Hsame|]); [|intros m [= <-]|done].
  - intros m [= <-]. destruct Hc as (d & -> & Hd). eauto.
  - rewrite Hc. eauto.
Qed.

Lemma loadAdoptionState_holds (w : W) store w' :
  fs_valid w → loadAdoptionState path w = (Ok store, w') →
  fs_valid w' ∧ fs_content w' path = fs_content w path ∧ holds path w store.
Proof.
  intros Hv. unfold loadAdoptionState, holds. pose proof (LoadEnv_cases path w Hv) as Hc.
  destruct (LoadEnv path w) as [[s|[|e]] w1]; destruct Hc as (Hv' & Hsame & Hc);
    intros [= <- <-]; (split_and!; [done|by rewrite Hsame|]).
  - by destruct Hc as (d & -> & Hd).
  - by rewrite Hc.
Qed.

Lemma status_sound data r w w' :
  fs_valid w → fs_write statusPath data 0x180 w = (r, w') →
  fs_valid w' ∧ fs_content w' path = fs_content w path.
Proof.
  intros Hv Hw. destruct paths as [Hp Ht].
  pose proof (fs_write_content statusPath data 0x180 w Hv) as [Hv' _].
  pose proof (write_elsewhere statusPath data 0x180 w path Hv (not_eq_sym Hp) Ht) as He.
  by rewrite Hw in Hv', He.
Qed.

Lemma step_sound p s s' :
  lifecycle_step path statusPath p s s' → sound (sys_files s) → sound (sys_files s').
Proof.
  unfold sound, state_loads. destruct 1 as [w ssh store w' Hl|w ssh store r gcm r' store' err w' Hu|
    w ssh store|w daemon ssh data r w' Hw|w daemon url key s w' Hne Hl|w daemon s r w' Hs|
    w daemon r s w' Hr]; cbn [sys_files]; intros [Hv Hld].
  - destruct (loadAdoptionState_holds w store w' Hv Hl) as (Hv' & -> & _). done.
  - pose proof (updateAdoptionState_files path store r gcm w Hv Hld) as Hf. rewrite Hu in Hf.
    destruct Hf as (Hv' & Hl' & _). done.
  - done.
  - by destruct (status_sound data r w w' Hv Hw) as [Hv' ->].
  - destruct (saveState_load_same url key w Hv) as (Hv' & Hc & _). rewrite Hl in Hv', Hc.
    cbn in *. by rewrite Hc.
  - pose proof (SaveEnv_sound s w (conj Hv Hld)) as Hf. by rewrite Hs in Hf.
  - pose proof (SaveEnv_sound (set_State StateFactory no_store) w (conj Hv Hld)) as Hf.
    rewrite <- ResetEnv_files, Hr in Hf. done.
Qed.
End keeps.

(** C18: however the SSH commands, the heartbeats and the status writes
    interleave, and whichever writes fail, a state file that loads still loads
    (or stays absent): no interleaving corrupts it. *)
Theorem interleaving_keeps_state_file `{AddressParser} {W} `{FileSystemLaws W}
    path statusPath (s s' : system W) :
  statusPath ≠ path ∧ ¬ fs_temp (W := W) statusPath path →
  rtc (unlocked path statusPath) s s' →
  fs_valid (sys_files s) → state_loads path (sys_files s) →
  fs_valid (sys_files s') ∧ state_loads path (sys_files s').
Proof.
  intros Hp Hr Hv Hl. apply (conj Hv) in Hl. fold (sound path (sys_files s)) in Hl. clear Hv.
  induction Hr as [|s1 s2 s3 [p Hs] _ IH]; [exact Hl|]. apply IH.
  by eapply step_sound.
Qed.

(** With the mutex held from load to save on both sides, nobody ever saves
    over a state it has not read: in every reachable state the store a
    heartbeat holds is the one in the file, and the store a command is about to
    save is the merge of the one in the file. *)
Theorem locked_updates_fresh `{AddressParser} {W} `{FileSystemLaws W}
    path statusPath (s s' : system W) :
  statusPath ≠ path ∧ ¬ fs_temp (W := W) statusPath path →
  rtc (locked path statusPath) s s' →
  fs_valid (sys_files s) → state_loads path (sys_files s) → fresh path s →
  fresh path s'.
Proof.
  intros Hp Hr Hv Hl. apply (conj Hv) in Hl. fold (sound path (sys_files s)) in Hl. clear Hv.
  induction Hr as [|s1 s2 s3 (p & Hs & Hlock) _ IH]; [done|]. intros Hf.
  assert (sound path (sys_files s2)) as Hl2 by by eapply step_sound. apply (IH Hl2). clear IH Hl2.
  destruct Hl as [Hv _].
  destruct Hs as [w ssh store w' Hld|w ssh store r gcm r' store' err w' Hu|w ssh store|
    w daemon ssh data r w' Hw|w daemon url key m w' Hne Hld|w daemon m r w' Hs|w daemon r m w' Hs];
    cbn in *; subst; try (by split); destruct Hf as [Hf1 Hf2].
  - destruct (loadAdoptionState_holds path w store w' Hv Hld) as (_ & Hc & Hh).
    split; [|done]. intros ? [= <-]. unfold holds in *. cbn. by rewrite Hc.
  - destruct (status_sound path statusPath Hp data r w w' Hv Hw) as [_ Hc].
    unfold fresh, holds. cbn. rewrite Hc. by split.
  - destruct (saveState_load_same path url key w Hv) as (_ & Hc & Hm). rewrite Hld in Hc, Hm.
    cbn [fst snd] in *. split; [done|]. intros m' [= <-]. cbn [sys_files]. rewrite Hc.
    destruct (Hm m eq_refl) as (base & -> & Hb). by exists base, url, key.
Qed.

(** ** The lost update *)
#[local] Existing Instance no_ipv6.

Definition state_path : bytes := B "/var/lib/state.env".
Definition status_path : bytes := B "/var/lib/status.json".
Definition new_key : bytes := B "00112233445566778899aabbccddeeff".
Definition new_url : bytes := B "http://192.0.2.1:8080/inform".
Definition factory : Store := set_State StateFactory no_store.
Definition cfgversion_json : bytes :=
  J "{'_type':'setparam','mgmt_cfg':'cfgversion=0123456789abcdef\n'}".

(** A heartbeat loads, an SSH [set-adopt] runs in full, the heartbeat applies. *)
Definition w_loaded : disk := (loadAdoptionState state_path sample_disk).2.
Definition ssh_merged : Store := (Merge no_store (ssh_update new_url new_key)).1.
Definition w_ssh_loaded : disk := (saveState_load state_path new_url new_key w_loaded).2.
Definition w_adopted : disk := (SaveEnv state_path ssh_merged w_ssh_loaded).2.
Definition w_lost : disk :=
  (updateAdoptionState state_path factory (sample_response cfgversion_json) false w_adopted).2.

Definition s_start : system disk := MkSystem sample_disk None None.
Definition s_adopted : system disk := MkSystem w_adopted (Some factory) None.
Definition s_lost : system disk := MkSystem w_lost None None.

Lemma reach_adopted : rtc (unlocked state_path status_path) s_start s_adopted.
Proof.
  apply rtc_l with (MkSystem w_loaded (Some factory) None).
  { exists Heartbeat. apply DaemonLoad. vm_compute. reflexivity. }
  apply rtc_l with (MkSystem w_ssh_loaded (Some factory) (Some ssh_merged)).
  { exists Command. eapply (SshLoad state_path status_path w_loaded _ new_url new_key).
    - left. discriminate.
    - vm_compute. reflexivity. }
  apply rtc_once. exists Command. apply (SshSave _ _ _ _ _ (Ok tt)). vm_compute. reflexivity.
Qed.

Lemma reach_lost : rtc (unlocked state_path status_path) s_adopted s_lost.
Proof.
  apply rtc_once. exists Heartbeat.
  apply (DaemonApply _ _ _ _ _ (sample_response cfgversion_json) false
           (updateAdoptionState state_path factory (sample_response cfgversion_json) false w_adopted).1.1.1
           (updateAdoptionState state_path factory (sample_response cfgversion_json) false w_adopted).1.1.2
           (updateAdoptionState state_path factory (sample_response cfgversion_json) false w_adopted).1.2).
  unfold w_lost. by destruct (updateAdoptionState _ _ _ _ _) as [[[? ?] ?] ?].
Qed.

(** An adoption can be lost: from a fresh device there is a reachable state
    in which an SSH command has completed and its key and URL are in the file,
    and from there a reachable one in which the heartbeat that was under way
    has replaced the file by one without them. *)
Theorem adoption_can_be_lost :
  ∃ s s' : system disk,
    rtc (unlocked state_path status_path) s_start s ∧
    rtc (unlocked state_path status_path) s s' ∧
    (AuthKey <$> (LoadEnv state_path (sys_files s)).1) = Ok new_key ∧
    (AuthKey <$> (LoadEnv state_path (sys_files s')).1) = Ok [] ∧
    sys_ssh s = None ∧ ¬ fresh state_path s.
Proof.
  exists s_adopted, s_lost. split; [exact reach_adopted|]. split; [exact reach_lost|].
  split; [vm_compute; reflexivity|]. split; [vm_compute; reflexivity|]. split; [reflexivity|].
  intros [Hf _]. specialize (Hf factory eq_refl). unfold holds in Hf.
  assert (is_Some (fs_content w_adopted state_path)) as [d Hd] by (vm_compute; by eexists).
  vm_compute in Hf. discriminate Hf.
Qed.

(** ** Witnesses *)
Lemma interleaving_keeps_state_file_witness :
  fs_valid (sys_files s_lost) ∧ state_loads state_path (sys_files s_lost).
Proof.
  assert (state_loads state_path (sys_files s_start)) as Hl by (vm_compute; exact I).
  assert (rtc (unlocked state_path status_path) s_start s_lost) as Hr
    by (etrans; [exact reach_adopted|exact reach_lost]).
  exact (interleaving_keeps_state_file state_path status_path s_start s_lost sample_paths
           Hr empty_fs_wf Hl).
Defined.

Lemma locked_updates_fresh_witness :
  fresh state_path (MkSystem w_loaded (Some factory) None).
Proof.
  assert (state_loads state_path (sys_files s_start)) as Hl by (vm_compute; exact I).
  assert (fresh state_path s_start) as Hf by by split.
  assert (rtc (locked state_path status_path) s_start (MkSystem w_loaded (Some factory) None)) as Hr.
  { apply rtc_once. exists Heartbeat. split; [|reflexivity]. apply DaemonLoad. vm_compute. reflexivity. }
  exact (locked_updates_fresh state_path status_path s_start _ sample_paths Hr empty_fs_wf Hl Hf).
Defined.
