(* ===== verification/Contract.v ===== *)
(** What the daemon promises about the adoption state, as a whole.

    The abstract side is a register: the state file is absent or holds one
    store.  [adoption_step] lists the only ways the register may change.  The
    concrete side is the heartbeat loop of [src/cmd/unifi-stubd] and the
    sessions of [src/internal/adoptionssh], run one after the other over any
    file system with [FileSystemLaws]; their fine-grained interleaving is in
    Lifecycle.  The second half is about progress: with files that work and a
    controller that stays within the protocol the loop never ends by itself. *)
From stdpp Require Import relations.
From S2P Require Import Prelude GoStrings GoUtf8 GoJson GoUrl GoNet InformCodec InformSchedule AtomicFile.
From S2P Require Import AdoptionStore AdoptionEnv AdoptionResponse Discovery AdoptionSsh InformClient Daemon Lifecycle.

(** ** The abstract register *)
Section abstract.
Context `{AddressParser}.

Definition factory_store : Store := set_State StateFactory no_store.

(** An update a controller response can carry. *)
Definition mgmt_update (u : Store) : Prop :=
  ∃ v, u = set_State StateConnected v ∧ (v = no_store ∨ ∃ m, parseMgmtCFG m = Ok v).

Inductive adoption_step : relation (option Store) :=
(* setdefault, or a factory reset over SSH *)
| step_reset r : adoption_step r (Some factory_store)
(* a response under AES-GCM confirms the cipher of a keyed device *)
| step_cipher r :
    AuthKey (default factory_store r) ≠ [] → UseAESGCM (default factory_store r) = false →
    adoption_step r (Some (set_UseAESGCM true (default factory_store r)))
(* setparam or noop *)
| step_response r u gcm m :
    mgmt_update u → (gcm = true → AuthKey (default factory_store r) ≠ []) →
    m = (Merge (default factory_store r) (if gcm then set_UseAESGCM true u else u)).1 →
    adoption_step r (Some m)
(* set-inform and set-adopt over SSH *)
| step_command r url key :
    url ≠ [] ∨ key ≠ [] →
    adoption_step r (Some (Merge (default no_store r) (ssh_update url key)).1).

(** The abstract machine never leaves a device without its key except by a
    reset. *)
Lemma merge_keeps_key base update : AuthKey base ≠ [] → AuthKey (Merge base update).1 ≠ [].
Proof.
  intros Hk. rewrite merge_merged. cbn. unfold pick. by case_bool_decide.
Qed.

Lemma step_keeps_key r r' :
  adoption_step r r' → AuthKey (default factory_store r) ≠ [] →
  r' = Some factory_store ∨ AuthKey (default factory_store r') ≠ [].
Proof.
  intros Hs Hk. destruct Hs as [r|r K1 K2|r u gcm m _ _ ->|r url key _]; [by left|by right|right..].
  - by apply merge_keeps_key.
  - apply merge_keeps_key. by destruct r.
Qed.
(** Over any number of steps the key stays, unless the factory state is
    passed. *)
Theorem unreset_keeps_key r r' :
  rtc (λ a b, adoption_step a b ∧ b ≠ Some factory_store) r r' →
  AuthKey (default factory_store r) ≠ [] → AuthKey (default factory_store r') ≠ [].
Proof.
  intros Hr. induction Hr as [r|r1 r2 r3 [Hs Hn] Hr IH]; [done|]. intros Hk. apply IH.
  by destruct (step_keeps_key r1 r2 Hs Hk).
Qed.
End abstract.

(** ** The register of a file system *)
Section register.
Context `{AddressParser} {W : Type} `{FileSystemLaws W}.
Variable path : bytes.

Definition register (w : W) : option Store :=
  fs_content w path ≫= λ data, match parse_env data with Ok s => Some s | Err _ => None end.

Lemma register_parsed (w : W) d s :
  fs_content w path = Some d → parse_env d = Ok s → register w = Some s.
Proof. intros Hd Hp. unfold register. rewrite Hd. unfold mbind, option_bind. by rewrite Hp. Qed.

(** [w'] is valid with a loadable state file if [w] is, and its register is
    reached by the contract's steps. *)
Definition refines (w w' : W) : Prop :=
  fs_valid w → state_loads path w →
  fs_valid w' ∧ state_loads path w' ∧ rtc adoption_step (register w) (register w').

#[export] Instance refines_preorder : PreOrder refines.
Proof.
  split; [by intros w Hv Hs|]. intros w1 w2 w3 H12 H23 Hv Hs.
  destruct (H12 Hv Hs) as (Hv2 & Hs2 & R12). destruct (H23 Hv2 Hs2) as (Hv3 & Hs3 & R23).
  split; [done|]. split; [done|]. by etransitivity.
Qed.

Lemma refines_intro (w w' : W) :
  (fs_valid w → state_loads path w → refines w w') → refines w w'.
Proof. unfold refines. auto. Qed.

Lemma same_content_refines (w w' : W) :
  (fs_valid w → fs_valid w') → (fs_valid w → fs_content w' path = fs_content w path) →
  refines w w'.
Proof.
  intros Hf Hc Hv Hs. specialize (Hf Hv). specialize (Hc Hv). unfold state_loads, register.
  by rewrite Hc.
Qed.

Lemma SaveEnv_refines s (w : W) :
  (validateStoreForPersistence s = Ok tt → adoption_step (register w) (Some s)) →
  refines w (SaveEnv path s w).2.
Proof.
  intros Hstep Hv Hs. pose proof (SaveEnv_loads path s w Hv Hs) as Hl.
  pose proof (SaveEnv_cases path s w Hv) as Hc.
  destruct (SaveEnv path s w) as [r w']. destruct Hc as (Hv' & _ & Hc). cbn [snd] in *.
  split; [done|]. split; [done|].
  assert (fs_content w' path = fs_content w path ∨
          validateStoreForPersistence s = Ok tt ∧ fs_content w' path = Some (render_env s)) as Hor
    by (destruct r; tauto).
  destruct Hor as [E|[Hok E]]; [unfold register; by rewrite E|].
  rewrite (register_parsed w' _ s E) by (by apply parse_render). apply rtc_once. auto.
Qed.

Lemma loaded_register (w w' : W) store :
  fs_valid w → loadAdoptionState path w = (Ok store, w') →
  store = default factory_store (register w) ∧ refines w w' ∧ register w' = register w.
Proof.
  intros Hv Hl. pose proof (LoadEnv_cases path w Hv) as Hc. unfold loadAdoptionState in Hl.
  destruct (LoadEnv path w) as [[s|[|e]] w1]; [..|done]; injection Hl as <- <-; destruct Hc as (Hv' & Hsame & Hc);
    (split; [|split; [apply same_content_refines; [done|by rewrite Hsame]|unfold register; by rewrite Hsame]]).
  - destruct Hc as (d & Hd & Hp). by rewrite (register_parsed w d s Hd Hp).
  - unfold register. by rewrite Hc.
Qed.
End register.

(** ** The participants *)
Section participants.
Context `{InformCrypto} `{AddressParser} {W : Type} `{FileSystemLaws W}.
Variables (path statusPath : bytes).
Hypothesis paths : statusPath ≠ path ∧ ¬ fs_temp (W := W) statusPath path.

Lemma recordLastInform_refines env last code ty cipher rb jb err (w : W) :
  refines path w (recordLastInform statusPath env last code ty cipher rb jb err w).
Proof.
  apply same_content_refines; intros Hv; by apply (recordLastInform_same path statusPath paths).
Qed.

Lemma response_mgmt_update data r :
  ParseControllerResponseInfo data = Ok r → r_ResetRequested r = false →
  r_HasStateUpdate r = true → mgmt_update (r_Store r).
Proof.
  intros Hp Hr Hs. destruct (response_store data r Hp) as [?|[?|Hu]]; [congruence..|].
  destruct Hu as (u & Hu & Hor). by exists u.
Qed.

Lemma updateAdoptionState_refines data r gcm (w : W) :
  ParseControllerResponseInfo data = Ok r →
  (gcm = true → AuthKey (default factory_store (register path w)) ≠ []) →
  refines path w
    (updateAdoptionState path (default factory_store (register path w)) r gcm w).2.
Proof.
  intros Hp Hg. unfold updateAdoptionState.
  destruct (r_ResetRequested r) eqn:Er.
  { unfold ResetEnv.
    pose proof (SaveEnv_refines path factory_store w (λ _, step_reset _)) as Hs.
    unfold factory_store at 1 in Hs.
    by destruct (SaveEnv path (set_State StateFactory no_store) w) as [[|] w']. }
  destruct (negb (r_HasStateUpdate r)) eqn:Es.
  { destruct (gcm && _ && _) eqn:Eg; [|done]. bool_to_prop.
    pose proof (SaveEnv_refines path (set_UseAESGCM true (default factory_store (register path w))) w)
      as Hs.
    destruct (SaveEnv path _ w) as [[|] w']; apply Hs; intros _; by apply step_cipher. }
  apply negb_false_iff in Es.
  set (u := if gcm then set_UseAESGCM true (r_Store r) else r_Store r).
  destruct (Merge (default factory_store (register path w)) u) as [m changed] eqn:Em.
  destruct changed; [|done].
  pose proof (SaveEnv_refines path m w) as Hs.
  destruct (SaveEnv path m w) as [[|] w']; apply Hs; intros _;
    (eapply step_response; [by eapply response_mgmt_update|exact Hg|]);
    fold u; by rewrite Em.
Qed.

(** AES-GCM is requested only with a key of the device. *)
Lemma sendInform_gcm_keyed mac url net rand store payload source :
  negb (Z.land (cs_RequestFlags (sn_cipher (sendInform net rand mac url store payload source)))
          FlagEncryptedGCM =? 0) = true → AuthKey store ≠ [].
Proof.
  unfold sendInform. destruct (informAuthKey store) as [key|e]; [|done].
  destruct (Send _ _ _) as [[reqs resp] err]. intros Hf Hk. rewrite Hk in Hf.
  rewrite (bool_decide_eq_true_2 ([] = []) eq_refl) in Hf. cbn [negb andb] in Hf.
  by destruct resp.
Qed.

Lemma heartbeat_refines mac url source policy env payload rt (w : W) :
  refines path w
    (sendInformHeartbeat mac url path statusPath source policy env
       (default factory_store (register path w)) payload rt w).2.
Proof.
  set (store := default factory_store (register path w)).
  unfold sendInformHeartbeat, back_off. case_decide; [done|]. cbv zeta.
  pose proof (sendInform_gcm_keyed mac url (e_net env) (e_rand env) store payload source) as Hg.
  destruct (sn_error _), (sn_response _) as [resp|]; try done;
    try (destruct (Failure _ _); apply recordLastInform_refines).
  destruct (negb (_ =? StatusOK)); [destruct (Failure _ _); apply recordLastInform_refines|].
  destruct (zlen _ =? 0); [destruct (Success _ _); apply recordLastInform_refines|].
  destruct (ParseControllerResponseInfo _) as [r|e] eqn:Ep;
    [|destruct (Failure _ _); apply recordLastInform_refines].
  unfold apply_response. cbv zeta.
  pose proof (updateAdoptionState_refines _ r _ w Ep Hg) as Hu. fold store in Hu.
  destruct (updateAdoptionState path store r _ w) as [[[r' store'] err] w1]. cbn [snd] in Hu.
  destruct err.
  - destruct (SuccessWithOptions _ _ _). destruct (if r_ResetApplied r' then _ else _) as [[[? ?] ?] ?].
    etransitivity; [exact Hu|]. apply recordLastInform_refines.
  - destruct (Failure _ _). etransitivity; [exact Hu|]. apply recordLastInform_refines.
Qed.

Lemma turn_refines cfg t ann rt (w : W) :
  pr_state cfg = path → pr_status cfg = statusPath →
  refines path w (world_after (presence_turn cfg t ann rt w).2).
Proof.
  intros Ep Es. apply refines_intro. intros Hv Hs. unfold presence_turn. cbv zeta. rewrite Ep, Es.
  destruct (loadAdoptionState path w) as [[store|e] w1] eqn:El.
  2: { pose proof (loadAdoptionState_files path w Hv Hs) as Hl. rewrite El in Hl.
       unfold loadAdoptionState in El. pose proof (LoadEnv_cases path w Hv) as Hc.
       destruct (LoadEnv path w) as [[?|[|?]] ?]; destruct Hc as (_ & Hsame & _); try done.
       injection El as _ <-. cbn [snd world_after].
       apply same_content_refines; [by intros _; apply Hl|by rewrite Hsame]. }
  pose proof (loaded_register path w w1 store Hv El) as (-> & Hr1 & E1). rewrite <- E1 in *.
  etransitivity; [exact Hr1|].
  destruct (MarshalBinary _) as [packet|]; [|done].
  destruct (t_payload t _ _ _ _ _) as [payload|]; [|done].
  pose proof (heartbeat_refines (pr_mac cfg)
    (effectiveInformURL (pr_controller cfg) (default factory_store (register path w1)))
    (pr_source cfg) (pr_policy cfg) (t_env t) payload rt w1) as Hh.
  destruct (sendInformHeartbeat _ _ _ _ _ _ _ _ _ _ _) as [[[d|e] rt'] w2]; cbn [snd] in *; [|done].
  by destruct (_ || _).
Qed.

Definition host_refines (h h' : @host W) : Prop := refines path (h_files h) (h_files h').

#[export] Instance host_refines_preorder : PreOrder host_refines.
Proof.
  split; [intros h; unfold host_refines; reflexivity|].
  intros h1 h2 h3 H12 H23. unfold host_refines in *. by etransitivity.
Qed.

Lemma saveState_refines config url key :
  statePath config = path → effect host_refines (saveState config url key).
Proof.
  intros Ep h. destruct (decide (url = [] ∧ key = [])) as [Hn|Hn].
  { unfold saveState. by rewrite decide_True by done. }
  assert (url ≠ [] ∨ key ≠ []) as Hne by (destruct (decide (url = [])); tauto).
  unfold host_refines. rewrite saveState_halves by exact Hne. rewrite Ep.
  apply refines_intro. intros Hv Hs. pose proof (saveState_load_same path url key (h_files h) Hv) as (Hv1 & Hc & Hm).
  assert (register path (saveState_load path url key (h_files h)).2 = register path (h_files h)) as Er
    by (unfold register; by rewrite Hc).
  assert (refines path (h_files h) (saveState_load path url key (h_files h)).2) as Hl
    by (by apply same_content_refines).
  destruct (saveState_load path url key (h_files h)) as [[m|] w1]; cbn [fst snd] in *; [|by apply Hl].
  destruct (Hm m eq_refl) as (base & -> & Hb).
  etransitivity; [exact Hl|]. apply SaveEnv_refines. intros _. rewrite Er.
  assert (base = default no_store (register path (h_files h))) as ->.
  { destruct (fs_content (h_files h) path) as [d|] eqn:Ed; [by rewrite (register_parsed path _ d base Ed Hb)|].
    unfold register. by rewrite Ed. }
  by apply step_command.
Qed.

Lemma session_refines config requests (h : @host W) :
  statePath config = path → refines path (h_files h) (h_files (handleSession config requests h).2).
Proof.
  intros Ep. apply (effect_session config host_refines).
  - intros url key. by apply saveState_refines.
  - unfold resetState. apply effect_bind; [apply _| |].
    + intros h1. unfold files, host_refines. rewrite Ep. unfold ResetEnv.
      pose proof (SaveEnv_refines path factory_store (h_files h1) (λ _, step_reset _)) as Hs.
      unfold factory_store at 1 in Hs.
      by destruct (SaveEnv path (set_State StateFactory no_store) (h_files h1)) as [[|] w'].
    + intros [[]|e]; (apply effect_bind; [apply _|intros h1; unfold host_refines; reflexivity|
        intros []; apply effect_ret, _]).
  - intros name h1. unfold host_refines. reflexivity.
Qed.
End participants.

(** ** The refinement *)
Section activities.
Context `{InformCrypto} `{AddressParser} {W : Type} `{FileSystem W}.
Variables (path statusPath : bytes).

(** One turn of the loop, or one SSH session; the trackers of the loop and the
    log of the handler may be in any state. *)
Inductive activity : relation W :=
| activity_turn cfg t ann rt w :
    pr_state cfg = path → pr_status cfg = statusPath →
    activity w (world_after (presence_turn cfg t ann rt w).2)
| activity_session config requests h :
    statePath config = path →
    activity (h_files h) (h_files (handleSession config requests h).2).
End activities.

Lemma activities_refine `{InformCrypto} `{AddressParser} {W} `{FileSystemLaws W}
    path statusPath (w w' : W) :
  statusPath ≠ path ∧ ¬ fs_temp (W := W) statusPath path →
  rtc (activity path statusPath) w w' → refines path w w'.
Proof.
  intros Hp Hr. induction Hr as [w|w1 w2 w3 Hs Hr IH]; [reflexivity|].
  etransitivity; [|exact IH]. destruct Hs as [cfg t ann rt w Ep Es|config requests h Ep].
  - by apply (turn_refines path statusPath Hp).
  - by apply (session_refines path statusPath Hp).
Qed.

(** C2: the daemon implements the adoption register.  Whatever turns of the
    heartbeat loop and SSH sessions follow each other, whatever the controller
    sends and whichever reads, writes and exchanges fail, the state file goes
    from one store to another only by the steps of the contract: a reset to
    factory, the confirmation of AES-GCM for a keyed device, the merge of an
    allowlisted update of the controller, or the merge of an SSH command. *)
Theorem state_file_refines_contract `{InformCrypto} `{AddressParser} {W} `{FileSystemLaws W}
    path statusPath (w w' : W) :
  statusPath ≠ path ∧ ¬ fs_temp (W := W) statusPath path →
  fs_valid w → state_loads path w → rtc (activity path statusPath) w w' →
  rtc adoption_step (register path w) (register path w').
Proof.
  intros Hp Hv Hs Hr. by destruct (activities_refine path statusPath w w' Hp Hr Hv Hs) as (_ & _ & K).
Qed.

(** ** Progress

    Files that never fail: [files_work] holds of worlds whose reads and whose
    writes of the state file succeed. *)
Class ReliableFiles (W : Type) `{FileSystemLaws W} (path : bytes) := {
  files_work : W → Prop;
  work_valid : ∀ w, files_work w → fs_valid w;
  work_read : ∀ w, files_work w →
    (fs_read path w).1 ≠ ReadFailed ∧ files_work (fs_read path w).2;
  work_write : ∀ d m w, files_work w →
    (fs_write path d m w).1 = Ok tt ∧ files_work (fs_write path d m w).2;
  work_other : ∀ p d m w, files_work w → files_work (fs_write p d m w).2;
}.

Section progress.
Context `{InformCrypto} `{AddressParser} {W : Type} {path : bytes} `{ReliableFiles W path}.

(** A response within the protocol: no control byte in its configuration
    version, and AES-GCM only together with a key. *)
Definition sane (r : ControllerResponse) : Prop :=
  has_ctl (CFGVersion (r_Store r)) = false ∧
  (UseAESGCM (r_Store r) = true → AuthKey (r_Store r) ≠ []).

(** Whatever the daemon sends, the controller's answers of a turn are sane. *)
Definition answers_sane (env : environment) : Prop :=
  ∀ mac url store payload source resp r,
    sn_response (sendInform (e_net env) (e_rand env) mac url store payload source) = Some resp →
    ParseControllerResponseInfo (JSONBody resp) = Ok r → sane r.
Definition sane_turn (t : turn) : Prop := answers_sane (t_env t).

(** The state file is absent or holds a store that may be saved again. *)
Definition healthy (w : W) : Prop :=
  files_work w ∧
  (fs_content w path = None ∨
   ∃ s, fs_content w path = Some (render_env s) ∧ validateStoreForPersistence s = Ok tt).

Lemma healthy_register w :
  healthy w → validateStoreForPersistence (default factory_store (register path w)) = Ok tt.
Proof.
  intros [_ [E|(s & E & Hs)]]; unfold register; rewrite E; [reflexivity|].
  unfold mbind, option_bind. by rewrite parse_render.
Qed.

Lemma healthy_load w :
  healthy w → ∃ w', loadAdoptionState path w = (Ok (default factory_store (register path w)), w') ∧
    healthy w' ∧ register path w' = register path w.
Proof.
  intros [Hw Hc]. pose proof (work_valid w Hw) as Hv.
  destruct (work_read w Hw) as [Hr Hw']. pose proof (fs_read_data path w Hv) as Hd.
  destruct (fs_read_same path w Hv) as [_ Hsame].
  unfold loadAdoptionState, LoadEnv, register, healthy.
  destruct (fs_read path w) as [[d| |] w']; cbn [fst snd] in *; [| |done]; exists w'; rewrite Hsame.
  - destruct Hc as [Hc|(s & Hc & Hs)]; [congruence|]. rewrite Hc in Hd. injection Hd as <-.
    rewrite Hc. unfold mbind, option_bind. rewrite parse_render by done.
    split; [done|]. split; [|done]. split; [done|]. right. by exists s.
  - rewrite Hd. split; [done|]. split; [|done]. split; [done|by left].
Qed.

Lemma healthy_save s w :
  path ≠ [] → healthy w → validateStoreForPersistence s = Ok tt →
  ∃ w', SaveEnv path s w = (Ok tt, w') ∧ healthy w'.
Proof.
  intros Hpath [Hw _] Hs. pose proof (work_valid w Hw) as Hv.
  destruct (work_write (render_env s) 0x180 w Hw) as [Ho Hw'].
  destruct (fs_write_content path (render_env s) 0x180 w Hv) as [_ Hc].
  unfold SaveEnv. rewrite decide_False, Hs by done.
  destruct (fs_write path (render_env s) 0x180 w) as [r w']. cbn [fst snd] in *. subst r.
  exists w'. split; [done|]. split; [done|]. right. by exists s.
Qed.

Lemma healthy_update data r gcm w store :
  path ≠ [] → healthy w → validateStoreForPersistence store = Ok tt →
  ParseControllerResponseInfo data = Ok r → sane r →
  (gcm = true → AuthKey store ≠ []) →
  let '(_, _, err, w') := updateAdoptionState path store r gcm w in
  err = Ok tt ∧ healthy w'.
Proof.
  intros Hpath Hw Hv Hp [Hc Hg2] Hg1. unfold updateAdoptionState.
  destruct (r_ResetRequested r) eqn:Er.
  { unfold ResetEnv.
    by destruct (healthy_save (set_State StateFactory no_store) w Hpath Hw eq_refl) as (w' & -> & ?). }
  destruct (negb (r_HasStateUpdate r)) eqn:Es.
  { destruct (gcm && _ && _) eqn:Eg; [|done]. bool_to_prop.
    assert (validateStoreForPersistence (set_UseAESGCM true store) = Ok tt) as Hs'
      by (apply cipher_persistable; auto).
    by destruct (healthy_save _ w Hpath Hw Hs') as (w' & -> & ?). }
  apply negb_false_iff in Es. fold (heartbeat_update gcm r).
  pose proof (response_update_ok data r store gcm Hp Er Es Hc Hg1 (λ K, or_intror (Hg2 K))) as Hu.
  pose proof (merge_persistable store _ Hv Hu) as Hm.
  destruct (Merge store (heartbeat_update gcm r)) as [updated changed]. cbn [fst] in Hm.
  destruct changed; [|done].
  by destruct (healthy_save updated w Hpath Hw Hm) as (w' & -> & ?).
Qed.

Context (statusPath : bytes).
Hypothesis paths : statusPath ≠ path ∧ ¬ fs_temp (W := W) statusPath path.
Hypothesis path_given : path ≠ [].

Lemma healthy_record env last code ty cipher rb jb err w :
  healthy w → healthy (recordLastInform statusPath env last code ty cipher rb jb err w).
Proof.
  intros [Hw Hc]. unfold healthy.
  destruct (recordLastInform_same path statusPath paths env last code ty cipher rb jb err w
              (work_valid w Hw)) as [_ ->]. split; [|done].
  unfold recordLastInform, saveLastInformStatus. case_decide; [done|].
  destruct (e_marshal env _) as [data|]; [|done].
  pose proof (work_other statusPath (data ++ [x0a]) 0x180 w Hw) as Ho.
  by destruct (fs_write statusPath (data ++ [x0a]) 0x180 w).
Qed.

Lemma healthy_heartbeat mac url source policy t store payload rt w :
  healthy w → validateStoreForPersistence store = Ok tt → sane_turn t →
  let '(res, _, w') := sendInformHeartbeat mac url path statusPath source policy (t_env t)
                         store payload rt w in
  is_ok res = true ∧ healthy w'.
Proof.
  intros Hw Hv Hsane. unfold sendInformHeartbeat, back_off. case_decide; [done|]. cbv zeta.
  pose proof (sendInform_gcm_keyed mac url (e_net (t_env t)) (e_rand (t_env t)) store payload source)
    as Hg.
  specialize (Hsane mac url store payload source).
  destruct (sn_error _), (sn_response _) as [resp|]; try done;
    try (destruct (Failure _ _); split; [done|by apply healthy_record]).
  destruct (negb (_ =? StatusOK));
    [destruct (Failure _ _); split; [done|by apply healthy_record]|].
  destruct (zlen _ =? 0); [destruct (Success _ _); split; [done|by apply healthy_record]|].
  destruct (ParseControllerResponseInfo _) as [r|e] eqn:Ep;
    [|destruct (Failure _ _); split; [done|by apply healthy_record]].
  unfold apply_response. cbv zeta.
  pose proof (healthy_update _ r _ w store path_given Hw Hv Ep (Hsane resp r eq_refl Ep) Hg) as Hu.
  destruct (updateAdoptionState path store r _ w) as [[[r' store'] err] w1].
  destruct Hu as [-> Hw1].
  destruct (SuccessWithOptions _ _ _). destruct (if r_ResetApplied r' then _ else _) as [[[? ?] ?] ?].
  split; [done|by apply healthy_record].
Qed.

Variable cfg : presence.
Hypothesis cfg_state : pr_state cfg = path.
Hypothesis cfg_status : pr_status cfg = statusPath.
Hypothesis cfg_loop : pr_once cfg = false.

(** A turn that is not stopped, renders its payload and meets a sane
    controller. *)
Definition steady (t : turn) : Prop :=
  t_stop t = false ∧ sane_turn t ∧
  ∀ url store offset blocks uptime, is_ok (t_payload t url store offset blocks uptime) = true.

(** The announcement is one [MarshalBinary] accepts, whatever its counters. *)
Definition announceable (ann : Announcement) : Prop :=
  ∀ default uptime sequence, is_ok (MarshalBinary (announce ann default uptime sequence)) = true.

Lemma healthy_turn t ann rt w :
  healthy w → steady t → announceable ann →
  ∃ ann' rt' delay w', (presence_turn cfg t ann rt w).2 = Continue ann' rt' delay w' ∧
    healthy w' ∧ announceable ann'.
Proof.
  intros Hw (Hstop & Hsane & Hpay) Hann. unfold presence_turn. cbv zeta.
  rewrite cfg_state, cfg_status, cfg_loop, Hstop.
  destruct (healthy_load w Hw) as (w1 & -> & Hw1 & Hreg).
  set (store := default factory_store (register path w)).
  assert (validateStoreForPersistence store = Ok tt) as Hv by (by apply healthy_register).
  clearbody store.
  pose proof (Hann (bool_decide (AuthKey store = [])) (wrap32u (runtimeUptime (t_elapsed t)))
                (a_Sequence ann)) as Hm.
  destruct (MarshalBinary _) as [packet|]; [|done].
  pose proof (λ url offset blocks uptime, Hpay url store offset blocks uptime) as Hp.
  match goal with |- context [t_payload t ?u store ?o ?b ?up] =>
    specialize (Hp u o b up); destruct (t_payload t u store o b up) as [payload|]; [|done] end.
  pose proof (healthy_heartbeat (pr_mac cfg) (effectiveInformURL (pr_controller cfg) store)
    (pr_source cfg) (pr_policy cfg) t store payload rt w1 Hw1 Hv Hsane) as Hh.
  destruct (sendInformHeartbeat _ _ _ _ _ _ _ _ _ _ _) as [[[d|e] rt'] w2];
    destruct Hh as [Hok Hw2]; [|done].
  cbn [snd orb]. eexists _, _, _, _. split; [reflexivity|]. split; [done|].
  intros dflt uptime sequence. apply (Hann dflt uptime sequence).
Qed.
End progress.

(** A turn that goes on has announced the daemon once. *)
Lemma turn_packet `{InformCrypto} `{AddressParser} {W} `{FileSystem W} cfg t ann rt (w : W) :
  pr_discoverySkipped cfg = false →
  match presence_turn cfg t ann rt w with
  | (packets, Continue _ _ _ _) => length packets = 1%nat
  | _ => True
  end.
Proof.
  intros Hd. unfold presence_turn, sendDiscovery. cbv zeta. rewrite Hd.
  destruct (loadAdoptionState _ _) as [[store|e] w1]; [|done].
  destruct (MarshalBinary _); [|done]. destruct (t_payload t _ _ _ _ _); [|done].
  destruct (sendInformHeartbeat _ _ _ _ _ _ _ _ _ _ _) as [[[d|e] rt2] w2]; [|done].
  by destruct (_ || _).
Qed.

(** The loop keeps going.  While the files work and the controller stays
    within the protocol, every turn that is not stopped ends in a wait, so over
    any number of turns the daemon announces itself and heartbeats once per
    turn, and the state file stays healthy. *)
Theorem presence_progress `{InformCrypto} `{AddressParser} {W} `{FileSystemLaws W}
    cfg `{!ReliableFiles W (pr_state cfg)} ts ann rt (w : W) :
  pr_status cfg ≠ pr_state cfg ∧ ¬ fs_temp (W := W) (pr_status cfg) (pr_state cfg) →
  pr_state cfg ≠ [] → pr_once cfg = false → pr_discoverySkipped cfg = false →
  Forall steady ts → announceable ann → healthy (path := pr_state cfg) w →
  ∃ packets delays ann' rt' w',
    presence_run cfg ts ann rt w = (packets, delays, Continue ann' rt' 0 w') ∧
    length packets = length ts ∧ length delays = length ts ∧ healthy (path := pr_state cfg) w'.
Proof.
  intros Hp Hpath Honce Hdisc Hts. revert ann rt w.
  induction Hts as [|t ts Ht Hts IH]; intros ann rt w Hann Hw.
  { by exists [], [], ann, rt, w. }
  destruct (healthy_turn (pr_status cfg) Hp Hpath cfg eq_refl eq_refl Honce t ann rt w Hw Ht Hann)
    as (ann1 & rt1 & delay & w1 & Et & Hw1 & Hann1).
  pose proof (turn_packet cfg t ann rt w Hdisc) as Hpk. cbn [presence_run].
  destruct (presence_turn cfg t ann rt w) as [pk r]. cbn [snd fst] in *. subst r.
  destruct (IH ann1 rt1 w1 Hann1 Hw1) as (packets & delays & ann' & rt' & w' & -> & L1 & L2 & Hw').
  eexists _, _, _, _, _. split; [reflexivity|]. split; [|split; [by cbn; rewrite L2|done]].
  rewrite length_app, L1. by rewrite Hpk.
Qed.

(** A controller that never answers with status 200 is sane. *)
Lemma unavailable_sane `{InformCrypto} `{AddressParser} (t : turn) :
  (∀ c req, match @roundtrip (e_net (t_env t)) c req with
            | Ok resp => h_status resp ≠ StatusOK
            | Err _ => True
            end) → sane_turn t.
Proof.
  intros Hn mac url store payload source resp r Hs Hp.
  assert (JSONBody resp = []) as E; [|rewrite E in Hp; vm_compute in Hp; discriminate Hp].
  unfold sendInform in Hs. destruct (informAuthKey store) as [key|e]; [|discriminate Hs].
  match type of Hs with context [Send ?a ?b ?c] => destruct (Send a b c) as [[reqs resp'] err] eqn:Es end.
  cbn [sn_response] in Hs. subst resp'. unfold Send in Es. case_decide; [done|].
  destruct (EncodeJSON _ _ _ _ _); [|done]. destruct (url_parse _ _); [|done].
  rewrite http_do_no_redirect in Es by done.
  match type of Es with context [roundtrip ?c ?q] =>
    specialize (Hn c q); destruct (roundtrip c q) as [answer|e2]; [|done] end.
  unfold receive in Es. destruct (readLimitedBody _ _ _) as [raw|e3]; [|done].
  apply Z.eqb_neq in Hn. rewrite Hn in Es. cbn [negb orb] in Es.
  injection Es as _ <- _. reflexivity.
Qed.

(** ** Witnesses *)
#[local] Existing Instance Toy.crypto.
#[local] Existing Instance no_ipv6.

Definition state_path : bytes := B "/var/lib/state.env".
Definition status_path : bytes := B "/var/lib/status.json".

(** Files in memory: every call succeeds. *)
#[export] Instance memory_files : FileSystem (gmap bytes bytes) := {
  fs_temp _ _ := False;
  fs_content w p := w !! p;
  fs_read p w := (match w !! p with Some d => ReadData d | None => ReadNotExist end, w);
  fs_write p d _ w := (Ok tt, <[p:=d]> w);
}.
#[export] Program Instance memory_laws : FileSystemLaws (gmap bytes bytes) := {
  fs_valid _ := True;
}.
Next Obligation. done. Qed.
Next Obligation. intros p w _. cbn. by destruct (w !! p). Qed.
Next Obligation. intros p d m w _. cbn. by rewrite lookup_insert_eq. Qed.
Next Obligation. intros p d m w q _ Hq _. cbn. by rewrite lookup_insert_ne. Qed.
Next Obligation. intros p d m w q _ Hq _ E. cbn in *. by rewrite lookup_insert_ne. Qed.

#[export] Program Instance memory_reliable path : ReliableFiles (gmap bytes bytes) path := {
  files_work _ := True;
}.
Next Obligation. done. Qed.
Next Obligation. intros path w _. cbn. by destruct (w !! path). Qed.
Next Obligation. done. Qed.
Next Obligation. done. Qed.

Definition busy_controller : Transport :=
  {| roundtrip := λ _ _, Ok (MkHttpResponse 503 [] (B "busy") false) |}.
Definition busy_turn : turn :=
  MkTurn (MkEnv busy_controller Toy.rand demo_random (MkTime 1700000000 0) (λ _, Some (B "{}")))
    10 (λ _ _ _ _ _, Ok (B "{}")) false.

(** A daemon whose controller stays unavailable keeps trying. *)
Lemma presence_progress_witness :
  ∃ packets delays ann' rt' w',
    presence_run sample_presence [busy_turn; busy_turn; busy_turn] sample_announcement sample_rt
      (∅ : gmap bytes bytes) = (packets, delays, Continue ann' rt' 0 w') ∧
    length packets = 3%nat ∧ length delays = 3%nat.
Proof.
  assert (steady busy_turn) as Ht.
  { split; [reflexivity|]. split; [|reflexivity]. apply unavailable_sane. intros c req. discriminate. }
  assert (Forall steady [busy_turn; busy_turn; busy_turn]) as Hts by exact (Forall_cons_2 _ _ _ Ht (Forall_cons_2 _ _ _ Ht (Forall_cons_2 _ _ _ Ht (Forall_nil_2 _)))).
  assert (pr_status sample_presence ≠ pr_state sample_presence ∧
          ¬ fs_temp (W := gmap bytes bytes) (pr_status sample_presence) (pr_state sample_presence))
    as Hp by (split; [vm_compute; discriminate|exact (λ K, K)]).
  assert (pr_state sample_presence ≠ []) as Hs by (vm_compute; discriminate).
  assert (announceable sample_announcement) as Ha by (intros d u q; reflexivity).
  assert (healthy (path := pr_state sample_presence) (∅ : gmap bytes bytes)) as Hw
    by (split; [exact I|left; reflexivity]).
  destruct (presence_progress sample_presence _ sample_announcement sample_rt ∅ Hp Hs eq_refl eq_refl
              Hts Ha Hw) as (packets & delays & ann' & rt' & w' & K1 & K2 & K3 & _).
  exists packets, delays, ann', rt', w'. split; [exact K1|]. split; [exact K2|exact K3].
Defined.

(** The files after an adoption. *)
Definition adopted_disk : disk :=
  world_after (presence_turn sample_presence (sample_turn adopt_json) sample_announcement sample_rt
    sample_disk).2.

Lemma adopted_activity : activity state_path status_path sample_disk adopted_disk.
Proof. exact (activity_turn state_path status_path sample_presence _ _ _ _ eq_refl eq_refl). Qed.

Lemma state_file_refines_contract_witness :
  rtc adoption_step None
    (Some (MkStore [] (B "00112233445566778899aabbccddeeff") (B "0123456789abcdef") true []
             StateAdopting)).
Proof.
  assert (status_path ≠ state_path ∧ ¬ fs_temp (W := disk) status_path state_path) as Hp
    by exact sample_paths.
  assert (state_loads state_path sample_disk) as Hl by (vm_compute; exact I).
  pose proof (state_file_refines_contract state_path status_path sample_disk adopted_disk Hp
                empty_fs_wf Hl (rtc_once _ _ adopted_activity)) as Hr.
  assert (register state_path sample_disk = None) as E1 by (vm_compute; reflexivity).
  assert (register state_path adopted_disk =
    Some (MkStore [] (B "00112233445566778899aabbccddeeff") (B "0123456789abcdef") true []
            StateAdopting)) as E2 by (vm_compute; reflexivity).
  rewrite E1, E2 in Hr. exact Hr.
Defined.
