(* ===== verification/Ports.v ===== *)
(** The represented switch ports: the types of [src/internal/device/port_types.go],
    and how a profile and the runtime options become ports ([ports.go],
    [port_layout.go], [port_build.go], [port_fields.go]) with configured
    neighbors ([port_neighbors.go]).

    Of a profile only the fields that lay out ports are kept.  The descriptive
    gateway fields of a port, which this code only sets from the profile or
    leaves empty, are a record of their own. *)
From stdpp Require Import list_numbers.
From S2P Require Import Prelude GoStrings GoFloat.

(** ** port_types.go *)
Record MacTableEntry := MkMacEntry {
  me_MAC : bytes; me_Hostname : bytes; me_IP : bytes; me_Age : Z; me_Uptime : Z;
  me_VLAN : Z; me_Static : bool; me_Type : bytes;
}.

(** A string type with these constants. *)
Abbreviation NeighborSource := bytes.
Definition NeighborSourceConfigUplink : NeighborSource := B "config-uplink".
Definition NeighborSourceConfigPort : NeighborSource := B "config-port".
Definition NeighborSourceLLDP : NeighborSource := B "lldp".

Record TopologyNeighbor := MkNeighbor {
  tn_MAC : bytes; tn_Hostname : bytes; tn_IP : bytes; tn_DeviceType : bytes;
  tn_VLAN : Z; tn_Age : Z; tn_Uptime : Z; tn_RemotePort : Z; tn_RemotePortID : bytes;
  tn_Source : NeighborSource; tn_Static : bool;
}.
#[export] Instance TopologyNeighbor_eq_dec : EqDecision TopologyNeighbor.
Proof. solve_decision. Defined.
#[export] Instance MacTableEntry_eq_dec : EqDecision MacTableEntry.
Proof. solve_decision. Defined.

(** The gateway fields of [Port]. *)
Record PortGateway := MkGateway {
  pg_MAC : bytes; pg_IP : bytes; pg_Netmask : bytes; pg_IPv6 : list bytes;
  pg_Role : bytes; pg_ProfileRole : bytes; pg_NetworkGroup : bytes; pg_PortConfID : bytes;
  pg_NetworkConfID : bytes; pg_NativeNetworkConfID : bytes; pg_NetworkName : bytes; pg_VLAN : Z;
  pg_WANUptimePercent : option float64; pg_WANLatencyMS : Z; pg_WANDowntimeSeconds : Z;
  pg_WANConnected : option bool;
}.
Record PortCounters := MkCounters {
  RXBytes : Z; TXBytes : Z; RXPackets : Z; TXPackets : Z; RXErrors : Z; TXErrors : Z;
}.
Record Port := MkPort {
  p_Index : Z; p_Name : bytes; p_Interface : bytes; p_Gateway : PortGateway;
  p_Media : bytes; p_Uplink : bool; p_ProfileUplink : bool; p_Disabled : bool; p_Up : bool;
  p_Speed : Z; p_Counters : PortCounters; p_CountersSet : bool;
  p_RXBytesRate : Z; p_TXBytesRate : Z; p_TrafficRatesEnabled : bool; p_TrafficRatesSet : bool;
  p_MACs : list MacTableEntry; p_Neighbors : list TopologyNeighbor;
}.

Definition set_Uplink (b : bool) (p : Port) : Port :=
  MkPort (p_Index p) (p_Name p) (p_Interface p) (p_Gateway p) (p_Media p) b (p_ProfileUplink p)
    (p_Disabled p) (p_Up p) (p_Speed p) (p_Counters p) (p_CountersSet p) (p_RXBytesRate p)
    (p_TXBytesRate p) (p_TrafficRatesEnabled p) (p_TrafficRatesSet p) (p_MACs p) (p_Neighbors p).
Definition set_MACs (l : list MacTableEntry) (p : Port) : Port :=
  MkPort (p_Index p) (p_Name p) (p_Interface p) (p_Gateway p) (p_Media p) (p_Uplink p)
    (p_ProfileUplink p) (p_Disabled p) (p_Up p) (p_Speed p) (p_Counters p) (p_CountersSet p)
    (p_RXBytesRate p) (p_TXBytesRate p) (p_TrafficRatesEnabled p) (p_TrafficRatesSet p) l (p_Neighbors p).
Definition set_Neighbors (l : list TopologyNeighbor) (p : Port) : Port :=
  MkPort (p_Index p) (p_Name p) (p_Interface p) (p_Gateway p) (p_Media p) (p_Uplink p)
    (p_ProfileUplink p) (p_Disabled p) (p_Up p) (p_Speed p) (p_Counters p) (p_CountersSet p)
    (p_RXBytesRate p) (p_TXBytesRate p) (p_TrafficRatesEnabled p) (p_TrafficRatesSet p) (p_MACs p) l.
Definition set_Name (v : bytes) (p : Port) : Port :=
  MkPort (p_Index p) v (p_Interface p) (p_Gateway p) (p_Media p) (p_Uplink p) (p_ProfileUplink p)
    (p_Disabled p) (p_Up p) (p_Speed p) (p_Counters p) (p_CountersSet p) (p_RXBytesRate p)
    (p_TXBytesRate p) (p_TrafficRatesEnabled p) (p_TrafficRatesSet p) (p_MACs p) (p_Neighbors p).
Definition set_Interface (v : bytes) (p : Port) : Port :=
  MkPort (p_Index p) (p_Name p) v (p_Gateway p) (p_Media p) (p_Uplink p) (p_ProfileUplink p)
    (p_Disabled p) (p_Up p) (p_Speed p) (p_Counters p) (p_CountersSet p) (p_RXBytesRate p)
    (p_TXBytesRate p) (p_TrafficRatesEnabled p) (p_TrafficRatesSet p) (p_MACs p) (p_Neighbors p).
Definition set_Gateway (g : PortGateway) (p : Port) : Port :=
  MkPort (p_Index p) (p_Name p) (p_Interface p) g (p_Media p) (p_Uplink p) (p_ProfileUplink p)
    (p_Disabled p) (p_Up p) (p_Speed p) (p_Counters p) (p_CountersSet p) (p_RXBytesRate p)
    (p_TXBytesRate p) (p_TrafficRatesEnabled p) (p_TrafficRatesSet p) (p_MACs p) (p_Neighbors p).
Definition set_Media (v : bytes) (p : Port) : Port :=
  MkPort (p_Index p) (p_Name p) (p_Interface p) (p_Gateway p) v (p_Uplink p) (p_ProfileUplink p)
    (p_Disabled p) (p_Up p) (p_Speed p) (p_Counters p) (p_CountersSet p) (p_RXBytesRate p)
    (p_TXBytesRate p) (p_TrafficRatesEnabled p) (p_TrafficRatesSet p) (p_MACs p) (p_Neighbors p).
Definition set_Disabled (b : bool) (p : Port) : Port :=
  MkPort (p_Index p) (p_Name p) (p_Interface p) (p_Gateway p) (p_Media p) (p_Uplink p)
    (p_ProfileUplink p) b (p_Up p) (p_Speed p) (p_Counters p) (p_CountersSet p) (p_RXBytesRate p)
    (p_TXBytesRate p) (p_TrafficRatesEnabled p) (p_TrafficRatesSet p) (p_MACs p) (p_Neighbors p).
Definition set_Up (b : bool) (p : Port) : Port :=
  MkPort (p_Index p) (p_Name p) (p_Interface p) (p_Gateway p) (p_Media p) (p_Uplink p)
    (p_ProfileUplink p) (p_Disabled p) b (p_Speed p) (p_Counters p) (p_CountersSet p)
    (p_RXBytesRate p) (p_TXBytesRate p) (p_TrafficRatesEnabled p) (p_TrafficRatesSet p)
    (p_MACs p) (p_Neighbors p).
Definition set_Speed (z : Z) (p : Port) : Port :=
  MkPort (p_Index p) (p_Name p) (p_Interface p) (p_Gateway p) (p_Media p) (p_Uplink p)
    (p_ProfileUplink p) (p_Disabled p) (p_Up p) z (p_Counters p) (p_CountersSet p)
    (p_RXBytesRate p) (p_TXBytesRate p) (p_TrafficRatesEnabled p) (p_TrafficRatesSet p)
    (p_MACs p) (p_Neighbors p).
Definition set_Counters (c : PortCounters) (p : Port) : Port :=
  MkPort (p_Index p) (p_Name p) (p_Interface p) (p_Gateway p) (p_Media p) (p_Uplink p)
    (p_ProfileUplink p) (p_Disabled p) (p_Up p) (p_Speed p) c (p_CountersSet p) (p_RXBytesRate p)
    (p_TXBytesRate p) (p_TrafficRatesEnabled p) (p_TrafficRatesSet p) (p_MACs p) (p_Neighbors p).
Definition set_CountersSet (b : bool) (p : Port) : Port :=
  MkPort (p_Index p) (p_Name p) (p_Interface p) (p_Gateway p) (p_Media p) (p_Uplink p)
    (p_ProfileUplink p) (p_Disabled p) (p_Up p) (p_Speed p) (p_Counters p) b (p_RXBytesRate p)
    (p_TXBytesRate p) (p_TrafficRatesEnabled p) (p_TrafficRatesSet p) (p_MACs p) (p_Neighbors p).
Definition set_Rates (rx tx : Z) (enabled set : bool) (p : Port) : Port :=
  MkPort (p_Index p) (p_Name p) (p_Interface p) (p_Gateway p) (p_Media p) (p_Uplink p)
    (p_ProfileUplink p) (p_Disabled p) (p_Up p) (p_Speed p) (p_Counters p) (p_CountersSet p) rx
    tx enabled set (p_MACs p) (p_Neighbors p).

Record PortGroup := MkPortGroup {
  gr_Count : Z; gr_Speed : Z; gr_Media : bytes; gr_Uplink : bool;
}.
Record PortBuildOptions := MkBuildOptions {
  bo_Count : Z; bo_LinkSpeed : Z; bo_UplinkSpeed : Z; bo_UplinkPort : Z;
}.
Record PortNeighbor := MkPortNeighbor {
  np_Port : Z; np_Entry : MacTableEntry; np_RemotePort : Z;
}.

(** [device.Profile], as far as it lays out ports. *)
Record Profile := MkProfile {
  pf_Ports : Z; pf_PortSpeed : Z; pf_UplinkSpeed : Z; pf_PortMedia : bytes; pf_UplinkMedia : bytes;
  pf_PortGroups : list PortGroup; pf_PortNames : list bytes; pf_PortRoles : list bytes;
  pf_PortNetworkGroups : list bytes;
}.

(** ** port_layout.go *)
Definition mediaSFPPlus : bytes := B "SFP+".

Record portLayout := MkLayout {
  ly_Speed : Z; ly_UplinkSpeed : Z; ly_Media : bytes; ly_UplinkMedia : bytes; ly_UplinkPort : Z;
  ly_PortGroups : list PortGroup; ly_PortNames : list bytes; ly_PortRoles : list bytes;
  ly_PortNetworkGroups : list bytes;
}.

Definition profilePortLayout (profile : Profile) (options : PortBuildOptions) : portLayout :=
  let layout :=
    MkLayout (pf_PortSpeed profile) (pf_UplinkSpeed profile) (pf_PortMedia profile)
      (pf_UplinkMedia profile) (bo_UplinkPort options) (pf_PortGroups profile)
      (pf_PortNames profile) (pf_PortRoles profile) (pf_PortNetworkGroups profile) in
  let layout :=
    if 0 <? bo_LinkSpeed options then
      MkLayout (bo_LinkSpeed options) (bo_LinkSpeed options) [] [] (ly_UplinkPort layout) []
        (ly_PortNames layout) (ly_PortRoles layout) (ly_PortNetworkGroups layout)
    else layout in
  if 0 <? bo_UplinkSpeed options then
    MkLayout (ly_Speed layout) (bo_UplinkSpeed options) (ly_Media layout)
      (if bool_decide (ly_UplinkMedia layout = []) || bool_decide (ly_UplinkMedia layout = ly_Media layout)
       then [] else ly_UplinkMedia layout)
      (ly_UplinkPort layout) (ly_PortGroups layout) (ly_PortNames layout) (ly_PortRoles layout)
      (ly_PortNetworkGroups layout)
  else layout.

Definition mediaForSpeed (speed : Z) : bytes :=
  if 10000 <=? speed then mediaSFPPlus else B "GE".

Definition normalizePortLayout (layout : portLayout) : portLayout :=
  let speed := if ly_Speed layout <=? 0 then 1000 else ly_Speed layout in
  let uplinkSpeed := if ly_UplinkSpeed layout <=? 0 then speed else ly_UplinkSpeed layout in
  let media := if decide (ly_Media layout = []) then mediaForSpeed speed else ly_Media layout in
  let uplinkMedia := if decide (ly_UplinkMedia layout = []) then mediaForSpeed uplinkSpeed
                     else ly_UplinkMedia layout in
  MkLayout speed uplinkSpeed media uplinkMedia (ly_UplinkPort layout) (ly_PortGroups layout)
    (ly_PortNames layout) (ly_PortRoles layout) (ly_PortNetworkGroups layout).

(** ** port_fields.go *)
Section fields.
Context `{UnicodeTables}.

Definition portName (index : Z) (names : list bytes) : bytes :=
  let index := if index <? 1 then 1 else index in
  let default := B "Port " ++ itoa index in
  if index <=? zlen names then
    let name := trim_space (nth (Z.to_nat (index - 1)) names []) in
    if decide (name = []) then default else name
  else default.

Definition oneBasedString (index : Z) (values : list bytes) : bytes :=
  if (index <? 1) || (zlen values <? index) then []
  else trim_space (nth (Z.to_nat (index - 1)) values []).

Definition normalizeGatewayRole (role : bytes) : bytes := to_lower (trim_space role).
Definition normalizeNetworkGroup (networkGroup : bytes) : bytes := trim_space networkGroup.

(** ** port_build.go *)
Definition generatedPort (index speed : Z) (media : bytes) (uplink profileUplink : bool)
    (names roles networkGroups : list bytes) : Port :=
  let profileRole := normalizeGatewayRole (oneBasedString index roles) in
  MkPort index (portName index names) []
    (MkGateway [] [] [] [] profileRole profileRole
       (normalizeNetworkGroup (oneBasedString index networkGroups)) [] [] [] [] 0 None 0 0 None)
    media uplink profileUplink false true speed (MkCounters 0 0 0 0 0 0) false 0 0 false false [] [].

Definition applyUplinkPort (ports : list Port) (uplinkPort : Z) : list Port :=
  if uplinkPort <=? 0 then ports
  else if zlen ports <? uplinkPort then ports
  else
    let targetIndex := Z.to_nat (uplinkPort - 1) in
    alter (set_Uplink true) targetIndex (map (set_Uplink false) ports).

(** The first loop of [groupedSwitchPorts]: the total and the uplink index. *)
Fixpoint groupTotals (groups : list PortGroup) (total uplinkIndex : Z) : option (Z * Z) :=
  match groups with
  | [] => Some (total, uplinkIndex)
  | group :: rest =>
      if gr_Count group <? 1 then None
      else
        groupTotals rest (wrap64 (total + gr_Count group))
          (if gr_Uplink group && (uplinkIndex =? 0) then wrap64 (total + 1) else uplinkIndex)
  end.

(** The port of the second loop at [index]. *)
Definition groupPort (layout : portLayout) (group : PortGroup) (uplinkIndex index : Z) : Port :=
  let speed := if gr_Speed group <=? 0 then ly_Speed layout else gr_Speed group in
  let media := if decide (gr_Media group = []) then mediaForSpeed speed else gr_Media group in
  let isUplink := index =? uplinkIndex in
  generatedPort index
    (if isUplink then ly_UplinkSpeed layout else speed)
    (if isUplink then ly_UplinkMedia layout else media)
    isUplink (gr_Uplink group) (ly_PortNames layout) (ly_PortRoles layout)
    (ly_PortNetworkGroups layout).

Fixpoint groupPorts (layout : portLayout) (uplinkIndex : Z) (groups : list PortGroup) (index : Z)
    : list Port :=
  match groups with
  | [] => []
  | group :: rest =>
      map (groupPort layout group uplinkIndex) (seqZ (index + 1) (gr_Count group))
      ++ groupPorts layout uplinkIndex rest (index + gr_Count group)
  end.

Definition groupedSwitchPorts (count : Z) (layout : portLayout) : list Port :=
  match ly_PortGroups layout with
  | [] => []
  | groups =>
      match groupTotals groups 0 0 with
      | None => []
      | Some (total, uplinkIndex) =>
          if negb (total =? count) then []
          else groupPorts layout (if uplinkIndex =? 0 then 1 else uplinkIndex) groups 0
      end
  end.

Definition uniformPort (layout : portLayout) (i : Z) : Port :=
  generatedPort i (if i =? 1 then ly_UplinkSpeed layout else ly_Speed layout)
    (if i =? 1 then ly_UplinkMedia layout else ly_Media layout)
    (i =? 1) (i =? 1) (ly_PortNames layout) (ly_PortRoles layout) (ly_PortNetworkGroups layout).

Definition switchPortsWithLayout (count : Z) (layout : portLayout) : list Port :=
  let count := if count <? 1 then 1 else count in
  let layout := normalizePortLayout layout in
  match groupedSwitchPorts count layout with
  | [] => applyUplinkPort (map (uniformPort layout) (seqZ 1 count)) (ly_UplinkPort layout)
  | ports => applyUplinkPort ports (ly_UplinkPort layout)
  end.

(** ** ports.go *)
Definition BuildPorts (profile : Profile) (options : PortBuildOptions) : list Port :=
  let count := if 0 <? bo_Count options then bo_Count options else pf_Ports profile in
  switchPortsWithLayout count (profilePortLayout profile options).
End fields.

(** ** port_neighbors.go *)
Section neighbors.
Context `{UnicodeTables}.

Fixpoint append_to_uplink (entry : TopologyNeighbor) (ports : list Port) : list Port :=
  match ports with
  | [] => []
  | p :: rest =>
      if p_Uplink p then set_Neighbors (p_Neighbors p ++ [entry]) p :: rest
      else p :: append_to_uplink entry rest
  end.

Definition ApplyUplinkNeighbor (ports : list Port) (neighbor : option TopologyNeighbor) : list Port :=
  match neighbor with
  | None => ports
  | Some n =>
      if decide (trim_space (tn_MAC n) = []) then ports
      else
        append_to_uplink
          (MkNeighbor (tn_MAC n) (tn_Hostname n) (tn_IP n) (tn_DeviceType n) (tn_VLAN n) (tn_Age n)
             (tn_Uptime n) (tn_RemotePort n) (tn_RemotePortID n) NeighborSourceConfigUplink
             (tn_Static n)) ports
  end.

Definition normalizeMacTableEntry (entry : MacTableEntry) (defaultType : bytes) : MacTableEntry :=
  MkMacEntry (to_lower (trim_space (me_MAC entry))) (trim_space (me_Hostname entry))
    (trim_space (me_IP entry))
    (if me_Age entry =? 0 then 4 else me_Age entry)
    (if me_Uptime entry =? 0 then 1200 else me_Uptime entry)
    (me_VLAN entry) (me_Static entry)
    (if decide (trim_space (me_Type entry) = []) then defaultType else me_Type entry).

Definition mergeMacTableEntry (observed configured : MacTableEntry) : MacTableEntry :=
  MkMacEntry (me_MAC configured)
    (if decide (trim_space (me_Hostname configured) = []) then me_Hostname observed
     else me_Hostname configured)
    (if decide (trim_space (me_IP configured) = []) then me_IP observed else me_IP configured)
    (me_Age configured) (me_Uptime configured)
    (if me_VLAN configured =? 0 then me_VLAN observed else me_VLAN configured)
    (me_Static observed || me_Static configured) (me_Type configured).

(** The loop over [port.MACs], with the append behind it. *)
Fixpoint upsertMAC (entry : MacTableEntry) (macs : list MacTableEntry) : list MacTableEntry :=
  match macs with
  | [] => [entry]
  | m :: rest =>
      if equal_fold (me_MAC m) (me_MAC entry) then mergeMacTableEntry m entry :: rest
      else m :: upsertMAC entry rest
  end.

Definition neighbor_of_entry (entry : MacTableEntry) (remotePort : Z) : TopologyNeighbor :=
  MkNeighbor (me_MAC entry) (me_Hostname entry) (me_IP entry) (me_Type entry) (me_VLAN entry)
    (me_Age entry) (me_Uptime entry) remotePort [] NeighborSourceConfigPort (me_Static entry).

Definition applyPortNeighbor (ports : list Port) (neighbor : PortNeighbor) : list Port :=
  if (np_Port neighbor <? 1) || (zlen ports <? np_Port neighbor)
     || bool_decide (trim_space (me_MAC (np_Entry neighbor)) = [])
  then ports
  else
    let entry := normalizeMacTableEntry (np_Entry neighbor) (B "client") in
    let update p :=
      if negb (equal_fold (trim_space (me_Type entry)) (B "client"))
      then set_Neighbors (p_Neighbors p ++ [neighbor_of_entry entry (np_RemotePort neighbor)]) p
      else set_MACs (upsertMAC entry (p_MACs p)) p in
    alter update (Z.to_nat (np_Port neighbor - 1)) ports.

Definition ApplyPortNeighbors (ports : list Port) (neighbors : list PortNeighbor) : list Port :=
  fold_left applyPortNeighbor neighbors ports.
End neighbors.

(** ** The shape of built ports *)
Lemma wrap64_small z : 0 ≤ z ≤ int64_max → wrap64 z = z.
Proof. intros H. apply wrap64_id. unfold in_int64, int64_min, int64_max in *. lia. Qed.

(** Ports indexed 1 to [n] of which exactly port [u] is the uplink. *)
Definition marked (ports : list Port) (n u : Z) : Prop :=
  p_Index <$> ports = seqZ 1 n ∧ 1 ≤ u ≤ n ∧
  Forall (λ p, p_Uplink p = (p_Index p =? u) ∧ 0 < p_Speed p) ports.

Section shape.
Context `{UnicodeTables}.

Definition group_sum (groups : list PortGroup) : Z :=
  Z.of_nat (sum_list_with (λ g, Z.to_nat (gr_Count g)) groups).

Lemma group_sum_cons g gs : group_sum (g :: gs) = Z.of_nat (Z.to_nat (gr_Count g)) + group_sum gs.
Proof. unfold group_sum. cbn. lia. Qed.

Lemma groupTotals_ok groups total uplinkIndex t u :
  0 ≤ total → total + group_sum groups ≤ int64_max → 0 ≤ uplinkIndex ≤ total →
  groupTotals groups total uplinkIndex = Some (t, u) →
  t = total + group_sum groups ∧ 0 ≤ u ≤ t ∧ Forall (λ g, 1 ≤ gr_Count g) groups.
Proof.
  revert total uplinkIndex. induction groups as [|g gs IH]; intros total ui Ht Hs Hu; cbn [groupTotals].
  - intros [= <- <-]. unfold group_sum. cbn. split_and!; [lia..|constructor].
  - rewrite group_sum_cons in *. destruct (gr_Count g <? 1) eqn:E; [done|]. apply Z.ltb_ge in E.
    assert (0 ≤ group_sum gs) by (unfold group_sum; lia).
    rewrite !wrap64_small by lia. intros Hg. apply IH in Hg as (-> & Hu' & Hf); [|lia..|].
    + split_and!; [lia..|by constructor].
    + destruct (gr_Uplink g && _); lia.
Qed.

Lemma groupPorts_indices layout u groups index :
  Forall (λ g, 1 ≤ gr_Count g) groups →
  p_Index <$> groupPorts layout u groups index = seqZ (index + 1) (group_sum groups).
Proof.
  intros Hf. revert index. induction Hf as [|g gs Hg Hf IH]; intros index; [done|].
  cbn [groupPorts]. rewrite fmap_app, IH, group_sum_cons, <- list_fmap_compose.
  rewrite (list_fmap_ext _ id) by done. rewrite list_fmap_id.
  rewrite Z2Nat.id by lia. rewrite seqZ_app by (unfold group_sum; lia).
  do 2 f_equal. lia.
Qed.

Lemma groupPorts_marked layout u groups index :
  0 < ly_Speed layout → 0 < ly_UplinkSpeed layout →
  Forall (λ p, p_Uplink p = (p_Index p =? u) ∧ 0 < p_Speed p) (groupPorts layout u groups index).
Proof.
  intros H1 H2. revert index. induction groups as [|g gs IH]; intros index; cbn [groupPorts]; [done|].
  apply Forall_app. split; [|apply IH]. apply Forall_fmap, Forall_true. intros i.
  cbn. split; [done|]. destruct (i =? u); [done|]. destruct (gr_Speed g <=? 0) eqn:E; [done|].
  by apply Z.leb_gt.
Qed.

(** The uplink index the grouped layout starts from is in range. *)
Lemma groupedSwitchPorts_marked count layout :
  1 ≤ count → group_sum (ly_PortGroups layout) ≤ int64_max →
  0 < ly_Speed layout → 0 < ly_UplinkSpeed layout →
  groupedSwitchPorts count layout = [] ∨
  ∃ u, marked (groupedSwitchPorts count layout) count u.
Proof.
  intros Hc Hs H1 H2. unfold groupedSwitchPorts.
  destruct (ly_PortGroups layout) as [|g gs] eqn:Eg; [by left|].
  destruct (groupTotals (g :: gs) 0 0) as [[t u]|] eqn:Et; [|by left].
  apply groupTotals_ok in Et as (-> & Hu & Hf); [|lia..].
  destruct (negb (_ =? count)) eqn:E; [by left|]. apply negb_false_iff, Z.eqb_eq in E.
  rewrite Z.add_0_l in *. subst count. right. exists (if u =? 0 then 1 else u).
  split_and!.
  - by apply groupPorts_indices.
  - destruct (u =? 0) eqn:E; lia.
  - destruct (u =? 0) eqn:E; lia.
  - by apply groupPorts_marked.
Qed.

Lemma uniform_marked layout count :
  1 ≤ count → 0 < ly_Speed layout → 0 < ly_UplinkSpeed layout →
  marked (map (uniformPort layout) (seqZ 1 count)) count 1.
Proof.
  intros Hc H1 H2. split_and!; [|lia..|].
  - rewrite <- list_fmap_compose. rewrite (list_fmap_ext _ id) by done. by rewrite list_fmap_id.
  - apply Forall_fmap, Forall_true. intros i. cbn. split; [done|]. by destruct (i =? 1).
Qed.

Lemma applyUplinkPort_marked ports n u0 u :
  marked ports n u0 →
  marked (applyUplinkPort ports u) n (if (1 <=? u) && (u <=? n) then u else u0).
Proof.
  intros (Hi & Hu & Hm). unfold applyUplinkPort.
  assert (zlen ports = n) as Hn.
  { unfold zlen. rewrite <- (length_fmap p_Index), Hi, length_seqZ. lia. }
  rewrite Hn. destruct (u <=? 0) eqn:E1; [rewrite (proj2 (Z.leb_gt 1 u)) by lia; done|].
  rewrite (proj2 (Z.leb_le 1 u)) by lia. destruct (n <? u) eqn:E2.
  { by rewrite (proj2 (Z.leb_gt u n)) by lia. }
  rewrite (proj2 (Z.leb_le u n)) by lia. cbn [andb]. split_and!; [|lia..|].
  - rewrite <- Hi. apply list_eq. intros k. rewrite !list_lookup_fmap.
    destruct (decide (k = Z.to_nat (u - 1))) as [->|Hk].
    + rewrite list_lookup_alter_eq, list_lookup_fmap. by destruct (ports !! _).
    + rewrite list_lookup_alter_ne, list_lookup_fmap by done. by destruct (ports !! _).
  - apply Forall_lookup. intros k p Hp.
    assert (∀ q, ports !! k = Some q → p_Index q = 1 + Z.of_nat k ∧ 0 < p_Speed q) as Hq.
    { intros q Hq. split; [|by eapply Forall_lookup in Hm as [_ ?]].
      assert ((p_Index <$> ports) !! k = Some (p_Index q)) as Hx by by rewrite list_lookup_fmap, Hq.
      rewrite Hi in Hx. by apply lookup_seqZ in Hx as [-> _]. }
    destruct (decide (k = Z.to_nat (u - 1))) as [Hk|Hk].
    + subst k. rewrite list_lookup_alter_eq, list_lookup_fmap in Hp.
      destruct (ports !! _) as [q|] eqn:Eq; [|done]. injection Hp as <-.
      destruct (Hq q eq_refl) as [Hx ?]. cbn. split; [|done]. symmetry. apply Z.eqb_eq. lia.
    + rewrite list_lookup_alter_ne, list_lookup_fmap in Hp by done.
      destruct (ports !! k) as [q|] eqn:Eq; [|done]. injection Hp as <-.
      destruct (Hq q eq_refl) as [Hx ?]. cbn. split; [|done]. symmetry. apply Z.eqb_neq. lia.
Qed.
End shape.

(** What the topology looks at of a built port: it does not depend on speeds
    and media. *)
Definition outline (p : Port) : Z * bool * list TopologyNeighbor := (p_Index p, p_Uplink p, p_Neighbors p).

Section outlines.
Context `{UnicodeTables}.

Lemma groupPorts_outline l1 l2 u groups index :
  outline <$> groupPorts l1 u groups index = outline <$> groupPorts l2 u groups index.
Proof.
  revert index. induction groups as [|g gs IH]; intros index; [done|]. cbn [groupPorts].
  rewrite !fmap_app, (IH (index + _)). f_equal.
  change (map ?f ?l) with (f <$> l). by rewrite <- !list_fmap_compose.
Qed.

Lemma groupedSwitchPorts_outline count l1 l2 :
  ly_PortGroups l1 = ly_PortGroups l2 →
  outline <$> groupedSwitchPorts count l1 = outline <$> groupedSwitchPorts count l2.
Proof.
  intros Eg. unfold groupedSwitchPorts. rewrite Eg. destruct (ly_PortGroups l2); [done|].
  destruct (groupTotals _ 0 0) as [[t u]|]; [|done]. destruct (negb _); [done|]. apply groupPorts_outline.
Qed.

Lemma applyUplinkPort_outline ps1 ps2 u :
  outline <$> ps1 = outline <$> ps2 → outline <$> applyUplinkPort ps1 u = outline <$> applyUplinkPort ps2 u.
Proof.
  intros E. assert (length ps1 = length ps2) as El by by rewrite <- (length_fmap outline), E, length_fmap.
  unfold applyUplinkPort, zlen. rewrite El. destruct (u <=? 0); [done|]. destruct (_ <? u); [done|].
  apply list_eq. intros k. rewrite !list_lookup_fmap.
  assert (outline <$> ps1 !! k = outline <$> ps2 !! k) as Ek by by rewrite <- !list_lookup_fmap, E.
  destruct (decide (k = Z.to_nat (u - 1))) as [->|Hk].
  - rewrite !list_lookup_alter_eq, !list_lookup_fmap.
    destruct (ps1 !! _) as [p|], (ps2 !! _) as [q|]; try done. cbn in Ek |- *. injection Ek as E1 E2 E3.
    unfold outline. cbn. by rewrite E1, E3.
  - rewrite !list_lookup_alter_ne, !list_lookup_fmap by done.
    destruct (ps1 !! k) as [p|], (ps2 !! k) as [q|]; try done. cbn in Ek |- *. injection Ek as E1 E2 E3.
    unfold outline. cbn. by rewrite E1, E3.
Qed.

(** The uplink speed changes nothing the topology looks at. *)
Lemma BuildPorts_outline profile options options' :
  bo_Count options = bo_Count options' → bo_LinkSpeed options = bo_LinkSpeed options' →
  bo_UplinkPort options = bo_UplinkPort options' →
  outline <$> BuildPorts profile options = outline <$> BuildPorts profile options'.
Proof.
  intros E1 E2 E3. unfold BuildPorts. rewrite E1. unfold switchPortsWithLayout. cbv zeta.
  set (c := if _ <? 1 then 1 else _). set (l1 := normalizePortLayout _).
  set (l2 := normalizePortLayout (profilePortLayout profile options')).
  assert (ly_UplinkPort l1 = ly_UplinkPort l2 ∧ ly_PortGroups l1 = ly_PortGroups l2) as [-> Eg].
  { subst l1 l2. unfold profilePortLayout. rewrite E2, E3.
    by destruct (0 <? bo_LinkSpeed options'), (0 <? bo_UplinkSpeed options), (0 <? bo_UplinkSpeed options'). }
  pose proof (groupedSwitchPorts_outline c _ _ Eg) as Ep.
  destruct (groupedSwitchPorts c l1), (groupedSwitchPorts c l2); try done; apply applyUplinkPort_outline; [|done].
  change (map ?f ?l) with (f <$> l). by rewrite <- !list_fmap_compose.
Qed.

Lemma BuildPorts_neighbors profile options :
  Forall (λ p, p_Neighbors p = []) (BuildPorts profile options).
Proof.
  unfold BuildPorts, switchPortsWithLayout. cbv zeta. set (layout := normalizePortLayout _).
  assert (∀ ports u, Forall (λ p, p_Neighbors p = []) ports →
    Forall (λ p, p_Neighbors p = []) (applyUplinkPort ports u)) as Ha.
  { intros ports u Hp. unfold applyUplinkPort. destruct (u <=? 0); [done|]. destruct (_ <? u); [done|].
    apply Forall_alter; [|by intros]. apply Forall_fmap. by eapply Forall_impl. }
  assert (∀ u groups index, Forall (λ p, p_Neighbors p = []) (groupPorts layout u groups index)) as Hg.
  { intros u groups. induction groups as [|g gs IH]; intros index; cbn [groupPorts]; [constructor|].
    apply Forall_app. split; [|apply IH]. by apply Forall_fmap, Forall_true. }
  assert (∀ c, Forall (λ p, p_Neighbors p = []) (groupedSwitchPorts c layout)) as Hgr.
  { intros c. unfold groupedSwitchPorts. destruct (ly_PortGroups layout); [constructor|].
    destruct (groupTotals _ 0 0) as [[t u]|]; [|constructor]. destruct (negb _); [constructor|apply Hg]. }
  match goal with |- context [groupedSwitchPorts ?c layout] => specialize (Hgr c);
    destruct (groupedSwitchPorts c layout) end; apply Ha; [|done].
  by apply Forall_fmap, Forall_true.
Qed.
End outlines.

Lemma normalizePortLayout_speeds layout :
  0 < ly_Speed (normalizePortLayout layout) ∧ 0 < ly_UplinkSpeed (normalizePortLayout layout).
Proof.
  cbn. destruct (ly_Speed layout <=? 0) eqn:E1, (ly_UplinkSpeed layout <=? 0) eqn:E2; lia.
Qed.

Lemma BuildPorts_marked `{UnicodeTables} profile options :
  group_sum (pf_PortGroups profile) ≤ int64_max →
  let n := Z.max 1 (if 0 <? bo_Count options then bo_Count options else pf_Ports profile) in
  ∃ u, marked (BuildPorts profile options) n u ∧
    (1 ≤ bo_UplinkPort options ≤ n → u = bo_UplinkPort options).
Proof.
  intros Hs n. unfold BuildPorts, switchPortsWithLayout. cbv zeta.
  set (c := if 0 <? bo_Count options then _ else _) in *.
  assert ((if c <? 1 then 1 else c) = n) as -> by (subst n; destruct (c <? 1) eqn:E; lia).
  set (layout := profilePortLayout profile options).
  assert (ly_UplinkPort (normalizePortLayout layout) = bo_UplinkPort options) as Hup.
  { subst layout. unfold profilePortLayout. cbn.
    by destruct (0 <? bo_LinkSpeed options), (0 <? bo_UplinkSpeed options). }
  assert (group_sum (ly_PortGroups (normalizePortLayout layout)) ≤ int64_max) as Hg.
  { subst layout. unfold profilePortLayout. cbn.
    by destruct (0 <? bo_LinkSpeed options), (0 <? bo_UplinkSpeed options). }
  destruct (normalizePortLayout_speeds layout) as [H1 H2]. clearbody layout.
  assert (1 ≤ n) as Hn by (subst n; lia). clearbody n.
  assert (∀ ports u0, marked ports n u0 → ∃ u,
    marked (applyUplinkPort ports (ly_UplinkPort (normalizePortLayout layout))) n u ∧
    (1 ≤ bo_UplinkPort options ≤ n → u = bo_UplinkPort options)) as Hfin.
  { intros ports u0 Hm. eexists. split; [by apply applyUplinkPort_marked|]. rewrite Hup.
    intros [Ha Hb]. apply Z.leb_le in Ha, Hb. by rewrite Ha, Hb. }
  destruct (groupedSwitchPorts_marked n _ Hn Hg H1 H2) as [->|[u Hm]].
  - by eapply Hfin, uniform_marked.
  - destruct (groupedSwitchPorts n _) as [|p ps] eqn:Eg; [|by eapply Hfin].
    by eapply Hfin, uniform_marked.
Qed.

(** Whatever the profile and the options say, the built ports are numbered
    1 to [n], with [n] the requested count (at least 1); every port has a
    positive speed; and exactly one is the uplink: the requested one when it is
    in range. *)
Theorem BuildPorts_shape `{UnicodeTables} profile options :
  group_sum (pf_PortGroups profile) ≤ int64_max →
  let n := Z.max 1 (if 0 <? bo_Count options then bo_Count options else pf_Ports profile) in
  ∃ u, marked (BuildPorts profile options) n u ∧
    (1 ≤ bo_UplinkPort options ≤ n → u = bo_UplinkPort options).
Proof. apply BuildPorts_marked. Qed.

(** ** Configured neighbors *)

(** No two entries of a MAC table differ in letter case only. *)
Fixpoint distinct `{UnicodeTables} (macs : list MacTableEntry) : Prop :=
  match macs with
  | [] => True
  | m :: rest => Forall (λ e, equal_fold (me_MAC m) (me_MAC e) = false) rest ∧ distinct rest
  end.

Definition lists `{UnicodeTables} (mac : bytes) (macs : list MacTableEntry) : Prop :=
  Exists (λ e, equal_fold mac (me_MAC e) = true) macs.

Section upsert.
Context `{UnicodeLaws}.

Lemma equal_fold_false a b c :
  equal_fold a b = true → equal_fold a c = false → equal_fold b c = false.
Proof.
  intros E N. destruct (equal_fold b c) eqn:F; [|done].
  by rewrite (equal_fold_trans a b c E F) in N.
Qed.

Lemma equal_fold_comm a b : equal_fold a b = equal_fold b a.
Proof.
  destruct (equal_fold a b) eqn:E, (equal_fold b a) eqn:F; try done;
    apply equal_fold_sym in E || apply equal_fold_sym in F; congruence.
Qed.

Lemma upsertMAC_lists entry macs : lists (me_MAC entry) (upsertMAC entry macs).
Proof.
  induction macs as [|m rest IH]; cbn [upsertMAC].
  - constructor. apply equal_fold_refl.
  - destruct (equal_fold _ _); [constructor; apply equal_fold_refl|by apply Exists_cons_tl].
Qed.

Lemma upsertMAC_keeps mac entry macs : lists mac macs → lists mac (upsertMAC entry macs).
Proof.
  unfold lists. induction macs as [|m rest IH]; cbn [upsertMAC]; [by intros ?%Exists_nil|].
  rewrite Exists_cons. destruct (equal_fold (me_MAC m) _) eqn:E; rewrite Exists_cons; [|naive_solver].
  intros [Hm|?]; [left|by right]. cbn. by eapply equal_fold_trans.
Qed.

Lemma upsertMAC_distinct entry macs : distinct macs → distinct (upsertMAC entry macs).
Proof.
  induction macs as [|m rest IH]; cbn [upsertMAC distinct]; [by repeat constructor|].
  intros [Hm Hd]. destruct (equal_fold (me_MAC m) (me_MAC entry)) eqn:E; cbn [distinct].
  - split; [|done]. eapply Forall_impl; [exact Hm|]. intros e He. cbn.
    by eapply equal_fold_false.
  - split; [|auto]. clear IH Hd. induction rest as [|r rest IHr]; cbn [upsertMAC]; [by constructor|].
    apply Forall_cons in Hm as [Hr Hm]. destruct (equal_fold (me_MAC r) _); constructor; auto.
Qed.
End upsert.

(** What a configured neighbor may change of a port. *)
Definition table_step `{UnicodeTables} (p q : Port) : Prop :=
  p_Index q = p_Index p ∧ p_Uplink q = p_Uplink p ∧
  (distinct (p_MACs p) → distinct (p_MACs q)) ∧
  (∀ mac, lists mac (p_MACs p) → lists mac (p_MACs q)) ∧
  (∃ added, p_Neighbors q = p_Neighbors p ++ added).

#[export] Instance table_step_po `{UnicodeTables} : PreOrder table_step.
Proof.
  split; unfold table_step.
  - intros p. split_and!; try done. exists []. by rewrite app_nil_r.
  - intros p q r (H1 & H2 & H3 & H4 & a & H5) (K1 & K2 & K3 & K4 & b & K5).
    split_and!; try congruence; auto. exists (a ++ b). by rewrite K5, H5, app_assoc.
Qed.

Section apply.
Context `{UnicodeLaws}.

Lemma applyPortNeighbor_steps ports neighbor :
  Forall2 table_step ports (applyPortNeighbor ports neighbor).
Proof.
  unfold applyPortNeighbor. destruct (_ || _); [reflexivity|].
  set (update := λ p : Port, _). apply Forall2_same_length_lookup.
  split; [by rewrite length_alter|]. intros k p q Hp Hq.
  destruct (decide (k = Z.to_nat (np_Port neighbor - 1))) as [->|Hk].
  - rewrite list_lookup_alter_eq, Hp in Hq. injection Hq as <-. unfold update, table_step.
    destruct (negb _); cbn; (split_and!; try done).
    + by eexists.
    + apply upsertMAC_distinct.
    + intros mac. apply upsertMAC_keeps.
    + exists []. by rewrite app_nil_r.
  - rewrite list_lookup_alter_ne, Hp in Hq by done. injection Hq as <-. reflexivity.
Qed.

Lemma ApplyPortNeighbors_steps neighbors ports :
  Forall2 table_step ports (ApplyPortNeighbors ports neighbors).
Proof.
  unfold ApplyPortNeighbors. revert ports. induction neighbors as [|n ns IH]; intros ports; cbn.
  - reflexivity.
  - etrans; [apply applyPortNeighbor_steps|apply IH].
Qed.
End apply.

(** Configured neighbors only fill tables: ports keep their number, index
    and uplink mark; a MAC table without duplicates (up to letter case) stays
    without duplicates and loses no address; and every configured client with
    an address and a port in range is in the table of that port. *)
Theorem ApplyPortNeighbors_tables `{UnicodeLaws} ports neighbors :
  Forall2 table_step ports (ApplyPortNeighbors ports neighbors) ∧
  ∀ n, n ∈ neighbors → 1 ≤ np_Port n ≤ zlen ports → trim_space (me_MAC (np_Entry n)) ≠ [] →
    equal_fold (trim_space (me_Type (normalizeMacTableEntry (np_Entry n) (B "client")))) (B "client") = true →
    ∃ p, ApplyPortNeighbors ports neighbors !! Z.to_nat (np_Port n - 1) = Some p ∧
      lists (to_lower (trim_space (me_MAC (np_Entry n)))) (p_MACs p).
Proof.
  split; [apply ApplyPortNeighbors_steps|]. intros n Hin Hport Hmac Htype.
  apply list_elem_of_split in Hin as (ns1 & ns2 & ->).
  unfold ApplyPortNeighbors. rewrite fold_left_app. cbn [fold_left].
  set (mid := fold_left applyPortNeighbor ns1 ports).
  assert (length mid = length ports) as Hlen.
  { symmetry. by eapply Forall2_length, ApplyPortNeighbors_steps. }
  clearbody mid.
  assert (∃ q, applyPortNeighbor mid n !! Z.to_nat (np_Port n - 1) = Some q ∧
    lists (to_lower (trim_space (me_MAC (np_Entry n)))) (p_MACs q)) as (q & Hq & Hl).
  { unfold applyPortNeighbor, zlen in *. rewrite Hlen.
    rewrite (proj2 (Z.ltb_ge (np_Port n) 1)), (proj2 (Z.ltb_ge (Z.of_nat (length ports)) _)) by lia.
    rewrite bool_decide_false by done. cbn [orb]. rewrite list_lookup_alter_eq.
    destruct (mid !! Z.to_nat (np_Port n - 1)) as [q|] eqn:Eq.
    - eexists. split; [reflexivity|]. rewrite Htype. cbn [negb].
      exact (upsertMAC_lists (normalizeMacTableEntry (np_Entry n) (B "client")) (p_MACs q)).
    - apply lookup_ge_None in Eq. lia. }
  pose proof (ApplyPortNeighbors_steps ns2 (applyPortNeighbor mid n)) as Hs.
  destruct (Forall2_lookup_l _ _ _ _ _ Hs Hq) as (p & Hp & (_ & _ & _ & Hk & _)).
  exists p. split; [exact Hp|]. by apply Hk.
Qed.

(** The uplink neighbor goes to the uplink port. *)
Lemma append_to_uplink_spec entry ports :
  match list_find (λ p, p_Uplink p = true) ports with
  | None => append_to_uplink entry ports = ports
  | Some (k, p) => append_to_uplink entry ports =
      <[k := set_Neighbors (p_Neighbors p ++ [entry]) p]> ports
  end.
Proof.
  induction ports as [|p ports IH]; [done|]. cbn [list_find append_to_uplink].
  destruct (p_Uplink p) eqn:E.
  - by rewrite decide_True.
  - rewrite decide_False by done. destruct (list_find _ ports) as [[k q]|]; cbn; by rewrite IH.
Qed.

(** ** Witnesses *)
#[local] Existing Instance ascii_tables.

Definition sample_profile : Profile :=
  MkProfile 10 1000 10000 (B "GE") (B "SFP+")
    [MkPortGroup 8 1000 (B "GE") false; MkPortGroup 2 10000 (B "SFP+") true]
    [B "one"] [] [].
Definition no_options : PortBuildOptions := MkBuildOptions 0 0 0 0.

Example sample_ports :
  map (λ p, (p_Index p, p_Uplink p, p_Speed p)) (BuildPorts sample_profile no_options) =
    [(1, false, 1000); (2, false, 1000); (3, false, 1000); (4, false, 1000); (5, false, 1000);
     (6, false, 1000); (7, false, 1000); (8, false, 1000); (9, true, 10000); (10, false, 10000)] ∧
  map p_Name (take 2 (BuildPorts sample_profile no_options)) = [B "one"; B "Port 2"].
Proof. vm_compute. done. Qed.

Lemma BuildPorts_shape_witness :
  ∃ u, marked (BuildPorts sample_profile (MkBuildOptions 0 0 0 3)) 10 u ∧ u = 3.
Proof.
  destruct (BuildPorts_shape sample_profile (MkBuildOptions 0 0 0 3)) as (u & Hm & Hu).
  - vm_compute. discriminate.
  - exists u. split; [exact Hm|]. apply Hu. split; vm_compute; discriminate.
Defined.

Definition sample_client : PortNeighbor :=
  MkPortNeighbor 2 (MkMacEntry (B " 02:00:00:AA:BB:CC ") [] [] 0 0 0 false []) 0.

Lemma ApplyPortNeighbors_tables_witness :
  ∃ p, ApplyPortNeighbors (BuildPorts sample_profile no_options) [sample_client; sample_client] !! 1%nat
         = Some p ∧ lists (B "02:00:00:aa:bb:cc") (p_MACs p) ∧ length (p_MACs p) = 1%nat.
Proof.
  pose (ports := BuildPorts sample_profile no_options).
  destruct (@ApplyPortNeighbors_tables ascii_tables ascii_laws ports [sample_client; sample_client])
    as [_ Hn].
  destruct (Hn sample_client) as (p & Hp & Hl).
  - left.
  - split; vm_compute; discriminate.
  - vm_compute. discriminate.
  - vm_compute. reflexivity.
  - exists p. split; [exact Hp|]. split; [exact Hl|].
    vm_compute in Hp. injection Hp as <-. reflexivity.
Defined.
