(* ===== verification/Topology.v ===== *)
(** The resolution of direct infrastructure neighbors to one edge per port:
    [src/internal/device/topology.go]. *)
From stdpp Require Import sorting gmap list_numbers.
From S2P Require Import Prelude GoStrings GoNet GoMap Ports.

(** A string type with these constants. *)
Abbreviation TopologyDirection := bytes.
Definition DirectionUpstream : TopologyDirection := B "upstream".
Definition DirectionDownstream : TopologyDirection := B "downstream".

Record TopologyEdge := MkEdge {
  te_LocalPort : Z; te_Direction : TopologyDirection; te_Neighbor : TopologyNeighbor;
}.
Record TopologyResolution := MkResolution {
  tr_Edges : list TopologyEdge; tr_Warnings : list bytes;
}.

Section topology.
Context `{UnicodeTables} `{MapOrder}.

Definition ParseRemotePortID (value : bytes) : Z :=
  let value := trim_space value in
  let lower := to_lower value in
  let value := if has_prefix (B "port ") lower then trim_space (drop 5 value) else value in
  match atoi value with
  | None => 0
  | Some port => if (port <? 1) || (65535 <? port) then 0 else port
  end.

Definition normalizeTopologyNeighbor (n : TopologyNeighbor) : option TopologyNeighbor :=
  match parse_mac (trim_space (tn_MAC n)) with
  | None => None
  | Some mac =>
      Some (MkNeighbor (to_lower (mac_string mac)) (trim_space (tn_Hostname n))
        (trim_space (tn_IP n)) (to_lower (trim_space (tn_DeviceType n))) (tn_VLAN n) (tn_Age n)
        (tn_Uptime n) (tn_RemotePort n) (trim_space (tn_RemotePortID n)) (tn_Source n) (tn_Static n))
  end.

Definition pick_text (preferred fallback : bytes) : bytes :=
  if decide (trim_space preferred = []) then fallback else preferred.
Definition pick_int (preferred fallback : Z) : Z := if preferred =? 0 then fallback else preferred.

Definition mergeTopologyNeighbor (fallback preferred : TopologyNeighbor) : TopologyNeighbor :=
  MkNeighbor (tn_MAC preferred)
    (pick_text (tn_Hostname preferred) (tn_Hostname fallback))
    (pick_text (tn_IP preferred) (tn_IP fallback))
    (pick_text (tn_DeviceType preferred) (tn_DeviceType fallback))
    (pick_int (tn_VLAN preferred) (tn_VLAN fallback))
    (pick_int (tn_Age preferred) (tn_Age fallback))
    (pick_int (tn_Uptime preferred) (tn_Uptime fallback))
    (pick_int (tn_RemotePort preferred) (tn_RemotePort fallback))
    (pick_text (tn_RemotePortID preferred) (tn_RemotePortID fallback))
    (tn_Source preferred) (tn_Static preferred || tn_Static fallback).

Definition normalizedTopologyMAC (value : bytes) : bytes :=
  match parse_mac (trim_space value) with
  | None => to_lower (trim_space value)
  | Some mac => to_lower (mac_string mac)
  end.

Definition sortedTopologyKeys (values : gmap bytes TopologyNeighbor) : list bytes :=
  sort_strings (range values).*1.

Definition topologySourcePriority (source : NeighborSource) : Z :=
  if bool_decide (source = NeighborSourceConfigUplink) || bool_decide (source = NeighborSourceConfigPort)
  then 2
  else if bool_decide (source = NeighborSourceLLDP) then 1
  else 0.

(** *** One port *)
Abbreviation neighbors := (gmap bytes TopologyNeighbor).

Definition upsert_neighbor (key : bytes) (n : TopologyNeighbor) (target : neighbors) : neighbors :=
  match target !! key with
  | Some existing => <[key := mergeTopologyNeighbor existing n]> target
  | None => <[key := n]> target
  end.

(** The loop over [port.Neighbors]: the configured and the learned ones. *)
Definition classify_neighbor (acc : neighbors * neighbors) (raw : TopologyNeighbor)
    : neighbors * neighbors :=
  let '(configured, lldp) := acc in
  match normalizeTopologyNeighbor raw with
  | None => acc
  | Some n =>
      let key := normalizedTopologyMAC (tn_MAC n) in
      if decide (tn_Source n = NeighborSourceLLDP)
      then (configured, upsert_neighbor key n lldp)
      else (upsert_neighbor key n configured, lldp)
  end.
Definition classify_neighbors (raws : list TopologyNeighbor) : neighbors * neighbors :=
  fold_left classify_neighbor raws (∅, ∅).

Definition override_warning (index : Z) (n : TopologyNeighbor) (learned : TopologyNeighbor) : bytes :=
  B "topology port " ++ itoa index ++ B ": configured neighbor " ++ tn_MAC n
  ++ B " overrides LLDP neighbor " ++ tn_MAC learned.

(** The loop over the learned neighbors behind a configured one. *)
Definition learned_step (index : Z) (acc : TopologyNeighbor * list bytes)
    (kv : bytes * TopologyNeighbor) : TopologyNeighbor * list bytes :=
  let '(n, warnings) := acc in
  if decide (kv.1 = normalizedTopologyMAC (tn_MAC n))
  then (mergeTopologyNeighbor kv.2 n, warnings)
  else (n, warnings ++ [override_warning index n kv.2]).

(** The warnings, and the neighbor when there is one. *)
Definition resolvePortNeighbor (port : Port)
    : result error (list bytes * option TopologyNeighbor) :=
  let '(configured, lldp) := classify_neighbors (p_Neighbors port) in
  if decide (1 < size configured)%nat
  then Err (errorf (B "port " ++ itoa (p_Index port) ++ B " has conflicting configured infrastructure neighbors: "
                    ++ join (B ", ") (sortedTopologyKeys configured)))
  else
    match sortedTopologyKeys configured with
    | key :: _ =>
        match configured !! key with
        | None => Ok ([], None)   (* not reached: the key is one of the map *)
        | Some n =>
            let '(n, warnings) := fold_left (learned_step (p_Index port)) (range lldp) (n, []) in
            Ok (sort_strings warnings, Some n)
        end
    | [] =>
        if decide (1 < size lldp)%nat then
          Ok ([B "topology port " ++ itoa (p_Index port) ++ B ": multiple LLDP neighbors ("
               ++ join (B ", ") (sortedTopologyKeys lldp) ++ B "); no directed edge selected"], None)
        else
          match sortedTopologyKeys lldp with
          | key :: _ => Ok ([], lldp !! key)
          | [] => Ok ([], None)
          end
    end.

(** *** Both directions *)
Record conflict_state := MkConflict {
  cs_byMAC : gmap bytes nat;
  cs_keep : list bool;
  cs_warnings : list bytes;
}.

Definition overrides_warning (winner loser : TopologyEdge) (mac : bytes) : bytes :=
  B "topology neighbor " ++ mac ++ B ": " ++ te_Direction winner ++ B " edge from "
  ++ tn_Source (te_Neighbor winner) ++ B " overrides " ++ te_Direction loser ++ B " edge from "
  ++ tn_Source (te_Neighbor loser).

Definition conflict_step (edges : list TopologyEdge) (index : nat) (edge : TopologyEdge)
    (st : conflict_state) : result error conflict_state :=
  let mac := tn_MAC (te_Neighbor edge) in
  let key := normalizedTopologyMAC mac in
  match cs_byMAC st !! key with
  | None => Ok (MkConflict (<[key := index]> (cs_byMAC st)) (cs_keep st) (cs_warnings st))
  | Some previousIndex =>
      match edges !! previousIndex with
      | None => Ok st   (* not reached: the index is one of an earlier edge *)
      | Some previous =>
          if decide (te_Direction previous = te_Direction edge) then Ok st
          else
            let previousPriority := topologySourcePriority (tn_Source (te_Neighbor previous)) in
            let currentPriority := topologySourcePriority (tn_Source (te_Neighbor edge)) in
            if (previousPriority =? currentPriority) && (1 <? previousPriority)
            then Err (errorf (B "neighbor " ++ mac ++ B " is configured as both " ++ te_Direction previous
                              ++ B " on port " ++ itoa (te_LocalPort previous) ++ B " and " ++ te_Direction edge
                              ++ B " on port " ++ itoa (te_LocalPort edge)))
            else if previousPriority =? currentPriority then
              Ok (MkConflict (cs_byMAC st)
                    (<[index := false]> (<[previousIndex := false]> (cs_keep st)))
                    (cs_warnings st ++
                       [B "topology neighbor " ++ mac
                        ++ B " appears in both directions through LLDP; both edges omitted"]))
            else if currentPriority <? previousPriority then
              Ok (MkConflict (cs_byMAC st) (<[index := false]> (cs_keep st))
                    (cs_warnings st ++ [overrides_warning previous edge mac]))
            else
              Ok (MkConflict (<[key := index]> (cs_byMAC st))
                    (<[previousIndex := false]> (cs_keep st))
                    (cs_warnings st ++ [overrides_warning edge previous mac]))
      end
  end.

Fixpoint conflict_loop (edges : list TopologyEdge) (index : nat) (rest : list TopologyEdge)
    (st : conflict_state) : result error conflict_state :=
  match rest with
  | [] => Ok st
  | edge :: rest => st ← conflict_step edges index edge st; conflict_loop edges (S index) rest st
  end.

Definition kept (keep : list bool) (edges : list TopologyEdge) : list TopologyEdge :=
  omap (λ be, if be.1 : bool then Some be.2 else None) (zip keep edges).

Definition resolveDirectionConflicts (r : TopologyResolution) : result error TopologyResolution :=
  st ← conflict_loop (tr_Edges r) 0 (tr_Edges r)
         (MkConflict ∅ (map (λ _, true) (tr_Edges r)) (tr_Warnings r));
  Ok (MkResolution (kept (cs_keep st) (tr_Edges r)) (sort_strings (cs_warnings st))).

(** *** ResolveTopology *)
Definition edge_of (port : Port) (n : TopologyNeighbor) : TopologyEdge :=
  MkEdge (p_Index port) (if p_Uplink port then DirectionUpstream else DirectionDownstream) n.

Fixpoint port_edges (ports : list Port) (r : TopologyResolution) : result error TopologyResolution :=
  match ports with
  | [] => Ok r
  | port :: rest =>
      '(warnings, n) ← resolvePortNeighbor port;
      let r := MkResolution (tr_Edges r) (tr_Warnings r ++ warnings) in
      match n with
      | None => port_edges rest r
      | Some n => port_edges rest (MkResolution (tr_Edges r ++ [edge_of port n]) (tr_Warnings r))
      end
  end.

Definition ResolveTopology (ports : list Port) : result error TopologyResolution :=
  r ← port_edges ports (MkResolution [] []);
  resolveDirectionConflicts r.
End topology.

(** ** The classification of a port's neighbors *)
Section classes.
Context `{UnicodeTables}.

Definition neighbor_key (n : TopologyNeighbor) : bytes := normalizedTopologyMAC (tn_MAC n).
Definition is_learned (n : TopologyNeighbor) : bool := bool_decide (tn_Source n = NeighborSourceLLDP).

(** The keys of the usable neighbors of one kind. *)
Definition keys_of (learned : bool) (raws : list TopologyNeighbor) : gset bytes :=
  list_to_set (omap (λ raw,
    n ← normalizeTopologyNeighbor raw;
    if bool_decide (is_learned n = learned) then Some (neighbor_key n) else None) raws).

(** A map of neighbors of one kind under their keys. *)
Definition keyed (learned : bool) (m : gmap bytes TopologyNeighbor) : Prop :=
  ∀ k n, m !! k = Some n → neighbor_key n = k ∧ is_learned n = learned.

Lemma upsert_keyed learned n m :
  is_learned n = learned → keyed learned m → keyed learned (upsert_neighbor (neighbor_key n) n m).
Proof.
  intros Hn Hm k n'. unfold upsert_neighbor.
  destruct (m !! neighbor_key n) as [e|] eqn:E; intros [[<- <-]|[_ Hk]]%lookup_insert_Some; auto.
Qed.

Lemma upsert_dom n m : dom (upsert_neighbor (neighbor_key n) n m) = {[neighbor_key n]} ∪ dom m.
Proof. unfold upsert_neighbor. destruct (m !! _); by rewrite dom_insert_L. Qed.

Lemma classify_fold raws c l :
  keyed false c → keyed true l →
  let '(c', l') := fold_left classify_neighbor raws (c, l) in
  keyed false c' ∧ keyed true l' ∧
  dom c' = dom c ∪ keys_of false raws ∧ dom l' = dom l ∪ keys_of true raws.
Proof.
  revert c l. induction raws as [|raw raws IH]; intros c l Hc Hl; cbn [fold_left].
  { unfold keys_of. cbn. split_and!; [done..| |]; set_solver. }
  unfold keys_of in *. cbn [omap list_omap classify_neighbor].
  destruct (normalizeTopologyNeighbor raw) as [n|]; cbn [mbind option_bind]; [|by apply IH].
  change (normalizedTopologyMAC (tn_MAC n)) with (neighbor_key n).
  case_decide as E.
  - assert (is_learned n = true) as -> by by apply bool_decide_true.
    rewrite (bool_decide_false (true = false)), (bool_decide_true (true = true)) by done.
    pose proof (IH c (upsert_neighbor (neighbor_key n) n l) Hc) as Hi.
    destruct (fold_left classify_neighbor raws _) as [c' l'].
    destruct Hi as (H1 & H2 & H3 & H4); [apply upsert_keyed; [by apply bool_decide_true|done]|].
    rewrite upsert_dom in H4. split_and!; [done..|rewrite H3|rewrite H4]; cbn; set_solver.
  - assert (is_learned n = false) as -> by by apply bool_decide_false.
    rewrite (bool_decide_false (false = true)), (bool_decide_true (false = false)) by done.
    pose proof (IH (upsert_neighbor (neighbor_key n) n c) l) as Hi.
    destruct (fold_left classify_neighbor raws _) as [c' l'].
    destruct Hi as (H1 & H2 & H3 & H4); [apply upsert_keyed; [by apply bool_decide_false|done]|done|].
    rewrite upsert_dom in H3. split_and!; [done..|rewrite H3|rewrite H4]; cbn; set_solver.
Qed.

Lemma classify_ok raws :
  let '(c, l) := classify_neighbors raws in
  keyed false c ∧ keyed true l ∧ dom c = keys_of false raws ∧ dom l = keys_of true raws.
Proof.
  pose proof (classify_fold raws ∅ ∅) as Hf. unfold classify_neighbors.
  destruct (fold_left classify_neighbor raws (∅, ∅)) as [c l].
  destruct Hf as (H1 & H2 & -> & ->); [done..|]. rewrite !dom_empty_L. split_and!; set_solver.
Qed.
End classes.

(** ** The learned neighbors behind a configured one *)
Section learned.
Context `{UnicodeTables}.

Lemma learned_fold index l n ws :
  NoDup l.*1 →
  fold_left (learned_step index) l (n, ws) =
    (match (list_to_map l : gmap bytes TopologyNeighbor) !! neighbor_key n with
     | Some f => mergeTopologyNeighbor f n | None => n end,
     ws ++ map (λ kv, override_warning index n kv.2) (filter (λ kv, kv.1 ≠ neighbor_key n) l)).
Proof.
  revert n ws. induction l as [|[k v] l IH]; intros n ws Hnd; cbn [fold_left].
  { by rewrite app_nil_r. }
  apply NoDup_cons in Hnd as [Hk Hnd]. unfold learned_step at 2. cbn [fst snd].
  change (normalizedTopologyMAC (tn_MAC n)) with (neighbor_key n).
  cbn [list_to_map foldr]. destruct (decide (k = neighbor_key n)) as [->|Hne].
  - rewrite IH by done.
    change (neighbor_key (mergeTopologyNeighbor v n)) with (neighbor_key n).
    rewrite not_elem_of_list_to_map_1 by done. cbn [curry uncurry fst snd].
    rewrite filter_cons_False by (by intros []). f_equal. by rewrite lookup_insert_eq.
  - rewrite IH by done. cbn [fst snd]. rewrite lookup_insert_ne by done.
    rewrite filter_cons_True by done. cbn [map]. by rewrite <- app_assoc.
Qed.

(** The loop over a map, whatever the order. *)
Lemma learned_range `{MapOrderLaws} (index : Z) (m : gmap bytes TopologyNeighbor) (n : TopologyNeighbor) :
  let '(n', ws) := fold_left (learned_step index) (range m) (n, []) in
  n' = match m !! neighbor_key n with Some f => mergeTopologyNeighbor f n | None => n end ∧
  ws ≡ₚ map (λ kv, override_warning index n kv.2)
          (filter (λ kv, kv.1 ≠ neighbor_key n) (map_to_list m)).
Proof.
  rewrite learned_fold by apply range_keys_nodup. split.
  - assert ((list_to_map (range m) : gmap bytes TopologyNeighbor) = m) as ->; [|done].
    rewrite <- (list_to_map_to_list m) at 2. apply list_to_map_proper, range_permutation.
    apply range_keys_nodup.
  - cbn. by rewrite range_permutation.
Qed.

Lemma sorted_keys `{MapOrderLaws} (m : gmap bytes TopologyNeighbor) :
  sortedTopologyKeys m = sort_strings (map_to_list m).*1.
Proof. apply sort_strings_perm. by rewrite range_permutation. Qed.

Lemma sorted_keys_cases `{MapOrderLaws} (m : gmap bytes TopologyNeighbor) :
  match sortedTopologyKeys m with
  | [] => m = ∅
  | k :: _ => is_Some (m !! k)
  end.
Proof.
  unfold sortedTopologyKeys. pose proof (sort_strings_permutation (range m).*1) as Hp.
  destruct (sort_strings _) as [|k ks].
  - apply Permutation_nil_l in Hp. symmetry in Hp. apply fmap_nil_inv in Hp.
    apply map_eq. intros k. rewrite lookup_empty. destruct (m !! k) as [a|] eqn:E; [|done].
    apply elem_of_range in E. rewrite Hp in E. by apply not_elem_of_nil in E.
  - assert (k ∈ (range m).*1) as Hk by (rewrite <- Hp; left).
    apply list_elem_of_fmap in Hk as ([k' a] & -> & Hk). exists a. by apply elem_of_range.
Qed.

(** Two orders give the same result. *)
Lemma resolve_order (o1 o2 : MapOrder) (l1 : @MapOrderLaws o1) (l2 : @MapOrderLaws o2) port :
  @resolvePortNeighbor _ o1 port = @resolvePortNeighbor _ o2 port.
Proof.
  unfold resolvePortNeighbor. destruct (classify_neighbors _) as [c l].
  rewrite (@sorted_keys o1 l1), (@sorted_keys o2 l2). case_decide; [done|].
  destruct (sort_strings _) as [|key keys].
  - case_decide; [|by rewrite (@sorted_keys o1 l1), (@sorted_keys o2 l2)].
    by rewrite (@sorted_keys o1 l1), (@sorted_keys o2 l2).
  - destruct (c !! key) as [n|]; [|done].
    pose proof (@learned_range o1 l1 (p_Index port) l n) as H1.
    pose proof (@learned_range o2 l2 (p_Index port) l n) as H2.
    destruct (fold_left _ (@range o1 _ l) _) as [n1 w1], (fold_left _ (@range o2 _ l) _) as [n2 w2].
    destruct H1 as [-> H1], H2 as [-> H2]. do 2 f_equal. apply sort_strings_perm. by rewrite H1.
Qed.
End learned.

(** C33: the resolution is deterministic: edges, warnings and the whole text of
    an error do not depend on the order in which Go iterates over its maps. *)
Theorem ResolveTopology_deterministic `{UnicodeTables} (o1 o2 : MapOrder) ports :
  @MapOrderLaws o1 → @MapOrderLaws o2 →
  @ResolveTopology _ o1 ports = @ResolveTopology _ o2 ports.
Proof.
  intros l1 l2. unfold ResolveTopology.
  assert (∀ r, @port_edges _ o1 ports r = @port_edges _ o2 ports r) as E; [|by rewrite E].
  induction ports as [|port ports IH]; intros r; cbn [port_edges]; [done|].
  rewrite (resolve_order o1 o2 l1 l2). destruct (resolvePortNeighbor port) as [[ws [n|]]|]; [| |done];
    cbn; apply IH.
Qed.

(** ** One neighbor per port *)
Lemma filter_all {A} (P : A → Prop) `{∀ x, Decision (P x)} l : Forall P l → filter P l = l.
Proof.
  induction 1 as [|x l Hx _ IH]; [done|]. by rewrite filter_cons_True, IH.
Qed.

Lemma others_delete {A} (m : gmap bytes A) k :
  length (filter (λ kv, kv.1 ≠ k) (map_to_list m)) = length (map_to_list (delete k m)).
Proof.
  assert (Forall (λ kv : bytes * A, kv.1 ≠ k) (map_to_list (delete k m))) as Hall.
  { apply Forall_forall. intros [j a] Hj%elem_of_map_to_list. cbn. intros ->.
    by rewrite lookup_delete_eq in Hj. }
  destruct (m !! k) as [v|] eqn:E.
  - rewrite <- (map_to_list_delete m k v E), filter_cons_False by (by intros []).
    by rewrite (filter_all _ _ Hall).
  - rewrite delete_id in * by done. by rewrite (filter_all _ _ Hall).
Qed.

(** What a port selects, by the keys of its neighbors. *)
Lemma resolve_cases `{UnicodeTables} `{MapOrderLaws} port :
  let C := keys_of false (p_Neighbors port) in
  let L := keys_of true (p_Neighbors port) in
  match resolvePortNeighbor port with
  | Err _ => (1 < size C)%nat
  | Ok (warnings, Some n) =>
      (C = {[neighbor_key n]} ∧ is_learned n = false ∧ length warnings = size (L ∖ C)) ∨
      (C = ∅ ∧ L = {[neighbor_key n]} ∧ is_learned n = true ∧ warnings = [])
  | Ok (warnings, None) =>
      C = ∅ ∧ (L = ∅ ∧ warnings = [] ∨ (1 < size L)%nat ∧ length warnings = 1%nat)
  end.
Proof.
  cbn zeta. unfold resolvePortNeighbor. pose proof (classify_ok (p_Neighbors port)) as Hc.
  destruct (classify_neighbors _) as [c l]. destruct Hc as (Kc & Kl & <- & <-).
  rewrite !size_dom. case_decide as E1; [done|].
  assert (∀ m : gmap bytes TopologyNeighbor, ∀ k n, m !! k = Some n → ¬ (1 < size m)%nat → m = {[k := n]}) as Hone.
  { intros m k n Hk Hs. rewrite <- (insert_delete_id m k n Hk) at 1.
    assert (size (delete k m) = 0)%nat as Hz.
    { rewrite map_size_delete_Some by eauto. lia. }
    apply map_size_empty_iff in Hz. by rewrite Hz. }
  pose proof (sorted_keys_cases c) as Hsc. destruct (sortedTopologyKeys c) as [|key keys].
  - subst c. rewrite dom_empty_L. case_decide as E2; [by auto|].
    pose proof (sorted_keys_cases l) as Hsl. destruct (sortedTopologyKeys l) as [|k ks].
    + subst l. rewrite dom_empty_L. auto.
    + destruct Hsl as [n Hn]. rewrite Hn. destruct (Kl k n Hn) as [<- Hl].
      rewrite (Hone l _ n Hn E2), dom_singleton_L. right. auto.
  - destruct Hsc as [n Hn]. rewrite Hn. destruct (Kc key n Hn) as [<- Hl].
    pose proof (learned_range (p_Index port) l n) as Hf.
    destruct (fold_left _ _ _) as [n' ws]. destruct Hf as [-> Hws]. left.
    assert (∀ f, neighbor_key (mergeTopologyNeighbor f n) = neighbor_key n ∧
                 is_learned (mergeTopologyNeighbor f n) = is_learned n) as Hm by done.
    rewrite (Hone c _ n Hn E1), dom_singleton_L.
    split; [by destruct (l !! _)|]. split; [by destruct (l !! _)|].
    rewrite sort_strings_permutation, Hws, length_map.
    rewrite <- dom_delete_L, size_dom. rewrite <- length_map_to_list.
    by rewrite others_delete.
Qed.

(** Explicit configuration wins over LLDP and ambiguity is never guessed:
    two configured addresses are an error; one is selected whatever was
    learned, with one warning for each other address; without one, exactly one
    learned address is selected; several learned addresses give no neighbor and
    one warning. *)
Theorem resolvePortNeighbor_precedence `{UnicodeTables} `{MapOrderLaws} port :
  let C := keys_of false (p_Neighbors port) in
  let L := keys_of true (p_Neighbors port) in
  match resolvePortNeighbor port with
  | Err _ => (1 < size C)%nat
  | Ok (warnings, Some n) =>
      (C = {[neighbor_key n]} ∧ is_learned n = false ∧ length warnings = size (L ∖ C)) ∨
      (C = ∅ ∧ L = {[neighbor_key n]} ∧ is_learned n = true ∧ warnings = [])
  | Ok (warnings, None) =>
      C = ∅ ∧ (L = ∅ ∧ warnings = [] ∨ (1 < size L)%nat ∧ length warnings = 1%nat)
  end.
Proof. apply resolve_cases. Qed.

(** ** The edges *)
Lemma kept_sublist keep edges : sublist (kept keep edges) edges.
Proof.
  revert keep. induction edges as [|e es IH]; intros [|b keep]; cbn; try apply sublist_nil_l.
  destruct b; cbn; [apply sublist_skip|apply sublist_cons]; apply IH.
Qed.

Section edges.
Context `{UnicodeTables} `{MapOrder}.

(** The edge a port offers. *)
Definition offered (port : Port) : option TopologyEdge :=
  match resolvePortNeighbor port with Ok (_, Some n) => Some (edge_of port n) | _ => None end.

Lemma port_edges_offered ports r r' :
  port_edges ports r = Ok r' → tr_Edges r' = tr_Edges r ++ omap offered ports.
Proof.
  revert r. induction ports as [|p ports IH]; intros r; cbn [port_edges].
  { intros [= ->]. by rewrite app_nil_r. }
  cbn [omap list_omap]. unfold offered at 1.
  destruct (resolvePortNeighbor p) as [[ws [n|]]|e]; cbn [mbind result_bind]; [| |done];
    intros ->%IH; cbn [tr_Edges]; [by rewrite <- app_assoc|done].
Qed.

Lemma offered_ports ports :
  sublist (te_LocalPort <$> omap offered ports) (p_Index <$> ports).
Proof.
  induction ports as [|p ports IH]; [constructor|]. cbn [omap list_omap fmap list_fmap].
  unfold offered at 1. destruct (resolvePortNeighbor p) as [[ws [n|]]|e]; cbn;
    [by apply sublist_skip|by apply sublist_cons..].
Qed.
End edges.

(** Every resolved edge is the neighbor its port selects, in port order,
    directed upstream exactly on an uplink port; a port has at most one edge;
    and the warnings are sorted. *)
Theorem ResolveTopology_edges `{UnicodeTables} `{MapOrder} ports res :
  ResolveTopology ports = Ok res →
  sublist (tr_Edges res) (omap offered ports) ∧
  (NoDup (p_Index <$> ports) → NoDup (te_LocalPort <$> tr_Edges res)) ∧
  (∀ e, e ∈ tr_Edges res → ∃ p ws, p ∈ ports ∧ te_LocalPort e = p_Index p ∧
     resolvePortNeighbor p = Ok (ws, Some (te_Neighbor e)) ∧
     (te_Direction e = DirectionUpstream ↔ p_Uplink p = true)) ∧
  Sorted bytes_le (tr_Warnings res).
Proof.
  unfold ResolveTopology. destruct (port_edges ports _) as [r|] eqn:Ep; [|done].
  apply port_edges_offered in Ep. cbn in Ep. cbn [mbind result_bind].
  unfold resolveDirectionConflicts. destruct (conflict_loop _ _ _ _) as [st|]; [|done].
  intros [= <-]. cbn [tr_Edges tr_Warnings]. rewrite Ep.
  pose proof (kept_sublist (cs_keep st) (omap offered ports)) as Hsub.
  split_and!; [done| | |apply sort_strings_sorted].
  - intros Hnd. eapply sublist_NoDup; [exact Hnd|].
    etrans; [by apply fmap_sublist|apply offered_ports].
  - intros e He. pose proof (elem_of_sublist _ _ _ He Hsub) as Ho0. clear He. rename Ho0 into He.
    apply list_elem_of_omap in He as (p & Hp & Ho). unfold offered in Ho.
    destruct (resolvePortNeighbor p) as [[ws [n|]]|e'] eqn:Er; try done. injection Ho as <-.
    exists p, ws. split_and!; [done..|]. cbn. by destruct (p_Uplink p).
Qed.

(** ** Both directions *)
Section directions.
Context `{UnicodeTables}.

Definition edge_key (e : TopologyEdge) : bytes := neighbor_key (te_Neighbor e).

Definition at_most_twice (es : list TopologyEdge) : Prop :=
  ∀ k, (length (filter (λ e, edge_key e = k) es) ≤ 2)%nat.

Lemma at_most_twice_no_third es i j k e f g :
  at_most_twice es → (i < j < k)%nat →
  es !! i = Some e → es !! j = Some f → es !! k = Some g →
  edge_key e = edge_key f → edge_key f = edge_key g → False.
Proof.
  intros Ht [Hij Hjk] He Hf Hg E1 E2. specialize (Ht (edge_key g)).
  rewrite <- (take_drop_middle es i e He) in Ht.
  assert (drop (S i) es !! (j - S i)%nat = Some f) as Hf'
    by (rewrite lookup_drop; by replace (S i + (j - S i))%nat with j by lia).
  rewrite <- (take_drop_middle (drop (S i) es) _ f Hf') in Ht. rewrite drop_drop in Ht.
  assert (drop (S i + S (j - S i)) es !! (k - S j)%nat = Some g) as Hg'
    by (rewrite lookup_drop; by replace (S i + S (j - S i) + (k - S j))%nat with k by lia).
  rewrite <- (take_drop_middle (drop (S i + S (j - S i)) es) _ g Hg') in Ht.
  rewrite !filter_app, !filter_cons_True, !filter_app, !filter_cons_True, !filter_app,
    !filter_cons_True in Ht by congruence.
  rewrite !length_app in Ht. cbn in Ht. rewrite !length_app in Ht. cbn in Ht.
  rewrite !length_app in Ht. cbn in Ht. lia.
Qed.

(** The loop state after the first [n] edges. *)
Record conflict_inv (es : list TopologyEdge) (n : nat) (st : conflict_state) : Prop := {
  ci_length : length (cs_keep st) = length es;
  ci_index : ∀ k i, cs_byMAC st !! k = Some i →
    (i < n)%nat ∧ ∃ e, es !! i = Some e ∧ edge_key e = k;
  ci_seen : ∀ i e, (i < n)%nat → es !! i = Some e → is_Some (cs_byMAC st !! edge_key e);
  ci_split : ∀ i j e f, (i < j < n)%nat → es !! i = Some e → es !! j = Some f →
    edge_key e = edge_key f → te_Direction e ≠ te_Direction f →
    cs_keep st !! i = Some false ∨ cs_keep st !! j = Some false;
}.

Lemma dropped_insert (keep : list bool) i j :
  keep !! j = Some false → <[i := false]> keep !! j = Some false.
Proof.
  intros Hj. destruct (decide (i = j)) as [->|Hne].
  - rewrite list_lookup_insert_eq; [done|by eapply lookup_lt_Some].
  - by rewrite list_lookup_insert_ne.
Qed.

Lemma conflict_step_inv es n e st st' :
  at_most_twice es → es !! n = Some e → conflict_inv es n st →
  conflict_step es n e st = Ok st' → conflict_inv es (S n) st'.
Proof.
  intros Ht He [Il Ii Is Ip]. unfold conflict_step. fold (neighbor_key (te_Neighbor e)).
  fold (edge_key e). pose proof (lookup_lt_Some _ _ _ He) as Hn.
  destruct (cs_byMAC st !! edge_key e) as [i|] eqn:Ei; cycle 1.
  { (* the first edge of its neighbor *)
    intros [= <-]. split; cbn; [done| | |].
    - intros k j [[<- <-]|[_ Hj]]%lookup_insert_Some; [split; [lia|eauto]|].
      destruct (Ii k j Hj). split; [lia|done].
    - intros j f Hj Hf. destruct (decide (edge_key e = edge_key f)) as [->|Hne].
      + rewrite lookup_insert_eq. eauto.
      + rewrite lookup_insert_ne by done. apply (Is j f); [|done].
        destruct (decide (j = n)) as [->|]; [congruence|lia].
    - intros i j f g Hij Hf Hg Hk Hd. destruct (decide (j = n)) as [->|].
      + assert (g = e) as -> by congruence.
        destruct (Is i f) as [x Hx]; [lia|done|]. rewrite Hk in Hx. congruence.
      + apply (Ip i j f g); auto. lia. }
  destruct (Ii _ _ Ei) as (Hin & p & Hp & Hpk). rewrite Hp.
  (* another earlier edge of the neighbor is a third one *)
  assert (∀ j f, (j < n)%nat → es !! j = Some f → edge_key f = edge_key e → j = i) as Honly.
  { intros j f Hj Hf Hk. destruct (Nat.lt_trichotomy j i) as [Hl|[?|Hl]]; [|done|]; exfalso.
    - apply (at_most_twice_no_third es j i n f p e); (done || lia || congruence).
    - apply (at_most_twice_no_third es i j n p f e); (done || lia || congruence). }
  (* any new state that drops one of the two keeps the invariant *)
  assert (∀ byMAC keep ws,
    length keep = length es →
    (∀ j, cs_keep st !! j = Some false → keep !! j = Some false) →
    (te_Direction p ≠ te_Direction e → keep !! i = Some false ∨ keep !! n = Some false) →
    (byMAC = cs_byMAC st ∨ byMAC = <[edge_key e := n]> (cs_byMAC st)) →
    conflict_inv es (S n) (MkConflict byMAC keep ws)) as Hgen.
  { intros byMAC keep ws Hlen Hmono Hdrop Hby. split; cbn; [done| | |].
    - intros k j Hj. destruct Hby as [->| ->].
      + destruct (Ii k j Hj). split; [lia|done].
      + apply lookup_insert_Some in Hj as [[<- <-]|[_ Hj]]; [split; [lia|eauto]|].
        destruct (Ii k j Hj). split; [lia|done].
    - intros j f Hj Hf. assert (is_Some (cs_byMAC st !! edge_key f)) as Hs.
      { destruct (decide (j = n)) as [->|]; [|apply (Is j f); [lia|done]].
        assert (f = e) as -> by congruence. eauto. }
      destruct Hby as [->| ->]; [done|]. apply lookup_insert_is_Some. destruct (decide (edge_key e = edge_key f)); auto.
    - intros j k f g Hjk Hf Hg Hk Hd. destruct (decide (k = n)) as [->|].
      + assert (g = e) as -> by congruence.
        assert (j = i) as -> by (apply (Honly j f); [lia|done..]).
        assert (f = p) as -> by congruence. auto.
      + destruct (Ip j k f g); auto. lia. }
  case_decide as Hdir.
  { intros [= <-]. destruct st as [by_ keep ws]. apply Hgen; auto. by intros []. }
  destruct (_ && _); [done|].
  assert (i < length (cs_keep st))%nat as Hil by (rewrite Il; lia).
  assert (n < length (cs_keep st))%nat as Hnl by (rewrite Il; lia).
  destruct (_ =? _); [|destruct (_ <? _)]; intros [= <-]; apply Hgen; auto using dropped_insert;
    rewrite ?length_insert; auto.
  - intros _. right. apply list_lookup_insert_eq. by rewrite length_insert.
  - intros _. right. by apply list_lookup_insert_eq.
  - intros _. left. by apply list_lookup_insert_eq.
Qed.

Lemma conflict_loop_inv es rest n st st' :
  at_most_twice es → drop n es = rest → conflict_inv es n st →
  conflict_loop es n rest st = Ok st' → conflict_inv es (length es) st'.
Proof.
  intros Ht. revert n st. induction rest as [|e rest IH]; intros n st Hd Hi; cbn [conflict_loop].
  - intros [= <-]. assert (length es ≤ n)%nat as Hn by (by apply drop_nil_inv in Hd || (apply (f_equal length) in Hd; rewrite length_drop in Hd; cbn in Hd; lia)).
    destruct Hi as [Il Ii Is Ip]. split; [done| | |].
    + intros k i Hk. destruct (Ii k i Hk) as (_ & e & He & ?). split; [by eapply lookup_lt_Some|eauto].
    + intros i e Hlt. apply Is. lia.
    + intros i j e f Hij. apply Ip. lia.
  - assert (es !! n = Some e) as He.
    { rewrite <- (Nat.add_0_r n), <- lookup_drop, Hd. done. }
    destruct (conflict_step es n e st) as [st1|] eqn:Es; [|done]. cbn. apply IH.
    + replace (S n) with (n + 1)%nat by lia. rewrite <- drop_drop, Hd. done.
    + by eapply conflict_step_inv.
Qed.
End directions.

Lemma kept_lookup keep edges e :
  length keep = length edges → e ∈ kept keep edges →
  ∃ i, keep !! i = Some true ∧ edges !! i = Some e.
Proof.
  revert edges. induction keep as [|b keep IH]; intros [|x edges] Hl; cbn; try done.
  - intros ?%not_elem_of_nil. done.
  - injection Hl as Hl. change (kept (b :: keep) (x :: edges)) with
      (match (if b : bool then Some x else None) with Some y => y :: kept keep edges | None => kept keep edges end).
    destruct b; [intros [->|He]%elem_of_cons; [by exists 0%nat|]|intros He];
      destruct (IH edges Hl He) as (i & ? & ?); by exists (S i).
Qed.

(** As long as no neighbor is offered by more than two ports, no resolved
    neighbor is both upstream and downstream. *)
Theorem ResolveTopology_one_direction `{UnicodeTables} `{MapOrder} ports res :
  ResolveTopology ports = Ok res →
  at_most_twice (omap offered ports) →
  ∀ e f, e ∈ tr_Edges res → f ∈ tr_Edges res → edge_key e = edge_key f →
    te_Direction e = te_Direction f.
Proof.
  unfold ResolveTopology. intros Hr Ht e f He Hf Hk.
  destruct (port_edges ports _) as [r|] eqn:Ep; [|done]. apply port_edges_offered in Ep.
  cbn in Ep. rewrite <- Ep in Ht. cbn [mbind result_bind] in Hr.
  unfold resolveDirectionConflicts in Hr.
  destruct (conflict_loop _ _ _ _) as [st|] eqn:El; [|done]. injection Hr as <-. cbn in He, Hf.
  apply (conflict_loop_inv (tr_Edges r) (tr_Edges r) 0) in El; [|done|done|].
  - destruct (kept_lookup _ _ _ (ci_length _ _ _ El) He) as (i & Ki & Ei).
    destruct (kept_lookup _ _ _ (ci_length _ _ _ El) Hf) as (j & Kj & Ej).
    destruct (decide (te_Direction e = te_Direction f)) as [|Hd]; [done|exfalso].
    pose proof (lookup_lt_Some _ _ _ Ei). pose proof (lookup_lt_Some _ _ _ Ej).
    destruct (Nat.lt_trichotomy i j) as [Hl|[->|Hl]].
    + destruct (ci_split _ _ _ El i j e f) as [E|E]; (done || lia || congruence).
    + congruence.
    + destruct (ci_split _ _ _ El j i f e) as [E|E]; (done || lia || congruence).
  - split; cbn; [by rewrite length_map|by intros ? ? ?|lia|lia].
Qed.

(** ** Remote port identifiers *)
Definition port_text (n : Z) : bytes := B "Port " ++ itoa n.

(** A remote port is zero or a TCP-sized number, and every number from 1 to
    65535 is read back from its text, with or without the "Port" label. *)
Theorem ParseRemotePortID_exact :
  (∀ `{UnicodeTables} value, 0 ≤ ParseRemotePortID value ≤ 65535) ∧
  (∀ `{UnicodeTables} n, 1 ≤ n ≤ 65535 →
     ParseRemotePortID (itoa n) = n ∧ ParseRemotePortID (port_text n) = n).
Proof.
  split.
  - intros U value. unfold ParseRemotePortID. cbv zeta. destruct (atoi _) as [port|]; [|lia].
    destruct (_ || _) eqn:E; [lia|]. apply orb_false_iff in E as [E1 E2]. lia.
  - intros U n Hn.
    destruct (itoa_spec n) as (Hne & Hd & _); [unfold int64_max; lia|].
    assert (atoi (itoa n) = Some n) as Ha by (apply atoi_itoa; unfold int64_max; lia).
    assert ((if (n <? 1) || (65535 <? n) then 0 else n) = n) as Hr
      by (rewrite (proj2 (Z.ltb_ge n 1)), (proj2 (Z.ltb_ge 65535 n)) by lia; done).
    split; unfold ParseRemotePortID, port_text; cbv zeta.
    + rewrite (trim_space_label [] (itoa n) I Hne Hd : trim_space (itoa n) = itoa n).
      assert (has_prefix (B "port ") (to_lower (itoa n)) = false) as ->; [|by rewrite Ha].
      unfold to_lower. rewrite digits_ascii by done.
      destruct (itoa n) as [|c s]; [done|]. cbn in Hd. apply andb_true_iff in Hd as [Hc _].
      destruct c; try discriminate Hc; reflexivity.
    + rewrite (trim_space_label (B "Port ") (itoa n) eq_refl Hne Hd).
      assert (has_prefix (B "port ") (to_lower (B "Port " ++ itoa n)) = true) as ->.
      { unfold to_lower. by rewrite forallb_app, (digits_ascii _ Hd). }
      change (drop 5 (B "Port " ++ itoa n)) with (itoa n).
      rewrite (trim_space_label [] (itoa n) I Hne Hd : trim_space (itoa n) = itoa n). by rewrite Ha.
Qed.

(** ** Witnesses, and the third port *)
#[local] Existing Instance ascii_tables.
#[local] Existing Instance list_order.

Definition test_port (index : Z) (uplink : bool) (ns : list TopologyNeighbor) : Port :=
  set_Neighbors ns (generatedPort index 1000 (B "GE") uplink uplink [] [] []).
Definition seen (source : NeighborSource) (mac : bytes) : TopologyNeighbor :=
  MkNeighbor mac [] [] (B "usw") 0 0 0 0 [] source false.
Definition peer : bytes := B "02:00:00:aa:bb:cc".

(** A neighbor learned on one port and configured on two others, one of them
    the uplink. *)
Definition three_ports : list Port :=
  [test_port 1 false [seen NeighborSourceLLDP peer];
   test_port 2 false [seen NeighborSourceConfigPort peer];
   test_port 3 true [seen NeighborSourceConfigUplink peer]].

(** A third port hides a configuration error: the neighbor is configured
    both downstream and upstream, which two ports alone make an error, but an
    LLDP edge in front of them lets both edges through. *)
Theorem third_port_hides_conflict :
  is_ok (ResolveTopology (tail three_ports)) = false ∧
  ∃ res, ResolveTopology three_ports = Ok res ∧
    map te_LocalPort (tr_Edges res) = [2; 3] ∧
    map edge_key (tr_Edges res) = [peer; peer] ∧
    map te_Direction (tr_Edges res) = [DirectionDownstream; DirectionUpstream].
Proof.
  split; [vm_compute; reflexivity|].
  destruct (ResolveTopology three_ports) as [res|e] eqn:E; vm_compute in E; [|discriminate E].
  injection E as <-. eexists. split; [reflexivity|]. vm_compute. done.
Qed.

Definition two_ports : list Port :=
  [test_port 1 false [seen NeighborSourceLLDP (B "02-00-00-AA-BB-CC")];
   test_port 2 true [seen NeighborSourceConfigUplink peer; seen NeighborSourceLLDP (B "02:00:00:00:00:01")]].

Definition two_edges : TopologyResolution :=
  match ResolveTopology two_ports with Ok r => r | Err _ => MkResolution [] [] end.

Example two_ports_resolved :
  map te_LocalPort (tr_Edges two_edges) = [2] ∧
  tr_Warnings two_edges =
    [B "topology neighbor 02:00:00:aa:bb:cc: upstream edge from config-uplink overrides downstream edge from lldp";
     B "topology port 2: configured neighbor 02:00:00:aa:bb:cc overrides LLDP neighbor 02:00:00:00:00:01"].
Proof. vm_compute. done. Qed.

Definition torn_port : Port :=
  test_port 1 false [seen NeighborSourceConfigPort peer; seen NeighborSourceConfigPort (B "02:00:00:00:00:01")].
Lemma ResolveTopology_deterministic_witness :
  let backwards : MapOrder := {| range := λ A m, reverse (map_to_list m) |} in
  @ResolveTopology _ list_order two_ports = @ResolveTopology _ backwards two_ports ∧
  @ResolveTopology _ backwards [torn_port] =
    Err "port 1 has conflicting configured infrastructure neighbors: 02:00:00:00:00:01, 02:00:00:aa:bb:cc"%stdpp.
Proof.
  cbv zeta. set (backwards := {| range := _ |}).
  assert (∀ ports, @ResolveTopology _ list_order ports = @ResolveTopology _ backwards ports) as Hd.
  { intros ports. apply ResolveTopology_deterministic; [exact list_order_laws|].
    intros A m. cbn. apply reverse_Permutation. }
  split; [apply Hd|]. rewrite <- Hd. vm_compute. reflexivity.
Defined.

Lemma resolvePortNeighbor_precedence_witness :
  (1 < size (keys_of false [seen NeighborSourceConfigPort peer;
                            seen NeighborSourceConfigPort (B "02:00:00:00:00:01")]))%nat.
Proof.
  pose proof (@resolvePortNeighbor_precedence ascii_tables list_order list_order_laws
    (test_port 1 false [seen NeighborSourceConfigPort peer;
                        seen NeighborSourceConfigPort (B "02:00:00:00:00:01")])) as H.
  cbn zeta in H.
  assert (is_ok (resolvePortNeighbor (test_port 1 false [seen NeighborSourceConfigPort peer;
                        seen NeighborSourceConfigPort (B "02:00:00:00:00:01")])) = false) as He
    by (vm_compute; reflexivity).
  destruct (resolvePortNeighbor _) as [[ws [n|]]|e]; [discriminate He..|exact H].
Defined.

Lemma ResolveTopology_edges_witness : Sorted bytes_le (tr_Warnings two_edges).
Proof.
  assert (ResolveTopology two_ports = Ok two_edges) as E by (vm_compute; reflexivity).
  exact (proj2 (proj2 (proj2 (ResolveTopology_edges two_ports two_edges E)))).
Defined.

(** Two ports that offer the same neighbor in one direction. *)
Definition same_ports : list Port :=
  [test_port 1 false [seen NeighborSourceLLDP peer];
   test_port 2 false [seen NeighborSourceConfigPort peer]].
Definition same_edge (index : Z) (source : NeighborSource) : TopologyEdge :=
  MkEdge index DirectionDownstream (seen source peer).

Lemma ResolveTopology_one_direction_witness :
  te_Direction (same_edge 1 NeighborSourceLLDP) = te_Direction (same_edge 2 NeighborSourceConfigPort).
Proof.
  assert (ResolveTopology same_ports =
    Ok (MkResolution [same_edge 1 NeighborSourceLLDP; same_edge 2 NeighborSourceConfigPort] [])) as E
    by (vm_compute; reflexivity).
  apply (ResolveTopology_one_direction same_ports _ E).
  - intros k. etrans; [apply length_filter|]. apply Nat.leb_le. vm_compute. reflexivity.
  - left.
  - right. left.
  - reflexivity.
Defined.
