(* ===== verification/TopologyStable.v ===== *)
(** A topology that was accepted from the configuration alone stays accepted
    when neighbors are learned: what LLDP adds at run time can drop edges and
    give warnings, but [ResolveTopology] of [src/internal/device/topology.go]
    then never fails. *)
From stdpp Require Import gmap.
From S2P Require Import Prelude GoStrings GoNet GoMap Ports Topology.

(** ** Where a selected neighbor comes from *)
Section source.
Context `{UnicodeTables} `{MapOrderLaws}.

Definition from (raws : list TopologyNeighbor) (m : gmap bytes TopologyNeighbor) : Prop :=
  ∀ k n, m !! k = Some n → ∃ raw, raw ∈ raws ∧ tn_Source n = tn_Source raw.

Lemma upsert_from raws key n m raw :
  raw ∈ raws → tn_Source n = tn_Source raw → from raws m → from raws (upsert_neighbor key n m).
Proof.
  intros Hr Hs Hm k n'. unfold upsert_neighbor.
  destruct (m !! key) as [e|]; intros [[<- <-]|[_ Hk]]%lookup_insert_Some; eauto.
Qed.

Lemma classify_from raws all c l :
  (∀ raw, raw ∈ raws → raw ∈ all) → from all c → from all l →
  let '(c', l') := fold_left classify_neighbor raws (c, l) in from all c' ∧ from all l'.
Proof.
  revert c l. induction raws as [|raw raws IH]; intros c l Hr Hc Hl; cbn [fold_left]; [done|].
  unfold classify_neighbor at 2. destruct (normalizeTopologyNeighbor raw) as [n|] eqn:En.
  2: { apply IH; [|done..]. intros x Hx. apply Hr. by right. }
  assert (tn_Source n = tn_Source raw) as Hs.
  { unfold normalizeTopologyNeighbor in En. destruct (parse_mac _); [|done]. by injection En as <-. }
  case_decide; apply IH; try done; try (intros x Hx; apply Hr; by right).
  all: eapply upsert_from; [apply Hr; left|done..].
Qed.

Lemma resolve_source port ws n :
  resolvePortNeighbor port = Ok (ws, Some n) →
  ∃ raw, raw ∈ p_Neighbors port ∧ tn_Source n = tn_Source raw.
Proof.
  unfold resolvePortNeighbor, classify_neighbors.
  pose proof (classify_from (p_Neighbors port) (p_Neighbors port) ∅ ∅) as Hf.
  destruct (fold_left classify_neighbor _ _) as [c l].
  destruct Hf as [Hc Hl]; [done|by intros k x; rewrite lookup_empty..|].
  case_decide; [done|]. destruct (sortedTopologyKeys c) as [|key keys].
  - case_decide; [done|]. destruct (sortedTopologyKeys l) as [|k ks]; [done|].
    intros [= <- Hk]. by eapply Hl.
  - destruct (c !! key) as [m|] eqn:Em; [|done].
    pose proof (learned_range (p_Index port) l m) as Hr. destruct (fold_left _ _ _) as [m' ws'].
    destruct Hr as [-> _]. intros [= <- <-]. destruct (Hc key m Em) as (raw & Hraw & Hs).
    exists raw. split; [done|]. by destruct (l !! _).
Qed.
End source.

(** ** The loop over the edges *)
Section loop.
Context `{UnicodeTables}.

(** Two configured edges of one neighbor in different directions. *)
Definition clash (e f : TopologyEdge) : Prop :=
  edge_key e = edge_key f ∧ te_Direction e ≠ te_Direction f ∧
  topologySourcePriority (tn_Source (te_Neighbor e)) = topologySourcePriority (tn_Source (te_Neighbor f)) ∧
  1 < topologySourcePriority (tn_Source (te_Neighbor e)).

Definition indexed (es : list TopologyEdge) (st : conflict_state) : Prop :=
  ∀ k i, cs_byMAC st !! k = Some i → ∃ e, es !! i = Some e ∧ edge_key e = k.

Lemma indexed_insert (es : list TopologyEdge) (e : TopologyEdge) (n : nat) (m : gmap bytes nat) (k : bytes) (i : nat) :
  es !! n = Some e →
  (∀ (k : bytes) (i : nat), m !! k = Some i → ∃ e, es !! i = Some e ∧ edge_key e = k) →
  <[edge_key e := n]> m !! k = Some i → ∃ e, es !! i = Some e ∧ edge_key e = k.
Proof. intros He Hm [[<- <-]|[_ Hk]]%lookup_insert_Some; eauto. Qed.

Lemma step_ok es n e st :
  es !! n = Some e → indexed es st → (∀ f, f ∈ es → ¬ clash f e) →
  ∃ st', conflict_step es n e st = Ok st' ∧ indexed es st'.
Proof.
  intros He Hi Hc. unfold conflict_step. fold (neighbor_key (te_Neighbor e)). fold (edge_key e).
  destruct (cs_byMAC st !! edge_key e) as [i|] eqn:Ei.
  2: { eexists. split; [reflexivity|]. intros k j. cbn. by eapply indexed_insert. }
  destruct (Hi _ _ Ei) as (p & Hp & Hk). rewrite Hp. case_decide as Hd; [eauto|].
  destruct (_ =? _) eqn:E1; cbn [andb].
  { destruct (1 <? _) eqn:E2; [|eexists; split; [reflexivity|exact Hi]].
    exfalso. apply (Hc p); [by eapply list_elem_of_lookup_2|]. unfold clash. split_and!; try done; lia. }
  destruct (_ <? _); [eexists; split; [reflexivity|exact Hi]|].
  eexists. split; [reflexivity|]. intros k j. cbn. by eapply indexed_insert.
Qed.

Lemma drop_cons_lookup {A} n (es : list A) e rest : drop n es = e :: rest → es !! n = Some e ∧ drop (S n) es = rest.
Proof.
  intros Hd. split.
  - by rewrite <- (Nat.add_0_r n), <- lookup_drop, Hd.
  - replace (S n) with (n + 1)%nat by lia. by rewrite <- drop_drop, Hd.
Qed.

Lemma loop_ok es rest n st :
  drop n es = rest → indexed es st → (∀ e f, e ∈ es → f ∈ es → ¬ clash e f) →
  ∃ st', conflict_loop es n rest st = Ok st'.
Proof.
  intros Hd Hi Hc. revert n st Hd Hi. induction rest as [|e rest IH]; intros n st Hd Hi; cbn [conflict_loop]; [eauto|].
  apply drop_cons_lookup in Hd as [He Hd].
  destruct (step_ok es n e st He Hi) as (st' & -> & Hi').
  { intros f Hf. apply Hc; [done|]. by eapply list_elem_of_lookup_2. }
  cbn [mbind result_bind]. by apply IH.
Qed.

(** Every edge seen so far agrees with the one its neighbor is indexed under. *)
Definition agreed (es : list TopologyEdge) (n : nat) (st : conflict_state) : Prop :=
  ∀ j f, (j < n)%nat → es !! j = Some f →
    ∃ i e, cs_byMAC st !! edge_key f = Some i ∧ es !! i = Some e ∧ te_Direction e = te_Direction f.

Lemma step_agreed es n e st st' :
  Forall (λ e, topologySourcePriority (tn_Source (te_Neighbor e)) = 2) es →
  es !! n = Some e → indexed es st → agreed es n st → conflict_step es n e st = Ok st' →
  indexed es st' ∧ agreed es (S n) st'.
Proof.
  intros Hp He Hi Ha. unfold conflict_step. fold (neighbor_key (te_Neighbor e)). fold (edge_key e).
  destruct (cs_byMAC st !! edge_key e) as [i|] eqn:Ei.
  - destruct (Hi _ _ Ei) as (p & Ep & Hk). rewrite Ep. case_decide as Hdir.
    + intros [= <-]. split; [done|]. intros j f Hj Hf.
      destruct (decide (j = n)) as [->|]; [|apply (Ha j f); [lia|done]].
      assert (f = e) as -> by congruence. eauto.
    + eapply Forall_lookup_1 in Hp as Hpe; [|exact He]. eapply Forall_lookup_1 in Hp as Hpp; [|exact Ep].
      cbn in Hpe, Hpp. by rewrite Hpe, Hpp.
  - intros [= <-]. split; [intros k j; cbn; by eapply indexed_insert|].
    intros j f Hj Hf. cbn. destruct (decide (j = n)) as [->|].
    + assert (f = e) as -> by congruence. exists n, e. by rewrite lookup_insert_eq.
    + destruct (Ha j f) as (i & p & Hby & Hrest); [lia|done|]. exists i, p.
      rewrite lookup_insert_ne by congruence. done.
Qed.

Lemma loop_agreed es rest n st st' :
  Forall (λ e, topologySourcePriority (tn_Source (te_Neighbor e)) = 2) es →
  drop n es = rest → indexed es st → agreed es n st → conflict_loop es n rest st = Ok st' →
  agreed es (length es) st'.
Proof.
  intros Hp. revert n st. induction rest as [|e rest IH]; intros n st Hd Hi Ha; cbn [conflict_loop].
  { intros [= <-] j f Hj. apply Ha. apply (f_equal length) in Hd. rewrite length_drop in Hd. cbn in Hd. lia. }
  apply drop_cons_lookup in Hd as [He Hd]. intros Hl. inv_ok.
  destruct (step_agreed _ _ _ _ _ Hp He Hi Ha E). eapply IH; done.
Qed.

(** Configured edges that were accepted do not clash. *)
Lemma accepted_no_clash es ws r :
  Forall (λ e, topologySourcePriority (tn_Source (te_Neighbor e)) = 2) es →
  resolveDirectionConflicts (MkResolution es ws) = Ok r →
  ∀ e f, e ∈ es → f ∈ es → edge_key e = edge_key f → te_Direction e = te_Direction f.
Proof.
  intros Hp Hr e f [i He]%list_elem_of_lookup_1 [j Hf]%list_elem_of_lookup_1 Hk.
  unfold resolveDirectionConflicts in Hr. cbn [tr_Edges tr_Warnings] in Hr. inv_ok.
  apply loop_agreed in E; [|done..|].
  - destruct (E i e) as (x & p & Hx & Ex & <-); [by eapply lookup_lt_Some|done|].
    destruct (E j f) as (y & q & Hy & Ey & <-); [by eapply lookup_lt_Some|done|].
    rewrite Hk in Hx. congruence.
  - intros j' f' Hj. lia.
Qed.
End loop.

(** ** Accepted stays accepted *)
Section stable.
Context `{UnicodeTables} `{MapOrderLaws}.

Definition config_source (n : TopologyNeighbor) : Prop :=
  tn_Source n = NeighborSourceConfigUplink ∨ tn_Source n = NeighborSourceConfigPort.

(** The same port with the same configured neighbors. *)
Definition same_config (p0 p : Port) : Prop :=
  p_Index p = p_Index p0 ∧ p_Uplink p = p_Uplink p0 ∧
  keys_of false (p_Neighbors p) = keys_of false (p_Neighbors p0).

Lemma port_edges_total ports r :
  Forall (λ p, ∃ x, resolvePortNeighbor p = Ok x) ports → ∃ r', port_edges ports r = Ok r'.
Proof.
  intros Hp. revert r. induction Hp as [|p ports [[ws n] Hp] _ IH]; intros r; cbn [port_edges]; [eauto|].
  rewrite Hp. cbn [mbind result_bind]. destruct n; apply IH.
Qed.
Lemma port_edges_each ports r r' :
  port_edges ports r = Ok r' → Forall (λ p, ∃ x, resolvePortNeighbor p = Ok x) ports.
Proof.
  revert r. induction ports as [|p ports IH]; intros r; cbn [port_edges]; [constructor|].
  destruct (resolvePortNeighbor p) as [[ws [n|]]|] eqn:E; cbn [mbind result_bind]; [| |done];
    intros Hr; (constructor; [by eexists|by eapply IH]).
Qed.

Lemma same_config_resolves p0 p x :
  same_config p0 p → resolvePortNeighbor p0 = Ok x → ∃ y, resolvePortNeighbor p = Ok y.
Proof.
  intros (_ & _ & Hk) Hr0. pose proof (resolve_cases p0) as C0. pose proof (resolve_cases p) as C.
  cbv zeta in C0, C. rewrite Hk in C. rewrite Hr0 in C0.
  destruct (resolvePortNeighbor p) as [y|]; [by exists y|]. exfalso.
  destruct x as [ws [n|]].
  - destruct C0 as [(E & _)|(E & _)]; rewrite E, ?size_singleton, ?size_empty in C; lia.
  - destruct C0 as [E _]. rewrite E, size_empty in C. lia.
Qed.

(** A configured edge of the learned topology is an edge of the configured. *)
Lemma configured_edge p0 p e :
  same_config p0 p → Forall config_source (p_Neighbors p0) → offered p = Some e →
  1 < topologySourcePriority (tn_Source (te_Neighbor e)) →
  (∃ x, resolvePortNeighbor p0 = Ok x) →
  ∃ e0, offered p0 = Some e0 ∧ edge_key e0 = edge_key e ∧ te_Direction e0 = te_Direction e.
Proof.
  intros (_ & Hu & Hk) Hc Ho Hp [[ws0 o0] Hr0].
  pose proof (resolve_cases p0) as C0. pose proof (resolve_cases p) as C. cbv zeta in C0, C.
  unfold offered in *. destruct (resolvePortNeighbor p) as [[ws [n|]]|]; try done. injection Ho as <-.
  cbn in Hp. destruct C as [(E & _)|(_ & _ & El & _)].
  2: { apply bool_decide_eq_true in El. rewrite El in Hp. by vm_compute in Hp. }
  rewrite Hr0 in *. rewrite Hk in E. destruct o0 as [n0|].
  - destruct C0 as [(E0 & _)|(E0 & _)]; rewrite E0 in E; [|set_solver].
    apply singleton_inj in E. exists (edge_of p0 n0). cbn. by rewrite Hu.
  - destruct C0 as [E0 _]. rewrite E0 in E. set_solver.
Qed.

Lemma offered_priority p e :
  Forall config_source (p_Neighbors p) → offered p = Some e →
  topologySourcePriority (tn_Source (te_Neighbor e)) = 2.
Proof.
  intros Hc. unfold offered. destruct (resolvePortNeighbor p) as [[ws [n|]]|] eqn:E; try done.
  intros [= <-]. apply resolve_source in E as (raw & Hraw & Hs). cbn. rewrite Hs.
  eapply Forall_forall in Hc as [->| ->]; done.
Qed.

Lemma learned_topology_resolves ports0 ports r0 :
  Forall2 same_config ports0 ports → Forall (λ p, Forall config_source (p_Neighbors p)) ports0 →
  ResolveTopology ports0 = Ok r0 → ∃ r, ResolveTopology ports = Ok r.
Proof.
  intros Hs Hc Hr0. unfold ResolveTopology in *. inv_ok. rename a into a0, E into E0.
  pose proof (port_edges_each _ _ _ E0) as Heach.
  destruct (port_edges_total ports (MkResolution [] [])) as [r Er].
  { apply Forall_forall. intros p [i Hi]%list_elem_of_lookup_1.
    destruct (Forall2_lookup_r _ _ _ _ _ Hs Hi) as (p0 & Hp0 & Hsc).
    eapply Forall_lookup_1 in Heach as [x Hx]; [|exact Hp0]. by eapply same_config_resolves. }
  rewrite Er. cbn [mbind result_bind].
  apply port_edges_offered in E0 as Ee0, Er as Ee. cbn [tr_Edges app] in Ee0, Ee.
  assert (Forall (λ e, topologySourcePriority (tn_Source (te_Neighbor e)) = 2) (tr_Edges a0)) as Hp0.
  { rewrite Ee0. apply Forall_forall. intros e (p & Hp & Ho)%list_elem_of_omap.
    eapply offered_priority; [|exact Ho]. by eapply Forall_forall in Hc. }
  assert (∀ e f, e ∈ tr_Edges a0 → f ∈ tr_Edges a0 → edge_key e = edge_key f →
    te_Direction e = te_Direction f) as Hno.
  { destruct a0 as [es ws]. by eapply accepted_no_clash. }
  assert (∀ e, e ∈ tr_Edges r → 1 < topologySourcePriority (tn_Source (te_Neighbor e)) →
    ∃ e0, e0 ∈ tr_Edges a0 ∧ edge_key e0 = edge_key e ∧ te_Direction e0 = te_Direction e) as Hmap.
  { intros e He Hpr. rewrite Ee in He. apply list_elem_of_omap in He as (p & Hp & Ho).
    apply list_elem_of_lookup_1 in Hp as [i Hi].
    destruct (Forall2_lookup_r _ _ _ _ _ Hs Hi) as (p0 & Hi0 & Hsc).
    destruct (configured_edge p0 p e) as (e0 & Ho0 & ?); try done.
    - eapply Forall_lookup_1 in Hc; done.
    - eapply Forall_lookup_1 in Heach; done.
    - exists e0. split; [|done]. rewrite Ee0. apply list_elem_of_omap. exists p0.
      split; [by eapply list_elem_of_lookup_2|done]. }
  unfold resolveDirectionConflicts.
  destruct (loop_ok (tr_Edges r) (tr_Edges r) 0 (MkConflict ∅ (map (λ _, true) (tr_Edges r)) (tr_Warnings r)))
    as [st' ->]; [done|intros k i; cbn; by rewrite lookup_empty| |by eexists].
  intros e f He Hf (Hk & Hd & Hpr & Hgt). apply Hd.
  destruct (Hmap e He Hgt) as (e0 & He0 & Hk0 & <-).
  destruct (Hmap f Hf) as (f0 & Hf0 & Hkf & <-); [by rewrite <- Hpr|].
  apply Hno; [done..|congruence].
Qed.
End stable.
