(* ===== verification/PayloadTypes.v ===== *)
(** The rows and roots of the inform payload: the struct types of
    [src/internal/device/payload] ([base.go], [fragments.go], [topology.go],
    [switch.go], [gateway_types.go], [telemetry_types.go]) with what
    [encoding/json] makes of them.

    A JSON document is a tree; members keep their order.  A struct is its list
    of fields with their depth of embedding; [json_struct] applies the rule for
    equal names, the shallowest wins and two of the same depth annihilate each
    other.  The rule looks at the type, so it comes before an empty field is
    left out.  A pointer, and a slice that can be nil, is an option; the
    [*_fields] functions are the tags. *)
From S2P Require Import Prelude GoStrings GoFloat Ports.

(** ** JSON values *)
Inductive json :=
| JNull
| JBool (b : bool)
| JInt (z : Z)
| JFloat (f : float64)
| JText (s : bytes)
| JList (l : list json)
| JObject (members : list (bytes * json)).

Section json_ind.
Variable P : json → Prop.
Hypotheses (null : P JNull) (bool : ∀ b, P (JBool b)) (int : ∀ z, P (JInt z)) (float : ∀ f, P (JFloat f))
  (text : ∀ s, P (JText s)) (elements : ∀ l, Forall P l → P (JList l))
  (object : ∀ l, Forall (P ∘ snd) l → P (JObject l)).
Fixpoint json_ind' (j : json) : P j :=
  match j with
  | JNull => null
  | JBool b => bool b
  | JInt z => int z
  | JFloat f => float f
  | JText s => text s
  | JList l =>
      elements l ((fix go (l : list json) : Forall P l :=
        match l with [] => Forall_nil_2 _ | v :: rest => Forall_cons_2 _ _ _ (json_ind' v) (go rest) end) l)
  | JObject l =>
      object l ((fix go (l : list (bytes * json)) : Forall (P ∘ snd) l :=
        match l with [] => Forall_nil_2 _ | p :: rest => Forall_cons_2 _ p _ (json_ind' p.2) (go rest) end) l)
  end.
End json_ind.

(** One field of a struct type; [None] if [omitempty] leaves it out. *)
Record json_field := MkJsonField { jf_depth : nat; jf_name : bytes; jf_value : option json }.
Definition field (name : String.string) (v : json) : json_field := MkJsonField 0 (B name) (Some v).
Arguments field name%_stdpp_scope v.
Definition field_omit {A} (name : String.string) (empty : A → bool) (enc : A → json) (a : A) : json_field :=
  MkJsonField 0 (B name) (if empty a then None else Some (enc a)).
Arguments field_omit {A} name%_stdpp_scope empty enc a.
Definition embed (fields : list json_field) : list json_field :=
  map (λ f, MkJsonField (S (jf_depth f)) (jf_name f) (jf_value f)) fields.

(** A field is kept unless another one of its name is as shallow. *)
Definition dominant (fields : list json_field) (f : json_field) : bool :=
  (length (filter (λ g, jf_name g = jf_name f ∧ (jf_depth g ≤ jf_depth f)%nat) fields) =? 1)%nat.
Definition json_members (fields : list json_field) : list (bytes * json) :=
  omap (λ f, if dominant fields f then v ← jf_value f; Some (jf_name f, v) else None) fields.
Definition json_struct (fields : list json_field) : json := JObject (json_members fields).

Definition is_empty {A} (l : list A) : bool := match l with [] => true | _ => false end.
Definition is_zero (z : Z) : bool := z =? 0.
Definition is_nil {A} (p : option A) : bool := match p with None => true | _ => false end.
Definition json_pointer {A} (enc : A → json) (p : option A) : json :=
  match p with Some a => enc a | None => JNull end.
Definition json_list {A} (enc : A → json) (l : list A) : json := JList (map enc l).
Definition json_map {A} (enc : A → json) (l : list (bytes * A)) : json :=
  JObject (map (λ e, (e.1, enc e.2)) l).
Definition json_empty (x : unit) : json := JObject [].

(** ** port_types.go *)
Definition MacTableEntry_fields (x : MacTableEntry) : list json_field :=
  [field "mac" (JText (me_MAC x));
   field_omit "hostname" is_empty JText (me_Hostname x);
   field_omit "ip" is_empty JText (me_IP x);
   field "age" (JInt (me_Age x));
   field "uptime" (JInt (me_Uptime x));
   field_omit "vlan" is_zero JInt (me_VLAN x);
   field_omit "static" negb JBool (me_Static x);
   field_omit "type" is_empty JText (me_Type x)].
Definition MacTableEntry_json (x : MacTableEntry) : json := json_struct (MacTableEntry_fields x).

(** ** base.go *)
Record basePayload := MkBasePayload {
  bp_MAC : bytes; bp_IP : bytes; bp_Hostname : bytes; bp_Model : bytes; bp_ModelDisplay : bytes;
  bp_Type : bytes; bp_Version : bytes; bp_Serial : bytes; bp_NumPort : Z; bp_State : Z; bp_Adopted : bool;
  bp_Default : bool; bp_DiscoveryResponse : bool; bp_RequiredVersion : bytes; bp_CFGVersion : bytes;
  bp_Uptime : Z; bp_Time : Z; bp_InformURL : bytes; bp_ManagementVLAN : Z; bp_InformIP : bytes;
}.
Definition basePayload_fields (x : basePayload) : list json_field :=
  [field "mac" (JText (bp_MAC x));
   field "ip" (JText (bp_IP x));
   field "hostname" (JText (bp_Hostname x));
   field "model" (JText (bp_Model x));
   field "model_display" (JText (bp_ModelDisplay x));
   field "type" (JText (bp_Type x));
   field "version" (JText (bp_Version x));
   field "serial" (JText (bp_Serial x));
   field "num_port" (JInt (bp_NumPort x));
   field "state" (JInt (bp_State x));
   field "adopted" (JBool (bp_Adopted x));
   field "default" (JBool (bp_Default x));
   field "discovery_response" (JBool (bp_DiscoveryResponse x));
   field "required_version" (JText (bp_RequiredVersion x));
   field "cfgversion" (JText (bp_CFGVersion x));
   field "uptime" (JInt (bp_Uptime x));
   field "time" (JInt (bp_Time x));
   field "inform_url" (JText (bp_InformURL x));
   field_omit "management_vlan" is_zero JInt (bp_ManagementVLAN x);
   field_omit "inform_ip" is_empty JText (bp_InformIP x)].

(** ** fragments.go *)
Record linkFields := MkLinkFields {
  lf_Speed : Z; lf_MaxSpeed : Z; lf_SpeedCaps : option (list Z); lf_Media : bytes;
}.
Definition linkFields_fields (x : linkFields) : list json_field :=
  [field "speed" (JInt (lf_Speed x));
   field "max_speed" (JInt (lf_MaxSpeed x));
   field "speed_caps" (json_pointer (json_list JInt) (lf_SpeedCaps x));
   field "media" (JText (lf_Media x))].

Record counterFields := MkCounterFields {
  cf_RXBytes : option Z; cf_TXBytes : option Z; cf_RXPackets : option Z; cf_TXPackets : option Z;
  cf_RXErrors : option Z; cf_TXErrors : option Z;
}.
Definition counterFields_fields (x : counterFields) : list json_field :=
  [field_omit "rx_bytes" is_nil (json_pointer JInt) (cf_RXBytes x);
   field_omit "tx_bytes" is_nil (json_pointer JInt) (cf_TXBytes x);
   field_omit "rx_packets" is_nil (json_pointer JInt) (cf_RXPackets x);
   field_omit "tx_packets" is_nil (json_pointer JInt) (cf_TXPackets x);
   field_omit "rx_errors" is_nil (json_pointer JInt) (cf_RXErrors x);
   field_omit "tx_errors" is_nil (json_pointer JInt) (cf_TXErrors x)].

Record optionalRateFields := MkOptionalRateFields {
  orf_BytesRate : option Z; orf_RXBytesRate : option Z; orf_TXBytesRate : option Z;
}.
Definition optionalRateFields_fields (x : optionalRateFields) : list json_field :=
  [field_omit "bytes-r" is_nil (json_pointer JInt) (orf_BytesRate x);
   field_omit "rx_bytes-r" is_nil (json_pointer JInt) (orf_RXBytesRate x);
   field_omit "tx_bytes-r" is_nil (json_pointer JInt) (orf_TXBytesRate x)].

Record gatewayRateFields := MkGatewayRateFields {
  grf_RXRate : option Z; grf_TXRate : option Z;
}.
Definition gatewayRateFields_fields (x : gatewayRateFields) : list json_field :=
  [field_omit "rx_rate" is_nil (json_pointer JInt) (grf_RXRate x);
   field_omit "tx_rate" is_nil (json_pointer JInt) (grf_TXRate x)].

(** ** topology.go *)
Record lldpRow := MkLldpRow {
  ll_ChassisID : bytes; ll_IsWired : bool; ll_LocalPortIdx : Z; ll_LocalPortName : bytes; ll_PortID : bytes;
}.
Definition lldpRow_fields (x : lldpRow) : list json_field :=
  [field "chassis_id" (JText (ll_ChassisID x));
   field "is_wired" (JBool (ll_IsWired x));
   field "local_port_idx" (JInt (ll_LocalPortIdx x));
   field "local_port_name" (JText (ll_LocalPortName x));
   field_omit "port_id" is_empty JText (ll_PortID x)].
Definition lldpRow_json (x : lldpRow) : json := json_struct (lldpRow_fields x).

(** ** switch.go *)
Record switchInterfaceRow := MkSwitchInterfaceRow {
  swi_Name : bytes; swi_MAC : bytes; swi_IP : bytes; swi_NumPort : Z; swi_Up : bool; swi_Speed : Z;
  swi_FullDuplex : bool; swi_VLAN : Z; swi_ManagementVLAN : Z; swi_counterFields : counterFields;
  swi_optionalRateFields : optionalRateFields; swi_gatewayRateFields : gatewayRateFields;
}.
Definition switchInterfaceRow_fields (x : switchInterfaceRow) : list json_field :=
  [field "name" (JText (swi_Name x));
   field "mac" (JText (swi_MAC x));
   field "ip" (JText (swi_IP x));
   field "num_port" (JInt (swi_NumPort x));
   field "up" (JBool (swi_Up x));
   field "speed" (JInt (swi_Speed x));
   field "full_duplex" (JBool (swi_FullDuplex x));
   field_omit "vlan" is_zero JInt (swi_VLAN x);
   field_omit "management_vlan" is_zero JInt (swi_ManagementVLAN x)] ++
  embed (counterFields_fields (swi_counterFields x)) ++
  embed (optionalRateFields_fields (swi_optionalRateFields x)) ++
  embed (gatewayRateFields_fields (swi_gatewayRateFields x)).
Definition switchInterfaceRow_json (x : switchInterfaceRow) : json := json_struct (switchInterfaceRow_fields x).

Record switchEthernetRow := MkSwitchEthernetRow {
  swe_Name : bytes; swe_MAC : bytes; swe_NumPort : option Z;
}.
Definition switchEthernetRow_fields (x : switchEthernetRow) : list json_field :=
  [field "name" (JText (swe_Name x));
   field "mac" (JText (swe_MAC x));
   field_omit "num_port" is_nil (json_pointer JInt) (swe_NumPort x)].
Definition switchEthernetRow_json (x : switchEthernetRow) : json := json_struct (switchEthernetRow_fields x).

Record switchLastConnection := MkSwitchLastConnection {
  slc_Connected : bool; slc_MAC : bytes; slc_IP : bytes; slc_Hostname : bytes; slc_Type : bytes;
}.
Definition switchLastConnection_fields (x : switchLastConnection) : list json_field :=
  [field "connected" (JBool (slc_Connected x));
   field "mac" (JText (slc_MAC x));
   field_omit "ip" is_empty JText (slc_IP x);
   field_omit "hostname" is_empty JText (slc_Hostname x);
   field_omit "type" is_empty JText (slc_Type x)].
Definition switchLastConnection_json (x : switchLastConnection) : json := json_struct (switchLastConnection_fields x).

Record switchPortRow := MkSwitchPortRow {
  swp_PortIdx : Z; swp_IfName : bytes; swp_Name : bytes; swp_Enable : bool; swp_Up : bool; swp_IsUplink : bool;
  swp_OpMode : bytes; swp_FullDuplex : bool; swp_Autoneg : bool; swp_FlowctrlRX : bool; swp_FlowctrlTX : bool;
  swp_PortPOE : bool; swp_POEEnable : bool; swp_POECaps : Z; swp_Satisfaction : Z; swp_STPState : bytes;
  swp_STPPathcost : Z; swp_MACTable : list MacTableEntry; swp_LastConnection : option switchLastConnection;
  swp_linkFields : linkFields; swp_counterFields : counterFields; swp_optionalRateFields : optionalRateFields;
  swp_gatewayRateFields : gatewayRateFields; swp_SourceInterface : bytes;
}.
Definition switchPortRow_fields (x : switchPortRow) : list json_field :=
  [field "port_idx" (JInt (swp_PortIdx x));
   field "ifname" (JText (swp_IfName x));
   field "name" (JText (swp_Name x));
   field "enable" (JBool (swp_Enable x));
   field "up" (JBool (swp_Up x));
   field "is_uplink" (JBool (swp_IsUplink x));
   field "op_mode" (JText (swp_OpMode x));
   field "full_duplex" (JBool (swp_FullDuplex x));
   field "autoneg" (JBool (swp_Autoneg x));
   field "flowctrl_rx" (JBool (swp_FlowctrlRX x));
   field "flowctrl_tx" (JBool (swp_FlowctrlTX x));
   field "port_poe" (JBool (swp_PortPOE x));
   field "poe_enable" (JBool (swp_POEEnable x));
   field "poe_caps" (JInt (swp_POECaps x));
   field "satisfaction" (JInt (swp_Satisfaction x));
   field "stp_state" (JText (swp_STPState x));
   field "stp_pathcost" (JInt (swp_STPPathcost x));
   field "mac_table" (json_list MacTableEntry_json (swp_MACTable x));
   field "last_connection" (json_pointer switchLastConnection_json (swp_LastConnection x))] ++
  embed (linkFields_fields (swp_linkFields x)) ++
  embed (counterFields_fields (swp_counterFields x)) ++
  embed (optionalRateFields_fields (swp_optionalRateFields x)) ++
  embed (gatewayRateFields_fields (swp_gatewayRateFields x)) ++
  [field_omit "source_interface" is_empty JText (swp_SourceInterface x)].
Definition switchPortRow_json (x : switchPortRow) : json := json_struct (switchPortRow_fields x).

Record switchLastUplinkRow := MkSwitchLastUplinkRow {
  slu_PortIdx : Z; slu_UplinkMAC : bytes; slu_UplinkRemotePort : Z; slu_Type : bytes;
}.
Definition switchLastUplinkRow_fields (x : switchLastUplinkRow) : list json_field :=
  [field "port_idx" (JInt (slu_PortIdx x));
   field "uplink_mac" (JText (slu_UplinkMAC x));
   field_omit "uplink_remote_port" is_zero JInt (slu_UplinkRemotePort x);
   field "type" (JText (slu_Type x))].
Definition switchLastUplinkRow_json (x : switchLastUplinkRow) : json := json_struct (switchLastUplinkRow_fields x).

Record switchTrafficSummary := MkSwitchTrafficSummary {
  sts_Bytes : option Z; sts_RXBytes : option Z; sts_TXBytes : option Z; sts_BytesRate : option Z;
  sts_RXBytesRate : option Z; sts_TXBytesRate : option Z; sts_RXRate : option Z; sts_TXRate : option Z;
}.
Definition switchTrafficSummary_fields (x : switchTrafficSummary) : list json_field :=
  [field_omit "bytes" is_nil (json_pointer JInt) (sts_Bytes x);
   field_omit "rx_bytes" is_nil (json_pointer JInt) (sts_RXBytes x);
   field_omit "tx_bytes" is_nil (json_pointer JInt) (sts_TXBytes x);
   field_omit "bytes-r" is_nil (json_pointer JInt) (sts_BytesRate x);
   field_omit "rx_bytes-r" is_nil (json_pointer JInt) (sts_RXBytesRate x);
   field_omit "tx_bytes-r" is_nil (json_pointer JInt) (sts_TXBytesRate x);
   field_omit "rx_rate" is_nil (json_pointer JInt) (sts_RXRate x);
   field_omit "tx_rate" is_nil (json_pointer JInt) (sts_TXRate x)].

Record switchPayload := MkSwitchPayload {
  swr_basePayload : basePayload; swr_switchTrafficSummary : switchTrafficSummary;
  swr_IfTable : list switchInterfaceRow; swr_EthernetTable : list switchEthernetRow;
  swr_PortTable : list switchPortRow; swr_Uplink : bytes; swr_LastUplink : option switchLastUplinkRow;
  swr_LLDPTable : list lldpRow;
}.
Definition switchPayload_fields (x : switchPayload) : list json_field :=
  embed (basePayload_fields (swr_basePayload x)) ++
  embed (switchTrafficSummary_fields (swr_switchTrafficSummary x)) ++
  [field "if_table" (json_list switchInterfaceRow_json (swr_IfTable x));
   field "ethernet_table" (json_list switchEthernetRow_json (swr_EthernetTable x));
   field "port_table" (json_list switchPortRow_json (swr_PortTable x));
   field "uplink" (JText (swr_Uplink x));
   field_omit "last_uplink" is_nil (json_pointer switchLastUplinkRow_json) (swr_LastUplink x);
   field "lldp_table" (json_list lldpRow_json (swr_LLDPTable x))].
Definition switchPayload_json (x : switchPayload) : json := json_struct (switchPayload_fields x).

(** ** gateway_types.go *)
Record gatewayTrafficSummary := MkGatewayTrafficSummary {
  gts_Bytes : option Z; gts_RXBytes : option Z; gts_TXBytes : option Z; gts_BytesRate : option Z;
  gts_RXBytesRate : option Z; gts_TXBytesRate : option Z; gts_RXRate : option Z; gts_TXRate : option Z;
}.
Definition gatewayTrafficSummary_fields (x : gatewayTrafficSummary) : list json_field :=
  [field_omit "bytes" is_nil (json_pointer JInt) (gts_Bytes x);
   field_omit "rx_bytes" is_nil (json_pointer JInt) (gts_RXBytes x);
   field_omit "tx_bytes" is_nil (json_pointer JInt) (gts_TXBytes x);
   field_omit "bytes-r" is_nil (json_pointer JInt) (gts_BytesRate x);
   field_omit "rx_bytes-r" is_nil (json_pointer JInt) (gts_RXBytesRate x);
   field_omit "tx_bytes-r" is_nil (json_pointer JInt) (gts_TXBytesRate x);
   field_omit "rx_rate" is_nil (json_pointer JInt) (gts_RXRate x);
   field_omit "tx_rate" is_nil (json_pointer JInt) (gts_TXRate x)].

Record gatewayEthernetTableRow := MkGatewayEthernetTableRow {
  get_MAC : bytes; get_PortIdx : Z; get_NumPort : Z; get_Name : bytes; get_IfName : bytes; get_Media : bytes;
  get_PortPOE : bool; get_SpeedCaps : Z;
}.
Definition gatewayEthernetTableRow_fields (x : gatewayEthernetTableRow) : list json_field :=
  [field "mac" (JText (get_MAC x));
   field "port_idx" (JInt (get_PortIdx x));
   field "num_port" (JInt (get_NumPort x));
   field "name" (JText (get_Name x));
   field_omit "ifname" is_empty JText (get_IfName x);
   field_omit "media" is_empty JText (get_Media x);
   field "port_poe" (JBool (get_PortPOE x));
   field_omit "speed_caps" is_zero JInt (get_SpeedCaps x)].
Definition gatewayEthernetTableRow_json (x : gatewayEthernetTableRow) : json := json_struct (gatewayEthernetTableRow_fields x).

Record gatewayLastConnection := MkGatewayLastConnection {
  glc_MAC : bytes; glc_Source : bytes; glc_IP : bytes; glc_Hostname : bytes; glc_Type : bytes;
}.
Definition gatewayLastConnection_fields (x : gatewayLastConnection) : list json_field :=
  [field "mac" (JText (glc_MAC x));
   field "source" (JText (glc_Source x));
   field_omit "ip" is_empty JText (glc_IP x);
   field_omit "hostname" is_empty JText (glc_Hostname x);
   field_omit "type" is_empty JText (glc_Type x)].
Definition gatewayLastConnection_json (x : gatewayLastConnection) : json := json_struct (gatewayLastConnection_fields x).

Record connectionFields := MkConnectionFields {
  cn_Connected : bool; cn_LastConnection : option gatewayLastConnection;
}.
Definition connectionFields_fields (x : connectionFields) : list json_field :=
  [field "connected" (JBool (cn_Connected x));
   field "last_connection" (json_pointer gatewayLastConnection_json (cn_LastConnection x))].

Record gatewayIfRow := MkGatewayIfRow {
  gif_Name : bytes; gif_IfName : bytes; gif_Comment : bytes; gif_PortIdx : Z; gif_MAC : bytes; gif_IP : bytes;
  gif_Netmask : bytes; gif_IPv6 : list bytes; gif_NumPort : Z; gif_Up : bool; gif_Enable : bool;
  gif_NetworkGroup : bytes; gif_FullDuplex : bool; gif_PhysicalPorts : list Z; gif_VLAN : Z;
  gif_ManagementVLAN : Z; gif_linkFields : linkFields; gif_counterFields : counterFields;
  gif_optionalRateFields : optionalRateFields; gif_gatewayRateFields : gatewayRateFields;
  gif_SourceInterface : bytes; gif_connectionFields : connectionFields;
}.
Definition gatewayIfRow_fields (x : gatewayIfRow) : list json_field :=
  [field "name" (JText (gif_Name x));
   field "ifname" (JText (gif_IfName x));
   field "comment" (JText (gif_Comment x));
   field "port_idx" (JInt (gif_PortIdx x));
   field "mac" (JText (gif_MAC x));
   field "ip" (JText (gif_IP x));
   field "netmask" (JText (gif_Netmask x));
   field_omit "ipv6" is_empty (json_list JText) (gif_IPv6 x);
   field "num_port" (JInt (gif_NumPort x));
   field "up" (JBool (gif_Up x));
   field "enable" (JBool (gif_Enable x));
   field "networkgroup" (JText (gif_NetworkGroup x));
   field "full_duplex" (JBool (gif_FullDuplex x));
   field "physical_ports" (json_list JInt (gif_PhysicalPorts x));
   field_omit "vlan" is_zero JInt (gif_VLAN x);
   field_omit "management_vlan" is_zero JInt (gif_ManagementVLAN x)] ++
  embed (linkFields_fields (gif_linkFields x)) ++
  embed (counterFields_fields (gif_counterFields x)) ++
  embed (optionalRateFields_fields (gif_optionalRateFields x)) ++
  embed (gatewayRateFields_fields (gif_gatewayRateFields x)) ++
  [field_omit "source_interface" is_empty JText (gif_SourceInterface x)] ++
  embed (connectionFields_fields (gif_connectionFields x)).
Definition gatewayIfRow_json (x : gatewayIfRow) : json := json_struct (gatewayIfRow_fields x).

Record gatewayNetworkStats := MkGatewayNetworkStats {
  gns_counterFields : counterFields; gns_optionalRateFields : optionalRateFields;
  gns_gatewayRateFields : gatewayRateFields;
}.
Definition gatewayNetworkStats_fields (x : gatewayNetworkStats) : list json_field :=
  embed (counterFields_fields (gns_counterFields x)) ++
  embed (optionalRateFields_fields (gns_optionalRateFields x)) ++
  embed (gatewayRateFields_fields (gns_gatewayRateFields x)).
Definition gatewayNetworkStats_json (x : gatewayNetworkStats) : json := json_struct (gatewayNetworkStats_fields x).

Record gatewayHostRow := MkGatewayHostRow {
  gh_MAC : bytes; gh_Age : Z; gh_Authorized : bool; gh_Uptime : Z; gh_Hostname : bytes; gh_IP : bytes;
  gh_Type : bytes; gh_VLAN : Z; gh_Static : bool;
}.
Definition gatewayHostRow_fields (x : gatewayHostRow) : list json_field :=
  [field "mac" (JText (gh_MAC x));
   field "age" (JInt (gh_Age x));
   field "authorized" (JBool (gh_Authorized x));
   field "uptime" (JInt (gh_Uptime x));
   field_omit "hostname" is_empty JText (gh_Hostname x);
   field_omit "ip" is_empty JText (gh_IP x);
   field_omit "type" is_empty JText (gh_Type x);
   field_omit "vlan" is_zero JInt (gh_VLAN x);
   field_omit "static" negb JBool (gh_Static x)].
Definition gatewayHostRow_json (x : gatewayHostRow) : json := json_struct (gatewayHostRow_fields x).

Record gatewayNetworkRow := MkGatewayNetworkRow {
  gnr_Name : bytes; gnr_IfName : bytes; gnr_GatewayInterfaceName : bytes; gnr_PortIdx : Z; gnr_MAC : bytes;
  gnr_NetworkGroup : bytes; gnr_IP : bytes; gnr_Netmask : bytes; gnr_Address : bytes;
  gnr_Addresses : list bytes; gnr_Up : bytes; gnr_L1Up : bytes; gnr_Autoneg : bytes; gnr_Duplex : bytes;
  gnr_Speed : bytes; gnr_MaxSpeed : bytes; gnr_MTU : bytes; gnr_Stats : gatewayNetworkStats;
  gnr_SourceInterface : bytes; gnr_connectionFields : connectionFields; gnr_HostTable : list gatewayHostRow;
}.
Definition gatewayNetworkRow_fields (x : gatewayNetworkRow) : list json_field :=
  [field "name" (JText (gnr_Name x));
   field "ifname" (JText (gnr_IfName x));
   field_omit "gateway_interface_name" is_empty JText (gnr_GatewayInterfaceName x);
   field "port_idx" (JInt (gnr_PortIdx x));
   field "mac" (JText (gnr_MAC x));
   field "networkgroup" (JText (gnr_NetworkGroup x));
   field "ip" (JText (gnr_IP x));
   field "netmask" (JText (gnr_Netmask x));
   field "address" (JText (gnr_Address x));
   field "addresses" (json_list JText (gnr_Addresses x));
   field "up" (JText (gnr_Up x));
   field "l1up" (JText (gnr_L1Up x));
   field "autoneg" (JText (gnr_Autoneg x));
   field "duplex" (JText (gnr_Duplex x));
   field "speed" (JText (gnr_Speed x));
   field "max_speed" (JText (gnr_MaxSpeed x));
   field "mtu" (JText (gnr_MTU x));
   field "stats" (gatewayNetworkStats_json (gnr_Stats x));
   field_omit "source_interface" is_empty JText (gnr_SourceInterface x)] ++
  embed (connectionFields_fields (gnr_connectionFields x)) ++
  [field_omit "host_table" is_empty (json_list gatewayHostRow_json) (gnr_HostTable x)].
Definition gatewayNetworkRow_json (x : gatewayNetworkRow) : json := json_struct (gatewayNetworkRow_fields x).

Record gatewayConfigNetworkRow := MkGatewayConfigNetworkRow {
  gcn_Type : bytes; gcn_Name : bytes; gcn_IfName : bytes; gcn_PortIdx : Z; gcn_NetworkGroup : bytes;
  gcn_UplinkIfName : bytes; gcn_IP : option bytes; gcn_Netmask : option bytes; gcn_Speed : option bytes;
  gcn_Autoneg : option bool; gcn_FullDuplex : option bool; gcn_DHCPOptions : list unit;
}.
Definition gatewayConfigNetworkRow_fields (x : gatewayConfigNetworkRow) : list json_field :=
  [field "type" (JText (gcn_Type x));
   field_omit "name" is_empty JText (gcn_Name x);
   field_omit "ifname" is_empty JText (gcn_IfName x);
   field_omit "port_idx" is_zero JInt (gcn_PortIdx x);
   field_omit "networkgroup" is_empty JText (gcn_NetworkGroup x);
   field_omit "uplink_ifname" is_empty JText (gcn_UplinkIfName x);
   field_omit "ip" is_nil (json_pointer JText) (gcn_IP x);
   field_omit "netmask" is_nil (json_pointer JText) (gcn_Netmask x);
   field_omit "speed" is_nil (json_pointer JText) (gcn_Speed x);
   field_omit "autoneg" is_nil (json_pointer JBool) (gcn_Autoneg x);
   field_omit "full_duplex" is_nil (json_pointer JBool) (gcn_FullDuplex x);
   field "dhcp_options" (json_list json_empty (gcn_DHCPOptions x))].
Definition gatewayConfigNetworkRow_json (x : gatewayConfigNetworkRow) : json := json_struct (gatewayConfigNetworkRow_fields x).

Record gatewayConfigLANRow := MkGatewayConfigLANRow {
  gcl_Name : bytes; gcl_IfName : bytes; gcl_PortIdx : Z; gcl_NetworkGroup : bytes; gcl_IP : option bytes;
  gcl_Netmask : option bytes; gcl_UplinkIfName : bytes; gcl_NetworkConfID : bytes;
  gcl_NativeNetworkConfID : bytes; gcl_NetworkName : bytes; gcl_DHCPEnabled : bool; gcl_DHCPRangeStart : bytes;
  gcl_DHCPRangeStop : bytes; gcl_CIDR : bytes; gcl_VLAN : Z;
}.
Definition gatewayConfigLANRow_fields (x : gatewayConfigLANRow) : list json_field :=
  [field_omit "name" is_empty JText (gcl_Name x);
   field_omit "ifname" is_empty JText (gcl_IfName x);
   field_omit "port_idx" is_zero JInt (gcl_PortIdx x);
   field_omit "networkgroup" is_empty JText (gcl_NetworkGroup x);
   field_omit "ip" is_nil (json_pointer JText) (gcl_IP x);
   field_omit "netmask" is_nil (json_pointer JText) (gcl_Netmask x);
   field_omit "uplink_ifname" is_empty JText (gcl_UplinkIfName x);
   field_omit "networkconf_id" is_empty JText (gcl_NetworkConfID x);
   field_omit "native_networkconf_id" is_empty JText (gcl_NativeNetworkConfID x);
   field_omit "network_name" is_empty JText (gcl_NetworkName x);
   field "dhcp_enabled" (JBool (gcl_DHCPEnabled x));
   field "dhcp_range_start" (JText (gcl_DHCPRangeStart x));
   field "dhcp_range_stop" (JText (gcl_DHCPRangeStop x));
   field "cidr" (JText (gcl_CIDR x));
   field "vlan" (JInt (gcl_VLAN x))].
Definition gatewayConfigLANRow_json (x : gatewayConfigLANRow) : json := json_struct (gatewayConfigLANRow_fields x).

Record gatewayWANInventoryRow := MkGatewayWANInventoryRow {
  gwi_Enabled : bool; gwi_Interface : bytes; gwi_IPv4 : bytes; gwi_IPv6 : list bytes; gwi_MAC : bytes;
  gwi_Plugged : bool; gwi_Port : Z; gwi_Type : bytes;
}.
Definition gatewayWANInventoryRow_fields (x : gatewayWANInventoryRow) : list json_field :=
  [field "enabled" (JBool (gwi_Enabled x));
   field "interface" (JText (gwi_Interface x));
   field_omit "ipv4" is_empty JText (gwi_IPv4 x);
   field_omit "ipv6" is_empty (json_list JText) (gwi_IPv6 x);
   field "mac" (JText (gwi_MAC x));
   field "plugged" (JBool (gwi_Plugged x));
   field "port" (JInt (gwi_Port x));
   field "type" (JText (gwi_Type x))].
Definition gatewayWANInventoryRow_json (x : gatewayWANInventoryRow) : json := json_struct (gatewayWANInventoryRow_fields x).

Record gatewayAssignmentFields := MkGatewayAssignmentFields {
  ga_PortConfID : bytes; ga_NetworkConfID : bytes; ga_NativeNetworkConfID : bytes; ga_NetworkName : bytes;
  ga_VLAN : Z;
}.
Definition gatewayAssignmentFields_fields (x : gatewayAssignmentFields) : list json_field :=
  [field_omit "portconf_id" is_empty JText (ga_PortConfID x);
   field_omit "networkconf_id" is_empty JText (ga_NetworkConfID x);
   field_omit "native_networkconf_id" is_empty JText (ga_NativeNetworkConfID x);
   field_omit "network_name" is_empty JText (ga_NetworkName x);
   field_omit "vlan" is_zero JInt (ga_VLAN x)].

Record gatewayPortLinkFields := MkGatewayPortLinkFields {
  gpl_Speed : Z; gpl_MaxSpeed : Z; gpl_SpeedCaps : Z; gpl_Media : bytes;
}.
Definition gatewayPortLinkFields_fields (x : gatewayPortLinkFields) : list json_field :=
  [field "speed" (JInt (gpl_Speed x));
   field_omit "max_speed" is_zero JInt (gpl_MaxSpeed x);
   field "speed_caps" (JInt (gpl_SpeedCaps x));
   field "media" (JText (gpl_Media x))].

Record gatewayPortRow := MkGatewayPortRow {
  gpr_PortIdx : Z; gpr_IfName : bytes; gpr_Name : bytes; gpr_MAC : bytes; gpr_IP : bytes;
  gpr_NetworkGroup : bytes; gpr_Role : bytes; gpr_Type : bytes; gpr_NumPort : Z; gpr_Enable : bool;
  gpr_Up : bool; gpr_Connected : bool; gpr_IsUplink : bool; gpr_OpMode : bytes; gpr_FullDuplex : bool;
  gpr_Autoneg : bool; gpr_FlowctrlRX : bool; gpr_FlowctrlTX : bool; gpr_PortPOE : bool; gpr_POEEnable : bool;
  gpr_POECaps : Z; gpr_POEClass : bytes; gpr_POEPower : bytes; gpr_MACTable : option (list MacTableEntry);
  gpr_MACTableIPv6 : option (list MacTableEntry); gpr_gatewayAssignmentFields : gatewayAssignmentFields;
  gpr_gatewayPortLinkFields : gatewayPortLinkFields; gpr_counterFields : counterFields;
  gpr_optionalRateFields : optionalRateFields; gpr_gatewayRateFields : gatewayRateFields;
  gpr_SourceInterface : bytes; gpr_connectionFields : connectionFields;
}.
Definition gatewayPortRow_fields (x : gatewayPortRow) : list json_field :=
  [field "port_idx" (JInt (gpr_PortIdx x));
   field "ifname" (JText (gpr_IfName x));
   field "name" (JText (gpr_Name x));
   field "mac" (JText (gpr_MAC x));
   field_omit "ip" is_empty JText (gpr_IP x);
   field "networkgroup" (JText (gpr_NetworkGroup x));
   field "role" (JText (gpr_Role x));
   field "type" (JText (gpr_Type x));
   field "num_port" (JInt (gpr_NumPort x));
   field "enable" (JBool (gpr_Enable x));
   field "up" (JBool (gpr_Up x));
   field "connected" (JBool (gpr_Connected x));
   field "is_uplink" (JBool (gpr_IsUplink x));
   field "op_mode" (JText (gpr_OpMode x));
   field "full_duplex" (JBool (gpr_FullDuplex x));
   field "autoneg" (JBool (gpr_Autoneg x));
   field "flowctrl_rx" (JBool (gpr_FlowctrlRX x));
   field "flowctrl_tx" (JBool (gpr_FlowctrlTX x));
   field "port_poe" (JBool (gpr_PortPOE x));
   field "poe_enable" (JBool (gpr_POEEnable x));
   field "poe_caps" (JInt (gpr_POECaps x));
   field_omit "poe_class" is_empty JText (gpr_POEClass x);
   field_omit "poe_power" is_empty JText (gpr_POEPower x);
   field "mac_table" (json_pointer (json_list MacTableEntry_json) (gpr_MACTable x));
   field_omit "mac_table_ipv6" is_nil (json_pointer (json_list MacTableEntry_json)) (gpr_MACTableIPv6 x)] ++
  embed (gatewayAssignmentFields_fields (gpr_gatewayAssignmentFields x)) ++
  embed (gatewayPortLinkFields_fields (gpr_gatewayPortLinkFields x)) ++
  embed (counterFields_fields (gpr_counterFields x)) ++
  embed (optionalRateFields_fields (gpr_optionalRateFields x)) ++
  embed (gatewayRateFields_fields (gpr_gatewayRateFields x)) ++
  [field_omit "source_interface" is_empty JText (gpr_SourceInterface x)] ++
  embed (connectionFields_fields (gpr_connectionFields x)).
Definition gatewayPortRow_json (x : gatewayPortRow) : json := json_struct (gatewayPortRow_fields x).

Record gatewayPortStatsRow := MkGatewayPortStatsRow {
  gps_PortIdx : Z; gps_Name : bytes; gps_IfName : bytes; gps_MAC : bytes; gps_Type : bytes; gps_NumPort : Z;
  gps_Media : bytes; gps_Speed : Z; gps_SpeedCaps : Z; gps_Enable : bool; gps_Up : bool; gps_IsUplink : bool;
  gps_FullDuplex : bool; gps_Autoneg : bool; gps_FlowctrlRX : bool; gps_FlowctrlTX : bool; gps_PortPOE : bool;
  gps_POEEnable : bool; gps_POEClass : bytes; gps_POEPower : bytes; gps_MACTable : list MacTableEntry;
  gps_counterFields : counterFields; gps_optionalRateFields : optionalRateFields;
  gps_gatewayRateFields : gatewayRateFields;
}.
Definition gatewayPortStatsRow_fields (x : gatewayPortStatsRow) : list json_field :=
  [field "port_idx" (JInt (gps_PortIdx x));
   field "name" (JText (gps_Name x));
   field_omit "ifname" is_empty JText (gps_IfName x);
   field "mac" (JText (gps_MAC x));
   field "type" (JText (gps_Type x));
   field "num_port" (JInt (gps_NumPort x));
   field "media" (JText (gps_Media x));
   field "speed" (JInt (gps_Speed x));
   field "speed_caps" (JInt (gps_SpeedCaps x));
   field "enable" (JBool (gps_Enable x));
   field "up" (JBool (gps_Up x));
   field "is_uplink" (JBool (gps_IsUplink x));
   field "full_duplex" (JBool (gps_FullDuplex x));
   field "autoneg" (JBool (gps_Autoneg x));
   field "flowctrl_rx" (JBool (gps_FlowctrlRX x));
   field "flowctrl_tx" (JBool (gps_FlowctrlTX x));
   field "port_poe" (JBool (gps_PortPOE x));
   field "poe_enable" (JBool (gps_POEEnable x));
   field "poe_class" (JText (gps_POEClass x));
   field "poe_power" (JText (gps_POEPower x));
   field_omit "mac_table" is_empty (json_list MacTableEntry_json) (gps_MACTable x)] ++
  embed (counterFields_fields (gps_counterFields x)) ++
  embed (optionalRateFields_fields (gps_optionalRateFields x)) ++
  embed (gatewayRateFields_fields (gps_gatewayRateFields x)).
Definition gatewayPortStatsRow_json (x : gatewayPortStatsRow) : json := json_struct (gatewayPortStatsRow_fields x).

Record gatewayConfigPortRow := MkGatewayConfigPortRow {
  gcp_Name : bytes; gcp_IfName : bytes; gcp_PortIdx : Z; gcp_NetworkGroup : bytes; gcp_Role : bytes;
  gcp_Up : bool; gcp_Enable : bool; gcp_IsUplink : bool; gcp_gatewayAssignmentFields : gatewayAssignmentFields;
  gcp_linkFields : linkFields; gcp_SourceInterface : bytes; gcp_connectionFields : connectionFields;
}.
Definition gatewayConfigPortRow_fields (x : gatewayConfigPortRow) : list json_field :=
  [field "name" (JText (gcp_Name x));
   field "ifname" (JText (gcp_IfName x));
   field "port_idx" (JInt (gcp_PortIdx x));
   field "networkgroup" (JText (gcp_NetworkGroup x));
   field "role" (JText (gcp_Role x));
   field "up" (JBool (gcp_Up x));
   field "enable" (JBool (gcp_Enable x));
   field "is_uplink" (JBool (gcp_IsUplink x))] ++
  embed (gatewayAssignmentFields_fields (gcp_gatewayAssignmentFields x)) ++
  embed (linkFields_fields (gcp_linkFields x)) ++
  [field_omit "source_interface" is_empty JText (gcp_SourceInterface x)] ++
  embed (connectionFields_fields (gcp_connectionFields x)).
Definition gatewayConfigPortRow_json (x : gatewayConfigPortRow) : json := json_struct (gatewayConfigPortRow_fields x).

Record gatewayEthernetOverrideRow := MkGatewayEthernetOverrideRow {
  geo_Name : bytes; geo_IfName : bytes; geo_PortIdx : Z; geo_MAC : bytes; geo_NetworkGroup : bytes;
  geo_Role : bytes; geo_Up : bool; geo_Enable : bool; geo_Disabled : bool;
  geo_gatewayAssignmentFields : gatewayAssignmentFields; geo_linkFields : linkFields;
  geo_SourceInterface : bytes; geo_connectionFields : connectionFields;
}.
Definition gatewayEthernetOverrideRow_fields (x : gatewayEthernetOverrideRow) : list json_field :=
  [field "name" (JText (geo_Name x));
   field "ifname" (JText (geo_IfName x));
   field "port_idx" (JInt (geo_PortIdx x));
   field "mac" (JText (geo_MAC x));
   field "networkgroup" (JText (geo_NetworkGroup x));
   field "role" (JText (geo_Role x));
   field "up" (JBool (geo_Up x));
   field "enable" (JBool (geo_Enable x));
   field_omit "disabled" negb JBool (geo_Disabled x)] ++
  embed (gatewayAssignmentFields_fields (geo_gatewayAssignmentFields x)) ++
  embed (linkFields_fields (geo_linkFields x)) ++
  [field_omit "source_interface" is_empty JText (geo_SourceInterface x)] ++
  embed (connectionFields_fields (geo_connectionFields x)).
Definition gatewayEthernetOverrideRow_json (x : gatewayEthernetOverrideRow) : json := json_struct (gatewayEthernetOverrideRow_fields x).

Record gatewayReportedNetworkRow := MkGatewayReportedNetworkRow {
  grn_Name : bytes; grn_IfName : bytes; grn_PortIdx : Z; grn_NetworkGroup : bytes; grn_Type : bytes;
  grn_IP : bytes; grn_Netmask : bytes; grn_Address : bytes; grn_Addresses : list bytes; grn_Up : bool;
  grn_SourceInterface : bytes; grn_connectionFields : connectionFields;
}.
Definition gatewayReportedNetworkRow_fields (x : gatewayReportedNetworkRow) : list json_field :=
  [field "name" (JText (grn_Name x));
   field "ifname" (JText (grn_IfName x));
   field "port_idx" (JInt (grn_PortIdx x));
   field "networkgroup" (JText (grn_NetworkGroup x));
   field "type" (JText (grn_Type x));
   field "ip" (JText (grn_IP x));
   field "netmask" (JText (grn_Netmask x));
   field "address" (JText (grn_Address x));
   field "addresses" (json_list JText (grn_Addresses x));
   field "up" (JBool (grn_Up x));
   field_omit "source_interface" is_empty JText (grn_SourceInterface x)] ++
  embed (connectionFields_fields (grn_connectionFields x)).
Definition gatewayReportedNetworkRow_json (x : gatewayReportedNetworkRow) : json := json_struct (gatewayReportedNetworkRow_fields x).

Record gatewayUplinkRow := MkGatewayUplinkRow {
  gur_Name : bytes; gur_IfName : bytes; gur_PortIdx : Z; gur_MAC : bytes; gur_Type : bytes;
  gur_NetworkGroup : bytes; gur_UplinkIfName : bytes; gur_IP : bytes; gur_Up : bool; gur_Enable : bool;
  gur_FullDuplex : bool; gur_VLAN : Z; gur_ManagementVLAN : Z; gur_linkFields : linkFields;
  gur_counterFields : counterFields; gur_optionalRateFields : optionalRateFields;
  gur_gatewayRateFields : gatewayRateFields; gur_SourceInterface : bytes;
  gur_connectionFields : connectionFields;
}.
Definition gatewayUplinkRow_fields (x : gatewayUplinkRow) : list json_field :=
  [field "name" (JText (gur_Name x));
   field "ifname" (JText (gur_IfName x));
   field "port_idx" (JInt (gur_PortIdx x));
   field "mac" (JText (gur_MAC x));
   field "type" (JText (gur_Type x));
   field "networkgroup" (JText (gur_NetworkGroup x));
   field "uplink_ifname" (JText (gur_UplinkIfName x));
   field_omit "ip" is_empty JText (gur_IP x);
   field "up" (JBool (gur_Up x));
   field "enable" (JBool (gur_Enable x));
   field "full_duplex" (JBool (gur_FullDuplex x));
   field_omit "vlan" is_zero JInt (gur_VLAN x);
   field_omit "management_vlan" is_zero JInt (gur_ManagementVLAN x)] ++
  embed (linkFields_fields (gur_linkFields x)) ++
  embed (counterFields_fields (gur_counterFields x)) ++
  embed (optionalRateFields_fields (gur_optionalRateFields x)) ++
  embed (gatewayRateFields_fields (gur_gatewayRateFields x)) ++
  [field_omit "source_interface" is_empty JText (gur_SourceInterface x)] ++
  embed (connectionFields_fields (gur_connectionFields x)).
Definition gatewayUplinkRow_json (x : gatewayUplinkRow) : json := json_struct (gatewayUplinkRow_fields x).

(** ** telemetry_types.go *)
Record featureStatusPayload := MkFeatureStatusPayload {
  fs_FeatureStatus : bytes;
}.
Definition featureStatusPayload_fields (x : featureStatusPayload) : list json_field :=
  [field "feature_status" (JText (fs_FeatureStatus x))].
Definition featureStatusPayload_json (x : featureStatusPayload) : json := json_struct (featureStatusPayload_fields x).

Record hashPayload := MkHashPayload {
  hp_Hash : bytes;
}.
Definition hashPayload_fields (x : hashPayload) : list json_field :=
  [field "hash" (JText (hp_Hash x))].
Definition hashPayload_json (x : hashPayload) : json := json_struct (hashPayload_fields x).

Record gatewayRulePayload := MkGatewayRulePayload {
  gru_RuleCount : Z; gru_SHA256 : bytes; gru_SignatureType : bytes; gru_UpdateTime : bytes;
}.
Definition gatewayRulePayload_fields (x : gatewayRulePayload) : list json_field :=
  [field "rule_count" (JInt (gru_RuleCount x));
   field "sha256" (JText (gru_SHA256 x));
   field "signature_type" (JText (gru_SignatureType x));
   field "update_time" (JText (gru_UpdateTime x))].
Definition gatewayRulePayload_json (x : gatewayRulePayload) : json := json_struct (gatewayRulePayload_fields x).

Record ledStatePayload := MkLedStatePayload {
  led_Pattern : bytes; led_Tempo : Z;
}.
Definition ledStatePayload_fields (x : ledStatePayload) : list json_field :=
  [field "pattern" (JText (led_Pattern x));
   field "tempo" (JInt (led_Tempo x))].
Definition ledStatePayload_json (x : ledStatePayload) : json := json_struct (ledStatePayload_fields x).

Record speedtestServerPayload := MkSpeedtestServerPayload {
  sts2_CountryCode : bytes; sts2_City : bytes; sts2_Country : bytes; sts2_Latitude : float64;
  sts2_Longitude : float64; sts2_Provider : bytes; sts2_ProviderURL : bytes;
}.
Definition speedtestServerPayload_fields (x : speedtestServerPayload) : list json_field :=
  [field "cc" (JText (sts2_CountryCode x));
   field "city" (JText (sts2_City x));
   field "country" (JText (sts2_Country x));
   field "lat" (JFloat (sts2_Latitude x));
   field "lon" (JFloat (sts2_Longitude x));
   field "provider" (JText (sts2_Provider x));
   field "provider_url" (JText (sts2_ProviderURL x))].
Definition speedtestServerPayload_json (x : speedtestServerPayload) : json := json_struct (speedtestServerPayload_fields x).

Record speedtestStatusPayload := MkSpeedtestStatusPayload {
  sps_Latency : Z; sps_RunDate : Z; sps_Runtime : Z; sps_Server : speedtestServerPayload; sps_SourceIf : bytes;
  sps_StatusDownload : Z; sps_StatusPing : Z; sps_StatusSummary : Z; sps_StatusUpload : Z;
  sps_XputDownload : float64; sps_XputUpload : float64;
}.
Definition speedtestStatusPayload_fields (x : speedtestStatusPayload) : list json_field :=
  [field "latency" (JInt (sps_Latency x));
   field "rundate" (JInt (sps_RunDate x));
   field "runtime" (JInt (sps_Runtime x));
   field "server" (speedtestServerPayload_json (sps_Server x));
   field "source_interface" (JText (sps_SourceIf x));
   field "status_download" (JInt (sps_StatusDownload x));
   field "status_ping" (JInt (sps_StatusPing x));
   field "status_summary" (JInt (sps_StatusSummary x));
   field "status_upload" (JInt (sps_StatusUpload x));
   field "xput_download" (JFloat (sps_XputDownload x));
   field "xput_upload" (JFloat (sps_XputUpload x))].
Definition speedtestStatusPayload_json (x : speedtestStatusPayload) : json := json_struct (speedtestStatusPayload_fields x).

Record switchCapsPayload := MkSwitchCapsPayload {
  scp_FeatureCaps : Z; scp_MaxAggregateSessions : Z; scp_MaxMirrorSessions : Z;
}.
Definition switchCapsPayload_fields (x : switchCapsPayload) : list json_field :=
  [field "feature_caps" (JInt (scp_FeatureCaps x));
   field "max_aggregate_sessions" (JInt (scp_MaxAggregateSessions x));
   field "max_mirror_sessions" (JInt (scp_MaxMirrorSessions x))].
Definition switchCapsPayload_json (x : switchCapsPayload) : json := json_struct (switchCapsPayload_fields x).

Record udapiVersionPayload := MkUdapiVersionPayload {
  uv_Path : bytes; uv_Version : Z; uv_VersionDetail : list (bytes * Z);
}.
Definition udapiVersionPayload_fields (x : udapiVersionPayload) : list json_field :=
  [field "path" (JText (uv_Path x));
   field "version" (JInt (uv_Version x));
   field "versionDetail" (json_map JInt (uv_VersionDetail x))].
Definition udapiVersionPayload_json (x : udapiVersionPayload) : json := json_struct (udapiVersionPayload_fields x).

Record gatewayCapabilities := MkGatewayCapabilities {
  gc_GTI : bool; gc_HB46PPIPIP : bool; gc_HB46PPMapEHubSpoke : bool; gc_JPIXMapE : bool; gc_MDNSTable : bool;
  gc_NTTMapE : bool; gc_WANMagic : bool;
}.
Definition gatewayCapabilities_fields (x : gatewayCapabilities) : list json_field :=
  [field_omit "gti" negb JBool (gc_GTI x);
   field_omit "hb46pp_ipip" negb JBool (gc_HB46PPIPIP x);
   field_omit "hb46pp_map_e_hubspoke" negb JBool (gc_HB46PPMapEHubSpoke x);
   field_omit "jpix_map_e" negb JBool (gc_JPIXMapE x);
   field_omit "mdns_table" negb JBool (gc_MDNSTable x);
   field_omit "ntt_map_e" negb JBool (gc_NTTMapE x);
   field_omit "wan_magic" negb JBool (gc_WANMagic x)].
Definition gatewayCapabilities_json (x : gatewayCapabilities) : json := json_struct (gatewayCapabilities_fields x).

Record gatewayTelemetry := MkGatewayTelemetry {
  gt_AnonID : bytes; gt_Architecture : bytes; gt_BLECaps : Z; gt_BoardRevision : Z; gt_BOMRevision : bytes;
  gt_BOMRevisionID : bytes; gt_Boot : unit; gt_BootID : Z; gt_BootROMVersion : bytes;
  gt_CFGVersionEffective : bytes; gt_Connections : list unit; gt_ContentFilteringStatus : featureStatusPayload;
  gt_DNSShield : hashPayload; gt_DPIStats : option (list unit); gt_Dualboot : bool; gt_EverCrash : bool;
  gt_Fingerprint : bytes; gt_Fingerprints : option (list unit); gt_FW2Caps : Z; gt_FWCaps : Z;
  gt_GuestKicks : Z; gt_GuestToken : bytes; gt_GWCapabilities : option gatewayCapabilities;
  gt_HardwareUUID : bytes; gt_HasDefaultRouteDist : bool; gt_HasSpeaker : bool; gt_HasSSHDisable : bool;
  gt_HasVTI : bool; gt_HWCapabilities : Z; gt_IDsIPSRule : gatewayRulePayload; gt_InformMinInterval : Z;
  gt_IPv4ActiveLeases : option (list unit); gt_Isolated : bool; gt_KernelVersion : bytes;
  gt_LastErrorConns : list unit; gt_LEDState : ledStatePayload; gt_LLDPTable : list lldpRow;
  gt_Locating : bool; gt_ManufacturerID : Z; gt_Netmask : bytes; gt_OutletEnabled : bool;
  gt_OutletOverrides : list unit; gt_OutletTable : list unit; gt_PingtestStatus : list unit; gt_QRID : bytes;
  gt_RebootDuration : Z; gt_SelfrunBeacon : bool; gt_SpeedtestStatus : option speedtestStatusPayload;
  gt_SpeedtestStatusUDAPI : option (list unit); gt_SSHSessionTable : list unit; gt_StatsInformInterval : Z;
  gt_SwitchCaps : switchCapsPayload; gt_SysErrorCaps : Z; gt_SysID : Z; gt_TeleportVersion : Z; gt_TimeMS : Z;
  gt_Timestamp : bytes; gt_TMReady : bool; gt_Triggers : list unit; gt_TriggersDNSFilter : list unit;
  gt_TriggersGeo : list unit; gt_UDAPICaps : Z; gt_UDAPIVersion : option udapiVersionPayload;
  gt_UpgradeDuration : Z; gt_UptimeText : bytes; gt_USG2Caps : Z; gt_USGCaps : Z; gt_WiFiCaps : Z;
}.
Definition gatewayTelemetry_fields (x : gatewayTelemetry) : list json_field :=
  [field "anon_id" (JText (gt_AnonID x));
   field "architecture" (JText (gt_Architecture x));
   field "ble_caps" (JInt (gt_BLECaps x));
   field "board_rev" (JInt (gt_BoardRevision x));
   field "bomrev" (JText (gt_BOMRevision x));
   field "bomrev_id" (JText (gt_BOMRevisionID x));
   field "boot" (json_empty (gt_Boot x));
   field "bootid" (JInt (gt_BootID x));
   field "bootrom_version" (JText (gt_BootROMVersion x));
   field "cfgversion_effective" (JText (gt_CFGVersionEffective x));
   field "connections" (json_list json_empty (gt_Connections x));
   field "content_filtering_status" (featureStatusPayload_json (gt_ContentFilteringStatus x));
   field "dns_shield" (hashPayload_json (gt_DNSShield x));
   field_omit "dpi_stats" is_nil (json_pointer (json_list json_empty)) (gt_DPIStats x);
   field "dualboot" (JBool (gt_Dualboot x));
   field "ever_crash" (JBool (gt_EverCrash x));
   field "fingerprint" (JText (gt_Fingerprint x));
   field_omit "fingerprints" is_nil (json_pointer (json_list json_empty)) (gt_Fingerprints x);
   field "fw2_caps" (JInt (gt_FW2Caps x));
   field "fw_caps" (JInt (gt_FWCaps x));
   field "guest_kicks" (JInt (gt_GuestKicks x));
   field "guest_token" (JText (gt_GuestToken x));
   field_omit "gw_caps" is_nil (json_pointer gatewayCapabilities_json) (gt_GWCapabilities x);
   field "hardware_uuid" (JText (gt_HardwareUUID x));
   field "has_default_route_distance" (JBool (gt_HasDefaultRouteDist x));
   field "has_speaker" (JBool (gt_HasSpeaker x));
   field "has_ssh_disable" (JBool (gt_HasSSHDisable x));
   field "has_vti" (JBool (gt_HasVTI x));
   field "hw_caps" (JInt (gt_HWCapabilities x));
   field "ids_ips_rule" (gatewayRulePayload_json (gt_IDsIPSRule x));
   field "inform_min_interval" (JInt (gt_InformMinInterval x));
   field_omit "ipv4_active_leases" is_nil (json_pointer (json_list json_empty)) (gt_IPv4ActiveLeases x);
   field "isolated" (JBool (gt_Isolated x));
   field "kernel_version" (JText (gt_KernelVersion x));
   field "last_error_conns" (json_list json_empty (gt_LastErrorConns x));
   field "led_state" (ledStatePayload_json (gt_LEDState x));
   field "lldp_table" (json_list lldpRow_json (gt_LLDPTable x));
   field "locating" (JBool (gt_Locating x));
   field "manufacturer_id" (JInt (gt_ManufacturerID x));
   field "netmask" (JText (gt_Netmask x));
   field "outlet_enabled" (JBool (gt_OutletEnabled x));
   field "outlet_overrides" (json_list json_empty (gt_OutletOverrides x));
   field "outlet_table" (json_list json_empty (gt_OutletTable x));
   field "pingtest-status" (json_list json_empty (gt_PingtestStatus x));
   field "qrid" (JText (gt_QRID x));
   field "reboot_duration" (JInt (gt_RebootDuration x));
   field "selfrun_beacon" (JBool (gt_SelfrunBeacon x));
   field_omit "speedtest-status" is_nil (json_pointer speedtestStatusPayload_json) (gt_SpeedtestStatus x);
   field_omit "speedtest-status-udapi" is_nil (json_pointer (json_list json_empty)) (gt_SpeedtestStatusUDAPI x);
   field "ssh_session_table" (json_list json_empty (gt_SSHSessionTable x));
   field "stats_inform_interval" (JInt (gt_StatsInformInterval x));
   field "switch_caps" (switchCapsPayload_json (gt_SwitchCaps x));
   field "sys_error_caps" (JInt (gt_SysErrorCaps x));
   field "sysid" (JInt (gt_SysID x));
   field "teleport_version" (JInt (gt_TeleportVersion x));
   field "time_ms" (JInt (gt_TimeMS x));
   field "timestamp" (JText (gt_Timestamp x));
   field "tm_ready" (JBool (gt_TMReady x));
   field "triggers" (json_list json_empty (gt_Triggers x));
   field "triggers_dns_filter" (json_list json_empty (gt_TriggersDNSFilter x));
   field "triggers_geo" (json_list json_empty (gt_TriggersGeo x));
   field "udapi_caps" (JInt (gt_UDAPICaps x));
   field_omit "udapi_version" is_nil (json_pointer udapiVersionPayload_json) (gt_UDAPIVersion x);
   field "upgrade_duration" (JInt (gt_UpgradeDuration x));
   field "uptime_str" (JText (gt_UptimeText x));
   field "usg2_caps" (JInt (gt_USG2Caps x));
   field "usg_caps" (JInt (gt_USGCaps x));
   field "wifi_caps" (JInt (gt_WiFiCaps x))].

(** ** gateway_types.go *)
Record gatewayPayload := MkGatewayPayload {
  gp_basePayload : basePayload; gp_gatewayTelemetry : gatewayTelemetry;
  gp_gatewayTrafficSummary : gatewayTrafficSummary; gp_IfTable : list gatewayIfRow;
  gp_NetworkTable : list gatewayNetworkRow; gp_ConfigPortTable : list gatewayConfigPortRow;
  gp_EthernetTable : list gatewayEthernetTableRow; gp_EthernetOverrides : list gatewayEthernetOverrideRow;
  gp_PortTable : list gatewayPortRow; gp_PortStats : list gatewayPortStatsRow;
  gp_ReportedNetworks : list gatewayReportedNetworkRow; gp_Wans : list gatewayWANInventoryRow;
  gp_Uplink : bytes; gp_UplinkDepth : Z; gp_LastUplink : option unit;
  gp_UplinkTable : option (list gatewayUplinkRow); gp_LastWANIP : bytes; gp_LANIP : bytes; gp_HasEth1 : bool;
  gp_HasDPI : bool; gp_ConfigNetworkWAN : gatewayConfigNetworkRow;
  gp_ConfigNetworkLAN : option gatewayConfigLANRow; gp_ConfigNetworkWAN2 : option gatewayConfigNetworkRow;
}.
Definition gatewayPayload_fields (x : gatewayPayload) : list json_field :=
  embed (basePayload_fields (gp_basePayload x)) ++
  embed (gatewayTelemetry_fields (gp_gatewayTelemetry x)) ++
  embed (gatewayTrafficSummary_fields (gp_gatewayTrafficSummary x)) ++
  [field "if_table" (json_list gatewayIfRow_json (gp_IfTable x));
   field "network_table" (json_list gatewayNetworkRow_json (gp_NetworkTable x));
   field "config_port_table" (json_list gatewayConfigPortRow_json (gp_ConfigPortTable x));
   field "ethernet_table" (json_list gatewayEthernetTableRow_json (gp_EthernetTable x));
   field "ethernet_overrides" (json_list gatewayEthernetOverrideRow_json (gp_EthernetOverrides x));
   field "port_table" (json_list gatewayPortRow_json (gp_PortTable x));
   field "port_stats" (json_list gatewayPortStatsRow_json (gp_PortStats x));
   field "reported_networks" (json_list gatewayReportedNetworkRow_json (gp_ReportedNetworks x));
   field_omit "wans" is_empty (json_list gatewayWANInventoryRow_json) (gp_Wans x);
   field "uplink" (JText (gp_Uplink x));
   field "uplink_depth" (JInt (gp_UplinkDepth x));
   field "last_uplink" (json_pointer json_empty (gp_LastUplink x));
   field "uplink_table" (json_pointer (json_list gatewayUplinkRow_json) (gp_UplinkTable x));
   field_omit "last_wan_ip" is_empty JText (gp_LastWANIP x);
   field_omit "lan_ip" is_empty JText (gp_LANIP x);
   field "has_eth1" (JBool (gp_HasEth1 x));
   field "has_dpi" (JBool (gp_HasDPI x));
   field "config_network_wan" (gatewayConfigNetworkRow_json (gp_ConfigNetworkWAN x));
   field_omit "config_network_lan" is_nil (json_pointer gatewayConfigLANRow_json) (gp_ConfigNetworkLAN x);
   field_omit "config_network_wan2" is_nil (json_pointer gatewayConfigNetworkRow_json) (gp_ConfigNetworkWAN2 x)].
Definition gatewayPayload_json (x : gatewayPayload) : json := json_struct (gatewayPayload_fields x).
