(* ===== verification/PayloadViews.v ===== *)
(** The resolved view of a port that all payload tables share: [view.go],
    [fragments.go], [gateway_identity.go], [topology.go], [profile.go],
    [gateway_neighbors.go] and the identity helpers of [base.go] and
    [switch.go], in [src/internal/device/payload].

    Views copy the slices of a port; nothing writes to them afterwards, so the
    copies are the lists themselves. *)
From S2P Require Import Prelude Identity GoStrings GoNet GoIP Ports Topology PayloadTypes.

(** ** keys.go *)
Definition gatewayNetworkGroupLAN : bytes := B "LAN".
Definition gatewayNetworkGroupNone : bytes := B "Unassigned".
Definition gatewayNetworkGroupWAN : bytes := B "WAN".
Definition gatewayNetworkGroupWAN2 : bytes := B "WAN2".
Definition gatewayNoIP : bytes := B "0.0.0.0".
Definition gatewayPortRoleLAN : bytes := B "lan".
Definition gatewayPortRoleLAN2 : bytes := B "lan2".
Definition gatewayPortRoleWAN : bytes := B "wan".
Definition gatewayPortRoleWAN2 : bytes := B "wan2".

(** [device.Profile], as far as the renderer reads it. *)
Record PayloadProfile := MkPayloadProfile {
  pl_Kind : bytes; pl_RequiredVersion : bytes; pl_ManagementInterface : bytes;
  pl_GatewayInterfacePrefix : bytes; pl_HasDPI : bool;
}.
Record Profile := MkRenderProfile {
  pr_SourceType : bytes; pr_Name : bytes; pr_Payload : PayloadProfile;
}.

(** ** switch.go: capabilities and derived names *)
Definition firstNonZero (values : list Z) : Z := default 0 (find (λ v, negb (v =? 0)) values).
Definition switchInterfaceName (portIndex : Z) : bytes :=
  let portIndex := if portIndex <? 1 then 1 else portIndex in
  B "eth" ++ itoa (portIndex - 1).

(** [mac[len(mac)-1] += delta], on a copy. *)
Definition add_to_last (delta : Z) (mac : bytes) : bytes :=
  removelast mac ++ [z2b (b2z (List.last mac x00) + delta)].
Definition incrementMAC (macText : bytes) : bytes :=
  match parse_mac macText with
  | None | Some [] => macText
  | Some mac => mac_string (add_to_last 1 mac)
  end.

(** ** gateway_identity.go *)
Definition boolText (value : bool) : bytes := if value then B "true" else B "false".
Definition interfaceMAC (baseMAC : bytes) (portIndex : Z) : bytes :=
  match parse_mac baseMAC with
  | None | Some [] => baseMAC
  | Some mac => mac_string (add_to_last (portIndex - 1) mac)
  end.

(** [net.IPMask.Size] of four bytes: the leading ones, unless a one follows a
    zero. *)
Definition mask_bits (mask : bytes) : list bool :=
  concat (map (λ b, map (λ i, Z.testbit (b2z b) i) [7; 6; 5; 4; 3; 2; 1; 0]) mask).
Fixpoint simple_mask (bits : list bool) : option Z :=
  match bits with
  | [] => Some 0
  | true :: rest => ones ← simple_mask rest; Some (1 + ones)
  | false :: rest => if forallb negb rest then Some 0 else None
  end.
Section identity.
Context `{UnicodeTables}.

Definition gatewayPortRole (port : Port) : bytes :=
  let role := normalizeGatewayRole (pg_Role (p_Gateway port)) in
  if negb (bool_decide (role = [])) then role
  else if p_Index port =? 1 then gatewayPortRoleWAN
  else if p_Index port =? 2 then gatewayPortRoleLAN
  else if p_Index port =? 3 then gatewayPortRoleWAN2
  else gatewayPortRoleLAN.

Definition gatewayNetworkGroup (port : Port) : bytes :=
  let networkGroup := normalizeNetworkGroup (pg_NetworkGroup (p_Gateway port)) in
  if negb (bool_decide (networkGroup = [])) then networkGroup
  else if decide (gatewayPortRole port = gatewayPortRoleWAN) then gatewayNetworkGroupWAN
  else if decide (gatewayPortRole port = gatewayPortRoleWAN2) then gatewayNetworkGroupWAN2
  else gatewayNetworkGroupLAN.

Definition gatewayInterfaceName (profile : Profile) (portIndex : Z) : bytes :=
  let portIndex := if portIndex <? 1 then 1 else portIndex in
  let prefix := trim_space (pl_GatewayInterfacePrefix (pr_Payload profile)) in
  let prefix := if decide (prefix = []) then B "eth" else prefix in
  prefix ++ itoa (portIndex - 1).

Definition portMAC (baseMAC : bytes) (port : Port) : bytes :=
  let mac := trim_space (pg_MAC (p_Gateway port)) in
  if negb (bool_decide (mac = [])) then to_lower mac else interfaceMAC baseMAC (p_Index port).

Definition interfaceIP (id : Identity) (port : Port) : bytes :=
  let ip := trim_space (pg_IP (p_Gateway port)) in
  if negb (bool_decide (ip = [])) then ip
  else
    let role := gatewayPortRole port in
    if bool_decide (role = gatewayPortRoleLAN) || bool_decide (role = gatewayPortRoleLAN2) then id_IP id
    else if bool_decide (role = gatewayPortRoleWAN) || bool_decide (role = gatewayPortRoleWAN2)
    then B "192.0.2.2"
    else gatewayNoIP.

Definition interfaceNetmask (port : Port) : bytes :=
  let netmask := trim_space (pg_Netmask (p_Gateway port)) in
  if negb (bool_decide (netmask = [])) then netmask else B "255.255.255.0".

Definition netmaskPrefixLength (netmask : bytes) : Z :=
  match parse_ip4 (trim_space netmask) with
  | None => -1
  | Some parsed => default (-1) (simple_mask (mask_bits parsed))
  end.
Definition interfaceAddressCIDR (ip netmask : bytes) : bytes :=
  let prefix := netmaskPrefixLength netmask in
  let prefix := if prefix <? 0 then 24 else prefix in
  trim_space ip ++ B "/" ++ itoa prefix.

Definition cloneIPv6 (addresses : list bytes) : list bytes :=
  filter (λ a, a ≠ []) (map trim_space addresses).
End identity.

(** ** fragments.go *)
Definition effectivePortSpeed (port : Port) : Z :=
  if p_Up port && (p_Speed port <=? 0) then 1000 else p_Speed port.
Definition effectivePortMedia (port : Port) (speed : Z) : bytes :=
  let media := trim_space (p_Media port) in
  if bool_decide (media = []) && (0 <? speed) then mediaForSpeed speed else media.

Section fragments.
Context `{UnicodeTables}.
Definition speedCaps (speed : Z) (media : bytes) : list Z :=
  let media := to_upper (trim_space media) in
  if (25000 <=? speed) || contains (B "SFP28") media then [1000; 10000; 25000]
  else if (10000 <=? speed) || contains (B "SFP+") media then [1000; 10000]
  else if 2500 <=? speed then [10; 100; 1000; 2500]
  else [10; 100; 1000].
Definition portLinkFields (speed : Z) (media : bytes) : linkFields :=
  {| lf_Speed := speed; lf_MaxSpeed := speed; lf_SpeedCaps := Some (speedCaps speed media); lf_Media := media |}.
Definition gatewaySpeedCapsCode (speed : Z) (media : bytes) : Z :=
  let media := to_upper (trim_space media) in
  if (25000 <=? speed) || contains (B "SFP28") media then 1048864
  else if (10000 <=? speed) || contains (B "SFP+") media then 1048864
  else 1048623.
Definition gatewayPortLinkFieldsFor (speed : Z) (media : bytes) : gatewayPortLinkFields :=
  {| gpl_Speed := speed; gpl_MaxSpeed := speed; gpl_SpeedCaps := gatewaySpeedCapsCode speed media;
     gpl_Media := media |}.
End fragments.

Definition no_counter_fields : counterFields := MkCounterFields None None None None None None.
Definition no_byte_rates : optionalRateFields := MkOptionalRateFields None None None.
Definition no_bit_rates : gatewayRateFields := MkGatewayRateFields None None.

Definition portCounterFields (port : Port) : counterFields :=
  if negb (p_CountersSet port) then no_counter_fields
  else
    let c := p_Counters port in
    {| cf_RXBytes := Some (RXBytes c); cf_TXBytes := Some (TXBytes c);
       cf_RXPackets := Some (RXPackets c); cf_TXPackets := Some (TXPackets c);
       cf_RXErrors := Some (RXErrors c); cf_TXErrors := Some (TXErrors c) |}.

Definition portRateFields (port : Port) : Z * Z :=
  if negb (p_TrafficRatesSet port) || negb (p_Up port) then (0, 0)
  else (p_RXBytesRate port, p_TXBytesRate port).
Definition bitsPerSecond (value : Z) : Z := wrap64 (value * 8).
Definition explicitPortRateFields (port : Port) : optionalRateFields :=
  if negb (p_TrafficRatesSet port) then no_byte_rates
  else
    let '(rxRate, txRate) := portRateFields port in
    {| orf_BytesRate := Some (wrap64 (rxRate + txRate)); orf_RXBytesRate := Some rxRate;
       orf_TXBytesRate := Some txRate |}.
Definition gatewayPortRateFields (port : Port) : gatewayRateFields :=
  if negb (p_TrafficRatesSet port) then no_bit_rates
  else
    let '(rxRate, txRate) := portRateFields port in
    {| grf_RXRate := Some (bitsPerSecond rxRate); grf_TXRate := Some (bitsPerSecond txRate) |}.

(** ** view.go *)
Record InterfaceView := MkInterfaceView {
  iv_Name : bytes; iv_IfName : bytes; iv_Comment : bytes; iv_MAC : bytes; iv_IP : bytes;
  iv_Netmask : bytes; iv_IPv6 : list bytes; iv_Address : bytes; iv_NetworkGroup : bytes;
}.
Record PortView := MkPortView {
  v_Port : Port; v_Index : Z; v_Name : bytes; v_SwitchInterfaceName : bytes; v_PhysicalIfName : bytes;
  v_Role : bytes; v_NetworkGroup : bytes; v_SourceInterface : bytes; v_Uplink : bool; v_Enabled : bool;
  v_Up : bool; v_Speed : Z; v_Media : bytes; v_MACs : list MacTableEntry;
  v_Neighbors : list TopologyNeighbor; v_TopologyNeighbor : option TopologyNeighbor;
  v_TopologyDirection : TopologyDirection; v_GatewayInterface : InterfaceView;
}.

Section views.
Context `{UnicodeTables}.
Definition edge_map (edges : list TopologyEdge) : gmap Z TopologyEdge :=
  fold_left (λ m edge, <[te_LocalPort edge := edge]> m) edges ∅.

Definition port_view (profile : Profile) (id : Identity) (edges : gmap Z TopologyEdge) (port : Port)
    : PortView :=
  let speed := effectivePortSpeed port in
  let networkGroup := gatewayNetworkGroup port in
  let ip := interfaceIP id port in
  let netmask := interfaceNetmask port in
  let gatewayName := gatewayInterfaceName profile (p_Index port) in
  let edge := edges !! p_Index port in
  {| v_Port := port; v_Index := p_Index port; v_Name := p_Name port;
     v_SwitchInterfaceName := switchInterfaceName (p_Index port);
     v_PhysicalIfName := gatewayInterfaceName profile (p_Index port);
     v_Role := gatewayPortRole port; v_NetworkGroup := networkGroup;
     v_SourceInterface := trim_space (p_Interface port); v_Uplink := p_Uplink port;
     v_Enabled := negb (p_Disabled port); v_Up := p_Up port; v_Speed := speed;
     v_Media := effectivePortMedia port speed; v_MACs := p_MACs port; v_Neighbors := p_Neighbors port;
     v_TopologyNeighbor := te_Neighbor <$> edge;
     v_TopologyDirection := default [] (te_Direction <$> edge);
     v_GatewayInterface :=
       {| iv_Name := gatewayName; iv_IfName := gatewayName; iv_Comment := p_Name port;
          iv_MAC := portMAC (id_MAC id) port; iv_IP := ip; iv_Netmask := netmask;
          iv_IPv6 := cloneIPv6 (pg_IPv6 (p_Gateway port));
          iv_Address := interfaceAddressCIDR ip netmask; iv_NetworkGroup := networkGroup |} |}.
Definition BuildPortViews (profile : Profile) (id : Identity) (ports : list Port)
    (topology : TopologyResolution) : list PortView :=
  map (port_view profile id (edge_map (tr_Edges topology))) ports.

(** ** topology.go *)
Definition lldp_selected (port : PortView) (selectedMAC : bytes) (neighbor : TopologyNeighbor)
    : option lldpRow :=
  if negb (bool_decide (tn_Source neighbor = NeighborSourceLLDP))
     || negb (bool_decide (to_lower (trim_space (tn_MAC neighbor)) = selectedMAC))
  then None
  else
    let portID := trim_space (tn_RemotePortID neighbor) in
    let portID :=
      if bool_decide (portID = []) && (0 <? tn_RemotePort neighbor)
      then B "Port " ++ itoa (tn_RemotePort neighbor) else portID in
    Some {| ll_ChassisID := to_lower (trim_space (tn_MAC neighbor)); ll_IsWired := true;
            ll_LocalPortIdx := v_Index port; ll_LocalPortName := v_Name port; ll_PortID := portID |}.
Definition lldp_rows (port : PortView) : list lldpRow :=
  match v_TopologyNeighbor port with
  | None => []
  | Some selected => omap (lldp_selected port (to_lower (trim_space (tn_MAC selected)))) (v_Neighbors port)
  end.
Definition lldpTable (ports : list PortView) : list lldpRow := concat (map lldp_rows ports).

Definition topologyMACEntry (neighbor : TopologyNeighbor) : MacTableEntry :=
  {| me_MAC := to_lower (trim_space (tn_MAC neighbor)); me_Hostname := trim_space (tn_Hostname neighbor);
     me_IP := trim_space (tn_IP neighbor); me_Age := firstNonZero [tn_Age neighbor; 4];
     me_Uptime := firstNonZero [tn_Uptime neighbor; 1200]; me_VLAN := tn_VLAN neighbor;
     me_Static := tn_Static neighbor; me_Type := trim_space (tn_DeviceType neighbor) |}.
Definition downstreamMACTable (view : PortView) : list MacTableEntry :=
  match v_TopologyNeighbor view with
  | Some neighbor =>
      if decide (v_TopologyDirection view = DirectionDownstream)
      then topologyMACEntry neighbor :: v_MACs view else v_MACs view
  | None => v_MACs view
  end.

(** ** profile.go *)
Definition deviceTypeOrDefault (value : bytes) : bytes :=
  let value := trim_space value in if decide (value = []) then B "usw" else value.
Definition isGatewayDeviceType (deviceType : bytes) : bool :=
  bool_decide (trim_space deviceType ∈ [B "ugw"; B "uxg"; B "udm"]).
Definition payloadKindGateway : bytes := B "gateway".
Definition payloadKindSwitch : bytes := B "switch".
Definition defaultRequiredVersion : bytes := B "5.0.0".
Definition blank_default (value fallback : bytes) : bytes :=
  if decide (trim_space value = []) then fallback else value.
Definition normalizePayloadProfile (profile : Profile) (id : Identity) : Profile :=
  let p := pr_Payload profile in
  let kind := to_lower (trim_space (pl_Kind p)) in
  let kind :=
    if decide (kind = []) then
      if isGatewayDeviceType (deviceTypeOrDefault (id_DeviceType id)) then payloadKindGateway
      else payloadKindSwitch
    else kind in
  let kind := if decide (kind = payloadKindGateway) then kind else payloadKindSwitch in
  MkRenderProfile (pr_SourceType profile) (pr_Name profile)
    (MkPayloadProfile kind (blank_default (pl_RequiredVersion p) defaultRequiredVersion)
       (blank_default (pl_ManagementInterface p) (B "eth0"))
       (blank_default (pl_GatewayInterfacePrefix p) (B "eth")) (pl_HasDPI p)).

(** ** base.go *)
Definition identityUptime (uptime : Z) : Z := if uptime <? 1 then 1 else uptime.
Definition informState (identity : Identity) : result error InformState :=
  if id_InformStateSet identity then
    if negb (InformState_Valid (id_InformState identity)) then Err "invalid inform state"%stdpp
    else Ok (id_InformState identity)
  else Ok (if id_Adopted identity then InformStateManaged else InformStateDefault).

(** ** gateway_neighbors.go *)
Definition connection_to (mac ip hostname kind : bytes) : gatewayLastConnection :=
  {| glc_MAC := to_lower (trim_space mac); glc_Source := B "mac_table"; glc_IP := trim_space ip;
     glc_Hostname := trim_space hostname; glc_Type := trim_space kind |}.
Definition neighbor_connection (entry : TopologyNeighbor) : gatewayLastConnection :=
  connection_to (tn_MAC entry) (tn_IP entry) (tn_Hostname entry) (tn_DeviceType entry).
Definition gatewayConnectionFields (view : PortView) : connectionFields :=
  {| cn_Connected := v_Up view;
     cn_LastConnection :=
       if negb (v_Up view) || negb (v_Uplink view) then None
       else
         entry ← v_TopologyNeighbor view;
         if decide (v_TopologyDirection view = DirectionUpstream) then Some (neighbor_connection entry)
         else None |}.
Definition firstClientMAC (entries : list MacTableEntry) : option MacTableEntry :=
  find (λ e, negb (bool_decide (trim_space (me_MAC e) = []))) entries.
Definition physicalConnectionFields (view : PortView) : connectionFields :=
  {| cn_Connected := v_Up view;
     cn_LastConnection :=
       if negb (v_Up view) then None
       else
         let client :=
           entry ← firstClientMAC (v_MACs view);
           Some (connection_to (me_MAC entry) (me_IP entry) (me_Hostname entry) (me_Type entry)) in
         match v_TopologyNeighbor view with
         | Some entry =>
             if decide (v_TopologyDirection view = DirectionDownstream) then Some (neighbor_connection entry)
             else client
         | None => client
         end |}.
Definition portMACTable (view : PortView) : option (list MacTableEntry) :=
  match downstreamMACTable view with [] => None | out => Some out end.

Definition gatewayHostEntryVisible (entryType : bytes) : bool :=
  let entryType := to_lower (trim_space entryType) in
  bool_decide (entryType = []) || bool_decide (entryType = B "client").
Definition host_row (entry : MacTableEntry) : gatewayHostRow :=
  {| gh_MAC := to_lower (trim_space (me_MAC entry)); gh_Age := me_Age entry; gh_Authorized := true;
     gh_Uptime := firstNonZero [me_Uptime entry; 1200]; gh_Hostname := trim_space (me_Hostname entry);
     gh_IP := trim_space (me_IP entry); gh_Type := trim_space (me_Type entry);
     gh_VLAN := (if 0 <? me_VLAN entry then me_VLAN entry else 0); gh_Static := me_Static entry |}.
Definition gatewayHostTable (view : PortView) : list gatewayHostRow :=
  map host_row (filter (λ e, gatewayHostEntryVisible (trim_space (me_Type e)) = true) (p_MACs (v_Port view))).
End views.
