(* ===== verification/Payload.v ===== *)
(** The inform payload: the switch tables ([switch.go]), the gateway tables
    ([gateway_tables.go], [gateway_network.go], [gateway_health.go],
    [gateway.go]), the telemetry block ([telemetry.go], [telemetry_helpers.go])
    and [Build] ([build.go]), all in [src/internal/device/payload].

    [Build] ends in a JSON document as a tree; the text [json.MarshalIndent]
    writes for it is not modelled. *)
From stdpp Require Import gmap.
From S2P Require Import Prelude Identity GoStrings GoFloat GoNet GoMap Ports Topology PayloadTypes PayloadViews.

(** ** switch.go *)
Definition no_traffic : switchTrafficSummary := MkSwitchTrafficSummary None None None None None None None None.

(** The first view marked as uplink. *)
Definition uplink_view (ports : list PortView) : option PortView := find v_Uplink ports.

Definition switchInterfaceCountersFor (ports : list PortView) : counterFields :=
  match uplink_view ports with Some view => portCounterFields (v_Port view) | None => no_counter_fields end.

Definition switchInterfaceRatesFor (ports : list PortView) : optionalRateFields * gatewayRateFields :=
  match uplink_view ports with
  | None => (no_byte_rates, no_bit_rates)
  | Some view =>
      let port := v_Port view in
      if negb (p_TrafficRatesSet port) then (no_byte_rates, no_bit_rates)
      else
        let '(rxByteRate, txByteRate) := portRateFields port in
        ({| orf_BytesRate := Some (wrap64 (rxByteRate + txByteRate)); orf_RXBytesRate := Some rxByteRate;
            orf_TXBytesRate := Some txByteRate |},
         {| grf_RXRate := Some (bitsPerSecond rxByteRate); grf_TXRate := Some (bitsPerSecond txByteRate) |})
  end.

(** The root counters and rates of one port, with the direction turned. *)
Definition summary_bytes (port : Port) : option Z * option Z * option Z :=
  if p_CountersSet port then
    let c := p_Counters port in
    (Some (wrap64 (RXBytes c + TXBytes c)), Some (TXBytes c), Some (RXBytes c))
  else (None, None, None).
Definition summary_rates (view : PortView) : option Z * option Z * option Z * option Z * option Z :=
  let port := v_Port view in
  if p_TrafficRatesSet port then
    let rx := if v_Up view then p_TXBytesRate port else 0 in
    let tx := if v_Up view then p_RXBytesRate port else 0 in
    (Some (wrap64 (rx + tx)), Some rx, Some tx, Some (bitsPerSecond rx), Some (bitsPerSecond tx))
  else (None, None, None, None, None).

Definition switchTrafficSummaryFor (ports : list PortView) : switchTrafficSummary :=
  match uplink_view ports with
  | None => no_traffic
  | Some view =>
      let '(b, rx, tx) := summary_bytes (v_Port view) in
      let '(br, rxb, txb, rxr, txr) := summary_rates view in
      {| sts_Bytes := b; sts_RXBytes := rx; sts_TXBytes := tx; sts_BytesRate := br;
         sts_RXBytesRate := rxb; sts_TXBytesRate := txb; sts_RXRate := rxr; sts_TXRate := txr |}
  end.

Section switch.
Context `{UnicodeTables}.

Definition switchManagementInterfaceRow (ifaceName : bytes) (id : Identity) (ports : list PortView)
    (numPorts ifSpeed : Z) : switchInterfaceRow :=
  let '(byteRates, bitRates) := switchInterfaceRatesFor ports in
  {| swi_Name := ifaceName; swi_MAC := id_MAC id; swi_IP := id_IP id; swi_NumPort := numPorts;
     swi_Up := true; swi_Speed := ifSpeed; swi_FullDuplex := true; swi_VLAN := id_ManagementVLAN id;
     swi_ManagementVLAN := id_ManagementVLAN id; swi_counterFields := switchInterfaceCountersFor ports;
     swi_optionalRateFields := byteRates; swi_gatewayRateFields := bitRates |}.

Definition last_uplink (port : PortView) : option switchLastUplinkRow :=
  neighbor ← v_TopologyNeighbor port;
  if decide (v_TopologyDirection port = DirectionUpstream) then
    Some {| slu_PortIdx := v_Index port; slu_UplinkMAC := to_lower (trim_space (tn_MAC neighbor));
            slu_UplinkRemotePort := tn_RemotePort neighbor; slu_Type := B "wire" |}
  else None.
Definition switchLastUplinkRowFor (ports : list PortView) : option switchLastUplinkRow :=
  head (omap last_uplink ports).

Definition switchLastConnectionFor (entries : list MacTableEntry) : option switchLastConnection :=
  entry ← head entries;
  Some {| slc_Connected := true; slc_MAC := me_MAC entry; slc_IP := me_IP entry;
          slc_Hostname := me_Hostname entry; slc_Type := me_Type entry |}.

Definition switch_port_row (p : PortView) : switchPortRow :=
  let bitRates :=
    if v_Uplink p && p_TrafficRatesSet (v_Port p) then
      let '(rxRate, txRate) := portRateFields (v_Port p) in
      {| grf_RXRate := Some (bitsPerSecond rxRate); grf_TXRate := Some (bitsPerSecond txRate) |}
    else no_bit_rates in
  let macTable := downstreamMACTable p in
  let link :=
    if v_Uplink p && (p_Speed (v_Port p) <=? 0) then portLinkFields 0 (effectivePortMedia (v_Port p) 0)
    else portLinkFields (v_Speed p) (v_Media p) in
  {| swp_PortIdx := v_Index p; swp_IfName := v_SwitchInterfaceName p; swp_Name := v_Name p;
     swp_Enable := v_Enabled p; swp_Up := v_Up p; swp_IsUplink := v_Uplink p; swp_OpMode := B "switch";
     swp_FullDuplex := true; swp_Autoneg := true; swp_FlowctrlRX := false; swp_FlowctrlTX := false;
     swp_PortPOE := false; swp_POEEnable := false; swp_POECaps := 0; swp_Satisfaction := 100;
     swp_STPState := B "forwarding"; swp_STPPathcost := 20000; swp_MACTable := macTable;
     swp_LastConnection := switchLastConnectionFor macTable; swp_linkFields := link;
     swp_counterFields := portCounterFields (v_Port p);
     swp_optionalRateFields := explicitPortRateFields (v_Port p); swp_gatewayRateFields := bitRates;
     swp_SourceInterface := v_SourceInterface p |}.
Definition portTable (ports : list PortView) : list switchPortRow := map switch_port_row ports.

Definition managementInterfaceSpeed (ports : list Port) : Z :=
  match find (λ p, p_Uplink p && (0 <? p_Speed p)) ports with
  | Some p => p_Speed p
  | None => match ports with p :: _ => if 0 <? p_Speed p then p_Speed p else 0 | [] => 0 end
  end.
Definition managementSpeed (ports : list Port) : Z :=
  let speed := managementInterfaceSpeed ports in if 0 <? speed then speed else 1000.

Definition buildSwitchPayload (base : basePayload) (profile : Profile) (id : Identity)
    (ports : list PortView) (numPorts ifSpeed : Z) : switchPayload :=
  let ifaceName := blank_default (pl_ManagementInterface (pr_Payload profile)) (B "eth0") in
  {| swr_basePayload := base; swr_switchTrafficSummary := switchTrafficSummaryFor ports;
     swr_IfTable := [switchManagementInterfaceRow ifaceName id ports numPorts ifSpeed];
     swr_EthernetTable :=
       [{| swe_Name := ifaceName; swe_MAC := id_MAC id; swe_NumPort := Some numPorts |};
        {| swe_Name := B "srv0"; swe_MAC := incrementMAC (id_MAC id); swe_NumPort := None |}];
     swr_PortTable := portTable ports; swr_Uplink := ifaceName;
     swr_LastUplink := switchLastUplinkRowFor ports; swr_LLDPTable := lldpTable ports |}.
End switch.

(** ** gateway_tables.go *)
Section gateway.
Context `{UnicodeTables}.

Definition gatewayIsLogicalRole (role : bytes) : bool :=
  bool_decide (normalizeGatewayRole role ∈ [gatewayPortRoleWAN; gatewayPortRoleWAN2; gatewayPortRoleLAN;
                                            gatewayPortRoleLAN2]).
(** The role is one of the two LAN roles. *)
Definition lan_role (role : bytes) : bool :=
  bool_decide (role ∈ [gatewayPortRoleLAN; gatewayPortRoleLAN2]).

Definition physicalIfName (view : PortView) : bytes :=
  let ifname := trim_space (v_PhysicalIfName view) in
  if negb (bool_decide (ifname = [])) then ifname else trim_space (iv_IfName (v_GatewayInterface view)).
Definition lower_trimmed (value : bytes) : bytes := to_lower (trim_space value).

Definition networkName (view : PortView) : bytes :=
  let value := trim_space (pg_NetworkName (p_Gateway (v_Port view))) in
  if negb (bool_decide (value = [])) then value
  else if negb (gatewayIsLogicalRole (v_Role view)) then []
  else
    let value := trim_space (v_NetworkGroup view) in
    if negb (bool_decide (value = [])) then to_lower value else to_lower (normalizeGatewayRole (v_Role view)).
Definition assignmentFields (view : PortView) : gatewayAssignmentFields :=
  let g := p_Gateway (v_Port view) in
  {| ga_PortConfID := trim_space (pg_PortConfID g); ga_NetworkConfID := trim_space (pg_NetworkConfID g);
     ga_NativeNetworkConfID := trim_space (pg_NativeNetworkConfID g); ga_NetworkName := networkName view;
     ga_VLAN := pg_VLAN g |}.

Definition portTableIP (view : PortView) : bytes :=
  let ip := trim_space (iv_IP (v_GatewayInterface view)) in
  if decide (ip = gatewayNoIP) then [] else ip.

Definition gateway_port_row (macTableIPv6Requested : bool) (view : PortView) : gatewayPortRow :=
  let iface := v_GatewayInterface view in
  let ifname := physicalIfName view in
  {| gpr_PortIdx := v_Index view; gpr_IfName := ifname; gpr_Name := ifname;
     gpr_MAC := lower_trimmed (iv_MAC iface); gpr_IP := portTableIP view;
     gpr_NetworkGroup := iv_NetworkGroup iface; gpr_Role := v_Role view; gpr_Type := B "ethernet";
     gpr_NumPort := 1; gpr_Enable := v_Enabled view; gpr_Up := v_Up view; gpr_Connected := v_Up view;
     gpr_IsUplink := v_Uplink view; gpr_OpMode := B "switch"; gpr_FullDuplex := true; gpr_Autoneg := true;
     gpr_FlowctrlRX := false; gpr_FlowctrlTX := false; gpr_PortPOE := false; gpr_POEEnable := false;
     gpr_POECaps := 0; gpr_POEClass := B "Class 0"; gpr_POEPower := B "0.00";
     gpr_MACTable := portMACTable view;
     gpr_MACTableIPv6 := (if macTableIPv6Requested then Some [] else None);
     gpr_gatewayAssignmentFields := assignmentFields view;
     gpr_gatewayPortLinkFields := gatewayPortLinkFieldsFor (v_Speed view) (v_Media view);
     gpr_counterFields := portCounterFields (v_Port view);
     gpr_optionalRateFields := explicitPortRateFields (v_Port view);
     gpr_gatewayRateFields := gatewayPortRateFields (v_Port view);
     gpr_SourceInterface := v_SourceInterface view; gpr_connectionFields := physicalConnectionFields view |}.
Definition gatewayPortTable (ports : list PortView) (macTableIPv6Requested : bool) : list gatewayPortRow :=
  map (gateway_port_row macTableIPv6Requested) ports.

Definition gateway_port_stats_row (view : PortView) : gatewayPortStatsRow :=
  let ifname := physicalIfName view in
  {| gps_PortIdx := v_Index view; gps_Name := ifname; gps_IfName := ifname;
     gps_MAC := lower_trimmed (iv_MAC (v_GatewayInterface view)); gps_Type := B "ethernet"; gps_NumPort := 1;
     gps_Media := v_Media view; gps_Speed := v_Speed view;
     gps_SpeedCaps := gatewaySpeedCapsCode (v_Speed view) (v_Media view); gps_Enable := v_Enabled view;
     gps_Up := v_Up view; gps_IsUplink := v_Uplink view; gps_FullDuplex := true; gps_Autoneg := true;
     gps_FlowctrlRX := false; gps_FlowctrlTX := false; gps_PortPOE := false; gps_POEEnable := false;
     gps_POEClass := B "Class 0"; gps_POEPower := B "0.00";
     gps_MACTable := default [] (portMACTable view); gps_counterFields := portCounterFields (v_Port view);
     gps_optionalRateFields := explicitPortRateFields (v_Port view);
     gps_gatewayRateFields := gatewayPortRateFields (v_Port view) |}.
Definition gatewayPortStatsTable (ports : list PortView) : list gatewayPortStatsRow :=
  map gateway_port_stats_row ports.

Definition gatewayEthernetTable (ports : list PortView) : list gatewayEthernetTableRow :=
  map (λ view,
    let ifname := physicalIfName view in
    {| get_MAC := lower_trimmed (iv_MAC (v_GatewayInterface view)); get_PortIdx := v_Index view;
       get_NumPort := 1; get_Name := ifname; get_IfName := ifname; get_Media := v_Media view;
       get_PortPOE := false; get_SpeedCaps := gatewaySpeedCapsCode (v_Speed view) (v_Media view) |}) ports.

Definition gatewayConfigPortTable (ports : list PortView) : list gatewayConfigPortRow :=
  map (λ view,
    {| gcp_Name := v_Name view; gcp_IfName := physicalIfName view; gcp_PortIdx := v_Index view;
       gcp_NetworkGroup := v_NetworkGroup view; gcp_Role := v_Role view; gcp_Up := v_Up view;
       gcp_Enable := v_Enabled view; gcp_IsUplink := v_Uplink view;
       gcp_gatewayAssignmentFields := assignmentFields view;
       gcp_linkFields := portLinkFields (v_Speed view) (v_Media view);
       gcp_SourceInterface := v_SourceInterface view;
       gcp_connectionFields := physicalConnectionFields view |}) ports.

Definition unassigned (view : PortView) : bool :=
  negb (gatewayIsLogicalRole (v_Role view))
  && equal_fold (trim_space (v_NetworkGroup view)) gatewayNetworkGroupNone.
Definition needsAllEthernetOverrides (ports : list PortView) : bool :=
  existsb (λ view,
    let g := p_Gateway (v_Port view) in
    unassigned view
    || negb (bool_decide (trim_space (pg_PortConfID g) = []))
    || negb (bool_decide (trim_space (pg_NetworkConfID g) = []))
    || negb (bool_decide (trim_space (pg_NativeNetworkConfID g) = []))) ports.
Definition disabledEthernetOverride (view : PortView) : gatewayEthernetOverrideRow :=
  let ifname := physicalIfName view in
  {| geo_Name := ifname; geo_IfName := ifname; geo_PortIdx := v_Index view;
     geo_MAC := lower_trimmed (iv_MAC (v_GatewayInterface view)); geo_NetworkGroup := gatewayNetworkGroupNone;
     geo_Role := v_Role view; geo_Up := false; geo_Enable := false; geo_Disabled := true;
     geo_gatewayAssignmentFields := MkGatewayAssignmentFields [] [] [] [] 0;
     geo_linkFields := MkLinkFields 0 0 None []; geo_SourceInterface := v_SourceInterface view;
     geo_connectionFields := MkConnectionFields false None |}.
Definition ethernet_override (complete : bool) (view : PortView) : option gatewayEthernetOverrideRow :=
  if negb (gatewayIsLogicalRole (v_Role view)) then
    if complete && equal_fold (trim_space (v_NetworkGroup view)) gatewayNetworkGroupNone
    then Some (disabledEthernetOverride view) else None
  else if negb complete && negb (lan_role (gatewayPortRole (v_Port view))) then None
  else if decide (trim_space (physicalIfName view) = []) then None
  else
    let ifname := physicalIfName view in
    Some {| geo_Name := ifname; geo_IfName := ifname; geo_PortIdx := v_Index view;
            geo_MAC := lower_trimmed (iv_MAC (v_GatewayInterface view));
            geo_NetworkGroup := v_NetworkGroup view; geo_Role := v_Role view; geo_Up := v_Up view;
            geo_Enable := v_Enabled view; geo_Disabled := false;
            geo_gatewayAssignmentFields := assignmentFields view;
            geo_linkFields := portLinkFields (v_Speed view) (v_Media view);
            geo_SourceInterface := v_SourceInterface view;
            geo_connectionFields := physicalConnectionFields view |}.
Definition gatewayEthernetOverrides (ports : list PortView) : list gatewayEthernetOverrideRow :=
  omap (ethernet_override (needsAllEthernetOverrides ports)) ports.

Definition uplinkPortIndex (ports : list PortView) : Z :=
  match uplink_view ports with Some view => v_Index view | None => 1 end.

Definition gatewayInterfaceViewScore (view : PortView) : Z :=
  (if v_Up view then 4 else 0) + (if bool_decide (trim_space (v_SourceInterface view) = []) then 0 else 2)
  + (if v_Uplink view then 1 else 0).
Definition gatewayPreferInterfaceView (candidate current : PortView) : bool :=
  let candidateScore := gatewayInterfaceViewScore candidate in
  let currentScore := gatewayInterfaceViewScore current in
  if negb (candidateScore =? currentScore) then currentScore <? candidateScore
  else v_Index candidate <? v_Index current.

Definition logical_ifname (view : PortView) : bytes := trim_space (iv_IfName (v_GatewayInterface view)).
(** One view against the rows kept so far; [seen] of the code maps an interface
    name to the position of its only row. *)
Fixpoint keep_interface (view : PortView) (out : list PortView) : list PortView :=
  match out with
  | [] => [view]
  | current :: rest =>
      if decide (logical_ifname current = logical_ifname view) then
        (if gatewayPreferInterfaceView view current then view else current) :: rest
      else current :: keep_interface view rest
  end.
Definition logical_step (out : list PortView) (view : PortView) : list PortView :=
  if negb (gatewayIsLogicalRole (v_Role view)) then out
  else if decide (logical_ifname view = []) then out
  else keep_interface view out.
Definition logicalInterfacePorts (ports : list PortView) : list PortView := fold_left logical_step ports [].

Definition gateway_if_row (id : Identity) (uplinkIndex : Z) (view : PortView) : gatewayIfRow :=
  let iface := v_GatewayInterface view in
  let vlan := if v_Index view =? uplinkIndex then id_ManagementVLAN id else 0 in
  {| gif_Name := iv_Name iface; gif_IfName := iv_IfName iface; gif_Comment := iv_Comment iface;
     gif_PortIdx := v_Index view; gif_MAC := iv_MAC iface; gif_IP := iv_IP iface;
     gif_Netmask := iv_Netmask iface; gif_IPv6 := cloneIPv6 (iv_IPv6 iface); gif_NumPort := 1;
     gif_Up := v_Up view; gif_Enable := v_Enabled view; gif_NetworkGroup := iv_NetworkGroup iface;
     gif_FullDuplex := true; gif_PhysicalPorts := [v_Index view]; gif_VLAN := vlan;
     gif_ManagementVLAN := vlan; gif_linkFields := portLinkFields (v_Speed view) (v_Media view);
     gif_counterFields := portCounterFields (v_Port view);
     gif_optionalRateFields := explicitPortRateFields (v_Port view);
     gif_gatewayRateFields := gatewayPortRateFields (v_Port view);
     gif_SourceInterface := v_SourceInterface view; gif_connectionFields := gatewayConnectionFields view |}.
Definition gatewayIfTable (id : Identity) (ports : list PortView) : list gatewayIfRow :=
  let ports := logicalInterfacePorts ports in
  map (gateway_if_row id (uplinkPortIndex ports)) ports.

Definition gatewayNetworkInterfaceName (view : PortView) : bytes :=
  if lan_role (gatewayPortRole (v_Port view)) && negb (bool_decide (physicalIfName view = []))
  then physicalIfName view else iv_IfName (v_GatewayInterface view).
Definition interfaceAddresses (iface : InterfaceView) : list bytes :=
  let address := trim_space (iv_Address iface) in
  (if decide (address = []) then [] else [address]) ++ cloneIPv6 (iv_IPv6 iface).

Definition gateway_network_row (view : PortView) : gatewayNetworkRow :=
  let iface := v_GatewayInterface view in
  let ifname := gatewayNetworkInterfaceName view in
  {| gnr_Name := iv_Name iface; gnr_IfName := ifname; gnr_GatewayInterfaceName := ifname;
     gnr_PortIdx := v_Index view; gnr_MAC := iv_MAC iface; gnr_NetworkGroup := iv_NetworkGroup iface;
     gnr_IP := iv_IP iface; gnr_Netmask := iv_Netmask iface; gnr_Address := iv_Address iface;
     gnr_Addresses := interfaceAddresses iface; gnr_Up := boolText (v_Up view);
     gnr_L1Up := boolText (v_Up view); gnr_Autoneg := B "true"; gnr_Duplex := B "full";
     gnr_Speed := itoa (v_Speed view); gnr_MaxSpeed := itoa (v_Speed view); gnr_MTU := B "1500";
     gnr_Stats :=
       {| gns_counterFields := portCounterFields (v_Port view);
          gns_optionalRateFields := explicitPortRateFields (v_Port view);
          gns_gatewayRateFields := gatewayPortRateFields (v_Port view) |};
     gnr_SourceInterface := v_SourceInterface view;
     gnr_connectionFields := MkConnectionFields (v_Up view) None; gnr_HostTable := gatewayHostTable view |}.
Definition gatewayNetworkTable (ports : list PortView) : list gatewayNetworkRow :=
  map gateway_network_row (logicalInterfacePorts ports).

Definition gateway_reported_row (view : PortView) : gatewayReportedNetworkRow :=
  let iface := v_GatewayInterface view in
  {| grn_Name := iv_NetworkGroup iface; grn_IfName := gatewayNetworkInterfaceName view;
     grn_PortIdx := v_Index view; grn_NetworkGroup := iv_NetworkGroup iface; grn_Type := v_Role view;
     grn_IP := iv_IP iface; grn_Netmask := iv_Netmask iface; grn_Address := iv_Address iface;
     grn_Addresses := interfaceAddresses iface; grn_Up := v_Up view;
     grn_SourceInterface := v_SourceInterface view;
     grn_connectionFields := MkConnectionFields (v_Up view) None |}.
Definition gatewayReportedNetworks (ports : list PortView) : list gatewayReportedNetworkRow :=
  map gateway_reported_row (logicalInterfacePorts ports).

(** ** gateway_network.go *)
Definition gatewayRoleCandidates (ports : list PortView) (role : bytes) : list PortView :=
  let matches := filter (λ view, gatewayPortRole (v_Port view) = role) ports in
  let active := filter (λ view,
    v_Up view && (v_Uplink view || negb (bool_decide (trim_space (v_SourceInterface view) = []))) = true) matches in
  match active, matches with
  | _ :: _, _ => active
  | [], _ :: _ => matches
  | [], [] => ports
  end.
(** The first candidate with the role, which every loop over the candidates
    takes. *)
Definition role_view (ports : list PortView) (role : bytes) : option PortView :=
  find (λ view, bool_decide (gatewayPortRole (v_Port view) = role)) (gatewayRoleCandidates ports role).

Definition gatewayConfigNetwork (ports : list PortView) (role : bytes) : gatewayConfigNetworkRow * bool :=
  match role_view ports role with
  | None =>
      ({| gcn_Type := B "dhcp"; gcn_Name := []; gcn_IfName := []; gcn_PortIdx := 0; gcn_NetworkGroup := [];
          gcn_UplinkIfName := []; gcn_IP := None; gcn_Netmask := None; gcn_Speed := None;
          gcn_Autoneg := None; gcn_FullDuplex := None; gcn_DHCPOptions := [] |}, false)
  | Some view =>
      let iface := v_GatewayInterface view in
      let speed := if (0 <? v_Speed view) && negb (v_Up view) then itoa (v_Speed view) else B "auto" in
      ({| gcn_Type := B "dhcp"; gcn_Name := iv_NetworkGroup iface; gcn_IfName := iv_IfName iface;
          gcn_PortIdx := v_Index view; gcn_NetworkGroup := iv_NetworkGroup iface;
          gcn_UplinkIfName := iv_IfName iface; gcn_IP := Some (iv_IP iface);
          gcn_Netmask := Some (iv_Netmask iface); gcn_Speed := Some speed; gcn_Autoneg := Some true;
          gcn_FullDuplex := Some true; gcn_DHCPOptions := [] |}, true)
  end.

Definition lan_config_view (activeOnly : bool) (role : bytes) (view : PortView) : bool :=
  bool_decide (gatewayPortRole (v_Port view) = role)
  && negb (activeOnly && negb (v_Up view) && bool_decide (trim_space (v_SourceInterface view) = [])).
Definition gatewayLANConfigPort (ports : list PortView) : option PortView :=
  head (omap (λ k : bool * bytes, find (lan_config_view k.1 k.2) ports)
          [(true, gatewayPortRoleLAN); (true, gatewayPortRoleLAN2);
           (false, gatewayPortRoleLAN); (false, gatewayPortRoleLAN2)]).
Definition gatewayConfigLAN (ports : list PortView) : option gatewayConfigLANRow :=
  view ← gatewayLANConfigPort ports;
  let iface := v_GatewayInterface view in
  let g := p_Gateway (v_Port view) in
  let lanIfName := if decide (physicalIfName view = []) then iv_IfName iface else physicalIfName view in
  Some {| gcl_Name := iv_NetworkGroup iface; gcl_IfName := lanIfName; gcl_PortIdx := v_Index view;
          gcl_NetworkGroup := iv_NetworkGroup iface; gcl_IP := Some (iv_IP iface);
          gcl_Netmask := Some (iv_Netmask iface); gcl_UplinkIfName := lanIfName;
          gcl_NetworkConfID := trim_space (pg_NetworkConfID g);
          gcl_NativeNetworkConfID := trim_space (pg_NativeNetworkConfID g);
          gcl_NetworkName := networkName view; gcl_DHCPEnabled := false; gcl_DHCPRangeStart := [];
          gcl_DHCPRangeStop := []; gcl_CIDR := iv_Address iface;
          gcl_VLAN := (if pg_VLAN g <=? 0 then 1 else pg_VLAN g) |}.

Definition gatewayTrafficSummaryFor (ports : list PortView) (role : bytes) : gatewayTrafficSummary :=
  match role_view ports role with
  | None => MkGatewayTrafficSummary None None None None None None None None
  | Some view =>
      let '(b, rx, tx) := summary_bytes (v_Port view) in
      let '(br, rxb, txb, rxr, txr) := summary_rates view in
      {| gts_Bytes := b; gts_RXBytes := rx; gts_TXBytes := tx; gts_BytesRate := br;
         gts_RXBytesRate := rxb; gts_TXBytesRate := txb; gts_RXRate := rxr; gts_TXRate := txr |}
  end.

Definition wan_row (view : PortView) : gatewayWANInventoryRow :=
  let iface := v_GatewayInterface view in
  {| gwi_Enabled := v_Enabled view; gwi_Interface := iv_IfName iface; gwi_IPv4 := iv_IP iface;
     gwi_IPv6 := cloneIPv6 (iv_IPv6 iface); gwi_MAC := iv_MAC iface; gwi_Plugged := v_Up view;
     gwi_Port := v_Index view; gwi_Type := to_upper (iv_NetworkGroup iface) |}.
Definition gatewayWans (ports : list PortView) : list gatewayWANInventoryRow :=
  omap (λ role, wan_row <$> role_view ports role) [gatewayPortRoleWAN; gatewayPortRoleWAN2].

(** ** gateway_health.go *)
Definition gateway_uplink_row (id : Identity) (view : PortView) : gatewayUplinkRow :=
  let iface := v_GatewayInterface view in
  {| gur_Name := iv_Name iface; gur_IfName := iv_IfName iface; gur_PortIdx := v_Index view;
     gur_MAC := iv_MAC iface; gur_Type := B "wire"; gur_NetworkGroup := iv_NetworkGroup iface;
     gur_UplinkIfName := iv_IfName iface; gur_IP := iv_IP iface; gur_Up := v_Up view;
     gur_Enable := v_Enabled view; gur_FullDuplex := true; gur_VLAN := id_ManagementVLAN id;
     gur_ManagementVLAN := id_ManagementVLAN id;
     gur_linkFields := portLinkFields (v_Speed view) (v_Media view);
     gur_counterFields := portCounterFields (v_Port view);
     gur_optionalRateFields := explicitPortRateFields (v_Port view);
     gur_gatewayRateFields := gatewayPortRateFields (v_Port view);
     gur_SourceInterface := v_SourceInterface view; gur_connectionFields := gatewayConnectionFields view |}.
Definition gatewayUplinkTable (id : Identity) (ports : list PortView) : option (list gatewayUplinkRow) :=
  view ← find (λ view, v_Index view =? uplinkPortIndex ports) ports;
  Some [gateway_uplink_row id view].
Definition gatewayLastWANIP (ports : list PortView) : bytes :=
  match role_view ports gatewayPortRoleWAN with
  | Some view => iv_IP (v_GatewayInterface view)
  | None => []
  end.

(** ** gateway_identity.go: the root selector *)
Definition gatewayUplinkInterfaceName (profile : Profile) (ports : list PortView) : bytes :=
  match find (λ view, v_Uplink view && negb (bool_decide (logical_ifname view = []))) ports with
  | Some view => iv_IfName (v_GatewayInterface view)
  | None => gatewayInterfaceName profile (uplinkPortIndex ports)
  end.
End gateway.

(** ** telemetry_helpers.go *)
Definition formatUptime (seconds : Z) : bytes :=
  let seconds := if seconds <? 1 then 1 else seconds in
  let days := seconds / 86400 in
  let seconds := seconds mod 86400 in
  let hours := seconds / 3600 in
  let seconds := seconds mod 3600 in
  let minutes := seconds / 60 in
  let seconds := seconds mod 60 in
  let d := itoa days ++ B "d" in
  let h := itoa hours ++ B "h" in
  let m := itoa minutes ++ B "m" in
  let s := itoa seconds ++ B "s" in
  if 0 <? days then d ++ h ++ m ++ s
  else if 0 <? hours then h ++ m ++ s
  else if 0 <? minutes then m ++ s
  else s.

Definition gatewaySpeedtestStatus : speedtestStatusPayload :=
  let zero := float_of_int 0 in
  {| sps_Latency := 0; sps_RunDate := 0; sps_Runtime := 0;
     sps_Server :=
       {| sts2_CountryCode := []; sts2_City := []; sts2_Country := []; sts2_Latitude := zero;
          sts2_Longitude := zero; sts2_Provider := []; sts2_ProviderURL := [] |};
     sps_SourceIf := []; sps_StatusDownload := 0; sps_StatusPing := 0; sps_StatusSummary := 0;
     sps_StatusUpload := 0; sps_XputDownload := zero; sps_XputUpload := zero |}.

Definition gatewaySysID (macText : bytes) : Z :=
  match parse_mac macText with
  | None => 42615
  | Some mac =>
      if zlen mac <? 2 then 42615
      else
        let n := length mac in
        Z.lor (Z.shiftl (b2z (nth (n - 2) mac x00)) 8) (b2z (nth (n - 1) mac x00))
  end.

(** ** The clock

    A [time.Time] is a pair of Unix seconds, an int64, and nanoseconds. *)
Definition wall_time : Type := Z * Z.

Definition reportedWallClock (local : wall_time) (offsetSeconds : Z) : wall_time :=
  let '(seconds, nanoseconds) := local in
  let seconds :=
    if (0 <? offsetSeconds) && (wrap64 (int64_max - offsetSeconds) <? seconds) then int64_max
    else if (offsetSeconds <? 0) && (seconds <? wrap64 (int64_min - offsetSeconds)) then int64_min
    else wrap64 (seconds + offsetSeconds) in
  (seconds, nanoseconds).

Definition saturatedUnixMilli (value : wall_time) : Z :=
  let '(seconds, nanoseconds) := value in
  let milliseconds := nanoseconds / 1000000 in
  if (Z.quot int64_max 1000 <? seconds)
     || (seconds =? Z.quot int64_max 1000) && (Z.rem int64_max 1000 <? milliseconds)
  then int64_max
  else if seconds <? Z.quot int64_min 1000 then int64_min
  else wrap64 (wrap64 (seconds * 1000) + milliseconds).

(** [UTC().Format] with the layout of the timestamp field.  Package [time]
    counts seconds from the first of March of the year -292277022400, modulo 2
    to the 64th; the calendar is the Gregorian one with the year starting in
    March. *)
Definition absolute_epoch : Z := 9223372028741760000.
Definition pad (width : nat) (n : Z) : bytes :=
  let s := itoa n in repeat x30 (width - length s) ++ s.
Definition civil (days : Z) : Z * Z * Z :=
  let era := days / 146097 in
  let doe := days mod 146097 in
  let yoe := (doe - doe / 1460 + doe / 36524 - doe / 146096) / 365 in
  let doy := doe - (365 * yoe + yoe / 4 - yoe / 100) in
  let mp := (5 * doy + 2) / 153 in
  let month := if mp <? 10 then mp + 3 else mp - 9 in
  (yoe + era * 400 + (if month <=? 2 then 1 else 0) - 292277022400, month, doy - (153 * mp + 2) / 5 + 1).
Definition format_year (year : Z) : bytes :=
  if year <? 0 then B "-" ++ pad 4 (- year) else pad 4 year.
Definition format_time (seconds : Z) : bytes :=
  let abs := (seconds + absolute_epoch) mod 2 ^ 64 in
  let '(year, month, day) := civil (abs / 86400) in
  let rest := abs mod 86400 in
  format_year year ++ B "-" ++ pad 2 month ++ B "-" ++ pad 2 day ++ B "T"
  ++ pad 2 (rest / 3600) ++ B ":" ++ pad 2 (rest mod 3600 / 60) ++ B ":" ++ pad 2 (rest mod 60).

Example format_time_ok :
  format_time 0 = B "1970-01-01T00:00:00" ∧ format_time 1709251199 = B "2024-02-29T23:59:59" ∧
  format_time (-62135596801) = B "0000-12-31T23:59:59".
Proof. by vm_compute. Qed.

(** ** telemetry.go *)
Definition gatewayUDAPIVersionRef : udapiVersionPayload :=
  {| uv_Path := B "/system/ubios/udm/configuration"; uv_Version := 48;
     uv_VersionDetail := [(B "configuration", 48)] |}.
Definition requested_capabilities : gatewayCapabilities :=
  {| gc_GTI := true; gc_HB46PPIPIP := true; gc_HB46PPMapEHubSpoke := true; gc_JPIXMapE := true;
     gc_MDNSTable := true; gc_NTTMapE := true; gc_WANMagic := true |}.
(** A list that is only reported if it is wanted. *)
Definition empty_if (wanted : bool) : option (list unit) := if wanted then Some [] else None.

Definition newGatewayTelemetry (profile : Profile) (id : Identity) (now : wall_time) (uptime : Z)
    (cfgVersion : bytes) (lldp : list lldpRow) : gatewayTelemetry :=
  let cfgVersion := if decide (cfgVersion = []) then B "?" else cfgVersion in
  let reportingPolicy :=
    ResolveControllerReportingPolicy (pr_SourceType profile) (pr_Name profile) (id_Model id) (id_Version id) in
  let idle := pol_IdleSpeedtest reportingPolicy in
  {| gt_AnonID := []; gt_Architecture := B "aarch64"; gt_BLECaps := 0; gt_BoardRevision := 1;
     gt_BOMRevision := B "unknown"; gt_BOMRevisionID := B "00000000"; gt_Boot := tt; gt_BootID := -1;
     gt_BootROMVersion := B "unknown"; gt_CFGVersionEffective := cfgVersion; gt_Connections := [];
     gt_ContentFilteringStatus := MkFeatureStatusPayload (B "UNAVAILABLE_NO_SUBSCRIPTION");
     gt_DNSShield := MkHashPayload []; gt_DPIStats := empty_if (negb (id_DPIStatsExcluded id));
     gt_Dualboot := false; gt_EverCrash := false;
     gt_Fingerprint := B "00:00:00:00:00:00:00:00:00:00:00:00:00:00:00:00";
     gt_Fingerprints := empty_if (negb (id_FingerprintsExcluded id)); gt_FW2Caps := 669375863;
     gt_FWCaps := 1659698733; gt_GuestKicks := 0; gt_GuestToken := [];
     gt_GWCapabilities := (if id_GWCapabilitiesRequested id then Some requested_capabilities else None);
     gt_HardwareUUID := B "00000000-0000-4000-8000-000000000000"; gt_HasDefaultRouteDist := true;
     gt_HasSpeaker := false; gt_HasSSHDisable := true; gt_HasVTI := true; gt_HWCapabilities := 152;
     gt_IDsIPSRule := MkGatewayRulePayload 0 [] [] []; gt_InformMinInterval := 1;
     gt_IPv4ActiveLeases := empty_if (id_IPv4ActiveLeasesRequested id); gt_Isolated := false;
     gt_KernelVersion := B "6.12.0-stubd"; gt_LastErrorConns := [];
     gt_LEDState := MkLedStatePayload (B "0") 120; gt_LLDPTable := lldp; gt_Locating := false;
     gt_ManufacturerID := 61; gt_Netmask := B "255.255.255.0"; gt_OutletEnabled := false;
     gt_OutletOverrides := []; gt_OutletTable := []; gt_PingtestStatus := []; gt_QRID := [];
     gt_RebootDuration := 30; gt_SelfrunBeacon := true;
     gt_SpeedtestStatus := (if idle then Some gatewaySpeedtestStatus else None);
     gt_SpeedtestStatusUDAPI := empty_if idle; gt_SSHSessionTable := []; gt_StatsInformInterval := 0;
     gt_SwitchCaps := MkSwitchCapsPayload 1048576 0 1; gt_SysErrorCaps := 0;
     gt_SysID := gatewaySysID (id_MAC id); gt_TeleportVersion := 1; gt_TimeMS := saturatedUnixMilli now;
     gt_Timestamp := format_time (fst now); gt_TMReady := false; gt_Triggers := [];
     gt_TriggersDNSFilter := []; gt_TriggersGeo := []; gt_UDAPICaps := 1610591215;
     gt_UDAPIVersion := (if id_UDAPIVersionExcluded id then None else Some gatewayUDAPIVersionRef);
     gt_UpgradeDuration := 150; gt_UptimeText := formatUptime uptime; gt_USG2Caps := 0; gt_USGCaps := 0;
     gt_WiFiCaps := 0 |}.

(** ** gateway.go *)
Section build.
Context `{UnicodeTables}.

Definition gatewayHasEth1 (ports : list PortView) : bool :=
  existsb (λ view, bool_decide (logical_ifname view = B "eth1")) ports.
Definition gatewayLANIP (configLAN : option gatewayConfigLANRow) : bytes :=
  default [] (row ← configLAN; gcl_IP row).

Definition buildGatewayPayload (base : basePayload) (profile : Profile) (id : Identity)
    (ports : list PortView) (now : wall_time) (uptime : Z) : gatewayPayload :=
  let configWAN2 := gatewayConfigNetwork ports gatewayPortRoleWAN2 in
  let configLAN := gatewayConfigLAN ports in
  {| gp_basePayload := base;
     gp_gatewayTelemetry := newGatewayTelemetry profile id now uptime (bp_CFGVersion base) (lldpTable ports);
     gp_gatewayTrafficSummary := gatewayTrafficSummaryFor ports gatewayPortRoleWAN;
     gp_IfTable := gatewayIfTable id ports; gp_NetworkTable := gatewayNetworkTable ports;
     gp_ConfigPortTable := gatewayConfigPortTable ports; gp_EthernetTable := gatewayEthernetTable ports;
     gp_EthernetOverrides := gatewayEthernetOverrides ports;
     gp_PortTable := gatewayPortTable ports (id_GatewayMACIPv6Requested id);
     gp_PortStats := gatewayPortStatsTable ports; gp_ReportedNetworks := gatewayReportedNetworks ports;
     gp_Wans := gatewayWans ports; gp_Uplink := gatewayUplinkInterfaceName profile ports;
     gp_UplinkDepth := 0; gp_LastUplink := None; gp_UplinkTable := gatewayUplinkTable id ports;
     gp_LastWANIP := gatewayLastWANIP ports; gp_LANIP := gatewayLANIP configLAN;
     gp_HasEth1 := gatewayHasEth1 ports; gp_HasDPI := pl_HasDPI (pr_Payload profile);
     gp_ConfigNetworkWAN := (gatewayConfigNetwork ports gatewayPortRoleWAN).1;
     gp_ConfigNetworkLAN := configLAN;
     gp_ConfigNetworkWAN2 := (if configWAN2.2 then Some configWAN2.1 else None) |}.

(** ** build.go *)
Context `{MapOrder}.

Definition base_payload (profile : Profile) (id : Identity) (numPorts : Z) (wireState : InformState)
    (now : wall_time) : basePayload :=
  {| bp_MAC := id_MAC id; bp_IP := id_IP id; bp_Hostname := id_Hostname id; bp_Model := id_Model id;
     bp_ModelDisplay := id_ModelDisplay id; bp_Type := deviceTypeOrDefault (id_DeviceType id);
     bp_Version := id_Version id; bp_Serial := id_Serial id; bp_NumPort := numPorts; bp_State := wireState;
     bp_Adopted := id_Adopted id; bp_Default := wireState =? InformStateDefault;
     bp_DiscoveryResponse := true; bp_RequiredVersion := pl_RequiredVersion (pr_Payload profile);
     bp_CFGVersion := (if decide (id_CFGVersion id = []) then B "?" else id_CFGVersion id);
     bp_Uptime := identityUptime (id_UptimeSeconds id); bp_Time := fst now;
     bp_InformURL :=
       (if decide (id_InformURL id = []) then B "http://unifi:8080/inform" else id_InformURL id);
     bp_ManagementVLAN := id_ManagementVLAN id; bp_InformIP := id_InformIP id |}.

(** The two kinds of document. *)
Definition Build (clock : wall_time) (profile : Profile) (id : Identity) (ports : list Port)
    : result error (switchPayload + gatewayPayload) :=
  let profile := normalizePayloadProfile profile id in
  let now := reportedWallClock clock (id_ControllerTimeOffsetSeconds id) in
  let uptime := identityUptime (id_UptimeSeconds id) in
  wireState ← informState id;
  let base := base_payload profile id (zlen ports) wireState now in
  topology ← wrap_err "resolve topology"%stdpp (ResolveTopology ports);
  let portViews := BuildPortViews profile id ports topology in
  if decide (pl_Kind (pr_Payload profile) = payloadKindGateway) then
    Ok (inr (buildGatewayPayload base profile id portViews now uptime))
  else Ok (inl (buildSwitchPayload base profile id portViews (zlen ports) (managementSpeed ports))).
Definition payload_json (payload : switchPayload + gatewayPayload) : json :=
  match payload with inl p => switchPayload_json p | inr p => gatewayPayload_json p end.
End build.
