(* ===== verification/PayloadMarshal.v ===== *)
(** [encoding/json] fails on floats that are not finite; this file shows that it
    never does on a document of [src/internal/device/payload]: the only floats
    of a payload are the zeros of the idle speed test, and no document is nested
    deeper than [payload_depth].  The text is in JsonText. *)
From Stdlib Require Import Floats.SpecFloat.
From S2P Require Import Prelude Identity GoStrings GoFloat GoMap Ports Topology PayloadTypes PayloadViews.
From S2P Require Import Payload.

(** ** Which trees the encoder accepts *)
Fixpoint marshals (j : json) : bool :=
  match j with
  | JFloat f => is_finite f
  | JList l => forallb marshals l
  | JObject members => forallb (λ m, marshals m.2) members
  | _ => true
  end.

(** A document of the payload package: nested at most [n] deep, and no float
    but zero. *)
Fixpoint plain (n : nat) (j : json) {struct j} : bool :=
  match j with
  | JFloat f => match f with S754_zero false => true | _ => false end
  | JList l => match n with O => false | S n => forallb (plain n) l end
  | JObject members => match n with O => false | S n => forallb (λ m, plain n m.2) members end
  | _ => true
  end.

(** A predicate that holds of zero holds of a plain tree's floats. *)
Lemma plain_marshals n j : plain n j = true → marshals j = true.
Proof.
  revert n. induction j as [|b|z|f|s|l IH|l IH] using json_ind'; intros n; cbn; try done.
  - by destruct f as [[]| | |].
  - destruct n as [|n]; [done|]. rewrite !forallb_forall. intros Hn v Hv.
    eapply (proj1 (Forall_forall _ _)) in IH; [|by apply list_elem_of_In]. by apply (IH n), Hn.
  - destruct n as [|n]; [done|]. rewrite !forallb_forall. intros Hn v Hv.
    eapply (proj1 (Forall_forall _ _)) in IH; [|by apply list_elem_of_In]. by apply (IH n), Hn.
Qed.

Definition field_ok (n : nat) (f : json_field) : Prop :=
  match jf_value f with Some v => plain n v = true | None => True end.
Definition fields_ok (n : nat) (fields : list json_field) : Prop := Forall (field_ok n) fields.

Lemma struct_ok n fields : fields_ok n fields → plain (S n) (json_struct fields) = true.
Proof.
  intros Hf. cbn. apply forallb_forall. intros m Hm%list_elem_of_In.
  apply list_elem_of_omap in Hm as (f & Hin & Em).
  eapply (proj1 (Forall_forall _ _)) in Hf; [|exact Hin]. unfold field_ok in Hf.
  destruct (dominant fields f); [|done]. destruct (jf_value f); [|done]. by injection Em as <-.
Qed.
Lemma embed_ok n fields : fields_ok n fields → fields_ok n (embed fields).
Proof. intros Hf. by apply Forall_fmap. Qed.
Lemma field_value_ok n name v : plain n v = true → field_ok n (field name v).
Proof. done. Qed.
Lemma field_omit_ok {A} n name empty (enc : A → json) a :
  plain n (enc a) = true → field_ok n (field_omit name empty enc a).
Proof. unfold field_ok, field_omit. cbn. by destruct (empty a). Qed.
Lemma pointer_ok {A} n (enc : A → json) p : (∀ a, plain n (enc a) = true) → plain n (json_pointer enc p) = true.
Proof. by destruct p; cbn. Qed.
Lemma list_ok {A} n (enc : A → json) l : (∀ a, plain n (enc a) = true) → plain (S n) (json_list enc l) = true.
Proof. intros He. cbn. apply forallb_forall. intros j (a & <- & _)%in_map_iff. apply He. Qed.
Lemma map_ok {A} n (enc : A → json) l : (∀ a, plain n (enc a) = true) → plain (S n) (json_map enc l) = true.
Proof. intros He. cbn. apply forallb_forall. intros j (a & <- & _)%in_map_iff. apply He. Qed.

Create HintDb marshal.
Ltac marshal_value :=
  solve [reflexivity | auto with marshal | apply pointer_ok; intros; marshal_value
        | apply list_ok; intros; marshal_value | apply map_ok; intros; marshal_value
        | apply struct_ok; auto with marshal].
Ltac marshal_fields :=
  repeat first
    [ apply Forall_app; split | apply embed_ok | apply Forall_cons; split | apply Forall_nil; exact I
    | solve [auto with marshal]
    | apply field_value_ok; marshal_value | apply field_omit_ok; marshal_value ].

(** ** The rows *)
Lemma MacTableEntry_fields_ok n x : fields_ok n (MacTableEntry_fields x).
Proof. unfold MacTableEntry_fields. marshal_fields. Qed.
Lemma MacTableEntry_ok n x : plain (S n) (MacTableEntry_json x) = true.
Proof. apply struct_ok, MacTableEntry_fields_ok. Qed.
#[export] Hint Resolve MacTableEntry_ok : marshal.
Lemma basePayload_fields_ok n x : fields_ok n (basePayload_fields x).
Proof. unfold basePayload_fields. marshal_fields. Qed.
#[export] Hint Resolve basePayload_fields_ok : marshal.
Lemma linkFields_fields_ok n x : fields_ok (S n) (linkFields_fields x).
Proof. unfold linkFields_fields. marshal_fields. Qed.
#[export] Hint Resolve linkFields_fields_ok : marshal.
Lemma counterFields_fields_ok n x : fields_ok n (counterFields_fields x).
Proof. unfold counterFields_fields. marshal_fields. Qed.
#[export] Hint Resolve counterFields_fields_ok : marshal.
Lemma optionalRateFields_fields_ok n x : fields_ok n (optionalRateFields_fields x).
Proof. unfold optionalRateFields_fields. marshal_fields. Qed.
#[export] Hint Resolve optionalRateFields_fields_ok : marshal.
Lemma gatewayRateFields_fields_ok n x : fields_ok n (gatewayRateFields_fields x).
Proof. unfold gatewayRateFields_fields. marshal_fields. Qed.
#[export] Hint Resolve gatewayRateFields_fields_ok : marshal.
Lemma lldpRow_fields_ok n x : fields_ok n (lldpRow_fields x).
Proof. unfold lldpRow_fields. marshal_fields. Qed.
Lemma lldpRow_ok n x : plain (S n) (lldpRow_json x) = true.
Proof. apply struct_ok, lldpRow_fields_ok. Qed.
#[export] Hint Resolve lldpRow_ok : marshal.
Lemma switchInterfaceRow_fields_ok n x : fields_ok n (switchInterfaceRow_fields x).
Proof. unfold switchInterfaceRow_fields. marshal_fields. Qed.
Lemma switchInterfaceRow_ok n x : plain (S n) (switchInterfaceRow_json x) = true.
Proof. apply struct_ok, switchInterfaceRow_fields_ok. Qed.
#[export] Hint Resolve switchInterfaceRow_ok : marshal.
Lemma switchEthernetRow_fields_ok n x : fields_ok n (switchEthernetRow_fields x).
Proof. unfold switchEthernetRow_fields. marshal_fields. Qed.
Lemma switchEthernetRow_ok n x : plain (S n) (switchEthernetRow_json x) = true.
Proof. apply struct_ok, switchEthernetRow_fields_ok. Qed.
#[export] Hint Resolve switchEthernetRow_ok : marshal.
Lemma switchLastConnection_fields_ok n x : fields_ok n (switchLastConnection_fields x).
Proof. unfold switchLastConnection_fields. marshal_fields. Qed.
Lemma switchLastConnection_ok n x : plain (S n) (switchLastConnection_json x) = true.
Proof. apply struct_ok, switchLastConnection_fields_ok. Qed.
#[export] Hint Resolve switchLastConnection_ok : marshal.
Lemma switchPortRow_fields_ok n x : fields_ok (S (S n)) (switchPortRow_fields x).
Proof. unfold switchPortRow_fields. marshal_fields. Qed.
Lemma switchPortRow_ok n x : plain (S (S (S n))) (switchPortRow_json x) = true.
Proof. apply struct_ok, switchPortRow_fields_ok. Qed.
#[export] Hint Resolve switchPortRow_ok : marshal.
Lemma switchLastUplinkRow_fields_ok n x : fields_ok n (switchLastUplinkRow_fields x).
Proof. unfold switchLastUplinkRow_fields. marshal_fields. Qed.
Lemma switchLastUplinkRow_ok n x : plain (S n) (switchLastUplinkRow_json x) = true.
Proof. apply struct_ok, switchLastUplinkRow_fields_ok. Qed.
#[export] Hint Resolve switchLastUplinkRow_ok : marshal.
Lemma switchTrafficSummary_fields_ok n x : fields_ok n (switchTrafficSummary_fields x).
Proof. unfold switchTrafficSummary_fields. marshal_fields. Qed.
#[export] Hint Resolve switchTrafficSummary_fields_ok : marshal.
Lemma switchPayload_fields_ok n x : fields_ok (S (S (S (S n)))) (switchPayload_fields x).
Proof. unfold switchPayload_fields. marshal_fields. Qed.
Lemma switchPayload_ok n x : plain (S (S (S (S (S n))))) (switchPayload_json x) = true.
Proof. apply struct_ok, switchPayload_fields_ok. Qed.
#[export] Hint Resolve switchPayload_ok : marshal.
Lemma gatewayTrafficSummary_fields_ok n x : fields_ok n (gatewayTrafficSummary_fields x).
Proof. unfold gatewayTrafficSummary_fields. marshal_fields. Qed.
#[export] Hint Resolve gatewayTrafficSummary_fields_ok : marshal.
Lemma gatewayEthernetTableRow_fields_ok n x : fields_ok n (gatewayEthernetTableRow_fields x).
Proof. unfold gatewayEthernetTableRow_fields. marshal_fields. Qed.
Lemma gatewayEthernetTableRow_ok n x : plain (S n) (gatewayEthernetTableRow_json x) = true.
Proof. apply struct_ok, gatewayEthernetTableRow_fields_ok. Qed.
#[export] Hint Resolve gatewayEthernetTableRow_ok : marshal.
Lemma gatewayLastConnection_fields_ok n x : fields_ok n (gatewayLastConnection_fields x).
Proof. unfold gatewayLastConnection_fields. marshal_fields. Qed.
Lemma gatewayLastConnection_ok n x : plain (S n) (gatewayLastConnection_json x) = true.
Proof. apply struct_ok, gatewayLastConnection_fields_ok. Qed.
#[export] Hint Resolve gatewayLastConnection_ok : marshal.
Lemma connectionFields_fields_ok n x : fields_ok (S n) (connectionFields_fields x).
Proof. unfold connectionFields_fields. marshal_fields. Qed.
#[export] Hint Resolve connectionFields_fields_ok : marshal.
Lemma gatewayIfRow_fields_ok n x : fields_ok (S n) (gatewayIfRow_fields x).
Proof. unfold gatewayIfRow_fields. marshal_fields. Qed.
Lemma gatewayIfRow_ok n x : plain (S (S n)) (gatewayIfRow_json x) = true.
Proof. apply struct_ok, gatewayIfRow_fields_ok. Qed.
#[export] Hint Resolve gatewayIfRow_ok : marshal.
Lemma gatewayNetworkStats_fields_ok n x : fields_ok n (gatewayNetworkStats_fields x).
Proof. unfold gatewayNetworkStats_fields. marshal_fields. Qed.
Lemma gatewayNetworkStats_ok n x : plain (S n) (gatewayNetworkStats_json x) = true.
Proof. apply struct_ok, gatewayNetworkStats_fields_ok. Qed.
#[export] Hint Resolve gatewayNetworkStats_ok : marshal.
Lemma gatewayHostRow_fields_ok n x : fields_ok n (gatewayHostRow_fields x).
Proof. unfold gatewayHostRow_fields. marshal_fields. Qed.
Lemma gatewayHostRow_ok n x : plain (S n) (gatewayHostRow_json x) = true.
Proof. apply struct_ok, gatewayHostRow_fields_ok. Qed.
#[export] Hint Resolve gatewayHostRow_ok : marshal.
Lemma gatewayNetworkRow_fields_ok n x : fields_ok (S (S n)) (gatewayNetworkRow_fields x).
Proof. unfold gatewayNetworkRow_fields. marshal_fields. Qed.
Lemma gatewayNetworkRow_ok n x : plain (S (S (S n))) (gatewayNetworkRow_json x) = true.
Proof. apply struct_ok, gatewayNetworkRow_fields_ok. Qed.
#[export] Hint Resolve gatewayNetworkRow_ok : marshal.
Lemma gatewayConfigNetworkRow_fields_ok n x : fields_ok (S (S n)) (gatewayConfigNetworkRow_fields x).
Proof. unfold gatewayConfigNetworkRow_fields. marshal_fields. Qed.
Lemma gatewayConfigNetworkRow_ok n x : plain (S (S (S n))) (gatewayConfigNetworkRow_json x) = true.
Proof. apply struct_ok, gatewayConfigNetworkRow_fields_ok. Qed.
#[export] Hint Resolve gatewayConfigNetworkRow_ok : marshal.
Lemma gatewayConfigLANRow_fields_ok n x : fields_ok n (gatewayConfigLANRow_fields x).
Proof. unfold gatewayConfigLANRow_fields. marshal_fields. Qed.
Lemma gatewayConfigLANRow_ok n x : plain (S n) (gatewayConfigLANRow_json x) = true.
Proof. apply struct_ok, gatewayConfigLANRow_fields_ok. Qed.
#[export] Hint Resolve gatewayConfigLANRow_ok : marshal.
Lemma gatewayWANInventoryRow_fields_ok n x : fields_ok (S n) (gatewayWANInventoryRow_fields x).
Proof. unfold gatewayWANInventoryRow_fields. marshal_fields. Qed.
Lemma gatewayWANInventoryRow_ok n x : plain (S (S n)) (gatewayWANInventoryRow_json x) = true.
Proof. apply struct_ok, gatewayWANInventoryRow_fields_ok. Qed.
#[export] Hint Resolve gatewayWANInventoryRow_ok : marshal.
Lemma gatewayAssignmentFields_fields_ok n x : fields_ok n (gatewayAssignmentFields_fields x).
Proof. unfold gatewayAssignmentFields_fields. marshal_fields. Qed.
#[export] Hint Resolve gatewayAssignmentFields_fields_ok : marshal.
Lemma gatewayPortLinkFields_fields_ok n x : fields_ok n (gatewayPortLinkFields_fields x).
Proof. unfold gatewayPortLinkFields_fields. marshal_fields. Qed.
#[export] Hint Resolve gatewayPortLinkFields_fields_ok : marshal.
Lemma gatewayPortRow_fields_ok n x : fields_ok (S (S n)) (gatewayPortRow_fields x).
Proof. unfold gatewayPortRow_fields. marshal_fields. Qed.
Lemma gatewayPortRow_ok n x : plain (S (S (S n))) (gatewayPortRow_json x) = true.
Proof. apply struct_ok, gatewayPortRow_fields_ok. Qed.
#[export] Hint Resolve gatewayPortRow_ok : marshal.
Lemma gatewayPortStatsRow_fields_ok n x : fields_ok (S (S n)) (gatewayPortStatsRow_fields x).
Proof. unfold gatewayPortStatsRow_fields. marshal_fields. Qed.
Lemma gatewayPortStatsRow_ok n x : plain (S (S (S n))) (gatewayPortStatsRow_json x) = true.
Proof. apply struct_ok, gatewayPortStatsRow_fields_ok. Qed.
#[export] Hint Resolve gatewayPortStatsRow_ok : marshal.
Lemma gatewayConfigPortRow_fields_ok n x : fields_ok (S n) (gatewayConfigPortRow_fields x).
Proof. unfold gatewayConfigPortRow_fields. marshal_fields. Qed.
Lemma gatewayConfigPortRow_ok n x : plain (S (S n)) (gatewayConfigPortRow_json x) = true.
Proof. apply struct_ok, gatewayConfigPortRow_fields_ok. Qed.
#[export] Hint Resolve gatewayConfigPortRow_ok : marshal.
Lemma gatewayEthernetOverrideRow_fields_ok n x : fields_ok (S n) (gatewayEthernetOverrideRow_fields x).
Proof. unfold gatewayEthernetOverrideRow_fields. marshal_fields. Qed.
Lemma gatewayEthernetOverrideRow_ok n x : plain (S (S n)) (gatewayEthernetOverrideRow_json x) = true.
Proof. apply struct_ok, gatewayEthernetOverrideRow_fields_ok. Qed.
#[export] Hint Resolve gatewayEthernetOverrideRow_ok : marshal.
Lemma gatewayReportedNetworkRow_fields_ok n x : fields_ok (S n) (gatewayReportedNetworkRow_fields x).
Proof. unfold gatewayReportedNetworkRow_fields. marshal_fields. Qed.
Lemma gatewayReportedNetworkRow_ok n x : plain (S (S n)) (gatewayReportedNetworkRow_json x) = true.
Proof. apply struct_ok, gatewayReportedNetworkRow_fields_ok. Qed.
#[export] Hint Resolve gatewayReportedNetworkRow_ok : marshal.
Lemma gatewayUplinkRow_fields_ok n x : fields_ok (S n) (gatewayUplinkRow_fields x).
Proof. unfold gatewayUplinkRow_fields. marshal_fields. Qed.
Lemma gatewayUplinkRow_ok n x : plain (S (S n)) (gatewayUplinkRow_json x) = true.
Proof. apply struct_ok, gatewayUplinkRow_fields_ok. Qed.
#[export] Hint Resolve gatewayUplinkRow_ok : marshal.
Lemma featureStatusPayload_fields_ok n x : fields_ok n (featureStatusPayload_fields x).
Proof. unfold featureStatusPayload_fields. marshal_fields. Qed.
Lemma featureStatusPayload_ok n x : plain (S n) (featureStatusPayload_json x) = true.
Proof. apply struct_ok, featureStatusPayload_fields_ok. Qed.
#[export] Hint Resolve featureStatusPayload_ok : marshal.
Lemma hashPayload_fields_ok n x : fields_ok n (hashPayload_fields x).
Proof. unfold hashPayload_fields. marshal_fields. Qed.
Lemma hashPayload_ok n x : plain (S n) (hashPayload_json x) = true.
Proof. apply struct_ok, hashPayload_fields_ok. Qed.
#[export] Hint Resolve hashPayload_ok : marshal.
Lemma gatewayRulePayload_fields_ok n x : fields_ok n (gatewayRulePayload_fields x).
Proof. unfold gatewayRulePayload_fields. marshal_fields. Qed.
Lemma gatewayRulePayload_ok n x : plain (S n) (gatewayRulePayload_json x) = true.
Proof. apply struct_ok, gatewayRulePayload_fields_ok. Qed.
#[export] Hint Resolve gatewayRulePayload_ok : marshal.
Lemma ledStatePayload_fields_ok n x : fields_ok n (ledStatePayload_fields x).
Proof. unfold ledStatePayload_fields. marshal_fields. Qed.
Lemma ledStatePayload_ok n x : plain (S n) (ledStatePayload_json x) = true.
Proof. apply struct_ok, ledStatePayload_fields_ok. Qed.
#[export] Hint Resolve ledStatePayload_ok : marshal.
Lemma switchCapsPayload_fields_ok n x : fields_ok n (switchCapsPayload_fields x).
Proof. unfold switchCapsPayload_fields. marshal_fields. Qed.
Lemma switchCapsPayload_ok n x : plain (S n) (switchCapsPayload_json x) = true.
Proof. apply struct_ok, switchCapsPayload_fields_ok. Qed.
#[export] Hint Resolve switchCapsPayload_ok : marshal.
Lemma udapiVersionPayload_fields_ok n x : fields_ok (S n) (udapiVersionPayload_fields x).
Proof. unfold udapiVersionPayload_fields. marshal_fields. Qed.
Lemma udapiVersionPayload_ok n x : plain (S (S n)) (udapiVersionPayload_json x) = true.
Proof. apply struct_ok, udapiVersionPayload_fields_ok. Qed.
#[export] Hint Resolve udapiVersionPayload_ok : marshal.
Lemma gatewayCapabilities_fields_ok n x : fields_ok n (gatewayCapabilities_fields x).
Proof. unfold gatewayCapabilities_fields. marshal_fields. Qed.
Lemma gatewayCapabilities_ok n x : plain (S n) (gatewayCapabilities_json x) = true.
Proof. apply struct_ok, gatewayCapabilities_fields_ok. Qed.
#[export] Hint Resolve gatewayCapabilities_ok : marshal.

(** ** The documents *)
Lemma idle_speedtest_ok n (idle : bool) :
  plain (S (S n)) (json_pointer speedtestStatusPayload_json (if idle then Some gatewaySpeedtestStatus else None)) = true.
Proof. by destruct idle; vm_compute. Qed.

Section documents.
Context `{UnicodeTables} `{MapOrder}.

(** The nesting of the deepest document. *)
Definition payload_depth : nat := 8.

Lemma built_documents_plain clock profile id ports p :
  Build clock profile id ports = Ok p → plain payload_depth (payload_json p) = true.
Proof.
  unfold Build. cbv zeta. intros Hb. inv_ok. unfold payload_depth. case_decide; injection Hb as <-; cbn [payload_json];
    [apply struct_ok|apply switchPayload_ok].
  unfold gatewayPayload_fields. marshal_fields.
  apply field_omit_ok, idle_speedtest_ok.
Qed.

(** Whatever the profile, the identity, the ports and the clock, a document
    that [Build] returns has no float that [encoding/json] refuses, so
    marshalling it cannot fail. *)
Lemma built_documents_marshal clock profile id ports p :
  Build clock profile id ports = Ok p → marshals (payload_json p) = true.
Proof. intros Hb. by eapply plain_marshals, built_documents_plain. Qed.
End documents.
