(* ===== verification/PayloadSpec.v ===== *)
(** What the inform payload promises: distinct interface names and addresses,
    one gateway row for each routed port, totals that agree with the port rows,
    and a reported clock that saturates.  Theorems about Payload and
    PayloadViews. *)
From stdpp Require Import gmap.
From S2P Require Import Prelude Identity GoStrings GoNet GoIP GoMap Ports Topology PayloadTypes PayloadViews.
From S2P Require Import Payload.

(** ** Interface names *)
Lemma itoa_inj n m : 0 ≤ n ≤ int64_max → 0 ≤ m ≤ int64_max → itoa n = itoa m → n = m.
Proof. intros Hn Hm E. apply (f_equal atoi) in E. rewrite !atoi_itoa in E by done. by injection E. Qed.

(** The port numbers a profile can have. *)
Definition port_number (i : Z) : Prop := 1 ≤ i ≤ int64_max.

Definition name_prefix (profile : Profile) : bytes :=
  let prefix := trim_space (pl_GatewayInterfacePrefix (pr_Payload profile)) in
  if decide (prefix = []) then B "eth" else prefix.
Lemma interface_name profile i : port_number i → gatewayInterfaceName profile i = name_prefix profile ++ itoa (i - 1).
Proof. intros Hi. unfold gatewayInterfaceName, port_number in *. by rewrite (proj2 (Z.ltb_ge i 1)) by lia. Qed.

Lemma interface_name_inj profile i j :
  port_number i → port_number j → gatewayInterfaceName profile i = gatewayInterfaceName profile j → i = j.
Proof.
  intros Hi Hj. rewrite !interface_name by done. intros E%app_inv_head.
  unfold port_number in *. apply itoa_inj in E; lia.
Qed.

Lemma interface_name_trimmed profile i :
  port_number i →
  trim_space (gatewayInterfaceName profile i) = gatewayInterfaceName profile i ∧ gatewayInterfaceName profile i ≠ [].
Proof.
  intros Hi. rewrite interface_name by done. destruct (itoa_spec (i - 1)) as (Hne & Hd & _).
  { unfold port_number in Hi. lia. }
  split.
  - apply trim_space_digits; [|done..]. unfold name_prefix. cbv zeta.
    destruct (decide (trim_space _ = [])); [done|apply trim_space_idemp].
  - intros [_ E]%app_eq_nil. done.
Qed.

Lemma names_nodup profile ports :
  Forall (λ q, port_number (p_Index q)) ports → NoDup (p_Index <$> ports) →
  NoDup ((λ q, gatewayInterfaceName profile (p_Index q)) <$> ports).
Proof.
  intros Hn Hd. rewrite (list_fmap_compose p_Index (gatewayInterfaceName profile)).
  apply NoDup_fmap_2_strong; [|done].
  assert (∀ i, i ∈ p_Index <$> ports → port_number i) as Hi.
  { intros i (q & -> & Hq)%list_elem_of_fmap. by eapply Forall_forall in Hn. }
  intros i j Ei Ej. apply interface_name_inj; by apply Hi.
Qed.

(** ** One row for each routed port *)
Section rows.
Context `{UnicodeTables}.

Definition logical_port (port : Port) : bool := gatewayIsLogicalRole (gatewayPortRole port).

Lemma keep_interface_new view out :
  Forall (λ v, logical_ifname v ≠ logical_ifname view) out → keep_interface view out = out ++ [view].
Proof. induction 1 as [|v out Hv _ IH]; [done|]. cbn. rewrite decide_False by done. by rewrite IH. Qed.

Variables (profile : Profile) (id : Identity) (edges : gmap Z TopologyEdge).
Definition view_of := port_view profile id edges.

Lemma view_ifname port :
  port_number (p_Index port) → logical_ifname (view_of port) = gatewayInterfaceName profile (p_Index port).
Proof. intros Hi. apply (interface_name_trimmed profile _ Hi). Qed.

Lemma logical_rows ports :
  Forall (λ p, port_number (p_Index p)) ports → NoDup (p_Index <$> ports) →
  logicalInterfacePorts (map view_of ports) = map view_of (filter (λ p, logical_port p = true) ports).
Proof.
  intros Hn Hd. unfold logicalInterfacePorts.
  enough (∀ before, Forall (λ p, port_number (p_Index p)) before → NoDup (p_Index <$> before ++ ports) →
    fold_left logical_step (map view_of ports) (map view_of (filter (λ p, logical_port p = true) before))
    = map view_of (filter (λ p, logical_port p = true) (before ++ ports))) as Hall.
  { apply (Hall []); [constructor|done]. }
  clear Hd. induction Hn as [|p ports Hp Hps IH]; intros before Hb Hd; [by rewrite app_nil_r|].
  cbn [map fold_left]. rewrite cons_middle, app_assoc in *.
  rewrite <- IH; [|by apply Forall_app; split; [done|constructor]|done]. f_equal.
  unfold logical_step. change (v_Role (view_of p)) with (gatewayPortRole p).
  fold (logical_port p). rewrite filter_app, filter_cons, filter_nil.
  destruct (logical_port p) eqn:El; cbn [negb].
  2: { rewrite (decide_False (P := false = true)) by done. by rewrite app_nil_r. }
  rewrite (decide_True (P := true = true)) by done.
  rewrite (decide_False (P := logical_ifname (view_of p) = [])).
  2: { rewrite view_ifname by done. apply interface_name_trimmed, Hp. }
  rewrite keep_interface_new; [by rewrite map_app|].
  apply Forall_forall. intros v (q & <- & Hq)%list_elem_of_In%in_map_iff.
  apply list_elem_of_In, list_elem_of_filter in Hq as [_ Hq].
  assert (port_number (p_Index q)) as Hqn by (by eapply Forall_forall in Hb).
  rewrite !view_ifname by done. intros E%interface_name_inj; [|done..].
  rewrite <- app_assoc, fmap_app in Hd. apply NoDup_app in Hd as (_ & Hx & _).
  apply (Hx (p_Index q)); [by apply list_elem_of_fmap_2|]. rewrite E. apply list_elem_of_fmap_2. left.
Qed.
End rows.

(** ** What [Build] returns *)
Section build.
Context `{UnicodeTables} `{MapOrder}.

Definition views_of (profile : Profile) (id : Identity) (ports : list Port) (res : TopologyResolution)
    : list PortView :=
  BuildPortViews (normalizePayloadProfile profile id) id ports res.

Lemma Build_inv clock profile id ports out :
  Build clock profile id ports = Ok out →
  ∃ res base, ResolveTopology ports = Ok res ∧
    out = (if decide (pl_Kind (pr_Payload (normalizePayloadProfile profile id)) = payloadKindGateway)
           then inr (buildGatewayPayload base (normalizePayloadProfile profile id) id
                       (views_of profile id ports res)
                       (reportedWallClock clock (id_ControllerTimeOffsetSeconds id))
                       (identityUptime (id_UptimeSeconds id)))
           else inl (buildSwitchPayload base (normalizePayloadProfile profile id) id
                       (views_of profile id ports res) (zlen ports) (managementSpeed ports))).
Proof.
  unfold Build. cbv zeta. intros Hb. inv_ok. eexists _, _. split; [reflexivity|].
  by case_decide; injection Hb as <-.
Qed.

Lemma view_physical profile id edges port :
  port_number (p_Index port) →
  physicalIfName (view_of profile id edges port) = name_prefix profile ++ itoa (p_Index port - 1) ∧
  iv_IfName (v_GatewayInterface (view_of profile id edges port)) = name_prefix profile ++ itoa (p_Index port - 1).
Proof.
  intros Hi. rewrite <- interface_name by done. destruct (interface_name_trimmed profile _ Hi) as [Ht Hne].
  split; [|done]. unfold physicalIfName. cbn [view_of port_view v_PhysicalIfName]. rewrite Ht.
  by rewrite bool_decide_false.
Qed.
Lemma view_network_name profile id edges port :
  port_number (p_Index port) →
  gatewayNetworkInterfaceName (view_of profile id edges port) = name_prefix profile ++ itoa (p_Index port - 1).
Proof.
  intros Hi. destruct (view_physical profile id edges port Hi) as [Hp Hf]. unfold gatewayNetworkInterfaceName.
  by destruct (lan_role _ && _).
Qed.
End build.

(** ** Interface addresses *)
Lemma add_to_last_length d hw : hw ≠ [] → zlen (add_to_last d hw) = zlen hw.
Proof.
  intros Hne. unfold add_to_last. destruct (exists_last Hne) as (t & b & ->).
  rewrite removelast_last, !zlen_app. reflexivity.
Qed.

Lemma add_to_last_inj d e hw :
  add_to_last d hw = add_to_last e hw → d mod 256 = e mod 256.
Proof.
  unfold add_to_last. intros [= E]%app_inv_head. apply (f_equal b2z) in E. rewrite !b2z_z2b in E.
  set (b := b2z (List.last hw x00)) in *.
  assert ((b + d - b) mod 256 = (b + e - b) mod 256) as Hm.
  { rewrite (Zminus_mod (b + d)), (Zminus_mod (b + e)), E. done. }
  by replace (b + d - b) with d in Hm by lia; replace (b + e - b) with e in Hm by lia.
Qed.

(** The address of a port without one of its own. *)
Lemma interfaceMAC_parses base i hw :
  parse_mac base = Some hw → parse_mac (interfaceMAC base i) = Some (add_to_last (i - 1) hw).
Proof.
  intros Hp. pose proof (parse_mac_length _ _ Hp) as Hl. unfold interfaceMAC. rewrite Hp.
  destruct hw as [|b hw]; [done|]. apply parse_mac_string. by rewrite add_to_last_length.
Qed.

Section addresses.
Context `{UnicodeTables}.

(** In a payload the interfaces of up to 256 ports that have no address of
    their own get pairwise different hardware addresses, all of them valid and
    derived from the device's; the first port has the device's own. *)
Theorem interface_macs_distinct profile id ports res hw :
  parse_mac (id_MAC id) = Some hw →
  Forall (λ p, 1 ≤ p_Index p ≤ 256 ∧ trim_space (pg_MAC (p_Gateway p)) = []) ports →
  NoDup (p_Index <$> ports) →
  let macs := (λ v, iv_MAC (v_GatewayInterface v)) <$> BuildPortViews profile id ports res in
  NoDup macs ∧ (∀ mac, mac ∈ macs → is_Some (parse_mac mac)) ∧
  (∀ v, v ∈ BuildPortViews profile id ports res → v_Index v = 1 →
     parse_mac (iv_MAC (v_GatewayInterface v)) = Some hw).
Proof.
  intros Hp Hi Hd macs.
  assert (∀ p, p ∈ ports → portMAC (id_MAC id) p = interfaceMAC (id_MAC id) (p_Index p)) as Hm.
  { intros p Hin. unfold portMAC. eapply Forall_forall in Hi as [_ ->]; done. }
  assert (macs = interfaceMAC (id_MAC id) <$> (p_Index <$> ports)) as ->.
  { unfold macs, BuildPortViews. rewrite <- !list_fmap_compose. apply map_ext_in.
    intros p Hin%list_elem_of_In. by apply Hm. }
  split_and!.
  - apply NoDup_fmap_2_strong; [|done]. intros i j Hin Hjn E.
    apply (f_equal parse_mac) in E. rewrite !(interfaceMAC_parses _ _ hw Hp) in E.
    injection E as E%add_to_last_inj.
    apply list_elem_of_fmap in Hin as (p & -> & Hin), Hjn as (q & -> & Hjn).
    eapply Forall_forall in Hi as Hip; [|exact Hin]. eapply Forall_forall in Hi as Hiq; [|exact Hjn].
    rewrite !Z.mod_small in E by lia. lia.
  - intros mac (i & -> & _)%list_elem_of_fmap. by rewrite (interfaceMAC_parses _ _ hw Hp).
  - intros v (p & -> & Hin)%list_elem_of_fmap Hv. cbn in Hv |- *. rewrite Hm, Hv by done.
    rewrite (interfaceMAC_parses _ _ hw Hp). f_equal. unfold add_to_last.
    destruct hw as [|b hw]; [by apply parse_mac_length in Hp|].
    destruct (exists_last (l := b :: hw)) as (t & c & ->); [done|].
    rewrite removelast_last, last_last. change (1 - 1) with 0. by rewrite Z.add_0_r, z2b_b2z.
Qed.
End addresses.

(** ** Totals *)
Section totals.
Context `{UnicodeTables} `{MapOrder}.

Lemma only_uplink ports p q :
  length (filter (λ q, p_Uplink q = true) ports) = 1%nat →
  p ∈ ports → p_Uplink p = true → find p_Uplink ports = Some q → p = q.
Proof.
  intros Hl Hp Hu Hq. apply find_some in Hq as [Hq Hqu].
  assert (p ∈ filter (λ q, p_Uplink q = true) ports) as H1 by by apply list_elem_of_filter.
  assert (q ∈ filter (λ q, p_Uplink q = true) ports) as H2
    by (apply list_elem_of_filter; split; [done|by apply list_elem_of_In]).
  destruct (filter _ ports) as [|x [|y l]]; try discriminate Hl.
  apply list_elem_of_singleton in H1 as ->, H2 as ->. done.
Qed.

Lemma uplink_view_of ports f :
  (∀ p, v_Uplink (f p) = p_Uplink p) → uplink_view (map f ports) = f <$> find p_Uplink ports.
Proof.
  intros Hf. unfold uplink_view. induction ports as [|p ports IH]; [done|]. cbn. rewrite Hf.
  by destruct (p_Uplink p).
Qed.

(** In a switch payload with one uplink port the totals of the device are
    that port's row with the direction turned: bytes received by the device are
    those the port sent, and so are the byte and bit rates; the management
    interface repeats the row as it is. *)
Theorem switch_totals_mirror_uplink clock profile id ports p row :
  Build clock profile id ports = Ok (inl p) →
  length (filter (λ q, p_Uplink q = true) ports) = 1%nat →
  row ∈ swr_PortTable p → swp_IsUplink row = true →
  let total := swr_switchTrafficSummary p in
  let counters := swp_counterFields row in
  let bytes_rates := swp_optionalRateFields row in
  let bit_rates := swp_gatewayRateFields row in
  sts_RXBytes total = cf_TXBytes counters ∧ sts_TXBytes total = cf_RXBytes counters ∧
  sts_RXBytesRate total = orf_TXBytesRate bytes_rates ∧ sts_TXBytesRate total = orf_RXBytesRate bytes_rates ∧
  sts_BytesRate total = orf_BytesRate bytes_rates ∧
  sts_RXRate total = grf_TXRate bit_rates ∧ sts_TXRate total = grf_RXRate bit_rates ∧
  ∀ iface, iface ∈ swr_IfTable p →
    swi_counterFields iface = counters ∧ swi_optionalRateFields iface = bytes_rates ∧
    swi_gatewayRateFields iface = bit_rates.
Proof.
  intros Hb Hone Hrow Hup. apply Build_inv in Hb as (res & base & _ & E).
  case_decide; [done|]. injection E as ->.
  cbn [swr_PortTable swr_IfTable swr_switchTrafficSummary buildSwitchPayload] in *.
  unfold portTable, views_of, BuildPortViews in *. set (f := port_view _ _ _) in *.
  apply list_elem_of_In, in_map_iff in Hrow as (v & <- & Hv).
  apply in_map_iff in Hv as (q & <- & Hq%list_elem_of_In). change (p_Uplink q = true) in Hup.
  assert (find p_Uplink ports = Some q) as Hf.
  { destruct (find p_Uplink ports) as [q'|] eqn:Ef.
    - f_equal. symmetry. by eapply only_uplink.
    - apply list_elem_of_In in Hq. by rewrite (find_none _ _ Ef q Hq) in Hup. }
  unfold switchTrafficSummaryFor, switchManagementInterfaceRow, switchInterfaceRatesFor, switchInterfaceCountersFor.
  rewrite (uplink_view_of ports f) by done. rewrite Hf. cbn [fmap option_fmap option_map].
  unfold switch_port_row. change (v_Uplink (f q)) with (p_Uplink q). change (v_Port (f q)) with q.
  rewrite Hup. cbn [andb].
  unfold summary_bytes, summary_rates, explicitPortRateFields, portCounterFields, portRateFields.
  change (v_Port (f q)) with q. change (v_Up (f q)) with (p_Up q).
  destruct (p_CountersSet q), (p_TrafficRatesSet q), (p_Up q); cbn; split_and!; try done;
    try (intros iface ->%list_elem_of_singleton; done); by rewrite Z.add_comm.
Qed.
End totals.

(** ** One WAN port *)
Section wan.
Context `{UnicodeTables} `{MapOrder}.

Definition active_view (view : PortView) : bool :=
  v_Up view && (v_Uplink view || negb (bool_decide (trim_space (v_SourceInterface view) = []))).
Definition active_port (port : Port) : bool :=
  p_Up port && (p_Uplink port || negb (bool_decide (trim_space (trim_space (p_Interface port)) = []))).

(** The view all tables take for a role. *)
Lemma role_view_spec ports role view :
  view ∈ ports → gatewayPortRole (v_Port view) = role →
  ∃ v, role_view ports role = Some v ∧ v ∈ ports ∧ gatewayPortRole (v_Port v) = role ∧
    (active_view view = true → active_view v = true).
Proof.
  intros Hin Hr. unfold role_view, gatewayRoleCandidates. cbv zeta.
  set (matches := filter _ ports). set (active := filter _ matches).
  assert (∀ v, v ∈ matches → v ∈ ports ∧ gatewayPortRole (v_Port v) = role) as Hm
    by (intros v [??]%list_elem_of_filter; done).
  assert (view ∈ matches) as Hvm by by apply list_elem_of_filter.
  destruct active as [|v l] eqn:Ea.
  - destruct matches as [|v l] eqn:Em; [by apply not_elem_of_nil in Hvm|].
    destruct (Hm v) as [Hv1 Hv2]; [left|]. exists v. split_and!; try done.
    + cbn. by rewrite bool_decide_true.
    + intros Hact. assert (view ∈ active) as Hx by by apply list_elem_of_filter.
      rewrite Ea in Hx. by apply not_elem_of_nil in Hx.
  - assert (v ∈ active) as Hva by (rewrite Ea; left).
    apply list_elem_of_filter in Hva as [Hact Hvm'].
    destruct (Hm v Hvm') as [Hv1 Hv2]. exists v. split_and!; try done.
    cbn. by rewrite bool_decide_true.
Qed.

(** With a WAN port everything a gateway payload says about its WAN is
    about one and the same port, an active one if there is any: the configured
    network, the inventory entry, the last WAN address and the totals, which
    are that port's counters with the direction turned. *)
Theorem gateway_wan_is_one_port clock profile id ports p w :
  Build clock profile id ports = Ok (inr p) → w ∈ ports → gatewayPortRole w = gatewayPortRoleWAN →
  ∃ q, q ∈ ports ∧ gatewayPortRole q = gatewayPortRoleWAN ∧ (active_port w = true → active_port q = true) ∧
    gcn_PortIdx (gp_ConfigNetworkWAN p) = p_Index q ∧ gcn_IP (gp_ConfigNetworkWAN p) = Some (interfaceIP id q) ∧
    gp_LastWANIP p = interfaceIP id q ∧
    (∃ row rest, gp_Wans p = row :: rest ∧ gwi_Port row = p_Index q ∧ gwi_IPv4 row = interfaceIP id q ∧
       gwi_Plugged row = p_Up q) ∧
    (gts_RXBytes (gp_gatewayTrafficSummary p), gts_TXBytes (gp_gatewayTrafficSummary p)) =
      (if p_CountersSet q then (Some (TXBytes (p_Counters q)), Some (RXBytes (p_Counters q)))
       else (None, None)).
Proof.
  intros Hb Hw Hr. apply Build_inv in Hb as (res & base & _ & E).
  case_decide; [|done]. injection E as ->.
  cbn [gp_ConfigNetworkWAN gp_LastWANIP gp_Wans gp_gatewayTrafficSummary buildGatewayPayload].
  unfold views_of, BuildPortViews. set (f := port_view _ _ _).
  destruct (role_view_spec (map f ports) gatewayPortRoleWAN (f w)) as (v & Ev & Hv & Hvr & Ha); [|done|].
  { apply list_elem_of_In, in_map, list_elem_of_In, Hw. }
  apply list_elem_of_In, in_map_iff in Hv as (q & <- & Hq%list_elem_of_In).
  exists q. unfold gatewayConfigNetwork, gatewayLastWANIP, gatewayWans, gatewayTrafficSummaryFor.
  cbn [omap list_omap]. rewrite Ev. split_and!; try done.
  - eexists _, _. split; [reflexivity|]. done.
  - unfold summary_bytes. change (v_Port (f q)) with q. destruct (summary_rates (f q)) as [[[[br rxb] txb] rxr] txr].
    by destruct (p_CountersSet q).
Qed.
End wan.

(** ** The reported clock *)

(** The reported time is the local time plus the controller's offset,
    limited to what an int64 of seconds can hold, and the milliseconds are that
    time exactly, limited to an int64 of milliseconds.  Nothing wraps around. *)
Theorem reported_clock_saturates s ns offset :
  in_int64 s → in_int64 offset → 0 ≤ ns < 1000000000 →
  let seconds := (reportedWallClock (s, ns) offset).1 in
  let millis := saturatedUnixMilli (reportedWallClock (s, ns) offset) in
  seconds = Z.max int64_min (Z.min int64_max (s + offset)) ∧ in_int64 millis ∧
  (int64_min ≤ seconds * 1000 → millis = Z.min int64_max (seconds * 1000 + ns / 1000000)) ∧
  (seconds * 1000 < int64_min → millis = int64_min).
Proof.
  intros Hs Ho Hns seconds millis. unfold in_int64 in *.
  assert (int64_min = -9223372036854775808) as Emin by reflexivity.
  assert (int64_max = 9223372036854775807) as Emax by reflexivity.
  assert (0 ≤ ns / 1000000 < 1000) as Hms
    by (split; [apply Z.div_pos; lia|apply Z.div_lt_upper_bound; lia]).
  assert (seconds = Z.max int64_min (Z.min int64_max (s + offset))) as Esec.
  { unfold seconds, reportedWallClock. cbn [fst].
    destruct (0 <? offset) eqn:E1; cbn [andb].
    - rewrite (wrap64_id (int64_max - offset)) by (unfold in_int64; lia).
      replace (offset <? 0) with false by lia. cbn [andb].
      destruct (int64_max - offset <? s) eqn:E2; cbn [fst]; [lia|].
      rewrite wrap64_id by (unfold in_int64; lia). lia.
    - destruct (offset <? 0) eqn:E2; cbn [andb].
      + rewrite (wrap64_id (int64_min - offset)) by (unfold in_int64; lia).
        destruct (s <? int64_min - offset) eqn:E3; cbn [fst]; [lia|].
        rewrite wrap64_id by (unfold in_int64; lia). lia.
      + cbn [fst]. rewrite wrap64_id by (unfold in_int64; lia). lia. }
  assert (reportedWallClock (s, ns) offset = (seconds, ns)) as Ec by reflexivity.
  clearbody seconds. split; [done|]. unfold millis. rewrite Ec. unfold saturatedUnixMilli.
  change (Z.quot int64_max 1000) with 9223372036854775. change (Z.rem int64_max 1000) with 807.
  change (Z.quot int64_min 1000) with (-9223372036854775). clear millis Ec Esec.
  destruct ((_ <? seconds) || _) eqn:E1; [lia|].
  apply orb_false_iff in E1 as [E1 E2].
  destruct (seconds <? -9223372036854775) eqn:E3; [lia|].
  assert (seconds * 1000 + ns / 1000000 ≤ int64_max) as Hle.
  { destruct (seconds =? 9223372036854775) eqn:E4; cbn [andb] in E2; lia. }
  rewrite (wrap64_id (seconds * 1000)) by (unfold in_int64; lia).
  rewrite wrap64_id by (unfold in_int64; lia). lia.
Qed.

(** ** Field names *)
Definition clash_free (fields : list json_field) : Prop := forallb (dominant fields) fields = true.
(** The fields a struct loses to another of the same name. *)
Definition shadowed (fields : list json_field) : list (nat * bytes) :=
  omap (λ f, if dominant fields f then None else Some (jf_depth f, jf_name f)) fields.

(** No field of the two documents or of their rows is lost to another field
    with the same JSON name, although the structs embed up to six others; the
    one exception is the embedded link flag of a gateway port row, which gives
    way to the row's own flag of the same value. *)
Theorem payload_names_clash_free `{UnicodeTables} :
  (∀ p, clash_free (switchPayload_fields p)) ∧ (∀ p, clash_free (gatewayPayload_fields p)) ∧
  (∀ r, clash_free (switchPortRow_fields r)) ∧ (∀ r, clash_free (switchInterfaceRow_fields r)) ∧
  (∀ r, clash_free (gatewayIfRow_fields r)) ∧ (∀ r, clash_free (gatewayNetworkRow_fields r)) ∧
  (∀ r, clash_free (gatewayPortStatsRow_fields r)) ∧ (∀ r, clash_free (gatewayConfigPortRow_fields r)) ∧
  (∀ r, clash_free (gatewayEthernetOverrideRow_fields r)) ∧ (∀ r, clash_free (gatewayUplinkRow_fields r)) ∧
  (∀ r, clash_free (gatewayReportedNetworkRow_fields r)) ∧
  (∀ r, shadowed (gatewayPortRow_fields r) = [(1%nat, B "connected")]) ∧
  (∀ six v, gpr_Connected (gateway_port_row six v) = cn_Connected (gpr_connectionFields (gateway_port_row six v))).
Proof. split_and!; intros *; vm_compute; reflexivity. Qed.

(** ** Witnesses *)
#[local] Existing Instance ascii_tables.
#[local] Existing Instance list_order.

Definition sample_port (index : Z) (uplink : bool) (role : bytes) : Port :=
  set_Up true (generatedPort index 1000 (B "GE") uplink uplink [] (repeat role (Z.to_nat index)) []).
Definition gateway_ports : list Port :=
  [set_CountersSet true (set_Counters (MkCounters 5 7 0 0 0 0) (sample_port 1 true (B "wan")));
   sample_port 2 false (B "lan"); sample_port 3 false (B "none")].
Definition sample_identity (kind : bytes) : Identity :=
  MkIdentity (B "02:00:00:00:00:01") (B "192.0.2.10") (B "lab") [] [] kind [] [] [] [] [] 0 60 0
    false false false false false false InformStateManaged true true.
Definition sample_profile : Profile := MkRenderProfile [] [] (MkPayloadProfile [] [] [] [] false).
Definition sample_clock : wall_time := (1700000000, 0).

Definition gateway_document : gatewayPayload := Eval vm_compute in
  match Build sample_clock sample_profile (sample_identity (B "uxg")) gateway_ports with
  | Ok (inr p) => p
  | _ => buildGatewayPayload (base_payload sample_profile (sample_identity []) 0 0 sample_clock) sample_profile
           (sample_identity []) [] sample_clock 0
  end.
Definition switch_document : switchPayload := Eval vm_compute in
  match Build sample_clock sample_profile (sample_identity (B "usw")) gateway_ports with
  | Ok (inl p) => p
  | _ => buildSwitchPayload (base_payload sample_profile (sample_identity []) 0 0 sample_clock) sample_profile
           (sample_identity []) [] 0 0
  end.


Lemma interface_macs_distinct_witness :
  NoDup ((λ v, iv_MAC (v_GatewayInterface v)) <$>
           BuildPortViews sample_profile (sample_identity []) gateway_ports (MkResolution [] [])).
Proof.
  apply (interface_macs_distinct sample_profile (sample_identity []) gateway_ports (MkResolution [] [])
           [x02; x00; x00; x00; x00; x01]).
  - vm_compute. reflexivity.
  - repeat constructor; cbn; lia.
  - apply (bool_decide_unpack _). vm_compute. exact I.
Defined.

Lemma switch_totals_mirror_uplink_witness :
  sts_RXBytes (swr_switchTrafficSummary switch_document) = Some 7 ∧
  ∃ row, row ∈ swr_PortTable switch_document ∧
    sts_RXBytes (swr_switchTrafficSummary switch_document) = cf_TXBytes (swp_counterFields row).
Proof.
  split; [vm_compute; reflexivity|].
  assert (∃ row rest, swr_PortTable switch_document = row :: rest ∧ swp_IsUplink row = true)
    as (row & rest & E & Hu) by (eexists _, _; split; reflexivity).
  exists row. rewrite E. split; [left|].
  apply (switch_totals_mirror_uplink sample_clock sample_profile (sample_identity (B "usw")) gateway_ports
           switch_document row); [vm_compute; reflexivity|vm_compute; reflexivity|rewrite E; left|done].
Defined.

Lemma gateway_wan_is_one_port_witness :
  gp_LastWANIP gateway_document = B "192.0.2.2" ∧
  ∃ q, q ∈ gateway_ports ∧ gp_LastWANIP gateway_document = interfaceIP (sample_identity (B "uxg")) q.
Proof.
  split; [vm_compute; reflexivity|].
  destruct (gateway_wan_is_one_port sample_clock sample_profile (sample_identity (B "uxg")) gateway_ports
              gateway_document
              (set_CountersSet true (set_Counters (MkCounters 5 7 0 0 0 0) (sample_port 1 true (B "wan")))))
    as (q & Hq & _ & _ & _ & _ & E & _); [vm_compute; reflexivity|left|vm_compute; reflexivity|].
  by exists q.
Defined.

Lemma reported_clock_saturates_witness :
  (reportedWallClock (9223372036854775000, 0) 2000).1 = int64_max ∧
  saturatedUnixMilli (reportedWallClock (9223372036854775000, 0) 2000) = int64_max.
Proof.
  destruct (reported_clock_saturates 9223372036854775000 0 2000) as (E1 & _ & E2 & _);
    [unfold in_int64, int64_min, int64_max; lia..|].
  split; [rewrite E1; vm_compute; reflexivity|]. rewrite E2; vm_compute; [reflexivity|discriminate].
Defined.
