(* ===== verification/Overrides.v ===== *)
(** Per-port overrides: [overrides.go], [override_apply.go], [override_fields.go],
    [override_counter.go], [override_data.go] and [override_values.go] of
    [src/internal/device].

    The order of the setters is policy, so it is kept as a list of functions;
    [apply_override] folds them as the loop does.  Pointers to booleans and
    floats are options, which makes the cloning of the code the identity. *)
From Stdlib Require Import Floats.SpecFloat.
From S2P Require Import Prelude GoStrings GoNet GoIP GoFloat Ports.

(** ** override_types.go *)
Record PortOverrideText := MkOverrideText {
  ot_Name : bytes; ot_Interface : bytes; ot_MAC : bytes; ot_IP : bytes; ot_Netmask : bytes;
  ot_Role : bytes; ot_NetworkGroup : bytes; ot_Media : bytes; ot_PortConfID : bytes;
  ot_NetworkConfID : bytes; ot_NativeNetworkConfID : bytes; ot_NetworkName : bytes;
}.
Record PortOverride := MkOverride {
  po_Port : Z; po_Text : PortOverrideText; po_IPv6 : list bytes; po_VLAN : Z;
  po_WANUptimePercent : option float64; po_WANLatencyMS : Z; po_WANDowntimeSeconds : Z;
  po_WANConnected : option bool; po_Speed : Z; po_Up : option bool; po_Disabled : bool;
  po_Counters : PortCounters; po_CountersSet : bool; po_RXBytesRate : Z; po_TXBytesRate : Z;
  po_TrafficRatesSet : bool;
}.
Definition no_text : PortOverrideText := MkOverrideText [] [] [] [] [] [] [] [] [] [] [] [].
Definition no_counters : PortCounters := MkCounters 0 0 0 0 0 0.
Definition no_override (port : Z) : PortOverride :=
  MkOverride port no_text [] 0 None 0 0 None 0 None false no_counters false 0 0 false.

(** ** override_fields.go *)
Inductive portOverrideNormalizer := TrimSpace | LowerTrimmed | NormalizeRole | NormalizeNetworkGroup.
Inductive portOverrideTextKey :=
| TextName | TextInterface | TextMAC | TextIP | TextNetmask | TextRole | TextNetworkGroup
| TextMedia | TextPortConfID | TextNetworkConfID | TextNativeNetworkConfID | TextNetworkName.
Inductive portOverrideValidator :=
| ValidateNone | ValidateInterface | ValidateMAC | ValidateIPv4 | ValidateNetmask | ValidateRole
| ValidateNetworkGroup.
#[export] Instance portOverrideTextKey_eq_dec : EqDecision portOverrideTextKey.
Proof. solve_decision. Defined.

Record portOverrideStringField := MkField {
  sf_key : portOverrideTextKey; sf_normalizer : portOverrideNormalizer;
  sf_validator : portOverrideValidator; sf_applyAfterSpeed : bool;
}.

Definition text_get (key : portOverrideTextKey) (t : PortOverrideText) : bytes :=
  match key with
  | TextName => ot_Name t | TextInterface => ot_Interface t | TextMAC => ot_MAC t
  | TextIP => ot_IP t | TextNetmask => ot_Netmask t | TextRole => ot_Role t
  | TextNetworkGroup => ot_NetworkGroup t | TextMedia => ot_Media t
  | TextPortConfID => ot_PortConfID t | TextNetworkConfID => ot_NetworkConfID t
  | TextNativeNetworkConfID => ot_NativeNetworkConfID t | TextNetworkName => ot_NetworkName t
  end.
(** A text given for every key. *)
Definition text_of (f : portOverrideTextKey → bytes) : PortOverrideText :=
  MkOverrideText (f TextName) (f TextInterface) (f TextMAC) (f TextIP) (f TextNetmask) (f TextRole)
    (f TextNetworkGroup) (f TextMedia) (f TextPortConfID) (f TextNetworkConfID)
    (f TextNativeNetworkConfID) (f TextNetworkName).
Definition text_set (key : portOverrideTextKey) (value : bytes) (t : PortOverrideText)
    : PortOverrideText :=
  text_of (λ k, if decide (k = key) then value else text_get k t).

Definition field_get (field : portOverrideStringField) (override : PortOverride) : bytes :=
  text_get (sf_key field) (po_Text override).

Definition set_Text (t : PortOverrideText) (o : PortOverride) : PortOverride :=
  MkOverride (po_Port o) t (po_IPv6 o) (po_VLAN o) (po_WANUptimePercent o) (po_WANLatencyMS o)
    (po_WANDowntimeSeconds o) (po_WANConnected o) (po_Speed o) (po_Up o) (po_Disabled o)
    (po_Counters o) (po_CountersSet o) (po_RXBytesRate o) (po_TXBytesRate o) (po_TrafficRatesSet o).
Definition setOverride (field : portOverrideStringField) (override : PortOverride) (value : bytes)
    : PortOverride :=
  set_Text (text_set (sf_key field) value (po_Text override)) override.

(** The text of a port, by the same keys. *)
Definition port_text (p : Port) : PortOverrideText :=
  let g := p_Gateway p in
  MkOverrideText (p_Name p) (p_Interface p) (pg_MAC g) (pg_IP g) (pg_Netmask g) (pg_Role g)
    (pg_NetworkGroup g) (p_Media p) (pg_PortConfID g) (pg_NetworkConfID g)
    (pg_NativeNetworkConfID g) (pg_NetworkName g).
Definition set_gateway_text (t : PortOverrideText) (g : PortGateway) : PortGateway :=
  MkGateway (ot_MAC t) (ot_IP t) (ot_Netmask t) (pg_IPv6 g) (ot_Role t) (pg_ProfileRole g)
    (ot_NetworkGroup t) (ot_PortConfID t) (ot_NetworkConfID t) (ot_NativeNetworkConfID t)
    (ot_NetworkName t) (pg_VLAN g) (pg_WANUptimePercent g) (pg_WANLatencyMS g)
    (pg_WANDowntimeSeconds g) (pg_WANConnected g).
Definition set_port_text (t : PortOverrideText) (p : Port) : Port :=
  set_Name (ot_Name t) (set_Interface (ot_Interface t) (set_Media (ot_Media t)
    (set_Gateway (set_gateway_text t (p_Gateway p)) p))).

Definition setPort (field : portOverrideStringField) (port : Port) (value : bytes) : Port :=
  if decide (value = []) then port
  else set_port_text (text_set (sf_key field) value (port_text port)) port.

Definition gatewayPortRoleLAN : bytes := B "lan".
Definition gatewayPortRoleLAN2 : bytes := B "lan2".
Definition gatewayPortRoleNone : bytes := B "unassigned".
Definition gatewayPortRoleWAN : bytes := B "wan".
Definition gatewayPortRoleWAN2 : bytes := B "wan2".
Definition validGatewayRole (role : bytes) : bool :=
  bool_decide (role ∈ [gatewayPortRoleWAN; gatewayPortRoleLAN; gatewayPortRoleWAN2;
                       gatewayPortRoleLAN2; gatewayPortRoleNone]).

(** ** override_data.go *)
Definition portOverrideStringFields : list portOverrideStringField :=
  [MkField TextName TrimSpace ValidateNone false;
   MkField TextInterface TrimSpace ValidateInterface false;
   MkField TextMAC LowerTrimmed ValidateMAC false;
   MkField TextIP TrimSpace ValidateIPv4 false;
   MkField TextNetmask TrimSpace ValidateNetmask false;
   MkField TextRole NormalizeRole ValidateRole false;
   MkField TextNetworkGroup NormalizeNetworkGroup ValidateNetworkGroup false;
   MkField TextMedia TrimSpace ValidateNone true;
   MkField TextPortConfID TrimSpace ValidateNone false;
   MkField TextNetworkConfID TrimSpace ValidateNone false;
   MkField TextNativeNetworkConfID TrimSpace ValidateNone false;
   MkField TextNetworkName TrimSpace ValidateNone false].

Inductive portCounterKey :=
| CounterRXBytes | CounterTXBytes | CounterRXPackets | CounterTXPackets | CounterRXErrors
| CounterTXErrors.
#[export] Instance portCounterKey_eq_dec : EqDecision portCounterKey.
Proof. solve_decision. Defined.
Definition portCounterOverrides : list portCounterKey :=
  [CounterRXBytes; CounterTXBytes; CounterRXPackets; CounterTXPackets; CounterRXErrors;
   CounterTXErrors].

(** ** override_counter.go *)
Definition counter_get (key : portCounterKey) (c : PortCounters) : Z :=
  match key with
  | CounterRXBytes => RXBytes c | CounterTXBytes => TXBytes c | CounterRXPackets => RXPackets c
  | CounterTXPackets => TXPackets c | CounterRXErrors => RXErrors c | CounterTXErrors => TXErrors c
  end.
Definition counter_set (key : portCounterKey) (value : Z) (c : PortCounters) : PortCounters :=
  match key with
  | CounterRXBytes => MkCounters value (TXBytes c) (RXPackets c) (TXPackets c) (RXErrors c) (TXErrors c)
  | CounterTXBytes => MkCounters (RXBytes c) value (RXPackets c) (TXPackets c) (RXErrors c) (TXErrors c)
  | CounterRXPackets => MkCounters (RXBytes c) (TXBytes c) value (TXPackets c) (RXErrors c) (TXErrors c)
  | CounterTXPackets => MkCounters (RXBytes c) (TXBytes c) (RXPackets c) value (RXErrors c) (TXErrors c)
  | CounterRXErrors => MkCounters (RXBytes c) (TXBytes c) (RXPackets c) (TXPackets c) value (TXErrors c)
  | CounterTXErrors => MkCounters (RXBytes c) (TXBytes c) (RXPackets c) (TXPackets c) (RXErrors c) value
  end.

(** ** override_values.go *)
Definition clampFloat64 (value minimum maximum : float64) : float64 :=
  if float_ltb value minimum then minimum
  else if float_ltb maximum value then maximum
  else value.
Definition nonNegativeInt (value : Z) : Z := if value <? 0 then 0 else value.

(** ** override_apply.go *)
Section apply.
Context `{UnicodeTables}.

Definition normalize (field : portOverrideStringField) (value : bytes) : bytes :=
  match sf_normalizer field with
  | LowerTrimmed => to_lower (trim_space value)
  | NormalizeRole => normalizeGatewayRole value
  | NormalizeNetworkGroup => normalizeNetworkGroup value
  | TrimSpace => trim_space value
  end.

Definition set_strings (afterSpeed : bool) (port : Port) (override : PortOverride) : Port :=
  fold_left (λ p field,
    if Bool.eqb (sf_applyAfterSpeed field) afterSpeed
    then setPort field p (normalize field (field_get field override)) else p)
    portOverrideStringFields port.
Definition setPortOverrideStrings : Port → PortOverride → Port := set_strings false.
Definition setPortOverrideMedia : Port → PortOverride → Port := set_strings true.

Definition set_assignment (vlan : Z) (ipv6 : list bytes) (g : PortGateway) : PortGateway :=
  MkGateway (pg_MAC g) (pg_IP g) (pg_Netmask g) ipv6 (pg_Role g) (pg_ProfileRole g)
    (pg_NetworkGroup g) (pg_PortConfID g) (pg_NetworkConfID g) (pg_NativeNetworkConfID g)
    (pg_NetworkName g) vlan (pg_WANUptimePercent g) (pg_WANLatencyMS g) (pg_WANDowntimeSeconds g)
    (pg_WANConnected g).
Definition setPortOverrideAssignment (port : Port) (override : PortOverride) : Port :=
  set_Gateway
    (set_assignment (po_VLAN override)
       (if decide (po_IPv6 override = []) then pg_IPv6 (p_Gateway port) else po_IPv6 override)
       (p_Gateway port)) port.

Definition setPortOverrideSpeed (port : Port) (override : PortOverride) : Port :=
  if po_Speed override <=? 0 then port
  else
    let port := set_Speed (po_Speed override) port in
    if decide (trim_space (ot_Media (po_Text override)) = [])
    then set_Media (mediaForSpeed (po_Speed override)) port
    else port.

Definition set_wan_health (uptime : option float64) (latency downtime : Z) (connected : option bool)
    (g : PortGateway) : PortGateway :=
  MkGateway (pg_MAC g) (pg_IP g) (pg_Netmask g) (pg_IPv6 g) (pg_Role g) (pg_ProfileRole g)
    (pg_NetworkGroup g) (pg_PortConfID g) (pg_NetworkConfID g) (pg_NativeNetworkConfID g)
    (pg_NetworkName g) (pg_VLAN g) uptime latency downtime connected.
Definition setPortOverrideWANHealth (port : Port) (override : PortOverride) : Port :=
  set_Gateway
    (set_wan_health (po_WANUptimePercent override) (po_WANLatencyMS override)
       (po_WANDowntimeSeconds override) (po_WANConnected override) (p_Gateway port)) port.

Definition setPortOverrideCounters (port : Port) (override : PortOverride) : Port :=
  let counters :=
    fold_left (λ c key,
      let value := counter_get key (po_Counters override) in
      if po_CountersSet override || negb (value =? 0) then counter_set key value c else c)
      portCounterOverrides (p_Counters port) in
  let port := set_Counters counters port in
  if po_CountersSet override then set_CountersSet true port else port.

Definition setPortOverrideRates (port : Port) (override : PortOverride) : Port :=
  if negb (po_TrafficRatesSet override) then port
  else set_Rates (po_RXBytesRate override) (po_TXBytesRate override) true true port.

Definition setPortOverrideLinkState (port : Port) (override : PortOverride) : Port :=
  match po_Up override with
  | None => port
  | Some up =>
      let port := set_Up up port in
      if negb up && (po_Speed override <=? 0) then set_Speed 0 port else port
  end.

Definition setPortOverrideDisabled (port : Port) (override : PortOverride) : Port :=
  if negb (po_Disabled override) then port
  else
    let g := p_Gateway port in
    set_MACs [] (set_Gateway (set_assignment (pg_VLAN g) [] g)
      (set_Speed 0 (set_Up false (set_Disabled true port)))).

Definition portOverrideSetters : list (Port → PortOverride → Port) :=
  [setPortOverrideStrings; setPortOverrideAssignment; setPortOverrideSpeed;
   setPortOverrideWANHealth; setPortOverrideCounters; setPortOverrideRates; setPortOverrideMedia;
   setPortOverrideLinkState; setPortOverrideDisabled].

(** ** overrides.go *)
Definition apply_override (port : Port) (override : PortOverride) : Port :=
  fold_left (λ p setter, setter p override) portOverrideSetters port.

Definition apply_port_override (ports : list Port) (override : PortOverride) : list Port :=
  if (po_Port override <? 1) || (zlen ports <? po_Port override) then ports
  else alter (λ p, apply_override p override) (Z.to_nat (po_Port override - 1)) ports.

Definition ApplyPortOverrides (ports : list Port) (overrides : list PortOverride) : list Port :=
  fold_left apply_port_override overrides ports.
End apply.

(** [WANHealthResult] (health_types.go). *)
Record WANHealthResult := MkHealth {
  wh_Port : Z; wh_Connected : bool; wh_LatencyMS : Z; wh_DowntimeSeconds : Z;
  wh_UptimePercent : float64;
}.
Definition health_override (result : WANHealthResult) : PortOverride :=
  MkOverride (wh_Port result) no_text [] 0
    (Some (clampFloat64 (wh_UptimePercent result) (float_of_int 0) (float_of_int 100)))
    (nonNegativeInt (wh_LatencyMS result)) (nonNegativeInt (wh_DowntimeSeconds result))
    (Some (wh_Connected result)) 0 None false no_counters false 0 0 false.
Definition WANHealthOverrides (results : list WANHealthResult) : list PortOverride :=
  map health_override (filter (λ r, 1 ≤ wh_Port r) results).

Section checks.
Context `{UnicodeTables}.

(** [field.validate]; the messages keep their constant part. *)
Definition validate_field (field : portOverrideStringField) (override : PortOverride)
    : result error unit :=
  let value := normalize field (field_get field override) in
  if decide (value = []) then Ok tt
  else
    match sf_validator field with
    | ValidateNone => Ok tt
    | ValidateInterface =>
        if bool_decide (x2f ∈ value) then Err "invalid interface override" else Ok tt
    | ValidateMAC =>
        match parse_mac value with None => Err "invalid port override mac" | Some _ => Ok tt end
    | ValidateIPv4 =>
        match parse_ip4 value with None => Err "invalid port override ip" | Some _ => Ok tt end
    | ValidateNetmask =>
        match parse_ip4 value with None => Err "invalid port override netmask" | Some _ => Ok tt end
    | ValidateRole =>
        if negb (validGatewayRole value) then Err "invalid port override role" else Ok tt
    | ValidateNetworkGroup =>
        if bool_decide (x0d ∈ value) || bool_decide (x0a ∈ value) || bool_decide (x09 ∈ value)
        then Err "invalid port override network_group" else Ok tt
    end.

Definition portOverrideStringsEmpty (override : PortOverride) : bool :=
  forallb (λ field, bool_decide (normalize field (field_get field override) = []))
    portOverrideStringFields.

Definition PortOverrideEmpty (override : PortOverride) : bool :=
  portOverrideStringsEmpty override
  && (po_Speed override =? 0) && bool_decide (po_IPv6 override = [])
  && bool_decide (po_Up override = None) && negb (po_Disabled override)
  && forallb (λ key, counter_get key (po_Counters override) =? 0) portCounterOverrides
  && negb (po_CountersSet override) && (po_VLAN override =? 0)
  && bool_decide (po_WANUptimePercent override = None) && (po_WANLatencyMS override =? 0)
  && (po_WANDowntimeSeconds override =? 0) && bool_decide (po_WANConnected override = None)
  && negb (po_TrafficRatesSet override).

Fixpoint validate_fields (fields : list portOverrideStringField) (override : PortOverride)
    : result error unit :=
  match fields with
  | [] => Ok tt
  | field :: rest => _ ← validate_field field override; validate_fields rest override
  end.

Definition ValidatePortOverride (override : PortOverride) (portCount : Z) : result error unit :=
  if (po_Port override <? 1) || (portCount <? po_Port override) then Err "invalid port override"
  else if po_Speed override <? 0 then Err "invalid speed override"
  else if po_VLAN override <? 0 then Err "invalid vlan override"
  else if match po_WANUptimePercent override with
          | None => false
          | Some u => float_ltb u (float_of_int 0) || float_ltb (float_of_int 100) u
          end then Err "invalid wan_uptime_percent override"
  else if po_WANLatencyMS override <? 0 then Err "invalid wan_latency_ms override"
  else if po_WANDowntimeSeconds override <? 0 then Err "invalid wan_downtime_seconds override"
  else
    _ ← validate_fields portOverrideStringFields override;
    if PortOverrideEmpty override then Err "empty port override" else Ok tt.

Definition NormalizePortOverride (override : PortOverride) : PortOverride :=
  fold_left (λ o field, setOverride field o (normalize field (field_get field o)))
    portOverrideStringFields override.
End checks.

(** ** The setters in one step

    A reference definition without an order: what each field of the port is
    after an override. *)
Definition given (v old : bytes) : bytes := if decide (v = []) then old else v.

Section outcome.
Context `{UnicodeTables}.

Definition text_norm (key : portOverrideTextKey) (v : bytes) : bytes :=
  match key with
  | TextMAC => to_lower (trim_space v)
  | TextRole => normalizeGatewayRole v
  | TextNetworkGroup => normalizeNetworkGroup v
  | _ => trim_space v
  end.
Definition override_text (o : PortOverride) (key : portOverrideTextKey) : bytes :=
  text_norm key (text_get key (po_Text o)).

Definition merged_gateway (g : PortGateway) (o : PortOverride) : PortGateway :=
  MkGateway (given (override_text o TextMAC) (pg_MAC g)) (given (override_text o TextIP) (pg_IP g))
    (given (override_text o TextNetmask) (pg_Netmask g))
    (if po_Disabled o then [] else if decide (po_IPv6 o = []) then pg_IPv6 g else po_IPv6 o)
    (given (override_text o TextRole) (pg_Role g)) (pg_ProfileRole g)
    (given (override_text o TextNetworkGroup) (pg_NetworkGroup g))
    (given (override_text o TextPortConfID) (pg_PortConfID g))
    (given (override_text o TextNetworkConfID) (pg_NetworkConfID g))
    (given (override_text o TextNativeNetworkConfID) (pg_NativeNetworkConfID g))
    (given (override_text o TextNetworkName) (pg_NetworkName g))
    (po_VLAN o) (po_WANUptimePercent o) (po_WANLatencyMS o) (po_WANDowntimeSeconds o)
    (po_WANConnected o).

Definition merged_counters (c : PortCounters) (o : PortOverride) : PortCounters :=
  let pick value old := if po_CountersSet o || negb (value =? 0) then value else old in
  let v := po_Counters o in
  MkCounters (pick (RXBytes v) (RXBytes c)) (pick (TXBytes v) (TXBytes c))
    (pick (RXPackets v) (RXPackets c)) (pick (TXPackets v) (TXPackets c))
    (pick (RXErrors v) (RXErrors c)) (pick (TXErrors v) (TXErrors c)).

Definition merged_speed (speed : Z) (o : PortOverride) : Z :=
  if po_Disabled o then 0
  else if 0 <? po_Speed o then po_Speed o
  else if bool_decide (po_Up o = Some false) then 0 else speed.

Definition merged_port (p : Port) (o : PortOverride) : Port :=
  MkPort (p_Index p) (given (override_text o TextName) (p_Name p))
    (given (override_text o TextInterface) (p_Interface p))
    (merged_gateway (p_Gateway p) o)
    (given (override_text o TextMedia)
       (if 0 <? po_Speed o then mediaForSpeed (po_Speed o) else p_Media p))
    (p_Uplink p) (p_ProfileUplink p) (p_Disabled p || po_Disabled o)
    (if po_Disabled o then false else default (p_Up p) (po_Up o))
    (merged_speed (p_Speed p) o) (merged_counters (p_Counters p) o)
    (p_CountersSet p || po_CountersSet o)
    (if po_TrafficRatesSet o then po_RXBytesRate o else p_RXBytesRate p)
    (if po_TrafficRatesSet o then po_TXBytesRate o else p_TXBytesRate p)
    (p_TrafficRatesEnabled p || po_TrafficRatesSet o) (p_TrafficRatesSet p || po_TrafficRatesSet o)
    (if po_Disabled o then [] else p_MACs p) (p_Neighbors p).

(** [setPort] without its condition. *)
Lemma setPort_given field p v :
  setPort field p v =
    set_port_text (text_set (sf_key field) (given v (text_get (sf_key field) (port_text p)))
                     (port_text p)) p.
Proof.
  unfold setPort, given. case_decide; [|done].
  destruct field as [[] ? ? ?], p as [? ? ? []]; reflexivity.
Qed.

Lemma counters_ext c d : (∀ k, counter_get k c = counter_get k d) → c = d.
Proof.
  intros Hk. pose proof (Hk CounterRXBytes). pose proof (Hk CounterTXBytes).
  pose proof (Hk CounterRXPackets). pose proof (Hk CounterTXPackets).
  pose proof (Hk CounterRXErrors). pose proof (Hk CounterTXErrors).
  destruct c, d; cbn in *; congruence.
Qed.

Lemma counter_step_get k key value (b : bool) c :
  counter_get k (if b then counter_set key value c else c) =
    if b && bool_decide (k = key) then value else counter_get k c.
Proof. by destruct b, k, key. Qed.

Lemma counters_merged c o :
  fold_left (λ c key,
      let value := counter_get key (po_Counters o) in
      if po_CountersSet o || negb (value =? 0) then counter_set key value c else c)
    portCounterOverrides c = merged_counters c o.
Proof.
  apply counters_ext. intros k. cbn zeta. unfold portCounterOverrides. cbn [fold_left].
  rewrite !counter_step_get.
  destruct k; cbn [counter_get merged_counters RXBytes TXBytes RXPackets TXPackets RXErrors TXErrors];
    repeat (rewrite (bool_decide_true (_ = _)) by reflexivity || rewrite (bool_decide_false (_ = _)) by done);
    by rewrite ?andb_false_r, ?andb_true_r.
Qed.

Lemma text_of_get t : text_of (λ k, text_get k t) = t.
Proof. by destruct t. Qed.
Lemma text_get_of f k : text_get k (text_of f) = f k.
Proof. by destruct k. Qed.
Lemma text_of_ext f g : (∀ k, f k = g k) → text_of f = text_of g.
Proof. intros E. unfold text_of. by rewrite !E. Qed.
Lemma set_port_text_same p : set_port_text (port_text p) p = p.
Proof. by destruct p as [? ? ? []]. Qed.
Lemma set_port_text_twice t u p : set_port_text t (set_port_text u p) = set_port_text t p.
Proof. by destruct p as [? ? ? []]. Qed.
Lemma port_text_set t p : port_text (set_port_text t p) = t.
Proof. by destruct t, p as [? ? ? []]. Qed.

(** What the loop over the fields does to one of them. *)
Definition field_outcome (after : bool) (o : PortOverride) (k : portOverrideTextKey)
    (fields : list portOverrideStringField) (v : bytes) : bytes :=
  fold_left (λ v field,
    if Bool.eqb (sf_applyAfterSpeed field) after && bool_decide (k = sf_key field)
    then given (normalize field (field_get field o)) v else v) fields v.

Lemma strings_outcome after o fields p :
  fold_left (λ p field,
      if Bool.eqb (sf_applyAfterSpeed field) after
      then setPort field p (normalize field (field_get field o)) else p) fields p =
    set_port_text (text_of (λ k, field_outcome after o k fields (text_get k (port_text p)))) p.
Proof.
  revert p. induction fields as [|f fields IH]; intros p; cbn [fold_left].
  { cbn. rewrite text_of_get. by rewrite set_port_text_same. }
  rewrite IH. unfold field_outcome. cbn [fold_left].
  destruct (Bool.eqb (sf_applyAfterSpeed f) after); cbn [andb]; [|done].
  rewrite setPort_given, set_port_text_twice, port_text_set. f_equal. apply text_of_ext. intros k.
  unfold text_set. rewrite text_get_of. case_decide as E; case_bool_decide; by subst.
Qed.

Lemma strings_merged p o :
  setPortOverrideStrings p o =
    set_port_text (text_of (λ k, if bool_decide (k = TextMedia) then p_Media p
                                 else given (override_text o k) (text_get k (port_text p)))) p.
Proof.
  unfold setPortOverrideStrings, set_strings. rewrite strings_outcome. reflexivity.
Qed.

Lemma media_merged p o :
  setPortOverrideMedia p o = set_Media (given (override_text o TextMedia) (p_Media p)) p.
Proof.
  unfold setPortOverrideMedia, set_strings. rewrite strings_outcome.
  rewrite (text_of_ext _ (λ k, if bool_decide (k = TextMedia)
    then given (override_text o TextMedia) (p_Media p) else text_get k (port_text p)))
    by (by intros []).
  by destruct p as [? ? ? []].
Qed.

Lemma speed_merged p o :
  setPortOverrideSpeed p o =
    set_Media (if (0 <? po_Speed o) && bool_decide (override_text o TextMedia = [])
               then mediaForSpeed (po_Speed o) else p_Media p)
      (set_Speed (if 0 <? po_Speed o then po_Speed o else p_Speed p) p).
Proof.
  unfold setPortOverrideSpeed. rewrite Z.leb_antisym.
  change (override_text o TextMedia) with (trim_space (ot_Media (po_Text o))).
  destruct (0 <? po_Speed o); cbn [negb andb]; [|by destruct p].
  case_decide; case_bool_decide; [|done..|]; by destruct p.
Qed.

Lemma rates_merged p o :
  setPortOverrideRates p o =
    set_Rates (if po_TrafficRatesSet o then po_RXBytesRate o else p_RXBytesRate p)
      (if po_TrafficRatesSet o then po_TXBytesRate o else p_TXBytesRate p)
      (p_TrafficRatesEnabled p || po_TrafficRatesSet o) (p_TrafficRatesSet p || po_TrafficRatesSet o) p.
Proof.
  unfold setPortOverrideRates. destruct (po_TrafficRatesSet o); cbn [negb].
  - by rewrite !orb_true_r.
  - rewrite !orb_false_r. by destruct p.
Qed.

Lemma link_merged p o :
  setPortOverrideLinkState p o =
    set_Up (default (p_Up p) (po_Up o))
      (set_Speed (if bool_decide (po_Up o = Some false) && negb (0 <? po_Speed o) then 0
                  else p_Speed p) p).
Proof.
  unfold setPortOverrideLinkState. rewrite Z.leb_antisym. destruct (po_Up o) as [[]|].
  - by destruct p.
  - cbn [negb andb]. rewrite bool_decide_true by done. cbn [andb].
    by destruct (negb _), p.
  - by destruct p.
Qed.

Lemma disabled_merged p o :
  setPortOverrideDisabled p o =
    set_MACs (if po_Disabled o then [] else p_MACs p)
      (set_Gateway (set_assignment (pg_VLAN (p_Gateway p))
                      (if po_Disabled o then [] else pg_IPv6 (p_Gateway p)) (p_Gateway p))
        (set_Speed (if po_Disabled o then 0 else p_Speed p)
          (set_Up (if po_Disabled o then false else p_Up p)
            (set_Disabled (p_Disabled p || po_Disabled o) p)))).
Proof.
  unfold setPortOverrideDisabled. destruct (po_Disabled o); cbn [negb].
  - by rewrite orb_true_r.
  - rewrite orb_false_r. by destruct p as [? ? ? []].
Qed.

Lemma countersSet_merged p o :
  setPortOverrideCounters p o =
    set_CountersSet (p_CountersSet p || po_CountersSet o)
      (set_Counters (merged_counters (p_Counters p) o) p).
Proof.
  unfold setPortOverrideCounters. rewrite counters_merged. destruct (po_CountersSet o).
  - by rewrite orb_true_r.
  - rewrite orb_false_r. by destruct p.
Qed.

(** Puts the port a setter gives into constructor form. *)
Ltac stage := cbv beta iota zeta delta [
    set_Name set_Interface set_Gateway set_Media set_Disabled set_Up set_Speed set_Counters
    set_CountersSet set_Rates set_MACs set_assignment set_wan_health set_gateway_text
    set_port_text port_text text_of text_get p_Index p_Name p_Interface p_Gateway p_Media
    p_Uplink p_ProfileUplink p_Disabled p_Up p_Speed p_Counters p_CountersSet p_RXBytesRate
    p_TXBytesRate p_TrafficRatesEnabled p_TrafficRatesSet p_MACs p_Neighbors pg_MAC pg_IP
    pg_Netmask pg_IPv6 pg_Role pg_ProfileRole pg_NetworkGroup pg_PortConfID pg_NetworkConfID
    pg_NativeNetworkConfID pg_NetworkName pg_VLAN pg_WANUptimePercent pg_WANLatencyMS
    pg_WANDowntimeSeconds pg_WANConnected ot_Name ot_Interface ot_MAC ot_IP ot_Netmask ot_Role
    ot_NetworkGroup ot_Media ot_PortConfID ot_NetworkConfID ot_NativeNetworkConfID
    ot_NetworkName ].

Lemma apply_override_merged p o : apply_override p o = merged_port p o.
Proof.
  unfold apply_override, portOverrideSetters. cbn [fold_left].
  destruct p as [? ? ? [] ? ? ? ? ? ? ? ? ? ? ? ? ? ?].
  rewrite strings_merged. stage. unfold setPortOverrideAssignment at 1. stage.
  rewrite speed_merged. stage. unfold setPortOverrideWANHealth at 1. stage.
  rewrite countersSet_merged. stage. rewrite rates_merged. stage. rewrite media_merged. stage.
  rewrite link_merged. stage. rewrite disabled_merged. stage.
  unfold merged_port, merged_gateway, merged_speed. stage.
  f_equal.
  - rewrite (bool_decide_true (TextMedia = TextMedia)) by done. unfold given. case_decide as E; [|done].
    rewrite (bool_decide_true _ E). by rewrite andb_true_r.
  - by destruct (po_Disabled o), (0 <? po_Speed o), (bool_decide (po_Up o = Some false)).
Qed.
End outcome.

(** ** Lists of ports *)
Section ports.
Context `{UnicodeTables}.

Lemma apply_port_override_lookup ports o i :
  apply_port_override ports o !! i =
    (λ p, if decide (po_Port o = Z.of_nat i + 1) then merged_port p o else p) <$> ports !! i.
Proof.
  unfold apply_port_override.
  destruct ((po_Port o <? 1) || (zlen ports <? po_Port o)) eqn:E.
  - destruct (ports !! i) as [p|] eqn:Ei; [|done]. cbn. rewrite decide_False; [done|].
    apply lookup_lt_Some in Ei. unfold zlen in E. lia.
  - destruct (decide (po_Port o = Z.of_nat i + 1)) as [Eo|Eo].
    + replace (Z.to_nat (po_Port o - 1)) with i by lia. rewrite list_lookup_alter_eq.
      destruct (ports !! i); [|done]. change (Some (apply_override p o) = Some (merged_port p o)).
      by rewrite apply_override_merged.
    + rewrite list_lookup_alter_ne by lia. by destruct (ports !! i).
Qed.

(** The overrides of the port at position [i]. *)
Definition overrides_at (i : nat) (overrides : list PortOverride) : list PortOverride :=
  filter (λ o, po_Port o = Z.of_nat i + 1) overrides.

Lemma apply_overrides_lookup ports overrides i :
  ApplyPortOverrides ports overrides !! i =
    (λ p, fold_left merged_port (overrides_at i overrides) p) <$> ports !! i.
Proof.
  unfold ApplyPortOverrides, overrides_at. revert ports.
  induction overrides as [|o os IH]; intros ports; cbn [fold_left].
  - by destruct (ports !! i).
  - rewrite IH, apply_port_override_lookup, filter_cons.
    destruct (ports !! i); cbn; [|done]. by case_decide.
Qed.

Lemma apply_overrides_length ports overrides :
  length (ApplyPortOverrides ports overrides) = length ports.
Proof.
  unfold ApplyPortOverrides. revert ports.
  induction overrides as [|o os IH]; intros ports; cbn [fold_left]; [done|].
  rewrite IH. unfold apply_port_override. destruct (_ || _); [done|]. apply length_alter.
Qed.
End ports.

(** C34: overriding ports is one reference merge per override: no port is added
    or lost, an override reaches exactly the port it names, overrides of one
    port apply in order, and the nine ordered setters of the code together are
    [merged_port], in which an explicit media label beats the one of the speed,
    a link that is down without a speed has none, and a disabled port has no
    link, speed, IPv6 addresses or learned clients. *)
Theorem ApplyPortOverrides_merges `{UnicodeTables} ports overrides i :
  length (ApplyPortOverrides ports overrides) = length ports ∧
  ApplyPortOverrides ports overrides !! i =
    (λ p, fold_left merged_port (overrides_at i overrides) p) <$> ports !! i.
Proof. split; [apply apply_overrides_length|apply apply_overrides_lookup]. Qed.

(** ** Valid overrides keep ports well-formed *)
Section wellformed.
Context `{UnicodeTables}.

Definition text_valid (key : portOverrideTextKey) (v : bytes) : Prop :=
  v = [] ∨
  match key with
  | TextInterface => x2f ∉ v
  | TextMAC => is_Some (parse_mac v)
  | TextIP | TextNetmask => is_Some (parse_ip4 v)
  | TextRole => validGatewayRole v = true
  | TextNetworkGroup => x0d ∉ v ∧ x0a ∉ v ∧ x09 ∉ v
  | _ => True
  end.

Record port_ok (p : Port) : Prop := {
  ok_text : ∀ k, text_valid k (text_get k (port_text p));
  ok_speed : 0 ≤ p_Speed p;
  ok_vlan : 0 ≤ pg_VLAN (p_Gateway p);
  ok_latency : 0 ≤ pg_WANLatencyMS (p_Gateway p);
  ok_downtime : 0 ≤ pg_WANDowntimeSeconds (p_Gateway p);
  ok_uptime : ∀ u, pg_WANUptimePercent (p_Gateway p) = Some u →
    float_ltb u (float_of_int 0) = false ∧ float_ltb (float_of_int 100) u = false;
}.

Lemma validate_field_valid field o :
  validate_field field o = Ok tt →
  normalize field (field_get field o) = [] ∨
  match sf_validator field with
  | ValidateNone => True
  | ValidateInterface => x2f ∉ normalize field (field_get field o)
  | ValidateMAC => is_Some (parse_mac (normalize field (field_get field o)))
  | ValidateIPv4 | ValidateNetmask => is_Some (parse_ip4 (normalize field (field_get field o)))
  | ValidateRole => validGatewayRole (normalize field (field_get field o)) = true
  | ValidateNetworkGroup =>
      x0d ∉ normalize field (field_get field o) ∧ x0a ∉ normalize field (field_get field o) ∧
      x09 ∉ normalize field (field_get field o)
  end.
Proof.
  intros Hv. unfold validate_field in Hv. set (v := normalize field (field_get field o)) in *.
  clearbody v. case_decide as Ev; [by left|right].
  destruct (sf_validator field); [done|..].
  - by case_bool_decide.
  - destruct (parse_mac v); [by eexists|done].
  - destruct (parse_ip4 v); [by eexists|done].
  - destruct (parse_ip4 v); [by eexists|done].
  - by destruct (validGatewayRole v).
  - do 3 (case_bool_decide; [done|]). done.
Qed.

Lemma validate_fields_all fields o :
  validate_fields fields o = Ok tt → Forall (λ f, validate_field f o = Ok tt) fields.
Proof.
  induction fields as [|f fields IH]; cbn [validate_fields]; [by constructor|].
  destruct (validate_field f o) as [[]|] eqn:E; [|done]. intros Hv. constructor; [done|by apply IH].
Qed.

Definition field_for (key : portOverrideTextKey) : portOverrideStringField :=
  match key with
  | TextName => MkField TextName TrimSpace ValidateNone false
  | TextInterface => MkField TextInterface TrimSpace ValidateInterface false
  | TextMAC => MkField TextMAC LowerTrimmed ValidateMAC false
  | TextIP => MkField TextIP TrimSpace ValidateIPv4 false
  | TextNetmask => MkField TextNetmask TrimSpace ValidateNetmask false
  | TextRole => MkField TextRole NormalizeRole ValidateRole false
  | TextNetworkGroup => MkField TextNetworkGroup NormalizeNetworkGroup ValidateNetworkGroup false
  | TextMedia => MkField TextMedia TrimSpace ValidateNone true
  | TextPortConfID => MkField TextPortConfID TrimSpace ValidateNone false
  | TextNetworkConfID => MkField TextNetworkConfID TrimSpace ValidateNone false
  | TextNativeNetworkConfID => MkField TextNativeNetworkConfID TrimSpace ValidateNone false
  | TextNetworkName => MkField TextNetworkName TrimSpace ValidateNone false
  end.

Lemma field_for_in key : field_for key ∈ portOverrideStringFields.
Proof. unfold portOverrideStringFields. rewrite !elem_of_cons. destruct key; tauto. Qed.

Lemma field_for_text key o :
  normalize (field_for key) (field_get (field_for key) o) = override_text o key.
Proof. by destruct key. Qed.

Lemma validated_text o key :
  validate_fields portOverrideStringFields o = Ok tt → text_valid key (override_text o key).
Proof.
  intros Hv%validate_fields_all. rewrite Forall_forall in Hv.
  pose proof (validate_field_valid _ o (Hv _ (field_for_in key))) as Hk.
  rewrite field_for_text in Hk. unfold text_valid. destruct key; cbn in Hk; auto.
Qed.

Lemma given_valid key v old : text_valid key v → text_valid key old → text_valid key (given v old).
Proof. unfold given. by case_decide. Qed.

(** What [ValidatePortOverride] established. *)
Record override_ok (count : Z) (o : PortOverride) : Prop := {
  oo_port : 1 ≤ po_Port o ≤ count;
  oo_speed : 0 ≤ po_Speed o;
  oo_vlan : 0 ≤ po_VLAN o;
  oo_latency : 0 ≤ po_WANLatencyMS o;
  oo_downtime : 0 ≤ po_WANDowntimeSeconds o;
  oo_uptime : ∀ u, po_WANUptimePercent o = Some u →
    float_ltb u (float_of_int 0) = false ∧ float_ltb (float_of_int 100) u = false;
  oo_text : ∀ k, text_valid k (override_text o k);
  oo_effective : PortOverrideEmpty o = false;
}.

Lemma validated o count : ValidatePortOverride o count = Ok tt → override_ok count o.
Proof.
  unfold ValidatePortOverride. intros Hv.
  destruct ((po_Port o <? 1) || (count <? po_Port o)) eqn:E1; [done|].
  destruct (po_Speed o <? 0) eqn:E2; [done|]. destruct (po_VLAN o <? 0) eqn:E3; [done|].
  destruct (match po_WANUptimePercent o with Some _ => _ | None => _ end) eqn:E4; [done|].
  destruct (po_WANLatencyMS o <? 0) eqn:E5; [done|].
  destruct (po_WANDowntimeSeconds o <? 0) eqn:E6; [done|].
  destruct (validate_fields portOverrideStringFields o) as [[]|] eqn:E7; [|done]. cbn in Hv.
  destruct (PortOverrideEmpty o) eqn:E8; [done|].
  split; try lia; [|intros k; by apply validated_text|done].
  intros u Hu. rewrite Hu in E4. by apply orb_false_iff in E4.
Qed.

Lemma mediaForSpeed_valid speed : text_valid TextMedia (mediaForSpeed speed).
Proof. by right. Qed.

Lemma merged_port_ok count p o : override_ok count o → port_ok p → port_ok (merged_port p o).
Proof.
  intros [? Hspeed ? ? ? Hu Ht _] [Hp ? ? ? ? Hup]. split; cbn; try done.
  - intros k. pose proof (Hp k) as Hk. destruct k; try (by apply given_valid; [apply Ht|exact Hk]).
    apply given_valid; [apply Ht|]. by right.
  - unfold merged_speed. repeat case_match; lia.
Qed.
End wellformed.

(** Overrides the configuration check accepts keep ports well-formed:
    hardware and IPv4 addresses that parse, a known role, an interface name
    without a slash, a network group without tabs or line breaks, and no
    negative speed, VLAN, latency or downtime nor an availability outside 0 to
    100 per cent. *)
Theorem validated_overrides_keep_ports `{UnicodeTables} count ports overrides :
  Forall (λ o, ValidatePortOverride o count = Ok tt) overrides →
  Forall port_ok ports → Forall port_ok (ApplyPortOverrides ports overrides).
Proof.
  intros Hv Hp. apply Forall_lookup. intros i p'. rewrite apply_overrides_lookup.
  intros (p & Hi & ->)%fmap_Some. rewrite Forall_lookup in Hp. specialize (Hp i p Hi).
  assert (Forall (override_ok count) (overrides_at i overrides)) as Ho.
  { apply Forall_forall. intros o [_ Ho]%list_elem_of_filter. rewrite Forall_forall in Hv.
    by apply validated, Hv. }
  clear Hi Hv. revert p Hp. induction Ho as [|o os Ho Hos IH]; intros p Hp; cbn [fold_left]; [done|].
  apply IH. by eapply merged_port_ok.
Qed.

(** ** Measured WAN health *)

(** The port after a health sample. *)
Definition health_port (p : Port) (r : WANHealthResult) : Port :=
  set_Gateway
    (set_wan_health
       (Some (clampFloat64 (wh_UptimePercent r) (float_of_int 0) (float_of_int 100)))
       (Z.max 0 (wh_LatencyMS r)) (Z.max 0 (wh_DowntimeSeconds r)) (Some (wh_Connected r))
       (set_assignment 0 (pg_IPv6 (p_Gateway p)) (p_Gateway p))) p.

Section health.
Context `{UnicodeTables}.

Lemma nonNegativeInt_max z : nonNegativeInt z = Z.max 0 z.
Proof. unfold nonNegativeInt. destruct (z <? 0) eqn:E; lia. Qed.

Lemma given_nil old : given [] old = old.
Proof. done. Qed.

Lemma merged_health p r : merged_port p (health_override r) = health_port p r.
Proof.
  unfold merged_port, health_override, health_port, merged_gateway, merged_counters, merged_speed.
  destruct p as [? ? ? [] ? ? ? ? ? ? [] ? ? ? ? ? ? ?].
  rewrite !nonNegativeInt_max. unfold normalizeGatewayRole.
  cbn -[Z.max clampFloat64 float_of_int given]. by rewrite !orb_false_r, !given_nil.
Qed.
End health.

Lemma health_port_twice p r1 r2 : health_port (health_port p r1) r2 = health_port p r2.
Proof. by destruct p as [? ? ? []]. Qed.

(** The samples of the port at position [i]. *)
Definition samples_at (i : nat) (results : list WANHealthResult) : list WANHealthResult :=
  filter (λ r, wh_Port r = Z.of_nat i + 1) results.

Lemma overrides_at_health i results :
  overrides_at i (WANHealthOverrides results) = map health_override (samples_at i results).
Proof.
  unfold overrides_at, WANHealthOverrides, samples_at.
  induction results as [|r rs IH]; [done|]. rewrite !filter_cons.
  destruct (decide (1 ≤ wh_Port r)) as [Hp|Hp]; cbn [map].
  - rewrite filter_cons. change (po_Port (health_override r)) with (wh_Port r).
    case_decide; [|exact IH]. cbn [map]. by rewrite IH.
  - rewrite decide_False by lia. exact IH.
Qed.

Lemma fold_health `{UnicodeTables} rs p :
  fold_left merged_port (map health_override rs) p =
    match last rs with None => p | Some r => health_port p r end.
Proof.
  induction rs as [|r rs IH] using rev_ind; [done|].
  rewrite map_app, fold_left_app, IH, last_snoc. cbn [map fold_left]. rewrite merged_health.
  destruct (last rs); [apply health_port_twice|done].
Qed.

Lemma clamp_percent u :
  let c := clampFloat64 u (float_of_int 0) (float_of_int 100) in
  float_ltb c (float_of_int 0) = false ∧ float_ltb (float_of_int 100) c = false.
Proof.
  unfold clampFloat64. destruct (float_ltb u (float_of_int 0)) eqn:E1; [done|].
  by destruct (float_ltb (float_of_int 100) u) eqn:E2.
Qed.

(** What active WAN health does to a port: the last sample of the port
    sets its availability, kept within 0 to 100 per cent, its latency,
    downtime and reachability, and nothing else changes, except that the VLAN
    of a measured port is always erased, although the caller and the comment of
    [WANHealthOverrides] promise to leave it alone. *)
Theorem wan_health_last_sample `{UnicodeTables} ports results i p :
  ports !! i = Some p →
  ∃ p', ApplyPortOverrides ports (WANHealthOverrides results) !! i = Some p' ∧
  match last (samples_at i results) with
  | None => p' = p
  | Some r =>
      p' = health_port p r ∧ pg_VLAN (p_Gateway p') = 0 ∧
      ∃ u, pg_WANUptimePercent (p_Gateway p') = Some u ∧
        float_ltb u (float_of_int 0) = false ∧ float_ltb (float_of_int 100) u = false
  end.
Proof.
  intros Hi. rewrite apply_overrides_lookup, Hi, overrides_at_health. cbn [fmap option_fmap option_map].
  rewrite fold_health. destruct (last (samples_at i results)) as [r|]; eexists; (split; [reflexivity|]).
  - split; [done|]. split; [done|]. eexists. split; [reflexivity|]. apply clamp_percent.
  - done.
Qed.

(** ** Normalized overrides *)
Lemma NormalizePortOverride_text `{UnicodeTables} o :
  NormalizePortOverride o = set_Text (text_of (override_text o)) o.
Proof.
  assert (∀ fields q, fold_left (λ o field, setOverride field o (normalize field (field_get field o)))
      fields q = set_Text (text_of (λ k, fold_left (λ v field,
        if bool_decide (k = sf_key field) then normalize field v else v) fields
        (text_get k (po_Text q)))) q) as Hfold.
  { induction fields as [|f fields IH]; intros q; cbn [fold_left].
    { rewrite text_of_get. by destruct q. }
    rewrite IH. unfold setOverride, set_Text, field_get. cbn. f_equal. apply text_of_ext. intros k.
    unfold text_set. rewrite text_get_of. case_decide; case_bool_decide; by subst. }
  unfold NormalizePortOverride. rewrite Hfold. f_equal. 
Qed.

(** ** Witnesses *)
#[local] Existing Instance ascii_tables.

Definition sample_gateway : PortGateway :=
  MkGateway (B "02:00:00:00:00:01") (B "192.0.2.2") (B "255.255.255.0") [] (B "wan") (B "wan") (B "WAN")
    [] [] [] [] 10 None 0 0 None.
Definition sample_port (index : Z) : Port :=
  MkPort index (B "Port 1") (B "eth0") sample_gateway (B "GE") (index =? 1) false false true 1000
    no_counters false 0 0 false false [] [].
Definition sample_override : PortOverride :=
  MkOverride 1 (text_set TextName (B " WAN ") (text_set TextRole (B "WAN2") no_text)) [] 20 None 0 0 None
    10000 None false no_counters false 0 0 false.
Definition sample_health : WANHealthResult := MkHealth 1 true 12 0 (float_of_int 250).

Example override_run :
  (λ p, (p_Name p, p_Media p, p_Speed p, pg_Role (p_Gateway p), pg_VLAN (p_Gateway p))) <$>
    ApplyPortOverrides [sample_port 1; sample_port 2] [sample_override] =
  [(B "WAN", B "SFP+", 10000, B "wan2", 20); (B "Port 1", B "GE", 1000, B "wan", 10)].
Proof. vm_compute. reflexivity. Qed.

(** A later override can bring the link of a disabled port back. *)
Example disabled_port_up_again :
  (λ p, (p_Disabled p, p_Up p, p_Speed p)) <$>
    ApplyPortOverrides [sample_port 1]
      [MkOverride 1 no_text [] 0 None 0 0 None 0 None true no_counters false 0 0 false;
       MkOverride 1 no_text [] 0 None 0 0 None 1000 (Some true) false no_counters false 0 0 false] =
  [(true, true, 1000)].
Proof. vm_compute. reflexivity. Qed.

(** An availability that is not a number passes the check. *)
Example nan_uptime_accepted :
  ValidatePortOverride
    (MkOverride 1 no_text [] 0 (Some S754_nan) 0 0 None 0 None false no_counters false 0 0 false) 1
  = Ok tt.
Proof. vm_compute. reflexivity. Qed.

Lemma validated_overrides_keep_ports_witness :
  Forall port_ok (ApplyPortOverrides [sample_port 1; sample_port 2] [sample_override]).
Proof.
  assert (Forall (λ o, ValidatePortOverride o 2 = Ok tt) [sample_override]) as Hv
    by (apply Forall_cons_2; [vm_compute; reflexivity|apply Forall_nil_2]).
  assert (∀ n, port_ok (sample_port n)) as Hp.
  { intros n. split.
    - intros k. destruct k; right; cbn; try exact I; try (eexists; vm_compute; reflexivity);
        try (vm_compute; reflexivity).
      + apply (bool_decide_eq_false_1 (x2f ∈ B "eth0")). vm_compute. reflexivity.
      + split; [|split]; apply (bool_decide_eq_false_1 (_ ∈ B "WAN")); vm_compute; reflexivity.
    - cbn. lia.
    - cbn. lia.
    - cbn. lia.
    - cbn. lia.
    - intros u Hu. discriminate Hu. }
  exact (validated_overrides_keep_ports 2 [sample_port 1; sample_port 2] [sample_override] Hv
           (Forall_cons_2 _ _ _ (Hp 1) (Forall_cons_2 _ _ _ (Hp 2) (Forall_nil_2 _)))).
Defined.

Lemma wan_health_last_sample_witness :
  ∃ p', ApplyPortOverrides [sample_port 1] (WANHealthOverrides [sample_health]) !! 0%nat = Some p' ∧
    pg_VLAN (p_Gateway (sample_port 1)) = 10 ∧ pg_VLAN (p_Gateway p') = 0.
Proof.
  destruct (wan_health_last_sample [sample_port 1] [sample_health] 0 (sample_port 1) eq_refl)
    as (p' & Hp & Hr).
  exists p'. split; [exact Hp|]. split; [reflexivity|]. exact (proj1 (proj2 Hr)).
Defined.
