(* ===== verification/Observe.v ===== *)
(** Host observation of a bridge: the types of [model.go] and
    [snapshot_types.go], the member classification ([classify.go]), the
    snapshot ([snapshot.go], [snapshot_normalize.go], [snapshot_macs.go],
    [snapshot_members.go]) and its merge into represented ports
    ([snapshot_apply.go] and the field table of [snapshot_stats.go]), all in
    [src/internal/observe].

    The order of a [range] over a map and the order [sort.Slice] gives equal
    names are parameters.  A Go map is a [gmap]; a nil map behaves as an empty
    one everywhere here. *)
From stdpp Require Import sorting gmap list_numbers.
From S2P Require Import Prelude GoStrings GoNet GoMap Ports Overrides.

(** ** model.go *)

(** A string type with these constants. *)
Abbreviation BridgeMemberRole := bytes.
Definition BridgeMemberRoleUnknown : BridgeMemberRole := B "unknown".
Definition BridgeMemberRoleUplink : BridgeMemberRole := B "uplink".
Definition BridgeMemberRoleAccess : BridgeMemberRole := B "access".
Definition BridgeMemberRoleBridge : BridgeMemberRole := B "bridge".
Definition BridgeMemberRoleIgnored : BridgeMemberRole := B "ignored".

Record InterfaceStats := MkStats {
  is_Up : option bool; is_CountersSet : bool; is_Counters : PortCounters; is_SpeedMbps : Z;
}.
Definition no_stats : InterfaceStats := MkStats None false no_counters 0.

Record PortObservation := MkObservation {
  ob_Port : Z; ob_Interface : bytes; ob_MAC : bytes; ob_IP : bytes; ob_Netmask : bytes;
  ob_IPv6 : list bytes; ob_Up : option bool; ob_SpeedMbps : Z; ob_Media : bytes;
  ob_Stats : InterfaceStats; ob_MACs : list MacTableEntry; ob_Disabled : bool; ob_Unmapped : bool;
}.
Definition no_observation : PortObservation :=
  MkObservation 0 [] [] [] [] [] None 0 [] no_stats [] false false.

Record BridgeConfig := MkBridgeConfig {
  bc_Bridge : bytes; bc_UplinkInterface : bytes; bc_IgnoredMembers : list bytes;
  bc_MemberPortMap : gmap bytes Z;
}.
Record BridgeObservation := MkBridgeObservation {
  br_Bridge : bytes; br_UplinkInterface : bytes; br_Uplink : PortObservation;
  br_MemberMACs : gmap bytes (list MacTableEntry); br_RemoteMACs : gmap bytes bool;
  br_MemberPorts : gmap bytes PortObservation; br_MemberPortMap : gmap bytes Z;
  br_MemberRoles : gmap bytes BridgeMemberRole;
}.
Record Config := MkObserveConfig {
  oc_Interface : bytes; oc_Bridge : bytes; oc_IgnoredMembers : list bytes;
  oc_MemberPortMap : gmap bytes Z;
}.
Record Snapshot := MkSnapshot {
  ss_UplinkPortIndex : Z; ss_Interface : bytes; ss_Bridge : bytes; ss_Up : option bool;
  ss_Stats : InterfaceStats; ss_MACs : list MacTableEntry;
  ss_DeviceMACs : gmap bytes (list MacTableEntry); ss_RemoteMACs : gmap bytes bool;
  ss_MemberPorts : gmap bytes PortObservation; ss_MemberPortMap : gmap bytes Z;
  ss_MemberRoles : gmap bytes BridgeMemberRole;
}.

Section observe.
Context `{UnicodeTables} `{MapOrder} `{SliceSort}.

(** ** classify.go *)
Definition memberNameKey (value : bytes) : bytes := to_lower (trim_space value).

Definition has_any_prefix (prefixes : list bytes) (name : bytes) : bool :=
  existsb (λ p, has_prefix p name) prefixes.
Definition virtual_prefixes : list bytes :=
  [B "tap"; B "veth"; B "fwpr"; B "fwln"; B "fwbr"; B "epair"; B "vnet"].
Definition physical_prefixes : list bytes :=
  [B "eth"; B "eno"; B "ens"; B "enp"; B "enx"; B "bond"; B "team"; B "lagg"; B "em"; B "igb";
   B "ix"; B "ixl"; B "ice"; B "bnxt"; B "bge"; B "re"; B "vtnet"].
Definition isVirtualAccessMember (name : bytes) : bool :=
  has_any_prefix virtual_prefixes (to_lower (trim_space name)).
Definition isPhysicalMember (name : bytes) : bool :=
  has_any_prefix physical_prefixes (to_lower (trim_space name)).

Definition ClassifyMember (member bridge uplinkInterface : bytes) : BridgeMemberRole :=
  let name := to_lower (trim_space member) in
  let bridgeName := to_lower (trim_space bridge) in
  let uplinkName := to_lower (trim_space uplinkInterface) in
  if decide (name = []) then BridgeMemberRoleUnknown
  else if negb (bool_decide (bridgeName = [])) && bool_decide (name = bridgeName)
  then BridgeMemberRoleBridge
  else if negb (bool_decide (uplinkName = [])) && bool_decide (name = uplinkName)
  then BridgeMemberRoleUplink
  else if isVirtualAccessMember name then BridgeMemberRoleAccess
  else BridgeMemberRoleUnknown.

(** One turn of the loop in [ClassifyMembers]: the roles and the candidates. *)
Definition classify_step (bridge uplinkInterface : bytes)
    (st : gmap bytes BridgeMemberRole * list bytes) (entry : bytes * list MacTableEntry)
    : gmap bytes BridgeMemberRole * list bytes :=
  let '(roles, physicalCandidates) := st in
  let member := entry.1 in
  let role := ClassifyMember member bridge uplinkInterface in
  (<[member := role]> roles,
   if bool_decide (trim_space uplinkInterface = []) && bool_decide (role = BridgeMemberRoleUnknown)
      && isPhysicalMember member
   then physicalCandidates ++ [member] else physicalCandidates).

Definition ClassifyMembers (memberMACs : gmap bytes (list MacTableEntry))
    (bridge uplinkInterface : bytes) : gmap bytes BridgeMemberRole :=
  let '(roles, physicalCandidates) :=
    fold_left (classify_step bridge uplinkInterface) (range memberMACs) (∅, []) in
  match physicalCandidates with
  | [candidate] =>
      if decide (trim_space uplinkInterface = [])
      then <[candidate := BridgeMemberRoleUplink]> roles else roles
  | _ => roles
  end.

Definition ignoredMemberSet (values : list bytes) : gmap bytes bool :=
  fold_left (λ out value,
    let key := memberNameKey value in
    if decide (key = []) then out else <[key := true]> out) values ∅.

(** The first entry a [range] finds whose name has the key. *)
Fixpoint scan_members {A} (key : bytes) (entries : list (bytes * A)) : option A :=
  match entries with
  | [] => None
  | (name, a) :: rest => if decide (memberNameKey name = key) then Some a else scan_members key rest
  end.

Definition roleByMember (roles : gmap bytes BridgeMemberRole) (member : bytes)
    : option BridgeMemberRole :=
  scan_members (memberNameKey member) (range roles).

(** The exact name first, then the scan: the lookup of [memberRole] and of
    [memberPortObservation]. *)
Definition lookup_member {A} (values : gmap bytes A) (member : bytes) : option A :=
  match values !! trim_space member with
  | Some a => Some a
  | None => scan_members (to_lower (trim_space member)) (range values)
  end.
Definition memberRole (roles : gmap bytes BridgeMemberRole) (member : bytes) : BridgeMemberRole :=
  default BridgeMemberRoleUnknown (lookup_member roles member).

Definition ignore_known (ignored : gmap bytes bool) (out : gmap bytes BridgeMemberRole)
    (entry : bytes * BridgeMemberRole) : gmap bytes BridgeMemberRole :=
  <[entry.1 := if default false (ignored !! memberNameKey entry.1)
               then BridgeMemberRoleIgnored else entry.2]> out.
Definition ignore_absent (out : gmap bytes BridgeMemberRole) (entry : bytes * bool)
    : gmap bytes BridgeMemberRole :=
  match roleByMember out entry.1 with
  | Some _ => out
  | None => <[entry.1 := BridgeMemberRoleIgnored]> out
  end.
Definition ApplyIgnoredMembers (roles : gmap bytes BridgeMemberRole) (ignoredMembers : list bytes)
    : gmap bytes BridgeMemberRole :=
  let ignored := ignoredMemberSet ignoredMembers in
  if decide (ignored = ∅) then roles
  else fold_left ignore_absent (range ignored) (fold_left (ignore_known ignored) (range roles) ∅).

Definition ClassifyMembersWithIgnores (memberMACs : gmap bytes (list MacTableEntry))
    (bridge uplinkInterface : bytes) (ignoredMembers : list bytes) : gmap bytes BridgeMemberRole :=
  ApplyIgnoredMembers (ClassifyMembers memberMACs bridge uplinkInterface) ignoredMembers.

(** ** snapshot_members.go *)
Definition isUplinkDevice (deviceName iface : bytes) : bool :=
  let name := to_lower (trim_space deviceName) in
  negb (bool_decide (name = [])) && bool_decide (name = to_lower (trim_space iface)).
Definition isBridgeDevice (deviceName bridge : bytes) : bool :=
  let name := to_lower (trim_space deviceName) in
  negb (bool_decide (name = [])) && bool_decide (name = to_lower (trim_space bridge)).

(** The first run of digits; a run [Atoi] refuses counts as 0. *)
Fixpoint skip_to_digit (value : bytes) : bytes :=
  match value with
  | [] => []
  | c :: t => if is_digit c then value else skip_to_digit t
  end.
Fixpoint digit_run (value : bytes) : bytes :=
  match value with
  | [] => []
  | c :: t => if is_digit c then c :: digit_run t else []
  end.
Definition firstNumber (value : bytes) : Z :=
  match digit_run (skip_to_digit value) with
  | [] => 0
  | digits => default 0 (atoi digits)
  end.

Record sortKey := MkSortKey { sk_rank : Z; sk_number : Z; sk_name : bytes }.
Definition deviceSortKey (deviceName iface bridge : bytes) : sortKey :=
  let name := to_lower (trim_space deviceName) in
  let rank :=
    if isUplinkDevice name iface then 0
    else if isBridgeDevice name bridge then 90
    else if has_prefix (B "tap") name then 10
    else if has_prefix (B "veth") name then 20
    else if has_prefix (B "fwln") name || has_prefix (B "fwpr") name || has_prefix (B "fwbr") name then 30
    else 50 in
  MkSortKey rank (firstNumber name) name.

Definition bytes_ltb (a b : bytes) : bool := bytes_leb a b && negb (bool_decide (a = b)).
Definition key_less (left right : sortKey) : bool :=
  if negb (sk_rank left =? sk_rank right) then sk_rank left <? sk_rank right
  else if negb (sk_number left =? sk_number right) then sk_number left <? sk_number right
  else bytes_ltb (sk_name left) (sk_name right).

Definition sortedDeviceNames {A} (deviceMACs : gmap bytes A) (iface bridge : bytes) : list bytes :=
  slice_sort (λ a b, key_less (deviceSortKey a iface bridge) (deviceSortKey b iface bridge))
    (range deviceMACs).*1.

(** ** snapshot_normalize.go *)

(** The common loop of the three functions. *)
Definition normalize_names {A} (values : gmap bytes A) : gmap bytes A :=
  fold_left (λ out e,
    let member := trim_space e.1 in
    if decide (member = []) then out else <[member := e.2]> out) (range values) ∅.
Definition normalizeMemberPortMap : gmap bytes Z → gmap bytes Z := normalize_names.
Definition normalizeMemberPorts : gmap bytes PortObservation → gmap bytes PortObservation :=
  normalize_names.
Definition normalizeMemberRoles : gmap bytes BridgeMemberRole → gmap bytes BridgeMemberRole :=
  normalize_names.

(** ** snapshot_macs.go *)
Definition normalizedMACKey (value : bytes) : bytes :=
  match parse_mac (trim_space value) with
  | None => []
  | Some mac => to_lower (mac_string mac)
  end.

Definition normalizeRemoteMACSet (values : gmap bytes bool) : gmap bytes bool :=
  fold_left (λ out e,
    if negb e.2 then out
    else
      let key := normalizedMACKey e.1 in
      if decide (key = []) then out else <[key := true]> out) (range values) ∅.

Definition add_remote (out : gmap bytes bool) (entry : MacTableEntry) : gmap bytes bool :=
  let key := normalizedMACKey (me_MAC entry) in
  if decide (key = []) then out else <[key := true]> out.
Definition RemoteMACsByBridgeMember (memberMACs : gmap bytes (list MacTableEntry))
    (roles : gmap bytes BridgeMemberRole) (iface : bytes) : gmap bytes bool :=
  fold_left (λ out e,
    if negb (bool_decide (memberRole roles e.1 = BridgeMemberRoleUplink))
       && negb (isUplinkDevice e.1 iface)
    then out else fold_left add_remote e.2 out) (range memberMACs) ∅.

Definition remote_entry (remoteMACs : gmap bytes bool) (entry : MacTableEntry) : bool :=
  let key := normalizedMACKey (me_MAC entry) in
  negb (bool_decide (key = [])) && default false (remoteMACs !! key).
Definition filterRemoteMACEntries (entries : list MacTableEntry) (remoteMACs : gmap bytes bool)
    : list MacTableEntry :=
  filter (λ e, remote_entry remoteMACs e = false) entries.

Definition unmapped_role (role : BridgeMemberRole) : bool :=
  bool_decide (role = BridgeMemberRoleBridge) || bool_decide (role = BridgeMemberRoleIgnored).
Definition flattenDeviceMACsByRole (deviceMACs : gmap bytes (list MacTableEntry))
    (roles : gmap bytes BridgeMemberRole) (iface bridge : bytes) (remoteMACs : gmap bytes bool)
    : list MacTableEntry :=
  concat (map (λ deviceName,
    if unmapped_role (memberRole roles deviceName) then []
    else filterRemoteMACEntries (default [] (deviceMACs !! deviceName)) remoteMACs)
    (sortedDeviceNames deviceMACs iface bridge)).

(** ** snapshot.go *)
Definition set_stats_speed (speed : Z) (s : InterfaceStats) : InterfaceStats :=
  MkStats (is_Up s) (is_CountersSet s) (is_Counters s) speed.

Definition bridge_config (cfg : Config) : BridgeConfig :=
  MkBridgeConfig (trim_space (oc_Bridge cfg)) (trim_space (oc_Interface cfg))
    (oc_IgnoredMembers cfg) (normalizeMemberPortMap (oc_MemberPortMap cfg)).

(** [source] is the platform's [Bridge]; [None] is a nil source. *)
Definition HostSnapshotFromSource
    (source : option (BridgeConfig → BridgeObservation * list error)) (cfg : Config)
    (uplinkPortIndex : Z) : Snapshot * list error :=
  match source with
  | None =>
      (MkSnapshot uplinkPortIndex (trim_space (oc_Interface cfg)) (trim_space (oc_Bridge cfg)) None
         no_stats [] ∅ ∅ ∅ (normalizeMemberPortMap (oc_MemberPortMap cfg)) ∅,
       ["observation source is required"%stdpp])
  | Some read =>
      let '(bridge, errs) := read (bridge_config cfg) in
      let iface := trim_space (br_UplinkInterface bridge) in
      let bridgeName := trim_space (br_Bridge bridge) in
      let stats := ob_Stats (br_Uplink bridge) in
      let stats := if is_SpeedMbps stats =? 0 then set_stats_speed (ob_SpeedMbps (br_Uplink bridge)) stats
                   else stats in
      let deviceMACs := br_MemberMACs bridge in
      let roles := normalizeMemberRoles (br_MemberRoles bridge) in
      let roles := if decide (roles = ∅) then ClassifyMembers deviceMACs bridgeName iface else roles in
      let roles := ApplyIgnoredMembers roles (oc_IgnoredMembers cfg) in
      let remote := normalizeRemoteMACSet (br_RemoteMACs bridge) in
      let remote := if decide (remote = ∅) then RemoteMACsByBridgeMember deviceMACs roles iface
                    else remote in
      (MkSnapshot uplinkPortIndex iface bridgeName (ob_Up (br_Uplink bridge)) stats
         (flattenDeviceMACsByRole deviceMACs roles iface bridgeName remote) deviceMACs remote
         (normalizeMemberPorts (br_MemberPorts bridge))
         (normalizeMemberPortMap (br_MemberPortMap bridge)) roles, errs)
  end.

(** ** snapshot_stats.go *)

(** The sysfs name of each counter; [get] and [setPort] are those of the
    counter. *)
Definition interfaceStatsFields : list (bytes * portCounterKey) :=
  [(B "rx_bytes", CounterRXBytes); (B "tx_bytes", CounterTXBytes);
   (B "rx_packets", CounterRXPackets); (B "tx_packets", CounterTXPackets);
   (B "rx_errors", CounterRXErrors); (B "tx_errors", CounterTXErrors)].

Definition hasCounters (stats : InterfaceStats) : bool :=
  is_CountersSet stats
  || existsb (λ f, negb (counter_get f.2 (is_Counters stats) =? 0)) interfaceStatsFields.

(** [field.setPort] of every field. *)
Definition set_port_counters (value : portCounterKey → Z) (port : Port) : Port :=
  fold_left (λ p f, set_Counters (counter_set f.2 (value f.2) (p_Counters p)) p)
    interfaceStatsFields port.
Definition applyInterfaceStatsToPort (port : Port) (stats : InterfaceStats) : Port :=
  set_CountersSet true (set_port_counters (λ k, counter_get k (is_Counters stats)) port).

(** ** snapshot_apply.go *)
Definition uplinkPortIndex (ports : list Port) : Z :=
  match list_find (λ p, p_Uplink p = true) ports with
  | Some (_, port) => p_Index port
  | None => 1
  end.

Definition clearObservedPortState (port : Port) : Port :=
  set_port_counters (λ _, 0) (set_CountersSet false (set_MACs [] (set_Speed 0 (set_Up false port)))).

Definition applyMemberPortObservation (port : Port) (observations : gmap bytes PortObservation)
    (member : bytes) : Port :=
  let port := clearObservedPortState port in
  match lookup_member observations member with
  | None => port
  | Some observation =>
      let iface := trim_space (ob_Interface observation) in
      let port := if decide (iface = []) then port else set_Interface iface port in
      let port := set_Up (default false (ob_Up observation)) port in
      let port := if p_Up port && (0 <? ob_SpeedMbps observation)
                  then set_Speed (ob_SpeedMbps observation) port else port in
      let media := trim_space (ob_Media observation) in
      let port := if decide (media = []) then port else set_Media media port in
      if hasCounters (ob_Stats observation)
      then applyInterfaceStatsToPort port (ob_Stats observation) else port
  end.

Definition validPinnedPortSet (values : gmap bytes Z) (portCount : Z) : gset Z :=
  fold_left (λ out e, if (1 <=? e.2) && (e.2 <=? portCount) then {[e.2]} ∪ out else out)
    (range values) ∅.

(** The variables of the loop over the members: the ports, the used ports, and
    the access ports not handed out yet. *)
Record assignment := MkAssignment {
  as_ports : list Port; as_used : gset Z; as_access : list Z;
}.

(** Which port an access member gets, and the access ports that are left. *)
Definition member_port (portMap : gmap bytes Z) (portCount uplinkIndex : Z) (access : list Z)
    (deviceName : bytes) : Z * list Z :=
  let pinnedPort := default 0 (portMap !! trim_space deviceName) in
  let '(portIndex, access) :=
    if (1 <=? pinnedPort) && (pinnedPort <=? portCount) then (pinnedPort, access)
    else match access with
         | [] => (uplinkIndex, [])
         | index :: rest => (index, rest)
         end in
  (if (portIndex <? 1) || (portCount <? portIndex) then uplinkIndex else portIndex, access).

Definition append_MACs (macs : list MacTableEntry) (port : Port) : Port :=
  set_MACs (p_MACs port ++ macs) port.

Definition assign_member (snapshot : Snapshot) (remoteMACs : gmap bytes bool) (uplinkIndex : Z)
    (st : assignment) (deviceName : bytes) : assignment :=
  let macs := default [] (ss_DeviceMACs snapshot !! deviceName) in
  let role := memberRole (ss_MemberRoles snapshot) deviceName in
  if bool_decide (macs = []) || unmapped_role role then st
  else if bool_decide (role = BridgeMemberRoleUplink) || isUplinkDevice deviceName (ss_Interface snapshot)
  then
    let update port :=
      let port := applyMemberPortObservation port (ss_MemberPorts snapshot) deviceName in
      if decide (deviceName = []) then port else set_Name deviceName port in
    MkAssignment (alter update (Z.to_nat (uplinkIndex - 1)) (as_ports st))
      ({[uplinkIndex]} ∪ as_used st) (as_access st)
  else
    let macs := filterRemoteMACEntries macs remoteMACs in
    if decide (macs = []) then st
    else
      let '(portIndex, access) :=
        member_port (ss_MemberPortMap snapshot) (zlen (as_ports st)) uplinkIndex (as_access st) deviceName in
      let update port :=
        let port := applyMemberPortObservation port (ss_MemberPorts snapshot) deviceName in
        let port := append_MACs macs port in
        if bool_decide (deviceName = []) || (portIndex =? uplinkIndex) then port
        else set_Name deviceName port in
      MkAssignment (alter update (Z.to_nat (portIndex - 1)) (as_ports st))
        ({[portIndex]} ∪ as_used st) access.

Definition access_indexes (ports : list Port) (pinned : gset Z) (uplinkIndex : Z) : list Z :=
  filter (λ i, i ≠ uplinkIndex ∧ i ∉ pinned) (map p_Index ports).

(** The MAC addresses learned behind the uplink, as [applyDeviceMACs] takes
    them. *)
Definition effective_remote (snapshot : Snapshot) : gmap bytes bool :=
  let remoteMACs := normalizeRemoteMACSet (ss_RemoteMACs snapshot) in
  if decide (remoteMACs = ∅)
  then RemoteMACsByBridgeMember (ss_DeviceMACs snapshot) (ss_MemberRoles snapshot) (ss_Interface snapshot)
  else remoteMACs.

Definition applyDeviceMACs (ports : list Port) (snapshot : Snapshot) (uplinkIndex : Z) : list Port :=
  let ports := map (set_MACs []) ports in
  let remoteMACs := effective_remote snapshot in
  let pinned := validPinnedPortSet (ss_MemberPortMap snapshot) (zlen ports) in
  let st :=
    fold_left (assign_member snapshot remoteMACs uplinkIndex)
      (sortedDeviceNames (ss_DeviceMACs snapshot) (ss_Interface snapshot) (ss_Bridge snapshot))
      (MkAssignment ports {[uplinkIndex]} (access_indexes ports pinned uplinkIndex)) in
  map (λ p, if decide (p_Index p ∈ as_used st) then p else clearObservedPortState p) (as_ports st).

(** The state the snapshot gives the uplink port. *)
Definition apply_uplink (snapshot : Snapshot) (port : Port) : Port :=
  let up := default false (ss_Up snapshot) in
  let port := set_Up up port in
  let port := set_Speed (if up then is_SpeedMbps (ss_Stats snapshot) else 0) port in
  if hasCounters (ss_Stats snapshot) then applyInterfaceStatsToPort port (ss_Stats snapshot) else port.

(** [None] when [out[index-1]] is out of range and the code panics: the index
    of a port that is marked as the uplink is not its place. *)
Definition uplink_index (ports : list Port) (snapshot : Snapshot) : Z :=
  let index := ss_UplinkPortIndex snapshot in
  if (index <? 1) || (zlen ports <? index) then uplinkPortIndex ports else index.

Definition Apply (ports : list Port) (snapshot : Snapshot) : option (list Port) :=
  if decide (ports = []) then Some ports
  else
    let index := uplink_index ports snapshot in
    if (index <? 1) || (zlen ports <? index) then None
    else
      let out := alter (apply_uplink snapshot) (Z.to_nat (index - 1)) ports in
      if negb (bool_decide (ss_DeviceMACs snapshot = ∅)) then Some (applyDeviceMACs out snapshot index)
      else if negb (bool_decide (ss_MACs snapshot = []))
      then Some (alter (set_MACs (ss_MACs snapshot)) (Z.to_nat (index - 1)) out)
      else Some out.
End observe.

(** ** What the merge leaves alone *)

(** The part of a port an observation never touches. *)
Definition static (p : Port) : Z * PortGateway * bool * bool * bool * list TopologyNeighbor :=
  (p_Index p, p_Gateway p, p_Uplink p, p_ProfileUplink p, p_Disabled p, p_Neighbors p).

Definition keeps_static (f : Port → Port) : Prop := ∀ p, static (f p) = static p.

Lemma alter_static f (i : nat) (ports : list Port) :
  keeps_static f → static <$> alter f i ports = static <$> ports.
Proof.
  intros Hf. apply list_eq. intros j. rewrite !list_lookup_fmap.
  destruct (decide (i = j)) as [->|Hn].
  - rewrite list_lookup_alter_eq. destruct (ports !! j); [cbn; by rewrite Hf|done].
  - by rewrite list_lookup_alter_ne.
Qed.

Lemma map_static f (ports : list Port) : keeps_static f → static <$> map f ports = static <$> ports.
Proof.
  intros Hf. change (map f ports) with (f <$> ports). rewrite <- list_fmap_compose.
  apply list_fmap_ext. intros i p _. apply Hf.
Qed.

Lemma static_index (ports ports' : list Port) :
  static <$> ports = static <$> ports' → p_Index <$> ports = p_Index <$> ports'.
Proof.
  intros E. apply (f_equal (fmap (λ s : Z * PortGateway * bool * bool * bool * list TopologyNeighbor,
    s.1.1.1.1.1))) in E. by rewrite <- !list_fmap_compose in E.
Qed.

Section merge.
Context `{UnicodeTables} `{MapOrder} `{SliceSort}.

(** A port without any observed state. *)
Definition disconnected (p : Port) : Prop :=
  p_Up p = false ∧ p_Speed p = 0 ∧ p_MACs p = [] ∧ p_CountersSet p = false ∧
  p_Counters p = no_counters.

Lemma clear_disconnected p : disconnected (clearObservedPortState p).
Proof. by destruct p. Qed.

Lemma clear_static : keeps_static clearObservedPortState.
Proof. by intros []. Qed.

Lemma stats_static stats : keeps_static (λ p, applyInterfaceStatsToPort p stats).
Proof. by intros []. Qed.

Lemma uplink_static snapshot : keeps_static (apply_uplink snapshot).
Proof. intros []. unfold apply_uplink. by destruct (hasCounters _). Qed.

Lemma set_MACs_static l : keeps_static (set_MACs l).
Proof. by intros []. Qed.

Lemma member_static observations member :
  keeps_static (λ p, applyMemberPortObservation p observations member).
Proof.
  intros p. unfold applyMemberPortObservation. cbv zeta.
  destruct (lookup_member observations member) as [o|]; [|by destruct p].
  destruct (hasCounters (ob_Stats o)); rewrite ?(stats_static (ob_Stats o) _);
    repeat case_decide; destruct (_ && _); by destruct p.
Qed.

Lemma assign_member_static snapshot remote index st name :
  static <$> as_ports (assign_member snapshot remote index st name) = static <$> as_ports st.
Proof.
  unfold assign_member. cbv zeta. destruct (_ || unmapped_role _); [done|].
  destruct (_ || isUplinkDevice _ _).
  - cbn [as_ports]. apply alter_static. intros p. rewrite <- (member_static (ss_MemberPorts snapshot) name p).
    case_decide; [done|]. by destruct (applyMemberPortObservation _ _ _).
  - case_decide; [done|]. destruct (member_port _ _ _ _ _) as [i access]. cbn [as_ports].
    apply alter_static. intros p. rewrite <- (member_static (ss_MemberPorts snapshot) name p).
    destruct (_ || _); by destruct (applyMemberPortObservation _ _ _).
Qed.

Lemma assign_members_static snapshot remote index names st :
  static <$> as_ports (fold_left (assign_member snapshot remote index) names st) = static <$> as_ports st.
Proof.
  revert st. induction names as [|name names IH]; intros st; [done|]. cbn [fold_left].
  by rewrite IH, assign_member_static.
Qed.

Lemma applyDeviceMACs_static ports snapshot index :
  static <$> applyDeviceMACs ports snapshot index = static <$> ports.
Proof.
  unfold applyDeviceMACs. cbv zeta. rewrite map_static by (intros p; case_decide; [done|apply clear_static]).
  rewrite assign_members_static. cbn [as_ports]. apply map_static, set_MACs_static.
Qed.

Lemma index_lookup (ports : list Port) n i p :
  p_Index <$> ports = seqZ 1 n → ports !! i = Some p → p_Index p = Z.of_nat i + 1.
Proof.
  intros Hs Hi. assert ((p_Index <$> ports) !! i = Some (p_Index p)) as E
    by (rewrite list_lookup_fmap, Hi; done).
  rewrite Hs in E. apply lookup_seqZ in E. lia.
Qed.

Lemma uplink_index_range ports snapshot :
  ports ≠ [] → p_Index <$> ports = seqZ 1 (zlen ports) → 1 ≤ uplink_index ports snapshot ≤ zlen ports.
Proof.
  intros Hne Hn. unfold uplink_index. destruct (_ || _) eqn:E; [|lia].
  unfold uplinkPortIndex. destruct (list_find _ ports) as [[i p]|] eqn:Ef.
  - apply list_find_Some in Ef as (Hi & _ & _). pose proof (index_lookup _ _ _ _ Hn Hi).
    apply lookup_lt_Some in Hi. unfold zlen. lia.
  - destruct ports; [done|]. unfold zlen. cbn [length]. lia.
Qed.

(** What [Apply] returns on ports numbered from 1. *)
Lemma Apply_cases ports snapshot :
  p_Index <$> ports = seqZ 1 (zlen ports) → ports ≠ [] →
  let index := uplink_index ports snapshot in
  let out := alter (apply_uplink snapshot) (Z.to_nat (index - 1)) ports in
  Apply ports snapshot = Some (
    if decide (ss_DeviceMACs snapshot = ∅)
    then if decide (ss_MACs snapshot = []) then out
         else alter (set_MACs (ss_MACs snapshot)) (Z.to_nat (index - 1)) out
    else applyDeviceMACs out snapshot index).
Proof.
  intros Hn Hne index out. pose proof (uplink_index_range ports snapshot Hne Hn) as Hr.
  unfold Apply. rewrite decide_False by done. cbv zeta. fold index.
  destruct (_ || _) eqn:E; [unfold index in E; lia|]. fold out.
  destruct (decide (ss_DeviceMACs snapshot = ∅)) as [Ed|Ed].
  - rewrite bool_decide_true by done. cbn [negb].
    destruct (decide (ss_MACs snapshot = [])) as [Em|Em].
    + by rewrite bool_decide_true by done.
    + by rewrite bool_decide_false by done.
  - by rewrite bool_decide_false by done.
Qed.

(** Whatever was observed, the represented topology stays. *)
Lemma Apply_static ports snapshot :
  p_Index <$> ports = seqZ 1 (zlen ports) →
  ∃ out, Apply ports snapshot = Some out ∧ static <$> out = static <$> ports.
Proof.
  intros Hn. destruct (decide (ports = [])) as [->|Hne]; [by exists []|].
  rewrite (Apply_cases ports snapshot Hn Hne). eexists. split; [reflexivity|].
  repeat case_decide;
    rewrite ?applyDeviceMACs_static, ?(alter_static (set_MACs _)) by apply set_MACs_static;
    apply alter_static, uplink_static.
Qed.
End merge.

(** ** What the merge promises, said without its code *)
Section promise.
Context `{UnicodeTables}.

(** The entry a map of member names has for a member: that of the trimmed
    name, or else of a name that differs in case and surrounding space only. *)
Definition named {A} (values : gmap bytes A) (member : bytes) (found : option A) : Prop :=
  match values !! trim_space member, found with
  | Some a, _ => found = Some a
  | None, Some a => ∃ name, values !! name = Some a ∧ memberNameKey name = memberNameKey member
  | None, None => ∀ name, is_Some (values !! name) → memberNameKey name ≠ memberNameKey member
  end.

(** The hardware address a text names. *)
Definition address (text : bytes) : option bytes := parse_mac (trim_space text).

(** Counters that are seen replace the old ones. *)
Definition counted (stats : InterfaceStats) (old : bool * PortCounters) (p : Port) : Prop :=
  let seen := is_CountersSet stats = true ∨ is_Counters stats ≠ no_counters in
  (seen → (p_CountersSet p, p_Counters p) = (true, is_Counters stats)) ∧
  (¬ seen → (p_CountersSet p, p_Counters p) = old).

(** The link a member's observation gives a port; none without one. *)
Definition member_link (observation : option PortObservation) (p : Port) : Prop :=
  match observation with
  | None => p_Up p = false ∧ p_Speed p = 0 ∧ p_CountersSet p = false ∧ p_Counters p = no_counters
  | Some o =>
      p_Up p = default false (ob_Up o) ∧
      p_Speed p = (if default false (ob_Up o) then Z.max 0 (ob_SpeedMbps o) else 0) ∧
      counted (ob_Stats o) (false, no_counters) p ∧
      (trim_space (ob_Interface o) ≠ [] → p_Interface p = trim_space (ob_Interface o)) ∧
      (trim_space (ob_Media o) ≠ [] → p_Media p = trim_space (ob_Media o))
  end.

(** The link the snapshot gives the uplink port, which was [p0]. *)
Definition uplink_link (snapshot : Snapshot) (p0 p : Port) : Prop :=
  p_Up p = default false (ss_Up snapshot) ∧
  p_Speed p = (if default false (ss_Up snapshot) then is_SpeedMbps (ss_Stats snapshot) else 0) ∧
  counted (ss_Stats snapshot) (p_CountersSet p0, p_Counters p0) p ∧
  p_Name p = p_Name p0 ∧ p_Interface p = p_Interface p0 ∧ p_Media p = p_Media p0.

(** Which port represents the uplink. *)
Definition represents_uplink (ports : list Port) (snapshot : Snapshot) (index : Z) : Prop :=
  if decide (1 ≤ ss_UplinkPortIndex snapshot ≤ zlen ports) then index = ss_UplinkPortIndex snapshot
  else (∃ k p, ports !! k = Some p ∧ p_Uplink p = true ∧ index = p_Index p ∧
          ∀ j q, ports !! j = Some q → (j < k)%nat → p_Uplink q = false) ∨
       (∀ p, p ∈ ports → p_Uplink p = false) ∧ index = 1.

Section members.
Variables (snapshot : Snapshot) (count uplinkIndex : Z).
Variables (role : bytes → BridgeMemberRole) (observed : bytes → option PortObservation).
Variable local : MacTableEntry → bool.

Definition uplink_member (name : bytes) : Prop :=
  role name = BridgeMemberRoleUplink ∨
  memberNameKey name ≠ [] ∧ memberNameKey name = memberNameKey (ss_Interface snapshot).

(** An address learned behind the uplink: a listed one, or, when no valid
    address is listed, one in the table of an uplink member. *)
Definition learned_behind (hw : bytes) : Prop :=
  (∃ text, ss_RemoteMACs snapshot !! text = Some true ∧ address text = Some hw) ∨
  (∀ text, ss_RemoteMACs snapshot !! text = Some true → address text = None) ∧
  ∃ name all e, ss_DeviceMACs snapshot !! name = Some all ∧ uplink_member name ∧
    e ∈ all ∧ address (me_MAC e) = Some hw.
Definition behind_uplink (e : MacTableEntry) : Prop :=
  ∃ hw, address (me_MAC e) = Some hw ∧ learned_behind hw.

(** A member with learned clients that is neither the bridge nor ignored. *)
Definition mapped (name : bytes) (all : list MacTableEntry) : Prop :=
  ss_DeviceMACs snapshot !! name = Some all ∧ all ≠ [] ∧
  role name ≠ BridgeMemberRoleBridge ∧ role name ≠ BridgeMemberRoleIgnored.
Definition uplink_seen (name : bytes) : Prop := (∃ all, mapped name all) ∧ uplink_member name.
(** An access member with its local clients. *)
Definition guest (name : bytes) (macs : list MacTableEntry) : Prop :=
  ∃ all, mapped name all ∧ ¬ uplink_member name ∧ macs = filter (λ e, local e = true) all ∧ macs ≠ [].

Definition pin (name : bytes) (i : Z) : Prop :=
  ss_MemberPortMap snapshot !! trim_space name = Some i ∧ 1 ≤ i ≤ count.
Definition free (i : Z) : Prop :=
  1 ≤ i ≤ count ∧ i ≠ uplinkIndex ∧ ∀ name, ss_MemberPortMap snapshot !! name ≠ Some i.

(** Which port each access member gets: the pinned one, or a free one of its
    own, or the uplink when the free ones are gone. *)
Record placement (places : list (bytes * Z)) : Prop := {
  pl_names : NoDup places.*1;
  pl_guests name : name ∈ places.*1 ↔ ∃ macs, guest name macs;
  pl_pinned name i p : (name, i) ∈ places → pin name p → i = p;
  pl_loose name i : (name, i) ∈ places → (∀ p, ¬ pin name p) →
    free i ∨ i = uplinkIndex ∧ ∀ j, free j → j ∈ places.*2;
  pl_own name name' i : (name, i) ∈ places → (name', i) ∈ places → free i → name = name';
}.

Definition shows_guest (places : list (bytes * Z)) (p : Port) : Prop :=
  ∃ name macs, (name, p_Index p) ∈ places ∧ guest name macs ∧
    p_MACs p = macs ∧ member_link (observed name) p ∧
    (p_Index p ≠ uplinkIndex → name ≠ [] → p_Name p = name).
Definition shows_uplink (name : bytes) (p : Port) : Prop :=
  p_Index p = uplinkIndex ∧ p_MACs p = [] ∧ member_link (observed name) p ∧ (name ≠ [] → p_Name p = name).

(** A port after the merge, which was [p0]: it shows an access member that was
    placed there; or it is the uplink, as an uplink member or the snapshot has
    it, without clients; or nothing was placed there and it is disconnected. *)
Definition port_state (places : list (bytes * Z)) (p0 p : Port) : Prop :=
  shows_guest places p ∨
  (∃ name, uplink_seen name ∧ shows_uplink name p) ∨
  p_Index p ∉ places.*2 ∧
  (if decide (p_Index p = uplinkIndex)
   then (∀ name, ¬ uplink_seen name) ∧ p_MACs p = [] ∧ uplink_link snapshot p0 p
   else disconnected p).
End members.
End promise.

(** *** The code's lookups and filters keep the promise *)
Section lookups.
Context `{UnicodeTables} `{MapOrderLaws}.

Lemma scan_members_first {A} key (l : list (bytes * A)) :
  match scan_members key l with
  | Some a => ∃ name, (name, a) ∈ l ∧ memberNameKey name = key
  | None => ∀ name a, (name, a) ∈ l → memberNameKey name ≠ key
  end.
Proof.
  induction l as [|[name a] l IH]; cbn [scan_members]; [by intros ?? ?%not_elem_of_nil|].
  case_decide as E; [exists name; split; [left|done]|].
  destruct (scan_members key l) as [b|].
  - destruct IH as (n & Hin & En). exists n. split; [by right|done].
  - intros n b [[= -> ->]|Hin]%elem_of_cons; [done|by eapply IH].
Qed.

Lemma lookup_member_named {A} (values : gmap bytes A) member : named values member (lookup_member values member).
Proof.
  unfold named, lookup_member. destruct (values !! trim_space member) as [a|]; [done|].
  pose proof (scan_members_first (to_lower (trim_space member)) (range values)) as K.
  destruct (scan_members _ (range values)) as [a|].
  - destruct K as (name & Hin%elem_of_range & E). eauto.
  - intros name [a Ha] E. by eapply K; [apply elem_of_range|].
Qed.

Lemma hex_lower n : 0 ≤ n < 16 → is_ascii_byte (hex_digit n) = true ∧ lower_byte (hex_digit n) = hex_digit n.
Proof.
  intros Hn. assert (n ∈ seqZ 0 16) as Hin by (apply elem_of_seqZ; lia).
  clear Hn. revert n Hin. apply Forall_forall. repeat (constructor; [vm_compute; done|]). constructor.
Qed.

Lemma mac_string_lower hw : to_lower (mac_string hw) = mac_string hw.
Proof.
  assert (Forall (λ c, is_ascii_byte c = true ∧ lower_byte c = c) (mac_string hw)) as K.
  { induction hw as [|b hw IH]; [constructor|].
    assert (Forall (λ c, is_ascii_byte c = true ∧ lower_byte c = c) (hex_encode [b])) as Hb.
    { pose proof (b2z_range b). cbn. repeat constructor; apply hex_lower;
        solve [apply Z.mod_pos_bound; lia|split; [apply Z.div_pos|apply Z.div_lt_upper_bound]; lia]. }
    destruct (decide (hw = [])) as [->|Hne]; [done|]. rewrite mac_string_cons by done.
    apply Forall_app. split; [done|]. constructor; [by vm_compute|done]. }
  unfold to_lower. replace (forallb is_ascii_byte (mac_string hw)) with true.
  - induction K as [|c l [_ Hc] _ IH]; [done|]. cbn. by rewrite Hc, IH.
  - symmetry. apply forallb_forall. intros c Hc%list_elem_of_In. rewrite Forall_forall in K. by apply K.
Qed.

(** A key stands for one address. *)
Lemma normalizedMACKey_address value :
  normalizedMACKey value = default [] (mac_string <$> address value).
Proof.
  unfold normalizedMACKey, address. destruct (parse_mac (trim_space value)); [apply mac_string_lower|done].
Qed.

Lemma address_key value hw key :
  address value = Some hw → normalizedMACKey key = mac_string hw ↔ address key = Some hw.
Proof.
  intros E. apply parse_mac_length in E. assert (mac_string hw ≠ []) as Hne.
  { intros Es. apply (f_equal parse_mac) in Es. by rewrite parse_mac_string in Es. }
  rewrite normalizedMACKey_address. destruct (address key) as [hw'|] eqn:E'; cbn; [|by split; intros].
  apply parse_mac_length in E'. split; [|by intros [= ->]].
  intros Es%(f_equal parse_mac). rewrite !parse_mac_string in Es by done. congruence.
Qed.

Lemma normalizedMACKey_valid value : normalizedMACKey value ≠ [] ↔ is_Some (address value).
Proof.
  rewrite normalizedMACKey_address. destruct (address value) as [hw|] eqn:E; cbn.
  - split; [by eexists|]. intros _ Es. apply parse_mac_length in E.
    apply (f_equal parse_mac) in Es. by rewrite parse_mac_string in Es.
  - split; [done|]. by intros [? ?].
Qed.

(** A loop that only adds keys. *)
Lemma fold_adds {E} (f : gmap bytes bool → E → gmap bytes bool) (adds : E → Prop) key l m :
  (∀ m e, f m e !! key = Some true ↔ m !! key = Some true ∨ adds e) →
  fold_left f l m !! key = Some true ↔ m !! key = Some true ∨ ∃ e, e ∈ l ∧ adds e.
Proof.
  intros Hf. revert m. induction l as [|e l IH]; intros m; cbn [fold_left].
  - split; [by left|]. intros [|(e & Hin%not_elem_of_nil & _)]; done.
  - rewrite IH, Hf. set_solver.
Qed.

Lemma add_key (m : gmap bytes bool) (k key : bytes) :
  (if decide (k = []) then m else <[k := true]> m) !! key = Some true ↔
  m !! key = Some true ∨ k = key ∧ key ≠ [].
Proof.
  destruct (decide (k = [])) as [->|Hk].
  - split; [by left|]. by intros [|[<- ?]].
  - destruct (decide (k = key)) as [<-|Hne].
    + rewrite lookup_insert_eq. by split; [right|].
    + rewrite lookup_insert_ne by done. split; [by left|]. by intros [|[? _]].
Qed.

Lemma listed_key values key :
  normalizeRemoteMACSet values !! key = Some true ↔
  ∃ text, values !! text = Some true ∧ normalizedMACKey text = key ∧ key ≠ [].
Proof.
  unfold normalizeRemoteMACSet.
  rewrite (fold_adds _ (λ e, e.2 = true ∧ normalizedMACKey e.1 = key ∧ key ≠ [])).
  - rewrite lookup_empty. split.
    + intros [|([text b] & Hin%elem_of_range & E & K)]; [done|]. cbn in E, K. subst b. eauto.
    + intros (text & Hin & K). right. exists (text, true). split; [by apply elem_of_range|done].
  - intros m [text b]. cbn [fst snd]. destruct b; cbn [negb].
    + cbv zeta. rewrite add_key. tauto.
    + split; [by left|]. by intros [|[? _]].
Qed.

Lemma listed_empty values :
  normalizeRemoteMACSet values = ∅ ↔ ∀ text, values !! text = Some true → address text = None.
Proof.
  split.
  - intros E text Ht. destruct (address text) as [hw|] eqn:Ea; [|done]. exfalso.
    assert (normalizeRemoteMACSet values !! normalizedMACKey text = Some true) as K.
    { apply listed_key. exists text. split_and!; [done|done|]. apply normalizedMACKey_valid. by rewrite Ea. }
    by rewrite E, lookup_empty in K.
  - intros Hall. unfold normalizeRemoteMACSet.
    assert (∀ text, (text, true) ∈ range values → normalizedMACKey text = []) as Hk.
    { intros text Ht%elem_of_range. rewrite normalizedMACKey_address. by rewrite (Hall text Ht). }
    revert Hk. generalize (range values). intros l. induction l as [|[text b] l IH]; intros Hk; [done|].
    cbn [fold_left fst snd]. destruct b; cbn [negb].
    + rewrite decide_True by (apply Hk; left). apply IH. intros t Ht. apply Hk. by right.
    + apply IH. intros t Ht. apply Hk. by right.
Qed.

Lemma isUplinkDevice_name name iface :
  isUplinkDevice name iface = true ↔ memberNameKey name ≠ [] ∧ memberNameKey name = memberNameKey iface.
Proof.
  unfold isUplinkDevice. cbv zeta. fold (memberNameKey name) (memberNameKey iface).
  by rewrite andb_true_iff, negb_true_iff, bool_decide_eq_false, bool_decide_eq_true.
Qed.

Lemma member_key m roles iface key :
  RemoteMACsByBridgeMember m roles iface !! key = Some true ↔
  ∃ name all e, m !! name = Some all ∧
    (memberRole roles name = BridgeMemberRoleUplink ∨
     memberNameKey name ≠ [] ∧ memberNameKey name = memberNameKey iface) ∧
    e ∈ all ∧ normalizedMACKey (me_MAC e) = key ∧ key ≠ [].
Proof.
  unfold RemoteMACsByBridgeMember.
  rewrite (fold_adds _ (λ x, (memberRole roles x.1 = BridgeMemberRoleUplink ∨ isUplinkDevice x.1 iface = true) ∧
    ∃ e, e ∈ x.2 ∧ normalizedMACKey (me_MAC e) = key ∧ key ≠ [])).
  - rewrite lookup_empty. split.
    + intros [|([name all] & Hin%elem_of_range & Hu & e & He & K)]; [done|]. cbn in *.
      rewrite isUplinkDevice_name in Hu. eauto 10.
    + intros (name & all & e & Hin & Hu & He & K). right. exists (name, all).
      split; [by apply elem_of_range|]. cbn. rewrite isUplinkDevice_name. eauto.
  - intros out [name all]. cbn [fst snd].
    destruct (bool_decide (memberRole roles name = BridgeMemberRoleUplink)) eqn:E1;
      destruct (isUplinkDevice name iface) eqn:E2; cbn [negb andb].
    4: { apply bool_decide_eq_false in E1. split; [by left|]. by intros [?|[[?|?] _]]. }
    all: rewrite (fold_adds add_remote (λ e, normalizedMACKey (me_MAC e) = key ∧ key ≠ []))
      by (intros out' e; apply add_key).
    all: rewrite ?bool_decide_eq_true in E1; tauto.
Qed.

Lemma remote_entry_behind snapshot e :
  remote_entry (effective_remote snapshot) e = true ↔
  behind_uplink snapshot (memberRole (ss_MemberRoles snapshot)) e.
Proof.
  unfold remote_entry, behind_uplink. cbv zeta.
  rewrite andb_true_iff, negb_true_iff, bool_decide_eq_false, normalizedMACKey_valid.
  destruct (address (me_MAC e)) as [hw|] eqn:Ea; [|by split; [intros [[? ?] _]|intros (? & ? & _)]].
  assert (normalizedMACKey (me_MAC e) = mac_string hw) as Ek by (by apply (address_key _ _ _ Ea)).
  assert (mac_string hw ≠ []) as Hne by (rewrite <- Ek; apply normalizedMACKey_valid; rewrite Ea; by eexists).
  rewrite Ek. transitivity (effective_remote snapshot !! mac_string hw = Some true).
  { destruct (effective_remote snapshot !! mac_string hw) as [[]|]; cbn; naive_solver. }
  transitivity (learned_behind snapshot (memberRole (ss_MemberRoles snapshot)) hw); [|naive_solver].
  unfold effective_remote, learned_behind. cbv zeta. case_decide as El.
  - pose proof (proj1 (listed_empty _) El) as Hnone. rewrite member_key. split.
    + intros (name & all & e' & Hin & Hu & He & K & _). right. split; [done|].
      exists name, all, e'. split_and!; [done..|]. by apply (address_key _ _ _ Ea).
    + intros [(text & Ht & E)|(_ & name & all & e' & Hin & Hu & He & K)]; [by rewrite Hnone in E|].
      exists name, all, e'. split_and!; [done..| |done]. by apply (address_key _ _ _ Ea).
  - rewrite listed_key. split.
    + intros (text & Ht & K & _). left. exists text. split; [done|]. by apply (address_key _ _ _ Ea).
    + intros [(text & Ht & E)|[Hnone _]]; [|by apply listed_empty in Hnone].
      exists text. split_and!; [done| |done]. by apply (address_key _ _ _ Ea).
Qed.
End lookups.

(** *** What an observation does to one port *)
Section links.
Context `{UnicodeTables} `{MapOrder}.

Lemma hasCounters_seen stats :
  hasCounters stats = true ↔ is_CountersSet stats = true ∨ is_Counters stats ≠ no_counters.
Proof.
  destruct stats as [up set [a b c d e f] speed]. unfold hasCounters, no_counters.
  cbn [is_CountersSet is_Counters existsb interfaceStatsFields snd counter_get].
  rewrite orb_true_iff, !orb_true_iff, !negb_true_iff, !Z.eqb_neq. split.
  - intros [|K]; [by left|right]. intros [= -> -> -> -> -> ->]. by intuition.
  - intros [|K]; [by left|right].
    destruct (decide (a = 0)) as [->|]; [|tauto]. destruct (decide (b = 0)) as [->|]; [|tauto].
    destruct (decide (c = 0)) as [->|]; [|tauto]. destruct (decide (d = 0)) as [->|]; [|tauto].
    destruct (decide (e = 0)) as [->|]; [|tauto]. destruct (decide (f = 0)) as [->|]; [|tauto]. done.
Qed.

Lemma stats_counted stats p :
  counted stats (p_CountersSet p, p_Counters p)
    (if hasCounters stats then applyInterfaceStatsToPort p stats else p).
Proof.
  unfold counted. rewrite <- hasCounters_seen. destruct (hasCounters stats).
  - split; [|done]. intros _. by destruct p, stats as [? ? [] ?].
  - by split.
Qed.

Lemma stats_rest stats p :
  let p' := if hasCounters stats then applyInterfaceStatsToPort p stats else p in
  p_MACs p' = p_MACs p ∧ p_Up p' = p_Up p ∧ p_Speed p' = p_Speed p ∧ p_Name p' = p_Name p ∧
  p_Interface p' = p_Interface p ∧ p_Media p' = p_Media p.
Proof. cbv zeta. destruct (hasCounters stats); [by destruct p|done]. Qed.

Lemma member_observation p observations member :
  let p' := applyMemberPortObservation p observations member in
  p_MACs p' = [] ∧ member_link (lookup_member observations member) p'.
Proof.
  unfold applyMemberPortObservation, member_link. cbv zeta.
  destruct (lookup_member observations member) as [o|]; [|by destruct p].
  match goal with |- context [if hasCounters _ then applyInterfaceStatsToPort ?q _ else ?q] => set (p1 := q) end.
  assert (p_MACs p1 = [] ∧ p_Up p1 = default false (ob_Up o) ∧
    p_Speed p1 = (if default false (ob_Up o) then Z.max 0 (ob_SpeedMbps o) else 0) ∧
    p_CountersSet p1 = false ∧ p_Counters p1 = no_counters ∧
    (trim_space (ob_Interface o) ≠ [] → p_Interface p1 = trim_space (ob_Interface o)) ∧
    (trim_space (ob_Media o) ≠ [] → p_Media p1 = trim_space (ob_Media o)))
    as (Q1 & Q2 & Q3 & Q4 & Q5 & Q6 & Q7).
  { unfold p1. destruct (decide (trim_space (ob_Interface o) = [])), (decide (trim_space (ob_Media o) = []));
      destruct (default false (ob_Up o)), p; cbn; try done;
      (destruct (Z.ltb_spec 0 (ob_SpeedMbps o)); [rewrite Z.max_r by lia|rewrite Z.max_l by lia]; done). }
  clearbody p1. destruct (stats_rest (ob_Stats o) p1) as (K1 & K2 & K3 & _ & K5 & K6).
  pose proof (stats_counted (ob_Stats o) p1) as C. rewrite Q4, Q5 in C.
  rewrite K1, K2, K3, K5, K6. done.
Qed.

(** The fields [member_link] reads. *)
Lemma member_link_ext observation p p' :
  (p_Up p, p_Speed p, p_CountersSet p, p_Counters p, p_Interface p, p_Media p) =
  (p_Up p', p_Speed p', p_CountersSet p', p_Counters p', p_Interface p', p_Media p') →
  member_link observation p → member_link observation p'.
Proof.
  intros [= E1 E2 E3 E4 E5 E6]. unfold member_link, counted.
  by rewrite E1, E2, E3, E4, E5, E6.
Qed.

Lemma apply_uplink_link snapshot p : uplink_link snapshot p (apply_uplink snapshot p) ∧
  p_MACs (apply_uplink snapshot p) = p_MACs p.
Proof.
  unfold apply_uplink, uplink_link. cbv zeta.
  match goal with |- context [if hasCounters _ then applyInterfaceStatsToPort ?q _ else ?q] =>
    destruct (stats_rest (ss_Stats snapshot) q) as (K1 & K2 & K3 & K4 & K5 & K6);
    pose proof (stats_counted (ss_Stats snapshot) q) as C; rewrite K1, K2, K3, K4, K5, K6 end.
  by destruct p.
Qed.
End links.

(** *** One turn of the loop over the members *)
Section turn.
Context `{UnicodeTables} `{MapOrderLaws}.
Variables (snapshot : Snapshot) (uplinkIndex : Z).

Notation remote := (effective_remote snapshot).
Notation role := (memberRole (ss_MemberRoles snapshot)).
Notation observed := (lookup_member (ss_MemberPorts snapshot)).
Notation local := (λ e, negb (remote_entry remote e)).
Notation guest := (guest snapshot role local).
Notation uplink_seen := (uplink_seen snapshot role).

Lemma filter_local macs : filterRemoteMACEntries macs remote = filter (λ e, negb (remote_entry remote e) = true) macs.
Proof.
  apply list_filter_iff. intros e. by destruct (remote_entry remote e).
Qed.

(** What one turn does. *)
Lemma assign_member_turn st name :
  let st' := assign_member snapshot remote uplinkIndex st name in
  (¬ uplink_seen name ∧ (∀ macs, ¬ guest name macs) ∧ st' = st) ∨
  (uplink_seen name ∧ (∀ macs, ¬ guest name macs) ∧ ∃ f, keeps_static f ∧
     (∀ p, p_MACs (f p) = [] ∧ member_link (observed name) (f p) ∧ (name ≠ [] → p_Name (f p) = name)) ∧
     st' = MkAssignment (alter f (Z.to_nat (uplinkIndex - 1)) (as_ports st)) ({[uplinkIndex]} ∪ as_used st)
             (as_access st)) ∨
  (¬ uplink_seen name ∧ ∃ macs i access f, guest name macs ∧
     member_port (ss_MemberPortMap snapshot) (zlen (as_ports st)) uplinkIndex (as_access st) name = (i, access) ∧
     keeps_static f ∧
     (∀ p, p_MACs (f p) = macs ∧ member_link (observed name) (f p) ∧
        (i ≠ uplinkIndex → name ≠ [] → p_Name (f p) = name)) ∧
     st' = MkAssignment (alter f (Z.to_nat (i - 1)) (as_ports st)) ({[i]} ∪ as_used st) access).
Proof.
  unfold assign_member. cbv zeta.
  set (macs := default [] (ss_DeviceMACs snapshot !! name)).
  assert (∀ all, mapped snapshot role name all ↔
    bool_decide (macs = []) || unmapped_role (role name) = false ∧ all = macs) as Hmapped.
  { intros all. unfold mapped, unmapped_role, macs.
    rewrite !orb_false_iff, !bool_decide_eq_false.
    destruct (ss_DeviceMACs snapshot !! name) as [all'|]; cbn; naive_solver. }
  destruct (bool_decide (macs = []) || unmapped_role (role name)) eqn:E1.
  { left. split_and!; [|intros ms|done].
    - intros [[all [? _]%Hmapped] _]. done.
    - intros (all & [? _]%Hmapped & _). done. }
  assert (uplink_member snapshot role name ↔
    bool_decide (role name = BridgeMemberRoleUplink) || isUplinkDevice name (ss_Interface snapshot) = true)
    as Hupl by (by rewrite orb_true_iff, isUplinkDevice_name, bool_decide_eq_true).
  assert (mapped snapshot role name macs) as Hm by (by apply Hmapped).
  destruct (bool_decide (role name = BridgeMemberRoleUplink) || isUplinkDevice name (ss_Interface snapshot)) eqn:E2.
  - right. left. assert (uplink_member snapshot role name) as Hu by (by apply Hupl).
    split; [split; eauto|]. split; [by intros ms (all & _ & ? & _)|].
    match goal with |- context [alter ?f _ _] => exists f end. split; [|split; [|reflexivity]].
    + intros p. rewrite <- (member_static (ss_MemberPorts snapshot) name p).
      destruct (decide (name = [])); [reflexivity|]. by destruct (applyMemberPortObservation _ _ _).
    + intros p. destruct (member_observation p (ss_MemberPorts snapshot) name) as [K1 K2]. cbv zeta in *.
      destruct (decide (name = [])); [done|]. split_and!; [done| |done].
      by eapply member_link_ext; [|exact K2].
  - assert (¬ uplink_member snapshot role name) as Hu by (intros ?%Hupl; done).
    assert (¬ uplink_seen name) as Hns by (by intros [_ ?]).
    rewrite filter_local. destruct (decide (filter _ macs = [])) as [En|En].
    + left. split_and!; [done| |done]. intros ms (all & [_ ->]%Hmapped & _ & -> & Hne). done.
    + right. right. split; [done|].
      destruct (member_port _ _ _ _ _) as [i access] eqn:Ep. eexists _, i, access.
      match goal with |- context [alter ?f _ _] => exists f end.
      split; [by exists macs|]. split; [done|]. split; [|split; [|reflexivity]].
      * intros p. rewrite <- (member_static (ss_MemberPorts snapshot) name p).
        destruct (bool_decide (name = []) || (i =? uplinkIndex)); by destruct (applyMemberPortObservation _ _ _).
      * intros p. destruct (member_observation p (ss_MemberPorts snapshot) name) as [K1 K2]. cbv zeta in *.
        destruct (bool_decide (name = []) || (i =? uplinkIndex)) eqn:Ei.
        -- split_and!; [by cbn; rewrite K1|by eapply member_link_ext; [|exact K2]|].
           apply orb_true_iff in Ei as [Ei%bool_decide_eq_true|Ei%Z.eqb_eq]; done.
        -- split_and!; [by cbn; rewrite K1|by eapply member_link_ext; [|exact K2]|done].
Qed.

End turn.

(** *** The loop over the members *)
Section loop.
Context `{UnicodeTables} `{MapOrderLaws}.
Variables (snapshot : Snapshot) (count uplinkIndex : Z) (ports0 : list Port).
Hypothesis Hnumbered : p_Index <$> ports0 = seqZ 1 count.
Hypothesis Hcount : zlen ports0 = count.
Hypothesis Huplink : 1 ≤ uplinkIndex ≤ count.

Notation remote := (effective_remote snapshot).
Notation role := (memberRole (ss_MemberRoles snapshot)).
Notation observed := (lookup_member (ss_MemberPorts snapshot)).
Notation local := (λ e, negb (remote_entry remote e)).
Notation guest := (guest snapshot role local).
Notation uplink_seen := (uplink_seen snapshot role).
Notation pin := (pin snapshot count).
Notation free := (free snapshot count uplinkIndex).

Lemma member_port_cases access name i rest :
  (∀ j, j ∈ access → 1 ≤ j ≤ count) →
  member_port (ss_MemberPortMap snapshot) count uplinkIndex access name = (i, rest) →
  pin name i ∧ rest = access ∨
  (∀ p, ¬ pin name p) ∧ (access = i :: rest ∨ access = [] ∧ rest = [] ∧ i = uplinkIndex).
Proof.
  intros Hacc. unfold member_port, Observe.pin. cbv zeta.
  destruct (ss_MemberPortMap snapshot !! trim_space name) as [p|] eqn:Ep; cbn [from_option id].
  - destruct ((1 <=? p) && (p <=? count)) eqn:Er.
    + cbv beta iota. destruct (_ || _) eqn:Eo; [lia|]. intros [= -> ->]. left. split; [|done]. split; [done|lia].
    + intros E. right. split; [intros q [[= <-] ?]; lia|]. destruct access as [|j access].
      * cbv beta iota in E. destruct (_ || _) eqn:Eo; injection E as <- <-; by right.
      * pose proof (Hacc j ltac:(left)). cbv beta iota in E. destruct (_ || _) eqn:Eo; [lia|]. injection E as <- <-. by left.
  - intros E. right. split; [by intros q [? _]|]. destruct access as [|j access]; cbn in E.
    + destruct (_ || _) eqn:Eo; injection E as <- <-; by right.
    + pose proof (Hacc j ltac:(left)). cbv beta iota in E. destruct (_ || _) eqn:Eo; [lia|]. injection E as <- <-. by left.
Qed.

(** A port between two turns, which was [p0]; [names] are the members that
    were treated. *)
Definition turn_state (names : list bytes) (places : list (bytes * Z)) (p0 p : Port) : Prop :=
  shows_guest snapshot uplinkIndex role observed local places p ∨
  (∃ name, name ∈ names ∧ uplink_seen name ∧ shows_uplink uplinkIndex observed name p) ∨
  p_Index p ∉ places.*2 ∧ p = p0 ∧
    (p_Index p = uplinkIndex → ∀ name, name ∈ names → ¬ uplink_seen name).

(** What holds between two turns. *)
Record loop_state (names : list bytes) (st : assignment) (places : list (bytes * Z)) : Prop := {
  lp_static : static <$> as_ports st = static <$> ports0;
  lp_names : NoDup places.*1;
  lp_guests name : name ∈ places.*1 ↔ name ∈ names ∧ ∃ macs, guest name macs;
  lp_pinned name i p : (name, i) ∈ places → pin name p → i = p;
  lp_loose name i : (name, i) ∈ places → (∀ p, ¬ pin name p) →
    free i ∨ i = uplinkIndex ∧ as_access st = [];
  lp_own name name' i : (name, i) ∈ places → (name', i) ∈ places → free i → name = name';
  lp_access j : free j → j ∈ as_access st ∨ j ∈ places.*2;
  lp_left : NoDup (as_access st) ∧ ∀ j, j ∈ as_access st → free j ∧ j ∉ places.*2;
  lp_used i : i ∈ as_used st ↔ i = uplinkIndex ∨ i ∈ places.*2;
  lp_ports k p0 p : ports0 !! k = Some p0 → as_ports st !! k = Some p → turn_state names places p0 p;
}.

Lemma loop_indexes names st places : loop_state names st places →
  p_Index <$> as_ports st = seqZ 1 count ∧ zlen (as_ports st) = count.
Proof.
  intros [Hs _ _ _ _ _ _ _ _ _]. split.
  - rewrite <- Hnumbered. by apply static_index.
  - rewrite <- Hcount. unfold zlen. by rewrite <- (length_fmap static), Hs, length_fmap.
Qed.

Lemma alter_lookup f i (ports : list Port) k p :
  p_Index <$> ports = seqZ 1 count → 1 ≤ i → alter f (Z.to_nat (i - 1)) ports !! k = Some p →
  ∃ q, ports !! k = Some q ∧ (p_Index q = i ∧ p = f q ∨ p_Index q ≠ i ∧ p = q).
Proof.
  intros Hn Hi. destruct (decide (Z.to_nat (i - 1) = k)) as [<-|Hk].
  - rewrite list_lookup_alter_eq. destruct (ports !! _) as [q|] eqn:Hq; [|done]. intros [= <-].
    exists q. split; [done|left]. split; [|done]. pose proof (index_lookup _ _ _ _ Hn Hq). lia.
  - rewrite list_lookup_alter_ne by done. intros Hq. exists p. split; [done|right]. split; [|done].
    pose proof (index_lookup _ _ _ _ Hn Hq). lia.
Qed.

Lemma static_Index f (p : Port) : keeps_static f → p_Index (f p) = p_Index p.
Proof. intros Hf. pose proof (Hf p) as E. by injection E. Qed.

Lemma shows_guest_app places more p :
  shows_guest snapshot uplinkIndex role observed local places p →
  shows_guest snapshot uplinkIndex role observed local (places ++ more) p.
Proof. intros (name & macs & Hin & K). exists name, macs. split; [|done]. set_solver. Qed.

(** A turn that changes nothing. *)
Lemma loop_skip names st places name :
  (∀ macs, ¬ guest name macs) → ¬ uplink_seen name →
  loop_state names st places → loop_state (names ++ [name]) st places.
Proof.
  intros Hg Hu [? ? Hguests ? ? ? ? ? ? Hports]. split; [done|done| |done..|].
  - intros n. rewrite Hguests. split; [set_solver|].
    intros [[?| ->%list_elem_of_singleton]%elem_of_app [macs ?]]; [eauto|by destruct (Hg macs)].
  - intros k p0 p Hp0 Hp. destruct (Hports k p0 p Hp0 Hp) as [?|[(n & ? & ?)|(? & ? & K)]];
      [by left|right; left; exists n; set_solver|right; right].
    split_and!; [done..|]. intros Ei n [?| ->%list_elem_of_singleton]%elem_of_app; [by apply K|done].
Qed.

(** A turn of an uplink member. *)
Lemma loop_uplink names st places name f :
  (∀ macs, ¬ guest name macs) → uplink_seen name → keeps_static f →
  (∀ p, p_MACs (f p) = [] ∧ member_link (observed name) (f p) ∧ (name ≠ [] → p_Name (f p) = name)) →
  loop_state names st places →
  loop_state (names ++ [name])
    (MkAssignment (alter f (Z.to_nat (uplinkIndex - 1)) (as_ports st)) ({[uplinkIndex]} ∪ as_used st)
       (as_access st)) places.
Proof.
  intros Hg Hu Hf Hshow Hl. destruct (loop_indexes _ _ _ Hl) as [Hidx _].
  destruct Hl as [? ? Hguests ? ? ? ? ? Hused Hports].
  split; cbn [as_ports as_used as_access]; [by rewrite alter_static|done| |done..| |].
  - intros n. rewrite Hguests. split; [set_solver|].
    intros [[?| ->%list_elem_of_singleton]%elem_of_app [macs ?]]; [eauto|by destruct (Hg macs)].
  - intros i. rewrite elem_of_union, elem_of_singleton, Hused. tauto.
  - intros k p0 p Hp0 Hp. apply alter_lookup in Hp as (q & Hq & [[Ei ->]|[Ei ->]]); [| |done|lia].
    + right. left. exists name. split; [set_solver|]. split; [done|].
      destruct (Hshow q) as (? & ? & ?). split_and!; [by rewrite static_Index|done..].
    + destruct (Hports k p0 q Hp0 Hq) as [?|[(n & ? & ?)|(? & ? & K)]];
        [by left|right; left; exists n; set_solver|right; right]. done.
Qed.

(** The port an access member gets. *)
Lemma port_choice left name i rest :
  NoDup left → (∀ j, j ∈ left → free j) →
  member_port (ss_MemberPortMap snapshot) count uplinkIndex left name = (i, rest) →
  1 ≤ i ≤ count ∧ (∀ p, pin name p → i = p) ∧
  ((∀ p, ¬ pin name p) → free i ∨ i = uplinkIndex ∧ rest = []) ∧
  (free i → i ∈ left) ∧ (left = [] → rest = []) ∧ NoDup rest ∧
  ∀ j, j ∈ left ∧ j ≠ i ↔ j ∈ rest.
Proof.
  intros Hnd Hfree Hport.
  assert (∀ j, j ∈ left → 1 ≤ j ≤ count) as Hrange by (intros j Hj; by apply Hfree in Hj as [? _]).
  destruct (member_port_cases _ _ _ _ Hrange Hport) as [[[Hpin Hi] ->]|[Hpin [->|(-> & -> & ->)]]].
  - assert (¬ free i) as Hnf by (intros (_ & _ & K); by eapply K). split_and!; [lia|lia| | |by intros ?|done|done|].
    + intros p [Hp _]. congruence.
    + intros K. exfalso. apply (K i). by split.
    + intros j. split; [by intros [? _]|]. intros Hj. split; [done|]. intros ->. by apply Hnf, Hfree.
  - apply NoDup_cons in Hnd as [Hni Hnd]. pose proof (Hfree i ltac:(left)) as Hf.
    split_and!; [apply Hf|apply Hf| | | |done|done|].
    + intros p Hp. by destruct (Hpin p).
    + by left.
    + left.
    + intros j. rewrite elem_of_cons. split; [by intros [[?|?] ?]|]. intros Hj. split; [by right|]. by intros ->.
  - split_and!; [lia|lia| | | |done|constructor|].
    + intros p Hp. by destruct (Hpin p).
    + by right.
    + by intros (_ & ? & _).
    + intros j. split; [by intros [? _]|]. by intros ?%not_elem_of_nil.
Qed.

(** A turn of an access member. *)
Lemma loop_guest names st places name macs i access f :
  name ∉ names → guest name macs → ¬ uplink_seen name → keeps_static f →
  member_port (ss_MemberPortMap snapshot) count uplinkIndex (as_access st) name = (i, access) →
  (∀ p, p_MACs (f p) = macs ∧ member_link (observed name) (f p) ∧
     (i ≠ uplinkIndex → name ≠ [] → p_Name (f p) = name)) →
  loop_state names st places →
  loop_state (names ++ [name])
    (MkAssignment (alter f (Z.to_nat (i - 1)) (as_ports st)) ({[i]} ∪ as_used st) access)
    (places ++ [(name, i)]).
Proof.
  intros Hname Hg Hu Hf Hport Hshow Hl. destruct (loop_indexes _ _ _ Hl) as [Hidx _].
  destruct Hl as [Hstatic Hnames Hguests Hpinned Hloose Hown Haccess [Hnd Hleft] Hused Hports].
  assert (∀ j, j ∈ as_access st → free j) as Hfree by (intros j Hj; by apply Hleft in Hj as [? _]).
  destruct (port_choice _ _ _ _ Hnd Hfree Hport) as (Hi & Cpin & Cloose & Cfree & Cnil & Cnd & Crest).
  assert (∀ n j, (n, j) ∈ places → n ≠ name) as Hfresh.
  { intros n j Hin ->. apply Hname, (Hguests name). by apply (list_elem_of_fmap_2 fst) in Hin. }
  assert (∀ n j, (n, j) ∈ places ++ [(name, i)] ↔ (n, j) ∈ places ∨ n = name ∧ j = i) as Happ.
  { intros n j. rewrite elem_of_app, list_elem_of_singleton. naive_solver. }
  assert (∀ j, j ∈ (places ++ [(name, i)]).*2 ↔ j ∈ places.*2 ∨ j = i) as Happ2.
  { intros j. rewrite fmap_app, elem_of_app. cbn. by rewrite list_elem_of_singleton. }
  assert (∀ n j, (n, j) ∈ places → j ∈ places.*2) as Hin2
    by (intros n j Hin; by apply (list_elem_of_fmap_2 snd) in Hin).
  assert (free i → i ∉ places.*2) as Hnew by (intros Hfr%Cfree; by apply Hleft in Hfr as [_ ?]).
  split; cbn [as_ports as_used as_access].
  - by rewrite alter_static.
  - rewrite fmap_app. apply NoDup_app. split_and!; [done| |apply NoDup_singleton].
    intros n Hn ->%list_elem_of_singleton. cbn in *. by apply Hguests in Hn as [? _].
  - intros n. rewrite fmap_app, !elem_of_app, Hguests. cbn. rewrite !list_elem_of_singleton.
    split; [|tauto]. intros [[? ?]| ->]; eauto.
  - intros n j p [?|[-> ->]]%Happ; [by apply (Hpinned n)|apply Cpin].
  - intros n j [Hin|[-> ->]]%Happ Hnp; [|by apply Cloose].
    destruct (Hloose n j Hin Hnp) as [?|[-> ?]]; auto.
  - intros n n' j [K|[-> ->]]%Happ [K'|[-> E]]%Happ Hfr; [by eapply Hown| | |done].
    + subst j. apply Hin2 in K. by destruct (Hnew Hfr).
    + apply Hin2 in K'. by destruct (Hnew Hfr).
  - intros j Hfr. rewrite Happ2, <- Crest. destruct (Haccess j Hfr); [|tauto].
    destruct (decide (j = i)); tauto.
  - split; [done|]. intros j [Hj Hji]%Crest. apply Hleft in Hj as [? ?]. split; [done|]. rewrite Happ2. tauto.
  - intros j. rewrite elem_of_union, elem_of_singleton, Hused, Happ2. tauto.
  - intros k p0 p Hp0 Hp. apply alter_lookup in Hp as (q & Hq & [[Ei ->]|[Ei ->]]); [| |done|lia].
    + left. destruct (Hshow q) as (? & ? & ?). exists name, macs.
      rewrite (static_Index f q Hf), Ei. split; [apply Happ; by right|done].
    + destruct (Hports k p0 q Hp0 Hq) as [?|[(n & ? & ?)|(K1 & ? & K)]].
      * left. by apply shows_guest_app.
      * right. left. exists n. set_solver.
      * right. right. split_and!; [rewrite Happ2; tauto|done|].
        intros E n [?| ->%list_elem_of_singleton]%elem_of_app; [by apply K|done].
Qed.

Lemma loop_members names done_names st places :
  NoDup (done_names ++ names) → loop_state done_names st places →
  ∃ places', loop_state (done_names ++ names)
    (fold_left (assign_member snapshot remote uplinkIndex) names st) places'.
Proof.
  revert done_names st places. induction names as [|name names IH]; intros done_names st places Hnd Hl.
  { exists places. by rewrite app_nil_r. }
  cbn [fold_left]. change (name :: names) with ([name] ++ names) in *. rewrite app_assoc in *.
  assert (name ∉ done_names) as Hname.
  { rewrite <- app_assoc in Hnd. apply NoDup_app in Hnd as (_ & Hd & _). intros Hin. apply (Hd name Hin). left. }
  destruct (assign_member_turn snapshot uplinkIndex st name) as [(Hu & Hg & ->)|[(Hu & Hg & f & Hf & Hs & ->)|
    (Hu & macs & i & access & f & Hg & Hport & Hf & Hs & ->)]].
  - eapply IH; [done|]. by apply loop_skip.
  - eapply IH; [done|]. by apply loop_uplink.
  - eapply IH; [done|]. rewrite (proj2 (loop_indexes _ _ _ Hl)) in Hport. by eapply loop_guest.
Qed.

Lemma validPinnedPortSet_elem values i :
  i ∈ validPinnedPortSet values count ↔ ∃ name, values !! name = Some i ∧ 1 ≤ i ≤ count.
Proof.
  unfold validPinnedPortSet. transitivity (i ∈ (∅ : gset Z) ∨ ∃ name, (name, i) ∈ range values ∧ 1 ≤ i ≤ count).
  - generalize (∅ : gset Z) as acc. induction (range values) as [|[name j] l IH]; intros acc; cbn [fold_left snd].
    + split; [by left|]. by intros [?|(? & ?%not_elem_of_nil & _)].
    + rewrite IH. destruct ((1 <=? j) && (j <=? count)) eqn:E; set_unfold.
      * naive_solver (auto with lia).
      * split; [naive_solver|]. intros [?|(n & [[= -> ->]|?] & ?)]; [by left|lia|eauto].
  - split.
    + by intros [?|(name & Hin%elem_of_range & ?)]; [set_solver|eauto].
    + intros (name & Hin & ?). right. exists name. split; [by apply elem_of_range|done].
Qed.

Lemma access_indexes_free :
  let access := access_indexes ports0 (validPinnedPortSet (ss_MemberPortMap snapshot) count) uplinkIndex in
  NoDup access ∧ ∀ i, i ∈ access ↔ free i.
Proof.
  unfold access_indexes. cbv zeta. change (map p_Index ports0) with (p_Index <$> ports0). rewrite Hnumbered.
  split; [apply NoDup_filter, NoDup_seqZ|]. intros i.
  rewrite list_elem_of_filter, elem_of_seqZ, validPinnedPortSet_elem. unfold Observe.free. split.
  - intros [[Hu Hp] Hr]. split; [lia|]. split; [done|]. intros name K. apply Hp. exists name. split; [done|lia].
  - intros (Hr & Hu & Hp). split; [|lia]. split; [done|]. intros (name & K & _). by eapply Hp.
Qed.

Lemma loop_initial :
  loop_state [] (MkAssignment ports0 {[uplinkIndex]}
    (access_indexes ports0 (validPinnedPortSet (ss_MemberPortMap snapshot) count) uplinkIndex)) [].
Proof.
  destruct access_indexes_free as [Hnd Hfree]. cbv zeta in *.
  split; cbn [as_ports as_used as_access fmap list_fmap]; try by intros; exfalso; eapply not_elem_of_nil.
  - done.
  - constructor.
  - intros name. split; [by intros ?%not_elem_of_nil|by intros [?%not_elem_of_nil _]].
  - intros j Hj. left. by apply Hfree.
  - split; [done|]. intros j Hj%Hfree. split; [done|apply not_elem_of_nil].
  - intros i. rewrite elem_of_singleton. split; [by left|]. by intros [?|?%not_elem_of_nil].
  - intros k p0 p Hp0 Hp. right. right. split_and!; [apply not_elem_of_nil|congruence|].
    by intros _ n ?%not_elem_of_nil.
Qed.
End loop.

(** *** The whole merge *)
Section whole.
Context `{UnicodeTables} `{MapOrderLaws} `{SliceSortLaws}.
Variable snapshot : Snapshot.
Notation role := (memberRole (ss_MemberRoles snapshot)).
Notation observed := (lookup_member (ss_MemberPorts snapshot)).
Notation local := (λ e, negb (remote_entry (effective_remote snapshot) e)).

Lemma sortedDeviceNames_names {A} (m : gmap bytes A) iface bridge :
  NoDup (sortedDeviceNames m iface bridge) ∧
  ∀ name, name ∈ sortedDeviceNames m iface bridge ↔ is_Some (m !! name).
Proof.
  unfold sortedDeviceNames. split.
  - rewrite slice_sort_permutation. apply range_keys_nodup.
  - intros name. rewrite slice_sort_permutation, list_elem_of_fmap. split.
    + intros ([n a] & -> & Hin%elem_of_range). by eexists.
    + intros [a Ha]. exists (name, a). split; [done|by apply elem_of_range].
Qed.

Lemma uplink_index_represents ports : represents_uplink ports snapshot (uplink_index ports snapshot).
Proof.
  unfold represents_uplink, uplink_index. cbv zeta.
  destruct (decide (1 ≤ ss_UplinkPortIndex snapshot ≤ zlen ports)); destruct (_ || _) eqn:E; try lia.
  unfold uplinkPortIndex. destruct (list_find _ ports) as [[k p]|] eqn:Ef.
  - apply list_find_Some in Ef as (Hk & Hp & Hbefore). left. exists k, p. split_and!; [done..|].
    intros j q Hq Hj. destruct (p_Uplink q) eqn:Eq; [|done]. by destruct (Hbefore j q Hq Hj).
  - right. split; [|done]. intros p Hp. apply list_find_None in Ef. rewrite Forall_forall in Ef.
    destruct (p_Uplink p) eqn:Eq; [|done]. by destruct (Ef p Hp).
Qed.

Lemma applyDeviceMACs_state ports index out :
  let ports1 := alter (apply_uplink snapshot) (Z.to_nat (index - 1)) ports in
  p_Index <$> ports = seqZ 1 (zlen ports) → 1 ≤ index ≤ zlen ports →
  applyDeviceMACs ports1 snapshot index = out →
  ∃ places, placement snapshot (zlen ports) index role local places ∧
    ∀ k p0 p, ports !! k = Some p0 → out !! k = Some p →
      port_state snapshot index role observed local places p0 p.
Proof.
  intros ports1 Hn Hi <-. unfold applyDeviceMACs. cbv zeta.
  set (ports0 := map (set_MACs []) ports1).
  assert (static <$> ports0 = static <$> ports) as E0.
  { unfold ports0, ports1. rewrite map_static by apply set_MACs_static. apply alter_static, uplink_static. }
  assert (zlen ports0 = zlen ports) as El by (unfold zlen; by rewrite <- (length_fmap static), E0, length_fmap).
  assert (p_Index <$> ports0 = seqZ 1 (zlen ports)) as Hn0 by (rewrite <- Hn; by apply static_index).
  rewrite El. destruct (sortedDeviceNames_names (ss_DeviceMACs snapshot) (ss_Interface snapshot) (ss_Bridge snapshot))
    as [Hnd Hnames].
  pose proof (loop_initial snapshot (zlen ports) index ports0 Hn0 El Hi) as Hl.
  destruct (loop_members snapshot (zlen ports) index ports0 Hn0 El Hi _ [] _ _ Hnd Hl) as (places & Hl'); clear Hl; rename Hl' into Hl.
  match goal with |- context [fold_left _ ?names ?st] => set (final := fold_left _ names st) in * end.
  rewrite app_nil_l in Hl. destruct Hl as [_ Hplaces Hguests Hpinned Hloose Hown Haccess _ Hused Hports].
  exists places. split; [split; [done| |done| |done]|].
  - intros name. rewrite Hguests, Hnames. split; [by intros [_ ?]|]. intros [macs Hg]. split; [|eauto].
    destruct Hg as (all & (Hall & _) & _). by eexists.
  - intros name i Hin Hnp. destruct (Hloose name i Hin Hnp) as [?|[-> Hnil]]; [by left|right].
    split; [done|]. intros j Hj. destruct (Haccess j Hj) as [K|?]; [|done].
    rewrite Hnil in K. by apply not_elem_of_nil in K.
  - intros k p0 p Hp0 Hp. change (map ?f (as_ports final)) with (f <$> as_ports final) in Hp.
    rewrite list_lookup_fmap in Hp. destruct (as_ports final !! k) as [q|] eqn:Hq; [|done].
    cbn [fmap option_fmap option_map] in Hp. injection Hp as <-.
    assert (ports0 !! k = Some (set_MACs [] (if decide (p_Index p0 = index) then apply_uplink snapshot p0 else p0)))
      as Hq0.
    { unfold ports0, ports1. change (map ?f ?l) with (f <$> l). rewrite list_lookup_fmap.
      pose proof (index_lookup _ _ _ _ Hn Hp0) as Ek. destruct (decide (p_Index p0 = index)) as [E|E].
      - replace (Z.to_nat (index - 1)) with k by lia. by rewrite list_lookup_alter_eq, Hp0.
      - rewrite list_lookup_alter_ne by lia. by rewrite Hp0. }
    destruct (Hports k _ q Hq0 Hq) as [Hs|[(name & _ & Hs & Hu)|(Hni & Eq & Hnone)]].
    + assert (p_Index q ∈ as_used final) as Hin.
      { destruct Hs as (name & macs & Hin & _). apply Hused. right. by apply (list_elem_of_fmap_2 snd) in Hin. }
      rewrite decide_True by done. by left.
    + assert (p_Index q ∈ as_used final) as Hin by (apply Hused; left; apply Hu).
      rewrite decide_True by done. right. left. by exists name.
    + right. right. destruct (decide (p_Index q = index)) as [Ei|Ei].
      * rewrite decide_True by (apply Hused; by left). split; [done|]. rewrite decide_True by done.
        split; [|split].
        -- intros name Hs. apply (Hnone Ei name); [|done]. apply Hnames.
           destruct Hs as [(all & Hall & _) _]. by eexists.
        -- subst q. by destruct (if decide _ then _ else _).
        -- assert (p_Index p0 = index) as Ep.
           { rewrite <- Ei. rewrite (index_lookup _ _ _ _ Hn Hp0), Eq.
             by rewrite (index_lookup _ _ _ _ Hn0 Hq0). }
           rewrite decide_True in Eq by done. destruct (apply_uplink_link snapshot p0) as [Kl _].
           subst q. revert Kl. by destruct (apply_uplink snapshot p0).
      * rewrite decide_False by (rewrite Hused; tauto).
        assert (p_Index (clearObservedPortState q) = p_Index q) as -> by (by apply static_Index, clear_static).
        split; [done|]. rewrite decide_False by done. apply clear_disconnected.
Qed.
End whole.


(** ** Members that share a port *)
Section shared.
Context `{UnicodeTables} `{MapOrderLaws}.

Definition port_for (snapshot : Snapshot) (uplinkIndex : Z) (st : assignment) (name : bytes) : Z :=
  (member_port (ss_MemberPortMap snapshot) (zlen (as_ports st)) uplinkIndex (as_access st) name).1.

(** An access member with its local clients, as the loop sees them. *)
Definition access_member (snapshot : Snapshot) : bytes → list MacTableEntry → Prop :=
  guest snapshot (memberRole (ss_MemberRoles snapshot))
    (λ e, negb (remote_entry (effective_remote snapshot) e)).

Lemma assign_access_member snapshot uplinkIndex st name macs p :
  access_member snapshot name macs →
  as_ports (assign_member snapshot (effective_remote snapshot) uplinkIndex st name)
    !! Z.to_nat (port_for snapshot uplinkIndex st name - 1) = Some p →
  p_MACs p = macs ∧ member_link (lookup_member (ss_MemberPorts snapshot) name) p.
Proof.
  intros Hg. unfold port_for.
  destruct (assign_member_turn snapshot uplinkIndex st name) as
    [(_ & Hn & _)|[(_ & Hn & _)|(_ & macs' & i & access & f & Hg' & -> & _ & Hs & ->)]];
    [by destruct (Hn macs)|by destruct (Hn macs)|].
  cbn [fst as_ports]. rewrite list_lookup_alter_eq. destruct (as_ports st !! _) as [q|]; [|done].
  intros [= <-]. destruct (Hs q) as (-> & ? & _). split; [|done].
  destruct Hg as (all & (Ha & _) & _ & -> & _), Hg' as (all' & (Ha' & _) & _ & -> & _). congruence.
Qed.
End shared.

(** Members that get the same port replace each other: when two access
    members are assigned one port, because both are pinned to it or because no
    access port is left and both fall back to the uplink, the port ends with
    the clients and the link of the second only, whatever the code's append
    suggests. *)
Theorem shared_port_keeps_last_member `{UnicodeTables} `{MapOrderLaws}
    snapshot uplinkIndex st first second macs1 macs2 p :
  let assign := assign_member snapshot (effective_remote snapshot) uplinkIndex in
  access_member snapshot first macs1 → access_member snapshot second macs2 →
  port_for snapshot uplinkIndex st first = port_for snapshot uplinkIndex (assign st first) second →
  as_ports (assign (assign st first) second)
    !! Z.to_nat (port_for snapshot uplinkIndex st first - 1) = Some p →
  p_MACs p = macs2 ∧ member_link (lookup_member (ss_MemberPorts snapshot) second) p.
Proof.
  intros assign _ H2 E Hp. rewrite E in Hp. by eapply assign_access_member.
Qed.

(** ** The order of maps does not matter *)
Section key_order.

Definition key_le (a b : sortKey) : Prop := key_less b a = false.
#[export] Instance sortKey_eq_dec : EqDecision sortKey.
Proof. solve_decision. Defined.
#[export] Instance key_le_dec : RelDecision key_le.
Proof. intros a b. unfold key_le. apply _. Defined.

Lemma key_le_spec a b :
  key_le a b ↔ sk_rank a < sk_rank b ∨ sk_rank a = sk_rank b ∧
    (sk_number a < sk_number b ∨ sk_number a = sk_number b ∧ bytes_le (sk_name a) (sk_name b)).
Proof.
  unfold key_le, key_less, bytes_ltb.
  destruct (Z.eqb_spec (sk_rank b) (sk_rank a)) as [E1|E1]; cbn [negb]; [|rewrite Z.ltb_ge; lia].
  destruct (Z.eqb_spec (sk_number b) (sk_number a)) as [E2|E2]; cbn [negb]; [|rewrite Z.ltb_ge; lia].
  assert (bytes_leb (sk_name b) (sk_name a) && negb (bool_decide (sk_name b = sk_name a)) = false ↔
          bytes_le (sk_name a) (sk_name b)) as ->; [|intuition lia].
  rewrite andb_false_iff, negb_false_iff, bool_decide_eq_true. split.
  - intros [K| ->]; [|by destruct (total bytes_le (sk_name a) (sk_name a))].
    destruct (total bytes_le (sk_name a) (sk_name b)) as [|K2]; [done|]. unfold bytes_le in K2. congruence.
  - intros K. destruct (bytes_leb (sk_name b) (sk_name a)) eqn:K2; [right|by left].
    by apply (anti_symm bytes_le).
Qed.

#[export] Instance key_le_total : Total key_le.
Proof.
  intros a b. rewrite !key_le_spec.
  destruct (Z.lt_trichotomy (sk_rank a) (sk_rank b)) as [?|[E1|?]]; [tauto| |tauto].
  pose proof (eq_sym E1).
  destruct (Z.lt_trichotomy (sk_number a) (sk_number b)) as [?|[E2|?]]; [tauto| |tauto].
  pose proof (eq_sym E2).
  destruct (total bytes_le (sk_name a) (sk_name b)); tauto.
Qed.
#[export] Instance key_le_trans : Transitive key_le.
Proof.
  intros a b c. rewrite !key_le_spec.
  intros [?|[? [?|[? Hab]]]] [?|[? [?|[? Hbc]]]]; try (left; lia); right;
    (split; [lia|]); try (left; lia); right.
  split; [lia|]. by etransitivity.
Qed.
#[export] Instance key_le_antisymm : AntiSymm (=) key_le.
Proof.
  intros [] []. rewrite !key_le_spec. cbn.
  intros [?|[? [?|[? Hab]]]] [?|[? [?|[? Hba]]]]; try lia. subst. f_equal.
  by apply (anti_symm bytes_le).
Qed.

Lemma key_less_spec a b : key_less a b = bool_decide (key_le a b ∧ a ≠ b).
Proof.
  symmetry. destruct (key_less a b) eqn:E.
  - apply bool_decide_true. assert (¬ key_le b a) as Hn by (unfold key_le; congruence). split.
    + by destruct (total key_le a b).
    + intros ->. by destruct (total key_le b b).
  - apply bool_decide_false. intros [Hab Hne]. apply Hne. by apply (anti_symm key_le).
Qed.
End key_order.

(** No two names of the map differ in case or surrounding space only. *)
Definition distinct_names `{UnicodeTables} {A} (m : gmap bytes A) : Prop :=
  ∀ a b, is_Some (m !! a) → is_Some (m !! b) → memberNameKey a = memberNameKey b → a = b.

Section scans.
Context `{UnicodeTables}.

Lemma scan_members_spec {A} (l : list (bytes * A)) key a :
  (∀ x y, x ∈ l → y ∈ l → memberNameKey x.1 = memberNameKey y.1 → x = y) →
  scan_members key l = Some a ↔ ∃ name, (name, a) ∈ l ∧ memberNameKey name = key.
Proof.
  induction l as [|[name b] l IH]; intros Hinj; cbn [scan_members].
  { split; [done|]. by intros (? & ?%not_elem_of_nil & _). }
  case_decide as Ek.
  - split.
    + intros [= ->]. exists name. split; [left|done].
    + intros (name' & Hin & Ek'). f_equal.
      assert ((name, b) = (name', a)) as E; [|by injection E].
      apply Hinj; [left|done|cbn; congruence].
  - rewrite IH by (intros x y Hx Hy; apply Hinj; by right). split.
    + intros (name' & Hin & Ek'). exists name'. split; [by right|done].
    + intros (name' & [E|Hin]%elem_of_cons & Ek'); [by simplify_eq|eauto].
Qed.

Lemma scan_range `{MapOrderLaws} {A} (m : gmap bytes A) key a :
  distinct_names m →
  scan_members key (range m) = Some a ↔ ∃ name, m !! name = Some a ∧ memberNameKey name = key.
Proof.
  intros Hd. rewrite scan_members_spec.
  - split; intros (name & Hn & Ek); exists name; (split; [by apply elem_of_range|done]).
  - intros [x a1] [y a2] Hx%elem_of_range Hy%elem_of_range E. cbn in E.
    assert (x = y) as ->; [|congruence]. apply Hd; [by eexists..|done].
Qed.
End scans.

Section orders.
Context `{UnicodeTables}.
Context (o1 o2 : MapOrder) `{!@MapOrderLaws o1} `{!@MapOrderLaws o2}.

Lemma lookup_member_order {A} (m : gmap bytes A) member :
  distinct_names m → @lookup_member _ o1 A m member = @lookup_member _ o2 A m member.
Proof.
  intros Hd. unfold lookup_member. destruct (m !! trim_space member); [done|].
  apply option_eq. intros a. by rewrite (@scan_range _ o1), (@scan_range _ o2).
Qed.

Lemma memberRole_order roles member :
  distinct_names roles → @memberRole _ o1 roles member = @memberRole _ o2 roles member.
Proof. intros Hd. unfold memberRole. by rewrite lookup_member_order. Qed.

Lemma range_perm {A} (m : gmap bytes A) : @range o1 A m ≡ₚ @range o2 A m.
Proof. by rewrite !range_permutation. Qed.

Lemma normalizeRemoteMACSet_order m :
  @normalizeRemoteMACSet _ o1 m = @normalizeRemoteMACSet _ o2 m.
Proof.
  apply fold_left_perm; [|apply range_perm]. intros c [x vx] [y vy]. cbn.
  destruct vx, vy; cbn; try done. repeat case_decide; try done. apply insert_same_commute.
Qed.

Lemma add_remote_commute c e1 e2 : add_remote (add_remote c e1) e2 = add_remote (add_remote c e2) e1.
Proof. unfold add_remote. repeat case_decide; try done. apply insert_same_commute. Qed.

Lemma add_remotes_commute c l1 l2 :
  fold_left add_remote l2 (fold_left add_remote l1 c) = fold_left add_remote l1 (fold_left add_remote l2 c).
Proof.
  rewrite <- !fold_left_app. apply fold_left_perm; [apply add_remote_commute|apply Permutation_app_comm].
Qed.

Lemma RemoteMACs_order m roles iface :
  distinct_names roles →
  @RemoteMACsByBridgeMember _ o1 m roles iface = @RemoteMACsByBridgeMember _ o2 m roles iface.
Proof.
  intros Hd. unfold RemoteMACsByBridgeMember.
  rewrite (fold_left_perm _ (@range o1 _ m) (@range o2 _ m)); [|intros c x y|apply range_perm].
  - apply fold_left_ext. intros c e. by rewrite memberRole_order.
  - destruct (_ && _), (_ && _); try done. apply add_remotes_commute.
Qed.

Lemma pinned_order m n : @validPinnedPortSet o1 m n = @validPinnedPortSet o2 m n.
Proof.
  apply fold_left_perm; [|apply range_perm]. intros c x y.
  destruct (_ && _), (_ && _); try done. set_solver.
Qed.

Lemma effective_remote_order snapshot :
  distinct_names (ss_MemberRoles snapshot) →
  @effective_remote _ o1 snapshot = @effective_remote _ o2 snapshot.
Proof.
  intros Hd. unfold effective_remote. rewrite normalizeRemoteMACSet_order.
  case_decide; [by apply RemoteMACs_order|done].
Qed.

Lemma applyMember_order port obs name :
  distinct_names obs →
  @applyMemberPortObservation _ o1 port obs name = @applyMemberPortObservation _ o2 port obs name.
Proof. intros Hd. unfold applyMemberPortObservation. by rewrite lookup_member_order. Qed.

Lemma assign_member_order snapshot remote index st name :
  distinct_names (ss_MemberRoles snapshot) → distinct_names (ss_MemberPorts snapshot) →
  @assign_member _ o1 snapshot remote index st name = @assign_member _ o2 snapshot remote index st name.
Proof.
  intros Hr Hp. unfold assign_member. cbv zeta. rewrite memberRole_order by done.
  destruct (_ || unmapped_role _); [done|]. destruct (_ || isUplinkDevice _ _).
  - f_equal. apply list_alter_ext; [|done]. intros p _. by rewrite applyMember_order.
  - case_decide; [done|]. destruct (member_port _ _ _ _ _) as [i access]. f_equal.
    apply list_alter_ext; [|done]. intros p _. by rewrite applyMember_order.
Qed.
End orders.

Lemma sortedDeviceNames_order `{UnicodeTables} (o1 o2 : MapOrder) (s1 s2 : SliceSort)
    `{!@MapOrderLaws o1} `{!@MapOrderLaws o2} `{!@SliceSortLaws s1} `{!@SliceSortLaws s2}
    {A} (m : gmap bytes A) iface bridge :
  distinct_names m →
  @sortedDeviceNames _ o1 s1 A m iface bridge = @sortedDeviceNames _ o2 s2 A m iface bridge.
Proof.
  intros Hd. unfold sortedDeviceNames.
  assert (∀ a b, key_less (deviceSortKey a iface bridge) (deviceSortKey b iface bridge) =
    bool_decide (key_le (deviceSortKey a iface bridge) (deviceSortKey b iface bridge) ∧
                 deviceSortKey a iface bridge ≠ deviceSortKey b iface bridge)) as Hless
    by (intros a b; apply key_less_spec).
  apply (slice_sort_unique key_le (λ a, deviceSortKey a iface bridge)); [exact Hless| | |].
  - intros a b Ha Hb E. apply (f_equal sk_name) in E. cbn in E.
    apply list_elem_of_fmap in Ha as ([a' x] & -> & Ha%elem_of_range).
    apply list_elem_of_fmap in Hb as ([b' y] & -> & Hb%elem_of_range).
    apply Hd; [by eexists..|done].
  - rewrite slice_sort_permutation. apply fmap_Permutation. symmetry. by apply range_perm.
  - by apply (slice_sort_sorted _ _ key_le (λ a, deviceSortKey a iface bridge)).
Qed.

(** The merge of a snapshot does not depend on Go's map iteration order nor
    on how [sort.Slice] orders equal elements, as long as no two member names
    differ in case or surrounding space only: the same observation gives the
    same ports on every heartbeat. *)
Theorem Apply_deterministic `{UnicodeTables} (o1 o2 : MapOrder) (s1 s2 : SliceSort)
    `{!@MapOrderLaws o1} `{!@MapOrderLaws o2} `{!@SliceSortLaws s1} `{!@SliceSortLaws s2}
    ports snapshot :
  distinct_names (ss_DeviceMACs snapshot) → distinct_names (ss_MemberRoles snapshot) →
  distinct_names (ss_MemberPorts snapshot) →
  @Apply _ o1 s1 ports snapshot = @Apply _ o2 s2 ports snapshot.
Proof.
  intros Hd Hr Hp. unfold Apply. destruct (decide (ports = [])); [done|]. cbv zeta.
  destruct (_ || _); [done|]. destruct (negb (bool_decide (ss_DeviceMACs snapshot = ∅))); [|done].
  f_equal. unfold applyDeviceMACs. cbv zeta.
  rewrite (effective_remote_order o1 o2), (pinned_order o1 o2),
    (sortedDeviceNames_order o1 o2 s1 s2) by done.
  rewrite (fold_left_ext (@assign_member _ o1 snapshot (@effective_remote _ o2 snapshot) (uplink_index ports snapshot))
             (@assign_member _ o2 snapshot (@effective_remote _ o2 snapshot) (uplink_index ports snapshot)));
    [done|].
  intros st name. by apply assign_member_order.
Qed.

(** ** Witnesses and samples *)
#[local] Existing Instance ascii_tables.
#[local] Existing Instance list_order.
#[local] Existing Instance insertion_sort.

Definition plain_port (index : Z) : Port :=
  MkPort index (B "Port") [] (MkGateway [] [] [] [] [] [] [] [] [] [] [] 0 None 0 0 None) (B "GE")
    (index =? 1) false false true 1000 no_counters false 0 0 false false [] [].
Definition client (mac : bytes) : MacTableEntry := MkMacEntry mac [] [] 4 1200 0 false (B "client").
Definition seen_up : PortObservation :=
  MkObservation 0 [] [] [] [] [] (Some true) 10000 [] no_stats [] false false.
Definition client1 : MacTableEntry := client (B "02:00:00:00:00:11").
Definition client2 : MacTableEntry := client (B "02:00:00:00:00:12").
Definition client3 : MacTableEntry := client (B "02:00:00:00:00:13").
Definition upstream : MacTableEntry := client (B "02:00:00:00:00:99").

(** The same host, as another tool writes its address. *)
Definition upstream_again : MacTableEntry := client (B " 02-00-00-00-00-99").

Definition sample_snapshot : Snapshot :=
  MkSnapshot 1 (B "eno1") (B "vmbr0") (Some true) (MkStats None false no_counters 1000) []
    {[ B "eno1" := [upstream]; B "tap2" := [client1; upstream_again]; B "tap10" := [client2];
       B "tap11" := [client3] ]}
    ∅ {[ B "eno1" := seen_up ]} ∅ ∅.
Definition two_ports : list Port := [plain_port 1; plain_port 2].

(** Three guests on a switch with one access port: the first gets the port, the
    other two replace each other, and the link state, on the uplink. *)
Example overflow_run :
  option_map (map (λ p, (p_Name p, p_Up p, p_Speed p, p_MACs p))) (Apply two_ports sample_snapshot) =
  Some [(B "eno1", false, 0, [client3]); (B "tap2", false, 0, [client1])].
Proof. vm_compute. reflexivity. Qed.


Definition overflow_state : assignment := MkAssignment two_ports {[1]} [].

Lemma shared_port_keeps_last_member_witness :
  ∃ p, as_ports (assign_member sample_snapshot (effective_remote sample_snapshot) 1
         (assign_member sample_snapshot (effective_remote sample_snapshot) 1 overflow_state
            (B "tap10")) (B "tap11")) !! 0%nat = Some p ∧ p_MACs p = [client3].
Proof.
  pose proof list_order_laws as Hlaws.
  assert (∀ name c, ss_DeviceMACs sample_snapshot !! name = Some [c] →
    memberRole (ss_MemberRoles sample_snapshot) name = BridgeMemberRoleUnknown →
    isUplinkDevice name (B "eno1") = false → remote_entry (effective_remote sample_snapshot) c = false →
    access_member sample_snapshot name [c]) as Hguest.
  { intros name c Hall Hr Hu Hc. exists [c]. split; [|split; [|split; [|discriminate]]].
    - split; [exact Hall|]. split; [discriminate|]. rewrite Hr. split; vm_compute; discriminate.
    - intros [E|E]; [rewrite Hr in E; vm_compute in E; discriminate E|].
      apply (isUplinkDevice_name name (B "eno1")) in E. congruence.
    - cbv beta. unfold filter, list_filter. rewrite Hc. reflexivity. }
  assert (access_member sample_snapshot (B "tap10") [client2]) as K1 by (apply Hguest; vm_compute; reflexivity).
  assert (access_member sample_snapshot (B "tap11") [client3]) as K2 by (apply Hguest; vm_compute; reflexivity).
  destruct (as_ports (assign_member sample_snapshot (effective_remote sample_snapshot) 1
    (assign_member sample_snapshot (effective_remote sample_snapshot) 1 overflow_state (B "tap10"))
    (B "tap11")) !! 0%nat) as [p|] eqn:E; [|vm_compute in E; discriminate E].
  exists p. split; [reflexivity|].
  exact (proj1 (shared_port_keeps_last_member sample_snapshot 1 overflow_state (B "tap10") (B "tap11")
                  [client2] [client3] p K1 K2 eq_refl E)).
Defined.

Definition reverse_order : MapOrder := {| range := λ A m, reverse (map_to_list m) |}.
Lemma reverse_order_laws : @MapOrderLaws reverse_order.
Proof. intros A m. apply reverse_Permutation. Qed.
#[local] Existing Instance list_order_laws.
#[local] Existing Instance reverse_order_laws.
#[local] Existing Instance insertion_sort_laws.

Lemma distinct_names_check {A} (m : gmap bytes A) :
  forallb (λ a, forallb (λ b, bool_decide (a = b) || negb (bool_decide (memberNameKey a = memberNameKey b)))
    (map_to_list m).*1) (map_to_list m).*1 = true → distinct_names m.
Proof.
  intros Hf a b [x Ha] [y Hb] E. rewrite forallb_forall in Hf.
  assert (∀ k v, m !! k = Some v → In k (map_to_list m).*1) as Hin.
  { intros k v Hk. apply list_elem_of_In, list_elem_of_fmap. exists (k, v).
    split; [done|]. by apply elem_of_map_to_list. }
  specialize (Hf a (Hin a x Ha)). rewrite forallb_forall in Hf. specialize (Hf b (Hin b y Hb)).
  apply orb_true_iff in Hf as [K|K]; [by apply bool_decide_eq_true in K|].
  by rewrite bool_decide_true in K.
Qed.

Lemma Apply_deterministic_witness :
  @Apply _ list_order _ two_ports sample_snapshot = @Apply _ reverse_order _ two_ports sample_snapshot.
Proof.
  assert (distinct_names (ss_DeviceMACs sample_snapshot)) as K1
    by (apply distinct_names_check; vm_compute; reflexivity).
  assert (distinct_names (ss_MemberRoles sample_snapshot)) as K2
    by (apply distinct_names_check; vm_compute; reflexivity).
  assert (distinct_names (ss_MemberPorts sample_snapshot)) as K3
    by (apply distinct_names_check; vm_compute; reflexivity).
  exact (Apply_deterministic list_order reverse_order insertion_sort insertion_sort two_ports
           sample_snapshot K1 K2 K3).
Defined.
