(* ===== verification/Rates.v ===== *)
(** Traffic rates from interface counters: [src/internal/observe/rates.go] and
    [src/cmd/unifi-stubd/traffic_rates.go].

    A [time.Time] of the tracker carries a monotonic clock reading and is its
    nanoseconds here.  A nil map of the tracker behaves as an empty one. *)
From stdpp Require Import gmap.
From S2P Require Import Prelude GoStrings GoFloat Ports Overrides Observe.

(** ** rates.go *)
Record InterfaceRates := MkRates { ra_RXBytesRate : Z; ra_TXBytesRate : Z; ra_Set : bool }.
Definition no_rates : InterfaceRates := MkRates 0 0 false.

Record trafficRateSample := MkSample { sa_time : Z; sa_rxBytes : Z; sa_txBytes : Z }.
Definition TrafficRateTracker : Type := gmap bytes trafficRateSample.
Definition NewTrafficRateTracker : TrafficRateTracker := ∅.

Definition hasByteCounters (stats : InterfaceStats) : bool :=
  (0 <? RXBytes (is_Counters stats)) || (0 <? TXBytes (is_Counters stats)).

(** [time.Time.Sub]: limited to a [Duration]. *)
Definition time_sub (t u : Z) : Z := Z.max int64_min (Z.min int64_max (t - u)).

Section rates.
Context `{UnicodeTables} `{FloatConversion}.

(** [int64(float64(bytes-previous) / elapsed)]. *)
Definition byte_rate (bytes previous : Z) (elapsed : float64) : Z :=
  int64_of_float (float_div (float_of_int (wrap64 (bytes - previous))) elapsed).

Definition sample_key (key : bytes) : bytes := to_lower (trim_space key).
Definition Rates (tracker : TrafficRateTracker) (now : Z) (key : bytes) (stats : InterfaceStats) (up : bool)
    : InterfaceRates * TrafficRateTracker :=
  let key := sample_key key in
  if bool_decide (key = []) || negb (hasByteCounters stats) then (no_rates, tracker)
  else
    let rx := RXBytes (is_Counters stats) in
    let tx := TXBytes (is_Counters stats) in
    let updated := <[key := MkSample now rx tx]> tracker in
    match tracker !! key with
    | None => (no_rates, updated)
    | Some previous =>
        let elapsed := duration_seconds (time_sub now (sa_time previous)) in
        if negb up then (no_rates, updated)
        else if float_leb elapsed (float_of_int 0) || (rx <? sa_rxBytes previous) || (tx <? sa_txBytes previous)
        then (no_rates, updated)
        else
          (MkRates (byte_rate rx (sa_rxBytes previous) elapsed) (byte_rate tx (sa_txBytes previous) elapsed)
             true, updated)
    end.

(** ** traffic_rates.go *)
Definition trafficRateKey (port : Port) : bytes := trim_space (p_Interface port).

(** One turn of the loop: the port, and the tracker behind it. *)
Definition rate_port (tracker : TrafficRateTracker) (now : Z) (port : Port) : Port * TrafficRateTracker :=
  let port := set_Rates (p_RXBytesRate port) (p_TXBytesRate port) true (p_TrafficRatesSet port) port in
  let key := trafficRateKey port in
  if bool_decide (key = []) || negb (p_CountersSet port) then (port, tracker)
  else
    let '(rates, tracker) := Rates tracker now key (MkStats None false (p_Counters port) 0) (p_Up port) in
    if negb (ra_Set rates) then (port, tracker)
    else (set_Rates (ra_RXBytesRate rates) (ra_TXBytesRate rates) true true port, tracker).
Fixpoint rate_ports (tracker : TrafficRateTracker) (now : Z) (ports : list Port)
    : list Port * TrafficRateTracker :=
  match ports with
  | [] => ([], tracker)
  | port :: rest =>
      let '(port, tracker) := rate_port tracker now port in
      let '(rest, tracker) := rate_ports tracker now rest in
      (port :: rest, tracker)
  end.
Definition applyTrafficRates (ports : list Port) (tracker : option TrafficRateTracker) (now : Z)
    : list Port * option TrafficRateTracker :=
  match tracker with
  | None => (ports, None)
  | Some tracker => let '(ports, tracker) := rate_ports tracker now ports in (ports, Some tracker)
  end.

(** ** A tracker holds the last sample of each interface *)

(** A call of [Rates], and the sample it leaves. *)
Record rate_call := MkCall { rc_now : Z; rc_key : bytes; rc_stats : InterfaceStats; rc_up : bool }.
Definition call_sample (c : rate_call) : trafficRateSample :=
  MkSample (rc_now c) (RXBytes (is_Counters (rc_stats c))) (TXBytes (is_Counters (rc_stats c))).
Definition samples (key : bytes) (c : rate_call) : bool :=
  bool_decide (sample_key (rc_key c) = key) && negb (bool_decide (key = [])) && hasByteCounters (rc_stats c).
Definition do_call (tracker : TrafficRateTracker) (c : rate_call) : InterfaceRates * TrafficRateTracker :=
  Rates tracker (rc_now c) (rc_key c) (rc_stats c) (rc_up c).
Definition after_calls (calls : list rate_call) : TrafficRateTracker :=
  fold_left (λ tracker c, (do_call tracker c).2) calls NewTrafficRateTracker.

(** The last sample of [key] in a history. *)
Definition last_sample (key : bytes) (calls : list rate_call) : option trafficRateSample :=
  call_sample <$> last (filter (λ c, samples key c = true) calls).

Lemma Rates_tracker tracker c key :
  (do_call tracker c).2 !! key = if samples key c then Some (call_sample c) else tracker !! key.
Proof.
  assert ((do_call tracker c).2 =
    if bool_decide (sample_key (rc_key c) = []) || negb (hasByteCounters (rc_stats c)) then tracker
    else <[sample_key (rc_key c) := call_sample c]> tracker) as ->.
  { unfold do_call, Rates. cbv zeta. destruct (_ || _); [done|].
    destruct (tracker !! _); [|done]. destruct (rc_up c); [|done]. by destruct (_ || _). }
  unfold samples. destruct (decide (sample_key (rc_key c) = key)) as [<-|Hk].
  - rewrite (bool_decide_true (sample_key (rc_key c) = sample_key (rc_key c))) by done.
    destruct (bool_decide (sample_key (rc_key c) = [])), (hasByteCounters (rc_stats c)); try done.
    apply lookup_insert_eq.
  - rewrite (bool_decide_false (sample_key (rc_key c) = key)) by done. cbn [andb].
    destruct (_ || _); [done|]. by apply lookup_insert_ne.
Qed.

Lemma tracker_last_sample calls key : after_calls calls !! key = last_sample key calls.
Proof.
  unfold after_calls, last_sample.
  induction calls as [|c calls IH] using rev_ind; [apply lookup_empty|].
  rewrite fold_left_app. cbn [fold_left]. rewrite Rates_tracker, IH, filter_app, filter_cons, filter_nil.
  destruct (samples key c) eqn:E.
  - rewrite decide_True by done. by rewrite last_snoc.
  - rewrite decide_False by done. by rewrite app_nil_r.
Qed.

(** C37: a rate is only reported for an interface that is up and was sampled
    before: after any history of calls the rates are those between the last
    sample of the same interface, case ignored, and the present one, which is
    later and has counters at least as high; and a rate that fits an int64 is
    not negative. *)
Theorem rates_from_last_sample calls c rates :
  (do_call (after_calls calls) c).1 = rates → ra_Set rates = true →
  in_int64 (RXBytes (is_Counters (rc_stats c))) → in_int64 (TXBytes (is_Counters (rc_stats c))) →
  ∃ previous, last_sample (sample_key (rc_key c)) calls = Some previous ∧
    rc_up c = true ∧ sample_key (rc_key c) ≠ [] ∧ hasByteCounters (rc_stats c) = true ∧
    float_leb (duration_seconds (time_sub (rc_now c) (sa_time previous))) (float_of_int 0) = false ∧
    sa_rxBytes previous ≤ RXBytes (is_Counters (rc_stats c)) ∧
    sa_txBytes previous ≤ TXBytes (is_Counters (rc_stats c)) ∧
    let elapsed := duration_seconds (time_sub (rc_now c) (sa_time previous)) in
    ra_RXBytesRate rates = byte_rate (RXBytes (is_Counters (rc_stats c))) (sa_rxBytes previous) elapsed ∧
    ra_TXBytesRate rates = byte_rate (TXBytes (is_Counters (rc_stats c))) (sa_txBytes previous) elapsed ∧
    (0 ≤ sa_rxBytes previous → 0 ≤ ra_RXBytesRate rates ∨
       ra_RXBytesRate rates = out_of_range (float_div (float_of_int
         (RXBytes (is_Counters (rc_stats c)) - sa_rxBytes previous)) elapsed)) ∧
    (0 ≤ sa_txBytes previous → 0 ≤ ra_TXBytesRate rates ∨
       ra_TXBytesRate rates = out_of_range (float_div (float_of_int
         (TXBytes (is_Counters (rc_stats c)) - sa_txBytes previous)) elapsed)).
Proof.
  intros <- Hs Hrx Htx. unfold do_call, Rates in *. cbv zeta in *. rewrite tracker_last_sample in *.
  destruct (bool_decide (sample_key (rc_key c) = []) || negb (hasByteCounters (rc_stats c))) eqn:E0; [done|].
  destruct (last_sample _ calls) as [previous|]; [|done].
  destruct (rc_up c); cbn [negb] in *; [|done].
  destruct (float_leb _ _ || _ || _) eqn:E; [done|]. bool_to_prop.
  exists previous. cbn [ra_RXBytesRate ra_TXBytesRate fst].
  split_and!; try done; try lia.
  all: intros Hp; unfold byte_rate, int64_of_float; rewrite wrap64_id by (unfold in_int64, int64_min, int64_max in *; lia).
  all: destruct (_ && _); [left|by right].
  all: apply not_negative_trunc; destruct (float_positive _ H1) as [Hn Hz].
  all: apply float_div_sign; [apply float_of_int_sign; lia|done..].
Qed.

(** ** One pass over the ports *)
Definition counted (port : Port) : bool :=
  negb (bool_decide (trafficRateKey port = [])) && p_CountersSet port
  && hasByteCounters (MkStats None false (p_Counters port) 0).
Definition port_key (port : Port) : bytes := sample_key (trafficRateKey port).

(** A port whose rates are left alone. *)
Definition unrated (port : Port) : Port :=
  set_Rates (p_RXBytesRate port) (p_TXBytesRate port) true (p_TrafficRatesSet port) port.

Lemma rate_port_rates tracker now p :
  ∃ rx tx set, (rate_port tracker now p).1 = set_Rates rx tx true set p.
Proof.
  unfold rate_port. cbv zeta. destruct (_ || _); [by eexists _, _, _|].
  destruct (Rates _ _ _ _ _) as [r t]. destruct (negb _); by eexists _, _, _.
Qed.

Definition port_call (now : Z) (p : Port) : rate_call :=
  MkCall now (trafficRateKey p) (MkStats None false (p_Counters p) 0) (p_Up p).

Lemma rate_port_tracker tracker now p k :
  (rate_port tracker now p).2 !! k =
    if counted p && samples k (port_call now p) then Some (call_sample (port_call now p)) else tracker !! k.
Proof.
  unfold rate_port, counted. cbv zeta.
  change (trafficRateKey (set_Rates _ _ _ _ p)) with (trafficRateKey p).
  change (p_CountersSet (set_Rates _ _ _ _ p)) with (p_CountersSet p).
  destruct (bool_decide (trafficRateKey p = [])); [done|]. destruct (p_CountersSet p); [|done]. cbn [negb orb andb].
  pose proof (Rates_tracker tracker (port_call now p) k) as Ht. unfold do_call in Ht. cbn [port_call] in Ht.
  cbn [rc_now rc_key rc_stats rc_up] in Ht. change (p_Counters (set_Rates _ _ _ _ p)) with (p_Counters p).
  change (p_Up (set_Rates _ _ _ _ p)) with (p_Up p).
  assert (samples k (port_call now p) = true → hasByteCounters (MkStats None false (p_Counters p) 0) = true) as Hh
    by (unfold samples; intros Hs; by bool_to_prop).
  destruct (Rates _ _ _ _ _) as [r t]. cbn [snd] in Ht.
  destruct (negb (ra_Set r)); cbn [snd]; rewrite Ht;
    destruct (samples k (port_call now p)); by rewrite ?Hh, ?andb_false_r by done.
Qed.

Lemma rate_port_sampled tracker now p :
  counted p = true → port_key p ≠ [] →
  (rate_port tracker now p).2 !! port_key p = Some (call_sample (port_call now p)).
Proof.
  intros Hc Hk. rewrite rate_port_tracker, Hc. unfold samples, port_key, counted in *. bool_to_prop.
  rewrite bool_decide_true by done. rewrite bool_decide_false by done. cbn [port_call rc_stats andb negb].
  by rewrite H2.
Qed.

(** A second sample at the same time gives no rate. *)
Lemma rate_port_again tracker now p sample :
  tracker !! port_key p = Some sample → sa_time sample = now → (rate_port tracker now p).1 = unrated p.
Proof.
  intros Ht Hn. unfold rate_port. cbv zeta. destruct (_ || _) eqn:E; [done|].
  unfold Rates. cbv zeta.
  change (sample_key (trafficRateKey (set_Rates _ _ _ _ p))) with (port_key p).
  destruct (bool_decide (port_key p = []) || _); [done|]. rewrite Ht, Hn.
  replace (time_sub now now) with 0 by (unfold time_sub, int64_min, int64_max; lia).
  destruct (negb (p_Up _)); [done|].
  change (float_leb (duration_seconds 0) (float_of_int 0)) with true. done.
Qed.

Lemma rate_ports_cons tracker now p ports :
  rate_ports tracker now (p :: ports) =
    ((rate_port tracker now p).1 :: (rate_ports (rate_port tracker now p).2 now ports).1,
     (rate_ports (rate_port tracker now p).2 now ports).2).
Proof. cbn. destruct (rate_port _ _ _). cbn. by destruct (rate_ports _ _ _). Qed.

Lemma rate_ports_sampled tracker now ports j q sample :
  tracker !! port_key q = Some sample → sa_time sample = now → ports !! j = Some q →
  (rate_ports tracker now ports).1 !! j = Some (unrated q).
Proof.
  revert tracker sample j. induction ports as [|p ports IH]; intros tracker sample j Ht Hn Hj; [done|].
  rewrite rate_ports_cons. destruct j as [|j]; cbn in Hj |- *.
  - injection Hj as ->. f_equal. by eapply rate_port_again.
  - pose proof (rate_port_tracker tracker now p (port_key q)) as Hp.
    destruct (_ && _); [by eapply IH|]. rewrite Ht in Hp. by eapply IH.
Qed.

(** One pass over the ports changes nothing but their rates, and the
    traffic of an interface is counted once: of the ports with counters that
    name the same interface, case ignored, only the first can get new rates. *)
Theorem shared_interface_counted_once tracker now ports :
  (∀ i p, ports !! i = Some p → ∃ rx tx set,
     (rate_ports tracker now ports).1 !! i = Some (set_Rates rx tx true set p)) ∧
  (∀ i j p q, (i < j)%nat → ports !! i = Some p → ports !! j = Some q →
     counted p = true → port_key p ≠ [] → port_key q = port_key p →
     (rate_ports tracker now ports).1 !! j = Some (unrated q)).
Proof.
  split.
  - revert tracker. induction ports as [|p0 ports IH]; intros tracker i p Hp; [done|].
    rewrite rate_ports_cons. destruct i as [|i]; cbn in Hp |- *; [|by apply IH].
    injection Hp as ->. destruct (rate_port_rates tracker now p) as (rx & tx & set & ->). eauto.
  - revert tracker. induction ports as [|p0 ports IH]; intros tracker i j p q Hij Hp Hq Hc Hk Ek; [done|].
    rewrite rate_ports_cons. destruct j as [|j]; [lia|]. destruct i as [|i]; cbn in Hp, Hq |- *.
    + injection Hp as ->. apply (rate_ports_sampled _ _ _ _ _ (call_sample (port_call now p))); [|done|done].
      rewrite Ek. by apply rate_port_sampled.
    + apply (IH _ i j p q); [lia|done..].
Qed.
End rates.

(** ** Witnesses *)
#[local] Existing Instance ascii_tables.
#[local] Existing Instance amd64_conversion.

Definition sample_stats (rx tx : Z) : InterfaceStats := MkStats None true (MkCounters rx tx 0 0 0 0) 0.
Definition first_call : rate_call := MkCall 1000000000 (B "eth0") (sample_stats 1000 500) true.
Definition second_call : rate_call := MkCall 3500000000 (B " ETH0 ") (sample_stats 6000 500) true.

Lemma rates_from_last_sample_witness :
  (do_call (after_calls [first_call]) second_call).1 = MkRates 2000 0 true ∧
  ∃ previous, last_sample (B "eth0") [first_call] = Some previous ∧ sa_rxBytes previous ≤ 6000.
Proof.
  split; [vm_compute; reflexivity|].
  destruct (rates_from_last_sample [first_call] second_call (MkRates 2000 0 true)) as (s & Hs & _ & _ & _ & _ & Hr & _).
  - vm_compute. reflexivity.
  - reflexivity.
  - vm_compute. split; discriminate.
  - vm_compute. split; discriminate.
  - exists s. split; [exact Hs|exact Hr].
Defined.
