(* ===== verification/WanHealth.v ===== *)
(** Active WAN health probes: [src/internal/observe/wanhealth].

    What an operating system [ping] prints, how long it takes and how it fails
    is a parameter; the two regular expressions that look for a latency are
    written out, with the case folding and the ASCII word boundary of package
    [regexp]. *)
From Stdlib Require Import Floats.SpecFloat.
From S2P Require Import Prelude GoStrings GoFloat.

(** ** wanhealth.go, types.go *)
Definition SourceOff : bytes := B "off".
Definition SourceStatic : bytes := B "static".
Definition SourcePing : bytes := B "ping".
Definition second : Z := 1000000000.
Definition millisecond : Z := 1000000.
Definition defaultInterval : Z := 10 * second.
Definition defaultTimeout : Z := second.
Definition maxErrorLength : Z := 180.

Record Target := MkTarget { tg_Port : Z; tg_Host : bytes }.
Record Config := MkProbeConfig {
  pc_Source : bytes; pc_Interval : Z; pc_Timeout : Z; pc_Targets : list Target;
}.
Record Result := MkResult {
  re_Port : Z; re_Host : bytes; re_Connected : bool; re_LatencyMS : Z; re_DowntimeSeconds : Z;
  re_UptimePercent : float64; re_LastError : bytes;
}.

(** ** errors.go *)
Definition sanitizeError (text : bytes) : bytes :=
  let message := trim_space text in
  if decide (message = []) then B "ping failed"
  else
    let message := join (B " ") (fields message) in
    if maxErrorLength <? zlen message
    then trim_space (take (Z.to_nat maxErrorLength) message) ++ B "..."
    else message.
Definition firstNonEmptyLine (value : bytes) : bytes :=
  default [] (find (λ line, negb (bool_decide (line = []))) (map trim_space (split_byte x0a value))).

(** ** latency.go: the regular expressions *)
Definition word_byte (b : byte) : bool :=
  let x := b2z b in
  ((48 <=? x) && (x <=? 57)) || ((65 <=? x) && (x <=? 90)) || (x =? 95) || ((97 <=? x) && (x <=? 122)).
Definition word_before (previous : option byte) : bool :=
  match previous with Some b => word_byte b | None => false end.
Definition word_next (s : bytes) : bool := match s with b :: _ => word_byte b | [] => false end.

(** [\s*]. *)
Definition regex_space (b : byte) : bool :=
  let x := b2z b in (x =? 9) || (x =? 10) || (x =? 12) || (x =? 13) || (x =? 32).
Fixpoint skip_spaces (s : bytes) : bytes :=
  match s with b :: t => if regex_space b then skip_spaces t else s | [] => [] end.

(** [[0-9]+] and [[0-9]+(?:\.[0-9]+)?], as much as possible; a match of less
    never helps, for neither a digit nor a point can follow the number. *)
Fixpoint digit_prefix (s : bytes) : bytes * bytes :=
  match s with
  | b :: t => if is_digit b then let '(ds, rest) := digit_prefix t in (b :: ds, rest) else ([], s)
  | [] => ([], [])
  end.
Definition number_prefix (s : bytes) : option (bytes * bytes) :=
  let '(whole, rest) := digit_prefix s in
  if bool_decide (whole = []) then None
  else
    match rest with
    | x2e :: rest' =>
        let '(fraction, rest'') := digit_prefix rest' in
        if bool_decide (fraction = []) then Some (whole, rest) else Some (whole ++ x2e :: fraction, rest'')
    | _ => Some (whole, rest)
    end.

Definition fold_byte (b : byte) (c : byte) : bool := bool_decide (lower_byte b = c).
Fixpoint fold_prefix (p s : bytes) : option bytes :=
  match p, s with
  | [], _ => Some s
  | c :: p, b :: s => if fold_byte b c then fold_prefix p s else None
  | _, [] => None
  end.
(** [\s*ms\b]; the letter s folds to the long s U+017F, which is no word
    character. *)
Definition ms_suffix (s : bytes) : bool :=
  match skip_spaces s with
  | m :: t =>
      fold_byte m x6d &&
      match t with
      | c :: rest =>
          (fold_byte c x73 && negb (word_next rest))
          || match c, rest with
             | xc5, xbf :: rest => word_next rest
             | _, _ => false
             end
      | [] => false
      end
  | [] => false
  end.

(** A match of [latencyPattern] here, and of [summaryPattern]. *)
Definition latency_here (previous : option byte) (s : bytes) : option bytes :=
  if word_before previous then None
  else
    rest ← fold_prefix (B "time") s;
    match rest with
    | b :: rest =>
        if bool_decide (b = x3d) || bool_decide (b = x3c) then
          '(value, rest) ← number_prefix rest;
          if ms_suffix rest then Some value else None
        else None
    | [] => None
    end.
Definition slash (s : bytes) : option bytes :=
  match s with b :: t => if bool_decide (b = x2f) then Some t else None | [] => None end.
Definition summary_here (previous : option byte) (s : bytes) : option bytes :=
  match s with
  | b :: rest =>
      if bool_decide (b = x3d) then
        '(_, rest) ← number_prefix (skip_spaces rest);
        rest ← slash rest;
        '(value, rest) ← number_prefix rest;
        rest ← slash rest;
        '(_, rest) ← number_prefix rest;
        rest ← slash rest;
        '(_, rest) ← number_prefix rest;
        if ms_suffix rest then Some value else None
      else None
  | [] => None
  end.
(** [FindStringSubmatch]: the leftmost match. *)
Fixpoint leftmost (here : option byte → bytes → option bytes) (previous : option byte) (s : bytes)
    : option bytes :=
  match here previous s with
  | Some value => Some value
  | None => match s with b :: t => leftmost here (Some b) t | [] => None end
  end.

(** [strconv.ParseFloat] of such a number: the nearest float, if it is finite. *)
Definition parse_decimal (value : bytes) : option float64 :=
  let whole := cut_parts x2e value in
  let numerator := digits_val (fst whole ++ snd whole) in
  let f :=
    match numerator with
    | Zpos m => SFdiv 53 1024 (S754_finite false m 0)
                  (S754_finite false (Z.to_pos (10 ^ zlen (snd whole))) 0)
    | _ => S754_zero false
    end in
  if is_finite f then Some f else None.
(** [math.Round], exactly; of a negative number only that it is not positive
    matters. *)
Definition float_round (a : float64) : Z :=
  match a with
  | S754_finite s m e =>
      if s then 0 else if 0 <=? e then Zpos m * 2 ^ e else (2 * Zpos m + 2 ^ (- e)) / 2 ^ (1 - e)
  | _ => 0
  end.

Section probes.
Context `{UnicodeTables} `{FloatConversion}.

Definition NormalizeSource (value : bytes) : bytes :=
  let value := to_lower (trim_space value) in if decide (value = []) then SourceOff else value.

(** [int(math.Round(f))]. *)
Definition rounded_int (f : float64) : Z :=
  let z := float_round f in if (int64_min <=? z) && (z <=? int64_max) then z else out_of_range f.
Definition parseLatencyValue (value : bytes) : option Z :=
  ms ← parse_decimal value;
  if float_ltb ms (float_of_int 0) then None
  else
    let rounded := rounded_int ms in
    if (rounded <? 1) && float_ltb (float_of_int 0) ms then Some 1 else Some rounded.
Definition parseLatencyMS (output : bytes) : option Z :=
  match leftmost latency_here None output with
  | Some value => parseLatencyValue value
  | None =>
      match leftmost summary_here None output with
      | Some value => parseLatencyValue value
      | None => None
      end
  end.
Definition durationMS (value : Z) : Z :=
  let ms := rounded_int (float_div (float_of_int value) (float_of_int millisecond)) in
  if ms <? 1 then 1 else ms.
Definition downtimeSeconds (interval timeout : Z) : Z :=
  let value := if interval <=? 0 then timeout else interval in
  let f := duration_seconds value in
  let z := float_ceil f in
  let seconds := if (int64_min <=? z) && (z <=? int64_max) then z else out_of_range f in
  if seconds <? 1 then 1 else seconds.

(** ** runner.go

    What the command does: its output, the time it takes, the text of the
    context's error if the deadline passed, and that of its own error. *)
Record ping_run := MkPing {
  pi_output : bytes; pi_elapsed : Z; pi_deadline : option bytes; pi_error : option bytes;
}.
Definition ping (run : ping_run) : result bytes (bytes * Z) :=
  match pi_deadline run, pi_error run with
  | Some text, _ => Err (B "ping timeout: " ++ text)
  | None, Some text =>
      let message := firstNonEmptyLine (pi_output run) in
      Err (if decide (message = []) then B "run ping: " ++ text else text ++ B ": " ++ message)
  | None, None => Ok (pi_output run, pi_elapsed run)
  end.

(** ** measure.go *)
Definition positiveDuration (value fallback : Z) : Z := if 0 <? value then value else fallback.
Definition failed_sample (port : Z) (host lastError : bytes) (downtime : Z) : Result :=
  MkResult port host false 0 downtime (float_of_int 0) lastError.
(** The command runs on a host within a timeout. *)
Definition measure_target (run : bytes → Z → ping_run) (interval timeout : Z) (target : Target) : Result :=
  let host := trim_space (tg_Host target) in
  let downtime := downtimeSeconds interval timeout in
  if tg_Port target <? 1 then failed_sample (tg_Port target) host (B "invalid port") downtime
  else if decide (host = []) then failed_sample (tg_Port target) host (B "host is required") downtime
  else
    match ping (run host timeout) with
    | Err err => failed_sample (tg_Port target) host (sanitizeError err) downtime
    | Ok (output, elapsed) =>
        let latency := default (durationMS elapsed) (parseLatencyMS output) in
        MkResult (tg_Port target) host true latency 0 (float_of_int 100) []
    end.
Definition Measure (run : bytes → Z → ping_run) (cfg : Config) : list Result :=
  if negb (bool_decide (NormalizeSource (pc_Source cfg) = SourcePing))
     || (zlen (pc_Targets cfg) =? 0) then []
  else
    map (measure_target run (positiveDuration (pc_Interval cfg) defaultInterval)
           (positiveDuration (pc_Timeout cfg) defaultTimeout)) (pc_Targets cfg).
End probes.

(** ** What a batch of samples says *)
Lemma flush_acc acc rest : acc ≠ [] → flush_field acc rest ≠ [].
Proof. by destruct acc. Qed.

Lemma fields_acc s acc : acc ≠ [] → fields_aux acc s ≠ [].
Proof.
  revert acc. induction s as [|a t1 IH]; intros acc Ha; cbn [fields_aux]; [by apply flush_acc|].
  destruct (space1 a); [by apply flush_acc|]. destruct t1 as [|b t2]; [by apply IH|].
  destruct (space2 a b); [by apply flush_acc|]. destruct t2 as [|c t3]; [by apply IH|].
  destruct (space3 a b c); [by apply flush_acc|by apply IH].
Qed.

Lemma fields_trimmed s : trim_left s = s → s ≠ [] → fields s ≠ [].
Proof.
  intros Hs Hne. apply trim_left_id in Hs. unfold fields. destruct s as [|a t1]; [done|].
  cbn [fields_aux]. destruct Hs as [-> Hs]. destruct t1 as [|b t2]; [by apply fields_acc|].
  destruct Hs as [-> Hs]. destruct t2 as [|c t3]; [by apply fields_acc|]. rewrite Hs. by apply fields_acc.
Qed.

(** No field holds white space of one byte, and none is empty. *)
Definition inked (s : bytes) : Prop := Forall (λ b, space1 b = false) s.
Lemma flush_inked acc rest :
  inked acc → Forall (λ f, inked f ∧ f ≠ []) rest → Forall (λ f, inked f ∧ f ≠ []) (flush_field acc rest).
Proof.
  intros Ha Hr. destruct acc as [|a acc]; [done|]. constructor; [|done]. split.
  - by apply Forall_rev.
  - cbn. by destruct (rev acc).
Qed.

Lemma fields_inked_at n s acc :
  (length s ≤ n)%nat → inked acc → Forall (λ f, inked f ∧ f ≠ []) (fields_aux acc s).
Proof.
  revert s acc. induction n as [|n IH]; intros [|a t1] acc Hl Ha; cbn [fields_aux length] in *;
    try lia; try by apply flush_inked.
  destruct (space1 a) eqn:Ea; [apply flush_inked, IH; [done|lia|constructor]|].
  assert (inked (a :: acc)) as Ha' by by constructor.
  destruct t1 as [|b t2]; [apply IH; [cbn; lia|done]|].
  destruct (space2 a b); [apply flush_inked, IH; [done|cbn in *; lia|constructor]|].
  destruct t2 as [|c t3]; [apply IH; [lia|done]|].
  destruct (space3 a b c); [apply flush_inked, IH; [done|cbn in *; lia|constructor]|apply IH; [lia|done]].
Qed.

Lemma join_line (l : list bytes) :
  Forall (λ f, inked f ∧ f ≠ []) l → x0a ∉ join (B " ") l ∧ (l ≠ [] → join (B " ") l ≠ []).
Proof.
  assert (∀ f, inked f → x0a ∉ f) as Hink by (intros f Hf Hin; by eapply (proj1 (Forall_forall _ _) Hf) in Hin).
  induction 1 as [|f l [Hf Hne] Hl IH]; [split; [apply not_elem_of_nil|done]|].
  destruct IH as [IH1 IH2]. destruct l as [|g l].
  - cbn. split; [by apply Hink|done].
  - change (join (B " ") (f :: g :: l)) with (f ++ B " " ++ join (B " ") (g :: l)). split.
    + rewrite !elem_of_app. intros [Hx|[Hx|Hx]]; [by eapply Hink| |done].
      by apply list_elem_of_singleton in Hx.
    + intros _ [E _]%app_eq_nil. done.
Qed.

Lemma sanitizeError_line text :
  sanitizeError text ≠ [] ∧ zlen (sanitizeError text) ≤ maxErrorLength + 3 ∧ x0a ∉ sanitizeError text.
Proof.
  unfold sanitizeError. cbv zeta. case_decide as E.
  { split; [done|]. split; [done|]. apply (bool_decide_unpack _). by vm_compute. }
  assert (trim_left (trim_space text) = trim_space text) as Ht by apply trim_space_id, trim_space_idemp.
  destruct (join_line (fields (trim_space text))) as [Hl Hne].
  { by eapply fields_inked_at; [reflexivity|constructor]. }
  specialize (Hne (fields_trimmed _ Ht E)).
  destruct (maxErrorLength <? zlen _) eqn:El; [|split_and!; [done|lia|done]].
  set (message := join (B " ") _) in *. split_and!.
  - intros [_ [=]]%app_eq_nil.
  - rewrite zlen_app. change (zlen (B "...")) with 3.
    pose proof (trim_space_length (take (Z.to_nat maxErrorLength) message)) as Hs.
    rewrite length_take in Hs. unfold zlen, maxErrorLength in *. lia.
  - rewrite elem_of_app. intros [Hx|Hx].
    + apply Hl. destruct (trim_space_infix (take (Z.to_nat maxErrorLength) message)) as (l & r & Em).
      rewrite <- (take_drop (Z.to_nat maxErrorLength) message), Em, !elem_of_app. auto.
    + revert Hx. apply (bool_decide_unpack _). by vm_compute.
Qed.

Section samples.
Context `{UnicodeTables} `{FloatConversion}.

Lemma parseLatencyValue_positive value latency : parseLatencyValue value = Some latency → 0 ≤ latency.
Proof.
  unfold parseLatencyValue, parse_decimal. cbv zeta.
  set (f := match digits_val _ with Zpos _ => _ | _ => _ end). clearbody f.
  destruct (is_finite f) eqn:Ef; [|done]. cbn [mbind option_bind].
  destruct (float_ltb f (float_of_int 0)) eqn:En; [done|].
  destruct ((rounded_int f <? 1) && _) eqn:E; intros [= <-]; [lia|].
  apply andb_false_iff in E as [E|E]; [lia|].
  destruct f as [s|s| |[] m e]; [done|done..].
Qed.

Lemma durationMS_positive value : 1 ≤ durationMS value.
Proof. unfold durationMS. cbv zeta. destruct (_ <? 1) eqn:E; lia. Qed.
Lemma downtimeSeconds_positive interval timeout : 1 ≤ downtimeSeconds interval timeout.
Proof. unfold downtimeSeconds. cbv zeta. destruct (_ <? 1) eqn:E; lia. Qed.

Definition sample_ok (r : Result) : Prop :=
  if re_Connected r
  then 0 ≤ re_LatencyMS r ∧ re_DowntimeSeconds r = 0 ∧ re_UptimePercent r = float_of_int 100 ∧ re_LastError r = []
  else re_LatencyMS r = 0 ∧ 1 ≤ re_DowntimeSeconds r ∧ re_UptimePercent r = float_of_int 0 ∧
       re_LastError r ≠ [] ∧ zlen (re_LastError r) ≤ 183 ∧ x0a ∉ re_LastError r.

Definition answered (run : bytes → Z → ping_run) (timeout : Z) (target : Target) : bool :=
  (1 <=? tg_Port target) && negb (bool_decide (trim_space (tg_Host target) = []))
  && is_ok (ping (run (trim_space (tg_Host target)) timeout)).

Lemma measure_target_ok run interval timeout target :
  let r := measure_target run interval timeout target in
  re_Port r = tg_Port target ∧ re_Host r = trim_space (tg_Host target) ∧
  re_Connected r = answered run timeout target ∧ sample_ok r.
Proof.
  unfold measure_target, answered. cbv zeta. pose proof (downtimeSeconds_positive interval timeout) as Hd.
  rewrite Z.leb_antisym. destruct (tg_Port target <? 1); cbn [negb andb].
  { unfold sample_ok. cbn [re_Connected failed_sample]. split_and!; try done.
    apply (bool_decide_unpack _). by vm_compute. }
  case_decide as Eh.
  { rewrite bool_decide_true by done. unfold sample_ok. cbn [re_Connected failed_sample].
    split_and!; try done. apply (bool_decide_unpack _). by vm_compute. }
  rewrite bool_decide_false by done. cbn [negb andb].
  destruct (ping _) as [[output elapsed]|err]; unfold sample_ok; cbn.
  - split_and!; try done. destruct (parseLatencyMS output) as [l|] eqn:El; cbn.
    + unfold parseLatencyMS in El. destruct (leftmost latency_here _ _).
      * by eapply parseLatencyValue_positive.
      * destruct (leftmost summary_here _ _); [|done]. by eapply parseLatencyValue_positive.
    + pose proof (durationMS_positive elapsed). lia.
  - destruct (sanitizeError_line err) as (H1 & H2 & H3). unfold maxErrorLength in H2. done.
Qed.

(** A batch of probes gives one sample for each target, in order, and none
    unless the source is ping.  A sample is connected exactly if the port is
    numbered from 1, the host is not blank and the command succeeded in time;
    it then has a latency, no downtime, full availability and no error, and
    otherwise no latency, at least a second of downtime, no availability and a
    reason on one line of at most 183 bytes. *)
Theorem Measure_samples run cfg :
  (NormalizeSource (pc_Source cfg) ≠ SourcePing → Measure run cfg = []) ∧
  (NormalizeSource (pc_Source cfg) = SourcePing →
   Forall2 (λ target r, re_Port r = tg_Port target ∧ re_Host r = trim_space (tg_Host target) ∧
     re_Connected r = answered run (positiveDuration (pc_Timeout cfg) defaultTimeout) target ∧ sample_ok r)
     (pc_Targets cfg) (Measure run cfg)).
Proof.
  unfold Measure. split; intros E.
  - by rewrite bool_decide_false by done.
  - rewrite bool_decide_true by done. cbn [negb orb].
    destruct (zlen (pc_Targets cfg) =? 0) eqn:Ez.
    + destruct (pc_Targets cfg); [constructor|]. by apply Z.eqb_eq in Ez.
    + apply Forall2_fmap_r, Forall_Forall2_diag, Forall_true. intros target. apply measure_target_ok.
Qed.
End samples.

(** ** Latencies in what ping prints *)
Example latency_samples :
  (let _ := ascii_tables in let _ := amd64_conversion in
   (parseLatencyMS (B "64 bytes from 192.0.2.1: icmp_seq=1 ttl=57 time=12.5 ms"),
    parseLatencyMS (B "64 bytes: TIME<1ms"), parseLatencyMS (B "time=0.2 ms"), parseLatencyMS (B "downtime=9 ms"),
    parseLatencyMS (B "rtt min/avg/max/mdev = 11.9/12.49/13.1/0.2 ms"), parseLatencyMS (B "time=3 msec"),
    parseLatencyMS (B "time=1. ms")))
  = (Some 13, Some 1, Some 1, None, Some 12, None, None).
Proof. by vm_compute. Qed.
