(* ===== verification/ObserveSources.v ===== *)
(** Where an observation comes from: the parsers of bridge tables
    ([src/internal/adapters]), their conversion into client entries
    ([snapshot_fdb.go], [freebsd.go], [arp.go] and [ReadInterfaceStats] of
    [src/internal/observe]), the reading of one interface
    ([src/internal/observe/ifsource]), the port map
    ([src/internal/observe/portmap]) and the platform's [Bridge] and [Ports]
    ([src/internal/platform]).

    What the kernel and the external commands answer is a [Host].  Contexts do
    not expire here. *)
From stdpp Require Import gmap.
From S2P Require Import Prelude GoStrings GoNet GoIP GoMap Ports Overrides Observe.

(** ** adapters/linuxbridge/fdb.go *)
Record FDBEntry := MkFDB {
  fe_MAC : bytes; fe_Device : bytes; fe_VLAN : Z; fe_Dynamic : bool; fe_Static : bool;
  fe_Local : bool; fe_Permanent : bool; fe_Self : bool;
}.

Definition input_lines (input : bytes) : list bytes := scan_lines (split_byte x0a input).

Section adapters.
Context `{UnicodeTables}.

(** The loop over the fields behind the address and their successors. *)
Fixpoint fdb_pairs (entry : FDBEntry) (fields : list bytes) : FDBEntry :=
  match fields with
  | key :: ((value :: _) as rest) =>
      let entry :=
        if decide (key = B "dev") then
          MkFDB (fe_MAC entry) value (fe_VLAN entry) (fe_Dynamic entry) (fe_Static entry)
            (fe_Local entry) (fe_Permanent entry) (fe_Self entry)
        else if decide (key = B "vlan") then
          match atoi value with
          | None => entry
          | Some vlan =>
              MkFDB (fe_MAC entry) (fe_Device entry) vlan (fe_Dynamic entry) (fe_Static entry)
                (fe_Local entry) (fe_Permanent entry) (fe_Self entry)
          end
        else entry in
      fdb_pairs entry rest
  | _ => entry
  end.
Definition fdb_flags (entry : FDBEntry) (fields : list bytes) : FDBEntry :=
  let has word := bool_decide (B word ∈ fields) in
  MkFDB (fe_MAC entry) (fe_Device entry) (fe_VLAN entry) (has "dynamic") (has "static") (has "local")
    (has "permanent") (has "self").
Definition fdb_line (text : bytes) : option FDBEntry :=
  match fields text with
  | [] => None
  | mac :: rest =>
      if negb (contains (B ":") mac) then None
      else Some (fdb_flags (fdb_pairs (MkFDB (to_lower mac) [] 0 false false false false false) rest) rest)
  end.
Definition ParseFDB (input : bytes) : list FDBEntry := omap fdb_line (input_lines input).

(** ** adapters/freebsdifconfig/bridge.go *)
Record BridgeAddress := MkBridgeAddress {
  ba_MAC : bytes; ba_VLAN : Z; ba_Interface : bytes; ba_Age : Z; ba_Static : bool; ba_Local : bool;
}.

(** [strings.Trim(value, ",")]. *)
Fixpoint drop_commas (s : bytes) : bytes :=
  match s with c :: t => if decide (c = x2c) then drop_commas t else s | [] => [] end.
Definition trim_commas (s : bytes) : bytes := rev (drop_commas (rev (drop_commas s))).
Definition parseOptionalInt (value : bytes) : Z :=
  default 0 (atoi (trim_commas (trim_space value))).
Definition trim_prefix (p s : bytes) : bytes := if has_prefix p s then drop (length p) s else s.
Definition parseVLAN (value : bytes) : Z :=
  parseOptionalInt (trim_prefix (B "vlan") (to_lower (trim_space value))).

Definition bridge_flags (rest : list bytes) : bool * bool :=
  (existsb (λ f, contains (B "static") (to_lower f)) rest,
   existsb (λ f, contains (B "local") (to_lower f) || contains (B "self") (to_lower f)) rest).
Definition bridge_line (text : bytes) : option BridgeAddress :=
  match fields text with
  | first :: second :: rest =>
      let mac := to_lower (trim_space first) in
      match parse_mac mac with
      | None => None
      | Some _ =>
          let '(vlan, rest) :=
            if has_prefix (B "vlan") (to_lower second) then (parseVLAN second, rest)
            else (0, second :: rest) in
          match rest with
          | [] => None
          | iface :: rest =>
              let age := match rest with [] => 0 | age :: _ => parseOptionalInt age end in
              let '(static, local) := bridge_flags rest in
              Some (MkBridgeAddress mac vlan (trim_space iface) age static local)
          end
      end
  | _ => None
  end.
Definition ParseBridgeAddr (input : bytes) : list BridgeAddress := omap bridge_line (input_lines input).

(** ** snapshot_fdb.go *)
Definition multicast (mac : bytes) : bool :=
  match mac with b :: _ => negb (Z.land (b2z b) 1 =? 0) | [] => false end.
Definition learnedFDBEntry (entry : FDBEntry) : bool :=
  match parse_mac (fe_MAC entry) with
  | None => false
  | Some [] => false
  | Some mac =>
      if multicast mac then false
      else if fe_Local entry || fe_Permanent entry || fe_Self entry then false
      else fe_Dynamic entry || fe_Static entry || (negb (fe_Local entry) && negb (fe_Permanent entry))
  end.

(** The variables of the two loops below. *)
Definition table_state : Type := gmap bytes (list MacTableEntry) * gset bytes.
Definition add_client (st : table_state) (name : bytes) (entry : MacTableEntry) : table_state :=
  let '(out, seen) := st in
  let key := name ++ B "|" ++ me_MAC entry in
  if decide (key ∈ seen) then st
  else (<[name := default [] (out !! name) ++ [entry]]> out, {[key]} ∪ seen).

Definition fdb_step (st : table_state) (entry : FDBEntry) : table_state :=
  if negb (learnedFDBEntry entry) then st
  else add_client st (trim_space (fe_Device entry))
         (MkMacEntry (fe_MAC entry) [] [] 4 1200 (fe_VLAN entry) false (B "client")).
Definition MACEntriesByDevice (entries : list FDBEntry) : gmap bytes (list MacTableEntry) :=
  (fold_left fdb_step entries (∅, ∅)).1.

(** ** freebsd.go *)
Definition learnedFreeBSDBridgeEntry (entry : BridgeAddress) : bool :=
  match parse_mac (ba_MAC entry) with
  | None => false
  | Some [] => false
  | Some mac =>
      if multicast mac then false
      else if ba_Local entry then false
      else negb (bool_decide (trim_space (ba_Interface entry) = []))
  end.
Definition defaultBridgeAge (value : Z) : Z := if 0 <? value then value else 4.
Definition freebsd_step (st : table_state) (entry : BridgeAddress) : table_state :=
  if negb (learnedFreeBSDBridgeEntry entry) then st
  else add_client st (trim_space (ba_Interface entry))
         (MkMacEntry (ba_MAC entry) [] [] (defaultBridgeAge (ba_Age entry)) 1200 (ba_VLAN entry) false
            (B "client")).
Definition FreeBSDMACsByInterface (entries : list BridgeAddress) : gmap bytes (list MacTableEntry) :=
  (fold_left freebsd_step entries (∅, ∅)).1.

(** ** arp.go *)
Record ARPEntry := MkARP { ae_IP : bytes; ae_MAC : bytes; ae_Device : bytes }.
Definition zeroMAC (mac : bytes) : bool := forallb (λ b, bool_decide (b = x00)) mac.
Definition arp_line (text : bytes) : option ARPEntry :=
  match fields text with
  | ip :: _ :: _ :: mac :: _ :: device :: _ =>
      if equal_fold ip (B "IP") then None
      else
        match parse_ip4 ip with
        | None => None
        | Some ip4 =>
            match parse_mac mac with
            | None => None
            | Some hw =>
                if bool_decide (hw = []) || multicast hw || zeroMAC hw then None
                else Some (MkARP (ipv4_string ip4) (to_lower (mac_string hw)) (trim_space device))
            end
        end
  | _ => None
  end.
Definition ParseARPTable (input : bytes) : list ARPEntry := omap arp_line (input_lines input).

Definition index_arp (arpEntries : list ARPEntry) : gmap bytes (list ARPEntry) :=
  fold_left (λ byMAC entry,
    let key := normalizedMACKey (ae_MAC entry) in
    if bool_decide (key = []) || bool_decide (trim_space (ae_IP entry) = []) then byMAC
    else <[key := default [] (byMAC !! key) ++ [entry]]> byMAC) arpEntries ∅.
Definition arpEntryForMAC (member mac : bytes) (byMAC : gmap bytes (list ARPEntry)) : option ARPEntry :=
  match default [] (byMAC !! normalizedMACKey mac) with
  | [] => None
  | (first :: _) as entries =>
      match list_find (λ e, to_lower (trim_space (ae_Device e)) = to_lower (trim_space member)) entries with
      | Some (_, entry) => Some entry
      | None => Some first
      end
  end.
Definition set_entry_IP (ip : bytes) (e : MacTableEntry) : MacTableEntry :=
  MkMacEntry (me_MAC e) (me_Hostname e) ip (me_Age e) (me_Uptime e) (me_VLAN e) (me_Static e) (me_Type e).
Definition enrich_entry (byMAC : gmap bytes (list ARPEntry)) (member : bytes) (e : MacTableEntry)
    : MacTableEntry :=
  if negb (bool_decide (trim_space (me_IP e) = [])) then e
  else
    match arpEntryForMAC member (me_MAC e) byMAC with
    | None => e
    | Some arp => set_entry_IP (ae_IP arp) e
    end.
Definition EnrichMACsFromARP (memberMACs : gmap bytes (list MacTableEntry)) (arpEntries : list ARPEntry)
    : gmap bytes (list MacTableEntry) :=
  map_imap (λ member macs, Some (map (enrich_entry (index_arp arpEntries) member) macs)) memberMACs.
End adapters.

(** ** The host *)

(** [net.Interface] and its addresses, as far as they are read: the hardware
    address, the up flag, and the first IPv4 address, its netmask and the
    global IPv6 addresses as text ([interfaceAddresses]). *)
Record net_interface := MkInterface {
  ni_HardwareAddr : bytes; ni_Up : bool; ni_IP : bytes; ni_Netmask : bytes; ni_IPv6 : list bytes;
}.
Record Host := MkHost {
  ho_linux : bool;
  ho_interface : bytes → option net_interface;      (* InterfaceByName *)
  ho_sysfs : bytes → bytes → option bytes;          (* a file below class/net/<interface> *)
  ho_ifconfig : bytes → option bytes;               (* ifconfig <interface> *)
  ho_netstat : bytes → option bytes;                (* netstat -ibn -I <interface> *)
  ho_fdb : bytes → option bytes;                    (* bridge fdb show br <bridge> *)
  ho_bridge_addr : bytes → option bytes;            (* ifconfig <bridge> addr *)
  ho_arp : option bytes;                            (* /proc/net/arp *)
  ho_procfs : option (result error (gmap bytes PortCounters));  (* uint64 counters, when that source is on *)
}.

(** ** snapshot_stats.go: [ReadInterfaceStats] *)
Definition readInt64 (file : option bytes) : option Z :=
  data ← file; atoi (trim_space data).

(** The statistics, and whether an error is reported next to them; [None] for
    an interface name that is refused. *)
Definition ReadInterfaceStats (host : Host) (iface : bytes) : InterfaceStats * bool :=
  let iface := trim_space iface in
  if bool_decide (iface = []) || contains (B "/") iface then (no_stats, true)
  else
    let read name := readInt64 (ho_sysfs host iface (B "statistics/" ++ name)) in
    let counters :=
      fold_left (λ c f, counter_set f.2 (default 0 (read f.1)) c) interfaceStatsFields no_counters in
    let all := forallb (λ f, bool_decide (is_Some (read f.1))) interfaceStatsFields in
    let speed := readInt64 (ho_sysfs host iface (B "speed")) in
    let carrier := readInt64 (ho_sysfs host iface (B "carrier")) in
    (MkStats
       (match carrier with
        | Some c => if (c =? 0) || (c =? 1) then Some (c =? 1) else None
        | None => None
        end)
       all counters
       (match speed with Some s => if 0 <? s then s else 0 | None => 0 end),
     negb all || negb (bool_decide (is_Some speed))).

(** ** ifsource/counters.go *)
Definition interfaceCounterFields : list (nat * portCounterKey) :=
  [(4%nat, CounterRXPackets); (5%nat, CounterRXErrors); (7%nat, CounterRXBytes);
   (8%nat, CounterTXPackets); (9%nat, CounterTXErrors); (10%nat, CounterTXBytes)].

Definition mergeInterfaceStats (primary fallback : InterfaceStats) : InterfaceStats :=
  let counters :=
    if is_CountersSet primary then is_Counters primary
    else
      fold_left (λ c f,
        if counter_get f.2 c =? 0 then counter_set f.2 (counter_get f.2 (is_Counters fallback)) c else c)
        interfaceCounterFields (is_Counters primary) in
  MkStats (is_Up primary) (is_CountersSet primary || is_CountersSet fallback) counters
    (if is_SpeedMbps primary =? 0 then is_SpeedMbps fallback else is_SpeedMbps primary).

(** The counters of one row, in the order of the fields; the first that is no
    number ends it. *)
Fixpoint netstat_row (row : list bytes) (columns : list (nat * portCounterKey)) (c : PortCounters)
    : option PortCounters :=
  match columns with
  | [] => Some c
  | (index, key) :: rest =>
      value ← atoi (nth index row []);
      netstat_row row rest (counter_set key value c)
  end.
Fixpoint netstat_lines (lines : list bytes) (ifaceName : bytes) : option InterfaceStats :=
  match lines with
  | [] => None
  | line :: rest =>
      let row := fields line in
      if (length row <? 11)%nat || negb (bool_decide (nth 0 row [] = ifaceName))
         || negb (has_prefix (B "<Link#") (nth 2 row []))
      then netstat_lines rest ifaceName
      else
        counters ← netstat_row row interfaceCounterFields no_counters;
        Some (MkStats None true counters 0)
  end.
Definition parseNetstatCounters (output ifaceName : bytes) : option InterfaceStats :=
  netstat_lines (split_byte x0a output) ifaceName.

(** ** ifsource/ifconfig.go *)
Record hostInterfaceDetails := MkDetails { hd_Up : option bool; hd_Speed : Z; hd_Media : bytes }.

Definition contains_any (l : list String.string) (line : bytes) : bool :=
  existsb (λ s, contains (B s) line) l.
Definition speedFromMediaLine (line : bytes) : Z :=
  if contains_any ["25g"]%stdpp line then 25000
  else if contains_any ["10g"]%stdpp line then 10000
  else if contains_any ["5g"]%stdpp line then 5000
  else if contains_any ["2.5g"; "2500base"]%stdpp line then 2500
  else if contains_any ["1000base"; "1g"]%stdpp line then 1000
  else if contains_any ["100base"]%stdpp line then 100
  else if contains_any ["10base"]%stdpp line then 10
  else 0.
Definition mediaFromMediaLine (line : bytes) : bytes :=
  if contains_any ["sfp28"; "25gbase"]%stdpp line then B "SFP28"
  else if contains_any ["sfp+"; "twinax"; "10gbase-sr"; "10gbase-lr"; "10gbase-lrm"; "10gbase-er";
                        "10gbase-cr"; "10gbase-cu"]%stdpp line then B "SFP+"
  else if 0 <? speedFromMediaLine line then B "GE"
  else [].

Section ifsource.
Context `{UnicodeTables}.

Definition ifconfig_line (details : hostInterfaceDetails) (line : bytes) : hostInterfaceDetails :=
  let lower := to_lower (trim_space line) in
  if has_prefix (B "status:") lower then
    MkDetails (Some (contains (B "active") lower || contains (B "up") lower)) (hd_Speed details)
      (hd_Media details)
  else if has_prefix (B "media:") lower then
    MkDetails (hd_Up details) (speedFromMediaLine lower) (mediaFromMediaLine lower)
  else details.
Definition parseIfconfigDetails (output : bytes) : hostInterfaceDetails :=
  fold_left ifconfig_line (split_byte x0a output) (MkDetails None 0 []).

Definition readHostInterfaceDetails (host : Host) (ifaceName : bytes) : hostInterfaceDetails :=
  match ho_ifconfig host ifaceName with
  | None => MkDetails None 0 []
  | Some output => parseIfconfigDetails output
  end.
Definition readHostInterfaceCounters (host : Host) (ifaceName : bytes) : option InterfaceStats :=
  output ← ho_netstat host ifaceName; parseNetstatCounters output ifaceName.

(** ** ifsource/source.go *)
Definition set_stats_zero_speed (s : InterfaceStats) : InterfaceStats := set_stats_speed 0 s.

Definition ObserveInterface (host : Host) (ifaceName : bytes) : PortObservation * list error :=
  let ifaceName := trim_space ifaceName in
  let named := MkObservation 0 ifaceName [] [] [] [] None 0 [] no_stats [] false false in
  if decide (ifaceName = []) then (named, ["interface name is required"%stdpp])
  else
    match ho_interface host ifaceName with
    | None => (named, ["no such network interface"%stdpp])
    | Some iface =>
        let mac := if decide (ni_HardwareAddr iface = []) then [] else mac_string (ni_HardwareAddr iface) in
        let '(stats, failed) :=
          if ho_linux host then ReadInterfaceStats host ifaceName else (no_stats, false) in
        let errs := if failed : bool then ["read interface stats"%stdpp] else [] in
        let up := if ho_linux host then is_Up stats else Some (ni_Up iface) in
        let speed := if ho_linux host then is_SpeedMbps stats else 0 in
        let details := readHostInterfaceDetails host ifaceName in
        let up := match hd_Up details with Some u => Some u | None => up end in
        let speed := if (speed <=? 0) && (0 <? hd_Speed details) then hd_Speed details else speed in
        let stats :=
          match readHostInterfaceCounters host ifaceName with
          | Some counters => mergeInterfaceStats stats counters
          | None => stats
          end in
        let linked := default false up in
        (MkObservation 0 ifaceName mac (ni_IP iface) (ni_Netmask iface) (ni_IPv6 iface) up
           (if linked then speed else 0) (hd_Media details)
           (if linked then stats else set_stats_zero_speed stats) [] false false, errs)
    end.

Definition set_ob_stats (stats : InterfaceStats) (ob : PortObservation) : PortObservation :=
  MkObservation (ob_Port ob) (ob_Interface ob) (ob_MAC ob) (ob_IP ob) (ob_Netmask ob) (ob_IPv6 ob)
    (ob_Up ob) (ob_SpeedMbps ob) (ob_Media ob) stats (ob_MACs ob) (ob_Disabled ob) (ob_Unmapped ob).

(** ** ifsource/apply.go *)
Definition observationHasCounters (stats : InterfaceStats) : bool :=
  existsb (λ f, negb (counter_get f.2 (is_Counters stats) =? 0)) interfaceCounterFields.

(** A text the override leaves blank is taken from the observation. *)
Definition blank_or (own observed : bytes) : bytes := if decide (trim_space own = []) then observed else own.
Definition observed_text (t : PortOverrideText) (ob : PortObservation) : PortOverrideText :=
  MkOverrideText (ot_Name t) (blank_or (ot_Interface t) (trim_space (ob_Interface ob)))
    (blank_or (ot_MAC t) (ob_MAC ob)) (blank_or (ot_IP t) (ob_IP ob))
    (blank_or (ot_Netmask t) (ob_Netmask ob)) (ot_Role t) (ot_NetworkGroup t)
    (blank_or (ot_Media t) (ob_Media ob)) (ot_PortConfID t) (ot_NetworkConfID t)
    (ot_NativeNetworkConfID t) (ot_NetworkName t).

Definition ApplyObservation (o : PortOverride) (ob : PortObservation) : PortOverride :=
  let up := match po_Up o with Some u => u | None => default false (ob_Up ob) end in
  MkOverride (po_Port o) (observed_text (po_Text o) ob)
    (if bool_decide (po_IPv6 o = []) then ob_IPv6 ob else po_IPv6 o)
    (po_VLAN o) (po_WANUptimePercent o) (po_WANLatencyMS o) (po_WANDowntimeSeconds o) (po_WANConnected o)
    (if (po_Speed o <=? 0) && up && (0 <? ob_SpeedMbps ob) then ob_SpeedMbps ob else po_Speed o)
    (Some up) (po_Disabled o)
    (fold_left (λ c f, counter_set f.2 (counter_get f.2 (is_Counters (ob_Stats ob))) c)
       interfaceCounterFields (po_Counters o))
    (is_CountersSet (ob_Stats ob) || observationHasCounters (ob_Stats ob))
    (po_RXBytesRate o) (po_TXBytesRate o) (po_TrafficRatesSet o).

(** ** ifsource/refresh.go *)
Definition set_override_interface (iface : bytes) (o : PortOverride) : PortOverride :=
  set_Text (text_set TextInterface iface (po_Text o)) o.
Definition refresh_override (reader : bytes → PortObservation * list error) (o : PortOverride)
    : PortOverride * list (Z * bytes * error) :=
  let iface := trim_space (ot_Interface (po_Text o)) in
  if decide (iface = []) then (o, [])
  else
    let '(observation, errs) := reader iface in
    (ApplyObservation (set_override_interface iface o) observation,
     map (λ e, (po_Port o, iface, e)) errs).
Definition RefreshOverrides (reader : option (bytes → PortObservation * list error))
    (configured : list PortOverride) : list PortOverride * list (Z * bytes * error) :=
  match reader with
  | None => (configured, [])
  | Some reader =>
      (map (λ o, (refresh_override reader o).1) configured,
       concat (map (λ o, (refresh_override reader o).2) configured))
  end.
End ifsource.

(** ** The port map (model.go, portmap/mapping.go) *)
Record PortMapping := MkMapping {
  pm_Port : Z; pm_Interface : bytes; pm_Disabled : bool; pm_Unmapped : bool;
}.

Section sources.
Context `{UnicodeTables} `{MapOrder} `{SliceSort}.

(** platform/proc.go, platform/interface.go; the second has its own copy of
    [mergeInterfaceStats]. *)
Definition proc_stats (line : PortCounters) : InterfaceStats :=
  MkStats None true
    (fold_left (λ c key, counter_set key (wrap64 (counter_get key line)) c) portCounterOverrides no_counters) 0.
Definition Interface (host : Host) (iface : bytes) : PortObservation * list error :=
  let '(observation, errs) := ObserveInterface host iface in
  match (if ho_linux host then ho_procfs host else None) with
  | None => (observation, errs)
  | Some (Err e) => (observation, errs ++ [e])
  | Some (Ok netdev) =>
      match netdev !! trim_space iface with
      | Some line => (set_ob_stats (mergeInterfaceStats (ob_Stats observation) (proc_stats line)) observation, errs)
      | None => (observation, errs)
      end
  end.
Definition port_step (host : Host) (out : gmap Z PortObservation) (mapping : PortMapping)
    : gmap Z PortObservation :=
  if negb (bool_decide (trim_space (pm_Interface mapping) = [])) then
    let ob := (Interface host (pm_Interface mapping)).1 in
    <[pm_Port mapping :=
      MkObservation (pm_Port mapping) (ob_Interface ob) (ob_MAC ob) (ob_IP ob) (ob_Netmask ob) (ob_IPv6 ob)
        (ob_Up ob) (ob_SpeedMbps ob) (ob_Media ob) (ob_Stats ob) (ob_MACs ob) (ob_Disabled ob)
        (ob_Unmapped ob)]> out
  else if pm_Disabled mapping then
    <[pm_Port mapping := MkObservation (pm_Port mapping) [] [] [] [] [] (Some false) 0 [] no_stats [] true
                           false]> out
  else if pm_Unmapped mapping then
    <[pm_Port mapping := MkObservation (pm_Port mapping) [] [] [] [] [] None 0 [] no_stats [] false true]> out
  else out.
Definition Ports (host : Host) (mappings : list PortMapping) : gmap Z PortObservation :=
  fold_left (port_step host) mappings ∅.

Definition disabledOverride (port : Z) : PortOverride :=
  MkOverride port no_text [] 0 None 0 0 None 0 (Some false) true no_counters false 0 0 false.
Definition OverrideFromObservation (port : Z) (observation : PortObservation) : PortOverride :=
  let port := if 0 <? ob_Port observation then ob_Port observation else port in
  ApplyObservation
    (set_override_interface (trim_space (ob_Interface observation)) (no_override port)) observation.

Definition mapping_override (observations : gmap Z PortObservation) (mapping : PortMapping)
    : option PortOverride :=
  if negb (bool_decide (trim_space (pm_Interface mapping) = [])) then
    Some (OverrideFromObservation (pm_Port mapping)
            (default no_observation (observations !! pm_Port mapping)))
  else if pm_Disabled mapping then Some (disabledOverride (pm_Port mapping))
  else None.
Definition OverridesFromObservation (mappings : list PortMapping)
    (observations : gmap Z PortObservation) : list PortOverride :=
  omap (mapping_override observations) mappings.

Definition observePortMappings (mappings : list PortMapping) : list PortMapping :=
  map (λ m, MkMapping (pm_Port m) (trim_space (pm_Interface m)) (pm_Disabled m) (pm_Unmapped m)) mappings.
Definition OverridesFromSource (source : option (list PortMapping → gmap Z PortObservation * list error))
    (mappings : list PortMapping) : list PortOverride * list error :=
  match mappings, source with
  | [], _ => ([], [])
  | _, None => ([], ["observation source is required"%stdpp])
  | _, Some read =>
      let '(observation, errs) := read (observePortMappings mappings) in
      (OverridesFromObservation mappings observation, errs)
  end.

(** ** platform/bridge.go *)
Definition member_observed (ob : PortObservation) : bool :=
  negb (bool_decide (trim_space (ob_Interface ob) = [])) || (0 <? ob_SpeedMbps ob)
  || bool_decide (is_Some (ob_Up ob)).
Definition bridgeMemberObservations (host : Host) (memberMACs : gmap bytes (list MacTableEntry))
    (roles : gmap bytes BridgeMemberRole) : gmap bytes PortObservation :=
  fold_left (λ out e,
    if unmapped_role (memberRole roles e.1) then out
    else
      let ob := (Interface host e.1).1 in
      if member_observed ob then <[e.1 := ob]> out else out) (range memberMACs) ∅.

(** The part the two systems share, behind the rows they read. *)
Definition bridge_members (host : Host) (cfg : BridgeConfig)
    (memberMACs : gmap bytes (list MacTableEntry)) (uplink : PortObservation) : BridgeObservation :=
  let bridge := trim_space (bc_Bridge cfg) in
  let iface := trim_space (bc_UplinkInterface cfg) in
  let roles := ClassifyMembersWithIgnores memberMACs bridge iface (bc_IgnoredMembers cfg) in
  MkBridgeObservation bridge iface uplink memberMACs (RemoteMACsByBridgeMember memberMACs roles iface)
    (bridgeMemberObservations host memberMACs roles) (normalize_names (bc_MemberPortMap cfg)) roles.
Definition no_members (cfg : BridgeConfig) (uplink : PortObservation) : BridgeObservation :=
  MkBridgeObservation (trim_space (bc_Bridge cfg)) (trim_space (bc_UplinkInterface cfg)) uplink ∅ ∅ ∅
    (normalize_names (bc_MemberPortMap cfg)) ∅.

Definition uplink_observation (host : Host) (cfg : BridgeConfig) : PortObservation :=
  let iface := trim_space (bc_UplinkInterface cfg) in
  if decide (iface = []) then no_observation else (Interface host iface).1.

Definition bridge_name_ok (bridge : bytes) : bool :=
  negb (bool_decide (bridge = [])) && negb (contains (B "/") bridge).
Definition linuxBridge (host : Host) (cfg : BridgeConfig) : BridgeObservation :=
  let bridge := trim_space (bc_Bridge cfg) in
  let uplink := uplink_observation host cfg in
  match (if bridge_name_ok bridge then ho_fdb host bridge else None) with
  | None => no_members cfg uplink
  | Some output =>
      let memberMACs := MACEntriesByDevice (ParseFDB output) in
      let memberMACs :=
        match ho_arp host with
        | Some arp => EnrichMACsFromARP memberMACs (ParseARPTable arp)
        | None => memberMACs
        end in
      bridge_members host cfg memberMACs uplink
  end.
Definition freebsdBridge (host : Host) (cfg : BridgeConfig) : BridgeObservation :=
  let bridge := trim_space (bc_Bridge cfg) in
  let uplink := uplink_observation host cfg in
  match (if bridge_name_ok bridge then ho_bridge_addr host bridge else None) with
  | None => no_members cfg uplink
  | Some output =>
      bridge_members host cfg (FreeBSDMACsByInterface (ParseBridgeAddr output)) uplink
  end.

(** The warnings of the same reads. *)
Definition uplink_warnings (host : Host) (cfg : BridgeConfig) : list error :=
  let iface := trim_space (bc_UplinkInterface cfg) in
  if decide (iface = []) then [] else (Interface host iface).2.
Definition member_warnings (host : Host) (cfg : BridgeConfig) (memberMACs : gmap bytes (list MacTableEntry))
    : list error :=
  let roles := ClassifyMembersWithIgnores memberMACs (trim_space (bc_Bridge cfg)) (trim_space (bc_UplinkInterface cfg))
                 (bc_IgnoredMembers cfg) in
  concat (map (λ e : bytes * list MacTableEntry,
    if unmapped_role (memberRole roles e.1) then [] else (Interface host e.1).2) (range memberMACs)).
Definition linuxBridge_warnings (host : Host) (cfg : BridgeConfig) : list error :=
  let bridge := trim_space (bc_Bridge cfg) in
  uplink_warnings host cfg
  ++ if decide (bridge = []) then []
     else if negb (bridge_name_ok bridge) then ["invalid bridge name"%stdpp]
     else
       match ho_fdb host bridge with
       | None => ["read bridge FDB"%stdpp]
       | Some output =>
           let memberMACs := MACEntriesByDevice (ParseFDB output) in
           if decide (memberMACs = ∅) then []
           else
             match ho_arp host with
             | None => ["read ARP table /proc/net/arp"%stdpp] ++ member_warnings host cfg memberMACs
             | Some arp => member_warnings host cfg (EnrichMACsFromARP memberMACs (ParseARPTable arp))
             end
       end.
Definition freebsdBridge_warnings (host : Host) (cfg : BridgeConfig) : list error :=
  let bridge := trim_space (bc_Bridge cfg) in
  (if decide (bridge = []) then []
   else if negb (bridge_name_ok bridge) then ["invalid bridge name"%stdpp]
   else
     match ho_bridge_addr host bridge with
     | None => ["read FreeBSD bridge addresses"%stdpp]
     | Some output => member_warnings host cfg (FreeBSDMACsByInterface (ParseBridgeAddr output))
     end)
  ++ uplink_warnings host cfg.
End sources.

(** ** Learned tables *)
Section tables.

(** What holds of a client table that only contains clients [ok] accepts. *)
Record table_ok (ok : bytes → MacTableEntry → Prop) (st : table_state) : Prop := {
  to_entries : ∀ name macs, st.1 !! name = Some macs →
    macs ≠ [] ∧ NoDup (me_MAC <$> macs) ∧ ∀ e, e ∈ macs → ok name e;
  to_seen : ∀ name macs e, st.1 !! name = Some macs → e ∈ macs →
    name ++ B "|" ++ me_MAC e ∈ st.2;
}.

Lemma table_empty ok : table_ok ok (∅, ∅).
Proof. split; cbn; intros *; by rewrite lookup_empty. Qed.

Lemma add_client_ok ok st name entry :
  table_ok ok st → ok name entry → table_ok ok (add_client st name entry).
Proof.
  intros [He Hs] Hok. unfold add_client. destruct st as [out seen]. cbn [fst snd] in *.
  case_decide as Hin; [done|].
  assert (∀ e, e ∈ default [] (out !! name) → name ++ B "|" ++ me_MAC e ∈ seen) as Hs'.
  { intros e Hel. destruct (out !! name) as [macs|] eqn:E; [by eapply Hs|by apply not_elem_of_nil in Hel]. }
  split; cbn [fst snd].
  - intros n macs. destruct (decide (n = name)) as [->|Hne].
    2: { rewrite lookup_insert_ne by done. apply He. }
    rewrite lookup_insert_eq. intros [= <-]. split_and!.
    + by destruct (default [] (out !! name)).
    + rewrite fmap_app. apply NoDup_app. split_and!.
      * destruct (out !! name) as [macs|] eqn:E; [by apply (He name)|constructor].
      * intros m (e & -> & Hel)%list_elem_of_fmap [Em|Hx]%elem_of_cons; [|by apply not_elem_of_nil in Hx].
        apply Hin. rewrite <- Em. by apply Hs'.
      * apply NoDup_singleton.
    + intros e [Hel|Hel]%elem_of_app.
      * destruct (out !! name) as [macs|] eqn:E; [by eapply He|by apply not_elem_of_nil in Hel].
      * apply list_elem_of_singleton in Hel as ->. done.
  - intros n macs e. destruct (decide (n = name)) as [->|Hne].
    + rewrite lookup_insert_eq. intros [= <-] [Hel|Hel]%elem_of_app.
      * apply elem_of_union. right. by apply Hs'.
      * apply list_elem_of_singleton in Hel as ->. set_solver.
    + rewrite lookup_insert_ne by done. intros Hn Hel. apply elem_of_union. right. by eapply Hs.
Qed.

Lemma table_fold {E} ok (step : table_state → E → table_state) (rows : list E) st :
  (∀ st row, row ∈ rows → table_ok ok st → table_ok ok (step st row)) →
  table_ok ok st → table_ok ok (fold_left step rows st).
Proof.
  revert st. induction rows as [|row rows IH]; intros st Hstep Hst; [done|]. cbn [fold_left].
  apply IH; [|apply Hstep; [left|done]]. intros st' row' Hin. apply Hstep. by right.
Qed.

(** A parsed address that is not a group address. *)
Definition unicast (text : bytes) : Prop := ∃ hw, parse_mac text = Some hw ∧ multicast hw = false.
End tables.

(** C36: the client tables read from a Linux bridge: no member has an empty
    list, no member lists an address twice, and every client was learned: its
    address parses and is no group address, and its row names the member and is
    neither local nor permanent nor the device's own. *)
Theorem MACEntriesByDevice_learned entries name macs :
  MACEntriesByDevice entries !! name = Some macs →
  macs ≠ [] ∧ NoDup (me_MAC <$> macs) ∧
  ∀ e, e ∈ macs → unicast (me_MAC e) ∧
    ∃ row, row ∈ entries ∧ fe_MAC row = me_MAC e ∧ trim_space (fe_Device row) = name ∧
      fe_Local row = false ∧ fe_Permanent row = false ∧ fe_Self row = false.
Proof.
  set (ok := λ (name : bytes) (e : MacTableEntry), unicast (me_MAC e) ∧
    ∃ row, row ∈ entries ∧ fe_MAC row = me_MAC e ∧ trim_space (fe_Device row) = name ∧
      fe_Local row = false ∧ fe_Permanent row = false ∧ fe_Self row = false).
  assert (table_ok ok (fold_left fdb_step entries (∅, ∅))) as [He _]; [|apply He].
  apply table_fold; [|apply table_empty]. intros st row Hrow Hst. unfold fdb_step.
  destruct (learnedFDBEntry row) eqn:El; [|done]. apply add_client_ok; [done|].
  unfold learnedFDBEntry in El. destruct (parse_mac (fe_MAC row)) as [[|b hw]|] eqn:Em; [done| |done].
  destruct (multicast (b :: hw)) eqn:Eu; [done|].
  destruct (fe_Local row || fe_Permanent row || fe_Self row) eqn:Ef; [done|].
  apply orb_false_iff in Ef as [Ef E3]. apply orb_false_iff in Ef as [E1 E2].
  split; [by exists (b :: hw)|]. by exists row.
Qed.

(** ** Refreshed overrides stay valid *)
Section refresh.
Context `{UnicodeTables}.

(** A host whose interfaces have real addresses. *)
Definition sane_host (host : Host) : Prop :=
  ∀ name iface, ho_interface host name = Some iface →
    (ni_HardwareAddr iface = [] ∨ mac_length (zlen (ni_HardwareAddr iface)) = true) ∧
    (ni_IP iface = [] ∨ ∃ ip, length ip = 4%nat ∧ ni_IP iface = ipv4_string ip) ∧
    (ni_Netmask iface = [] ∨ ∃ ip, length ip = 4%nat ∧ ni_Netmask iface = ipv4_string ip).

(** A printable ASCII byte that is no capital letter. *)
Definition plain (b : byte) : bool :=
  solid b && is_ascii_byte b && bool_decide (lower_byte b = b).

Lemma plain_text s : forallb plain s = true → to_lower s = s ∧ trim_space s = s.
Proof.
  intros Hp. rewrite forallb_forall in Hp.
  assert (∀ b, b ∈ s → solid b = true ∧ is_ascii_byte b = true ∧ lower_byte b = b) as Hb.
  { intros b Hin%list_elem_of_In%Hp. unfold plain in Hin. rewrite !andb_true_iff, bool_decide_eq_true in Hin.
    tauto. }
  split.
  - unfold to_lower. rewrite (proj2 (forallb_forall _ _)); [|intros b Hin%list_elem_of_In; by apply Hb].
    rewrite <- (map_id s) at 2. apply map_ext_in. intros b Hin%list_elem_of_In. by apply Hb.
  - destruct s as [|a s]; [done|]. destruct (exists_last (l := a :: s) ltac:(done)) as (t & b & E).
    rewrite E. rewrite <- E. apply (trim_space_solid a s b t E); apply Hb; [left|].
    rewrite E. apply elem_of_app. right. left.
Qed.

Lemma plain_join sep (l : list bytes) :
  forallb plain sep = true → Forall (λ s, forallb plain s = true) l → forallb plain (join sep l) = true.
Proof.
  intros Hs Hl. induction Hl as [|s l Hl Hls IH]; [done|]. destruct l as [|t l]; [done|].
  change (join sep (s :: t :: l)) with (s ++ sep ++ join sep (t :: l)).
  rewrite !forallb_app, Hl, Hs. exact IH.
Qed.

Lemma mac_string_plain hw : forallb plain (mac_string hw) = true.
Proof.
  apply plain_join; [done|]. apply Forall_forall. intros s (b & <- & _)%list_elem_of_In%in_map_iff.
  by destruct b.
Qed.

Lemma ipv4_string_plain ip : forallb plain (ipv4_string ip) = true.
Proof.
  apply plain_join; [done|]. apply Forall_forall. intros s (b & <- & _)%list_elem_of_In%in_map_iff.
  by destruct b.
Qed.

Lemma observed_mac_valid hw :
  hw = [] ∨ mac_length (zlen hw) = true →
  text_valid TextMAC (to_lower (trim_space (if decide (hw = []) then [] else mac_string hw))).
Proof.
  intros Hl. destruct (decide (hw = [])) as [->|Hne]; [by left|].
  destruct (plain_text (mac_string hw) (mac_string_plain hw)) as [E1 E2]. rewrite E2, E1. right.
  exists hw. apply parse_mac_string. by destruct Hl.
Qed.

Lemma ip_kind_octet b rest : ip_kind (itoa (b2z b) ++ x2e :: rest) = Some true.
Proof. by destruct b. Qed.

Lemma ipv4_kind ip : length ip = 4%nat → parse_ip4 (ipv4_string ip) = Some ip.
Proof.
  intros Hl. unfold parse_ip4, parse_ip.
  assert (ip_kind (ipv4_string ip) = Some true) as ->.
  { destruct ip as [|a [|b [|c [|d [|]]]]]; try done. apply ip_kind_octet. }
  rewrite parse_ipv4_string by done. cbn [mbind option_bind]. unfold ip_to4, zlen. by rewrite Hl.
Qed.

Lemma observed_ip_valid s :
  s = [] ∨ (∃ ip, length ip = 4%nat ∧ s = ipv4_string ip) →
  trim_space s = [] ∨ is_Some (parse_ip4 (trim_space s)).
Proof.
  intros [->|(ip & Hl & ->)]; [by left|right].
  destruct (plain_text (ipv4_string ip) (ipv4_string_plain ip)) as [_ E]. rewrite E.
  exists ip. by apply ipv4_kind.
Qed.

(** What [Interface] returns on such a host. *)
Record observed_ok (ob : PortObservation) : Prop := {
  seen_mac : text_valid TextMAC (to_lower (trim_space (ob_MAC ob)));
  seen_ip : text_valid TextIP (trim_space (ob_IP ob));
  seen_netmask : text_valid TextNetmask (trim_space (ob_Netmask ob));
}.

Lemma ObserveInterface_ok host name :
  sane_host host → observed_ok (ObserveInterface host name).1.
Proof.
  intros Hh. unfold ObserveInterface. cbv zeta. case_decide as E0; [split; by left|].
  destruct (ho_interface host (trim_space name)) as [iface|] eqn:E; [|split; by left].
  destruct (Hh _ _ E) as (Hm & Hi & Hn).
  destruct (if ho_linux host then _ else _) as [stats failed].
  split; [by apply observed_mac_valid|by apply observed_ip_valid|by apply observed_ip_valid].
Qed.

Lemma Interface_ok host name : sane_host host → observed_ok (Interface host name).1.
Proof.
  intros Hh. pose proof (ObserveInterface_ok host name Hh) as Hob. unfold Interface.
  destruct (ObserveInterface host name) as [ob errs]. cbn [fst] in Hob. destruct Hob as [Hm Hi Hn].
  destruct (if ho_linux host then _ else _) as [[netdev|e]|]; [|by split..].
  destruct (netdev !! _); by split.
Qed.

(** A blank text takes the observed value, any other its own. *)
Lemma blank_or_cases key own observed :
  text_valid key (text_norm key own) → text_valid key (text_norm key observed) →
  text_valid key (text_norm key (blank_or own observed)).
Proof. intros Ho Hb. unfold blank_or. by case_decide. Qed.

Lemma ApplyObservation_text o ob k :
  observed_ok ob → trim_space (ot_Interface (po_Text o)) ≠ [] →
  text_valid k (override_text o k) → text_valid k (override_text (ApplyObservation o ob) k).
Proof.
  intros [Hm Hi Hn] Hne Hk. unfold override_text in *.
  destruct k; try exact Hk; cbn; try (apply (blank_or_cases _ _ _ Hk); assumption).
  all: try (right; exact I).
  unfold blank_or. rewrite decide_False by done. exact Hk.
Qed.

(** An override that was accepted when the configuration was read is still
    acceptable after it was filled from the live interface it names, for a host
    whose addresses are addresses: the port, the texts and the numbers keep
    their bounds and the override is not empty. *)
Theorem refreshed_override_ok host count o :
  sane_host host → override_ok count o →
  override_ok count (refresh_override (Interface host) o).1.
Proof.
  intros Hh Ho. unfold refresh_override. case_decide as Hne; [done|].
  pose proof (Interface_ok host (trim_space (ot_Interface (po_Text o))) Hh) as Hob.
  destruct (Interface host _) as [ob errs]. cbn [fst] in *.
  set (iface := trim_space _) in *.
  assert (trim_space iface = iface) as Ei by apply trim_space_idemp.
  destruct Ho. split; try assumption.
  - cbn. case_match eqn:E; [|assumption]. lia.
  - intros k. apply ApplyObservation_text; [done|change (trim_space iface ≠ []); by rewrite Ei|].
    specialize (oo_text k). destruct k; try exact oo_text.
    change (text_valid TextInterface (trim_space iface)). by rewrite Ei.
  - unfold PortOverrideEmpty. cbn [po_Up ApplyObservation].
    by rewrite (bool_decide_eq_false_2 (Some _ = None)), !andb_false_r.
Qed.
End refresh.

(** ** Witnesses, and what [ifconfig] prints *)
#[local] Existing Instance ascii_tables.

Definition fdb_output : bytes :=
  B "52:54:00:aa:bb:cc dev veth0 master br0" ++ x0a :: B "52:54:00:aa:bb:dd dev veth0 vlan 3 self permanent"
  ++ x0a :: B "52:54:00:aa:bb:cc dev veth0 master br0" ++ [x0a].
Definition client : MacTableEntry :=
  MkMacEntry (B "52:54:00:aa:bb:cc") [] [] 4 1200 0 false (B "client").

(** One of the three rows is a client; a repeated row is one client. *)
Lemma MACEntriesByDevice_learned_witness :
  MACEntriesByDevice (ParseFDB fdb_output) !! B "veth0" = Some [client] ∧ unicast (me_MAC client).
Proof.
  assert (MACEntriesByDevice (ParseFDB fdb_output) !! B "veth0" = Some [client]) as E
    by (vm_compute; reflexivity).
  split; [exact E|].
  destruct (MACEntriesByDevice_learned _ _ _ E) as (_ & _ & H). apply (H client). left.
Defined.

(** A Linux host with one interface, whose port is configured by name only. *)
Definition one_interface : Host :=
  MkHost true
    (λ name, if decide (name = B "eth0") then
       Some (MkInterface [x52; x54; x00; x12; x34; x56] true (ipv4_string [xc0; xa8; x01; x02])
               (ipv4_string [xff; xff; xff; x00]) [])
     else None)
    (λ name file, if decide (name = B "eth0" ∧ file = B "speed") then Some (B "1000" ++ [x0a]) else None)
    (λ _, Some (B "media: Ethernet autoselect (1000baseT <full-duplex>)" ++ x0a :: B "status: active"))
    (λ _, None) (λ _, None) (λ _, None) None None.
Definition named_port : PortOverride := set_override_interface (B " eth0 ") (no_override 2).

Lemma refreshed_override_ok_witness :
  override_text (refresh_override (Interface one_interface) named_port).1 TextIP = B "192.168.1.2" ∧
  po_Speed (refresh_override (Interface one_interface) named_port).1 = 1000 ∧
  override_ok 4 (refresh_override (Interface one_interface) named_port).1.
Proof.
  split; [vm_compute; reflexivity|]. split; [vm_compute; reflexivity|].
  apply refreshed_override_ok.
  - intros name iface Hi. unfold one_interface in Hi. cbn [ho_interface] in Hi.
    destruct (decide (name = B "eth0")); [|discriminate Hi].
    injection Hi as <-. split; [right; reflexivity|].
    split; right; [exists [xc0; xa8; x01; x02]|exists [xff; xff; xff; x00]]; split; reflexivity.
  - apply validated. vm_compute. reflexivity.
Defined.

(** A link that is down is read as up: "inactive" contains "active". *)
Example inactive_is_up :
  hd_Up (parseIfconfigDetails (B "em0: flags=8843<UP>" ++ x0a :: B "	status: inactive")) = Some true.
Proof. vm_compute. reflexivity. Qed.

(** The test for "5g" comes before the one for "2.5g". *)
Example two_and_a_half_gigabit_is_five :
  speedFromMediaLine (to_lower (B "media: Ethernet autoselect (2.5GBase-T <full-duplex>)")) = 5000.
Proof. vm_compute. reflexivity. Qed.
