(* ===== verification/RuntimeConfig.v ===== *)
(** The resolved runtime configuration and the checks it passes before the
    daemon serves: [flags.go], [config_neighbors.go], [device_profile.go],
    [operation_validate.go], [operation_bridge.go],
    [operation_source_validate.go], [operation_identity_validate.go],
    [operation_port_validate.go], [device_ports.go], [management_lan_*.go], the
    validation of [wan_health.go], [serve_validate.go] and the checks of
    [serve_prepare.go], in [src/cmd/unifi-stubd], over the types of
    [src/internal/config/model.go].

    The flag and YAML libraries fill the record; interface lookups and the dial
    of the reachability check are parameters.  Maps that only deduplicate are
    [gmap]s. *)
From stdpp Require Import gmap.
From S2P Require Import Prelude GoStrings GoUrl GoNet GoIP GoMap GoFloat Ports Topology.
From S2P Require Import PayloadViews Overrides ObserveSources WanHealth.

(** ** config/model.go *)
Record ManagementLAN := MkManagementLAN {
  ml_Enabled : bool; ml_VLAN : Z; ml_NetworkName : bytes; ml_Mode : bytes; ml_Interface : bytes;
  ml_IP : bytes; ml_ControllerReachable : bytes; ml_AdoptionStrategy : bytes;
}.
Record UplinkNeighbor := MkUplinkNeighbor {
  un_MAC : bytes; un_Name : bytes; un_Hostname : bytes; un_IP : bytes; un_VLAN : Z; un_Static : bool;
  un_Type : bytes; un_Age : Z; un_Uptime : Z; un_RemotePort : Z;
}.
Record ConfigPortNeighbor := MkConfigPortNeighbor { cp_Port : Z; cp_Neighbor : UplinkNeighbor }.
Record WANHealthTarget := MkWANTarget { wt_Port : Z; wt_Host : bytes }.
Record WANHealthConfig := MkWANHealthConfig {
  wc_Source : bytes; wc_IntervalSeconds : Z; wc_TimeoutMS : Z; wc_Targets : list WANHealthTarget;
}.
Record BridgeMemberPortMap := MkMemberPort { bm_Member : bytes; bm_Port : Z }.
Record BridgeObserve := MkBridgeObserve {
  bv_Bridge : bytes; bv_UplinkInterface : bytes; bv_IgnoredMembers : list bytes;
  bv_MemberPortMap : list BridgeMemberPortMap;
}.

(** ** operation.go, management_lan.go, device.go, instance_guard.go and the
    sources of package [platform] *)
Definition operationModeStub : bytes := B "stub".
Definition operationModeObserve : bytes := B "observe".
Definition operationModeBridgeObserve : bytes := B "bridge-observe".
Definition operationModePortMap : bytes := B "port-map".
Definition operationModeHostDirect : bytes := B "host-direct".
Definition operationModeMacvlan : bytes := B "macvlan".
Definition managementLANModeMetadataOnly : bytes := B "metadata-only".
Definition managementLANModePreexistingInterface : bytes := B "preexisting-interface".
Definition managementLANModePlannedHostVLAN : bytes := B "planned-host-vlan".
Definition managementLANReachOff : bytes := B "off".
Definition managementLANReachWarn : bytes := B "warn".
Definition managementLANReachRequired : bytes := B "required".
Definition managementLANAdoptUntaggedFirst : bytes := B "untagged-first".
Definition managementLANAdoptTaggedOnly : bytes := B "tagged-only".
Definition automaticText : bytes := B "auto".
Definition instanceGuardFail : bytes := B "fail".
Definition instanceGuardWarn : bytes := B "warn".
Definition instanceGuardOff : bytes := B "off".
Definition PlatformSourceOff : bytes := B "off".
Definition LLDPSourceLLDPD : bytes := B "lldpd".
Definition ProcSourceProcFS : bytes := B "procfs".

(** ** flags.go: [runtimeFlags], without the fields of one-shot commands, SSH,
    intervals and file paths *)
Record runtimeFlags := MkFlags {
  fg_operationMode : bytes; fg_macText : bytes; fg_ipText : bytes; fg_model : bytes;
  fg_modelDisplay : bytes; fg_version : bytes; fg_portCount : Z; fg_linkSpeed : Z;
  fg_uplinkSpeed : bytes; fg_uplinkPort : Z; fg_uplinkNeighbor : option TopologyNeighbor;
  fg_portNeighbors : list PortNeighbor; fg_portOverrides : list PortOverride;
  fg_wanHealth : WANHealthConfig; fg_bridgeObserve : BridgeObserve; fg_portMappings : list PortMapping;
  fg_observeInterface : bytes; fg_observeBridge : bytes; fg_lldpSource : bytes;
  fg_trafficRatesEnabled : bool; fg_procSource : bytes; fg_instanceGuard : bytes;
  fg_instanceGuardPath : bytes; fg_controller : bytes; fg_dryRunPlan : bool; fg_validate : bool;
  fg_discoveryInterface : bytes; fg_managementLAN : ManagementLAN;
}.
Definition set_profile_defaults (model modelDisplay version : bytes) (portCount : Z) (f : runtimeFlags)
    : runtimeFlags :=
  MkFlags (fg_operationMode f) (fg_macText f) (fg_ipText f) model modelDisplay version portCount
    (fg_linkSpeed f) (fg_uplinkSpeed f) (fg_uplinkPort f) (fg_uplinkNeighbor f) (fg_portNeighbors f)
    (fg_portOverrides f) (fg_wanHealth f) (fg_bridgeObserve f) (fg_portMappings f) (fg_observeInterface f)
    (fg_observeBridge f) (fg_lldpSource f) (fg_trafficRatesEnabled f) (fg_procSource f) (fg_instanceGuard f)
    (fg_instanceGuardPath f) (fg_controller f) (fg_dryRunPlan f) (fg_validate f) (fg_discoveryInterface f)
    (fg_managementLAN f).
Definition set_sources (mode lldpSource procSource instanceGuard : bytes) (wanHealth : WANHealthConfig)
    (f : runtimeFlags) : runtimeFlags :=
  MkFlags mode (fg_macText f) (fg_ipText f) (fg_model f) (fg_modelDisplay f) (fg_version f) (fg_portCount f)
    (fg_linkSpeed f) (fg_uplinkSpeed f) (fg_uplinkPort f) (fg_uplinkNeighbor f) (fg_portNeighbors f)
    (fg_portOverrides f) wanHealth (fg_bridgeObserve f) (fg_portMappings f) (fg_observeInterface f)
    (fg_observeBridge f) lldpSource (fg_trafficRatesEnabled f) procSource instanceGuard
    (fg_instanceGuardPath f) (fg_controller f) (fg_dryRunPlan f) (fg_validate f) (fg_discoveryInterface f)
    (fg_managementLAN f).

(** [device.Profile]: the layout of the ports, what the renderer reads, and the
    rest of the identity. *)
Record deviceProfile := MkDeviceProfile {
  dp_Layout : Ports.Profile; dp_Render : PayloadViews.Profile; dp_DeviceType : bytes;
  dp_Model : bytes; dp_ModelDisplay : bytes; dp_Version : bytes;
}.

(** The first error of a list of checks, and all of them. *)
Fixpoint first_error {A} (check : A → result error unit) (l : list A) : result error unit :=
  match l with
  | [] => Ok tt
  | a :: rest => _ ← check a; first_error check rest
  end.
Definition error_of (r : result error unit) : list error := match r with Ok _ => [] | Err e => [e] end.

Lemma first_error_ok {A} (check : A → result error unit) l :
  first_error check l = Ok tt → Forall (λ a, check a = Ok tt) l.
Proof.
  induction l as [|a l IH]; cbn; [constructor|].
  destruct (check a) as [[]|e] eqn:E; cbn; [|done]. intros Hl. constructor; [done|by apply IH].
Qed.

(** ** config_neighbors.go *)
Definition defaultNeighborAge (age : Z) : Z := if age =? 0 then 4 else age.
Definition defaultNeighborUptime (uptime : Z) : Z := if uptime =? 0 then 1200 else uptime.
Definition defaultNeighborType (neighborType : bytes) : bytes :=
  let neighborType := trim_space neighborType in
  if decide (neighborType = []) then B "usw" else neighborType.
Definition defaultPortNeighborType (neighborType : bytes) : bytes :=
  let neighborType := trim_space neighborType in
  if decide (neighborType = []) then B "client" else neighborType.
Definition defaultNeighborHostname (hostname name : bytes) : bytes :=
  let hostname := trim_space hostname in
  if decide (hostname = []) then trim_space name else hostname.
Definition configUplinkNeighbor (neighbor : option UplinkNeighbor) : option TopologyNeighbor :=
  match neighbor with
  | None => None
  | Some n =>
      if decide (trim_space (un_MAC n) = []) then None
      else
        Some (MkNeighbor (trim_space (un_MAC n)) (defaultNeighborHostname (un_Hostname n) (un_Name n))
                (trim_space (un_IP n)) (defaultNeighborType (un_Type n)) (un_VLAN n)
                (defaultNeighborAge (un_Age n)) (defaultNeighborUptime (un_Uptime n)) (un_RemotePort n) []
                NeighborSourceConfigUplink (un_Static n))
  end.
Definition config_port_neighbor (c : ConfigPortNeighbor) : option PortNeighbor :=
  let n := cp_Neighbor c in
  if decide (trim_space (un_MAC n) = []) then None
  else
    Some (MkPortNeighbor (cp_Port c)
            (MkMacEntry (trim_space (un_MAC n)) (defaultNeighborHostname (un_Hostname n) (un_Name n))
               (trim_space (un_IP n)) (defaultNeighborAge (un_Age n)) (defaultNeighborUptime (un_Uptime n))
               (un_VLAN n) (un_Static n) (defaultPortNeighborType (un_Type n))) (un_RemotePort n)).
Definition configPortNeighbors (neighbors : list ConfigPortNeighbor) : list PortNeighbor :=
  omap config_port_neighbor neighbors.

(** ** device_profile.go *)
Definition setDefaultString (target value : bytes) : bytes := if decide (target = []) then value else target.
Definition setDefaultInt (target value : Z) : Z := if target =? 0 then value else target.
Definition applyProfile (profile : deviceProfile) (flags : runtimeFlags) : runtimeFlags :=
  set_profile_defaults (setDefaultString (fg_model flags) (dp_Model profile))
    (setDefaultString (fg_modelDisplay flags) (dp_ModelDisplay profile))
    (setDefaultString (fg_version flags) (dp_Version profile))
    (setDefaultInt (fg_portCount flags) (pf_Ports (dp_Layout profile))) flags.

Section config.
Context `{UnicodeTables}.

(** ** operation_validate.go *)
Definition normalizeMode (value : bytes) : bytes :=
  let value := to_lower (trim_space value) in
  if decide (value = []) then operationModeStub
  else if decide (value = operationModeObserve) then operationModeBridgeObserve
  else value.
Definition normalizedSource (value : bytes) : bytes :=
  let value := to_lower (trim_space value) in if decide (value = []) then PlatformSourceOff else value.
Definition normalizeInstanceGuard (value : bytes) : bytes :=
  let value := to_lower (trim_space value) in if decide (value = []) then instanceGuardFail else value.
Definition validateInstanceGuard (instanceGuard instanceGuardPath : bytes) : result error bytes :=
  let guard := normalizeInstanceGuard instanceGuard in
  if negb (bool_decide (guard ∈ [instanceGuardFail; instanceGuardWarn; instanceGuardOff]))
  then Err "invalid -instance-guard"%stdpp
  else if negb (bool_decide (guard = instanceGuardOff)) && bool_decide (trim_space instanceGuardPath = [])
  then Err "instance_guard_path must not be empty"%stdpp
  else Ok guard.
Definition normalizeWANHealthConfig (cfg : WANHealthConfig) : WANHealthConfig :=
  MkWANHealthConfig (NormalizeSource (wc_Source cfg)) (wc_IntervalSeconds cfg) (wc_TimeoutMS cfg)
    (wc_Targets cfg).
Definition known_mode (mode : bytes) : bool :=
  bool_decide (mode ∈ [operationModeStub; operationModeBridgeObserve; operationModePortMap;
                       operationModeHostDirect; operationModeMacvlan]).
(** The flags it leaves on success; an error ends the program. *)
Definition validateOperationFlags (flags : runtimeFlags) : result error runtimeFlags :=
  let mode := normalizeMode (fg_operationMode flags) in
  _ ← guard_err (negb (known_mode mode)) "invalid -operation-mode"%stdpp;
  let lldpSource := normalizedSource (fg_lldpSource flags) in
  _ ← guard_err (negb (bool_decide (lldpSource ∈ [PlatformSourceOff; LLDPSourceLLDPD])))
        "invalid -lldp-source"%stdpp;
  let procSource := normalizedSource (fg_procSource flags) in
  _ ← guard_err (negb (bool_decide (procSource ∈ [PlatformSourceOff; ProcSourceProcFS])))
        "invalid -proc-source"%stdpp;
  guard ← validateInstanceGuard (fg_instanceGuard flags) (fg_instanceGuardPath flags);
  _ ← guard_err (equal_fold (trim_space (fg_macText flags)) (B "host")
                 && negb (bool_decide (mode = operationModeHostDirect)))
        "mac: host is only allowed with -operation-mode host-direct"%stdpp;
  _ ← guard_err (bool_decide (mode = operationModeMacvlan) && negb (fg_dryRunPlan flags))
        "operation-mode macvlan is planned only"%stdpp;
  _ ← guard_err (contains (B "/") (trim_space (fg_discoveryInterface flags)))
        "invalid -discovery-interface"%stdpp;
  Ok (set_sources mode lldpSource procSource guard (normalizeWANHealthConfig (fg_wanHealth flags)) flags).

(** ** operation_bridge.go *)
Definition effectiveBridgeObserve (flags : runtimeFlags) : BridgeObserve :=
  let cfg := fg_bridgeObserve flags in
  MkBridgeObserve
    (if decide (trim_space (bv_Bridge cfg) = []) then trim_space (fg_observeBridge flags) else bv_Bridge cfg)
    (if decide (trim_space (bv_UplinkInterface cfg) = []) then trim_space (fg_observeInterface flags)
     else bv_UplinkInterface cfg)
    (bv_IgnoredMembers cfg) (bv_MemberPortMap cfg).
Definition bridgeMemberPortMap (mappings : list BridgeMemberPortMap) : gmap bytes Z :=
  fold_left (λ out m,
    let member := trim_space (bm_Member m) in
    if decide (member = []) then out else <[member := bm_Port m]> out) mappings ∅.

(** The members and ports seen so far, and the errors. *)
Definition member_step (st : gset bytes * gmap Z bytes * list error) (m : BridgeMemberPortMap)
    : gset bytes * gmap Z bytes * list error :=
  let '(seenMembers, seenPorts, errs) := st in
  let member := trim_space (bm_Member m) in
  if decide (member = []) then st
  else
    ({[member]} ∪ seenMembers, <[bm_Port m := member]> seenPorts,
     errs ++ (if decide (member ∈ seenMembers)
              then ["duplicate bridge_observe.member_port_map member"%stdpp] else [])
          ++ (if decide (default [] (seenPorts !! bm_Port m) = []) then []
              else ["duplicate bridge_observe.member_port_map port"%stdpp])).
Definition validateBridgeMemberPortMap (mappings : list BridgeMemberPortMap) : list error :=
  (fold_left member_step mappings (∅, ∅, [])).2.

Definition bridgeMemberKey (value : bytes) : bytes := to_lower (trim_space value).
Definition ignored_step (pinned : gset bytes) (bridgeKey uplinkKey : bytes)
    (st : gset bytes * list error) (member : bytes) : gset bytes * list error :=
  let key := bridgeMemberKey member in
  if decide (key = []) then st
  else
    let '(seen, errs) := st in
    ({[key]} ∪ seen,
     errs ++ (if decide (key ∈ seen) then ["duplicate bridge_observe.ignored_members member"%stdpp]
              else if decide (key = bridgeKey) then ["bridge_observe.ignored_members cannot ignore bridge"%stdpp]
              else if decide (key = uplinkKey)
              then ["bridge_observe.ignored_members cannot ignore uplink_interface"%stdpp]
              else if decide (key ∈ pinned)
              then ["bridge_observe.ignored_members member also appears in member_port_map"%stdpp]
              else [])).
Definition pinned_keys (mappings : list BridgeMemberPortMap) : gset bytes :=
  list_to_set (filter (λ k, k ≠ []) (map (λ m, bridgeMemberKey (bm_Member m)) mappings)).
Definition validateIgnoredMembers (cfg : BridgeObserve) : list error :=
  (fold_left (ignored_step (pinned_keys (bv_MemberPortMap cfg)) (bridgeMemberKey (bv_Bridge cfg))
                (bridgeMemberKey (bv_UplinkInterface cfg))) (bv_IgnoredMembers cfg) (∅, [])).2.
End config.

(** [platform.AddressReader]: an interface's hardware and IPv4 addresses, and
    whether an address is assigned to an interface, or to any; [None] is an
    error. *)
Record AddressReader := MkAddressReader {
  ar_InterfaceIdentity : bytes → option (bytes * list bytes);
  ar_IPv4Assigned : bytes → bytes → option bool;
}.

Section checks.
Context `{UnicodeTables} `{FloatConversion}.

(** ** operation_source_validate.go *)
Definition validateInterfaceName (value : bytes) (live : bool) (addresses : option AddressReader)
    : result error unit :=
  let value := trim_space value in
  if decide (value = []) then Ok tt
  else if contains (B "/") value then Err "invalid interface name"%stdpp
  else if live then
    match addresses with
    | None => Err "cannot be checked without platform"%stdpp
    | Some a => if ar_InterfaceIdentity a value then Ok tt else Err "not found"%stdpp
    end
  else Ok tt.

Definition port_in_range (port portCount : Z) : bool := (1 <=? port) && (port <=? portCount).
Definition member_map_errors (portCount : Z) (m : BridgeMemberPortMap) : list error :=
  let member := trim_space (bm_Member m) in
  (if bool_decide (member = []) || contains (B "/") member
   then ["invalid bridge_observe.member_port_map member"%stdpp] else [])
  ++ (if negb (port_in_range (bm_Port m) portCount)
      then ["invalid bridge_observe.member_port_map port"%stdpp] else []).
Definition validateObserveSources (flags : runtimeFlags) (live : bool) (addresses : option AddressReader)
    : list error :=
  let cfg := effectiveBridgeObserve flags in
  error_of (validateInterfaceName (bv_Bridge cfg) live addresses)
  ++ error_of (validateInterfaceName (bv_UplinkInterface cfg) live addresses)
  ++ concat (map (λ member, error_of (validateInterfaceName member live addresses)) (bv_IgnoredMembers cfg))
  ++ concat (map (member_map_errors (fg_portCount flags)) (bv_MemberPortMap cfg))
  ++ validateBridgeMemberPortMap (bv_MemberPortMap cfg)
  ++ validateIgnoredMembers cfg.

Definition mapping_sources (mapping : PortMapping) : Z :=
  (if decide (trim_space (pm_Interface mapping) = []) then 0 else 1)
  + (if pm_Disabled mapping then 1 else 0) + (if pm_Unmapped mapping then 1 else 0).
Definition port_map_step (portCount : Z) (live : bool) (addresses : option AddressReader)
    (st : gset Z * list error) (mapping : PortMapping) : gset Z * list error :=
  let '(seenPorts, errs) := st in
  if negb (port_in_range (pm_Port mapping) portCount)
  then (seenPorts, errs ++ ["invalid port_mappings port"%stdpp])
  else
    ({[pm_Port mapping]} ∪ seenPorts,
     errs
     ++ (if decide (pm_Port mapping ∈ seenPorts) then ["duplicate port_mappings entry"%stdpp] else [])
     ++ (if decide (trim_space (pm_Interface mapping) = []) then []
         else error_of (validateInterfaceName (pm_Interface mapping) live addresses))
     ++ (if mapping_sources mapping =? 1 then [] else ["invalid port_mappings entry"%stdpp])).
Definition validatePortMapSources (flags : runtimeFlags) (live : bool) (addresses : option AddressReader)
    : list error :=
  let '(seenPorts, errs) :=
    fold_left (port_map_step (fg_portCount flags) live addresses) (fg_portMappings flags) (∅, []) in
  errs ++ concat (map (λ port, if decide (port ∈ seenPorts) then []
                               else ["missing port_mappings entry"%stdpp]) (seqZ 1 (fg_portCount flags))).

(** [errors.Join] of the errors, if there are any. *)
Definition validateSourceMappings (flags : runtimeFlags) (live : bool) (addresses : option AddressReader)
    : result error unit :=
  let mode := normalizeMode (fg_operationMode flags) in
  let errs :=
    if decide (mode = operationModeBridgeObserve) then validateObserveSources flags live addresses
    else if decide (mode = operationModePortMap) then validatePortMapSources flags live addresses
    else [] in
  match errs with [] => Ok tt | _ => Err "validate source mappings"%stdpp end.

(** ** operation_identity_validate.go *)
Definition validateIdentityFlags (flags : runtimeFlags) : result error unit :=
  if parse_ip4 (trim_space (fg_ipText flags)) then
    let macText := trim_space (fg_macText flags) in
    if bool_decide (macText = []) || equal_fold macText automaticText || equal_fold macText (B "host") then Ok tt
    else if parse_mac macText then Ok tt else Err "invalid MAC address"%stdpp
  else Err "invalid IPv4 address"%stdpp.

(** ** management_lan_settings.go *)
Definition effectiveManagementLAN (flags : runtimeFlags) : ManagementLAN :=
  let cfg := fg_managementLAN flags in
  let lowered value fallback :=
    let value := to_lower (trim_space value) in if decide (value = []) then fallback else value in
  let mode := lowered (ml_Mode cfg) managementLANModeMetadataOnly in
  let iface := trim_space (ml_Interface cfg) in
  let ip := trim_space (ml_IP cfg) in
  let networkName := trim_space (ml_NetworkName cfg) in
  let enabled :=
    ml_Enabled cfg || (0 <? ml_VLAN cfg) || negb (bool_decide (mode = managementLANModeMetadataOnly))
    || negb (bool_decide (iface = [])) || negb (bool_decide (ip = []))
    || negb (bool_decide (networkName = [])) in
  MkManagementLAN enabled (ml_VLAN cfg) networkName mode iface ip
    (lowered (ml_ControllerReachable cfg) managementLANReachOff)
    (lowered (ml_AdoptionStrategy cfg) managementLANAdoptUntaggedFirst).
Definition differs_from (value fallback : bytes) : bool :=
  negb (bool_decide (trim_space value = [])) && negb (equal_fold (trim_space value) fallback).
Definition managementRequested (flags : runtimeFlags) : bool :=
  let cfg := fg_managementLAN flags in
  ml_Enabled cfg || negb (ml_VLAN cfg =? 0) || differs_from (ml_Mode cfg) managementLANModeMetadataOnly
  || negb (bool_decide (trim_space (ml_Interface cfg) = [])) || negb (bool_decide (trim_space (ml_IP cfg) = []))
  || negb (bool_decide (trim_space (ml_NetworkName cfg) = []))
  || differs_from (ml_ControllerReachable cfg) managementLANReachOff
  || differs_from (ml_AdoptionStrategy cfg) managementLANAdoptUntaggedFirst.
Definition effectiveManagementVLAN (flags : runtimeFlags) : Z := ml_VLAN (effectiveManagementLAN flags).

(** ** management_lan_identity.go *)
Definition managementLANSourceIP (flags : runtimeFlags) (ip : bytes) : option bytes :=
  let cfg := effectiveManagementLAN flags in
  if negb (ml_Enabled cfg) || negb (bool_decide (ml_Mode cfg = managementLANModePreexistingInterface)) then None
  else ip_to4 ip.
Definition hostHasIPv4 (ip : bytes) (addresses : option AddressReader) : bool :=
  match addresses with
  | None => false
  | Some a => bool_decide (ar_IPv4Assigned a [] ip = Some true)
  end.
Definition interfaceHasIPv4 (iface ip : bytes) (addresses : option AddressReader) : bool :=
  match addresses with
  | None => false
  | Some a => bool_decide (ar_IPv4Assigned a iface ip = Some true)
  end.
Definition informSourceIP (flags : runtimeFlags) (ip : bytes) (addresses : option AddressReader) : option bytes :=
  match managementLANSourceIP flags ip with
  | Some source => Some source
  | None =>
      match ip_to4 ip with
      | None => None
      | Some candidate => if hostHasIPv4 candidate addresses then Some candidate else None
      end
  end.
Definition effectiveDiscoveryInterface (flags : runtimeFlags) : bytes :=
  let iface := trim_space (fg_discoveryInterface flags) in
  if negb (bool_decide (iface = [])) then iface
  else
    let cfg := effectiveManagementLAN flags in
    if ml_Enabled cfg && bool_decide (ml_Mode cfg = managementLANModePreexistingInterface)
    then ml_Interface cfg else [].
Definition managementLANInterfaceIP (cfg : ManagementLAN) (addresses : option AddressReader)
    : result error bytes :=
  match addresses with
  | None => Err "management_lan.interface cannot be checked without platform"%stdpp
  | Some a =>
      match ar_InterfaceIdentity a (ml_Interface cfg) with
      | None => Err "management_lan.interface not found"%stdpp
      | Some (_, ip :: _) => Ok ip
      | Some (_, []) => Err "management_lan.interface has no IPv4 address"%stdpp
      end
  end.
Definition resolveManagementIP (flags : runtimeFlags) (fallback : bytes) (addresses : option AddressReader)
    : result error bytes :=
  let cfg := effectiveManagementLAN flags in
  if negb (ml_Enabled cfg) || negb (bool_decide (ml_Mode cfg = managementLANModePreexistingInterface))
  then Ok fallback
  else if negb (bool_decide (ml_IP cfg = [])) then
    match parse_ip4 (ml_IP cfg) with
    | None => Err "invalid management_lan.ip"%stdpp
    | Some ip => Ok ip
    end
  else managementLANInterfaceIP cfg addresses.
End checks.

Section validation.
Context `{UnicodeTables} `{FloatConversion} `{AddressParser} `{MapOrder}.

(** ** management_lan_reach.go *)
Definition url_port (u : URL) : bytes :=
  match last_index_byte x3a (u_host u) with
  | Some i => if valid_optional_port (drop i (u_host u)) then drop (S i) (u_host u) else []
  | None => []
  end.
(** [net.JoinHostPort]. *)
Definition join_host_port (host port : bytes) : bytes :=
  if contains (B ":") host then B "[" ++ host ++ B "]:" ++ port else host ++ B ":" ++ port.
Definition controllerHostPort (rawURL : bytes) : result error bytes :=
  match url_parse ipv6_literal (trim_space rawURL) with
  | None => Err "management_lan.controller_reachable requires controller_url with host"%stdpp
  | Some parsed =>
      if decide (url_hostname parsed = [])
      then Err "management_lan.controller_reachable requires controller_url with host"%stdpp
      else
        let port := url_port parsed in
        let port :=
          if negb (bool_decide (port = [])) then port
          else if decide (u_scheme parsed = B "https") then B "443" else B "80" in
        Ok (join_host_port (url_hostname parsed) port)
  end.
(** A TCP connection to an endpoint from an address succeeds. *)
Variable dial : bytes → bytes → bool.
Definition checkControllerReachability (flags : runtimeFlags) (cfg : ManagementLAN) (sourceIP : bytes)
    : result error unit :=
  if decide (ml_ControllerReachable cfg = managementLANReachOff) then Ok tt
  else
    hostPort ← controllerHostPort (fg_controller flags);
    if dial hostPort sourceIP then Ok tt else Err "management LAN cannot reach controller"%stdpp.

(** ** management_lan_validate.go *)
Definition validatePreexistingManagement (flags : runtimeFlags) (cfg : ManagementLAN)
    (addresses : option AddressReader) : result error unit :=
  sourceIP ← managementLANInterfaceIP cfg addresses;
  sourceIP ←
    (if decide (ml_IP cfg = []) then Ok sourceIP
     else
       match parse_ip4 (ml_IP cfg) with
       | None => Err "invalid management_lan.ip"%stdpp
       | Some configured =>
           if negb (bool_decide (configured = sourceIP))
              && negb (interfaceHasIPv4 (ml_Interface cfg) configured addresses)
           then Err "management_lan.ip is not assigned to interface"%stdpp
           else Ok configured
       end);
  match checkControllerReachability flags cfg sourceIP with
  | Err e => if decide (ml_ControllerReachable cfg = managementLANReachRequired) then Err e else Ok tt
  | Ok _ => Ok tt
  end.
Definition validateManagementLAN (flags : runtimeFlags) (profile : deviceProfile) (live : bool)
    (addresses : option AddressReader) : result error unit :=
  let cfg := effectiveManagementLAN flags in
  if (ml_VLAN cfg <? 0) || (4094 <? ml_VLAN cfg) then Err "invalid management_lan.vlan"%stdpp
  else if negb (ml_Enabled cfg) then Ok tt
  else if managementRequested flags
          && negb (bool_decide (to_lower (trim_space (pl_Kind (pr_Payload (dp_Render profile)))) = B "switch"))
  then Err "management_lan is supported for switch profiles only in this release"%stdpp
  else if negb (bool_decide (ml_Mode cfg ∈ [managementLANModeMetadataOnly;
                  managementLANModePreexistingInterface; managementLANModePlannedHostVLAN]))
  then Err "invalid management_lan.mode"%stdpp
  else if negb (bool_decide (ml_ControllerReachable cfg ∈
                  [managementLANReachOff; managementLANReachWarn; managementLANReachRequired]))
  then Err "invalid management_lan.controller_reachable"%stdpp
  else if negb (bool_decide (ml_AdoptionStrategy cfg ∈
                  [managementLANAdoptUntaggedFirst; managementLANAdoptTaggedOnly]))
  then Err "invalid management_lan.adoption_strategy"%stdpp
  else if bool_decide (ml_Mode cfg = managementLANModePlannedHostVLAN) && negb (fg_dryRunPlan flags)
  then Err "management_lan.mode planned-host-vlan is dry-run-plan only"%stdpp
  else if decide (ml_Mode cfg = managementLANModeMetadataOnly) then Ok tt
  else if decide (ml_Interface cfg = []) then Err "management_lan.interface is required"%stdpp
  else if contains (B "/") (ml_Interface cfg) then Err "invalid management_lan.interface"%stdpp
  else if bool_decide (ml_Mode cfg = managementLANModePreexistingInterface) && live
  then validatePreexistingManagement flags cfg addresses
  else Ok tt.

(** ** device_ports.go *)
Definition effectiveUplinkSpeedMode (flags : runtimeFlags) : bytes :=
  let value := trim_space (fg_uplinkSpeed flags) in
  if negb (equal_fold value automaticText) then value
  else if negb (bool_decide (normalizeMode (fg_operationMode flags) = operationModeBridgeObserve)) then value
  else if decide (trim_space (bv_UplinkInterface (effectiveBridgeObserve flags)) = []) then value
  else B "profile".
(** The egress link probe answers a speed or fails; [None] is [log.Fatalf]. *)
Definition resolveUplinkSpeed (options : PortBuildOptions) (value : bytes) (egress : option Z)
    : option PortBuildOptions :=
  let with_speed speed := MkBuildOptions (bo_Count options) (bo_LinkSpeed options) speed (bo_UplinkPort options) in
  let value := trim_space (to_lower value) in
  if bool_decide (value = []) || bool_decide (value = B "profile") then Some options
  else if decide (value = automaticText) then
    match egress with Some speed => Some (with_speed speed) | None => Some options end
  else
    match atoi value with
    | Some speed => if speed <=? 0 then None else Some (with_speed speed)
    | None => None
    end.
Definition resolvePortBuildOptions (portCount linkSpeed uplinkPort : Z) (uplinkSpeed : bytes)
    (egress : option Z) : option PortBuildOptions :=
  resolveUplinkSpeed (MkBuildOptions portCount linkSpeed 0 uplinkPort) uplinkSpeed egress.

Definition is_ge (media : bytes) : bool := equal_fold (trim_space media) (B "GE").
(** The access port the loop leaves: the last copper one, or the last. *)
Definition access_candidate (ports : list Port) : Z :=
  let access := filter (λ p, p_Uplink p = false) ports in
  let last_index l := default 0 (p_Index <$> last l) in
  let candidate := last_index (filter (λ p, is_ge (p_Media p) = true) access) in
  if candidate =? 0 then last_index access else candidate.
Definition effectiveUplinkPort (profile : deviceProfile) (flags : runtimeFlags) : Z :=
  let own := fg_uplinkPort flags in
  if 0 <? own then own
  else if negb (bool_decide (normalizeMode (fg_operationMode flags) = operationModeBridgeObserve)) then own
  else if decide (trim_space (bv_UplinkInterface (effectiveBridgeObserve flags)) = []) then own
  else if negb (equal_fold (trim_space (pl_Kind (pr_Payload (dp_Render profile)))) (B "switch")) then own
  else
    let ports := BuildPorts (dp_Layout profile) (MkBuildOptions 0 0 0 0) in
    let media := default [] ((λ p, trim_space (p_Media p)) <$> find p_Uplink ports) in
    if bool_decide (media = []) || equal_fold media (B "GE") then own
    else access_candidate ports.

(** ** operation_port_validate.go *)
Definition bad_ipv4 (value : bytes) : bool :=
  let ip := trim_space value in
  negb (bool_decide (ip = [])) && negb (bool_decide (is_Some (parse_ip4 ip))).
Definition bad_remote_port (port : Z) : bool := (port <? 0) || (65535 <? port).
Definition validate_uplink_neighbor (neighbor : option TopologyNeighbor) : result error unit :=
  match neighbor with
  | None => Ok tt
  | Some n =>
      if negb (bool_decide (is_Some (parse_mac (tn_MAC n)))) then Err "invalid uplink_neighbor mac"%stdpp
      else if tn_VLAN n <? 0 then Err "invalid uplink_neighbor vlan"%stdpp
      else if bad_ipv4 (tn_IP n) then Err "invalid uplink_neighbor ip"%stdpp
      else if bad_remote_port (tn_RemotePort n) then Err "invalid uplink_neighbor remote_port"%stdpp
      else Ok tt
  end.
Definition validate_port_neighbor (portCount : Z) (neighbor : PortNeighbor) : result error unit :=
  let entry := np_Entry neighbor in
  if negb (port_in_range (np_Port neighbor) portCount) then Err "invalid port neighbor"%stdpp
  else if negb (bool_decide (is_Some (parse_mac (me_MAC entry)))) then Err "invalid port neighbor mac"%stdpp
  else if me_VLAN entry <? 0 then Err "invalid port neighbor vlan"%stdpp
  else if bad_ipv4 (me_IP entry) then Err "invalid port neighbor ip"%stdpp
  else if bad_remote_port (np_RemotePort neighbor) then Err "invalid port neighbor remote_port"%stdpp
  else Ok tt.
(** The ports of the configuration alone. *)
Definition configured_ports (flags : runtimeFlags) (profile : deviceProfile) : list Port :=
  ApplyUplinkNeighbor
    (ApplyPortNeighbors
       (BuildPorts (dp_Layout profile)
          (MkBuildOptions (fg_portCount flags) (fg_linkSpeed flags) 0 (effectiveUplinkPort profile flags)))
       (fg_portNeighbors flags)) (fg_uplinkNeighbor flags).
Definition validatePortOverrides (flags : runtimeFlags) (profile : deviceProfile) : result error unit :=
  _ ← guard_err ((fg_uplinkPort flags <? 0) || (fg_portCount flags <? fg_uplinkPort flags))
        "invalid -uplink-port"%stdpp;
  _ ← validate_uplink_neighbor (fg_uplinkNeighbor flags);
  _ ← first_error (validate_port_neighbor (fg_portCount flags)) (fg_portNeighbors flags);
  _ ← wrap_err "validate port overrides"
        (first_error (λ o, ValidatePortOverride o (fg_portCount flags)) (fg_portOverrides flags));
  _ ← wrap_err "validate topology neighbors" (ResolveTopology (configured_ports flags profile));
  Ok tt.

(** ** wan_health.go: the checks *)
Definition validateWANHealthConfig (flags : runtimeFlags) : result error unit :=
  let cfg := fg_wanHealth flags in
  let source := NormalizeSource (wc_Source cfg) in
  _ ← guard_err (negb (bool_decide (source ∈ [SourceOff; SourceStatic; SourcePing])))
        "invalid wan_health.source"%stdpp;
  _ ← guard_err (wc_IntervalSeconds cfg <=? 0) "invalid wan_health.interval_seconds"%stdpp;
  _ ← guard_err (wc_TimeoutMS cfg <=? 0) "invalid wan_health.timeout_ms"%stdpp;
  _ ← guard_err (bool_decide (source = SourcePing) && (zlen (wc_Targets cfg) =? 0))
        "wan_health.targets is required when wan_health.source is ping"%stdpp;
  first_error (λ target,
    _ ← guard_err (negb (port_in_range (wt_Port target) (fg_portCount flags)))
          "invalid wan_health target port"%stdpp;
    guard_err (bool_decide (trim_space (wt_Host target) = [])) "invalid wan_health target host"%stdpp)
    (wc_Targets cfg).
Definition isGatewayProfile (profile : deviceProfile) : bool :=
  equal_fold (trim_space (pl_Kind (pr_Payload (dp_Render profile)))) (B "gateway").
Definition isWANRole (role : bytes) : bool := bool_decide (to_lower (trim_space role) ∈ [B "wan"; B "wan2"]).
Definition isWANPort (port : Port) : bool := isWANRole (pg_Role (p_Gateway port)).
Definition explicitWANPorts (overrides : list PortOverride) : gmap Z bool :=
  fold_left (λ out o,
    if (po_Port o <? 1) || bool_decide (trim_space (ot_Role (po_Text o)) = []) then out
    else <[po_Port o := isWANRole (ot_Role (po_Text o))]> out) overrides ∅.
Definition healthPreviewPorts (flags : runtimeFlags) (profile : deviceProfile) : list Port :=
  ApplyPortOverrides
    (BuildPorts (dp_Layout profile)
       (MkBuildOptions (fg_portCount flags) (fg_linkSpeed flags) 0 (effectiveUplinkPort profile flags)))
    (fg_portOverrides flags).
Definition validateWANHealthTargets (flags : runtimeFlags) (profile : deviceProfile) : result error unit :=
  if negb (bool_decide (NormalizeSource (wc_Source (fg_wanHealth flags)) = SourcePing)) then Ok tt
  else if negb (isGatewayProfile profile) then Err "wan_health.source ping requires a gateway profile"%stdpp
  else
    let wanPorts := explicitWANPorts (fg_portOverrides flags) in
    let ports := healthPreviewPorts flags profile in
    first_error (λ target,
      _ ← guard_err (negb (default false (wanPorts !! wt_Port target)))
            "wan_health target port must have an explicit port_overrides role wan or wan2"%stdpp;
      if negb (port_in_range (wt_Port target) (zlen ports)) then Ok tt
      else
        match ports !! Z.to_nat (wt_Port target - 1) with
        | Some port => guard_err (negb (isWANPort port)) "wan_health target port has resolved role"%stdpp
        | None => Ok tt
        end) (wc_Targets (fg_wanHealth flags)).
End validation.

(** ** serve_validate.go, serve_prepare.go

    The checks between the loaded configuration and the start, without the
    inform schedule, which Daemon models: [validate] is a run that only
    checks. *)
Section serve.
Context `{UnicodeTables} `{FloatConversion} `{AddressParser} `{MapOrder}.
Variable dial : bytes → bytes → bool.

Definition validateServeRuntime (flags : runtimeFlags) (profile : deviceProfile) : result error unit :=
  _ ← validateWANHealthConfig flags;
  _ ← validateManagementLAN dial flags profile false None;
  validateSourceMappings flags false None.
Definition validateLiveServeSources (flags : runtimeFlags) (profile : deviceProfile)
    (addresses : option AddressReader) : result error unit :=
  if fg_dryRunPlan flags then Ok tt
  else
    _ ← validateSourceMappings flags true addresses;
    validateManagementLAN dial flags profile true addresses.
Definition validateRuntime (flags : runtimeFlags) (profile : deviceProfile)
    (addresses : option AddressReader) : result error unit :=
  _ ← validateIdentityFlags flags;
  _ ← validatePortOverrides flags profile;
  _ ← validateWANHealthTargets flags profile;
  _ ← validateSourceMappings flags true addresses;
  validateManagementLAN dial flags profile true addresses.
(** The flags the daemon then runs with, and whether it is done. *)
Definition prepareServeRuntime (flags : runtimeFlags) (profile : deviceProfile)
    (addresses : option AddressReader) : result error (runtimeFlags * bool) :=
  flags ← validateOperationFlags flags;
  let flags := applyProfile profile flags in
  _ ← validateServeRuntime flags profile;
  if fg_validate flags then
    _ ← validateRuntime flags profile addresses; Ok (flags, true)
  else
    _ ← validateLiveServeSources flags profile addresses;
    _ ← validatePortOverrides flags profile;
    _ ← validateWANHealthTargets flags profile;
    Ok (flags, false).
End serve.

(** ** Accepted sources *)
Definition pins (mappings : list BridgeMemberPortMap) : list (bytes * Z) :=
  omap (λ m, let member := trim_space (bm_Member m) in
             if decide (member = []) then None else Some (member, bm_Port m)) mappings.

Lemma pins_snoc l m :
  pins (l ++ [m]) = pins l ++ (if decide (trim_space (bm_Member m) = []) then []
                               else [(trim_space (bm_Member m), bm_Port m)]).
Proof. unfold pins. rewrite omap_app. cbn. by case_decide. Qed.

Definition pins_seen (l : list BridgeMemberPortMap) (st : gset bytes * gmap Z bytes * list error) : Prop :=
  st.2 = [] →
  st.1.1 = list_to_set (pins l).*1 ∧ (∀ p, st.1.2 !! p = None ↔ p ∉ (pins l).*2) ∧
  (∀ p m, st.1.2 !! p = Some m → m ≠ []) ∧ NoDup (pins l).*1 ∧ NoDup (pins l).*2.

Lemma member_fold l : pins_seen l (fold_left member_step l (∅, ∅, [])).
Proof.
  induction l as [|m l IH] using rev_ind.
  { intros _. split_and!; [done|intros p; split; [intros _; apply not_elem_of_nil|intros _; apply lookup_empty]
      |intros p x Hx; cbn in Hx; by rewrite lookup_empty in Hx|constructor..]. }
  rewrite fold_left_app. cbn [fold_left]. destruct (fold_left member_step l (∅, ∅, [])) as [[sm sp] errs].
  unfold pins_seen in *. rewrite pins_snoc. unfold member_step. cbn [fst snd] in IH. cbv zeta.
  case_decide as Em; [cbn [fst snd]; by rewrite app_nil_r|]. cbn [fst snd].
  intros [He [Hm Hp]%app_eq_nil]%app_eq_nil. destruct (IH He) as (-> & Hs & Hv & Hn1 & Hn2). clear IH.
  rewrite !fmap_app. cbn [fmap list_fmap fst snd].
  destruct (decide (trim_space (bm_Member m) ∈ _)) as [|Hm']; [done|]. clear Hm.
  apply not_elem_of_list_to_set in Hm'.
  assert (bm_Port m ∉ (pins l).*2) as Hp'.
  { apply Hs. destruct (sp !! bm_Port m) as [x|] eqn:Ex; [|done]. cbn in Hp.
    by rewrite decide_False in Hp by by eapply Hv. }
  split_and!.
  - rewrite list_to_set_app_L. cbn. set_solver.
  - intros p. rewrite lookup_insert_None, Hs. rewrite elem_of_app, list_elem_of_singleton. naive_solver.
  - intros p x [[_ <-]|[_ Hx]]%lookup_insert_Some; [done|by eapply Hv].
  - apply NoDup_app. split_and!; [done| |apply NoDup_singleton]. intros x Hx ->%list_elem_of_singleton. done.
  - apply NoDup_app. split_and!; [done| |apply NoDup_singleton]. intros x Hx ->%list_elem_of_singleton. done.
Qed.

Lemma pins_lookup l member port :
  NoDup (pins l).*1 → bridgeMemberPortMap l !! member = Some port ↔ (member, port) ∈ pins l.
Proof.
  unfold bridgeMemberPortMap. revert member port. induction l as [|m l IH] using rev_ind; intros member port Hn.
  { cbn. rewrite lookup_empty. split; [done|by intros ?%not_elem_of_nil]. }
  rewrite fold_left_app. cbn [fold_left]. set (out := fold_left _ l ∅) in *.
  rewrite pins_snoc in *. case_decide as Em.
  { rewrite app_nil_r in *. by apply IH. }
  rewrite fmap_app in Hn. apply NoDup_app in Hn as (Hn & Hx & _). rewrite elem_of_app, list_elem_of_singleton.
  rewrite <- (IH member port Hn), lookup_insert_Some. cbn in Hx.
  assert (∀ p, out !! trim_space (bm_Member m) = Some p → False) as Hno.
  { intros p Hp%IH; [|done]. apply (Hx (trim_space (bm_Member m))); [|left].
    apply (list_elem_of_fmap_2 fst) in Hp. done. }
  split.
  - intros [[<- <-]|[Hne Hl]]; auto.
  - intros [Hl|[= -> ->]]; [right|by left]. split; [|done]. intros <-. by eapply Hno.
Qed.

Section sources.
Context `{UnicodeTables} `{FloatConversion}.

Definition ignored_keys (members : list bytes) : list bytes := filter (λ k, k ≠ []) (map bridgeMemberKey members).

Lemma ignored_fold pinned bridge uplink l :
  let st := fold_left (ignored_step pinned bridge uplink) l (∅, []) in
  st.2 = [] →
  st.1 = list_to_set (ignored_keys l) ∧ NoDup (ignored_keys l) ∧
  Forall (λ k, k ≠ bridge ∧ k ≠ uplink ∧ k ∉ pinned) (ignored_keys l).
Proof.
  cbv zeta. unfold ignored_keys. induction l as [|m l IH] using rev_ind; [intros _; split_and!; [done|constructor..]|].
  rewrite fold_left_app, map_app, filter_app. cbn [fold_left map].
  destruct (fold_left _ l (∅, [])) as [seen errs]. cbn [fst snd] in IH.
  unfold ignored_step. cbv zeta. rewrite filter_cons, filter_nil.
  destruct (decide (bridgeMemberKey m = [])) as [E|E].
  { rewrite decide_False by (by intros []). cbn [fst snd]. by rewrite app_nil_r. }
  rewrite (decide_True (P := bridgeMemberKey m ≠ [])) by done. cbn [fst snd].
  intros [He Hm]%app_eq_nil. destruct (IH He) as (-> & Hn & Hf).
  destruct (decide (bridgeMemberKey m ∈ _)) as [|Hs]; [done|].
  apply not_elem_of_list_to_set in Hs. do 3 (case_decide; [done|]). split_and!.
  - rewrite list_to_set_app_L. cbn. set_solver.
  - apply NoDup_app. split_and!; [done| |apply NoDup_singleton]. intros x Hx ->%list_elem_of_singleton. done.
  - apply Forall_app. split; [done|]. by constructor.
Qed.

Lemma port_map_fold count live addresses l :
  let st := fold_left (port_map_step count live addresses) l (∅, []) in
  st.2 = [] →
  st.1 = list_to_set (pm_Port <$> l) ∧ NoDup (pm_Port <$> l) ∧
  Forall (λ m, port_in_range (pm_Port m) count = true ∧ mapping_sources m = 1) l.
Proof.
  cbv zeta. induction l as [|m l IH] using rev_ind; [intros _; split_and!; [done|constructor..]|].
  rewrite fold_left_app, fmap_app. cbn [fold_left fmap list_fmap].
  destruct (fold_left _ l (∅, [])) as [seen errs]. cbn [fst snd] in IH. unfold port_map_step.
  destruct (port_in_range (pm_Port m) count) eqn:Er; cbn [negb fst snd]; [|by intros [_ ?]%app_eq_nil].
  intros [He [Hd [_ Hs]%app_eq_nil]%app_eq_nil]%app_eq_nil. destruct (IH He) as (-> & Hn & Hf).
  destruct (decide (pm_Port m ∈ _)) as [|Hm]; [done|]. apply not_elem_of_list_to_set in Hm.
  destruct (mapping_sources m =? 1) eqn:E1; [|done]. apply Z.eqb_eq in E1. split_and!.
  - rewrite list_to_set_app_L. cbn. set_solver.
  - apply NoDup_app. split_and!; [done| |apply NoDup_singleton]. intros x Hx ->%list_elem_of_singleton. done.
  - apply Forall_app. split; [done|]. by constructor.
Qed.

Lemma member_errors count l :
  concat (map (member_map_errors count) l) = [] →
  Forall (λ m, trim_space (bm_Member m) ≠ [] ∧ port_in_range (bm_Port m) count = true) l.
Proof.
  induction l as [|m l IH]; cbn; [constructor|]. intros [Hm Hl]%app_eq_nil. constructor; [|by apply IH].
  unfold member_map_errors in Hm. cbv zeta in Hm. apply app_eq_nil in Hm as [H1 H2].
  destruct (bool_decide (trim_space (bm_Member m) = [])) eqn:E; [done|]. bool_to_prop. split; [done|].
  by destruct (port_in_range _ _).
Qed.

(** Sources that pass the check are unambiguous.  In bridge mode the pinned
    members are the map the observation uses, one to one, on existing ports,
    and an ignored member, case and white space aside, is neither the bridge
    nor the uplink nor pinned, nor ignored twice; in port map mode every port
    of the device has exactly one mapping, with exactly one kind of source. *)
Theorem accepted_sources_unambiguous flags live addresses :
  validateSourceMappings flags live addresses = Ok tt →
  (normalizeMode (fg_operationMode flags) = operationModeBridgeObserve →
   let cfg := effectiveBridgeObserve flags in
   let pinned := bridgeMemberPortMap (bv_MemberPortMap cfg) in
   (∀ m, m ∈ bv_MemberPortMap cfg → pinned !! trim_space (bm_Member m) = Some (bm_Port m)) ∧
   (∀ m1 m2 p, pinned !! m1 = Some p → pinned !! m2 = Some p → m1 = m2 ∧ 1 ≤ p ≤ fg_portCount flags) ∧
   NoDup (ignored_keys (bv_IgnoredMembers cfg)) ∧
   ∀ k, k ∈ ignored_keys (bv_IgnoredMembers cfg) →
     k ≠ bridgeMemberKey (bv_Bridge cfg) ∧ k ≠ bridgeMemberKey (bv_UplinkInterface cfg) ∧
     ∀ m, m ∈ bv_MemberPortMap cfg → bridgeMemberKey (bm_Member m) ≠ k) ∧
  (normalizeMode (fg_operationMode flags) = operationModePortMap →
   pm_Port <$> fg_portMappings flags ≡ₚ seqZ 1 (fg_portCount flags) ∧
   Forall (λ m, mapping_sources m = 1) (fg_portMappings flags)).
Proof.
  unfold validateSourceMappings. intros Hv. split; intros Em; rewrite Em in Hv.
  - rewrite decide_True in Hv by done. set (cfg := effectiveBridgeObserve flags).
    destruct (validateObserveSources flags live addresses) eqn:E; [clear Hv|done].
    unfold validateObserveSources in E. fold cfg in E.
    apply app_eq_nil in E as [_ [_ [_ [Hm [Hp Hi]%app_eq_nil]%app_eq_nil]%app_eq_nil]%app_eq_nil].
    apply member_errors in Hm. pose proof (member_fold (bv_MemberPortMap cfg) Hp) as (_ & _ & _ & Hn1 & Hn2).
    destruct (ignored_fold _ _ _ _ Hi) as (_ & Hn & Hf).
    assert (∀ m, m ∈ bv_MemberPortMap cfg →
      (trim_space (bm_Member m), bm_Port m) ∈ pins (bv_MemberPortMap cfg)) as Hin.
    { intros m Hm'. apply list_elem_of_omap. exists m. split; [done|].
      rewrite decide_False; [done|]. by eapply Forall_forall in Hm as [? _]. }
    split_and!; [|intros m1 m2 p H1 H2|done|].
    + intros m Hm'. apply pins_lookup; [done|]. by apply Hin.
    + apply pins_lookup in H1, H2; [|done..]. split.
      * apply list_elem_of_lookup_1 in H1 as [i Hi1], H2 as [j Hj].
        assert (i = j) as ->.
        { eapply NoDup_lookup; [exact Hn2| |]; rewrite list_lookup_fmap; [by rewrite Hi1|by rewrite Hj]. }
        congruence.
      * apply list_elem_of_omap in H1 as (m & Hm' & Em'). cbv zeta in Em'. case_decide; [done|].
        injection Em' as <- <-. eapply Forall_forall in Hm as [_ Hr]; [|done].
        unfold port_in_range in Hr. lia.
    + intros k Hk. eapply Forall_forall in Hf as (H1 & H2 & H3); [|exact Hk]. split_and!; [done..|].
      intros m Hm' <-. apply H3. unfold pinned_keys. apply elem_of_list_to_set, list_elem_of_filter. split.
      * unfold ignored_keys in Hk. by apply list_elem_of_filter in Hk as [? _].
      * by apply (list_elem_of_fmap_2 (λ m, bridgeMemberKey (bm_Member m))).
  - rewrite decide_False in Hv by done. rewrite decide_True in Hv by done.
    destruct (validatePortMapSources flags live addresses) eqn:E; [clear Hv|done].
    unfold validatePortMapSources in E.
    pose proof (port_map_fold (fg_portCount flags) live addresses (fg_portMappings flags)) as Hf.
    destruct (fold_left _ _ _) as [seen errs]. apply app_eq_nil in E as [-> E].
    destruct (Hf eq_refl) as (Hs & Hn & Hall). cbn [fst] in Hs. subst seen. split.
    + apply NoDup_Permutation; [done|apply NoDup_seqZ|]. intros p. rewrite elem_of_seqZ. split.
      * intros (m & -> & Hm)%list_elem_of_fmap. eapply Forall_forall in Hall as [Hr _]; [|done].
        unfold port_in_range in Hr. lia.
      * intros Hp. assert (p ∈ seqZ 1 (fg_portCount flags)) as Hin by by apply elem_of_seqZ.
        destruct (decide (p ∈ pm_Port <$> fg_portMappings flags)) as [|Hno]; [done|exfalso].
        assert (concat (map _ (seqZ 1 (fg_portCount flags))) = []) as E' by exact E.
        apply list_elem_of_In, in_split in Hin as (l1 & l2 & El). rewrite El, map_app, concat_app in E'.
        apply app_eq_nil in E' as [_ E']. cbn in E'. rewrite decide_False in E'; [done|].
        by rewrite elem_of_list_to_set.
    + eapply Forall_impl; [exact Hall|]. by intros m [_ ?].
Qed.
End sources.

(** ** Management LAN *)
Section management.
Context `{UnicodeTables} `{FloatConversion} `{AddressParser} `{MapOrder}.
Variable dial : bytes → bytes → bool.

(** A started daemon passed all of these. *)
Lemma prepared flags profile addresses flags' :
  prepareServeRuntime dial flags profile addresses = Ok (flags', false) →
  ∃ checked, validateOperationFlags flags = Ok checked ∧ flags' = applyProfile profile checked ∧
    validateServeRuntime dial flags' profile = Ok tt ∧
    validateLiveServeSources dial flags' profile addresses = Ok tt ∧
    validatePortOverrides flags' profile = Ok tt ∧ validateWANHealthTargets flags' profile = Ok tt.
Proof.
  unfold prepareServeRuntime. intros Hp.
  destruct (validateOperationFlags flags) as [checked|] eqn:E1; cbn [mbind result_bind] in Hp; [|done].
  cbv zeta in Hp. set (f := applyProfile profile checked) in *.
  destruct (validateServeRuntime dial f profile) as [[]|] eqn:E2; cbn [mbind result_bind] in Hp; [|done].
  destruct (fg_validate f); [by destruct (validateRuntime _ _ _ _)|].
  destruct (validateLiveServeSources dial f profile addresses) as [[]|] eqn:E3; cbn [mbind result_bind] in Hp; [|done].
  destruct (validatePortOverrides f profile) as [[]|] eqn:E4; cbn [mbind result_bind] in Hp; [|done].
  destruct (validateWANHealthTargets f profile) as [[]|] eqn:E5; cbn [mbind result_bind] in Hp; [|done].
  injection Hp as <-. by exists checked.
Qed.

Lemma operation_flags flags checked :
  validateOperationFlags flags = Ok checked →
  known_mode (fg_operationMode checked) = true ∧
  (fg_operationMode checked = operationModeMacvlan → fg_dryRunPlan checked = true) ∧
  fg_lldpSource checked ∈ [PlatformSourceOff; LLDPSourceLLDPD].
Proof.
  unfold validateOperationFlags. cbv zeta. intros Hv. inv_ok. bool_to_prop. cbn. split_and!; [done| |done].
  intros Em. rewrite (bool_decide_true _ Em) in *. cbn [andb] in *. by bool_to_prop.
Qed.

Lemma preexisting_bound flags cfg a :
  effectiveManagementLAN flags = cfg → ml_Enabled cfg = true →
  ml_Mode cfg = managementLANModePreexistingInterface →
  validatePreexistingManagement dial flags cfg (Some a) = Ok tt →
  ∃ mac ip rest bound, ar_InterfaceIdentity a (ml_Interface cfg) = Some (mac, ip :: rest) ∧
    (∀ fallback, resolveManagementIP flags fallback (Some a) = Ok bound) ∧
    (bound = ip ∨ ar_IPv4Assigned a (ml_Interface cfg) bound = Some true).
Proof.
  intros <- He Em Hv. unfold validatePreexistingManagement, resolveManagementIP in *. cbv zeta.
  set (cfg := effectiveManagementLAN flags) in *. rewrite He, Em. rewrite bool_decide_true by done.
  cbn [negb orb]. unfold managementLANInterfaceIP in *.
  destruct (ar_InterfaceIdentity a (ml_Interface cfg)) as [[mac [|ip rest]]|]; try done.
  cbn [mbind result_bind] in Hv. exists mac, ip, rest.
  destruct (decide (ml_IP cfg = [])) as [Ei|Ei].
  - exists ip. rewrite bool_decide_true by done. cbn [negb]. auto.
  - rewrite bool_decide_false by done. cbn [negb].
    destruct (parse_ip4 (ml_IP cfg)) as [configured|]; [|done]. exists configured. split_and!; [done..|].
    destruct (decide (configured = ip)) as [->|Hne]; [by left|right].
    rewrite bool_decide_false in Hv by done. cbn [negb andb] in Hv. unfold interfaceHasIPv4 in Hv.
    by destruct (bool_decide (ar_IPv4Assigned _ _ _ = _)) eqn:Eb; [apply bool_decide_eq_true in Eb|].
Qed.

(** C31: a daemon that starts, and is no dry run, reports a management VLAN in
    0..4094, runs in a mode that plans no host networking, and takes part in a
    management LAN only by metadata or by binding to an interface that exists:
    the address it binds resolves without error and is assigned to that
    interface; otherwise it binds no source address for the LAN. *)
Theorem started_management_lan flags profile a flags' :
  prepareServeRuntime dial flags profile (Some a) = Ok (flags', false) → fg_dryRunPlan flags' = false →
  let cfg := effectiveManagementLAN flags' in
  0 ≤ effectiveManagementVLAN flags' ≤ 4094 ∧
  fg_operationMode flags' ∈ [operationModeStub; operationModeBridgeObserve; operationModePortMap;
                             operationModeHostDirect] ∧
  (ml_Enabled cfg = true →
     ml_Mode cfg = managementLANModeMetadataOnly ∨
     ml_Mode cfg = managementLANModePreexistingInterface ∧
     ∃ mac ip rest bound, ar_InterfaceIdentity a (ml_Interface cfg) = Some (mac, ip :: rest) ∧
       (∀ fallback, resolveManagementIP flags' fallback (Some a) = Ok bound) ∧
       (bound = ip ∨ ar_IPv4Assigned a (ml_Interface cfg) bound = Some true)) ∧
  (∀ ip source, managementLANSourceIP flags' ip = Some source →
     ml_Enabled cfg = true ∧ ml_Mode cfg = managementLANModePreexistingInterface ∧ ip_to4 ip = Some source).
Proof.
  intros Hp Hd cfg. apply prepared in Hp as (checked & Ho & -> & _ & Hl & _ & _).
  apply operation_flags in Ho as (Hk & Hm & _).
  set (f := applyProfile profile checked) in *.
  unfold validateLiveServeSources in Hl. rewrite Hd in Hl.
  destruct (validateSourceMappings f true (Some a)) as [[]|]; cbn [mbind result_bind] in Hl; [|done].
  unfold validateManagementLAN in Hl. cbv zeta in Hl. fold cfg in Hl.
  destruct ((ml_VLAN cfg <? 0) || _) eqn:Ev; [done|]. split_and!.
  - unfold effectiveManagementVLAN. fold cfg. bool_to_prop. lia.
  - unfold effectiveManagementVLAN. fold cfg. bool_to_prop. lia.
  - change (fg_operationMode f) with (fg_operationMode checked). unfold known_mode in Hk. bool_to_prop.
    change (fg_dryRunPlan f) with (fg_dryRunPlan checked) in Hd. rewrite Hd in Hm.
    set_solver.
  - intros He. rewrite He in Hl. cbn [negb] in Hl.
    destruct (managementRequested f && _); [done|].
    destruct (negb _) eqn:Emode in Hl; [done|]. destruct (negb _) in Hl; [done|]. destruct (negb _) in Hl; [done|].
    bool_to_prop. rewrite Hd in Hl.
    destruct (bool_decide (ml_Mode cfg = managementLANModePlannedHostVLAN)) eqn:Epl; [done|].
    bool_to_prop. cbn [andb] in Hl. case_decide as E1; [by left|right].
    assert (ml_Mode cfg = managementLANModePreexistingInterface) as E2 by set_solver.
    split; [done|]. case_decide; [done|]. destruct (contains _ _); [done|].
    rewrite bool_decide_true in Hl by done. cbn [andb] in Hl. by eapply preexisting_bound.
  - intros ip source. unfold managementLANSourceIP. cbv zeta. fold cfg.
    destruct (ml_Enabled cfg); [|done]. cbn [negb orb].
    destruct (decide (ml_Mode cfg = managementLANModePreexistingInterface)) as [E|E];
      [rewrite bool_decide_true by done|by rewrite bool_decide_false by done].
    intros Hi. by split_and!.
Qed.
End management.

(** ** Witnesses *)
#[local] Existing Instance ascii_tables.
#[local] Existing Instance amd64_conversion.
#[local] Existing Instance no_ipv6.
#[local] Existing Instance list_order.

(** A switch of three ports that observes a bridge and is managed over an
    interface of its own. *)
Definition sample_management : ManagementLAN :=
  MkManagementLAN false 20 [] (B "Preexisting-Interface") (B "br0.20") [] [] [].
Definition sample_flags : runtimeFlags :=
  MkFlags (B "observe") (B "auto") (B "192.0.2.10") [] [] [] 3 0 (B "auto") 0
    (Some (MkNeighbor (B "02:00:00:00:00:aa") [] [] (B "usw") 0 4 1200 0 [] NeighborSourceConfigUplink false))
    [MkPortNeighbor 3 (MkMacEntry (B "02:00:00:00:00:bb") [] [] 4 1200 0 false (B "usw")) 1] []
    (MkWANHealthConfig (B "off") 10 1000 []) (MkBridgeObserve (B "br0") (B "eth0") [B "tap9"]
      [MkMemberPort (B "tap1") 2]) [] [] [] (B "lldpd") true (B "off") (B "off") [] (B "http://192.0.2.1/inform")
    false false [] sample_management.
Definition sample_device : deviceProfile :=
  MkDeviceProfile (MkProfile 3 1000 1000 (B "GE") (B "GE") [] [] [] [])
    (MkRenderProfile [] [] (MkPayloadProfile (B "switch") [] [] [] false)) (B "usw") (B "USX") (B "Lab") (B "1.0").
Definition sample_reader : AddressReader :=
  MkAddressReader (λ _, Some ([], [[xc0; x00; x02; x09]])) (λ _ _, Some false).

Lemma accepted_sources_unambiguous_witness :
  validateSourceMappings sample_flags false None = Ok tt ∧
  bridgeMemberPortMap (bv_MemberPortMap (effectiveBridgeObserve sample_flags)) !! B "tap1" = Some 2.
Proof.
  split; [vm_compute; reflexivity|].
  assert (validateSourceMappings sample_flags false None = Ok tt) as Hv by (vm_compute; reflexivity).
  destruct (accepted_sources_unambiguous sample_flags false None Hv) as [Hb _].
  destruct (Hb eq_refl) as [Hm _]. apply (Hm (MkMemberPort (B "tap1") 2)). left.
Defined.

Definition sample_started : runtimeFlags := Eval vm_compute in
  match prepareServeRuntime (λ _ _, false) sample_flags sample_device (Some sample_reader) with
  | Ok (flags, _) => flags
  | Err _ => sample_flags
  end.

Lemma started_management_lan_witness :
  effectiveManagementVLAN sample_started = 20 ∧ 0 ≤ effectiveManagementVLAN sample_started ≤ 4094.
Proof.
  split; [vm_compute; reflexivity|].
  apply (started_management_lan (λ _ _, false) sample_flags sample_device sample_reader sample_started);
    vm_compute; reflexivity.
Defined.
