(* ===== verification/RuntimePorts.v ===== *)
(** What a turn of the daemon reports: the ports it merges from the profile, the
    host, LLDP, probes and the configuration, and the payload it renders from
    them ([operation_ports.go], [operation_lldp.go], [operation_bridge.go],
    [platform.go], [wan_health.go], [device_payload.go] and the identity helpers
    of [device_identity.go], in [src/cmd/unifi-stubd]; the dispatch of
    [src/internal/platform/bridge.go]).

    The host, the LLDP neighbors, the [ping] command and name resolution are
    parameters; log lines are left out.  The main theorem is that a
    configuration that passed [validatePortOverrides] always renders. *)
From stdpp Require Import gmap list_numbers.
From S2P Require Import Prelude GoStrings GoUrl GoNet GoIP GoMap GoFloat Identity AdoptionStore.
From S2P Require Import AdoptionResponse Daemon Ports Topology TopologyStable PayloadTypes PayloadViews.
From S2P Require Import Payload PayloadMarshal Overrides Observe ObserveSources Rates WanHealth RuntimeConfig.

(** ** platform/types.go *)
Record LLDPNeighbor := MkLLDP {
  ln_Interface : bytes; ln_ChassisID : bytes; ln_ChassisMAC : bytes; ln_SystemName : bytes;
  ln_PortID : bytes; ln_PortDescription : bytes; ln_Capabilities : list bytes; ln_ManagementIP : bytes;
}.

(** What a turn finds around the daemon. *)
Record surroundings := MkSurroundings {
  su_host : Host; su_lldp : bytes → list LLDPNeighbor; su_ping : bytes → Z → ping_run;
}.

(** ** device_payload.go: what the controller asked for *)
Record controllerPayloadState := MkPayloadState { ps_TimeOffsetSeconds : Z; ps_Blocks : BlockSelection }.

(** Name resolution: the text of a numeric address, and [net.LookupIP], whose
    addresses are marked if they are IPv4. *)
Class Resolver := {
  numeric_ip : bytes → option bytes;
  lookup_ip : bytes → option (list (bool * bytes));
}.

Section runtime.
Context `{UnicodeTables} `{FloatConversion} `{AddressParser} `{MapOrder} `{SliceSort} `{Resolver}.

(** ** platform/bridge.go, on the two systems that have one *)
Definition Bridge (host : Host) (cfg : BridgeConfig) : BridgeObservation * list error :=
  if ho_linux host then (linuxBridge host cfg, linuxBridge_warnings host cfg)
  else (freebsdBridge host cfg, freebsdBridge_warnings host cfg).

(** ** platform.go *)
Definition enrichOverrides (host : Host) (overrides : list PortOverride) : list PortOverride :=
  (RefreshOverrides (Some (Interface host)) overrides).1.

(** ** operation_ports.go: helpers *)
Definition uplinkPortIndex (ports : list Port) : Z := default 1 (p_Index <$> find p_Uplink ports).
Definition markObservedUplinkSource (ports : list Port) (iface : bytes) : list Port :=
  let iface := trim_space iface in
  if bool_decide (iface = []) || (zlen ports =? 0) then ports
  else
    let index := uplinkPortIndex ports in
    if (index <? 1) || (zlen ports <? index) then ports
    else
      alter (λ p, if decide (trim_space (p_Interface p) = []) then set_Interface iface p else p)
        (Z.to_nat (index - 1)) ports.

(** ** operation_lldp.go *)
Definition topologySourceLLDP : bytes := B "lldp".
Definition lower_key (value : bytes) : bytes := to_lower (trim_space value).
Definition bind_interface (iface : bytes) (port : Z) (out : gmap bytes Z) : gmap bytes Z :=
  let iface := lower_key iface in if decide (iface = []) then out else <[iface := port]> out.
Definition lldpInterfacePortMap (flags : runtimeFlags) (ports : list Port) : gmap bytes Z :=
  let bridgeObserve := effectiveBridgeObserve flags in
  let out := bind_interface (bv_UplinkInterface bridgeObserve) (uplinkPortIndex ports) ∅ in
  let out := fold_left (λ out m, bind_interface (bm_Member m) (bm_Port m) out)
               (bv_MemberPortMap bridgeObserve) out in
  let out := fold_left (λ out m, bind_interface (pm_Interface m) (pm_Port m) out) (fg_portMappings flags) out in
  fold_left (λ out o, bind_interface (ot_Interface (po_Text o)) (po_Port o) out) (fg_portOverrides flags) out.

Definition ipv4Text (value : bytes) : bytes :=
  match parse_ip4 (trim_space value) with Some ip => ipv4_string ip | None => [] end.
(** The neighbor of a valid address; without one the code returns a neighbor
    that its caller skips. *)
Definition lldpTopologyNeighbor (neighbor : LLDPNeighbor) : option TopologyNeighbor :=
  let mac := trim_space (ln_ChassisMAC neighbor) in
  let mac := if decide (mac = []) then trim_space (ln_ChassisID neighbor) else mac in
  parsed ← parse_mac mac;
  let remotePortID := trim_space (ln_PortID neighbor) in
  let remotePortID :=
    if decide (remotePortID = []) then trim_space (ln_PortDescription neighbor) else remotePortID in
  Some (MkNeighbor (mac_string parsed) (trim_space (ln_SystemName neighbor))
          (ipv4Text (ln_ManagementIP neighbor)) topologySourceLLDP 0 4 1200
          (ParseRemotePortID remotePortID) remotePortID NeighborSourceLLDP false).
Definition lldp_step (portByInterface : gmap bytes Z) (out : list Port) (neighbor : LLDPNeighbor)
    : list Port :=
  let portIndex := default 0 (portByInterface !! lower_key (ln_Interface neighbor)) in
  if (portIndex <? 1) || (zlen out <? portIndex) then out
  else
    match lldpTopologyNeighbor neighbor with
    | None => out
    | Some entry => alter (λ p, set_Neighbors (p_Neighbors p ++ [entry]) p) (Z.to_nat (portIndex - 1)) out
    end.
Definition applyLLDPNeighbors (ports : list Port) (flags : runtimeFlags) (lldp : bytes → list LLDPNeighbor)
    : list Port :=
  if bool_decide (trim_space (fg_lldpSource flags) = [])
     || equal_fold (trim_space (fg_lldpSource flags)) PlatformSourceOff then ports
  else fold_left (lldp_step (lldpInterfacePortMap flags ports)) (lldp (fg_lldpSource flags)) ports.

(** ** wan_health.go *)
Definition probeTargets (cfg : WANHealthConfig) (ports : list Port) (explicit : gmap Z bool) : list Target :=
  omap (λ target,
    if negb (port_in_range (wt_Port target) (zlen ports)) then None
    else
      port ← ports !! Z.to_nat (wt_Port target - 1);
      if negb (default false (explicit !! wt_Port target)) || negb (isWANPort port) then None
      else Some (MkTarget (wt_Port target) (trim_space (wt_Host target)))) (wc_Targets cfg).
Definition probeConfig (cfg : WANHealthConfig) (targets : list Target) : WanHealth.Config :=
  MkProbeConfig (NormalizeSource (wc_Source cfg)) (wrap64 (wc_IntervalSeconds cfg * second))
    (wrap64 (wc_TimeoutMS cfg * millisecond)) targets.
Definition deviceHealthResults (results : list Result) : list WANHealthResult :=
  map (λ r, MkHealth (re_Port r) (re_Connected r) (re_LatencyMS r) (re_DowntimeSeconds r)
              (re_UptimePercent r)) results.
Definition applyWANHealth (ports : list Port) (flags : runtimeFlags) (profile : deviceProfile)
    (run : bytes → Z → ping_run) : list Port :=
  if negb (bool_decide (NormalizeSource (wc_Source (fg_wanHealth flags)) = SourcePing))
     || negb (isGatewayProfile profile) then ports
  else
    let targets := probeTargets (fg_wanHealth flags) ports (explicitWANPorts (fg_portOverrides flags)) in
    match targets with
    | [] => ports
    | _ =>
        let results := Measure run (probeConfig (fg_wanHealth flags) targets) in
        ApplyPortOverrides ports (WANHealthOverrides (deviceHealthResults results))
    end.

(** ** operation_ports.go: [portsForRuntime]

    [None] is the panic of an observation whose uplink port is out of range. *)
Definition set_portOverrides (overrides : list PortOverride) (f : runtimeFlags) : runtimeFlags :=
  MkFlags (fg_operationMode f) (fg_macText f) (fg_ipText f) (fg_model f) (fg_modelDisplay f) (fg_version f)
    (fg_portCount f) (fg_linkSpeed f) (fg_uplinkSpeed f) (fg_uplinkPort f) (fg_uplinkNeighbor f)
    (fg_portNeighbors f) overrides (fg_wanHealth f) (fg_bridgeObserve f) (fg_portMappings f)
    (fg_observeInterface f) (fg_observeBridge f) (fg_lldpSource f) (fg_trafficRatesEnabled f)
    (fg_procSource f) (fg_instanceGuard f) (fg_instanceGuardPath f) (fg_controller f) (fg_dryRunPlan f)
    (fg_validate f) (fg_discoveryInterface f) (fg_managementLAN f).
Definition observe_bridge (flags : runtimeFlags) (host : Host) (ports : list Port) : option (list Port) :=
  let cfg := effectiveBridgeObserve flags in
  let '(snapshot, _) :=
    HostSnapshotFromSource (Some (Bridge host))
      (MkObserveConfig (trim_space (bv_UplinkInterface cfg)) (trim_space (bv_Bridge cfg)) (bv_IgnoredMembers cfg)
         (bridgeMemberPortMap (bv_MemberPortMap cfg))) (uplinkPortIndex ports) in
  observed ← Apply ports snapshot;
  Some (markObservedUplinkSource observed (bv_UplinkInterface cfg)).
(** What follows the observation in every mode. *)
Definition apply_configuration (flags : runtimeFlags) (profile : deviceProfile) (su : surroundings)
    (ports : list Port) : list Port :=
  let ports := ApplyPortOverrides ports (fg_portOverrides flags) in
  let ports := applyWANHealth ports flags profile (su_ping su) in
  let ports := applyLLDPNeighbors ports flags (su_lldp su) in
  let ports := ApplyPortNeighbors ports (fg_portNeighbors flags) in
  ApplyUplinkNeighbor ports (fg_uplinkNeighbor flags).
Definition portsForRuntime (flags : runtimeFlags) (profile : deviceProfile) (options : PortBuildOptions)
    (su : surroundings) : option (list Port) :=
  let flags := set_portOverrides (enrichOverrides (su_host su) (fg_portOverrides flags)) flags in
  let ports := BuildPorts (dp_Layout profile) options in
  let mode := normalizeMode (fg_operationMode flags) in
  if decide (mode = operationModePortMap) then
    let overrides :=
      (OverridesFromSource (Some (λ m, (ObserveSources.Ports (su_host su) m, []))) (fg_portMappings flags)).1 in
    Some (apply_configuration flags profile su (ApplyPortOverrides ports overrides))
  else if negb (bool_decide (mode = operationModeBridgeObserve))
          && negb (bool_decide (mode = operationModeHostDirect))
  then Some (apply_configuration flags profile su ports)
  else
    observed ← observe_bridge flags (su_host su) ports;
    Some (apply_configuration flags profile su observed).

(** ** device_identity.go *)
Definition resolveInformIP (informURL : bytes) : bytes :=
  match url_parse ipv6_literal (trim_space informURL) with
  | None => []
  | Some parsed =>
      let host := url_hostname parsed in
      if decide (host = []) then []
      else
        match numeric_ip host with
        | Some ip => ip
        | None =>
            match lookup_ip host with
            | None => []
            | Some ips =>
                match find fst ips, ips with
                | Some (_, v4), _ => v4
                | None, (_, ip) :: _ => ip
                | None, [] => []
                end
            end
        end
  end.
(** [hex.Encode], and its letters in upper case. *)
Definition serialFromMAC (mac : bytes) : bytes :=
  map (λ b, if (b2z x61 <=? b2z b) && (b2z b <=? b2z x66) then z2b (b2z b - 32) else b) (hex_encode mac).

(** ** device_payload.go *)
Definition refresh_uptime (uptimeSeconds : Z) (p : Port) : Port :=
  let newer uptime := if uptime <? uptimeSeconds then uptimeSeconds else uptime in
  set_Neighbors
    (map (λ n, MkNeighbor (tn_MAC n) (tn_Hostname n) (tn_IP n) (tn_DeviceType n) (tn_VLAN n) (tn_Age n)
                 (newer (tn_Uptime n)) (tn_RemotePort n) (tn_RemotePortID n) (tn_Source n) (tn_Static n))
       (p_Neighbors p))
    (set_MACs
       (map (λ m, MkMacEntry (me_MAC m) (me_Hostname m) (me_IP m) (me_Age m) (newer (me_Uptime m)) (me_VLAN m)
                    (me_Static m) (me_Type m)) (p_MACs p)) p).
Definition refreshPortUptimes (ports : list Port) (uptimeSeconds : Z) : list Port :=
  if uptimeSeconds <? 1 then ports else map (refresh_uptime uptimeSeconds) ports.

Definition overlay_store (store : Store) (id : Identity) : Identity :=
  MkIdentity (id_MAC id) (id_IP id) (id_Hostname id) (id_Model id) (id_ModelDisplay id) (id_DeviceType id)
    (if decide (Version store = []) then id_Version id else Version store) (id_Serial id) (id_InformURL id)
    (id_InformIP id) (CFGVersion store) (id_ManagementVLAN id) (id_UptimeSeconds id)
    (id_ControllerTimeOffsetSeconds id) (id_IPv4ActiveLeasesRequested id) (id_GatewayMACIPv6Requested id)
    (id_GWCapabilitiesRequested id) (id_UDAPIVersionExcluded id) (id_DPIStatsExcluded id)
    (id_FingerprintsExcluded id) (controllerInformState store) true (negb (bool_decide (AuthKey store = []))).
Definition buildPayload (clock : wall_time) (id : Identity) (profile : deviceProfile) (store : Store)
    (ports : list Port) : result error (switchPayload + gatewayPayload) :=
  wrap_err "build device payload" (Build clock (dp_Render profile) (overlay_store store id) ports).
Definition payload_identity (mac ip hostname informURL : bytes) (flags : runtimeFlags)
    (profile : deviceProfile) (uptimeSeconds : Z) (state : controllerPayloadState) : Identity :=
  let blocks := ps_Blocks state in
  MkIdentity (mac_string mac) (ipv4_string ip) hostname (fg_model flags) (fg_modelDisplay flags)
    (dp_DeviceType profile) (fg_version flags) (serialFromMAC mac) informURL (resolveInformIP informURL) []
    (effectiveManagementVLAN flags) uptimeSeconds (ps_TimeOffsetSeconds state)
    (Includes blocks (B "ipv4_active_leases")) (Includes blocks (B "port_table.mac_table_ipv6"))
    (Includes blocks (B "gw_caps")) (Excludes blocks (B "udapi_version")) (Excludes blocks (B "dpi_stats"))
    (Excludes blocks (B "fingerprints")) InformStateUnknown false false.
Definition payloadForIdentity (clock : wall_time) (mac ip hostname informURL : bytes) (store : Store)
    (flags : runtimeFlags) (profile : deviceProfile) (ports : list Port) (uptimeSeconds : Z)
    (state : controllerPayloadState) : result error (switchPayload + gatewayPayload) :=
  buildPayload clock (payload_identity mac ip hostname informURL flags profile uptimeSeconds state) profile
    store (refreshPortUptimes ports uptimeSeconds).

(** The part of a turn of [maintainControllerPresence] that renders: the ports,
    their rates if a tracker is kept, and the payload; [None] is a panic. *)
Definition render_turn (clock : wall_time) (now : Z) (su : surroundings) (mac ip hostname informURL : bytes)
    (store : Store) (flags : runtimeFlags) (profile : deviceProfile) (options : PortBuildOptions)
    (tracker : option TrafficRateTracker) (uptimeSeconds : Z) (state : controllerPayloadState)
    : option (result error (switchPayload + gatewayPayload) * option TrafficRateTracker) :=
  ports ← portsForRuntime flags profile options su;
  let '(ports, tracker) :=
    if fg_trafficRatesEnabled flags then applyTrafficRates ports tracker now else (ports, tracker) in
  Some (payloadForIdentity clock mac ip hostname informURL store flags profile ports uptimeSeconds state, tracker).
End runtime.

(** ** Observations keep the configured topology *)
Section topology.
Context `{UnicodeTables} `{FloatConversion} `{AddressParser} `{MapOrder} `{SliceSort}.

Definition same_topology (ports ports' : list Port) : Prop := outline <$> ports' = outline <$> ports.

Lemma same_config_refl p : same_config p p.
Proof. by split_and!. Qed.

Lemma outline_config p0 p q : outline p = outline q → same_config p0 p → same_config p0 q.
Proof. intros [= E1 E2 E3] (K1 & K2 & K3). unfold same_config. by rewrite <- E1, <- E2, <- E3. Qed.

Lemma topology_config ports0 ports ports' :
  same_topology ports ports' → Forall2 same_config ports0 ports → Forall2 same_config ports0 ports'.
Proof.
  intros E Hs. apply Forall2_same_length_lookup. split.
  - rewrite (Forall2_length _ _ _ Hs). apply (f_equal length) in E. by rewrite !length_fmap in E.
  - intros k p0 p' Hp0 Hp'. destruct (Forall2_lookup_l _ _ _ _ _ Hs Hp0) as (p & Hp & Hc).
    eapply outline_config; [|exact Hc].
    assert ((outline <$> ports') !! k = (outline <$> ports) !! k) as Ek by by rewrite E.
    rewrite !list_lookup_fmap, Hp, Hp' in Ek. cbn in Ek. congruence.
Qed.

Lemma same_topology_trans ports1 ports2 ports3 :
  same_topology ports1 ports2 → same_topology ports2 ports3 → same_topology ports1 ports3.
Proof. unfold same_topology. congruence. Qed.

Lemma alter_topology f i ports :
  (∀ p, outline (f p) = outline p) → same_topology ports (alter f i ports).
Proof.
  intros Hf. apply list_eq. intros k. rewrite !list_lookup_fmap. destruct (decide (k = i)) as [->|Hk].
  - rewrite list_lookup_alter_eq. destruct (ports !! i); [cbn; by rewrite Hf|done].
  - by rewrite list_lookup_alter_ne.
Qed.

Lemma static_topology ports ports' : static <$> ports' = static <$> ports → same_topology ports ports'.
Proof.
  intros E. apply (f_equal (fmap (λ s : Z * PortGateway * bool * bool * bool * list TopologyNeighbor,
    (s.1.1.1.1.1, s.1.1.1.2, s.2)))) in E. by rewrite <- !list_fmap_compose in E.
Qed.

Lemma overrides_topology ports overrides : same_topology ports (ApplyPortOverrides ports overrides).
Proof.
  unfold ApplyPortOverrides. revert ports. induction overrides as [|o os IH]; intros ports; [done|].
  cbn [fold_left]. eapply same_topology_trans; [|apply IH].
  unfold apply_port_override. destruct (_ || _); [done|]. apply alter_topology.
  intros p. by rewrite apply_override_merged.
Qed.

Lemma health_topology ports flags profile run : same_topology ports (applyWANHealth ports flags profile run).
Proof.
  unfold applyWANHealth. destruct (_ || _); [done|]. cbv zeta.
  destruct (probeTargets _ _ _); [done|]. apply overrides_topology.
Qed.

Lemma lldp_learned neighbor entry :
  lldpTopologyNeighbor neighbor = Some entry → tn_Source entry = NeighborSourceLLDP.
Proof.
  unfold lldpTopologyNeighbor. cbv zeta. intros Hn.
  destruct (parse_mac _); [|done]. by injection Hn as <-.
Qed.

Lemma keys_app learned l1 l2 : keys_of learned (l1 ++ l2) = keys_of learned l1 ∪ keys_of learned l2.
Proof. unfold keys_of. by rewrite omap_app, list_to_set_app_L. Qed.

Lemma keys_learned entry : tn_Source entry = NeighborSourceLLDP → keys_of false [entry] = ∅.
Proof.
  intros Hs. unfold keys_of. cbn. destruct (normalizeTopologyNeighbor entry) as [n|] eqn:En; [|done].
  assert (tn_Source n = tn_Source entry) as E.
  { unfold normalizeTopologyNeighbor in En. destruct (parse_mac _); [|done]. by injection En as <-. }
  unfold is_learned. cbn [mbind option_bind]. by rewrite E, Hs, (bool_decide_true (NeighborSourceLLDP = _)) by done.
Qed.

Lemma lldp_config ports0 ports flags lldp :
  Forall2 same_config ports0 ports → Forall2 same_config ports0 (applyLLDPNeighbors ports flags lldp).
Proof.
  intros Hs. unfold applyLLDPNeighbors. destruct (_ || _); [done|].
  generalize (lldpInterfacePortMap flags ports). intros portMap.
  revert ports Hs. induction (lldp (fg_lldpSource flags)) as [|n ns IH]; intros ports Hs; [done|].
  cbn [fold_left]. apply IH. unfold lldp_step. cbv zeta. destruct (_ || _); [done|].
  destruct (lldpTopologyNeighbor n) as [entry|] eqn:En; [|done]. apply lldp_learned in En.
  apply Forall2_same_length_lookup. split; [by rewrite length_alter; apply Forall2_length in Hs|].
  intros k p0 p Hp0 Hp. destruct (Forall2_lookup_l _ _ _ _ _ Hs Hp0) as (q & Hq & Hc).
  destruct (decide (k = Z.to_nat (default 0 (portMap !! lower_key (ln_Interface n)) - 1))) as [->|Hk].
  - rewrite list_lookup_alter_eq, Hq in Hp. injection Hp as <-. destruct Hc as (H1' & H2' & H3').
    split_and!; [done..|]. cbn [set_Neighbors p_Neighbors]. by rewrite keys_app, (keys_learned entry En), H3', union_empty_r_L.
  - rewrite list_lookup_alter_ne, Hq in Hp by done. by injection Hp as <-.
Qed.

Lemma mark_topology ports iface : same_topology ports (markObservedUplinkSource ports iface).
Proof.
  unfold markObservedUplinkSource. cbv zeta. destruct (_ || _); [done|]. destruct (_ || _); [done|].
  apply alter_topology. intros p. by case_decide.
Qed.

Lemma observe_topology flags host ports :
  p_Index <$> ports = seqZ 1 (zlen ports) →
  ∃ out, observe_bridge flags host ports = Some out ∧ same_topology ports out.
Proof.
  intros Hn. unfold observe_bridge. cbv zeta. destruct (HostSnapshotFromSource _ _ _) as [snapshot errs].
  destruct (Apply_static ports snapshot Hn) as (out & -> & Hs). eexists. split; [reflexivity|].
  eapply same_topology_trans; [by apply static_topology|apply mark_topology].
Qed.

(** Configured neighbors reach both lists alike. *)
Lemma port_neighbors_config neighbors ports0 ports :
  Forall2 same_config ports0 ports →
  Forall2 same_config (ApplyPortNeighbors ports0 neighbors) (ApplyPortNeighbors ports neighbors).
Proof.
  unfold ApplyPortNeighbors. revert ports0 ports.
  induction neighbors as [|n ns IH]; intros ports0 ports Hs; [done|]. cbn [fold_left]. apply IH.
  unfold applyPortNeighbor, zlen. rewrite (Forall2_length _ _ _ Hs). destruct (_ || _); [done|].
  apply Forall2_alter; [done|]. intros p0 p _ _ (H1' & H2' & H3'). destruct (negb _); [|by split_and!].
  split_and!; [done..|]. cbn [set_Neighbors p_Neighbors]. by rewrite !keys_app, H3'.
Qed.
Lemma uplink_neighbor_config neighbor ports0 ports :
  Forall2 same_config ports0 ports →
  Forall2 same_config (ApplyUplinkNeighbor ports0 neighbor) (ApplyUplinkNeighbor ports neighbor).
Proof.
  intros Hs. unfold ApplyUplinkNeighbor. destruct neighbor as [n|]; [|done]. case_decide; [done|].
  induction Hs as [|p0 p ports0 ports Hc Hs IH]; [done|]. cbn [append_to_uplink].
  pose proof Hc as (H1' & H2' & H3'). rewrite H2'. destruct (p_Uplink p0) eqn:Eu; (constructor; [|done]); [|done].
  split_and!; [done|cbn; congruence|]. cbn [set_Neighbors p_Neighbors]. by rewrite !keys_app, H3'.
Qed.
End topology.

(** ** A configuration that passed the check always renders *)
Section renders.
Context `{UnicodeTables} `{FloatConversion} `{AddressParser} `{MapOrderLaws} `{SliceSort} `{Resolver}.

Lemma port_neighbors_source neighbors ports :
  Forall (λ p, Forall config_source (p_Neighbors p)) ports →
  Forall (λ p, Forall config_source (p_Neighbors p)) (ApplyPortNeighbors ports neighbors).
Proof.
  unfold ApplyPortNeighbors. revert ports. induction neighbors as [|n ns IH]; intros ports Hp; [done|].
  cbn [fold_left]. apply IH. unfold applyPortNeighbor. destruct (_ || _); [done|].
  apply Forall_alter; [done|]. intros p _ Hs. destruct (negb _); [|done].
  apply Forall_app. split; [done|]. constructor; [by right|constructor].
Qed.
Lemma uplink_neighbor_source neighbor ports :
  Forall (λ p, Forall config_source (p_Neighbors p)) ports →
  Forall (λ p, Forall config_source (p_Neighbors p)) (ApplyUplinkNeighbor ports neighbor).
Proof.
  intros Hp. unfold ApplyUplinkNeighbor. destruct neighbor as [n|]; [|done]. case_decide; [done|].
  induction Hp as [|p ports Hs Hp IH]; [done|]. cbn [append_to_uplink].
  destruct (p_Uplink p); (constructor; [|done]); [|done].
  apply Forall_app. split; [done|]. constructor; [by left|constructor].
Qed.

Lemma configured_source flags profile :
  Forall (λ p, Forall config_source (p_Neighbors p)) (configured_ports flags profile).
Proof.
  apply uplink_neighbor_source, port_neighbors_source.
  eapply Forall_impl; [apply BuildPorts_neighbors|]. by intros p ->.
Qed.

Lemma refresh_config uptime p : same_config p (refresh_uptime uptime p).
Proof.
  split_and!; [done..|]. unfold refresh_uptime, keys_of. cbn [p_Neighbors set_Neighbors set_MACs].
  f_equal. induction (p_Neighbors p) as [|n l IH]; [done|]. cbn [map omap list_omap]. rewrite IH.
  clear IH. unfold normalizeTopologyNeighbor. cbn [tn_MAC tn_Source].
  destruct (parse_mac _); [|done]. done.
Qed.

Lemma refresh_configs ports0 ports uptime :
  Forall2 same_config ports0 ports → Forall2 same_config ports0 (refreshPortUptimes ports uptime).
Proof.
  intros Hs. unfold refreshPortUptimes. destruct (_ <? 1); [done|]. apply Forall2_fmap_r.
  eapply Forall2_impl; [exact Hs|]. intros p0 p (E1 & E2 & E3).
  destruct (refresh_config uptime p) as (K1 & K2 & K3). split_and!; congruence.
Qed.

Lemma rates_topology ports tracker now : same_topology ports (applyTrafficRates ports tracker now).1.
Proof.
  unfold applyTrafficRates. destruct tracker as [tracker|]; [|done].
  enough (same_topology ports (rate_ports tracker now ports).1) by by destruct (rate_ports _ _ _).
  revert tracker. unfold same_topology. induction ports as [|p ports IH]; intros tracker; [done|].
  rewrite rate_ports_cons. cbn [fst fmap list_fmap]. rewrite IH. f_equal.
  by destruct (rate_port_rates tracker now p) as (rx & tx & set & ->).
Qed.

Lemma configuration_config flags profile su ports0 ports :
  Forall2 same_config ports0 ports →
  Forall2 same_config
    (ApplyUplinkNeighbor (ApplyPortNeighbors ports0 (fg_portNeighbors flags)) (fg_uplinkNeighbor flags))
    (apply_configuration flags profile su ports).
Proof.
  intros Hs. unfold apply_configuration. cbv zeta.
  apply uplink_neighbor_config, port_neighbors_config, lldp_config.
  eapply topology_config; [apply health_topology|]. eapply topology_config; [apply overrides_topology|done].
Qed.

Lemma options_shape flags profile egress options :
  resolvePortBuildOptions (fg_portCount flags) (fg_linkSpeed flags) (effectiveUplinkPort profile flags)
    (effectiveUplinkSpeedMode flags) egress = Some options →
  bo_Count options = fg_portCount flags ∧ bo_LinkSpeed options = fg_linkSpeed flags ∧
  bo_UplinkPort options = effectiveUplinkPort profile flags.
Proof.
  unfold resolvePortBuildOptions, resolveUplinkSpeed. cbv zeta. intros Ho.
  destruct (_ || _); [by injection Ho as <-|]. case_decide.
  - destruct egress; by injection Ho as <-.
  - destruct (atoi _); [|done]. destruct (_ <=? 0); [done|]. by injection Ho as <-.
Qed.

(** The ports of a turn have the topology of the configured ones. *)
Lemma runtime_ports flags profile egress options su :
  group_sum (pf_PortGroups (dp_Layout profile)) ≤ int64_max →
  resolvePortBuildOptions (fg_portCount flags) (fg_linkSpeed flags) (effectiveUplinkPort profile flags)
    (effectiveUplinkSpeedMode flags) egress = Some options →
  ∃ ports, portsForRuntime flags profile options su = Some ports ∧
    Forall2 same_config (configured_ports flags profile) ports.
Proof.
  intros Hg Ho. apply options_shape in Ho as (E1 & E2 & E3).
  set (o0 := MkBuildOptions (fg_portCount flags) (fg_linkSpeed flags) 0 (effectiveUplinkPort profile flags)).
  assert (Forall2 same_config (BuildPorts (dp_Layout profile) o0) (BuildPorts (dp_Layout profile) options)) as Hb.
  { apply (topology_config _ (BuildPorts (dp_Layout profile) o0)); [by apply BuildPorts_outline|].
    apply Forall_Forall2_diag, Forall_true. intros p. apply same_config_refl. }
  unfold portsForRuntime. cbv zeta. set (flags' := set_portOverrides _ flags).
  change (configured_ports flags profile) with
    (ApplyUplinkNeighbor (ApplyPortNeighbors (BuildPorts (dp_Layout profile) o0) (fg_portNeighbors flags'))
       (fg_uplinkNeighbor flags')).
  case_decide.
  { eexists. split; [reflexivity|]. apply configuration_config.
    eapply topology_config; [apply overrides_topology|done]. }
  destruct (negb _ && _).
  { eexists. split; [reflexivity|]. by apply configuration_config. }
  destruct (observe_topology flags' (su_host su) (BuildPorts (dp_Layout profile) options)) as (out & -> & Hs).
  { destruct (BuildPorts_marked (dp_Layout profile) options Hg) as (u & (Hi & Hu & _) & _).
    rewrite Hi. f_equal. unfold zlen. rewrite <- (length_fmap p_Index), Hi, length_seqZ. lia. }
  eexists. split; [reflexivity|]. apply configuration_config. by eapply topology_config.
Qed.

Lemma config_numbered ports0 ports : Forall2 same_config ports0 ports → length ports = length ports0.
Proof. intros Hs. symmetry. by eapply Forall2_length. Qed.

Lemma configuration_renders flags profile egress options :
  validatePortOverrides flags profile = Ok tt →
  group_sum (pf_PortGroups (dp_Layout profile)) ≤ int64_max →
  resolvePortBuildOptions (fg_portCount flags) (fg_linkSpeed flags) (effectiveUplinkPort profile flags)
    (effectiveUplinkSpeedMode flags) egress = Some options →
  ∀ clock now su mac ip hostname informURL store tracker uptimeSeconds state,
    ∃ payload tracker',
      render_turn clock now su mac ip hostname informURL store flags profile options tracker uptimeSeconds state
      = Some (Ok payload, tracker') ∧ marshals (payload_json payload) = true.
Proof.
  intros Hv Hg Ho clock now su mac ip hostname informURL store tracker uptimeSeconds state.
  destruct (runtime_ports flags profile egress options su Hg Ho) as (ports & Hp & Hs).
  unfold render_turn. rewrite Hp. cbn [mbind option_bind].
  destruct (if fg_trafficRatesEnabled flags then _ else _) as [rated tracker'] eqn:Er.
  assert (Forall2 same_config (configured_ports flags profile) rated) as Hr.
  { destruct (fg_trafficRatesEnabled flags); [|by injection Er as <- <-].
    eapply topology_config; [|exact Hs]. pose proof (rates_topology ports tracker now) as Ht. by rewrite Er in Ht. }
  assert (∃ r0, ResolveTopology (configured_ports flags profile) = Ok r0) as [r0 Hr0].
  { unfold validatePortOverrides in Hv.
    do 4 (match type of Hv with (?m ≫= _) = _ => destruct m; cbn [mbind result_bind] in Hv; [|done] end).
    destruct (ResolveTopology _) as [r|]; [by exists r|done]. }
  destruct (learned_topology_resolves _ (refreshPortUptimes rated uptimeSeconds) r0
              (refresh_configs _ _ uptimeSeconds Hr) (configured_source flags profile) Hr0) as [r Hr'].
  unfold payloadForIdentity, buildPayload. set (id := overlay_store _ _).
  enough (∃ payload, Build clock (dp_Render profile) id (refreshPortUptimes rated uptimeSeconds) = Ok payload)
    as [payload Hb].
  { exists payload, tracker'. rewrite Hb. split; [done|]. by eapply built_documents_marshal. }
  unfold Build. cbv zeta.
  assert (∃ s, informState id = Ok s) as [s ->].
  { unfold informState. cbn. unfold controllerInformState. repeat case_decide; by eexists. }
  cbn [mbind result_bind]. rewrite Hr'. cbn [wrap_err mbind result_bind]. case_decide; by eexists.
Qed.

(** A configuration that passed the check always renders.  Whatever the
    host, its bridge and interfaces, LLDP and the WAN probes report, in every
    operation mode, with or without traffic rates, in every adoption state and
    at every uptime: no turn panics, none fails to build its payload, and every
    payload can be marshalled, so nothing that is observed can end the daemon's
    loop. *)
Theorem accepted_configuration_renders flags profile egress options :
  validatePortOverrides flags profile = Ok tt →
  group_sum (pf_PortGroups (dp_Layout profile)) ≤ int64_max →
  resolvePortBuildOptions (fg_portCount flags) (fg_linkSpeed flags) (effectiveUplinkPort profile flags)
    (effectiveUplinkSpeedMode flags) egress = Some options →
  ∀ clock now su mac ip hostname informURL store tracker uptimeSeconds state,
    ∃ payload tracker',
      render_turn clock now su mac ip hostname informURL store flags profile options tracker uptimeSeconds state
      = Some (Ok payload, tracker') ∧ marshals (payload_json payload) = true.
Proof. apply configuration_renders. Qed.
End renders.

(** ** What a probe can reach *)
Section probes.
Context `{UnicodeTables} `{FloatConversion}.

Lemma probeTargets_wan cfg ports explicit t :
  t ∈ probeTargets cfg ports explicit →
  ∃ port target, ports !! Z.to_nat (tg_Port t - 1) = Some port ∧ 1 ≤ tg_Port t ∧
    isWANPort port = true ∧ explicit !! tg_Port t = Some true ∧
    target ∈ wc_Targets cfg ∧ wt_Port target = tg_Port t ∧ tg_Host t = trim_space (wt_Host target).
Proof.
  unfold probeTargets. intros (target & Ht & E)%list_elem_of_omap.
  destruct (port_in_range (wt_Port target) (zlen ports)) eqn:Er; cbn [negb] in E; [|done].
  destruct (ports !! _) as [port|] eqn:Ep; cbn [mbind option_bind] in E; [|done].
  destruct (explicit !! wt_Port target) as [[]|] eqn:Ee; cbn [default negb orb] in E; try done.
  destruct (isWANPort port) eqn:Ew; [|done]. injection E as <-. exists port, target.
  unfold port_in_range in Er. cbn [tg_Port tg_Host]. split_and!; [done|lia|done..].
Qed.

(** An active probe can only change a port that is numbered by a target of
    the configuration, that an override explicitly marks as WAN and that has a
    WAN role; only for a gateway profile with the ping source; and every other
    port is left as it is. *)
Theorem probes_reach_wan_ports ports flags profile run i p :
  ports !! i = Some p →
  applyWANHealth ports flags profile run !! i = Some p ∨
  isGatewayProfile profile = true ∧ NormalizeSource (wc_Source (fg_wanHealth flags)) = SourcePing ∧
  isWANPort p = true ∧ explicitWANPorts (fg_portOverrides flags) !! (Z.of_nat i + 1) = Some true ∧
  ∃ target, target ∈ wc_Targets (fg_wanHealth flags) ∧ wt_Port target = Z.of_nat i + 1.
Proof.
  intros Hp. unfold applyWANHealth.
  destruct (negb (bool_decide (NormalizeSource (wc_Source (fg_wanHealth flags)) = SourcePing)) || _) eqn:Es;
    [by left|]. bool_to_prop. cbv zeta.
  destruct (probeTargets _ _ _) as [|t0 ts] eqn:Et; [by left|]. rewrite <- Et.
  set (results := Measure _ _). rewrite apply_overrides_lookup, Hp. cbn [fmap option_fmap option_map].
  destruct (overrides_at i (WANHealthOverrides (deviceHealthResults results))) as [|o os] eqn:Eo; [by left|right].
  assert (o ∈ overrides_at i (WANHealthOverrides (deviceHealthResults results))) as Ho by (rewrite Eo; left).
  unfold overrides_at, WANHealthOverrides, deviceHealthResults in Ho.
  apply list_elem_of_filter in Ho as [Hi Ho]. apply list_elem_of_fmap in Ho as (w & -> & Hw).
  apply list_elem_of_filter in Hw as [_ Hw]. apply list_elem_of_fmap in Hw as (r & -> & Hr).
  cbn [po_Port health_override wh_Port] in Hi. subst results. unfold Measure in Hr.
  destruct (_ || _) in Hr; [by apply not_elem_of_nil in Hr|].
  apply list_elem_of_fmap in Hr as (t & -> & Ht). cbn [pc_Targets probeConfig] in Ht.
  destruct (measure_target_ok run (positiveDuration (pc_Interval (probeConfig (fg_wanHealth flags)
    (probeTargets (fg_wanHealth flags) ports (explicitWANPorts (fg_portOverrides flags))))) defaultInterval)
    (positiveDuration (pc_Timeout (probeConfig (fg_wanHealth flags)
    (probeTargets (fg_wanHealth flags) ports (explicitWANPorts (fg_portOverrides flags))))) defaultTimeout) t)
    as (Ept & _). rewrite Ept in Hi.
  apply probeTargets_wan in Ht as (q & target & Hq & Hr & Hw & He & Hin & Etp & _). rewrite Hi in *.
  replace (Z.to_nat (Z.of_nat i + 1 - 1)) with i in Hq by lia. rewrite Hp in Hq. injection Hq as <-.
  split_and!; try done. exists target. by rewrite Etp.
Qed.
End probes.

(** ** Witnesses *)
#[local] Existing Instance ascii_tables.
#[local] Existing Instance amd64_conversion.
#[local] Existing Instance no_ipv6.
#[local] Existing Instance list_order.
#[local] Existing Instance list_order_laws.

Definition no_resolver : Resolver := {| numeric_ip := λ _, None; lookup_ip := λ _, None |}.
Definition stable_sort : SliceSort := {| slice_sort := λ A _ l, l |}.
#[local] Existing Instance no_resolver.
#[local] Existing Instance stable_sort.

(** A host without a bridge on which LLDP reports the configured neighbor of
    port 3 behind the uplink. *)
Definition sample_surroundings : surroundings :=
  MkSurroundings
    (MkHost true (λ _, None) (λ _ _, None) (λ _, None) (λ _, None) (λ _, None) (λ _, None) None None)
    (λ _, [MkLLDP (B "eth0") (B "02:00:00:00:00:bb") [] (B "sw") (B "Port 7") [] [] []])
    (λ _ _, MkPing [] 0 None None).

Lemma accepted_configuration_renders_witness :
  validatePortOverrides sample_flags sample_device = Ok tt ∧
  ∃ payload tracker',
    render_turn (1700000000, 0) 0 sample_surroundings [x02; x00; x00; x00; x00; x01] [xc0; x00; x02; x0a]
      (B "lab") (B "http://192.0.2.1/inform") (MkStore [] [] [] false [] []) sample_flags sample_device
      (MkBuildOptions 3 0 0 0) (Some NewTrafficRateTracker) 60 (MkPayloadState 0 (MkSelection [] []))
    = Some (Ok payload, tracker') ∧ marshals (payload_json payload) = true.
Proof.
  assert (validatePortOverrides sample_flags sample_device = Ok tt) as Hv by (vm_compute; reflexivity).
  split; [exact Hv|].
  apply (accepted_configuration_renders sample_flags sample_device None (MkBuildOptions 3 0 0 0) Hv).
  - vm_compute. discriminate.
  - vm_compute. reflexivity.
Defined.

Definition wan_flags : runtimeFlags :=
  MkFlags [] [] [] [] [] [] 2 0 [] 0 None []
    [MkOverride 1 (text_set TextRole (B "wan") no_text) [] 0 None 0 0 None 0 None false no_counters false 0 0 false]
    (MkWANHealthConfig (B "ping") 10 1000 [MkWANTarget 1 (B "192.0.2.1")]) (MkBridgeObserve [] [] [] [])
    [] [] [] [] false [] [] [] [] false false [] (MkManagementLAN false 0 [] [] [] [] [] []).
Definition wan_device : deviceProfile :=
  MkDeviceProfile (MkProfile 2 1000 1000 [] [] [] [] [] [])
    (MkRenderProfile [] [] (MkPayloadProfile (B "gateway") [] [] [] false)) (B "uxg") [] [] [].
Definition wan_ports : list Port := Eval vm_compute in healthPreviewPorts wan_flags wan_device.

Definition lan_port : Port := Eval vm_compute in
  default (generatedPort 2 0 [] false false [] [] []) (wan_ports !! 1%nat).

Lemma probes_reach_wan_ports_witness :
  wan_ports !! 1%nat = Some lan_port ∧
  applyWANHealth wan_ports wan_flags wan_device (λ _ _, MkPing (B "time=7 ms") 0 None None) !! 1%nat
    = Some lan_port.
Proof.
  assert (wan_ports !! 1%nat = Some lan_port) as Hp by reflexivity. split; [exact Hp|].
  destruct (probes_reach_wan_ports wan_ports wan_flags wan_device (λ _ _, MkPing (B "time=7 ms") 0 None None) 1
              lan_port Hp) as [E|(_ & _ & E & _)]; [exact E|].
  vm_compute in E. discriminate E.
Defined.
