(* ===== verification/InstanceGuard.v ===== *)
(** The guard against a second daemon: [src/cmd/unifi-stubd/instance_guard.go].

    The kernel keeps one exclusive advisory lock for each file and drops it
    with the process; a file is identified with its path, which no part of the
    program removes.  Which system calls fail is a parameter, and so is the
    JSON of the metadata. *)
From stdpp Require Import gmap relations.
From S2P Require Import Prelude GoStrings RuntimeConfig.

(** Who holds the lock of a file, and what the files hold. *)
Record kernel := MkKernel { k_locks : gmap bytes Z; k_files : gmap bytes bytes }.

(** The calls of one start that fail on their own; a write can leave a part. *)
Record call_failures := MkCallFailures {
  cf_mkdir : bool; cf_open : bool; cf_flock : bool; cf_truncate : bool; cf_seek : bool; cf_write : option bytes;
}.

(** A file that is open and locked. *)
Record instanceGuardHandle := MkHandle { gh_path : bytes }.

Definition set_file (path data : bytes) (k : kernel) : kernel :=
  MkKernel (k_locks k) (<[path := data]> (k_files k)).

Section guard.
Context `{UnicodeTables}.

Definition openInstanceGuard (path : bytes) (pid : Z) (fails : call_failures) (k : kernel)
    : result error instanceGuardHandle * kernel :=
  if cf_mkdir fails then (Err "create instance guard directory"%stdpp, k)
  else if cf_open fails then (Err "open instance guard"%stdpp, k)
  else
    let k := match k_files k !! path with Some _ => k | None => set_file path [] k end in
    if cf_flock fails then (Err "lock instance guard"%stdpp, k)
    else
      match k_locks k !! path with
      | Some _ => (Err "another unifi-stubd instance is already running"%stdpp, k)
      | None => (Ok (MkHandle path), MkKernel (<[path := pid]> (k_locks k)) (k_files k))
      end.

Definition writeInstanceGuardMetadata (handle : instanceGuardHandle) (metadata : bytes)
    (fails : call_failures) (k : kernel) : result error unit * kernel :=
  if cf_truncate fails then (Err "truncate instance guard metadata"%stdpp, k)
  else
    let k := set_file (gh_path handle) [] k in
    if cf_seek fails then (Err "seek instance guard metadata"%stdpp, k)
    else
      match cf_write fails with
      | Some part => (Err "write instance guard metadata"%stdpp, set_file (gh_path handle) part k)
      | None => (Ok tt, set_file (gh_path handle) (metadata ++ [x0a]) k)
      end.

(** [Close], whose calls do not fail on an open file; a nil handle is closed. *)
Definition Close (handle : option instanceGuardHandle) (k : kernel) : kernel :=
  match handle with
  | None => k
  | Some handle => MkKernel (delete (gh_path handle) (k_locks k)) (k_files k)
  end.

Definition acquireInstanceGuard (instanceGuard instanceGuardPath metadata : bytes) (pid : Z)
    (fails : call_failures) (k : kernel) : result error (option instanceGuardHandle) * kernel :=
  let mode := normalizeInstanceGuard instanceGuard in
  if decide (mode = instanceGuardOff) then (Ok None, k)
  else
    let path := trim_space instanceGuardPath in
    if decide (path = []) then (Err "instance_guard_path must not be empty"%stdpp, k)
    else
      match openInstanceGuard path pid fails k with
      | (Err err, k) => (if decide (mode = instanceGuardWarn) then Ok None else Err err, k)
      | (Ok handle, k) =>
          match writeInstanceGuardMetadata handle metadata fails k with
          | (Err err, k) =>
              (if decide (mode = instanceGuardWarn) then Ok None else Err err, Close (Some handle) k)
          | (Ok _, k) => (Ok (Some handle), k)
          end
      end.

(** ** Daemons that come and go *)

(** A daemon that serves: with the guard it holds and the metadata it wrote, or
    without one, in the mode it was given. *)
Inductive daemon :=
| Guarded (path metadata : bytes)
| Unguarded (mode : bytes).
Record world := MkWorld { w_kernel : kernel; w_daemons : gmap Z daemon }.

Inductive guard_step : world → world → Prop :=
| GuardStart pid mode path metadata fails handle k w :
    w_daemons w !! pid = None →
    acquireInstanceGuard mode path metadata pid fails (w_kernel w) = (Ok handle, k) →
    guard_step w (MkWorld k
      (<[pid := match handle with
                | Some h => Guarded (gh_path h) metadata
                | None => Unguarded (normalizeInstanceGuard mode)
                end]> (w_daemons w)))
| GuardRefused pid mode path metadata fails err k w :
    w_daemons w !! pid = None →
    acquireInstanceGuard mode path metadata pid fails (w_kernel w) = (Err err, k) →
    guard_step w (MkWorld k (w_daemons w))
| GuardStop pid daemon w :
    w_daemons w !! pid = Some daemon →
    guard_step w (MkWorld
      (Close match daemon with Guarded path _ => Some (MkHandle path) | Unguarded _ => None end (w_kernel w))
      (delete pid (w_daemons w))).

(** The locks are those of the guarded daemons, and their files hold their
    metadata. *)
Record guarded (w : world) : Prop := {
  gd_lock : ∀ path pid, k_locks (w_kernel w) !! path = Some pid ↔
    ∃ metadata, w_daemons w !! pid = Some (Guarded path metadata);
  gd_file : ∀ pid path metadata, w_daemons w !! pid = Some (Guarded path metadata) →
    k_files (w_kernel w) !! path = Some (metadata ++ [x0a]);
  gd_mode : ∀ pid mode, w_daemons w !! pid = Some (Unguarded mode) →
    mode = instanceGuardOff ∨ mode = instanceGuardWarn;
}.

(** What one attempt does to the kernel: nothing to a lock that is held or to
    its file, and it holds the lock it returns. *)
Lemma acquire_effect mode path metadata pid fails k r k' :
  acquireInstanceGuard mode path metadata pid fails k = (r, k') →
  (∀ p q, k_locks k !! p = Some q → ∀ data, k_files k !! p = Some data → k_files k' !! p = Some data) ∧
  match r with
  | Ok (Some h) => k_locks k !! gh_path h = None ∧ k_locks k' = <[gh_path h := pid]> (k_locks k) ∧
      k_files k' !! gh_path h = Some (metadata ++ [x0a])
  | Ok None => k_locks k' = k_locks k ∧
      (normalizeInstanceGuard mode = instanceGuardOff ∨ normalizeInstanceGuard mode = instanceGuardWarn)
  | Err _ => k_locks k' = k_locks k
  end.
Proof.
  unfold acquireInstanceGuard, openInstanceGuard. cbv zeta.
  case_decide as Eo; [intros [= <- <-]; auto|]. case_decide as Ep; [by intros [= <- <-]|].
  set (p := trim_space path) in *.
  destruct (cf_mkdir fails); [case_decide; by intros [= <- <-]; auto|].
  destruct (cf_open fails); [case_decide; by intros [= <- <-]; auto|].
  set (k1 := match k_files k !! p with Some _ => k | None => _ end).
  assert (k_locks k1 = k_locks k) as El by (subst k1; by destruct (k_files k !! p)).
  assert (∀ q data, k_files k !! q = Some data → k_files k1 !! q = Some data) as Ef.
  { intros q data Hq. subst k1. destruct (k_files k !! p) eqn:E; [done|]. cbn.
    rewrite lookup_insert_ne; [done|]. intros ->. congruence. }
  destruct (cf_flock fails).
  { case_decide; intros [= <- <-]; (split; [eauto|]); auto. }
  rewrite El. destruct (k_locks k !! p) as [holder|] eqn:Eh.
  { case_decide; intros [= <- <-]; (split; [eauto|]); auto. }
  unfold writeInstanceGuardMetadata. cbn [gh_path].
  assert (∀ q : bytes, ∀ holder : Z, k_locks k !! q = Some holder → p ≠ q) as Hne by (intros q holder Hq ->; congruence).
  assert (delete p (<[p := pid]> (k_locks k)) = k_locks k) as Ed by by rewrite delete_insert_id.
  destruct (cf_truncate fails); [|destruct (cf_seek fails); [|destruct (cf_write fails)]].
  - case_decide; intros [= <- <-]; (split; [eauto|]); cbn; auto.
  - case_decide; intros [= <- <-]; (split; [|cbn; auto]);
      intros q holder Hq data Hd; cbn; rewrite !lookup_insert_ne by eauto; eauto.
  - case_decide; intros [= <- <-]; (split; [|cbn; auto]);
      intros q holder Hq data Hd; cbn; rewrite !lookup_insert_ne by eauto; eauto.
  - intros [= <- <-]. cbn. split.
    + intros q holder Hq data Hd. rewrite !lookup_insert_ne by eauto. eauto.
    + split_and!; [done|done|apply lookup_insert_eq].
Qed.
Lemma guarded_step w w' : guarded w → guard_step w w' → guarded w'.
Proof.
  intros [Hl Hf Hm] Hs. destruct Hs as [pid mode path metadata fails h k w Hn Ha|
    pid mode path metadata fails err k w Hn Ha|pid d w Hd].
  - apply acquire_effect in Ha as [Hk Ha]. destruct h as [h|].
    + destruct Ha as (Hfree & El & Ew). split; cbn [w_kernel w_daemons].
      * intros p q. rewrite El. destruct (decide (p = gh_path h)) as [->|Hp].
        -- rewrite lookup_insert_eq. split; [intros [= <-]; eexists; apply lookup_insert_eq|].
           intros [m [[<- _]|[_ Hq]]%lookup_insert_Some]; [done|].
           assert (k_locks (w_kernel w) !! gh_path h = Some q) as Hx by (apply Hl; by eexists). congruence.
        -- rewrite lookup_insert_ne by done. rewrite Hl. split.
           ++ intros [m Hq]. exists m. rewrite lookup_insert_ne; [done|congruence].
           ++ intros [m [[_ [= Hp' _]]|[_ Hq]]%lookup_insert_Some]; [congruence|by exists m].
      * intros q p m [[<- [= <- <-]]|[_ Hq]]%lookup_insert_Some; [done|].
        eapply Hk; [apply Hl; by eexists|by eapply Hf].
      * intros q m [[_ [=]]|[_ Hq]]%lookup_insert_Some. by eapply Hm.
    + destruct Ha as [El Hmode]. split; cbn [w_kernel w_daemons].
      * intros p q. rewrite El, Hl. split.
        -- intros [m Hq]. exists m. rewrite lookup_insert_ne; [done|congruence].
        -- intros [m [[_ [=]]|[_ Hq]]%lookup_insert_Some]. by exists m.
      * intros q p m [[_ [=]]|[_ Hq]]%lookup_insert_Some. eapply Hk; [apply Hl; by eexists|by eapply Hf].
      * intros q m [[_ [= <-]]|[_ Hq]]%lookup_insert_Some; [done|by eapply Hm].
  - apply acquire_effect in Ha as [Hk El]. split; cbn [w_kernel w_daemons].
    + intros p q. by rewrite El.
    + intros q p m Hq. eapply Hk; [apply Hl; by eexists|by eapply Hf].
    + done.
  - split; cbn [w_kernel w_daemons].
    + intros p q. destruct d as [path m|mode]; cbn [Close k_locks gh_path].
      * destruct (decide (p = path)) as [->|Hp].
        -- rewrite lookup_delete_eq. split; [done|]. intros [m' [Hq Hq']%lookup_delete_Some].
           assert (k_locks (w_kernel w) !! path = Some q) as H1 by (apply Hl; by eexists).
           assert (k_locks (w_kernel w) !! path = Some pid) as H2 by (apply Hl; by eexists). congruence.
        -- rewrite lookup_delete_ne by done. rewrite Hl. split.
           ++ intros [m' Hq]. exists m'. rewrite lookup_delete_ne; [done|congruence].
           ++ intros [m' [_ Hq]%lookup_delete_Some]. by exists m'.
      * rewrite Hl. split.
        -- intros [m' Hq]. exists m'. rewrite lookup_delete_ne; [done|congruence].
        -- intros [m' [_ Hq]%lookup_delete_Some]. by exists m'.
    + intros q p m [_ Hq]%lookup_delete_Some. apply Hf in Hq. by destruct d.
    + intros q m [_ Hq]%lookup_delete_Some. by eapply Hm.
Qed.

Definition fresh_world (files : gmap bytes bytes) : world := MkWorld (MkKernel ∅ files) ∅.

Lemma fresh_guarded files : guarded (fresh_world files).
Proof.
  split; cbn.
  - intros path pid. rewrite lookup_empty. split; [done|]. intros [m Hp]. by rewrite lookup_empty in Hp.
  - intros pid path m Hp. by rewrite lookup_empty in Hp.
  - intros pid m Hp. by rewrite lookup_empty in Hp.
Qed.

Lemma reachable_guarded files w : rtc guard_step (fresh_world files) w → guarded w.
Proof. apply (rtc_ind_r guarded); [apply fresh_guarded|]. intros x y _ Hs Hx. by eapply guarded_step. Qed.

(** C38: however daemons start, fail to start and stop, and whatever files are
    left from before, two daemons never hold the guard of the same file, the
    file of a guarded daemon holds that daemon's metadata, a daemon without a
    guard runs only in the modes off and warn, and an attempt against a held
    guard succeeds in neither taking it nor, in mode fail, in starting. *)
Theorem one_guarded_daemon files w :
  rtc guard_step (fresh_world files) w →
  (∀ p1 p2 path m1 m2, w_daemons w !! p1 = Some (Guarded path m1) →
     w_daemons w !! p2 = Some (Guarded path m2) → p1 = p2) ∧
  (∀ pid path m, w_daemons w !! pid = Some (Guarded path m) →
     k_files (w_kernel w) !! path = Some (m ++ [x0a])) ∧
  (∀ pid mode, w_daemons w !! pid = Some (Unguarded mode) →
     mode = instanceGuardOff ∨ mode = instanceGuardWarn) ∧
  (∀ holder path m pid mode metadata fails r k,
     w_daemons w !! holder = Some (Guarded (trim_space path) m) →
     acquireInstanceGuard mode path metadata pid fails (w_kernel w) = (r, k) →
     (∀ h, r ≠ Ok (Some h)) ∧ (normalizeInstanceGuard mode = instanceGuardFail → ∃ e, r = Err e)).
Proof.
  intros Hr. destruct (reachable_guarded _ _ Hr) as [Hl Hf Hm]. split_and!; [|done|done|].
  - intros p1 p2 path m1 m2 H1 H2.
    assert (k_locks (w_kernel w) !! path = Some p1) as K1 by (apply Hl; by eexists).
    assert (k_locks (w_kernel w) !! path = Some p2) as K2 by (apply Hl; by eexists). congruence.
  - intros holder path m pid mode metadata fails r k Hh Ha.
    assert (k_locks (w_kernel w) !! trim_space path = Some holder) as Hk by (apply Hl; by eexists).
    unfold acquireInstanceGuard, openInstanceGuard in Ha. cbv zeta in Ha.
    destruct (decide (normalizeInstanceGuard mode = instanceGuardOff)) as [Eo|Eo].
    { injection Ha as <- <-. split; [by intros|]. rewrite Eo. by intros [=]. }
    destruct (decide (trim_space path = [])); [injection Ha as <- <-; eauto|].
    assert (∀ e, (if decide (normalizeInstanceGuard mode = instanceGuardWarn) then Ok None else Err e) = r →
      (∀ h, r ≠ Ok (Some h)) ∧ (normalizeInstanceGuard mode = instanceGuardFail → ∃ e, r = Err e)) as Hres.
    { intros e <-. case_decide as Ew; [split; [by intros|]; rewrite Ew; by intros [=]|eauto]. }
    destruct (cf_mkdir fails); [injection Ha as <- <-; by eapply Hres|].
    destruct (cf_open fails); [injection Ha as <- <-; by eapply Hres|].
    set (k1 := match k_files _ !! trim_space path with Some _ => _ | None => _ end) in Ha.
    assert (k_locks k1 = k_locks (w_kernel w)) as El by (subst k1; by destruct (k_files _ !! _)).
    destruct (cf_flock fails); [injection Ha as <- <-; by eapply Hres|].
    rewrite El, Hk in Ha. injection Ha as <- <-. by eapply Hres.
Qed.
End guard.

(** ** Witness *)
#[local] Existing Instance ascii_tables.

Definition no_failures : call_failures := MkCallFailures false false false false false None.
Definition first_start : result error (option instanceGuardHandle) * kernel :=
  acquireInstanceGuard [] (B "/run/lock") (B "{}") 7 no_failures (w_kernel (fresh_world ∅)).
Definition one_daemon : world :=
  MkWorld first_start.2 (<[7 := Guarded (B "/run/lock") (B "{}")]> ∅).

Lemma one_guarded_daemon_witness :
  rtc guard_step (fresh_world ∅) one_daemon ∧
  (acquireInstanceGuard (B "fail") (B "/run/lock") (B "{}") 8 no_failures (w_kernel one_daemon)).1
    = Err "another unifi-stubd instance is already running"%stdpp ∧
  ∃ e, (acquireInstanceGuard (B "fail") (B "/run/lock") (B "{}") 8 no_failures (w_kernel one_daemon)).1 = Err e.
Proof.
  assert (rtc guard_step (fresh_world ∅) one_daemon) as Hr.
  { apply rtc_once.
    apply (GuardStart 7 [] (B "/run/lock") (B "{}") no_failures (Some (MkHandle (B "/run/lock")))
             first_start.2 (fresh_world ∅)); [reflexivity|].
    change (first_start = (Ok (Some (MkHandle (B "/run/lock"))), first_start.2)).
    rewrite (surjective_pairing first_start) at 1. by f_equal. }
  split; [exact Hr|]. split; [vm_compute; reflexivity|].
  destruct (one_guarded_daemon ∅ one_daemon Hr) as (_ & _ & _ & Ha).
  destruct (acquireInstanceGuard (B "fail") (B "/run/lock") (B "{}") 8 no_failures (w_kernel one_daemon))
    as [r k] eqn:E.
  apply (Ha 7 (B "/run/lock") (B "{}") 8 (B "fail") (B "{}") no_failures r k).
  - vm_compute. reflexivity.
  - exact E.
  - vm_compute. reflexivity.
Defined.
