(* ===== verification/GoYaml.v ===== *)
(** Nodes of gopkg.in/yaml.v3, as far as the program reads and writes them.

    A parsed document is a tree of nodes and a table of the nodes with an
    anchor; an alias node points into the table.  The library does not stop a
    node from containing an alias of itself.  Parsing and encoding are the
    library's and stay parameters of the files that use them. *)
From stdpp Require Import gmap.
From S2P Require Import Prelude.

(** [yaml.Kind]; the zero node has none. *)
Inductive Kind := ZeroNode | DocumentNode | SequenceNode | MappingNode | ScalarNode | AliasNode.
#[export] Instance Kind_eq : EqDecision Kind.
Proof. solve_decision. Defined.

(** The fields of a node that the program only copies. *)
Record look := MkLook {
  k_Style : Z; k_Anchor : bytes; k_HeadComment : bytes; k_LineComment : bytes; k_FootComment : bytes;
  k_Line : Z; k_Column : Z;
}.
Definition no_look : look := MkLook 0 [] [] [] [] 0 0.
#[export] Instance look_eq : EqDecision look.
Proof. solve_decision. Defined.

Inductive Node := MkNode {
  n_Kind : Kind; n_Tag : bytes; n_Value : bytes; n_look : look; n_Content : list Node; n_Alias : option Z;
}.
Abbreviation anchors := (gmap Z Node).

Section node_ind.
Variable P : Node → Prop.
Hypothesis step : ∀ k t v l c a, Forall P c → P (MkNode k t v l c a).
Fixpoint node_ind' (n : Node) : P n :=
  match n with
  | MkNode k t v l c a =>
      step k t v l c a
        ((fix go (c : list Node) : Forall P c :=
            match c with [] => Forall_nil_2 _ | n :: rest => Forall_cons_2 _ _ _ (node_ind' n) (go rest) end) c)
  end.
End node_ind.

#[export] Instance Node_eq : EqDecision Node.
Proof.
  unfold EqDecision. fix go 1. intros x y.
  destruct x as [k t v l c a], y as [k' t' v' l' c' a'].
  destruct (decide (k = k')) as [->|]; [|right; congruence].
  destruct (decide (t = t')) as [->|]; [|right; congruence].
  destruct (decide (v = v')) as [->|]; [|right; congruence].
  destruct (decide (l = l')) as [->|]; [|right; congruence].
  destruct (decide (a = a')) as [->|]; [|right; congruence].
  assert (Decision (c = c')) as [->|].
  { clear - go. revert c'. induction c as [|n c IH]; intros [|n' c']; [by left|by right..|].
    destruct (go n n') as [->|]; [|right; congruence].
    destruct (IH c') as [->|]; [by left|right; congruence]. }
  - by left.
  - right. congruence.
Defined.

(** The pairs of a mapping node; an unpaired last entry is ignored. *)
Fixpoint pairs (c : list Node) : list (Node * Node) :=
  match c with k :: v :: rest => (k, v) :: pairs rest | _ => [] end.
Fixpoint unpairs (l : list (Node * Node)) : list Node :=
  match l with [] => [] | (k, v) :: rest => k :: v :: unpairs rest end.

(** The first pair with the key, its index among the pairs. *)
Fixpoint find_pair (key : bytes) (c : list Node) (i : nat) : option (nat * Node * Node) :=
  match c with
  | k :: v :: rest => if decide (n_Value k = key) then Some (i, k, v) else find_pair key rest (S i)
  | _ => None
  end.

(** All alias pointers below a node. *)
Fixpoint aliases (n : Node) : list Z :=
  match n with
  | MkNode _ _ _ _ c a =>
      (fix go (c : list Node) : list Z := match c with [] => [] | n :: rest => aliases n ++ go rest end) c
      ++ match a with Some p => [p] | None => [] end
  end.

Lemma aliases_content p n m : m ∈ n_Content n → p ∈ aliases m → p ∈ aliases n.
Proof.
  destruct n as [k t v l c a]. cbn. intros Hm Hp. apply elem_of_app. left.
  induction c as [|x c IH]; [by apply not_elem_of_nil in Hm|]. cbn. apply elem_of_app.
  apply elem_of_cons in Hm as [->|Hm]; [by left|right; by apply IH].
Qed.
Lemma aliases_inv p n : p ∈ aliases n → n_Alias n = Some p ∨ ∃ m, m ∈ n_Content n ∧ p ∈ aliases m.
Proof.
  destruct n as [k t v l c a]. cbn. intros [Hp|Hp]%elem_of_app.
  - right. induction c as [|x c IH]; [by apply not_elem_of_nil in Hp|]. cbn in Hp.
    apply elem_of_app in Hp as [Hp|Hp]; [exists x; split; [left|done]|].
    destruct (IH Hp) as (m & Hm & Hp'). exists m. split; [by right|done].
  - left. destruct a; [by apply list_elem_of_singleton in Hp as ->|by apply not_elem_of_nil in Hp].
Qed.
