(* ===== verification/Profiles.v ===== *)
(** Device profiles: [profile.go], [profile_config.go], [profile_validate.go],
    [profile_defaults.go], [profile_decode.go], [profile_yaml.go],
    [profile_load.go], [profile_export.go], [profiles_embed.go] and [registry*.go] of
    [src/internal/device].

    The YAML library is the class [ProfileYaml]: parsing to nodes, marshalling,
    and the strict decoding into the struct.  A parsed document is a graph
    ([GoYaml]); [cloneYAMLNode] makes a tree of it, so that the cloning of
    trees, of profiles and of records is the identity from there on.  The files
    of a load are a parameter. *)
From stdpp Require Import gmap relations.
From S2P Require Import Prelude GoStrings GoMap GoYaml Ports PayloadViews Identity.

(** ** profile.go, profile_config.go *)
Record Profile := MkProfile {
  Source : bytes; SourceType : bytes; SchemaVersion : Z; Extends : bytes; AllowBuiltinOverride : bool;
  Order : Z; Name : bytes; Model : bytes; ModelDisplay : bytes; DeviceType : bytes; Version : bytes;
  PortCount : Z; PortGroups : list PortGroup; PortNames : list bytes; PortRoles : list bytes;
  PortNetworkGroups : list bytes; PortSpeed : Z; UplinkSpeed : Z; PortMedia : bytes; UplinkMedia : bytes;
  Stability : bytes; Recommended : bool; ValidatedControllerVersions : list bytes;
  Payload : PayloadProfile; Description : bytes;
}.
Definition schemaVersion : Z := 1.
Definition payloadKindSwitch : bytes := B "switch".
Definition payloadKindGateway : bytes := B "gateway".
Definition stabilityExperimental : bytes := B "experimental".
Definition stabilityTested : bytes := B "tested".
Definition stabilityExternal : bytes := B "external".
Definition defaultRequiredVersion : bytes := B "5.0.0".
Definition defaultMgmtInterface : bytes := B "eth0".
Definition defaultGatewayPrefix : bytes := B "eth".
Definition sourceTypeExternal : bytes := B "external".

Section profiles.
Context `{UnicodeTables}.

Definition NormalizeProfile (p : Profile) : Profile := {|
  Source := Source p; SourceType := SourceType p; SchemaVersion := SchemaVersion p;
  Extends := trim_space (Extends p); AllowBuiltinOverride := AllowBuiltinOverride p; Order := Order p;
  Name := trim_space (Name p); Model := trim_space (Model p); ModelDisplay := trim_space (ModelDisplay p);
  DeviceType := trim_space (DeviceType p); Version := trim_space (Version p); PortCount := PortCount p;
  PortGroups := PortGroups p; PortNames := PortNames p; PortRoles := PortRoles p;
  PortNetworkGroups := PortNetworkGroups p; PortSpeed := PortSpeed p; UplinkSpeed := UplinkSpeed p;
  PortMedia := trim_space (PortMedia p); UplinkMedia := trim_space (UplinkMedia p);
  Stability := trim_space (Stability p); Recommended := Recommended p;
  ValidatedControllerVersions := map trim_space (ValidatedControllerVersions p);
  Payload := MkPayloadProfile (trim_space (pl_Kind (Payload p))) (trim_space (pl_RequiredVersion (Payload p)))
    (trim_space (pl_ManagementInterface (Payload p))) (trim_space (pl_GatewayInterfacePrefix (Payload p)))
    (pl_HasDPI (Payload p));
  Description := trim_space (Description p) |}.

(** ** profile_defaults.go *)
Definition defaultPayloadKind (deviceType : bytes) : bytes :=
  if bool_decide (trim_space deviceType ∈ [B "ugw"; B "uxg"; B "udm"]) then payloadKindGateway
  else payloadKindSwitch.
Definition setDefaultString (target value : bytes) : bytes := if decide (target = []) then value else target.
Definition setDefaultInt (target value : Z) : Z := if target =? 0 then value else target.
Definition applyProfileDefaults (p : Profile) : Profile := {|
  Source := Source p; SourceType := SourceType p; SchemaVersion := setDefaultInt (SchemaVersion p) schemaVersion;
  Extends := Extends p; AllowBuiltinOverride := AllowBuiltinOverride p; Order := Order p;
  Name := Name p; Model := Model p; ModelDisplay := ModelDisplay p;
  DeviceType := DeviceType p; Version := Version p; PortCount := PortCount p;
  PortGroups := PortGroups p; PortNames := PortNames p; PortRoles := PortRoles p;
  PortNetworkGroups := PortNetworkGroups p; PortSpeed := PortSpeed p; UplinkSpeed := UplinkSpeed p;
  PortMedia := PortMedia p; UplinkMedia := UplinkMedia p;
  Stability := setDefaultString (Stability p) stabilityExperimental; Recommended := Recommended p;
  ValidatedControllerVersions := ValidatedControllerVersions p;
  Payload := MkPayloadProfile (setDefaultString (pl_Kind (Payload p)) (defaultPayloadKind (DeviceType p)))
    (setDefaultString (pl_RequiredVersion (Payload p)) defaultRequiredVersion)
    (setDefaultString (pl_ManagementInterface (Payload p)) defaultMgmtInterface)
    (setDefaultString (pl_GatewayInterfacePrefix (Payload p)) defaultGatewayPrefix)
    (pl_HasDPI (Payload p));
  Description := Description p |}.

(** ** profile_validate.go *)
Definition isConcreteControllerVersion (version : bytes) : bool :=
  let parts := split_byte x2e version in
  (3 <=? zlen parts) && forallb (λ part, negb (bool_decide (part = [])) && forallb is_digit part) parts.
Definition validateMaturity (p : Profile) : result error unit :=
  _ ← (if bool_decide (Stability p ∈ [stabilityExperimental; stabilityExternal]) then Ok tt
       else if decide (Stability p = stabilityTested) then
         guard_err (bool_decide (ValidatedControllerVersions p = []))
           "validated_controller_versions is required when stability is tested"%stdpp
       else Err "stability is invalid"%stdpp);
  guard_err (negb (forallb isConcreteControllerVersion (ValidatedControllerVersions p)))
    "not a concrete controller version"%stdpp.

(** The loop of [validatePortGroups]: the total, an [int], and the uplink groups. *)
Fixpoint group_checks (groups : list PortGroup) (total uplinkGroups : Z) : result error (Z * Z) :=
  match groups with
  | [] => Ok (total, uplinkGroups)
  | group :: rest =>
      if gr_Count group <? 1 then Err "port_groups count must be positive"%stdpp
      else if gr_Speed group <? 0 then Err "port_groups speed must not be negative"%stdpp
      else
        group_checks rest (wrap64 (total + gr_Count group))
          (if gr_Uplink group then uplinkGroups + 1 else uplinkGroups)
  end.
Definition validatePortGroups (p : Profile) : result error unit :=
  '(total, uplinkGroups) ← group_checks (PortGroups p) 0 0;
  _ ← guard_err ((0 <? zlen (PortGroups p)) && negb (total =? PortCount p)) "port_groups total != ports"%stdpp;
  guard_err (1 <? uplinkGroups) "only one port_groups entry may set uplink"%stdpp.
Definition validateOneBasedStrings (ports : Z) (values : list bytes) : result error unit :=
  _ ← guard_err (ports <? zlen values) "length exceeds ports"%stdpp;
  guard_err (existsb (λ value, existsb (λ b, bool_decide (b ∈ [x0d; x0a; x09])) value) values)
    "contains unsupported whitespace"%stdpp.
Definition validatePortRoles (p : Profile) : result error unit :=
  _ ← validateOneBasedStrings (PortCount p) (PortRoles p);
  guard_err (negb (forallb (λ role, let role := to_lower (trim_space role) in
                                    bool_decide (role ∈ [[]; B "wan"; B "lan"; B "wan2"; B "lan2"]))
                           (PortRoles p)))
    "port_roles has invalid role"%stdpp.
Definition validatePayload (p : Profile) : result error unit :=
  let payload := Payload p in
  _ ← guard_err (negb (bool_decide (to_lower (trim_space (pl_Kind payload)) ∈
                                      [payloadKindSwitch; payloadKindGateway])))
        "payload.kind is invalid; use switch or gateway"%stdpp;
  _ ← guard_err (bool_decide (trim_space (pl_ManagementInterface payload) = []))
        "payload.management_interface is required"%stdpp;
  _ ← guard_err (contains (B "/") (pl_ManagementInterface payload))
        "payload.management_interface is invalid"%stdpp;
  _ ← guard_err (bool_decide (trim_space (pl_GatewayInterfacePrefix payload) = []))
        "payload.gateway_interface_prefix is required"%stdpp;
  guard_err (existsb (λ b, bool_decide (b ∈ [x2f; x20; x09; x0d; x0a])) (pl_GatewayInterfacePrefix payload))
    "payload.gateway_interface_prefix is invalid"%stdpp.
Definition validateProfile (p : Profile) : result error unit :=
  _ ← guard_err (negb (SchemaVersion p =? schemaVersion)) "schema_version must be 1"%stdpp;
  _ ← guard_err (bool_decide (Name p = [])) "name is required"%stdpp;
  _ ← guard_err (bool_decide (Model p = [])) "model is required"%stdpp;
  _ ← guard_err (PortCount p <? 1) "ports must be positive"%stdpp;
  _ ← guard_err (PortSpeed p <? 0) "port_speed must not be negative"%stdpp;
  _ ← guard_err (UplinkSpeed p <? 0) "uplink_speed must not be negative"%stdpp;
  _ ← validatePortGroups p;
  _ ← validateOneBasedStrings (PortCount p) (PortNames p);
  _ ← validatePortRoles p;
  _ ← validateOneBasedStrings (PortCount p) (PortNetworkGroups p);
  _ ← validatePayload p;
  validateMaturity p.
End profiles.

(** ** profile_yaml.go: documents after cloning *)
Inductive Tree := Detach {
  t_Kind : Kind; t_Tag : bytes; t_Value : bytes; t_look : look; t_Content : list Tree; t_Alias : option Tree;
}.

(** [cloneYAMLNode]: the content is copied in place, an alias through the
    table.  The fuel counts the aliases that are nested in each other; the code
    has no such bound. *)
Section clone.
Variable follow : Z → option Tree.
Fixpoint clone_with (n : Node) : option Tree :=
  match n with
  | MkNode k t v l c a =>
      content ← (fix go (c : list Node) : option (list Tree) :=
                   match c with
                   | [] => Some []
                   | child :: rest => x ← clone_with child; xs ← go rest; Some (x :: xs)
                   end) c;
      alias ← match a with None => Some None | Some p => Some <$> follow p end;
      Some (Detach k t v l content alias)
  end.
End clone.
Fixpoint cloneYAMLNode (fuel : nat) (table : anchors) (n : Node) : option Tree :=
  match fuel with
  | O => clone_with (λ _, None) n
  | S fuel => clone_with (λ p, target ← table !! p; cloneYAMLNode fuel table target) n
  end.

Fixpoint unwrap_documents (t : Tree) : Tree :=
  match t with Detach DocumentNode _ _ _ (content :: _) _ => unwrap_documents content | _ => t end.
Fixpoint unwrap_aliases (t : Tree) : Tree :=
  match t with Detach AliasNode _ _ _ _ (Some target) => unwrap_aliases target | _ => t end.
Definition yamlDocumentContent (t : Tree) : option Tree :=
  let t := unwrap_aliases (unwrap_documents t) in
  if decide (t_Kind t = ZeroNode) then None else Some t.
Definition yamlDocument (content : option Tree) : option Tree :=
  (λ c, Detach DocumentNode [] [] no_look [c] None) <$> content.

(** [merged.Content] after one pair of the overlay: the value of the first pair
    with the key is replaced, or the pair is appended.  [yamlMappingKeyIndex]
    is the search. *)
Fixpoint set_pair (key value : Tree) (change : Tree → Tree) (content : list Tree) : list Tree :=
  match content with
  | k :: v :: rest =>
      if decide (t_Value k = t_Value key) then k :: change v :: rest
      else k :: v :: set_pair key value change rest
  | _ => content ++ [key; value]
  end.
Fixpoint mergeYAMLNodes (base overlay : Tree) {struct overlay} : Tree :=
  match base, overlay with
  | Detach MappingNode t v l bc a, Detach MappingNode _ _ _ oc _ =>
      Detach MappingNode t v l
        ((fix go (oc content : list Tree) : list Tree :=
            match oc with
            | key :: value :: rest => go rest (set_pair key value (λ old, mergeYAMLNodes old value) content)
            | _ => content
            end) oc bc) a
  | _, _ => overlay
  end.
Definition mergeProfileDocuments (base overlay : Tree) : option Tree :=
  yamlDocument
    match yamlDocumentContent base, yamlDocumentContent overlay with
    | None, o => o
    | b, None => b
    | Some b, Some o => Some (mergeYAMLNodes b o)
    end.

(** ** registry.go, registry_register.go, registry_lookup.go, registry_clone.go *)
Record record := MkRecord {
  rc_source : bytes; rc_builtin : bool; rc_order : Z; rc_profile : Profile; rc_document : Tree;
}.
Definition with_source (source sourceType : bytes) (p : Profile) : Profile := {|
  Source := source; SourceType := sourceType; SchemaVersion := SchemaVersion p; Extends := Extends p;
  AllowBuiltinOverride := AllowBuiltinOverride p; Order := Order p; Name := Name p; Model := Model p;
  ModelDisplay := ModelDisplay p; DeviceType := DeviceType p; Version := Version p; PortCount := PortCount p;
  PortGroups := PortGroups p; PortNames := PortNames p; PortRoles := PortRoles p;
  PortNetworkGroups := PortNetworkGroups p; PortSpeed := PortSpeed p; UplinkSpeed := UplinkSpeed p;
  PortMedia := PortMedia p; UplinkMedia := UplinkMedia p; Stability := Stability p;
  Recommended := Recommended p; ValidatedControllerVersions := ValidatedControllerVersions p;
  Payload := Payload p; Description := Description p |}.
Definition profileWithSource (r : record) : Profile :=
  with_source (rc_source r) (if rc_builtin r then sourceTypeBuiltIn else sourceTypeExternal) (rc_profile r).

Section registry.
Context `{UnicodeTables}.

Definition duplicate_of (p : Profile) (r : record) : bool :=
  bool_decide (Name (rc_profile r) = Name p) || equal_fold (Model (rc_profile r)) (Model p).
Fixpoint registerRecord (records : list record) (source : bytes) (order : Z) (p : Profile) (document : Tree)
    (builtin : bool) : result error (list record) :=
  match records with
  | [] => Ok [MkRecord source builtin order p document]
  | r :: rest =>
      if negb (duplicate_of p r) then
        rest ← registerRecord rest source order p document builtin; Ok (r :: rest)
      else if AllowBuiltinOverride p && rc_builtin r then Ok (MkRecord source builtin order p document :: rest)
      else if decide (Name (rc_profile r) = Name p) then Err "duplicate profile name"%stdpp
      else Err "duplicate profile model"%stdpp
  end.

Definition answers_to (name : bytes) (r : record) : bool :=
  bool_decide (to_lower (Name (rc_profile r)) = name) || bool_decide (to_lower (Model (rc_profile r)) = name).
Definition lookupRecord (records : list record) (name : bytes) : option record :=
  find (answers_to (to_lower (trim_space name))) records.
Definition LookupProfile (records : list record) (name : bytes) : option Profile :=
  profileWithSource <$> lookupRecord records name.

(** [Profiles]: a stable sort by order and name. *)
Definition record_before (a b : record) : bool :=
  if rc_order a =? rc_order b
  then bytes_leb (Name (rc_profile a)) (Name (rc_profile b)) && negb (bool_decide (Name (rc_profile a) = Name (rc_profile b)))
  else rc_order a <? rc_order b.
Fixpoint stable_insert (r : record) (l : list record) : list record :=
  match l with
  | [] => [r]
  | x :: rest => if record_before x r then x :: stable_insert r rest else r :: x :: rest
  end.
Definition Profiles (records : list record) : list Profile :=
  map profileWithSource (foldr stable_insert [] records).
Definition ProfileNames (records : list record) : bytes := join (B ", ") (map Name (Profiles records)).
End registry.

(** ** profile_decode.go, profile_load.go, profile_export.go *)
Class ProfileYaml := {
  yaml_document : bytes → result error (Node * anchors);
  yaml_marshal : option Tree → result error bytes;
  yaml_profile : bytes → result error Profile;
  yaml_marshal_profile : Profile → result error bytes;
}.

Record decodedProfile := MkDecoded { dc_profile : Profile; dc_order : Z; dc_document : Tree }.
Inductive error_kind := ErrorKindIO | ErrorKindParse | ErrorKindValidation.
Record ProfilePathError := MkPathError { pe_Path : bytes; pe_Kind : error_kind; pe_Err : error }.
Definition classifyProfileError (e : error) : error_kind :=
  match String.index 0 "decode profile YAML"%stdpp e with Some _ => ErrorKindParse | None => ErrorKindValidation end.

(** What the file system answers: whether a path is a directory, its entries in
    order of their names with the mark of a directory, and a file's content. *)
Record files := MkFiles {
  fl_Stat : bytes → option bool; fl_ReadDir : bytes → option (list (bytes * bool));
  fl_ReadFile : bytes → option bytes;
}.
Definition path_ext (name : bytes) : bytes :=
  match last_index_byte x2e name with Some i => drop i name | None => [] end.
Definition path_join (dir name : bytes) : bytes := dir ++ B "/" ++ name.

Section load.
Context `{UnicodeTables} `{ProfileYaml}.
Variable fuel : nat.

(** Nothing is copied of an empty document. *)
Definition decodeProfileDocument (data : bytes) : option (result error Tree) :=
  match yaml_document data with
  | Err e => Some (wrap_err "decode profile YAML" (Err e))
  | Ok (doc, table) =>
      t ← cloneYAMLNode fuel table doc;
      Some match yamlDocumentContent t with
           | None => Err "decode profile YAML: empty document"%stdpp
           | Some _ => Ok t
           end
  end.
Definition decodeProfileYAML (document : Tree) : result error Profile :=
  data ← wrap_err "decode profile YAML: marshal merged YAML" (yaml_marshal (yamlDocumentContent document));
  p ← wrap_err "decode profile YAML" (yaml_profile data);
  Ok (NormalizeProfile p).
Definition finish_profile (p : Profile) : result error Profile :=
  let p := applyProfileDefaults p in
  _ ← validateProfile p; Ok p.

Definition decodeConfigRecord (data : bytes) : option (result error decodedProfile) :=
  document ← decodeProfileDocument data;
  Some (document ← document;
        p ← decodeProfileYAML document;
        p ← finish_profile p;
        Ok (MkDecoded p (Order p) document)).
Definition decode_external (records : list record) (document : Tree) : result error decodedProfile :=
  p ← decodeProfileYAML document;
  let order := Order p in
  '(p, merged) ← (if decide (trim_space (Extends p) = []) then Ok (p, document)
                  else
                    match lookupRecord records (Extends p) with
                    | None => Err "extends not found"%stdpp
                    | Some base =>
                        match mergeProfileDocuments (rc_document base) document with
                        | None => Err "decode profile YAML"%stdpp
                        | Some merged => p ← decodeProfileYAML merged; Ok (p, merged)
                        end
                    end);
  p ← finish_profile p;
  Ok (MkDecoded p order merged).
Definition decodeExternalConfigRecord (records : list record) (data : bytes)
    : option (result error decodedProfile) :=
  document ← decodeProfileDocument data;
  Some (document ← document; decode_external records document).

Definition LoadFile (fs : files) (path : bytes) (records : list record)
    : option (result ProfilePathError unit * list record) :=
  match fl_ReadFile fs path with
  | None => Some (Err (MkPathError path ErrorKindIO "read"%stdpp), records)
  | Some data =>
      decoded ← decodeExternalConfigRecord records data;
      Some match decoded with
           | Err e => (Err (MkPathError path (classifyProfileError e) e), records)
           | Ok d =>
               match registerRecord records path (dc_order d) (dc_profile d) (dc_document d) false with
               | Err e => (Err (MkPathError path ErrorKindValidation e), records)
               | Ok records => (Ok tt, records)
               end
           end
  end.
Fixpoint load_files (fs : files) (paths : list bytes) (records : list record)
    : option (result ProfilePathError unit * list record) :=
  match paths with
  | [] => Some (Ok tt, records)
  | path :: rest =>
      loaded ← LoadFile fs path records;
      match loaded with
      | (Ok _, records) => load_files fs rest records
      | (Err e, records) => Some (Err e, records)
      end
  end.
Definition is_yaml_name (name : bytes) : bool :=
  bool_decide (to_lower (path_ext name) ∈ [B ".yaml"; B ".yml"]).
Definition LoadProfilePath (fs : files) (path : bytes) (records : list record)
    : option (result ProfilePathError unit * list record) :=
  match fl_Stat fs path with
  | None => Some (Err (MkPathError path ErrorKindIO "stat"%stdpp), records)
  | Some false => LoadFile fs path records
  | Some true =>
      match fl_ReadDir fs path with
      | None => Some (Err (MkPathError path ErrorKindIO "read directory"%stdpp), records)
      | Some entries =>
          let names := map fst (filter (λ e, e.2 = false ∧ is_yaml_name e.1 = true) entries) in
          load_files fs (sort_strings (map (path_join path) names)) records
      end
  end.

(** [loadBuiltinProfileRecords]; an error is a panic at start. *)
Fixpoint load_builtins (profiles : list (bytes * bytes)) (records : list record)
    : option (result error (list record)) :=
  match profiles with
  | [] => Some (Ok records)
  | (path, data) :: rest =>
      decoded ← decodeConfigRecord data;
      match decoded with
      | Err e => Some (Err e)
      | Ok d =>
          match registerRecord records path (dc_order d) (dc_profile d) (dc_document d) true with
          | Err e => Some (Err e)
          | Ok records => load_builtins rest records
          end
      end
  end.

Definition profileYAML (p : Profile) : result error bytes :=
  wrap_err "marshal profile YAML" (yaml_marshal_profile {|
    Source := []; SourceType := []; SchemaVersion := firstNonZero [SchemaVersion p; schemaVersion];
    Extends := Extends p; AllowBuiltinOverride := AllowBuiltinOverride p; Order := 0; Name := Name p;
    Model := Model p; ModelDisplay := ModelDisplay p; DeviceType := DeviceType p; Version := Version p;
    PortCount := PortCount p; PortGroups := PortGroups p; PortNames := PortNames p; PortRoles := PortRoles p;
    PortNetworkGroups := PortNetworkGroups p; PortSpeed := PortSpeed p; UplinkSpeed := UplinkSpeed p;
    PortMedia := PortMedia p; UplinkMedia := UplinkMedia p; Stability := Stability p;
    Recommended := Recommended p; ValidatedControllerVersions := ValidatedControllerVersions p;
    Payload := Payload p; Description := Description p |}).
Definition allow_override (p : Profile) : Profile := {|
    Source := Source p; SourceType := SourceType p; SchemaVersion := SchemaVersion p;
    Extends := Extends p; AllowBuiltinOverride := true; Order := Order p; Name := Name p;
    Model := Model p; ModelDisplay := ModelDisplay p; DeviceType := DeviceType p; Version := Version p;
    PortCount := PortCount p; PortGroups := PortGroups p; PortNames := PortNames p; PortRoles := PortRoles p;
    PortNetworkGroups := PortNetworkGroups p; PortSpeed := PortSpeed p; UplinkSpeed := UplinkSpeed p;
    PortMedia := PortMedia p; UplinkMedia := UplinkMedia p; Stability := Stability p;
    Recommended := Recommended p; ValidatedControllerVersions := ValidatedControllerVersions p;
    Payload := Payload p; Description := Description p |}.
Definition ExportProfileYAML (records : list record) (name : bytes) : result error bytes :=
  match LookupProfile records name with
  | None => Err "profile not found"%stdpp
  | Some p => profileYAML (if decide (SourceType p = sourceTypeBuiltIn) then allow_override p else p)
  end.
End load.

Definition switch_template : Profile := {|
  Source := []; SourceType := []; SchemaVersion := schemaVersion; Extends := []; AllowBuiltinOverride := false;
  Order := 0; Name := B "custom-switch"; Model := B "CUSTOMSW"; ModelDisplay := B "Custom Lab Switch";
  DeviceType := B "usw"; Version := defaultSwitchVersion; PortCount := 8; PortGroups := []; PortNames := [];
  PortRoles := []; PortNetworkGroups := []; PortSpeed := 1000; UplinkSpeed := 1000; PortMedia := B "GE";
  UplinkMedia := B "GE"; Stability := stabilityExternal; Recommended := false;
  ValidatedControllerVersions := [];
  Payload := MkPayloadProfile payloadKindSwitch defaultRequiredVersion defaultMgmtInterface [] false;
  Description := B "external lab switch profile" |}.
Definition gateway_template : Profile := {|
  Source := []; SourceType := []; SchemaVersion := schemaVersion; Extends := []; AllowBuiltinOverride := false;
  Order := 0; Name := B "custom-gateway"; Model := B "CUSTOMGW"; ModelDisplay := B "Custom Lab Gateway";
  DeviceType := B "uxg"; Version := defaultGatewayVersion; PortCount := 2; PortGroups := [];
  PortNames := [B "WAN"; B "LAN"]; PortRoles := [B "wan"; B "lan"]; PortNetworkGroups := [B "WAN"; B "LAN"];
  PortSpeed := 1000; UplinkSpeed := 1000; PortMedia := B "GE"; UplinkMedia := B "GE";
  Stability := stabilityExternal; Recommended := false; ValidatedControllerVersions := [];
  Payload := MkPayloadProfile payloadKindGateway defaultRequiredVersion defaultMgmtInterface
               defaultGatewayPrefix false;
  Description := B "external lab gateway profile" |}.
Definition ProfileTemplateYAML `{UnicodeTables} `{ProfileYaml} (kind : bytes) : result error bytes :=
  let kind := to_lower (trim_space kind) in
  if decide (kind = payloadKindSwitch) then profileYAML switch_template
  else if decide (kind = payloadKindGateway) then profileYAML gateway_template
  else Err "invalid profile template kind"%stdpp.

(** ** When the copy of a document returns

    An edge leads from an anchored node to what an alias below it points to. *)
Definition alias_edge (table : anchors) (p q : Z) : Prop := ∃ m, table !! p = Some m ∧ q ∈ aliases m.
Definition closed_table (table : anchors) (n : Node) : Prop :=
  (∀ p, p ∈ aliases n → is_Some (table !! p)) ∧
  (∀ p q, alias_edge table p q → is_Some (table !! q)).
(** Following aliases from [p] can come back to where it was. *)
Definition endless (table : anchors) (p : Z) : Prop :=
  ∃ c, rtc (alias_edge table) p c ∧ tc (alias_edge table) c c.

Lemma clone_with_Some follow n :
  is_Some (clone_with follow n) ↔ ∀ p, p ∈ aliases n → is_Some (follow p).
Proof.
  induction n as [k t v l c a IH] using node_ind'. cbn [clone_with aliases].
  set (go := fix go (c : list Node) := match c with [] => Some [] | _ => _ end).
  assert (is_Some (go c) ↔ ∀ p, p ∈ (fix go (c : list Node) : list Z :=
    match c with [] => [] | n :: rest => aliases n ++ go rest end) c → is_Some (follow p)) as Hgo.
  { clear a. induction IH as [|x c Hx Hc IHc].
    - split; [by intros _ p ?%not_elem_of_nil|by eexists].
    - cbn [go]. fold go. split.
      + intros [xs Hxs] p [Hp|Hp]%elem_of_app.
        * apply Hx; [|done]. destruct (clone_with follow x); [by eexists|done].
        * apply IHc; [|done]. destruct (clone_with follow x); [|done]. cbn in Hxs.
          destruct (go c); [by eexists|done].
      + intros Hp. destruct (proj2 Hx) as [y ->]; [intros p ?; apply Hp, elem_of_app; by left|].
        destruct (proj2 IHc) as [ys ->]; [intros p ?; apply Hp, elem_of_app; by right|]. by eexists. }
  split.
  - intros [y Hy] p [Hp|Hp]%elem_of_app.
    + apply Hgo; [|done]. destruct (go c); [by eexists|done].
    + destruct a as [q|]; [|by apply not_elem_of_nil in Hp]. apply list_elem_of_singleton in Hp as ->.
      destruct (go c); [|done]. cbn in Hy. destruct (follow q); [by eexists|done].
  - intros Hp. destruct (proj2 Hgo) as [ys ->]; [intros p ?; apply Hp, elem_of_app; by left|]. cbn.
    destruct a as [q|]; [|by eexists]. destruct (Hp q) as [x ->]; [|by eexists].
    apply elem_of_app. right. by apply list_elem_of_singleton.
Qed.

Lemma clone_None fuel table n :
  cloneYAMLNode fuel table n = None ↔
  ∃ p, p ∈ aliases n ∧
    match fuel with O => True | S f => ∀ m, table !! p = Some m → cloneYAMLNode f table m = None end.
Proof.
  assert (∀ follow, clone_with follow n = None ↔ ∃ p, p ∈ aliases n ∧ follow p = None) as Hw.
  { intros follow. pose proof (clone_with_Some follow n) as Hs. split.
    - intros E. destruct (Forall_Exists_dec (λ p, is_Some (follow p)) (λ p, follow p = None)
        (λ p, match follow p as o return {is_Some o} + {o = None} with
              | Some x => left (mk_is_Some _ _ eq_refl) | None => right eq_refl end) (aliases n)) as [Hf|Hf].
      + rewrite Forall_forall in Hf. apply Hs in Hf. rewrite E in Hf. by destruct Hf.
      + by apply Exists_exists in Hf.
    - intros (p & Hp & Hf). destruct (clone_with follow n) as [t|] eqn:E; [|done].
      destruct (proj1 Hs (ex_intro _ t eq_refl) p Hp) as [x Hx]. congruence. }
  destruct fuel as [|f]; cbn [cloneYAMLNode]; rewrite Hw.
  - split; intros (p & Hp & _); eauto.
  - split; intros (p & Hp & Hf); exists p; (split; [done|]).
    + intros m Hm. by rewrite Hm in Hf.
    + destruct (table !! p) as [m|]; [by apply Hf|done].
Qed.

Lemma endless_step table p : endless table p → ∃ q, alias_edge table p q ∧ endless table q.
Proof.
  intros (c & [->|(q & Hpq & Hqc)]%rtc_inv & Hc).
  - inversion Hc as [? ? He|? y ? He Hy]; subst.
    + exists c. split; [done|]. by exists c.
    + exists y. split; [done|]. exists c. split; [by apply tc_rtc|done].
  - exists q. split; [done|]. by exists c.
Qed.

Lemma endless_no_clone table n p : p ∈ aliases n → endless table p → ∀ fuel, cloneYAMLNode fuel table n = None.
Proof.
  intros Hp He fuel. revert n p Hp He. induction fuel as [|f IH]; intros n p Hp He; apply clone_None; exists p.
  - done.
  - split; [done|]. intros m Hm. apply endless_step in He as (q & (m' & Hm' & Hq) & He).
    rewrite Hm in Hm'. injection Hm' as <-. by eapply IH.
Qed.

Lemma clone_more fuel table n t : cloneYAMLNode fuel table n = Some t → is_Some (cloneYAMLNode (S fuel) table n).
Proof.
  revert n t. induction fuel as [|f IH]; intros n t Ht.
  - destruct (cloneYAMLNode 1 table n) eqn:E; [by eexists|].
    apply clone_None in E as (p & Hp & _). assert (cloneYAMLNode 0 table n = None) as E; [|congruence].
    apply clone_None. by exists p.
  - destruct (cloneYAMLNode (S (S f)) table n) eqn:E; [by eexists|].
    apply clone_None in E as (p & Hp & Hm). assert (cloneYAMLNode (S f) table n = None) as E; [|congruence].
    apply clone_None. exists p. split; [done|]. intros m Em. specialize (Hm m Em).
    destruct (cloneYAMLNode f table m) as [y|] eqn:Ey; [|done]. destruct (IH m y Ey) as [z Hz]. congruence.
Qed.

(** Paths of aliases. *)
Fixpoint chain (table : anchors) (p : Z) (ps : list Z) : Prop :=
  match ps with [] => True | q :: rest => alias_edge table p q ∧ chain table q rest end.

Lemma clone_None_chain fuel table n :
  closed_table table n → cloneYAMLNode fuel table n = None →
  ∃ p ps, p ∈ aliases n ∧ chain table p ps ∧ length ps = fuel ∧ Forall (λ q, is_Some (table !! q)) (p :: ps).
Proof.
  intros [Hn Hc]. revert n Hn. induction fuel as [|f IH]; intros n Hn (p & Hp & Hm)%clone_None.
  - exists p, []. split_and!; [done|done|done|]. by constructor; [apply Hn|constructor].
  - destruct (Hn p Hp) as [m Em]. destruct (IH m) as (q & qs & Hq & Hch & Hl & Hf); [|by apply Hm|].
    { intros q Hq. apply (Hc p). by exists m. }
    exists p, (q :: qs). split_and!; [done|..].
    + cbn. split; [by exists m|done].
    + cbn. by rewrite Hl.
    + constructor; [by apply Hn|done].
Qed.

Lemma chain_tc table p ps q : chain table p ps → q ∈ ps → tc (alias_edge table) p q.
Proof.
  revert p. induction ps as [|x ps IH]; intros p; [by intros _ ?%not_elem_of_nil|].
  cbn. intros [He Hc] [->|Hq]%elem_of_cons; [by apply tc_once|]. eapply tc_l; [done|by apply IH].
Qed.
Lemma chain_endless table p ps : chain table p ps → ¬ NoDup (p :: ps) → endless table p.
Proof.
  revert p. induction ps as [|x ps IH]; intros p Hc Hn.
  - exfalso. apply Hn. apply NoDup_singleton.
  - destruct (decide (p ∈ x :: ps)) as [Hp|Hp].
    + exists p. split; [done|]. by eapply chain_tc.
    + destruct Hc as [He Hc]. destruct (IH x Hc) as (c & Hr & Ht).
      { intros Hd. apply Hn. by apply NoDup_cons. }
      exists c. split; [by eapply rtc_l|done].
Qed.

(** C25: the recursive copy of a document, with which every profile file is
    loaded, returns for exactly the documents in which no alias leads back to
    itself; the number of anchors bounds how deep aliases nest then, and for any
    other document, such as [x: &a [*a]], no amount of recursion is enough. *)
Theorem cloneYAMLNode_returns table n :
  closed_table table n →
  (is_Some (cloneYAMLNode (size table) table n) ↔ ∀ p, p ∈ aliases n → ¬ endless table p) ∧
  (∀ p, p ∈ aliases n → endless table p → ∀ fuel, cloneYAMLNode fuel table n = None) ∧
  (∀ fuel, (size table ≤ fuel)%nat → is_Some (cloneYAMLNode (size table) table n) →
     is_Some (cloneYAMLNode fuel table n)).
Proof.
  intros Hc. split_and!.
  - split.
    + intros [t Ht] p Hp He. by rewrite (endless_no_clone table n p Hp He) in Ht.
    + intros Hp. destruct (cloneYAMLNode (size table) table n) as [t|] eqn:E; [by eexists|exfalso].
      apply clone_None_chain in E as (p & ps & Hin & Hch & Hl & Hf); [|done].
      apply (Hp p Hin). eapply chain_endless; [done|]. intros Hd.
      assert (size (list_to_set (C:=gset Z) (p :: ps)) ≤ size (dom table))%nat as Hle.
      { apply subseteq_size. intros q Hq%elem_of_list_to_set. rewrite Forall_forall in Hf.
        by apply elem_of_dom, Hf. }
      rewrite size_list_to_set in Hle by done. rewrite size_dom in Hle. cbn in Hle. lia.
  - intros p Hp He fuel. by eapply endless_no_clone.
  - intros fuel Hle Hs. induction Hle as [|f Hle IH]; [done|]. destruct IH as [t Ht]. by eapply clone_more.
Qed.

(** ** What inheritance gives *)
Fixpoint tree_lookup (key : bytes) (content : list Tree) : option Tree :=
  match content with
  | k :: v :: rest => if decide (t_Value k = key) then Some v else tree_lookup key rest
  | _ => None
  end.
Inductive paired : list Tree → list bytes → Prop :=
| paired_nil : paired [] []
| paired_cons k v rest keys : paired rest keys → paired (k :: v :: rest) (t_Value k :: keys).

Fixpoint merge_pairs (oc content : list Tree) : list Tree :=
  match oc with
  | key :: value :: rest => merge_pairs rest (set_pair key value (λ old, mergeYAMLNodes old value) content)
  | _ => content
  end.
Lemma merge_mappings t v l bc a t' v' l' oc a' :
  mergeYAMLNodes (Detach MappingNode t v l bc a) (Detach MappingNode t' v' l' oc a') =
  Detach MappingNode t v l (merge_pairs oc bc) a.
Proof. reflexivity. Qed.

Lemma set_pair_paired key value change content keys :
  paired content keys → ∃ keys', paired (set_pair key value change content) keys'.
Proof.
  induction 1 as [|k v rest keys Hp [keys' IH]]; cbn.
  - eexists. repeat constructor.
  - case_decide; eexists; constructor; (exact Hp || exact IH).
Qed.
Lemma set_pair_lookup key value change content keys k :
  paired content keys →
  tree_lookup k (set_pair key value change content) =
  if decide (t_Value key = k) then Some (match tree_lookup k content with Some old => change old | None => value end)
  else tree_lookup k content.
Proof.
  induction 1 as [|k' v rest keys _ IH]; cbn; [by case_decide|].
  destruct (decide (t_Value k' = t_Value key)) as [E|E]; cbn.
  - rewrite E. by case_decide.
  - rewrite IH. destruct (decide (t_Value k' = k)), (decide (t_Value key = k)); congruence.
Qed.
Lemma tree_lookup_keys content keys k : paired content keys → k ∉ keys → tree_lookup k content = None.
Proof.
  induction 1 as [|k' v rest keys _ IH]; cbn; [done|]. intros [Hn Hk]%not_elem_of_cons.
  rewrite decide_False by congruence. by apply IH.
Qed.

(** C26: a profile that extends another inherits field by field: a field of one
    of the two documents is taken from it, a field of both is merged in the same
    way if both are mappings and otherwise is the extending profile's, with
    lists and empty values replacing the inherited ones, and no field is lost. *)
Theorem mergeYAMLNodes_fields t v l bc a t' v' l' oc a' base_keys keys :
  paired bc base_keys → paired oc keys → NoDup keys →
  ∃ content, mergeYAMLNodes (Detach MappingNode t v l bc a) (Detach MappingNode t' v' l' oc a') =
             Detach MappingNode t v l content a ∧
  ∀ k, tree_lookup k content =
    match tree_lookup k bc, tree_lookup k oc with
    | Some old, Some new =>
        Some (if decide (t_Kind old = MappingNode ∧ t_Kind new = MappingNode)
              then mergeYAMLNodes old new else new)
    | Some old, None => Some old
    | None, new => new
    end.
Proof.
  intros Hb Ho Hd. rewrite merge_mappings. eexists. split; [done|]. clear t v l a t' v' l' a'.
  assert (∀ old new, (if decide (t_Kind old = MappingNode ∧ t_Kind new = MappingNode)
                      then mergeYAMLNodes old new else new) = mergeYAMLNodes old new) as Hm.
  { intros [[] ? ? ? ? ?] [[] ? ? ? ? ?]; cbn; case_decide; try done; naive_solver. }
  revert bc base_keys Hb Hd. induction Ho as [|key value rest keys Ho IH]; intros bc base_keys Hb Hd k.
  - cbn. by destruct (tree_lookup k bc).
  - apply NoDup_cons in Hd as [Hn Hd]. cbn [merge_pairs tree_lookup].
    destruct (set_pair_paired key value (λ old, mergeYAMLNodes old value) bc base_keys Hb) as [keys' Hs].
    rewrite (IH _ keys' Hs Hd k), (set_pair_lookup _ _ _ _ base_keys) by done.
    destruct (decide (t_Value key = k)) as [<-|Hne]; [|done].
    rewrite (tree_lookup_keys rest keys) by done. by destruct (tree_lookup (t_Value key) bc); rewrite ?Hm.
Qed.

(** ** What a registry holds *)
Section registry_facts.
Context `{UnicodeTables} `{ProfileYaml}.
Variable fuel : nat.

Lemma sorted_lookup {A} (R : A → A → Prop) l i j a b :
  StronglySorted R l → l !! i = Some a → l !! j = Some b → (i < j)%nat → R a b.
Proof.
  intros Hs. revert i j. induction Hs as [|x l Hs IH Hx]; intros i j Hi Hj Hij; [done|].
  destruct j as [|j]; [lia|]. cbn in Hj. destruct i as [|i]; cbn in Hi.
  - injection Hi as ->. rewrite Forall_forall in Hx. apply Hx. by eapply list_elem_of_lookup_2.
  - apply (IH i j); [done..|lia].
Qed.

(** Two records, the first one registered before, do not collide, or one of
    them claims to replace a built-in profile. *)
Definition apart (a b : record) : Prop :=
  AllowBuiltinOverride (rc_profile a) = true ∨ AllowBuiltinOverride (rc_profile b) = true ∨
  (Name (rc_profile a) ≠ Name (rc_profile b) ∧ equal_fold (Model (rc_profile a)) (Model (rc_profile b)) = false).
Record sound_registry (records : list record) : Prop := {
  sr_valid : Forall (λ r, validateProfile (rc_profile r) = Ok tt) records;
  sr_apart : StronglySorted apart records;
}.

Lemma register_elem records source order p document builtin records' :
  registerRecord records source order p document builtin = Ok records' →
  ∀ r, r ∈ records' → r ∈ records ∨ r = MkRecord source builtin order p document.
Proof.
  revert records'. induction records as [|x records IH]; intros records'; cbn.
  - intros [= <-] r ->%list_elem_of_singleton. by right.
  - destruct (negb _).
    + destruct (registerRecord records source order p document builtin) as [rest|] eqn:E; cbn; [|done].
      intros [= <-] r [->|Hr]%elem_of_cons; [left; left|]. destruct (IH rest eq_refl r Hr); [left; by right|by right].
    + destruct (_ && _); [|by case_decide]. intros [= <-] r [->|Hr]%elem_of_cons; [by right|left; by right].
Qed.

Lemma register_apart records source order p document builtin records' :
  registerRecord records source order p document builtin = Ok records' →
  StronglySorted apart records → StronglySorted apart records'.
Proof.
  revert records'. induction records as [|x records IH]; intros records'; cbn.
  - intros [= <-] _. repeat constructor.
  - destruct (negb _) eqn:Ed.
    + destruct (registerRecord records source order p document builtin) as [rest|] eqn:E; cbn; [|done].
      intros [= <-] [Hs Hx]%StronglySorted_inv. constructor; [by apply IH|].
      rewrite Forall_forall in Hx |- *. intros r Hr.
      destruct (register_elem _ _ _ _ _ _ _ E r Hr) as [Hin| ->]; [by apply Hx|]. right; right.
      apply negb_true_iff, orb_false_elim in Ed as [En Em]. apply bool_decide_eq_false in En. done.
    + destruct (_ && _) eqn:Ea; [|by case_decide]. intros [= <-] [Hs Hx]%StronglySorted_inv.
      apply andb_prop in Ea as [Ea _]. constructor; [done|]. apply Forall_forall. intros r _. by left.
Qed.

Lemma register_sound records source order p document builtin records' :
  registerRecord records source order p document builtin = Ok records' →
  validateProfile p = Ok tt → sound_registry records → sound_registry records'.
Proof.
  intros Hr Hv [Hs Ha]. split; [|by eapply register_apart].
  rewrite Forall_forall in Hs |- *. intros r [Hin| ->]%(register_elem _ _ _ _ _ _ _ Hr); [by apply Hs|done].
Qed.

Lemma finish_valid p q : finish_profile p = Ok q → validateProfile q = Ok tt.
Proof.
  unfold finish_profile. cbv zeta. destruct (validateProfile (applyProfileDefaults p)) as [[]|] eqn:E; cbn; [|done].
  by intros [= <-].
Qed.
Lemma decode_external_valid records t d : decode_external records t = Ok d → validateProfile (dc_profile d) = Ok tt.
Proof.
  unfold decode_external. destruct (decodeProfileYAML t) as [p|]; cbn; [|done].
  destruct (if decide _ then _ else _) as [[q merged]|]; cbn; [|done].
  destruct (finish_profile q) as [q'|] eqn:E; cbn; [|done]. intros [= <-]. by eapply finish_valid.
Qed.

Lemma LoadFile_sound fs path records r records' :
  LoadFile fuel fs path records = Some (r, records') → sound_registry records → sound_registry records'.
Proof.
  unfold LoadFile. destruct (fl_ReadFile fs path) as [data|]; [|by intros [= _ <-]].
  unfold decodeExternalConfigRecord. destruct (decodeProfileDocument fuel data) as [[t|e]|]; cbn; [| |done].
  - destruct (decode_external records t) as [d|] eqn:Ed; [|by intros [= _ <-]].
    destruct (registerRecord _ _ _ _ _ _) as [rs|] eqn:Er; [|by intros [= _ <-]].
    intros [= _ <-]. eapply register_sound; [done|by eapply decode_external_valid].
  - by intros [= _ <-].
Qed.
Lemma load_files_sound fs paths records r records' :
  load_files fuel fs paths records = Some (r, records') → sound_registry records → sound_registry records'.
Proof.
  revert records. induction paths as [|p paths IH]; intros records; cbn; [by intros [= _ <-]|].
  destruct (LoadFile fuel fs p records) as [[[u|e] rs]|] eqn:E; cbn; [|by intros [= _ <-] ?; eapply LoadFile_sound|done].
  intros Hl Hs. eapply IH; [done|by eapply LoadFile_sound].
Qed.
Lemma LoadProfilePath_sound fs path records r records' :
  LoadProfilePath fuel fs path records = Some (r, records') → sound_registry records → sound_registry records'.
Proof.
  unfold LoadProfilePath. destruct (fl_Stat fs path) as [[]|]; [|by eapply LoadFile_sound|by intros [= _ <-]].
  destruct (fl_ReadDir fs path); [by eapply load_files_sound|by intros [= _ <-]].
Qed.
Lemma load_builtins_sound profiles records records' :
  load_builtins fuel profiles records = Some (Ok records') → sound_registry records → sound_registry records'.
Proof.
  revert records. induction profiles as [|[path data] profiles IH]; intros records; cbn; [by intros [= <-]|].
  unfold decodeConfigRecord. destruct (decodeProfileDocument fuel data) as [[t|e]|]; cbn; [|done..].
  destruct (decodeProfileYAML t) as [p|]; cbn; [|done]. destruct (finish_profile p) as [q|] eqn:Ef; cbn; [|done].
  destruct (registerRecord _ _ _ _ _ _) as [rs|] eqn:Er; [|done]. intros Hl Hs.
  eapply IH; [done|]. eapply register_sound; [done|by eapply finish_valid|done].
Qed.

Definition load_step (a b : list record) : Prop := ∃ fs path r, LoadProfilePath fuel fs path a = Some (r, b).

(** C24: whatever profile files and directories are loaded on top of the
    built-in ones, and also after a load that failed half way: a profile that is
    found has passed the validation and has the requested name or model; and two
    registered profiles, none of which claims to replace a built-in one, have
    different names and models that differ in more than letter case. *)
Theorem registry_sound builtins start records :
  load_builtins fuel builtins [] = Some (Ok start) → rtc load_step start records →
  (∀ name p, LookupProfile records name = Some p →
     validateProfile p = Ok tt ∧
     (to_lower (Name p) = to_lower (trim_space name) ∨ to_lower (Model p) = to_lower (trim_space name))) ∧
  (∀ i j a b, records !! i = Some a → records !! j = Some b → (i < j)%nat →
     AllowBuiltinOverride (rc_profile a) = false → AllowBuiltinOverride (rc_profile b) = false →
     Name (rc_profile a) ≠ Name (rc_profile b) ∧
     equal_fold (Model (rc_profile a)) (Model (rc_profile b)) = false).
Proof.
  intros Hb Hr. assert (sound_registry records) as [Hv Ha].
  { eapply load_builtins_sound in Hb; [|split; constructor].
    induction Hr as [|x y z (fs & path & r & Hl) _ IH]; [done|]. apply IH. by eapply LoadProfilePath_sound. }
  split.
  - intros name p. unfold LookupProfile, lookupRecord. intros (r & Hf & ->)%fmap_Some.
    apply find_some in Hf as [Hin%list_elem_of_In Hn]. rewrite Forall_forall in Hv.
    split; [exact (Hv r Hin)|]. unfold answers_to in Hn. apply orb_prop in Hn as [Hn|Hn];
      apply bool_decide_eq_true in Hn; [by left|by right].
  - intros i j a b Hi Hj Hij Ea Eb. destruct (sorted_lookup apart records i j a b Ha Hi Hj Hij) as [|[|]]; [congruence..|done].
Qed.
End registry_facts.

(** ** Port groups *)
Fixpoint counts_sum (groups : list PortGroup) : Z :=
  match groups with [] => 0 | g :: rest => gr_Count g + counts_sum rest end.

Lemma group_checks_sum groups total uplinks total' uplinks' :
  group_checks groups total uplinks = Ok (total', uplinks') →
  Forall (λ g, 1 ≤ gr_Count g ∧ 0 ≤ gr_Speed g) groups ∧
  (0 ≤ total → total + counts_sum groups ≤ int64_max → total' = total + counts_sum groups).
Proof.
  revert total uplinks. induction groups as [|g groups IH]; intros total uplinks; cbn.
  - intros [= <- <-]. split; [constructor|lia].
  - destruct (gr_Count g <? 1) eqn:Ec; [done|]. destruct (gr_Speed g <? 0) eqn:Es; [done|].
    intros [Hf Hs]%IH. split; [constructor; [lia|done]|]. intros Ht Hb.
    assert (0 ≤ counts_sum groups) by (clear -Hf; induction Hf as [|x l [? _] _ IHl]; cbn; lia).
    rewrite wrap64_id in Hs by (unfold in_int64, int64_min, int64_max in *; lia). lia.
Qed.

Lemma port_groups_cover p :
  validatePortGroups p = Ok tt → counts_sum (PortGroups p) ≤ int64_max →
  PortGroups p = [] ∨ counts_sum (PortGroups p) = PortCount p.
Proof.
  unfold validatePortGroups. destruct (group_checks (PortGroups p) 0 0) as [[total uplinks]|] eqn:Eg; cbn; [|done].
  apply group_checks_sum in Eg as [_ Ht]. intros Hv Hs. rewrite Ht in Hv by lia.
  destruct (PortGroups p) as [|g groups]; [by left|right].
  destruct ((0 <? zlen (g :: groups)) && _) eqn:E; [done|]. apply andb_false_iff in E as [E|E].
  - rewrite zlen_cons in E. pose proof (zlen_nonneg groups). lia.
  - bool_to_prop. lia.
Qed.

(** The groups of a valid profile cover its ports, unless the sum of their
    counts overflows an [int]. *)
Lemma valid_groups_cover `{UnicodeTables} p :
  validateProfile p = Ok tt → counts_sum (PortGroups p) ≤ int64_max →
  1 ≤ PortCount p ∧ (PortGroups p = [] ∨ counts_sum (PortGroups p) = PortCount p).
Proof.
  unfold validateProfile. intros Hv Hs.
  destruct (PortCount p <? 1) eqn:Ep; [by inv_ok|]. split; [lia|].
  destruct (validatePortGroups p) as [[]|] eqn:Eg; [by apply port_groups_cover|by inv_ok].
Qed.

Lemma valid_groups `{UnicodeTables} p :
  validateProfile p = Ok tt → Forall (λ g, 1 ≤ gr_Count g ∧ 0 ≤ gr_Speed g) (PortGroups p).
Proof.
  unfold validateProfile. intros Hv. destruct (validatePortGroups p) as [[]|] eqn:Eg; [|by inv_ok].
  unfold validatePortGroups in Eg. destruct (group_checks (PortGroups p) 0 0) as [[]|] eqn:E; [|done].
  by apply group_checks_sum in E as [Hf _].
Qed.

(** ** Behaviour that is not meant *)
#[local] Existing Instance ascii_tables.

Definition with_names (name model : bytes) (override : bool) (groups : list PortGroup) : Profile := {|
  Source := []; SourceType := []; SchemaVersion := 1; Extends := []; AllowBuiltinOverride := override;
  Order := 0; Name := name; Model := model; ModelDisplay := []; DeviceType := B "usw"; Version := [];
  PortCount := 8; PortGroups := groups; PortNames := []; PortRoles := []; PortNetworkGroups := [];
  PortSpeed := 1000; UplinkSpeed := 1000; PortMedia := []; UplinkMedia := [];
  Stability := stabilityExternal; Recommended := false; ValidatedControllerVersions := [];
  Payload := MkPayloadProfile payloadKindSwitch defaultRequiredVersion defaultMgmtInterface
               defaultGatewayPrefix false; Description := [] |}.
Definition no_tree : Tree := Detach MappingNode [] [] no_look [] None.
Definition two_builtins : list record :=
  [MkRecord (B "p1") true 0 (with_names (B "us8") (B "US8") false []) no_tree;
   MkRecord (B "p2") true 0 (with_names (B "us8p60") (B "US8P60") false []) no_tree].

(** A profile that replaces one built-in profile by its name may carry the model
    of another, which is then found under it. *)
Lemma override_takes_foreign_model :
  match registerRecord two_builtins (B "f") 0 (with_names (B "us8") (B "us8p60") true []) no_tree false with
  | Ok records => Name <$> LookupProfile records (B "us8p60") = Some (B "us8") ∧ length records = 2%nat
  | Err _ => False
  end.
Proof. by vm_compute. Qed.

(** A name may be the model of an earlier profile, which then hides it. *)
Lemma name_hidden_by_model :
  match registerRecord two_builtins (B "f") 0 (with_names (B "US8P60") (B "X") false []) no_tree false with
  | Ok records => Name <$> LookupProfile records (B "US8P60") = Some (B "us8p60") ∧ length records = 3%nat
  | Err _ => False
  end.
Proof. by vm_compute. Qed.

(** Group counts whose sum wraps around pass. *)
Lemma wrapped_groups_accepted :
  validateProfile (with_names (B "n") (B "m") false
    [MkPortGroup int64_max 0 [] false; MkPortGroup int64_max 0 [] false; MkPortGroup 10 0 [] false]) = Ok tt.
Proof. by vm_compute. Qed.

(** ** Witnesses *)
Lemma templates_valid :
  is_ok (finish_profile switch_template) = true ∧ is_ok (finish_profile gateway_template) = true.
Proof. by vm_compute. Qed.

Definition scalar (v : bytes) (a : option Z) : Node :=
  MkNode (match a with Some _ => AliasNode | None => ScalarNode end) [] v no_look [] a.
Definition shared_list : Node := MkNode SequenceNode [] [] no_look [scalar (B "wan") None] None.
Definition aliased_document : Node :=
  MkNode MappingNode [] [] no_look [scalar (B "a") None; shared_list; scalar (B "b") None; scalar (B "x") (Some 1)] None.

Lemma cloneYAMLNode_returns_witness :
  closed_table {[1 := shared_list]} aliased_document ∧
  is_Some (cloneYAMLNode 1 {[1 := shared_list]} aliased_document) ∧
  (∀ p, p ∈ aliases aliased_document → ¬ endless {[1 := shared_list]} p) ∧
  (let self := MkNode SequenceNode [] [] no_look [scalar (B "a") (Some 1)] None in
   ∀ fuel, cloneYAMLNode fuel {[1 := self]} self = None).
Proof.
  assert (closed_table {[1 := shared_list]} aliased_document) as Hc.
  { split.
    - intros p Hp. cbn in Hp. apply list_elem_of_singleton in Hp as ->. by eexists.
    - intros p q (m & Hm & Hq). apply lookup_singleton_Some in Hm as [_ <-]. by apply not_elem_of_nil in Hq. }
  split; [exact Hc|]. split; [by eexists|]. split.
  - apply (cloneYAMLNode_returns {[1 := shared_list]} aliased_document Hc). by eexists.
  - intros self.
    assert (alias_edge {[1 := self]} 1 1) as He by (exists self; split; [done|by left]).
    assert (closed_table {[1 := self]} self) as Hs.
    { split; [intros p Hp|intros p q (m & Hm & Hq)].
      - apply list_elem_of_singleton in Hp as ->. by eexists.
      - apply lookup_singleton_Some in Hm as [_ <-]. apply list_elem_of_singleton in Hq as ->. by eexists. }
    apply (cloneYAMLNode_returns {[1 := self]} self Hs) with (p := 1); [by left|].
    exists 1. split; [done|by apply tc_once].
Defined.

Definition leaf (v : bytes) : Tree := Detach ScalarNode [] v no_look [] None.
Lemma mergeYAMLNodes_fields_witness :
  ∃ content, mergeYAMLNodes
      (Detach MappingNode [] [] no_look [leaf (B "name"); leaf (B "us8"); leaf (B "ports"); leaf (B "8")] None)
      (Detach MappingNode [] [] no_look [leaf (B "extends"); leaf (B "us8"); leaf (B "name"); leaf []] None) =
    Detach MappingNode [] [] no_look content None ∧
    tree_lookup (B "name") content = Some (leaf []) ∧ tree_lookup (B "ports") content = Some (leaf (B "8")).
Proof.
  destruct (mergeYAMLNodes_fields [] [] no_look [leaf (B "name"); leaf (B "us8"); leaf (B "ports"); leaf (B "8")] None
              [] [] no_look [leaf (B "extends"); leaf (B "us8"); leaf (B "name"); leaf []] None
              [B "name"; B "ports"] [B "extends"; B "name"]) as (content & Hm & Hl).
  - repeat constructor.
  - repeat constructor.
  - refine (bool_decide_unpack _ _). vm_compute. exact I.
  - exists content. split; [exact Hm|]. split; rewrite Hl; reflexivity.
Defined.

Definition plain_yaml : ProfileYaml := {|
  yaml_document data := Ok (scalar data None, ∅);
  yaml_marshal t := match t with Some t => Ok (t_Value t) | None => Err "null"%stdpp end;
  yaml_profile data :=
    if decide (data = B "switch") then Ok switch_template
    else if decide (data = B "gateway") then Ok gateway_template else Err "unknown"%stdpp;
  yaml_marshal_profile p := Ok (Name p) |}.
#[local] Existing Instance plain_yaml.
Definition one_file : files := MkFiles (λ _, Some false) (λ _, None) (λ _, Some (B "gateway")).
Definition started_records : list record := Eval vm_compute in
  match load_builtins 0 [(B "p", B "switch")] [] with Some (Ok records) => records | _ => [] end.
Definition loaded_records : list record := Eval vm_compute in
  match LoadProfilePath 0 one_file (B "g.yaml") started_records with Some (_, records) => records | _ => [] end.

Lemma registry_sound_witness :
  load_builtins 0 [(B "p", B "switch")] [] = Some (Ok started_records) ∧
  rtc (load_step 0) started_records loaded_records ∧
  ∃ p, LookupProfile loaded_records (B " CustomGW ") = Some p ∧ validateProfile p = Ok tt.
Proof.
  assert (load_builtins 0 [(B "p", B "switch")] [] = Some (Ok started_records)) as Hb by (vm_compute; reflexivity).
  assert (rtc (load_step 0) started_records loaded_records) as Hr.
  { apply rtc_once. exists one_file, (B "g.yaml"), (Ok tt). vm_compute. reflexivity. }
  split; [exact Hb|]. split; [exact Hr|].
  destruct (registry_sound 0 [(B "p", B "switch")] started_records loaded_records Hb Hr) as [Hl _].
  assert (is_Some (LookupProfile loaded_records (B " CustomGW "))) as [p Hp] by (vm_compute; eexists; reflexivity).
  exists p. split; [exact Hp|]. apply (Hl (B " CustomGW ") p Hp).
Defined.
