(* ===== verification/Settings.v ===== *)
(** How defaults, the YAML file and the command line make the runtime settings:
    [config.go], [config_clone.go], [settings*.go], [flags.go] and
    [inform_schedule.go] of [src/cmd/unifi-stubd], and [defaults.go], [load.go],
    [types.go] and [flagvalue/mapping.go] of [src/internal/config].

    A field of [runtimeFlags] that a pointer function of a setting selects is a
    constructor of [stringField], [intField], [boolField] or [durationField], so
    that the settings tables are data.  The argument loop is that of package
    [flag]; the number and duration syntax of [flag] and the YAML decoder are
    parameters. *)
From stdpp Require Import gmap.
From S2P Require Import Prelude GoStrings Overrides ObserveSources Topology Ports Identity InformSchedule RuntimeConfig.

(** ** config/types.go, config/defaults.go *)
Record Config := MkConfig {
  cfg_OperationMode : bytes; cfg_ControllerURL : bytes; cfg_Profile : bytes; cfg_ProfileFile : bytes;
  cfg_ProfileDir : bytes; cfg_MAC : bytes; cfg_IP : bytes; cfg_Hostname : bytes; cfg_Model : bytes;
  cfg_ModelDisplay : bytes; cfg_Ports : Z; cfg_LinkSpeed : Z; cfg_UplinkSpeed : bytes; cfg_UplinkPort : Z;
  cfg_UplinkNeighbor : option UplinkNeighbor; cfg_PortNeighbors : list ConfigPortNeighbor;
  cfg_PortOverrides : list PortOverride; cfg_WANHealth : WANHealthConfig; cfg_BridgeObserve : BridgeObserve;
  cfg_PortMappings : list PortMapping; cfg_ObserveInterface : bytes; cfg_ObserveBridge : bytes;
  cfg_LLDPSource : bytes; cfg_TrafficRatesEnabled : bool; cfg_ProcSource : bytes; cfg_InstanceGuard : bytes;
  cfg_InstanceGuardPath : bytes; cfg_Version : bytes; cfg_IntervalSeconds : Z;
  cfg_ControllerIntervalMinSeconds : Z; cfg_ControllerIntervalMaxSeconds : Z;
  cfg_InformBackoffMaxSeconds : Z; cfg_InformBackoffJitterPercent : Z; cfg_NoDiscovery : bool;
  cfg_DiscoveryInterface : bytes; cfg_DiscoveryTargets : list bytes; cfg_ManagementLAN : ManagementLAN;
  cfg_SSHListen : bytes; cfg_SSHUser : bytes; cfg_SSHPassword : bytes; cfg_SSHHostKeyPath : bytes;
  cfg_StatePath : bytes; cfg_StatusPath : bytes;
}.
Definition DefaultPath : bytes := B "/etc/unifi-stubd/config.yaml".
Definition automaticValue : bytes := B "auto".
Definition sourceOffValue : bytes := B "off".
Definition Default : Config := {|
  cfg_OperationMode := B "stub"; cfg_ControllerURL := []; cfg_Profile := []; cfg_ProfileFile := [];
  cfg_ProfileDir := []; cfg_MAC := automaticValue; cfg_IP := B "192.168.1.50"; cfg_Hostname := automaticValue;
  cfg_Model := []; cfg_ModelDisplay := []; cfg_Ports := 0; cfg_LinkSpeed := 0;
  cfg_UplinkSpeed := automaticValue; cfg_UplinkPort := 0; cfg_UplinkNeighbor := None;
  cfg_PortNeighbors := []; cfg_PortOverrides := [];
  cfg_WANHealth := MkWANHealthConfig sourceOffValue 10 1000 [];
  cfg_BridgeObserve := MkBridgeObserve [] [] [] []; cfg_PortMappings := []; cfg_ObserveInterface := [];
  cfg_ObserveBridge := []; cfg_LLDPSource := sourceOffValue; cfg_TrafficRatesEnabled := false;
  cfg_ProcSource := sourceOffValue; cfg_InstanceGuard := B "fail";
  cfg_InstanceGuardPath := B "/var/lib/unifi-stubd/instance.lock"; cfg_Version := [];
  cfg_IntervalSeconds := 10; cfg_ControllerIntervalMinSeconds := 5; cfg_ControllerIntervalMaxSeconds := 60;
  cfg_InformBackoffMaxSeconds := 300; cfg_InformBackoffJitterPercent := 20; cfg_NoDiscovery := false;
  cfg_DiscoveryInterface := []; cfg_DiscoveryTargets := [];
  cfg_ManagementLAN := MkManagementLAN false 0 [] [] [] [] [] []; cfg_SSHListen := [];
  cfg_SSHUser := B "ubnt"; cfg_SSHPassword := B "ubnt";
  cfg_SSHHostKeyPath := B "/var/lib/unifi-stubd/ssh_host_rsa_key";
  cfg_StatePath := B "/var/lib/unifi-stubd/adoption.env"; cfg_StatusPath := B "/var/lib/unifi-stubd/status.json";
|}.

(** ** config/load.go and [loadConfig]

    What reading the file gives; the YAML decoder gets the record it overlays. *)
Inductive read_result := FileRead (data : bytes) | FileMissing | FileUnreadable.
Class ConfigYaml := { yaml_config : bytes → Config → result error Config }.

Section load.
Context `{UnicodeTables} `{ConfigYaml}.

Definition Decode (data : bytes) : result error Config :=
  wrap_err "decode config YAML" (yaml_config data Default).
Definition Load (read : bytes → read_result) (path : bytes) : result error Config :=
  match read path with
  | FileMissing | FileUnreadable => Err "read config"%stdpp
  | FileRead data => wrap_err "parse config" (Decode data)
  end.
Definition loadConfig (read : bytes → read_result) (path : bytes) (explicit : bool) : result error Config :=
  if decide (trim_space path = []) then Ok Default
  else
    match Load read path with
    | Ok cfg => Ok cfg
    | Err e =>
        match read path, explicit with
        | FileMissing, false => Ok Default
        | _, _ => wrap_err "load config" (Err e)
        end
    end.
End load.

(** ** flagvalue/mapping.go *)
Section flagvalue.
Context `{UnicodeTables}.

Definition StringList_Set (value : bytes) (f : list bytes) : result error (list bytes) :=
  let value := trim_space value in
  if bool_decide (value = []) || contains (B "/") value then Err "invalid value"%stdpp else Ok (f ++ [value]).
Definition StringList_String (f : list bytes) : bytes := join (B ",") f.

Definition BridgeMemberPortMap_Set (value : bytes) (f : list BridgeMemberPortMap)
    : result error (list BridgeMemberPortMap) :=
  match cut_byte x3d (trim_space value) with
  | None => Err "invalid bridge member port map"%stdpp
  | Some (member, portText) =>
      match atoi (trim_space portText) with
      | None => Err "invalid bridge member port"%stdpp
      | Some port =>
          if port <? 1 then Err "invalid bridge member port"%stdpp
          else
            let member := trim_space member in
            if bool_decide (member = []) || contains (B "/") member then Err "invalid bridge member"%stdpp
            else Ok (f ++ [MkMemberPort member port])
      end
  end.
Definition BridgeMemberPortMap_String (f : list BridgeMemberPortMap) : bytes :=
  join (B ",") (map (λ m, bm_Member m ++ B "=" ++ itoa (bm_Port m)) f).

Definition parse_field (out : gmap bytes bytes) (field : bytes) : gmap bytes bytes :=
  match cut_byte x3d (trim_space field) with
  | None => out
  | Some (key, fieldValue) => <[to_lower (trim_space key) := trim_space fieldValue]> out
  end.
Definition parseCommaKeyValues (value : bytes) : gmap bytes bytes :=
  fold_left parse_field (split_byte x2c value) ∅.
Definition parseBoolField (value : bytes) : bool :=
  bool_decide (to_lower (trim_space value) ∈ [B "1"; B "true"; B "yes"; B "on"]).
(** A missing key of a Go map reads as the empty string. *)
Definition read_field (fields : gmap bytes bytes) (key : bytes) : bytes := default [] (fields !! key).

Definition PortMapping_Set (value : bytes) (f : list PortMapping) : result error (list PortMapping) :=
  let fields := parseCommaKeyValues value in
  match atoi (read_field fields (B "port")) with
  | None => Err "invalid port mapping"%stdpp
  | Some port =>
      if port <? 1 then Err "invalid port mapping"%stdpp
      else
        Ok (f ++ [MkMapping port (trim_space (read_field fields (B "interface")))
                    (parseBoolField (read_field fields (B "disabled")))
                    (parseBoolField (read_field fields (B "unmapped")))])
  end.
Definition bool_text (b : bool) : bytes := if b then B "true" else B "false".
Definition mapping_text (m : PortMapping) : bytes :=
  B "port=" ++ itoa (pm_Port m) ++ B ",interface=" ++ pm_Interface m ++ B ",disabled=" ++
  bool_text (pm_Disabled m) ++ B ",unmapped=" ++ bool_text (pm_Unmapped m).
Definition PortMapping_String (f : list PortMapping) : bytes := join (B ";") (map mapping_text f).
End flagvalue.

(** ** flags.go: the fields of [runtimeFlags] *)
Inductive stringField :=
| fs_configPath | fs_profileValidate | fs_profileExport | fs_profileTemplate | fs_operationMode |
  fs_profileName | fs_profileFile | fs_profileDir | fs_macText | fs_ipText | fs_hostname | fs_model
  | fs_modelDisplay | fs_version | fs_uplinkSpeed | fs_observeInterface | fs_observeBridge |
  fs_bridgeObserve_Bridge | fs_bridgeObserve_UplinkInterface | fs_lldpSource | fs_procSource |
  fs_controller | fs_discoveryInterface | fs_managementLAN_Mode | fs_managementLAN_Interface |
  fs_managementLAN_IP | fs_managementLAN_NetworkName | fs_managementLAN_ControllerReachable |
  fs_managementLAN_AdoptionStrategy | fs_instanceGuard | fs_instanceGuardPath | fs_sshListen |
  fs_sshUser | fs_sshPassword | fs_sshHostKey | fs_sshState | fs_statusPath.
Inductive intField :=
| fi_portCount | fi_linkSpeed | fi_uplinkPort | fi_informBackoffJitterPercent |
  fi_managementLAN_VLAN.
Inductive boolField :=
| fb_listProfiles | fb_validate | fb_configMigrate | fb_configMigrateDryRun | fb_binaryVersion |
  fb_dryRun | fb_dryRunPlan | fb_status | fb_statusJSON | fb_once | fb_trafficRatesEnabled |
  fb_noDiscovery | fb_managementLAN_Enabled.
Inductive durationField := fd_interval | fd_controllerIntervalMin | fd_controllerIntervalMax | fd_informBackoffMax.
#[export] Instance stringField_eq : EqDecision stringField.
Proof. solve_decision. Defined.
#[export] Instance intField_eq : EqDecision intField.
Proof. solve_decision. Defined.
#[export] Instance boolField_eq : EqDecision boolField.
Proof. solve_decision. Defined.
#[export] Instance durationField_eq : EqDecision durationField.
Proof. solve_decision. Defined.

Inductive target := TString (f : stringField) | TInt (f : intField) | TBool (f : boolField) | TDuration (f : durationField).
#[export] Instance target_eq : EqDecision target.
Proof. solve_decision. Defined.
Inductive value := VString (s : bytes) | VInt (z : Z) | VBool (b : bool) | VDuration (d : Z).

Record settings := MkSettings {
  st_string : stringField → bytes; st_int : intField → Z; st_bool : boolField → bool;
  st_duration : durationField → Z;
  st_uplinkNeighbor : option TopologyNeighbor; st_portNeighbors : list PortNeighbor;
  st_portOverrides : list PortOverride; st_wanHealth : WANHealthConfig;
  st_ignoredMembers : list bytes; st_memberPortMap : list BridgeMemberPortMap;
  st_portMappings : list PortMapping; st_discoveryTargets : list bytes;
}.

(** [*target(flags)] and [*target(flags) = v]; a value of another type is not
    built by any setting. *)
Definition get (t : target) (f : settings) : value :=
  match t with
  | TString x => VString (st_string f x)
  | TInt x => VInt (st_int f x)
  | TBool x => VBool (st_bool f x)
  | TDuration x => VDuration (st_duration f x)
  end.
Definition update {A V} `{EqDecision A} (a : A) (v : V) (g : A → V) : A → V :=
  λ x, if decide (x = a) then v else g x.
Definition put (t : target) (v : value) (f : settings) : settings :=
  let '(MkSettings s i b d un pn po wh im mp pm dt) := f in
  match t, v with
  | TString x, VString v => MkSettings (update x v s) i b d un pn po wh im mp pm dt
  | TInt x, VInt v => MkSettings s (update x v i) b d un pn po wh im mp pm dt
  | TBool x, VBool v => MkSettings s i (update x v b) d un pn po wh im mp pm dt
  | TDuration x, VDuration v => MkSettings s i b (update x v d) un pn po wh im mp pm dt
  | _, _ => f
  end.

(** ** settings.go *)
Record runtimeSetting := MkSetting {
  flagName : bytes; rs_target : target; rs_default : Config → value; rs_source : Config → option value;
}.
Definition second : Z := 1000000000.
Definition seconds (n : Z) : Z := wrap64 (n * second).
Definition stringSetting (name : bytes) (t : stringField) (source : Config → bytes) : runtimeSetting :=
  MkSetting name (TString t) (λ c, VString (source c)) (λ c, Some (VString (source c))).
Definition intSetting (name : bytes) (t : intField) (source : Config → Z) : runtimeSetting :=
  MkSetting name (TInt t) (λ c, VInt (source c)) (λ c, Some (VInt (source c))).
Definition boolSetting (name : bytes) (t : boolField) (source : Config → bool) : runtimeSetting :=
  MkSetting name (TBool t) (λ c, VBool (source c)) (λ c, Some (VBool (source c))).
(** config.go, [applyConfigInterval]: a YAML interval that is not positive is
    not applied. *)
Definition applyConfigInterval (c : Config) : option value :=
  if 0 <? cfg_IntervalSeconds c then Some (VDuration (seconds (cfg_IntervalSeconds c))) else None.
Definition intervalSetting : runtimeSetting :=
  MkSetting (B "interval") (TDuration fd_interval) (λ c, VDuration (seconds (cfg_IntervalSeconds c)))
    applyConfigInterval.
Definition secondsDurationSetting (name : bytes) (t : durationField) (source : Config → Z) : runtimeSetting :=
  MkSetting name (TDuration t) (λ c, VDuration (seconds (source c))) (λ c, Some (VDuration (seconds (source c)))).

Definition deviceRuntimeSettings : list runtimeSetting := [
  stringSetting (B "operation-mode") fs_operationMode cfg_OperationMode;
  stringSetting (B "profile") fs_profileName cfg_Profile;
  stringSetting (B "profile-file") fs_profileFile cfg_ProfileFile;
  stringSetting (B "profile-dir") fs_profileDir cfg_ProfileDir;
  stringSetting (B "mac") fs_macText cfg_MAC;
  stringSetting (B "ip") fs_ipText cfg_IP;
  stringSetting (B "hostname") fs_hostname cfg_Hostname;
  stringSetting (B "model") fs_model cfg_Model;
  stringSetting (B "model-display") fs_modelDisplay cfg_ModelDisplay;
  stringSetting (B "firmware-version") fs_version cfg_Version;
  intSetting (B "ports") fi_portCount cfg_Ports;
  intSetting (B "link-speed") fi_linkSpeed cfg_LinkSpeed;
  stringSetting (B "uplink-speed") fs_uplinkSpeed cfg_UplinkSpeed;
  intSetting (B "uplink-port") fi_uplinkPort cfg_UplinkPort
].
Definition observationRuntimeSettings : list runtimeSetting := [
  stringSetting (B "observe-interface") fs_observeInterface cfg_ObserveInterface;
  stringSetting (B "observe-bridge") fs_observeBridge cfg_ObserveBridge;
  stringSetting (B "bridge-observe-bridge") fs_bridgeObserve_Bridge (λ c, bv_Bridge (cfg_BridgeObserve c));
  stringSetting (B "bridge-observe-uplink-interface") fs_bridgeObserve_UplinkInterface
    (λ c, bv_UplinkInterface (cfg_BridgeObserve c));
  stringSetting (B "lldp-source") fs_lldpSource cfg_LLDPSource;
  boolSetting (B "traffic-rates-enabled") fb_trafficRatesEnabled cfg_TrafficRatesEnabled;
  stringSetting (B "proc-source") fs_procSource cfg_ProcSource
].
Definition networkRuntimeSettings : list runtimeSetting := [
  stringSetting (B "controller") fs_controller cfg_ControllerURL;
  intervalSetting;
  secondsDurationSetting (B "controller-interval-min") fd_controllerIntervalMin cfg_ControllerIntervalMinSeconds;
  secondsDurationSetting (B "controller-interval-max") fd_controllerIntervalMax cfg_ControllerIntervalMaxSeconds;
  secondsDurationSetting (B "inform-backoff-max") fd_informBackoffMax cfg_InformBackoffMaxSeconds;
  intSetting (B "inform-backoff-jitter-percent") fi_informBackoffJitterPercent cfg_InformBackoffJitterPercent;
  boolSetting (B "no-discovery") fb_noDiscovery cfg_NoDiscovery;
  stringSetting (B "discovery-interface") fs_discoveryInterface cfg_DiscoveryInterface
].
Definition managementRuntimeSettings : list runtimeSetting := [
  boolSetting (B "management-lan-enabled") fb_managementLAN_Enabled
    (λ c, ml_Enabled (cfg_ManagementLAN c));
  intSetting (B "management-lan-vlan") fi_managementLAN_VLAN (λ c, ml_VLAN (cfg_ManagementLAN c));
  stringSetting (B "management-lan-mode") fs_managementLAN_Mode (λ c, ml_Mode (cfg_ManagementLAN c));
  stringSetting (B "management-lan-interface") fs_managementLAN_Interface
    (λ c, ml_Interface (cfg_ManagementLAN c));
  stringSetting (B "management-lan-ip") fs_managementLAN_IP (λ c, ml_IP (cfg_ManagementLAN c));
  stringSetting (B "management-lan-network") fs_managementLAN_NetworkName
    (λ c, ml_NetworkName (cfg_ManagementLAN c));
  stringSetting (B "management-lan-controller-reachable") fs_managementLAN_ControllerReachable
    (λ c, ml_ControllerReachable (cfg_ManagementLAN c));
  stringSetting (B "management-lan-adoption-strategy") fs_managementLAN_AdoptionStrategy
    (λ c, ml_AdoptionStrategy (cfg_ManagementLAN c))
].
Definition serviceRuntimeSettings : list runtimeSetting := [
  stringSetting (B "instance-guard") fs_instanceGuard cfg_InstanceGuard;
  stringSetting (B "instance-guard-path") fs_instanceGuardPath cfg_InstanceGuardPath;
  stringSetting (B "ssh-listen") fs_sshListen cfg_SSHListen;
  stringSetting (B "ssh-user") fs_sshUser cfg_SSHUser;
  stringSetting (B "ssh-password") fs_sshPassword cfg_SSHPassword;
  stringSetting (B "ssh-host-key") fs_sshHostKey cfg_SSHHostKeyPath;
  stringSetting (B "ssh-state") fs_sshState cfg_StatePath;
  stringSetting (B "status-path") fs_statusPath cfg_StatusPath
].
Definition runtimeSettings : list runtimeSetting :=
  deviceRuntimeSettings ++ observationRuntimeSettings ++ networkRuntimeSettings ++
  managementRuntimeSettings ++ serviceRuntimeSettings.

Definition apply_setting (changed : list bytes) (c : Config) (f : settings) (s : runtimeSetting) : settings :=
  if decide (flagName s ∈ changed) then f
  else match rs_source s c with Some v => put (rs_target s) v f | None => f end.

(** ** config.go, config_clone.go *)
Definition applyConfig (c : Config) (changed : list bytes) (f : settings) : settings :=
  let f := fold_left (apply_setting changed c) runtimeSettings f in
  let bridge := cfg_BridgeObserve c in
  {| st_string := st_string f; st_int := st_int f; st_bool := st_bool f; st_duration := st_duration f;
     st_uplinkNeighbor := configUplinkNeighbor (cfg_UplinkNeighbor c);
     st_portNeighbors := configPortNeighbors (cfg_PortNeighbors c);
     st_portOverrides := cfg_PortOverrides c;
     st_wanHealth := cfg_WANHealth c;
     st_ignoredMembers :=
       if decide (B "bridge-ignore-member" ∈ changed) then st_ignoredMembers f else bv_IgnoredMembers bridge;
     st_memberPortMap :=
       if decide (B "bridge-member-port" ∈ changed) then st_memberPortMap f else bv_MemberPortMap bridge;
     st_portMappings := if decide (B "port-map" ∈ changed) then st_portMappings f else cfg_PortMappings c;
     st_discoveryTargets := cfg_DiscoveryTargets c |}.

(** ** flags.go: registration and package [flag] *)
Definition register (defaults : Config) (f : settings) (s : runtimeSetting) : settings :=
  put (rs_target s) (rs_default s defaults) f.
(** The flags outside the tables; those of the false and empty defaults first. *)
Definition plain_flags : list (bytes * target) := [
  (B "config", TString fs_configPath); (B "list-profiles", TBool fb_listProfiles);
  (B "validate", TBool fb_validate); (B "config-migrate", TBool fb_configMigrate);
  (B "config-migrate-dry-run", TBool fb_configMigrateDryRun);
  (B "profile-validate", TString fs_profileValidate); (B "profile-export", TString fs_profileExport);
  (B "profile-template", TString fs_profileTemplate); (B "version", TBool fb_binaryVersion);
  (B "dry-run", TBool fb_dryRun); (B "dry-run-plan", TBool fb_dryRunPlan); (B "status", TBool fb_status);
  (B "status-json", TBool fb_statusJSON); (B "once", TBool fb_once)
].
Inductive flag_kind := FlagTarget (t : target) | FlagIgnoreMember | FlagMemberPort | FlagPortMap.
Definition list_flags : list (bytes * flag_kind) := [
  (B "bridge-ignore-member", FlagIgnoreMember); (B "bridge-member-port", FlagMemberPort);
  (B "port-map", FlagPortMap)
].
Definition all_flags : list (bytes * flag_kind) :=
  map (λ p, (p.1, FlagTarget p.2)) plain_flags ++ list_flags ++
  map (λ s, (flagName s, FlagTarget (rs_target s))) runtimeSettings.
Fixpoint assoc {A} (name : bytes) (l : list (bytes * A)) : option A :=
  match l with
  | [] => None
  | (n, a) :: rest => if decide (n = name) then Some a else assoc name rest
  end.
Definition initial_settings (defaults : Config) : settings :=
  fold_left (register defaults) runtimeSettings
    (MkSettings (λ x, if decide (x = fs_configPath) then DefaultPath else []) (λ _, 0) (λ _, false) (λ _, 0)
       (configUplinkNeighbor (cfg_UplinkNeighbor defaults)) (configPortNeighbors (cfg_PortNeighbors defaults))
       (cfg_PortOverrides defaults) (cfg_WANHealth defaults) (bv_IgnoredMembers (cfg_BridgeObserve defaults))
       (bv_MemberPortMap (cfg_BridgeObserve defaults)) (cfg_PortMappings defaults)
       (cfg_DiscoveryTargets defaults)).

(** The number and duration syntax of package [flag]. *)
Class FlagText := { flag_int : bytes → option Z; flag_duration : bytes → option Z }.

Section parse.
Context `{UnicodeTables} `{FlagText}.

Definition text_value (t : target) (text : bytes) : option value :=
  match t with
  | TString _ => Some (VString text)
  | TInt _ => VInt <$> flag_int text
  | TBool _ => VBool <$> parse_bool text
  | TDuration _ => VDuration <$> flag_duration text
  end.
Definition set_flag (k : flag_kind) (text : bytes) (f : settings) : result error settings :=
  let '(MkSettings s i b d un pn po wh im mp pm dt) := f in
  match k with
  | FlagTarget t =>
      match text_value t text with Some v => Ok (put t v f) | None => Err "invalid value for flag"%stdpp end
  | FlagIgnoreMember => im ← StringList_Set text im; Ok (MkSettings s i b d un pn po wh im mp pm dt)
  | FlagMemberPort => mp ← BridgeMemberPortMap_Set text mp; Ok (MkSettings s i b d un pn po wh im mp pm dt)
  | FlagPortMap => pm ← PortMapping_Set text pm; Ok (MkSettings s i b d un pn po wh im mp pm dt)
  end.
Definition is_bool_flag (k : flag_kind) : bool := match k with FlagTarget (TBool _) => true | _ => false end.

(** [FlagSet.parseOne]: what the first argument is. *)
Inductive argument := Flag (name : bytes) | Terminator | NotAFlag.
Definition classify (arg : bytes) : argument :=
  match arg with
  | a :: b :: rest =>
      if decide (a = x2d) then
        if decide (b = x2d) then match rest with [] => Terminator | _ => Flag rest end
        else Flag (b :: rest)
      else NotAFlag
  | _ => NotAFlag
  end.
Definition bad_name (name : bytes) : bool :=
  match name with [] => true | c :: _ => bool_decide (c = x2d) || bool_decide (c = x3d) end.

Definition help_requested : error := "flag: help requested"%stdpp.
(** [flag.Parse]; any error exits the program.  [actual] is what [flag.Visit]
    reports, with the texts that were set, the last one first. *)
Fixpoint parse_args (args : list bytes) (f : settings) (actual : list (bytes * bytes))
    : result error (settings * list (bytes * bytes)) :=
  match args with
  | [] => Ok (f, actual)
  | arg :: rest =>
      match classify arg with
      | Terminator | NotAFlag => Ok (f, actual)
      | Flag text =>
          if bad_name text then Err "bad flag syntax"%stdpp
          else
            let '(name, given) := match cut_byte x3d text with
                                  | Some (name, v) => (name, Some v)
                                  | None => (text, None)
                                  end in
            match assoc name all_flags with
            | None => Err (if bool_decide (name ∈ [B "help"; B "h"]) then help_requested
                           else "flag provided but not defined"%stdpp)
            | Some k =>
                match given, is_bool_flag k, rest with
                | Some v, _, _ => f ← set_flag k v f; parse_args rest f ((name, v) :: actual)
                | None, true, _ => f ← set_flag k (B "true") f; parse_args rest f ((name, B "true") :: actual)
                | None, false, v :: rest => f ← set_flag k v f; parse_args rest f ((name, v) :: actual)
                | None, false, [] => Err "flag needs an argument"%stdpp
                end
            end
      end
  end.
Definition parseRuntimeFlags (args : list bytes) : result error (settings * list (bytes * bytes)) :=
  parse_args args (initial_settings Default) [].
Definition changedFlags (actual : list (bytes * bytes)) : list bytes := actual.*1.
End parse.

(** ** inform_schedule.go, and the record the checks of [RuntimeConfig] read *)
Definition informScheduleConfig (f : settings) (policy : InformSchedulePolicy) : ScheduleConfig := {|
  BaseInterval := st_duration f fd_interval;
  ControllerIntervalMin := st_duration f fd_controllerIntervalMin;
  ControllerIntervalMax := st_duration f fd_controllerIntervalMax;
  FirmwareIntervalMin := isp_FirmwareMinimum policy;
  ControllerHints := isp_Supported policy;
  BackoffMax := st_duration f fd_informBackoffMax;
  JitterPercent := st_int f fi_informBackoffJitterPercent |}.
Definition validateInformSchedule (f : settings) (policy : InformSchedulePolicy) : result error unit :=
  wrap_err "invalid inform schedule" (ValidateScheduleConfig (informScheduleConfig f policy)).

(** ** Facts about the tables *)
Definition typed (t : target) (v : value) : bool :=
  match t, v with
  | TString _, VString _ | TInt _, VInt _ | TBool _, VBool _ | TDuration _, VDuration _ => true
  | _, _ => false
  end.

Lemma get_put_eq t v f : typed t v = true → get t (put t v f) = v.
Proof. destruct f, t, v; cbn; try done; unfold update; by rewrite decide_True. Qed.

Lemma get_put_ne t t' v f : t ≠ t' → get t' (put t v f) = get t' f.
Proof.
  destruct f, t, t'; cbn; try (by destruct v); intros Hne; destruct v; cbn; try done;
    unfold update; rewrite decide_False by congruence; done.
Qed.

Lemma targets_distinct : NoDup (map (λ p, p.2) plain_flags ++ map rs_target runtimeSettings).
Proof. refine (bool_decide_unpack _ _). vm_compute. exact I. Qed.
Lemma names_distinct : NoDup all_flags.*1.
Proof. refine (bool_decide_unpack _ _). vm_compute. exact I. Qed.

Lemma assoc_NoDup {A} name (a : A) l : NoDup l.*1 → (name, a) ∈ l → assoc name l = Some a.
Proof.
  induction l as [|[n b] l IH]; cbn; [by intros _ ?%not_elem_of_nil|].
  intros [Hn Hl]%NoDup_cons [[= <- <-]|Hin]%elem_of_cons; [by rewrite decide_True|].
  rewrite decide_False; [by apply IH|]. intros ->. apply Hn, list_elem_of_fmap. by exists (name, a).
Qed.
Lemma assoc_elem {A} name (a : A) l : assoc name l = Some a → (name, a) ∈ l.
Proof.
  induction l as [|[n b] l IH]; cbn; [done|]. case_decide as E.
  - intros [= ->]. subst n. by left.
  - intros Hl. right. by apply IH.
Qed.

Lemma assoc_None {A} name (l : list (bytes * A)) : assoc name l = None → name ∉ l.*1.
Proof.
  induction l as [|[n a] l IH]; cbn; [by intros _ ?%not_elem_of_nil|]. case_decide as E; [done|].
  intros Hl [->|Hin]%elem_of_cons; [done|]. by apply IH.
Qed.

(** A table whose settings have distinct targets sets each of them once. *)
Definition write_one (write : runtimeSetting → option value) (f : settings) (s : runtimeSetting) : settings :=
  match write s with Some v => put (rs_target s) v f | None => f end.
Section tables.
Variable write : runtimeSetting → option value.
Hypothesis write_typed : ∀ s v, s ∈ runtimeSettings → write s = Some v → typed (rs_target s) v = true.

Lemma table_other t l f : t ∉ map rs_target l → get t (fold_left (write_one write) l f) = get t f.
Proof.
  revert f. induction l as [|s l IH]; intros f; cbn; [done|]. intros [Hne Hl]%not_elem_of_cons.
  rewrite IH by done. unfold write_one. destruct (write s); [|done]. by rewrite get_put_ne.
Qed.
Lemma table_sets s l f :
  l ⊆ runtimeSettings → NoDup (map rs_target l) → s ∈ l →
  get (rs_target s) (fold_left (write_one write) l f) = default (get (rs_target s) f) (write s).
Proof.
  revert f. induction l as [|s' l IH]; intros f Hl; cbn; [by intros _ ?%not_elem_of_nil|].
  intros [Hn Hd]%NoDup_cons [<-|Hin]%elem_of_cons.
  - rewrite table_other by done. unfold write_one. destruct (write s) as [v|] eqn:E; [|done].
    cbn. apply get_put_eq, (write_typed s); [|done]. apply Hl. by left.
  - rewrite IH; [|by intros x Hx; apply Hl; right|done|done]. f_equal.
    unfold write_one. destruct (write s'); [|done]. rewrite get_put_ne; [done|].
    intros E. apply Hn. rewrite E. apply list_elem_of_fmap. by exists s.
Qed.
End tables.

Lemma settings_distinct : NoDup (map rs_target runtimeSettings).
Proof. pose proof targets_distinct as H. by apply NoDup_app in H as (_ & _ & H). Qed.

Lemma settings_typed s c : s ∈ runtimeSettings →
  typed (rs_target s) (rs_default s c) = true ∧ ∀ v, rs_source s c = Some v → typed (rs_target s) v = true.
Proof.
  assert (Forall (λ s, typed (rs_target s) (rs_default s c) = true ∧
    ∀ v, rs_source s c = Some v → typed (rs_target s) v = true) runtimeSettings) as Hf.
  { assert (∀ v, applyConfigInterval c = Some v → typed (TDuration fd_interval) v = true) as Hi.
    { intros v. unfold applyConfigInterval. case_bool; [by intros [= <-]|done]. }
    unfold runtimeSettings. repeat (apply Forall_app; split);
      repeat (apply Forall_cons; split); try apply Forall_nil; try done;
      (split; [done|]); try exact Hi; by intros v [= <-]. }
  rewrite Forall_forall in Hf. apply Hf.
Qed.

#[local] Opaque runtimeSettings.

Lemma register_table c l f :
  fold_left (register c) l f = fold_left (write_one (λ s, Some (rs_default s c))) l f.
Proof. revert f. induction l as [|s l IH]; intros f; cbn; [done|]. apply IH. Qed.

Lemma initial_value s c : s ∈ runtimeSettings → get (rs_target s) (initial_settings c) = rs_default s c.
Proof.
  intros Hs. unfold initial_settings. rewrite register_table.
  rewrite (table_sets (λ s, Some (rs_default s c))); [done| |done|apply settings_distinct|done].
  intros s' v Hs' [= <-]. by apply settings_typed.
Qed.

Definition unchanged_source (changed : list bytes) (c : Config) (s : runtimeSetting) : option value :=
  if decide (flagName s ∈ changed) then None else rs_source s c.
Lemma apply_table changed c l f :
  fold_left (apply_setting changed c) l f = fold_left (write_one (unchanged_source changed c)) l f.
Proof.
  revert f. induction l as [|s l IH]; intros f; cbn; [done|]. rewrite IH. f_equal.
  unfold apply_setting, write_one, unchanged_source. by case_decide.
Qed.

Lemma get_applyConfig t c changed f :
  get t (applyConfig c changed f) = get t (fold_left (apply_setting changed c) runtimeSettings f).
Proof.
  unfold applyConfig. cbv zeta. generalize (fold_left (apply_setting changed c) runtimeSettings f) as g.
  intros g. by destruct t.
Qed.

Lemma applied_value s c changed f : s ∈ runtimeSettings →
  get (rs_target s) (applyConfig c changed f) =
  if decide (flagName s ∈ changed) then get (rs_target s) f
  else default (get (rs_target s) f) (rs_source s c).
Proof.
  intros Hs. rewrite get_applyConfig, apply_table, (table_sets (unchanged_source changed c)).
  - unfold unchanged_source. by case_decide.
  - intros s' v Hs'. unfold unchanged_source. case_decide; [done|]. by apply settings_typed.
  - done.
  - apply settings_distinct.
  - done.
Qed.

Lemma applied_plain name t c changed f :
  (name, t) ∈ plain_flags → get t (applyConfig c changed f) = get t f.
Proof.
  intros Hp. rewrite get_applyConfig, apply_table. apply table_other.
  pose proof targets_distinct as Hd. apply NoDup_app in Hd as (_ & Hd & _). apply Hd.
  apply list_elem_of_fmap. by exists (name, t).
Qed.

Lemma NoDup_omap_inj {A B} (g : A → option B) l a a' b :
  NoDup (omap g l) → a ∈ l → a' ∈ l → g a = Some b → g a' = Some b → a = a'.
Proof.
  induction l as [|x l IH]; [by intros _ ?%not_elem_of_nil|]. cbn. intros Hd Ha Ha' Eb Eb'.
  assert (∀ y, y ∈ l → g y = Some b → b ∈ omap g l) as Hin by (intros y Hy E; apply list_elem_of_omap; eauto).
  apply elem_of_cons in Ha as [->|Ha], Ha' as [->|Ha']; [done|..].
  - rewrite Eb in Hd. apply NoDup_cons in Hd as [Hd _]. exfalso. eauto.
  - rewrite Eb' in Hd. apply NoDup_cons in Hd as [Hd _]. exfalso. eauto.
  - apply IH; try done. destruct (g x); [by apply NoDup_cons in Hd as [_ Hd]|done].
Qed.

Definition flag_target (p : bytes * flag_kind) : option target :=
  match p.2 with FlagTarget t => Some t | _ => None end.
Lemma flag_targets_distinct : NoDup (omap flag_target all_flags).
Proof. refine (bool_decide_unpack _ _). vm_compute. exact I. Qed.

(** ** What parsing leaves in the settings *)
Section precedence.
Context `{UnicodeTables} `{FlagText}.

Definition parsed_from (c : Config) (f : settings) (actual : list (bytes * bytes)) : Prop :=
  ∀ name t, (name, FlagTarget t) ∈ all_flags →
    Some (get t f) = match assoc name actual with
                     | Some text => text_value t text
                     | None => Some (get t (initial_settings c))
                     end.

Lemma text_typed t text v : text_value t text = Some v → typed t v = true.
Proof. destruct t; cbn; intros Hv; [|apply fmap_Some in Hv as (? & _ & Hv)..]; by simplify_eq. Qed.

Lemma set_flag_target t text f :
  set_flag (FlagTarget t) text f =
  match text_value t text with Some v => Ok (put t v f) | None => Err "invalid value for flag"%stdpp end.
Proof. by destruct f. Qed.
Lemma set_flag_list k text f f' t :
  flag_target (text, k) = None → set_flag k text f = Ok f' → get t f' = get t f.
Proof.
  destruct f, k; cbn [set_flag flag_target snd]; [done|..]; intros _ Hs;
    (destruct (StringList_Set _ _) || destruct (BridgeMemberPortMap_Set _ _) || destruct (PortMapping_Set _ _));
    cbn [mbind result_bind] in Hs; try done; injection Hs as <-; by destruct t.
Qed.

Lemma set_flag_parsed c k name text f f' actual :
  assoc name all_flags = Some k → set_flag k text f = Ok f' →
  parsed_from c f actual → parsed_from c f' ((name, text) :: actual).
Proof.
  intros Hk Hs Hp n t Hn. cbn [assoc]. apply assoc_elem in Hk as Hin.
  destruct (decide (name = n)) as [->|Hne].
  - rewrite (assoc_NoDup n (FlagTarget t) all_flags names_distinct Hn) in Hk. injection Hk as <-.
    rewrite set_flag_target in Hs. destruct (text_value t text) eqn:E; [|done].
    injection Hs as <-. f_equal. by eapply get_put_eq, text_typed.
  - rewrite <- (Hp n t Hn). f_equal. destruct (flag_target (text, k)) as [t'|] eqn:Et;
      [|by eapply set_flag_list].
    destruct k; try done. injection Et as <-. rewrite set_flag_target in Hs.
    destruct (text_value _ text); [|done]. injection Hs as <-. apply get_put_ne. intros ->. apply Hne.
    by pose proof (NoDup_omap_inj flag_target all_flags _ _ t flag_targets_distinct Hin Hn eq_refl eq_refl)
      as [= ->].
Qed.

Lemma parse_args_parsed c n args f actual f' actual' :
  (length args ≤ n)%nat → parse_args args f actual = Ok (f', actual') →
  parsed_from c f actual → parsed_from c f' actual'.
Proof.
  revert args f actual. induction n as [|n IH]; intros [|arg rest] f actual Hl Hp Hi; cbn in Hl; try lia;
    cbn [parse_args] in Hp; try by injection Hp as <- <-.
  destruct (classify arg) as [text| |]; [|by injection Hp as <- <-..].
  destruct (bad_name text); [done|].
  set (ng := match cut_byte x3d text with Some (name, v) => (name, Some v) | None => (text, None) end) in Hp.
  destruct ng as [name given]. destruct (assoc name all_flags) as [k|] eqn:Ek; [|done].
  destruct given as [v|].
  { destruct (set_flag k v f) as [g|] eqn:Es; cbn [mbind result_bind] in Hp; [|done].
    eapply IH; [|exact Hp|by eapply set_flag_parsed]. lia. }
  destruct (is_bool_flag k).
  { destruct (set_flag k (B "true") f) as [g|] eqn:Es; cbn [mbind result_bind] in Hp; [|done].
    eapply IH; [|exact Hp|by eapply set_flag_parsed]. lia. }
  destruct rest as [|v rest]; [done|].
  destruct (set_flag k v f) as [g|] eqn:Es; cbn [mbind result_bind] in Hp; [|done].
  eapply IH; [|exact Hp|by eapply set_flag_parsed]. cbn in Hl. lia.
Qed.

Lemma parsed_initial c : parsed_from c (initial_settings c) [].
Proof. intros name t _. done. Qed.

(** C27: the command line has precedence over the configuration file, and the
    file over the built-in defaults: after parsing, a setting that occurs on the
    command line has the value of its last occurrence; any other has the value
    of the file, but an interval that is not positive there leaves the default;
    and the flags of one-shot commands depend on the command line only. *)
Theorem settings_precedence args f actual c :
  parseRuntimeFlags args = Ok (f, actual) →
  (∀ s, s ∈ runtimeSettings →
     Some (get (rs_target s) (applyConfig c (changedFlags actual) f)) =
     match assoc (flagName s) actual with
     | Some text => text_value (rs_target s) text
     | None => Some (default (rs_default s Default) (rs_source s c))
     end) ∧
  (∀ name t, (name, t) ∈ plain_flags →
     Some (get t (applyConfig c (changedFlags actual) f)) =
     match assoc name actual with
     | Some text => text_value t text
     | None => Some (get t (initial_settings Default))
     end).
Proof.
  intros Hp. unfold parseRuntimeFlags in Hp.
  eapply parse_args_parsed in Hp; [|reflexivity|apply (parsed_initial Default)]. split.
  - intros s Hs. rewrite applied_value by done. unfold parsed_from in Hp.
    assert ((flagName s, FlagTarget (rs_target s)) ∈ all_flags) as Hin.
    { unfold all_flags. rewrite !elem_of_app. right. right. apply list_elem_of_fmap. by exists s. }
    specialize (Hp _ _ Hin). destruct (assoc (flagName s) actual) as [text|] eqn:Ea.
    + rewrite decide_True; [done|]. apply assoc_elem in Ea. apply list_elem_of_fmap. by exists (flagName s, text).
    + rewrite decide_False; [injection Hp as ->; by rewrite initial_value|]. by apply assoc_None.
  - intros name t Ht. rewrite (applied_plain name) by done. apply Hp.
    unfold all_flags. rewrite !elem_of_app. left. apply list_elem_of_fmap. by exists (name, t).
Qed.
End precedence.

(** ** What the mapping flags print reads back *)
Section mapping_text.
Context `{UnicodeTables}.

Lemma not_in_trim (c : byte) s : c ∉ s → c ∉ trim_space s.
Proof.
  destruct (trim_space_infix s) as (l & r & E). intros Hc Hin. apply Hc. rewrite E.
  rewrite !elem_of_app. by right; left.
Qed.
Lemma clamp64_range z z' : clamp64 z' = IntValue z → z ≤ int64_max.
Proof. unfold clamp64. repeat case_bool; try done. intros [= <-]. lia. Qed.
Lemma atoi_range s n : atoi s = Some n → n ≤ int64_max.
Proof.
  unfold atoi. destruct (parse_int s) as [z| |] eqn:E; try done. intros [= <-].
  unfold parse_int in E. repeat (case_match; try done); by eapply clamp64_range.
Qed.

(** A member mapping that was accepted is printed in a form that reads back as
    the same mapping. *)
Theorem member_port_round_trip value f f' :
  BridgeMemberPortMap_Set value f = Ok f' →
  ∃ m, f' = f ++ [m] ∧ ∀ g, BridgeMemberPortMap_Set (BridgeMemberPortMap_String [m]) g = Ok (g ++ [m]).
Proof.
  unfold BridgeMemberPortMap_Set. destruct (cut_byte x3d (trim_space value)) as [[member portText]|] eqn:Ec; [|done].
  apply cut_byte_Some in Ec as [_ Hne].
  destruct (atoi (trim_space portText)) as [port|] eqn:Ea; [|done]. apply atoi_range in Ea.
  destruct (port <? 1) eqn:Ep; [done|]. destruct (_ || _) eqn:Em; [done|]. intros [= <-].
  eexists. split; [reflexivity|]. intros g.
  destruct (itoa_spec port) as (Hi & Hd & _); [lia|].
  assert (trim_space (itoa port) = itoa port) as Ht by (by apply (trim_space_label [])).
  unfold BridgeMemberPortMap_String. cbn [map join bm_Member bm_Port].
  change (B "=" ++ itoa port) with (x3d :: itoa port). rewrite trim_space_app_solid.
  - rewrite cut_byte_app by by apply not_in_trim. rewrite Ht, atoi_itoa, Ep, trim_space_idemp, Em by lia. done.
  - apply trim_space_idemp.
  - done.
  - apply forallb_forall. intros b [<-|Hb]; [done|]. rewrite forallb_forall in Hd. by apply digit_solid, Hd.
Qed.
End mapping_text.

(** ** loadConfig *)
Section load_facts.
Context `{UnicodeTables} `{ConfigYaml}.

Lemma loadConfig_missing read path explicit :
  read path = FileMissing → trim_space path ≠ [] →
  match loadConfig read path explicit with
  | Ok c => c = Default ∧ explicit = false
  | Err _ => explicit = true
  end.
Proof.
  intros Hr Hp. unfold loadConfig, Load. rewrite decide_False, Hr by done. by destruct explicit.
Qed.
Lemma loadConfig_bad read path explicit data e :
  read path = FileRead data → yaml_config data Default = Err e → trim_space path ≠ [] →
  ∃ e', loadConfig read path explicit = Err e'.
Proof.
  intros Hr Hy Hp. unfold loadConfig, Load, Decode. rewrite decide_False, Hr, Hy by done. cbn. eauto.
Qed.
End load_facts.

(** The built-in defaults pass the schedule check under every firmware minimum
    up to a minute. *)
Lemma default_schedule policy :
  (isp_Supported policy = true → 0 < isp_FirmwareMinimum policy ≤ 60 * second) →
  (isp_Supported policy = false → isp_FirmwareMinimum policy = 0) →
  validateInformSchedule (initial_settings Default) policy = Ok tt.
Proof.
  destruct policy as [m sup r]. cbn [isp_Supported isp_FirmwareMinimum]. unfold second. intros Hs Hn.
  unfold validateInformSchedule, ValidateScheduleConfig, informScheduleConfig.
  cbn [isp_FirmwareMinimum isp_Supported BaseInterval ControllerIntervalMin ControllerIntervalMax
    FirmwareIntervalMin ControllerHints BackoffMax JitterPercent].
  set (i := st_duration _ fd_interval). set (lo := st_duration _ fd_controllerIntervalMin).
  set (hi := st_duration _ fd_controllerIntervalMax). set (bo := st_duration _ fd_informBackoffMax).
  set (j := st_int _ fi_informBackoffJitterPercent).
  vm_compute in i, lo, hi, bo, j. subst i lo hi bo j. unfold maximumControllerInformInterval, Second.
  destruct sup; cbn -[Z.ltb Z.leb Z.eqb].
  - specialize (Hs eq_refl). rewrite (proj2 (Z.leb_gt m 0)) by lia.
    rewrite (proj2 (Z.ltb_ge _ m)) by lia. destruct (m <? 5000000000) eqn:E; [done|].
    rewrite (proj2 (Z.ltb_ge _ m)) by lia. done.
  - by rewrite Hn.
Qed.

(** ** Witness *)
#[local] Transparent runtimeSettings.
#[local] Existing Instance ascii_tables.
Definition plain_numbers : FlagText := {| flag_int := atoi; flag_duration := λ _, None |}.
#[local] Existing Instance plain_numbers.
Definition sample_args : list bytes :=
  [B "--controller=http://c/inform"; B "-ports"; B "8"; B "-once"; B "-ports=24"; B "-"; B "-ports=9"].

Lemma settings_precedence_witness :
  is_ok (parseRuntimeFlags sample_args) = true ∧
  ∃ f actual, parseRuntimeFlags sample_args = Ok (f, actual) ∧
    let f := applyConfig Default (changedFlags actual) f in
    Some (get (TInt fi_portCount) f) = Some (VInt 24) ∧
    Some (get (TString fs_controller) f) = Some (VString (B "http://c/inform")) ∧
    Some (get (TDuration fd_interval) f) = Some (VDuration 10000000000) ∧
    Some (get (TBool fb_once) f) = Some (VBool true).
Proof.
  assert (is_ok (parseRuntimeFlags sample_args) = true) as Hok by (vm_compute; reflexivity).
  split; [exact Hok|].
  destruct (parseRuntimeFlags sample_args) as [[f actual]|e] eqn:E; [|discriminate Hok].
  exists f, actual. split; [reflexivity|].
  destruct (settings_precedence sample_args f actual Default E) as [Hs Hp].
  assert (actual = [(B "ports", B "24"); (B "once", B "true"); (B "ports", B "8");
                    (B "controller", B "http://c/inform")]) as Ha.
  { assert (match parseRuntimeFlags sample_args with Ok p => p.2 | Err _ => [] end = actual) as <-
      by (rewrite E; reflexivity). vm_compute. reflexivity. }
  assert (∀ n s, runtimeSettings !! n = Some s → s ∈ runtimeSettings) as Hin
    by (intros n s Hn; by eapply list_elem_of_lookup_2).
  split; [|split; [|split]].
  - etransitivity; [apply (Hs _ (Hin 10%nat _ eq_refl))|]. rewrite Ha. reflexivity.
  - etransitivity; [apply (Hs _ (Hin 21%nat _ eq_refl))|]. rewrite Ha. reflexivity.
  - etransitivity; [apply (Hs _ (Hin 22%nat _ eq_refl))|]. rewrite Ha. reflexivity.
  - etransitivity; [apply (Hp (B "once") (TBool fb_once))|].
    + eapply (list_elem_of_lookup_2 _ 13). reflexivity.
    + rewrite Ha. reflexivity.
Defined.
