(* ===== verification/Startup.v ===== *)
(** From the command line to a serving daemon: [serve.go], [serve_prepare.go],
    [serve_identity.go], [device_identity.go], [profiles.go] and [errors.go] of
    [src/cmd/unifi-stubd], with [AutoMAC] of [src/internal/device/profile.go].

    It composes Settings, Profiles and the checks of RuntimeConfig in the order
    of the code.  SHA-256, the host's name and interfaces, the route probe and
    the files are parameters; [log.Fatalf] is an error with exit code 1. *)
From stdpp Require Import gmap.
From S2P Require Import Prelude GoStrings GoUrl GoNet GoIP GoMap GoFloat Ports Topology GoYaml InformSchedule.
From S2P Require PayloadViews.
From S2P Require Import Observe ObserveSources Rates WanHealth AdoptionStore Payload PayloadMarshal.
From S2P Require Import RuntimeConfig RuntimePorts Identity Profiles Settings.

(** ** The records the other components read *)
Definition runtime_flags (f : settings) : runtimeFlags :=
  MkFlags (st_string f fs_operationMode) (st_string f fs_macText) (st_string f fs_ipText)
    (st_string f fs_model) (st_string f fs_modelDisplay) (st_string f fs_version)
    (st_int f fi_portCount) (st_int f fi_linkSpeed) (st_string f fs_uplinkSpeed) (st_int f fi_uplinkPort)
    (st_uplinkNeighbor f) (st_portNeighbors f) (st_portOverrides f) (st_wanHealth f)
    (MkBridgeObserve (st_string f fs_bridgeObserve_Bridge) (st_string f fs_bridgeObserve_UplinkInterface)
       (st_ignoredMembers f) (st_memberPortMap f))
    (st_portMappings f) (st_string f fs_observeInterface) (st_string f fs_observeBridge)
    (st_string f fs_lldpSource) (st_bool f fb_trafficRatesEnabled) (st_string f fs_procSource)
    (st_string f fs_instanceGuard) (st_string f fs_instanceGuardPath) (st_string f fs_controller)
    (st_bool f fb_dryRunPlan) (st_bool f fb_validate) (st_string f fs_discoveryInterface)
    (MkManagementLAN (st_bool f fb_managementLAN_Enabled) (st_int f fi_managementLAN_VLAN)
       (st_string f fs_managementLAN_NetworkName) (st_string f fs_managementLAN_Mode)
       (st_string f fs_managementLAN_Interface) (st_string f fs_managementLAN_IP)
       (st_string f fs_managementLAN_ControllerReachable) (st_string f fs_managementLAN_AdoptionStrategy)).
Definition device_profile (p : Profiles.Profile) : deviceProfile :=
  MkDeviceProfile
    (Ports.MkProfile (PortCount p) (PortSpeed p) (UplinkSpeed p) (PortMedia p) (UplinkMedia p) (PortGroups p)
       (PortNames p) (PortRoles p) (PortNetworkGroups p))
    (PayloadViews.MkRenderProfile (SourceType p) (Profiles.Name p) (Profiles.Payload p)) (DeviceType p) (Profiles.Model p)
    (Profiles.ModelDisplay p) (Profiles.Version p).

(** ** errors.go, profiles.go *)
Definition exit_error : Type := Z * error.
Definition withExitCode {A} (code : Z) (r : result error A) : result exit_error A :=
  match r with Ok a => Ok a | Err e => Err (code, e) end.
(** Any other error leaves [main] with code 1. *)
Definition plain {A} (r : result error A) : result exit_error A := withExitCode 1 r.
Definition profileErrorExitCode (e : ProfilePathError) : Z :=
  match pe_Kind e with ErrorKindIO | ErrorKindParse => 2 | ErrorKindValidation => 1 end.

Section startup.
Context `{UnicodeTables} `{FloatConversion} `{AddressParser} `{MapOrder} `{FlagText} `{ConfigYaml} `{ProfileYaml}.

(** What a start meets: the built-in profiles, the files, the host. *)
Record environment := MkEnvironment {
  ev_builtins : list record; ev_files : files; ev_config : bytes → read_result;
  ev_hostname : option bytes; ev_sha256 : bytes → bytes; ev_addresses : AddressReader;
  ev_egress : bytes → option Z; ev_dial : bytes → bytes → bool;
}.
Variable fuel : nat.
Variable env : environment.

Fixpoint load_paths (paths : list bytes) (registry : list record)
    : option (result ProfilePathError (list record)) :=
  match paths with
  | [] => Some (Ok registry)
  | path :: rest =>
      if decide (path = []) then load_paths rest registry
      else
        loaded ← LoadProfilePath fuel (ev_files env) path registry;
        match loaded with
        | (Ok _, registry) => load_paths rest registry
        | (Err e, _) => Some (Err e)
        end
  end.
Definition loadProfileRegistry (f : settings) : option (result ProfilePathError (list record)) :=
  load_paths [trim_space (st_string f fs_profileDir); trim_space (st_string f fs_profileFile)] (ev_builtins env).

(** ** device_identity.go *)
Definition resolveHostname (value : bytes) : bytes :=
  let value := trim_space value in
  if negb (bool_decide (value = [])) && negb (bool_decide (to_lower value = automaticText)) then value
  else
    match ev_hostname env with
    | Some host => if decide (trim_space host = []) then B "unifi-stubd" else trim_space host
    | None => B "unifi-stubd"
    end.
Definition AutoMAC (seed : bytes) : bytes :=
  match take 6 (ev_sha256 env (trim_space seed)) with
  | b :: rest => z2b (Z.land (Z.lor (b2z b) 2) 254) :: rest
  | [] => []
  end.
Definition hostInterfaceMAC (ifaceName : bytes) : result error bytes :=
  let ifaceName := trim_space ifaceName in
  if decide (ifaceName = []) then Err "observe_interface is required when mac is host"%stdpp
  else if contains (B "/") ifaceName then Err "invalid interface name"%stdpp
  else
    match ar_InterfaceIdentity (ev_addresses env) ifaceName with
    | None => Err "read interface identity"%stdpp
    | Some (mac, _) => if decide (mac = []) then Err "interface has no hardware address"%stdpp else Ok mac
    end.
Definition resolveMAC (value hostname : bytes) (profile : Profiles.Profile) (model operationMode ifaceName : bytes)
    : result error bytes :=
  let value := trim_space value in
  if equal_fold value (B "host") then
    if decide (operationMode = operationModeHostDirect) then
      wrap_err "host MAC resolve failed" (hostInterfaceMAC ifaceName)
    else Err "mac: host is only allowed with -operation-mode host-direct"%stdpp
  else if bool_decide (value = []) || equal_fold value automaticText then
    Ok (AutoMAC (join (B "|") [B "unifi-stubd"; hostname; Profiles.Name profile; model]))
  else match parse_mac value with Some mac => Ok mac | None => Err "invalid MAC address"%stdpp end.

(** ** serve_prepare.go *)
Record serveRuntime := MkServeRuntime {
  sr_flags : runtimeFlags; sr_profile : Profiles.Profile; sr_policy : InformSchedulePolicy;
  sr_reporting : ControllerReportingPolicy;
}.
Inductive early_exit := PrintVersion | MigrateConfig (f : settings) | PrintTemplate (kind : bytes) | ValidateProfiles (path : bytes).
Definition handleServeEarlyExit (f : settings) : option early_exit :=
  if st_bool f fb_binaryVersion then Some PrintVersion
  else if st_bool f fb_configMigrate || st_bool f fb_configMigrateDryRun then Some (MigrateConfig f)
  else if negb (bool_decide (trim_space (st_string f fs_profileTemplate) = [])) then
    Some (PrintTemplate (st_string f fs_profileTemplate))
  else if negb (bool_decide (trim_space (st_string f fs_profileValidate) = [])) then
    Some (ValidateProfiles (st_string f fs_profileValidate))
  else None.

Inductive prepared :=
| ListProfiles (registry : list record)
| ExportProfile (registry : list record) (name : bytes)
| Validated (r : serveRuntime)
| Prepared (r : serveRuntime).

(** After the registry is loaded. *)
Definition prepare_with (registry : list record) (f : settings) : result exit_error prepared :=
  if st_bool f fb_listProfiles then Ok (ListProfiles registry)
  else if negb (bool_decide (trim_space (st_string f fs_profileExport) = [])) then
    Ok (ExportProfile registry (st_string f fs_profileExport))
  else
    checked ← plain (validateOperationFlags (runtime_flags f));
    match LookupProfile registry (st_string f fs_profileName) with
    | None => Err (1, "required device profile is not known"%stdpp)
    | Some profile =>
        let device := device_profile profile in
        let flags := applyProfile device checked in
        let policy := ResolveInformSchedulePolicy (SourceType profile) (Profiles.Name profile) (fg_model flags)
                        (fg_version flags) in
        let r := MkServeRuntime flags profile policy
                   (ResolveControllerReportingPolicy (SourceType profile) (Profiles.Name profile) (fg_model flags)
                      (fg_version flags)) in
        _ ← plain (validateInformSchedule f policy);
        _ ← plain (validateServeRuntime (ev_dial env) flags device);
        if fg_validate flags then
          _ ← plain (validateRuntime (ev_dial env) flags device (Some (ev_addresses env))); Ok (Validated r)
        else
          _ ← plain (validateLiveServeSources (ev_dial env) flags device (Some (ev_addresses env)));
          _ ← plain (validatePortOverrides flags device);
          _ ← plain (validateWANHealthTargets flags device);
          Ok (Prepared r)
    end.
Definition prepareServeRuntime (f : settings) (changed : list bytes)
    : option (result exit_error (settings * prepared)) :=
  match loadConfig (ev_config env) (st_string f fs_configPath) (bool_decide (B "config" ∈ changed)) with
  | Err e => Some (Err (if st_bool f fb_validate then 2 else 1, e))
  | Ok c =>
      let f := applyConfig c changed f in
      registry ← loadProfileRegistry f;
      Some match registry with
           | Err e => Err (if st_bool f fb_validate then profileErrorExitCode e else 1, pe_Err e)
           | Ok registry => p ← prepare_with registry f; Ok (f, p)
           end
  end.

(** ** serve_identity.go, serve.go *)
Record serveIdentity := MkServeIdentity {
  si_mac : bytes; si_ip : bytes; si_hostname : bytes; si_options : PortBuildOptions;
}.
Definition resolveServeIdentity (f : settings) (flags : runtimeFlags) (profile : Profiles.Profile)
    : result exit_error serveIdentity :=
  let hostname := resolveHostname (st_string f fs_hostname) in
  let uplinkPort := effectiveUplinkPort (device_profile profile) flags in
  match resolvePortBuildOptions (fg_portCount flags) (fg_linkSpeed flags) uplinkPort
          (effectiveUplinkSpeedMode flags) (ev_egress env (fg_controller flags)) with
  | None => Err (1, "invalid -uplink-speed"%stdpp)
  | Some options =>
      mac ← plain (resolveMAC (fg_macText flags) hostname profile (fg_model flags) (fg_operationMode flags)
                     (fg_observeInterface flags));
      match parse_ip4 (fg_ipText flags) with
      | None => Err (1, "invalid IPv4 address"%stdpp)
      | Some ip =>
          ip ← plain (resolveManagementIP flags ip (Some (ev_addresses env)));
          Ok (MkServeIdentity mac ip hostname options)
      end
  end.

(** What [serveSwitchEmulation] does once the flags are parsed; the daemon goes
    on to the instance guard, the SSH shim and the presence loop. *)
Inductive action :=
| Early (e : early_exit)
| Listing (p : prepared)
| Plan (f : settings) (r : serveRuntime) (i : serveIdentity)
| Status (f : settings) (r : serveRuntime) (i : serveIdentity)
| DryRun (f : settings) (r : serveRuntime) (i : serveIdentity)
| Daemon (f : settings) (r : serveRuntime) (i : serveIdentity).
Definition serveSwitchEmulation (args : list bytes) : option (result exit_error action) :=
  match parseRuntimeFlags args with
  | Err e => Some (Err (if decide (e = help_requested) then 0 else 2, e))
  | Ok (f, actual) =>
      match handleServeEarlyExit f with
      | Some e => Some (Ok (Early e))
      | None =>
          prepared ← prepareServeRuntime f (changedFlags actual);
          Some (match prepared with
                | Err e => Err e
                | Ok (f, Prepared r) =>
                    i ← resolveServeIdentity f (sr_flags r) (sr_profile r);
                    Ok (if fg_dryRunPlan (sr_flags r) then Plan f r i
                        else if st_bool f fb_status || st_bool f fb_statusJSON then Status f r i
                        else if st_bool f fb_dryRun then DryRun f r i
                        else Daemon f r i)
                | Ok (_, p) => Ok (Listing p)
                end)
      end
  end.
End startup.

(** ** What a started daemon can rely on *)
Lemma group_sum_counts groups :
  Forall (λ g, 1 ≤ gr_Count g ∧ 0 ≤ gr_Speed g) groups → group_sum groups = counts_sum groups.
Proof.
  induction 1 as [|g groups [Hg _] _ IH]; [done|]. rewrite group_sum_cons, IH. cbn. lia.
Qed.

Section facts.
Context `{UnicodeTables} `{FloatConversion} `{AddressParser} `{MapOrderLaws} `{SliceSort} `{Resolver}.
Context `{FlagText} `{ConfigYaml} `{ProfileYaml}.
Variable fuel : nat.
Variable env : environment.

Lemma plain_ok {A} (r : result error A) a : plain r = Ok a → r = Ok a.
Proof. destruct r; [by intros [= ->]|done]. Qed.

Lemma load_paths_sound paths registry registry' :
  load_paths fuel env paths registry = Some (Ok registry') → sound_registry registry → sound_registry registry'.
Proof.
  revert registry. induction paths as [|p paths IH]; intros registry; cbn; [by intros [= <-]|].
  case_decide; [by apply IH|].
  destruct (LoadProfilePath fuel (ev_files env) p registry) as [[[u|e] rs]|] eqn:E; cbn; [|done..].
  intros Hl Hs. eapply IH; [done|]. by eapply LoadProfilePath_sound.
Qed.

Lemma prepared_parts registry f r :
  prepare_with env registry f = Ok (Prepared r) →
  LookupProfile registry (st_string f fs_profileName) = Some (sr_profile r) ∧
  validateInformSchedule f (sr_policy r) = Ok tt ∧
  validatePortOverrides (sr_flags r) (device_profile (sr_profile r)) = Ok tt.
Proof.
  unfold prepare_with. destruct (st_bool f fb_listProfiles); [done|]. destruct (negb _); [done|]. cbv zeta.
  destruct (plain (validateOperationFlags _)) as [checked|]; cbn [mbind result_bind]; [|done].
  destruct (LookupProfile registry (st_string f fs_profileName)) as [p|] eqn:El; [|done].
  set (policy := ResolveInformSchedulePolicy _ _ _ _). set (flags := applyProfile _ _).
  destruct (plain (validateInformSchedule f policy)) as [[]|] eqn:Es; cbn [mbind result_bind]; [|done].
  destruct (plain (validateServeRuntime _ _ _)) as [[]|]; cbn [mbind result_bind]; [|done].
  destruct (fg_validate flags).
  { by destruct (plain (validateRuntime _ _ _ _)) as [[]|]. }
  destruct (plain (validateLiveServeSources _ _ _ _)) as [[]|]; cbn [mbind result_bind]; [|done].
  destruct (plain (validatePortOverrides _ _)) as [[]|] eqn:Ep; cbn [mbind result_bind]; [|done].
  destruct (plain (validateWANHealthTargets _ _)) as [[]|]; cbn [mbind result_bind]; [|done].
  intros [= <-]. cbn. apply plain_ok in Es, Ep. done.
Qed.

Lemma started_parts args f r i :
  sound_registry (ev_builtins env) →
  serveSwitchEmulation fuel env args = Some (Ok (Daemon f r i)) →
  ∃ registry, sound_registry registry ∧ prepare_with env registry f = Ok (Prepared r) ∧
    resolveServeIdentity env f (sr_flags r) (sr_profile r) = Ok i.
Proof.
  intros Hs. unfold serveSwitchEmulation. destruct (parseRuntimeFlags args) as [[f0 actual]|]; [|done].
  destruct (handleServeEarlyExit f0); [done|]. unfold prepareServeRuntime.
  destruct (loadConfig _ _ _) as [c|]; [|done].
  set (f1 := applyConfig c (changedFlags actual) f0). unfold loadProfileRegistry.
  destruct (load_paths fuel env _ _) as [[registry|e]|] eqn:El; cbn [mbind option_bind]; [|done..].
  destruct (prepare_with env registry f1) as [p|] eqn:Ep; cbn [mbind result_bind]; [|done].
  destruct p as [| | |r0]; try done.
  destruct (resolveServeIdentity env f1 (sr_flags r0) (sr_profile r0)) as [i0|] eqn:Ei; cbn [mbind result_bind]; [|done].
  destruct (fg_dryRunPlan _); [done|]. destruct (_ || _); [done|]. destruct (st_bool f1 fb_dryRun); [done|].
  intros [= <- <- <-]. exists registry.
  split; [by eapply load_paths_sound|]. done.
Qed.

(** A daemon that starts can serve.  For every command line, configuration
    file and set of profile files with which the program reaches the presence
    loop: its profile passed the validation, its inform schedule can be built,
    and whatever the host, LLDP and the WAN probes report, every turn renders a
    payload that can be marshalled. *)
Theorem started_daemon_serves builtins args f r i :
  load_builtins fuel builtins [] = Some (Ok (ev_builtins env)) →
  serveSwitchEmulation fuel env args = Some (Ok (Daemon f r i)) →
  counts_sum (PortGroups (sr_profile r)) ≤ int64_max →
  validateProfile (sr_profile r) = Ok tt ∧
  (∃ schedule, NewSchedule (informScheduleConfig f (sr_policy r)) = Ok schedule) ∧
  (∀ clock now su informURL store tracker uptimeSeconds state,
    ∃ payload tracker',
      render_turn clock now su (si_mac i) (si_ip i) (si_hostname i) informURL store (sr_flags r)
        (device_profile (sr_profile r)) (si_options i) tracker uptimeSeconds state
      = Some (Ok payload, tracker') ∧ marshals (payload_json payload) = true).
Proof.
  intros Hb Hs Hc. apply load_builtins_sound in Hb; [|split; constructor].
  destruct (started_parts args f r i Hb Hs) as (registry & [Hv _] & Hp & Hi).
  apply prepared_parts in Hp as (Hl & Hsch & Hpo).
  assert (validateProfile (sr_profile r) = Ok tt) as Hval.
  { unfold LookupProfile, lookupRecord in Hl. apply fmap_Some in Hl as (rc & Hf & ->).
    apply find_some in Hf as [Hin%list_elem_of_In _]. rewrite Forall_forall in Hv. exact (Hv rc Hin). }
  split; [done|]. split.
  - unfold validateInformSchedule in Hsch. unfold NewSchedule.
    destruct (ValidateScheduleConfig _) as [[]|]; [by eexists|done].
  - unfold resolveServeIdentity in Hi.
    destruct (resolvePortBuildOptions _ _ _ _ _) as [options|] eqn:Eo; [|done].
    assert (si_options i = options) as ->.
    { destruct (plain (resolveMAC _ _ _ _ _ _ _)); cbn [mbind result_bind] in Hi; [|done].
      destruct (parse_ip4 _); [|done].
      destruct (plain (resolveManagementIP _ _ _)); cbn [mbind result_bind] in Hi; [|done]. by injection Hi as <-. }
    intros clock now su informURL store tracker uptimeSeconds state.
    eapply configuration_renders; [exact Hpo| |exact Eo]. cbn.
    rewrite group_sum_counts; [done|]. by apply valid_groups.
Qed.
End facts.

(** An address that is derived is locally administered and not a group's. *)
Lemma AutoMAC_local env seed b rest :
  AutoMAC env seed = b :: rest → Z.land (b2z b) 3 = 2.
Proof.
  unfold AutoMAC. destruct (take 6 _) as [|a l]; [done|]. intros [= <- <-].
  rewrite b2z_z2b. assert (0 ≤ b2z a < 256) by apply b2z_range.
  assert (∀ z, 0 ≤ z < 256 → Z.land (Z.land (Z.lor z 2) 254 mod 256) 3 = 2) as Hz; [|by apply Hz].
  clear. intros z Hz. rewrite Z.mod_small.
  - rewrite <- Z.land_assoc. change (Z.land 254 3) with 2. rewrite Z.land_lor_distr_l.
    apply Z.bits_inj'. intros n Hn. rewrite Z.lor_spec, !Z.land_spec.
    destruct (Z.testbit 2 n) eqn:E; rewrite ?andb_false_r, ?andb_true_r, ?orb_true_r; done.
  - assert (Z.land (Z.lor z 2) 254 = Z.land (Z.land (Z.lor z 2) 254) (Z.ones 8)) as ->.
    { rewrite <- Z.land_assoc. by change (Z.land 254 (Z.ones 8)) with 254. }
    rewrite Z.land_ones by lia. apply Z.mod_pos_bound. lia.
Qed.

(** ** What [-validate] does not see

    The address is read without the blanks around it by the check and with them
    by the start; an uplink speed that is no number ends the start only. *)
#[local] Existing Instances ascii_tables amd64_conversion list_order list_order_laws insertion_sort no_ipv6 no_resolver.
#[local] Existing Instances plain_numbers plain_yaml.
Definition defaults_yaml : ConfigYaml := {| yaml_config _ base := Ok base |}.
#[local] Existing Instance defaults_yaml.
Definition bare_host : environment :=
  MkEnvironment started_records one_file (λ _, FileMissing) None (λ _, repeat x00 32)
    (MkAddressReader (λ _, None) (λ _ _, None)) (λ _, None) (λ _ _, false).
Definition start_with (args : list bytes) : option (result exit_error action) :=
  serveSwitchEmulation 0 bare_host ([B "-config="; B "-profile=custom-switch"] ++ args).
Definition outcome (o : option (result exit_error action)) : option (Z + bool) :=
  match o with
  | Some (Ok (Daemon _ _ _)) => Some (inr true)
  | Some (Ok (Listing (Validated _))) => Some (inr false)
  | Some (Err (code, _)) => Some (inl code)
  | _ => None
  end.

Lemma validated_but_fatal :
  Forall (λ args, outcome (start_with (B "-validate" :: args)) = Some (inr false) ∧
                  outcome (start_with args) = Some (inl 1))
    [[B "-ip= 192.168.1.50"]; [B "-uplink-speed=fast"]].
Proof. repeat apply Forall_cons_2; [split; vm_compute; reflexivity..|apply Forall_nil_2]. Qed.

(** ** Witness *)
Lemma started_daemon_serves_witness :
  outcome (start_with []) = Some (inr true) ∧
  ∃ f r i, start_with [] = Some (Ok (Daemon f r i)) ∧ validateProfile (sr_profile r) = Ok tt.
Proof.
  assert (outcome (start_with []) = Some (inr true)) as Ho by (vm_compute; reflexivity).
  split; [exact Ho|].
  destruct (start_with []) as [[[| | | | |f r i]|[code e]]|] eqn:E; try discriminate Ho.
  - destruct p; discriminate Ho.
  - assert (match start_with [] with Some (Ok (Daemon _ r _)) => counts_sum (PortGroups (sr_profile r)) | _ => 0 end
            = 0) as Hc by (vm_compute; reflexivity).
    rewrite E in Hc. exists f, r, i. split; [reflexivity|].
    refine (proj1 (started_daemon_serves 0 bare_host [(B "p", B "switch")] _ f r i _ E _)).
    + vm_compute. reflexivity.
    + rewrite Hc. vm_compute. discriminate.
Defined.
