(* ===== verification/ConfigMigrate.v ===== *)
(** Migration of old configuration files: [migrate.go] and [migrate_file.go] of
    [src/internal/config].

    The mutation of the node tree becomes passing of the root's content; the
    YAML parser and encoder are the class [MigrationYaml].  The file half runs
    on the file system of AtomicFile, system call by system call. *)
From S2P Require Import Prelude GoStrings AtomicFile GoYaml Settings.

Class MigrationYaml := {
  yaml_node : bytes → result error Node;          (* decoding into a node *)
  yaml_encode : Node → result error bytes;        (* an encoder of indent 2 *)
  yaml_marshal_node : Node → option bytes;        (* [yaml.Marshal] *)
}.

Record migration := MkMigration { mg_Changed : bool; mg_Actions : list bytes }.
Record MigrationResult := MkMigrationResult { mr_Data : bytes; mr_Result : migration }.

(** ** Mapping pairs *)
Definition with_value (value : bytes) (n : Node) : Node :=
  MkNode (n_Kind n) (n_Tag n) value (n_look n) (n_Content n) (n_Alias n).
Definition with_content (content : list Node) (n : Node) : Node :=
  MkNode (n_Kind n) (n_Tag n) (n_Value n) (n_look n) content (n_Alias n).
Definition mappingPair (content : list Node) (key : bytes) : option (nat * Node * Node) := find_pair key content 0.
Fixpoint change_pair (i : nat) (change : Node → Node → list Node) (content : list Node) : list Node :=
  match content, i with
  | k :: v :: rest, O => change k v ++ rest
  | k :: v :: rest, S i => k :: v :: change_pair i change rest
  | _, _ => content
  end.
Definition appendMappingPair (content : list Node) (key : bytes) (value : Node) : list Node :=
  content ++ [MkNode ScalarNode (B "!!str") key no_look [] None; value].
Definition removeMappingPair (content : list Node) (i : nat) : list Node := change_pair i (λ _ _, []) content.
Definition set_pair_value (content : list Node) (i : nat) (value : Node) : list Node :=
  change_pair i (λ k _, [k; value]) content.
Definition rename_pair (content : list Node) (i : nat) (key : bytes) : list Node :=
  change_pair i (λ k v, [with_value key k; v]) content.

Section migrate.
Context `{UnicodeTables} `{ConfigYaml} `{MigrationYaml}.

(** The content after a step, and what it did. *)
Definition step_result : Type := result error (list Node * list bytes).
Definition arrow (alias target : bytes) : bytes := alias ++ B " -> " ++ target.
Definition removed (alias : bytes) : bytes := B "remove duplicate " ++ alias.

Definition migrateScalarAlias (alias target : bytes) (root : list Node) : step_result :=
  match mappingPair root alias with
  | None => Ok (root, [])
  | Some (aliasIndex, _, aliasValue) =>
      if decide (n_Kind aliasValue = ScalarNode) then
        let aliasText := trim_space (n_Value aliasValue) in
        match mappingPair root target with
        | None => Ok (rename_pair root aliasIndex target, [arrow alias target])
        | Some (targetIndex, _, targetValue) =>
            if decide (n_Kind targetValue = ScalarNode) then
              let targetText := trim_space (n_Value targetValue) in
              if bool_decide (targetText = []) && negb (bool_decide (aliasText = [])) then
                Ok (removeMappingPair (set_pair_value root targetIndex aliasValue) aliasIndex, [arrow alias target])
              else if decide (targetText = aliasText) then Ok (removeMappingPair root aliasIndex, [removed alias])
              else Err "contain different values; migrate manually"%stdpp
            else Err "already exists and is not a scalar value"%stdpp
        end
      else Err "must be a scalar value to migrate"%stdpp
  end.

Definition migrateOperationMode (root : list Node) : list Node * list bytes :=
  match mappingPair root (B "operation_mode") with
  | Some (i, _, value) =>
      if bool_decide (n_Kind value = ScalarNode) && bool_decide (trim_space (n_Value value) = B "observe")
      then (set_pair_value root i (with_value (B "bridge-observe") value),
            [B "operation_mode observe -> bridge-observe"])
      else (root, [])
  | None => (root, [])
  end.

(** [bridgeObserveNode]: the root, which may have got the node, and where it is. *)
Definition bridgeObserveNode (root : list Node) : result error (list Node * nat * Node) :=
  match mappingPair root (B "bridge_observe") with
  | Some (i, _, value) =>
      if decide (n_Kind value = MappingNode) then Ok (root, i, value)
      else Err "bridge_observe already exists and is not a mapping"%stdpp
  | None =>
      let node := MkNode MappingNode (B "!!map") [] no_look [] None in
      let root := appendMappingPair root (B "bridge_observe") node in
      match mappingPair root (B "bridge_observe") with
      | Some (i, _, value) => Ok (root, i, value)
      | None => Err "unreachable"%stdpp
      end
  end.
Definition migrateBridgeAlias (alias target : bytes) (root : list Node) : step_result :=
  match mappingPair root alias with
  | None => Ok (root, [])
  | Some (aliasIndex, _, aliasValue) =>
      if decide (n_Kind aliasValue = ScalarNode) then
        let aliasText := trim_space (n_Value aliasValue) in
        if decide (aliasText = []) then Ok (root, [])
        else
          '(root, i, bridge) ← bridgeObserveNode root;
          let put content := removeMappingPair (set_pair_value root i (with_content content bridge)) aliasIndex in
          match mappingPair (n_Content bridge) target with
          | None =>
              Ok (put (appendMappingPair (n_Content bridge) target aliasValue),
                  [arrow alias (B "bridge_observe." ++ target)])
          | Some (targetIndex, _, targetValue) =>
              if decide (n_Kind targetValue = ScalarNode) then
                let targetText := trim_space (n_Value targetValue) in
                if decide (targetText = []) then
                  Ok (put (set_pair_value (n_Content bridge) targetIndex aliasValue),
                      [arrow alias (B "bridge_observe." ++ target)])
                else if decide (targetText = aliasText) then Ok (removeMappingPair root aliasIndex, [removed alias])
                else Err "contain different values; migrate manually"%stdpp
              else Err "already exists and is not a scalar value"%stdpp
          end
      else Err "must be a scalar value to migrate"%stdpp
  end.

Definition sameNode (left right : Node) : bool :=
  match yaml_marshal_node left, yaml_marshal_node right with
  | Some l, Some r => bool_decide (l = r)
  | _, _ => false
  end.
Definition migrateNodeAlias (alias target : bytes) (root : list Node) : step_result :=
  match mappingPair root alias with
  | None => Ok (root, [])
  | Some (aliasIndex, _, aliasValue) =>
      match mappingPair root target with
      | None => Ok (rename_pair root aliasIndex target, [arrow alias target])
      | Some (_, _, targetValue) =>
          if sameNode aliasValue targetValue then Ok (removeMappingPair root aliasIndex, [removed alias])
          else Err "contain different values; migrate manually"%stdpp
      end
  end.

(** The six steps of [MigrateData] in their order. *)
Definition migrate_content (root : list Node) : step_result :=
  '(root, a1) ← migrateScalarAlias (B "controller") (B "controller_url") root;
  '(root, a2) ← migrateScalarAlias (B "inform_url") (B "controller_url") root;
  let '(root, a3) := migrateOperationMode root in
  '(root, a4) ← migrateBridgeAlias (B "observe_bridge") (B "bridge") root;
  '(root, a5) ← migrateBridgeAlias (B "observe_interface") (B "uplink_interface") root;
  '(root, a6) ← migrateNodeAlias (B "port_map") (B "port_mappings") root;
  Ok (root, a1 ++ a2 ++ a3 ++ a4 ++ a5 ++ a6).

Definition parseMigrationDoc (data : bytes) : result error (Node * Node) :=
  doc ← wrap_err "parse config for migration" (yaml_node data);
  match n_Kind doc, n_Content doc with
  | DocumentNode, root :: _ =>
      if decide (n_Kind root = MappingNode) then Ok (doc, root)
      else Err "config migration requires a YAML mapping document"%stdpp
  | _, _ => Err "config migration requires one YAML document"%stdpp
  end.
Definition encodeMigrationDoc (doc : Node) : result error bytes :=
  wrap_err "encode migrated config" (yaml_encode doc).
(** Every action marks the result as changed. *)
Definition MigrateData (data : bytes) : result error MigrationResult :=
  '(doc, root) ← parseMigrationDoc data;
  '(content, actions) ← migrate_content (n_Content root);
  match actions with
  | [] => Ok (MkMigrationResult data (MkMigration false []))
  | _ =>
      out ← encodeMigrationDoc (with_content (with_content content root :: drop 1 (n_Content doc)) doc);
      _ ← wrap_err "validate migrated config" (Decode out);
      Ok (MkMigrationResult out (MkMigration true actions))
  end.
End migrate.

(** ** Mappings with unique keys, as maps *)
Definition pair_entry (p : Node * Node) : bytes * Node := (n_Value p.1, p.2).
Definition keyed (content : list Node) (m : gmap bytes Node) : Prop :=
  ∃ ps, content = unpairs ps ∧ NoDup (pair_entry <$> ps).*1 ∧ m = list_to_map (pair_entry <$> ps).
Definition value_at (key : bytes) (content : list Node) : option Node := snd <$> mappingPair content key.
Definition unique_keys (content : list Node) : Prop := ∃ m, keyed content m.

Lemma unpairs_app ps qs : unpairs (ps ++ qs) = unpairs ps ++ unpairs qs.
Proof. induction ps as [|[k v] ps IH]; [done|]. cbn. by rewrite IH. Qed.

Lemma find_pair_spec key ps i :
  match find_pair key (unpairs ps) i with
  | Some (j, k, v) => ∃ ps1 ps2, ps = ps1 ++ (k, v) :: ps2 ∧ j = (i + length ps1)%nat ∧ n_Value k = key
  | None => key ∉ (pair_entry <$> ps).*1
  end.
Proof.
  revert i. induction ps as [|[k v] ps IH]; intros i; cbn; [by apply not_elem_of_nil|].
  case_decide as E.
  - exists [], ps. cbn. split_and!; [done|lia|done].
  - specialize (IH (S i)). destruct (find_pair key (unpairs ps) (S i)) as [[[j k'] v']|].
    + destruct IH as (ps1 & ps2 & -> & -> & Hk). exists ((k, v) :: ps1), ps2. cbn. split_and!; [done|lia|done].
    + by apply not_elem_of_cons.
Qed.

Lemma change_pair_at ps1 k v ps2 change :
  change_pair (length ps1) change (unpairs (ps1 ++ (k, v) :: ps2)) = unpairs ps1 ++ change k v ++ unpairs ps2.
Proof.
  induction ps1 as [|[k' v'] ps1 IH]; cbn; [done|]. by rewrite IH.
Qed.

Lemma mappingPair_keyed content m key :
  keyed content m →
  match mappingPair content key with
  | Some (i, k, v) => m !! key = Some v ∧ n_Value k = key ∧
      ∃ ps1 ps2, content = unpairs (ps1 ++ (k, v) :: ps2) ∧ i = length ps1 ∧
        NoDup (pair_entry <$> ps1 ++ (k, v) :: ps2).*1 ∧ m = list_to_map (pair_entry <$> ps1 ++ (k, v) :: ps2)
  | None => m !! key = None
  end.
Proof.
  intros (ps & -> & Hd & ->). unfold mappingPair. pose proof (find_pair_spec key ps 0) as Hs.
  destruct (find_pair key (unpairs ps) 0) as [[[j k] v]|].
  - destruct Hs as (ps1 & ps2 & -> & -> & Hk). split_and!; [|done|by exists ps1, ps2].
    apply elem_of_list_to_map; [done|]. apply list_elem_of_fmap. exists (k, v).
    split; [by rewrite <- Hk|]. apply elem_of_app. right. by left.
  - by apply not_elem_of_list_to_map_1.
Qed.

Lemma value_at_keyed content m key : keyed content m → value_at key content = m !! key.
Proof.
  intros Hk%(mappingPair_keyed _ _ key). unfold value_at.
  destruct (mappingPair content key) as [[[i k] v]|]; [by destruct Hk as [-> _]|done].
Qed.

(** The four changes of a mapping are those of a map. *)
Lemma keyed_append content m key value :
  keyed content m → m !! key = None → keyed (appendMappingPair content key value) (<[key := value]> m).
Proof.
  intros (ps & -> & Hd & ->) Hn. apply not_elem_of_list_to_map_2 in Hn.
  exists (ps ++ [(MkNode ScalarNode (B "!!str") key no_look [] None, value)]).
  rewrite unpairs_app, !fmap_app. cbn. split_and!; [done|..].
  - apply NoDup_app. split_and!; [done|by intros x Hx ->%list_elem_of_singleton|apply NoDup_singleton].
  - rewrite list_to_map_app. cbn. rewrite insert_empty, insert_union_singleton_r; [done|].
    by apply not_elem_of_list_to_map_1.
Qed.

Lemma keyed_middle ps1 k v ps2 :
  NoDup (pair_entry <$> ps1 ++ (k, v) :: ps2).*1 →
  n_Value k ∉ (pair_entry <$> ps1 ++ ps2).*1 ∧ NoDup (pair_entry <$> ps1 ++ ps2).*1 ∧
  ∀ k' v', n_Value k' = n_Value k →
    list_to_map (M := gmap bytes Node) (pair_entry <$> ps1 ++ (k', v') :: ps2) =
    <[n_Value k := v']> (list_to_map (pair_entry <$> ps1 ++ ps2)).
Proof.
  intros Hd. assert (∀ k' v', (pair_entry <$> ps1 ++ (k', v') :: ps2) ≡ₚ (n_Value k', v') :: (pair_entry <$> ps1 ++ ps2))
    as Hp by (intros k' v'; rewrite !fmap_app, fmap_cons; symmetry; apply Permutation_middle).
  assert (NoDup (n_Value k :: (pair_entry <$> ps1 ++ ps2).*1)) as [Hn Hd']%NoDup_cons.
  { eapply NoDup_Permutation_proper; [|exact Hd]. by rewrite (Hp k v). }
  split_and!; [done..|]. intros k' v' Ek.
  rewrite (list_to_map_proper _ ((n_Value k', v') :: (pair_entry <$> ps1 ++ ps2))); [by rewrite Ek| |by apply Hp].
  rewrite (Hp k' v'). cbn. rewrite Ek. by apply NoDup_cons.
Qed.

Lemma keyed_delete content m key i k v :
  keyed content m → mappingPair content key = Some (i, k, v) → keyed (removeMappingPair content i) (delete key m).
Proof.
  intros Hk Hp. apply (mappingPair_keyed _ _ key) in Hk. rewrite Hp in Hk.
  destruct Hk as (_ & <- & ps1 & ps2 & -> & -> & Hd & ->). unfold removeMappingPair. rewrite change_pair_at.
  destruct (keyed_middle _ _ _ _ Hd) as (Hn & Hd' & Hm). exists (ps1 ++ ps2).
  split_and!; [by rewrite unpairs_app|done|].
  rewrite (Hm k v) by done. rewrite delete_insert_id; [done|]. by apply not_elem_of_list_to_map_1.
Qed.

Lemma keyed_set content m key i k v value :
  keyed content m → mappingPair content key = Some (i, k, v) →
  keyed (set_pair_value content i value) (<[key := value]> m).
Proof.
  intros Hk Hp. apply (mappingPair_keyed _ _ key) in Hk. rewrite Hp in Hk.
  destruct Hk as (_ & <- & ps1 & ps2 & -> & -> & Hd & ->). unfold set_pair_value. rewrite change_pair_at.
  destruct (keyed_middle _ _ _ _ Hd) as (Hn & Hd' & Hm). exists (ps1 ++ (k, value) :: ps2).
  split_and!; [by rewrite unpairs_app| |].
  - revert Hd. by rewrite !fmap_app, !fmap_cons.
  - rewrite (Hm k value), (Hm k v) by done. by rewrite insert_insert_eq.
Qed.

Lemma keyed_rename content m key i k v target :
  keyed content m → mappingPair content key = Some (i, k, v) → m !! target = None →
  keyed (rename_pair content i target) (<[target := v]> (delete key m)).
Proof.
  intros Hk Hp Ht. pose proof Hk as Hk'. apply (mappingPair_keyed _ _ key) in Hk. rewrite Hp in Hk.
  destruct Hk as (Hv & <- & ps1 & ps2 & -> & -> & Hd & ->). unfold rename_pair. rewrite change_pair_at.
  destruct (keyed_middle _ _ _ _ Hd) as (Hn & Hd' & Hm).
  assert (NoDup (pair_entry <$> ps1 ++ (with_value target k, v) :: ps2).*1) as Hd2.
  { eapply NoDup_Permutation_proper; [rewrite !fmap_app, !fmap_cons; symmetry; apply Permutation_middle|].
    rewrite <- fmap_app, <- fmap_app. cbn. apply NoDup_cons. split; [|done].
    apply not_elem_of_list_to_map_2 in Ht. intros Hin. apply Ht. revert Hin.
    rewrite !fmap_app, !fmap_cons, !elem_of_app, elem_of_cons. tauto. }
  exists (ps1 ++ (with_value target k, v) :: ps2). split_and!; [by rewrite unpairs_app|done|].
  destruct (keyed_middle _ _ _ _ Hd2) as (_ & _ & Hm2). rewrite (Hm2 _ v eq_refl), (Hm k v eq_refl). cbn.
  f_equal. rewrite delete_insert_id; [done|]. by apply not_elem_of_list_to_map_1.
Qed.

(** Setting a value or appending a pair moves no other pair. *)
Lemma pair_ind {A} (P : list A → Prop) :
  P [] → (∀ a, P [a]) → (∀ a b l, P l → P (a :: b :: l)) → ∀ l, P l.
Proof.
  intros H0 H1 H2. fix go 1. intros [|a [|b l]]; [exact H0|exact (H1 a)|exact (H2 a b l (go l))].
Qed.
Lemma find_set_value key content i j k v value n :
  find_pair key content n = Some (i, k, v) →
  ∃ v', find_pair key (change_pair j (λ k _, [k; value]) content) n = Some (i, k, v').
Proof.
  revert n j. induction content as [| |k0 v0 rest IH] using pair_ind; intros n j; [done..|]. cbn.
  destruct j as [|j]; cbn; case_decide; try (intros [= <- <- <-]; by eexists); [by eexists|apply IH].
Qed.
Lemma find_append key content extra r n :
  find_pair key content n = Some r → find_pair key (content ++ extra) n = Some r.
Proof.
  revert n. induction content as [| |k0 v0 rest IH] using pair_ind; intros n; [done..|]. cbn. case_decide; [done|apply IH].
Qed.

Lemma keyed_set_delete content m target j kt tv alias i ka av value :
  keyed content m → mappingPair content target = Some (j, kt, tv) → mappingPair content alias = Some (i, ka, av) →
  keyed (removeMappingPair (set_pair_value content j value) i) (delete alias (<[target := value]> m)).
Proof.
  intros Hk Ht Ha. destruct (find_set_value alias content i j ka av value 0 Ha) as [v' Hv'].
  eapply keyed_delete; [by eapply keyed_set|exact Hv'].
Qed.

(** ** What each step does to the map *)
Section steps.
Context `{UnicodeTables} `{ConfigYaml} `{MigrationYaml}.

Definition text (n : Node) : bytes := trim_space (n_Value n).
(** [o] has the text [x], which is not blank. *)
Definition says (o : option Node) (x : bytes) : Prop := x ≠ [] ∧ ∃ v, o = Some v ∧ text v = x.

(** What a new name says after taking over the value [a] of an old one: its own
    value [t], unless only [a] has something to say. *)
Definition said (o : option Node) : bool := match o with Some v => negb (bool_decide (text v = [])) | None => false end.
Definition spoken (o : option Node) : option Node := if said o then o else None.
Definition taken (a t : option Node) : option Node :=
  match a, t with
  | None, _ => t
  | Some _, None => a
  | Some _, Some _ => if said a && negb (said t) then a else t
  end.
Definition agree (a t : option Node) : Prop :=
  ∀ v w, a = Some v → t = Some w → text v ≠ [] → text w ≠ [] → text v = text w.

Lemma taken_says a t x : agree a t → says a x ∨ says t x → says (taken a t) x.
Proof.
  intros Hag [(Hx & v & -> & Hv)|(Hx & v & -> & Hv)]; unfold taken, said.
  - destruct t as [w|]; [|by split; [|exists v]]. destruct (bool_decide_reflect (text v = [])); [congruence|].
    destruct (bool_decide_reflect (text w = [])); cbn; (split; [done|]); [by exists v|].
    exists w. split; [done|]. rewrite <- Hv. symmetry. by apply (Hag v w).
  - destruct a as [w|]; [|by split; [|exists v]]. destruct (bool_decide_reflect (text v = [])); [congruence|].
    rewrite andb_false_r. split; [done|by exists v].
Qed.
Lemma spoken_says a x : says (spoken a) x ↔ says a x.
Proof.
  unfold spoken, said. destruct a as [v|]; [|done]. destruct (bool_decide_reflect (text v = [])); [|done].
  split; intros (Hx & w & Hw & Hv); [done|]. injection Hw as <-. congruence.
Qed.
Lemma said_true v : text v ≠ [] → said (Some v) = true.
Proof. intros H'. unfold said. by rewrite bool_decide_eq_false_2. Qed.
Lemma said_false v : text v = [] → said (Some v) = false.
Proof. intros H'. unfold said. by rewrite bool_decide_eq_true_2. Qed.

Lemma scalar_step alias target root m root' acts :
  alias ≠ target → keyed root m → migrateScalarAlias alias target root = Ok (root', acts) →
  ∃ m', keyed root' m' ∧ m' !! alias = None ∧ (∀ k, k ≠ alias → k ≠ target → m' !! k = m !! k) ∧
    m' !! target = taken (m !! alias) (m !! target) ∧ agree (m !! alias) (m !! target) ∧ (acts = [] → root' = root).
Proof.
  intros Hne Hk. unfold migrateScalarAlias. pose proof (mappingPair_keyed _ _ alias Hk) as Ha.
  destruct (mappingPair root alias) as [[[i ka] av]|] eqn:Ea.
  2: { intros [= <- <-]. exists m. by rewrite Ha. }
  destruct Ha as [Ha _]. case_decide; [|done]. cbv zeta.
  pose proof (mappingPair_keyed _ _ target Hk) as Ht.
  destruct (mappingPair root target) as [[[j kt] tv]|] eqn:Et.
  2: { intros [= <- <-]. exists (<[target := av]> (delete alias m)). rewrite Ha, Ht. split_and!; [..|done|done].
    - by eapply keyed_rename.
    - rewrite lookup_insert_ne by done. apply lookup_delete_eq.
    - intros k ? ?. by rewrite lookup_insert_ne, lookup_delete_ne.
    - apply lookup_insert_eq. }
  destruct Ht as [Ht _]. case_decide; [|done]. rewrite Ha, Ht. fold (text tv) (text av). destruct (bool_decide _ && _) eqn:Ec.
  - apply andb_true_iff in Ec as [Et' Ea']. bool_to_prop.
    intros [= <- <-]. exists (delete alias (<[target := av]> m)). split_and!; [..|done].
    + by eapply keyed_set_delete.
    + apply lookup_delete_eq.
    + intros k ? ?. by rewrite lookup_delete_ne, lookup_insert_ne.
    + rewrite lookup_delete_ne, lookup_insert_eq by done. unfold taken. by rewrite said_true, said_false.
    + intros v w [= <-] [= <-]. done.
  - case_decide as Eq; [|done]. intros [= <- <-]. exists (delete alias m). split_and!; [..|done].
    + by eapply keyed_delete.
    + apply lookup_delete_eq.
    + intros k ? ?. by rewrite lookup_delete_ne.
    + rewrite lookup_delete_ne by done. rewrite Ht. unfold taken, said. rewrite Eq. by destruct (bool_decide (text av = [])).
    + intros v w [= <-] [= <-]. done.
Qed.

Lemma node_step alias target root m root' acts :
  alias ≠ target → keyed root m → migrateNodeAlias alias target root = Ok (root', acts) →
  ∃ m', keyed root' m' ∧ m' !! alias = None ∧ (∀ k, k ≠ alias → k ≠ target → m' !! k = m !! k) ∧
    match m !! alias, m !! target with
    | Some av, Some tv => m' !! target = Some tv ∧ sameNode av tv = true
    | Some av, None => m' !! target = Some av
    | None, o => m' !! target = o
    end ∧ (acts = [] → root' = root).
Proof.
  intros Hne Hk. unfold migrateNodeAlias. pose proof (mappingPair_keyed _ _ alias Hk) as Ha.
  destruct (mappingPair root alias) as [[[i ka] av]|] eqn:Ea.
  2: { intros [= <- <-]. exists m. rewrite Ha. by destruct (m !! target). }
  destruct Ha as [Ha _]. rewrite Ha. pose proof (mappingPair_keyed _ _ target Hk) as Ht.
  destruct (mappingPair root target) as [[[j kt] tv]|] eqn:Et.
  - destruct Ht as [Ht _]. rewrite Ht. destruct (sameNode av tv) eqn:Es; [|done].
    intros [= <- <-]. exists (delete alias m). split_and!; [by eapply keyed_delete|apply lookup_delete_eq| |..|done].
    + intros k ? ?. by rewrite lookup_delete_ne.
    + by rewrite lookup_delete_ne.
    + done.
  - rewrite Ht. intros [= <- <-]. exists (<[target := av]> (delete alias m)). split_and!; [..|done].
    + by eapply keyed_rename.
    + rewrite lookup_insert_ne by done. apply lookup_delete_eq.
    + intros k ? ?. by rewrite lookup_insert_ne, lookup_delete_ne.
    + apply lookup_insert_eq.
Qed.

Definition new_mode (v : Node) : Node :=
  if bool_decide (n_Kind v = ScalarNode) && bool_decide (text v = B "observe") then with_value (B "bridge-observe") v
  else v.
Lemma new_mode_settled v : n_Kind (new_mode v) = ScalarNode → text (new_mode v) ≠ B "observe".
Proof.
  unfold new_mode. destruct (bool_decide _ && _) eqn:Ec.
  - intros _ E. by vm_compute in E.
  - intros Hs Ht. by rewrite (bool_decide_true _ Hs), (bool_decide_true _ Ht) in Ec.
Qed.
Lemma mode_step root m root' acts :
  keyed root m → migrateOperationMode root = (root', acts) →
  ∃ m', keyed root' m' ∧ (∀ k, k ≠ B "operation_mode" → m' !! k = m !! k) ∧
    m' !! B "operation_mode" = new_mode <$> m !! B "operation_mode" ∧ (acts = [] → root' = root).
Proof.
  intros Hk. unfold migrateOperationMode. pose proof (mappingPair_keyed _ _ (B "operation_mode") Hk) as Ha.
  destruct (mappingPair root (B "operation_mode")) as [[[i ka] av]|] eqn:Ea.
  2: { intros [= <- <-]. exists m. by rewrite Ha. }
  destruct Ha as [Ha _]. rewrite Ha. cbn [fmap option_fmap option_map]. unfold new_mode, text.
  destruct (bool_decide _ && _) eqn:Ec; intros [= <- <-].
  - eexists. split_and!; [by eapply keyed_set|intros k ?; by apply lookup_insert_ne|apply lookup_insert_eq|done].
  - exists m. done.
Qed.

(** The mapping under [bridge_observe]. *)
Definition bridge_key : bytes := B "bridge_observe".
Definition bridge_content (o : option Node) : list Node := match o with Some b => n_Content b | None => [] end.

(** The node itself, without its content. *)
Definition frame (o : option Node) : option Node := with_content [] <$> o.
Definition new_bridge : Node := MkNode MappingNode (B "!!map") [] no_look [] None.

Lemma bridge_node_step root m root' i bridge :
  keyed root m → bridgeObserveNode root = Ok (root', i, bridge) →
  ∃ m' k, keyed root' m' ∧ mappingPair root' bridge_key = Some (i, k, bridge) ∧
    bridge = default new_bridge (m !! bridge_key) ∧ (∀ k, k ≠ bridge_key → m' !! k = m !! k) ∧
    (∀ key r, mappingPair root key = Some r → mappingPair root' key = Some r).
Proof.
  intros Hk. unfold bridgeObserveNode. fold bridge_key new_bridge. pose proof (mappingPair_keyed _ _ bridge_key Hk) as Hb.
  destruct (mappingPair root bridge_key) as [[[j kb] b]|] eqn:Eb.
  - destruct Hb as [Hb _]. case_decide; [|done]. intros [= <- <- <-]. exists m, kb. rewrite Hb. done.
  - pose proof (keyed_append root m bridge_key new_bridge Hk Hb) as Hk'.
    pose proof (mappingPair_keyed _ _ bridge_key Hk') as Hb'.
    destruct (mappingPair (appendMappingPair root bridge_key new_bridge) bridge_key) as [[[j kb] b]|] eqn:Eb'; [|done].
    destruct Hb' as [Hb' _]. rewrite lookup_insert_eq in Hb'. injection Hb' as <-. intros [= <- <- <-].
    exists (<[bridge_key := new_bridge]> m), kb. rewrite Hb. split_and!; [done..| |].
    + intros k ?. by apply lookup_insert_ne.
    + intros key r. apply find_append.
Qed.

Definition bridge_unique (o : option Node) : Prop := unique_keys (bridge_content o).
(** The root's map [m'] after the value of [alias] went to [bridge_observe.target]. *)
Record bridged (alias target : bytes) (m m' : gmap bytes Node) : Prop := {
  bd_scalar : ∀ v, m !! alias = Some v → n_Kind v = ScalarNode;
  bd_alias : m' !! alias = if said (m !! alias) then None else m !! alias;
  bd_others : ∀ k, k ≠ alias → k ≠ bridge_key → m' !! k = m !! k;
  bd_unique : bridge_unique (m' !! bridge_key);
  bd_siblings : ∀ k, k ≠ target →
    value_at k (bridge_content (m' !! bridge_key)) = value_at k (bridge_content (m !! bridge_key));
  bd_target : value_at target (bridge_content (m' !! bridge_key)) =
    taken (spoken (m !! alias)) (value_at target (bridge_content (m !! bridge_key)));
  bd_agree : agree (m !! alias) (value_at target (bridge_content (m !! bridge_key)));
  bd_frame : frame (m' !! bridge_key) =
    if said (m !! alias) then Some (default new_bridge (frame (m !! bridge_key))) else frame (m !! bridge_key);
}.

(** Nothing is said under the old name. *)
Lemma bridged_silent alias target m :
  bridge_unique (m !! bridge_key) → said (m !! alias) = false → (∀ v, m !! alias = Some v → n_Kind v = ScalarNode) →
  bridged alias target m m.
Proof.
  intros Hu Hs Hk. split; unfold spoken; rewrite ?Hs; try done.
  intros v w Hv _ Ht. rewrite Hv, said_true in Hs by done. done.
Qed.

Lemma frame_default o : frame (Some (default new_bridge o)) = Some (default new_bridge (frame o)).
Proof. by destruct o. Qed.
Lemma default_content o : n_Content (default new_bridge o) = bridge_content o.
Proof. by destruct o. Qed.

(** The map after the bridge has got the content [content], the pairs [mb']. *)
Lemma bridged_put alias target m m1 av content mb mb' :
  alias ≠ bridge_key → m !! alias = Some av → n_Kind av = ScalarNode → text av ≠ [] →
  (∀ k, k ≠ bridge_key → m1 !! k = m !! k) → keyed (bridge_content (m !! bridge_key)) mb →
  keyed content mb' → (∀ k, k ≠ target → mb' !! k = mb !! k) → mb' !! target = taken (Some av) (mb !! target) →
  agree (Some av) (mb !! target) →
  bridged alias target m (delete alias (<[bridge_key := with_content content (default new_bridge (m !! bridge_key))]> m1)).
Proof.
  intros Hne Ha Hs Hav Hm Hmb Hc Ho Ht Hag. set (node := with_content _ _).
  assert (delete alias (<[bridge_key := node]> m1) !! bridge_key = Some node) as Hn
    by (by rewrite lookup_delete_ne, lookup_insert_eq).
  split; unfold spoken; rewrite ?Hn, ?Ha, ?said_true by done; cbn [bridge_content node with_content n_Content].
  - by intros v [= <-].
  - apply lookup_delete_eq.
  - intros k ? ?. rewrite lookup_delete_ne, lookup_insert_ne by done. by apply Hm.
  - by exists mb'.
  - intros k Hkt. rewrite (value_at_keyed _ _ k Hc), (value_at_keyed _ _ k Hmb). by apply Ho.
  - by rewrite (value_at_keyed _ _ target Hc), (value_at_keyed _ _ target Hmb).
  - by rewrite (value_at_keyed _ _ target Hmb).
  - rewrite <- frame_default. by destruct (m !! bridge_key).
Qed.

Lemma bridge_step alias target root m root' acts :
  alias ≠ bridge_key → keyed root m → bridge_unique (m !! bridge_key) →
  migrateBridgeAlias alias target root = Ok (root', acts) →
  ∃ m', keyed root' m' ∧ bridged alias target m m' ∧ (acts = [] → root' = root).
Proof.
  intros Hne Hk Hu. unfold migrateBridgeAlias. pose proof (mappingPair_keyed _ _ alias Hk) as Ha.
  destruct (mappingPair root alias) as [[[i ka] av]|] eqn:Ea.
  2: { intros [= <- <-]. exists m. split_and!; [done|apply bridged_silent; by rewrite ?Ha|done]. }
  destruct Ha as [Ha _]. case_decide as Es; [|done]. cbv zeta. case_decide as Eb.
  { intros [= <- <-]. exists m. split_and!; [done|apply bridged_silent; rewrite ?Ha; [done|by apply said_false|by intros v [= <-]]|done]. }
  fold (text av) in Eb. destruct (bridgeObserveNode root) as [[[root1 j] bridge]|] eqn:En; cbn [mbind result_bind]; [|done].
  apply (bridge_node_step root m) in En as (m1 & kb & Hk1 & Hj & Hbr & Hsame & Hfind); [|done].
  destruct Hu as [mb Hmb]. rewrite Hbr, default_content. rewrite <- Hbr.
  pose proof (mappingPair_keyed _ _ target Hmb) as Ht.
  destruct (mappingPair (bridge_content (m !! bridge_key)) target) as [[[it kt] tv]|] eqn:Et.
  - destruct Ht as [Ht _]. case_decide as Ets; [|done]. fold (text tv) (text av).
    case_decide as Ett; [|case_decide as Eq; [|done]]; intros [= <- <-].
    + eexists. split_and!; [eapply keyed_set_delete; [done|done|by apply Hfind]|rewrite Hbr|done].
      apply (bridged_put _ _ _ _ av _ mb (<[target := av]> mb)); try done.
      * by eapply keyed_set.
      * intros k ?. by apply lookup_insert_ne.
      * rewrite lookup_insert_eq, Ht. unfold taken. by rewrite said_true, said_false.
      * intros v w [= <-] Hw. rewrite Ht in Hw. by injection Hw as <-.
    + assert (m1 !! bridge_key = Some bridge) as Hm1.
      { pose proof (mappingPair_keyed _ _ bridge_key Hk1) as Hb. rewrite Hj in Hb. apply Hb. }
      exists (delete alias m1). split_and!; [eapply keyed_delete; [done|by apply Hfind]| |done].
      assert (delete alias m1 = delete alias (<[bridge_key :=
        with_content (bridge_content (m !! bridge_key)) (default new_bridge (m !! bridge_key))]> m1)) as ->.
      { f_equal. symmetry. apply insert_id. rewrite Hm1, Hbr. by destruct (m !! bridge_key) as [[]|]. }
      apply (bridged_put _ _ _ _ av _ mb mb); try done.
      * rewrite Ht. unfold taken. by rewrite said_true, said_true by (by rewrite ?Eq).
      * intros v w [= <-] Hw. rewrite Ht in Hw. by injection Hw as <-.
  - intros [= <- <-]. eexists. split_and!; [eapply keyed_set_delete; [done|done|by apply Hfind]|rewrite Hbr|done].
    apply (bridged_put _ _ _ _ av _ mb (<[target := av]> mb)); try done.
    + by apply keyed_append.
    + intros k ?. by apply lookup_insert_ne.
    + by rewrite lookup_insert_eq, Ht.
    + intros v w _ Hw. by rewrite Ht in Hw.
Qed.

Lemma bridge_unique_at root m :
  keyed root m → (∀ b, value_at bridge_key root = Some b → unique_keys (n_Content b)) → bridge_unique (m !! bridge_key).
Proof.
  intros Hk Hb. rewrite <- (value_at_keyed root) by done. unfold bridge_unique.
  destruct (value_at bridge_key root) as [b|] eqn:E; [by apply Hb|]. exists ∅, [].
  split_and!; [done|constructor|done].
Qed.

(** A root with nothing to migrate is left alone. *)
Definition blank_scalar (o : option Node) : Prop := ∀ v, o = Some v → n_Kind v = ScalarNode ∧ text v = [].
Record settled (root : list Node) : Prop := {
  sd_controller : value_at (B "controller") root = None;
  sd_inform : value_at (B "inform_url") root = None;
  sd_port_map : value_at (B "port_map") root = None;
  sd_mode : ∀ v, value_at (B "operation_mode") root = Some v → n_Kind v = ScalarNode → text v ≠ B "observe";
  sd_bridge : blank_scalar (value_at (B "observe_bridge") root);
  sd_interface : blank_scalar (value_at (B "observe_interface") root);
}.

Lemma value_at_None key root : value_at key root = None → mappingPair root key = None.
Proof. unfold value_at. by destruct (mappingPair root key). Qed.

Lemma settled_fixed root : settled root → migrate_content root = Ok (root, []).
Proof.
  intros [Hc Hi Hp Hm Hb Hf]. apply value_at_None in Hc, Hi, Hp.
  assert (∀ alias target, mappingPair root alias = None → migrateScalarAlias alias target root = Ok (root, [])) as Hsc.
  { intros alias target E. unfold migrateScalarAlias. by rewrite E. }
  assert (migrateNodeAlias (B "port_map") (B "port_mappings") root = Ok (root, [])) as Hn.
  { unfold migrateNodeAlias. by rewrite Hp. }
  assert (migrateOperationMode root = (root, [])) as Hom.
  { unfold migrateOperationMode. unfold value_at in Hm.
    destruct (mappingPair root (B "operation_mode")) as [[[i k] v]|]; [|done].
    destruct (bool_decide _ && _) eqn:E; [|done]. bool_to_prop. exfalso. by eapply Hm. }
  assert (∀ alias target, blank_scalar (value_at alias root) → migrateBridgeAlias alias target root = Ok (root, [])) as Hbr.
  { intros alias target Hbl. unfold migrateBridgeAlias. unfold value_at in Hbl.
    destruct (mappingPair root alias) as [[[i k] v]|]; [|done]. destruct (Hbl v eq_refl) as [Hk Ht].
    unfold text in Ht. by rewrite decide_True, decide_True. }
  unfold migrate_content. rewrite (Hsc (B "controller")) by done. cbn [mbind result_bind].
  rewrite (Hsc (B "inform_url")) by done. cbn [mbind result_bind]. rewrite Hom.
  rewrite (Hbr (B "observe_bridge")) by done. cbn [mbind result_bind].
  rewrite (Hbr (B "observe_interface")) by done. cbn [mbind result_bind]. by rewrite Hn.
Qed.

(** What stays of an old name that was a scalar. *)
Lemma blank_left o : (∀ v, o = Some v → n_Kind v = ScalarNode) → blank_scalar (if said o then None else o).
Proof.
  intros Hk v. destruct (said o) eqn:E; [done|]. intros ->. split; [by apply Hk|].
  destruct (decide (text v = [])) as [Ht|Ht]; [done|]. by rewrite said_true in E.
Qed.
Lemma spoken_agree a t : agree a t → agree (spoken a) t.
Proof. intros Ha v w Hv. apply Ha. unfold spoken in Hv. by destruct (said a). Qed.

(** C23: a migration moves the values of the old names and loses none.  If it
    succeeds on a document whose keys are unique, and those of its
    [bridge_observe] too: the old names are gone (a blank [observe_bridge] or
    [observe_interface] stays); each new name has its own value, or that of the
    old name where it said nothing itself; whatever was said under an old or
    new name is said under the new one; the mode [observe] is [bridge-observe]
    and any other mode is kept; [bridge_observe] is the same node with its other
    keys, or a new mapping if there was none and something is put into it; every
    other key keeps its value; without an action the document is unchanged; and
    a second migration finds nothing to do. *)
Theorem migration_settles root root' actions :
  unique_keys root → (∀ b, value_at bridge_key root = Some b → unique_keys (n_Content b)) →
  migrate_content root = Ok (root', actions) →
  let old k := value_at k root in
  let new k := value_at k root' in
  let old_bridge k := value_at k (bridge_content (old bridge_key)) in
  let new_bridge_observe k := value_at k (bridge_content (new bridge_key)) in
  settled root' ∧ migrate_content root' = Ok (root', []) ∧ (actions = [] → root' = root) ∧
  new (B "controller_url") = taken (old (B "inform_url")) (taken (old (B "controller")) (old (B "controller_url"))) ∧
  (∀ k x, k ∈ [B "controller"; B "inform_url"; B "controller_url"] →
     says (old k) x → says (new (B "controller_url")) x) ∧
  new (B "operation_mode") = new_mode <$> old (B "operation_mode") ∧
  new_bridge_observe (B "bridge") = taken (spoken (old (B "observe_bridge"))) (old_bridge (B "bridge")) ∧
  new_bridge_observe (B "uplink_interface") =
    taken (spoken (old (B "observe_interface"))) (old_bridge (B "uplink_interface")) ∧
  (∀ x, says (old (B "observe_bridge")) x ∨ says (old_bridge (B "bridge")) x → says (new_bridge_observe (B "bridge")) x) ∧
  (∀ x, says (old (B "observe_interface")) x ∨ says (old_bridge (B "uplink_interface")) x →
     says (new_bridge_observe (B "uplink_interface")) x) ∧
  (∀ k, k ≠ B "bridge" → k ≠ B "uplink_interface" → new_bridge_observe k = old_bridge k) ∧
  frame (new bridge_key) =
    (if said (old (B "observe_bridge")) || said (old (B "observe_interface"))
     then Some (default new_bridge (frame (old bridge_key))) else frame (old bridge_key)) ∧
  match old (B "port_map"), old (B "port_mappings") with
  | Some v, Some w => new (B "port_mappings") = Some w ∧ sameNode v w = true
  | Some v, None => new (B "port_mappings") = Some v
  | None, w => new (B "port_mappings") = w
  end ∧
  (∀ k, k ∉ [B "controller"; B "inform_url"; B "controller_url"; B "operation_mode"; B "observe_bridge";
             B "observe_interface"; bridge_key; B "port_map"; B "port_mappings"] → new k = old k).
Proof.
  intros [m0 Hk0] Hbu. unfold migrate_content.
  destruct (migrateScalarAlias (B "controller") _ root) as [[r1 a1]|] eqn:E1; cbn [mbind result_bind]; [|done].
  destruct (migrateScalarAlias (B "inform_url") _ r1) as [[r2 a2]|] eqn:E2; cbn [mbind result_bind]; [|done].
  destruct (migrateOperationMode r2) as [r3 a3] eqn:E3.
  destruct (migrateBridgeAlias (B "observe_bridge") _ r3) as [[r4 a4]|] eqn:E4; cbn [mbind result_bind]; [|done].
  destruct (migrateBridgeAlias (B "observe_interface") _ r4) as [[r5 a5]|] eqn:E5; cbn [mbind result_bind]; [|done].
  destruct (migrateNodeAlias (B "port_map") _ r5) as [[r6 a6]|] eqn:E6; cbn [mbind result_bind]; [|done].
  intros [= <- <-].
  apply (scalar_step _ _ _ m0) in E1 as (m1 & Hk1 & N1 & S1 & T1 & G1 & A1); [|done|done].
  apply (scalar_step _ _ _ m1) in E2 as (m2 & Hk2 & N2 & S2 & T2 & G2 & A2); [|done|done].
  apply (mode_step _ m2) in E3 as (m3 & Hk3 & S3 & M3 & A3); [|done].
  assert (m3 !! bridge_key = m0 !! bridge_key) as Eb by by rewrite S3, S2, S1.
  apply (bridge_step _ _ _ m3) in E4 as (m4 & Hk4 & [K4 N4 S4 U4 O4 T4 G4 F4] & A4); [|done|done|].
  2: { rewrite Eb. by eapply bridge_unique_at. }
  apply (bridge_step _ _ _ m4) in E5 as (m5 & Hk5 & [K5 N5 S5 U5 O5 T5 G5 F5] & A5); [|done..].
  apply (node_step _ _ _ m5) in E6 as (m6 & Hk6 & N6 & S6 & T6 & A6); [|done|done].
  cbv zeta. pose proof (λ k, value_at_keyed _ _ k Hk0) as V0. pose proof (λ k, value_at_keyed _ _ k Hk6) as V6.
  (* each map at the keys the later steps read *)
  rewrite (S1 (B "inform_url")) in T2, G2 by done. rewrite T1 in T2, G2.
  rewrite S2, S1 in M3 by done. rewrite Eb in O4, T4, G4, F4.
  rewrite S3, S2, S1 in N4, T4, G4, F4, K4 by done.
  rewrite S4, S3, S2, S1 in N5, T5, G5, F5, K5 by done. rewrite O4 in T5, G5 by done. rewrite F4 in F5.
  rewrite !S5, !S4, !S3, !S2, !S1 in T6 by done.
  assert (settled r6) as Hsd.
  { split; unfold blank_scalar; setoid_rewrite V6.
    - by rewrite S6, S5, S4, S3, S2.
    - by rewrite S6, S5, S4, S3.
    - done.
    - intros v. rewrite S6, S5, S4, M3 by done. intros (w & _ & ->)%fmap_Some. apply new_mode_settled.
    - rewrite S6, S5, N4 by done. by apply blank_left.
    - rewrite S6, N5 by done. by apply blank_left. }
  split; [done|]. split; [by apply settled_fixed|]. rewrite !V6, !V0. rewrite (S6 bridge_key) by done. split_and!.
  - intros Hn. apply app_nil in Hn as [-> Hn]. apply app_nil in Hn as [-> Hn]. apply app_nil in Hn as [-> Hn].
    apply app_nil in Hn as [-> Hn]. apply app_nil in Hn as [-> ->]. by rewrite A6, A5, A4, A3, A2, A1.
  - by rewrite S6, S5, S4, S3.
  - intros k x Hk. rewrite V0, S6, S5, S4, S3, T2 by done. intros Hx. apply taken_says; [done|].
    apply elem_of_cons in Hk as [->|Hk]; [right; apply taken_says; auto|].
    apply elem_of_cons in Hk as [->|Hk%list_elem_of_singleton]; [by left|].
    subst k. right. apply taken_says; auto.
  - by rewrite S6, S5, S4.
  - by rewrite O5.
  - done.
  - intros x Hx. rewrite O5, T4 by done. apply taken_says; [by apply spoken_agree|]. by rewrite spoken_says.
  - intros x Hx. rewrite T5. apply taken_says; [by apply spoken_agree|]. by rewrite spoken_says.
  - intros k ? ?. by rewrite O5, O4.
  - rewrite F5. by destruct (said (m0 !! B "observe_bridge")), (said (m0 !! B "observe_interface")).
  - done.
  - intros k Hk. rewrite !not_elem_of_cons in Hk. rewrite V6, V0.
    destruct Hk as (? & ? & ? & ? & ? & ? & ? & ? & ? & _). by rewrite S6, S5, S4, S3, S2, S1.
Qed.
End steps.

(** ** migrate_file.go *)
Record FileMigrationResult := MkFileMigration { fm_Result : MigrationResult; fm_BackupPath : bytes }.

Definition lift {A} (r : result error A) : run A := λ tr, (r, tr).
(** An error carries whether [os.IsExist] holds of it.  That function looks
    into the errors the package os makes itself, and not into one that
    [fmt.Errorf] wrapped with [%w]. *)
Inductive file_error :=
| OSError (exists_already : bool) (err_text : error)
| Wrapf (context : error) (err : file_error).
Definition os_IsExist (e : file_error) : bool := match e with OSError x _ => x | Wrapf _ _ => false end.
Fixpoint error_text (e : file_error) : error :=
  match e with OSError _ t => t | Wrapf c e => String.append c (String.append ": " (error_text e)) end.

Definition file_run (A : Type) : Type := list fs → result file_error A * list fs.
#[local] Instance file_bind : MBind file_run := λ _ _ k m tr,
  match m tr with (Ok a, tr') => k a tr' | (Err e, tr') => (Err e, tr') end.
Definition map_error {A E E'} (f : E → E') (m : list fs → result E A * list fs) : list fs → result E' A * list fs := λ tr,
  match m tr with (Ok a, tr') => (Ok a, tr') | (Err e, tr') => (Err (f e), tr') end.
Definition os_call {A} (m : run A) : file_run A := map_error (OSError false) m.
Definition wrapf {A} (context : error) (m : file_run A) : file_run A := map_error (Wrapf context) m.

(** [os.OpenFile] with [O_EXCL]: the mode before the umask. *)
Definition create_mode (s : fs) (path : bytes) (mode : Z) : fs := set_inode (create_excl s path) path (chmod_inode mode).
Definition open_exclusive (an : answers) (path : bytes) (mode : Z) : file_run unit := λ tr,
  match cur_dir (state_of tr) !! path with
  | Some _ => (Err (OSError true "file exists"), tr)
  | None => os_call (sys an StCreate "cannot create" (λ s, create_mode s path mode) no_effect) tr
  end.
Definition writeExclusiveFile (an : answers) (path data : bytes) (mode : Z) : file_run unit :=
  _ ← wrapf "open" (open_exclusive an path mode);
  _ ← wrapf "write" (os_call (sys an StWrite "cannot write" (λ s, set_inode s path (write_inode data))
        (λ n s, set_inode s path (write_inode (take n data)))));
  wrapf "close" (os_call (sys an StClose "cannot close" id no_effect)).
Definition backup_path (path stamp : bytes) (attempt : nat) : bytes :=
  path ++ B ".bak." ++ stamp ++ match attempt with O => [] | S _ => B "." ++ itoa (Z.of_nat attempt) end.
Fixpoint backup_attempts (ans : nat → answers) (tries attempt : nat) (path stamp data : bytes) (mode : Z)
    : run bytes :=
  match tries with
  | O => fail "too many existing backups"
  | S tries => λ tr,
      match writeExclusiveFile (ans attempt) (backup_path path stamp attempt) data mode tr with
      | (Ok _, tr) => (Ok (backup_path path stamp attempt), tr)
      | (Err e, tr) =>
          if os_IsExist e then backup_attempts ans tries (S attempt) path stamp data mode tr
          else (Err (error_text (Wrapf "write config backup" e)), tr)
      end
  end.
Definition writeMigrationBackup (ans : nat → answers) (path stamp data : bytes) (mode : Z) : run bytes :=
  backup_attempts ans 100 0 path stamp data mode.

Definition migration_temp (path suffix : bytes) : bytes :=
  (split_path path).1 ++ B "." ++ path_base path ++ B ".tmp." ++ suffix.
Definition fill_temp (an : answers) (temp path data : bytes) (mode : Z) : run unit :=
  _ ← sys an StWrite "write migrated config temp file" (λ s, set_inode s temp (write_inode data))
        (λ n s, set_inode s temp (write_inode (take n data)));
  _ ← sys an StChmod "chmod migrated config temp file" (λ s, set_inode s temp (chmod_inode mode)) no_effect;
  _ ← sys an StClose "close migrated config temp file" id no_effect;
  sys an StRename "replace config" (λ s, rename s temp path) no_effect.
Definition writeMigrationFile (an : answers) (path data : bytes) (mode : Z) : run unit :=
  let temp := migration_temp path (an_suffix an) in
  _ ← create_temp an temp;
  defer_remove an temp (fill_temp an temp path data mode).

Section migrate_file.
Context `{UnicodeTables} `{ConfigYaml} `{MigrationYaml}.

Definition read_config (path : bytes) : run (bytes * Z) := λ tr,
  match lookup_in (state_of tr) (cur_dir (state_of tr)) path with
  | None => (Err "read config"%stdpp, tr)
  | Some f => (Ok (i_data f, i_mode f), tr)
  end.
(** [stat_fails]: [os.Stat] fails although the file was read. *)
Definition MigrateFile (ans : nat → answers) (an : answers) (stat_fails : bool) (stamp path : bytes) (dryRun : bool)
    : run FileMigrationResult :=
  '(data, mode) ← read_config path;
  r ← lift (MigrateData data);
  if dryRun || negb (mg_Changed (mr_Result r)) then mret (MkFileMigration r [])
  else if stat_fails then fail "stat config"
  else
    let mode := Z.land mode 511 in
    backupPath ← writeMigrationBackup ans path stamp data mode;
    _ ← writeMigrationFile an path (mr_Data r) mode;
    mret (MkFileMigration r backupPath).
End migrate_file.

(** ** What a migration leaves of the files *)
Lemma migration_temp_ne path suffix : migration_temp path suffix ≠ path.
Proof.
  intros E. apply (f_equal (@length byte)) in E. revert E. unfold migration_temp.
  destruct (split_path_spec path) as (Hp & _ & _).
  assert (length path = length (split_path path).1 + length (split_path path).2)%nat as Hl
    by (rewrite Hp at 1; apply length_app).
  rewrite !length_app. change (length (B ".")) with 1%nat. change (length (B ".tmp.")) with 5%nat.
  destruct (decide ((split_path path).2 = [])) as [E|E].
  - rewrite E in Hl. cbn in Hl. lia.
  - rewrite (path_base_rest path E). lia.
Qed.

Section file_facts.
Variables (path old new : bytes) (s0 : fs).
Hypothesis wf_s0 : wf_fs s0.
Hypothesis old_s0 : read_file s0 path = Some old.

(** No file is lost: other files are as before, and the configuration is the
    old one, or the new one while a new file holds the old one. *)
Definition kept_files (s : fs) : Prop :=
  (∀ q, q ≠ path → is_Some (cur_dir s0 !! q) → read_file s q = read_file s0 q) ∧
  (read_file s path = Some old ∨
   (read_file s path = Some new ∧ ∃ q, q ≠ path ∧ cur_dir s0 !! q = None ∧ read_file s q = Some old)).

Lemma path_exists : is_Some (cur_dir s0 !! path).
Proof. unfold read_file, lookup_in in old_s0. destruct (cur_dir s0 !! path); [by eexists|done]. Qed.

Lemma keeps_read temp s1 s q : wf_fs s1 → keeps path temp s1 s → q ≠ path → is_Some (cur_dir s1 !! q) →
  read_file s q = read_file s1 q.
Proof. intros Hwf Hk Hq Hi. unfold read_file. f_equal. by eapply keeps_other. Qed.

Lemma untouched_kept b s : untouched path b s0 s → kept_files s ∧ read_file s path = Some old.
Proof.
  intros Hu. pose proof (untouched_read path b s0 wf_s0 s Hu) as Hr. rewrite old_s0 in Hr.
  split; [|done]. split; [|by left]. intros q. apply (keeps_read b); [done|apply Hu].
Qed.

(** *** The backup *)
Definition backed_up (b : bytes) (s : fs) : Prop :=
  b ≠ path ∧ cur_dir s0 !! b = None ∧ ∃ it f, i_data f = old ∧ prepared path b s0 it f s.

Lemma prepared_kept b it f s : prepared path b s0 it f s → kept_files s.
Proof. intros [Hu _]. by eapply untouched_kept. Qed.

(** [writeExclusiveFile] on a free name, with the errors forgotten. *)
Definition write_created (an : answers) (b data : bytes) (mode : Z) : run unit :=
  _ ← sys an StCreate "open" (λ s, create_mode s b mode) no_effect;
  _ ← sys an StWrite "write" (λ s, set_inode s b (write_inode data))
        (λ n s, set_inode s b (write_inode (take n data)));
  sys an StClose "close" id no_effect.
Lemma exclusive_created an b data mode tr :
  cur_dir (state_of tr) !! b = None →
  (writeExclusiveFile an b data mode tr).2 = (write_created an b data mode tr).2 ∧
  is_ok (writeExclusiveFile an b data mode tr).1 = is_ok (write_created an b data mode tr).1.
Proof.
  intros Hb. unfold writeExclusiveFile, write_created, open_exclusive, os_call, wrapf, map_error, mbind, file_bind, run_bind.
  rewrite Hb. unfold sys. destruct (an_stage an StCreate), (an_stage an StWrite), (an_stage an StClose); by cbn.
Qed.
(** A taken name is an error [os.IsExist] does not recognise, so the loop over
    the attempts ends with the first one. *)
Lemma exclusive_taken an b data mode tr i :
  cur_dir (state_of tr) !! b = Some i →
  writeExclusiveFile an b data mode tr = (Err (Wrapf "open" (OSError true "file exists")), tr).
Proof.
  intros Hb. unfold writeExclusiveFile, open_exclusive, wrapf, map_error, mbind, file_bind. by rewrite Hb.
Qed.
Definition never_IsExist {A} (m : file_run A) : Prop := ∀ tr e, (m tr).1 = Err e → os_IsExist e = false.
Lemma wrapf_never {A} c (m : file_run A) : never_IsExist (wrapf c m).
Proof. intros tr e. unfold wrapf, map_error. destruct (m tr) as [[a|e'] tr']; [done|]. by intros [= <-]. Qed.
Lemma bind_never {A C} (m : file_run A) (k : A → file_run C) :
  never_IsExist m → (∀ a, never_IsExist (k a)) → never_IsExist (m ≫= k).
Proof.
  intros Hm Hk tr e. unfold mbind, file_bind. specialize (Hm tr). destruct (m tr) as [[a|e'] tr']; [apply Hk|].
  intros [= <-]. by apply Hm.
Qed.
Lemma exclusive_not_IsExist an b data mode : never_IsExist (writeExclusiveFile an b data mode).
Proof. repeat (apply bind_never; [apply wrapf_never|intros []]). apply wrapf_never. Qed.
Lemma attempts_once ans tries attempt data stamp mode tr :
  backup_attempts ans (S tries) attempt path stamp data mode tr =
  match writeExclusiveFile (ans attempt) (backup_path path stamp attempt) data mode tr with
  | (Ok _, tr) => (Ok (backup_path path stamp attempt), tr)
  | (Err e, tr) => (Err (error_text (Wrapf "write config backup" e)), tr)
  end.
Proof.
  cbn [backup_attempts]. pose proof (exclusive_not_IsExist (ans attempt) (backup_path path stamp attempt) data mode tr) as He.
  destruct (writeExclusiveFile _ _ _ _ _) as [[u|e] tr']; [done|]. by rewrite (He e eq_refl).
Qed.

Lemma triple_created an b mode :
  b ≠ path → cur_dir s0 !! b = None →
  triple kept_files (λ s, s = s0) (write_created an b old mode) (backed_up b) (untouched path b s0).
Proof.
  intros Hbp Hb. unfold write_created.
  apply (triple_bind _ _ (λ s, ∃ it f, i_data f = [] ∧ prepared path b s0 it f s)).
  { apply triple_sys; [|intros n s ->..|intros s ->].
    - intros _ s ->. unfold create_mode.
      pose proof (create_prepared path b s0 Hbp s0 (untouched_init path b s0 wf_s0) Hb) as Hp.
      pose proof (prepared_set path b s0 wf_s0 _ _ (chmod_inode mode) _ Hp) as Hp'.
      split; [eexists _, _; by split; [|exact Hp']|by eapply prepared_kept].
    - pose proof (untouched_init path b s0 wf_s0) as Hu. split; [done|]. by eapply untouched_kept.
    - by apply untouched_init. }
  intros []. apply (triple_bind _ _ (backed_up b)).
  { apply triple_sys; [intros _|intros n|]; intros s (it & f & Hf & Hp).
    - pose proof (prepared_set path b s0 wf_s0 _ _ (write_inode old) _ Hp) as Hp'.
      split; [|by eapply prepared_kept]. split_and!; [done..|]. exists it, (write_inode old f).
      split; [cbn; by rewrite Hf|done].
    - pose proof (prepared_set path b s0 wf_s0 _ _ (write_inode (take n old)) _ Hp) as Hp'.
      split; [apply Hp'|by eapply prepared_kept].
    - apply Hp. }
  intros []. apply triple_idle; intros s (_ & _ & it & f & _ & Hp); [by eapply prepared_kept|apply Hp].
Qed.

Lemma attempts_run ans tries stamp mode tr :
  tr ≠ [] → Forall kept_files tr → state_of tr = s0 →
  let out := backup_attempts ans (S tries) 0 path stamp old mode tr in
  out.2 ≠ [] ∧ Forall kept_files out.2 ∧
  match out.1 with
  | Ok b => b = backup_path path stamp 0 ∧ backed_up b (state_of out.2)
  | Err _ => read_file (state_of out.2) path = Some old
  end.
Proof.
  intros Hne Hg Hs. cbv zeta. rewrite attempts_once. set (b := backup_path path stamp 0).
  destruct (cur_dir s0 !! b) as [i|] eqn:Eb.
  { rewrite (exclusive_taken _ _ _ _ _ i) by by rewrite Hs. cbn. by rewrite Hs. }
  assert (b ≠ path) as Hbp by (intros E; rewrite E in Eb; destruct path_exists; congruence).
  pose proof (triple_created (ans 0%nat) b mode Hbp Eb tr Hne Hg Hs) as (H1 & H2 & H3).
  destruct (exclusive_created (ans 0%nat) b old mode tr) as [E2 E1]; [by rewrite Hs|].
  destruct (writeExclusiveFile _ _ _ _ _) as [r tr'], (write_created _ _ _ _ _) as [r' tr'']. cbn [fst snd] in *.
  subst tr''. destruct r, r'; try done; cbn; split_and!; try done. by eapply untouched_kept.
Qed.

(** *** The replacement, from the state the backup left *)
Section replacement.
Variables (b temp : bytes) (s1 : fs).
Hypothesis backed : backed_up b s1.
Hypothesis temp_ne : temp ≠ path.

Lemma backed_wf : wf_fs s1.
Proof. destruct backed as (_ & _ & it & f & _ & ((Hw & _) & _) & _). exact Hw. Qed.

Lemma backed_read : read_file s1 b = Some old.
Proof.
  destruct backed as (_ & _ & it & f & Hf & _ & _ & _ & Hd & Hi).
  unfold read_file, lookup_in. rewrite Hd, Hi. cbn. by rewrite Hf.
Qed.

Lemma backed_path : read_file s1 path = Some old.
Proof. destruct backed as (_ & _ & it & f & _ & Hu & _). by eapply untouched_kept. Qed.

Lemma keeps_backup s : keeps path temp s1 s → read_file s b = Some old.
Proof.
  intros Hk. rewrite <- backed_read. apply (keeps_read temp); [apply backed_wf|done|apply backed|].
  pose proof backed_read as Hr. unfold read_file, lookup_in in Hr. destruct (cur_dir s1 !! b); [by eexists|done].
Qed.

Lemma keeps_kept s : keeps path temp s1 s → read_file s path = Some old ∨ read_file s path = Some new → kept_files s.
Proof.
  intros Hk Hp. split.
  - intros q Hq Hi. destruct backed as (_ & _ & it & f & _ & Hu & _). destruct Hu as (Hk1 & _).
    rewrite (keeps_read temp s1); [|apply backed_wf|done..|].
    + by apply (keeps_read b).
    + destruct Hi as [i Hi]. destruct Hk1 as (_ & _ & _ & Ho & _). rewrite (Ho q i Hq Hi). by eexists.
  - destruct Hp as [Hp|Hp]; [by left|right]. split; [done|]. exists b.
    split_and!; [apply backed..|by apply keeps_backup].
Qed.

Lemma untouched_kept1 s : untouched path temp s1 s → kept_files s ∧ read_file s path = Some old.
Proof.
  intros Hu. pose proof (untouched_read path temp s1 backed_wf s Hu) as Hr. rewrite backed_path in Hr.
  split; [|done]. apply keeps_kept; [apply Hu|by left].
Qed.

(** The new configuration is in place. *)
Definition installed (s : fs) : Prop :=
  keeps path temp s1 s ∧ cur_dir s !! temp = None ∧ read_file s path = Some new.
(** The old one is, and the temporary name was free. *)
Definition not_installed (s : fs) : Prop := untouched path temp s1 s ∧ cur_dir s1 !! temp = None.

Lemma prepared_not_installed it f s : prepared path temp s1 it f s → not_installed s ∧ kept_files s.
Proof. intros (Hu & Hn & _). split; [done|]. by apply untouched_kept1. Qed.

Lemma triple_prepared an st e it f g (partial : nat → fs → fs) :
  (∀ n s, partial n s = s ∨ ∃ h, partial n s = set_inode s temp h) →
  triple kept_files (prepared path temp s1 it f) (sys an st e (λ s, set_inode s temp g) partial)
    (prepared path temp s1 it (g f)) not_installed.
Proof.
  intros Hpart. apply triple_sys; [intros _|intros n|]; intros s Hp.
  - pose proof (prepared_set path temp s1 backed_wf it f g s Hp) as Hp'. split; [done|].
    by eapply prepared_not_installed.
  - destruct (Hpart n s) as [->|[h ->]]; [by eapply prepared_not_installed|].
    eapply prepared_not_installed. by apply (prepared_set path temp s1 backed_wf it f h).
  - by eapply prepared_not_installed.
Qed.

Lemma triple_fill an mode it f :
  i_data f = [] →
  triple kept_files (prepared path temp s1 it f) (fill_temp an temp path new mode) installed not_installed.
Proof.
  intros Hf. unfold fill_temp. eapply triple_bind; [apply triple_prepared; by right; eexists|intros []].
  eapply triple_bind; [apply triple_prepared; by left|intros []].
  eapply triple_bind; [apply triple_idle; intros s Hs; by eapply prepared_not_installed|intros []].
  apply triple_sys; [intros _|intros n|]; intros s Hp; [|by eapply prepared_not_installed..].
  pose proof (rename_prepared path temp s1 temp_ne _ _ s Hp) as (Hk & Hp' & Ht & Hi & _).
  assert (read_file (rename s temp path) path = Some new) as Hr.
  { unfold read_file, lookup_in. rewrite Hp', Hi. cbn. by rewrite Hf. }
  split; [done|]. apply keeps_kept; auto.
Qed.

Lemma triple_defer_fill an mode it f :
  i_data f = [] →
  triple kept_files (prepared path temp s1 it f) (defer_remove an temp (fill_temp an temp path new mode))
    installed not_installed.
Proof.
  intros Hf tr Hne Hg Hp. pose proof (triple_fill an mode it f Hf tr Hne Hg Hp) as (H1 & H2 & H3).
  unfold defer_remove. destruct (fill_temp an temp path new mode tr) as [r tr']. cbn [fst snd] in *.
  destruct (cur_dir (state_of tr') !! temp) eqn:E; [|done]. destruct r as [u|e]; [by destruct H3 as (_ & H3 & _); congruence|].
  destruct (an_remove an); [|done]. destruct H3 as [Hu Hn].
  pose proof (remove_untouched path temp s1 temp_ne _ Hn Hu) as Hu'.
  cbn [fst snd state_of]. split_and!; [done| |done..]. constructor; [|done]. by apply untouched_kept1.
Qed.
End replacement.

Lemma triple_migration_file an mode b s1 :
  backed_up b s1 →
  triple kept_files (λ s, s = s1) (writeMigrationFile an path new mode)
    (λ s, read_file s path = Some new ∧ read_file s b = Some old) (λ s, read_file s path = Some old).
Proof.
  intros Hb. unfold writeMigrationFile. pose proof (migration_temp_ne path (an_suffix an)) as Hne.
  set (temp := migration_temp path (an_suffix an)) in *. clearbody temp.
  pose proof (backed_wf b s1 Hb) as Hw. pose proof (untouched_init path temp s1 Hw) as H0.
  apply (triple_bind _ _ (λ s, ∃ it f, i_data f = [] ∧ prepared path temp s1 it f s)).
  - intros tr H1 H2 H3. unfold create_temp. rewrite H3. destruct (cur_dir s1 !! temp) eqn:E.
    { cbn. rewrite H3. split_and!; [done..|]. by eapply backed_path. }
    assert (triple kept_files (λ s, s = s1)
      (sys an StCreate "create temporary file" (λ s, create_excl s temp) no_effect)
      (λ s, ∃ it f, i_data f = [] ∧ prepared path temp s1 it f s) (λ s, read_file s path = Some old)) as Hc;
      [|exact (Hc tr H1 H2 H3)].
    apply triple_sys; [intros _ s ->|intros n s ->|intros s ->].
    + pose proof (create_prepared path temp s1 Hne s1 H0 E) as Hp.
      split; [eexists _, _; by split; [|exact Hp]|]. by eapply prepared_not_installed.
    + split; [by eapply backed_path|]. by eapply untouched_kept1.
    + by eapply backed_path.
  - intros [] tr H1 H2 (it & f & Hf & Hp).
    pose proof (triple_defer_fill b temp s1 Hb Hne an mode it f Hf tr H1 H2 Hp) as (H3 & H4 & H5).
    split_and!; [done..|]. destruct (defer_remove _ _ _ tr).1.
    + destruct H5 as (Hk & _ & Hr). split; [done|]. by eapply keeps_backup.
    + destruct H5 as [Hu _]. by eapply untouched_kept1.
Qed.
End file_facts.

Section migrated_file.
Context `{UnicodeTables} `{ConfigYaml} `{MigrationYaml}.

(** Without a failing call and with free names, both files are written. *)
Definition calls_work (an : answers) : Prop := ∀ st, an_stage an st = Done.
Lemma sys_works an st e ok partial tr : calls_work an → sys an st e ok partial tr = (Ok tt, ok (state_of tr) :: tr).
Proof. intros Hw. unfold sys. by rewrite Hw. Qed.
Lemma set_inode_dir s path g : cur_dir (set_inode s path g) = cur_dir s.
Proof. unfold set_inode. destruct (cur_dir s !! path); [|done]. by destruct (f_inodes s !! _). Qed.
Lemma exclusive_works an b data mode tr :
  calls_work an → cur_dir (state_of tr) !! b = None →
  ∃ tr', writeExclusiveFile an b data mode tr = (Ok tt, tr') ∧
         ∀ q, q ≠ b → cur_dir (state_of tr') !! q = cur_dir (state_of tr) !! q.
Proof.
  intros Hw Hb. unfold writeExclusiveFile, open_exclusive, os_call, wrapf, map_error, mbind, file_bind. rewrite Hb.
  repeat (rewrite sys_works by done; cbn). eexists. split; [done|]. intros q Hq. cbn. unfold create_mode.
  rewrite !set_inode_dir. unfold create_excl, cur_dir at 1. cbn. by apply lookup_insert_ne.
Qed.
Lemma migration_file_works an path data mode tr :
  calls_work an → cur_dir (state_of tr) !! migration_temp path (an_suffix an) = None →
  (writeMigrationFile an path data mode tr).1 = Ok tt.
Proof.
  intros Hw Ht. unfold writeMigrationFile, create_temp. set (temp := migration_temp _ _) in *. clearbody temp.
  unfold mbind, run_bind. rewrite Ht, sys_works by done. unfold defer_remove, fill_temp, mbind, run_bind.
  repeat (rewrite sys_works by done; cbn [state_of]). case_match; [|done]. by destruct (an_remove an).
Qed.
Lemma replacement_works ans an stamp path data new mode tr :
  calls_work (ans 0%nat) → calls_work an →
  cur_dir (state_of tr) !! backup_path path stamp 0 = None →
  cur_dir (state_of tr) !! migration_temp path (an_suffix an) = None →
  migration_temp path (an_suffix an) ≠ backup_path path stamp 0 →
  is_ok ((b ← writeMigrationBackup ans path stamp data mode; _ ← writeMigrationFile an path new mode; mret b) tr).1 = true.
Proof.
  intros W1 W2 W3 W4 W5. unfold writeMigrationBackup. change 100%nat with (S 99).
  destruct (exclusive_works (ans 0%nat) _ data mode tr W1 W3) as (tr' & E & Hd).
  unfold mbind, run_bind. rewrite attempts_once, E.
  pose proof (migration_file_works an path new mode tr' W2) as E2. rewrite Hd in E2 by done. specialize (E2 W4).
  destruct (writeMigrationFile an path new mode tr') as [[u|e] tr'']; done.
Qed.

(** The part of [MigrateFile] that changes files. *)
Lemma replace_run ans an stamp path data new mode s0 :
  wf_fs s0 → read_file s0 path = Some data →
  let out := (b ← writeMigrationBackup ans path stamp data mode;
              _ ← writeMigrationFile an path new mode; mret b) [s0] in
  Forall (kept_files path data new s0) out.2 ∧
  match out.1 with
  | Err _ => read_file (state_of out.2) path = Some data
  | Ok b => read_file (state_of out.2) path = Some new ∧ read_file (state_of out.2) b = Some data ∧
            b = backup_path path stamp 0 ∧ cur_dir s0 !! b = None
  end.
Proof.
  intros Hw Hr. cbv zeta. unfold writeMigrationBackup. change 100%nat with (S 99).
  pose proof (attempts_run path data new s0 Hw Hr ans 99 stamp mode [s0]) as Hrun.
  destruct Hrun as (F1 & F2 & F3); [done| |done|].
  { constructor; [|done]. split; [done|by left]. }
  unfold mbind, run_bind. destruct (backup_attempts ans (S 99) 0 path stamp data mode [s0]) as [[b|e] tr]; [|done].
  cbn [fst snd] in *. destruct F3 as [Eb F3].
  pose proof (triple_migration_file path data new s0 Hw Hr an mode b _ F3 tr F1 F2 eq_refl) as (G1 & G2 & G3).
  destruct (writeMigrationFile an path new mode tr) as [[u|e] tr']; [|done].
  cbn [fst snd] in *. split; [done|]. split; [apply G3|]. split; [apply G3|]. split; [done|apply F3].
Qed.

(** C22: [MigrateFile] never loses the configuration.  Whatever fails, in every
    state it passes through the other files are as they were, and the path
    holds the old document, or the migrated one while a new file holds the old
    one.  An error leaves the old document in place; a dry run, or a document
    with nothing to migrate, changes nothing; and a success leaves the migrated
    document at the path and the old one at [<path>.bak.<stamp>], which was
    free before: if that name is taken, the migration fails.  It succeeds when
    no call fails and its two names are free. *)
Theorem MigrateFile_keeps_the_config ans an stat_fails stamp path dryRun s0 old :
  wf_fs s0 → read_file s0 path = Some old →
  let '(r, tr) := MigrateFile ans an stat_fails stamp path dryRun [s0] in
  let backup := path ++ B ".bak." ++ stamp in
  let temp := migration_temp path (an_suffix an) in
  Forall (λ s,
    (∀ q, q ≠ path → is_Some (cur_dir s0 !! q) → read_file s q = read_file s0 q) ∧
    (read_file s path = Some old ∨
     ∃ m, MigrateData old = Ok m ∧ read_file s path = Some (mr_Data m) ∧
       ∃ q, q ≠ path ∧ cur_dir s0 !! q = None ∧ read_file s q = Some old)) tr ∧
  match r with
  | Err _ => read_file (state_of tr) path = Some old
  | Ok out =>
      MigrateData old = Ok (fm_Result out) ∧
      if dryRun || negb (mg_Changed (mr_Result (fm_Result out))) then tr = [s0] ∧ fm_BackupPath out = []
      else read_file (state_of tr) path = Some (mr_Data (fm_Result out)) ∧
           read_file (state_of tr) backup = Some old ∧
           fm_BackupPath out = backup ∧ cur_dir s0 !! backup = None
  end ∧
  (is_ok (MigrateData old) = true → stat_fails = false → calls_work (ans 0%nat) → calls_work an →
   cur_dir s0 !! backup = None → cur_dir s0 !! temp = None → temp ≠ backup → is_ok r = true).
Proof.
  intros Hw Hr. unfold MigrateFile, read_config, lift. unfold mbind at 1, run_bind at 1. cbn [state_of].
  destruct (lookup_in s0 (cur_dir s0) path) as [f|] eqn:Ef.
  2: { exfalso. unfold read_file in Hr. by rewrite Ef in Hr. }
  assert (i_data f = old) as -> by (unfold read_file in Hr; rewrite Ef in Hr; by injection Hr).
  unfold mbind at 1, run_bind at 1. destruct (MigrateData old) as [m|e] eqn:Em.
  2: { split; [|done]. constructor; [|done]. split; [done|by left]. }
  destruct (dryRun || _) eqn:Ed.
  { split; [|by cbn [fm_Result]; rewrite Ed]. constructor; [|done]. split; [done|by left]. }
  destruct stat_fails. { split; [|done]. constructor; [|done]. split; [done|by left]. }
  pose proof (replace_run ans an stamp path old (mr_Data m) (Z.land (i_mode f) 511) s0 Hw Hr) as [F3 F4].
  pose proof (replacement_works ans an stamp path old (mr_Data m) (Z.land (i_mode f) 511) [s0]) as Hok.
  unfold backup_path in F4, Hok. rewrite !app_nil_r in F4, Hok.
  unfold mbind, run_bind in *. destruct (writeMigrationBackup _ _ _ _ _ _) as [[b|e] tr].
  1: destruct (writeMigrationFile _ _ _ _ _) as [[u|e] tr'].
  all: cbn [fst snd mret run_ret fm_Result fm_BackupPath is_ok] in *; rewrite ?Ed; split_and!.
  all: try done; try (intros _ _ W1 W2 W3 W4 W5; exact (Hok W1 W2 W3 W4 W5)); try (destruct F4 as (? & ? & -> & ?); done).
  all: eapply Forall_impl; [exact F3|]; intros s [Ho Hp]; split; [done|]; destruct Hp as [Hp|Hp]; [by left|right; by exists m].
Qed.
End migrated_file.

(** ** Witnesses: a document of [key=value] lines *)
#[local] Existing Instances ascii_tables.
Definition word (value : bytes) : Node := MkNode ScalarNode (B "!!str") value no_look [] None.
Definition words (l : list (bytes * bytes)) : list Node := unpairs ((λ p, (word p.1, word p.2)) <$> l).
Definition line_pairs (data : bytes) : list (bytes * bytes) := cut_parts x3d <$> split_byte x0a data.
Fixpoint print_pairs (l : list (Node * Node)) : bytes :=
  match l with
  | [] => []
  | [(k, v)] => n_Value k ++ B "=" ++ n_Value v
  | (k, v) :: rest => n_Value k ++ B "=" ++ n_Value v ++ [x0a] ++ print_pairs rest
  end.
Definition line_yaml : MigrationYaml := {|
  yaml_node data := Ok (MkNode DocumentNode [] [] no_look
    [MkNode MappingNode (B "!!map") [] no_look (words (line_pairs data)) None] None);
  yaml_encode doc :=
    match n_Content doc with root :: _ => Ok (print_pairs (pairs (n_Content root))) | [] => Err "empty"%stdpp end;
  yaml_marshal_node n := Some (n_Value n);
|}.
#[local] Existing Instance line_yaml.
Definition any_config : ConfigYaml := {| yaml_config _ base := Ok base |}.
#[local] Existing Instance any_config.

Definition old_words : list (bytes * bytes) :=
  [(B "controller", B "http://c"); (B "operation_mode", B "observe"); (B "observe_bridge", B "br0"); (B "ports", B "8")].

Lemma migration_settles_witness :
  is_ok (migrate_content (words old_words)) = true ∧
  ∃ root' actions, migrate_content (words old_words) = Ok (root', actions) ∧
    value_at (B "controller_url") root' = Some (word (B "http://c")) ∧
    value_at (B "operation_mode") root' = Some (word (B "bridge-observe")) ∧
    value_at (B "bridge") (bridge_content (value_at bridge_key root')) = Some (word (B "br0")) ∧
    value_at (B "ports") root' = Some (word (B "8")) ∧
    migrate_content root' = Ok (root', []).
Proof.
  assert (is_ok (migrate_content (words old_words)) = true) as Hok by (vm_compute; reflexivity).
  split; [exact Hok|].
  destruct (migrate_content (words old_words)) as [[root' actions]|] eqn:E; [|discriminate Hok].
  exists root', actions. split; [reflexivity|].
  assert (unique_keys (words old_words)) as Hu.
  { eexists _, ((λ p, (word p.1, word p.2)) <$> old_words). split; [reflexivity|]. split; [|reflexivity].
    apply (bool_decide_unpack _). vm_compute. exact I. }
  assert (∀ b, value_at bridge_key (words old_words) = Some b → unique_keys (n_Content b)) as Hb
    by (intros b Hb; vm_compute in Hb; discriminate Hb).
  destruct (migration_settles _ _ _ Hu Hb E) as
    (_ & Hfix & _ & Hurl & _ & Hmode & Hbridge & _ & _ & _ & _ & _ & _ & Hother).
  split_and!; [rewrite Hurl|rewrite Hmode|rewrite Hbridge|rewrite Hother|exact Hfix].
  1-4: vm_compute; reflexivity.
  apply (bool_decide_unpack _). vm_compute. exact I.
Defined.

Definition old_config : bytes := B "controller=http://c".
Definition config_disk : fs :=
  MkFs [{[ B "stub.conf" := 0%nat ]}] {[ 0%nat := MkInode 0x1a4 old_config true ]} 1.
Lemma config_disk_wf : wf_fs config_disk.
Proof.
  split; [done|]. split; cbn.
  - intros d p i ->%list_elem_of_singleton [_ <-]%lookup_singleton_Some. by eexists.
  - intros i [f [<- _]%lookup_singleton_Some]. lia.
Qed.

(** The disk fails to rename the new file. *)
Definition no_rename : answers := MkAnswers (λ st, match st with StRename => Failed 0 | _ => Done end) (B "1") true.
Definition backup_there : fs := create_mode config_disk (B "stub.conf.bak.20260101T000000Z") 0x1a4.
Lemma MigrateFile_keeps_the_config_witness :
  let run an d := MigrateFile (λ _, all_done) an false (B "20260101T000000Z") (B "stub.conf") false [d] in
  is_ok (run all_done config_disk).1 = true ∧
  read_file (state_of (run all_done config_disk).2) (B "stub.conf") = Some (B "controller_url=http://c") ∧
  read_file (state_of (run all_done config_disk).2) (B "stub.conf.bak.20260101T000000Z") = Some old_config ∧
  read_file (state_of (run no_rename config_disk).2) (B "stub.conf") = Some old_config ∧
  (run all_done backup_there).1 = Err "write config backup: open: file exists"%stdpp.
Proof.
  cbv zeta.
  assert (read_file config_disk (B "stub.conf") = Some old_config) as Hr by (vm_compute; reflexivity).
  pose proof (λ an, MigrateFile_keeps_the_config (λ _, all_done) an false (B "20260101T000000Z") (B "stub.conf") false
    config_disk old_config config_disk_wf Hr) as Hm.
  pose proof (Hm all_done) as M1. pose proof (Hm no_rename) as M2. clear Hm.
  split.
  { destruct (MigrateFile _ all_done _ _ _ _ _) as [r tr]. apply (proj2 (proj2 M1)); try (vm_compute; reflexivity).
    all: try (intros st; vm_compute; reflexivity).
    vm_compute. discriminate. }
  split; [vm_compute; reflexivity|].
  split; [vm_compute; reflexivity|].
  split; [|vm_compute; reflexivity].
  assert (is_ok (MigrateFile (λ _, all_done) no_rename false (B "20260101T000000Z") (B "stub.conf") false [config_disk]).1
          = false) as He by (vm_compute; reflexivity).
  destruct (MigrateFile (λ _, all_done) no_rename false (B "20260101T000000Z") (B "stub.conf") false [config_disk])
    as [[out|e] tr]; [discriminate He|]. exact (proj1 (proj2 M2)).
Defined.
