(* ===== verification/GoAny.v ===== *)
(** [encoding/json] into an [any], and [fmt.Sprint] of what it gives.

    A JSON object is its list of members in document order; [members] is the Go
    map, where a later duplicate wins.  Numbers are parsed and printed as
    package [strconv] does, exactly. *)
From Stdlib Require Import Floats.SpecFloat.
From stdpp Require Import gmap sorting.
From S2P Require Import Prelude GoStrings GoJson GoFloat GoMap.

Inductive any :=
| ANull
| ABool (b : bool)
| ANumber (f : float64)
| AString (s : bytes)
| AList (l : list any)
| AObject (l : list (bytes * any)).

Section any_ind.
Variable P : any → Prop.
Hypotheses (null : P ANull) (bool : ∀ b, P (ABool b)) (number : ∀ f, P (ANumber f)) (string : ∀ s, P (AString s))
  (elements : ∀ l, Forall P l → P (AList l)) (object : ∀ l, Forall (P ∘ snd) l → P (AObject l)).
Fixpoint any_ind' (v : any) : P v :=
  match v with
  | ANull => null
  | ABool b => bool b
  | ANumber f => number f
  | AString s => string s
  | AList l =>
      elements l ((fix go (l : list any) : Forall P l :=
        match l with [] => Forall_nil_2 _ | v :: rest => Forall_cons_2 _ _ _ (any_ind' v) (go rest) end) l)
  | AObject l =>
      object l ((fix go (l : list (bytes * any)) : Forall (P ∘ snd) l :=
        match l with [] => Forall_nil_2 _ | p :: rest => Forall_cons_2 _ p _ (any_ind' p.2) (go rest) end) l)
  end.
End any_ind.

Definition members (l : list (bytes * any)) : gmap bytes any := list_to_map (rev l).
Definition as_object (v : any) : option (gmap bytes any) := match v with AObject l => Some (members l) | _ => None end.

Lemma members_elem l k v : members l !! k = Some v → (k, v) ∈ l.
Proof.
  intros Hv%elem_of_list_to_map_2. by rewrite list_elem_of_In, <- in_rev, <- list_elem_of_In in Hv.
Qed.

(** ** Numbers

    [strconv.ParseFloat] of a JSON number: the nearest float of the decimal;
    [None] is out of range. *)
Definition scaled_float (negative : bool) (digits exponent : Z) : option float64 :=
  let f :=
    match digits with
    | Zpos m =>
        if 0 <=? exponent then binary_normalize 53 1024 (Zpos m * 10 ^ exponent) 0 false
        else SFdiv 53 1024 (S754_finite false m 0) (S754_finite false (Z.to_pos (10 ^ (- exponent))) 0)
    | _ => S754_zero false
    end in
  if is_finite f then Some (if negative then SFopp f else f) else None.

Definition number_exponent (s : bytes) : Z :=
  match s with
  | c :: rest =>
      if decide (c = x2d) then - digits_val rest else if decide (c = x2b) then digits_val rest else digits_val s
  | [] => 0
  end.
Fixpoint cut_exponent (s : bytes) : bytes * bytes :=
  match s with
  | [] => ([], [])
  | c :: rest => if decide (c ∈ [x65; x45]) then ([], rest) else let '(a, b) := cut_exponent rest in (c :: a, b)
  end.
Definition parse_number (s : bytes) : option float64 :=
  let '(negative, s) := match s with c :: rest => if decide (c = x2d) then (true, rest) else (false, s) | [] => (false, s) end in
  let '(mantissa, exponent) := cut_exponent s in
  let '(whole, fraction) := cut_parts x2e mantissa in
  scaled_float negative (digits_val (whole ++ fraction)) (number_exponent exponent - zlen fraction).

(** ** [json.Unmarshal] into an [any] *)
Fixpoint decode_any (fuel : nat) (data : bytes) : option any :=
  match fuel with
  | O => None
  | S f =>
      match whole_value data with
      | Some (c :: t) =>
          if decide (c = x7b) then
            match unmarshal_object data with
            | Some (Some l) => AObject <$> mapM (λ p, pair p.1 <$> decode_any f p.2) l
            | _ => None
            end
          else if decide (c = x5b) then
            match unmarshal_array data with
            | Some (Some l) => AList <$> mapM (decode_any f) l
            | _ => None
            end
          else if decide (c = x22) then Some (AString (unquote (c :: t)))
          else if decide (c = x6e) then Some ANull
          else if decide (c = x74) then Some (ABool true)
          else if decide (c = x66) then Some (ABool false)
          else ANumber <$> parse_number (c :: t)
      | _ => None
      end
  end.
Definition unmarshal_any (data : bytes) : option any := decode_any (S (length data)) data.

(** The parts of a value are shorter than it, so the fuel suffices. *)
Lemma read_value_part s v rest : read_value s = Some (v, rest) → (length v + length rest ≤ length s)%nat.
Proof.
  intros (Hs & _)%read_value_shorter. pose proof (skip_ws_length s). rewrite Hs, length_app in H. lia.
Qed.

Lemma array_elems_part fuel s l v : array_elems fuel s = Some l → v ∈ l → (length v ≤ length s)%nat.
Proof.
  revert s l. induction fuel as [|f IH]; intros s l; cbn [array_elems]; [done|].
  destruct (read_value s) as [[w rest]|] eqn:E; [|done]. apply read_value_part in E.
  pose proof (skip_ws_length rest). destruct (skip_ws rest) as [|c rest']; [done|]. cbn in *.
  case_decide; [|case_decide; [|done]].
  - intros (l' & Hl & ->)%fmap_Some [->|Hv]%elem_of_cons; [lia|]. specialize (IH _ _ Hl Hv). lia.
  - intros [= <-] ->%list_elem_of_singleton. lia.
Qed.

Lemma object_members_part fuel s l p : object_members fuel s = Some l → p ∈ l → (length p.2 ≤ length s)%nat.
Proof.
  revert s l. induction fuel as [|f IH]; intros s l; cbn [object_members]; [done|].
  destruct (read_value s) as [[w rest]|] eqn:E; [|done]. apply read_value_part in E.
  pose proof (skip_ws_length rest). destruct (skip_ws rest) as [|c rest']; [done|]. cbn in *.
  case_decide; [|done]. destruct (read_value rest') as [[v rest2]|] eqn:E2; [|done]. apply read_value_part in E2.
  pose proof (skip_ws_length rest2). destruct (skip_ws rest2) as [|c2 rest3]; [done|]. cbn in *.
  case_decide; [|case_decide; [|done]].
  - intros (l' & Hl & ->)%fmap_Some [->|Hv]%elem_of_cons; [cbn; lia|]. specialize (IH _ _ Hl Hv). lia.
  - intros [= <-] ->%list_elem_of_singleton. cbn. lia.
Qed.

Lemma whole_value_part data v : whole_value data = Some v → (length v ≤ length data)%nat.
Proof.
  unfold whole_value. destruct (read_value data) as [[w rest]|] eqn:E; [|done]. apply read_value_part in E.
  destruct (forallb json_ws rest); [|done]. intros [= ->]. lia.
Qed.

Lemma unmarshal_array_part data l v : unmarshal_array data = Some (Some l) → v ∈ l → (length v < length data)%nat.
Proof.
  unfold unmarshal_array. destruct (whole_value data) as [[|c t]|] eqn:E; [done| |done].
  apply whole_value_part in E. cbn in E. case_decide; [done|]. case_decide; [|done].
  destruct (decide _); [intros [= <-] []%not_elem_of_nil|].
  intros (l' & Hl & [= ->])%fmap_Some Hv. eapply array_elems_part in Hv; [|done]. lia.
Qed.

Lemma unmarshal_object_part data l p : unmarshal_object data = Some (Some l) → p ∈ l → (length p.2 < length data)%nat.
Proof.
  unfold unmarshal_object. destruct (whole_value data) as [[|c t]|] eqn:E; [done| |done].
  apply whole_value_part in E. cbn in E. case_decide; [done|]. case_decide; [|done].
  destruct (decide _); [intros [= <-] []%not_elem_of_nil|].
  intros (l' & Hl & [= ->])%fmap_Some Hv. eapply object_members_part in Hv; [|done]. lia.
Qed.

Lemma mapM_cong {A C} (f g : A → option C) (l : list A) : (∀ x, x ∈ l → f x = g x) → mapM f l = mapM g l.
Proof.
  intros E. induction l as [|x l IH]; [done|]. cbn. rewrite (E x) by by left. rewrite IH; [done|].
  intros y Hy. apply E. by right.
Qed.

Lemma decode_any_fuel f g data :
  (length data < f)%nat → (length data < g)%nat → decode_any f data = decode_any g data.
Proof.
  revert g data. induction f as [|f IH]; intros [|g] data Hf Hg; [lia..|]. cbn [decode_any].
  destruct (whole_value data) as [[|c t]|]; [done| |done]. case_decide; [|case_decide; [|done]].
  - destruct (unmarshal_object data) as [[l|]|] eqn:E; [|done..]. f_equal. apply mapM_cong. intros p Hp.
    eapply unmarshal_object_part in E; [|done]. by rewrite (IH g p.2) by lia.
  - destruct (unmarshal_array data) as [[l|]|] eqn:E; [|done..]. f_equal. apply mapM_cong. intros v Hv.
    eapply unmarshal_array_part in E; [|done]. apply IH; lia.
Qed.

(** ** Printing numbers

    [strconv.FormatFloat(f, 'g', -1, 64)]: the shortest decimal that reads back
    as the float, the nearest of those. *)
Definition ratio (m : positive) (e : Z) : Z * Z := if 0 <=? e then (Zpos m * 2 ^ e, 1) else (Zpos m, 2 ^ (- e)).
Definition scale_ratio (r : Z * Z) (k : Z) : Z * Z := if 0 <=? k then (r.1 * 10 ^ k, r.2) else (r.1, r.2 * 10 ^ (- k)).
(** The decimal point: the least [k] with a value below [10^k]. *)
Definition decimal_point (r : Z * Z) : Z :=
  let guess := (Z.log2 r.1 - Z.log2 r.2) * 30103 / 100000 - 1 in
  let below k := let '(a, b) := scale_ratio r (- k) in a <? b in
  default guess (find below [guess; guess + 1; guess + 2; guess + 3]).
Definition same_float (a b : float64) : bool := float_leb a b && float_leb b a.
Definition reads_back (f : float64) (digits exponent : Z) : bool :=
  match scaled_float false digits exponent with Some g => same_float f g | None => false end.
Fixpoint shortest (fuel : nat) (n : Z) (f : float64) (r : Z * Z) (k : Z) : Z * Z :=
  let '(a, b) := scale_ratio r (n - k) in
  let low := a / b in
  let choice :=
    match reads_back f low (k - n), reads_back f (low + 1) (k - n) with
    | true, false => Some low
    | false, true => Some (low + 1)
    | true, true =>
        let twice := 2 * (a - low * b) in
        Some (if (b <? twice) || ((b =? twice) && Z.odd low) then low + 1 else low)
    | false, false => None
    end in
  match choice, fuel with
  | Some d, _ => (d, k - n)
  | None, S fuel => shortest fuel (n + 1) f r k
  | None, O => (low, k - n)
  end.
Definition exponent_text (e : Z) : bytes :=
  (if e <? 0 then B "-" else B "+") ++ (if Z.abs e <? 10 then B "0" else []) ++ itoa (Z.abs e).
Fixpoint drop_zeros (l : bytes) : bytes := match l with c :: r => if decide (c = x30) then drop_zeros r else l | [] => [] end.
Definition format_digits (digits exponent : Z) : bytes :=
  let text := itoa digits in
  let point := zlen text + exponent in
  let text := rev (drop_zeros (rev text)) in
  if (point - 1 <? -4) || (6 <=? point - 1) then
    take 1 text ++ (if 1 <? zlen text then B "." ++ drop 1 text else []) ++ B "e" ++ exponent_text (point - 1)
  else if point <=? 0 then B "0." ++ repeat x30 (Z.to_nat (- point)) ++ text
  else if zlen text <=? point then text ++ repeat x30 (Z.to_nat (point - zlen text))
  else take (Z.to_nat point) text ++ B "." ++ drop (Z.to_nat point) text.
Definition format_float (f : float64) : bytes :=
  match f with
  | S754_finite s m e =>
      let r := ratio m e in
      let '(digits, exponent) := shortest 16 1 (SFabs f) r (decimal_point r) in
      (if s then B "-" else []) ++ format_digits digits exponent
  | S754_zero s => (if s then B "-" else []) ++ B "0"
  | S754_infinity s => if s then B "-Inf" else B "+Inf"
  | S754_nan => B "NaN"
  end.

(** [fmt.Sprint] of one operand; the keys of a map are printed in order. *)
Fixpoint sprint (v : any) : bytes :=
  match v with
  | ANull => B "<nil>"
  | ABool b => if b then B "true" else B "false"
  | ANumber f => format_float f
  | AString s => s
  | AList l => B "[" ++ join (B " ") (map sprint l) ++ B "]"
  | AObject l =>
      let texts := list_to_map (M := gmap bytes bytes) (rev (map (λ p, (p.1, sprint p.2)) l)) in
      B "map[" ++ join (B " ") (map (λ k, k ++ B ":" ++ default [] (texts !! k)) (sort_strings (map_to_list texts).*1)) ++ B "]"
  end.

(** ** Examples *)
Definition number_text (s : bytes) : option bytes := format_float <$> parse_number s.
Example numbers_print :
  map number_text [B "1"; B "10"; B "1500"; B "123456"; B "1000000"; B "1234567"; B "0.1"; B "-2.50"; B "1e-7";
                   B "0.00012"; B "1e22"; B "123456789012345678"; B "5e-324"; B "1.7976931348623157e308"; B "0.30000000000000004"; B "-0"]
  = map Some [B "1"; B "10"; B "1500"; B "123456"; B "1e+06"; B "1.234567e+06"; B "0.1"; B "-2.5"; B "1e-07";
              B "0.00012"; B "1e+22"; B "1.2345678901234568e+17"; B "5e-324"; B "1.7976931348623157e+308"; B "0.30000000000000004"; B "-0"]
  ∧ number_text (B "1e400") = None.
Proof. vm_compute. done. Qed.

Example documents_decode :
  unmarshal_any (J " {'a': [1, null, 'x'], 'b': {'c': true}, 'a': -2.5} ") =
    Some (AObject [(B "a", AList [ANumber (float_of_int 1); ANull; AString (B "x")]);
                   (B "b", AObject [(B "c", ABool true)]);
                   (B "a", ANumber (SFopp (float_div (float_of_int 5) (float_of_int 2))))]) ∧
  unmarshal_any (J "{'a': 1e999}") = None ∧ unmarshal_any (J "{'a': }") = None ∧
  (sprint <$> unmarshal_any (J "[1, {'b': 2, 'a': [null, false]}]")) = Some (B "[1 map[a:[<nil> false] b:2]]").
Proof. vm_compute. done. Qed.
