(* ===== verification/Lldp.v ===== *)
(** LLDP neighbors out of [lldpcli -f json show neighbors]:
    [src/internal/platform/lldp.go].

    What the command prints, or how it fails, is a parameter.  The order of a
    [range] over a JSON object is one too: of an object with several nested
    objects the code takes the first. *)
From S2P Require Import Prelude GoStrings GoJson GoFloat GoMap GoNet GoAny Ports RuntimeConfig RuntimePorts.

(** [objectValue], of a map and of a list of members. *)
Definition objectValue (values : gmap bytes any) (key : bytes) : option (gmap bytes any) := values !! key ≫= as_object.

Definition normalizeObjectList (value : any) : list (gmap bytes any) :=
  match value with
  | AObject l => [members l]
  | AList l => omap as_object l
  | _ => []
  end.

Definition looksLikeLeaf (values : gmap bytes any) : bool :=
  existsb (λ key, bool_decide (is_Some (values !! key)))
    [B "id"; B "value"; B "name"; B "descr"; B "mgmt-ip"; B "capability"].

(** The member [value] of an object is read the same way. *)
Fixpoint scalarString (value : any) : bytes :=
  match value with
  | AString s => trim_space s
  | AObject l =>
      (fix go (l : list (bytes * any)) (out : bytes) : bytes :=
         match l with [] => out | (k, v) :: rest => go rest (if decide (k = B "value") then scalarString v else out) end) l []
  | ANull => []
  | _ => trim_space (sprint value)
  end.
Definition scalar_at (values : gmap bytes any) (key : bytes) : bytes :=
  match values !! key with Some v => scalarString v | None => [] end.

Fixpoint firstValueByKeys (values : gmap bytes any) (keys : list bytes) : bytes :=
  match keys with
  | [] => []
  | key :: rest =>
      let value := scalar_at values key in
      if negb (bool_decide (value = [])) then value
      else
        match objectValue values key with
        | Some object =>
            let value := scalar_at object (B "value") in
            if negb (bool_decide (value = [])) then value else firstValueByKeys values rest
        | None => firstValueByKeys values rest
        end
  end.

Definition capability_text (item : any) : list bytes :=
  let text := scalarString item in
  if negb (bool_decide (text = [])) then [text]
  else
    match as_object item with
    | Some object =>
        let text := firstValueByKeys object [B "type"; B "value"] in
        if negb (bool_decide (text = [])) then [text] else []
    | None => []
    end.
Definition valuesByKey (values : gmap bytes any) (key : bytes) : list bytes :=
  match values !! key with
  | None => []
  | Some (AList l) => l ≫= capability_text
  | Some value => let text := scalarString value in if negb (bool_decide (text = [])) then [text] else []
  end.

(** [strings.FieldsFunc]: the maximal pieces without a separator. *)
Fixpoint fields_by (separator : byte → bool) (acc s : bytes) : list bytes :=
  match s with
  | [] => flush_field acc []
  | b :: rest =>
      if separator b then flush_field acc (fields_by separator [] rest) else fields_by separator (b :: acc) rest
  end.
Definition fields_func (separator : byte → bool) (s : bytes) : list bytes := fields_by separator [] s.
Definition trim_prefix (p s : bytes) : bytes := if has_prefix p s then drop (length p) s else s.

Fixpoint first_some {A C} (f : A → option C) (l : list A) : option C :=
  match l with [] => None | a :: rest => match f a with Some c => Some c | None => first_some f rest end end.
Definition mac_field (field : bytes) : option bytes := mac_string <$> parse_mac (trim_prefix (B "mac:") (trim_space field)).
Definition firstMAC (values : list bytes) : bytes :=
  default []
    (first_some (λ value, first_some mac_field (fields_func (λ b, bool_decide (b ∈ [x20; x2c; x3b])) value)) values).

Section order.
Context `{MapOrder}.

Definition firstNestedObject (values : gmap bytes any) (key : bytes) : option (gmap bytes any) :=
  container ← objectValue values key;
  if looksLikeLeaf container then Some container
  else Some (default container (first_some (λ p, as_object p.2) (range container))).

Definition parseLLDPInterface (iface : bytes) (raw : gmap bytes any) : LLDPNeighbor :=
  let '(chassisID, chassisMAC, systemName, managementIP, capabilities) :=
    match firstNestedObject raw (B "chassis") with
    | Some chassis =>
        let id := firstValueByKeys chassis [B "id"; B "chassis-id"] in
        (id, firstMAC [id; firstValueByKeys chassis [B "mac"]],
         firstValueByKeys chassis [B "name"; B "sysname"; B "system-name"],
         firstValueByKeys chassis [B "mgmt-ip"; B "mgmt_ip"; B "management-ip"],
         valuesByKey chassis (B "capability"))
    | None => ([], [], [], [], [])
    end in
  let '(portID, portDescription) :=
    match firstNestedObject raw (B "port") with
    | Some port =>
        (firstValueByKeys port [B "id"; B "port-id"; B "ifname"],
         firstValueByKeys port [B "descr"; B "description"; B "port-description"])
    | None => ([], [])
    end in
  let chassisMAC :=
    if decide (chassisMAC = []) then firstMAC [firstValueByKeys raw [B "chassis"; B "chassis-id"; B "chassis_id"]]
    else chassisMAC in
  MkLLDP (trim_space iface) chassisID chassisMAC systemName portID portDescription capabilities managementIP.

(** The neighbors of one member of [interface]. *)
Definition interface_neighbors (p : bytes * any) : list LLDPNeighbor :=
  filter (λ n, ln_Interface n ≠ []) (map (parseLLDPInterface p.1) (normalizeObjectList p.2)).

Definition ParseLLDPCLIJSON (data : bytes) : result error (list LLDPNeighbor) :=
  match unmarshal_any data with
  | None => Err "parse lldpcli json"%stdpp
  | Some (AObject root) =>
      let root := members root in
      let lldpRoot := default root (objectValue root (B "lldp")) in
      match objectValue lldpRoot (B "interface") with
      | None => Ok []
      | Some interfaces => Ok (range interfaces ≫= interface_neighbors)
      end
  | Some _ => Err "parse lldpcli json: root is not an object"%stdpp
  end.

(** [LLDP]: the neighbors and the warnings; [lldpcli] is the command's output. *)
Definition LLDP `{UnicodeTables} (lldpcli : result error bytes) (source : bytes) : list LLDPNeighbor * list error :=
  let source := normalizedSource source in
  if decide (source = PlatformSourceOff) then ([], [])
  else if decide (source = LLDPSourceLLDPD) then
    match lldpcli with
    | Err e => ([], [e])
    | Ok out => match ParseLLDPCLIJSON out with Ok neighbors => (neighbors, []) | Err e => ([], [e]) end
    end
  else ([], ["unsupported lldp source"%stdpp]).
End order.

(** ** Facts *)
Lemma first_some_spec {A C} (f : A → option C) (l : list A) :
  match first_some f l with
  | Some c => ∃ a, a ∈ l ∧ f a = Some c
  | None => ∀ a, a ∈ l → f a = None
  end.
Proof.
  induction l as [|a l IH]; cbn; [by intros a []%not_elem_of_nil|].
  destruct (f a) as [c|] eqn:E; [exists a; split; [by left|done]|].
  destruct (first_some f l) as [c|].
  - destruct IH as (x & Hx & Hf). exists x. split; [by right|done].
  - intros x [->|Hx]%elem_of_cons; auto.
Qed.

(** Only the order decides which of several fits comes first. *)
Lemma first_some_perm {A C} (f : A → option C) (l k : list A) :
  l ≡ₚ k → (∀ a b, a ∈ l → b ∈ l → is_Some (f a) → is_Some (f b) → a = b) → first_some f l = first_some f k.
Proof.
  intros Hp Hu. pose proof (first_some_spec f l) as Hl. pose proof (first_some_spec f k) as Hk.
  destruct (first_some f l) as [c|], (first_some f k) as [d|]; [|..|done].
  - destruct Hl as (a & Ha & Hc), Hk as (b & Hb & Hd). rewrite <- Hp in Hb.
    assert (a = b) as <- by (apply Hu; [done..|by eexists|by eexists]). congruence.
  - destruct Hl as (a & Ha & Hc). rewrite Hp in Ha. by rewrite (Hk a Ha) in Hc.
  - destruct Hk as (b & Hb & Hd). rewrite <- Hp in Hb. by rewrite (Hl b Hb) in Hd.
Qed.

(** A container holds its fields itself or in at most one nested object. *)
Definition clear_container (values : gmap bytes any) : Prop :=
  looksLikeLeaf values = true ∨
  ∀ k1 k2 v1 v2, values !! k1 = Some v1 → values !! k2 = Some v2 →
    is_Some (as_object v1) → is_Some (as_object v2) → k1 = k2.
Definition clear_item (raw : gmap bytes any) : Prop :=
  ∀ key container, key ∈ [B "chassis"; B "port"] → objectValue raw key = Some container → clear_container container.
Definition clear_output (data : bytes) : Prop :=
  ∀ root interfaces k v,
    unmarshal_any data = Some (AObject root) →
    objectValue (default (members root) (objectValue (members root) (B "lldp"))) (B "interface") = Some interfaces →
    interfaces !! k = Some v → Forall clear_item (normalizeObjectList v).

Section two_orders.
Variables o1 o2 : MapOrder.
Hypotheses (laws1 : @MapOrderLaws o1) (laws2 : @MapOrderLaws o2).

Lemma range_orders {A} (m : gmap bytes A) : @range o1 A m ≡ₚ @range o2 A m.
Proof. etransitivity; [apply laws1|symmetry; apply laws2]. Qed.

Lemma nested_order raw key :
  (∀ container, objectValue raw key = Some container → clear_container container) →
  @firstNestedObject o1 raw key = @firstNestedObject o2 raw key.
Proof.
  intros Hc. unfold firstNestedObject. destruct (objectValue raw key) as [container|]; cbn [mbind option_bind]; [|done].
  destruct (looksLikeLeaf container) eqn:El; [done|]. do 2 f_equal. apply first_some_perm; [apply range_orders|].
  destruct (Hc _ eq_refl) as [Hl|Hu]; [congruence|].
  intros [k1 v1] [k2 v2] H1 H2 F1 F2. apply (@elem_of_range o1 laws1) in H1, H2.
  assert (k1 = k2) as <- by by eapply Hu. congruence.
Qed.

Lemma interface_order iface raw : clear_item raw → @parseLLDPInterface o1 iface raw = @parseLLDPInterface o2 iface raw.
Proof.
  intros Hc. unfold parseLLDPInterface.
  rewrite (nested_order raw (B "chassis")), (nested_order raw (B "port")); [done|..].
  - intros c. apply Hc. by right; left.
  - intros c. apply Hc. by left.
Qed.

Lemma parse_order data :
  clear_output data →
  match @ParseLLDPCLIJSON o1 data, @ParseLLDPCLIJSON o2 data with
  | Ok l, Ok k => l ≡ₚ k
  | Err d, Err e => d = e
  | _, _ => False
  end.
Proof.
  intros Hc. unfold ParseLLDPCLIJSON. destruct (unmarshal_any data) as [[]|] eqn:Ed; try done.
  destruct (objectValue _ (B "interface")) as [interfaces|] eqn:Ei; [|done].
  assert (∀ p, p ∈ @range o1 any interfaces → @interface_neighbors o1 p = @interface_neighbors o2 p) as He.
  { intros [k v] Hp. apply (@elem_of_range o1 laws1) in Hp. unfold interface_neighbors. f_equal. cbn.
    specialize (Hc _ _ k v Ed Ei Hp). rewrite Forall_forall in Hc. apply map_ext_in.
    intros raw Hr%list_elem_of_In. by apply interface_order, Hc. }
  transitivity (@range o1 any interfaces ≫= @interface_neighbors o2).
  - clear Ei. induction (@range o1 any interfaces) as [|p ps IH]; [done|]. cbn. rewrite He by by left.
    f_equiv. apply IH. intros q Hq. apply He. by right.
  - apply bind_Permutation, range_orders.
Qed.
End two_orders.

(** What a neighbor can rely on. *)
Record sound_neighbor (n : LLDPNeighbor) : Prop := {
  sn_interface : ln_Interface n ≠ [] ∧ trim_space (ln_Interface n) = ln_Interface n;
  sn_mac : ln_ChassisMAC n = [] ∨ ∃ text hw, parse_mac text = Some hw ∧ ln_ChassisMAC n = mac_string hw;
  sn_capabilities : [] ∉ ln_Capabilities n;
}.

Lemma firstMAC_form values : firstMAC values = [] ∨ ∃ text hw, parse_mac text = Some hw ∧ firstMAC values = mac_string hw.
Proof.
  unfold firstMAC. pose proof (first_some_spec (λ value, first_some mac_field
    (fields_func (λ b, bool_decide (b ∈ [x20; x2c; x3b])) value)) values) as Hs.
  destruct (first_some _ values) as [mac|]; [right|by left]. destruct Hs as (value & _ & Hv).
  pose proof (first_some_spec mac_field (fields_func (λ b, bool_decide (b ∈ [x20; x2c; x3b])) value)) as Hs.
  rewrite Hv in Hs. destruct Hs as (field & _ & Hf). unfold mac_field in Hf.
  apply fmap_Some in Hf as (hw & Hp & ->). by eexists _, hw.
Qed.

Lemma capability_text_solid item : [] ∉ capability_text item.
Proof.
  unfold capability_text. assert (∀ t : bytes, [] ∉ (if negb (bool_decide (t = [])) then [t] else [])) as Hs.
  { intros t. destruct (bool_decide (t = [])) eqn:E; bool_to_prop; [by apply not_elem_of_nil|].
    intros Ht%list_elem_of_singleton. congruence. }
  destruct (negb _) eqn:E; [specialize (Hs (scalarString item)); by rewrite E in Hs|].
  destruct (as_object item); [apply Hs|by apply not_elem_of_nil].
Qed.

Lemma valuesByKey_solid values key : [] ∉ valuesByKey values key.
Proof.
  unfold valuesByKey. destruct (values !! key) as [v|]; [|by apply not_elem_of_nil].
  assert ([] ∉ (if negb (bool_decide (scalarString v = [])) then [scalarString v] else [])) as Hs.
  { destruct (bool_decide _) eqn:E; bool_to_prop; [by apply not_elem_of_nil|].
    intros Ht%list_elem_of_singleton. congruence. }
  destruct v; try exact Hs. intros (item & Hi & _)%list_elem_of_bind. by apply capability_text_solid in Hi.
Qed.

Lemma interface_neighbors_sound `{MapOrder} p n : n ∈ interface_neighbors p → sound_neighbor n.
Proof.
  intros [Hn Hin]%list_elem_of_filter. apply list_elem_of_fmap in Hin as (raw & -> & _).
  unfold parseLLDPInterface in *.
  destruct (firstNestedObject raw (B "chassis")) as [c|], (firstNestedObject raw (B "port")) as [q|]; cbv zeta beta iota in *.
  all: split; cbn [ln_Interface ln_ChassisMAC ln_Capabilities] in *;
    [split; [done|apply trim_space_idemp]
    |case_decide; apply firstMAC_form || (by left)
    |apply valuesByKey_solid || by apply not_elem_of_nil].
Qed.

(** ** Where a neighbor's fields come from *)
(** The first of several members with a text. *)
Definition solid_texts (l : list bytes) : list bytes := filter (λ t, t ≠ []) l.
Definition said (obj : gmap bytes any) (keys : list bytes) : bytes :=
  default [] (head (solid_texts (map (scalar_at obj) keys))).
Definition item_text (item : any) : bytes :=
  default [] (head (solid_texts
    (scalarString item :: match as_object item with Some o => map (scalar_at o) [B "type"; B "value"] | None => [] end))).
Definition capability_texts (obj : gmap bytes any) : list bytes :=
  match obj !! B "capability" with
  | None => []
  | Some (AList l) => solid_texts (map item_text l)
  | Some v => solid_texts [scalarString v]
  end.
(** The first piece of the texts that is a hardware address, in canonical form. *)
Definition first_address (texts : list bytes) : bytes :=
  default [] (head (omap mac_field (texts ≫= fields_func (λ b, bool_decide (b ∈ [x20; x2c; x3b]))))).

(** The object under [key]: the member itself if it has one of the known
    fields, else one of the objects in it, or itself if it has none. *)
Definition has_fields (obj : gmap bytes any) : Prop :=
  ∃ k, k ∈ [B "id"; B "value"; B "name"; B "descr"; B "mgmt-ip"; B "capability"] ∧ is_Some (obj !! k).
Definition nested (raw : gmap bytes any) (key : bytes) (r : option (gmap bytes any)) : Prop :=
  match raw !! key ≫= as_object with
  | None => r = None
  | Some obj => ∃ inner, r = Some inner ∧ (has_fields obj → inner = obj) ∧
      (¬ has_fields obj →
         (∃ k v, obj !! k = Some v ∧ as_object v = Some inner) ∨
         (∀ k v, obj !! k = Some v → as_object v = None) ∧ inner = obj)
  end.
(** The texts of an object that may be missing. *)
Definition said_in (obj : option (gmap bytes any)) (keys : list bytes) : bytes :=
  match obj with Some o => said o keys | None => [] end.

Record read_neighbor (iface : bytes) (raw : gmap bytes any) (n : LLDPNeighbor) : Prop := {
  rn_interface : ln_Interface n = trim_space iface;
  rn_port : ∃ port, nested raw (B "port") port ∧
    ln_PortID n = said_in port [B "id"; B "port-id"; B "ifname"] ∧
    ln_PortDescription n = said_in port [B "descr"; B "description"; B "port-description"];
  rn_chassis : ∃ chassis, nested raw (B "chassis") chassis ∧
    ln_ChassisID n = said_in chassis [B "id"; B "chassis-id"] ∧
    ln_SystemName n = said_in chassis [B "name"; B "sysname"; B "system-name"] ∧
    ln_ManagementIP n = said_in chassis [B "mgmt-ip"; B "mgmt_ip"; B "management-ip"] ∧
    ln_Capabilities n = match chassis with Some c => capability_texts c | None => [] end ∧
    let own := first_address [said_in chassis [B "id"; B "chassis-id"]; said_in chassis [B "mac"]] in
    ln_ChassisMAC n =
      if bool_decide (own = []) then first_address [said raw [B "chassis"; B "chassis-id"; B "chassis_id"]] else own;
}.

Lemma head_solid t l : default [] (head (solid_texts (t :: l))) = if bool_decide (t = []) then default [] (head (solid_texts l)) else t.
Proof.
  unfold solid_texts. rewrite filter_cons. by destruct (decide (t ≠ [])), (bool_decide_reflect (t = [])).
Qed.

Lemma scalar_object l : scalarString (AObject l) = scalar_at (members l) (B "value").
Proof.
  cbn [scalarString]. set (go := fix go l out := match l with [] => out | (k, v) :: rest => _ end).
  assert (∀ l1 l2 out, go (l1 ++ l2) out = go l2 (go l1 out)) as Happ.
  { induction l1 as [|[k v] l1 IH]; intros l2 out; [done|]. cbn. apply IH. }
  induction l as [|[k v] l IH] using rev_ind; [done|]. rewrite Happ. cbn. unfold scalar_at, members in *.
  rewrite rev_app_distr. cbn. destruct (decide (k = B "value")) as [->|Hne].
  - by rewrite lookup_insert_eq.
  - by rewrite lookup_insert_ne.
Qed.

Lemma firstValueByKeys_said obj keys : firstValueByKeys obj keys = said obj keys.
Proof.
  unfold said. induction keys as [|key rest IH]; [done|]. cbn [firstValueByKeys map]. rewrite head_solid, <- IH.
  destruct (bool_decide_reflect (scalar_at obj key = [])) as [E|E]; cbn [negb]; [|done].
  destruct (objectValue obj key) as [o|] eqn:Eo; [|done].
  assert (scalar_at o (B "value") = []) as ->; [|done].
  unfold objectValue in Eo. destruct (obj !! key) as [v|] eqn:Ev; [|done]. cbn in Eo. destruct v as [| | | | |l]; try done.
  injection Eo as <-. unfold scalar_at at 1 in E. rewrite Ev in E. by rewrite scalar_object in E.
Qed.
Lemma valuesByKey_texts obj : valuesByKey obj (B "capability") = capability_texts obj.
Proof.
  unfold valuesByKey, capability_texts. destruct (obj !! B "capability") as [v|]; [|done].
  assert (∀ t, (if negb (bool_decide (t = [])) then [t] else []) = solid_texts [t]) as Hone.
  { intros t. unfold solid_texts. rewrite filter_cons, filter_nil.
    by destruct (decide (t ≠ [])), (bool_decide_reflect (t = [])). }
  destruct v; try apply Hone. induction l as [|item l IH]; [done|]. cbn [mbind list_bind map].
  rewrite (IH : l ≫= capability_text = _). unfold solid_texts at 2. rewrite filter_cons. fold (solid_texts (map item_text l)).
  assert (capability_text item = solid_texts [item_text item]) as ->.
  { unfold capability_text, item_text. rewrite head_solid.
    destruct (bool_decide_reflect (scalarString item = [])) as [E|E]; cbn [negb].
    - destruct (as_object item) as [o|]; [|done]. by rewrite Hone, firstValueByKeys_said.
    - rewrite <- Hone. by rewrite bool_decide_false. }
  unfold solid_texts at 1. rewrite filter_cons, filter_nil. by case_decide.
Qed.
Lemma first_some_omap {A C} (f : A → option C) (l : list A) : first_some f l = head (omap f l).
Proof. induction l as [|a l IH]; [done|]. cbn. by destruct (f a). Qed.
Lemma firstMAC_address values : firstMAC values = first_address values.
Proof.
  unfold firstMAC, first_address. f_equal. induction values as [|v values IH]; [done|]. cbn [first_some mbind list_bind].
  rewrite omap_app, head_app, IH, first_some_omap. by destruct (head (omap mac_field _)).
Qed.
Lemma looks_like_leaf obj : looksLikeLeaf obj = true ↔ has_fields obj.
Proof.
  unfold looksLikeLeaf, has_fields. rewrite existsb_exists. setoid_rewrite bool_decide_eq_true.
  split; intros (k & Hk & Hs); exists k; (split; [|done]); by apply list_elem_of_In.
Qed.

Section reading.
Context `{MapOrderLaws}.

Lemma firstNestedObject_nested raw key : nested raw key (firstNestedObject raw key).
Proof.
  unfold nested, firstNestedObject. change (raw !! key ≫= as_object) with (objectValue raw key).
  destruct (objectValue raw key) as [obj|]; cbn [mbind option_bind]; [|done].
  pose proof (looks_like_leaf obj) as Hl. destruct (looksLikeLeaf obj).
  { exists obj. split_and!; [done..|]. intros Hn. destruct (Hn (proj1 Hl eq_refl)). }
  eexists. split; [done|]. split; [intros Hf%Hl; discriminate Hf|]. intros _.
  pose proof (first_some_spec (λ p, as_object p.2) (range obj)) as Hs. destruct (first_some _ (range obj)) as [inner|].
  - left. destruct Hs as ([k v] & Hin%elem_of_range & Hv). by exists k, v.
  - right. split; [|done]. intros k v Hk. apply (Hs (k, v)). by apply elem_of_range.
Qed.

Lemma parse_reads iface raw : read_neighbor iface raw (parseLLDPInterface iface raw).
Proof.
  pose proof (firstNestedObject_nested raw (B "chassis")) as Hc. pose proof (firstNestedObject_nested raw (B "port")) as Hp.
  unfold parseLLDPInterface. rewrite !firstMAC_address, !firstValueByKeys_said.
  destruct (firstNestedObject raw (B "chassis")) as [c|] eqn:Ec, (firstNestedObject raw (B "port")) as [q|] eqn:Eq; split; cbn [ln_Interface ln_PortID ln_PortDescription
    ln_ChassisID ln_SystemName ln_ManagementIP ln_Capabilities ln_ChassisMAC]; try done.
  all: try (eexists; split; [exact Hp|cbn [said_in]; by rewrite ?firstValueByKeys_said]).
  all: eexists; split; [exact Hc|]; cbn [said_in]; rewrite ?firstMAC_address, ?firstValueByKeys_said, ?valuesByKey_texts.
  all: split_and!; try done; cbv zeta; unfold said_in.
  all: case_decide as E; rewrite ?firstMAC_address, ?firstValueByKeys_said in *;
    [by rewrite bool_decide_eq_true_2|by rewrite bool_decide_eq_false_2].
Qed.

(** The items of the interface table: interface names with their objects. *)
Definition table_items (interfaces : gmap bytes any) : list (bytes * gmap bytes any) :=
  filter (λ row, trim_space row.1 ≠ []) (map_to_list interfaces ≫= λ p, pair p.1 <$> normalizeObjectList p.2).
Definition reads_table (interfaces : gmap bytes any) (neighbors : list LLDPNeighbor) : Prop :=
  ∃ rows, rows ≡ₚ table_items interfaces ∧ Forall2 (λ row n, read_neighbor row.1 row.2 n) rows neighbors.
Lemma range_reads interfaces : reads_table interfaces (range interfaces ≫= interface_neighbors).
Proof.
  exists (filter (λ row, trim_space row.1 ≠ []) (range interfaces ≫= λ p, pair p.1 <$> normalizeObjectList p.2)). split.
  - unfold table_items. by rewrite range_permutation.
  - induction (range interfaces) as [|p rest IH]; [constructor|]. cbn [mbind list_bind]. rewrite filter_app.
    apply Forall2_app; [|exact IH]. unfold interface_neighbors. clear IH.
    induction (normalizeObjectList p.2) as [|raw raws IH]; [constructor|]. cbn [fmap list_fmap map].
    rewrite !filter_cons. cbn [fst].
    assert (ln_Interface (parseLLDPInterface p.1 raw) = trim_space p.1) as -> by apply parse_reads.
    case_decide; [constructor; [apply parse_reads|]|]; exact IH.
Qed.
End reading.

(** C30: how lldpcli's answer is read.  Without the lldpd source there are no
    neighbors, and a warning if another source is asked for; a command that
    fails, or whose output is no JSON object, gives no neighbor and exactly one
    warning; an object gives no warning, and one neighbor for each object of its
    interface table with a named interface.  The fields of a neighbor are the
    first texts under their keys ([read_neighbor]); it has a trimmed interface
    name, a chassis address that is empty or in canonical form, and no blank
    capability.  And if every chassis and port holds its fields itself or in one
    nested object, the order in which Go ranges over the JSON objects decides
    only the order of the neighbors. *)
Theorem LLDP_well_formed `{UnicodeTables} (o1 o2 : MapOrder) lldpcli source :
  @MapOrderLaws o1 → @MapOrderLaws o2 →
  let '(neighbors, warnings) := @LLDP o1 _ lldpcli source in
  let wanted := to_lower (trim_space source) in
  (wanted ∈ [[]; B "off"] → neighbors = [] ∧ warnings = []) ∧
  (wanted ∉ [[]; B "off"; B "lldpd"] → neighbors = [] ∧ length warnings = 1%nat) ∧
  (wanted = B "lldpd" →
   match lldpcli with
   | Err e => neighbors = [] ∧ warnings = [e]
   | Ok out =>
       match unmarshal_any out with
       | Some (AObject l) =>
           let root := default (members l) (members l !! B "lldp" ≫= as_object) in
           warnings = [] ∧
           match root !! B "interface" ≫= as_object with
           | Some interfaces => reads_table interfaces neighbors
           | None => neighbors = []
           end
       | _ => neighbors = [] ∧ length warnings = 1%nat
       end
   end) ∧
  Forall sound_neighbor neighbors ∧
  ((∀ out, lldpcli = Ok out → clear_output out) →
   neighbors ≡ₚ (@LLDP o2 _ lldpcli source).1 ∧ warnings = (@LLDP o2 _ lldpcli source).2).
Proof.
  intros L1 L2. unfold LLDP, normalizedSource. set (wanted := to_lower (trim_space source)). clearbody wanted. cbv zeta.
  destruct (decide (wanted = [])) as [->|Hw].
  { rewrite decide_True by done. split_and!; auto; [|done]. intros Hn. exfalso. apply Hn. by left. }
  destruct (decide (wanted = PlatformSourceOff)) as [->|Hoff].
  { split_and!; auto; [|done]. intros Hn. exfalso. apply Hn. right. by left. }
  assert (wanted ∉ [[]; B "off"]) as Hon.
  { intros [->|?%list_elem_of_singleton]%elem_of_cons; done. }
  destruct (decide (wanted = LLDPSourceLLDPD)) as [->|Hl].
  2: { split_and!; auto; intros Hs; done. }
  assert (LLDPSourceLLDPD ∉ [[]; B "off"; B "lldpd"] → False) as Hin by (intros Hn; apply Hn; right; right; by left).
  destruct lldpcli as [out|e]; [|by split_and!; auto].
  assert (((∀ out', @Ok error bytes out = Ok out' → clear_output out') →
    (match @ParseLLDPCLIJSON o1 out with Ok l => (l, []) | Err e => ([], [e]) end).1 ≡ₚ
    (match @ParseLLDPCLIJSON o2 out with Ok l => (l, []) | Err e => ([], [e]) end).1 ∧
    (match @ParseLLDPCLIJSON o1 out with Ok l => (l, []) | Err e => ([], [e]) end).2 =
    (match @ParseLLDPCLIJSON o2 out with Ok l => (l, []) | Err e => ([], [e]) end).2)) as Horder.
  { intros Hc. pose proof (parse_order o1 o2 L1 L2 out (Hc out eq_refl)) as Hp.
    destruct (@ParseLLDPCLIJSON o1 out), (@ParseLLDPCLIJSON o2 out); try done. by rewrite Hp. }
  destruct (@ParseLLDPCLIJSON o1 out) as [neighbors|e] eqn:E1; unfold ParseLLDPCLIJSON in E1;
    (split; [done|split; [done|split; [intros _|split; [|exact Horder]]]]); [| | |constructor].
  - destruct (unmarshal_any out) as [[]|]; try done. split; [done|]. unfold objectValue in E1.
    destruct (default (members l) (members l !! B "lldp" ≫= as_object) !! B "interface" ≫= as_object) as [m|];
      injection E1 as <-; [apply range_reads|done].
  - destruct (unmarshal_any out) as [[]|]; try done.
    destruct (objectValue _ (B "interface")) as [m|]; injection E1 as <-; [|constructor].
    rewrite Forall_forall. intros n (p & Hn & _)%list_elem_of_bind. exact (@interface_neighbors_sound o1 p n Hn).
  - destruct (unmarshal_any out) as [[]|]; try done. by destruct (objectValue _ (B "interface")).
Qed.

(** ** Examples *)
#[local] Existing Instances ascii_tables list_order list_order_laws.
Definition sample_output : bytes := J
  "{'lldp': {'interface': {'eth0': {'chassis': {'sw1': {'id': {'type': 'mac', 'value': '02:00:00:00:00:BB'},
    'mgmt-ip': ' 192.0.2.9', 'capability': [{'type': 'Bridge', 'enabled': true}, 'Router', {}]}},
    'port': {'id': {'type': 'ifname', 'value': 'Port 7'}, 'descr': 7}},
    'eth1': [{'chassis': {'id': 'mac:02-00-00-00-00-cc'}, 'port': {}}, 5, {'port': {'port-id': 1000000}}]}}}".

Example sample_neighbors :
  LLDP (Ok sample_output) (B " LLDPD ") =
  ([MkLLDP (B "eth1") (B "mac:02-00-00-00-00-cc") (B "02:00:00:00:00:cc") [] [] [] [] [];
    MkLLDP (B "eth1") [] [] [] (B "1e+06") [] [] [];
    MkLLDP (B "eth0") (B "02:00:00:00:00:BB") (B "02:00:00:00:00:bb") [] (B "Port 7") (B "7") [B "Bridge"; B "Router"] (B "192.0.2.9")], []).
Proof. vm_compute. done. Qed.

(** Of a chassis with two nested objects the order picks one. *)
Definition rev_range : MapOrder := {| range := λ A m, rev (map_to_list m) |}.
Lemma rev_range_laws : @MapOrderLaws rev_range.
Proof. intros A m. cbn. symmetry. apply Permutation_rev. Qed.
Example two_nested_objects :
  let out := J "{'interface': {'eth0': {'chassis': {'a': {'id': 'one'}, 'b': {'id': 'two'}}}}}" in
  map ln_ChassisID (@LLDP list_order _ (Ok out) LLDPSourceLLDPD).1 ≠
  map ln_ChassisID (@LLDP rev_range _ (Ok out) LLDPSourceLLDPD).1.
Proof. vm_compute. done. Qed.

Definition small_output : bytes := J "{'interface': {'eth0': {'chassis': {'id': 'mac:02:00:00:00:00:cc'}}}}".
Lemma small_output_clear : clear_output small_output.
Proof.
  intros root interfaces k v Hd Hi Hv.
  set (item := [(B "chassis", AObject [(B "id", AString (B "mac:02:00:00:00:00:cc"))])]).
  assert (unmarshal_any small_output = Some (AObject [(B "interface", AObject [(B "eth0", AObject item)])])) as E
    by (vm_compute; reflexivity).
  rewrite E in Hd. injection Hd as <-. cbn in Hi. injection Hi as <-.
  apply members_elem, list_elem_of_singleton in Hv. injection Hv as _ ->. constructor; [|constructor].
  intros key container [->|Hk]%elem_of_cons Hc; [|apply list_elem_of_singleton in Hk as ->]; left.
  - cbn in Hc. injection Hc as <-. reflexivity.
  - cbn in Hc. discriminate Hc.
Qed.

Lemma LLDP_well_formed_witness :
  let run o out := @LLDP o _ out LLDPSourceLLDPD in
  (run list_order (Err "no lldpcli"%stdpp)).2 = ["no lldpcli"%stdpp] ∧
  length (run list_order (Ok small_output)).1 = 1%nat ∧ Forall sound_neighbor (run list_order (Ok small_output)).1 ∧
  (run list_order (Ok small_output)).1 ≡ₚ (run rev_range (Ok small_output)).1.
Proof.
  cbv zeta.
  pose proof (λ out, LLDP_well_formed list_order rev_range out LLDPSourceLLDPD list_order_laws rev_range_laws) as Hw.
  assert (to_lower (trim_space LLDPSourceLLDPD) = B "lldpd") as El by (vm_compute; reflexivity). split.
  { specialize (Hw (Err "no lldpcli"%stdpp)). destruct (@LLDP list_order _ _ LLDPSourceLLDPD) as [neighbors warnings].
    destruct Hw as (_ & _ & Hf & _). exact (proj2 (Hf El)). }
  split; [vm_compute; reflexivity|]. specialize (Hw (Ok small_output)).
  destruct (@LLDP list_order _ (Ok small_output) LLDPSourceLLDPD) as [neighbors warnings].
  destruct Hw as (_ & _ & _ & Hs & Ho). split; [exact Hs|]. apply Ho.
  intros out Hout. injection Hout as <-. exact small_output_clear.
Defined.
