(* ===== verification/Link.v ===== *)
(** Host interfaces and routes: [src/internal/platform/link.go], the
    implementation of the address reader that the checks of RuntimeConfig and
    Startup take as a parameter.

    The kernel's interface table, the local address of a connected UDP socket
    and the file [speed] of an interface are parameters; contexts are left out. *)
From S2P Require Import Prelude GoStrings GoNet GoIP GoUrl RuntimeConfig.

(** An interface of the table; the addresses are those [addressIP] gives, empty
    for an address of another type, and [None] is a failed [Addrs]. *)
Record NetInterface := MkInterface {
  nf_Name : bytes; nf_Up : bool; nf_HardwareAddr : bytes; nf_Addrs : option (list bytes);
}.
Record network := MkNetwork {
  nw_linux : bool;                           (* [runtime.GOOS] *)
  nw_interfaces : option (list NetInterface);
  nw_local : bytes → option bytes;           (* the local address of a socket to the target *)
  nw_speed : bytes → option bytes;           (* [/sys/class/net/<name>/speed] *)
}.
Record InterfaceIdentity := MkIdentity { id_MAC : bytes; id_IPv4 : list bytes }.
Record EgressLink := MkEgress { el_Interface : bytes; el_SpeedMbps : Z; el_LocalIP : bytes }.

(** [net.IP.Equal]. *)
Definition ip_equal (a b : bytes) : bool :=
  if zlen a =? zlen b then bool_decide (a = b)
  else bool_decide (is_Some (ip_to4 a) ∧ ip_to4 a = ip_to4 b).

Definition interfaceOwnsIPv4 (iface : NetInterface) (ip : bytes) : result error bool :=
  match nf_Addrs iface with
  | None => Err "read interface addresses"%stdpp
  | Some addrs => Ok (existsb (λ current, negb (bool_decide (current = [])) && ip_equal current ip) addrs)
  end.

(** The loops over the table: the first interface that has the address, and the
    first error if none has. *)
Fixpoint first_owner (ip : bytes) (usable : NetInterface → bool) (ifaces : list NetInterface) (readErr : bool)
    : option NetInterface * bool :=
  match ifaces with
  | [] => (None, readErr)
  | iface :: rest =>
      if usable iface then
        match interfaceOwnsIPv4 iface ip with
        | Ok true => (Some iface, readErr)
        | Ok false => first_owner ip usable rest readErr
        | Err _ => first_owner ip usable rest true
        end
      else first_owner ip usable rest readErr
  end.

(** [net.SplitHostPort]. *)
Definition split_host_port (s : bytes) : option (bytes * bytes) :=
  i ← last_index_byte x3a s;
  if has_prefix (B "[") s then
    e ← index_byte x5d s;
    if (e + 1 =? i)%nat && negb (bool_decide (x5b ∈ drop 1 s)) && negb (bool_decide (x5d ∈ drop (e + 1) s))
    then Some (take (e - 1) (drop 1 s), drop (i + 1) s) else None
  else if bool_decide (x3a ∈ take i s) || bool_decide (x5b ∈ s) || bool_decide (x5d ∈ s) then None
  else Some (take i s, drop (i + 1) s).

Section link.
Context `{AddressParser}.
Variable host : network.

Definition interface_by_name (name : bytes) : option NetInterface :=
  ifaces ← nw_interfaces host; find (λ i, bool_decide (nf_Name i = name)) ifaces.

Definition interfaceByIP (ip : bytes) : result error NetInterface :=
  match nw_interfaces host with
  | None => Err "list network interfaces"%stdpp
  | Some ifaces =>
      match first_owner ip nf_Up ifaces false with
      | (Some iface, _) => Ok iface
      | (None, true) => Err "inspect interfaces for local IP"%stdpp
      | (None, false) => Err "no interface owns local IP"%stdpp
      end
  end.

Definition interfaceSpeedMbps (name : bytes) : result error Z :=
  if contains (B "/") name then Err "invalid interface name"%stdpp
  else if negb (nw_linux host) then Err "interface speed auto-detect is not implemented"%stdpp
  else
    match nw_speed host name with
    | None => Err "read interface speed"%stdpp
    | Some data =>
        match atoi (trim_space data) with
        | None => Err "parse interface speed"%stdpp
        | Some speed => if speed <=? 0 then Err "interface reports unknown speed"%stdpp else Ok speed
        end
    end.

Definition targetAddress (target : bytes) : result error bytes :=
  let target := trim_space target in
  if decide (target = []) then Err "no target URL or address available"%stdpp
  else if negb (contains (B "://") target) then
    match split_host_port target with
    | Some (h, port) => Ok (join_host_port h port)
    | None => Ok (join_host_port target (B "9"))
    end
  else
    match url_parse ipv6_literal target with
    | None => Err "parse target URL"%stdpp
    | Some parsed =>
        let h := url_hostname parsed in
        if decide (h = []) then Err "target URL has no host"%stdpp
        else
          let port := url_port parsed in
          let port :=
            if negb (bool_decide (port = [])) then port
            else if decide (u_scheme parsed = B "https") then B "443" else B "80" in
          Ok (join_host_port h port)
    end.

Definition EgressLink_for (target : bytes) : result error EgressLink :=
  address ← wrap_err "resolve target address" (targetAddress target);
  match nw_local host address with
  | None => Err "dial route probe"%stdpp
  | Some local =>
      iface ← wrap_err "find interface for local IP" (interfaceByIP local);
      speed ← wrap_err "detect speed for interface" (interfaceSpeedMbps (nf_Name iface));
      Ok (MkEgress (nf_Name iface) speed local)
  end.

Definition InterfaceIdentity_of (name : bytes) : result error InterfaceIdentity :=
  let name := trim_space name in
  if bool_decide (name = []) || contains (B "/") name then Err "invalid interface name"%stdpp
  else
    match interface_by_name name with
    | None => Err "find interface"%stdpp
    | Some iface =>
        match nf_Addrs iface with
        | None => Err "read interface addresses"%stdpp
        | Some addrs => Ok (MkIdentity (nf_HardwareAddr iface) (omap ip_to4 addrs))
        end
    end.

Definition IPv4Assigned (iface ip : bytes) : result error bool :=
  match ip_to4 ip with
  | None => Err "IPv4 address is required"%stdpp
  | Some ip =>
      let iface := trim_space iface in
      if negb (bool_decide (iface = [])) then
        match interface_by_name iface with
        | None => Err "find interface"%stdpp
        | Some selected => interfaceOwnsIPv4 selected ip
        end
      else
        match nw_interfaces host with
        | None => Err "list network interfaces"%stdpp
        | Some ifaces =>
            match first_owner ip (λ _, true) ifaces false with
            | (Some _, _) => Ok true
            | (None, true) => Err "check IPv4 assignment"%stdpp
            | (None, false) => Ok false
            end
        end
  end.

(** What the checks of RuntimeConfig ask. *)
Definition host_addresses : AddressReader :=
  MkAddressReader
    (λ name, match InterfaceIdentity_of name with Ok i => Some (id_MAC i, id_IPv4 i) | Err _ => None end)
    (λ iface ip, match IPv4Assigned iface ip with Ok b => Some b | Err _ => None end).
End link.

(** ** Facts *)
Definition has_ipv4 (iface : NetInterface) (ip : bytes) : Prop :=
  ∃ addrs a, nf_Addrs iface = Some addrs ∧ a ∈ addrs ∧ ip_to4 a = Some ip.

Lemma ip_equal_four a ip : length ip = 4%nat → ip_equal a ip = true ↔ ip_to4 a = Some ip.
Proof.
  intros Hl. assert (ip_to4 ip = Some ip) as Hi by (unfold ip_to4, zlen; by rewrite Hl).
  unfold ip_equal. destruct (zlen a =? zlen ip) eqn:E; rewrite bool_decide_eq_true.
  - assert (ip_to4 a = Some a) as -> by (unfold ip_to4; unfold zlen in *; by rewrite (proj2 (Z.eqb_eq _ 4)) by lia).
    split; congruence.
  - rewrite Hi. split; [by intros [_ ?]|]. intros ->. by split; [eexists|].
Qed.

Lemma owns_true iface ip :
  length ip = 4%nat → interfaceOwnsIPv4 iface ip = Ok true ↔ has_ipv4 iface ip.
Proof.
  intros Hl. unfold interfaceOwnsIPv4, has_ipv4. destruct (nf_Addrs iface) as [addrs|]; [|naive_solver].
  assert (existsb (λ current, negb (bool_decide (current = [])) && ip_equal current ip) addrs = true ↔
          ∃ a, a ∈ addrs ∧ ip_to4 a = Some ip) as He.
  { rewrite existsb_exists. setoid_rewrite <- list_elem_of_In. setoid_rewrite andb_true_iff.
    setoid_rewrite (ip_equal_four _ ip Hl). split; [naive_solver|]. intros (a & Ha & Hi). exists a.
    split; [done|]. split; [|done]. destruct a; [|done]. done. }
  destruct (existsb _ addrs); naive_solver.
Qed.

Lemma first_owner_spec ip usable ifaces readErr :
  match first_owner ip usable ifaces readErr with
  | (Some iface, _) => iface ∈ ifaces ∧ usable iface = true ∧ interfaceOwnsIPv4 iface ip = Ok true
  | (None, failed) =>
      (∀ iface, iface ∈ ifaces → usable iface = true → interfaceOwnsIPv4 iface ip ≠ Ok true) ∧
      (failed = true ↔ readErr = true ∨ ∃ iface, iface ∈ ifaces ∧ usable iface = true ∧ nf_Addrs iface = None)
  end.
Proof.
  revert readErr. induction ifaces as [|i rest IH]; intros readErr; cbn [first_owner].
  { split; [by intros i []%not_elem_of_nil|]. split; [by left|]. intros [?|(i & []%not_elem_of_nil & _)]; done. }
  assert (∀ failed, (∀ iface, iface ∈ rest → usable iface = true → interfaceOwnsIPv4 iface ip ≠ Ok true) →
    (usable i = true → interfaceOwnsIPv4 i ip ≠ Ok true) →
    (failed = true ↔ (usable i = true ∧ nf_Addrs i = None ∨ readErr = true) ∨
       ∃ iface, iface ∈ rest ∧ usable iface = true ∧ nf_Addrs iface = None) →
    (∀ iface, iface ∈ i :: rest → usable iface = true → interfaceOwnsIPv4 iface ip ≠ Ok true) ∧
    (failed = true ↔ readErr = true ∨ ∃ iface, iface ∈ i :: rest ∧ usable iface = true ∧ nf_Addrs iface = None)) as Hcons.
  { intros failed H1 H2 H3. setoid_rewrite elem_of_cons. split; [naive_solver|]. rewrite H3. naive_solver. }
  destruct (usable i) eqn:Eu.
  - destruct (interfaceOwnsIPv4 i ip) as [[]|e] eqn:Eo; [by split; [left|]|..].
    + specialize (IH readErr). destruct (first_owner ip usable rest readErr) as [[j|] failed]; [by split; [right|]; apply IH|].
      apply Hcons; [apply IH|congruence|]. rewrite (proj2 IH).
      assert (nf_Addrs i ≠ None) by (intros E; unfold interfaceOwnsIPv4 in Eo; by rewrite E in Eo). naive_solver.
    + specialize (IH true). destruct (first_owner ip usable rest true) as [[j|] failed]; [by split; [right|]; apply IH|].
      apply Hcons; [apply IH|congruence|]. rewrite (proj2 IH).
      assert (nf_Addrs i = None) by (unfold interfaceOwnsIPv4 in Eo; by destruct (nf_Addrs i)). naive_solver.
  - specialize (IH readErr). destruct (first_owner ip usable rest readErr) as [[j|] failed]; [by split; [right|]; apply IH|].
    apply Hcons; [apply IH|done|]. rewrite (proj2 IH). naive_solver.
Qed.

Lemma interface_by_name_elem host name iface :
  interface_by_name host name = Some iface →
  nf_Name iface = name ∧ ∃ ifaces, nw_interfaces host = Some ifaces ∧ iface ∈ ifaces.
Proof.
  unfold interface_by_name. destruct (nw_interfaces host) as [ifaces|]; [|done]. cbn.
  intros [Hin Hn]%find_some. bool_to_prop. split; [done|]. exists ifaces. split; [done|].
  by apply list_elem_of_In.
Qed.

(** The address reader answers exactly what the interface table says.  An
    IPv4 address is assigned to an interface iff the interface can be read and
    has it, in either of its two forms; without a name, iff some readable
    interface has it, and that none has it is said only if all of them could be
    read; and the identity of an interface lists just the addresses that are
    assigned to it. *)
Theorem host_addresses_exact host ip v4 :
  ip_to4 ip = Some v4 →
  (∀ name, trim_space name ≠ [] →
     (ar_IPv4Assigned (host_addresses host) name ip = Some true ↔
      ∃ iface, interface_by_name host (trim_space name) = Some iface ∧ has_ipv4 iface v4) ∧
     (ar_IPv4Assigned (host_addresses host) name ip = None ↔
      ∀ iface, interface_by_name host (trim_space name) = Some iface → nf_Addrs iface = None) ∧
     (∀ mac ips, ar_InterfaceIdentity (host_addresses host) name = Some (mac, ips) →
        v4 ∈ ips ↔ ar_IPv4Assigned (host_addresses host) name ip = Some true)) ∧
  (ar_IPv4Assigned (host_addresses host) [] ip = Some true ↔
     ∃ ifaces iface, nw_interfaces host = Some ifaces ∧ iface ∈ ifaces ∧ has_ipv4 iface v4) ∧
  (ar_IPv4Assigned (host_addresses host) [] ip = Some false ↔
     ∃ ifaces, nw_interfaces host = Some ifaces ∧
       ∀ iface, iface ∈ ifaces → nf_Addrs iface ≠ None ∧ ¬ has_ipv4 iface v4).
Proof.
  intros Hv. pose proof (ip_to4_length _ _ Hv) as Hl. cbn [host_addresses ar_IPv4Assigned ar_InterfaceIdentity].
  unfold IPv4Assigned. rewrite Hv. split.
  - intros name Hn. rewrite (bool_decide_false (trim_space name = [])) by done. cbn [negb].
    destruct (interface_by_name host (trim_space name)) as [iface|] eqn:Ei.
    2: { split_and!; [naive_solver..|]. intros mac ips. unfold InterfaceIdentity_of. rewrite Ei. by destruct (_ || _). }
    assert (match interfaceOwnsIPv4 iface v4 with Ok b => Some b | Err _ => None end = Some true ↔ has_ipv4 iface v4) as Ho.
    { rewrite <- (owns_true iface v4 Hl). destruct (interfaceOwnsIPv4 iface v4); naive_solver. }
    split_and!; [rewrite Ho; naive_solver| |].
    + unfold interfaceOwnsIPv4. destruct (nf_Addrs iface) as [addrs|] eqn:Ea; [|naive_solver].
      split; [done|]. intros He. specialize (He _ eq_refl). congruence.
    + intros mac ips. unfold InterfaceIdentity_of. rewrite Ei. destruct (_ || _); [done|]. rewrite Ho.
      unfold has_ipv4. destruct (nf_Addrs iface) as [addrs|]; [|done]. intros [= _ <-].
      cbn [id_IPv4]. rewrite list_elem_of_omap. naive_solver.
  - cbn [trim_space]. change (trim_space []) with (@nil byte). rewrite bool_decide_true by done. cbn [negb].
    destruct (nw_interfaces host) as [ifaces|]; [|naive_solver].
    pose proof (first_owner_spec v4 (λ _, true) ifaces false) as Hs.
    destruct (first_owner v4 (λ _, true) ifaces false) as [[iface|] failed].
    + destruct Hs as (Hin & _ & Ho). apply owns_true in Ho; [|done]. split; [naive_solver|].
      split; [done|]. intros (? & [= <-] & Hall). by destruct (Hall iface Hin).
    + destruct Hs as [Hnone Hf]. assert (∀ iface, iface ∈ ifaces → ¬ has_ipv4 iface v4) as Hno.
      { intros iface Hin. rewrite <- (owns_true iface v4 Hl). by apply Hnone. }
      destruct failed; (split; [naive_solver|]).
      * split; [done|]. intros (? & [= <-] & Hall). destruct (proj1 Hf eq_refl) as [?|(iface & Hin & _ & He)]; [done|].
        by destruct (Hall iface Hin).
      * split; [|done]. intros _. exists ifaces. split; [done|]. intros iface Hin. split; [|by apply Hno].
        intros He. assert (false = true) as [=]. apply Hf. right. by exists iface.
Qed.

(** The link of a route is an interface that is up and has the local address of
    the route, with the positive speed it reports. *)
Lemma EgressLink_usable `{AddressParser} host target link :
  EgressLink_for host target = Ok link →
  ∃ address ifaces iface,
    targetAddress target = Ok address ∧ nw_local host address = Some (el_LocalIP link) ∧
    nw_interfaces host = Some ifaces ∧ iface ∈ ifaces ∧ nf_Up iface = true ∧ nf_Name iface = el_Interface link ∧
    interfaceOwnsIPv4 iface (el_LocalIP link) = Ok true ∧ 0 < el_SpeedMbps link ∧
    ∃ data, nw_speed host (el_Interface link) = Some data ∧ atoi (trim_space data) = Some (el_SpeedMbps link).
Proof.
  unfold EgressLink_for. destruct (targetAddress target) as [address|]; cbn [wrap_err mbind result_bind]; [|done].
  destruct (nw_local host address) as [local|] eqn:El; [|done].
  destruct (interfaceByIP host local) as [iface|] eqn:Ei; cbn [wrap_err mbind result_bind]; [|done].
  destruct (interfaceSpeedMbps host (nf_Name iface)) as [speed|] eqn:Es; cbn [wrap_err mbind result_bind]; [|done].
  intros [= <-]. cbn [el_Interface el_SpeedMbps el_LocalIP].
  unfold interfaceByIP in Ei. destruct (nw_interfaces host) as [ifaces|]; [|done].
  pose proof (first_owner_spec local nf_Up ifaces false) as Hs.
  destruct (first_owner local nf_Up ifaces false) as [[i|] []]; try done; injection Ei as ->.
  all: destruct Hs as (Hin & Hu & Ho); exists address, ifaces, iface; split_and!; try done.
  all: unfold interfaceSpeedMbps in Es; destruct (contains _ _); [done|]; destruct (negb _); [done|].
  all: destruct (nw_speed host (nf_Name iface)) as [data|]; [|done];
    destruct (atoi (trim_space data)) as [v|] eqn:Ea; [|done]; destruct (v <=? 0) eqn:Ev; [done|];
    injection Es as <-; [lia || by exists data..].
Qed.

(** Splitting what was joined. *)
Example split_joined :
  split_host_port (join_host_port (B "2001:db8::1") (B "9")) = Some (B "2001:db8::1", B "9") ∧
  split_host_port (join_host_port (B "controller") (B "8080")) = Some (B "controller", B "8080") ∧
  split_host_port (B "a:b:c") = None ∧ split_host_port (B "[::1]") = None ∧ split_host_port (B "[::1]x:9") = None.
Proof. vm_compute. done. Qed.

(** ** Witness *)
#[local] Existing Instance no_ipv6.
Definition sample_network : network :=
  MkNetwork true
    (Some [MkInterface (B "lo") true [] (Some [[x7f; x00; x00; x01]]);
           MkInterface (B "eth0") true [x02; x00; x00; x00; x00; x01]
             (Some [repeat x00 10 ++ [xff; xff; xc0; x00; x02; x07]; repeat x01 16])])
    (λ _, Some [xc0; x00; x02; x07]) (λ _, Some (B "2500" ++ [x0a])).
Definition sample_ip : bytes := [xc0; x00; x02; x07].

Example sample_egress :
  map (EgressLink_for sample_network) [B "http://controller:8080/inform"; B "controller"; B " "] =
  [Ok (MkEgress (B "eth0") 2500 sample_ip); Ok (MkEgress (B "eth0") 2500 sample_ip);
   Err "resolve target address: no target URL or address available"%stdpp]
  ∧ targetAddress (B "https://c/inform") = Ok (B "c:443") ∧ targetAddress (B "2001:db8::1") = Ok (B "[2001:db8::1]:9").
Proof. vm_compute. done. Qed.

Lemma host_addresses_exact_witness :
  ip_to4 sample_ip = Some sample_ip ∧
  ar_IPv4Assigned (host_addresses sample_network) (B " eth0") sample_ip = Some true ∧
  (∃ ifaces iface, nw_interfaces sample_network = Some ifaces ∧ iface ∈ ifaces ∧ has_ipv4 iface sample_ip) ∧
  ∃ mac ips, ar_InterfaceIdentity (host_addresses sample_network) (B "eth0") = Some (mac, ips) ∧ sample_ip ∈ ips.
Proof.
  assert (ip_to4 sample_ip = Some sample_ip) as Hip by reflexivity. split; [exact Hip|].
  destruct (host_addresses_exact sample_network sample_ip sample_ip Hip) as (Hname & Hany & _).
  split; [vm_compute; reflexivity|]. split; [apply Hany; vm_compute; reflexivity|].
  assert (trim_space (B "eth0") ≠ []) as Hn by (vm_compute; discriminate).
  destruct (Hname (B "eth0") Hn) as (_ & _ & Hid).
  do 2 eexists. split; [vm_compute; reflexivity|]. eapply Hid; vm_compute; reflexivity.
Defined.
