(* ===== verification/Opnsense.v ===== *)
(** The OPNsense companion: [mapper.go], [config.go] and [render.go] of
    [src/internal/opnsense].

    It reads the interface and gateway tables of a firewall as loosely typed
    JSON, in the shapes several versions answer with, and turns them into port
    overrides under the operator's own.  The order of a [range] over a map is a
    parameter; YAML is the library's. *)
From stdpp Require Import gmap sorting.
From S2P Require Import Prelude GoStrings GoFloat GoMap GoNet GoIP GoAny Lldp Overrides Ports Topology Settings RuntimeConfig.

Record InterfaceStatus := MkStatus {
  is_Interface : bytes; is_Name : bytes; is_MAC : bytes; is_IP : bytes; is_Netmask : bytes;
  is_IPv6 : list bytes; is_Up : option bool; is_SpeedMbps : Z; is_Media : bytes;
}.
Definition no_status (iface : bytes) : InterfaceStatus := MkStatus iface [] [] [] [] [] None 0 [].
Record GatewayStatus := MkGatewayStatus {
  gs_Interface : bytes; gs_Name : bytes; gs_Online : option bool; gs_LatencyMS : Z;
}.
Record InterfaceMapping := MkMapping {
  mp_Port : Z; mp_Interface : bytes; mp_Name : bytes; mp_Role : bytes; mp_NetworkGroup : bytes;
  mp_PortConfID : bytes; mp_NetworkConfID : bytes; mp_NativeNetworkConfID : bytes; mp_NetworkName : bytes;
  mp_VLAN : Z; mp_Speed : Z; mp_Media : bytes;
}.
Record SourceConfig := MkSource {
  sc_BaseURL : bytes; sc_APIKeyFile : bytes; sc_APISecretFile : bytes; sc_APIKeyEnv : bytes;
  sc_APISecretEnv : bytes; sc_CAFile : bytes; sc_InsecureSkipVerify : bool; sc_TimeoutMS : Z;
  sc_UplinkPort : Z; sc_GatewayStatus : bool; sc_Interfaces : list InterfaceMapping; sc_WANHealth : WANHealthConfig;
}.

(** ** Reading text, numbers and addresses *)
Definition firstNumber (value : bytes) : Z :=
  default 0
    (first_some (λ field, match atoi field with Some n => if 0 <? n then Some n else None | None => None end)
       (fields_func (λ b, negb (is_digit b)) value)).

Section scalars.
Context `{UnicodeTables} `{FloatConversion}.

Definition string_text (value : any) : option bytes :=
  match value with
  | AString s => let trimmed := trim_space s in if decide (trimmed = []) then None else Some trimmed
  | ANumber f => Some (itoa (int64_of_float f))
  | ABool b => Some (if b then B "true" else B "false")
  | _ => None
  end.
Definition firstString (m : gmap bytes any) (keys : list bytes) : bytes :=
  default [] (first_some (λ key, m !! key ≫= string_text) keys).

Definition int_value (value : any) : option Z :=
  match value with
  | ANumber f => Some (int64_of_float f)
  | AString s => let number := firstNumber s in if 0 <? number then Some number else None
  | _ => None
  end.
Definition firstInt (m : gmap bytes any) (keys : list bytes) : Z :=
  default 0 (first_some (λ key, m !! key ≫= int_value) keys).

Definition firstAddress (m : gmap bytes any) (keys : list bytes) : bytes :=
  default []
    (first_some (λ key,
       let value := firstString m [key] in
       if decide (value = []) then None
       else if contains (B ",") value then Some (trim_space (default [] (head (split_byte x2c value))))
       else Some value) keys).

(** [net.CIDRMask(prefix, 32)] as an address. *)
Definition prefixToNetmask (prefix : Z) : bytes :=
  if (prefix <? 0) || (32 <? prefix) then []
  else ipv4_string (be32 (Z.shiftl (Z.ones prefix) (32 - prefix))).
Definition trim_set (cut : list byte) (s : bytes) : bytes :=
  let left := fix go (s : bytes) := match s with b :: r => if decide (b ∈ cut) then go r else s | [] => [] end in
  rev (left (rev (left s))).
Definition firstNetmask (m : gmap bytes any) (keys : list bytes) : bytes :=
  default []
    (first_some (λ key,
       let value := firstString m [key] in
       if decide (value = []) then None
       else if contains (B ".") value then Some value
       else prefixToNetmask <$> atoi (trim_set [x2f; x20] value)) keys).

Definition appendIPv6 (out : list bytes) (value : bytes) : list bytes :=
  let value := trim_space value in
  if bool_decide (value = []) || has_prefix (B "fe80:") (to_lower value) then out
  else if contains (B ":") value then out ++ [value] else out.
Definition ipv6_texts (value : any) : list bytes :=
  match value with
  | AList l => omap (λ item, match item with AString s => Some s | _ => None end) l
  | AString s => split_byte x2c s
  | _ => []
  end.
Definition firstIPv6 (m : gmap bytes any) (keys : list bytes) : list bytes :=
  fold_left appendIPv6 (keys ≫= λ key, match m !! key with Some v => ipv6_texts v | None => [] end) [].

Definition parseUp (value : bytes) : option bool :=
  let value := to_lower (trim_space value) in
  if decide (value = []) then None
  else if decide (value ∈ [B "1"; B "true"; B "up"; B "active"; B "online"; B "ok"; B "connected"]) then Some true
  else if decide (value ∈ [B "0"; B "false"; B "down"; B "inactive"; B "offline"; B "no carrier"; B "disconnected"])
  then Some false
  else if contains (B "active") value || contains (B "up") value then Some true
  else if contains (B "down") value || contains (B "offline") value then Some false
  else None.

Definition normalizeMAC (value : bytes) : bytes :=
  match parse_mac (trim_space value) with
  | Some mac => to_lower (mac_string mac)
  | None => to_lower (trim_space value)
  end.

Definition mediaFor (value : bytes) (speed : Z) : bytes :=
  let value := trim_space value in
  let lower := to_lower value in
  let has sub := contains sub lower in
  if has (B "sfp28") || has (B "25gbase") then B "SFP28"
  else if has (B "sfp+") || has (B "10gbase-sr") || has (B "10gbase-lr") || has (B "10gbase-cr") then B "SFP+"
  else if 25000 <=? speed then B "SFP28"
  else if (10000 <=? speed) && has (B "sfp") then B "SFP+"
  else if 0 <? speed then B "GE"
  else value.

Definition speedFromText (value : bytes) : Z :=
  let lower := to_lower value in
  let has sub := contains sub lower in
  if has (B "25g") then 25000
  else if has (B "10g") then 10000
  else if has (B "5g") then 5000
  else if has (B "2.5g") || has (B "2500base") then 2500
  else if has (B "1000base") || has (B "1g") then 1000
  else if has (B "100base") then 100
  else if has (B "10base") then 10
  else firstNumber value.

(** [net.ParseCIDR] gives an IPv4 network of so many bits; the prefix is a
    decimal below 2^24. *)
Definition cidr_bits (value : bytes) : option Z :=
  match cut_byte x2f value with
  | Some (addr, mask) =>
      if negb (bool_decide (is_Some (parse_ipv4 addr))) then None
      else if bool_decide (mask = []) || negb (forallb is_digit mask) then None
      else let n := digits_val mask in if 32 <? n then None else Some n
  | None => None
  end.
Definition netmaskFromAddress (value : bytes) : bytes :=
  match cidr_bits value with Some ones => prefixToNetmask ones | None => [] end.
Definition trimCIDR (value : bytes) : bytes :=
  if contains (B "/") value then default [] (head (split_byte x2f value)) else value.
Definition isWANRole (role : bytes) : bool := bool_decide (to_lower (trim_space role) ∈ [B "wan"; B "wan2"]).
End scalars.

(** ** Decoding the tables *)
Section decode.
Context `{UnicodeTables} `{FloatConversion} `{MapOrder}.

Definition looksLikeInterface (m : gmap bytes any) : bool :=
  existsb (λ key, bool_decide (is_Some (m !! key)))
    [B "interface"; B "if"; B "ifname"; B "device"; B "mac"; B "macaddr"; B "ipaddr"; B "ipv4"; B "addr4"].
Definition is_object (value : any) : bool := match value with AObject _ => true | _ => false end.
(** A row of a list, under its name or its index. *)
Definition add_row (out : gmap bytes any) (row : nat * any) : gmap bytes any :=
  match row.2 with
  | AObject l =>
      let name := firstString (members l) [B "interface"; B "if"; B "ifname"; B "device"; B "name"] in
      <[if decide (name = []) then itoa (Z.of_nat row.1) else name := row.2]> out
  | _ => out
  end.
Fixpoint interfaceObjects (raw : any) : gmap bytes any :=
  match raw with
  | AObject l =>
      let nested := list_to_map (M := gmap bytes (gmap bytes any)) (rev (map (λ p, (p.1, interfaceObjects p.2)) l)) in
      match first_some (λ key, objects ← nested !! key; if (0 <? size objects)%nat then Some objects else None)
              [B "interfaces"; B "rows"; B "items"; B "data"; B "response"; B "message"; B "result"] with
      | Some objects => objects
      | None =>
          if looksLikeInterface (members l) then {[ [] := raw ]}
          else filter (λ p, is_object p.2 = true) (members l)
      end
  | AList l => fold_left add_row (imap pair l) ∅
  | _ => ∅
  end.

Definition decodeInterfaceObject (key : bytes) (raw : any) : InterfaceStatus :=
  match as_object raw with
  | None => no_status []
  | Some m =>
      let iface := firstString m [B "interface"; B "if"; B "ifname"; B "device"; B "identifier"; B "name"] in
      let ip := firstAddress m [B "ip"; B "ipaddr"; B "ipv4"; B "addr4"; B "address"] in
      let netmask := firstNetmask m [B "netmask"; B "subnet"; B "subnet_bits"; B "prefix"; B "cidr"] in
      let speed := firstInt m [B "speed"; B "speed_mbps"; B "media_speed"] in
      let speed :=
        if speed <=? 0 then speedFromText (firstString m [B "media"; B "media_type"; B "status"]) else speed in
      {| is_Interface := if decide (iface = []) then trim_space key else iface;
         is_Name := firstString m [B "descr"; B "description"; B "label"; B "name"];
         is_MAC := normalizeMAC (firstString m [B "mac"; B "macaddr"; B "mac_address"; B "hwaddr"]);
         is_IP := if decide (netmask = []) then trimCIDR ip else ip;
         is_Netmask := if decide (netmask = []) then netmaskFromAddress ip else netmask;
         is_IPv6 := firstIPv6 m [B "ipv6"; B "ipaddrv6"; B "addr6"; B "addresses6"];
         is_Up := parseUp (firstString m [B "status"; B "link_state"; B "up"; B "enabled"; B "enable"; B "carrier"]);
         is_SpeedMbps := speed;
         is_Media := mediaFor (firstString m [B "media"; B "media_type"]) speed |}
  end.

Definition addInterfaceStatus (out : gmap bytes InterfaceStatus) (status : InterfaceStatus) : gmap bytes InterfaceStatus :=
  if decide (is_Interface status = []) then out
  else
    let out := <[to_lower (is_Interface status) := status]> out in
    if decide (is_Name status = []) then out else <[to_lower (is_Name status) := status]> out.
Definition DecodeInterfaces (raw : any) : gmap bytes InterfaceStatus :=
  fold_left (λ out p, addInterfaceStatus out (decodeInterfaceObject p.1 p.2)) (range (interfaceObjects raw)) ∅.
Definition DecodeInterface (raw : any) (requested : bytes) : InterfaceStatus :=
  match range (interfaceObjects raw) with
  | [] => no_status (trim_space requested)
  | p :: _ =>
      let status := decodeInterfaceObject p.1 p.2 in
      if decide (is_Interface status = []) then
        MkStatus (trim_space requested) (is_Name status) (is_MAC status) (is_IP status) (is_Netmask status)
          (is_IPv6 status) (is_Up status) (is_SpeedMbps status) (is_Media status)
      else status
  end.

Definition decodeGatewayObject (key : bytes) (m : gmap bytes any) : GatewayStatus :=
  let iface := firstString m [B "interface"; B "if"; B "ifname"; B "device"; B "name"] in
  {| gs_Interface := if decide (iface = []) then trim_space key else iface;
     gs_Name := firstString m [B "name"; B "descr"; B "description"; B "gateway"];
     gs_Online := parseUp (firstString m [B "status"; B "monitor"; B "online"; B "up"; B "gateway_status"]);
     gs_LatencyMS := firstInt m [B "latency"; B "latency_ms"; B "delay"; B "rtt"; B "avgdelay"] |}.
Definition addGatewayStatus (out : gmap bytes GatewayStatus) (status : GatewayStatus) : gmap bytes GatewayStatus :=
  let out := if decide (gs_Interface status = []) then out else <[to_lower (gs_Interface status) := status]> out in
  if decide (gs_Name status = []) then out else <[to_lower (gs_Name status) := status]> out.
Definition DecodeGatewayStatuses (raw : any) : gmap bytes GatewayStatus :=
  fold_left (λ out p,
    match as_object p.2 with Some m => addGatewayStatus out (decodeGatewayObject p.1 m) | None => out end)
    (range (interfaceObjects raw)) ∅.

(** The entry of the name, or the first whose interface or name is the same
    text in another case. *)
Definition lookup_status {A} (interface name : A → bytes) (values : gmap bytes A) (key : bytes) : option A :=
  let key := to_lower (trim_space key) in
  if decide (key = []) then None
  else
    match values !! key with
    | Some value => Some value
    | None =>
        first_some (λ p, if equal_fold (interface p.2) key || equal_fold (name p.2) key then Some p.2 else None)
          (range values)
    end.
Definition lookupInterfaceStatus (values : gmap bytes InterfaceStatus) (name : bytes) : InterfaceStatus :=
  default (no_status (to_lower (trim_space name))) (lookup_status is_Interface is_Name values name).
Definition lookupGatewayStatus (values : gmap bytes GatewayStatus) (name : bytes) : option GatewayStatus :=
  lookup_status gs_Interface gs_Name values name.

(** ** Overrides *)
Definition or_else (value fallback : bytes) : bytes := if decide (value = []) then fallback else value.
Definition overrideFromMapping (m : InterfaceMapping) (status : InterfaceStatus) : PortOverride := {|
  po_Port := mp_Port m;
  po_Text := {|
    ot_Name := mp_Name m; ot_Interface := or_else (mp_Interface m) (is_Interface status); ot_MAC := is_MAC status;
    ot_IP := is_IP status; ot_Netmask := is_Netmask status; ot_Role := mp_Role m; ot_NetworkGroup := mp_NetworkGroup m;
    ot_Media := or_else (mp_Media m) (is_Media status); ot_PortConfID := mp_PortConfID m;
    ot_NetworkConfID := mp_NetworkConfID m; ot_NativeNetworkConfID := mp_NativeNetworkConfID m;
    ot_NetworkName := mp_NetworkName m |};
  po_IPv6 := is_IPv6 status; po_VLAN := mp_VLAN m; po_WANUptimePercent := None; po_WANLatencyMS := 0;
  po_WANDowntimeSeconds := 0; po_WANConnected := None;
  po_Speed := if mp_Speed m <=? 0 then is_SpeedMbps status else mp_Speed m;
  po_Up := is_Up status; po_Disabled := false; po_Counters := no_counters; po_CountersSet := false;
  po_RXBytesRate := 0; po_TXBytesRate := 0; po_TrafficRatesSet := false |}.
Definition set_wan (connected : option bool) (latency : Z) (uptime : option float64) (o : PortOverride) : PortOverride := {|
  po_Port := po_Port o; po_Text := po_Text o; po_IPv6 := po_IPv6 o; po_VLAN := po_VLAN o;
  po_WANUptimePercent := uptime; po_WANLatencyMS := latency; po_WANDowntimeSeconds := po_WANDowntimeSeconds o;
  po_WANConnected := connected; po_Speed := po_Speed o; po_Up := po_Up o; po_Disabled := po_Disabled o;
  po_Counters := po_Counters o; po_CountersSet := po_CountersSet o; po_RXBytesRate := po_RXBytesRate o;
  po_TXBytesRate := po_TXBytesRate o; po_TrafficRatesSet := po_TrafficRatesSet o |}.
Definition applyGatewayStatus (o : PortOverride) (status : GatewayStatus) : PortOverride :=
  if negb (isWANRole (ot_Role (po_Text o))) then o
  else
    set_wan
      (match po_WANConnected o with None => gs_Online status | c => c end)
      (if po_WANLatencyMS o =? 0 then gs_LatencyMS status else po_WANLatencyMS o)
      (match po_WANUptimePercent o, gs_Online status with
       | None, Some online => Some (if online : bool then float_of_int 100 else float_of_int 0)
       | u, _ => u
       end) o.
Definition mapping_override (interfaces : gmap bytes InterfaceStatus) (gateways : gmap bytes GatewayStatus)
    (m : InterfaceMapping) : PortOverride :=
  let o := overrideFromMapping m (lookupInterfaceStatus interfaces (mp_Interface m)) in
  match lookupGatewayStatus gateways (mp_Interface m) with
  | Some gateway => applyGatewayStatus o gateway
  | None => o
  end.
Definition OverridesFromState (mappings : list InterfaceMapping) (interfaces : gmap bytes InterfaceStatus)
    (gateways : gmap bytes GatewayStatus) : list PortOverride :=
  map (mapping_override interfaces gateways) mappings.

(** What the source sets replaces what the target has. *)
Definition overlayOverride (target source : PortOverride) : PortOverride :=
  let positive (s t : Z) := if 0 <? s then s else t in
  {| po_Port := po_Port target;
     po_Text := text_of (λ key, or_else (text_get key (po_Text source)) (text_get key (po_Text target)));
     po_IPv6 := if 0 <? zlen (po_IPv6 source) then po_IPv6 source else po_IPv6 target;
     po_VLAN := positive (po_VLAN source) (po_VLAN target);
     po_WANUptimePercent := match po_WANUptimePercent source with None => po_WANUptimePercent target | u => u end;
     po_WANLatencyMS := positive (po_WANLatencyMS source) (po_WANLatencyMS target);
     po_WANDowntimeSeconds := positive (po_WANDowntimeSeconds source) (po_WANDowntimeSeconds target);
     po_WANConnected := match po_WANConnected source with None => po_WANConnected target | c => c end;
     po_Speed := positive (po_Speed source) (po_Speed target);
     po_Up := match po_Up source with None => po_Up target | u => u end;
     po_Disabled := po_Disabled target; po_Counters := po_Counters target; po_CountersSet := po_CountersSet target;
     po_RXBytesRate := po_RXBytesRate target; po_TXBytesRate := po_TXBytesRate target;
     po_TrafficRatesSet := po_TrafficRatesSet target |}.
Definition merge_generated (merged : gmap Z PortOverride) (o : PortOverride) : gmap Z PortOverride :=
  if po_Port o <? 1 then merged else <[po_Port o := o]> merged.
Definition merge_base (merged : gmap Z PortOverride) (o : PortOverride) : gmap Z PortOverride :=
  if po_Port o <? 1 then merged
  else <[po_Port o := overlayOverride (default (no_override (po_Port o)) (merged !! po_Port o)) o]> merged.
Definition MergeOverrides (generated base : list PortOverride) : list PortOverride :=
  let merged := fold_left merge_base base (fold_left merge_generated generated ∅) in
  omap (λ port, merged !! port) (merge_sort Z.le (map_to_list merged).*1).
End decode.

(** ** config.go *)
Class OpnsenseYaml := {
  yaml_source : bytes → SourceConfig → result error SourceConfig;   (* into the record with the defaults *)
  yaml_marshal_config : Config → option bytes;
}.
Definition defaultTimeoutMS : Z := 2000.
Definition empty_source : SourceConfig :=
  MkSource [] [] [] [] [] [] false defaultTimeoutMS 0 false [] (MkWANHealthConfig [] 0 0 []).

Section config.
Context `{UnicodeTables} `{OpnsenseYaml}.

Definition normalize_mapping (m : InterfaceMapping) : InterfaceMapping :=
  MkMapping (mp_Port m) (trim_space (mp_Interface m)) (trim_space (mp_Name m)) (to_lower (trim_space (mp_Role m)))
    (trim_space (mp_NetworkGroup m)) (trim_space (mp_PortConfID m)) (trim_space (mp_NetworkConfID m))
    (trim_space (mp_NativeNetworkConfID m)) (trim_space (mp_NetworkName m)) (mp_VLAN m) (mp_Speed m)
    (trim_space (mp_Media m)).
Definition normalizeSourceConfig (c : SourceConfig) : SourceConfig :=
  MkSource (trim_space (sc_BaseURL c)) (trim_space (sc_APIKeyFile c)) (trim_space (sc_APISecretFile c))
    (trim_space (sc_APIKeyEnv c)) (trim_space (sc_APISecretEnv c)) (trim_space (sc_CAFile c))
    (sc_InsecureSkipVerify c) (sc_TimeoutMS c) (sc_UplinkPort c) (sc_GatewayStatus c)
    (map normalize_mapping (sc_Interfaces c)) (sc_WANHealth c).
Fixpoint check_mappings (mappings : list InterfaceMapping) (seenPorts : gset Z) : result error unit :=
  match mappings with
  | [] => Ok tt
  | m :: rest =>
      if mp_Port m <? 1 then Err "opnsense interface mapping has invalid port"%stdpp
      else if decide (mp_Port m ∈ seenPorts) then Err "opnsense interface mapping has duplicate port"%stdpp
      else if decide (trim_space (mp_Interface m) = []) then Err "opnsense interface mapping requires interface"%stdpp
      else if contains (B "/") (mp_Interface m) then Err "opnsense interface mapping has invalid interface"%stdpp
      else check_mappings rest ({[mp_Port m]} ∪ seenPorts)
  end.
Definition ValidateSourceConfig (c : SourceConfig) : result error unit :=
  if decide (trim_space (sc_BaseURL c) = []) then Err "opnsense base_url is required"%stdpp
  else if sc_TimeoutMS c <=? 0 then Err "opnsense timeout_ms must be positive"%stdpp
  else if decide (sc_Interfaces c = []) then Err "opnsense interfaces must contain at least one mapping"%stdpp
  else check_mappings (sc_Interfaces c) ∅.
Definition DecodeSourceConfig (data : bytes) : result error SourceConfig :=
  c ← wrap_err "decode OPNsense source YAML" (yaml_source data empty_source);
  let c := normalizeSourceConfig c in
  _ ← ValidateSourceConfig c; Ok c.
Definition LoadSourceConfig (read : bytes → read_result) (path : bytes) : result error SourceConfig :=
  match read path with
  | FileRead data => wrap_err "parse OPNsense source config" (DecodeSourceConfig data)
  | _ => Err "read OPNsense source config"%stdpp
  end.
(** In nanoseconds. *)
Definition Timeout (c : SourceConfig) : Z :=
  wrap64 ((if sc_TimeoutMS c <=? 0 then defaultTimeoutMS else sc_TimeoutMS c) * 1000000).

(** ** render.go *)
Definition with_generated (overrides : list PortOverride) (uplinkPort : Z) (wanHealth : WANHealthConfig) (c : Config) : Config := {|
  cfg_OperationMode := cfg_OperationMode c; cfg_ControllerURL := cfg_ControllerURL c; cfg_Profile := cfg_Profile c;
  cfg_ProfileFile := cfg_ProfileFile c; cfg_ProfileDir := cfg_ProfileDir c; cfg_MAC := cfg_MAC c; cfg_IP := cfg_IP c;
  cfg_Hostname := cfg_Hostname c; cfg_Model := cfg_Model c; cfg_ModelDisplay := cfg_ModelDisplay c;
  cfg_Ports := cfg_Ports c; cfg_LinkSpeed := cfg_LinkSpeed c; cfg_UplinkSpeed := cfg_UplinkSpeed c;
  cfg_UplinkPort := uplinkPort; cfg_UplinkNeighbor := cfg_UplinkNeighbor c; cfg_PortNeighbors := cfg_PortNeighbors c;
  cfg_PortOverrides := overrides; cfg_WANHealth := wanHealth; cfg_BridgeObserve := cfg_BridgeObserve c;
  cfg_PortMappings := cfg_PortMappings c; cfg_ObserveInterface := cfg_ObserveInterface c;
  cfg_ObserveBridge := cfg_ObserveBridge c; cfg_LLDPSource := cfg_LLDPSource c;
  cfg_TrafficRatesEnabled := cfg_TrafficRatesEnabled c; cfg_ProcSource := cfg_ProcSource c;
  cfg_InstanceGuard := cfg_InstanceGuard c; cfg_InstanceGuardPath := cfg_InstanceGuardPath c;
  cfg_Version := cfg_Version c; cfg_IntervalSeconds := cfg_IntervalSeconds c;
  cfg_ControllerIntervalMinSeconds := cfg_ControllerIntervalMinSeconds c;
  cfg_ControllerIntervalMaxSeconds := cfg_ControllerIntervalMaxSeconds c;
  cfg_InformBackoffMaxSeconds := cfg_InformBackoffMaxSeconds c;
  cfg_InformBackoffJitterPercent := cfg_InformBackoffJitterPercent c; cfg_NoDiscovery := cfg_NoDiscovery c;
  cfg_DiscoveryInterface := cfg_DiscoveryInterface c; cfg_DiscoveryTargets := cfg_DiscoveryTargets c;
  cfg_ManagementLAN := cfg_ManagementLAN c; cfg_SSHListen := cfg_SSHListen c; cfg_SSHUser := cfg_SSHUser c;
  cfg_SSHPassword := cfg_SSHPassword c; cfg_SSHHostKeyPath := cfg_SSHHostKeyPath c;
  cfg_StatePath := cfg_StatePath c; cfg_StatusPath := cfg_StatusPath c |}.
Definition GenerateConfig `{FloatConversion} `{MapOrder} (base : Config) (source : SourceConfig)
    (interfaces : gmap bytes InterfaceStatus) (gateways : gmap bytes GatewayStatus) : Config :=
  let generated := OverridesFromState (sc_Interfaces source) interfaces gateways in
  with_generated (MergeOverrides generated (cfg_PortOverrides base))
    (if (0 <? sc_UplinkPort source) && (cfg_UplinkPort base =? 0) then sc_UplinkPort source else cfg_UplinkPort base)
    (if decide (wc_Source (sc_WANHealth source) = []) then cfg_WANHealth base else sc_WANHealth source) base.
Definition MarshalConfig (c : Config) : result error bytes :=
  match yaml_marshal_config c with Some data => Ok data | None => Err "marshal generated unifi-stubd config"%stdpp end.
End config.

(** ** Merging *)
(** The last value that is set. *)
Definition last_set {A} (is_set : A → bool) (l : list A) : option A := last (filter (λ a, is_set a = true) l).
Definition on_port (p : Z) (l : list PortOverride) : list PortOverride := filter (λ o, po_Port o = p) l.
Definition solid (b : bytes) : bool := negb (bool_decide (b = [])).
Definition positive (z : Z) : bool := 0 <? z.
Definition given {A} (o : option A) : bool := match o with Some _ => true | None => false end.
(** [f] of an override that generated [o] and the base overrides of its port
    give: the last one the operator set, else the generated one. *)
Definition overlaid {A} (is_set : A → bool) (f : PortOverride → A) (o : PortOverride) (base : list PortOverride) : A :=
  default (f o) (last_set is_set (f <$> base)).

Lemma last_set_app {A} (is_set : A → bool) l a :
  last_set is_set (l ++ [a]) = if is_set a then Some a else last_set is_set l.
Proof.
  unfold last_set. rewrite filter_app. destruct (is_set a) eqn:E.
  - rewrite filter_cons_True, filter_nil by done. by rewrite last_snoc.
  - rewrite filter_cons_False, filter_nil by (by rewrite E). by rewrite app_nil_r.
Qed.

(** A field that the overlay replaces if it is set. *)
Lemma overlay_fold {A} (is_set : A → bool) (f : PortOverride → A) base o :
  (∀ t s, f (overlayOverride t s) = if is_set (f s) then f s else f t) →
  f (fold_left overlayOverride base o) = overlaid is_set f o base.
Proof.
  intros Hf. induction base as [|s base IH] using rev_ind; [done|].
  rewrite fold_left_app. cbn [fold_left]. rewrite Hf, IH. unfold overlaid.
  rewrite fmap_app. cbn. rewrite last_set_app. by destruct (is_set (f s)).
Qed.

Lemma fold_overlay_port base o : po_Port (fold_left overlayOverride base o) = po_Port o.
Proof. revert o. induction base as [|s base IH]; intros o; [done|]. cbn. by rewrite IH. Qed.

Lemma on_port_cons p o l : on_port p (o :: l) = if decide (po_Port o = p) then o :: on_port p l else on_port p l.
Proof. unfold on_port. by rewrite filter_cons. Qed.

Lemma on_port_empty p l : on_port p l = [] ↔ ∀ o, o ∈ l → po_Port o ≠ p.
Proof.
  split.
  - intros E o Ho Hp. assert (o ∈ on_port p l) as Hin by by apply list_elem_of_filter.
    rewrite E in Hin. by apply not_elem_of_nil in Hin.
  - intros Hn. destruct (on_port p l) as [|o rest] eqn:E; [done|exfalso].
    assert (o ∈ on_port p l) as [Hp Ho]%list_elem_of_filter by (rewrite E; by left). by eapply Hn.
Qed.

Lemma merge_base_lookup base merged p :
  fold_left merge_base base merged !! p =
  if (p <? 1) || bool_decide (on_port p base = []) then merged !! p
  else Some (fold_left overlayOverride (on_port p base) (default (no_override p) (merged !! p))).
Proof.
  revert merged. induction base as [|o base IH]; intros merged; [by destruct (p <? 1)|].
  cbn [fold_left]. rewrite IH. unfold merge_base. rewrite on_port_cons.
  destruct (decide (po_Port o = p)) as [<-|Hne].
  - rewrite (bool_decide_false (o :: _ = [])) by done. rewrite orb_false_r.
    destruct (po_Port o <? 1) eqn:E; [by rewrite orb_true_l|]. cbn [orb]. rewrite lookup_insert_eq. cbn [fold_left default].
    by case_bool_decide as Hb; [rewrite Hb|].
  - destruct (po_Port o <? 1); [done|]. by rewrite lookup_insert_ne.
Qed.

Lemma merge_generated_lookup generated merged p :
  fold_left merge_generated generated merged !! p =
  if p <? 1 then merged !! p else match last (on_port p generated) with Some o => Some o | None => merged !! p end.
Proof.
  revert merged. induction generated as [|o l IH]; intros merged; [by destruct (p <? 1)|].
  cbn [fold_left]. rewrite IH. unfold merge_generated. rewrite on_port_cons.
  destruct (decide (po_Port o = p)) as [<-|Hne].
  - destruct (po_Port o <? 1); [done|]. rewrite last_cons. rewrite lookup_insert_eq. by destruct (last _).
  - destruct (p <? 1) eqn:E; destruct (po_Port o <? 1); rewrite ?lookup_insert_ne by done; done.
Qed.

(** What the merge has for a port. *)
Definition merged_port (generated base : list PortOverride) (p : Z) : option PortOverride :=
  if p <? 1 then None
  else if bool_decide (on_port p base = []) then last (on_port p generated)
  else Some (fold_left overlayOverride (on_port p base) (default (no_override p) (last (on_port p generated)))).

Lemma merged_port_number generated base p o : merged_port generated base p = Some o → po_Port o = p ∧ 1 ≤ p.
Proof.
  unfold merged_port. destruct (p <? 1) eqn:E; [done|].
  assert (∀ g, last (on_port p generated) = Some g → po_Port g = p) as Hl.
  { intros g Hg. apply last_Some_elem_of in Hg. unfold on_port in Hg. apply list_elem_of_filter in Hg. apply Hg. }
  destruct (bool_decide _); intros Ho.
  - split; [by apply Hl|lia].
  - injection Ho as <-. rewrite fold_overlay_port. split; [|lia].
    destruct (last (on_port p generated)) as [g|]; cbn; [by apply Hl|done].
Qed.

Lemma MergeOverrides_spec generated base :
  StronglySorted Z.lt (po_Port <$> MergeOverrides generated base) ∧
  ∀ o, o ∈ MergeOverrides generated base ↔ merged_port generated base (po_Port o) = Some o.
Proof.
  unfold MergeOverrides. set (merged := fold_left merge_base base _).
  assert (∀ p, merged !! p = merged_port generated base p) as Hm.
  { intros p. unfold merged, merged_port. rewrite merge_base_lookup, merge_generated_lookup, lookup_empty.
    destruct (p <? 1); cbn [orb]; [done|]. destruct (last (on_port p generated)); by case_bool_decide. }
  clearbody merged.
  assert (merge_sort Z.le (map_to_list merged).*1 ≡ₚ (map_to_list merged).*1) as Hp by apply merge_sort_Permutation.
  assert (NoDup (merge_sort Z.le (map_to_list merged).*1)) as Hd by (rewrite Hp; apply NoDup_fst_map_to_list).
  assert (StronglySorted Z.le (merge_sort Z.le (map_to_list merged).*1)) as Hs by (apply (StronglySorted_merge_sort Z.le)).
  assert (∀ p, p ∈ merge_sort Z.le (map_to_list merged).*1 ↔ is_Some (merged_port generated base p)) as Hin.
  { intros p. rewrite Hp, list_elem_of_fmap. split.
    - intros ((q & o) & -> & Hq%elem_of_map_to_list). cbn. rewrite <- Hm. by eexists.
    - intros [o Ho]. exists (p, o). rewrite elem_of_map_to_list, Hm. done. }
  revert Hd Hs Hin. generalize (merge_sort Z.le (map_to_list merged).*1) as ports. clear Hp. intros ports Hd Hs Hin.
  split.
  - assert (po_Port <$> omap (λ port, merged !! port) ports = ports) as ->.
    { assert (∀ p, p ∈ ports → is_Some (merged_port generated base p)) as Hall by (intros p; apply Hin). clear -Hm Hall.
      induction ports as [|p ports IH]; [done|]. cbn [omap list_omap]. rewrite Hm.
      destruct (Hall p) as [o Ho]; [by left|]. rewrite Ho. cbn. destruct (merged_port_number _ _ _ _ Ho) as [-> _].
      f_equal. apply IH. intros q Hq. apply Hall. by right. }
    clear Hin. induction Hs as [|p ports Hs IH Hle]; [constructor|]. apply NoDup_cons in Hd as [Hn Hd].
    constructor; [by apply IH|]. rewrite Forall_forall in Hle |- *. intros q Hq. specialize (Hle q Hq).
    assert (p ≠ q) by by intros ->. lia.
  - intros o. rewrite list_elem_of_omap. split.
    + intros (p & _ & Ho). rewrite Hm in Ho. by destruct (merged_port_number _ _ _ _ Ho) as [-> _].
    + intros Ho. exists (po_Port o). rewrite Hm. split; [|done]. apply Hin. by eexists.
Qed.

Lemma merged_port_fold generated base p o :
  merged_port generated base p = Some o →
  o = fold_left overlayOverride (on_port p base) (default (no_override p) (last (on_port p generated))).
Proof.
  unfold merged_port. destruct (p <? 1); [done|]. case_bool_decide as E; [|by intros [= <-]].
  rewrite E. cbn [fold_left]. by intros ->.
Qed.

Lemma check_mappings_ports mappings seen :
  check_mappings mappings seen = Ok tt →
  NoDup (mp_Port <$> mappings) ∧ ∀ m, m ∈ mappings → 1 ≤ mp_Port m ∧ mp_Port m ∉ seen.
Proof.
  revert seen. induction mappings as [|m rest IH]; intros seen; cbn [check_mappings].
  { intros _. split; [constructor|]. by intros m []%not_elem_of_nil. }
  destruct (mp_Port m <? 1) eqn:E; [done|]. case_decide as Hs; [done|]. case_decide; [done|].
  destruct (contains _ _); [done|]. intros (Hd & Hall)%IH. split.
  - cbn. constructor; [|done]. intros (m' & Hp & Hm)%list_elem_of_fmap. apply Hall in Hm as [_ Hm]. set_solver.
  - intros m' [->|Hm]%elem_of_cons; [split; [lia|done]|]. apply Hall in Hm as [? ?]. split; [done|set_solver].
Qed.

Section generated.
Context `{UnicodeTables} `{FloatConversion} `{MapOrderLaws}.

Lemma mapping_override_port interfaces gateways m : po_Port (mapping_override interfaces gateways m) = mp_Port m.
Proof.
  unfold mapping_override. destruct (lookupGatewayStatus _ _); [|done]. unfold applyGatewayStatus.
  by destruct (negb _).
Qed.

Definition mapping_of (mappings : list InterfaceMapping) (p : Z) : option InterfaceMapping :=
  find (λ m, mp_Port m =? p) mappings.
Lemma last_mapping interfaces gateways mappings p :
  NoDup (mp_Port <$> mappings) →
  last (on_port p (OverridesFromState mappings interfaces gateways)) =
  mapping_override interfaces gateways <$> mapping_of mappings p.
Proof.
  unfold OverridesFromState. induction mappings as [|m rest IH]; [done|]. intros [Hn Hd]%NoDup_cons.
  cbn [map mapping_of find]. rewrite on_port_cons, mapping_override_port. destruct (mp_Port m =? p) eqn:E.
  - rewrite decide_True by lia. assert (on_port p (map (mapping_override interfaces gateways) rest) = []) as ->; [|done].
    apply on_port_empty. intros o (m' & -> & Hm)%list_elem_of_fmap.
    rewrite mapping_override_port. intros Hp. apply Hn, list_elem_of_fmap. exists m'. split; [lia|done].
  - rewrite decide_False by lia. by apply IH.
Qed.

(** What the operator's own overrides leave of the generated one: per field,
    the last own value that is set wins. *)
Record overlays (o g : PortOverride) (own : list PortOverride) : Prop := {
  ov_text key : text_get key (po_Text o) = overlaid solid (λ o, text_get key (po_Text o)) g own;
  ov_IPv6 : po_IPv6 o = overlaid (λ l, positive (zlen l)) po_IPv6 g own;
  ov_VLAN : po_VLAN o = overlaid positive po_VLAN g own;
  ov_Speed : po_Speed o = overlaid positive po_Speed g own;
  ov_latency : po_WANLatencyMS o = overlaid positive po_WANLatencyMS g own;
  ov_downtime : po_WANDowntimeSeconds o = overlaid positive po_WANDowntimeSeconds g own;
  ov_uptime : po_WANUptimePercent o = overlaid given po_WANUptimePercent g own;
  ov_connected : po_WANConnected o = overlaid given po_WANConnected g own;
  ov_Up : po_Up o = overlaid given po_Up g own;
  ov_rest : (po_Disabled o, po_Counters o, po_CountersSet o, po_RXBytesRate o, po_TXBytesRate o, po_TrafficRatesSet o)
    = (po_Disabled g, po_Counters g, po_CountersSet g, po_RXBytesRate g, po_TXBytesRate g, po_TrafficRatesSet g);
}.
Lemma fold_overlays g own : overlays (fold_left overlayOverride own g) g own.
Proof.
  split; [intros key; apply (overlay_fold solid (λ o, text_get key (po_Text o)))|apply overlay_fold..|].
  10: { revert g. induction own as [|s own IH]; intros g; [done|]. cbn [fold_left]. by rewrite IH. }
  all: intros t s; cbn [overlayOverride po_Text po_IPv6 po_VLAN po_Speed
    po_WANLatencyMS po_WANDowntimeSeconds po_WANUptimePercent po_WANConnected po_Up].
  all: try (unfold positive; done).
  - assert (∀ f, text_get key (text_of f) = f key) as -> by by destruct key.
    unfold or_else, solid. by case_decide as E; [rewrite bool_decide_true|rewrite bool_decide_false].
  - by destruct (po_WANUptimePercent s).
  - by destruct (po_WANConnected s).
  - by destruct (po_Up s).
Qed.

(** What a table of the firewall says about a name: the row kept under it in
    lower case, or else one whose interface or name is the same text in another
    case, or nothing if there is no such row. *)
Definition reported {A} (interface name : A → bytes) (table : gmap bytes A) (key : bytes) (r : option A) : Prop :=
  let key := to_lower (trim_space key) in
  let same s := equal_fold (interface s) key = true ∨ equal_fold (name s) key = true in
  match r with
  | Some s => key ≠ [] ∧ (table !! key = Some s ∨ table !! key = None ∧ (∃ k, table !! k = Some s) ∧ same s)
  | None => key = [] ∨ table !! key = None ∧ ∀ k s, table !! k = Some s → ¬ same s
  end.
Lemma lookup_reported {A} (interface name : A → bytes) table key :
  reported interface name table key (lookup_status interface name table key).
Proof.
  unfold reported, lookup_status. cbv zeta. set (low := to_lower (trim_space key)). clearbody low.
  case_decide as Ek; [by left|]. destruct (table !! low) as [s|] eqn:Et; [by split; [|left]|].
  match goal with |- context [first_some ?f ?l] => pose proof (first_some_spec f l) as Hf; destruct (first_some f l) as [s|] end.
  - destruct Hf as ([k s'] & Hin & Hs). cbn in Hs. destruct (_ || _) eqn:E; [|done]. injection Hs as <-.
    split; [done|]. right. split; [done|]. split; [exists k; by apply elem_of_range|]. by apply orb_true_iff.
  - right. split; [done|]. intros k s Hk%elem_of_range Hs. specialize (Hf (k, s) Hk). cbn in Hf.
    apply orb_true_iff in Hs. by rewrite Hs in Hf.
Qed.

(** The override of a mapping: its own values, and for the interface, the
    medium and the speed it leaves open and all it cannot set, what the
    firewall says about its interface; the state of the gateway counts for the
    WAN roles only. *)
Record from_mapping (m : InterfaceMapping) (seen : InterfaceStatus) (gateway : option GatewayStatus)
    (g : PortOverride) : Prop := {
  fm_own : po_Port g = mp_Port m ∧ ot_Name (po_Text g) = mp_Name m ∧ ot_Role (po_Text g) = mp_Role m ∧
    ot_NetworkGroup (po_Text g) = mp_NetworkGroup m ∧ ot_PortConfID (po_Text g) = mp_PortConfID m ∧
    ot_NetworkConfID (po_Text g) = mp_NetworkConfID m ∧
    ot_NativeNetworkConfID (po_Text g) = mp_NativeNetworkConfID m ∧
    ot_NetworkName (po_Text g) = mp_NetworkName m ∧ po_VLAN g = mp_VLAN m;
  fm_seen : ot_MAC (po_Text g) = is_MAC seen ∧ ot_IP (po_Text g) = is_IP seen ∧
    ot_Netmask (po_Text g) = is_Netmask seen ∧ po_IPv6 g = is_IPv6 seen ∧ po_Up g = is_Up seen;
  fm_interface : (mp_Interface m ≠ [] → ot_Interface (po_Text g) = mp_Interface m) ∧
    (mp_Interface m = [] → ot_Interface (po_Text g) = is_Interface seen);
  fm_media : (mp_Media m ≠ [] → ot_Media (po_Text g) = mp_Media m) ∧
    (mp_Media m = [] → ot_Media (po_Text g) = is_Media seen);
  fm_speed : (0 < mp_Speed m → po_Speed g = mp_Speed m) ∧ (mp_Speed m ≤ 0 → po_Speed g = is_SpeedMbps seen);
  fm_gateway :
    match gateway with
    | Some w =>
        if decide (to_lower (trim_space (mp_Role m)) ∈ [B "wan"; B "wan2"]) then
          po_WANConnected g = gs_Online w ∧ po_WANLatencyMS g = gs_LatencyMS w ∧
          po_WANUptimePercent g = (λ up : bool, float_of_int (if up then 100 else 0)) <$> gs_Online w
        else po_WANConnected g = None ∧ po_WANLatencyMS g = 0 ∧ po_WANUptimePercent g = None
    | None => po_WANConnected g = None ∧ po_WANLatencyMS g = 0 ∧ po_WANUptimePercent g = None
    end;
  fm_rest : po_WANDowntimeSeconds g = 0 ∧ po_Disabled g = false ∧ po_Counters g = no_counters ∧
    po_CountersSet g = false ∧ po_RXBytesRate g = 0 ∧ po_TXBytesRate g = 0 ∧ po_TrafficRatesSet g = false;
}.
Lemma override_from_mapping m seen gateway :
  from_mapping m seen gateway
    (match gateway with Some w => applyGatewayStatus (overrideFromMapping m seen) w | None => overrideFromMapping m seen end).
Proof.
  assert (∀ g, po_Text g = po_Text (overrideFromMapping m seen) → po_Speed g = po_Speed (overrideFromMapping m seen) →
    ((mp_Interface m ≠ [] → ot_Interface (po_Text g) = mp_Interface m) ∧
     (mp_Interface m = [] → ot_Interface (po_Text g) = is_Interface seen)) ∧
    ((mp_Media m ≠ [] → ot_Media (po_Text g) = mp_Media m) ∧ (mp_Media m = [] → ot_Media (po_Text g) = is_Media seen)) ∧
    ((0 < mp_Speed m → po_Speed g = mp_Speed m) ∧ (mp_Speed m ≤ 0 → po_Speed g = is_SpeedMbps seen))) as Hopen.
  { intros g -> ->. cbn. unfold or_else. destruct (mp_Speed m <=? 0) eqn:E; split_and!; intros Hs;
      try lia; try done; by case_decide. }
  destruct gateway as [w|].
  - unfold applyGatewayStatus. cbn [overrideFromMapping po_Text ot_Role]. unfold isWANRole.
    destruct (bool_decide_reflect (to_lower (trim_space (mp_Role m)) ∈ [B "wan"; B "wan2"])) as [Hw|Hw]; cbn [negb].
    + destruct (Hopen (set_wan (gs_Online w) (gs_LatencyMS w)
        ((λ up : bool, float_of_int (if up then 100 else 0)) <$> gs_Online w) (overrideFromMapping m seen)) eq_refl eq_refl)
        as (H1' & H2' & H3').
      split; try done; [..|rewrite decide_True by done; cbn; split_and!; try done; by destruct (gs_Online w) as [[]|]].
    + destruct (Hopen (overrideFromMapping m seen) eq_refl eq_refl) as (H1' & H2' & H3'). split; try done.
      by rewrite decide_False.
  - destruct (Hopen (overrideFromMapping m seen) eq_refl eq_refl) as (H1' & H2' & H3'). by split.
Qed.

(** C28: the generated configuration has one override for each port of an
    accepted source and for each positive port of the base configuration, in
    ascending order.  Per field the operator's last override that sets it wins;
    the rest is the port's mapping with, where it leaves a field open, what the
    firewall reports for its interface ([from_mapping]), and nothing for a port
    without a mapping.  Everything else of the base configuration stays, but for
    an uplink port it leaves open and a probe configuration the source sets. *)
Theorem generated_configuration base source interfaces gateways :
  ValidateSourceConfig source = Ok tt →
  let c := GenerateConfig base source interfaces gateways in
  let out := cfg_PortOverrides c in
  StronglySorted Z.lt (po_Port <$> out) ∧
  (∀ p, p ∈ po_Port <$> out ↔
     p ∈ mp_Port <$> sc_Interfaces source ∨ 1 ≤ p ∧ p ∈ po_Port <$> cfg_PortOverrides base) ∧
  (∀ o, o ∈ out → ∃ g,
     overlays o g (on_port (po_Port o) (cfg_PortOverrides base)) ∧
     ((∃ m seen gateway, m ∈ sc_Interfaces source ∧ mp_Port m = po_Port o ∧
         reported is_Interface is_Name interfaces (mp_Interface m) seen ∧
         reported gs_Interface gs_Name gateways (mp_Interface m) gateway ∧
         from_mapping m (default (no_status (to_lower (trim_space (mp_Interface m)))) seen) gateway g)
      ∨ po_Port o ∉ mp_Port <$> sc_Interfaces source ∧ g = no_override (po_Port o))) ∧
  with_generated (cfg_PortOverrides base) (cfg_UplinkPort base) (cfg_WANHealth base) c = base ∧
  (cfg_UplinkPort c = if bool_decide (cfg_UplinkPort base = 0 ∧ 0 < sc_UplinkPort source) then sc_UplinkPort source
                      else cfg_UplinkPort base) ∧
  (cfg_WANHealth c = if bool_decide (wc_Source (sc_WANHealth source) = []) then cfg_WANHealth base
                     else sc_WANHealth source).
Proof.
  intros Hv. cbv zeta. unfold GenerateConfig. cbn [with_generated cfg_PortOverrides cfg_UplinkPort].
  set (generated := OverridesFromState (sc_Interfaces source) interfaces gateways).
  assert (NoDup (mp_Port <$> sc_Interfaces source) ∧ ∀ m, m ∈ sc_Interfaces source → 1 ≤ mp_Port m ∧ mp_Port m ∉ (∅ : gset Z))
    as [Hd Hpos].
  { apply check_mappings_ports. unfold ValidateSourceConfig in Hv. case_decide; [done|].
    destruct (_ <=? 0); [done|]. by case_decide. }
  destruct (MergeOverrides_spec generated (cfg_PortOverrides base)) as [Hs Hin].
  split; [done|]. split; [|split; [|split; [by destruct base|split]]].
  - intros p. rewrite list_elem_of_fmap. setoid_rewrite Hin. split.
    + intros (o & -> & Ho). pose proof (merged_port_number _ _ _ _ Ho) as [_ Hp].
      unfold merged_port in Ho. destruct (po_Port o <? 1); [done|].
      destruct (bool_decide (on_port (po_Port o) (cfg_PortOverrides base) = [])) eqn:E; bool_to_prop.
      * left. apply last_Some_elem_of, list_elem_of_filter in Ho as [_ (m & -> & Hm)%list_elem_of_fmap].
        apply list_elem_of_fmap. exists m. by rewrite mapping_override_port.
      * right. split; [done|]. destruct (on_port _ _) as [|b rest] eqn:Eb; [done|].
        assert (b ∈ on_port (po_Port o) (cfg_PortOverrides base)) as Hb by (rewrite Eb; by left).
        apply list_elem_of_filter in Hb as [<- Hb]. apply list_elem_of_fmap. by exists b.
    + intros Hp. assert (is_Some (merged_port generated (cfg_PortOverrides base) p)) as [o Ho].
      { unfold merged_port. destruct Hp as [(m & -> & Hm)%list_elem_of_fmap|[Hp (b & -> & Hb)%list_elem_of_fmap]].
        - destruct (Hpos m Hm) as [Hp _]. rewrite (proj2 (Z.ltb_ge _ _)) by lia. case_bool_decide; [|by eexists].
          unfold generated. rewrite last_mapping by done. rewrite fmap_is_Some. unfold mapping_of.
          destruct (find _ _) eqn:Ef; [by eexists|]. eapply find_none in Ef; [|by apply list_elem_of_In]. lia.
        - rewrite (proj2 (Z.ltb_ge _ _)) by lia. rewrite bool_decide_false; [by eexists|].
          intros E. by eapply on_port_empty in E. }
      exists o. pose proof (merged_port_number _ _ _ _ Ho) as [<- _]. done.
  - intros o Ho%Hin%merged_port_fold. unfold generated in Ho. rewrite last_mapping in Ho by done. eexists.
    split; [rewrite Ho at 1; apply fold_overlays|]. destruct (mapping_of (sc_Interfaces source) (po_Port o)) as [m|] eqn:Em.
    + left. apply find_some in Em as [Hm%list_elem_of_In Hp].
      exists m, (lookup_status is_Interface is_Name interfaces (mp_Interface m)),
        (lookup_status gs_Interface gs_Name gateways (mp_Interface m)).
      split_and!; [done|lia|apply lookup_reported..|apply override_from_mapping].
    + right. split; [|done]. intros (m & Hp & Hm)%list_elem_of_fmap. unfold mapping_of in Em.
      eapply find_none in Em; [|by apply list_elem_of_In]. lia.
  - destruct (bool_decide_reflect (cfg_UplinkPort base = 0 ∧ 0 < sc_UplinkPort source)) as [[Hb Hs']|Hb].
    + by rewrite (proj2 (Z.ltb_lt _ _) Hs'), (proj2 (Z.eqb_eq _ _) Hb).
    + destruct (0 <? _) eqn:E1, (cfg_UplinkPort base =? 0) eqn:E2; cbn [andb]; try done. exfalso. apply Hb. lia.
  - by destruct (decide _); [rewrite bool_decide_true|rewrite bool_decide_false].
Qed.
End generated.

(** ** The tables as relations *)
Section tables.
Context `{UnicodeTables} `{FloatConversion} `{MapOrderLaws}.

Definition put_names {S} (out : gmap bytes S) (names : list bytes) (status : S) : gmap bytes S :=
  fold_left (λ out name, <[name := status]> out) names out.
Definition lower_names (l : list bytes) : list bytes := map to_lower (filter (λ s, s ≠ []) l).
Definition interface_names (s : InterfaceStatus) : list bytes :=
  if decide (is_Interface s = []) then [] else lower_names [is_Interface s; is_Name s].
Definition gateway_names (s : GatewayStatus) : list bytes := lower_names [gs_Interface s; gs_Name s].

Lemma add_interface_names out s : addInterfaceStatus out s = put_names out (interface_names s) s.
Proof.
  unfold addInterfaceStatus, interface_names, lower_names. rewrite !filter_cons, filter_nil.
  repeat case_decide; done.
Qed.
Lemma add_gateway_names out s : addGatewayStatus out s = put_names out (gateway_names s) s.
Proof.
  unfold addGatewayStatus, gateway_names, lower_names. rewrite !filter_cons, filter_nil.
  repeat case_decide; done.
Qed.

Lemma put_names_lookup {S} out names (status : S) n :
  put_names out names status !! n = if bool_decide (n ∈ names) then Some status else out !! n.
Proof.
  unfold put_names. revert out. induction names as [|m names IH]; intros out; cbn.
  - by rewrite bool_decide_false by apply not_elem_of_nil.
  - rewrite IH. case_bool_decide as E.
    + by rewrite bool_decide_true by by right.
    + destruct (decide (n = m)) as [->|Hne].
      * by rewrite lookup_insert_eq, bool_decide_true by by left.
      * rewrite lookup_insert_ne by done. by rewrite bool_decide_false by by intros [?|?]%elem_of_cons.
Qed.

(** Rows with separate names end up under exactly those. *)
Lemma rows_lookup {R S} (names : R → list bytes) (decode : R → S) (rows : list R) n s :
  NoDup rows →
  (∀ a b, a ∈ rows → b ∈ rows → a ≠ b → ∀ x, x ∈ names a → x ∉ names b) →
  fold_left (λ out r, put_names out (names r) (decode r)) rows ∅ !! n = Some s ↔
  ∃ r, r ∈ rows ∧ n ∈ names r ∧ s = decode r.
Proof.
  induction rows as [|r rows IH] using rev_ind; intros Hd Hs.
  - cbn. rewrite lookup_empty. split; [done|]. by intros (r & []%not_elem_of_nil & _).
  - rewrite fold_left_app. cbn [fold_left]. rewrite put_names_lookup. apply NoDup_app in Hd as (Hd & Hn & _).
    assert (r ∉ rows) as Hr by (intros Hr; by apply (Hn r Hr), list_elem_of_singleton).
    case_bool_decide as E.
    + split.
      * intros [= <-]. exists r. split; [apply elem_of_app; right; by left|done].
      * intros (q & Hq & Hnq & ->). destruct (decide (n ∈ names q)) as [_|]; [|done].
        apply elem_of_app in Hq as [Hq| ->%list_elem_of_singleton]; [|done]. exfalso.
        apply (Hs r q) in E; [done|apply elem_of_app; right; by left|apply elem_of_app; by left|by intros ->].
    + rewrite IH; [|done|].
      * split; intros (q & Hq & Hnq & ->); exists q; (split; [|done]); [apply elem_of_app; by left|].
        by apply elem_of_app in Hq as [Hq| ->%list_elem_of_singleton].
      * intros a b Ha Hb. apply Hs; apply elem_of_app; by left.
Qed.

Definition gateway_row (p : bytes * any) : GatewayStatus :=
  match as_object p.2 with Some m => decodeGatewayObject p.1 m | None => MkGatewayStatus [] [] None 0 end.
Definition interface_row (p : bytes * any) : InterfaceStatus := decodeInterfaceObject p.1 p.2.
(** No two rows share a name, letter case aside. *)
Definition separate {S} (names : S → list bytes) (row : bytes * any → S) (raw : any) : Prop :=
  ∀ p q, interfaceObjects raw !! p.1 = Some p.2 → interfaceObjects raw !! q.1 = Some q.2 → p ≠ q →
    ∀ x, x ∈ names (row p) → x ∉ names (row q).

Lemma table_lookup {S} (names : S → list bytes) (row : bytes * any → S) raw n s :
  separate names row raw →
  fold_left (λ out p, put_names out (names (row p)) (row p)) (range (interfaceObjects raw)) ∅ !! n = Some s ↔
  ∃ k v, interfaceObjects raw !! k = Some v ∧ s = row (k, v) ∧ n ∈ names s.
Proof.
  intros Hs. rewrite (rows_lookup (λ p, names (row p)) row).
  - setoid_rewrite (surjective_pairing). split.
    + intros ([k v] & Hp & Hn & ->). apply elem_of_range in Hp. by exists k, v.
    + intros (k & v & Hp & -> & Hn). exists (k, v). by rewrite elem_of_range.
  - eapply NoDup_fmap_1, range_keys_nodup.
  - intros [k v] [k' v'] Ha Hb. apply elem_of_range in Ha, Hb. by apply (Hs (k, v) (k', v')).
Qed.

(** The decoded tables hold every row of the answer under its interface and
    its name in lower case, and nothing else, if no two rows share a name; in
    particular they do not depend on the order in which Go ranges over the
    answer's objects. *)
Theorem decoded_tables_exact raw n :
  (separate interface_names interface_row raw →
   ∀ s, DecodeInterfaces raw !! n = Some s ↔
     ∃ k v, interfaceObjects raw !! k = Some v ∧ s = decodeInterfaceObject k v ∧ n ∈ interface_names s) ∧
  (separate gateway_names gateway_row raw →
   ∀ s, DecodeGatewayStatuses raw !! n = Some s ↔
     ∃ k v, interfaceObjects raw !! k = Some v ∧ s = gateway_row (k, v) ∧ n ∈ gateway_names s).
Proof.
  split; intros Hs s.
  - rewrite <- (table_lookup interface_names interface_row) by done. unfold DecodeInterfaces.
    erewrite fold_left_ext; [done|]. intros c p. by rewrite add_interface_names.
  - rewrite <- (table_lookup gateway_names gateway_row) by done. unfold DecodeGatewayStatuses.
    erewrite fold_left_ext; [done|]. intros c [k v]. unfold gateway_row. cbn [fst snd].
    destruct (as_object v) as [m|]; [by rewrite add_gateway_names|done].
Qed.
End tables.

(** ** Behaviour that is not meant *)
#[local] Existing Instances ascii_tables amd64_conversion list_order list_order_laws.

(** "2.5g" contains "5g", and a 40 or 100 Gbit/s media type is read as its number. *)
Lemma speeds_misread :
  map speedFromText [B "2.5Gbase-T <full-duplex>"; B "40Gbase-CR4"; B "100Gbase-CR4"; B "10Gbase-SR"; B "2500Base-T"]
  = [5000; 40; 100; 10000; 2500].
Proof. vm_compute. done. Qed.

(** Any text that contains "active" or "up" means that the link is up. *)
Lemma unsupported_is_up : map parseUp [B "unsupported"; B "not active"; B "inactive"] = [Some true; Some true; Some false].
Proof. vm_compute. done. Qed.

(** The prefix of an address is cut off only if there is no netmask member, so
    the override gets an address that no check accepts. *)
Lemma prefix_kept_with_netmask :
  let row := AObject [(B "device", AString (B "igb0")); (B "addr4", AString (B "192.0.2.1/24"));
                      (B "subnet", AString (B "24"))] in
  is_IP (decodeInterfaceObject [] row) = B "192.0.2.1/24" ∧
  is_Netmask (decodeInterfaceObject [] row) = B "255.255.255.0" ∧ parse_ip (B "192.0.2.1/24") = None.
Proof. vm_compute. done. Qed.

(** ** Witnesses *)
Definition sample_mapping (port : Z) (iface name : bytes) : InterfaceMapping :=
  MkMapping port iface name (B "lan") [] [] [] [] [] 0 0 [].
Definition sample_source : SourceConfig :=
  MkSource (B "https://fw") [] [] [] [] [] false 2000 1 false
    [MkMapping 2 (B "igb1") (B "two") (B "lan") [] [] [] [] [] 0 10000 (B "SFP+"); sample_mapping 1 (B "igb0") []] (MkWANHealthConfig [] 0 0 []).
Definition sample_base : Config :=
  with_generated [set_Text (text_set TextName (B "mine") no_text) (no_override 2)] 0 (MkWANHealthConfig [] 0 0 []) Default.
Definition sample_answer : any :=
  AObject [(B "rows", AList [AObject [(B "device", AString (B "igb0")); (B "ipaddr", AString (B "192.0.2.1/24"))];
                             AObject [(B "device", AString (B "igb1")); (B "status", AString (B "up")); (B "speed", AString (B "1000"))]])].

Lemma generated_configuration_witness :
  ValidateSourceConfig sample_source = Ok tt ∧
  let out := cfg_PortOverrides (GenerateConfig sample_base sample_source (DecodeInterfaces sample_answer) ∅) in
  po_Port <$> out = [1; 2] ∧ (λ o, ot_IP (po_Text o)) <$> out = [B "192.0.2.1"; []] ∧
  (λ o, ot_Media (po_Text o)) <$> out = [[]; B "SFP+"] ∧ po_Up <$> out = [None; Some true] ∧
  ∀ o, o ∈ out → po_Port o = 2 → ot_Name (po_Text o) = B "mine" ∧ po_Speed o = 10000.
Proof.
  assert (ValidateSourceConfig sample_source = Ok tt) as Hv by (vm_compute; reflexivity).
  split; [exact Hv|]. cbv zeta.
  destruct (generated_configuration sample_base sample_source (DecodeInterfaces sample_answer) ∅ Hv) as (_ & _ & Ho & _).
  do 4 (split; [vm_compute; reflexivity|]).
  intros o Hin Hp. destruct (Ho o Hin) as (g & Hov & Hg). rewrite Hp in Hov, Hg.
  assert (po_Speed g = 10000) as Hs.
  { destruct Hg as [(m & seen & gateway & Hm & Hmp & _ & _ & Hf)|[Hn _]].
    - apply elem_of_cons in Hm as [->|Hm]; [by apply (fm_speed _ _ _ _ Hf)|].
      apply list_elem_of_singleton in Hm as ->. discriminate Hmp.
    - exfalso. apply Hn. left. }
  split; [etransitivity; [exact (ov_text _ _ _ Hov TextName)|vm_compute; reflexivity]|].
  rewrite (ov_Speed _ _ _ Hov). unfold overlaid.
  assert (last_set positive (po_Speed <$> on_port 2 (cfg_PortOverrides sample_base)) = None) as ->
    by (vm_compute; reflexivity).
  exact Hs.
Defined.

Definition row0 : any := AObject [(B "device", AString (B "igb0")); (B "ipaddr", AString (B "192.0.2.1/24"))].
Definition row1 : any :=
  AObject [(B "device", AString (B "igb1")); (B "status", AString (B "up")); (B "speed", AString (B "1000"))].
Lemma sample_rows p : interfaceObjects sample_answer !! p.1 = Some p.2 → p = (B "igb1", row1) ∨ p = (B "igb0", row0).
Proof.
  intros Hp. assert (map_to_list (interfaceObjects sample_answer) = [(B "igb1", row1); (B "igb0", row0)]) as El
    by (vm_compute; reflexivity).
  apply (elem_of_map_to_list (interfaceObjects sample_answer) p.1 p.2) in Hp. rewrite El in Hp. destruct p as [k v].
  apply elem_of_cons in Hp as [Hp|Hp]; [by left|right]. by apply list_elem_of_singleton in Hp.
Qed.
Lemma sample_names :
  interface_names (interface_row (B "igb1", row1)) = [B "igb1"] ∧ interface_names (interface_row (B "igb0", row0)) = [B "igb0"].
Proof. split; vm_compute; reflexivity. Qed.

Lemma decoded_tables_exact_witness :
  separate interface_names interface_row sample_answer ∧
  ∃ s, DecodeInterfaces sample_answer !! B "igb0" = Some s ∧ is_IP s = B "192.0.2.1".
Proof.
  assert (separate interface_names interface_row sample_answer) as Hs.
  { intros p q Hp Hq Hne x Hx Hy. destruct sample_names as [N1 N0].
    destruct (sample_rows p Hp) as [-> | ->], (sample_rows q Hq) as [-> | ->].
    - exact (Hne eq_refl).
    - rewrite N1 in Hx. rewrite N0 in Hy. apply list_elem_of_singleton in Hx, Hy. subst x. discriminate Hy.
    - rewrite N0 in Hx. rewrite N1 in Hy. apply list_elem_of_singleton in Hx, Hy. subst x. discriminate Hy.
    - exact (Hne eq_refl). }
  split; [exact Hs|]. destruct (decoded_tables_exact sample_answer (B "igb0")) as [Ht _].
  exists (interface_row (B "igb0", row0)). split; [|vm_compute; reflexivity].
  apply (Ht Hs). exists (B "igb0"), row0. split; [vm_compute; reflexivity|]. split; [reflexivity|].
  rewrite (proj2 sample_names). by left.
Defined.
