(* ===== verification/OpnsenseClient.v ===== *)
(** Reading a firewall and writing the configuration: [client.go] and
    [secrets.go] of [src/internal/opnsense], and
    [src/cmd/unifi-stubd-opnsense/main.go].

    The HTTP exchange, the files, the environment variables and the certificate
    parser are parameters; contexts and the parsing of the four flags are left
    out. *)
From S2P Require Import Prelude GoStrings GoUrl GoFloat GoMap GoJson GoAny Overrides RuntimeConfig Settings InformClient Opnsense.

Definition maxResponseBytes : Z := 8 * 1024 * 1024.
Record Credentials := MkCredentials { cr_Key : bytes; cr_Secret : bytes }.
Record Client := MkApiClient {
  cl_baseURL : bytes; cl_credentials : Credentials; cl_timeout : Z; cl_insecure : bool; cl_roots : option bytes;
}.

(** The host and the firewall; [hs_get] is one GET with the credentials, and
    [hs_write] whether [os.WriteFile] works. *)
Record surroundings := MkHostEnv {
  hs_getenv : bytes → bytes;
  hs_read : bytes → read_result;
  hs_pem : bytes → bool;
  hs_get : Client → bytes → option http_response;
  hs_write : bytes → bytes → bool;
}.

Fixpoint drop_all (c : byte) (s : bytes) : bytes :=
  match s with b :: rest => if decide (b = c) then drop_all c rest else s | [] => [] end.
(** [strings.TrimRight(s, "/")]. *)
Definition trim_slashes (s : bytes) : bytes := rev (drop_all x2f (rev s)).

(** [url.PathEscape]. *)
Definition path_unescaped (b : byte) : bool :=
  is_alnum b || bool_decide (b ∈ B "-_.~$&+:=@").
Definition PathEscape (s : bytes) : bytes :=
  s ≫= λ b, if path_unescaped b then [b] else [x25; hex_digit_upper (b2z b / 16); hex_digit_upper (b2z b mod 16)].

Section client.
Context `{UnicodeTables} `{FloatConversion} `{MapOrder} `{AddressParser} `{OpnsenseYaml} `{ConfigYaml}.
Variable env : surroundings.

(** ** secrets.go *)
Definition secretValue (envName fileName : bytes) : result error bytes :=
  let value := if decide (envName = []) then [] else trim_space (hs_getenv env envName) in
  if negb (bool_decide (value = [])) then Ok value
  else if decide (fileName = []) then
    if decide (envName = []) then Err "requires an env var or file"%stdpp else Err "is empty"%stdpp
  else
    match hs_read env fileName with
    | FileRead data =>
        let value := trim_space data in
        if negb (bool_decide (value = [])) then Ok value else Err "is empty"%stdpp
    | _ => Err "read file"%stdpp
    end.
Definition LoadCredentials (c : SourceConfig) : result error Credentials :=
  key ← secretValue (sc_APIKeyEnv c) (sc_APIKeyFile c);
  secret ← secretValue (sc_APISecretEnv c) (sc_APISecretFile c);
  Ok (MkCredentials key secret).

(** ** client.go *)
Definition normalizeBaseURL (value : bytes) : result error bytes :=
  let value := trim_slashes (trim_space value) in
  if decide (value = []) then Err "opnsense base_url is required"%stdpp
  else
    match url_parse ipv6_literal value with
    | None => Err "parse opnsense base_url"%stdpp
    | Some parsed =>
        if negb (bool_decide (u_scheme parsed ∈ [B "https"; B "http"]))
        then Err "opnsense base_url must use http or https"%stdpp
        else if decide (u_host parsed = []) then Err "opnsense base_url must include a host"%stdpp
        else Ok value
    end.
(** The certificates added to the system's. *)
Definition clientTransport (c : SourceConfig) : result error (option bytes) :=
  if decide (sc_CAFile c = []) then Ok None
  else
    match hs_read env (sc_CAFile c) with
    | FileRead data => if hs_pem env data then Ok (Some data) else Err "OPNsense CA file contains no PEM certificates"%stdpp
    | _ => Err "read OPNsense CA file"%stdpp
    end.
Definition NewClient (c : SourceConfig) (credentials : Credentials) : result error Client :=
  baseURL ← normalizeBaseURL (sc_BaseURL c);
  roots ← clientTransport c;
  Ok (MkApiClient baseURL credentials (Timeout c) (sc_InsecureSkipVerify c) roots).

Definition endpoint (client : Client) (path : bytes) : bytes := trim_slashes (cl_baseURL client) ++ B "/api" ++ path.
Definition getJSON (client : Client) (path : bytes) : result error any :=
  match hs_get env client (endpoint client path) with
  | None => Err "OPNsense API GET failed"%stdpp
  | Some resp =>
      body ← wrap_err "OPNsense API GET" (readLimitedBody (h_body resp) (h_body_fails resp) maxResponseBytes);
      if (h_status resp <? 200) || (299 <? h_status resp) then Err "OPNsense API GET returned HTTP status"%stdpp
      else match unmarshal_any body with Some v => Ok v | None => Err "decode OPNsense API GET JSON"%stdpp end
  end.
Definition InterfacesInfo (client : Client) : result error (gmap bytes InterfaceStatus) :=
  raw ← getJSON client (B "/interfaces/overview/interfaces_info"); Ok (DecodeInterfaces raw).
Definition Interface (client : Client) (iface : bytes) : result error InterfaceStatus :=
  let iface := trim_space iface in
  if decide (iface = []) then Err "interface name is required"%stdpp
  else
    raw ← getJSON client (B "/interfaces/overview/get_interface/" ++ PathEscape iface);
    let status := DecodeInterface raw iface in
    Ok (if decide (is_Interface status = []) then
          MkStatus iface (is_Name status) (is_MAC status) (is_IP status) (is_Netmask status)
            (is_IPv6 status) (is_Up status) (is_SpeedMbps status) (is_Media status)
        else status).
Definition GatewayStatuses (client : Client) : result error (gmap bytes GatewayStatus) :=
  raw ← getJSON client (B "/routes/gateway/status"); Ok (DecodeGatewayStatuses raw).

(** ** main.go *)
Fixpoint read_mappings (client : Client) (mappings : list InterfaceMapping) (interfaces : gmap bytes InterfaceStatus)
    : result error (gmap bytes InterfaceStatus) :=
  match mappings with
  | [] => Ok interfaces
  | m :: rest =>
      if decide (is_Some (interfaces !! to_lower (mp_Interface m))) then read_mappings client rest interfaces
      else
        status ← wrap_err "read interface" (Interface client (mp_Interface m));
        read_mappings client rest (<[mp_Interface m := status]> interfaces)
  end.
Definition readInterfaces (client : Client) (source : SourceConfig) : result error (gmap bytes InterfaceStatus) :=
  interfaces ← wrap_err "read overview" (InterfacesInfo client);
  read_mappings client (sc_Interfaces source) interfaces.

Inductive outcome := Validated | Printed (data : bytes) | Written (path data : bytes).
Definition run (configPath sourcePath outputPath : bytes) (validateOnly : bool) : result error outcome :=
  if decide (sourcePath = []) then Err "-source is required"%stdpp
  else
    base ← wrap_err "load base config" (Load (hs_read env) configPath);
    source ← wrap_err "load OPNsense source config" (LoadSourceConfig (hs_read env) sourcePath);
    credentials ← wrap_err "load OPNsense credentials" (LoadCredentials source);
    if validateOnly : bool then Ok Validated
    else
      client ← wrap_err "create OPNsense API client" (NewClient source credentials);
      interfaces ← wrap_err "read OPNsense interfaces" (readInterfaces client source);
      gateways ← (if sc_GatewayStatus source then wrap_err "read OPNsense gateway status" (GatewayStatuses client)
                  else Ok ∅);
      data ← wrap_err "marshal generated config" (MarshalConfig (GenerateConfig base source interfaces gateways));
      if decide (outputPath = []) then Ok (Printed data)
      else if hs_write env outputPath data then Ok (Written outputPath data)
      else Err "write generated config"%stdpp.
End client.

(** ** Facts *)
Section facts.
Context `{UnicodeTables} `{FloatConversion} `{MapOrderLaws} `{AddressParser} `{OpnsenseYaml} `{ConfigYaml}.
Variable env : surroundings.

(** A complete, successful and bounded answer that is one JSON value. *)
Definition complete_answer (client : Client) (path : bytes) (raw : any) : Prop :=
  ∃ resp, hs_get env client (endpoint client path) = Some resp ∧ 200 ≤ h_status resp ≤ 299 ∧
    h_body_fails resp = false ∧ zlen (h_body resp) ≤ maxResponseBytes ∧ unmarshal_any (h_body resp) = Some raw.

Lemma readLimitedBody_whole body fails data :
  readLimitedBody body fails maxResponseBytes = Ok data → fails = false ∧ data = body ∧ zlen body ≤ maxResponseBytes.
Proof.
  unfold readLimitedBody. change (wrap64 (maxResponseBytes + 1)) with (maxResponseBytes + 1). cbv zeta.
  destruct (fails && _) eqn:E; [done|]. destruct (maxResponseBytes <? _) eqn:E2; [done|]. intros [= <-].
  unfold zlen in *. rewrite length_take in E2. assert (0 ≤ maxResponseBytes) as Hmax by done.
  revert E E2 Hmax. generalize maxResponseBytes. intros limit E E2 Hmax.
  apply Z.ltb_ge in E2. rewrite Nat2Z.inj_min, Z2Nat.id in E2 by lia.
  assert (Z.of_nat (length body) ≤ limit) as Hle by lia.
  split; [|split; [apply take_ge; lia|done]]. destruct fails; [|done]. cbn [andb] in E.
  apply Nat.ltb_ge in E. lia.
Qed.

Lemma getJSON_complete client path raw : getJSON env client path = Ok raw → complete_answer client path raw.
Proof.
  unfold getJSON. destruct (hs_get env client _) as [resp|] eqn:Er; [|done].
  destruct (readLimitedBody _ _ _) as [body|] eqn:Eb; cbn [wrap_err mbind result_bind]; [|done].
  apply readLimitedBody_whole in Eb as (Hf & -> & Hl).
  destruct (_ || _) eqn:Es; [done|]. destruct (unmarshal_any (h_body resp)) as [v|] eqn:Ev; [|done].
  intros [= ->]. exists resp. bool_to_prop. split_and!; [done|lia|lia|done..].
Qed.

(** *** The interfaces *)
(** The row that asking for an interface gives: one decoded object of the
    answer, under the requested name if it has none of its own, or an empty row
    if the answer has no object. *)
Definition named (iface : bytes) (s : InterfaceStatus) : InterfaceStatus :=
  if decide (is_Interface s = []) then
    MkStatus iface (is_Name s) (is_MAC s) (is_IP s) (is_Netmask s) (is_IPv6 s) (is_Up s) (is_SpeedMbps s) (is_Media s)
  else s.
Definition asked_row (raw : any) (iface : bytes) (s : InterfaceStatus) : Prop :=
  interfaceObjects raw = ∅ ∧ s = no_status iface ∨
  ∃ k v, interfaceObjects raw !! k = Some v ∧ s = named iface (decodeInterfaceObject k v).
Definition asked (client : Client) (iface : bytes) (s : InterfaceStatus) : Prop :=
  ∃ raw, complete_answer client (B "/interfaces/overview/get_interface/" ++ PathEscape (trim_space iface)) raw ∧
    asked_row raw (trim_space iface) s.

Lemma Interface_asked client iface s : Interface env client iface = Ok s → asked client iface s.
Proof.
  unfold Interface, asked. case_decide as Ei; [done|]. destruct (getJSON _ _ _) as [raw|] eqn:Eg; [|done].
  cbn [mbind result_bind]. intros [= <-]. exists raw. split; [by apply getJSON_complete|].
  unfold DecodeInterface. destruct (range (interfaceObjects raw)) as [|[k v] rest] eqn:Er.
  - left. rewrite trim_space_idemp. cbn. rewrite decide_False by done. split; [|done].
    apply map_empty. intros k. destruct (interfaceObjects raw !! k) as [v|] eqn:Ev; [|done].
    apply elem_of_range in Ev. rewrite Er in Ev. by apply not_elem_of_nil in Ev.
  - right. exists k, v. split; [apply elem_of_range; rewrite Er; by left|]. rewrite trim_space_idemp. cbn [fst snd].
    unfold named. destruct (decide (is_Interface (decodeInterfaceObject k v) = [])) as [E|E];
      [cbn; by rewrite decide_False by done|by rewrite decide_False].
Qed.

Lemma read_mappings_spec client mappings interfaces interfaces' :
  read_mappings env client mappings interfaces = Ok interfaces' →
  (∀ k, is_Some (interfaces !! k) → is_Some (interfaces' !! k)) ∧
  (∀ k s, interfaces' !! k = Some s →
     interfaces !! k = Some s ∨
     ∃ m, m ∈ mappings ∧ mp_Interface m = k ∧ interfaces !! to_lower k = None ∧ asked client k s) ∧
  ∀ m, m ∈ mappings →
    (is_Some (interfaces !! to_lower (mp_Interface m)) ∨
     ∃ m' s, m' ∈ mappings ∧ (mp_Interface m' = to_lower (mp_Interface m) ∨ m' = m) ∧ asked client (mp_Interface m') s) ∧
    (is_Some (interfaces' !! to_lower (mp_Interface m)) ∨ is_Some (interfaces' !! mp_Interface m)).
Proof.
  revert interfaces. induction mappings as [|m rest IH]; intros interfaces; cbn [read_mappings].
  { intros [= <-]. split_and!; [done|by left|]. by intros m []%not_elem_of_nil. }
  destruct (decide (is_Some (interfaces !! to_lower (mp_Interface m)))) as [Hs|Hs].
  - intros (Hk & Hr & Hm)%IH. split_and!; [done| |].
    { intros k s Hks. destruct (Hr k s Hks) as [?|(m2 & ? & ? & ? & ?)]; [by left|right]. exists m2. split_and!; [by right|done..]. }
    intros m' [->|Hin]%elem_of_cons; [split; left; auto|].
    destruct (Hm m' Hin) as [[?|(m2 & s & ? & ? & ?)] ?]; (split; [|done]); [by left|].
    right. exists m2, s. split_and!; [by right|done..].
  - destruct (Interface env client (mp_Interface m)) as [status|] eqn:Ei; cbn [wrap_err mbind result_bind]; [|done].
    intros (Hk & Hr & Hm)%IH. apply Interface_asked in Ei. split_and!.
    + intros k Hi. apply Hk. rewrite lookup_insert_is_Some'. by right.
    + intros k s Hks. destruct (Hr k s Hks) as [Hi|(m2 & Hin & <- & Hn & Ha)].
      * apply lookup_insert_Some in Hi as [[<- <-]|[_ Hi]]; [right|by left].
        exists m. split_and!; [by left|done| |done]. by apply eq_None_not_Some.
      * apply lookup_insert_None in Hn as [Hn _]. right. exists m2. split_and!; [by right|done..].
    + intros m' [->|Hin]%elem_of_cons.
      * split; [right; exists m, status; split_and!; [by left|by right|done]|right].
        apply Hk. by rewrite lookup_insert_eq.
      * destruct (Hm m' Hin) as [Hor Hl]. split; [|done]. destruct Hor as [Hi|(m2 & s & ? & ? & ?)].
        -- apply lookup_insert_is_Some' in Hi as [Hi|Hi]; [|by left]. right. exists m, status.
           split_and!; [by left|by left|done].
        -- right. exists m2, s. split_and!; [by right|done..].
Qed.

(** The rows of the overview are decoded objects of the answer. *)
Lemma DecodeInterfaces_rows raw k s :
  DecodeInterfaces raw !! k = Some s → ∃ key v, interfaceObjects raw !! key = Some v ∧ s = decodeInterfaceObject key v.
Proof.
  unfold DecodeInterfaces.
  assert (∀ rows out, (∀ p, p ∈ rows → interfaceObjects raw !! p.1 = Some p.2) →
    (∀ k s, out !! k = Some s → ∃ key v, interfaceObjects raw !! key = Some v ∧ s = decodeInterfaceObject key v) →
    ∀ k s, fold_left (λ out p, addInterfaceStatus out (decodeInterfaceObject p.1 p.2)) rows out !! k = Some s →
      ∃ key v, interfaceObjects raw !! key = Some v ∧ s = decodeInterfaceObject key v) as Hf.
  { induction rows as [|p rows IH]; intros out Hp Ho; [done|]. cbn [fold_left]. apply IH.
    - intros q Hq. apply Hp. by right.
    - intros k' s'. rewrite add_interface_names, put_names_lookup. case_bool_decide; [|apply Ho].
      intros [= <-]. exists p.1, p.2. split; [apply Hp; by left|done]. }
  apply Hf; [|by intros ??; rewrite lookup_empty].
  intros [q v] Hq. by apply elem_of_range in Hq.
Qed.

(** *** The source, the credentials and the client *)
Definition loaded_source (path : bytes) (source : SourceConfig) : Prop :=
  ∃ text c, hs_read env path = FileRead text ∧ yaml_source text empty_source = Ok c ∧
    source = normalizeSourceConfig c ∧ ValidateSourceConfig source = Ok tt.
Lemma source_loaded path source : LoadSourceConfig (hs_read env) path = Ok source → loaded_source path source.
Proof.
  unfold LoadSourceConfig, DecodeSourceConfig. destruct (hs_read env path) as [data| |] eqn:Er; [|done..].
  destruct (yaml_source data empty_source) as [c|] eqn:Ey; cbn [wrap_err mbind result_bind]; [|done].
  destruct (ValidateSourceConfig _) as [[]|] eqn:Ev; cbn; [|done]. intros [= <-]. by exists data, c.
Qed.

(** A secret is the trimmed value of its environment variable or, if that is
    not given or blank, the trimmed text of its file. *)
Definition secret_of (envName fileName value : bytes) : Prop :=
  value ≠ [] ∧
  (envName ≠ [] ∧ value = trim_space (hs_getenv env envName) ∨
   (envName = [] ∨ trim_space (hs_getenv env envName) = []) ∧ fileName ≠ [] ∧
     ∃ text, hs_read env fileName = FileRead text ∧ value = trim_space text).
Lemma secret_given envName fileName value : secretValue env envName fileName = Ok value → secret_of envName fileName value.
Proof.
  unfold secretValue, secret_of. set (v := if decide (envName = []) then _ else _). cbv zeta.
  destruct (bool_decide_reflect (v = [])) as [E1|E1]; cbn [negb].
  - destruct (decide (fileName = [])) as [Ef|Ef]; [by case_decide|].
    destruct (hs_read env fileName) as [data| |]; [|done..].
    destruct (bool_decide_reflect (trim_space data = [])) as [E2|E2]; cbn [negb]; [done|]. intros [= <-].
    split; [done|]. right. split; [|split; [done|by exists data]].
    unfold v in E1. case_decide; auto.
  - intros [= <-]. split; [done|]. left. unfold v in *. by case_decide.
Qed.
Lemma given_credentials source c :
  LoadCredentials env source = Ok c →
  secret_of (sc_APIKeyEnv source) (sc_APIKeyFile source) (cr_Key c) ∧
  secret_of (sc_APISecretEnv source) (sc_APISecretFile source) (cr_Secret c).
Proof.
  unfold LoadCredentials. destruct (secretValue env (sc_APIKeyEnv _) _) eqn:E1; [|done]. cbn.
  destruct (secretValue env (sc_APISecretEnv _) _) eqn:E2; [|done]. cbn. intros [= <-].
  split; by apply secret_given.
Qed.
(** The client asks the source's firewall, over HTTP or HTTPS, with the
    source's time limit and certificates. *)
Definition client_of (source : SourceConfig) (c : Credentials) (client : Client) : Prop :=
  cl_credentials client = c ∧ cl_baseURL client = trim_slashes (trim_space (sc_BaseURL source)) ∧
  (∃ u, url_parse ipv6_literal (cl_baseURL client) = Some u ∧ u_scheme u ∈ [B "https"; B "http"] ∧ u_host u ≠ []) ∧
  cl_timeout client = Timeout source ∧ cl_insecure client = sc_InsecureSkipVerify source ∧
  match cl_roots client with
  | None => sc_CAFile source = []
  | Some data => sc_CAFile source ≠ [] ∧ hs_read env (sc_CAFile source) = FileRead data ∧ hs_pem env data = true
  end.
Lemma new_client source c client : NewClient env source c = Ok client → client_of source c client.
Proof.
  unfold NewClient, normalizeBaseURL, clientTransport, client_of.
  destruct (decide (trim_slashes (trim_space (sc_BaseURL source)) = [])); [done|].
  destruct (url_parse _ _) as [u|] eqn:Eu; [|done].
  destruct (bool_decide_reflect (u_scheme u ∈ [B "https"; B "http"])) as [Hs|]; cbn [negb]; [|done].
  destruct (decide (u_host u = [])) as [Eh|Eh]; [done|]. cbn [mbind result_bind].
  destruct (decide (sc_CAFile source = [])) as [Ec|Ec]; cbn [mbind result_bind].
  - intros [= <-]. cbn. do 2 (split; [done|]). split; [by exists u|]. by split_and!.
  - destruct (hs_read env (sc_CAFile source)) as [data| |] eqn:Er; [|done..].
    destruct (hs_pem env data) eqn:Ep; [|done]. intros [= <-]. cbn. do 2 (split; [done|]). split; [by exists u|]. by split_and!.
Qed.

Lemma read_gateways client (wanted : bool) gateways :
  (if wanted then wrap_err "read OPNsense gateway status" (GatewayStatuses env client) else Ok ∅) = Ok gateways →
  if wanted then ∃ raw, complete_answer client (B "/routes/gateway/status") raw ∧ gateways = DecodeGatewayStatuses raw
  else gateways = ∅.
Proof.
  destruct wanted; [|by intros [= <-]]. unfold GatewayStatuses.
  destruct (getJSON env client _) as [raw|] eqn:E; cbn; [|done]. intros [= <-]. exists raw.
  split; [by apply getJSON_complete|done].
Qed.

(** C29: what the companion writes is the generated configuration of the base and
    of the accepted source file, made only of complete answers (status 2xx, at
    most 8 MiB, one JSON value) that the source's firewall gave to requests with
    the source's two secrets.  Every row of the interface table is a decoded
    object of the overview, or of the answer to the request for the interface
    of a mapping which the overview does not list; every mapped interface was in
    the overview or was asked for, and has a row; the gateway table is decoded
    from its answer, or empty if the source does not ask for it. *)
Theorem run_generates configPath sourcePath outputPath o :
  run env configPath sourcePath outputPath false = Ok o →
  ∃ base source credentials client raw interfaces gateways data,
    Load (hs_read env) configPath = Ok base ∧ loaded_source sourcePath source ∧
    secret_of (sc_APIKeyEnv source) (sc_APIKeyFile source) (cr_Key credentials) ∧
    secret_of (sc_APISecretEnv source) (sc_APISecretFile source) (cr_Secret credentials) ∧
    client_of source credentials client ∧
    complete_answer client (B "/interfaces/overview/interfaces_info") raw ∧
    (∀ k s, DecodeInterfaces raw !! k = Some s →
       ∃ key v, interfaceObjects raw !! key = Some v ∧ s = decodeInterfaceObject key v) ∧
    (∀ k, is_Some (DecodeInterfaces raw !! k) → is_Some (interfaces !! k)) ∧
    (∀ k s, interfaces !! k = Some s →
       DecodeInterfaces raw !! k = Some s ∨
       ∃ m, m ∈ sc_Interfaces source ∧ mp_Interface m = k ∧ DecodeInterfaces raw !! to_lower k = None ∧
         asked client k s) ∧
    (∀ m, m ∈ sc_Interfaces source →
       (is_Some (DecodeInterfaces raw !! to_lower (mp_Interface m)) ∨
        ∃ m' s, m' ∈ sc_Interfaces source ∧ (mp_Interface m' = to_lower (mp_Interface m) ∨ m' = m) ∧
          asked client (mp_Interface m') s) ∧
       (is_Some (interfaces !! to_lower (mp_Interface m)) ∨ is_Some (interfaces !! mp_Interface m))) ∧
    (if sc_GatewayStatus source
     then ∃ raw', complete_answer client (B "/routes/gateway/status") raw' ∧ gateways = DecodeGatewayStatuses raw'
     else gateways = ∅) ∧
    yaml_marshal_config (GenerateConfig base source interfaces gateways) = Some data ∧
    (o = Printed data ∧ outputPath = [] ∨ o = Written outputPath data ∧ outputPath ≠ [] ∧ hs_write env outputPath data = true).
Proof.
  unfold run. case_decide; [done|].
  destruct (Load (hs_read env) configPath) as [base|]; cbn [wrap_err mbind result_bind]; [|done].
  destruct (LoadSourceConfig (hs_read env) sourcePath) as [source|] eqn:El; cbn [wrap_err mbind result_bind]; [|done].
  destruct (LoadCredentials env source) as [credentials|] eqn:Ec; cbn [wrap_err mbind result_bind]; [|done].
  destruct (NewClient env source credentials) as [client|] eqn:En; cbn [wrap_err mbind result_bind]; [|done].
  destruct (readInterfaces env client source) as [interfaces|] eqn:Ei; cbn [wrap_err mbind result_bind]; [|done].
  apply source_loaded in El. apply given_credentials in Ec as [Ec1 Ec2]. apply new_client in En.
  unfold readInterfaces, InterfacesInfo in Ei.
  destruct (getJSON env client _) as [raw|] eqn:Eg; cbn [wrap_err mbind result_bind] in Ei; [|done].
  apply getJSON_complete in Eg. apply read_mappings_spec in Ei as (Hk & Hr & Hm).
  destruct (if sc_GatewayStatus source then _ else _) as [gateways|] eqn:Egw; cbn [mbind result_bind]; [|done].
  apply read_gateways in Egw.
  unfold MarshalConfig. destruct (yaml_marshal_config _) as [data|] eqn:Ed; cbn [wrap_err mbind result_bind]; [|done].
  intros Ho. exists base, source, credentials, client, raw, interfaces, gateways, data.
  split_and!; try done; [intros k s; apply DecodeInterfaces_rows|].
  case_decide; [left; by injection Ho as <-|]. destruct (hs_write env outputPath data) eqn:Ew; [|done].
  right. by injection Ho as <-.
Qed.
End facts.

(** ** Witness: a firewall that lists one of two interfaces *)
#[local] Existing Instances ascii_tables amd64_conversion list_order list_order_laws no_ipv6.
Definition plain_source : OpnsenseYaml := {|
  yaml_source _ _ := Ok (MkSource (B "https://fw/") [] (B "/secret") (B "KEY") [] [] false 2000 1 false
    [sample_mapping 2 (B "igb1") (B "two"); sample_mapping 1 (B "OPT1") []] (MkWANHealthConfig [] 0 0 []));
  yaml_marshal_config c := Some (join (B ";") (map (λ o, join (B ",") [itoa (po_Port o); ot_Interface (po_Text o); ot_IP (po_Text o)])
                                                (cfg_PortOverrides c)));
|}.
#[local] Existing Instance plain_source.
Definition base_yaml : ConfigYaml := {| yaml_config _ base := Ok base |}.
#[local] Existing Instance base_yaml.
Definition answer (body : bytes) : option http_response := Some (MkHttpResponse 200 [] body false).
Definition sample_host : surroundings := MkHostEnv (λ _, B " key ") (λ _, FileRead (B "secret" ++ [x0a])) (λ _, true)
  (λ _ url,
     if decide (url = B "https://fw/api/interfaces/overview/interfaces_info")
     then answer (J "{'rows': [{'device': 'igb1', 'ipaddr': '192.0.2.9/24'}]}")
     else if decide (url = B "https://fw/api/interfaces/overview/get_interface/OPT1")
     then answer (J "{'device': 'igb0', 'identifier': 'opt1', 'ipaddr': '192.0.2.1/24'}") else None)
  (λ _ _, true).

(** An interface that had to be asked for is stored under the name of its
    mapping and looked up in lower case, so with a capital letter in that name
    what the firewall answered is lost: port 1 has no address. *)
Lemma capital_mapping_lost :
  run sample_host (B "c") (B "s") [] false = Ok (Printed (B "1,OPT1,;2,igb1,192.0.2.9")).
Proof. vm_compute. done. Qed.

Lemma run_generates_witness :
  run sample_host (B "c") (B "s") [] false = Ok (Printed (B "1,OPT1,;2,igb1,192.0.2.9")) ∧
  ∃ client raw,
    cl_credentials client = MkCredentials (B "key") (B "secret") ∧
    complete_answer sample_host client (B "/interfaces/overview/interfaces_info") raw.
Proof.
  assert (run sample_host (B "c") (B "s") [] false = Ok (Printed (B "1,OPT1,;2,igb1,192.0.2.9"))) as Hr by (vm_compute; reflexivity).
  split; [exact Hr|].
  destruct (run_generates sample_host (B "c") (B "s") [] _ Hr) as
    (base & source & [key secret] & client & raw & _ & _ & _ & _ & (text & c & _ & Hy & -> & _) & Hk & Hs & (Hc & _) & Ha & _).
  injection Hy as <-. exists client, raw. split; [|exact Ha]. rewrite Hc.
  destruct Hk as (_ & [(_ & Hk)|([Hk|Hk] & _)]); [|discriminate Hk|vm_compute in Hk; discriminate Hk].
  destruct Hs as (_ & [(Hn & _)|(_ & _ & text' & Ht & Hs)]); [exfalso; apply Hn; reflexivity|].
  injection Ht as <-. cbn in Hk, Hs. f_equal; [rewrite Hk|rewrite Hs]; vm_compute; reflexivity.
Defined.
