(* ===== verification/JsonText.v ===== *)
(** The text [json.MarshalIndent(v, "", "  ")] writes, and what a JSON decoder
    reads back from it.

    [src/internal/device/payload/build.go] and the status and guard files of
    [src/cmd/unifi-stubd] marshal this way; the trees are those of
    PayloadTypes.  Strings are escaped for HTML, invalid UTF-8 becomes U+FFFD,
    floats are written by the rules of [encoding/json]. *)
From Stdlib Require Import Floats.SpecFloat.
From S2P Require Import Prelude GoStrings GoUtf8 GoJson GoFloat PayloadTypes GoAny.

(** ** Strings *)
Definition escape_byte (b : byte) : bytes :=
  if bool_decide (b ∈ [x22; x5c]) then [x5c; b]
  else if decide (b = x08) then B "\b"
  else if decide (b = x0c) then B "\f"
  else if decide (b = x0a) then B "\n"
  else if decide (b = x0d) then B "\r"
  else if decide (b = x09) then B "\t"
  else if (b2z b <? 0x20) || bool_decide (b ∈ [x3c; x3e; x26]) then
    B "\u00" ++ [hex_digit (b2z b / 16); hex_digit (b2z b mod 16)]
  else [b].

(** U+2028 and U+2029 are escaped too. *)
Definition line_separator (r : Z) : bool := (r =? 0x2028) || (r =? 0x2029).

Fixpoint quote_bytes (s : bytes) : bytes :=
  match s with
  | [] => []
  | a :: s1 =>
      if b2z a <? 128 then escape_byte a ++ quote_bytes s1 else
      match s1 with
      | [] => B "\ufffd"
      | b :: s2 =>
          if seq2 a b then [a; b] ++ quote_bytes s2 else
          match s2 with
          | [] => B "\ufffd" ++ quote_bytes s1
          | c :: s3 =>
              if seq3 a b c then
                (if line_separator (cp3 a b c) then B "\u202" ++ [hex_digit (cp3 a b c mod 16)] else [a; b; c])
                ++ quote_bytes s3
              else
              match s3 with
              | [] => B "\ufffd" ++ quote_bytes s1
              | d :: s4 =>
                  if seq4 a b c d then [a; b; c; d] ++ quote_bytes s4
                  else B "\ufffd" ++ quote_bytes s1
              end
          end
      end
  end.
Definition json_string (s : bytes) : bytes := x22 :: quote_bytes s ++ [x22].

(** ** Numbers *)
Definition int_text (z : Z) : bytes :=
  let digits n := itoa_pos (S (Z.to_nat (Z.log2 n))) n [] in
  if z <? 0 then x2d :: digits (- z) else digits z.

(** [strconv.AppendFloat] with format ['f'] or ['e'] and the shortest precision,
    of the decimal [digits * 10 ^ exponent]. *)
Definition fixed_digits (digits exponent : Z) : bytes :=
  let text := int_text digits in
  let point := zlen text + exponent in
  let text := rev (drop_zeros (rev text)) in
  if point <=? 0 then B "0." ++ repeat x30 (Z.to_nat (- point)) ++ text
  else if zlen text <=? point then text ++ repeat x30 (Z.to_nat (point - zlen text))
  else take (Z.to_nat point) text ++ B "." ++ drop (Z.to_nat point) text.
Definition scientific_digits (digits exponent : Z) : bytes :=
  let text := int_text digits in
  let point := zlen text + exponent in
  let text := rev (drop_zeros (rev text)) in
  take 1 text ++ (if 1 <? zlen text then B "." ++ drop 1 text else []) ++ B "e"
  ++ (if point - 1 <? 0 then B "-" else B "+") ++ int_text (Z.abs (point - 1)).

(** [floatEncoder]; [None] is its error for a float that is not finite. *)
Definition json_float (f : float64) : option bytes :=
  match f with
  | S754_zero s => Some ((if s then B "-" else []) ++ B "0")
  | S754_finite s m e =>
      let r := ratio m e in
      let '(digits, exponent) := shortest 16 1 (SFabs f) r (decimal_point r) in
      let magnitude := zlen (int_text digits) + exponent in
      Some ((if s then B "-" else [])
            ++ if (magnitude <? -5) || (21 <? magnitude) then scientific_digits digits exponent
               else fixed_digits digits exponent)
  | _ => None
  end.

(** ** Documents

    A line of nesting [level] starts with two spaces per level. *)
Definition new_line (level : nat) : bytes := x0a :: repeat x20 (2 * level).
Definition composite (opening closing : byte) (level : nat) (items : list bytes) : bytes :=
  match items with
  | [] => [opening; closing]
  | v :: rest =>
      [opening] ++ new_line (S level) ++ v ++ concat (map (λ v, B "," ++ new_line (S level) ++ v) rest)
      ++ new_line level ++ [closing]
  end.
Definition member_text (name value : bytes) : bytes := json_string name ++ B ": " ++ value.

Fixpoint json_text (level : nat) (j : json) : bytes :=
  match j with
  | JNull => B "null"
  | JBool b => if b then B "true" else B "false"
  | JInt z => int_text z
  | JFloat f => default [] (json_float f)
  | JText s => json_string s
  | JList l => composite x5b x5d level (map (json_text (S level)) l)
  | JObject l => composite x7b x7d level (map (λ m, member_text m.1 (json_text (S level) m.2)) l)
  end.

Fixpoint floats_finite (j : json) : bool :=
  match j with
  | JFloat f => match json_float f with Some _ => true | None => false end
  | JList l => forallb floats_finite l
  | JObject members => forallb (λ m, floats_finite m.2) members
  | _ => true
  end.
Definition MarshalIndent (j : json) : option bytes :=
  if floats_finite j then Some (json_text 0 j) else None.

(** ** What a text says

    The decoder of [encoding/json] with numbers kept as their literals. *)
Inductive document :=
| DNull
| DBool (b : bool)
| DNumber (literal : bytes)
| DString (s : bytes)
| DList (l : list document)
| DObject (members : list (bytes * document)).

Fixpoint decode_document (fuel : nat) (data : bytes) : option document :=
  match fuel with
  | O => None
  | S f =>
      match whole_value data with
      | Some (c :: t) =>
          if decide (c = x7b) then
            match unmarshal_object data with
            | Some (Some l) => DObject <$> mapM (λ p, pair p.1 <$> decode_document f p.2) l
            | _ => None
            end
          else if decide (c = x5b) then
            match unmarshal_array data with
            | Some (Some l) => DList <$> mapM (decode_document f) l
            | _ => None
            end
          else if decide (c = x22) then Some (DString (unquote (c :: t)))
          else if decide (c = x6e) then Some DNull
          else if decide (c = x74) then Some (DBool true)
          else if decide (c = x66) then Some (DBool false)
          else Some (DNumber (c :: t))
      | _ => None
      end
  end.
Definition read_document (data : bytes) : option document := decode_document (S (length data)) data.

(** A Go string as JSON transports it. *)
Definition transported (s : bytes) : bytes := encode_runes (runes s).
Fixpoint document_of (j : json) : document :=
  match j with
  | JNull => DNull
  | JBool b => DBool b
  | JInt z => DNumber (int_text z)
  | JFloat f => DNumber (default [] (json_float f))
  | JText s => DString (transported s)
  | JList l => DList (map document_of l)
  | JObject members => DObject (map (λ m, (transported m.1, document_of m.2)) members)
  end.

(** A literal the scanner reads as a number. *)
Definition number_state (st : scan_state) : bool :=
  match st with Neg | Num1 | Num0 | Dot | Dot0 | Exp | ExpSign | Exp0 => true | _ => false end.
Definition number_end (st : scan_state) : bool :=
  match st with Num1 | Num0 | Dot0 | Exp0 => true | _ => false end.
Fixpoint number_run (st : scan_state) (s : bytes) : option scan_state :=
  match s with
  | [] => Some st
  | c :: s =>
      match step st [] c with
      | SCont st' _ => if number_state st' then number_run st' s else None
      | _ => None
      end
  end.
Definition json_number (s : bytes) : bool :=
  match number_run BeginValue s with Some st => number_end st | None => false end.

(** Nested at most [n] deep, and every float written as a number. *)
Fixpoint printable (n : nat) (j : json) {struct j} : bool :=
  match j with
  | JFloat f => match json_float f with Some text => json_number text | None => false end
  | JList l => match n with O => false | S n => forallb (printable n) l end
  | JObject members => match n with O => false | S n => forallb (λ m, printable n m.2) members end
  | _ => true
  end.

(** ** Examples *)
Example indented_text :
  MarshalIndent (JObject [(B "a", JList [JInt (-12); JText (B "<x>")]); (B "b", JObject []); (B "c", JList []); (B "d", JNull)])
  = Some (B "{" ++ [x0a] ++ J "  'a': [" ++ [x0a] ++ J "    -12," ++ [x0a] ++ J "    '\u003cx\u003e'" ++ [x0a]
          ++ J "  ]," ++ [x0a] ++ J "  'b': {}," ++ [x0a] ++ J "  'c': []," ++ [x0a] ++ J "  'd': null" ++ [x0a] ++ B "}").
Proof. vm_compute. reflexivity. Qed.
Example floats_text :
  map (λ s, default [] (parse_number s ≫= json_float))
    [B "0.5"; B "1e20"; B "1e21"; B "1e22"; B "0.000001"; B "1e-7"; B "-2.50"; B "123456789"]
  = [B "0.5"; B "100000000000000000000"; B "1e+21"; B "1e+22"; B "0.000001"; B "1e-7"; B "-2.5"; B "123456789"].
Proof. vm_compute. reflexivity. Qed.

(** ** Strings read back *)
Section byte_facts.
Implicit Types b : byte.

(** A property of bytes that a computation decides. *)
Definition all_bytes (P : byte → bool) : bool := forallb (λ n, P (z2b (Z.of_nat n))) (seq 0 256).
Lemma all_bytes_spec P b : all_bytes P = true → P b = true.
Proof.
  intros Ha. unfold all_bytes in Ha. rewrite forallb_forall in Ha. pose proof (b2z_range b).
  specialize (Ha (Z.to_nat (b2z b)) ltac:(apply in_seq; lia)). by rewrite Z2Nat.id, z2b_b2z in Ha by lia.
Qed.
End byte_facts.

(** The runes of a string, one sequence at a time. *)
Lemma utf8_cases (P : bytes → Prop) :
  P [] →
  (∀ a s, b2z a <? 128 = true → P s → P (a :: s)) →
  (∀ a s, b2z a <? 128 = false → quote_bytes (a :: s) = B "\ufffd" ++ quote_bytes s →
     runes (a :: s) = rune_error :: runes s → valid_utf8 (a :: s) = false → P s → P (a :: s)) →
  (∀ a b s, b2z a <? 128 = false → seq2 a b = true → P s → P (a :: b :: s)) →
  (∀ a b c s, b2z a <? 128 = false → seq2 a b = false → seq3 a b c = true → P s → P (a :: b :: c :: s)) →
  (∀ a b c d s, b2z a <? 128 = false → seq2 a b = false → seq3 a b c = false → seq4 a b c d = true →
     P s → P (a :: b :: c :: d :: s)) →
  ∀ s, P s.
Proof.
  intros Hnil H1 Hbad H2 H3 H4 s. induction s as [s IH] using (induction_ltof1 _ length). unfold ltof in IH.
  destruct s as [|a s1]; [done|].
  destruct (b2z a <? 128) eqn:E1; [apply H1; [done|apply IH; cbn; lia]|].
  destruct s1 as [|b s2]; [apply Hbad; [done|by cbn; rewrite E1..|apply IH; cbn; lia]|].
  destruct (seq2 a b) eqn:E2; [apply H2; [done..|apply IH; cbn; lia]|].
  destruct s2 as [|c s3]; [apply Hbad; [done|cbn [quote_bytes runes valid_utf8]; by rewrite E1, E2..|apply IH; cbn; lia]|].
  destruct (seq3 a b c) eqn:E3; [apply H3; [done..|apply IH; cbn; lia]|].
  destruct s3 as [|d s4]; [apply Hbad; [done|cbn [quote_bytes runes valid_utf8]; by rewrite E1, E2, E3..|apply IH; cbn; lia]|].
  destruct (seq4 a b c d) eqn:E4; [apply H4; [done..|apply IH; cbn; lia]|].
  apply Hbad; [done|cbn [quote_bytes runes valid_utf8]; by rewrite E1, E2, E3, E4..|apply IH; cbn; lia].
Qed.

Lemma wide_byte a : b2z a <? 128 = false → a ≠ x22 ∧ a ≠ x5c ∧ (b2z a <? 0x20) = false.
Proof. intros Ha. split; [by intros ->|]. split; [by intros ->|lia]. Qed.

Lemma unquote_escape_byte b t :
  b2z b <? 128 = true → unquote_runes (escape_byte b ++ t) = b2z b :: unquote_runes t.
Proof. destruct b; intros Hb; try discriminate Hb; reflexivity. Qed.

Lemma separator_hex r : line_separator r = true → r = 0x2028 ∨ r = 0x2029.
Proof. unfold line_separator. rewrite orb_true_iff. lia. Qed.

Lemma unquote_quote_bytes s t : unquote_runes (quote_bytes s ++ x22 :: t) = runes s.
Proof.
  induction s as [|a s Ha IH|a s Ha Hq Hr Hv IH|a b s Ha Hb IH|a b c s Ha Hb Hc IH|a b c d s Ha Hb Hc Hd IH]
    using utf8_cases; [done|..].
  - cbn [quote_bytes runes]. rewrite Ha, <- app_assoc, unquote_escape_byte by done. by f_equal.
  - rewrite Hq, Hr, <- app_assoc. change (B "\ufffd") with [x5c; x75; x66; x66; x66; x64].
    cbn [app unquote_runes]. by f_equal.
  - destruct (wide_byte a Ha) as (N1 & N2 & _). cbn [quote_bytes runes]. rewrite Ha, Hb. cbn [app unquote_runes].
    rewrite Ha, Hb, !decide_False by done. by f_equal.
  - destruct (wide_byte a Ha) as (N1 & N2 & _). cbn [quote_bytes runes]. rewrite Ha, Hb, Hc.
    destruct (line_separator _) eqn:El.
    + rewrite <- !app_assoc. apply separator_hex in El as [El|El]; rewrite El; cbn [app];
        rewrite <- IH; reflexivity.
    + cbn [app unquote_runes]. rewrite Ha, Hb, Hc, !decide_False by done. by f_equal.
  - destruct (wide_byte a Ha) as (N1 & N2 & _). cbn [quote_bytes runes]. rewrite Ha, Hb, Hc, Hd.
    cbn [app unquote_runes]. rewrite Ha, Hb, Hc, Hd, !decide_False by done. by f_equal.
Qed.

Lemma unquote_json_string s : unquote (json_string s) = transported s.
Proof. unfold json_string, unquote, transported. by rewrite unquote_quote_bytes. Qed.

(** ** Runs of the scanner *)
Definition prepend (s : bytes) (p : bytes * bytes) : bytes * bytes := (s ++ p.1, p.2).
Definition runs (st : scan_state) (ps : list parse_state) (s : bytes) (st' : scan_state) (ps' : list parse_state) : Prop :=
  ∀ rest, scan st ps (s ++ rest) = prepend s <$> scan st' ps' rest.

Lemma prepend_app s t (o : option (bytes * bytes)) : prepend s <$> (prepend t <$> o) = prepend (s ++ t) <$> o.
Proof. destruct o; [|done]. unfold prepend. cbn. by rewrite app_assoc. Qed.
Lemma runs_nil st ps : runs st ps [] st ps.
Proof. intros rest. cbn [app]. by destruct (scan st ps rest) as [[v r]|]. Qed.
Lemma runs_app st1 ps1 s st2 ps2 t st3 ps3 :
  runs st1 ps1 s st2 ps2 → runs st2 ps2 t st3 ps3 → runs st1 ps1 (s ++ t) st3 ps3.
Proof. intros H1 H2 rest. by rewrite <- app_assoc, H1, H2, prepend_app. Qed.
Lemma runs_cons st ps c st1 ps1 s st2 ps2 :
  step st ps c = SCont st1 ps1 → runs st1 ps1 s st2 ps2 → runs st ps (c :: s) st2 ps2.
Proof.
  intros Hs Hr rest. cbn [app scan]. rewrite Hs, Hr. by destruct (scan st2 ps2 rest) as [[v r]|].
Qed.
Lemma runs_one st ps c st1 ps1 : step st ps c = SCont st1 ps1 → runs st ps [c] st1 ps1.
Proof. intros Hs. eapply runs_cons; [done|apply runs_nil]. Qed.

Lemma runs_escape_byte ps b : b2z b <? 128 = true → runs InString ps (escape_byte b) InString ps.
Proof.
  destruct b; intros Hb; try discriminate Hb;
    match goal with |- runs _ _ ?s _ _ => let s' := eval vm_compute in s in change s with s' end;
    repeat (eapply runs_cons; [reflexivity|]); apply runs_nil.
Qed.
Lemma runs_wide_bytes ps s :
  Forall (λ b, b2z b <? 128 = false) s → runs InString ps s InString ps.
Proof.
  induction 1 as [|b s Hb Hs IH]; [apply runs_nil|]. eapply runs_cons; [|exact IH].
  destruct (wide_byte b Hb) as (N1 & N2 & N3). cbn [step]. by rewrite !decide_False, N3 by done.
Qed.
Lemma cont_wide b : cont b = true → b2z b <? 128 = false.
Proof. unfold cont. lia. Qed.

Lemma seq_wide a b c d :
  (seq2 a b = true → b2z b <? 128 = false) ∧
  (seq3 a b c = true → b2z b <? 128 = false ∧ b2z c <? 128 = false) ∧
  (seq4 a b c d = true → b2z b <? 128 = false ∧ b2z c <? 128 = false ∧ b2z d <? 128 = false).
Proof.
  unfold seq2, seq3, seq4. split; [intros H; bool_to_prop; by apply cont_wide|].
  split; intros H; bool_to_prop; split_and?; try (by apply cont_wide); repeat case_match; lia.
Qed.

Lemma runs_quote_bytes ps s : runs InString ps (quote_bytes s) InString ps.
Proof.
  induction s as [|a s Ha IH|a s Ha Hq Hr Hv IH|a b s Ha Hb IH|a b c s Ha Hb Hc IH|a b c d s Ha Hb Hc Hd IH]
    using utf8_cases; [apply runs_nil|..].
  - cbn [quote_bytes]. rewrite Ha. eapply runs_app; [by apply runs_escape_byte|done].
  - rewrite Hq. eapply runs_app; [|done]. repeat (eapply runs_cons; [reflexivity|]). apply runs_nil.
  - cbn [quote_bytes]. rewrite Ha, Hb. eapply runs_app; [|done]. apply runs_wide_bytes.
    destruct (seq_wide a b a a) as (K & _). by repeat constructor; auto.
  - cbn [quote_bytes]. rewrite Ha, Hb, Hc. eapply runs_app; [|done]. destruct (line_separator _) eqn:El.
    + apply separator_hex in El as [El|El]; rewrite El; repeat (eapply runs_cons; [reflexivity|]); apply runs_nil.
    + apply runs_wide_bytes. destruct (seq_wide a b c a) as (_ & K & _). destruct (K Hc). by repeat constructor.
  - cbn [quote_bytes]. rewrite Ha, Hb, Hc, Hd. eapply runs_app; [|done]. apply runs_wide_bytes.
    destruct (seq_wide a b c d) as (_ & _ & K). destruct (K Hd) as (? & ? & ?). by repeat constructor.
Qed.

Lemma runs_string ps s : runs InString ps (quote_bytes s ++ [x22]) EndValue ps.
Proof. eapply runs_app; [apply runs_quote_bytes|]. by apply runs_one. Qed.

(** ** Numbers scan *)
Lemma number_step st ps c st' ps' :
  (st = BeginValue ∨ number_state st = true) → step st [] c = SCont st' ps' → number_state st' = true →
  step st ps c = SCont st' ps.
Proof.
  intros Hst Hs Hn. unfold step, step_begin_value, step_num0, step_exp_sign, push_state in *.
  destruct Hst as [->|Hst]; [|destruct st; try discriminate Hst];
    repeat case_match; try discriminate Hs; injection Hs as <- _; try discriminate Hn; try done.
Qed.

Lemma number_runs st s st' ps :
  (st = BeginValue ∨ number_state st = true) → number_run st s = Some st' → runs st ps s st' ps.
Proof.
  revert st. induction s as [|c s IH]; intros st Hst; cbn [number_run]; [intros [= ->]; apply runs_nil|].
  destruct (step st [] c) as [st1 ps1| | |] eqn:Es; [|done..]. destruct (number_state st1) eqn:En; [|done].
  intros Hr. eapply runs_cons; [by eapply number_step|]. apply IH; [by right|done].
Qed.

Lemma number_run_app st s t : number_run st (s ++ t) = number_run st s ≫= λ st', number_run st' t.
Proof.
  revert st. induction s as [|c s IH]; intros st; [done|]. cbn.
  destruct (step st [] c); [|done..]. destruct (number_state st0); [apply IH|done].
Qed.

Lemma digits_run s : forallb is_digit s = true → number_run Num1 s = Some Num1.
Proof.
  induction s as [|c s IH]; [done|]. cbn [forallb]. intros [Hc Hs]%andb_true_iff.
  cbn. rewrite Hc. cbn. auto.
Qed.

Lemma itoa_pos_head fuel n acc :
  0 < n < 10 ^ Z.of_nat (S fuel) →
  ∃ d ds, itoa_pos (S fuel) n acc = d :: ds ++ acc ∧ is_digit d = true ∧ d ≠ x30 ∧ forallb is_digit ds = true.
Proof.
  revert n acc. induction fuel as [|fuel IH]; intros n acc Hn; cbn [itoa_pos];
    destruct (dec_digit_ok n) as [H1 H2]; destruct (n <? 10) eqn:E.
  1, 3: exists (dec_digit n), []; split_and!; [done..| |done]; intros K; rewrite K in H2;
    change (digit_val x30) with 0 in H2; rewrite Z.mod_small in H2; lia.
  - change (10 ^ Z.of_nat 1) with 10 in Hn. lia.
  - rewrite Nat2Z.inj_succ, Z.pow_succ_r in Hn by lia.
    destruct (IH (n / 10) (dec_digit n :: acc)) as (d & ds & E' & Hd & H0 & Hds).
    { split; [apply Z.div_str_pos; lia|]. apply Z.div_lt_upper_bound; lia. }
    cbn [itoa_pos] in E'. rewrite E'. exists d, (ds ++ [dec_digit n]). rewrite <- app_assoc. split_and!; [done..|].
    rewrite forallb_app, Hds. cbn. by rewrite H1.
Qed.

Lemma digits_fuel n : 0 < n → 0 < n < 10 ^ Z.of_nat (S (Z.to_nat (Z.log2 n))).
Proof.
  intros Hn. split; [done|]. pose proof (Z.log2_nonneg n). pose proof (Z.log2_spec n Hn) as [_ Hl].
  rewrite Nat2Z.inj_succ, Z2Nat.id by done. eapply Z.lt_le_trans; [exact Hl|]. apply Z.pow_le_mono_l. lia.
Qed.

(** The text of an integer is a number that reads back. *)
Lemma int_text_natural n :
  0 ≤ n → ∃ ds, itoa_pos (S (Z.to_nat (Z.log2 n))) n [] = ds ∧ digits_val ds = n ∧
    ∀ st, st = BeginValue ∨ st = Neg → ∃ st', number_run st ds = Some st' ∧ number_end st' = true.
Proof.
  intros Hn. eexists. split; [done|]. destruct (decide (n = 0)) as [->|Hne].
  { split; [reflexivity|]. intros st [->| ->]; exists Num0; split; reflexivity. }
  pose proof (digits_fuel n ltac:(lia)) as Hf. split.
  - destruct (itoa_pos_spec (Z.to_nat (Z.log2 n)) n [] ltac:(lia)) as (ds & -> & _ & _ & Hv). by rewrite app_nil_r.
  - destruct (itoa_pos_head _ n [] Hf) as (d & ds & -> & Hd & H0 & Hds). rewrite app_nil_r. intros st Hst.
    exists Num1. split; [|done].
    assert (step st [] d = SCont Num1 []) as Es.
    { destruct d; try discriminate Hd; try done; by destruct Hst as [->| ->]. }
    cbn [number_run]. rewrite Es. cbn [number_state]. by apply digits_run.
Qed.

Lemma int_text_number z : json_number (int_text z) = true.
Proof.
  unfold json_number, int_text. destruct (z <? 0) eqn:Ez.
  - destruct (int_text_natural (- z) ltac:(lia)) as (ds & E & _ & Hr). rewrite E.
    destruct (Hr Neg) as (st & Hst & He); [by right|].
    change (number_run BeginValue (x2d :: ds)) with (number_run Neg ds). by rewrite Hst.
  - destruct (int_text_natural z ltac:(lia)) as (ds & E & _ & Hr). rewrite E.
    destruct (Hr BeginValue) as (st & Hst & He); [by left|]. by rewrite Hst.
Qed.

(** Within 64 bits it is what [strconv.ParseInt] reads. *)
Lemma clamp64_in z : in_int64 z → clamp64 z = IntValue z.
Proof. intros Hz. unfold clamp64, in_int64 in *. by rewrite !(proj2 (Z.ltb_ge _ _)) by lia. Qed.

Lemma atoi_int_text z : in_int64 z → atoi (int_text z) = Some z.
Proof.
  intros Hz. unfold int_text. destruct (z <? 0) eqn:Ez.
  - destruct (itoa_pos_head _ (- z) [] (digits_fuel (- z) ltac:(lia))) as (d & ds & E & Hd & _ & Hds).
    destruct (int_text_natural (- z) ltac:(lia)) as (ds' & E' & Hv & _). rewrite E'. rewrite E, app_nil_r in E'.
    subst ds'. unfold atoi, parse_int. rewrite decide_True by done. cbn [forallb]. rewrite Hd, Hds, Hv. cbn [andb].
    by rewrite Z.opp_involutive, clamp64_in.
  - destruct (decide (z = 0)) as [->|Hz0]; [reflexivity|].
    destruct (itoa_pos_head _ z [] (digits_fuel z ltac:(lia))) as (d & ds & E & Hd & _ & Hds).
    destruct (int_text_natural z ltac:(lia)) as (ds' & E' & Hv & _). rewrite E'. rewrite E, app_nil_r in E'.
    subst ds'. unfold atoi, parse_int. rewrite !decide_False by (by intros ->). cbn [forallb]. rewrite Hd, Hds, Hv. cbn [andb].
    by rewrite clamp64_in.
Qed.

(** ** A text is one value *)
(** The bytes behind a value: the end, a separator, or white space. *)
Definition terminated (rest : bytes) : Prop :=
  match rest with [] => True | c :: _ => json_ws c = true ∨ c ∈ [x2c; x5d; x7d] end.
(** A value ends the scan at the top and goes on inside a composite. *)
Definition after (ps : list parse_state) (v rest : bytes) : option (bytes * bytes) :=
  match ps with [] => Some (v, rest) | _ => prepend v <$> scan EndValue ps rest end.
Definition scanned (ps : list parse_state) (v : bytes) : Prop :=
  ∀ rest, terminated rest → scan BeginValue ps (v ++ rest) = after ps v rest.

Lemma terminator_step st ps c :
  number_end st = true → json_ws c = true ∨ c ∈ [x2c; x5d; x7d] → step st ps c = step_end_value ps c.
Proof.
  unfold json_ws. rewrite bool_decide_eq_true. intros Hst Hc.
  assert (c ∈ [x20; x09; x0d; x0a; x2c; x5d; x7d]) as Hin by set_solver.
  repeat (apply elem_of_cons in Hin as [->|Hin]; [by destruct st|]). by apply elem_of_nil in Hin.
Qed.

Lemma end_value_scan st ps v rest :
  st = EndValue ∨ number_end st = true → terminated rest → prepend v <$> scan st ps rest = after ps v rest.
Proof.
  intros [->|Hst] Ht.
  - unfold after. destruct ps; [|done]. destruct rest as [|c rest]; cbn; unfold prepend; cbn; by rewrite app_nil_r.
  - destruct rest as [|c rest].
    + cbn [scan]. unfold scan_eof. rewrite terminator_step by (done || by left). unfold step_end_value, after.
      destruct ps as [|p ps]; [cbn; unfold prepend; cbn; by rewrite app_nil_r|]. by destruct p.
    + cbn [terminated] in Ht. cbn [scan]. rewrite terminator_step by done. unfold after.
      destruct ps as [|p ps]; [cbn; unfold prepend; cbn; by rewrite app_nil_r|]. cbn [scan step]. done.
Qed.

Lemma scanned_runs ps v st :
  runs BeginValue ps v st ps → st = EndValue ∨ number_end st = true → scanned ps v.
Proof. intros Hr Hst rest Ht. rewrite Hr. by apply end_value_scan. Qed.

Lemma scanned_number ps v : json_number v = true → scanned ps v.
Proof.
  unfold json_number. destruct (number_run BeginValue v) as [st|] eqn:Er; [|done]. intros He.
  eapply scanned_runs; [|by right]. apply number_runs; [by left|done].
Qed.
Lemma scanned_string ps s : scanned ps (json_string s).
Proof.
  eapply scanned_runs; [|by left]. unfold json_string.
  eapply runs_cons; [reflexivity|]. apply runs_string.
Qed.

(** White space between the tokens. *)
Definition blank (s : bytes) : Prop := forallb json_ws s = true.
Lemma new_line_blank level : blank (new_line level).
Proof.
  unfold blank, new_line. cbn [forallb]. apply forallb_forall.
  intros c Hc%repeat_spec. by subst.
Qed.
Lemma runs_blank st ps s :
  st ∈ [BeginValue; BeginValueOrEmpty; BeginString; BeginStringOrEmpty] ∨ st = EndValue ∧ ps ≠ [] →
  blank s → runs st ps s st ps.
Proof.
  intros Hst. unfold blank. induction s as [|c s IH]; [intros _; apply runs_nil|].
  cbn [forallb]. intros [Hc Hs]%andb_true_iff. eapply runs_cons; [|by apply IH].
  destruct Hst as [Hst|[-> Hps]].
  - repeat (apply elem_of_cons in Hst as [->|Hst];
      [cbn; unfold step_begin_value, step_begin_string; by rewrite Hc|]). by apply elem_of_nil in Hst.
  - cbn. destruct ps as [|p ps]; [done|]. cbn. by rewrite Hc.
Qed.

Lemma skip_blank s t : blank s → skip_ws (s ++ t) = skip_ws t.
Proof. unfold blank. induction s as [|c s IH]; [done|]. cbn. intros [-> Hs]%andb_true_iff. by apply IH. Qed.

(** ** Composites *)
Lemma after_prepend ps s v rest : prepend s <$> after ps v rest = after ps (s ++ v) rest.
Proof. destruct ps as [|p ps]; [done|]. apply prepend_app. Qed.

Lemma terminated_blank s c rest : blank s → c ∈ [x2c; x5d; x7d] → terminated (s ++ c :: rest).
Proof. unfold blank. destruct s as [|b s]; cbn; [by right|]. intros [Hb _]%andb_true_iff _. by left. Qed.

Lemma close_scan st ps0 ps c rest :
  step st ps0 c = match ps with [] => SClose | _ => SCont EndValue ps end →
  scan st ps0 (c :: rest) = after ps [c] rest.
Proof.
  intros Hs. cbn [scan]. rewrite Hs. unfold after. destruct ps as [|p ps]; [done|].
  by destruct (scan EndValue (p :: ps) rest) as [[v r]|].
Qed.

Section composite.
Variables (st0 : scan_state) (ps0 ps1 ps : list parse_state) (closing : byte).
Hypotheses (begins : st0 ∈ [BeginValue; BeginValueOrEmpty; BeginString; BeginStringOrEmpty]) (inside : ps1 ≠ [])
  (comma : step EndValue ps1 x2c = SCont st0 ps0) (closer : closing ∈ [x5d; x7d])
  (close : step EndValue ps1 closing = match ps with [] => SClose | _ => SCont EndValue ps end).

Definition item (v : bytes) : Prop :=
  ∀ rest, terminated rest → scan st0 ps0 (v ++ rest) = prepend v <$> scan EndValue ps1 rest.

Lemma closing_scan nl rest : blank nl → scan EndValue ps1 (nl ++ closing :: rest) = after ps (nl ++ [closing]) rest.
Proof.
  intros Hb. rewrite (runs_blank EndValue ps1 nl) by (done || by right).
  by rewrite (close_scan _ _ ps), after_prepend.
Qed.

Lemma items_scan nl nl' l rest :
  blank nl → blank nl' → Forall item l →
  scan EndValue ps1 (concat (map (λ v, B "," ++ nl ++ v) l) ++ nl' ++ closing :: rest)
  = after ps (concat (map (λ v, B "," ++ nl ++ v) l) ++ nl' ++ [closing]) rest.
Proof.
  intros Hb Hb' Hl. induction Hl as [|v l Hv Hl IH]; [by apply closing_scan|].
  cbn [map concat]. rewrite <- !app_assoc.
  rewrite (runs_one EndValue ps1 x2c st0 ps0) by done.
  rewrite (runs_blank st0 ps0 nl) by (done || by left). rewrite Hv.
  - rewrite IH, after_prepend, !after_prepend. by rewrite <- ?app_assoc.
  - destruct l as [|w l]; [apply terminated_blank; [done|set_solver]|]. right. cbn. left.
Qed.

(** From behind the opening bracket. *)
Lemma first_item_scan nl nl' v l rest :
  blank nl → blank nl' → Forall item (v :: l) →
  scan st0 ps0 (nl ++ v ++ concat (map (λ v, B "," ++ nl ++ v) l) ++ nl' ++ closing :: rest)
  = after ps (nl ++ v ++ concat (map (λ v, B "," ++ nl ++ v) l) ++ nl' ++ [closing]) rest.
Proof.
  intros Hb Hb' [Hv Hl]%Forall_cons. rewrite (runs_blank st0 ps0 nl) by (done || by left).
  rewrite Hv; [by rewrite items_scan, !after_prepend|].
  destruct l as [|w l]; [apply terminated_blank; [done|set_solver]|]. right. cbn. left.
Qed.
End composite.

Definition value_head (v : bytes) : Prop :=
  match v with c :: _ => json_ws c = false ∧ c ≠ x5d | [] => False end.

Lemma deep_enough ps p st : zlen ps < max_nesting_depth → push_state ps p st = SCont st (p :: ps).
Proof.
  intros Hd. unfold push_state. rewrite (proj2 (Z.ltb_ge _ _)); [done|]. unfold zlen in *. cbn [length]. lia.
Qed.

Lemma blank_or_empty st st' ps s c rest :
  (st, st') ∈ [(BeginValueOrEmpty, BeginValue); (BeginStringOrEmpty, BeginString)] → blank s →
  step st ps c = step st' ps c → scan st ps (s ++ c :: rest) = scan st' ps (s ++ c :: rest).
Proof.
  intros Hst Hb Hs.
  assert (st ∈ [BeginValue; BeginValueOrEmpty; BeginString; BeginStringOrEmpty] ∧
          st' ∈ [BeginValue; BeginValueOrEmpty; BeginString; BeginStringOrEmpty]) as [K K'].
  { repeat (apply elem_of_cons in Hst as [[= -> ->]|Hst]; [by split; set_solver|]). by apply elem_of_nil in Hst. }
  rewrite (runs_blank st ps s), (runs_blank st' ps s) by (done || by left). f_equal. cbn [scan]. by rewrite Hs.
Qed.

Lemma array_scanned ps level items :
  zlen ps < max_nesting_depth → Forall (λ v, scanned (ParseArrayValue :: ps) v ∧ value_head v) items →
  scanned ps (composite x5b x5d level items).
Proof.
  intros Hd Hi rest Ht.
  assert (step BeginValue ps x5b = SCont BeginValueOrEmpty (ParseArrayValue :: ps)) as Ho by (by apply deep_enough).
  destruct items as [|v l]; cbn [composite app].
  - rewrite (runs_one _ _ _ _ _ Ho (x5d :: rest) : scan BeginValue ps (x5b :: x5d :: rest) = _).
    rewrite (close_scan _ _ ps); [by rewrite after_prepend|]. by destruct ps.
  - rewrite <- !app_assoc. change (x5b :: ?s) with ([x5b] ++ s). rewrite (runs_one _ _ _ _ _ Ho).
    apply Forall_cons in Hi as [[Hv Hh] Hl]. destruct v as [|c v]; [done|]. destruct Hh as [Hc Hc'].
    cbn [app]. rewrite (blank_or_empty _ BeginValue) by (first [apply new_line_blank|set_solver|
      cbn; by rewrite Hc, decide_False by done]).
    pose proof (first_item_scan BeginValue (ParseArrayValue :: ps) (ParseArrayValue :: ps) ps x5d
      ltac:(set_solver) ltac:(done) eq_refl ltac:(set_solver) eq_refl (new_line (S level)) (new_line level)
      (c :: v) l rest (new_line_blank _) (new_line_blank _)) as Hf.
    cbn [app] in Hf |- *. rewrite Hf; [by rewrite after_prepend|].
    apply Forall_cons. split; [exact Hv|]. eapply Forall_impl; [exact Hl|]. by intros w [Hw _].
Qed.

Lemma member_scanned ps name value :
  scanned (ParseObjectValue :: ps) value →
  item BeginString (ParseObjectKey :: ps) (ParseObjectValue :: ps) (member_text name value).
Proof.
  intros Hv rest Ht. unfold member_text. rewrite <- !app_assoc.
  assert (runs BeginString (ParseObjectKey :: ps) (json_string name) EndValue (ParseObjectKey :: ps)) as Hn.
  { unfold json_string. eapply runs_cons; [reflexivity|]. apply runs_string. }
  assert (runs EndValue (ParseObjectKey :: ps) (B ": ") BeginValue (ParseObjectValue :: ps)) as Hs.
  { change (B ": ") with [x3a; x20]. repeat (eapply runs_cons; [reflexivity|]). apply runs_nil. }
  rewrite Hn, Hs, (Hv rest Ht). cbn [after]. by rewrite !prepend_app, <- ?app_assoc.
Qed.

Lemma object_scanned ps level members :
  zlen ps < max_nesting_depth → Forall (λ m, scanned (ParseObjectValue :: ps) m.2) members →
  scanned ps (composite x7b x7d level (map (λ m, member_text m.1 m.2) members)).
Proof.
  intros Hd Hi rest Ht.
  assert (step BeginValue ps x7b = SCont BeginStringOrEmpty (ParseObjectKey :: ps)) as Ho by (by apply deep_enough).
  destruct members as [|m l]; cbn [composite app map].
  - rewrite (runs_one _ _ _ _ _ Ho (x7d :: rest) : scan BeginValue ps (x7b :: x7d :: rest) = _).
    rewrite (close_scan _ _ ps); [by rewrite after_prepend|]. by destruct ps.
  - rewrite <- !app_assoc. change (x7b :: ?s) with ([x7b] ++ s). rewrite (runs_one _ _ _ _ _ Ho).
    pose proof (first_item_scan BeginString (ParseObjectKey :: ps) (ParseObjectValue :: ps) ps x7d
      ltac:(set_solver) ltac:(done) eq_refl ltac:(set_solver) eq_refl (new_line (S level)) (new_line level)
      (member_text m.1 m.2) (map (λ m, member_text m.1 m.2) l) rest (new_line_blank _) (new_line_blank _)) as Hf.
    assert (∃ t, member_text m.1 m.2 = x22 :: t) as [t Et] by (by eexists). rewrite Et in Hf |- *.
    cbn [app] in Hf |- *. rewrite (blank_or_empty _ BeginString) by (first [apply new_line_blank|set_solver|done]).
    rewrite Hf; [by rewrite after_prepend|]. rewrite <- Et.
    change (Forall (item BeginString (ParseObjectKey :: ps) (ParseObjectValue :: ps))
      (map (λ m, member_text m.1 m.2) (m :: l))).
    apply Forall_fmap. eapply Forall_impl; [exact Hi|]. intros n Hn. by apply member_scanned.
Qed.

Lemma number_head v : json_number v = true → value_head v.
Proof.
  unfold json_number. destruct v as [|c v]; [done|]. cbn [number_run].
  intros Hn. destruct c; try (by split); discriminate Hn.
Qed.

(** Every printable text is scanned as one value, in any context. *)
Lemma json_text_scanned j n level ps :
  printable n j = true → zlen ps + Z.of_nat n ≤ max_nesting_depth →
  scanned ps (json_text level j) ∧ value_head (json_text level j).
Proof.
  revert n level ps. induction j as [|b|z|f|s|l IH|l IH] using json_ind'; intros n level ps; cbn [printable json_text].
  - intros _ _. split; [|done]. apply (scanned_runs _ _ EndValue); [|by left].
    repeat (eapply runs_cons; [reflexivity|]). apply runs_nil.
  - intros _ _. split; [|by destruct b]. apply (scanned_runs _ _ EndValue); [|by left].
    destruct b; repeat (eapply runs_cons; [reflexivity|]); apply runs_nil.
  - intros _ _. pose proof (int_text_number z). split; [by apply scanned_number|by apply number_head].
  - destruct (json_float f) as [text|]; [|done]. intros Hn _.
    split; [by apply scanned_number|by apply number_head].
  - intros _ _. split; [apply scanned_string|done].
  - destruct n as [|n]; [done|]. rewrite forallb_forall. intros Hn Hd. split; [|by destruct l].
    apply array_scanned; [lia|]. apply Forall_fmap, Forall_forall. intros v Hv. unfold compose.
    eapply (proj1 (Forall_forall _ _)) in IH; [|exact Hv].
    apply (IH n); [by apply Hn, list_elem_of_In|unfold zlen in *; cbn [length]; lia].
  - destruct n as [|n]; [done|]. rewrite forallb_forall. intros Hn Hd. split; [|by destruct l].
    replace (map (λ m, member_text m.1 (json_text (S level) m.2)) l)
      with (map (λ m, member_text m.1 m.2) (map (λ m : bytes * json, (m.1, json_text (S level) m.2)) l))
      by (by rewrite map_map).
    apply object_scanned; [lia|]. apply Forall_fmap, Forall_forall. intros m Hm. unfold compose. cbn.
    eapply (proj1 (Forall_forall _ _)) in IH; [|exact Hm].
    apply (IH n); [by apply Hn, list_elem_of_In|unfold zlen in *; cbn [length]; lia].
Qed.

(** ** Reading the parts *)
Definition part (v : bytes) : Prop := scanned [] v ∧ value_head v.

Lemma read_part nl v rest :
  blank nl → part v → terminated rest → read_value (nl ++ v ++ rest) = Some (v, rest).
Proof.
  intros Hb [Hs Hh] Ht. unfold read_value. rewrite skip_blank by done. destruct v as [|c v]; [done|].
  cbn [app skip_ws]. destruct Hh as [-> _]. exact (Hs rest Ht).
Qed.
Lemma whole_part v : part v → whole_value v = Some v.
Proof.
  intros Hp. unfold whole_value.
  pose proof (read_part [] v [] eq_refl Hp I) as Hr. rewrite app_nil_r in Hr. cbn [app] in Hr. by rewrite Hr.
Qed.

Lemma items_terminated nl nl' c l :
  blank nl' → c ∈ [x5d; x7d] → terminated (concat (map (λ v, B "," ++ nl ++ v) l) ++ nl' ++ [c]).
Proof.
  intros Hb Hc. destruct l as [|w l]; [apply terminated_blank; [done|set_solver]|]. right. cbn. left.
Qed.

Lemma array_elems_text nl nl' f v l :
  blank nl → blank nl' → Forall part (v :: l) → (length l < f)%nat →
  array_elems f (nl ++ v ++ concat (map (λ v, B "," ++ nl ++ v) l) ++ nl' ++ [x5d]) = Some (v :: l).
Proof.
  intros Hb Hb'. revert f v. induction l as [|w l IH]; intros [|f] v [Hv Hl]%Forall_cons Hf; [lia| |lia|];
    cbn [array_elems]; rewrite read_part by first [done | apply items_terminated; [done|set_solver]].
  - cbn [map concat app]. by rewrite skip_blank.
  - cbn [map concat]. rewrite <- !app_assoc. change (skip_ws (B "," ++ ?s)) with (x2c :: s). cbv iota beta.
    rewrite decide_True by done. rewrite IH; [done|done|cbn in Hf; lia].
Qed.

Lemma separated_length nl l : (length l ≤ length (concat (map (λ v, B "," ++ nl ++ v) l)))%nat.
Proof.
  change (B ",") with [x2c]. induction l as [|w l IH]; [done|].
  cbn [map concat]. rewrite !length_app. cbn [length]. lia.
Qed.

Lemma unmarshal_array_text level items :
  Forall part items → part (composite x5b x5d level items) →
  unmarshal_array (composite x5b x5d level items) = Some (Some items).
Proof.
  intros Hi Hc. unfold unmarshal_array. rewrite whole_part by done.
  destruct items as [|v l]; [reflexivity|]. cbn [composite app].
  rewrite (decide_False (P := x5b = x6e)), (decide_True (P := x5b = x5b)) by done.
  rewrite skip_blank by apply new_line_blank. apply Forall_cons in Hi as [Hv Hl].
  rewrite decide_False.
  - rewrite array_elems_text; [done|apply new_line_blank..|by constructor|].
    rewrite !length_app. pose proof (separated_length (new_line (S level)) l). cbn [length]. lia.
  - destruct v as [|c v]; [by destruct Hv as [_ []]|]. cbn [app skip_ws]. destruct Hv as [_ [-> Hc']].
    by intros [= -> _].
Qed.

Lemma read_name nl name rest : blank nl → read_value (nl ++ json_string name ++ rest) = Some (json_string name, rest).
Proof.
  intros Hb. unfold read_value. rewrite skip_blank by done. unfold json_string. cbn [app skip_ws].
  change (json_ws x22) with false. cbv iota.
  assert (runs BeginValue [] (json_string name) EndValue []) as Hr
    by (eapply runs_cons; [reflexivity|apply runs_string]).
  specialize (Hr rest). unfold json_string in Hr. cbn [app] in Hr. rewrite Hr.
  destruct rest as [|c rest]; cbn; unfold prepend; cbn; by rewrite app_nil_r.
Qed.

Definition named (m : bytes * bytes) : bytes := member_text m.1 m.2.

Lemma object_members_text nl nl' f m l :
  blank nl → blank nl' → Forall (part ∘ snd) (m :: l) → (length l < f)%nat →
  object_members f (nl ++ named m ++ concat (map (λ v, B "," ++ nl ++ v) (map named l)) ++ nl' ++ [x7d])
  = Some (map (λ m, (transported m.1, m.2)) (m :: l)).
Proof.
  intros Hb Hb'. revert f m. induction l as [|w l IH]; intros [|f] m [Hv Hl]%Forall_cons Hf; [lia| |lia|];
    cbn [object_members]; unfold named at 1, member_text; rewrite <- !app_assoc;
    rewrite read_name by done; change (skip_ws (B ": " ++ ?s)) with (x3a :: x20 :: s); cbv iota beta;
    rewrite decide_True by done; change (x20 :: ?s) with ([x20] ++ s);
    rewrite read_part by first [done | apply items_terminated; [done|set_solver]]; rewrite unquote_json_string.
  - cbn [map concat app]. by rewrite skip_blank.
  - cbn [map concat]. rewrite <- !app_assoc. change (skip_ws (B "," ++ ?s)) with (x2c :: s). cbv iota beta.
    rewrite decide_True by done. rewrite IH; [done|done|cbn in Hf; lia].
Qed.

Lemma unmarshal_object_text level members :
  Forall (part ∘ snd) members → part (composite x7b x7d level (map named members)) →
  unmarshal_object (composite x7b x7d level (map named members))
  = Some (Some (map (λ m, (transported m.1, m.2)) members)).
Proof.
  intros Hi Hc. unfold unmarshal_object. rewrite whole_part by done.
  destruct members as [|m l]; [reflexivity|]. cbn [composite app map].
  rewrite (decide_False (P := x7b = x6e)), (decide_True (P := x7b = x7b)) by done.
  rewrite skip_blank by apply new_line_blank. rewrite decide_False by done.
  rewrite object_members_text; [done|apply new_line_blank..|done|].
  rewrite !length_app. pose proof (separated_length (new_line (S level)) (map named l)) as Hl.
  rewrite length_map in Hl. cbn [length]. lia.
Qed.

(** ** The round trip *)
Lemma composite_part opening closing level items v :
  v ∈ items → (length v < length (composite opening closing level items))%nat.
Proof.
  destruct items as [|w l]; [by intros ?%elem_of_nil|]. cbn [composite app length]. rewrite !length_app.
  intros [->|Hv]%elem_of_cons; [lia|].
  assert (length v ≤ length (concat (map (λ v, B "," ++ new_line (S level) ++ v) l)))%nat; [|lia].
  induction l as [|u l IH]; [by apply elem_of_nil in Hv|]. cbn [map concat]. rewrite !length_app.
  apply elem_of_cons in Hv as [->|Hv]; [lia|]. specialize (IH Hv). lia.
Qed.

Lemma text_part j n level :
  printable n j = true → Z.of_nat n ≤ max_nesting_depth → part (json_text level j).
Proof. intros Hp Hd. by apply (json_text_scanned j n). Qed.

Lemma decode_number fuel v : json_number v = true → decode_document (S fuel) v = Some (DNumber v).
Proof.
  intros Hn. cbn [decode_document]. rewrite whole_part by (split; [by apply scanned_number|by apply number_head]).
  unfold json_number in Hn. destruct v as [|c v]; [done|]. cbn [number_run] in Hn.
  destruct c; try reflexivity; discriminate Hn.
Qed.

Lemma decode_array fuel level items docs :
  Forall part items → part (composite x5b x5d level items) → mapM (decode_document fuel) items = Some docs →
  decode_document (S fuel) (composite x5b x5d level items) = Some (DList docs).
Proof.
  intros Hi Hc Hd. cbn [decode_document]. rewrite whole_part, unmarshal_array_text by done.
  destruct items; cbn [composite app];
    by rewrite (decide_False (P := x5b = x7b)), (decide_True (P := x5b = x5b)), Hd by done.
Qed.
Lemma decode_object fuel level members docs :
  Forall (part ∘ snd) members → part (composite x7b x7d level (map named members)) →
  mapM (λ m, decode_document fuel m.2) members = Some docs →
  decode_document (S fuel) (composite x7b x7d level (map named members))
  = Some (DObject (zip (map (λ m, transported m.1) members) docs)).
Proof.
  intros Hi Hc Hd. cbn [decode_document]. rewrite whole_part, unmarshal_object_text by done.
  replace (mapM (λ p, pair p.1 <$> decode_document fuel p.2) (map (λ m, (transported m.1, m.2)) members))
    with (Some (zip (map (λ m, transported m.1) members) docs)).
  - destruct members; cbn [composite app map]; by rewrite (decide_True (P := x7b = x7b)) by done.
  - symmetry. clear Hi Hc. revert docs Hd. induction members as [|m l IH]; intros docs; cbn; [by intros [= <-]|].
    destruct (decode_document fuel m.2) as [d|]; cbn; [|done].
    destruct (mapM _ l) as [ds|] eqn:El; cbn; [|done]. intros [= <-]. by rewrite (IH ds eq_refl).
Qed.

Lemma decode_json_text j n level fuel :
  printable n j = true → Z.of_nat n ≤ max_nesting_depth → (length (json_text level j) < fuel)%nat →
  decode_document fuel (json_text level j) = Some (document_of j).
Proof.
  revert n level fuel.
  induction j as [|b|z|f|s|l IH|l IH] using json_ind'; intros n level [|fuel] Hp Hd Hf;
    [lia| |lia| |lia| |lia| |lia| |lia| |lia|]; pose proof (text_part _ n level Hp Hd) as Hpart.
  - cbn [decode_document]. by rewrite whole_part.
  - cbn [decode_document]. rewrite whole_part by done. by destruct b.
  - apply decode_number, int_text_number.
  - cbn [printable] in Hp. cbn [json_text document_of]. destruct (json_float f); [|done]. by apply decode_number.
  - cbn [decode_document]. rewrite whole_part by done. cbn [json_text document_of].
    rewrite <- unquote_json_string. reflexivity.
  - cbn [json_text document_of printable] in *. destruct n as [|n]; [done|]. rewrite forallb_forall in Hp.
    apply decode_array; [|done|].
    + apply Forall_fmap, Forall_forall. intros v Hv. apply (text_part v n); [by apply Hp, list_elem_of_In|lia].
    + apply mapM_Some, Forall2_fmap, Forall_Forall2_diag, Forall_forall. intros v Hv.
      eapply (proj1 (Forall_forall _ _)) in IH; [|exact Hv]. apply (IH n); [by apply Hp, list_elem_of_In|lia|].
      pose proof (composite_part x5b x5d level (map (json_text (S level)) l) (json_text (S level) v)
        ltac:(by apply list_elem_of_fmap_2)). lia.
  - cbn [json_text document_of printable] in *. destruct n as [|n]; [done|]. rewrite forallb_forall in Hp.
    set (texts := map (λ m : bytes * json, (m.1, json_text (S level) m.2)) l).
    assert (map (λ m, member_text m.1 (json_text (S level) m.2)) l = map named texts) as Em
      by (unfold texts; by rewrite map_map).
    rewrite Em in *. rewrite (decode_object _ _ texts (map (λ m, document_of m.2) l)); [..|done|].
    + unfold texts. rewrite map_map. cbn. by rewrite zip_with_fmap_l, zip_with_fmap_r, zip_with_diag.
    + unfold texts. apply Forall_fmap, Forall_forall. intros m Hm.
      apply (text_part m.2 n); [by apply Hp, list_elem_of_In|lia].
    + apply mapM_Some. unfold texts. apply Forall2_fmap, Forall_Forall2_diag, Forall_forall. intros m Hm.
      eapply (proj1 (Forall_forall _ _)) in IH; [|exact Hm]. apply (IH n); [by apply Hp, list_elem_of_In|lia|].
      assert (length (named (m.1, json_text (S level) m.2)) < length (composite x7b x7d level (map named texts)))%nat as Hc.
      { apply composite_part, list_elem_of_fmap_2. by apply (list_elem_of_fmap_2 (λ m : bytes * json, (m.1, json_text (S level) m.2))). }
      unfold named at 1, member_text in Hc. cbn [fst snd] in Hc. rewrite !length_app in Hc. lia.
Qed.

(** What the decoder finds in the text of a composite. *)
Lemma unmarshal_list_text l n level :
  printable n (JList l) = true → Z.of_nat n ≤ max_nesting_depth →
  unmarshal_array (json_text level (JList l)) = Some (Some (map (json_text (S level)) l)).
Proof.
  intros Hp Hd. pose proof (text_part _ _ level Hp Hd) as Hpart. cbn [json_text printable] in *.
  destruct n as [|n]; [done|]. rewrite forallb_forall in Hp. apply unmarshal_array_text; [|done].
  apply Forall_fmap, Forall_forall. intros v Hv. apply (text_part v n); [by apply Hp, list_elem_of_In|lia].
Qed.
Lemma unmarshal_members_text l n level :
  printable n (JObject l) = true → Z.of_nat n ≤ max_nesting_depth →
  unmarshal_object (json_text level (JObject l))
  = Some (Some (map (λ m, (transported m.1, json_text (S level) m.2)) l)).
Proof.
  intros Hp Hd. pose proof (text_part _ _ level Hp Hd) as Hpart. cbn [json_text printable] in *.
  destruct n as [|n]; [done|]. rewrite forallb_forall in Hp.
  set (texts := map (λ m : bytes * json, (m.1, json_text (S level) m.2)) l).
  assert (map (λ m, member_text m.1 (json_text (S level) m.2)) l = map named texts) as Em
    by (unfold texts; by rewrite map_map).
  rewrite Em in *. rewrite unmarshal_object_text; [unfold texts; by rewrite map_map| |done].
  unfold texts. apply Forall_fmap, Forall_forall. intros m Hm.
  apply (text_part m.2 n); [by apply Hp, list_elem_of_In|lia].
Qed.

(** What [MarshalIndent] writes is one JSON text, and it says the tree it was
    given: the members in order, integers and floats as they were printed, the
    strings up to the replacement of invalid UTF-8. *)
Lemma printable_finite n j : printable n j = true → floats_finite j = true.
Proof.
  revert n. induction j as [|b|z|f|s|l IH|l IH] using json_ind'; intros n; cbn; try done.
  - by destruct (json_float f).
  - destruct n as [|n]; [done|]. rewrite !forallb_forall. intros Hn v Hv.
    eapply (proj1 (Forall_forall _ _)) in IH; [|by apply list_elem_of_In]. by apply (IH n), Hn.
  - destruct n as [|n]; [done|]. rewrite !forallb_forall. intros Hn v Hv.
    eapply (proj1 (Forall_forall _ _)) in IH; [|by apply list_elem_of_In]. by apply (IH n), Hn.
Qed.

Lemma MarshalIndent_reads_back n j :
  printable n j = true → Z.of_nat n ≤ max_nesting_depth →
  ∃ text, MarshalIndent j = Some text ∧ read_document text = Some (document_of j).
Proof.
  intros Hp Hd. exists (json_text 0 j). unfold MarshalIndent. rewrite (printable_finite n) by done.
  split; [done|]. unfold read_document. apply (decode_json_text j n); [done..|lia].
Qed.

(** Valid UTF-8 is transported as it is. *)
Lemma z2b_is b z : z = b2z b → z2b z = b.
Proof. intros ->. apply z2b_b2z. Qed.

Lemma encode_cp2 a b : seq2 a b = true → encode_rune (cp2 a b) = [a; b].
Proof.
  unfold seq2, cont. intros Hs. unfold encode_rune, scalar, encode_scalar, cp2.
  pose proof (b2z_range a). pose proof (b2z_range b).
  rewrite !(proj2 (Z.leb_le _ _)), (proj2 (Z.ltb_lt _ 0x110000)) by lia.
  rewrite (proj2 (Z.leb_gt 0xD800 _)) by lia. cbn [andb negb].
  rewrite (proj2 (Z.ltb_ge _ 0x80)), (proj2 (Z.ltb_lt _ 0x800)) by lia.
  f_equal; [|f_equal]; apply z2b_is; Z.div_mod_to_equations; lia.
Qed.
Lemma encode_cp3 a b c : seq3 a b c = true → encode_rune (cp3 a b c) = [a; b; c].
Proof.
  unfold seq3, cont. intros Hs. unfold encode_rune, scalar, encode_scalar, cp3.
  pose proof (b2z_range a). pose proof (b2z_range b). pose proof (b2z_range c).
  set (r := _ + _ + _). assert (0x800 ≤ r < 0x10000 ∧ ¬ (0xD800 ≤ r < 0xE000)) as [Hr Hn].
  { subst r. destruct (b2z a =? 0xE0) eqn:?, (b2z a =? 0xED) eqn:?; lia. }
  replace ((0 <=? r) && (r <? 1114112) && negb ((55296 <=? r) && (r <? 57344))) with true by lia.
  rewrite (proj2 (Z.ltb_ge r 0x80)), (proj2 (Z.ltb_ge r 0x800)), (proj2 (Z.ltb_lt r 0x10000)) by lia.
  subst r. assert (0x80 ≤ b2z c < 0xC0) by lia.
  assert (0x80 ≤ b2z b < 0xC0) by (destruct (b2z a =? 0xE0) eqn:?, (b2z a =? 0xED) eqn:?; lia).
  f_equal; [|f_equal; [|f_equal]]; apply z2b_is; clear Hs; Z.div_mod_to_equations; lia.
Qed.
Lemma encode_cp4 a b c d : seq4 a b c d = true → encode_rune (cp4 a b c d) = [a; b; c; d].
Proof.
  unfold seq4, cont. intros Hs. unfold encode_rune, scalar, encode_scalar, cp4.
  pose proof (b2z_range a). pose proof (b2z_range b). pose proof (b2z_range c). pose proof (b2z_range d).
  set (r := _ + _ + _ + _). assert (0x10000 ≤ r < 0x110000) as Hr.
  { subst r. destruct (b2z a =? 0xF0) eqn:?, (b2z a =? 0xF4) eqn:?; lia. }
  replace ((0 <=? r) && (r <? 1114112) && negb ((55296 <=? r) && (r <? 57344))) with true by lia.
  rewrite (proj2 (Z.ltb_ge r 0x80)), (proj2 (Z.ltb_ge r 0x800)), (proj2 (Z.ltb_ge r 0x10000)) by lia.
  subst r. assert (0x80 ≤ b2z c < 0xC0 ∧ 0x80 ≤ b2z d < 0xC0) as [? ?] by lia.
  assert (0x80 ≤ b2z b < 0xC0) by (destruct (b2z a =? 0xF0) eqn:?, (b2z a =? 0xF4) eqn:?; lia).
  f_equal; [|f_equal; [|f_equal; [|f_equal]]]; apply z2b_is; clear Hs; Z.div_mod_to_equations; lia.
Qed.

Lemma transported_valid s : valid_utf8 s = true → transported s = s.
Proof.
  unfold transported. induction s as [|a s Ha IH|a s Ha Hq Hr Hv IH|a b s Ha Hb IH|a b c s Ha Hb Hc IH|a b c d s Ha Hb Hc Hd IH]
    using utf8_cases; [done|..].
  - cbn [valid_utf8 runes]. rewrite Ha. intros Hv. unfold encode_runes. cbn [map concat].
    assert (encode_rune (b2z a) = [a]) as ->; [|cbn [app]; f_equal; by apply IH].
    destruct a; try discriminate Ha; reflexivity.
  - by rewrite Hv.
  - cbn [valid_utf8 runes]. rewrite Ha, Hb. intros Hv. unfold encode_runes. cbn [map concat].
    rewrite encode_cp2 by done. cbn [app]. do 2 f_equal. by apply IH.
  - cbn [valid_utf8 runes]. rewrite Ha, Hb, Hc. intros Hv. unfold encode_runes. cbn [map concat].
    rewrite encode_cp3 by done. cbn [app]. do 3 f_equal. by apply IH.
  - cbn [valid_utf8 runes]. rewrite Ha, Hb, Hc, Hd. intros Hv. unfold encode_runes. cbn [map concat].
    rewrite encode_cp4 by done. cbn [app]. do 4 f_equal. by apply IH.
Qed.
