(* ===== verification/GoStruct.v ===== *)
(** [encoding/json] with struct types.

    A struct type is its fields in order with their names and [omitempty]
    marks; a value of it is the list of its fields' values.  [encode] gives the
    tree that JsonText writes, [unmarshal] is [json.Unmarshal]: a member goes to
    the field with its name, or to the first one with the name in another case;
    a member of another type is an error, but the other members are still
    read. *)
From Stdlib Require Import Floats.SpecFloat.
From S2P Require Import Prelude GoStrings GoUtf8 GoJson GoFloat PayloadTypes GoAny JsonText.

(** ** Types and values *)
Inductive kind :=
| KText
| KInt (low high : Z)
| KBool
| KFloat
| KList (k : kind)
| KPtr (k : kind)
| KStruct (fields : list (bytes * bool * kind)).   (* name, omitempty *)

Inductive value :=
| VText (s : bytes)
| VInt (z : Z)
| VBool (b : bool)
| VFloat (f : float64)
| VList (l : list value)
| VNil                      (* a nil slice or pointer *)
| VPtr (v : value)
| VStruct (l : list value).

Section kind_ind.
Variable P : kind → Prop.
Hypotheses (text : P KText) (int : ∀ a b, P (KInt a b)) (bool : P KBool) (float : P KFloat)
  (elements : ∀ k, P k → P (KList k)) (pointer : ∀ k, P k → P (KPtr k))
  (struct : ∀ l, Forall (P ∘ snd) l → P (KStruct l)).
Fixpoint kind_ind' (k : kind) : P k :=
  match k with
  | KText => text
  | KInt a b => int a b
  | KBool => bool
  | KFloat => float
  | KList k => elements k (kind_ind' k)
  | KPtr k => pointer k (kind_ind' k)
  | KStruct l =>
      struct l ((fix go (l : list (bytes * Datatypes.bool * kind)) : Forall (P ∘ snd) l :=
        match l with [] => Forall_nil_2 _ | f :: rest => Forall_cons_2 _ f _ (kind_ind' f.2) (go rest) end) l)
  end.
End kind_ind.

Definition int_kind : kind := KInt int64_min int64_max.
Definition uint16_kind : kind := KInt 0 65535.

Fixpoint zero_value (k : kind) : value :=
  match k with
  | KText => VText []
  | KInt _ _ => VInt 0
  | KBool => VBool false
  | KFloat => VFloat (float_of_int 0)
  | KList _ | KPtr _ => VNil
  | KStruct fields => VStruct (map (λ f, zero_value f.2) fields)
  end.

(** What [omitempty] leaves out. *)
Definition empty_value (v : value) : bool :=
  match v with
  | VText s => bool_decide (s = [])
  | VInt z => z =? 0
  | VBool b => negb b
  | VFloat f => match f with S754_zero _ => true | _ => false end
  | VList l => match l with [] => true | _ => false end
  | VNil => true
  | VPtr _ | VStruct _ => false
  end.

(** ** Marshalling *)
Fixpoint struct_members (fields : list (bytes * bool * (value → json))) (values : list value) : list (bytes * json) :=
  match fields, values with
  | (name, omit, enc) :: fields, v :: values =>
      if omit && empty_value v then struct_members fields values else (name, enc v) :: struct_members fields values
  | _, _ => []
  end.
Fixpoint encode (k : kind) (v : value) {struct k} : json :=
  match k, v with
  | KText, VText s => JText s
  | KInt _ _, VInt z => JInt z
  | KBool, VBool b => JBool b
  | KFloat, VFloat f => JFloat f
  | KList k, VList l => JList (map (encode k) l)
  | KPtr k, VPtr v => encode k v
  | KStruct fields, VStruct values => JObject (struct_members (map (λ f, (f.1, encode f.2)) fields) values)
  | _, _ => JNull
  end.

(** ** Unmarshalling

    The value after reading a text into it, and whether there was no error. *)
Abbreviation field_decoder := (bytes * (value → bytes → value * bool))%type.

Section unmarshal.
Context `{UnicodeTables}.

Definition field_index (decoders : list field_decoder) (name : bytes) : option nat :=
  match list_find (λ d : field_decoder, d.1 = name) decoders with
  | Some (i, _) => Some i
  | None => fst <$> list_find (λ d : field_decoder, equal_fold d.1 name = true) decoders
  end.
Definition assign (decoders : list field_decoder) (acc : list value * bool) (member : bytes * bytes) : list value * bool :=
  match field_index decoders member.1 with
  | None => acc
  | Some i =>
      match decoders !! i, acc.1 !! i with
      | Some d, Some v => let '(v, ok) := d.2 v member.2 in (<[i := v]> acc.1, acc.2 && ok)
      | _, _ => acc
      end
  end.

Fixpoint decode_into (k : kind) (current : value) (data : bytes) {struct k} : value * bool :=
  match k with
  | KText =>
      match unmarshal_string data with
      | Some (Some s) => (VText s, true) | Some None => (current, true) | None => (current, false)
      end
  | KInt low high =>
      match unmarshal_int data with
      | Some (Some z) => if (low <=? z) && (z <=? high) then (VInt z, true) else (current, false)
      | Some None => (current, true)
      | None => (current, false)
      end
  | KBool =>
      match unmarshal_bool data with
      | Some (Some b) => (VBool b, true) | Some None => (current, true) | None => (current, false)
      end
  | KFloat =>
      match whole_value data with
      | Some (c :: t) =>
          if decide (c = x6e) then (current, true)
          else if is_digit c || bool_decide (c = x2d) then
            match parse_number (c :: t) with Some f => (VFloat f, true) | None => (current, false) end
          else (current, false)
      | _ => (current, false)
      end
  | KList k =>
      match unmarshal_array data with
      | Some (Some l) =>
          let rs := map (λ raw, decode_into k (zero_value k) raw) l in (VList (map fst rs), forallb snd rs)
      | Some None => (VNil, true)
      | None => (current, false)
      end
  | KPtr k =>
      match whole_value data with
      | Some (c :: _) =>
          if decide (c = x6e) then (VNil, true)
          else let '(v, ok) := decode_into k (match current with VPtr v => v | _ => zero_value k end) data in (VPtr v, ok)
      | _ => (current, false)
      end
  | KStruct fields =>
      match unmarshal_object data with
      | Some (Some members) =>
          match current with
          | VStruct values =>
              let '(values, ok) :=
                fold_left (assign (map (λ f, (f.1.1, decode_into f.2)) fields)) members (values, true) in
              (VStruct values, ok)
          | _ => (current, false)
          end
      | Some None => (current, true)
      | None => (current, false)
      end
  end.
Definition unmarshal (k : kind) (data : bytes) : value * bool :=
  match whole_value data with
  | Some _ => decode_into k (zero_value k) data
  | None => (zero_value k, false)
  end.
End unmarshal.

(** ** Values that survive *)
Definition field_names (fields : list (bytes * bool * kind)) : list bytes := map (λ f, f.1.1) fields.
Fixpoint kind_ok (k : kind) : bool :=
  match k with
  | KList k | KPtr k => kind_ok k
  | KStruct fields =>
      bool_decide (NoDup (field_names fields)) && forallb valid_utf8 (field_names fields)
      && forallb (λ f, kind_ok f.2) fields
  | _ => true
  end.
Fixpoint kind_depth (k : kind) : nat :=
  match k with
  | KList k => S (kind_depth k)
  | KPtr k => kind_depth k
  | KStruct fields => S (foldr (λ f, Nat.max (kind_depth f.2)) O fields)
  | _ => O
  end.

(** A value of its type, without floats; an empty slice that [omitempty]
    leaves out is nil. *)
Fixpoint fields_fit (fields : list (bool * (value → bool))) (values : list value) : bool :=
  match fields, values with
  | [], [] => true
  | (omit, fit) :: fields, v :: values =>
      fit v && negb (omit && match v with VList [] => true | _ => false end) && fields_fit fields values
  | _, _ => false
  end.
Fixpoint fits (k : kind) (v : value) {struct k} : bool :=
  match k, v with
  | KText, VText _ | KBool, VBool _ | KList _, VNil | KPtr _, VNil => true
  | KInt low high, VInt z => (low <=? z) && (z <=? high) && (int64_min <=? z) && (z <=? int64_max)
  | KList k, VList l => forallb (fits k) l
  | KPtr k, VPtr v => fits k v && match v with VNil | VPtr _ => false | _ => true end
  | KStruct fields, VStruct values => fields_fit (map (λ f, (f.1.2, fits f.2)) fields) values
  | _, _ => false
  end.

Fixpoint transported_value (v : value) : value :=
  match v with
  | VText s => VText (transported s)
  | VList l => VList (map transported_value l)
  | VPtr v => VPtr (transported_value v)
  | VStruct l => VStruct (map transported_value l)
  | _ => v
  end.

Lemma omitted_is_zero k v :
  fits k v = true → empty_value v = true → (match v with VList [] => true | _ => false end) = false →
  v = zero_value k.
Proof.
  destruct k, v; cbn; try done.
  - by intros _ ->%bool_decide_eq_true.
  - by intros _ ->%Z.eqb_eq.
  - by intros _ ->%negb_true_iff.
  - by destruct l.
Qed.

Lemma zero_transported k : transported_value (zero_value k) = zero_value k.
Proof.
  induction k as [| | | | | |fields IH] using kind_ind'; try done. cbn. f_equal. rewrite map_map.
  apply map_ext_in. intros f Hf%list_elem_of_In. by eapply (proj1 (Forall_forall _ _)) in IH.
Qed.

Lemma fields_fit_Forall2 (fields : list (bytes * bool * kind)) values :
  fields_fit (map (λ f, (f.1.2, fits f.2)) fields) values = true ↔
  Forall2 (λ f v, fits f.2 v = true ∧ (f.1.2 = true → (match v with VList [] => true | _ => false end) = false)) fields values.
Proof.
  revert values. induction fields as [|[[name omit] k] fields IH]; intros [|v values]; cbn.
  - by split.
  - split; [done|by intros ?%Forall2_nil_cons_inv].
  - split; [done|by intros ?%Forall2_cons_nil_inv].
  - rewrite !andb_true_iff, negb_true_iff, IH, Forall2_cons. cbn. destruct omit; cbn; naive_solver.
Qed.

(** ** The tree of a value is printable *)
Lemma printable_deeper n n' j : (n ≤ n')%nat → printable n j = true → printable n' j = true.
Proof.
  revert n n'. induction j as [|b|z|f|s|l IH|l IH] using json_ind'; intros n n' Hn; cbn; try done;
    (destruct n as [|n]; [done|]); (destruct n' as [|n']; [lia|]); rewrite !forallb_forall; intros Hp v Hv;
    (eapply (proj1 (Forall_forall _ _)) in IH; [|by apply list_elem_of_In]); apply (IH n); [lia|by apply Hp|lia|by apply Hp].
Qed.

Lemma field_depth (fields : list (bytes * bool * kind)) f :
  f ∈ fields → (kind_depth f.2 ≤ foldr (λ f, Nat.max (kind_depth f.2)) O fields)%nat.
Proof. induction 1 as [|f g fields Hf IH]; cbn; lia. Qed.

Lemma struct_members_all (P : json → Prop) (fields : list (bytes * bool * kind)) values :
  (∀ f v, (f, v) ∈ zip fields values → P (encode f.2 v)) →
  Forall (λ m, P m.2) (struct_members (map (λ f, (f.1, encode f.2)) fields) values).
Proof.
  revert values. induction fields as [|[[name omit] k] fields IH]; intros [|v values] Hp; cbn; try by constructor.
  assert (∀ f v, (f, v) ∈ zip fields values → P (encode f.2 v)) as Hp' by (intros; apply Hp; by right).
  destruct (omit && empty_value v); [by apply IH|]. constructor; [|by apply IH]. apply (Hp (name, omit, k) v). by left.
Qed.

Lemma encode_printable k v : fits k v = true → printable (kind_depth k) (encode k v) = true.
Proof.
  revert v. induction k as [|lo hi| | |k IH|k IH|fields IH] using kind_ind'; intros [s|z|b|f|l| |v|l]; cbn; try done.
  - rewrite !forallb_forall. intros Hf j (v & <- & Hv)%in_map_iff. by apply IH, Hf.
  - intros [Hf _]%andb_true_iff. by apply IH.
  - intros Hf%fields_fit_Forall2. rewrite forallb_forall. intros m Hm%list_elem_of_In. revert m Hm.
    apply (Forall_forall (λ m : bytes * json, _)), (struct_members_all (λ j, printable _ j = true)).
    intros f v Hin. pose proof (elem_of_zip_l _ _ _ _ Hin) as Hfd.
    eapply (proj1 (Forall_forall _ _)) in IH; [|exact Hfd].
    apply (printable_deeper (kind_depth f.2)); [by apply field_depth|]. apply IH.
    apply list_elem_of_lookup in Hin as [i Hi]. apply lookup_zip_Some in Hi as [Hi1 Hi2].
    by eapply Forall2_lookup_lr in Hf as [Hfit _].
Qed.

(** ** Scalars read back *)
Lemma unmarshal_string_text level s : unmarshal_string (json_text level (JText s)) = Some (Some (transported s)).
Proof.
  unfold unmarshal_string. rewrite whole_part by (apply (text_part _ 0); done).
  cbn [json_text]. rewrite <- unquote_json_string. reflexivity.
Qed.
Lemma unmarshal_int_text level z : in_int64 z → unmarshal_int (json_text level (JInt z)) = Some (Some z).
Proof.
  intros Hz. unfold unmarshal_int. rewrite whole_part by (apply (text_part _ 0); done). cbn [json_text].
  pose proof (int_text_number z) as Hn. pose proof (atoi_int_text z Hz) as Ha. unfold json_number in Hn.
  destruct (int_text z) as [|c t]; [done|]. cbn [number_run] in Hn.
  rewrite Ha. destruct c; try reflexivity; discriminate Hn.
Qed.
Lemma unmarshal_bool_text level b : unmarshal_bool (json_text level (JBool b)) = Some (Some b).
Proof. unfold unmarshal_bool. rewrite whole_part by (apply (text_part _ 0); done). by destruct b. Qed.

(** A text that is not null. *)
Lemma pointer_text k v level :
  fits k v = true → match v with VNil | VPtr _ => false | _ => true end = true →
  Z.of_nat (kind_depth k) ≤ max_nesting_depth →
  ∃ c t, whole_value (json_text level (encode k v)) = Some (c :: t) ∧ c ≠ x6e.
Proof.
  intros Hf Hv Hd. rewrite whole_part by (eapply text_part; [by apply encode_printable|done]).
  destruct k, v; try done; cbn [encode json_text]; try (by eexists _, _).
  - pose proof (int_text_number z) as Hn. unfold json_number in Hn.
    destruct (int_text z) as [|c t]; [done|]. eexists _, _. split; [done|]. intros ->. discriminate Hn.
  - destruct b; by eexists _, _.
  - destruct l; by eexists _, _.
  - destruct (struct_members _ _); by eexists _, _.
Qed.

Section round_trip.
Context `{UnicodeTables}.

(** A field of its own name is found. *)
Lemma field_index_own (decoders : list field_decoder) i d :
  NoDup (map fst decoders) → decoders !! i = Some d → field_index decoders d.1 = Some i.
Proof.
  intros Hn Hi. unfold field_index.
  assert (list_find (λ e : field_decoder, e.1 = d.1) decoders = Some (i, d)) as ->; [|done].
  apply list_find_Some. split_and!; [done..|]. intros j e He Hj E.
  assert (∀ k e', decoders !! k = Some e' → map fst decoders !! k = Some e'.1) as Hl.
  { intros k e' Hk. change (map fst decoders) with (fst <$> decoders). by rewrite list_lookup_fmap, Hk. }
  assert (j = i); [|lia]. apply (NoDup_lookup (map fst decoders) j i d.1); [done| |by apply Hl].
  rewrite <- E. by apply Hl.
Qed.

Definition decoders_of (fields : list (bytes * bool * kind)) : list field_decoder :=
  map (λ f, (f.1.1, decode_into f.2)) fields.
Lemma decoders_names fields : map fst (decoders_of fields) = field_names fields.
Proof. unfold decoders_of, field_names. by rewrite map_map. Qed.

Lemma assign_members level all before fields earlier values :
  all = before ++ fields → length earlier = length before → NoDup (field_names all) →
  forallb valid_utf8 (field_names all) = true →
  Forall2 (λ f v, decode_into f.2 (zero_value f.2) (json_text level (encode f.2 v)) = (transported_value v, true) ∧
                  (f.1.2 = true → empty_value v = true → v = zero_value f.2)) fields values →
  fold_left (assign (decoders_of all))
    (map (λ m, (transported m.1, json_text level m.2)) (struct_members (map (λ f, (f.1, encode f.2)) fields) values))
    (earlier ++ map (λ f, zero_value f.2) fields, true)
  = (earlier ++ map transported_value values, true).
Proof.
  intros Hall Hlen Hn Hu Hf. revert before earlier Hall Hlen.
  induction Hf as [|[[name omit] k] v fields values [Hd Hz] Hf IH]; intros before earlier Hall Hlen; [done|].
  cbn [map struct_members fst snd] in *.
  assert (∀ w, fold_left (assign (decoders_of all))
    (map (λ m, (transported m.1, json_text level m.2)) (struct_members (map (λ f, (f.1, encode f.2)) fields) values))
    (earlier ++ w :: map (λ f, zero_value f.2) fields, true) = (earlier ++ w :: map transported_value values, true)) as IH'.
  { intros w. specialize (IH (before ++ [(name, omit, k)]) (earlier ++ [w])).
    rewrite <- !app_assoc in IH. apply IH; [done|]. rewrite !length_app. cbn. lia. }
  destruct (omit && empty_value v) eqn:Eo.
  - apply andb_true_iff in Eo as [-> Ev]. rewrite (Hz eq_refl Ev), zero_transported. apply IH'.
  - cbn [map fold_left fst snd].
    assert (decoders_of all !! length before = Some (name, decode_into k)) as Hi.
    { unfold decoders_of. change (map ?g all) with (g <$> all). rewrite list_lookup_fmap, Hall, list_lookup_middle by done.
      done. }
    assert (transported name = name) as Hname.
    { apply transported_valid. rewrite forallb_forall in Hu. apply Hu. rewrite Hall.
      unfold field_names. rewrite map_app. apply in_or_app. right. by left. }
    unfold assign at 2. cbn [fst snd].
    rewrite Hname, (field_index_own (decoders_of all) (length before) (name, decode_into k));
      [|by rewrite decoders_names|done].
    rewrite Hi, list_lookup_middle by done. cbn [fst snd]. rewrite Hd, <- Hlen, insert_app_r_alt by lia.
    rewrite Nat.sub_diag. apply IH'.
Qed.

Lemma decode_encoded k v level :
  kind_ok k = true → fits k v = true → Z.of_nat (kind_depth k) ≤ max_nesting_depth →
  decode_into k (zero_value k) (json_text level (encode k v)) = (transported_value v, true).
Proof.
  revert v level. induction k as [|lo hi| | |k IH|k IH|fields IH] using kind_ind'; intros v level Hk Hf Hd.
  - destruct v; try discriminate Hf. cbn [decode_into encode]. by rewrite unmarshal_string_text.
  - destruct v; try discriminate Hf. cbn [decode_into encode fits] in *. bool_to_prop.
    rewrite unmarshal_int_text by (unfold in_int64; lia). by rewrite (proj2 (andb_true_iff _ _)).
  - destruct v; try discriminate Hf. cbn [decode_into encode]. by rewrite unmarshal_bool_text.
  - destruct v; discriminate Hf.
  - pose proof (encode_printable _ _ Hf) as Hp.
    destruct v as [| | | |l| | |]; try discriminate Hf; cbn [decode_into encode] in *; [|reflexivity].
    rewrite (unmarshal_list_text _ _ level Hp Hd). cbn [fits kind_ok kind_depth] in *. rewrite forallb_forall in Hf.
    assert (map (λ raw, decode_into k (zero_value k) raw) (map (json_text (S level)) (map (encode k) l))
            = map (λ v, (transported_value v, true)) l) as ->.
    { rewrite !map_map. apply map_ext_in. intros v Hv. apply IH; [done|by apply Hf|lia]. }
    rewrite map_map. cbn. f_equal. apply forallb_forall. by intros r (v & <- & _)%in_map_iff.
  - destruct v as [| | | | | |v|]; try discriminate Hf; cbn [decode_into encode fits kind_ok kind_depth] in *; [reflexivity|].
    apply andb_true_iff in Hf as [Hf Hv]. destruct (pointer_text k v level Hf Hv Hd) as (c & t & Hw & Hc).
    rewrite Hw, decide_False by done. cbn [zero_value]. by rewrite IH.
  - pose proof (encode_printable _ _ Hf) as Hp.
    destruct v as [| | | | | | |values]; try discriminate Hf. cbn [encode zero_value] in *.
    cbn [decode_into]. rewrite (unmarshal_members_text _ _ level Hp Hd).
    cbn [fits kind_ok kind_depth] in *. apply andb_true_iff in Hk as [[Hn Hu]%andb_true_iff Hks].
    apply bool_decide_eq_true in Hn. rewrite forallb_forall in Hks. apply fields_fit_Forall2 in Hf.
    pose proof (assign_members (S level) fields [] fields [] values eq_refl eq_refl Hn Hu) as Ha.
    cbn [app] in Ha. unfold decoders_of in Ha. rewrite Ha; [done|].
    apply Forall2_same_length_lookup. split; [by eapply Forall2_length|]. intros i f w Hi Hw.
    eapply Forall2_lookup_lr in Hf as [Hfit Ho]; [|exact Hi|exact Hw].
    assert (f ∈ fields) as Hin by (by eapply list_elem_of_lookup_2).
    eapply (proj1 (Forall_forall _ _)) in IH; [|exact Hin]. pose proof (field_depth fields f Hin). split.
    + apply IH; [by apply Hks, list_elem_of_In|done|lia].
    + intros Homit He. apply omitted_is_zero; [done..|]. by apply Ho.
Qed.

(** White space behind a value changes nothing. *)
Lemma decode_whole k current data data' :
  whole_value data = whole_value data' → decode_into k current data = decode_into k current data'.
Proof.
  intros E. revert current. induction k as [|lo hi| | |k IH|k IH|fields IH] using kind_ind'; intros current; cbn;
    unfold unmarshal_string, unmarshal_int, unmarshal_bool, unmarshal_array, unmarshal_object; rewrite E; try done.
  by rewrite IH.
Qed.
Lemma whole_value_line v : part v → whole_value (v ++ [x0a]) = Some v.
Proof.
  intros Hp. unfold whole_value. by rewrite (read_part [] v [x0a] eq_refl Hp (or_introl eq_refl) : read_value (v ++ [x0a]) = _).
Qed.

(** What is marshalled from a struct is unmarshalled to it, also from a line of
    a file. *)
Lemma unmarshal_MarshalIndent k v :
  kind_ok k = true → fits k v = true → Z.of_nat (kind_depth k) ≤ max_nesting_depth →
  ∃ text, MarshalIndent (encode k v) = Some text ∧ unmarshal k text = (transported_value v, true) ∧
    unmarshal k (text ++ [x0a]) = (transported_value v, true).
Proof.
  intros Hk Hf Hd. exists (json_text 0 (encode k v)). pose proof (encode_printable k v Hf) as Hp.
  pose proof (text_part _ _ 0 Hp Hd) as Hpart. unfold MarshalIndent, unmarshal.
  rewrite (printable_finite _ _ Hp), whole_part, whole_value_line by done.
  rewrite (decode_whole k _ (json_text 0 (encode k v) ++ [x0a]) (json_text 0 (encode k v)))
    by (by rewrite (whole_part _ Hpart), (whole_value_line _ Hpart)).
  by rewrite decode_encoded.
Qed.
End round_trip.
