(* ===== verification/Status.v ===== *)
(** The status documents: [status_types.go], [status_persist.go],
    [status_build.go], [status_observe.go], [status_neighbors.go],
    [status_wan_health.go], [status_human.go] and [status.go] of
    [src/cmd/unifi-stubd], with [src/internal/platform/capabilities.go].

    A struct type of the code is a [kind], so marshalling and unmarshalling are
    those of GoStruct.  The daemon writes the summary of its last exchange to a
    file; [--status] reads it back next to the adoption state and prints both.
    The layout of a time is a parameter, and the text of an error is its
    constant part, as everywhere. *)
From stdpp Require Import gmap.
From S2P Require Import Prelude GoStrings GoUtf8 GoJson GoUrl GoNet GoIP GoMap GoFloat Ports Topology.
From S2P Require PayloadViews WanHealth.
From S2P Require Import InformSchedule AtomicFile AdoptionStore AdoptionEnv AdoptionResponse InformCodec Daemon.
From S2P Require Import Overrides Observe ObserveSources RuntimeConfig RuntimePorts Identity Settings.
From S2P Require Import Rates Startup.
From S2P Require Profiles Contract.
From S2P Require Import GoAny JsonText GoStruct.

(** ** [time.Duration.String] *)
Definition pad_digits (width : nat) (text : bytes) : bytes := repeat x30 (width - length text) ++ text.
Definition frac_text (v : Z) (prec : nat) : bytes :=
  let digits := rev (drop_zeros (rev (pad_digits prec (itoa (v mod 10 ^ Z.of_nat prec))))) in
  match digits with [] => [] | _ => B "." ++ digits end.
Definition below_second (u : Z) : bytes :=
  if u <? 1000 then itoa u ++ B "ns"
  else if u <? 1000000 then itoa (u / 1000) ++ frac_text u 3 ++ [xc2; xb5] ++ B "s"
  else itoa (u / 1000000) ++ frac_text u 6 ++ B "ms".
Definition Duration_String (d : Z) : bytes :=
  let u := Z.abs d in
  let s := u / 1000000000 in
  let sign := if d <? 0 then B "-" else [] in
  if u =? 0 then B "0s"
  else if u <? 1000000000 then sign ++ below_second u
  else
    let seconds := itoa (s mod 60) ++ frac_text u 9 ++ B "s" in
    let minutes := itoa (s / 60 mod 60) ++ B "m" in
    let hours := itoa (s / 3600) ++ B "h" in
    sign ++ (if s / 60 =? 0 then seconds else if s / 3600 =? 0 then minutes ++ seconds else hours ++ minutes ++ seconds).
Example durations :
  map Duration_String [0; 1; 1500; 2000000; 10000000000; 90000000000; 3600000000000; 1500000000; -5400000000000]
  = [B "0s"; B "1ns"; B "1.5" ++ [xc2; xb5] ++ B "s"; B "2ms"; B "10s"; B "1m30s"; B "1h0m0s"; B "1.5s"; B "-1h30m0s"].
Proof. vm_compute. reflexivity. Qed.

(** ** status_types.go: the types of the persisted file *)
Definition must (name : String.string) (k : kind) : bytes * bool * kind := (B name, false, k).
Definition may (name : String.string) (k : kind) : bytes * bool * kind := (B name, true, k).
Arguments must name%_stdpp_scope k.
Arguments may name%_stdpp_scope k.

Definition lastInformScheduleStatus : kind := KStruct [
  must "effective_interval" KText; must "next_delay" KText; must "consecutive_failures" int_kind;
  must "backoff" KBool; must "controller_hint_applied" KBool; must "controller_hint_ignored" KBool;
  must "controller_hints_supported" KBool; must "immediate_applied" KBool; must "immediate_suppressed" KBool].
Definition lastInformStatus : kind := KStruct [
  may "time" KText; may "url" KText; may "status_code" int_kind; may "response_type" KText;
  may "controller_state" KText; may "wire_state" (KPtr int_kind); may "wire_state_name" KText;
  may "cfgversion" KText; may "version" KText; may "cipher" KText; may "request_flags" uint16_kind;
  may "key_source" KText; may "response_body_present" KBool; may "response_packet_decoded" KBool;
  may "response_json_parsed" KBool; may "response_flags" uint16_kind; may "raw_bytes" int_kind;
  may "json_bytes" int_kind; may "interval_seconds" int_kind; must "schedule" lastInformScheduleStatus;
  may "include_blocks" (KList KText); may "exclude_blocks" (KList KText); may "udapi_blocks" (KList KText);
  may "block_selection_limited" KBool; may "immediate" KBool; may "server_time_in_utc" int_kind;
  may "server_time_set" KBool; may "controller_time_offset_seconds" int_kind;
  may "controller_time_offset_set" KBool; may "reset_requested" KBool; may "reset_applied" KBool;
  may "reset_reason" KText; may "reset_disposition" KText; may "has_mgmt_cfg" KBool; may "has_system_cfg" KBool;
  may "system_cfg_bytes" int_kind; may "system_cfg_keys" (KList KText); may "ignored" KBool;
  may "ignored_reason" KText; may "error" KText].
Definition persistedRunStatus : kind := KStruct [may "last_inform" lastInformStatus].

Definition nil_list (enc : bytes → value) (l : list bytes) : value :=
  match l with [] => VNil | _ => VList (map enc l) end.
Definition text_list : list bytes → value := nil_list VText.

Definition schedule_value (d : option ScheduleDecision) : value :=
  match d with
  | None => zero_value lastInformScheduleStatus
  | Some d =>
      VStruct [VText (Duration_String (EffectiveInterval d)); VText (Duration_String (NextDelay d));
               VInt (ConsecutiveFailures d); VBool (Backoff d); VBool (ControllerHintApplied d);
               VBool (ControllerHintIgnored d); VBool (DecisionControllerHints d); VBool (ImmediateApplied d);
               VBool (ImmediateSuppressed d)]
  end.
Definition error_text (e : option error) : bytes := match e with Some e => B e | None => [] end.

Section persisted.
Variable rfc3339 : Time → bytes.

(** The struct behind the record the heartbeat keeps. *)
Definition last_inform_value (l : Daemon.lastInformStatus) : value :=
  let r := li_Response l in
  let c := li_CipherStatus l in
  VStruct [
    VText (rfc3339 (li_Time l)); VText (li_URL l); VInt (li_StatusCode l); VText (li_ResponseType l);
    VText (li_ControllerState l); VPtr (VInt (li_WireState l)); VText (li_WireStateName l);
    VText (li_CFGVersion l); VText (li_Version l); VText (li_Cipher l); VInt (cs_RequestFlags c);
    VText (cs_KeySource c); VBool (cs_ResponseBodyPresent c); VBool (cs_ResponsePacketDecoded c);
    VBool (li_ResponseJSONParsed l); VInt (cs_ResponseFlags c); VInt (li_RawBytes l);
    VInt (li_JSONBytes l); VInt (r_IntervalSeconds r); schedule_value (li_Schedule l);
    text_list (r_IncludeBlocks r); text_list (r_ExcludeBlocks r); text_list (r_UDAPIBlocks r);
    VBool (r_BlockSelectionLimited r); VBool (r_Immediate r); VInt (r_ServerTimeUTC r);
    VBool (r_ServerTimeSet r); VInt (li_ControllerTimeOffset l);
    VBool (li_ControllerTimeSet l); VBool (r_ResetRequested r); VBool (r_ResetApplied r);
    VText (r_ResetReason r); VText (r_ResetDisposition r); VBool (r_HasMgmtCFG r); VBool (r_HasSystemCFG r);
    VInt (r_SystemCFGBytes r); text_list (r_SystemCFGKeys r); VBool (r_Ignored r);
    VText (r_IgnoredReason r); VText (error_text (li_Error l))].
Definition persisted_value (l : Daemon.lastInformStatus) : value := VStruct [last_inform_value l].

(** The call that [Daemon.saveLastInformStatus] leaves open. *)
Definition marshal_status (l : Daemon.lastInformStatus) : option bytes :=
  MarshalIndent (encode persistedRunStatus (persisted_value l)).
End persisted.

(** What was read, with the error if there was one: a file that is not JSON
    gives the zero value, a member of another type leaves its field. *)
Definition loadPersistedRunStatus `{UnicodeTables} {W} `{FileSystem W} (path : bytes) (w : W)
    : value * option error * W :=
  match fs_read path w with
  | (ReadData data, w) =>
      let '(v, ok) := unmarshal persistedRunStatus data in
      (v, if ok : bool then None else Some "parse runtime status"%stdpp, w)
  | (_, w) => (zero_value persistedRunStatus, Some "read runtime status"%stdpp, w)
  end.

(** ** status_types.go: the document of [--status]

    A struct type without tags keeps the names of its Go fields; the embedded
    [observe.InterfaceStats] is written inline. *)
Definition statusIdentity : kind := KStruct [
  must "mac" KText; must "ip" KText; must "hostname" KText; must "serial" KText; must "model" KText;
  must "model_name" KText; must "device_type" KText; must "profile" KText; must "ports" int_kind;
  must "uplink_port" int_kind].
Definition statusControllerIntervalPolicy : kind := KStruct [
  must "supported" KBool; may "firmware_minimum" KText; may "effective_minimum" KText; may "reason" KText].
Definition statusControllerReportingPolicy : kind := KStruct [
  must "block_selection" KBool; must "controller_clock" KBool; must "idle_speedtest" KBool; must "reason" KText].
Definition neighbor_fields : list (bytes * bool * kind) := [
  must "mac" KText; may "hostname" KText; may "ip" KText; may "vlan" int_kind; may "static" KBool;
  may "type" KText; may "age" int_kind; may "uptime" int_kind; may "remote_port" int_kind].
Definition statusUplinkNeighbor : kind := KStruct neighbor_fields.
Definition statusPortNeighbor : kind := KStruct (must "port" int_kind :: neighbor_fields).
Definition statusWANHealthTarget : kind := KStruct [must "port" int_kind; must "host" KText].
Definition statusWANHealthResult : kind := KStruct [
  must "port" int_kind; must "host" KText; must "connected" KBool; must "latency_ms" int_kind;
  must "downtime_seconds" int_kind; must "uptime_percent" KFloat; may "last_error" KText].
Definition statusWANHealthConfig : kind := KStruct [
  must "source" KText; may "interval_seconds" int_kind; may "timeout_ms" int_kind;
  may "targets" (KList statusWANHealthTarget); may "results" (KList statusWANHealthResult)].
Definition managementLAN_kind : kind := KStruct [
  must "Enabled" KBool; must "VLAN" int_kind; must "NetworkName" KText; must "Mode" KText;
  must "Interface" KText; must "IP" KText; must "ControllerReachable" KText; must "AdoptionStrategy" KText].
Definition bridgeObserve_kind : kind := KStruct [
  must "Bridge" KText; must "UplinkInterface" KText; must "IgnoredMembers" (KList KText);
  must "MemberPortMap" (KList (KStruct [must "Member" KText; must "Port" int_kind]))].
Definition portMapping_kind : kind := KStruct [
  must "Port" int_kind; must "Interface" KText; must "Disabled" KBool; must "Unmapped" KBool].
Definition portOverride_kind : kind := KStruct [
  must "port" int_kind; may "name" KText; may "interface" KText; may "mac" KText; may "ip" KText;
  may "netmask" KText; may "ipv6" (KList KText); may "role" KText; may "network_group" KText;
  may "portconf_id" KText; may "networkconf_id" KText; may "native_networkconf_id" KText;
  may "network_name" KText; may "vlan" int_kind; may "wan_uptime_percent" (KPtr KFloat);
  may "wan_latency_ms" int_kind; may "wan_downtime_seconds" int_kind; may "wan_connected" (KPtr KBool);
  may "speed" int_kind; may "media" KText; may "up" (KPtr KBool); may "disabled" KBool].
Definition statusConfig : kind := KStruct [
  must "operation_mode" KText; may "controller_url" KText; may "inform_url" KText; must "interval" KText;
  must "controller_interval_min" KText; must "controller_interval_max" KText;
  must "controller_interval_policy" statusControllerIntervalPolicy;
  must "controller_reporting_policy" statusControllerReportingPolicy; must "inform_backoff_max" KText;
  must "inform_backoff_jitter_percent" int_kind; must "no_discovery" KBool; may "discovery_interface" KText;
  may "discovery_targets" (KList KText); may "management_lan" (KPtr managementLAN_kind);
  may "ssh_listen" KText; must "state_path" KText; must "status_path" KText;
  may "uplink_neighbor" (KPtr statusUplinkNeighbor); may "port_neighbors" (KList statusPortNeighbor);
  may "port_overrides" (KList portOverride_kind); may "bridge_observe" bridgeObserve_kind;
  may "port_mappings" (KList portMapping_kind); must "lldp_source" KText;
  must "traffic_rates_enabled" KBool; must "wan_health" statusWANHealthConfig; must "proc_source" KText;
  must "instance_guard" KText; may "instance_guard_path" KText].
Definition statusAdoption : kind := KStruct [
  must "state" KText; must "wire_state" int_kind; must "wire_state_name" KText; must "adopted" KBool;
  must "authkey_set" KBool; may "cfgversion" KText; must "use_aes_gcm" KBool; may "version" KText].
Definition statusObservation : kind := KStruct [
  may "interface" KText; may "bridge" KText; may "rx_bytes" int_kind; may "tx_bytes" int_kind;
  may "rx_packets" int_kind; may "tx_packets" int_kind; may "rx_errors" int_kind; may "tx_errors" int_kind;
  may "speed_mbps" int_kind; may "bridge_devices" int_kind; may "learned_macs" int_kind;
  may "source_warnings" (KList KText)].
Definition Capability : kind := KStruct [
  must "name" KText; may "source" KText; must "state" KText; may "detail" KText].
Definition CapabilityReport : kind := KStruct [must "goos" KText; may "capabilities" (KList Capability)].
Definition statusPlatform : kind := KStruct [must "capabilities" CapabilityReport].
Definition localStatus : kind := KStruct [
  must "config_path" KText; must "identity" statusIdentity; must "config" statusConfig;
  must "adoption" statusAdoption; may "observe" statusObservation; must "platform" statusPlatform;
  must "runtime" persistedRunStatus; may "warnings" (KList KText)].

(** ** Encoding Go values *)
Definition list_value {A} (enc : A → value) (l : list A) : value := match l with [] => VNil | _ => VList (map enc l) end.
Definition ptr_value {A} (enc : A → value) (o : option A) : value := match o with Some a => VPtr (enc a) | None => VNil end.

(** ** platform/capabilities.go, platform/defaults.go

    [look_path] is the text of the error of [exec.LookPath], if there is one;
    [stat] that of [os.Stat]. *)
Record installed := MkInstalled { look_path : bytes → option bytes; stat : bytes → option bytes }.
Definition capabilityDisabled : bytes := B "disabled".
Definition capabilityAvailable : bytes := B "available".
Definition capabilityMissing : bytes := B "missing".
Definition capabilityUnsupported : bytes := B "unsupported".
Definition goos (host : Host) : bytes := if ho_linux host then B "linux" else B "freebsd".
Definition capability (name source state detail : bytes) : value :=
  VStruct [VText name; VText source; VText state; VText detail].

Section capabilities.
Context `{UnicodeTables}.
Definition commandCapability (tools : installed) (name source command : bytes) : value :=
  let source := normalizedSource source in
  if decide (source = PlatformSourceOff) then capability name source capabilityDisabled []
  else
    match look_path tools command with
    | Some err => capability name source capabilityMissing err
    | None => capability name source capabilityAvailable []
    end.
Definition procCapability (tools : installed) (host : Host) (source : bytes) : value :=
  let source := normalizedSource source in
  if decide (source = PlatformSourceOff) then capability (B "proc") source capabilityDisabled []
  else if negb (bool_decide (source = ProcSourceProcFS)) then capability (B "proc") source capabilityUnsupported []
  else if negb (ho_linux host) then
    capability (B "proc") source capabilityUnsupported (B "procfs source is Linux-only")
  else
    match stat tools (B "/proc/net/dev") with
    | Some err => capability (B "proc") source capabilityMissing err
    | None => capability (B "proc") source capabilityAvailable []
    end.
Definition Capabilities (tools : installed) (host : Host) (lldpSource procSource : bytes) : value :=
  VStruct [VText (goos host);
           VList [commandCapability tools (B "lldp") (normalizedSource lldpSource) (B "lldpcli");
                  procCapability tools host (normalizedSource procSource)]].
End capabilities.

(** ** status_neighbors.go *)
Definition neighbor_values (mac hostname ip : bytes) (vlan : Z) (static : bool) (type : bytes) (age uptime remotePort : Z)
    : list value :=
  [VText mac; VText hostname; VText ip; VInt vlan; VBool static; VText type; VInt age; VInt uptime; VInt remotePort].
Definition statusUplinkNeighborEntry (neighbor : option TopologyNeighbor) : value :=
  ptr_value (λ n, VStruct (neighbor_values (tn_MAC n) (tn_Hostname n) (tn_IP n) (tn_VLAN n) (tn_Static n)
                            (tn_DeviceType n) (tn_Age n) (tn_Uptime n) (tn_RemotePort n))) neighbor.
Definition statusPortNeighbors (neighbors : list PortNeighbor) : value :=
  VList (map (λ n,
    let e := np_Entry n in
    VStruct (VInt (np_Port n) :: neighbor_values (me_MAC e) (me_Hostname e) (me_IP e) (me_VLAN e) (me_Static e)
               (me_Type e) (me_Age e) (me_Uptime e) (np_RemotePort n))) neighbors).
Definition override_value (o : PortOverride) : value :=
  let t := po_Text o in
  VStruct [VInt (po_Port o); VText (ot_Name t); VText (ot_Interface t); VText (ot_MAC t); VText (ot_IP t);
    VText (ot_Netmask t); text_list (po_IPv6 o); VText (ot_Role t); VText (ot_NetworkGroup t);
    VText (ot_PortConfID t); VText (ot_NetworkConfID t); VText (ot_NativeNetworkConfID t);
    VText (ot_NetworkName t); VInt (po_VLAN o); ptr_value VFloat (po_WANUptimePercent o);
    VInt (po_WANLatencyMS o); VInt (po_WANDowntimeSeconds o); ptr_value VBool (po_WANConnected o);
    VInt (po_Speed o); VText (ot_Media t); ptr_value VBool (po_Up o); VBool (po_Disabled o)].
Definition statusPortOverrides `{UnicodeTables} (overrides : list PortOverride) : value :=
  list_value (override_value ∘ NormalizePortOverride) overrides.

(** ** management_lan_settings.go, and the parts of the configuration *)
Definition management_value (cfg : ManagementLAN) : value :=
  VStruct [VBool (ml_Enabled cfg); VInt (ml_VLAN cfg); VText (ml_NetworkName cfg); VText (ml_Mode cfg);
    VText (ml_Interface cfg); VText (ml_IP cfg); VText (ml_ControllerReachable cfg); VText (ml_AdoptionStrategy cfg)].
Definition statusManagementLAN `{UnicodeTables} (flags : runtimeFlags) : value :=
  let cfg := effectiveManagementLAN flags in
  if negb (ml_Enabled cfg) then VNil else VPtr (management_value cfg).
Definition bridge_value (b : BridgeObserve) : value :=
  VStruct [VText (bv_Bridge b); VText (bv_UplinkInterface b); text_list (bv_IgnoredMembers b);
    list_value (λ m, VStruct [VText (bm_Member m); VInt (bm_Port m)]) (bv_MemberPortMap b)].
Definition mapping_value (m : PortMapping) : value :=
  VStruct [VInt (pm_Port m); VText (pm_Interface m); VBool (pm_Disabled m); VBool (pm_Unmapped m)].

(** ** inform_schedule.go *)
Definition positive_duration (d : Z) : bytes := if 0 <? d then Duration_String d else [].
Definition controllerIntervalPolicyStatus (f : settings) (policy : InformSchedulePolicy) : value :=
  VStruct [VBool (isp_Supported policy); VText (positive_duration (isp_FirmwareMinimum policy));
    VText (positive_duration (EffectiveMinimum policy (st_duration f fd_controllerIntervalMin)));
    VText (isp_Reason policy)].
Definition controllerReportingPolicyStatus (policy : ControllerReportingPolicy) : value :=
  VStruct [VBool (pol_BlockSelection policy); VBool (pol_ControllerClock policy); VBool (pol_IdleSpeedtest policy);
    VText (pol_Reason policy)].

Section build.
Context `{UnicodeTables} `{FloatConversion} `{AddressParser} `{MapOrder} `{SliceSort}.
Variables (tools : installed) (su : surroundings).

(** ** status_wan_health.go *)
Definition result_value (r : WanHealth.Result) : value :=
  VStruct [VInt (WanHealth.re_Port r); VText (WanHealth.re_Host r); VBool (WanHealth.re_Connected r);
    VInt (WanHealth.re_LatencyMS r); VInt (WanHealth.re_DowntimeSeconds r); VFloat (WanHealth.re_UptimePercent r);
    VText (WanHealth.re_LastError r)].
Definition status_probes (flags : runtimeFlags) (profile : deviceProfile) : list WanHealth.Result :=
  let cfg := fg_wanHealth flags in
  if negb (bool_decide (WanHealth.NormalizeSource (wc_Source cfg) = WanHealth.SourcePing))
     || negb (isGatewayProfile profile) then []
  else
    match probeTargets cfg (healthPreviewPorts flags profile) (explicitWANPorts (fg_portOverrides flags)) with
    | [] => []
    | targets => WanHealth.Measure (su_ping su) (probeConfig cfg targets)
    end.
Definition buildStatusWANHealth (flags : runtimeFlags) (profile : deviceProfile) : value :=
  let cfg := fg_wanHealth flags in
  VStruct [VText (WanHealth.NormalizeSource (wc_Source cfg)); VInt (wc_IntervalSeconds cfg); VInt (wc_TimeoutMS cfg);
    list_value (λ t, VStruct [VInt (wt_Port t); VText (trim_space (wt_Host t))]) (wc_Targets cfg);
    list_value result_value (status_probes flags profile)].

(** ** status_observe.go *)
Definition shouldObserveStatus (mode : bytes) : bool :=
  bool_decide (normalizeMode mode ∈ [operationModeBridgeObserve; operationModePortMap; operationModeHostDirect]).
Definition buildObservationStatus (flags : runtimeFlags) (ports : list Port) : value :=
  let cfg := effectiveBridgeObserve flags in
  let iface := trim_space (bv_UplinkInterface cfg) in
  let bridge := trim_space (bv_Bridge cfg) in
  let '(snapshot, errs) :=
    HostSnapshotFromSource (Some (Bridge (su_host su)))
      (MkObserveConfig iface bridge (bv_IgnoredMembers cfg) (bridgeMemberPortMap (bv_MemberPortMap cfg)))
      (uplinkPortIndex ports) in
  let counter key := VInt (counter_get key (is_Counters (ss_Stats snapshot))) in
  VStruct [VText iface; VText bridge; counter CounterRXBytes; counter CounterTXBytes; counter CounterRXPackets;
    counter CounterTXPackets; counter CounterRXErrors; counter CounterTXErrors;
    VInt (is_SpeedMbps (ss_Stats snapshot)); VInt (Z.of_nat (size (ss_DeviceMACs snapshot)));
    VInt (zlen (ss_MACs snapshot)); list_value (λ e : error, VText (B e)) errs].

(** ** status_build.go *)
Definition identity_value (r : serveRuntime) (i : serveIdentity) (ports : list Port) : value :=
  let flags := sr_flags r in
  VStruct [VText (mac_string (si_mac i)); VText (ipv4_string (si_ip i)); VText (si_hostname i);
    VText (RuntimePorts.serialFromMAC (si_mac i)); VText (fg_model flags); VText (fg_modelDisplay flags);
    VText (Profiles.DeviceType (sr_profile r)); VText (Profiles.Name (sr_profile r)); VInt (zlen ports);
    VInt (uplinkPortIndex ports)].
Definition config_value (f : settings) (r : serveRuntime) (informURL : bytes) : value :=
  let flags := sr_flags r in
  VStruct [VText (fg_operationMode flags); VText (fg_controller flags); VText informURL;
    VText (Duration_String (st_duration f fd_interval));
    VText (Duration_String (st_duration f fd_controllerIntervalMin));
    VText (Duration_String (st_duration f fd_controllerIntervalMax));
    controllerIntervalPolicyStatus f (sr_policy r); controllerReportingPolicyStatus (sr_reporting r);
    VText (Duration_String (st_duration f fd_informBackoffMax)); VInt (st_int f fi_informBackoffJitterPercent);
    VBool (st_bool f fb_noDiscovery); VText (effectiveDiscoveryInterface flags);
    text_list (st_discoveryTargets f); statusManagementLAN flags; VText (st_string f fs_sshListen);
    VText (st_string f fs_sshState); VText (st_string f fs_statusPath);
    statusUplinkNeighborEntry (fg_uplinkNeighbor flags); statusPortNeighbors (fg_portNeighbors flags);
    statusPortOverrides (fg_portOverrides flags); bridge_value (fg_bridgeObserve flags);
    list_value mapping_value (fg_portMappings flags); VText (fg_lldpSource flags);
    VBool (fg_trafficRatesEnabled flags); buildStatusWANHealth flags (device_profile (sr_profile r));
    VText (fg_procSource flags); VText (fg_instanceGuard flags); VText (fg_instanceGuardPath flags)].
Definition adoption_value (store : Store) : value :=
  let keyed := negb (bool_decide (AuthKey store = [])) in
  VStruct [VText (adoptionStateText store); VInt (controllerInformState store);
    VText (InformState_String (controllerInformState store)); VBool keyed; VBool keyed; VText (CFGVersion store);
    VBool (UseAESGCM store); VText (Version store)].

Context {W : Type} `{FileSystem W}.
Definition loadAdoptionStateForStatus (path : bytes) (w : W) : Store * list bytes * W :=
  match LoadEnv path w with
  | (Ok store, w) => (store, [], w)
  | (Err LoadNotExist, w) => (no_store, [B "adoption state: not found"], w)
  | (Err (LoadError e), w) => (no_store, [B "adoption state: " ++ B e], w)
  end.
Definition buildLocalStatus (f : settings) (r : serveRuntime) (i : serveIdentity) (w : W) : value * W :=
  let flags := sr_flags r in
  let '(store, adoptionWarnings, w) := loadAdoptionStateForStatus (st_string f fs_sshState) w in
  let ports := BuildPorts (dp_Layout (device_profile (sr_profile r))) (si_options i) in
  let '(runStatus, err, w) := loadPersistedRunStatus (st_string f fs_statusPath) w in
  let warnings :=
    adoptionWarnings ++ match err with Some e => [B "runtime status: " ++ B e] | None => [] end in
  (VStruct [VText (st_string f fs_configPath); identity_value r i ports;
     config_value f r (effectiveInformURL (fg_controller flags) store); adoption_value store;
     if shouldObserveStatus (fg_operationMode flags) then buildObservationStatus flags ports
     else zero_value statusObservation;
     VStruct [Capabilities tools (su_host su) (trim_space (fg_lldpSource flags)) (trim_space (fg_procSource flags))];
     runStatus; text_list warnings], w).
End build.

(** ** The status file *)
Section round_trip.
Context `{UnicodeTables} {W : Type} `{FileSystemLaws W}.
Variable rfc3339 : Time → bytes.

Lemma persisted_kind : kind_ok persistedRunStatus = true ∧ Z.of_nat (kind_depth persistedRunStatus) ≤ max_nesting_depth.
Proof. split; [vm_compute; reflexivity|vm_compute; discriminate]. Qed.

(** The texts and flags of a record always fit; a new record does. *)
Lemma new_record_fits now url store :
  fits persistedRunStatus (persisted_value rfc3339 (newLastInformStatus now url store)) = true.
Proof.
  unfold newLastInformStatus, persisted_value, last_inform_value, controllerInformState. cbn.
  by repeat case_decide.
Qed.

(** C9: The status file round trip.  A record whose numbers are in their Go types
    can always be marshalled.  If the daemon saved it, then [--status] reads
    without a warning exactly that record: every field of it, in the file of
    any later reader whose read succeeds; only bytes of a text that are not
    UTF-8 become the replacement character. *)
Theorem status_file_round_trip path env last (w w' : W) :
  fs_valid w → (∀ l, e_marshal env l = marshal_status rfc3339 l) →
  fits persistedRunStatus (persisted_value rfc3339 last) = true →
  is_Some (marshal_status rfc3339 last) ∧
  (saveLastInformStatus path env last w = (Ok tt, w') → (fs_read path w').1 ≠ ReadFailed →
   (loadPersistedRunStatus path w').1 = (transported_value (persisted_value rfc3339 last), None)).
Proof.
  intros Hv He Hf. destruct persisted_kind as [Hk Hd].
  destruct (unmarshal_MarshalIndent _ _ Hk Hf Hd) as (data & Hm & _ & Hl).
  split; [by eexists|]. unfold saveLastInformStatus. case_decide; [done|].
  rewrite He. unfold marshal_status. rewrite Hm. clear Hk Hd Hf Hm He.
  destruct (fs_write_content path (data ++ [x0a]) 384 w Hv) as [Hv' Hc].
  destruct (fs_write path (data ++ [x0a]) 384 w) as [[[]|e] w1]; cbn [wrap_err fst snd] in *; [|done]. intros [= <-] Hr.
  unfold loadPersistedRunStatus. pose proof (fs_read_data path w1 Hv') as Hdata.
  destruct (fs_read path w1) as [[d| |] w2]; cbn [fst snd] in *; [|congruence|done].
  assert (d = data ++ [x0a]) as -> by congruence. by rewrite Hl.
Qed.
End round_trip.

(** ** Witness *)
#[local] Existing Instances ascii_tables Contract.memory_files Contract.memory_laws.
Definition fixed_time (_ : Time) : bytes := B "2026-01-01T00:00:00Z".
Definition status_env : Daemon.environment :=
  Daemon.MkEnv Contract.busy_controller InformCodec.Toy.rand demo_random (MkTime 1700000000 0) (marshal_status fixed_time).
Lemma status_file_round_trip_witness :
  let saved := saveLastInformStatus Contract.status_path status_env Daemon.sample_last (∅ : gmap bytes bytes) in
  saved.1 = Ok tt ∧
  (loadPersistedRunStatus Contract.status_path saved.2).1 = (persisted_value fixed_time Daemon.sample_last, None).
Proof.
  intros saved.
  assert (saved.1 = Ok tt) as H1 by (vm_compute; reflexivity).
  assert (saved = (Ok tt, saved.2)) as Hs by (rewrite <- H1; apply surjective_pairing).
  assert (∀ l, e_marshal status_env l = marshal_status fixed_time l) as He by (intros l; unfold status_env; cbn [e_marshal]; reflexivity).
  assert (fits persistedRunStatus (persisted_value fixed_time Daemon.sample_last) = true) as Hf
    by (vm_compute; reflexivity).
  assert ((fs_read Contract.status_path saved.2).1 ≠ ReadFailed) as Hr by (vm_compute; discriminate).
  assert (transported_value (persisted_value fixed_time Daemon.sample_last)
          = persisted_value fixed_time Daemon.sample_last) as Ht by (vm_compute; reflexivity).
  pose proof (proj2 (status_file_round_trip (W := gmap bytes bytes) fixed_time Contract.status_path status_env
    Daemon.sample_last ∅ saved.2 I He Hf) Hs Hr) as K.
  split; [exact H1|]. by rewrite K, Ht.
Defined.
