(* ===== verification/StatusText.v ===== *)
(** What [--status] prints: [status_human.go], [printWANHealthStatus] of
    [status_wan_health.go] and [status.go] of [src/cmd/unifi-stubd].

    The lines are read from the status document by the names of its fields.
    The theorem is that the output, the status file's record and the payload of
    a turn tell nothing of the adoption key but whether there is one. *)
From Stdlib Require Import Floats.SpecFloat.
From stdpp Require Import gmap.
From S2P Require Import Prelude GoStrings GoUtf8 GoJson GoUrl GoNet GoIP GoMap GoFloat Ports Topology.
From S2P Require PayloadViews WanHealth Profiles.
From S2P Require Import InformSchedule AtomicFile AdoptionStore AdoptionEnv AdoptionResponse InformCodec Daemon.
From S2P Require Import Overrides Observe ObserveSources RuntimeConfig RuntimePorts Identity Settings Rates Startup.
From S2P Require Import GoAny JsonText GoStruct Status.

(** ** The fields of a document *)
Abbreviation doc := (kind * value)%type.
Definition child (d : doc) (name : String.string) : option doc :=
  match d with
  | (KStruct fields, VStruct values) =>
      f ← list_find (λ f : bytes * bool * kind, f.1.1 = B name) fields;
      v ← values !! f.1;
      Some (f.2.2, v)
  | _ => None
  end.
Definition sub (d : doc) (name : String.string) : doc := default (KText, VNil) (child d name).
Definition text (d : doc) (name : String.string) : bytes := match child d name with Some (_, VText s) => s | _ => [] end.
Definition number (d : doc) (name : String.string) : Z := match child d name with Some (_, VInt z) => z | _ => 0 end.
Definition flag (d : doc) (name : String.string) : bool := match child d name with Some (_, VBool b) => b | _ => false end.
Definition float (d : doc) (name : String.string) : float64 :=
  match child d name with Some (_, VFloat f) => f | _ => float_of_int 0 end.
Definition items (d : doc) (name : String.string) : list doc :=
  match child d name with Some (KList k, VList l) => map (pair k) l | _ => [] end.
Definition texts (d : doc) (name : String.string) : list bytes :=
  omap (λ d : doc, match d.2 with VText s => Some s | _ => None end) (items d name).
Definition pointee (d : doc) (name : String.string) : option doc :=
  match child d name with Some (KPtr k, VPtr v) => Some (k, v) | _ => None end.

Arguments child d name%_stdpp_scope.
Arguments sub d name%_stdpp_scope.
Arguments text d name%_stdpp_scope.
Arguments number d name%_stdpp_scope.
Arguments flag d name%_stdpp_scope.
Arguments float d name%_stdpp_scope.
Arguments items d name%_stdpp_scope.
Arguments texts d name%_stdpp_scope.
Arguments pointee d name%_stdpp_scope.

(** ** [fmt]'s verbs

    [%.1f] rounds the exact value to the nearest tenth, ties to even. *)
Definition round_half_even (n d : Z) : Z :=
  let q := n / d in
  match Z.compare (2 * (n mod d)) d with Lt => q | Gt => q + 1 | Eq => if Z.even q then q else q + 1 end.
Definition tenths (m : positive) (e : Z) : Z :=
  if 0 <=? e then 10 * Z.pos m * 2 ^ e else round_half_even (10 * Z.pos m) (2 ^ (- e)).
Definition fixed_one (f : float64) : bytes :=
  match f with
  | S754_zero s => (if s then B "-" else []) ++ B "0.0"
  | S754_finite s m e =>
      (if s then B "-" else []) ++ itoa (tenths m e / 10) ++ B "." ++ itoa (tenths m e mod 10)
  | S754_infinity s => (if s then B "-" else B "+") ++ B "Inf"
  | S754_nan => B "NaN"
  end.
Example percentages :
  map fixed_one [float_of_int 0; float_of_int 100; float_div (float_of_int 1) (float_of_int 4);
                 float_div (float_of_int 3) (float_of_int 4); float_div (float_of_int 9999) (float_of_int 100)]
  = [B "0.0"; B "100.0"; B "0.2"; B "0.8"; B "100.0"].
Proof. vm_compute. reflexivity. Qed.

Definition say (name : String.string) (value : bytes) : bytes := B name ++ B ": " ++ value.
(** A line of several values. *)
Definition pair_text (v : String.string * bytes) : bytes := B v.1 ++ B "=" ++ v.2.
Definition row (name : String.string) (values : list (String.string * bytes)) : bytes :=
  say name (join (B " ") (map pair_text values)).
Arguments say name%_stdpp_scope value.
Arguments row name%_stdpp_scope values%_stdpp_scope.
Definition when (b : bool) (lines : list bytes) : list bytes := if b then lines else [].
Definition printed (lines : list bytes) : bytes := concat (map (λ l, l ++ [x0a]) lines).

Section human.
Context `{UnicodeTables}.

(** ** status_human.go *)
Definition valueOrDash (v : bytes) : bytes := if decide (trim_space v = []) then B "-" else v.
Definition boolPointerText (v : option bool) : bytes :=
  match v with None => B "unset" | Some b => bool_text b end.
Definition dashed (d : doc) (name : String.string) : bytes := valueOrDash (text d name).
Definition decimal (d : doc) (name : String.string) : bytes := itoa (number d name).
Definition truth (d : doc) (name : String.string) : bytes := bool_text (flag d name).
#[local] Arguments dashed d name%_stdpp_scope.
#[local] Arguments decimal d name%_stdpp_scope.
#[local] Arguments truth d name%_stdpp_scope.

Definition printHumanManagementLANStatus (config : doc) : list bytes :=
  match pointee config "management_lan" with
  | None => []
  | Some m =>
      when (flag m "Enabled")
        [say "management_lan.mode" (text m "Mode"); say "management_lan.vlan" (decimal m "VLAN");
         say "management_lan.interface" (dashed m "Interface"); say "management_lan.ip" (dashed m "IP");
         say "management_lan.network_name" (dashed m "NetworkName");
         say "management_lan.controller_reachable" (text m "ControllerReachable");
         say "management_lan.adoption_strategy" (text m "AdoptionStrategy")]
  end.

(** The probe rows of the WAN ports (status_wan_health.go). *)
Definition printWANHealthStatus (d : doc) : list bytes :=
  [say "wan_health_source" (text d "source")]
  ++ when (0 <? number d "interval_seconds") [say "wan_health_interval_seconds" (decimal d "interval_seconds")]
  ++ when (0 <? number d "timeout_ms") [say "wan_health_timeout_ms" (decimal d "timeout_ms")]
  ++ map (λ t, row "wan_health_target" [("port", decimal t "port"); ("host", dashed t "host")]) (items d "targets")
  ++ map (λ r, row "wan_health_result"
        [("port", decimal r "port"); ("host", dashed r "host"); ("connected", truth r "connected");
         ("latency_ms", decimal r "latency_ms"); ("downtime_seconds", decimal r "downtime_seconds");
         ("uptime_percent", fixed_one (float r "uptime_percent")); ("last_error", dashed r "last_error")])
       (items d "results").
Definition printHumanSourceStatus (config : doc) : list bytes :=
  [say "lldp_source" (text config "lldp_source"); say "traffic_rates_enabled" (truth config "traffic_rates_enabled")]
  ++ printWANHealthStatus (sub config "wan_health")
  ++ [say "proc_source" (text config "proc_source")].
Definition printHumanDiscoveryStatus (config : doc) : list bytes :=
  when (negb (bool_decide (text config "discovery_interface" = [])))
    [say "discovery_interface" (text config "discovery_interface")]
  ++ map (say "discovery_target") (texts config "discovery_targets").
Definition neighbor_pairs (n : doc) : list (String.string * bytes) :=
  [("mac", text n "mac"); ("hostname", dashed n "hostname"); ("ip", dashed n "ip"); ("vlan", decimal n "vlan");
   ("type", dashed n "type"); ("remote_port", decimal n "remote_port")]%stdpp.
Definition printHumanNeighborStatus (config : doc) : list bytes :=
  match pointee config "uplink_neighbor" with Some n => [row "uplink_neighbor" (neighbor_pairs n)] | None => [] end
  ++ map (λ n, row "port_neighbor" (("port"%stdpp, decimal n "port") :: neighbor_pairs n)) (items config "port_neighbors").
Definition up_text (o : doc) : bytes :=
  boolPointerText (match pointee o "up" with Some (_, VBool b) => Some b | _ => None end).
Definition printHumanPortOverrideStatus (config : doc) : list bytes :=
  map (λ o, row "port_override"
    [("port", decimal o "port"); ("interface", dashed o "interface"); ("mac", dashed o "mac");
     ("ip", dashed o "ip"); ("netmask", dashed o "netmask"); ("role", dashed o "role");
     ("network_group", dashed o "network_group"); ("speed", decimal o "speed"); ("media", dashed o "media");
     ("up", up_text o); ("name", dashed o "name")]) (items config "port_overrides").

Definition printPlatformStatus (d : doc) : list bytes :=
  let report := sub d "capabilities" in
  when (negb (bool_decide (text report "goos" = [])))
    (say "platform_goos" (text report "goos")
     :: map (λ c, row "platform_capability"
          [("name", text c "name"); ("source", dashed c "source"); ("state", text c "state");
           ("detail", dashed c "detail")]) (items report "capabilities")).
Definition printObservationStatus (d : doc) : list bytes :=
  when (negb (bool_decide (text d "interface" = []) && bool_decide (text d "bridge" = [])))
    ([say "observe_interface" (dashed d "interface"); say "observe_bridge" (dashed d "bridge");
      say "observe_speed_mbps" (decimal d "speed_mbps"); say "observe_rx_bytes" (decimal d "rx_bytes");
      say "observe_tx_bytes" (decimal d "tx_bytes"); say "observe_bridge_devices" (decimal d "bridge_devices");
      say "observe_learned_macs" (decimal d "learned_macs")]
     ++ map (say "observe_warning") (texts d "source_warnings")).

(** [printLastInform], in its parts. *)
Definition print_exchange (l : doc) : list bytes :=
  [say "last_inform_time" (text l "time"); say "last_inform_url" (dashed l "url");
   say "last_inform_status" (decimal l "status_code"); say "last_inform_type" (dashed l "response_type");
   say "last_inform_state" (dashed l "controller_state")]
  ++ match pointee l "wire_state" with
     | Some (_, VInt z) =>
         [say "last_inform_wire_state" (itoa z); say "last_inform_wire_state_name" (text l "wire_state_name")]
     | _ => [say "last_inform_wire_state" (B "-"); say "last_inform_wire_state_name" (B "-")]
     end
  ++ [say "last_inform_cfgversion" (dashed l "cfgversion"); say "last_inform_version" (dashed l "version");
      say "last_inform_cipher" (dashed l "cipher"); say "last_inform_request_flags" (decimal l "request_flags");
      say "last_inform_key_source" (dashed l "key_source");
      say "last_inform_response_body_present" (truth l "response_body_present");
      say "last_inform_response_packet_decoded" (truth l "response_packet_decoded");
      say "last_inform_response_json_parsed" (truth l "response_json_parsed");
      say "last_inform_response_flags" (decimal l "response_flags");
      say "last_inform_raw_bytes" (decimal l "raw_bytes"); say "last_inform_json_bytes" (decimal l "json_bytes")].
Definition print_schedule (l : doc) : list bytes :=
  let s := sub l "schedule" in
  when (0 <? number l "interval_seconds") [say "last_inform_interval_seconds" (decimal l "interval_seconds")]
  ++ when (negb (bool_decide (text s "effective_interval" = [])))
       [say "last_inform_effective_interval" (text s "effective_interval");
        say "last_inform_next_delay" (text s "next_delay");
        say "last_inform_consecutive_failures" (decimal s "consecutive_failures");
        say "last_inform_backoff" (truth s "backoff");
        say "last_inform_controller_hint_applied" (truth s "controller_hint_applied");
        say "last_inform_controller_hint_ignored" (truth s "controller_hint_ignored");
        say "last_inform_controller_hints_supported" (truth s "controller_hints_supported")].
Definition print_selection (l : doc) : list bytes :=
  let s := sub l "schedule" in
  map (say "last_inform_include_block") (texts l "include_blocks")
  ++ map (say "last_inform_exclude_block") (texts l "exclude_blocks")
  ++ map (say "last_inform_udapi_block") (texts l "udapi_blocks")
  ++ when (flag l "block_selection_limited") [say "last_inform_block_selection_limited" (B "true")]
  ++ when (flag l "immediate") [say "last_inform_immediate" (B "true")]
  ++ when (flag s "immediate_applied") [say "last_inform_immediate_applied" (B "true")]
  ++ when (flag s "immediate_suppressed") [say "last_inform_immediate_suppressed" (B "true")].
Definition print_outcome (l : doc) : list bytes :=
  when (flag l "server_time_set") [say "last_inform_server_time_utc" (decimal l "server_time_in_utc")]
  ++ when (flag l "controller_time_offset_set")
       [say "last_inform_controller_time_offset_seconds" (decimal l "controller_time_offset_seconds")]
  ++ when (flag l "reset_requested")
       [say "last_inform_reset_requested" (B "true"); say "last_inform_reset_applied" (truth l "reset_applied");
        say "last_inform_reset_reason" (dashed l "reset_reason");
        say "last_inform_reset_disposition" (dashed l "reset_disposition")]
  ++ when (flag l "has_mgmt_cfg") [say "last_inform_has_mgmt_cfg" (B "true")]
  ++ when (flag l "has_system_cfg")
       ([say "last_inform_has_system_cfg" (B "true");
         say "last_inform_system_cfg_bytes" (decimal l "system_cfg_bytes")]
        ++ map (say "last_inform_system_cfg_key") (texts l "system_cfg_keys"))
  ++ when (flag l "ignored")
       [say "last_inform_ignored" (B "true"); say "last_inform_ignored_reason" (dashed l "ignored_reason")]
  ++ when (negb (bool_decide (text l "error" = []))) [say "last_inform_error" (text l "error")].
Definition printLastInform (l : doc) : list bytes :=
  if decide (text l "time" = []) then [say "last_inform" (B "none")]
  else print_exchange l ++ print_schedule l ++ print_selection l ++ print_outcome l.

(** [printHumanStatus]: the head, and the whole. *)
Definition print_identity (status : doc) : list bytes :=
  let id := sub status "identity" in
  [B "unifi-stubd status"; say "config_path" (text status "config_path");
   say "operation_mode" (text (sub status "config") "operation_mode");
   say "profile" (text id "profile" ++ B " (" ++ text id "model" ++ B ")");
   say "model_name" (text id "model_name"); say "device_type" (dashed id "device_type"); say "mac" (text id "mac");
   say "ip" (text id "ip"); say "hostname" (text id "hostname"); say "serial" (text id "serial");
   say "ports" (decimal id "ports"); say "uplink_port" (decimal id "uplink_port")].
Definition print_timing (config : doc) : list bytes :=
  let interval := sub config "controller_interval_policy" in
  let reporting := sub config "controller_reporting_policy" in
  [say "controller_url" (dashed config "controller_url"); say "inform_url" (dashed config "inform_url");
   say "interval" (text config "interval"); say "controller_interval_min" (text config "controller_interval_min");
   say "controller_interval_max" (text config "controller_interval_max");
   say "controller_interval_hints_supported" (truth interval "supported");
   say "controller_interval_firmware_minimum" (dashed interval "firmware_minimum");
   say "controller_interval_effective_minimum" (dashed interval "effective_minimum");
   say "controller_interval_policy_reason" (dashed interval "reason");
   say "controller_block_selection_supported" (truth reporting "block_selection");
   say "controller_clock_supported" (truth reporting "controller_clock");
   say "controller_idle_speedtest" (truth reporting "idle_speedtest");
   say "controller_reporting_policy_reason" (dashed reporting "reason");
   say "inform_backoff_max" (text config "inform_backoff_max");
   say "inform_backoff_jitter_percent" (decimal config "inform_backoff_jitter_percent");
   say "no_discovery" (truth config "no_discovery")].
Definition print_adoption (config adoption : doc) : list bytes :=
  [say "ssh_listen" (dashed config "ssh_listen"); say "state_path" (text config "state_path");
   say "status_path" (text config "status_path"); say "instance_guard" (text config "instance_guard");
   say "instance_guard_path" (dashed config "instance_guard_path"); say "adoption_state" (text adoption "state");
   say "adoption_wire_state" (decimal adoption "wire_state");
   say "adoption_wire_state_name" (text adoption "wire_state_name"); say "adopted" (truth adoption "adopted");
   say "authkey_set" (truth adoption "authkey_set"); say "cfgversion" (dashed adoption "cfgversion");
   say "use_aes_gcm" (truth adoption "use_aes_gcm"); say "version" (dashed adoption "version")].
Definition printHumanStatus (status : doc) : list bytes :=
  let config := sub status "config" in
  print_identity status ++ print_timing config ++ printHumanManagementLANStatus config
  ++ printHumanSourceStatus config ++ printHumanDiscoveryStatus config ++ printHumanNeighborStatus config
  ++ printHumanPortOverrideStatus config ++ print_adoption config (sub status "adoption")
  ++ printObservationStatus (sub status "observe") ++ printPlatformStatus (sub status "platform")
  ++ printLastInform (sub (sub status "runtime") "last_inform")
  ++ map (say "warning") (texts status "warnings").
End human.

(** ** status.go *)
Definition printLocalStatus `{UnicodeTables} `{FloatConversion} `{AddressParser} `{MapOrder} `{SliceSort}
    {W} `{FileSystem W} (tools : installed) (su : surroundings) (f : settings) (r : serveRuntime)
    (i : serveIdentity) (w : W) : result error bytes * W :=
  let '(status, w) := buildLocalStatus tools su f r i w in
  if st_bool f fb_statusJSON then
    match MarshalIndent (encode localStatus status) with
    | Some data => (Ok (printed [data]), w)
    | None => (Err "marshal local status"%stdpp, w)
    end
  else (Ok (printed (printHumanStatus (localStatus, status))), w).

(** ** The key is never shown

    Two stores that an observer without the key cannot tell apart. *)
Record same_but_key (s s' : Store) : Prop := {
  sk_keyed : AuthKey s = [] ↔ AuthKey s' = [];
  sk_url : InformURL s = InformURL s';
  sk_cfgversion : CFGVersion s = CFGVersion s';
  sk_gcm : UseAESGCM s = UseAESGCM s';
  sk_version : AdoptionStore.Version s = AdoptionStore.Version s';
  sk_state : State s = State s';
}.
#[export] Instance same_but_key_equivalence : Equivalence same_but_key.
Proof.
  split.
  - intros s. by split.
  - intros s s' []. split; by symmetry.
  - intros s s' s'' [] []. split; by etransitivity.
Qed.

Section secrecy.
#[local] Hint Resolve sk_keyed sk_url sk_cfgversion sk_gcm sk_version sk_state : core.

Lemma keyed_proper s s' : same_but_key s s' → bool_decide (AuthKey s = []) = bool_decide (AuthKey s' = []).
Proof. intros Hs. apply bool_decide_ext. by apply sk_keyed. Qed.
#[local] Instance adoptionStateText_proper : Proper (same_but_key ==> eq) adoptionStateText.
Proof. intros s s' Hs. unfold adoptionStateText. by rewrite (keyed_proper _ _ Hs), (sk_state _ _ Hs). Qed.
#[local] Instance controllerInformState_proper : Proper (same_but_key ==> eq) controllerInformState.
Proof.
  intros s s' Hs. unfold controllerInformState. rewrite (sk_state _ _ Hs).
  destruct (decide (AuthKey s = [])) as [E|E], (decide (AuthKey s' = [])) as [E'|E']; try done;
    by rewrite (sk_keyed _ _ Hs) in E.
Qed.
#[local] Instance effectiveInformURL_proper fallback : Proper (same_but_key ==> eq) (effectiveInformURL fallback).
Proof. intros s s' Hs. unfold effectiveInformURL. by rewrite (sk_url _ _ Hs). Qed.
#[local] Instance adoption_value_proper : Proper (same_but_key ==> eq) adoption_value.
Proof.
  intros s s' Hs. unfold adoption_value.
  by rewrite (keyed_proper _ _ Hs), (sk_cfgversion _ _ Hs), (sk_gcm _ _ Hs), (sk_version _ _ Hs), Hs.
Qed.
#[local] Instance overlay_store_proper : Proper (same_but_key ==> eq ==> eq) overlay_store.
Proof.
  intros s s' Hs id _ <-. unfold overlay_store.
  by rewrite (keyed_proper _ _ Hs), (sk_cfgversion _ _ Hs), (sk_version _ _ Hs), Hs.
Qed.
#[local] Instance newLastInformStatus_proper now url : Proper (same_but_key ==> eq) (newLastInformStatus now url).
Proof.
  intros s s' Hs. unfold newLastInformStatus.
  by rewrite (sk_cfgversion _ _ Hs), (sk_version _ _ Hs), Hs.
Qed.
#[local] Instance set_li_store_proper : Proper (same_but_key ==> eq ==> eq) set_li_store.
Proof.
  intros s s' Hs l _ <-. unfold set_li_store. by rewrite (sk_cfgversion _ _ Hs), (sk_version _ _ Hs), Hs.
Qed.

Context `{UnicodeTables} `{FloatConversion} `{AddressParser} `{MapOrder} `{SliceSort} `{Resolver}.
Context {W : Type} `{FileSystem W}.

Lemma render_turn_hides_key s s' clock now su mac ip hostname informURL flags profile options tracker uptime state :
  same_but_key s s' →
  render_turn clock now su mac ip hostname informURL s flags profile options tracker uptime state
  = render_turn clock now su mac ip hostname informURL s' flags profile options tracker uptime state.
Proof.
  intros Hs. unfold render_turn, payloadForIdentity, buildPayload.
  destruct (portsForRuntime _ _ _ _) as [ports|]; [|done]. cbn [mbind option_bind].
  destruct (if _ : bool then _ else _) as [ports' tracker']. by rewrite Hs.
Qed.

(** What [--status] reads in two worlds is the same but for the key. *)
Definition same_status_files (f : settings) (w w' : W) : Prop :=
  let '(s, warnings, w1) := loadAdoptionStateForStatus (st_string f fs_sshState) w in
  let '(s', warnings', w1') := loadAdoptionStateForStatus (st_string f fs_sshState) w' in
  same_but_key s s' ∧ warnings = warnings' ∧
  (fs_read (st_string f fs_statusPath) w1).1 = (fs_read (st_string f fs_statusPath) w1').1.

Lemma loadPersistedRunStatus_reads path (w w' : W) :
  (fs_read path w).1 = (fs_read path w').1 →
  (loadPersistedRunStatus path w).1 = (loadPersistedRunStatus path w').1.
Proof.
  unfold loadPersistedRunStatus. destruct (fs_read path w) as [d w1], (fs_read path w') as [d' w1'].
  cbn. intros <-. destruct d; [|done..]. by destruct (unmarshal _ _).
Qed.
Lemma buildLocalStatus_hides_key tools su f r i (w w' : W) :
  same_status_files f w w' → (buildLocalStatus tools su f r i w).1 = (buildLocalStatus tools su f r i w').1.
Proof.
  unfold same_status_files, buildLocalStatus. cbv zeta.
  destruct (loadAdoptionStateForStatus _ w) as [[s warnings] w1], (loadAdoptionStateForStatus _ w') as [[s' warnings'] w1'].
  intros (Hs & <- & Hr). apply loadPersistedRunStatus_reads in Hr.
  destruct (loadPersistedRunStatus _ w1) as [[v e] w2], (loadPersistedRunStatus _ w1') as [[v' e'] w2'].
  cbn in Hr. injection Hr as <- <-. cbn [fst]. by rewrite Hs.
Qed.

(** C7: Non-interference of the adoption key.  Change only the key of a store, from
    one key to another: what [--status] prints, as text and as JSON, stays the
    same, and so do the record a heartbeat starts for the status file, the
    fields of the store that a response puts into it, and the payload a turn
    renders.  Whether there is a key at all is shown. *)
Theorem authkey_is_never_shown s s' :
  same_but_key s s' →
  (∀ tools su f r i (w w' : W), same_status_files f w w' →
     (printLocalStatus tools su f r i w).1 = (printLocalStatus tools su f r i w').1) ∧
  (∀ now url, newLastInformStatus now url s = newLastInformStatus now url s') ∧
  (∀ last, set_li_store s last = set_li_store s' last) ∧
  (∀ clock now su mac ip hostname flags profile options tracker uptime state,
     render_turn clock now su mac ip hostname (effectiveInformURL (fg_controller flags) s) s flags profile options
       tracker uptime state
     = render_turn clock now su mac ip hostname (effectiveInformURL (fg_controller flags) s') s' flags profile options
         tracker uptime state).
Proof.
  intros Hs. split_and!.
  - intros tools su f r i w w' Hw. apply (buildLocalStatus_hides_key tools su f r i) in Hw. unfold printLocalStatus.
    destruct (buildLocalStatus tools su f r i w) as [v w1], (buildLocalStatus tools su f r i w') as [v' w1'].
    cbn in Hw. subst v'. destruct (st_bool f fb_statusJSON); [by destruct (MarshalIndent _)|done].
  - intros now url. by rewrite Hs.
  - intros last. by rewrite Hs.
  - intros *. rewrite (effectiveInformURL_proper _ _ _ Hs). by apply render_turn_hides_key.
Qed.
End secrecy.

(** ** Witness

    Two devices with different keys, in files in memory. *)
#[local] Existing Instances ascii_tables amd64_conversion list_order insertion_sort no_ipv6 no_resolver.
#[local] Existing Instances Settings.plain_numbers Profiles.plain_yaml Startup.defaults_yaml.
#[local] Existing Instances Contract.memory_files.
Definition no_tools : installed := MkInstalled (λ _, Some (B "executable file not found in $PATH")) (λ _, None).
Definition other_key_store : Store :=
  MkStore [] (B "ffeeddccbbaa99887766554433221100") [] true [] StateConnected.
Definition device_files (store : Store) : gmap bytes bytes :=
  <[B "/s.env" := render_env store]>
    (<[B "/st.json" := default [] (marshal_status fixed_time sample_last)]> ∅).
Definition status_of (args : list bytes) (files : gmap bytes bytes) : option bytes :=
  match start_with ([B "-ssh-state=/s.env"; B "-status-path=/st.json"] ++ args) with
  | Some (Ok (Startup.Status f r i)) =>
      match (printLocalStatus no_tools sample_surroundings f r i files).1 with Ok t => Some t | Err _ => None end
  | _ => None
  end.
Definition has_line (line : bytes) (o : option bytes) : bool :=
  match o with Some t => contains (x0a :: line) t | None => false end.
Lemma status_lines :
  forallb (λ line, has_line line (status_of [B "-status"] (device_files adopted_store)))
    [B "authkey_set: true"; B "adoption_state: connected"; B "interval: 10s";
     B "last_inform_time: 2026-01-01T00:00:00Z"; B "last_inform_wire_state_name: default"] = true ∧
  forallb (λ line, has_line line (status_of [B "-status-json"] (device_files other_key_store)))
    [B "    " ++ [x22] ++ B "authkey_set" ++ [x22] ++ B ": true,"; B "}"] = true.
Proof. split; vm_compute; reflexivity. Qed.

Lemma memory_load (path : bytes) (w : gmap bytes bytes) : (loadAdoptionStateForStatus path w).2 = w.
Proof.
  unfold loadAdoptionStateForStatus, LoadEnv. cbn [fs_read Contract.memory_files].
  destruct (w !! path) as [d|]; [|done]. by destruct (parse_env d).
Qed.
Lemma loads_as (path : bytes) (w : gmap bytes bytes) s : (loadAdoptionStateForStatus path w).1 = (s, []) → loadAdoptionStateForStatus path w = (s, [], w).
Proof.
  intros E. rewrite <- (memory_load path w) at 2. rewrite <- E. apply surjective_pairing.
Qed.
Lemma adopted_loads : loadAdoptionStateForStatus (B "/s.env") (device_files adopted_store)
  = (adopted_store, [], device_files adopted_store).
Proof. apply loads_as. vm_compute. reflexivity. Qed.
Lemma other_loads : loadAdoptionStateForStatus (B "/s.env") (device_files other_key_store)
  = (other_key_store, [], device_files other_key_store).
Proof. apply loads_as. vm_compute. reflexivity. Qed.
Lemma authkey_is_never_shown_witness :
  same_but_key adopted_store other_key_store ∧ adopted_store ≠ other_key_store ∧
  (∀ url, newLastInformStatus (MkTime 0 0) url adopted_store = newLastInformStatus (MkTime 0 0) url other_key_store) ∧
  match start_with [B "-ssh-state=/s.env"; B "-status-path=/st.json"; B "-status-json"] with
  | Some (Ok (Startup.Status f r i)) =>
      (printLocalStatus no_tools sample_surroundings f r i (device_files adopted_store)).1
      = (printLocalStatus no_tools sample_surroundings f r i (device_files other_key_store)).1
  | _ => False
  end.
Proof.
  assert (same_but_key adopted_store other_key_store) as Hs by (split; try reflexivity; split; discriminate).
  destruct (authkey_is_never_shown (W := gmap bytes bytes) adopted_store other_key_store Hs) as (K1 & K2 & _).
  split; [exact Hs|]. split; [discriminate|]. split; [exact (K2 _)|].
  assert (match start_with [B "-ssh-state=/s.env"; B "-status-path=/st.json"; B "-status-json"] with
          | Some (Ok (Startup.Status f _ _)) =>
              bool_decide (st_string f fs_sshState = B "/s.env") && bool_decide (st_string f fs_statusPath = B "/st.json")
          | _ => false
          end = true) as Hp by (vm_compute; reflexivity).
  destruct (start_with _) as [[[| | |f r i| |]|]|]; try discriminate Hp.
  apply andb_true_iff in Hp as [P1%bool_decide_eq_true P2%bool_decide_eq_true].
  apply (K1 no_tools sample_surroundings f r i). unfold same_status_files. rewrite P1, P2.
  rewrite adopted_loads, other_loads. split; [exact Hs|]. split; [reflexivity|]. vm_compute. reflexivity.
Defined.
