(* ===== verification/RuntimePlan.v ===== *)
(** What [-dry-run-plan] prints: [operation_plan.go] of [src/cmd/unifi-stubd],
    with [strconv.Quote] for its quoted fields.

    The theorem is that a plan that is reached shows the topology the checks
    accepted, and says for every mode what the daemon would do. *)
From stdpp Require Import gmap.
From S2P Require Import Prelude GoStrings GoUtf8 GoUrl GoNet GoIP GoMap GoFloat Ports Topology.
From S2P Require PayloadViews WanHealth Profiles.
From S2P Require Import Overrides Observe ObserveSources RuntimeConfig RuntimePorts Identity GoYaml Settings Rates Startup.
From S2P Require Import GoStruct Status StatusText.

(** ** [strconv.Quote]

    Which runes beyond Latin-1 are printable is data of package [strconv]. *)
Class PrintTables := { print_beyond_latin1 : Z → bool }.
Definition printable_rune `{PrintTables} (r : Z) : bool :=
  if r <=? 0xFF then
    ((0x20 <=? r) && (r <? 0x7F)) || ((0xA1 <=? r) && negb (r =? 0xAD))
  else print_beyond_latin1 r.

(** The runes of a text with their bytes; a byte that starts none is [None]. *)
Fixpoint rune_parts (s : bytes) : list (bytes * option Z) :=
  match s with
  | [] => []
  | a :: s1 =>
      if b2z a <? 128 then ([a], Some (b2z a)) :: rune_parts s1 else
      match s1 with
      | [] => [([a], None)]
      | b :: s2 =>
          if seq2 a b then ([a; b], Some (cp2 a b)) :: rune_parts s2 else
          match s2 with
          | [] => ([a], None) :: rune_parts s1
          | c :: s3 =>
              if seq3 a b c then ([a; b; c], Some (cp3 a b c)) :: rune_parts s3 else
              match s3 with
              | [] => ([a], None) :: rune_parts s1
              | d :: s4 =>
                  if seq4 a b c d then ([a; b; c; d], Some (cp4 a b c d)) :: rune_parts s4
                  else ([a], None) :: rune_parts s1
              end
          end
      end
  end.
(** The lowest hexadecimal digits of a number. *)
Fixpoint hex_low (digits : nat) (z : Z) : bytes :=
  match digits with O => [] | S n => hex_low n (z / 16) ++ [hex_digit (z mod 16)] end.
Definition control_escape (r : Z) : option byte :=
  if r =? 7 then Some x61 else if r =? 8 then Some x62 else if r =? 12 then Some x66
  else if r =? 10 then Some x6e else if r =? 13 then Some x72 else if r =? 9 then Some x74
  else if r =? 11 then Some x76 else None.
Definition backslash : byte := x5c.
Definition quoted_rune `{PrintTables} (part : bytes * option Z) : bytes :=
  match part.2 with
  | None => [backslash; x78] ++ hex_encode part.1
  | Some r =>
      if (r =? 0x22) || (r =? 0x5c) then backslash :: part.1
      else if printable_rune r then part.1
      else
        match control_escape r with
        | Some c => [backslash; c]
        | None =>
            if (r <? 0x20) || (r =? 0x7F) then [backslash; x78] ++ hex_low 2 r
            else if r <? 0x10000 then [backslash; x75] ++ hex_low 4 r
            else [backslash; x55] ++ hex_low 8 r
        end
  end.
Definition Quote `{PrintTables} (s : bytes) : bytes := x22 :: concat (map quoted_rune (rune_parts s)) ++ [x22].
Definition latin1_tables : PrintTables := {| print_beyond_latin1 := λ _, false |}.
Example quotes :
  map (@Quote latin1_tables) [B "sw-1"; [x61; x0a; x22; x5c]; [x00; x7f; xff]; [xc3; xa9; xc2; xa0]; [xe2; x80; xa8]]
  = [x22 :: B "sw-1" ++ [x22]; x22 :: B "a\n\" ++ [x22] ++ B "\\" ++ [x22]; x22 :: B "\x00\x7f\xff" ++ [x22];
     [x22; xc3; xa9] ++ B "\u00a0" ++ [x22]; x22 :: B "\u2028" ++ [x22]].
Proof. vm_compute. reflexivity. Qed.

Section plan.
Context `{PrintTables} `{UnicodeTables} `{MapOrder}.
Variables (flags : runtimeFlags) (profile : deviceProfile).

Definition trimmed_quote (s : bytes) : bytes := Quote (trim_space s).

(** ** The parts of [printRuntimePlan] *)
Definition plan_identity (f : settings) (name model : bytes) (macText ipText hostname : bytes) : list bytes :=
  [say "operation_mode" (normalizeMode (fg_operationMode flags));
   say "profile" (name ++ B " (" ++ model ++ B ")"); say "device_type" (dp_DeviceType profile);
   say "mac" macText; say "ip" ipText; say "hostname" hostname;
   say "interval" (Duration_String (st_duration f fd_interval));
   say "controller_interval_min" (Duration_String (st_duration f fd_controllerIntervalMin));
   say "controller_interval_max" (Duration_String (st_duration f fd_controllerIntervalMax))].
Definition unless_empty (name : String.string) (v : bytes) : list bytes :=
  if decide (v = []) then [] else [say name v].
#[local] Arguments unless_empty name%_stdpp_scope v.
Definition plan_policy (f : settings) (policy : InformSchedulePolicy) (reporting : ControllerReportingPolicy)
    : list bytes :=
  let policyStatus := (statusControllerIntervalPolicy, controllerIntervalPolicyStatus f policy) in
  let reportingStatus := (statusControllerReportingPolicy, controllerReportingPolicyStatus reporting) in
  [say "controller_interval_hints_supported" (truth policyStatus "supported")]
  ++ unless_empty "controller_interval_firmware_minimum" (text policyStatus "firmware_minimum")
  ++ unless_empty "controller_interval_effective_minimum" (text policyStatus "effective_minimum")
  ++ unless_empty "controller_interval_policy_reason" (text policyStatus "reason")
  ++ [say "controller_block_selection_supported" (truth reportingStatus "block_selection");
      say "controller_clock_supported" (truth reportingStatus "controller_clock");
      say "controller_idle_speedtest" (truth reportingStatus "idle_speedtest")]
  ++ unless_empty "controller_reporting_policy_reason" (text reportingStatus "reason")
  ++ [say "inform_backoff_max" (Duration_String (st_duration f fd_informBackoffMax));
      say "inform_backoff_jitter_percent" (itoa (st_int f fi_informBackoffJitterPercent));
      say "uplink_port" (itoa (effectiveUplinkPort profile flags))].
Definition plan_neighbor (mac hostname ip : bytes) (vlan : Z) (type : bytes) (remotePort : Z)
    : list (String.string * bytes) :=
  [("mac", mac); ("hostname", trimmed_quote hostname); ("ip", trimmed_quote ip); ("vlan", itoa vlan);
   ("type", trimmed_quote type); ("remote_port", itoa remotePort)]%stdpp.
Definition plan_neighbors : list bytes :=
  match fg_uplinkNeighbor flags with
  | None => []
  | Some n =>
      [row "uplink_neighbor" (plan_neighbor (tn_MAC n) (tn_Hostname n) (tn_IP n) (tn_VLAN n) (tn_DeviceType n)
                                (tn_RemotePort n))]
  end
  ++ map (λ n,
       let e := np_Entry n in
       row "port_neighbor" (("port"%stdpp, itoa (np_Port n))
         :: plan_neighbor (me_MAC e) (me_Hostname e) (me_IP e) (me_VLAN e) (me_Type e) (np_RemotePort n)))
       (fg_portNeighbors flags).

(** [printTopologyPlan] *)
Definition edge_line (e : TopologyEdge) : bytes :=
  row "topology_edge"
    [("local_port", itoa (te_LocalPort e)); ("direction", te_Direction e); ("source", tn_Source (te_Neighbor e));
     ("neighbor_type", tn_DeviceType (te_Neighbor e)); ("remote_port", itoa (tn_RemotePort (te_Neighbor e)))].
Definition printTopologyPlan : list bytes :=
  match ResolveTopology (configured_ports flags profile) with
  | Err e => [say "topology_error" (B e)]
  | Ok resolution =>
      map (say "topology_warning") (tr_Warnings resolution) ++ map edge_line (tr_Edges resolution)
  end.
Definition plan_override (o : PortOverride) : bytes :=
  let o := NormalizePortOverride o in
  let t := po_Text o in
  row "port_override"
    [("port", itoa (po_Port o)); ("interface", Quote (ot_Interface t)); ("mac", Quote (ot_MAC t));
     ("ip", Quote (ot_IP t)); ("netmask", Quote (ot_Netmask t)); ("role", Quote (ot_Role t));
     ("network_group", Quote (ot_NetworkGroup t)); ("speed", itoa (po_Speed o)); ("media", Quote (ot_Media t));
     ("up", boolPointerText (po_Up o)); ("name", Quote (ot_Name t))].
Definition plan_sources : list bytes :=
  let bridge := effectiveBridgeObserve flags in
  [say "observe_interface" (trim_space (fg_observeInterface flags));
   say "observe_bridge" (trim_space (fg_observeBridge flags));
   say "bridge_observe.bridge" (trim_space (bv_Bridge bridge));
   say "bridge_observe.uplink_interface" (trim_space (bv_UplinkInterface bridge))]
  ++ map (λ m, row "bridge_ignore_member" [("member", trim_space m)]) (bv_IgnoredMembers bridge)
  ++ map (λ m, row "bridge_member_port" [("member", trim_space (bm_Member m)); ("port", itoa (bm_Port m))])
       (bv_MemberPortMap bridge)
  ++ map (λ m, row "port_mapping"
        [("port", itoa (pm_Port m)); ("interface", trimmed_quote (pm_Interface m));
         ("disabled", bool_text (pm_Disabled m)); ("unmapped", bool_text (pm_Unmapped m))]) (fg_portMappings flags)
  ++ [say "lldp_source" (trim_space (fg_lldpSource flags));
      say "traffic_rates_enabled" (bool_text (fg_trafficRatesEnabled flags));
      say "wan_health_source" (trim_space (wc_Source (fg_wanHealth flags)))]
  ++ when (0 <? wc_IntervalSeconds (fg_wanHealth flags))
       [say "wan_health_interval_seconds" (itoa (wc_IntervalSeconds (fg_wanHealth flags)))]
  ++ when (0 <? wc_TimeoutMS (fg_wanHealth flags))
       [say "wan_health_timeout_ms" (itoa (wc_TimeoutMS (fg_wanHealth flags)))]
  ++ map (λ t, row "wan_health_target" [("port", itoa (wt_Port t)); ("host", trim_space (wt_Host t))])
       (wc_Targets (fg_wanHealth flags))
  ++ [say "proc_source" (trim_space (fg_procSource flags));
      say "instance_guard" (trim_space (fg_instanceGuard flags));
      say "instance_guard_path" (trim_space (fg_instanceGuardPath flags))].

(** [printManagementLANPlan] *)
Definition management_actions (cfg : ManagementLAN) : list bytes :=
  if decide (ml_Mode cfg = managementLANModeMetadataOnly) then
    [say "management_lan.actions" (B "controller metadata only; no host VLAN changes")]
  else if decide (ml_Mode cfg = managementLANModePreexistingInterface) then
    [say "management_lan.actions" (B "use preexisting VLAN interface; no host VLAN changes")]
  else if decide (ml_Mode cfg = managementLANModePlannedHostVLAN) then
    [say "management_lan.actions" (B "planned host VLAN only; no host VLAN changes");
     say "management_lan.planned_note"
       (B "create and address VLAN interface " ++ valueOrDash (ml_Interface cfg) ++ B " for VLAN "
        ++ itoa (ml_VLAN cfg) ++ B " outside unifi-stubd")]
  else [].
Definition printManagementLANPlan : list bytes :=
  let cfg := effectiveManagementLAN flags in
  say "management_lan.enabled" (bool_text (ml_Enabled cfg))
  :: when (ml_Enabled cfg)
       ([say "management_lan.mode" (ml_Mode cfg); say "management_lan.vlan" (itoa (ml_VLAN cfg))]
        ++ unless_empty "management_lan.network_name" (ml_NetworkName cfg)
        ++ unless_empty "management_lan.interface" (ml_Interface cfg)
        ++ unless_empty "management_lan.ip" (ml_IP cfg)
        ++ [say "management_lan.controller_reachable" (ml_ControllerReachable cfg);
            say "management_lan.adoption_strategy" (ml_AdoptionStrategy cfg)]
        ++ management_actions cfg).

Definition plan_actions (macText ipText : bytes) : list bytes :=
  let mode := normalizeMode (fg_operationMode flags) in
  if decide (mode = operationModeStub) then [say "actions" (B "synthetic stub only; no host network changes")]
  else if decide (mode = operationModeBridgeObserve) then
    [say "actions" (B "read-only bridge observation; no host network changes")]
  else if decide (mode = operationModePortMap) then
    [say "actions" (B "read-only explicit port mapping; no host network changes")]
  else if decide (mode = operationModeHostDirect) then
    [say "actions" (B "direct host identity mode; no host network changes")]
  else if decide (mode = operationModeMacvlan) then
    let parent := trim_space (fg_observeInterface flags) in
    let parent := if decide (parent = []) then B "<required-parent-interface>" else parent in
    [say "actions" (B "macvlan is not executed by this release");
     say "planned_command" (B "ip link add link " ++ parent ++ B " name unifi-stubd0 type macvlan mode bridge");
     say "planned_command" (B "ip link set unifi-stubd0 address " ++ macText ++ B " up");
     say "planned_note" (B "assign " ++ ipText ++ B " to unifi-stubd0 after subnet/prefix config exists")]
  else [].
Definition plan_discovery (f : settings) : list bytes :=
  unless_empty "discovery_interface" (effectiveDiscoveryInterface flags)
  ++ map (λ t, say "discovery_target" (trim_space t)) (st_discoveryTargets f).
Definition printRuntimePlan (f : settings) (name model : bytes) (policy : InformSchedulePolicy)
    (reporting : ControllerReportingPolicy) (macText ipText hostname : bytes) : list bytes :=
  plan_identity f name model macText ipText hostname ++ plan_policy f policy reporting ++ plan_neighbors
  ++ printTopologyPlan ++ map plan_override (fg_portOverrides flags) ++ plan_sources
  ++ printManagementLANPlan ++ plan_discovery f ++ plan_actions macText ipText.
End plan.

(** The plan of a start (serve.go). *)
Definition runtime_plan `{PrintTables} `{UnicodeTables} `{MapOrder} (f : settings) (r : serveRuntime)
    (i : serveIdentity) : list bytes :=
  printRuntimePlan (sr_flags r) (device_profile (sr_profile r)) f (Profiles.Name (sr_profile r))
    (Profiles.Model (sr_profile r)) (sr_policy r) (sr_reporting r) (mac_string (si_mac i)) (ipv4_string (si_ip i))
    (si_hostname i).

(** ** A quoted value stays on its line *)
Definition on_line (b : byte) : bool := 0x20 <=? b2z b.
Lemma hex_digit_on_line z : 0 ≤ z < 16 → on_line (hex_digit z) = true.
Proof.
  intros Hz. unfold on_line, hex_digit. destruct (z <? 10) eqn:E; rewrite b2z_z2b, Z.mod_small by lia; lia.
Qed.
Lemma hex_low_on_line n z : 0 ≤ z → forallb on_line (hex_low n z) = true.
Proof.
  revert z. induction n as [|n IH]; intros z Hz; [done|]. cbn. rewrite forallb_app. cbn.
  rewrite IH by (by apply Z.div_pos). rewrite hex_digit_on_line by (by apply Z.mod_pos_bound). done.
Qed.
Lemma hex_encode_on_line s : forallb on_line (hex_encode s) = true.
Proof.
  induction s as [|b s IH]; [done|]. cbn. pose proof (b2z_range b).
  rewrite !hex_digit_on_line, IH; [done|by apply Z.mod_pos_bound|].
  split; [apply Z.div_pos|apply Z.div_lt_upper_bound]; lia.
Qed.

(** What a part is: an ASCII byte, or bytes beyond it. *)
Definition part_ok (part : bytes * option Z) : bool :=
  match part with
  | ([a], Some r) => r =? b2z a
  | (l, Some r) => forallb (λ b, 128 <=? b2z b) l && (0 <=? r)
  | (l, None) => true
  end.
Lemma seq_bytes a b c d :
  (seq2 a b = true → 128 ≤ b2z b ∧ 0 ≤ cp2 a b) ∧
  (seq3 a b c = true → 128 ≤ b2z b ∧ 128 ≤ b2z c ∧ 0 ≤ cp3 a b c) ∧
  (seq4 a b c d = true → 128 ≤ b2z b ∧ 128 ≤ b2z c ∧ 128 ≤ b2z d ∧ 0 ≤ cp4 a b c d).
Proof.
  unfold seq2, seq3, seq4, cp2, cp3, cp4, cont. cbv zeta. split_and!; intros Hs; bool_to_prop.
  - lia.
  - destruct (b2z a =? 224); lia.
  - destruct (b2z a =? 240); lia.
Qed.
Lemma rune_parts_ok s : forallb part_ok (rune_parts s) = true.
Proof.
  induction s as [s IH] using (induction_ltof1 _ length). unfold ltof in IH.
  destruct s as [|a s1]; [done|]. cbn [rune_parts].
  destruct (b2z a <? 128) eqn:Ea; [cbn; rewrite Z.eqb_refl; apply IH; cbn; lia|].
  destruct s1 as [|b s2]; [done|].
  destruct (seq2 a b) eqn:E2.
  { destruct (proj1 (seq_bytes a b a a) E2). cbn. rewrite IH by (cbn; lia). lia. }
  destruct s2 as [|c s3]; [cbn [forallb part_ok andb]; apply IH; cbn; lia|].
  destruct (seq3 a b c) eqn:E3.
  { destruct (proj1 (proj2 (seq_bytes a b c a)) E3) as (? & ? & ?). cbn. rewrite IH by (cbn; lia). lia. }
  destruct s3 as [|d s4]; [cbn [forallb part_ok andb]; apply IH; cbn; lia|].
  destruct (seq4 a b c d) eqn:E4.
  { destruct (proj2 (proj2 (seq_bytes a b c d)) E4) as (? & ? & ? & ?). cbn. rewrite IH by (cbn; lia). lia. }
  cbn [forallb part_ok andb]; apply IH; cbn; lia.
Qed.
Lemma part_on_line l r : part_ok (l, Some r) = true → 0 ≤ r ∧ (0x20 <= r → forallb on_line l = true).
Proof.
  destruct l as [|a [|b l]]; cbn [part_ok].
  - intros Hp. split; [lia|done].
  - intros ->%Z.eqb_eq. pose proof (b2z_range a). split; [lia|]. intros Hr. cbn. unfold on_line. lia.
  - intros [Hl Hr]%andb_true_iff. split; [lia|]. intros _. rewrite forallb_forall in *. intros x Hx.
    apply Hl in Hx. unfold on_line. lia.
Qed.
Lemma control_escape_on_line r c : control_escape r = Some c → on_line c = true.
Proof. unfold control_escape. intros Hc. by repeat (case_match; [by injection Hc as <-|]). Qed.
Lemma printable_on_line `{PrintTables} r : printable_rune r = true → 0x20 <= r.
Proof. unfold printable_rune. destruct (r <=? 255) eqn:E; intros Hr; lia. Qed.
Lemma quoted_rune_on_line `{PrintTables} part : part_ok part = true → forallb on_line (quoted_rune part) = true.
Proof.
  destruct part as [l [r|]]; unfold quoted_rune; cbn [fst snd].
  - intros [Hr Hl]%part_on_line. destruct ((r =? 34) || (r =? 92)) eqn:Eq.
    { cbn [forallb andb on_line]. apply Hl. lia. }
    destruct (printable_rune r) eqn:Ep; [by apply Hl, printable_on_line|].
    destruct (control_escape r) as [c|] eqn:Ec; [cbn; by rewrite (control_escape_on_line _ _ Ec)|].
    destruct ((r <? 32) || _); [|destruct (r <? 65536)]; cbn [app forallb]; by rewrite hex_low_on_line.
  - intros _. cbn [app forallb]. by rewrite hex_encode_on_line.
Qed.
Lemma Quote_on_line `{PrintTables} s : forallb on_line (Quote s) = true.
Proof.
  assert (∀ parts, forallb part_ok parts = true → forallb on_line (concat (map quoted_rune parts)) = true) as Hc.
  { induction parts as [|p parts IH]; [done|]. cbn [forallb map concat]. intros [Hp Hs]%andb_true_iff.
    by rewrite forallb_app, quoted_rune_on_line, IH. }
  unfold Quote. cbn [forallb]. by rewrite forallb_app, (Hc _ (rune_parts_ok s)).
Qed.

(** ** What a start checked before its plan *)
Section checked.
Context `{UnicodeTables} `{FloatConversion} `{AddressParser} `{MapOrder} `{FlagText} `{ConfigYaml} `{Profiles.ProfileYaml}.
Variable fuel : nat.
Variable env : Startup.environment.

Lemma prepared_flags registry f r :
  prepare_with env registry f = Ok (Prepared r) →
  ∃ checked, validateOperationFlags (runtime_flags f) = Ok checked ∧
    sr_flags r = applyProfile (device_profile (sr_profile r)) checked ∧
    validatePortOverrides (sr_flags r) (device_profile (sr_profile r)) = Ok tt.
Proof.
  intros Hp. pose proof (prepared_parts _ _ _ _ Hp) as (_ & _ & Ho). revert Hp.
  unfold prepare_with. destruct (st_bool f fb_listProfiles); [done|]. destruct (negb _); [done|].
  destruct (validateOperationFlags (runtime_flags f)) as [checked|e]; cbn [plain withExitCode mbind result_bind]; [|done].
  destruct (Profiles.LookupProfile registry (st_string f fs_profileName)) as [p|]; [|done]. cbv zeta.
  intros Hp. exists checked. split; [done|]. split; [|done]. revert Hp.
  repeat match goal with
  | |- context [mbind _ (plain ?check)] => destruct (plain check) as [[]|]; cbn [mbind result_bind]; [|done]
  end.
  destruct (fg_validate _).
  { by destruct (plain (validateRuntime _ _ _ _)) as [[]|]. }
  repeat match goal with
  | |- context [mbind _ (plain ?check)] => destruct (plain check) as [[]|]; cbn [mbind result_bind]; [|done]
  end.
  by intros [= <-].
Qed.

Lemma planned_parts args f r i :
  serveSwitchEmulation fuel env args = Some (Ok (Plan f r i)) ∨
  serveSwitchEmulation fuel env args = Some (Ok (Startup.Daemon f r i)) →
  ∃ registry, prepare_with env registry f = Ok (Prepared r) ∧
    (fg_dryRunPlan (sr_flags r) = false ∨ serveSwitchEmulation fuel env args = Some (Ok (Plan f r i))).
Proof.
  intros Hs. unfold serveSwitchEmulation in *.
  destruct (parseRuntimeFlags args) as [[f0 actual]|]; [|by destruct Hs].
  destruct (handleServeEarlyExit f0); [by destruct Hs|]. unfold prepareServeRuntime in *.
  destruct (loadConfig _ _ _) as [c|]; [|by destruct Hs].
  destruct (loadProfileRegistry fuel env _) as [[registry|e]|]; cbn [mbind option_bind] in *; [|by destruct Hs..].
  destruct (prepare_with env registry _) as [p|] eqn:Ep; cbn [mbind result_bind] in *; [|by destruct Hs].
  destruct p as [| | |r0]; [by destruct Hs..|].
  destruct (resolveServeIdentity env _ _ _) as [i0|]; cbn [mbind result_bind] in *; [|by destruct Hs].
  destruct (fg_dryRunPlan (sr_flags r0)) eqn:Ed.
  { destruct Hs as [Hs|Hs]; [|done]. injection Hs as <- <- <-. exists registry. split; [done|by right]. }
  destruct (_ || _); [by destruct Hs|]. destruct (st_bool _ fb_dryRun); [by destruct Hs|].
  destruct Hs as [Hs|Hs]; [done|]. injection Hs as <- <- <-. exists registry. split; [done|by left].
Qed.
End checked.

Section claim.
Context `{PrintTables}.
Context `{UnicodeTables} `{FloatConversion} `{AddressParser} `{MapOrder} `{FlagText} `{ConfigYaml} `{Profiles.ProfileYaml}.
Variable fuel : nat.
Variable env : Startup.environment.

Lemma accepted_topology flags profile :
  validatePortOverrides flags profile = Ok tt → ∃ res, ResolveTopology (configured_ports flags profile) = Ok res.
Proof.
  unfold validatePortOverrides. intros Hv. inv_ok. destruct (ResolveTopology _) as [res|]; [by eexists|done].
Qed.
(** The lines the plan of each mode ends with. *)
Definition parent_interface (flags : runtimeFlags) : bytes :=
  match trim_space (fg_observeInterface flags) with [] => B "<required-parent-interface>" | p => p end.
Definition action_table (parent mac ip : bytes) : list (bytes * list bytes) :=
  [(B "stub", [B "actions: synthetic stub only; no host network changes"]);
   (B "bridge-observe", [B "actions: read-only bridge observation; no host network changes"]);
   (B "port-map", [B "actions: read-only explicit port mapping; no host network changes"]);
   (B "host-direct", [B "actions: direct host identity mode; no host network changes"]);
   (B "macvlan",
    [B "actions: macvlan is not executed by this release";
     B "planned_command: ip link add link " ++ parent ++ B " name unifi-stubd0 type macvlan mode bridge";
     B "planned_command: ip link set unifi-stubd0 address " ++ mac ++ B " up";
     B "planned_note: assign " ++ ip ++ B " to unifi-stubd0 after subnet/prefix config exists"])].
Lemma known_mode_actions flags mac ip :
  known_mode (normalizeMode (fg_operationMode flags)) = true →
  (normalizeMode (fg_operationMode flags), plan_actions flags mac ip) ∈ action_table (parent_interface flags) mac ip.
Proof.
  unfold known_mode, plan_actions. cbv zeta. intros Hk%bool_decide_eq_true.
  generalize dependent (normalizeMode (fg_operationMode flags)). intros mode Hk.
  rewrite !elem_of_cons in Hk. unfold action_table, parent_interface.
  destruct Hk as [->|[->|[->|[->|[->|?%elem_of_nil]]]]]; [..|done]; cbv [decide]; cbn -[trim_space app];
    rewrite !elem_of_cons; [tauto..|].
  do 4 right. left. by destruct (trim_space (fg_observeInterface flags)).
Qed.
Definition edge_text (e : TopologyEdge) : bytes :=
  B "topology_edge: local_port=" ++ itoa (te_LocalPort e) ++ B " direction=" ++ te_Direction e
  ++ B " source=" ++ tn_Source (te_Neighbor e) ++ B " neighbor_type=" ++ tn_DeviceType (te_Neighbor e)
  ++ B " remote_port=" ++ itoa (tn_RemotePort (te_Neighbor e)).
Lemma edge_line_text e : edge_line e = edge_text e.
Proof. unfold edge_line, edge_text, row. cbn. by rewrite <- ?app_assoc. Qed.

(** No part of the plan but the topology says [topology_error]. *)
Definition no_error (line : bytes) : Prop := has_prefix (B "topology_error") line = false.
Lemma unless_empty_no_error name v : no_error (say name v) → Forall no_error (unless_empty name v).
Proof. intros Hn. unfold unless_empty. case_decide; by repeat constructor. Qed.
Lemma when_no_error c l : Forall no_error l → Forall no_error (when c l).
Proof. by destruct c. Qed.
Lemma map_no_error {A} (f : A → bytes) l : (∀ a, no_error (f a)) → Forall no_error (map f l).
Proof. intros Hf. induction l; by constructor. Qed.
Ltac no_errors :=
  repeat first [apply Forall_app_2 | apply unless_empty_no_error | apply when_no_error | apply map_no_error; intro
               | apply List.Forall_cons | apply List.Forall_nil | reflexivity].
Lemma parts_no_error flags profile f name model policy reporting mac ip hostname :
  Forall no_error (plan_identity flags profile f name model mac ip hostname) ∧
  Forall no_error (plan_policy flags profile f policy reporting) ∧ Forall no_error (plan_neighbors flags) ∧
  Forall no_error (map plan_override (fg_portOverrides flags)) ∧ Forall no_error (plan_sources flags) ∧
  Forall no_error (printManagementLANPlan flags) ∧ Forall no_error (plan_discovery flags f) ∧
  Forall no_error (plan_actions flags mac ip).
Proof.
  split_and!.
  - unfold plan_identity. no_errors.
  - unfold plan_policy. no_errors.
  - unfold plan_neighbors. destruct (fg_uplinkNeighbor flags); no_errors.
  - no_errors.
  - unfold plan_sources. no_errors.
  - unfold printManagementLANPlan, management_actions. no_errors. repeat case_decide; no_errors.
  - unfold plan_discovery. no_errors.
  - unfold plan_actions. cbv zeta. repeat case_decide; no_errors.
Qed.
Lemma known_mode_normal mode : known_mode mode = true → normalizeMode mode = mode.
Proof.
  unfold known_mode. intros Hk%bool_decide_eq_true. rewrite !elem_of_cons in Hk.
  destruct Hk as [->|[->|[->|[->|[->|?%elem_of_nil]]]]]; [vm_compute; reflexivity..|done].
Qed.
Lemma normalized_mode flags checked profile :
  validateOperationFlags flags = Ok checked →
  normalizeMode (fg_operationMode (applyProfile profile checked)) = fg_operationMode checked.
Proof. intros Hv. apply operation_flags in Hv as (Hk & _). by apply (known_mode_normal (fg_operationMode checked)). Qed.

(** C10: A plan shows what was checked.  If the command line reaches the plan, the
    neighbors of the configuration resolve to a topology, the one the checks
    accepted.  The plan then is, in this order, the identity, the policies and
    the neighbors of the configuration, one line for each warning and each edge
    of that topology in their order, the overrides, the sources, the management
    LAN, the discovery targets, and the lines of its mode in [action_table]; no
    line says [topology_error].  The macvlan mode, the only one with commands,
    never starts.  A quoted value cannot leave its line. *)
Theorem plan_shows_what_was_checked args f r i :
  serveSwitchEmulation fuel env args = Some (Ok (Plan f r i)) →
  let flags := sr_flags r in
  let profile := device_profile (sr_profile r) in
  let mac := mac_string (si_mac i) in
  let ip := ipv4_string (si_ip i) in
  (∃ resolution actions,
     ResolveTopology (configured_ports flags profile) = Ok resolution ∧
     (normalizeMode (fg_operationMode flags), actions) ∈ action_table (parent_interface flags) mac ip ∧
     runtime_plan f r i
     = plan_identity flags profile f (Profiles.Name (sr_profile r)) (Profiles.Model (sr_profile r)) mac ip (si_hostname i)
       ++ plan_policy flags profile f (sr_policy r) (sr_reporting r) ++ plan_neighbors flags
       ++ (map (λ w, B "topology_warning: " ++ w) (tr_Warnings resolution) ++ map edge_text (tr_Edges resolution))
       ++ map plan_override (fg_portOverrides flags) ++ plan_sources flags
       ++ printManagementLANPlan flags ++ plan_discovery flags f ++ actions) ∧
  Forall no_error (runtime_plan f r i) ∧
  take 6 (runtime_plan f r i) =
    [B "operation_mode: " ++ normalizeMode (fg_operationMode flags);
     B "profile: " ++ Profiles.Name (sr_profile r) ++ B " (" ++ Profiles.Model (sr_profile r) ++ B ")";
     B "device_type: " ++ dp_DeviceType profile; B "mac: " ++ mac; B "ip: " ++ ip; B "hostname: " ++ si_hostname i] ∧
  (∀ args' f' r' i', serveSwitchEmulation fuel env args' = Some (Ok (Startup.Daemon f' r' i')) →
     normalizeMode (fg_operationMode (sr_flags r')) ≠ operationModeMacvlan) ∧
  (∀ s, x0a ∉ Quote s).
Proof.
  intros Hs. cbv zeta.
  destruct (planned_parts fuel env args f r i (or_introl Hs)) as (registry & Hp & _).
  apply prepared_flags in Hp as (checked & Hv & Hf & Ho). apply accepted_topology in Ho as [res Hr].
  pose proof (normalized_mode _ _ (device_profile (sr_profile r)) Hv) as Hm. rewrite <- Hf in Hm.
  assert (runtime_plan f r i = _) as Hplan by reflexivity.
  unfold runtime_plan at 2, printRuntimePlan, printTopologyPlan in Hplan. rewrite Hr in Hplan.
  rewrite (map_ext edge_line edge_text edge_line_text) in Hplan. split_and!.
  - exists res, (plan_actions (sr_flags r) (mac_string (si_mac i)) (ipv4_string (si_ip i))).
    split; [done|]. split; [|exact Hplan]. apply known_mode_actions. rewrite Hm. apply (operation_flags _ _ Hv).
  - rewrite Hplan, !Forall_app. clear Hplan.
    pose proof (parts_no_error (sr_flags r) (device_profile (sr_profile r)) f (Profiles.Name (sr_profile r))
      (Profiles.Model (sr_profile r)) (sr_policy r) (sr_reporting r) (mac_string (si_mac i)) (ipv4_string (si_ip i))
      (si_hostname i)) as (? & ? & ? & ? & ? & ? & ? & ?).
    split_and!; try assumption; by apply map_no_error.
  - reflexivity.
  - intros args' f' r' i' Hd Em.
    destruct (planned_parts fuel env args' f' r' i' (or_intror Hd)) as (registry' & Hp & [Hdry|?]); [|congruence].
    clear Hv Hf Hm Hr Hplan. apply prepared_flags in Hp as (checked' & Hv & Hf & _).
    rewrite Hf, (normalized_mode _ _ _ Hv) in Em. apply operation_flags in Hv as (_ & Hplan & _).
    rewrite Hf in Hdry. cbn in Hdry. by rewrite Hplan in Hdry.
  - intros s Hin. pose proof (Quote_on_line s) as Hq. rewrite forallb_forall in Hq.
    apply list_elem_of_In, Hq in Hin. by vm_compute in Hin.
Qed.
End claim.

(** ** Witness *)
#[local] Existing Instances latin1_tables ascii_tables amd64_conversion list_order no_ipv6.
#[local] Existing Instances Settings.plain_numbers Profiles.plain_yaml Startup.defaults_yaml.
Definition plan_args : list bytes := [B "-dry-run-plan"; B "-operation-mode=macvlan"; B "-observe-interface=eth0"].
Definition planned (o : option (result exit_error action)) : bool :=
  match o with
  | Some (Ok (Plan f r i)) =>
      bool_decide (normalizeMode (fg_operationMode (sr_flags r)) = operationModeMacvlan)
      && bool_decide (parent_interface (sr_flags r) = B "eth0")
      && bool_decide (mac_string (si_mac i) = B "02:00:00:00:00:00")
      && bool_decide (ipv4_string (si_ip i) = B "192.168.1.50")
  | _ => false
  end.
Lemma plan_shows_what_was_checked_witness :
  ∃ f r i before, start_with plan_args = Some (Ok (Plan f r i)) ∧
    runtime_plan f r i = before ++
      [B "actions: macvlan is not executed by this release";
       B "planned_command: ip link add link eth0 name unifi-stubd0 type macvlan mode bridge";
       B "planned_command: ip link set unifi-stubd0 address 02:00:00:00:00:00 up";
       B "planned_note: assign 192.168.1.50 to unifi-stubd0 after subnet/prefix config exists"].
Proof.
  assert (planned (start_with plan_args) = true) as Hp by (vm_compute; reflexivity).
  destruct (start_with plan_args) as [[[| |f r i| | |]|]|] eqn:E; try discriminate Hp.
  destruct (proj1 (plan_shows_what_was_checked 0 bare_host _ f r i E)) as (res & actions & _ & Ha & Hplan).
  unfold planned in Hp. repeat apply andb_true_iff in Hp as [Hp ?]. bool_to_prop.
  exists f, r, i. eexists. split; [reflexivity|]. rewrite Hplan, !app_assoc. f_equal.
  revert Ha. rewrite H1, H0, H, Hp. intros Ha. apply list_elem_of_In in Ha. vm_compute in Ha.
  destruct Ha as [Ha|[Ha|[Ha|[Ha|[Ha|[]]]]]]; try discriminate Ha. injection Ha as <-. vm_compute. reflexivity.
Defined.
