(* ===== verification/ResponseLog.v ===== *)
(** The log line of a controller response: [logInformResponse] of
    [src/cmd/unifi-stubd/adoption.go].

    It is written after the response has been applied.  The theorem is that it
    is one line whatever the controller sent, and that it does not depend on the
    adoption key. *)
From stdpp Require Import gmap.
From S2P Require Import Prelude GoStrings GoUtf8 GoUrl GoJson AtomicFile AdoptionStore AdoptionEnv AdoptionResponse.
From S2P Require Contract.
From S2P Require Import InformCodec InformClient Daemon Settings Status StatusText RuntimePlan.

Section audit.
Context `{PrintTables}.

(** [%q] of a slice of strings. *)
Definition quoted_list (l : list bytes) : bytes := B "[" ++ join (B " ") (map Quote l) ++ B "]".

Definition log_pairs (values : list (String.string * bytes)) : bytes := join (B " ") (map pair_text values).
Arguments log_pairs values%_stdpp_scope.

(** The text without the time that package [log] puts before it. *)
Definition logInformResponse (statusCode jsonBytes : Z) (response : ControllerResponse) (store : Store)
    (cipher : informCipherStatus) : bytes :=
  let head := B "inform response status=" ++ itoa statusCode ++ B " " in
  let cipher := cipherStatusText cipher in
  if decide (r_Type response = []) then
    head ++ log_pairs [("decoded_json_bytes", itoa jsonBytes); ("type", B "unknown"); ("cipher", cipher)]
  else if decide (r_Type response = B "setparam") then
    head ++ B "setparam " ++ log_pairs
      [("cfgversion", Quote (CFGVersion store)); ("inform_url", Quote (InformURL store));
       ("use_aes_gcm", bool_text (UseAESGCM store));
       ("authkey_set", bool_text (negb (bool_decide (AuthKey store = []))));
       ("mgmt_cfg", bool_text (r_HasMgmtCFG response)); ("system_cfg", bool_text (r_HasSystemCFG response));
       ("system_cfg_bytes", itoa (r_SystemCFGBytes response)); ("ignored", bool_text (r_Ignored response));
       ("cipher", cipher)]
  else if r_ResetRequested response then
    head ++ log_pairs
      [("type", r_Type response); ("reset_requested", B "true");
       ("reset_applied", bool_text (r_ResetApplied response));
       ("reset_disposition", r_ResetDisposition response); ("reason", Quote (r_ResetReason response));
       ("state", Quote (State store)); ("cipher", cipher)]
  else if r_Ignored response then
    head ++ log_pairs
      [("type", r_Type response); ("ignored", B "true"); ("reason", Quote (r_IgnoredReason response));
       ("state", Quote (State store)); ("version", Quote (Version store)); ("cipher", cipher)]
  else
    head ++ log_pairs
      [("type", r_Type response); ("state", Quote (State store)); ("version", Quote (Version store));
       ("interval", itoa (r_IntervalSeconds response)); ("immediate", bool_text (r_Immediate response));
       ("block_selection_limited", bool_text (r_BlockSelectionLimited response));
       ("include_blocks", quoted_list (r_IncludeBlocks response));
       ("exclude_blocks", quoted_list (r_ExcludeBlocks response));
       ("udapi_blocks", quoted_list (r_UDAPIBlocks response)); ("cipher", cipher)].

(** ** What stays on its line *)
Definition line_text (s : bytes) : bool := forallb on_line s.
Lemma line_app a b : line_text (a ++ b) = line_text a && line_text b.
Proof. apply forallb_app. Qed.
Lemma line_join sep l : line_text sep = true → forallb line_text l = true → line_text (join sep l) = true.
Proof.
  intros Hs. induction l as [|a [|b l] IH]; [done|..]; cbn [forallb]; intros [Ha Hl]%andb_true_iff; [done|].
  change (join sep (a :: b :: l)) with (a ++ sep ++ join sep (b :: l)). by rewrite !line_app, Ha, Hs, IH.
Qed.
Lemma line_itoa_pos fuel n acc : line_text acc = true → line_text (itoa_pos fuel n acc) = true.
Proof.
  revert n acc. induction fuel as [|fuel IH]; intros n acc Ha; [done|]. cbn [itoa_pos].
  assert (line_text (dec_digit n :: acc) = true) as Hb.
  { cbn [line_text forallb]. unfold line_text, on_line, dec_digit in *. cbn [forallb]. pose proof (Z.mod_pos_bound n 10 eq_refl).
    rewrite b2z_z2b, Z.mod_small by lia. apply andb_true_iff. split; [lia|done]. }
  destruct (n <? 10); [done|]. by apply IH.
Qed.
Lemma line_itoa n : line_text (itoa n) = true.
Proof.
  unfold itoa. destruct (n <? 0); [|by apply line_itoa_pos].
  change (on_line x2d && line_text (itoa_pos 20 (- n) []) = true). by rewrite line_itoa_pos.
Qed.
Lemma line_bool b : line_text (bool_text b) = true.
Proof. by destruct b. Qed.
Lemma line_quote s : line_text (Quote s) = true.
Proof. apply Quote_on_line. Qed.
Lemma line_quoted_list l : line_text (quoted_list l) = true.
Proof.
  unfold quoted_list. rewrite !line_app, line_join; [done|done|].
  induction l as [|a l IH]; [done|]. cbn [map forallb]. by rewrite line_quote, IH.
Qed.
Lemma line_cipher c : line_text (cipherStatusText c) = true.
Proof. unfold cipherStatusText. by repeat case_match. Qed.

#[local] Hint Rewrite line_app line_bool line_quote line_quoted_list line_cipher line_itoa : on_line.

Lemma line_pairs values :
  forallb (λ v : String.string * bytes, line_text (B v.1) && line_text v.2) values = true →
  line_text (log_pairs values) = true.
Proof.
  intros Hv. unfold log_pairs. apply line_join; [done|].
  induction values as [|v values IH]; [done|]. cbn [map forallb] in *. apply andb_true_iff in Hv as [Hp Hv].
  apply andb_true_iff in Hp as [H1 H2]. unfold pair_text at 1. by rewrite !line_app, H1, H2, IH.
Qed.

(** The type and the disposition, which are printed as they are. *)
Lemma known_type_line t : knownControllerResponseType t = true → line_text t = true.
Proof.
  unfold knownControllerResponseType. intros Hk%bool_decide_eq_true. set_unfold in Hk.
  by destruct_or! Hk; subst t.
Qed.
Lemma logInformResponse_line code n response store cipher :
  line_text (r_Type response) = true → line_text (r_ResetDisposition response) = true →
  line_text (logInformResponse code n response store cipher) = true.
Proof.
  intros Ht Hd. unfold logInformResponse. cbv zeta.
  repeat case_match; rewrite !line_app, line_itoa, line_pairs; try done; cbn [forallb fst snd];
    autorewrite with on_line; rewrite ?Ht, ?Hd; reflexivity.
Qed.
End audit.

(** ** Whatever the controller sends *)
Lemma parsed_shown `{AddressParser} data r :
  ParseControllerResponseInfo data = Ok r → knownControllerResponseType (r_Type r) = true ∧ r_ResetDisposition r = [].
Proof.
  intros (raw & _ & t & _ & _ & _ & _ & Hk & Hp)%parse_response_cases.
  destruct (decide (t = B "setparam")) as [->|N1].
  { unfold parse_by_type in Hp. rewrite decide_True in Hp by done.
    pose proof (parse_setparam_store _ _ _ Hp) as (-> & _). split; [done|]. unfold parse_setparam in Hp.
    destruct (if negb _ then _ else _) as [u|]; cbn [mbind result_bind] in Hp; [|done].
    destruct (raw !! B "system_cfg"); [|by injection Hp as <-].
    destruct (summarizeSystemCFG _) as [[n keys] [|e]]; by inv_ok. }
  destruct (decide (t = B "noop")) as [->|N2].
  { apply parse_by_type_noop in Hp as ->. unfold parse_noop. destruct (jsonStringInt64Prefix _).
    by do 3 destruct (or_limited _). }
  destruct (parse_other raw t r N1 N2 Hk Hp) as (-> & _). split; [done|].
  unfold knownControllerResponseType in Hk. bool_to_prop. set_unfold in Hk.
  destruct_or! Hk; subst t; try done; by injection Hp as <-.
Qed.

(** C11: A log line that can be trusted.  Whatever response the parser accepted and
    however its application went, the log line about it is a single line without
    control bytes, so no text of the controller, of the state file or of a
    configuration can add a line of its own; and the line is the same for every
    adoption key. *)
Theorem response_log_line_safe `{PrintTables} `{AddressParser} `{FileSystem W} data parsed path store usedGCM (w w' : W)
    response store' res code n cipher :
  ParseControllerResponseInfo data = Ok parsed →
  updateAdoptionState path store parsed usedGCM w = (response, store', res, w') →
  Forall (λ b, 0x20 <= b2z b) (logInformResponse code n response store' cipher) ∧
  (∀ s, same_but_key store' s →
     logInformResponse code n response s cipher = logInformResponse code n response store' cipher).
Proof.
  intros Hp Hu. apply parsed_shown in Hp as [Hk Hd].
  assert (r_Type response = r_Type parsed ∧ line_text (r_ResetDisposition response) = true) as [Ht Hl].
  { unfold updateAdoptionState in Hu. revert Hu. repeat case_match; intros Hu; injection Hu as <- _ _ _;
      (split; [done|]); cbn [set_reset r_ResetDisposition]; rewrite ?Hd; try done; by case_match. }
  split.
  - assert (line_text (logInformResponse code n response store' cipher) = true) as Hline.
    { apply logInformResponse_line; [|done]. rewrite Ht. by apply known_type_line. }
    apply Forall_forall. intros b Hb. unfold line_text in Hline. rewrite forallb_forall in Hline.
    apply Z.leb_le, Hline. by apply list_elem_of_In.
  - intros s [K1 K2 K3 K4 K5 K6]. unfold logInformResponse. rewrite K2, K3, K4, K5, K6.
    assert (bool_decide (AuthKey store' = []) = bool_decide (AuthKey s = [])) as -> by (by apply bool_decide_ext).
    done.
Qed.

(** ** Witness *)
#[local] Existing Instances latin1_tables no_ipv6 Contract.memory_files.
Definition reset_outcome : ControllerResponse * Store :=
  match ParseControllerResponseInfo reset_json with
  | Ok parsed => (updateAdoptionState (B "/s.env") adopted_store parsed true (∅ : gmap bytes bytes)).1.1
  | Err _ => (new_response [], no_store)
  end.
Lemma response_log_line_safe_witness :
  logInformResponse 200 33 reset_outcome.1 reset_outcome.2 sample_cipher
  = B "inform response status=200 type=setdefault reset_requested=true reset_applied=true reset_disposition=applied reason="
    ++ [x22] ++ B "controller setdefault command" ++ [x22] ++ B " state=" ++ [x22] ++ B "factory" ++ [x22] ++ B " cipher=aes-cbc" ∧
  Forall (λ b, 0x20 <= b2z b) (logInformResponse 200 33 reset_outcome.1 reset_outcome.2 sample_cipher).
Proof.
  split; [vm_compute; reflexivity|].
  unfold reset_outcome. destruct (ParseControllerResponseInfo reset_json) as [parsed|] eqn:Ep; [|by vm_compute in Ep].
  destruct (updateAdoptionState (B "/s.env") adopted_store parsed true (∅ : gmap bytes bytes))
    as [[[response store'] res] w'] eqn:Eu.
  exact (proj1 (response_log_line_safe reset_json parsed (B "/s.env") adopted_store true ∅ w' response store' res 200 33
                  sample_cipher Ep Eu)).
Defined.
