(* ===== verification/EndToEnd.v ===== *)
(** The daemon from its command line to its heartbeats.

    [maintainControllerPresence] of [src/cmd/unifi-stubd/serve_presence.go] with
    everything a turn calls put in place: the presence that [serve.go] builds
    from the settings, the payload rendered from what the host shows and written
    by [json.MarshalIndent], the rate tracker handed from turn to turn, and the
    source address read anew in every turn. *)
From stdpp Require Import gmap.
From S2P Require Import Prelude GoStrings GoUrl GoNet GoIP GoMap GoFloat GoUtf8 GoJson Ports Topology GoYaml.
From S2P Require PayloadViews PayloadSpec.
From S2P Require Import InformCodec InformSchedule AtomicFile AdoptionStore AdoptionEnv AdoptionResponse Discovery.
From S2P Require Import InformClient Daemon Contract Observe ObserveSources Rates WanHealth.
From S2P Require Import PayloadTypes Payload PayloadMarshal RuntimeConfig RuntimePorts Identity Profiles Settings Startup.
From S2P Require Import JsonText.

(** ** The text of a payload *)
Lemma plain_printable n j : PayloadMarshal.plain n j = true → printable n j = true.
Proof.
  revert n. induction j as [|b|z|f|s|l IH|l IH] using json_ind'; intros n; cbn; try done.
  - by destruct f as [[]| | |].
  - destruct n as [|n]; [done|]. rewrite !forallb_forall. intros Hn v Hv.
    eapply (proj1 (Forall_forall _ _)) in IH; [|by apply list_elem_of_In]. by apply IH, Hn.
  - destruct n as [|n]; [done|]. rewrite !forallb_forall. intros Hn v Hv.
    eapply (proj1 (Forall_forall _ _)) in IH; [|by apply list_elem_of_In]. by apply IH, Hn.
Qed.

(** [payload.Build] to its last line. *)
Definition payload_text (p : switchPayload + gatewayPayload) : result error bytes :=
  match MarshalIndent (payload_json p) with Some text => Ok text | None => Err "marshal switch payload"%stdpp end.

Lemma payload_text_ok `{UnicodeTables} `{MapOrder} clock profile id ports p :
  Build clock profile id ports = Ok p →
  ∃ text, payload_text p = Ok text ∧ read_document text = Some (document_of (payload_json p)).
Proof.
  intros Hb. apply built_documents_plain, plain_printable in Hb.
  destruct (MarshalIndent_reads_back payload_depth _ Hb) as (text & Ht & Hr); [by vm_compute|].
  exists text. unfold payload_text. by rewrite Ht.
Qed.

(** C6: the body of an inform reads back.  For every profile, identity, clock and
    set of ports, the text of the payload that is built is one JSON value within
    the decoder's limits, and a decoder finds in it exactly the members of the
    payload, in order: the integers with all their digits, the strings byte for
    byte if they are valid UTF-8 and with U+FFFD for what is not. *)
Theorem payload_reads_back `{UnicodeTables} `{MapOrder} clock profile id ports p :
  Build clock profile id ports = Ok p →
  ∃ text, payload_text p = Ok text ∧ read_document text = Some (document_of (payload_json p)) ∧
    (∀ s, valid_utf8 s = true → transported s = s) ∧
    (∀ z, in_int64 z → atoi (int_text z) = Some z).
Proof.
  intros Hb. destruct (payload_text_ok clock profile id ports p Hb) as (text & Ht & Hr).
  exists text. split; [done|]. split; [done|]. split; [apply transported_valid|apply atoi_int_text].
Qed.

(** ** The presence a start builds *)
Section daemon.
Context `{UnicodeTables} `{FloatConversion} `{AddressParser} `{MapOrder} `{SliceSort} `{Resolver}.
Context `{FlagText} `{ConfigYaml} `{ProfileYaml}.
Context `{InformCrypto} {W : Type} `{FileSystem W}.

Definition announcement_of (r : serveRuntime) (i : serveIdentity) : Announcement :=
  MkAnnouncement (si_mac i) (si_ip i) (fg_model (sr_flags r)) (fg_version (sr_flags r)) (si_hostname i) true 1 1.

(** What one turn finds: the network, the seconds since the start, the two
    clocks, the host, its addresses, and whether a signal ends the wait. *)
Record moment := MkMoment {
  m_env : Daemon.environment; m_elapsed : Z; m_clock : wall_time; m_now : Z; m_host : surroundings;
  m_addresses : AddressReader; m_stop : bool;
}.

Definition presence_of (f : settings) (r : serveRuntime) (i : serveIdentity) (m : moment) : presence :=
  MkPresence (si_mac i) (si_ip i) (fg_controller (sr_flags r)) (st_string f fs_sshState) (st_string f fs_statusPath)
    (informSourceIP (sr_flags r) (si_ip i) (Some (m_addresses m))) (st_bool f fb_once) (sr_reporting r)
    (st_bool f fb_noDiscovery) (effectiveDiscoveryInterface (sr_flags r)) (st_discoveryTargets f).

(** The payload of a turn; a panic of the renderer would end the process. *)
Definition turn_payload (r : serveRuntime) (i : serveIdentity) (m : moment) (tracker : option TrafficRateTracker)
    (informURL : bytes) (store : Store) (offset : Z) (blocks : BlockSelection) (uptime : Z) : result error bytes :=
  match render_turn (m_clock m) (m_now m) (m_host m) (si_mac i) (si_ip i) (si_hostname i) informURL store (sr_flags r)
          (device_profile (sr_profile r)) (si_options i) tracker uptime (MkPayloadState offset blocks) with
  | Some (Ok p, _) => payload_text p
  | Some (Err e, _) => Err e
  | None => Err "panic"%stdpp
  end.
Definition next_tracker (r : serveRuntime) (i : serveIdentity) (m : moment) (tracker : option TrafficRateTracker)
    : option TrafficRateTracker :=
  match portsForRuntime (sr_flags r) (device_profile (sr_profile r)) (si_options i) (m_host m) with
  | Some ports => if fg_trafficRatesEnabled (sr_flags r) then (applyTrafficRates ports tracker (m_now m)).2 else tracker
  | None => tracker
  end.
Definition turn_of (r : serveRuntime) (i : serveIdentity) (m : moment) (tracker : option TrafficRateTracker) : turn :=
  MkTurn (m_env m) (m_elapsed m) (turn_payload r i m tracker) (m_stop m).

(** The loop: the packets it announced, the delays it waited, how it ended. *)
Fixpoint daemon_run (f : settings) (r : serveRuntime) (i : serveIdentity) (ms : list moment)
    (tracker : option TrafficRateTracker) (ann : Announcement) (rt : runtime) (w : W)
    : list bytes * list Z * turn_result W :=
  match ms with
  | [] => ([], [], Continue ann rt 0 w)
  | m :: rest =>
      let '(packets, result) := presence_turn (presence_of f r i m) (turn_of r i m tracker) ann rt w in
      match result with
      | Continue ann rt delay w =>
          let '(packets', delays, result) := daemon_run f r i rest (next_tracker r i m tracker) ann rt w in
          (packets ++ packets', delay :: delays, result)
      | Stopped w => (packets, [], Stopped w)
      | Died e w => (packets, [], Died e w)
      end
  end.
Definition maintainControllerPresence (f : settings) (r : serveRuntime) (i : serveIdentity) (ms : list moment) (w : W)
    : list bytes * list Z * turn_result W :=
  match initial_runtime (informScheduleConfig f (sr_policy r)) with
  | Err e => ([], [], Died e w)
  | Ok rt =>
      daemon_run f r i ms (if fg_trafficRatesEnabled (sr_flags r) then Some NewTrafficRateTracker else None)
        (announcement_of r i) rt w
  end.
End daemon.

(** ** The announcement is marshalled in every turn *)
Lemma record_length typ value : zlen (writeTLV typ value) = 3 + zlen value.
Proof. unfold zlen. rewrite writeTLV_length. lia. Qed.
Lemma serial_length mac : zlen (Discovery.serialFromMAC mac) = 2 * zlen mac.
Proof. induction mac as [|b mac IH]; [done|]. unfold zlen in *. cbn [Discovery.serialFromMAC length]. lia. Qed.

Lemma announcement_fits ann ip :
  zlen (a_MAC ann) = 6 → ip_to4 (a_IP ann) = Some ip →
  zlen (a_Hostname ann) + zlen (a_Version ann) + zlen (a_Model ann) ≤ 65000 → announceable ann.
Proof.
  intros Hm Hip Hl d u q. unfold MarshalBinary. cbn [announce a_MAC a_IP]. rewrite Hm, Hip. cbn [Z.eqb negb].
  rewrite (proj2 (Z.ltb_ge _ _)); [done|]. apply ip_to4_length in Hip.
  assert (∀ s, zlen (uint32Bytes s) = 4) as H4 by done.
  unfold records. cbn [announce a_MAC a_IP a_Model a_Version a_Hostname a_Default a_Uptime a_Sequence].
  assert (∀ a b : bytes, zlen (a ++ b) = zlen a + zlen b) as Happ by (intros; unfold zlen; rewrite length_app; lia).
  assert (zlen ip = 4) as Hi by (unfold zlen; lia).
  assert (zlen [if d then x01 else x00] = 1) as H1 by (by destruct d).
  case_decide as Hh; cbn [map concat app fst snd]; rewrite !Happ, !record_length, ?H4, ?H1, ?serial_length, ?Happ;
    change (zlen (@nil byte)) with 0; rewrite ?Hm, ?Hi, ?Hh in *; change (zlen (@nil byte)) with 0 in *; lia.
Qed.

(** ** The daemon goes on *)
Section progress.
Context `{UnicodeTables} `{FloatConversion} `{AddressParser} `{MapOrderLaws} `{SliceSort} `{Resolver}.
Context `{FlagText} `{ConfigYaml} `{ProfileYaml}.
Context `{InformCrypto} {W : Type} `{FileSystemLaws W}.
Variable fuel : nat.
Variable env : Startup.environment.

(** The tracker of a turn is the one its rendering left. *)
Lemma next_tracker_rendered (r : serveRuntime) i m tracker informURL store uptime state p t :
  render_turn (m_clock m) (m_now m) (m_host m) (si_mac i) (si_ip i) (si_hostname i) informURL store (sr_flags r)
    (device_profile (sr_profile r)) (si_options i) tracker uptime state = Some (p, t) →
  t = next_tracker r i m tracker.
Proof.
  unfold render_turn, next_tracker. destruct (portsForRuntime _ _ _ _) as [ports|]; cbn [mbind option_bind]; [|done].
  destruct (fg_trafficRatesEnabled _); [|by intros [= _ <-]].
  destruct (applyTrafficRates ports tracker (m_now m)) as [ports' t']. by intros [= _ <-].
Qed.

Lemma rendered_text (r : serveRuntime) i m tracker informURL store uptime state p t :
  render_turn (m_clock m) (m_now m) (m_host m) (si_mac i) (si_ip i) (si_hostname i) informURL store (sr_flags r)
    (device_profile (sr_profile r)) (si_options i) tracker uptime state = Some (Ok p, t) →
  ∃ text, payload_text p = Ok text ∧ read_document text = Some (document_of (payload_json p)).
Proof.
  unfold render_turn, payloadForIdentity, buildPayload.
  destruct (portsForRuntime _ _ _ _) as [ports|]; cbn [mbind option_bind]; [|done].
  destruct (if fg_trafficRatesEnabled _ then _ else _) as [ports' t']. intros [= Hb _]. inv_ok.
  by eapply payload_text_ok.
Qed.

(** The controller answers within the protocol, and no signal arrives. *)
Definition calm (m : moment) : Prop := m_stop m = false ∧ answers_sane (m_env m).

Section started.
Variables (builtins : list (bytes * bytes)) (args : list bytes) (f : settings) (r : serveRuntime) (i : serveIdentity).
Hypothesis builtin_profiles : load_builtins fuel builtins [] = Some (Ok (ev_builtins env)).
Hypothesis starts : serveSwitchEmulation fuel env args = Some (Ok (Startup.Daemon f r i)).
Hypothesis groups : counts_sum (PortGroups (sr_profile r)) ≤ int64_max.

(** Every payload of a started daemon is a JSON text, in every turn. *)
Lemma turn_payload_ok m tracker informURL store offset blocks uptime :
  ∃ text p, turn_payload r i m tracker informURL store offset blocks uptime = Ok text ∧
    read_document text = Some (document_of (payload_json p)).
Proof.
  destruct (started_daemon_serves fuel env builtins args f r i builtin_profiles starts groups) as (_ & _ & Hr).
  destruct (Hr (m_clock m) (m_now m) (m_host m) informURL store tracker uptime (MkPayloadState offset blocks))
    as (p & t & Et & _).
  destruct (rendered_text _ _ _ _ _ _ _ _ _ _ Et) as (text & Ht & Hd).
  exists text, p. unfold turn_payload. by rewrite Et.
Qed.

Lemma calm_steady m tracker : calm m → steady (turn_of r i m tracker).
Proof.
  intros [Hs Ha]. split; [exact Hs|]. split; [exact Ha|]. intros url store offset blocks uptime.
  destruct (turn_payload_ok m tracker url store offset blocks uptime) as (text & p & Et & _).
  cbn [turn_of t_payload]. by rewrite Et.
Qed.

(** ** The loop *)
Context (path : bytes) `{!ReliableFiles W path}.
Hypothesis state_path : st_string f fs_sshState = path.
Hypothesis status_path : st_string f fs_statusPath ≠ path ∧ ¬ fs_temp (W := W) (st_string f fs_statusPath) path.
Hypothesis path_given : path ≠ [].
Hypothesis loops : st_bool f fb_once = false.
Hypothesis announces : st_bool f fb_noDiscovery = false.

Lemma daemon_progress ms tracker ann rt (w : W) :
  Forall calm ms → announceable ann → healthy (path := path) w →
  ∃ packets delays ann' rt' w',
    daemon_run f r i ms tracker ann rt w = (packets, delays, Continue ann' rt' 0 w') ∧
    length packets = length ms ∧ length delays = length ms ∧ healthy (path := path) w'.
Proof.
  intros Hms. revert tracker ann rt w. induction Hms as [|m ms Hm Hms IH]; intros tracker ann rt w Hann Hw.
  { by exists [], [], ann, rt, w. }
  destruct (healthy_turn (st_string f fs_statusPath) status_path path_given (presence_of f r i m) state_path eq_refl loops
              (turn_of r i m tracker) ann rt w Hw (calm_steady m tracker Hm) Hann)
    as (ann1 & rt1 & delay & w1 & Et & Hw1 & Hann1).
  pose proof (turn_packet (presence_of f r i m) (turn_of r i m tracker) ann rt w announces) as Hpk. cbn [daemon_run].
  destruct (presence_turn _ _ ann rt w) as [pk result]. cbn [snd fst] in *. subst result.
  destruct (IH (next_tracker r i m tracker) ann1 rt1 w1 Hann1 Hw1) as (packets & delays & ann' & rt' & w' & -> & L1 & L2 & Hw').
  eexists _, _, _, _, _. split; [reflexivity|]. split; [by rewrite length_app, L1, Hpk|]. split; [by cbn; rewrite L2|done].
Qed.
End started.

End progress.

(** ** A hardware address that is not six bytes

    [net.ParseMAC] also takes eight and twenty bytes, and so do the checks of a
    start; the announcement takes six, and its error ends the daemon. *)
Lemma long_mac_stops `{UnicodeTables} `{FloatConversion} `{AddressParser} `{MapOrder} `{SliceSort} `{Resolver}
    `{FlagText} `{ConfigYaml} `{ProfileYaml} `{InformCrypto} {W : Type} `{FileSystem W} f r i m ms (w : W) :
  zlen (si_mac i) ≠ 6 → ∃ e w', maintainControllerPresence f r i (m :: ms) w = ([], [], Died e w').
Proof.
  intros Hm. unfold maintainControllerPresence. destruct (initial_runtime _) as [rt|e]; [|by eexists _, _].
  cbn [daemon_run]. unfold presence_turn. cbv zeta.
  destruct (loadAdoptionState _ w) as [[store|e] w1]; [|by eexists _, _].
  unfold MarshalBinary. cbn [announce announcement_of a_MAC]. rewrite (proj2 (Z.eqb_neq _ 6)) by done.
  by eexists _, _.
Qed.

#[local] Existing Instances ascii_tables amd64_conversion list_order list_order_laws insertion_sort no_ipv6 no_resolver.
#[local] Existing Instances plain_numbers plain_yaml Startup.defaults_yaml Toy.crypto.

Definition started_mac (o : option (result exit_error action)) : option bytes :=
  match o with Some (Ok (Startup.Daemon _ _ i)) => Some (si_mac i) | _ => None end.
Definition long_mac : bytes := B "-mac=02:00:00:00:00:00:00:01".
Lemma long_mac_starts :
  outcome (start_with [B "-validate"; long_mac]) = Some (inr false) ∧
  started_mac (start_with [long_mac]) = Some [x02; x00; x00; x00; x00; x00; x00; x01].
Proof. split; vm_compute; reflexivity. Qed.

(** ** Witness *)
Definition quiet_moment (elapsed : Z) : moment :=
  MkMoment (MkEnv busy_controller Toy.rand demo_random (MkTime 1700000000 0) (λ _, Some (B "{}"))) elapsed
    (1700000000, 0) 0 sample_surroundings (MkAddressReader (λ _, None) (λ _ _, None)) false.
Lemma quiet_calm elapsed : calm (quiet_moment elapsed).
Proof.
  split; [reflexivity|]. apply (unavailable_sane (MkTurn (m_env (quiet_moment elapsed)) 0 (λ _ _ _ _ _, Ok []) false)).
  intros c req. discriminate.
Qed.

(** What the theorem asks of a start. *)
Definition conditions (o : option (result exit_error action)) : bool :=
  match o with
  | Some (Ok (Startup.Daemon f r i)) =>
      (counts_sum (PortGroups (sr_profile r)) <=? int64_max) && (zlen (si_mac i) =? 6)
      && match ip_to4 (si_ip i) with Some _ => true | None => false end
      && (zlen (si_hostname i) + zlen (fg_version (sr_flags r)) + zlen (fg_model (sr_flags r)) <=? 65000)
      && negb (st_bool f fb_once) && negb (st_bool f fb_noDiscovery)
      && negb (bool_decide (st_string f fs_sshState = []))
      && negb (bool_decide (st_string f fs_statusPath = st_string f fs_sshState))
  | _ => false
  end.

Lemma payload_reads_back_witness :
  ∃ text, payload_text (inr PayloadSpec.gateway_document) = Ok text ∧
    read_document text = Some (document_of (payload_json (inr PayloadSpec.gateway_document))) ∧ 1000 < zlen text.
Proof.
  destruct (payload_reads_back PayloadSpec.sample_clock PayloadSpec.sample_profile
              (PayloadSpec.sample_identity (B "uxg")) PayloadSpec.gateway_ports (inr PayloadSpec.gateway_document))
    as (text & Ht & Hr & _); [vm_compute; reflexivity|].
  exists text. split; [exact Ht|]. split; [exact Hr|].
  assert (match payload_text (inr PayloadSpec.gateway_document) with Ok t => 1000 <? zlen t | Err _ => false end = true)
    as Hl by (vm_compute; reflexivity).
  rewrite Ht in Hl. by apply Z.ltb_lt.
Defined.

