(* ===== verification/Commands.v ===== *)
(** The commands that do not serve: [profiles.go], [config_migrate.go],
    [output.go] and [main.go] of [src/cmd/unifi-stubd], with
    [src/internal/device/registry_format.go] and the dry run of [serve.go].

    Every start that Startup resolves ends here with its output and exit code,
    or serves.  The main theorem is that the dry run shows what the daemon sends
    first. *)
From stdpp Require Import gmap.
From S2P Require Import Prelude GoStrings GoUtf8 GoUrl GoNet GoIP GoMap GoFloat GoJson Ports Topology GoYaml.
From S2P Require PayloadViews ConfigMigrate.
From S2P Require Import InformCodec InformSchedule AtomicFile AdoptionStore AdoptionEnv AdoptionResponse Discovery.
From S2P Require Import InformClient Daemon Contract Observe ObserveSources Rates WanHealth.
From S2P Require Import PayloadTypes Payload PayloadMarshal RuntimeConfig RuntimePorts Identity Profiles Settings Startup.
From S2P Require Import JsonText GoStruct Status StatusText RuntimePlan EndToEnd.

(** ** registry_format.go

    [fmt] pads to a width in runes. *)
Definition pad_right (width : nat) (s : bytes) : bytes := s ++ repeat x20 (width - length (runes s)).
Definition defaultDeviceType : bytes := B "usw".
Definition deviceTypeOrDefault (v : bytes) : bytes :=
  let v := trim_space v in if decide (v = []) then defaultDeviceType else v.
Definition profile_line (p : Profiles.Profile) : bytes :=
  join (B " ")
    [pad_right 15 (Profiles.Name p); pad_right 6 (deviceTypeOrDefault (DeviceType p));
     pad_right 15 (Profiles.Model p); B "kind=" ++ pad_right 7 (PayloadViews.pl_Kind (Profiles.Payload p));
     B "source=" ++ pad_right 8 (SourceType p); B "stability=" ++ pad_right 12 (Stability p);
     B "ports=" ++ pad_right 2 (itoa (PortCount p));
     B "speed=" ++ pad_right 5 (itoa (PayloadViews.firstNonZero [PortSpeed p; 1000]));
     B "version=" ++ Profiles.Version p ++ (if Recommended p then B " recommended" else [])]
  ++ B "  " ++ Description p ++ [x0a].
Definition FormatProfiles (registry : list record) : bytes := concat (map profile_line (Profiles registry)).

(** ** output.go *)
Definition printDryRun (packet payload : bytes) : bytes :=
  printed [B "discovery_packet_hex:"; hex_encode packet; []; B "minimal_inform_payload_json:"; payload].

Section commands.
Context `{PrintTables} `{UnicodeTables} `{FloatConversion} `{AddressParser} `{MapOrder} `{SliceSort} `{Resolver}.
Context `{FlagText} `{ConfigYaml} `{ProfileYaml} `{ConfigMigrate.MigrationYaml}.
Variable fuel : nat.
Variable env : Startup.environment.

(** ** profiles.go; [None] is a load that does not end *)
Definition printProfileTemplate (kind : bytes) : result exit_error bytes := withExitCode 1 (ProfileTemplateYAML kind).
Definition validateProfilePath (path : bytes) : option (result exit_error bytes) :=
  let path := trim_space path in
  if decide (path = []) then Some (Err (1, "-profile-validate requires a file or directory path"%stdpp))
  else
    loaded ← LoadProfilePath fuel (ev_files env) path (ev_builtins env);
    Some (match loaded.1 with
          | Err e => Err (profileErrorExitCode e, pe_Err e)
          | Ok _ => Ok (printed [B "profiles valid: " ++ path])
          end).
Definition printProfileExport (registry : list record) (name : bytes) : result exit_error bytes :=
  let name := trim_space name in
  if decide (name = []) then Err (1, "-profile-export requires a profile name"%stdpp)
  else withExitCode 1 (ExportProfileYAML registry name).

(** ** config_migrate.go

    The answers of the system calls and the time stamp of the backup are those
    of ConfigMigrate; no migration has warnings. *)
Record migration_host := MkMigrationHost {
  mh_backups : nat → answers; mh_answers : answers; mh_stat_fails : bool; mh_stamp : bytes;
}.
Variable mh : migration_host.
Definition migration_lines (path : bytes) (dryRun : bool) (m : ConfigMigrate.FileMigrationResult) : bytes :=
  let r := ConfigMigrate.fm_Result m in
  let result := ConfigMigrate.mr_Result r in
  printed (map (λ a, B "config migration: " ++ a) (ConfigMigrate.mg_Actions result))
  ++ if negb (ConfigMigrate.mg_Changed result) then printed [B "config migration: no changes needed: " ++ path]
     else if dryRun then
       printed [B "config migration: dry run, no changes written"; B "migrated_config_yaml:"] ++ ConfigMigrate.mr_Data r
     else
       printed [B "config migration backup: " ++ ConfigMigrate.fm_BackupPath m; B "config migration: wrote " ++ path].
Definition runConfigMigration (f : settings) (trace : list fs) : result error bytes * list fs :=
  let dryRun := st_bool f fb_configMigrateDryRun in
  if st_bool f fb_configMigrate && dryRun then
    (Err "-config-migrate and -config-migrate-dry-run cannot be used together"%stdpp, trace)
  else
    let path := trim_space (st_string f fs_configPath) in
    if decide (path = []) then (Err "-config is required for config migration"%stdpp, trace)
    else
      let '(migration, trace) :=
        ConfigMigrate.MigrateFile (mh_backups mh) (mh_answers mh) (mh_stat_fails mh) (mh_stamp mh) path dryRun trace in
      (match migration with Err e => Err e | Ok m => Ok (migration_lines path dryRun m) end, trace).

(** ** serve.go: the dry run; [None] is a panic *)
Definition dry_run (clock : wall_time) (now : Z) (su : surroundings) (r : serveRuntime) (i : serveIdentity)
    : option (result error (bytes * bytes)) :=
  match wrap_err "marshal discovery announcement" (MarshalBinary (announcement_of r i)) with
  | Err e => Some (Err e)
  | Ok packet =>
      let flags := sr_flags r in
      let tracker := if fg_trafficRatesEnabled flags then Some NewTrafficRateTracker else None in
      '(rendered, _) ← render_turn clock now su (si_mac i) (si_ip i) (si_hostname i) (fg_controller flags) no_store
        flags (device_profile (sr_profile r)) (si_options i) tracker 1 (MkPayloadState 0 (MkSelection [] []));
      Some (p ← rendered; text ← payload_text p; Ok (packet, text))
  end.

(** ** Every start

    What the program writes to its standard output; [Ok None] is a start that
    goes on to serve. *)
Context {W : Type} `{FileSystem W}.
Variables (version : bytes) (tools : installed) (su : surroundings) (clock : wall_time) (now : Z).
Definition shown (r : result exit_error bytes) : result exit_error (option bytes) :=
  match r with Ok t => Ok (Some t) | Err e => Err e end.
Definition dry_run_output (o : result error (bytes * bytes)) : result exit_error bytes :=
  match o with Ok (packet, payload) => Ok (printDryRun packet payload) | Err e => Err (1, e) end.
Definition run_action (a : action) (trace : list fs) (w : W) : option (result exit_error (option bytes)) :=
  match a with
  | Early PrintVersion => Some (Ok (Some (printed [version])))
  | Early (MigrateConfig f) => Some (shown (plain (runConfigMigration f trace).1))
  | Early (PrintTemplate kind) => Some (shown (printProfileTemplate kind))
  | Early (ValidateProfiles path) => o ← validateProfilePath path; Some (shown o)
  | Listing (ListProfiles registry) => Some (Ok (Some (FormatProfiles registry)))
  | Listing (ExportProfile registry name) => Some (shown (printProfileExport registry name))
  | Listing (Validated _) | Listing (Prepared _) => Some (Ok (Some []))
  | Plan f r i => Some (Ok (Some (printed (runtime_plan f r i))))
  | Startup.Status f r i => Some (shown (plain (printLocalStatus tools su f r i w).1))
  | DryRun _ r i => o ← dry_run clock now su r i; Some (shown (dry_run_output o))
  | Startup.Daemon _ _ _ => Some (Ok None)
  end.
Definition run_command (args : list bytes) (trace : list fs) (w : W) : option (result exit_error (option bytes)) :=
  started ← serveSwitchEmulation fuel env args;
  match started with Err e => Some (Err e) | Ok a => run_action a trace w end.

(** ** main.go: the exit code, unless it serves *)
Definition exit_code (o : result exit_error (option bytes)) : option Z :=
  match o with Ok (Some _) => Some 0 | Ok None => None | Err (code, _) => Some code end.
End commands.

(** ** instance_guard.go: what the guard file holds *)
Definition instanceGuardMetadata : kind := KStruct [
  must "pid" int_kind; must "start_time" KText; must "profile" KText; must "mac" KText; must "hostname" KText;
  must "version" KText].
Definition guard_metadata (pid : Z) (startTime version : bytes) (r : serveRuntime) (i : serveIdentity) : value :=
  VStruct [VInt pid; VText startTime; VText (Profiles.Name (sr_profile r)); VText (mac_string (si_mac i));
    VText (si_hostname i); VText version].
(** The parameter of InstanceGuard. *)
Definition metadata_text (pid : Z) (startTime version : bytes) (r : serveRuntime) (i : serveIdentity) : option bytes :=
  MarshalIndent (encode instanceGuardMetadata (guard_metadata pid startTime version r i)).
Lemma metadata_reads_back `{UnicodeTables} pid startTime version r i :
  in_int64 pid →
  ∃ text, metadata_text pid startTime version r i = Some text ∧
    unmarshal instanceGuardMetadata (text ++ [x0a]) = (transported_value (guard_metadata pid startTime version r i), true).
Proof.
  intros Hpid. unfold in_int64 in Hpid.
  destruct (unmarshal_MarshalIndent instanceGuardMetadata (guard_metadata pid startTime version r i))
    as (text & Hm & _ & Hl); [vm_compute; reflexivity| |vm_compute; discriminate|by exists text].
  unfold guard_metadata, instanceGuardMetadata. cbn [fits fields_fit map fst snd must int_kind negb andb].
  unfold int_kind. cbn [fits]. lia.
Qed.

(** ** The dry run *)
(** A state that no controller and no SSH command has touched: a missing file,
    or the one a reset leaves. *)
Record untouched (store : Store) : Prop := {
  un_key : AuthKey store = []; un_url : InformURL store = [];
  un_cfg : CFGVersion store = []; un_version : AdoptionStore.Version store = [];
}.

Section dry_run.
Context `{UnicodeTables} `{FloatConversion} `{AddressParser} `{MapOrder} `{SliceSort} `{Resolver}.
Context `{InformCrypto} {W : Type} `{FileSystem W}.

Lemma untouched_url fallback store : untouched store → effectiveInformURL fallback store = fallback.
Proof. intros Hu. unfold effectiveInformURL. by rewrite (un_url _ Hu). Qed.
Lemma untouched_identity store id : untouched store → overlay_store store id = overlay_store no_store id.
Proof.
  intros Hu. unfold overlay_store, controllerInformState.
  by rewrite (un_key _ Hu), (un_cfg _ Hu), (un_version _ Hu).
Qed.
Lemma untouched_payload r i m tracker store payload t :
  untouched store →
  render_turn (m_clock m) (m_now m) (m_host m) (si_mac i) (si_ip i) (si_hostname i) (fg_controller (sr_flags r)) no_store
    (sr_flags r) (device_profile (sr_profile r)) (si_options i) tracker 1 (MkPayloadState 0 (MkSelection [] []))
  = Some (Ok payload, t) →
  turn_payload r i m tracker (fg_controller (sr_flags r)) store 0 (MkSelection [] []) 1 = payload_text payload.
Proof.
  intros Hu. unfold turn_payload, render_turn, payloadForIdentity, buildPayload.
  destruct (portsForRuntime _ _ _ _) as [ports|]; [|done]. cbn [mbind option_bind].
  destruct (if _ : bool then _ else _) as [ports' tracker']. rewrite (untouched_identity _ _ Hu).
  set (built := wrap_err _ _). intros Hr. assert (built = Ok payload) as -> by congruence. done.
Qed.

#[local] Opaque render_turn.

(** C8: The dry run shows what the daemon would send.  If a start's dry run prints a
    packet and a payload, then the first turn of the same start as a daemon, in
    its first second, on the same host and with an adoption state nobody
    touched, announces exactly that packet, unless announcements are off, and
    hands exactly that payload to its first heartbeat; only the state file's
    presence and the network decide how it goes on. *)
Theorem dry_run_is_first_turn f r i m (w w' : W) store rt packet payload :
  dry_run (m_clock m) (m_now m) (m_host m) r i = Some (Ok (packet, payload)) →
  m_elapsed m = 0 →
  loadAdoptionState (st_string f fs_sshState) w = (Ok store, w') → untouched store →
  initial_runtime (informScheduleConfig f (sr_policy r)) = Ok rt →
  let cfg := presence_of f r i m in
  let tracker := if fg_trafficRatesEnabled (sr_flags r) then Some NewTrafficRateTracker else None in
  presence_turn cfg (turn_of r i m tracker) (announcement_of r i) rt w
  = (sendDiscovery cfg packet,
     match sendInformHeartbeat (si_mac i) (fg_controller (sr_flags r)) (st_string f fs_sshState)
             (st_string f fs_statusPath) (pr_source cfg) (sr_reporting r) (m_env m) store payload rt w' with
     | (Err e, _, w) => Died e w
     | (Ok d, rt, w) =>
         if st_bool f fb_once || m_stop m then Stopped w
         else Continue (announce (announcement_of r i) true 1 2) rt (NextDelay d) w
     end).
Proof.
  unfold dry_run. cbv zeta. intros Hd He Hl Hu Hrt.
  destruct (MarshalBinary (announcement_of r i)) as [pk|] eqn:Ep; cbn [wrap_err] in Hd; [|done].
  destruct (render_turn _ _ _ _ _ _ _ _ _ _ _ _ _ _) as [[[p|e] t]|] eqn:Er; cbn [mbind option_bind result_bind] in Hd;
    [|done..].
  destruct (payload_text p) as [text|] eqn:Et; cbn [mbind result_bind] in Hd; [|done]. injection Hd as -> ->.
  unfold initial_runtime in Hrt. destruct (NewSchedule _) as [schedule|]; cbn [wrap_err mbind result_bind] in Hrt; [|done].
  injection Hrt as <-.
  unfold presence_turn. cbn [pr_state presence_of t_elapsed turn_of]. rewrite Hl, He.
  rewrite (un_key _ Hu), bool_decide_true by done. change (wrap32u (runtimeUptime 0)) with 1.
  cbv zeta.
  change (announce (announcement_of r i) true 1 (a_Sequence (announcement_of r i))) with (announcement_of r i).
  rewrite Ep. cbn [pr_controller presence_of]. rewrite (untouched_url _ _ Hu).
  cbn [pr_policy rt_clock rt_blocks t_payload turn_of presence_of].
  change (OffsetSeconds (Some (MkControllerClock 0 false))) with 0.
  assert (∀ A (b : bool) (x : A), (if b then x else x) = x) as Hsame by (by intros A []).
  rewrite !Hsame. change (runtimeUptime 0) with 1.
  rewrite (untouched_payload _ _ _ _ _ _ _ Hu Er), Et. reflexivity.
Qed.
#[local] Transparent render_turn.
End dry_run.

(** ** Exit codes *)
Definition known_code (r : Z) : Prop := r = 0 ∨ r = 1 ∨ r = 2.
Definition coded {A} (r : result exit_error A) : Prop := match r with Ok _ => True | Err (code, _) => known_code code end.

Section codes.
Context `{PrintTables} `{UnicodeTables} `{FloatConversion} `{AddressParser} `{MapOrder} `{SliceSort} `{Resolver}.
Context `{FlagText} `{ConfigYaml} `{ProfileYaml} `{ConfigMigrate.MigrationYaml}.
Variable fuel : nat.
Variable env : Startup.environment.

Lemma coded_plain {A} (r : result error A) : coded (plain r).
Proof. destruct r; [done|]. by right; left. Qed.
Lemma coded_with_one {A} (r : result error A) : coded (withExitCode 1 r).
Proof. destruct r; [done|]. by right; left. Qed.
Lemma coded_bind {A C} (r : result exit_error A) (k : A → result exit_error C) :
  coded r → (∀ a, coded (k a)) → coded (a ← r; k a).
Proof. destruct r as [a|[c e]]; [intros _ Hk; apply Hk|by intros Hc _]. Qed.
Lemma coded_one {A} e : coded (A := A) (Err (1, e)).
Proof. by right; left. Qed.
Lemma coded_shown r : coded r → coded (shown r).
Proof. by destruct r as [|[]]. Qed.
Lemma coded_profile_error {A} e e' : coded (A := A) (Err (profileErrorExitCode e, e')).
Proof. unfold coded, known_code, profileErrorExitCode. destruct (pe_Kind e); auto. Qed.

Lemma prepare_with_coded registry f : coded (prepare_with env registry f).
Proof.
  unfold prepare_with. destruct (st_bool f fb_listProfiles); [done|]. destruct (negb _); [done|].
  apply coded_bind; [apply coded_plain|]. intros checked. destruct (LookupProfile _ _) as [p|]; [|apply coded_one].
  cbv zeta. do 2 (apply coded_bind; [apply coded_plain|intros []]).
  destruct (fg_validate _).
  - apply coded_bind; [apply coded_plain|]. intros []. exact I.
  - do 3 (apply coded_bind; [apply coded_plain|intros []]). exact I.
Qed.
Lemma prepareServeRuntime_coded f changed r : prepareServeRuntime fuel env f changed = Some r → coded r.
Proof.
  unfold prepareServeRuntime. destruct (loadConfig _ _ _) as [c|e].
  2: { intros [= <-]. unfold coded, known_code. destruct (st_bool f fb_validate); auto. }
  generalize (applyConfig c changed f). intros f1.
  destruct (loadProfileRegistry _ _ _) as [[registry|e]|]; cbn [mbind option_bind]; [..|done]; intros [= <-].
  - apply coded_bind; [apply prepare_with_coded|done].
  - destruct (st_bool _ fb_validate); [apply coded_profile_error|apply coded_one].
Qed.
Lemma resolveServeIdentity_coded f flags profile : coded (resolveServeIdentity env f flags profile).
Proof.
  unfold resolveServeIdentity. cbv zeta. destruct (resolvePortBuildOptions _ _ _ _ _); [|apply coded_one].
  apply coded_bind; [apply coded_plain|]. intros mac. destruct (parse_ip4 _); [|apply coded_one].
  apply coded_bind; [apply coded_plain|done].
Qed.
Lemma start_coded args r : serveSwitchEmulation fuel env args = Some r → coded r.
Proof.
  unfold serveSwitchEmulation. destruct (parseRuntimeFlags args) as [[f actual]|e].
  2: { intros [= <-]. unfold coded, known_code. destruct (decide _); auto. }
  destruct (handleServeEarlyExit f); [by intros [= <-]|].
  destruct (prepareServeRuntime fuel env f (changedFlags actual)) as [p|] eqn:Ep; cbn [mbind option_bind]; [|done].
  intros [= <-]. apply prepareServeRuntime_coded in Ep. destruct p as [[f' []]|[c e]]; try done.
  apply coded_bind; [apply resolveServeIdentity_coded|done].
Qed.

(** Every command ends with 0, 1 or 2. *)
Theorem exit_code_known `{FileSystem W} mh version tools su clock now args trace (w : W) o :
  run_command fuel env mh version tools su clock now args trace w = Some o →
  match exit_code o with Some code => known_code code | None => o = Ok None end.
Proof.
  intros Hr. assert (coded o) as Hc; [|by destruct o as [[]|[c e]]; [left| |]].
  unfold run_command in Hr. destruct (serveSwitchEmulation fuel env args) as [started|] eqn:Es; [|done].
  cbn [mbind option_bind] in Hr. apply start_coded in Es.
  destruct started as [a|[c e]]; [|by injection Hr as <-].
  unfold run_action in Hr. destruct a as [[| |kind|path]|[| | |]|f r i|f r i|f r i|f r i].
  all: try (injection Hr as <-); try done.
  - apply coded_shown, coded_plain.
  - apply coded_shown, coded_with_one.
  - unfold validateProfilePath in Hr. cbv zeta in Hr. destruct (decide _).
    { injection Hr as <-. apply coded_one. }
    destruct (LoadProfilePath _ _ _ _) as [[[u|e] rs]|]; cbn in Hr; [..|done]; injection Hr as <-; [done|].
    apply coded_profile_error.
  - apply coded_shown. unfold printProfileExport. cbv zeta. destruct (decide _); [apply coded_one|apply coded_with_one].
  - apply coded_shown, coded_plain.
  - destruct (dry_run _ _ _ _ _) as [[[packet payload]|e]|]; cbn in Hr; [..|done]; injection Hr as <-;
      [done|apply coded_one].
Qed.
End codes.

(** ** Witness *)
#[local] Existing Instances ascii_tables amd64_conversion list_order insertion_sort no_ipv6 no_resolver Toy.crypto.
#[local] Existing Instances Settings.plain_numbers Profiles.plain_yaml Startup.defaults_yaml RuntimePlan.latin1_tables.
Lemma profile_table :
  FormatProfiles (ev_builtins bare_host)
  = B "custom-switch   usw    CUSTOMSW        kind=switch  source=built-in stability=external     ports=8  speed=1000  version="
    ++ Profiles.Version Profiles.switch_template ++ B "  external lab switch profile" ++ [x0a].
Proof. vm_compute. reflexivity. Qed.
Definition dry_action (o : option (result exit_error action)) : option (settings * serveRuntime * serveIdentity) :=
  match o with Some (Ok (DryRun f r i)) => Some (f, r, i) | _ => None end.
Definition dry_bytes (o : option (settings * serveRuntime * serveIdentity)) : option (bytes * bytes) :=
  match o with
  | Some (f, r, i) =>
      match dry_run (m_clock (quiet_moment 0)) (m_now (quiet_moment 0)) (m_host (quiet_moment 0)) r i with
      | Some (Ok p) => Some p
      | _ => None
      end
  | None => None
  end.
Definition can_start (o : option (settings * serveRuntime * serveIdentity)) : bool :=
  match o with
  | Some (f, r, i) => is_ok (initial_runtime (informScheduleConfig f (sr_policy r))) && negb (st_bool f fb_noDiscovery)
  | None => false
  end.
Lemma dry_run_is_first_turn_witness :
  ∃ f r i packet payload rt, start_with [B "-dry-run"] = Some (Ok (DryRun f r i)) ∧
    dry_run (m_clock (quiet_moment 0)) (m_now (quiet_moment 0)) (m_host (quiet_moment 0)) r i = Some (Ok (packet, payload)) ∧
    50 < zlen packet ∧ 500 < zlen payload ∧
    (presence_turn (presence_of f r i (quiet_moment 0))
       (turn_of r i (quiet_moment 0) (if fg_trafficRatesEnabled (sr_flags r) then Some NewTrafficRateTracker else None))
       (announcement_of r i) rt (∅ : gmap bytes bytes)).1 = [packet].
Proof.
  assert (match dry_bytes (dry_action (start_with [B "-dry-run"])) with
          | Some (packet, payload) => (50 <? zlen packet) && (500 <? zlen payload) | None => false end = true) as Hb
    by (vm_compute; reflexivity).
  assert (can_start (dry_action (start_with [B "-dry-run"])) = true) as Hs by (vm_compute; reflexivity).
  destruct (start_with [B "-dry-run"]) as [[[| | | |f r i|]|]|] eqn:E; try discriminate Hb.
  cbn [dry_action dry_bytes can_start] in Hb, Hs. apply andb_true_iff in Hs as [Hi Hn].
  destruct (initial_runtime _) as [rt|] eqn:Hrt; [|discriminate Hi].
  destruct (dry_run _ _ _ r i) as [[[packet payload]|]|] eqn:Hd; try discriminate Hb.
  apply andb_true_iff in Hb as [H1%Z.ltb_lt H2%Z.ltb_lt].
  exists f, r, i, packet, payload, rt. split; [reflexivity|]. split; [exact Hd|]. split; [exact H1|].
  split; [exact H2|].
  assert (loadAdoptionState (st_string f fs_sshState) (∅ : gmap bytes bytes) = (Ok (set_State StateFactory no_store), ∅))
    as Hl by (unfold loadAdoptionState, LoadEnv; cbn [fs_read memory_files]; rewrite lookup_empty; reflexivity).
  pose proof (dry_run_is_first_turn f r i (quiet_moment 0) ∅ ∅ (set_State StateFactory no_store) rt packet payload Hd
    eq_refl Hl ltac:(by split) Hrt) as K. cbv zeta in K. rewrite K. cbn [fst].
  unfold sendDiscovery. cbn [pr_discoverySkipped presence_of]. apply negb_true_iff in Hn. by rewrite Hn.
Defined.
